(* ===== verification/_CoqProject ===== *)
-Q . S2P
Prelude.v
Bytes.v
Kernel.v
Spinlock.v
Kstring.v
Riscv.v
Kalloc.v
KallocInit.v
Vm.v
VmUser.v
VmCopy.v
VmFork.v
VmProps.v
Sched.v
Ring.v
Uart.v
Printf.v
Uio.v
Console.v
Bio.v
Bcache.v
Log.v
LogSpec.v
BcacheProps.v
Crash.v
Fs.v
Txn.v
FsExample.v
FsBlocks.v
FsInode.v
FsData.v
FsIO.v
FsWrite.v
FsDir.v
File.v
FsAtomic.v
Proc.v
SchedProps.v
PipeProps.v
ProcMem.v
ProcAlloc.v
ProcFork.v
ProcWait.v
ProcExit.v
Asm.v
AsmProps.v
Exec.v
Syscall.v
Sysfile.v
Virtio.v
VirtioProps.v
Trap.v
Ulib.v
UlibProps.v
Umalloc.v
UmallocHeap.v
UmallocProps.v
Grep.v
Uprintf.v
Ucmds.v
UcmdsProps.v
Sh.v
ShGrammar.v
ShParse.v
ShRun.v
Mkfs.v
MkfsProps.v
MkfsImage.v
