(* ===== verification/Prelude.v ===== *)
(** * A verification of the xv6n operating system

    xv6n is a small Unix for RISC-V: a kernel in C (src/kernel), user programs
    (src/user) and a tool that builds file-system images (src/mkfs).  This library
    models the C code function by function and proves what its parts promise to
    each other.

    ** The program and its parts

    The kernel runs on several harts.  At the bottom are spinlocks (spinlock.c), the
    page allocator (kalloc.c), page tables (vm.c) and the scheduler with sleep() and
    wakeup() (proc.c, sleeplock.c).  The disk driver (virtio_disk.c) serves the buffer
    cache (bio.c); the log (log.c) makes groups of block writes atomic; the file system
    (fs.c) keeps inodes, directories and path names in blocks it writes through the log.
    Open files (file.c) are inodes, pipes (pipe.c) or devices such as the console
    (console.c), which uses the UART driver (uart.c).  Traps (trap.c) lead to system
    calls (syscall.c, sysproc.c, sysfile.c), which create, run and end processes
    (proc.c, exec.c).  Assembly (trampoline.S, swtch.S, kernelvec.S, entry.S) moves a hart
    between user space, kernel threads and interrupts.  User programs, among them the
    shell (sh.c) and the allocator they share (umalloc.c), see the kernel through system
    calls only.  mkfs writes the disk that the kernel mounts.

    ** How the model is built

    All data of the kernel is one record, [kstate] of Kernel.v, with a field per global
    variable: tables of structs are lists, pointers into them are indices, physical
    memory is a finite map from addresses to bytes, the disk is its initial contents
    with the history of all writes to it.  An operation is a function
    [kstate -> result]: it returns a value and a state, or panics with a message, or
    gives up the processor ([Switch]), or spins for ever on a lock.  The monad and its
    weakest precondition [wp] (total: the run returns) are in this file.  A function
    that sleeps is cut at its sleep: the run ends in [Switch], and the code after the
    sleep is a definition of its own with the suffix _resume, which runs in whatever
    state the other processes have left; theorems about it assume what the locks
    protect and nothing else.  Runs of one hart are sequences of steps of that hart;
    that a spinlock keeps others out is what the theorems on data under a lock assume.
    Integers are Z with the wrap-around of their C type written out ([u32], [u64], ...).
    Loops are structural or have fuel.  The fuel is a bound the code implies (the number
    of buffers, of bytes of an argument, of entries of a ring), and every property is
    about runs that return, so that running out of fuel would falsify it.  A user
    program is a run on its own memory and files (Ulib.v) with the system calls as
    classes of operations with laws; the shell, whose meaning is the processes it makes,
    is a tree of system calls (Sh.v).  Assembly code is a list of instructions that
    [exec] of Asm.v runs on the registers, CSRs and memory of a hart, through the
    hardware's address translation where it is on.

    ** Which file models what

    - Prelude, Bytes: the monad, machine integers, byte strings, lists; fields of
      structures at their byte offsets.
    - Kernel, Spinlock: the state; spinlock.c with the invariant [sync_ok] and the
      equivalence [≡] of states that differ in nothing a program can see.
    - Kstring: string.c.  Riscv: the macros of riscv.h and memlayout.h.
    - Kalloc, KallocInit: kalloc.c; the class [PageAllocator] is its interface.
    - Vm, VmUser, VmCopy, VmFork, VmProps: vm.c over that interface.  [as_ok] relates a
      page table in memory to the map it implements.
    - Sched, SchedProps: sleep(), wakeup(), the scheduler, sleep locks.
    - Ring: queues between free-running counters, shared by Uart, Console, pipes and
      the disk queue.  Uart, Printf, Console, Uio: uart.c, printf.c, console.c,
      either_copyin() and either_copyout().
    - Bio, Bcache, BcacheProps: bio.c; the class [BlockCache] is its interface.
    - Log, LogSpec, Crash: log.c over that interface, by the list of disk writes each
      function performs; crashes and recovery.
    - Fs: fs.c.  Txn: the view of the disk inside a transaction.  FsBlocks, FsInode,
      FsData, FsIO, FsWrite, FsDir, FsAtomic: the theorems, layer by layer; FsExample is
      the disk on which their witnesses run.
    - File, PipeProps: file.c and pipe.c.  Proc: the rest of proc.c; ProcMem, ProcAlloc,
      ProcFork, ProcWait and ProcExit are the theorems on the memory and the table entries
      of processes and on fork(), wait() and exit().  Exec: exec.c.
      Syscall, Sysfile: system calls.  Virtio, VirtioProps: virtio_disk.c.  Trap: trap.c,
      plic.c, start.c, main.c.
    - Asm, AsmProps: trampoline.S, swtch.S, kernelvec.S, entry.S, user/initcode.S and the
      bytes of initcode[] in proc.c.
    - Ulib, UlibProps: ulib.c.  Umalloc, UmallocHeap, UmallocProps: umalloc.c on the headers in the
      memory of the program; the class [UserHeap] is what it needs of sbrk().  Grep:
      grep.c.  Uprintf: user/printf.c.  Ucmds, UcmdsProps: cat, wc, echo, ls, mkdir, rm,
      ln, kill, init.
    - Sh: sh.c.  ShGrammar: the grammar of command lines.  ShParse, ShRun: the parser and
      runcmd() against it.
    - Mkfs, MkfsProps, MkfsImage: mkfs.c and the image it writes.

    ** What the theorems show

    - Storage: the buffer cache returns what was last written ([bread_correct],
      [bwrite_bread_roundtrip]) and recycles the least recently used buffer
      ([bget_correct]); the driver with a device implements the contract it uses
      ([virtio_refines_contract], [virtio_rw_posts]); commit() is atomic under crashes
      at any disk write, during recovery too ([commit_crash_safe]), and so are an update
      of a block and a write to a file ([update_block_correct], [writei_atomic]).
    - Files: allocation of blocks, the inode table, the map from file offsets to blocks,
      readi() and writei() as operations on the bytes of a file, directories and path
      components, each against the blocks of the disk.
    - Memory: kinit() partitions memory, kalloc() and kfree() implement a set of pages;
      mappings, growth, copying and freeing of address spaces; copies between user and
      kernel, and that copyout() ignores write protection.
    - Processes: locks restore the interrupt state; no wakeup is lost; the scheduler
      picks the first runnable process; allocproc() and freeproc() keep the memory that
      processes own apart and return all of it, growproc() resizes it; fork() makes a
      copy of the process or leaves no trace ([fork_correct]), exit() leaves a zombie, its
      children adopted and its parent awake ([exit_correct], for open files that other
      processes share and a directory that is not deleted), and wait() reaps it
      ([wait_correct]).
    - Assembly: a trap and the return from it give back every register of the user
      ([trap_roundtrip]); swtch() saves and restores contexts; interrupts in the kernel
      are transparent; the first program calls exec() of /init.
    - Devices and pipes: the line editor of the console, the order of UART output and of
      bytes in a pipe, numerals of printf.
    - User programs: the blocks of malloc() never overlap and keep their contents
      ([client_safe]); printf() writes what its format says ([vprintf_correct]); cat
      copies files, wc counts; grep's matcher decides the language of its pattern and
      grep() writes the lines that match.
    - The shell: the parser accepts the grammar and returns its tree ([parsecmd_correct]),
      and the shell runs the programs that a command line means, each with its
      descriptors ([sh_correct]).
    - mkfs: the image is a file system that holds the files given ([mkfs_correct]), which
      the lookup of the kernel finds ([mkfs_lookup]).

    ** Bounds

    The number of harts is a parameter of the platform ([Platform]) with the size of the
    kernel image; everything else has the constants of param.h (64 processes, 30
    buffers, 50 inodes, 100 files).  Counters keep their width: those of pipes, console
    and UART and of the disk queue wrap around in the theorems.

    ** Not modelled

    The test programs usertests.c, grind.c, forktest.c, stressfs.c and zombie.c: their
    meaning is the system calls they make, in interleavings that only a run fixes.
    kernel/ramdisk.c is not compiled.  usys.pl generates the stubs of the system calls at
    build time, and linker scripts and the Makefile only place code.  The accessors of
    riscv.h that are one instruction are the reads and writes of the fields that stand for
    the registers.  Of the shell the texts of error messages, and of mkfs the failures of
    the host's file operations, are left out.  The run of init that the model follows is
    that of the parent or of the child of each fork().  Weak memory and the interleaving of
    harts inside critical sections are not modelled: the code relies on its locks for both. *)

From Stdlib Require Import ZArith Lia.
From stdpp Require Import base tactics numbers list_numbers gmap strings option list.

#[export] Set Default Goal Selector "!".
Open Scope Z_scope.

(** ** Machine integers

    A C integer is a [Z]; every conversion or overflowing operation writes the
    wrap-around out with one of these functions. *)

Definition u8 (x : Z) : Z := x mod 2 ^ 8.

Definition u16 (x : Z) : Z := x mod 2 ^ 16.

Definition u32 (x : Z) : Z := x mod 2 ^ 32.

Definition u64 (x : Z) : Z := x mod 2 ^ 64.

(** Two's complement reinterpretation at a signed type. *)
Definition s8 (x : Z) : Z := (x + 2 ^ 7) mod 2 ^ 8 - 2 ^ 7.

Definition s16 (x : Z) : Z := (x + 2 ^ 15) mod 2 ^ 16 - 2 ^ 15.

Definition s32 (x : Z) : Z := (x + 2 ^ 31) mod 2 ^ 32 - 2 ^ 31.

(** ** Kernel computations

    A kernel function is a state transformer.  [Ok] is a normal return;
    [Panic] is a call of panic(), which never returns; [Switch] is a thread that
    gave up the processor in sched() (the state is the one at the context
    switch); [Spin] is a busy loop that only another hart or a device can end;
    [Fuel] marks a loop that ran out of the bound given to it. *)

Inductive result (S A : Type) : Type :=
| Ok (a : A) (s : S)
| Panic (msg : string)
| Switch (s : S)
| Spin
| Fuel.

Arguments Ok {S A} a s.
Arguments Panic {S A} msg.
Arguments Switch {S A} s.
Arguments Spin {S A}.
Arguments Fuel {S A}.

Definition M (S A : Type) : Type := S -> result S A.

#[export] Instance M_ret {S} : MRet (M S) := fun A a s => Ok a s.

#[export] Instance M_bind {S} : MBind (M S) := fun A B f m s =>
  match m s with
  | Ok a s' => f a s'
  | Panic msg => Panic msg
  | Switch s' => Switch s'
  | Spin => Spin
  | Fuel => Fuel
  end.

Definition panic {S A} (msg : string) : M S A := fun _ => Panic msg.

Definition spin {S A} : M S A := fun _ => Spin.

Definition switch {S A} : M S A := fun s => Switch s.

Definition out_of_fuel {S A} : M S A := fun _ => Fuel.

Definition gets {S A} (f : S -> A) : M S A := fun s => Ok (f s) s.

Definition modify {S} (f : S -> S) : M S unit := fun s => Ok tt (f s).

(** [when b m] is the C statement [if (b) m;]. *)
Definition when {S} (b : bool) (m : M S unit) : M S unit :=
  if b then m else mret tt.

(** [for (x in l) f(x);] *)
Fixpoint for_each {S A} (l : list A) (f : A -> M S unit) : M S unit :=
  match l with
  | [] => mret tt
  | x :: l' => f x ;; for_each l' f
  end.

(** A loop over [l] that carries a value. *)
Fixpoint foldM {S A B} (f : B -> A -> M S B) (b : B) (l : list A) : M S B :=
  match l with
  | [] => mret b
  | x :: l' => b' ← f b x; foldM f b' l'
  end.

(** A C loop: [body] either goes on with a new loop state ([inl]) or leaves the
    loop, by break or return, with a result ([inr]).  The fuel bounds the
    iterations. *)
Fixpoint loop {S A B} (fuel : nat) (body : A -> M S (A + B)) (a : A) : M S B :=
  match fuel with
  | O => out_of_fuel
  | S k =>
      r ← body a;
      match r with
      | inl a' => loop k body a'
      | inr b => mret b
      end
  end.

(** Weakest precondition of a run that returns normally: no panic, no sleep,
    no spinning and enough fuel. *)
Definition wp {S A} (m : M S A) (Q : A -> S -> Prop) (s : S) : Prop :=
  match m s with Ok a s' => Q a s' | _ => False end.

(** The run returns normally or blocks; it neither panics nor diverges. *)
Definition safe {S A} (m : M S A) (Q : A -> S -> Prop) (s : S) : Prop :=
  match m s with Ok a s' => Q a s' | Switch _ => True | _ => False end.

(** ** Byte strings *)

Definition byte_ok (b : Z) : Prop := 0 <= b < 256.

(** The bytes of a string literal. *)
Definition str (s : string) : list Z :=
  (fun c => Z.of_N (Ascii.N_of_ascii c)) <$> String.list_ascii_of_string s.

(** Little-endian representation of integers, as the RISC-V stores them. *)
Fixpoint le_split (n : nat) (v : Z) : list Z :=
  match n with
  | O => []
  | S n' => v mod 256 :: le_split n' (v / 256)
  end.

Fixpoint le_combine (bs : list Z) : Z :=
  match bs with
  | [] => 0
  | b :: bs' => b + 256 * le_combine bs'
  end.

(** [splice l i l'] overwrites the elements of [l] from [i] with [l']. *)
Definition splice {A} (l : list A) (i : nat) (l' : list A) : list A :=
  take i l ++ l' ++ drop (i + length l') l.

(** The [n] elements of [l] from index [i]. *)
Definition slice {A} (l : list A) (i n : nat) : list A := take n (drop i l).

(** Index of the first element that satisfies a test. *)
Fixpoint find_index {A} (p : A -> bool) (l : list A) : option nat :=
  match l with
  | [] => None
  | x :: l' => if p x then Some O else S <$> find_index p l'
  end.

(** ** Tactics and hint databases *)

Create HintDb xv6.
Create Rewrite HintDb ksync.
Create Rewrite HintDb len.

#[export] Hint Rewrite @length_app @length_take @length_drop @length_insert
  @length_replicate @length_fmap @length_seq @length_alter @length_imap : len.

(** Solves goals on the lengths of list expressions. *)
Ltac len := autorewrite with len in *; try lia.

(** Turns the boolean tests of the code into propositions. *)
Ltac bool_decide_tests :=
  repeat match goal with
  | H : (_ && _)%bool = true |- _ => apply andb_true_iff in H as [? ?]
  | H : (_ || _)%bool = false |- _ => apply orb_false_iff in H as [? ?]
  | H : negb _ = true |- _ => apply negb_true_iff in H
  | H : negb _ = false |- _ => apply negb_false_iff in H
  | H : (_ =? _) = true |- _ => apply Z.eqb_eq in H
  | H : (_ =? _) = false |- _ => apply Z.eqb_neq in H
  | H : (_ <? _) = true |- _ => apply Z.ltb_lt in H
  | H : (_ <? _) = false |- _ => apply Z.ltb_ge in H
  | H : (_ <=? _) = true |- _ => apply Z.leb_le in H
  | H : (_ <=? _) = false |- _ => apply Z.leb_gt in H
  end.

(** Arithmetic with division and remainder. *)
Ltac zdm := Z.div_mod_to_equations; lia.

(** Unfolds the monad in the goal. *)
Ltac run := unfold mbind, M_bind, mret, M_ret, gets, modify, when, panic, spin; cbv beta iota.

(** ** Lemmas: computations *)

Section computations.
Context {S : Type}.
Implicit Types s : S.

Lemma wp_ret {A} (a : A) (Q : A -> S -> Prop) s : Q a s -> wp (mret a) Q s.
Proof. done. Qed.

Lemma wp_bind {A B} (m : M S A) (f : A -> M S B) Q s :
  wp m (fun a s' => wp (f a) Q s') s -> wp (m ≫= f) Q s.
Proof. unfold wp, mbind, M_bind. by destruct (m s). Qed.

Lemma wp_bind_inv {A B} (m : M S A) (f : A -> M S B) Q s :
  wp (m ≫= f) Q s -> wp m (fun a s' => wp (f a) Q s') s.
Proof. unfold wp, mbind, M_bind. by destruct (m s). Qed.

Lemma wp_gets {A} (f : S -> A) (Q : A -> S -> Prop) s :
  Q (f s) s -> wp (gets f) Q s.
Proof. done. Qed.

Lemma wp_modify (f : S -> S) (Q : unit -> S -> Prop) s :
  Q tt (f s) -> wp (modify f) Q s.
Proof. done. Qed.

Lemma wp_mono {A} (m : M S A) (P Q : A -> S -> Prop) s :
  wp m P s -> (forall a s', P a s' -> Q a s') -> wp m Q s.
Proof. unfold wp. destruct (m s); naive_solver. Qed.

Lemma wp_and {A} (m : M S A) (P Q : A -> S -> Prop) s :
  wp m P s -> wp m Q s -> wp m (fun a s' => P a s' /\ Q a s') s.
Proof. unfold wp. destruct (m s); naive_solver. Qed.

Lemma wp_ok {A} (m : M S A) a s s' Q :
  m s = Ok a s' -> Q a s' -> wp m Q s.
Proof. unfold wp. by intros ->. Qed.

Lemma wp_inv {A} (m : M S A) Q s :
  wp m Q s -> exists a s', m s = Ok a s' /\ Q a s'.
Proof. unfold wp. destruct (m s); naive_solver. Qed.

Lemma wp_when_true (b : bool) (m : M S unit) Q s :
  b = true -> wp m Q s -> wp (when b m) Q s.
Proof. by intros ->. Qed.

Lemma wp_when_false (b : bool) (m : M S unit) (Q : unit -> S -> Prop) s :
  b = false -> Q tt s -> wp (when b m) Q s.
Proof. by intros ->. Qed.

(** A loop over a list keeps an invariant indexed by the elements done. *)
Lemma wp_for_each {A} (I : list A -> S -> Prop) (l : list A) (f : A -> M S unit) Q s :
  I [] s ->
  (forall d x r s', l = d ++ x :: r -> I d s' -> wp (f x) (fun _ => I (d ++ [x])) s') ->
  (forall s', I l s' -> Q tt s') ->
  wp (for_each l f) Q s.
Proof.
  intros H0 Hstep HQ.
  enough (forall d r s', l = d ++ r -> I d s' -> wp (for_each r f) Q s') as H
    by (by apply (H [])).
  clear H0 s. intros d r. revert d. induction r as [|x r IH]; intros d s' Hl Hd; simpl.
  { apply wp_ret, HQ. rewrite app_nil_r in Hl. by subst. }
  apply wp_bind. eapply wp_mono; [by eapply Hstep|].
  intros ? s'' H. apply (IH (d ++ [x])); [by rewrite <- app_assoc|done].
Qed.

Lemma wp_foldM {A B} (I : list A -> B -> S -> Prop) (l : list A) (f : B -> A -> M S B) b Q s :
  I [] b s ->
  (forall d x r b' s', l = d ++ x :: r -> I d b' s' -> wp (f b' x) (I (d ++ [x])) s') ->
  (forall b' s', I l b' s' -> Q b' s') ->
  wp (foldM f b l) Q s.
Proof.
  intros H0 Hstep HQ.
  enough (forall d r b' s', l = d ++ r -> I d b' s' -> wp (foldM f b' r) Q s') as H
    by (by apply (H [])).
  clear H0 s. intros d r. revert d. induction r as [|x r IH]; intros d b' s' Hl Hd; simpl.
  { apply wp_ret, HQ. rewrite app_nil_r in Hl. by subst. }
  apply wp_bind. eapply wp_mono; [by eapply Hstep|].
  intros ? s'' H. apply (IH (d ++ [x])); [by rewrite <- app_assoc|done].
Qed.

(** A loop with an invariant and a measure that decreases. *)
Lemma wp_loop {A B} (I : A -> S -> Prop) (mu : A -> nat) (body : A -> M S (A + B)) Q :
  (forall a s, I a s ->
     wp (body a) (fun r s' => match r with
                              | inl a' => I a' s' /\ (mu a' < mu a)%nat
                              | inr b => Q b s'
                              end) s) ->
  forall fuel a s, I a s -> (mu a < fuel)%nat -> wp (loop fuel body a) Q s.
Proof.
  intros Hbody fuel. induction fuel as [|k IH]; intros a s HI Hmu; [lia|].
  cbn [loop]. apply wp_bind. eapply wp_mono; [by apply Hbody|].
  intros [a'|b] s'; cbn.
  - intros [HI' Hlt]. apply IH; [done|lia].
  - intros HQ. by apply wp_ret.
Qed.

(** Unfolding one iteration. *)
Lemma wp_loop_step {A B} (body : A -> M S (A + B)) fuel a Q s :
  wp (body a) (fun r s' => match r with
                           | inl a' => wp (loop fuel body a') Q s'
                           | inr b => Q b s'
                           end) s ->
  wp (loop (Datatypes.S fuel) body a) Q s.
Proof.
  intros Hb. cbn [loop]. apply wp_bind. eapply wp_mono; [apply Hb|]. by intros [a'|b] s'.
Qed.

Lemma bind_ok {A B} (m : M S A) (f : A -> M S B) a s s' :
  m s = Ok a s' -> (m ≫= f) s = f a s'.
Proof. unfold mbind, M_bind. by intros ->. Qed.

Lemma bind_panic {A B} (m : M S A) (f : A -> M S B) msg s :
  m s = Panic msg -> (m ≫= f) s = Panic msg.
Proof. unfold mbind, M_bind. by intros ->. Qed.

(** A panic after a run that returns. *)
Lemma bind_wp_panic {A B} (m : M S A) (f : A -> M S B) msg s :
  wp m (fun a s' => f a s' = Panic msg) s -> (m ≫= f) s = Panic msg.
Proof. unfold wp, mbind, M_bind. by destruct (m s). Qed.

Lemma bind_assoc {A B D} (m : M S A) (f : A -> M S B) (g : B -> M S D) s :
  ((m ≫= f) ≫= g) s = (m ≫= (fun a => f a ≫= g)) s.
Proof. unfold mbind, M_bind. by destruct (m s). Qed.

End computations.

(** One step of symbolic execution on a [wp] goal. *)
Ltac wp_step :=
  lazymatch goal with
  | |- wp (mbind _ _) _ _ => apply wp_bind
  | |- wp (mret _) _ _ => apply wp_ret
  | |- wp (gets _) _ _ => apply wp_gets
  | |- wp (modify _) _ _ => apply wp_modify
  | |- wp (when _ _) _ _ => unfold when
  end; cbn beta.

Ltac wp_steps := repeat wp_step.

(** ** Lemmas: integers *)

Lemma u64_small x : 0 <= x < 2 ^ 64 -> u64 x = x.
Proof. apply Z.mod_small. Qed.

Lemma u32_small x : 0 <= x < 2 ^ 32 -> u32 x = x.
Proof. apply Z.mod_small. Qed.

Lemma u64_range x : 0 <= u64 x < 2 ^ 64.
Proof. apply Z.mod_pos_bound. lia. Qed.

Lemma u32_range x : 0 <= u32 x < 2 ^ 32.
Proof. apply Z.mod_pos_bound. lia. Qed.

Lemma u8_range x : 0 <= u8 x < 256.
Proof. apply (Z.mod_pos_bound x (2 ^ 8)). lia. Qed.

Lemma u8_small x : 0 <= x < 256 -> u8 x = x.
Proof. apply Z.mod_small. Qed.

Lemma s32_small x : - 2 ^ 31 <= x < 2 ^ 31 -> s32 x = x.
Proof. intros H. unfold s32. rewrite Z.mod_small; lia. Qed.

(** Clearing the low [k] bits, as [x & ~(2^k - 1)] does, is truncation to a
    multiple of [2^k]. *)
Lemma land_lnot_ones x k :
  0 <= k -> Z.land x (Z.lnot (Z.ones k)) = 2 ^ k * (x / 2 ^ k).
Proof.
  intros Hk. rewrite Z.mul_comm, <- Z.shiftr_div_pow2, <- Z.shiftl_mul_pow2 by done.
  apply Z.bits_inj'. intros n Hn.
  rewrite Z.land_spec, Z.lnot_spec, Z.shiftl_spec by done.
  destruct (Z.lt_ge_cases n k).
  - rewrite Z.ones_spec_low by lia. rewrite (Z.testbit_neg_r _ (n - k)) by lia. by rewrite andb_false_r.
  - rewrite Z.ones_spec_high by lia. rewrite Z.shiftr_spec by lia.
    rewrite andb_true_r. f_equal. lia.
Qed.

Lemma lor_bound a b k :
  0 <= k -> 0 <= a < 2 ^ k -> 0 <= b < 2 ^ k -> Z.lor a b < 2 ^ k.
Proof.
  intros Hk Ha Hb. destruct (Z.eq_dec (Z.lor a b) 0) as [->|Hne]; [lia|].
  assert (0 <= Z.lor a b) by (apply Z.lor_nonneg; lia).
  apply Z.log2_lt_pow2; [lia|]. rewrite Z.log2_lor by lia.
  destruct (Z.eq_dec a 0), (Z.eq_dec b 0); subst; try done; try lia.
  - cbn [Z.log2]. rewrite Z.max_r by apply Z.log2_nonneg. apply Z.log2_lt_pow2; lia.
  - cbn [Z.log2]. rewrite Z.max_l by apply Z.log2_nonneg. apply Z.log2_lt_pow2; lia.
  - apply Z.max_lub_lt; apply Z.log2_lt_pow2; lia.
Qed.

Lemma lor_ge a b : 0 <= a -> 0 <= b -> a <= Z.lor a b.
Proof.
  intros Ha Hb. replace (Z.lor a b) with (Z.lor a (Z.ldiff b a)).
  - rewrite <- Z.add_nocarry_lor.
    + pose proof (proj2 (Z.ldiff_nonneg b a) (or_introl Hb)). lia.
    + apply Z.bits_inj'. intros n _. rewrite Z.land_spec, Z.ldiff_spec, Z.bits_0.
      by destruct (Z.testbit a n), (Z.testbit b n).
  - apply Z.bits_inj'. intros n _. rewrite !Z.lor_spec, Z.ldiff_spec.
    by destruct (Z.testbit a n), (Z.testbit b n).
Qed.

(** ** Lemmas: byte strings *)

Lemma length_le_split n v : length (le_split n v) = n.
Proof. revert v. induction n; intros; simpl; auto. Qed.

Lemma le_split_bytes n v : Forall byte_ok (le_split n v).
Proof.
  revert v. induction n; intros; simpl; constructor; auto.
  unfold byte_ok. apply Z.mod_pos_bound. lia.
Qed.

Lemma le_combine_split n v : le_combine (le_split n v) = v mod 256 ^ Z.of_nat n.
Proof.
  revert v. induction n as [|n IH]; intros v.
  { simpl. by rewrite Z.mod_1_r. }
  cbn [le_split le_combine]. rewrite IH.
  rewrite Nat2Z.inj_succ, Z.pow_succ_r by lia.
  rewrite (Z.rem_mul_r v 256) by (try apply Z.pow_pos_nonneg; lia). lia.
Qed.

Lemma le_combine_range bs :
  Forall byte_ok bs -> 0 <= le_combine bs < 256 ^ Z.of_nat (length bs).
Proof.
  induction 1 as [|b bs Hb _ IH]; [simpl; lia|].
  cbn [le_combine length]. rewrite Nat2Z.inj_succ, Z.pow_succ_r by lia.
  unfold byte_ok in Hb. nia.
Qed.

Lemma le_split_combine bs :
  Forall byte_ok bs -> le_split (length bs) (le_combine bs) = bs.
Proof.
  induction 1 as [|b bs Hb _ IH]; [done|].
  cbn [le_combine length le_split]. unfold byte_ok in Hb.
  rewrite (Z.mul_comm 256), Z.mod_add, Z.mod_small by lia.
  rewrite Z.div_add, Z.div_small by lia. by rewrite Z.add_0_l, IH.
Qed.

#[export] Hint Rewrite length_le_split : len.

(** ** Lemmas: lists *)

Section lists.
Context {A : Type}.
Implicit Types l k : list A.

Lemma length_splice l i k :
  (i + length k <= length l)%nat -> length (splice l i k) = length l.
Proof. intros. unfold splice. len. Qed.

Lemma lookup_splice_in l i k j :
  (i + length k <= length l)%nat -> (i <= j < i + length k)%nat ->
  splice l i k !! j = k !! (j - i)%nat.
Proof.
  intros. unfold splice. rewrite lookup_app_r by len.
  rewrite length_take, lookup_app_l by lia. f_equal. lia.
Qed.

Lemma lookup_splice_out l i k j :
  (i + length k <= length l)%nat -> ~ (i <= j < i + length k)%nat ->
  splice l i k !! j = l !! j.
Proof.
  intros. unfold splice. destruct (decide (j < i)%nat).
  - rewrite lookup_app_l by len. by rewrite lookup_take_lt by lia.
  - rewrite lookup_app_r, length_take by len.
    rewrite lookup_app_r, lookup_drop by lia. f_equal. lia.
Qed.

Lemma slice_splice l i k :
  (i + length k <= length l)%nat -> slice (splice l i k) i (length k) = k.
Proof.
  intros. unfold slice, splice.
  rewrite drop_app_length' by len. by rewrite take_app_length.
Qed.

Lemma length_slice l i n : (i + n <= length l)%nat -> length (slice l i n) = n.
Proof. intros. unfold slice. len. Qed.

Lemma lookup_slice l i n j : (j < n)%nat -> slice l i n !! j = l !! (i + j)%nat.
Proof. intros. unfold slice. by rewrite lookup_take_lt, lookup_drop by lia. Qed.

Lemma find_index_Some p l i :
  find_index p l = Some i ->
  exists x, l !! i = Some x /\ p x = true /\
    forall j y, (j < i)%nat -> l !! j = Some y -> p y = false.
Proof.
  revert i. induction l as [|x l IH]; intros i; simpl; [done|].
  destruct (p x) eqn:Hp.
  - intros [= <-]. exists x. repeat split; [done..|lia].
  - destruct (find_index p l) as [j|] eqn:E; simpl; [|done].
    intros [= <-]. destruct (IH _ eq_refl) as (y & Hy & Hpy & Hlt).
    exists y. repeat split; [done..|].
    intros [|j'] z Hj; simpl; [naive_solver|]. intros. eapply Hlt; [|done]. lia.
Qed.

Lemma find_index_None p l :
  find_index p l = None -> forall i x, l !! i = Some x -> p x = false.
Proof.
  induction l as [|x l IH]; simpl; [done|].
  destruct (p x) eqn:Hp; [done|].
  destruct (find_index p l) eqn:E; [done|].
  intros _ [|i] y; simpl; naive_solver.
Qed.

Lemma find_index_lt p l i : find_index p l = Some i -> (i < length l)%nat.
Proof. intros (x & Hx & _)%find_index_Some. by eapply lookup_lt_Some. Qed.

Lemma find_index_is_Some p l i x :
  l !! i = Some x -> p x = true -> is_Some (find_index p l).
Proof.
  intros Hl Hp. destruct (find_index p l) as [j|] eqn:E; [eauto|].
  rewrite (find_index_None _ _ E _ _ Hl) in Hp. done.
Qed.

Lemma list_alter_insert (f : A -> A) l i x :
  l !! i = Some x -> alter f i l = <[i := f x]> l.
Proof.
  revert i. induction l as [|y l IH]; intros [|i]; simpl; try done.
  - by intros [= ->].
  - intros Hi. f_equal. by apply IH.
Qed.

Lemma lookup_Some_total l i : (i < length l)%nat -> exists x, l !! i = Some x.
Proof. intros [x Hx]%lookup_lt_is_Some_2. eauto. Qed.

End lists.

(** The first number of a range that satisfies a test *)
Lemma find_first (p : Z -> bool) a n :
  match List.find p (seqZ a n) with
  | Some x => a <= x < a + n /\ p x = true /\ forall y, a <= y < x -> p y = false
  | None => forall y, a <= y < a + n -> p y = false
  end.
Proof.
  destruct (Z.lt_ge_cases n 0) as [Hn|Hn]; [rewrite seqZ_nil by lia; cbn; lia|].
  revert a. pattern n. apply natlike_ind; [..|exact Hn]; clear n Hn.
  - intros a. rewrite seqZ_nil by lia. cbn. lia.
  - intros n Hn IH a. rewrite seqZ_cons by lia. rewrite Z.pred_succ. cbn [List.find].
    destruct (p a) eqn:Ea; [split_and!; [lia|lia|done|lia]|].
    specialize (IH (Z.succ a)). destruct (List.find p _) as [x|].
    + destruct IH as (? & ? & IH). split_and!; [lia|lia|done|]. intros y Hy.
      destruct (decide (y = a)) as [->|]; [done|]. apply IH. lia.
    + intros y Hy. destruct (decide (y = a)) as [->|]; [done|]. apply IH. lia.
Qed.
