(* ===== verification/Bytes.v ===== *)
(** * Integers in byte strings

    The kernel reads and writes the fields of on-disk structures through pointers
    cast from the bytes of a buffer.  [get_le] and [put_le] are such an access to a
    little-endian field of [n] bytes at offset [off]. *)

From Stdlib Require Import ZArith Lia.
From stdpp Require Import base tactics numbers list.
From S2P Require Import Prelude.

(** ** Definitions *)

Definition get_le (n off : nat) (x : list Z) : Z := le_combine (slice x off n).

Definition put_le (n off : nat) (v : Z) (x : list Z) : list Z := splice x off (le_split n v).

(** ** Lemmas *)

Lemma length_put_le n off v x : (off + n <= length x)%nat -> length (put_le n off v x) = length x.
Proof. intros. apply length_splice. by rewrite length_le_split. Qed.

Lemma get_put_le n off v x :
  (off + n <= length x)%nat -> get_le n off (put_le n off v x) = v mod 256 ^ Z.of_nat n.
Proof.
  intros. unfold get_le, put_le. rewrite <- le_combine_split. f_equal.
  pose proof (slice_splice x off (le_split n v)) as E. rewrite length_le_split in E. by apply E.
Qed.

Lemma slice_splice_other {A} (x : list A) off k off' n :
  (off + length k <= length x)%nat -> (off + length k <= off' \/ off' + n <= off)%nat ->
  slice (splice x off k) off' n = slice x off' n.
Proof.
  intros Hl Hd. apply list_eq. intros j. destruct (decide (j < n)%nat).
  - rewrite !lookup_slice by done. apply lookup_splice_out; [done|lia].
  - unfold slice. by rewrite !lookup_take_ge by lia.
Qed.

Lemma get_put_le_other n off v x n' off' :
  (off + n <= length x)%nat -> (off + n <= off' \/ off' + n' <= off)%nat ->
  get_le n' off' (put_le n off v x) = get_le n' off' x.
Proof.
  intros. unfold get_le, put_le. by rewrite slice_splice_other by (by rewrite length_le_split).
Qed.

Lemma Forall_splice {A} (P : A -> Prop) x i k : Forall P x -> Forall P k -> Forall P (splice x i k).
Proof. intros. unfold splice. rewrite !Forall_app. auto using Forall_take, Forall_drop. Qed.

Lemma Forall_slice {A} (P : A -> Prop) x i n : Forall P x -> Forall P (slice x i n).
Proof. intros. unfold slice. auto using Forall_take, Forall_drop. Qed.

Lemma put_le_bytes n off v x : Forall byte_ok x -> Forall byte_ok (put_le n off v x).
Proof. intros. apply Forall_splice; [done|apply le_split_bytes]. Qed.

Lemma get_le_range n off x :
  Forall byte_ok x -> (off + n <= length x)%nat -> 0 <= get_le n off x < 256 ^ Z.of_nat n.
Proof.
  intros Hx Hl. unfold get_le. 
  pose proof (le_combine_range (slice x off n)) as E. rewrite length_slice in E by done.
  by apply E, Forall_slice.
Qed.

(** Overwriting all of a list. *)
Lemma splice_all {A} (x y : list A) : length x = length y -> splice x 0 y = y.
Proof. intros E. unfold splice. cbn. rewrite drop_ge by lia. by rewrite app_nil_r. Qed.

Lemma slice_all {A} (x : list A) n : length x = n -> slice x 0 n = x.
Proof. intros <-. unfold slice. rewrite drop_0. by rewrite firstn_all. Qed.

Lemma s32_u32 x : s32 (u32 x) = s32 x.
Proof. unfold s32, u32. f_equal. by rewrite Zplus_mod_idemp_l. Qed.

(** Where an iteration over [seq 0 n] is. *)
Lemma seq_mid n d x r : seq 0 n = d ++ x :: r -> x = length d /\ (x < n)%nat.
Proof.
  intros E. assert (H : seq 0 n !! length d = Some x) by (rewrite E; by apply list_lookup_middle).
  apply lookup_seq in H. cbn in H. lia.
Qed.
