(* ===== verification/Kernel.v ===== *)
(** * Kernel state

    The data of the kernel: the structures of kernel/*.h and the global
    variables of kernel/*.c as one record [kstate], a component record per
    subsystem.  [upd_f] applies a function to field [f] of a record.  Process,
    inode, buffer and file pointers are indices into their tables; a null
    pointer is [None] (or address 0 for raw addresses). *)

From Stdlib Require Import ZArith Lia.
From stdpp Require Import base tactics numbers gmap strings option list.
From S2P Require Import Prelude.

(** ** Constants (kernel/param.h, kernel/fs.h, kernel/riscv.h) *)

Abbreviation NPROC := 64 (only parsing).
Abbreviation NCPU := 8 (only parsing).
Abbreviation NOFILE := 16 (only parsing).
Abbreviation NFILE := 100 (only parsing).
Abbreviation NINODE := 50 (only parsing).
Abbreviation NDEV := 10 (only parsing).
Abbreviation ROOTDEV := 1 (only parsing).
Abbreviation MAXARG := 32 (only parsing).
Abbreviation MAXOPBLOCKS := 10 (only parsing).
Abbreviation LOGSIZE := 30 (only parsing).
Abbreviation NBUF := 30 (only parsing).
Abbreviation FSSIZE := 2000 (only parsing).
Abbreviation MAXPATH := 128 (only parsing).
Abbreviation BSIZE := 1024 (only parsing).
Abbreviation ROOTINO := 1 (only parsing).
Abbreviation NDIRECT := 12 (only parsing).
Abbreviation NINDIRECT := 256 (only parsing).
Abbreviation MAXFILE := 268 (only parsing).
Abbreviation DIRSIZ := 14 (only parsing).
Abbreviation FSMAGIC := 0x10203040 (only parsing).
Abbreviation PGSIZE := 4096 (only parsing).

(** ** Symbols the linker and the assembly files provide

    [kend] is [end] and [etext] of kernel.ld; the others are the addresses of
    code in trampoline.S, kernelvec.S and of C functions whose address the
    kernel stores.  The model takes them as parameters. *)
Class Platform := {
  kend : Z;
  etext : Z;
  trampoline : Z;
  uservec_off : Z;
  userret_off : Z;
  addr_kernelvec : Z;
  addr_usertrap : Z;
  addr_forkret : Z;
  addr_main : Z;
  addr_timervec : Z;
  addr_timer_scratch : Z;
}.

(** ** Locks and sleep channels *)

(** The sleep locks: one per buffer (buf.h) and one per inode (file.h). *)
Inductive slockid := SL_buf (i : nat) | SL_inode (i : nat).

(** The spinlocks of the kernel, by the object that holds them. *)
Inductive lockid :=
| L_kmem | L_hart (i : Z) | L_proc (i : nat) | L_pid | L_wait
| L_bcache | L_log | L_itable | L_ftable | L_sleep (l : slockid)
| L_pipe (a : Z) | L_cons | L_uart | L_ticks | L_pr | L_vdisk.

(** Sleep channels: the address passed to sleep() and wakeup(). *)
Inductive chan :=
| Ch_null | Ch_proc (i : nat) | Ch_slock (l : slockid) | Ch_log | Ch_ticks
| Ch_nread (a : Z) | Ch_nwrite (a : Z) | Ch_consr | Ch_uart
| Ch_diskfree | Ch_buf (i : nat).

#[export] Instance slockid_eq_dec : EqDecision slockid.
Proof. solve_decision. Defined.

#[export] Instance lockid_eq_dec : EqDecision lockid.
Proof. solve_decision. Defined.

#[export] Instance chan_eq_dec : EqDecision chan.
Proof. solve_decision. Defined.

(** enum procstate *)
Inductive procstate := UNUSED | USED | SLEEPING | RUNNABLE | RUNNING | ZOMBIE.

#[export] Instance procstate_eq_dec : EqDecision procstate.
Proof. solve_decision. Defined.

(** The file types of struct file. *)
Inductive ftype := FD_NONE | FD_PIPE | FD_INODE | FD_DEVICE.

#[export] Instance ftype_eq_dec : EqDecision ftype.
Proof. solve_decision. Defined.

(** The addresses the disk driver puts in descriptors: of a request header,
    of a buffer's data and of a status byte. *)
Inductive vaddr := VA_null | VA_ops (i : nat) | VA_data (b : nat) | VA_status (i : nat).

#[export] Instance vaddr_eq_dec : EqDecision vaddr.
Proof. solve_decision. Defined.

(** The functions devsw[] can point to. *)
Inductive devfn := D_consoleread | D_consolewrite.

(** ** Structures *)

(** The supervisor registers of the running hart (riscv.h). *)
Record csrs := mkCsrs {
  r_tp : Z;  (* tp: the hart's number *)
  r_sstatus : Z;
  r_sepc : Z;
  r_scause : Z;
  r_stval : Z;
  r_stvec : Z;
  r_satp : Z;
  r_sip : Z;
}.

Definition upd_r_tp (f : Z -> Z) (r : csrs) : csrs :=
  mkCsrs (f (r_tp r)) (r_sstatus r) (r_sepc r) (r_scause r) (r_stval r) (r_stvec r) (r_satp r) (r_sip r).

Definition upd_r_sstatus (f : Z -> Z) (r : csrs) : csrs :=
  mkCsrs (r_tp r) (f (r_sstatus r)) (r_sepc r) (r_scause r) (r_stval r) (r_stvec r) (r_satp r) (r_sip r).

Definition upd_r_sepc (f : Z -> Z) (r : csrs) : csrs :=
  mkCsrs (r_tp r) (r_sstatus r) (f (r_sepc r)) (r_scause r) (r_stval r) (r_stvec r) (r_satp r) (r_sip r).

Definition upd_r_scause (f : Z -> Z) (r : csrs) : csrs :=
  mkCsrs (r_tp r) (r_sstatus r) (r_sepc r) (f (r_scause r)) (r_stval r) (r_stvec r) (r_satp r) (r_sip r).

Definition upd_r_stval (f : Z -> Z) (r : csrs) : csrs :=
  mkCsrs (r_tp r) (r_sstatus r) (r_sepc r) (r_scause r) (f (r_stval r)) (r_stvec r) (r_satp r) (r_sip r).

Definition upd_r_stvec (f : Z -> Z) (r : csrs) : csrs :=
  mkCsrs (r_tp r) (r_sstatus r) (r_sepc r) (r_scause r) (r_stval r) (f (r_stvec r)) (r_satp r) (r_sip r).

Definition upd_r_satp (f : Z -> Z) (r : csrs) : csrs :=
  mkCsrs (r_tp r) (r_sstatus r) (r_sepc r) (r_scause r) (r_stval r) (r_stvec r) (f (r_satp r)) (r_sip r).

Definition upd_r_sip (f : Z -> Z) (r : csrs) : csrs :=
  mkCsrs (r_tp r) (r_sstatus r) (r_sepc r) (r_scause r) (r_stval r) (r_stvec r) (r_satp r) (f (r_sip r)).

(** struct cpu of the running hart (proc.h). *)
Record cpu := mkCpu {
  c_proc : option nat;  (* process running on this cpu *)
  c_noff : Z;  (* depth of push_off nesting *)
  c_intena : bool;  (* were interrupts enabled before push_off *)
}.

Definition upd_c_proc (f : option nat -> option nat) (r : cpu) : cpu :=
  mkCpu (f (c_proc r)) (c_noff r) (c_intena r).

Definition upd_c_noff (f : Z -> Z) (r : cpu) : cpu :=
  mkCpu (c_proc r) (f (c_noff r)) (c_intena r).

Definition upd_c_intena (f : bool -> bool) (r : cpu) : cpu :=
  mkCpu (c_proc r) (c_noff r) (f (c_intena r)).

(** struct sleeplock; its spinlock is [L_sleep] of its name. *)
Record sleeplock := mkSleeplock {
  sl_locked : bool;
  sl_pid : Z;
}.

Definition upd_sl_locked (f : bool -> bool) (r : sleeplock) : sleeplock :=
  mkSleeplock (f (sl_locked r)) (sl_pid r).

Definition upd_sl_pid (f : Z -> Z) (r : sleeplock) : sleeplock :=
  mkSleeplock (sl_locked r) (f (sl_pid r)).

(** struct context: registers saved by swtch. *)
Record context := mkContext {
  ctx_ra : Z;
  ctx_sp : Z;
  ctx_s : list Z;  (* s0..s11 *)
}.

Definition upd_ctx_ra (f : Z -> Z) (r : context) : context :=
  mkContext (f (ctx_ra r)) (ctx_sp r) (ctx_s r).

Definition upd_ctx_sp (f : Z -> Z) (r : context) : context :=
  mkContext (ctx_ra r) (f (ctx_sp r)) (ctx_s r).

Definition upd_ctx_s (f : list Z -> list Z) (r : context) : context :=
  mkContext (ctx_ra r) (ctx_sp r) (f (ctx_s r)).

(** struct proc (proc.h). *)
Record proc := mkProc {
  p_state : procstate;
  p_chan : chan;
  p_killed : Z;
  p_xstate : Z;
  p_pid : Z;
  p_parent : option nat;
  p_kstack : Z;
  p_sz : Z;
  p_pagetable : Z;
  p_trapframe : Z;
  p_context : context;
  p_ofile : list (option nat);
  p_cwd : option nat;
  p_name : list Z;
}.

Definition upd_p_state (f : procstate -> procstate) (r : proc) : proc :=
  mkProc (f (p_state r)) (p_chan r) (p_killed r) (p_xstate r) (p_pid r) (p_parent r) (p_kstack r) (p_sz r) (p_pagetable r) (p_trapframe r) (p_context r) (p_ofile r) (p_cwd r) (p_name r).

Definition upd_p_chan (f : chan -> chan) (r : proc) : proc :=
  mkProc (p_state r) (f (p_chan r)) (p_killed r) (p_xstate r) (p_pid r) (p_parent r) (p_kstack r) (p_sz r) (p_pagetable r) (p_trapframe r) (p_context r) (p_ofile r) (p_cwd r) (p_name r).

Definition upd_p_killed (f : Z -> Z) (r : proc) : proc :=
  mkProc (p_state r) (p_chan r) (f (p_killed r)) (p_xstate r) (p_pid r) (p_parent r) (p_kstack r) (p_sz r) (p_pagetable r) (p_trapframe r) (p_context r) (p_ofile r) (p_cwd r) (p_name r).

Definition upd_p_xstate (f : Z -> Z) (r : proc) : proc :=
  mkProc (p_state r) (p_chan r) (p_killed r) (f (p_xstate r)) (p_pid r) (p_parent r) (p_kstack r) (p_sz r) (p_pagetable r) (p_trapframe r) (p_context r) (p_ofile r) (p_cwd r) (p_name r).

Definition upd_p_pid (f : Z -> Z) (r : proc) : proc :=
  mkProc (p_state r) (p_chan r) (p_killed r) (p_xstate r) (f (p_pid r)) (p_parent r) (p_kstack r) (p_sz r) (p_pagetable r) (p_trapframe r) (p_context r) (p_ofile r) (p_cwd r) (p_name r).

Definition upd_p_parent (f : option nat -> option nat) (r : proc) : proc :=
  mkProc (p_state r) (p_chan r) (p_killed r) (p_xstate r) (p_pid r) (f (p_parent r)) (p_kstack r) (p_sz r) (p_pagetable r) (p_trapframe r) (p_context r) (p_ofile r) (p_cwd r) (p_name r).

Definition upd_p_kstack (f : Z -> Z) (r : proc) : proc :=
  mkProc (p_state r) (p_chan r) (p_killed r) (p_xstate r) (p_pid r) (p_parent r) (f (p_kstack r)) (p_sz r) (p_pagetable r) (p_trapframe r) (p_context r) (p_ofile r) (p_cwd r) (p_name r).

Definition upd_p_sz (f : Z -> Z) (r : proc) : proc :=
  mkProc (p_state r) (p_chan r) (p_killed r) (p_xstate r) (p_pid r) (p_parent r) (p_kstack r) (f (p_sz r)) (p_pagetable r) (p_trapframe r) (p_context r) (p_ofile r) (p_cwd r) (p_name r).

Definition upd_p_pagetable (f : Z -> Z) (r : proc) : proc :=
  mkProc (p_state r) (p_chan r) (p_killed r) (p_xstate r) (p_pid r) (p_parent r) (p_kstack r) (p_sz r) (f (p_pagetable r)) (p_trapframe r) (p_context r) (p_ofile r) (p_cwd r) (p_name r).

Definition upd_p_trapframe (f : Z -> Z) (r : proc) : proc :=
  mkProc (p_state r) (p_chan r) (p_killed r) (p_xstate r) (p_pid r) (p_parent r) (p_kstack r) (p_sz r) (p_pagetable r) (f (p_trapframe r)) (p_context r) (p_ofile r) (p_cwd r) (p_name r).

Definition upd_p_context (f : context -> context) (r : proc) : proc :=
  mkProc (p_state r) (p_chan r) (p_killed r) (p_xstate r) (p_pid r) (p_parent r) (p_kstack r) (p_sz r) (p_pagetable r) (p_trapframe r) (f (p_context r)) (p_ofile r) (p_cwd r) (p_name r).

Definition upd_p_ofile (f : list (option nat) -> list (option nat)) (r : proc) : proc :=
  mkProc (p_state r) (p_chan r) (p_killed r) (p_xstate r) (p_pid r) (p_parent r) (p_kstack r) (p_sz r) (p_pagetable r) (p_trapframe r) (p_context r) (f (p_ofile r)) (p_cwd r) (p_name r).

Definition upd_p_cwd (f : option nat -> option nat) (r : proc) : proc :=
  mkProc (p_state r) (p_chan r) (p_killed r) (p_xstate r) (p_pid r) (p_parent r) (p_kstack r) (p_sz r) (p_pagetable r) (p_trapframe r) (p_context r) (p_ofile r) (f (p_cwd r)) (p_name r).

Definition upd_p_name (f : list Z -> list Z) (r : proc) : proc :=
  mkProc (p_state r) (p_chan r) (p_killed r) (p_xstate r) (p_pid r) (p_parent r) (p_kstack r) (p_sz r) (p_pagetable r) (p_trapframe r) (p_context r) (p_ofile r) (p_cwd r) (f (p_name r)).

(** struct buf (buf.h); [b_prev] and [b_next] are indices, [NBUF] the list head. *)
Record buf := mkBuf {
  b_valid : bool;
  b_disk : bool;
  b_dev : Z;
  b_blockno : Z;
  b_lock : sleeplock;
  b_refcnt : Z;
  b_prev : nat;
  b_next : nat;
  b_data : list Z;
}.

Definition upd_b_valid (f : bool -> bool) (r : buf) : buf :=
  mkBuf (f (b_valid r)) (b_disk r) (b_dev r) (b_blockno r) (b_lock r) (b_refcnt r) (b_prev r) (b_next r) (b_data r).

Definition upd_b_disk (f : bool -> bool) (r : buf) : buf :=
  mkBuf (b_valid r) (f (b_disk r)) (b_dev r) (b_blockno r) (b_lock r) (b_refcnt r) (b_prev r) (b_next r) (b_data r).

Definition upd_b_dev (f : Z -> Z) (r : buf) : buf :=
  mkBuf (b_valid r) (b_disk r) (f (b_dev r)) (b_blockno r) (b_lock r) (b_refcnt r) (b_prev r) (b_next r) (b_data r).

Definition upd_b_blockno (f : Z -> Z) (r : buf) : buf :=
  mkBuf (b_valid r) (b_disk r) (b_dev r) (f (b_blockno r)) (b_lock r) (b_refcnt r) (b_prev r) (b_next r) (b_data r).

Definition upd_b_lock (f : sleeplock -> sleeplock) (r : buf) : buf :=
  mkBuf (b_valid r) (b_disk r) (b_dev r) (b_blockno r) (f (b_lock r)) (b_refcnt r) (b_prev r) (b_next r) (b_data r).

Definition upd_b_refcnt (f : Z -> Z) (r : buf) : buf :=
  mkBuf (b_valid r) (b_disk r) (b_dev r) (b_blockno r) (b_lock r) (f (b_refcnt r)) (b_prev r) (b_next r) (b_data r).

Definition upd_b_prev (f : nat -> nat) (r : buf) : buf :=
  mkBuf (b_valid r) (b_disk r) (b_dev r) (b_blockno r) (b_lock r) (b_refcnt r) (f (b_prev r)) (b_next r) (b_data r).

Definition upd_b_next (f : nat -> nat) (r : buf) : buf :=
  mkBuf (b_valid r) (b_disk r) (b_dev r) (b_blockno r) (b_lock r) (b_refcnt r) (b_prev r) (f (b_next r)) (b_data r).

Definition upd_b_data (f : list Z -> list Z) (r : buf) : buf :=
  mkBuf (b_valid r) (b_disk r) (b_dev r) (b_blockno r) (b_lock r) (b_refcnt r) (b_prev r) (b_next r) (f (b_data r)).

(** struct superblock (fs.h). *)
Record superblock := mkSb {
  sb_magic : Z;
  sb_size : Z;
  sb_nblocks : Z;
  sb_ninodes : Z;
  sb_nlog : Z;
  sb_logstart : Z;
  sb_inodestart : Z;
  sb_bmapstart : Z;
}.

Definition upd_sb_magic (f : Z -> Z) (r : superblock) : superblock :=
  mkSb (f (sb_magic r)) (sb_size r) (sb_nblocks r) (sb_ninodes r) (sb_nlog r) (sb_logstart r) (sb_inodestart r) (sb_bmapstart r).

Definition upd_sb_size (f : Z -> Z) (r : superblock) : superblock :=
  mkSb (sb_magic r) (f (sb_size r)) (sb_nblocks r) (sb_ninodes r) (sb_nlog r) (sb_logstart r) (sb_inodestart r) (sb_bmapstart r).

Definition upd_sb_nblocks (f : Z -> Z) (r : superblock) : superblock :=
  mkSb (sb_magic r) (sb_size r) (f (sb_nblocks r)) (sb_ninodes r) (sb_nlog r) (sb_logstart r) (sb_inodestart r) (sb_bmapstart r).

Definition upd_sb_ninodes (f : Z -> Z) (r : superblock) : superblock :=
  mkSb (sb_magic r) (sb_size r) (sb_nblocks r) (f (sb_ninodes r)) (sb_nlog r) (sb_logstart r) (sb_inodestart r) (sb_bmapstart r).

Definition upd_sb_nlog (f : Z -> Z) (r : superblock) : superblock :=
  mkSb (sb_magic r) (sb_size r) (sb_nblocks r) (sb_ninodes r) (f (sb_nlog r)) (sb_logstart r) (sb_inodestart r) (sb_bmapstart r).

Definition upd_sb_logstart (f : Z -> Z) (r : superblock) : superblock :=
  mkSb (sb_magic r) (sb_size r) (sb_nblocks r) (sb_ninodes r) (sb_nlog r) (f (sb_logstart r)) (sb_inodestart r) (sb_bmapstart r).

Definition upd_sb_inodestart (f : Z -> Z) (r : superblock) : superblock :=
  mkSb (sb_magic r) (sb_size r) (sb_nblocks r) (sb_ninodes r) (sb_nlog r) (sb_logstart r) (f (sb_inodestart r)) (sb_bmapstart r).

Definition upd_sb_bmapstart (f : Z -> Z) (r : superblock) : superblock :=
  mkSb (sb_magic r) (sb_size r) (sb_nblocks r) (sb_ninodes r) (sb_nlog r) (sb_logstart r) (sb_inodestart r) (f (sb_bmapstart r)).

(** struct log with its header lh (log.c). *)
Record logst := mkLog {
  l_start : Z;
  l_size : Z;
  l_outstanding : Z;
  l_committing : bool;
  l_dev : Z;
  l_n : Z;  (* lh.n *)
  l_block : list Z;  (* lh.block[LOGSIZE] *)
}.

Definition upd_l_start (f : Z -> Z) (r : logst) : logst :=
  mkLog (f (l_start r)) (l_size r) (l_outstanding r) (l_committing r) (l_dev r) (l_n r) (l_block r).

Definition upd_l_size (f : Z -> Z) (r : logst) : logst :=
  mkLog (l_start r) (f (l_size r)) (l_outstanding r) (l_committing r) (l_dev r) (l_n r) (l_block r).

Definition upd_l_outstanding (f : Z -> Z) (r : logst) : logst :=
  mkLog (l_start r) (l_size r) (f (l_outstanding r)) (l_committing r) (l_dev r) (l_n r) (l_block r).

Definition upd_l_committing (f : bool -> bool) (r : logst) : logst :=
  mkLog (l_start r) (l_size r) (l_outstanding r) (f (l_committing r)) (l_dev r) (l_n r) (l_block r).

Definition upd_l_dev (f : Z -> Z) (r : logst) : logst :=
  mkLog (l_start r) (l_size r) (l_outstanding r) (l_committing r) (f (l_dev r)) (l_n r) (l_block r).

Definition upd_l_n (f : Z -> Z) (r : logst) : logst :=
  mkLog (l_start r) (l_size r) (l_outstanding r) (l_committing r) (l_dev r) (f (l_n r)) (l_block r).

Definition upd_l_block (f : list Z -> list Z) (r : logst) : logst :=
  mkLog (l_start r) (l_size r) (l_outstanding r) (l_committing r) (l_dev r) (l_n r) (f (l_block r)).

(** struct inode (file.h). *)
Record inode := mkInode {
  i_dev : Z;
  i_inum : Z;
  i_ref : Z;
  i_lock : sleeplock;
  i_valid : bool;
  i_type : Z;
  i_major : Z;
  i_minor : Z;
  i_nlink : Z;
  i_size : Z;
  i_addrs : list Z;
}.

Definition upd_i_dev (f : Z -> Z) (r : inode) : inode :=
  mkInode (f (i_dev r)) (i_inum r) (i_ref r) (i_lock r) (i_valid r) (i_type r) (i_major r) (i_minor r) (i_nlink r) (i_size r) (i_addrs r).

Definition upd_i_inum (f : Z -> Z) (r : inode) : inode :=
  mkInode (i_dev r) (f (i_inum r)) (i_ref r) (i_lock r) (i_valid r) (i_type r) (i_major r) (i_minor r) (i_nlink r) (i_size r) (i_addrs r).

Definition upd_i_ref (f : Z -> Z) (r : inode) : inode :=
  mkInode (i_dev r) (i_inum r) (f (i_ref r)) (i_lock r) (i_valid r) (i_type r) (i_major r) (i_minor r) (i_nlink r) (i_size r) (i_addrs r).

Definition upd_i_lock (f : sleeplock -> sleeplock) (r : inode) : inode :=
  mkInode (i_dev r) (i_inum r) (i_ref r) (f (i_lock r)) (i_valid r) (i_type r) (i_major r) (i_minor r) (i_nlink r) (i_size r) (i_addrs r).

Definition upd_i_valid (f : bool -> bool) (r : inode) : inode :=
  mkInode (i_dev r) (i_inum r) (i_ref r) (i_lock r) (f (i_valid r)) (i_type r) (i_major r) (i_minor r) (i_nlink r) (i_size r) (i_addrs r).

Definition upd_i_type (f : Z -> Z) (r : inode) : inode :=
  mkInode (i_dev r) (i_inum r) (i_ref r) (i_lock r) (i_valid r) (f (i_type r)) (i_major r) (i_minor r) (i_nlink r) (i_size r) (i_addrs r).

Definition upd_i_major (f : Z -> Z) (r : inode) : inode :=
  mkInode (i_dev r) (i_inum r) (i_ref r) (i_lock r) (i_valid r) (i_type r) (f (i_major r)) (i_minor r) (i_nlink r) (i_size r) (i_addrs r).

Definition upd_i_minor (f : Z -> Z) (r : inode) : inode :=
  mkInode (i_dev r) (i_inum r) (i_ref r) (i_lock r) (i_valid r) (i_type r) (i_major r) (f (i_minor r)) (i_nlink r) (i_size r) (i_addrs r).

Definition upd_i_nlink (f : Z -> Z) (r : inode) : inode :=
  mkInode (i_dev r) (i_inum r) (i_ref r) (i_lock r) (i_valid r) (i_type r) (i_major r) (i_minor r) (f (i_nlink r)) (i_size r) (i_addrs r).

Definition upd_i_size (f : Z -> Z) (r : inode) : inode :=
  mkInode (i_dev r) (i_inum r) (i_ref r) (i_lock r) (i_valid r) (i_type r) (i_major r) (i_minor r) (i_nlink r) (f (i_size r)) (i_addrs r).

Definition upd_i_addrs (f : list Z -> list Z) (r : inode) : inode :=
  mkInode (i_dev r) (i_inum r) (i_ref r) (i_lock r) (i_valid r) (i_type r) (i_major r) (i_minor r) (i_nlink r) (i_size r) (f (i_addrs r)).

(** struct file (file.h). *)
Record file := mkFile {
  f_type : ftype;
  f_ref : Z;
  f_readable : bool;
  f_writable : bool;
  f_pipe : Z;
  f_ip : option nat;
  f_off : Z;
  f_major : Z;
}.

Definition upd_f_type (f : ftype -> ftype) (r : file) : file :=
  mkFile (f (f_type r)) (f_ref r) (f_readable r) (f_writable r) (f_pipe r) (f_ip r) (f_off r) (f_major r).

Definition upd_f_ref (f : Z -> Z) (r : file) : file :=
  mkFile (f_type r) (f (f_ref r)) (f_readable r) (f_writable r) (f_pipe r) (f_ip r) (f_off r) (f_major r).

Definition upd_f_readable (f : bool -> bool) (r : file) : file :=
  mkFile (f_type r) (f_ref r) (f (f_readable r)) (f_writable r) (f_pipe r) (f_ip r) (f_off r) (f_major r).

Definition upd_f_writable (f : bool -> bool) (r : file) : file :=
  mkFile (f_type r) (f_ref r) (f_readable r) (f (f_writable r)) (f_pipe r) (f_ip r) (f_off r) (f_major r).

Definition upd_f_pipe (f : Z -> Z) (r : file) : file :=
  mkFile (f_type r) (f_ref r) (f_readable r) (f_writable r) (f (f_pipe r)) (f_ip r) (f_off r) (f_major r).

Definition upd_f_ip (f : option nat -> option nat) (r : file) : file :=
  mkFile (f_type r) (f_ref r) (f_readable r) (f_writable r) (f_pipe r) (f (f_ip r)) (f_off r) (f_major r).

Definition upd_f_off (f : Z -> Z) (r : file) : file :=
  mkFile (f_type r) (f_ref r) (f_readable r) (f_writable r) (f_pipe r) (f_ip r) (f (f_off r)) (f_major r).

Definition upd_f_major (f : Z -> Z) (r : file) : file :=
  mkFile (f_type r) (f_ref r) (f_readable r) (f_writable r) (f_pipe r) (f_ip r) (f_off r) (f (f_major r)).

(** struct pipe (pipe.c). *)
Record pipe := mkPipe {
  pi_data : list Z;
  pi_nread : Z;
  pi_nwrite : Z;
  pi_readopen : bool;
  pi_writeopen : bool;
}.

Definition upd_pi_data (f : list Z -> list Z) (r : pipe) : pipe :=
  mkPipe (f (pi_data r)) (pi_nread r) (pi_nwrite r) (pi_readopen r) (pi_writeopen r).

Definition upd_pi_nread (f : Z -> Z) (r : pipe) : pipe :=
  mkPipe (pi_data r) (f (pi_nread r)) (pi_nwrite r) (pi_readopen r) (pi_writeopen r).

Definition upd_pi_nwrite (f : Z -> Z) (r : pipe) : pipe :=
  mkPipe (pi_data r) (pi_nread r) (f (pi_nwrite r)) (pi_readopen r) (pi_writeopen r).

Definition upd_pi_readopen (f : bool -> bool) (r : pipe) : pipe :=
  mkPipe (pi_data r) (pi_nread r) (pi_nwrite r) (f (pi_readopen r)) (pi_writeopen r).

Definition upd_pi_writeopen (f : bool -> bool) (r : pipe) : pipe :=
  mkPipe (pi_data r) (pi_nread r) (pi_nwrite r) (pi_readopen r) (f (pi_writeopen r)).

(** The disk: its blocks when the machine started and every block write the
    device completed since. *)
Record diskst := mkDisk {
  d_init : gmap Z (list Z);  (* content at power-on *)
  d_hist : list (Z * list Z);  (* block writes since, oldest first *)
}.

Definition upd_d_init (f : gmap Z (list Z) -> gmap Z (list Z)) (r : diskst) : diskst :=
  mkDisk (f (d_init r)) (d_hist r).

Definition upd_d_hist (f : list (Z * list Z) -> list (Z * list Z)) (r : diskst) : diskst :=
  mkDisk (d_init r) (f (d_hist r)).

(** The buffer cache (bio.c). *)
Record bcachest := mkBcache {
  bc_buf : list buf;
  bc_hprev : nat;  (* head.prev *)
  bc_hnext : nat;  (* head.next *)
}.

Definition upd_bc_buf (f : list buf -> list buf) (r : bcachest) : bcachest :=
  mkBcache (f (bc_buf r)) (bc_hprev r) (bc_hnext r).

Definition upd_bc_hprev (f : nat -> nat) (r : bcachest) : bcachest :=
  mkBcache (bc_buf r) (f (bc_hprev r)) (bc_hnext r).

Definition upd_bc_hnext (f : nat -> nat) (r : bcachest) : bcachest :=
  mkBcache (bc_buf r) (bc_hprev r) (f (bc_hnext r)).

(** The console input buffer (console.c). *)
Record consst := mkCons {
  cons_buf : list Z;
  cons_r : Z;
  cons_w : Z;
  cons_e : Z;
}.

Definition upd_cons_buf (f : list Z -> list Z) (r : consst) : consst :=
  mkCons (f (cons_buf r)) (cons_r r) (cons_w r) (cons_e r).

Definition upd_cons_r (f : Z -> Z) (r : consst) : consst :=
  mkCons (cons_buf r) (f (cons_r r)) (cons_w r) (cons_e r).

Definition upd_cons_w (f : Z -> Z) (r : consst) : consst :=
  mkCons (cons_buf r) (cons_r r) (f (cons_w r)) (cons_e r).

Definition upd_cons_e (f : Z -> Z) (r : consst) : consst :=
  mkCons (cons_buf r) (cons_r r) (cons_w r) (f (cons_e r)).

(** The UART driver's transmit ring (uart.c) and the device's registers: the
    bytes sent, the bytes received and the readiness it reports. *)
Record uartst := mkUart {
  tx_buf : list Z;
  tx_w : Z;
  tx_r : Z;
  u_out : list Z;  (* bytes written to THR, oldest first *)
  u_in : list Z;  (* bytes waiting in RHR *)
  u_idle : list bool;  (* successive values of LSR_TX_IDLE *)
  u_regs : list (Z * Z);  (* writes to the other registers, oldest first *)
}.

Definition upd_tx_buf (f : list Z -> list Z) (r : uartst) : uartst :=
  mkUart (f (tx_buf r)) (tx_w r) (tx_r r) (u_out r) (u_in r) (u_idle r) (u_regs r).

Definition upd_tx_w (f : Z -> Z) (r : uartst) : uartst :=
  mkUart (tx_buf r) (f (tx_w r)) (tx_r r) (u_out r) (u_in r) (u_idle r) (u_regs r).

Definition upd_tx_r (f : Z -> Z) (r : uartst) : uartst :=
  mkUart (tx_buf r) (tx_w r) (f (tx_r r)) (u_out r) (u_in r) (u_idle r) (u_regs r).

Definition upd_u_out (f : list Z -> list Z) (r : uartst) : uartst :=
  mkUart (tx_buf r) (tx_w r) (tx_r r) (f (u_out r)) (u_in r) (u_idle r) (u_regs r).

Definition upd_u_in (f : list Z -> list Z) (r : uartst) : uartst :=
  mkUart (tx_buf r) (tx_w r) (tx_r r) (u_out r) (f (u_in r)) (u_idle r) (u_regs r).

Definition upd_u_idle (f : list bool -> list bool) (r : uartst) : uartst :=
  mkUart (tx_buf r) (tx_w r) (tx_r r) (u_out r) (u_in r) (f (u_idle r)) (u_regs r).

Definition upd_u_regs (f : list (Z * Z) -> list (Z * Z)) (r : uartst) : uartst :=
  mkUart (tx_buf r) (tx_w r) (tx_r r) (u_out r) (u_in r) (u_idle r) (f (u_regs r)).

(** The platform interrupt controller's registers (plic.c). *)
Record plicst := mkPlic {
  pl_reg : gmap Z Z;  (* registers written, by address *)
  pl_pending : list Z;  (* interrupts to claim, highest priority first *)
}.

Definition upd_pl_reg (f : gmap Z Z -> gmap Z Z) (r : plicst) : plicst :=
  mkPlic (f (pl_reg r)) (pl_pending r).

Definition upd_pl_pending (f : list Z -> list Z) (r : plicst) : plicst :=
  mkPlic (pl_reg r) (f (pl_pending r)).

(** struct virtq_desc (virtio.h). *)
Record vdesc := mkVdesc {
  vd_addr : vaddr;
  vd_len : Z;
  vd_flags : Z;
  vd_next : Z;
}.

Definition upd_vd_addr (f : vaddr -> vaddr) (r : vdesc) : vdesc :=
  mkVdesc (f (vd_addr r)) (vd_len r) (vd_flags r) (vd_next r).

Definition upd_vd_len (f : Z -> Z) (r : vdesc) : vdesc :=
  mkVdesc (vd_addr r) (f (vd_len r)) (vd_flags r) (vd_next r).

Definition upd_vd_flags (f : Z -> Z) (r : vdesc) : vdesc :=
  mkVdesc (vd_addr r) (vd_len r) (f (vd_flags r)) (vd_next r).

Definition upd_vd_next (f : Z -> Z) (r : vdesc) : vdesc :=
  mkVdesc (vd_addr r) (vd_len r) (vd_flags r) (f (vd_next r)).

(** struct virtio_blk_req (virtio.h). *)
Record vreq := mkVreq {
  rq_type : Z;
  rq_reserved : Z;
  rq_sector : Z;
}.

Definition upd_rq_type (f : Z -> Z) (r : vreq) : vreq :=
  mkVreq (f (rq_type r)) (rq_reserved r) (rq_sector r).

Definition upd_rq_reserved (f : Z -> Z) (r : vreq) : vreq :=
  mkVreq (rq_type r) (f (rq_reserved r)) (rq_sector r).

Definition upd_rq_sector (f : Z -> Z) (r : vreq) : vreq :=
  mkVreq (rq_type r) (rq_reserved r) (f (rq_sector r)).

(** An entry of disk.info[] (virtio_disk.c). *)
Record vinfo := mkVinfo {
  vi_b : option nat;
  vi_status : Z;
}.

Definition upd_vi_b (f : option nat -> option nat) (r : vinfo) : vinfo :=
  mkVinfo (f (vi_b r)) (vi_status r).

Definition upd_vi_status (f : Z -> Z) (r : vinfo) : vinfo :=
  mkVinfo (vi_b r) (f (vi_status r)).

(** The disk driver's queue and book-keeping (virtio_disk.c) and the device's
    registers. *)
Record vdiskst := mkVdisk {
  dk_desc : list vdesc;  (* *disk.desc *)
  dk_avail_idx : Z;  (* disk.avail->idx *)
  dk_avail_ring : list Z;  (* disk.avail->ring *)
  dk_used_idx : Z;  (* disk.used->idx *)
  dk_used_ring : list Z;  (* the ids in disk.used->ring *)
  dk_free : list bool;  (* disk.free *)
  dk_seen_idx : Z;  (* disk.used_idx *)
  dk_info : list vinfo;  (* disk.info *)
  dk_ops : list vreq;  (* disk.ops *)
  dk_regs : gmap Z Z;  (* the MMIO registers *)
  dk_refuses : bool;  (* does the device refuse the features offered *)
}.

Definition upd_dk_desc (f : list vdesc -> list vdesc) (r : vdiskst) : vdiskst :=
  mkVdisk (f (dk_desc r)) (dk_avail_idx r) (dk_avail_ring r) (dk_used_idx r) (dk_used_ring r) (dk_free r) (dk_seen_idx r) (dk_info r) (dk_ops r) (dk_regs r) (dk_refuses r).

Definition upd_dk_avail_idx (f : Z -> Z) (r : vdiskst) : vdiskst :=
  mkVdisk (dk_desc r) (f (dk_avail_idx r)) (dk_avail_ring r) (dk_used_idx r) (dk_used_ring r) (dk_free r) (dk_seen_idx r) (dk_info r) (dk_ops r) (dk_regs r) (dk_refuses r).

Definition upd_dk_avail_ring (f : list Z -> list Z) (r : vdiskst) : vdiskst :=
  mkVdisk (dk_desc r) (dk_avail_idx r) (f (dk_avail_ring r)) (dk_used_idx r) (dk_used_ring r) (dk_free r) (dk_seen_idx r) (dk_info r) (dk_ops r) (dk_regs r) (dk_refuses r).

Definition upd_dk_used_idx (f : Z -> Z) (r : vdiskst) : vdiskst :=
  mkVdisk (dk_desc r) (dk_avail_idx r) (dk_avail_ring r) (f (dk_used_idx r)) (dk_used_ring r) (dk_free r) (dk_seen_idx r) (dk_info r) (dk_ops r) (dk_regs r) (dk_refuses r).

Definition upd_dk_used_ring (f : list Z -> list Z) (r : vdiskst) : vdiskst :=
  mkVdisk (dk_desc r) (dk_avail_idx r) (dk_avail_ring r) (dk_used_idx r) (f (dk_used_ring r)) (dk_free r) (dk_seen_idx r) (dk_info r) (dk_ops r) (dk_regs r) (dk_refuses r).

Definition upd_dk_free (f : list bool -> list bool) (r : vdiskst) : vdiskst :=
  mkVdisk (dk_desc r) (dk_avail_idx r) (dk_avail_ring r) (dk_used_idx r) (dk_used_ring r) (f (dk_free r)) (dk_seen_idx r) (dk_info r) (dk_ops r) (dk_regs r) (dk_refuses r).

Definition upd_dk_seen_idx (f : Z -> Z) (r : vdiskst) : vdiskst :=
  mkVdisk (dk_desc r) (dk_avail_idx r) (dk_avail_ring r) (dk_used_idx r) (dk_used_ring r) (dk_free r) (f (dk_seen_idx r)) (dk_info r) (dk_ops r) (dk_regs r) (dk_refuses r).

Definition upd_dk_info (f : list vinfo -> list vinfo) (r : vdiskst) : vdiskst :=
  mkVdisk (dk_desc r) (dk_avail_idx r) (dk_avail_ring r) (dk_used_idx r) (dk_used_ring r) (dk_free r) (dk_seen_idx r) (f (dk_info r)) (dk_ops r) (dk_regs r) (dk_refuses r).

Definition upd_dk_ops (f : list vreq -> list vreq) (r : vdiskst) : vdiskst :=
  mkVdisk (dk_desc r) (dk_avail_idx r) (dk_avail_ring r) (dk_used_idx r) (dk_used_ring r) (dk_free r) (dk_seen_idx r) (dk_info r) (f (dk_ops r)) (dk_regs r) (dk_refuses r).

Definition upd_dk_regs (f : gmap Z Z -> gmap Z Z) (r : vdiskst) : vdiskst :=
  mkVdisk (dk_desc r) (dk_avail_idx r) (dk_avail_ring r) (dk_used_idx r) (dk_used_ring r) (dk_free r) (dk_seen_idx r) (dk_info r) (dk_ops r) (f (dk_regs r)) (dk_refuses r).

Definition upd_dk_refuses (f : bool -> bool) (r : vdiskst) : vdiskst :=
  mkVdisk (dk_desc r) (dk_avail_idx r) (dk_avail_ring r) (dk_used_idx r) (dk_used_ring r) (dk_free r) (dk_seen_idx r) (dk_info r) (dk_ops r) (dk_regs r) (f (dk_refuses r)).

(** struct devsw (file.h). *)
Record devsw := mkDevsw {
  dv_read : option devfn;
  dv_write : option devfn;
}.

Definition upd_dv_read (f : option devfn -> option devfn) (r : devsw) : devsw :=
  mkDevsw (f (dv_read r)) (dv_write r).

Definition upd_dv_write (f : option devfn -> option devfn) (r : devsw) : devsw :=
  mkDevsw (dv_read r) (f (dv_write r)).

(** The machine-mode registers start.c writes, and sie. *)
Record machst := mkMach {
  m_hartid : Z;
  m_status : Z;
  m_epc : Z;
  m_edeleg : Z;
  m_ideleg : Z;
  m_ie : Z;
  m_scratch : Z;
  m_tvec : Z;
  m_pmpaddr0 : Z;
  m_pmpcfg0 : Z;
  s_ie : Z;
}.

Definition upd_m_hartid (f : Z -> Z) (r : machst) : machst :=
  mkMach (f (m_hartid r)) (m_status r) (m_epc r) (m_edeleg r) (m_ideleg r) (m_ie r) (m_scratch r) (m_tvec r) (m_pmpaddr0 r) (m_pmpcfg0 r) (s_ie r).

Definition upd_m_status (f : Z -> Z) (r : machst) : machst :=
  mkMach (m_hartid r) (f (m_status r)) (m_epc r) (m_edeleg r) (m_ideleg r) (m_ie r) (m_scratch r) (m_tvec r) (m_pmpaddr0 r) (m_pmpcfg0 r) (s_ie r).

Definition upd_m_epc (f : Z -> Z) (r : machst) : machst :=
  mkMach (m_hartid r) (m_status r) (f (m_epc r)) (m_edeleg r) (m_ideleg r) (m_ie r) (m_scratch r) (m_tvec r) (m_pmpaddr0 r) (m_pmpcfg0 r) (s_ie r).

Definition upd_m_edeleg (f : Z -> Z) (r : machst) : machst :=
  mkMach (m_hartid r) (m_status r) (m_epc r) (f (m_edeleg r)) (m_ideleg r) (m_ie r) (m_scratch r) (m_tvec r) (m_pmpaddr0 r) (m_pmpcfg0 r) (s_ie r).

Definition upd_m_ideleg (f : Z -> Z) (r : machst) : machst :=
  mkMach (m_hartid r) (m_status r) (m_epc r) (m_edeleg r) (f (m_ideleg r)) (m_ie r) (m_scratch r) (m_tvec r) (m_pmpaddr0 r) (m_pmpcfg0 r) (s_ie r).

Definition upd_m_ie (f : Z -> Z) (r : machst) : machst :=
  mkMach (m_hartid r) (m_status r) (m_epc r) (m_edeleg r) (m_ideleg r) (f (m_ie r)) (m_scratch r) (m_tvec r) (m_pmpaddr0 r) (m_pmpcfg0 r) (s_ie r).

Definition upd_m_scratch (f : Z -> Z) (r : machst) : machst :=
  mkMach (m_hartid r) (m_status r) (m_epc r) (m_edeleg r) (m_ideleg r) (m_ie r) (f (m_scratch r)) (m_tvec r) (m_pmpaddr0 r) (m_pmpcfg0 r) (s_ie r).

Definition upd_m_tvec (f : Z -> Z) (r : machst) : machst :=
  mkMach (m_hartid r) (m_status r) (m_epc r) (m_edeleg r) (m_ideleg r) (m_ie r) (m_scratch r) (f (m_tvec r)) (m_pmpaddr0 r) (m_pmpcfg0 r) (s_ie r).

Definition upd_m_pmpaddr0 (f : Z -> Z) (r : machst) : machst :=
  mkMach (m_hartid r) (m_status r) (m_epc r) (m_edeleg r) (m_ideleg r) (m_ie r) (m_scratch r) (m_tvec r) (f (m_pmpaddr0 r)) (m_pmpcfg0 r) (s_ie r).

Definition upd_m_pmpcfg0 (f : Z -> Z) (r : machst) : machst :=
  mkMach (m_hartid r) (m_status r) (m_epc r) (m_edeleg r) (m_ideleg r) (m_ie r) (m_scratch r) (m_tvec r) (m_pmpaddr0 r) (f (m_pmpcfg0 r)) (s_ie r).

Definition upd_s_ie (f : Z -> Z) (r : machst) : machst :=
  mkMach (m_hartid r) (m_status r) (m_epc r) (m_edeleg r) (m_ideleg r) (m_ie r) (m_scratch r) (m_tvec r) (m_pmpaddr0 r) (m_pmpcfg0 r) (f (s_ie r)).

(** The state of the kernel as one hart sees it. *)
Record kstate := mkK {
  k_csr : csrs;
  k_cpu : cpu;
  k_locks : list (lockid * Z);  (* held spinlocks, with lk->cpu *)
  k_mem : gmap Z Z;  (* physical memory, bytes *)
  k_freelist : Z;  (* kmem.freelist *)
  k_procs : list proc;
  k_nextpid : Z;
  k_initproc : option nat;
  k_ticks : Z;
  k_disk : diskst;
  k_bcache : bcachest;
  k_sb : superblock;
  k_log : logst;
  k_itable : list inode;
  k_ftable : list file;
  k_pipes : gmap Z pipe;  (* pipe pages, by address *)
  k_cons : consst;
  k_uart : uartst;
  k_panicked : bool;
  k_prlocking : bool;
  k_kpgtbl : Z;  (* kernel_pagetable *)
  k_first : bool;  (* first of forkret() *)
  k_plic : plicst;
  k_vdisk : vdiskst;
  k_devsw : list devsw;
  k_mach : machst;
  k_started : bool;  (* started of main.c *)
}.

Definition upd_k_csr (f : csrs -> csrs) (r : kstate) : kstate :=
  mkK (f (k_csr r)) (k_cpu r) (k_locks r) (k_mem r) (k_freelist r) (k_procs r) (k_nextpid r) (k_initproc r) (k_ticks r) (k_disk r) (k_bcache r) (k_sb r) (k_log r) (k_itable r) (k_ftable r) (k_pipes r) (k_cons r) (k_uart r) (k_panicked r) (k_prlocking r) (k_kpgtbl r) (k_first r) (k_plic r) (k_vdisk r) (k_devsw r) (k_mach r) (k_started r).

Definition upd_k_cpu (f : cpu -> cpu) (r : kstate) : kstate :=
  mkK (k_csr r) (f (k_cpu r)) (k_locks r) (k_mem r) (k_freelist r) (k_procs r) (k_nextpid r) (k_initproc r) (k_ticks r) (k_disk r) (k_bcache r) (k_sb r) (k_log r) (k_itable r) (k_ftable r) (k_pipes r) (k_cons r) (k_uart r) (k_panicked r) (k_prlocking r) (k_kpgtbl r) (k_first r) (k_plic r) (k_vdisk r) (k_devsw r) (k_mach r) (k_started r).

Definition upd_k_locks (f : list (lockid * Z) -> list (lockid * Z)) (r : kstate) : kstate :=
  mkK (k_csr r) (k_cpu r) (f (k_locks r)) (k_mem r) (k_freelist r) (k_procs r) (k_nextpid r) (k_initproc r) (k_ticks r) (k_disk r) (k_bcache r) (k_sb r) (k_log r) (k_itable r) (k_ftable r) (k_pipes r) (k_cons r) (k_uart r) (k_panicked r) (k_prlocking r) (k_kpgtbl r) (k_first r) (k_plic r) (k_vdisk r) (k_devsw r) (k_mach r) (k_started r).

Definition upd_k_mem (f : gmap Z Z -> gmap Z Z) (r : kstate) : kstate :=
  mkK (k_csr r) (k_cpu r) (k_locks r) (f (k_mem r)) (k_freelist r) (k_procs r) (k_nextpid r) (k_initproc r) (k_ticks r) (k_disk r) (k_bcache r) (k_sb r) (k_log r) (k_itable r) (k_ftable r) (k_pipes r) (k_cons r) (k_uart r) (k_panicked r) (k_prlocking r) (k_kpgtbl r) (k_first r) (k_plic r) (k_vdisk r) (k_devsw r) (k_mach r) (k_started r).

Definition upd_k_freelist (f : Z -> Z) (r : kstate) : kstate :=
  mkK (k_csr r) (k_cpu r) (k_locks r) (k_mem r) (f (k_freelist r)) (k_procs r) (k_nextpid r) (k_initproc r) (k_ticks r) (k_disk r) (k_bcache r) (k_sb r) (k_log r) (k_itable r) (k_ftable r) (k_pipes r) (k_cons r) (k_uart r) (k_panicked r) (k_prlocking r) (k_kpgtbl r) (k_first r) (k_plic r) (k_vdisk r) (k_devsw r) (k_mach r) (k_started r).

Definition upd_k_procs (f : list proc -> list proc) (r : kstate) : kstate :=
  mkK (k_csr r) (k_cpu r) (k_locks r) (k_mem r) (k_freelist r) (f (k_procs r)) (k_nextpid r) (k_initproc r) (k_ticks r) (k_disk r) (k_bcache r) (k_sb r) (k_log r) (k_itable r) (k_ftable r) (k_pipes r) (k_cons r) (k_uart r) (k_panicked r) (k_prlocking r) (k_kpgtbl r) (k_first r) (k_plic r) (k_vdisk r) (k_devsw r) (k_mach r) (k_started r).

Definition upd_k_nextpid (f : Z -> Z) (r : kstate) : kstate :=
  mkK (k_csr r) (k_cpu r) (k_locks r) (k_mem r) (k_freelist r) (k_procs r) (f (k_nextpid r)) (k_initproc r) (k_ticks r) (k_disk r) (k_bcache r) (k_sb r) (k_log r) (k_itable r) (k_ftable r) (k_pipes r) (k_cons r) (k_uart r) (k_panicked r) (k_prlocking r) (k_kpgtbl r) (k_first r) (k_plic r) (k_vdisk r) (k_devsw r) (k_mach r) (k_started r).

Definition upd_k_initproc (f : option nat -> option nat) (r : kstate) : kstate :=
  mkK (k_csr r) (k_cpu r) (k_locks r) (k_mem r) (k_freelist r) (k_procs r) (k_nextpid r) (f (k_initproc r)) (k_ticks r) (k_disk r) (k_bcache r) (k_sb r) (k_log r) (k_itable r) (k_ftable r) (k_pipes r) (k_cons r) (k_uart r) (k_panicked r) (k_prlocking r) (k_kpgtbl r) (k_first r) (k_plic r) (k_vdisk r) (k_devsw r) (k_mach r) (k_started r).

Definition upd_k_ticks (f : Z -> Z) (r : kstate) : kstate :=
  mkK (k_csr r) (k_cpu r) (k_locks r) (k_mem r) (k_freelist r) (k_procs r) (k_nextpid r) (k_initproc r) (f (k_ticks r)) (k_disk r) (k_bcache r) (k_sb r) (k_log r) (k_itable r) (k_ftable r) (k_pipes r) (k_cons r) (k_uart r) (k_panicked r) (k_prlocking r) (k_kpgtbl r) (k_first r) (k_plic r) (k_vdisk r) (k_devsw r) (k_mach r) (k_started r).

Definition upd_k_disk (f : diskst -> diskst) (r : kstate) : kstate :=
  mkK (k_csr r) (k_cpu r) (k_locks r) (k_mem r) (k_freelist r) (k_procs r) (k_nextpid r) (k_initproc r) (k_ticks r) (f (k_disk r)) (k_bcache r) (k_sb r) (k_log r) (k_itable r) (k_ftable r) (k_pipes r) (k_cons r) (k_uart r) (k_panicked r) (k_prlocking r) (k_kpgtbl r) (k_first r) (k_plic r) (k_vdisk r) (k_devsw r) (k_mach r) (k_started r).

Definition upd_k_bcache (f : bcachest -> bcachest) (r : kstate) : kstate :=
  mkK (k_csr r) (k_cpu r) (k_locks r) (k_mem r) (k_freelist r) (k_procs r) (k_nextpid r) (k_initproc r) (k_ticks r) (k_disk r) (f (k_bcache r)) (k_sb r) (k_log r) (k_itable r) (k_ftable r) (k_pipes r) (k_cons r) (k_uart r) (k_panicked r) (k_prlocking r) (k_kpgtbl r) (k_first r) (k_plic r) (k_vdisk r) (k_devsw r) (k_mach r) (k_started r).

Definition upd_k_sb (f : superblock -> superblock) (r : kstate) : kstate :=
  mkK (k_csr r) (k_cpu r) (k_locks r) (k_mem r) (k_freelist r) (k_procs r) (k_nextpid r) (k_initproc r) (k_ticks r) (k_disk r) (k_bcache r) (f (k_sb r)) (k_log r) (k_itable r) (k_ftable r) (k_pipes r) (k_cons r) (k_uart r) (k_panicked r) (k_prlocking r) (k_kpgtbl r) (k_first r) (k_plic r) (k_vdisk r) (k_devsw r) (k_mach r) (k_started r).

Definition upd_k_log (f : logst -> logst) (r : kstate) : kstate :=
  mkK (k_csr r) (k_cpu r) (k_locks r) (k_mem r) (k_freelist r) (k_procs r) (k_nextpid r) (k_initproc r) (k_ticks r) (k_disk r) (k_bcache r) (k_sb r) (f (k_log r)) (k_itable r) (k_ftable r) (k_pipes r) (k_cons r) (k_uart r) (k_panicked r) (k_prlocking r) (k_kpgtbl r) (k_first r) (k_plic r) (k_vdisk r) (k_devsw r) (k_mach r) (k_started r).

Definition upd_k_itable (f : list inode -> list inode) (r : kstate) : kstate :=
  mkK (k_csr r) (k_cpu r) (k_locks r) (k_mem r) (k_freelist r) (k_procs r) (k_nextpid r) (k_initproc r) (k_ticks r) (k_disk r) (k_bcache r) (k_sb r) (k_log r) (f (k_itable r)) (k_ftable r) (k_pipes r) (k_cons r) (k_uart r) (k_panicked r) (k_prlocking r) (k_kpgtbl r) (k_first r) (k_plic r) (k_vdisk r) (k_devsw r) (k_mach r) (k_started r).

Definition upd_k_ftable (f : list file -> list file) (r : kstate) : kstate :=
  mkK (k_csr r) (k_cpu r) (k_locks r) (k_mem r) (k_freelist r) (k_procs r) (k_nextpid r) (k_initproc r) (k_ticks r) (k_disk r) (k_bcache r) (k_sb r) (k_log r) (k_itable r) (f (k_ftable r)) (k_pipes r) (k_cons r) (k_uart r) (k_panicked r) (k_prlocking r) (k_kpgtbl r) (k_first r) (k_plic r) (k_vdisk r) (k_devsw r) (k_mach r) (k_started r).

Definition upd_k_pipes (f : gmap Z pipe -> gmap Z pipe) (r : kstate) : kstate :=
  mkK (k_csr r) (k_cpu r) (k_locks r) (k_mem r) (k_freelist r) (k_procs r) (k_nextpid r) (k_initproc r) (k_ticks r) (k_disk r) (k_bcache r) (k_sb r) (k_log r) (k_itable r) (k_ftable r) (f (k_pipes r)) (k_cons r) (k_uart r) (k_panicked r) (k_prlocking r) (k_kpgtbl r) (k_first r) (k_plic r) (k_vdisk r) (k_devsw r) (k_mach r) (k_started r).

Definition upd_k_cons (f : consst -> consst) (r : kstate) : kstate :=
  mkK (k_csr r) (k_cpu r) (k_locks r) (k_mem r) (k_freelist r) (k_procs r) (k_nextpid r) (k_initproc r) (k_ticks r) (k_disk r) (k_bcache r) (k_sb r) (k_log r) (k_itable r) (k_ftable r) (k_pipes r) (f (k_cons r)) (k_uart r) (k_panicked r) (k_prlocking r) (k_kpgtbl r) (k_first r) (k_plic r) (k_vdisk r) (k_devsw r) (k_mach r) (k_started r).

Definition upd_k_uart (f : uartst -> uartst) (r : kstate) : kstate :=
  mkK (k_csr r) (k_cpu r) (k_locks r) (k_mem r) (k_freelist r) (k_procs r) (k_nextpid r) (k_initproc r) (k_ticks r) (k_disk r) (k_bcache r) (k_sb r) (k_log r) (k_itable r) (k_ftable r) (k_pipes r) (k_cons r) (f (k_uart r)) (k_panicked r) (k_prlocking r) (k_kpgtbl r) (k_first r) (k_plic r) (k_vdisk r) (k_devsw r) (k_mach r) (k_started r).

Definition upd_k_panicked (f : bool -> bool) (r : kstate) : kstate :=
  mkK (k_csr r) (k_cpu r) (k_locks r) (k_mem r) (k_freelist r) (k_procs r) (k_nextpid r) (k_initproc r) (k_ticks r) (k_disk r) (k_bcache r) (k_sb r) (k_log r) (k_itable r) (k_ftable r) (k_pipes r) (k_cons r) (k_uart r) (f (k_panicked r)) (k_prlocking r) (k_kpgtbl r) (k_first r) (k_plic r) (k_vdisk r) (k_devsw r) (k_mach r) (k_started r).

Definition upd_k_prlocking (f : bool -> bool) (r : kstate) : kstate :=
  mkK (k_csr r) (k_cpu r) (k_locks r) (k_mem r) (k_freelist r) (k_procs r) (k_nextpid r) (k_initproc r) (k_ticks r) (k_disk r) (k_bcache r) (k_sb r) (k_log r) (k_itable r) (k_ftable r) (k_pipes r) (k_cons r) (k_uart r) (k_panicked r) (f (k_prlocking r)) (k_kpgtbl r) (k_first r) (k_plic r) (k_vdisk r) (k_devsw r) (k_mach r) (k_started r).

Definition upd_k_kpgtbl (f : Z -> Z) (r : kstate) : kstate :=
  mkK (k_csr r) (k_cpu r) (k_locks r) (k_mem r) (k_freelist r) (k_procs r) (k_nextpid r) (k_initproc r) (k_ticks r) (k_disk r) (k_bcache r) (k_sb r) (k_log r) (k_itable r) (k_ftable r) (k_pipes r) (k_cons r) (k_uart r) (k_panicked r) (k_prlocking r) (f (k_kpgtbl r)) (k_first r) (k_plic r) (k_vdisk r) (k_devsw r) (k_mach r) (k_started r).

Definition upd_k_first (f : bool -> bool) (r : kstate) : kstate :=
  mkK (k_csr r) (k_cpu r) (k_locks r) (k_mem r) (k_freelist r) (k_procs r) (k_nextpid r) (k_initproc r) (k_ticks r) (k_disk r) (k_bcache r) (k_sb r) (k_log r) (k_itable r) (k_ftable r) (k_pipes r) (k_cons r) (k_uart r) (k_panicked r) (k_prlocking r) (k_kpgtbl r) (f (k_first r)) (k_plic r) (k_vdisk r) (k_devsw r) (k_mach r) (k_started r).

Definition upd_k_plic (f : plicst -> plicst) (r : kstate) : kstate :=
  mkK (k_csr r) (k_cpu r) (k_locks r) (k_mem r) (k_freelist r) (k_procs r) (k_nextpid r) (k_initproc r) (k_ticks r) (k_disk r) (k_bcache r) (k_sb r) (k_log r) (k_itable r) (k_ftable r) (k_pipes r) (k_cons r) (k_uart r) (k_panicked r) (k_prlocking r) (k_kpgtbl r) (k_first r) (f (k_plic r)) (k_vdisk r) (k_devsw r) (k_mach r) (k_started r).

Definition upd_k_vdisk (f : vdiskst -> vdiskst) (r : kstate) : kstate :=
  mkK (k_csr r) (k_cpu r) (k_locks r) (k_mem r) (k_freelist r) (k_procs r) (k_nextpid r) (k_initproc r) (k_ticks r) (k_disk r) (k_bcache r) (k_sb r) (k_log r) (k_itable r) (k_ftable r) (k_pipes r) (k_cons r) (k_uart r) (k_panicked r) (k_prlocking r) (k_kpgtbl r) (k_first r) (k_plic r) (f (k_vdisk r)) (k_devsw r) (k_mach r) (k_started r).

Definition upd_k_devsw (f : list devsw -> list devsw) (r : kstate) : kstate :=
  mkK (k_csr r) (k_cpu r) (k_locks r) (k_mem r) (k_freelist r) (k_procs r) (k_nextpid r) (k_initproc r) (k_ticks r) (k_disk r) (k_bcache r) (k_sb r) (k_log r) (k_itable r) (k_ftable r) (k_pipes r) (k_cons r) (k_uart r) (k_panicked r) (k_prlocking r) (k_kpgtbl r) (k_first r) (k_plic r) (k_vdisk r) (f (k_devsw r)) (k_mach r) (k_started r).

Definition upd_k_mach (f : machst -> machst) (r : kstate) : kstate :=
  mkK (k_csr r) (k_cpu r) (k_locks r) (k_mem r) (k_freelist r) (k_procs r) (k_nextpid r) (k_initproc r) (k_ticks r) (k_disk r) (k_bcache r) (k_sb r) (k_log r) (k_itable r) (k_ftable r) (k_pipes r) (k_cons r) (k_uart r) (k_panicked r) (k_prlocking r) (k_kpgtbl r) (k_first r) (k_plic r) (k_vdisk r) (k_devsw r) (f (k_mach r)) (k_started r).

Definition upd_k_started (f : bool -> bool) (r : kstate) : kstate :=
  mkK (k_csr r) (k_cpu r) (k_locks r) (k_mem r) (k_freelist r) (k_procs r) (k_nextpid r) (k_initproc r) (k_ticks r) (k_disk r) (k_bcache r) (k_sb r) (k_log r) (k_itable r) (k_ftable r) (k_pipes r) (k_cons r) (k_uart r) (k_panicked r) (k_prlocking r) (k_kpgtbl r) (k_first r) (k_plic r) (k_vdisk r) (k_devsw r) (k_mach r) (f (k_started r)).

(** Kernel code. *)
Abbreviation K := (M kstate).

(** ** Table access *)

(** Field [f] of entry [i] of a table; [d] stands for an index out of range,
    which no caller produces. *)
Definition entry {A B} (tbl : kstate -> list A) (f : A -> B) (d : B) (i : nat)
    (s : kstate) : B :=
  match tbl s !! i with Some x => f x | None => d end.

Definition upd_proc (i : nat) (f : proc -> proc) : K unit :=
  modify (upd_k_procs (alter f i)).

Definition upd_inode (i : nat) (f : inode -> inode) : K unit :=
  modify (upd_k_itable (alter f i)).

Definition upd_file (i : nat) (f : file -> file) : K unit :=
  modify (upd_k_ftable (alter f i)).

Definition upd_buf (i : nat) (f : buf -> buf) : K unit :=
  modify (upd_k_bcache (upd_bc_buf (alter f i))).

(** Reads entry [i] of a table; an index outside it is a wild pointer, whose
    use faults in the kernel. *)
Definition get_entry {A} (tbl : kstate -> list A) (i : nat) : K A := fun s =>
  match tbl s !! i with Some x => Ok x s | None => Panic "kerneltrap" end.

Definition get_proc : nat -> K proc := get_entry k_procs.

Definition get_inode : nat -> K inode := get_entry k_itable.

Definition get_file : nat -> K file := get_entry k_ftable.

Definition get_buf : nat -> K buf := get_entry (fun s => bc_buf (k_bcache s)).

(** ** The state of the kernel's memory when it starts

    Every global is zero, as the loader leaves the bss segment. *)

Definition zero_sleeplock : sleeplock := mkSleeplock false 0.

Definition zero_context : context := mkContext 0 0 (replicate 12 0).

Definition zero_proc : proc :=
  mkProc UNUSED Ch_null 0 0 0 None 0 0 0 0 zero_context (replicate 16 None) None (replicate 16 0).

Definition zero_buf : buf := mkBuf false false 0 0 zero_sleeplock 0 0 0 (replicate 1024 0).

Definition zero_inode : inode :=
  mkInode 0 0 0 zero_sleeplock false 0 0 0 0 0 (replicate 13 0).

Definition zero_file : file := mkFile FD_NONE 0 false false 0 None 0 0.

Definition zero_vdesc : vdesc := mkVdesc VA_null 0 0 0.

Definition zero_vinfo : vinfo := mkVinfo None 0.

Definition zero_vreq : vreq := mkVreq 0 0 0.

(** Hart [tp] at boot with memory [mem] and disk [d]. *)
Definition boot_state (tp : Z) (mem : gmap Z Z) (d : gmap Z (list Z)) : kstate :=
  mkK (mkCsrs tp 0 0 0 0 0 0 0) (mkCpu None 0 false) [] mem 0
    (replicate 64 zero_proc) 1 None 0 (mkDisk d [])
    (mkBcache (replicate 30 zero_buf) 0 0) (mkSb 0 0 0 0 0 0 0 0)
    (mkLog 0 0 0 false 0 0 (replicate 30 0)) (replicate 50 zero_inode)
    (replicate 100 zero_file) ∅ (mkCons (replicate 128 0) 0 0 0)
    (mkUart (replicate 32 0) 0 0 [] [] [] []) false false 0 true (mkPlic ∅ [])
    (mkVdisk (replicate 8 zero_vdesc) 0 (replicate 8 0) 0 (replicate 8 0)
      (replicate 8 false) 0 (replicate 8 zero_vinfo) (replicate 8 zero_vreq) ∅ false)
    (replicate 10 (mkDevsw None None)) (mkMach tp 0 0 0 0 0 0 0 0 0 0) false.

Lemma wp_get_entry {A} (tbl : kstate -> list A) i x (Q : A -> kstate -> Prop) s :
  tbl s !! i = Some x -> Q x s -> wp (get_entry tbl i) Q s.
Proof. unfold wp, get_entry. by intros ->. Qed.

(** Reduces field reads and updates of the records above. *)
Ltac ksimpl :=
  cbv beta delta [upd_r_tp upd_r_sstatus upd_r_sepc upd_r_scause upd_r_stval upd_r_stvec
    upd_r_satp upd_r_sip upd_c_proc upd_c_noff upd_c_intena upd_sl_locked
    upd_sl_pid upd_ctx_ra upd_ctx_sp upd_ctx_s upd_p_state upd_p_chan
    upd_p_killed upd_p_xstate upd_p_pid upd_p_parent upd_p_kstack upd_p_sz
    upd_p_pagetable upd_p_trapframe upd_p_context upd_p_ofile upd_p_cwd
    upd_p_name upd_b_valid upd_b_disk upd_b_dev upd_b_blockno upd_b_lock
    upd_b_refcnt upd_b_prev upd_b_next upd_b_data upd_sb_magic upd_sb_size
    upd_sb_nblocks upd_sb_ninodes upd_sb_nlog upd_sb_logstart
    upd_sb_inodestart upd_sb_bmapstart upd_l_start upd_l_size
    upd_l_outstanding upd_l_committing upd_l_dev upd_l_n upd_l_block upd_i_dev
    upd_i_inum upd_i_ref upd_i_lock upd_i_valid upd_i_type upd_i_major
    upd_i_minor upd_i_nlink upd_i_size upd_i_addrs upd_f_type upd_f_ref
    upd_f_readable upd_f_writable upd_f_pipe upd_f_ip upd_f_off upd_f_major
    upd_pi_data upd_pi_nread upd_pi_nwrite upd_pi_readopen upd_pi_writeopen
    upd_d_init upd_d_hist upd_bc_buf upd_bc_hprev upd_bc_hnext upd_cons_buf
    upd_cons_r upd_cons_w upd_cons_e upd_tx_buf upd_tx_w upd_tx_r upd_u_out
    upd_u_in upd_u_idle upd_u_regs upd_pl_reg upd_pl_pending upd_vd_addr
    upd_vd_len upd_vd_flags upd_vd_next upd_rq_type upd_rq_reserved
    upd_rq_sector upd_vi_b upd_vi_status upd_dk_desc upd_dk_avail_idx
    upd_dk_avail_ring upd_dk_used_idx upd_dk_used_ring upd_dk_free
    upd_dk_seen_idx upd_dk_info upd_dk_ops upd_dk_regs upd_dk_refuses
    upd_dv_read upd_dv_write upd_m_hartid upd_m_status upd_m_epc upd_m_edeleg
    upd_m_ideleg upd_m_ie upd_m_scratch upd_m_tvec upd_m_pmpaddr0
    upd_m_pmpcfg0 upd_s_ie upd_k_csr upd_k_cpu upd_k_locks upd_k_mem
    upd_k_freelist upd_k_procs upd_k_nextpid upd_k_initproc upd_k_ticks
    upd_k_disk upd_k_bcache upd_k_sb upd_k_log upd_k_itable upd_k_ftable
    upd_k_pipes upd_k_cons upd_k_uart upd_k_panicked upd_k_prlocking
    upd_k_kpgtbl upd_k_first upd_k_plic upd_k_vdisk upd_k_devsw upd_k_mach
    upd_k_started];
  cbn [r_tp r_sstatus r_sepc r_scause r_stval r_stvec r_satp r_sip c_proc c_noff
    c_intena sl_locked sl_pid ctx_ra ctx_sp ctx_s p_state p_chan p_killed
    p_xstate p_pid p_parent p_kstack p_sz p_pagetable p_trapframe p_context
    p_ofile p_cwd p_name b_valid b_disk b_dev b_blockno b_lock b_refcnt b_prev
    b_next b_data sb_magic sb_size sb_nblocks sb_ninodes sb_nlog sb_logstart
    sb_inodestart sb_bmapstart l_start l_size l_outstanding l_committing l_dev
    l_n l_block i_dev i_inum i_ref i_lock i_valid i_type i_major i_minor
    i_nlink i_size i_addrs f_type f_ref f_readable f_writable f_pipe f_ip
    f_off f_major pi_data pi_nread pi_nwrite pi_readopen pi_writeopen d_init
    d_hist bc_buf bc_hprev bc_hnext cons_buf cons_r cons_w cons_e tx_buf tx_w
    tx_r u_out u_in u_idle u_regs pl_reg pl_pending vd_addr vd_len vd_flags
    vd_next rq_type rq_reserved rq_sector vi_b vi_status dk_desc dk_avail_idx
    dk_avail_ring dk_used_idx dk_used_ring dk_free dk_seen_idx dk_info dk_ops
    dk_regs dk_refuses dv_read dv_write m_hartid m_status m_epc m_edeleg
    m_ideleg m_ie m_scratch m_tvec m_pmpaddr0 m_pmpcfg0 s_ie k_csr k_cpu
    k_locks k_mem k_freelist k_procs k_nextpid k_initproc k_ticks k_disk
    k_bcache k_sb k_log k_itable k_ftable k_pipes k_cons k_uart k_panicked
    k_prlocking k_kpgtbl k_first k_plic k_vdisk k_devsw k_mach k_started].
