(* ===== verification/Spinlock.v ===== *)
(** * Spinlocks and interrupt nesting (kernel/spinlock.c, riscv.h)

    [k_locks] holds the spinlocks whose [locked] word is 1, each with the hart
    in its [cpu] field.  [acquire] of a lock another hart holds spins; of a lock
    this hart holds, it panics.  The component's invariant is [sync_ok]; the
    main fact is that [release] undoes [acquire] exactly, interrupt state
    included ([acquire_release]). *)

From Stdlib Require Import ZArith Lia.
From stdpp Require Import base tactics numbers gmap strings option list.
From S2P Require Import Prelude Kernel.

(** ** Definitions *)

Definition SSTATUS_SIE : Z := Z.shiftl 1 1.

Definition intr_on : K unit :=
  modify (upd_k_csr (upd_r_sstatus (fun x => Z.lor x SSTATUS_SIE))).

Definition intr_off : K unit :=
  modify (upd_k_csr (upd_r_sstatus (fun x => Z.land x (Z.lnot SSTATUS_SIE)))).

(** The SIE bit of sstatus. *)
Definition sie (s : kstate) : bool :=
  negb (Z.land (r_sstatus (k_csr s)) SSTATUS_SIE =? 0).

Definition intr_get : K bool := gets sie.

(** int cpuid(): the number of the hart, kept in tp. *)
Definition cpuid : K Z := gets (fun s => r_tp (k_csr s)).

Definition push_off : K unit :=
  old ← intr_get;
  intr_off;;
  noff ← gets (fun s => c_noff (k_cpu s));
  when (noff =? 0) (modify (upd_k_cpu (upd_c_intena (fun _ => old))));;
  modify (upd_k_cpu (upd_c_noff (fun n => n + 1))).

Definition pop_off : K unit :=
  i ← intr_get;
  if i : bool then panic "pop_off - interruptible" else
  noff ← gets (fun s => c_noff (k_cpu s));
  if noff <? 1 then panic "pop_off" else
  modify (upd_k_cpu (upd_c_noff (fun n => n - 1)));;
  c ← gets k_cpu;
  when ((c_noff c =? 0) && c_intena c) intr_on.

(** lk->cpu when lk->locked is 1. *)
Fixpoint lock_holder (lk : lockid) (l : list (lockid * Z)) : option Z :=
  match l with
  | [] => None
  | (lk', c) :: l' => if decide (lk = lk') then Some c else lock_holder lk l'
  end.

Fixpoint lock_remove (lk : lockid) (l : list (lockid * Z)) : list (lockid * Z) :=
  match l with
  | [] => []
  | (lk', c) :: l' =>
      if decide (lk = lk') then l' else (lk', c) :: lock_remove lk l'
  end.

(** void initlock(lk, name): lk->locked = 0. *)
Definition initlock (lk : lockid) : K unit := modify (upd_k_locks (lock_remove lk)).

(** Whether lk->locked && lk->cpu == mycpu(). *)
Definition held (lk : lockid) (s : kstate) : bool :=
  match lock_holder lk (k_locks s) with
  | Some c => c =? r_tp (k_csr s)
  | None => false
  end.

Definition holding (lk : lockid) : K bool := gets (held lk).

Definition acquire (lk : lockid) : K unit :=
  push_off;;
  h ← holding lk;
  if h : bool then panic "acquire" else
  l ← gets k_locks;
  match lock_holder lk l with
  | Some _ => spin
  | None => modify (fun s => upd_k_locks (cons (lk, r_tp (k_csr s))) s)
  end.

Definition release (lk : lockid) : K unit :=
  h ← holding lk;
  if negb h then panic "release" else
  modify (upd_k_locks (lock_remove lk));;
  pop_off.

(** A lock nobody holds. *)
Definition free (lk : lockid) (s : kstate) : Prop :=
  lock_holder lk (k_locks s) = None.

(** The interrupt nesting of the hart is consistent: interrupts are off inside
    every push_off. *)
Definition sync_ok (s : kstate) : Prop :=
  0 <= c_noff (k_cpu s) /\ (0 < c_noff (k_cpu s) -> sie s = false).

(** The state inside push_off() ... pop_off(). *)
Definition pushed (s : kstate) : kstate :=
  upd_k_csr (upd_r_sstatus (fun x => Z.land x (Z.lnot SSTATUS_SIE)))
    (upd_k_cpu (fun c => mkCpu (c_proc c) (c_noff c + 1)
                  (if c_noff c =? 0 then sie s else c_intena c)) s).

(** The state just after acquire(lk). *)
Definition locked (lk : lockid) (s : kstate) : kstate :=
  upd_k_locks (cons (lk, r_tp (k_csr s))) (pushed s).

(** [c_intena] means something only inside push_off(): outside, the next
    push_off() overwrites it.  [settle s] is the cpu structure with the value
    that push_off() will store there. *)
Definition settle (s : kstate) : cpu :=
  mkCpu (c_proc (k_cpu s)) (c_noff (k_cpu s))
    (if c_noff (k_cpu s) =? 0 then sie s else c_intena (k_cpu s)).

(** The part of the state that acquire() and release() change. *)
Definition sync (s : kstate) : csrs * cpu * list (lockid * Z) :=
  (k_csr s, settle s, k_locks s).

(** [s'] with the synchronisation state of [s]. *)
Definition resync (s s' : kstate) : kstate :=
  upd_k_csr (fun _ => k_csr s) (upd_k_cpu (fun _ => settle s)
    (upd_k_locks (fun _ => k_locks s) s')).

(** ** Lemmas *)

Lemma land_sie_off x : Z.land (Z.land x (Z.lnot SSTATUS_SIE)) SSTATUS_SIE = 0.
Proof.
  rewrite <- Z.land_assoc, (Z.land_comm (Z.lnot _)), Z.land_lnot_diag.
  apply Z.land_0_r.
Qed.

Lemma lor_sie_on x :
  Z.land x SSTATUS_SIE <> 0 ->
  Z.lor (Z.land x (Z.lnot SSTATUS_SIE)) SSTATUS_SIE = x.
Proof.
  intros H. rewrite Z.lor_land_distr_l, (Z.lor_comm (Z.lnot _)), Z.lor_lnot_diag.
  rewrite Z.land_m1_r. change SSTATUS_SIE with (2 ^ 1) in *.
  apply Z.bits_inj'. intros n Hn. rewrite Z.lor_spec, Z.pow2_bits_eqb by lia.
  destruct (Z.eqb_spec 1 n) as [<-|]; [|by rewrite orb_false_r].
  rewrite orb_true_r. symmetry. apply not_false_is_true. intros Hb. apply H.
  apply Z.bits_inj'. intros k Hk. rewrite Z.land_spec, Z.pow2_bits_eqb, Z.bits_0 by lia.
  destruct (Z.eqb_spec 1 k) as [<-|]; [by rewrite Hb|by rewrite andb_false_r].
Qed.

Lemma land_sie_idem x :
  Z.land x SSTATUS_SIE = 0 -> Z.land x (Z.lnot SSTATUS_SIE) = x.
Proof.
  intros H. apply Z.bits_inj'. intros n Hn. rewrite Z.land_spec, Z.lnot_spec by done.
  assert (Hb : Z.testbit (Z.land x SSTATUS_SIE) n = false) by (rewrite H; apply Z.bits_0).
  rewrite Z.land_spec in Hb. destruct (Z.testbit x n), (Z.testbit SSTATUS_SIE n); done.
Qed.

Lemma sie_pushed s : sie (pushed s) = false.
Proof. unfold sie. cbn. by rewrite land_sie_off. Qed.

Lemma push_off_ok s : push_off s = Ok tt (pushed s).
Proof.
  unfold push_off, pushed, intr_get, intr_off. run. cbn.
  destruct s as [[] [? n ?]]. ksimpl. by destruct (n =? 0).
Qed.

(** pop_off() undoes push_off(), the interrupt-enable bit included. *)
Lemma pop_off_ok s s' :
  sync_ok s -> k_csr s' = k_csr (pushed s) -> k_cpu s' = k_cpu (pushed s) ->
  pop_off s' = Ok tt (upd_k_csr (fun _ => k_csr s) (upd_k_cpu (fun _ => settle s) s')).
Proof.
  intros [Hn Hoff] Hcsr Hcpu.
  unfold pop_off, intr_get, intr_on. run.
  replace (sie s') with false by (unfold sie; by rewrite Hcsr; cbn; rewrite land_sie_off).
  cbn [k_cpu k_csr upd_k_cpu upd_k_csr pushed c_noff] in *. rewrite Hcpu.
  cbn [c_noff]. rewrite (proj2 (Z.ltb_ge _ _)) by lia.
  destruct s as [[? sst] [? n ena]], s'; cbn in *. subst. unfold settle. ksimpl.
  replace (n + 1 - 1) with n by lia. unfold sie in *; cbn in *. ksimpl.
  destruct (Z.eqb_spec n 0) as [->|Hne]; cbn.
  - destruct (Z.eqb_spec (Z.land sst SSTATUS_SIE) 0) as [E|E]; cbn.
    + by rewrite land_sie_idem.
    + by rewrite lor_sie_on.
  - assert (E : Z.land sst SSTATUS_SIE = 0).
    { specialize (Hoff ltac:(lia)). by bool_decide_tests. }
    by rewrite land_sie_idem.
Qed.

Lemma acquire_ok lk s : free lk s -> acquire lk s = Ok tt (locked lk s).
Proof.
  intros Hf. unfold acquire. erewrite bind_ok by apply push_off_ok.
  assert (Hf' : lock_holder lk (k_locks (pushed s)) = None) by done.
  erewrite bind_ok by (unfold holding, gets, held; by rewrite Hf').
  cbv iota. erewrite bind_ok by done. by rewrite Hf'.
Qed.

Lemma wp_acquire lk s Q : free lk s -> Q tt (locked lk s) -> wp (acquire lk) Q s.
Proof. intros. by eapply wp_ok; [apply acquire_ok|]. Qed.

Lemma holder_locked lk s : lock_holder lk (k_locks (locked lk s)) = Some (r_tp (k_csr s)).
Proof. cbn. by rewrite decide_True. Qed.

Lemma free_locked lk lk' s : lk <> lk' -> free lk s -> free lk (locked lk' s).
Proof. intros. unfold free. cbn. by rewrite decide_False. Qed.

Lemma sync_ok_locked lk s : sync_ok s -> sync_ok (locked lk s).
Proof.
  intros [? ?]. split; [cbn; lia|]. intros _. apply (sie_pushed s).
Qed.

Lemma sync_free lk s s' : sync s' = sync s -> free lk s -> free lk s'.
Proof. unfold sync, free. by intros [= _ _ _ _ ->]. Qed.

Lemma sync_sync_ok s s' : sync s' = sync s -> sync_ok s -> sync_ok s'.
Proof. unfold sync, settle, sync_ok, sie. by intros [= -> _ -> _ _]. Qed.

Lemma held_locked lk s s' : sync s' = sync (locked lk s) -> held lk s' = true.
Proof.
  unfold sync. intros [= Hc _ _ _ Hl]. unfold held. rewrite Hl, Hc. cbn.
  rewrite decide_True by done. apply Z.eqb_refl.
Qed.

Lemma settle_pushed s : sync_ok s -> settle (pushed s) = k_cpu (pushed s).
Proof.
  intros [Hn _]. unfold settle. cbn. by rewrite (proj2 (Z.eqb_neq (_ + 1) 0)) by lia.
Qed.

Lemma settle_cpu s c : settle s = c -> c_noff c <> 0 -> k_cpu s = c.
Proof.
  intros <-. unfold settle. cbn. destruct (k_cpu s) as [p n e]; cbn.
  intros. by rewrite (proj2 (Z.eqb_neq n 0)).
Qed.

(** release() after acquire() restores the lock, the nesting depth and the
    interrupt state. *)
Lemma release_ok lk s s' :
  sync_ok s -> sync s' = sync (locked lk s) -> release lk s' = Ok tt (resync s s').
Proof.
  intros Hok Hsync. unfold release.
  erewrite bind_ok by (unfold holding, gets; by rewrite (held_locked _ _ _ Hsync)).
  cbn [negb]. unfold sync in Hsync. apply pair_equal_spec in Hsync as [[Hcsr Hcpu]%pair_equal_spec Hl].
  erewrite bind_ok by done.
  assert (Hc : k_cpu s' = k_cpu (pushed s)).
  { apply settle_cpu; [by rewrite Hcpu; apply settle_pushed|].
    destruct Hok. cbn. lia. }
  rewrite (pop_off_ok s) by done. unfold resync. ksimpl. rewrite Hl. cbn.
  by rewrite decide_True.
Qed.

Lemma wp_release lk s s' Q :
  sync_ok s -> sync s' = sync (locked lk s) -> Q tt (resync s s') -> wp (release lk) Q s'.
Proof. intros. by eapply wp_ok; [by apply release_ok|]. Qed.

Lemma sync_resync s s' : sync (resync s s') = sync s.
Proof.
  unfold sync, resync, settle, sie. ksimpl. unfold settle, sie. ksimpl.
  by destruct (c_noff (k_cpu s) =? 0).
Qed.

(** For states that differ from [resync s s'] in other fields only. *)
Lemma sync_restored s x : sync x = sync (resync s s) -> sync x = sync s.
Proof. intros ->. apply sync_resync. Qed.

#[export] Hint Resolve sync_ok_locked free_locked sync_free sync_sync_ok : xv6.
(** Updates of other fields leave the synchronisation state alone. *)
Lemma sync_k_mem f s : sync (upd_k_mem f s) = sync s.
Proof. reflexivity. Qed.

Lemma sync_k_freelist f s : sync (upd_k_freelist f s) = sync s.
Proof. reflexivity. Qed.

Lemma sync_k_procs f s : sync (upd_k_procs f s) = sync s.
Proof. reflexivity. Qed.

Lemma sync_k_nextpid f s : sync (upd_k_nextpid f s) = sync s.
Proof. reflexivity. Qed.

Lemma sync_k_initproc f s : sync (upd_k_initproc f s) = sync s.
Proof. reflexivity. Qed.

Lemma sync_k_ticks f s : sync (upd_k_ticks f s) = sync s.
Proof. reflexivity. Qed.

Lemma sync_k_disk f s : sync (upd_k_disk f s) = sync s.
Proof. reflexivity. Qed.

Lemma sync_k_bcache f s : sync (upd_k_bcache f s) = sync s.
Proof. reflexivity. Qed.

Lemma sync_k_sb f s : sync (upd_k_sb f s) = sync s.
Proof. reflexivity. Qed.

Lemma sync_k_log f s : sync (upd_k_log f s) = sync s.
Proof. reflexivity. Qed.

Lemma sync_k_itable f s : sync (upd_k_itable f s) = sync s.
Proof. reflexivity. Qed.

Lemma sync_k_ftable f s : sync (upd_k_ftable f s) = sync s.
Proof. reflexivity. Qed.

Lemma sync_k_pipes f s : sync (upd_k_pipes f s) = sync s.
Proof. reflexivity. Qed.

Lemma sync_k_cons f s : sync (upd_k_cons f s) = sync s.
Proof. reflexivity. Qed.

Lemma sync_k_uart f s : sync (upd_k_uart f s) = sync s.
Proof. reflexivity. Qed.

Lemma sync_k_panicked f s : sync (upd_k_panicked f s) = sync s.
Proof. reflexivity. Qed.

Lemma sync_k_prlocking f s : sync (upd_k_prlocking f s) = sync s.
Proof. reflexivity. Qed.

Lemma sync_k_kpgtbl f s : sync (upd_k_kpgtbl f s) = sync s.
Proof. reflexivity. Qed.

Lemma sync_k_first f s : sync (upd_k_first f s) = sync s.
Proof. reflexivity. Qed.

Lemma sync_k_plic f s : sync (upd_k_plic f s) = sync s.
Proof. reflexivity. Qed.

Lemma sync_k_vdisk f s : sync (upd_k_vdisk f s) = sync s.
Proof. reflexivity. Qed.

Lemma sync_k_devsw f s : sync (upd_k_devsw f s) = sync s.
Proof. reflexivity. Qed.

Lemma sync_k_mach f s : sync (upd_k_mach f s) = sync s.
Proof. reflexivity. Qed.

Lemma sync_k_started f s : sync (upd_k_started f s) = sync s.
Proof. reflexivity. Qed.

#[export] Hint Rewrite sync_resync
  sync_k_mem sync_k_freelist sync_k_procs sync_k_nextpid sync_k_initproc
  sync_k_ticks sync_k_disk sync_k_bcache sync_k_sb sync_k_log
  sync_k_itable sync_k_ftable sync_k_pipes sync_k_cons sync_k_uart
  sync_k_panicked sync_k_prlocking sync_k_kpgtbl sync_k_first sync_k_plic
  sync_k_vdisk sync_k_devsw sync_k_mach sync_k_started : ksync.

(** Proves that two states have the same synchronisation state. *)
Ltac ksync := autorewrite with ksync; first [reflexivity | assumption | congruence].

(** Executes the release() of a lock acquired earlier in the run. *)
Ltac wp_rel :=
  lazymatch goal with
  | |- wp (release ?lk) _ ?s' =>
      lazymatch s' with
      | context [locked lk ?s0] => apply (wp_release lk s0); [|ksync|]
      end
  end.

(** ** Equality of states up to a dead variable

    [s ≡ s'] when the states differ at most in an [intena] field that no code will
    read before push_off() sets it again.  The specifications of code that takes
    and gives back locks are stated up to this equivalence. *)

(** The fields other than those of the hart and the locks. *)
Definition others (s : kstate) :=
  (k_mem s, k_freelist s, k_procs s, k_nextpid s, k_initproc s, k_ticks s,
   k_disk s, k_bcache s, k_sb s, k_log s, k_itable s, k_ftable s,
   k_pipes s, k_cons s, k_uart s, k_panicked s, k_prlocking s, k_kpgtbl s,
   k_first s, k_plic s, k_vdisk s, k_devsw s, k_mach s, k_started s).

#[export] Instance kstate_equiv : Equiv kstate := fun s s' =>
  sync s = sync s' /\ others s = others s'.

#[export] Instance kstate_equivalence : Equivalence (≡@{kstate}).
Proof.
  split.
  - by intros s.
  - intros s s' [E E']. by split.
  - intros s1 s2 s3 [E1 E2] [E3 E4]. split; congruence.
Qed.

Lemma keq_k_mem s s' : s ≡ s' -> k_mem s = k_mem s'.
Proof. intros [_ E]. unfold others in E. congruence. Qed.

Lemma keq_k_freelist s s' : s ≡ s' -> k_freelist s = k_freelist s'.
Proof. intros [_ E]. unfold others in E. congruence. Qed.

Lemma keq_k_procs s s' : s ≡ s' -> k_procs s = k_procs s'.
Proof. intros [_ E]. unfold others in E. congruence. Qed.

Lemma keq_k_nextpid s s' : s ≡ s' -> k_nextpid s = k_nextpid s'.
Proof. intros [_ E]. unfold others in E. congruence. Qed.

Lemma keq_k_initproc s s' : s ≡ s' -> k_initproc s = k_initproc s'.
Proof. intros [_ E]. unfold others in E. congruence. Qed.

Lemma keq_k_ticks s s' : s ≡ s' -> k_ticks s = k_ticks s'.
Proof. intros [_ E]. unfold others in E. congruence. Qed.

Lemma keq_k_disk s s' : s ≡ s' -> k_disk s = k_disk s'.
Proof. intros [_ E]. unfold others in E. congruence. Qed.

Lemma keq_k_bcache s s' : s ≡ s' -> k_bcache s = k_bcache s'.
Proof. intros [_ E]. unfold others in E. congruence. Qed.

Lemma keq_k_sb s s' : s ≡ s' -> k_sb s = k_sb s'.
Proof. intros [_ E]. unfold others in E. congruence. Qed.

Lemma keq_k_log s s' : s ≡ s' -> k_log s = k_log s'.
Proof. intros [_ E]. unfold others in E. congruence. Qed.

Lemma keq_k_itable s s' : s ≡ s' -> k_itable s = k_itable s'.
Proof. intros [_ E]. unfold others in E. congruence. Qed.

Lemma keq_k_ftable s s' : s ≡ s' -> k_ftable s = k_ftable s'.
Proof. intros [_ E]. unfold others in E. congruence. Qed.

Lemma keq_k_pipes s s' : s ≡ s' -> k_pipes s = k_pipes s'.
Proof. intros [_ E]. unfold others in E. congruence. Qed.

Lemma keq_k_cons s s' : s ≡ s' -> k_cons s = k_cons s'.
Proof. intros [_ E]. unfold others in E. congruence. Qed.

Lemma keq_k_uart s s' : s ≡ s' -> k_uart s = k_uart s'.
Proof. intros [_ E]. unfold others in E. congruence. Qed.

Lemma keq_k_panicked s s' : s ≡ s' -> k_panicked s = k_panicked s'.
Proof. intros [_ E]. unfold others in E. congruence. Qed.

Lemma keq_k_prlocking s s' : s ≡ s' -> k_prlocking s = k_prlocking s'.
Proof. intros [_ E]. unfold others in E. congruence. Qed.

Lemma keq_k_kpgtbl s s' : s ≡ s' -> k_kpgtbl s = k_kpgtbl s'.
Proof. intros [_ E]. unfold others in E. congruence. Qed.

Lemma keq_k_first s s' : s ≡ s' -> k_first s = k_first s'.
Proof. intros [_ E]. unfold others in E. congruence. Qed.

Lemma keq_k_plic s s' : s ≡ s' -> k_plic s = k_plic s'.
Proof. intros [_ E]. unfold others in E. congruence. Qed.

Lemma keq_k_vdisk s s' : s ≡ s' -> k_vdisk s = k_vdisk s'.
Proof. intros [_ E]. unfold others in E. congruence. Qed.

Lemma keq_k_devsw s s' : s ≡ s' -> k_devsw s = k_devsw s'.
Proof. intros [_ E]. unfold others in E. congruence. Qed.

Lemma keq_k_mach s s' : s ≡ s' -> k_mach s = k_mach s'.
Proof. intros [_ E]. unfold others in E. congruence. Qed.

Lemma keq_k_started s s' : s ≡ s' -> k_started s = k_started s'.
Proof. intros [_ E]. unfold others in E. congruence. Qed.

Lemma keq_k_csr s s' : s ≡ s' -> k_csr s = k_csr s'.
Proof. intros [E _]. unfold sync in E. congruence. Qed.

Lemma keq_k_locks s s' : s ≡ s' -> k_locks s = k_locks s'.
Proof. intros [E _]. unfold sync in E. congruence. Qed.

Lemma keq_sync s s' : s ≡ s' -> sync s = sync s'.
Proof. by intros [E _]. Qed.

Lemma keq_c_proc s s' : s ≡ s' -> c_proc (k_cpu s) = c_proc (k_cpu s').
Proof. intros [E _]. unfold sync, settle in E. congruence. Qed.

Lemma keq_c_noff s s' : s ≡ s' -> c_noff (k_cpu s) = c_noff (k_cpu s').
Proof. intros [E _]. unfold sync, settle in E. congruence. Qed.

#[export] Instance upd_k_mem_proper f : Proper ((≡) ==> (≡)) (upd_k_mem f).
Proof.
  intros s s' [E E']. split; [exact E|]. exact (f_equal (fun '(a0, a1, a2, a3, a4, a5, a6, a7, a8, a9, a10, a11, a12, a13, a14, a15, a16, a17, a18, a19, a20, a21, a22, a23) =>
    (f a0, a1, a2, a3, a4, a5, a6, a7, a8, a9, a10, a11, a12, a13, a14, a15, a16, a17, a18, a19, a20, a21, a22, a23)) E').
Qed.

#[export] Instance upd_k_freelist_proper f : Proper ((≡) ==> (≡)) (upd_k_freelist f).
Proof.
  intros s s' [E E']. split; [exact E|]. exact (f_equal (fun '(a0, a1, a2, a3, a4, a5, a6, a7, a8, a9, a10, a11, a12, a13, a14, a15, a16, a17, a18, a19, a20, a21, a22, a23) =>
    (a0, f a1, a2, a3, a4, a5, a6, a7, a8, a9, a10, a11, a12, a13, a14, a15, a16, a17, a18, a19, a20, a21, a22, a23)) E').
Qed.

#[export] Instance upd_k_procs_proper f : Proper ((≡) ==> (≡)) (upd_k_procs f).
Proof.
  intros s s' [E E']. split; [exact E|]. exact (f_equal (fun '(a0, a1, a2, a3, a4, a5, a6, a7, a8, a9, a10, a11, a12, a13, a14, a15, a16, a17, a18, a19, a20, a21, a22, a23) =>
    (a0, a1, f a2, a3, a4, a5, a6, a7, a8, a9, a10, a11, a12, a13, a14, a15, a16, a17, a18, a19, a20, a21, a22, a23)) E').
Qed.

#[export] Instance upd_k_nextpid_proper f : Proper ((≡) ==> (≡)) (upd_k_nextpid f).
Proof.
  intros s s' [E E']. split; [exact E|]. exact (f_equal (fun '(a0, a1, a2, a3, a4, a5, a6, a7, a8, a9, a10, a11, a12, a13, a14, a15, a16, a17, a18, a19, a20, a21, a22, a23) =>
    (a0, a1, a2, f a3, a4, a5, a6, a7, a8, a9, a10, a11, a12, a13, a14, a15, a16, a17, a18, a19, a20, a21, a22, a23)) E').
Qed.

#[export] Instance upd_k_initproc_proper f : Proper ((≡) ==> (≡)) (upd_k_initproc f).
Proof.
  intros s s' [E E']. split; [exact E|]. exact (f_equal (fun '(a0, a1, a2, a3, a4, a5, a6, a7, a8, a9, a10, a11, a12, a13, a14, a15, a16, a17, a18, a19, a20, a21, a22, a23) =>
    (a0, a1, a2, a3, f a4, a5, a6, a7, a8, a9, a10, a11, a12, a13, a14, a15, a16, a17, a18, a19, a20, a21, a22, a23)) E').
Qed.

#[export] Instance upd_k_ticks_proper f : Proper ((≡) ==> (≡)) (upd_k_ticks f).
Proof.
  intros s s' [E E']. split; [exact E|]. exact (f_equal (fun '(a0, a1, a2, a3, a4, a5, a6, a7, a8, a9, a10, a11, a12, a13, a14, a15, a16, a17, a18, a19, a20, a21, a22, a23) =>
    (a0, a1, a2, a3, a4, f a5, a6, a7, a8, a9, a10, a11, a12, a13, a14, a15, a16, a17, a18, a19, a20, a21, a22, a23)) E').
Qed.

#[export] Instance upd_k_disk_proper f : Proper ((≡) ==> (≡)) (upd_k_disk f).
Proof.
  intros s s' [E E']. split; [exact E|]. exact (f_equal (fun '(a0, a1, a2, a3, a4, a5, a6, a7, a8, a9, a10, a11, a12, a13, a14, a15, a16, a17, a18, a19, a20, a21, a22, a23) =>
    (a0, a1, a2, a3, a4, a5, f a6, a7, a8, a9, a10, a11, a12, a13, a14, a15, a16, a17, a18, a19, a20, a21, a22, a23)) E').
Qed.

#[export] Instance upd_k_bcache_proper f : Proper ((≡) ==> (≡)) (upd_k_bcache f).
Proof.
  intros s s' [E E']. split; [exact E|]. exact (f_equal (fun '(a0, a1, a2, a3, a4, a5, a6, a7, a8, a9, a10, a11, a12, a13, a14, a15, a16, a17, a18, a19, a20, a21, a22, a23) =>
    (a0, a1, a2, a3, a4, a5, a6, f a7, a8, a9, a10, a11, a12, a13, a14, a15, a16, a17, a18, a19, a20, a21, a22, a23)) E').
Qed.

#[export] Instance upd_k_sb_proper f : Proper ((≡) ==> (≡)) (upd_k_sb f).
Proof.
  intros s s' [E E']. split; [exact E|]. exact (f_equal (fun '(a0, a1, a2, a3, a4, a5, a6, a7, a8, a9, a10, a11, a12, a13, a14, a15, a16, a17, a18, a19, a20, a21, a22, a23) =>
    (a0, a1, a2, a3, a4, a5, a6, a7, f a8, a9, a10, a11, a12, a13, a14, a15, a16, a17, a18, a19, a20, a21, a22, a23)) E').
Qed.

#[export] Instance upd_k_log_proper f : Proper ((≡) ==> (≡)) (upd_k_log f).
Proof.
  intros s s' [E E']. split; [exact E|]. exact (f_equal (fun '(a0, a1, a2, a3, a4, a5, a6, a7, a8, a9, a10, a11, a12, a13, a14, a15, a16, a17, a18, a19, a20, a21, a22, a23) =>
    (a0, a1, a2, a3, a4, a5, a6, a7, a8, f a9, a10, a11, a12, a13, a14, a15, a16, a17, a18, a19, a20, a21, a22, a23)) E').
Qed.

#[export] Instance upd_k_itable_proper f : Proper ((≡) ==> (≡)) (upd_k_itable f).
Proof.
  intros s s' [E E']. split; [exact E|]. exact (f_equal (fun '(a0, a1, a2, a3, a4, a5, a6, a7, a8, a9, a10, a11, a12, a13, a14, a15, a16, a17, a18, a19, a20, a21, a22, a23) =>
    (a0, a1, a2, a3, a4, a5, a6, a7, a8, a9, f a10, a11, a12, a13, a14, a15, a16, a17, a18, a19, a20, a21, a22, a23)) E').
Qed.

#[export] Instance upd_k_ftable_proper f : Proper ((≡) ==> (≡)) (upd_k_ftable f).
Proof.
  intros s s' [E E']. split; [exact E|]. exact (f_equal (fun '(a0, a1, a2, a3, a4, a5, a6, a7, a8, a9, a10, a11, a12, a13, a14, a15, a16, a17, a18, a19, a20, a21, a22, a23) =>
    (a0, a1, a2, a3, a4, a5, a6, a7, a8, a9, a10, f a11, a12, a13, a14, a15, a16, a17, a18, a19, a20, a21, a22, a23)) E').
Qed.

#[export] Instance upd_k_pipes_proper f : Proper ((≡) ==> (≡)) (upd_k_pipes f).
Proof.
  intros s s' [E E']. split; [exact E|]. exact (f_equal (fun '(a0, a1, a2, a3, a4, a5, a6, a7, a8, a9, a10, a11, a12, a13, a14, a15, a16, a17, a18, a19, a20, a21, a22, a23) =>
    (a0, a1, a2, a3, a4, a5, a6, a7, a8, a9, a10, a11, f a12, a13, a14, a15, a16, a17, a18, a19, a20, a21, a22, a23)) E').
Qed.

#[export] Instance upd_k_cons_proper f : Proper ((≡) ==> (≡)) (upd_k_cons f).
Proof.
  intros s s' [E E']. split; [exact E|]. exact (f_equal (fun '(a0, a1, a2, a3, a4, a5, a6, a7, a8, a9, a10, a11, a12, a13, a14, a15, a16, a17, a18, a19, a20, a21, a22, a23) =>
    (a0, a1, a2, a3, a4, a5, a6, a7, a8, a9, a10, a11, a12, f a13, a14, a15, a16, a17, a18, a19, a20, a21, a22, a23)) E').
Qed.

#[export] Instance upd_k_uart_proper f : Proper ((≡) ==> (≡)) (upd_k_uart f).
Proof.
  intros s s' [E E']. split; [exact E|]. exact (f_equal (fun '(a0, a1, a2, a3, a4, a5, a6, a7, a8, a9, a10, a11, a12, a13, a14, a15, a16, a17, a18, a19, a20, a21, a22, a23) =>
    (a0, a1, a2, a3, a4, a5, a6, a7, a8, a9, a10, a11, a12, a13, f a14, a15, a16, a17, a18, a19, a20, a21, a22, a23)) E').
Qed.

#[export] Instance upd_k_panicked_proper f : Proper ((≡) ==> (≡)) (upd_k_panicked f).
Proof.
  intros s s' [E E']. split; [exact E|]. exact (f_equal (fun '(a0, a1, a2, a3, a4, a5, a6, a7, a8, a9, a10, a11, a12, a13, a14, a15, a16, a17, a18, a19, a20, a21, a22, a23) =>
    (a0, a1, a2, a3, a4, a5, a6, a7, a8, a9, a10, a11, a12, a13, a14, f a15, a16, a17, a18, a19, a20, a21, a22, a23)) E').
Qed.

#[export] Instance upd_k_prlocking_proper f : Proper ((≡) ==> (≡)) (upd_k_prlocking f).
Proof.
  intros s s' [E E']. split; [exact E|]. exact (f_equal (fun '(a0, a1, a2, a3, a4, a5, a6, a7, a8, a9, a10, a11, a12, a13, a14, a15, a16, a17, a18, a19, a20, a21, a22, a23) =>
    (a0, a1, a2, a3, a4, a5, a6, a7, a8, a9, a10, a11, a12, a13, a14, a15, f a16, a17, a18, a19, a20, a21, a22, a23)) E').
Qed.

#[export] Instance upd_k_kpgtbl_proper f : Proper ((≡) ==> (≡)) (upd_k_kpgtbl f).
Proof.
  intros s s' [E E']. split; [exact E|]. exact (f_equal (fun '(a0, a1, a2, a3, a4, a5, a6, a7, a8, a9, a10, a11, a12, a13, a14, a15, a16, a17, a18, a19, a20, a21, a22, a23) =>
    (a0, a1, a2, a3, a4, a5, a6, a7, a8, a9, a10, a11, a12, a13, a14, a15, a16, f a17, a18, a19, a20, a21, a22, a23)) E').
Qed.

#[export] Instance upd_k_first_proper f : Proper ((≡) ==> (≡)) (upd_k_first f).
Proof.
  intros s s' [E E']. split; [exact E|]. exact (f_equal (fun '(a0, a1, a2, a3, a4, a5, a6, a7, a8, a9, a10, a11, a12, a13, a14, a15, a16, a17, a18, a19, a20, a21, a22, a23) =>
    (a0, a1, a2, a3, a4, a5, a6, a7, a8, a9, a10, a11, a12, a13, a14, a15, a16, a17, f a18, a19, a20, a21, a22, a23)) E').
Qed.

#[export] Instance upd_k_plic_proper f : Proper ((≡) ==> (≡)) (upd_k_plic f).
Proof.
  intros s s' [E E']. split; [exact E|]. exact (f_equal (fun '(a0, a1, a2, a3, a4, a5, a6, a7, a8, a9, a10, a11, a12, a13, a14, a15, a16, a17, a18, a19, a20, a21, a22, a23) =>
    (a0, a1, a2, a3, a4, a5, a6, a7, a8, a9, a10, a11, a12, a13, a14, a15, a16, a17, a18, f a19, a20, a21, a22, a23)) E').
Qed.

#[export] Instance upd_k_vdisk_proper f : Proper ((≡) ==> (≡)) (upd_k_vdisk f).
Proof.
  intros s s' [E E']. split; [exact E|]. exact (f_equal (fun '(a0, a1, a2, a3, a4, a5, a6, a7, a8, a9, a10, a11, a12, a13, a14, a15, a16, a17, a18, a19, a20, a21, a22, a23) =>
    (a0, a1, a2, a3, a4, a5, a6, a7, a8, a9, a10, a11, a12, a13, a14, a15, a16, a17, a18, a19, f a20, a21, a22, a23)) E').
Qed.

#[export] Instance upd_k_devsw_proper f : Proper ((≡) ==> (≡)) (upd_k_devsw f).
Proof.
  intros s s' [E E']. split; [exact E|]. exact (f_equal (fun '(a0, a1, a2, a3, a4, a5, a6, a7, a8, a9, a10, a11, a12, a13, a14, a15, a16, a17, a18, a19, a20, a21, a22, a23) =>
    (a0, a1, a2, a3, a4, a5, a6, a7, a8, a9, a10, a11, a12, a13, a14, a15, a16, a17, a18, a19, a20, f a21, a22, a23)) E').
Qed.

#[export] Instance upd_k_mach_proper f : Proper ((≡) ==> (≡)) (upd_k_mach f).
Proof.
  intros s s' [E E']. split; [exact E|]. exact (f_equal (fun '(a0, a1, a2, a3, a4, a5, a6, a7, a8, a9, a10, a11, a12, a13, a14, a15, a16, a17, a18, a19, a20, a21, a22, a23) =>
    (a0, a1, a2, a3, a4, a5, a6, a7, a8, a9, a10, a11, a12, a13, a14, a15, a16, a17, a18, a19, a20, a21, f a22, a23)) E').
Qed.

#[export] Instance upd_k_started_proper f : Proper ((≡) ==> (≡)) (upd_k_started f).
Proof.
  intros s s' [E E']. split; [exact E|]. exact (f_equal (fun '(a0, a1, a2, a3, a4, a5, a6, a7, a8, a9, a10, a11, a12, a13, a14, a15, a16, a17, a18, a19, a20, a21, a22, a23) =>
    (a0, a1, a2, a3, a4, a5, a6, a7, a8, a9, a10, a11, a12, a13, a14, a15, a16, a17, a18, a19, a20, a21, a22, f a23)) E').
Qed.

Lemma upd_k_mem_ext f g s : f (k_mem s) = g (k_mem s) -> upd_k_mem f s = upd_k_mem g s.
Proof. unfold upd_k_mem. by intros ->. Qed.

Lemma upd_k_mem_comp f g s : upd_k_mem f (upd_k_mem g s) = upd_k_mem (fun x => f (g x)) s.
Proof. reflexivity. Qed.

Lemma upd_k_freelist_ext f g s : f (k_freelist s) = g (k_freelist s) -> upd_k_freelist f s = upd_k_freelist g s.
Proof. unfold upd_k_freelist. by intros ->. Qed.

Lemma upd_k_freelist_comp f g s : upd_k_freelist f (upd_k_freelist g s) = upd_k_freelist (fun x => f (g x)) s.
Proof. reflexivity. Qed.

Lemma upd_k_procs_ext f g s : f (k_procs s) = g (k_procs s) -> upd_k_procs f s = upd_k_procs g s.
Proof. unfold upd_k_procs. by intros ->. Qed.

Lemma upd_k_procs_comp f g s : upd_k_procs f (upd_k_procs g s) = upd_k_procs (fun x => f (g x)) s.
Proof. reflexivity. Qed.

Lemma upd_k_nextpid_ext f g s : f (k_nextpid s) = g (k_nextpid s) -> upd_k_nextpid f s = upd_k_nextpid g s.
Proof. unfold upd_k_nextpid. by intros ->. Qed.

Lemma upd_k_nextpid_comp f g s : upd_k_nextpid f (upd_k_nextpid g s) = upd_k_nextpid (fun x => f (g x)) s.
Proof. reflexivity. Qed.

Lemma upd_k_initproc_ext f g s : f (k_initproc s) = g (k_initproc s) -> upd_k_initproc f s = upd_k_initproc g s.
Proof. unfold upd_k_initproc. by intros ->. Qed.

Lemma upd_k_initproc_comp f g s : upd_k_initproc f (upd_k_initproc g s) = upd_k_initproc (fun x => f (g x)) s.
Proof. reflexivity. Qed.

Lemma upd_k_ticks_ext f g s : f (k_ticks s) = g (k_ticks s) -> upd_k_ticks f s = upd_k_ticks g s.
Proof. unfold upd_k_ticks. by intros ->. Qed.

Lemma upd_k_ticks_comp f g s : upd_k_ticks f (upd_k_ticks g s) = upd_k_ticks (fun x => f (g x)) s.
Proof. reflexivity. Qed.

Lemma upd_k_disk_ext f g s : f (k_disk s) = g (k_disk s) -> upd_k_disk f s = upd_k_disk g s.
Proof. unfold upd_k_disk. by intros ->. Qed.

Lemma upd_k_disk_comp f g s : upd_k_disk f (upd_k_disk g s) = upd_k_disk (fun x => f (g x)) s.
Proof. reflexivity. Qed.

Lemma upd_k_bcache_ext f g s : f (k_bcache s) = g (k_bcache s) -> upd_k_bcache f s = upd_k_bcache g s.
Proof. unfold upd_k_bcache. by intros ->. Qed.

Lemma upd_k_bcache_comp f g s : upd_k_bcache f (upd_k_bcache g s) = upd_k_bcache (fun x => f (g x)) s.
Proof. reflexivity. Qed.

Lemma upd_k_sb_ext f g s : f (k_sb s) = g (k_sb s) -> upd_k_sb f s = upd_k_sb g s.
Proof. unfold upd_k_sb. by intros ->. Qed.

Lemma upd_k_sb_comp f g s : upd_k_sb f (upd_k_sb g s) = upd_k_sb (fun x => f (g x)) s.
Proof. reflexivity. Qed.

Lemma upd_k_log_ext f g s : f (k_log s) = g (k_log s) -> upd_k_log f s = upd_k_log g s.
Proof. unfold upd_k_log. by intros ->. Qed.

Lemma upd_k_log_comp f g s : upd_k_log f (upd_k_log g s) = upd_k_log (fun x => f (g x)) s.
Proof. reflexivity. Qed.

Lemma upd_k_itable_ext f g s : f (k_itable s) = g (k_itable s) -> upd_k_itable f s = upd_k_itable g s.
Proof. unfold upd_k_itable. by intros ->. Qed.

Lemma upd_k_itable_comp f g s : upd_k_itable f (upd_k_itable g s) = upd_k_itable (fun x => f (g x)) s.
Proof. reflexivity. Qed.

Lemma upd_k_ftable_ext f g s : f (k_ftable s) = g (k_ftable s) -> upd_k_ftable f s = upd_k_ftable g s.
Proof. unfold upd_k_ftable. by intros ->. Qed.

Lemma upd_k_ftable_comp f g s : upd_k_ftable f (upd_k_ftable g s) = upd_k_ftable (fun x => f (g x)) s.
Proof. reflexivity. Qed.

Lemma upd_k_pipes_ext f g s : f (k_pipes s) = g (k_pipes s) -> upd_k_pipes f s = upd_k_pipes g s.
Proof. unfold upd_k_pipes. by intros ->. Qed.

Lemma upd_k_pipes_comp f g s : upd_k_pipes f (upd_k_pipes g s) = upd_k_pipes (fun x => f (g x)) s.
Proof. reflexivity. Qed.

Lemma upd_k_cons_ext f g s : f (k_cons s) = g (k_cons s) -> upd_k_cons f s = upd_k_cons g s.
Proof. unfold upd_k_cons. by intros ->. Qed.

Lemma upd_k_cons_comp f g s : upd_k_cons f (upd_k_cons g s) = upd_k_cons (fun x => f (g x)) s.
Proof. reflexivity. Qed.

Lemma upd_k_uart_ext f g s : f (k_uart s) = g (k_uart s) -> upd_k_uart f s = upd_k_uart g s.
Proof. unfold upd_k_uart. by intros ->. Qed.

Lemma upd_k_uart_comp f g s : upd_k_uart f (upd_k_uart g s) = upd_k_uart (fun x => f (g x)) s.
Proof. reflexivity. Qed.

Lemma upd_k_panicked_ext f g s : f (k_panicked s) = g (k_panicked s) -> upd_k_panicked f s = upd_k_panicked g s.
Proof. unfold upd_k_panicked. by intros ->. Qed.

Lemma upd_k_panicked_comp f g s : upd_k_panicked f (upd_k_panicked g s) = upd_k_panicked (fun x => f (g x)) s.
Proof. reflexivity. Qed.

Lemma upd_k_prlocking_ext f g s : f (k_prlocking s) = g (k_prlocking s) -> upd_k_prlocking f s = upd_k_prlocking g s.
Proof. unfold upd_k_prlocking. by intros ->. Qed.

Lemma upd_k_prlocking_comp f g s : upd_k_prlocking f (upd_k_prlocking g s) = upd_k_prlocking (fun x => f (g x)) s.
Proof. reflexivity. Qed.

Lemma upd_k_kpgtbl_ext f g s : f (k_kpgtbl s) = g (k_kpgtbl s) -> upd_k_kpgtbl f s = upd_k_kpgtbl g s.
Proof. unfold upd_k_kpgtbl. by intros ->. Qed.

Lemma upd_k_kpgtbl_comp f g s : upd_k_kpgtbl f (upd_k_kpgtbl g s) = upd_k_kpgtbl (fun x => f (g x)) s.
Proof. reflexivity. Qed.

Lemma upd_k_first_ext f g s : f (k_first s) = g (k_first s) -> upd_k_first f s = upd_k_first g s.
Proof. unfold upd_k_first. by intros ->. Qed.

Lemma upd_k_first_comp f g s : upd_k_first f (upd_k_first g s) = upd_k_first (fun x => f (g x)) s.
Proof. reflexivity. Qed.

Lemma upd_k_plic_ext f g s : f (k_plic s) = g (k_plic s) -> upd_k_plic f s = upd_k_plic g s.
Proof. unfold upd_k_plic. by intros ->. Qed.

Lemma upd_k_plic_comp f g s : upd_k_plic f (upd_k_plic g s) = upd_k_plic (fun x => f (g x)) s.
Proof. reflexivity. Qed.

Lemma upd_k_vdisk_ext f g s : f (k_vdisk s) = g (k_vdisk s) -> upd_k_vdisk f s = upd_k_vdisk g s.
Proof. unfold upd_k_vdisk. by intros ->. Qed.

Lemma upd_k_vdisk_comp f g s : upd_k_vdisk f (upd_k_vdisk g s) = upd_k_vdisk (fun x => f (g x)) s.
Proof. reflexivity. Qed.

Lemma upd_k_devsw_ext f g s : f (k_devsw s) = g (k_devsw s) -> upd_k_devsw f s = upd_k_devsw g s.
Proof. unfold upd_k_devsw. by intros ->. Qed.

Lemma upd_k_devsw_comp f g s : upd_k_devsw f (upd_k_devsw g s) = upd_k_devsw (fun x => f (g x)) s.
Proof. reflexivity. Qed.

Lemma upd_k_mach_ext f g s : f (k_mach s) = g (k_mach s) -> upd_k_mach f s = upd_k_mach g s.
Proof. unfold upd_k_mach. by intros ->. Qed.

Lemma upd_k_mach_comp f g s : upd_k_mach f (upd_k_mach g s) = upd_k_mach (fun x => f (g x)) s.
Proof. reflexivity. Qed.

Lemma upd_k_started_ext f g s : f (k_started s) = g (k_started s) -> upd_k_started f s = upd_k_started g s.
Proof. unfold upd_k_started. by intros ->. Qed.

Lemma upd_k_started_comp f g s : upd_k_started f (upd_k_started g s) = upd_k_started (fun x => f (g x)) s.
Proof. reflexivity. Qed.

(** Proves that the state after release() is the one computed without the lock. *)
Ltac keq := split; [ksync|reflexivity].

Lemma resync_keq s s1 s2 : others s1 = others s2 -> sync s2 = sync s -> resync s s1 ≡ s2.
Proof. intros Ho Hs. split; [by rewrite sync_resync|exact Ho]. Qed.

(** pop_off() at the end of code that changed other fields only. *)
Lemma wp_pop_off s s1 s2 Q :
  sync_ok s -> k_csr s1 = k_csr (pushed s) -> k_cpu s1 = k_cpu (pushed s) ->
  k_locks s1 = k_locks s -> others s1 = others s2 -> sync s2 = sync s ->
  (forall s3, s3 ≡ s2 -> Q tt s3) -> wp pop_off Q s1.
Proof.
  intros Hok Hcsr Hcpu Hl Ho Hs HQ. eapply wp_ok; [by apply (pop_off_ok s)|]. apply HQ.
  split; [|exact Ho]. rewrite Hs. rewrite <- (sync_resync s s1). unfold sync, resync, settle, sie.
  ksimpl. by rewrite Hl.
Qed.

Lemma keq_others s s' : s ≡ s' -> others s = others s'.
Proof. by intros [_ E]. Qed.

Lemma others_locked lk s : others (locked lk s) = others s.
Proof. reflexivity. Qed.

(** Reads fields that the locks do not touch. *)
Ltac kread := unfold locked, pushed, resync; ksimpl.

(** ** Properties *)

(** a critical section acquire(lk); body; release(lk) whose body leaves the
    locks and the interrupt state alone returns with them as they were: the lock
    free, the push_off() depth and sstatus.SIE restored. *)
Theorem critical_section_restores {A} lk (body : K A) (Q : A -> kstate -> Prop) s :
  sync_ok s -> free lk s ->
  wp body (fun r s1 => sync s1 = sync (locked lk s) /\ Q r (resync s s1)) (locked lk s) ->
  wp (acquire lk;; r ← body; release lk;; mret r)
     (fun r s' => sync s' = sync s /\ Q r s') s.
Proof.
  intros Hok Hf Hb. apply wp_bind, wp_acquire; [done|]. apply wp_bind.
  eapply wp_mono; [exact Hb|]. intros r s1 [Hs1 HQ]. apply wp_bind.
  apply (wp_release lk s); [done..|]. apply wp_ret. split; [ksync|done].
Qed.

Lemma critical_section_restores_witness :
  wp (acquire L_kmem;; r ← gets k_nextpid; release L_kmem;; mret r)
     (fun r s' => sync s' = sync (boot_state 3 ∅ ∅) /\ r = 1) (boot_state 3 ∅ ∅).
Proof.
  apply critical_section_restores; [by split|done|]. vm_compute. done.
Defined.
