(* ===== verification/Kstring.v ===== *)
(** * Memory and string routines (kernel/string.c)

    Memory is a finite map from addresses to bytes; an address outside it reads
    as 0.  The routines are loops over that memory, written as the C code writes
    them; their theorems say which bytes they leave where, overlapping
    source and destination included. *)

From Stdlib Require Import ZArith Lia.
From stdpp Require Import base tactics numbers gmap strings option list.
From S2P Require Import Prelude.

(** ** Memory *)

Definition rd (m : gmap Z Z) (a : Z) : Z := default 0 (m !! a).

Definition wr (m : gmap Z Z) (a v : Z) : gmap Z Z := <[a := u8 v]> m.

(** The [n] bytes from address [a]. *)
Definition rd_bytes (m : gmap Z Z) (a : Z) (n : nat) : list Z :=
  (fun i => rd m (a + Z.of_nat i)) <$> seq 0 n.

Fixpoint wr_bytes (m : gmap Z Z) (a : Z) (bs : list Z) : gmap Z Z :=
  match bs with
  | [] => m
  | b :: bs' => wr_bytes (wr m a b) (a + 1) bs'
  end.

(** 64-bit loads and stores. *)
Definition ld64 (m : gmap Z Z) (a : Z) : Z := le_combine (rd_bytes m a 8).

Definition st64 (m : gmap Z Z) (a v : Z) : gmap Z Z := wr_bytes m a (le_split 8 v).

(** Every byte of the memory is a byte. *)
Definition mem_ok (m : gmap Z Z) : Prop := forall a, byte_ok (rd m a).

(** ** string.c *)

(** void *memset(void *dst, int c, uint n) *)
Fixpoint memset_loop (m : gmap Z Z) (cdst c i : Z) (n : nat) : gmap Z Z :=
  match n with
  | O => m
  | S n' => memset_loop (wr m (cdst + i) c) cdst c (i + 1) n'
  end.

Definition memset (m : gmap Z Z) (dst c n : Z) : gmap Z Z :=
  memset_loop m dst c 0 (Z.to_nat n).

(** int memcmp(const void *v1, const void *v2, uint n) *)
Fixpoint memcmp_loop (m : gmap Z Z) (s1 s2 : Z) (n : nat) : Z :=
  match n with
  | O => 0
  | S n' =>
      if negb (rd m s1 =? rd m s2) then rd m s1 - rd m s2
      else memcmp_loop m (s1 + 1) (s2 + 1) n'
  end.

Definition memcmp (m : gmap Z Z) (v1 v2 n : Z) : Z := memcmp_loop m v1 v2 (Z.to_nat n).

(** The two copy loops of memmove: downwards from the end, and upwards. *)
Fixpoint copy_down (m : gmap Z Z) (d s : Z) (n : nat) : gmap Z Z :=
  match n with
  | O => m
  | S n' => copy_down (wr m (d - 1) (rd m (s - 1))) (d - 1) (s - 1) n'
  end.

Fixpoint copy_up (m : gmap Z Z) (d s : Z) (n : nat) : gmap Z Z :=
  match n with
  | O => m
  | S n' => copy_up (wr m d (rd m s)) (d + 1) (s + 1) n'
  end.

(** void *memmove(void *dst, const void *src, uint n) *)
Definition memmove (m : gmap Z Z) (dst src n : Z) : gmap Z Z :=
  if n =? 0 then m
  else if (src <? dst) && (dst <? src + n)
  then copy_down m (dst + n) (src + n) (Z.to_nat n)
  else copy_up m dst src (Z.to_nat n).

(** void *memcpy(void *dst, const void *src, uint n) *)
Definition memcpy (m : gmap Z Z) (dst src n : Z) : gmap Z Z := memmove m dst src n.

(** int strncmp(const char *p, const char *q, uint n) *)
Fixpoint strncmp_loop (m : gmap Z Z) (p q : Z) (n : nat) : Z :=
  match n with
  | O => 0
  | S n' =>
      if negb (rd m p =? 0) && (rd m p =? rd m q)
      then strncmp_loop m (p + 1) (q + 1) n'
      else u8 (rd m p) - u8 (rd m q)
  end.

Definition strncmp (m : gmap Z Z) (p q n : Z) : Z := strncmp_loop m p q (Z.to_nat n).

(** char *strncpy(char *s, const char *t, int n): the copy loop, then the loop
    that fills with NULs. *)
Fixpoint strncpy_fill (m : gmap Z Z) (s : Z) (n : nat) : gmap Z Z :=
  match n with
  | O => m
  | S n' => strncpy_fill (wr m s 0) (s + 1) n'
  end.

Fixpoint strncpy_copy (m : gmap Z Z) (s t : Z) (n : nat) : gmap Z Z :=
  match n with
  | O => m
  | S n' =>
      let c := rd m t in
      let m' := wr m s c in
      if negb (c =? 0) then strncpy_copy m' (s + 1) (t + 1) n'
      else strncpy_fill m' (s + 1) n'
  end.

Definition strncpy (m : gmap Z Z) (s t n : Z) : gmap Z Z :=
  strncpy_copy m s t (Z.to_nat n).

(** char *safestrcpy(char *s, const char *t, int n); [n] counts the bytes left
    before the pre-decrement. *)
Fixpoint safestrcpy_loop (m : gmap Z Z) (s t : Z) (n : nat) : gmap Z Z :=
  match n with
  | O => wr m s 0
  | S n' =>
      let c := rd m t in
      let m' := wr m s c in
      if negb (c =? 0) then safestrcpy_loop m' (s + 1) (t + 1) n'
      else wr m' (s + 1) 0
  end.

Definition safestrcpy (m : gmap Z Z) (s t n : Z) : gmap Z Z :=
  if n <=? 0 then m else safestrcpy_loop m s t (Z.to_nat (n - 1)).

(** int strlen(const char *s); the fuel bounds the bytes looked at. *)
Fixpoint strlen (fuel : nat) (m : gmap Z Z) (s : Z) : option Z :=
  match fuel with
  | O => None
  | S k => if rd m s =? 0 then Some 0 else Z.succ <$> strlen k m (s + 1)
  end.

(** A NUL-terminated string [l] at address [a]. *)
Definition cstr (m : gmap Z Z) (a : Z) (l : list Z) : Prop :=
  Forall (fun b => 0 < b < 256) l /\
  rd_bytes m a (length l) = l /\ rd m (a + Z.of_nat (length l)) = 0.

(** The bytes of [l] before its first NUL. *)
Fixpoint upto_nul (l : list Z) : list Z :=
  match l with
  | [] => []
  | b :: l' => if b =? 0 then [] else b :: upto_nul l'
  end.

(** [l] up to its first NUL, padded with NULs to length [n]. *)
Definition nul_padded (n : nat) (l : list Z) : list Z :=
  take n (upto_nul l ++ replicate n 0).

(** ** Lemmas *)

Lemma rd_wr m a v x : rd (wr m a v) x = if decide (x = a) then u8 v else rd m x.
Proof.
  unfold rd, wr. rewrite lookup_insert.
  destruct (decide (a = x)), (decide (x = a)); congruence || done.
Qed.

Lemma rd_wr_eq m a v : rd (wr m a v) a = u8 v.
Proof. rewrite rd_wr. by rewrite decide_True. Qed.

Lemma rd_wr_ne m a v x : x <> a -> rd (wr m a v) x = rd m x.
Proof. intros. rewrite rd_wr. by rewrite decide_False. Qed.

Lemma mem_ok_wr m a v : mem_ok m -> mem_ok (wr m a v).
Proof.
  intros H x. rewrite rd_wr. destruct (decide (x = a)); [apply u8_range|apply H].
Qed.

Lemma rd_u8 m a : mem_ok m -> u8 (rd m a) = rd m a.
Proof. intros H. apply u8_small, H. Qed.

Lemma rd_bytes_S m a n : rd_bytes m a (S n) = rd m a :: rd_bytes m (a + 1) n.
Proof.
  unfold rd_bytes. cbn [seq fmap list_fmap]. f_equal; [f_equal; lia|].
  change (seq 1 n) with (seq (S 0) n). rewrite <- fmap_S_seq, <- list_fmap_compose.
  apply list_fmap_ext. intros i x _. cbn. f_equal. lia.
Qed.

Lemma length_rd_bytes m a n : length (rd_bytes m a n) = n.
Proof. unfold rd_bytes. len. Qed.

#[export] Hint Rewrite length_rd_bytes : len.

Lemma rd_bytes_ext m m' a n :
  (forall x, a <= x < a + Z.of_nat n -> rd m x = rd m' x) ->
  rd_bytes m a n = rd_bytes m' a n.
Proof.
  intros H. apply list_fmap_ext. intros i x [-> Hlt]%lookup_seq. apply H. lia.
Qed.

Lemma lookup_rd_bytes m a n i :
  (i < n)%nat -> rd_bytes m a n !! i = Some (rd m (a + Z.of_nat i)).
Proof.
  intros. unfold rd_bytes. rewrite list_lookup_fmap, lookup_seq_lt by lia.
  done.
Qed.

Lemma rd_bytes_app m a n k :
  rd_bytes m a (n + k) = rd_bytes m a n ++ rd_bytes m (a + Z.of_nat n) k.
Proof.
  revert a. induction n as [|n IH]; intros a; [simpl; by rewrite Z.add_0_r|].
  rewrite Nat.add_succ_l, !rd_bytes_S, IH. simpl. do 3 f_equal. lia.
Qed.

Lemma rd_bytes_ok m a n : mem_ok m -> Forall byte_ok (rd_bytes m a n).
Proof. intros H. apply Forall_fmap, Forall_forall. intros. apply H. Qed.

Lemma rd_wr_bytes m a bs x :
  Forall byte_ok bs ->
  rd (wr_bytes m a bs) x =
    if decide (a <= x < a + Z.of_nat (length bs))
    then default 0 (bs !! Z.to_nat (x - a)) else rd m x.
Proof.
  intros Hb. revert m a. induction Hb as [|b bs Hb _ IH]; intros m a.
  { cbn. case_decide; [lia|done]. }
  cbn [wr_bytes length]. rewrite IH, rd_wr.
  repeat case_decide; try lia.
  - replace (Z.to_nat (x - a)) with (S (Z.to_nat (x - (a + 1)))) by lia. done.
  - subst. rewrite Z.sub_diag. cbn. by apply u8_small.

Qed.

Lemma rd_bytes_wr_bytes m a bs :
  Forall byte_ok bs -> rd_bytes (wr_bytes m a bs) a (length bs) = bs.
Proof.
  intros Hb. apply list_eq. intros i. destruct (decide (i < length bs)%nat).
  - rewrite lookup_rd_bytes by done. rewrite rd_wr_bytes by done.
    rewrite decide_True by lia. replace (Z.to_nat _) with i by lia.
    by destruct (lookup_Some_total bs i) as [x ->].
  - rewrite !lookup_ge_None_2; [done|len..].
Qed.

Lemma mem_ok_wr_bytes m a bs : mem_ok m -> mem_ok (wr_bytes m a bs).
Proof. revert m a. induction bs; intros; simpl; auto using mem_ok_wr. Qed.

Lemma ld64_st64 m a v : ld64 (st64 m a v) a = u64 v.
Proof.
  unfold ld64, st64. pose proof (length_le_split 8 v) as Hl.
  pose proof (rd_bytes_wr_bytes m a (le_split 8 v) (le_split_bytes 8 v)) as H.
  rewrite Hl in H. rewrite H, le_combine_split. done.
Qed.

Lemma rd_st64_out m a v x : ~ (a <= x < a + 8) -> rd (st64 m a v) x = rd m x.
Proof.
  intros. unfold st64. rewrite rd_wr_bytes by apply le_split_bytes.
  rewrite length_le_split, decide_False; [done|lia].
Qed.

Lemma ld64_ext m m' a :
  (forall x, a <= x < a + 8 -> rd m x = rd m' x) -> ld64 m a = ld64 m' a.
Proof. intros. unfold ld64. f_equal. by apply rd_bytes_ext. Qed.

Lemma ld64_st64_out m a b v : a + 8 <= b \/ b + 8 <= a -> ld64 (st64 m a v) b = ld64 m b.
Proof. intros. apply ld64_ext. intros. apply rd_st64_out. lia. Qed.

Lemma ld64_range m a : mem_ok m -> 0 <= ld64 m a < 2 ^ 64.
Proof.
  intros. unfold ld64. pose proof (le_combine_range (rd_bytes m a 8)) as H'.
  rewrite length_rd_bytes in H'. apply H'. by apply rd_bytes_ok.
Qed.

Lemma mem_ok_st64 m a v : mem_ok m -> mem_ok (st64 m a v).
Proof. apply mem_ok_wr_bytes. Qed.


(** ** The routines *)

Lemma rd_memset_loop m d c i n x :
  rd (memset_loop m d c i n) x =
    if decide (d + i <= x < d + i + Z.of_nat n) then u8 c else rd m x.
Proof.
  revert m i. induction n as [|n IH]; intros m i; cbn [memset_loop].
  { case_decide; [lia|done]. }
  rewrite IH, rd_wr. repeat case_decide; lia || done.
Qed.

Lemma rd_memset m d c n x :
  rd (memset m d c n) x = if decide (d <= x < d + n) then u8 c else rd m x.
Proof.
  unfold memset. rewrite rd_memset_loop. repeat case_decide; lia || done.
Qed.

Lemma mem_ok_memset m d c n : mem_ok m -> mem_ok (memset m d c n).
Proof.
  intros H x. rewrite rd_memset. case_decide; [apply u8_range|apply H].
Qed.

Lemma rd_copy_up m d s n x :
  mem_ok m -> d <= s \/ s + Z.of_nat n <= d ->
  rd (copy_up m d s n) x =
    if decide (d <= x < d + Z.of_nat n) then rd m (s + (x - d)) else rd m x.
Proof.
  revert m d s. induction n as [|n IH]; intros m d s Hm Hds; cbn [copy_up].
  { case_decide; [lia|done]. }
  rewrite IH, !rd_wr by (lia || by apply mem_ok_wr). rewrite rd_u8 by done.
  repeat case_decide; try lia; f_equal; lia.
Qed.

Lemma rd_copy_down m d s n x :
  mem_ok m -> s <= d ->
  rd (copy_down m d s n) x =
    if decide (d - Z.of_nat n <= x < d) then rd m (s - (d - x)) else rd m x.
Proof.
  revert m d s. induction n as [|n IH]; intros m d s Hm Hds; cbn [copy_down].
  { case_decide; [lia|done]. }
  rewrite IH, !rd_wr by (lia || by apply mem_ok_wr). rewrite rd_u8 by done.
  repeat case_decide; try lia; f_equal; lia.
Qed.

Lemma rd_memmove m d s n x :
  mem_ok m -> 0 <= n ->
  rd (memmove m d s n) x = if decide (d <= x < d + n) then rd m (s + (x - d)) else rd m x.
Proof.
  intros Hm Hn. unfold memmove. destruct (Z.eqb_spec n 0).
  { rewrite decide_False by lia. done. }
  destruct ((s <? d) && (d <? s + n)) eqn:E.
  - bool_decide_tests. rewrite rd_copy_down by (done || lia).
    repeat case_decide; try lia; f_equal; lia.
  - apply andb_false_iff in E.
    rewrite rd_copy_up by (done || destruct E; bool_decide_tests; lia).
    repeat case_decide; try lia; f_equal; lia.
Qed.

Lemma mem_ok_memmove m d s n : mem_ok m -> 0 <= n -> mem_ok (memmove m d s n).
Proof. intros H Hn x. rewrite rd_memmove by done. case_decide; apply H. Qed.

Lemma rd_bytes_memmove m d s n :
  mem_ok m -> rd_bytes (memmove m d s (Z.of_nat n)) d n = rd_bytes m s n.
Proof.
  intros Hm. apply list_eq. intros i. destruct (decide (i < n)%nat).
  - rewrite !lookup_rd_bytes by done. rewrite rd_memmove by (done || lia).
    rewrite decide_True by lia. do 2 f_equal. lia.
  - rewrite !lookup_ge_None_2; [done|len..].
Qed.

Lemma memcmp_loop_0 m p q n :
  memcmp_loop m p q n = 0 <-> rd_bytes m p n = rd_bytes m q n.
Proof.
  revert p q. induction n as [|n IH]; intros p q; cbn [memcmp_loop]; [done|].
  rewrite !rd_bytes_S. destruct (Z.eqb_spec (rd m p) (rd m q)) as [E|E]; cbn.
  - rewrite IH, E. split; congruence.
  - split; [lia|congruence].
Qed.

Lemma strncmp_loop_0 m p q n :
  mem_ok m ->
  strncmp_loop m p q n = 0 <-> upto_nul (rd_bytes m p n) = upto_nul (rd_bytes m q n).
Proof.
  intros Hm. revert p q. induction n as [|n IH]; intros p q; cbn [strncmp_loop]; [done|].
  rewrite !rd_bytes_S. cbn [upto_nul]. rewrite !rd_u8 by done.
  destruct (Z.eqb_spec (rd m p) 0) as [E|E], (Z.eqb_spec (rd m q) 0) as [E'|E']; cbn.
  - rewrite E, E'. done.
  - split; [lia|done].
  - destruct (Z.eqb_spec (rd m p) (rd m q)); [lia|]. split; [lia|done].
  - destruct (Z.eqb_spec (rd m p) (rd m q)) as [->|]; [|split; [lia|congruence]].
    rewrite IH. split; congruence.
Qed.

Lemma rd_strncpy_fill m s n x :
  rd (strncpy_fill m s n) x =
    if decide (s <= x < s + Z.of_nat n) then 0 else rd m x.
Proof.
  revert m s. induction n as [|n IH]; intros m s; cbn [strncpy_fill].
  { case_decide; [lia|done]. }
  rewrite IH, rd_wr. repeat case_decide; lia || done.
Qed.

Lemma rd_bytes_strncpy_fill m s n :
  rd_bytes (strncpy_fill m s n) s n = replicate n 0.
Proof.
  apply list_eq. intros i. destruct (decide (i < n)%nat).
  - rewrite lookup_rd_bytes, lookup_replicate_2, rd_strncpy_fill by done.
    by rewrite decide_True by lia.
  - rewrite !lookup_ge_None_2; [done|len..].
Qed.

Lemma rd_strncpy_copy_out m s t n x :
  ~ (s <= x < s + Z.of_nat n) -> rd (strncpy_copy m s t n) x = rd m x.
Proof.
  revert m s t. induction n as [|n IH]; intros m s t Hx; cbn [strncpy_copy]; [done|].
  destruct (rd m t =? 0); cbn.
  - rewrite rd_strncpy_fill, decide_False, rd_wr_ne by lia. done.
  - rewrite IH, rd_wr_ne by lia. done.
Qed.

Lemma rd_bytes_strncpy_copy m s t n :
  mem_ok m -> s + Z.of_nat n <= t \/ t + Z.of_nat n <= s ->
  rd_bytes (strncpy_copy m s t n) s n = nul_padded n (rd_bytes m t n).
Proof.
  unfold nul_padded. revert m s t. induction n as [|n IH]; intros m s t Hm Hst; [done|].
  cbn [strncpy_copy]. rewrite !rd_bytes_S. cbn [upto_nul].
  destruct (Z.eqb_spec (rd m t) 0) as [E|E]; cbn.
  - f_equal.
    + rewrite rd_strncpy_fill, decide_False, rd_wr_eq by lia. by rewrite E.
    + rewrite rd_bytes_strncpy_fill. by rewrite take_ge by len.
  - f_equal.
    + rewrite rd_strncpy_copy_out, rd_wr_eq by lia. by apply rd_u8.
    + rewrite IH by (lia || by apply mem_ok_wr).
      rewrite (rd_bytes_ext (wr m s (rd m t)) m) by (intros; apply rd_wr_ne; lia).
      change (0 :: replicate n 0) with (replicate (S n) 0); rewrite (replicate_S_end n 0), app_assoc, (take_app_le (_ ++ _) [0]); [done|len].
Qed.

Lemma rd_safestrcpy_loop_out m s t n x :
  ~ (s <= x <= s + Z.of_nat n) -> rd (safestrcpy_loop m s t n) x = rd m x.
Proof.
  revert m s t. induction n as [|n IH]; intros m s t Hx; cbn [safestrcpy_loop].
  { apply rd_wr_ne. lia. }
  destruct (rd m t =? 0); cbn; [rewrite !rd_wr_ne by lia; done|].
  rewrite IH, rd_wr_ne by lia. done.
Qed.

Lemma Forall_upto_nul l : Forall byte_ok l -> Forall (fun b => 0 < b < 256) (upto_nul l).
Proof.
  induction 1 as [|b l Hb _ IH]; simpl; [done|].
  destruct (Z.eqb_spec b 0); constructor; [unfold byte_ok in Hb; lia|done].
Qed.

Lemma safestrcpy_loop_cstr m s t n :
  mem_ok m -> s + Z.of_nat n < t \/ t + Z.of_nat n <= s ->
  cstr (safestrcpy_loop m s t n) s (upto_nul (rd_bytes m t n)).
Proof.
  intros Hm Hst. split; [by apply Forall_upto_nul, rd_bytes_ok|].
  revert m s t Hm Hst. induction n as [|n IH]; intros m s t Hm Hst.
  { cbn. rewrite Z.add_0_r, rd_wr_eq. done. }
  rewrite rd_bytes_S. cbn [safestrcpy_loop upto_nul].
  destruct (Z.eqb_spec (rd m t) 0) as [E|E]; cbn [negb].
  { cbn. rewrite Z.add_0_r, rd_wr_ne, rd_wr_eq, E by lia. done. }
  cbn [length]. rewrite rd_bytes_S, rd_safestrcpy_loop_out, rd_wr_eq, rd_u8 by (done || lia).
  destruct (IH (wr m s (rd m t)) (s + 1) (t + 1)) as [IH1 IH2]; [by apply mem_ok_wr|lia|].
  rewrite (rd_bytes_ext (wr m s (rd m t)) m) in IH1, IH2 by (intros; apply rd_wr_ne; lia).
  rewrite IH1. split; [done|]. rewrite <- IH2. f_equal. lia.
Qed.

Lemma strlen_cstr m a l fuel :
  cstr m a l -> (length l < fuel)%nat -> strlen fuel m a = Some (Z.of_nat (length l)).
Proof.
  intros (Hl & Hb & Hz). revert m a fuel Hb Hz. induction Hl as [|b l Hb0 _ IH];
    intros m a [|fuel] Hb Hz Hf; cbn [length] in *; try lia; cbn [strlen].
  { rewrite Z.add_0_r in Hz. by rewrite Hz. }
  rewrite rd_bytes_S in Hb. injection Hb as Hb1 Hb2.
  rewrite Hb1. destruct (Z.eqb_spec b 0); [lia|].
  rewrite (IH m (a + 1) fuel) by (done || lia || (rewrite <- Hz; f_equal; lia)).
  cbn. f_equal. lia.
Qed.

(** Proves [mem_ok] of a memory built by these routines. *)
Ltac mem_ok_tac :=
  repeat lazymatch goal with
  | |- mem_ok (wr _ _ _) => apply mem_ok_wr
  | |- mem_ok (wr_bytes _ _ _) => apply mem_ok_wr_bytes
  | |- mem_ok (st64 _ _ _) => apply mem_ok_st64
  | |- mem_ok (memset _ _ _ _) => apply mem_ok_memset
  | |- mem_ok (memmove _ _ _ _) => apply mem_ok_memmove; [|lia]
  end; assumption.

Lemma mem_ok_empty : mem_ok ∅.
Proof. intros x. unfold rd. rewrite lookup_empty. cbn. unfold byte_ok. lia. Qed.

Lemma mem_ok_strncpy_fill m s n : mem_ok m -> mem_ok (strncpy_fill m s n).
Proof. revert m s. induction n; intros; simpl; auto using mem_ok_wr. Qed.

Lemma mem_ok_strncpy_copy m s t n : mem_ok m -> mem_ok (strncpy_copy m s t n).
Proof.
  revert m s t. induction n as [|n IH]; intros; simpl; [done|].
  destruct (negb _); auto using mem_ok_wr, mem_ok_strncpy_fill.
Qed.

Lemma length_upto_nul l : (length (upto_nul l) <= length l)%nat.
Proof. induction l as [|b l IH]; simpl; [lia|]. destruct (b =? 0); simpl; lia. Qed.

Lemma upto_nul_app_zeros l k : upto_nul (upto_nul l ++ replicate k 0) = upto_nul l.
Proof.
  induction l as [|b l IH]; simpl; [by destruct k|].
  destruct (b =? 0) eqn:E; simpl; [by destruct k|]. by rewrite E, IH.
Qed.

Lemma upto_nul_padded n l : (length l <= n)%nat -> upto_nul (nul_padded n l) = upto_nul l.
Proof.
  intros Hl. unfold nul_padded. pose proof (length_upto_nul l).
  rewrite take_app, (take_ge (upto_nul l)) by lia. rewrite take_replicate. apply upto_nul_app_zeros.
Qed.

(** The routines are used through the lemmas above. *)
Opaque memset memmove ld64 st64.
Arguments memset : simpl never.
Arguments memmove : simpl never.
Arguments ld64 : simpl never.
Arguments st64 : simpl never.

(** ** Properties *)

(** memmove() copies the source bytes to the destination even when the two
    overlap, and changes nothing else. *)
Theorem memmove_correct m dst src n :
  mem_ok m -> 0 <= n ->
  rd_bytes (memmove m dst src n) dst (Z.to_nat n) = rd_bytes m src (Z.to_nat n) /\
  forall x, ~ (dst <= x < dst + n) -> rd (memmove m dst src n) x = rd m x.
Proof.
  intros Hm Hn. split.
  - rewrite <- (Z2Nat.id n) at 1 by done. by apply rd_bytes_memmove.
  - intros x Hx. by rewrite rd_memmove, decide_False.
Qed.

Lemma memmove_correct_witness :
  let m := wr_bytes ∅ 100 [1; 2; 3; 4] in
  rd_bytes (memmove m 102 100 4) 102 4 = rd_bytes m 100 4 /\ rd_bytes m 100 4 = [1; 2; 3; 4].
Proof.
  intros m. split; [|by vm_compute].
  apply (memmove_correct m 102 100 4); [apply mem_ok_wr_bytes, mem_ok_empty|lia].
Defined.

(** A name stored with strncpy() in an [n]-byte field is NUL-padded to the
    field's width and compares equal to the original under strncmp(); no byte
    outside the field changes. *)
Theorem strncpy_strncmp m s t n :
  mem_ok m -> 0 <= n -> s + n <= t \/ t + n <= s ->
  rd_bytes (strncpy m s t n) s (Z.to_nat n) = nul_padded (Z.to_nat n) (rd_bytes m t (Z.to_nat n)) /\
  strncmp (strncpy m s t n) s t n = 0 /\
  forall x, ~ (s <= x < s + n) -> rd (strncpy m s t n) x = rd m x.
Proof.
  intros Hm Hn Hst. unfold strncpy, strncmp.
  assert (Hcopy := rd_bytes_strncpy_copy m s t (Z.to_nat n) Hm ltac:(lia)).
  split; [done|]. split; [|intros x Hx; apply rd_strncpy_copy_out; lia].
  apply strncmp_loop_0; [by apply mem_ok_strncpy_copy|]. rewrite Hcopy, upto_nul_padded by len.
  f_equal. apply rd_bytes_ext. intros x Hx. symmetry. apply rd_strncpy_copy_out. lia.
Qed.

Lemma strncpy_strncmp_witness :
  let m := wr_bytes ∅ 100 (str "init") in
  rd_bytes (strncpy m 200 100 14) 200 14 = nul_padded 14 (rd_bytes m 100 14) /\
  nul_padded 14 (rd_bytes m 100 14) = str "init" ++ replicate 10 0.
Proof.
  intros m. split; [|by vm_compute].
  apply (strncpy_strncmp m 200 100 14); [apply mem_ok_wr_bytes, mem_ok_empty|lia..].
Defined.

(** safestrcpy() always leaves a NUL-terminated string within the [n] bytes
    of the destination: the source up to its first NUL, cut to [n - 1] bytes. *)
Theorem safestrcpy_terminates m s t n :
  mem_ok m -> 0 < n -> s + n <= t \/ t + n <= s ->
  let l := upto_nul (rd_bytes m t (Z.to_nat (n - 1))) in
  cstr (safestrcpy m s t n) s l /\ Z.of_nat (length l) < n /\
  forall x, ~ (s <= x < s + n) -> rd (safestrcpy m s t n) x = rd m x.
Proof.
  intros Hm Hn Hst l. unfold safestrcpy. rewrite (proj2 (Z.leb_gt n 0)) by lia.
  split; [apply safestrcpy_loop_cstr; [done|lia]|]. split.
  - pose proof (length_upto_nul (rd_bytes m t (Z.to_nat (n - 1)))) as Hl.
    rewrite length_rd_bytes in Hl. unfold l. lia.
  - intros x Hx. apply rd_safestrcpy_loop_out. lia.
Qed.

Lemma safestrcpy_terminates_witness :
  let m := wr_bytes ∅ 100 (str "a-long-program-name") in
  cstr (safestrcpy m 200 100 16) 200 (upto_nul (rd_bytes m 100 15)) /\
  upto_nul (rd_bytes m 100 15) = str "a-long-program-".
Proof.
  intros m. split; [|by vm_compute].
  apply (safestrcpy_terminates m 200 100 16); [apply mem_ok_wr_bytes, mem_ok_empty|lia..].
Defined.
