(* ===== verification/Kalloc.v ===== *)
(** * The physical page allocator (kernel/kalloc.c)

    Free pages are linked through their first word.  Each hart has a list of its
    own, whose head lives in an array the allocator carves out at [end], and
    owns the pages of one megabyte above it; the remaining pages are on the
    shared list.  [alloc_rep] relates the linked lists in memory to lists of
    page addresses; [Free] is the contract of the component, a set of free
    pages, and [PageAllocator] the interface the virtual-memory code is
    verified against. *)

From Stdlib Require Import ZArith Lia.
From stdpp Require Import base tactics numbers gmap strings option list.
From S2P Require Import Prelude Kernel Spinlock Kstring Riscv.

Section kalloc.
Context `{Platform}.

(** ** Definitions *)

Definition upd_mem (f : gmap Z Z -> gmap Z Z) : K unit := modify (upd_k_mem f).

(** sizeof(struct free_list): a spinlock of 24 bytes and a pointer. *)
Definition FREE_LIST_SIZE : Z := 32.

(** &per_hart_free_list[i].freelist; per_hart_free_list is [end]. *)
Definition hart_freelist (i : Z) : Z := kend + FREE_LIST_SIZE * i + 24.

(** The first page after the array: [_s] in per_hart_alloc_init and pkfree. *)
Definition per_hart_start : Z := PGROUNDUP (u64 (kend + NCPU * FREE_LIST_SIZE)).

Definition PER_HART_ALLOC_SIZE : Z := 1 * 1024 * 1024.

(** The inner loop of per_hart_alloc_init, [n] pages for hart [i] from [_s]. *)
Fixpoint per_hart_fill (i _s : Z) (n : nat) : K Z :=
  match n with
  | O => mret _s
  | S n' =>
      upd_mem (fun m => st64 m _s (ld64 m (hart_freelist i)));;
      upd_mem (fun m => st64 m (hart_freelist i) _s);;
      per_hart_fill i (u64 (_s + PGSIZE)) n'
  end.

(** The outer loop, over the harts. *)
Definition per_hart_fill_all (_s : Z) : K Z :=
  foldM (fun _s i =>
    _s' ← per_hart_fill i _s (Z.to_nat (PER_HART_ALLOC_SIZE / PGSIZE));
    if _s' <=? PHYSTOP then mret _s' else panic "assert failed")
  _s (seqZ 0 NCPU).

(** void *per_hart_alloc_init() *)
Definition per_hart_alloc_init : K Z :=
  for_each (seqZ 0 NCPU) (fun i =>
    initlock (L_hart i);;
    upd_mem (fun m => st64 m (hart_freelist i) 0));;
  per_hart_fill_all per_hart_start.

(** void *pkalloc() *)
Definition pkalloc : K Z :=
  id ← cpuid;
  acquire (L_hart id);;
  ret ← gets (fun s => ld64 (k_mem s) (hart_freelist id));
  when (negb (ret =? 0))
    (upd_mem (fun m => st64 m (hart_freelist id) (ld64 m ret)));;
  release (L_hart id);;
  mret ret.

(** int pkfree(void *pa) *)
Definition pkfree (pa : Z) : K Z :=
  let _id := u64 (pa - per_hart_start) / PER_HART_ALLOC_SIZE in
  if NCPU <=? _id then mret 0 else
  acquire (L_hart _id);;
  upd_mem (fun m => st64 m pa (ld64 m (hart_freelist _id)));;
  upd_mem (fun m => st64 m (hart_freelist _id) pa);;
  release (L_hart _id);;
  mret 1.

(** void kfree(void *pa) *)
Definition kfree (pa : Z) : K unit :=
  if negb (pa mod PGSIZE =? 0) || (pa <? kend) || (PHYSTOP <=? pa)
  then panic "kfree" else
  upd_mem (fun m => memset m pa 1 PGSIZE);;
  r ← pkfree pa;
  if negb (r =? 0) then mret tt else
  acquire L_kmem;;
  fl ← gets k_freelist;
  upd_mem (fun m => st64 m pa fl);;
  modify (upd_k_freelist (fun _ => pa));;
  release L_kmem.

(** void *kalloc(void) *)
Definition kalloc : K Z :=
  ret ← pkalloc;
  if negb (ret =? 0) then upd_mem (fun m => memset m ret 5 PGSIZE);; mret ret else
  acquire L_kmem;;
  r ← gets k_freelist;
  when (negb (r =? 0))
    (modify (fun s => upd_k_freelist (fun _ => ld64 (k_mem s) r) s));;
  release L_kmem;;
  when (negb (r =? 0)) (upd_mem (fun m => memset m r 5 PGSIZE));;
  mret r.

(** void freerange(void *pa_start, void *pa_end); one unit of fuel per page. *)
Fixpoint freerange_loop (fuel : nat) (p pa_end : Z) : K unit :=
  match fuel with
  | O => out_of_fuel
  | S k =>
      if p + PGSIZE <=? pa_end then kfree p;; freerange_loop k (p + PGSIZE) pa_end
      else mret tt
  end.

Definition freerange (pa_start pa_end : Z) : K unit :=
  let p := PGROUNDUP pa_start in
  freerange_loop (S (Z.to_nat ((pa_end - p) / PGSIZE))) p pa_end.

(** void kinit() *)
Definition kinit : K unit :=
  free_memory_start ← per_hart_alloc_init;
  initlock L_kmem;;
  freerange free_memory_start PHYSTOP.

(** ** Representation *)

(** The list of pages linked from address [a]. *)
Fixpoint chain (m : gmap Z Z) (a : Z) (l : list Z) : Prop :=
  match l with
  | [] => a = 0
  | p :: l' => a = p /\ p <> 0 /\ chain m (ld64 m p) l'
  end.

(** A page the allocator manages. *)
Definition page_ok (p : Z) : Prop :=
  p mod PGSIZE = 0 /\ per_hart_start <= p /\ p + PGSIZE <= PHYSTOP.

(** The hart whose megabyte holds the page; [NCPU] or more for the others. *)
Definition page_hart (p : Z) : Z := (p - per_hart_start) / PER_HART_ALLOC_SIZE.

(** The kernel leaves room for the allocator's array and the harts' pages. *)
Definition layout_ok : Prop :=
  KERNBASE <= kend < PHYSTOP /\ per_hart_start + NCPU * PER_HART_ALLOC_SIZE <= PHYSTOP.

(** Memory [m] with shared list head [fl] represents the lists [G] and [Hs]. *)
Record alloc_rep (m : gmap Z Z) (fl : Z) (G : list Z) (Hs : list (list Z)) : Prop := {
  ar_len : length Hs = Z.to_nat NCPU;
  ar_global : chain m fl G;
  ar_harts : forall (i : nat) l, Hs !! i = Some l ->
    chain m (ld64 m (hart_freelist (Z.of_nat i))) l;
  ar_pages : Forall page_ok (G ++ concat Hs);
  ar_global_own : Forall (fun p => NCPU <= page_hart p) G;
  ar_hart_own : forall (i : nat) l, Hs !! i = Some l ->
    Forall (fun p => page_hart p = Z.of_nat i) l;
  ar_nodup : NoDup (G ++ concat Hs);
}.

(** The hart runs with its locks available and a consistent interrupt state. *)
Record hart_ok (s : kstate) : Prop := {
  ho_tp : 0 <= r_tp (k_csr s) < NCPU;
  ho_sync : sync_ok s;
  ho_kmem : free L_kmem s;
  ho_hart : forall i, free (L_hart i) s;
}.

(** The contract: [F] is the set of free pages. *)
Definition Free (s : kstate) (F : gset Z) : Prop :=
  layout_ok /\ mem_ok (k_mem s) /\ hart_ok s /\
  exists G Hs, alloc_rep (k_mem s) (k_freelist s) G Hs /\ F = list_to_set (G ++ concat Hs).

(** Address [x] belongs to the allocator: its array, or one of the pages [F]. *)
Definition alloc_owned (F : gset Z) (x : Z) : Prop :=
  kend <= x < kend + NCPU * FREE_LIST_SIZE \/
  exists p, p ∈ F /\ p <= x < p + PGSIZE.

(** The fields that the allocator does not touch. *)
Definition rest (s : kstate) :=
  (k_procs s, k_nextpid s, k_initproc s, k_ticks s, k_disk s, k_bcache s, k_sb s,
   k_log s, k_itable s, k_ftable s, k_pipes s, k_cons s, k_uart s,
   k_panicked s, k_prlocking s, k_kpgtbl s, k_first s, k_plic s,
   k_vdisk s, k_devsw s, k_mach s, k_started s).

(** [s'] differs from [s] only in memory the allocator owned under [F] and in
    the shared list's head. *)
Definition alloc_frame (F : gset Z) (s s' : kstate) : Prop :=
  rest s' = rest s /\ sync s' = sync s /\
  forall x, ~ alloc_owned F x -> rd (k_mem s') x = rd (k_mem s) x.

(** [n] consecutive pages from address [a]. *)
Fixpoint pages_from (a : Z) (n : nat) : list Z :=
  match n with
  | O => []
  | S n' => a :: pages_from (a + PGSIZE) n'
  end.

(** The pages of hart [i] and the shared pages, as kinit() links them. *)
Definition hart_pages (i : Z) : list Z :=
  reverse (pages_from (per_hart_start + i * PER_HART_ALLOC_SIZE)
             (Z.to_nat (PER_HART_ALLOC_SIZE / PGSIZE))).

Definition shared_start : Z := per_hart_start + NCPU * PER_HART_ALLOC_SIZE.

Definition shared_pages : list Z :=
  reverse (pages_from shared_start (Z.to_nat ((PHYSTOP - shared_start) / PGSIZE))).

(** ** Lemmas: the linked lists *)

Lemma chain_ext m m' a l :
  (forall p, p ∈ l -> ld64 m p = ld64 m' p) -> chain m a l -> chain m' a l.
Proof.
  revert a. induction l as [|p l IH]; intros a Hl; simpl; [done|].
  intros (-> & Hp & Hc). rewrite <- Hl by set_solver. repeat split; [done|].
  apply IH; [set_solver|done].
Qed.

Lemma concat_insert_cons (Hs : list (list Z)) i p l :
  Hs !! i = Some l -> concat (<[i := p :: l]> Hs) ≡ₚ p :: concat Hs.
Proof.
  intros Hi. rewrite <- (take_drop_middle Hs i l Hi) at 2.
  rewrite insert_take_drop by (by eapply lookup_lt_Some).
  rewrite !concat_app. cbn. symmetry. apply Permutation_middle.
Qed.

Lemma concat_insert_tail (Hs : list (list Z)) i p l :
  Hs !! i = Some (p :: l) -> p :: concat (<[i := l]> Hs) ≡ₚ concat Hs.
Proof.
  intros Hi. rewrite <- (concat_insert_cons _ i p l).
  - by rewrite list_insert_insert_eq, list_insert_id.
  - apply list_lookup_insert_eq. by eapply lookup_lt_Some.
Qed.

Lemma elem_of_concat_lookup (Hs : list (list Z)) i l p :
  Hs !! i = Some l -> p ∈ l -> p ∈ concat Hs.
Proof.
  intros Hi Hp. apply list_elem_of_In, in_concat. exists l.
  split; apply list_elem_of_In; [by eapply list_elem_of_lookup_2|done].
Qed.

Lemma per_hart_start_spec :
  layout_ok -> per_hart_start mod PGSIZE = 0 /\ kend + 256 <= per_hart_start < kend + 256 + PGSIZE.
Proof.
  unfold layout_ok, per_hart_start, FREE_LIST_SIZE, KERNBASE, PHYSTOP.
  intros [? ?]. rewrite u64_small by (unfold KERNBASE in *; lia).
  destruct (PGROUNDUP_spec (kend + NCPU * 32)); unfold KERNBASE in *; lia.
Qed.

Lemma page_ok_range p : layout_ok -> page_ok p -> kend + 256 <= p /\ 0 < p < 2 ^ 32.
Proof.
  intros Hl (? & ? & ?). pose proof (per_hart_start_spec Hl). destruct Hl.
  unfold KERNBASE, PHYSTOP, KERNBASE in *. lia.
Qed.

Lemma pages_apart p q : p mod PGSIZE = 0 -> q mod PGSIZE = 0 -> p <> q ->
  p + PGSIZE <= q \/ q + PGSIZE <= p.
Proof. intros. zdm. Qed.

Lemma hart_freelist_range i :
  0 <= i < NCPU -> kend + 24 <= hart_freelist i /\ hart_freelist i + 8 <= kend + 256.
Proof. unfold hart_freelist, FREE_LIST_SIZE. lia. Qed.

(** The representation only reads the first word of each free page and the
    harts' list heads. *)
Lemma alloc_rep_ext m m' fl G Hs :
  (forall p, p ∈ G ++ concat Hs -> ld64 m p = ld64 m' p) ->
  (forall i, 0 <= i < NCPU -> ld64 m (hart_freelist i) = ld64 m' (hart_freelist i)) ->
  alloc_rep m fl G Hs -> alloc_rep m' fl G Hs.
Proof.
  intros Hp Hi []. split; try done.
  - eapply chain_ext; [|done]. set_solver.
  - intros i l Hl. assert (i < length Hs)%nat by (by eapply lookup_lt_Some).
    rewrite <- Hi by lia. eapply chain_ext; [|by apply ar_harts0].
    intros p Hpl. apply Hp, elem_of_app. right. by eapply elem_of_concat_lookup.
Qed.

Lemma alloc_rep_pop_global m p fl G Hs :
  alloc_rep m fl (p :: G) Hs -> fl = p /\ alloc_rep m (ld64 m p) G Hs.
Proof.
  intros []. destruct ar_global0 as (-> & ? & ?). split; [done|].
  cbn [app] in *. inv ar_pages0. inv ar_global_own0. inv ar_nodup0. done.
Qed.

(** A store to the list head of hart [i] leaves every other list alone. *)
Lemma ld64_st64_hart m i j v :
  0 <= i < NCPU -> 0 <= j < NCPU -> i <> j ->
  ld64 (st64 m (hart_freelist i) v) (hart_freelist j) = ld64 m (hart_freelist j).
Proof. intros. apply ld64_st64_out. unfold hart_freelist, FREE_LIST_SIZE. lia. Qed.

Lemma ld64_st64_hart_page m i v p :
  layout_ok -> 0 <= i < NCPU -> page_ok p -> ld64 (st64 m (hart_freelist i) v) p = ld64 m p.
Proof.
  intros Hl Hi Hp. apply ld64_st64_out.
  pose proof (page_ok_range p Hl Hp). pose proof (hart_freelist_range i Hi). lia.
Qed.

Lemma ld64_st64_page_hart m i v p :
  layout_ok -> 0 <= i < NCPU -> page_ok p ->
  ld64 (st64 m p v) (hart_freelist i) = ld64 m (hart_freelist i).
Proof.
  intros Hl Hi Hp. apply ld64_st64_out.
  pose proof (page_ok_range p Hl Hp). pose proof (hart_freelist_range i Hi). lia.
Qed.

Lemma ld64_st64_page m v p q :
  page_ok p -> page_ok q -> p <> q -> ld64 (st64 m p v) q = ld64 m q.
Proof.
  intros (? & _) (? & _) ?. apply ld64_st64_out. destruct (pages_apart p q); lia || done.
Qed.

Lemma alloc_rep_page m fl G Hs i l p :
  alloc_rep m fl G Hs -> Hs !! i = Some l -> p ∈ l -> page_ok p.
Proof.
  intros [] Hi Hp. eapply Forall_forall; [exact ar_pages0|].
  apply elem_of_app. right. by eapply elem_of_concat_lookup.
Qed.

(** Replacing the list of hart [i], when its chain and head are in place. *)
Lemma alloc_rep_set_hart m m' (i : nat) fl G Hs l l' :
  layout_ok -> Hs !! i = Some l -> alloc_rep m fl G Hs ->
  chain m' (ld64 m' (hart_freelist (Z.of_nat i))) l' ->
  (forall j, 0 <= j < NCPU -> j <> Z.of_nat i ->
     ld64 m' (hart_freelist j) = ld64 m (hart_freelist j)) ->
  (forall q, q ∈ G ++ concat Hs -> q ∉ l -> ld64 m' q = ld64 m q) ->
  Forall page_ok l' -> Forall (fun p => page_hart p = Z.of_nat i) l' ->
  NoDup (G ++ concat (<[i := l']> Hs)) -> Forall page_ok (G ++ concat (<[i := l']> Hs)) ->
  alloc_rep m' fl G (<[i := l']> Hs).
Proof.
  intros Hlay Hi [] Hc Hh Hq Hok Hown Hnd Hpg.
  assert (Hdis : forall q, q ∈ G -> q ∉ l).
  { intros q HqG Hql. apply NoDup_app in ar_nodup0 as (_ & Hn & _).
    apply (Hn q HqG). by eapply elem_of_concat_lookup. }
  split; try done.
  - by rewrite length_insert.
  - eapply chain_ext; [|exact ar_global0]. intros q HqG. symmetry. apply Hq; set_solver.
  - intros j k Hj. assert (j < length (<[i := l']> Hs))%nat as Hlt by (by eapply lookup_lt_Some).
    rewrite length_insert in Hlt.
    destruct (decide (i = j)) as [<-|Hne].
    + rewrite list_lookup_insert_eq in Hj by done. by simplify_eq.
    + rewrite list_lookup_insert_ne in Hj by done. rewrite Hh by lia.
      eapply chain_ext; [|by apply ar_harts0]. intros q Hqk. symmetry. apply Hq.
      * apply elem_of_app. right. by eapply elem_of_concat_lookup.
      * intros Hql. pose proof (ar_hart_own0 _ _ Hj) as H1.
        pose proof (ar_hart_own0 _ _ Hi) as H2. rewrite Forall_forall in H1, H2.
        specialize (H1 q Hqk). specialize (H2 q Hql). lia.
  - intros j k Hj. destruct (decide (i = j)) as [<-|Hne].
    + rewrite list_lookup_insert_eq in Hj by (by eapply lookup_lt_Some). by simplify_eq.
    + rewrite list_lookup_insert_ne in Hj by done. by apply ar_hart_own0.
Qed.

Lemma alloc_rep_pop_hart m (i : nat) p fl G Hs l :
  layout_ok -> mem_ok m -> Hs !! i = Some (p :: l) -> alloc_rep m fl G Hs ->
  ld64 m (hart_freelist (Z.of_nat i)) = p /\ p <> 0 /\
  alloc_rep (st64 m (hart_freelist (Z.of_nat i)) (ld64 m p)) fl G (<[i := l]> Hs).
Proof.
  intros Hlay Hm Hi Hrep. assert (Hlt : (i < 8)%nat).
  { rewrite <- (ar_len _ _ _ _ Hrep : _ = 8%nat). by eapply lookup_lt_Some. }
  destruct (ar_harts _ _ _ _ Hrep _ _ Hi) as (Hp & Hp0 & Hc).
  split; [done|]. split; [done|].
  pose proof (concat_insert_tail _ _ _ _ Hi) as Hperm.
  assert (Hall : Forall page_ok (p :: l)).
  { apply Forall_forall. intros q Hq. by eapply alloc_rep_page. }
  assert (Hsub : Forall page_ok (G ++ p :: concat (<[i := l]> Hs))).
  { rewrite Hperm. apply Hrep. }
  assert (Hnd : NoDup (G ++ p :: concat (<[i := l]> Hs))).
  { rewrite Hperm. apply Hrep. }
  rewrite <- Permutation_middle in Hsub, Hnd. inv Hsub. inv Hnd. inv Hall.
  eapply alloc_rep_set_hart; try done.
  - rewrite ld64_st64, u64_small by (by apply ld64_range).
    eapply chain_ext; [|exact Hc]. intros q Hq. symmetry.
    apply ld64_st64_hart_page; [done|lia|]. eapply Forall_forall; done.
  - intros j Hj Hne. apply ld64_st64_hart; lia.
  - intros q Hq _. apply ld64_st64_hart_page; [done|lia|].
    eapply Forall_forall; [apply Hrep|done].
  - pose proof (ar_hart_own _ _ _ _ Hrep i _ Hi) as Hown. by inv Hown.
Qed.

Lemma alloc_rep_push_hart m (i : nat) p fl G Hs l :
  layout_ok -> mem_ok m -> Hs !! i = Some l -> alloc_rep m fl G Hs ->
  page_ok p -> page_hart p = Z.of_nat i -> p ∉ G ++ concat Hs ->
  let m1 := st64 m p (ld64 m (hart_freelist (Z.of_nat i))) in
  alloc_rep (st64 m1 (hart_freelist (Z.of_nat i)) p) fl G (<[i := p :: l]> Hs).
Proof.
  intros Hlay Hm Hi Hrep Hp Hown Hnew m1. assert (Hlt : (i < 8)%nat).
  { rewrite <- (ar_len _ _ _ _ Hrep : _ = 8%nat). by eapply lookup_lt_Some. }
  pose proof (page_ok_range p Hlay Hp).
  pose proof (concat_insert_cons Hs i p l Hi) as Hperm.
  assert (Hall : Forall page_ok l).
  { apply Forall_forall. intros q Hq. by eapply alloc_rep_page. }
  eapply alloc_rep_set_hart; try done.
  - rewrite ld64_st64, u64_small by lia. simpl. split; [done|]. split; [lia|].
    rewrite ld64_st64_hart_page by (done || lia). unfold m1.
    rewrite ld64_st64, u64_small by (by apply ld64_range).
    eapply chain_ext; [|by apply (ar_harts _ _ _ _ Hrep)]. intros q Hq. symmetry.
    assert (page_ok q) by (by eapply Forall_forall).
    rewrite ld64_st64_hart_page by (done || lia). apply ld64_st64_page; [done..|].
    intros ->. apply Hnew, elem_of_app. right. by eapply elem_of_concat_lookup.
  - intros j Hj Hne. rewrite ld64_st64_hart by lia. by apply ld64_st64_page_hart.
  - intros q Hq _. assert (page_ok q) by (eapply Forall_forall; [apply Hrep|done]).
    rewrite ld64_st64_hart_page by (done || lia). apply ld64_st64_page; [done..|]. by intros ->.
  - by constructor.
  - constructor; [done|]. apply (ar_hart_own _ _ _ _ Hrep i l Hi).
  - rewrite Hperm, <- Permutation_middle. constructor; [done|apply Hrep].
  - rewrite Hperm, <- Permutation_middle. constructor; [done|apply Hrep].
Qed.

Lemma alloc_rep_push_global m p fl G Hs :
  layout_ok -> alloc_rep m fl G Hs -> page_ok p -> NCPU <= page_hart p ->
  p ∉ G ++ concat Hs -> 0 <= fl < 2 ^ 64 ->
  alloc_rep (st64 m p fl) p (p :: G) Hs.
Proof.
  intros Hlay Hrep Hp Hown Hnew Hfl. pose proof (page_ok_range p Hlay Hp).
  assert (Hrep' : alloc_rep (st64 m p fl) fl G Hs).
  { eapply alloc_rep_ext; [..|exact Hrep].
    - intros q Hq. symmetry. apply ld64_st64_page; [done|..].
      + eapply Forall_forall; [apply Hrep|done].
      + by intros ->.
    - intros i Hi. symmetry. by apply ld64_st64_page_hart. }
  destruct Hrep'. split; try done.
  - simpl. rewrite ld64_st64, u64_small by done. split; [done|]. split; [lia|done].
  - by constructor.
  - by constructor.
  - by constructor.
Qed.

Lemma alloc_rep_memset m r c fl G Hs :
  layout_ok -> alloc_rep m fl G Hs -> page_ok r -> r ∉ G ++ concat Hs ->
  alloc_rep (memset m r c PGSIZE) fl G Hs.
Proof.
  intros Hlay Hrep Hr Hnew. pose proof (page_ok_range r Hlay Hr).
  eapply alloc_rep_ext; [..|exact Hrep].
  - intros q Hq. assert (page_ok q) as (? & ?) by (eapply Forall_forall; [apply Hrep|done]).
    destruct Hr as (? & ?). assert (q <> r) by (by intros ->).
    destruct (pages_apart q r); try done; apply ld64_ext; intros x Hx;
      rewrite rd_memset, decide_False; lia || done.
  - intros i Hi. pose proof (hart_freelist_range i Hi). apply ld64_ext. intros x Hx.
    rewrite rd_memset, decide_False by lia. done.
Qed.

(** ** Lemmas: the operations *)

Lemma hart_ok_sync s s' : sync s' = sync s -> hart_ok s -> hart_ok s'.
Proof.
  intros Hs []. split; eauto with xv6.
  unfold sync in Hs. by injection Hs as -> _.
Qed.

Lemma hart_list s G Hs :
  hart_ok s -> alloc_rep (k_mem s) (k_freelist s) G Hs ->
  exists l, Hs !! Z.to_nat (r_tp (k_csr s)) = Some l.
Proof. intros [] []. apply lookup_Some_total. lia. Qed.

Lemma pkalloc_spec s G Hs l :
  layout_ok -> mem_ok (k_mem s) -> hart_ok s ->
  alloc_rep (k_mem s) (k_freelist s) G Hs ->
  Hs !! Z.to_nat (r_tp (k_csr s)) = Some l ->
  wp pkalloc (fun r s' =>
    sync s' = sync s /\ rest s' = rest s /\ k_freelist s' = k_freelist s /\
    match l with
    | [] => r = 0 /\ k_mem s' = k_mem s
    | p :: _ => r = p /\ k_mem s' =
        st64 (k_mem s) (hart_freelist (r_tp (k_csr s))) (ld64 (k_mem s) p)
    end) s.
Proof.
  intros Hlay Hm [Htp Hsy _ Hfree] Hrep Hl. unfold pkalloc, cpuid, upd_mem.
  pose proof (ar_harts _ _ _ _ Hrep _ _ Hl) as Hc. rewrite Z2Nat.id in Hc by lia.
  wp_steps. apply wp_acquire; [apply Hfree|]. wp_steps.
  change (k_mem (locked _ s)) with (k_mem s).
  destruct l as [|p l]; simpl in Hc.
  - rewrite Hc. cbn [Z.eqb negb]. apply wp_ret.
    apply wp_bind. wp_rel; [done|]. apply wp_ret. split; [ksync|done].
  - destruct Hc as (-> & Hp0 & _). rewrite (proj2 (Z.eqb_neq p 0)) by done. cbn [negb].
    apply wp_modify. apply wp_bind. wp_rel; [done|]. apply wp_ret. split; [ksync|done].
Qed.

(** What kalloc() does to a state with lists [G] and [Hs], [l] being those of
    the hart it runs on: the lists after it. *)
Definition kalloc_lists (id : nat) (l G : list Z) (Hs : list (list Z)) :
    Z * list Z * list (list Z) :=
  match l, G with
  | p :: l', _ => (p, G, <[id := l']> Hs)
  | [], p :: G' => (p, G', Hs)
  | [], [] => (0, [], Hs)
  end.

(** Memory outside the allocator's array and page [r] is unchanged. *)
Definition mem_frame (r : Z) (s s' : kstate) : Prop :=
  forall x, ~ (kend <= x < kend + NCPU * FREE_LIST_SIZE) ->
    ~ (r <> 0 /\ r <= x < r + PGSIZE) -> rd (k_mem s') x = rd (k_mem s) x.

Lemma rd_st64_hart m i v x :
  0 <= i < NCPU -> ~ (kend <= x < kend + NCPU * FREE_LIST_SIZE) ->
  rd (st64 m (hart_freelist i) v) x = rd m x.
Proof.
  intros Hi Hx. pose proof (hart_freelist_range i Hi). unfold FREE_LIST_SIZE in Hx.
  apply rd_st64_out. lia.
Qed.

Lemma kalloc_rep s G Hs l :
  layout_ok -> mem_ok (k_mem s) -> hart_ok s ->
  alloc_rep (k_mem s) (k_freelist s) G Hs ->
  Hs !! Z.to_nat (r_tp (k_csr s)) = Some l ->
  wp kalloc (fun r s' =>
    let '(p, G', Hs') := kalloc_lists (Z.to_nat (r_tp (k_csr s))) l G Hs in
    r = p /\ sync s' = sync s /\ rest s' = rest s /\ mem_ok (k_mem s') /\
    alloc_rep (k_mem s') (k_freelist s') G' Hs' /\ mem_frame r s s' /\
    (r <> 0 -> forall x, r <= x < r + PGSIZE -> rd (k_mem s') x = 5)) s.
Proof.
  intros Hlay Hm Hok Hrep Hl. unfold kalloc. apply wp_bind.
  eapply wp_mono; [by eapply pkalloc_spec|]. cbn beta.
  intros r s1 (Hsy & Hrest & Hfl & Hr). pose proof (ho_tp _ Hok) as Htp.
  destruct l as [|p l]; destruct Hr as [-> Hm1].
  - (* the hart's list is empty *)
    cbn [Z.eqb negb]. apply wp_bind.
    apply wp_acquire; [eapply sync_free; [done|apply Hok]|].
    wp_steps. change (k_freelist (locked L_kmem s1)) with (k_freelist s1). rewrite Hfl.
    destruct G as [|p G].
    + assert (Hz : k_freelist s = 0) by exact (ar_global _ _ _ _ Hrep).
      rewrite Hz. cbn [Z.eqb negb]. apply wp_ret. apply wp_bind.
      wp_rel; [eapply sync_sync_ok; [done|apply Hok]|].
      apply wp_bind. apply wp_ret, wp_ret.
      cbn [kalloc_lists]. split; [done|].
      split; [ksync|]. split; [done|]. cbn. rewrite Hm1, Hfl.
      split_and!; [done..| |done]. intros x _ _. cbn. by rewrite Hm1.
    + destruct (alloc_rep_pop_global _ _ _ _ _ Hrep) as (-> & Hrep').
      assert (Hp : page_ok p) by (pose proof (ar_pages _ _ _ _ Hrep) as Hpg; by inv Hpg).
      pose proof (page_ok_range p Hlay Hp).
      rewrite (proj2 (Z.eqb_neq p 0)) by lia. cbn [negb]. apply wp_modify. apply wp_bind.
      wp_rel; [eapply sync_sync_ok; [done|apply Hok]|].
      apply wp_bind, wp_modify, wp_ret. cbn [kalloc_lists].
      split; [done|]. split; [ksync|]. split; [done|].
      cbn. rewrite Hm1. split; [mem_ok_tac|]. split.
      { apply alloc_rep_memset; try done. pose proof (ar_nodup _ _ _ _ Hrep) as Hnd. by inv Hnd. }
      split; [intros x _ Hx; cbn; rewrite rd_memset, decide_False by lia; by rewrite Hm1|].
      intros _ x Hx. rewrite rd_memset, decide_True by done. done.
  - assert (Hp : page_ok p) by (eapply alloc_rep_page; [done..|apply list_elem_of_here]).
    pose proof (page_ok_range p Hlay Hp).
    rewrite (proj2 (Z.eqb_neq p 0)) by lia. cbn [negb].
    apply wp_bind, wp_modify, wp_ret. cbn [kalloc_lists].
    split; [done|]. split; [done|]. split; [done|]. cbn. rewrite Hm1, Hfl.
    destruct (alloc_rep_pop_hart _ _ _ _ _ _ _ Hlay Hm Hl Hrep) as (_ & _ & Hrep').
    rewrite Z2Nat.id in Hrep' by lia. split; [mem_ok_tac|]. split.
    { apply alloc_rep_memset; try done.
      pose proof (ar_nodup _ _ _ _ Hrep) as Hnd.
      rewrite <- (concat_insert_tail _ _ _ _ Hl), <- Permutation_middle in Hnd. by inv Hnd. }
    split.
    { intros x Hx Hx'. cbn. rewrite rd_memset, decide_False, Hm1, rd_st64_hart by (done || lia). done. }
    intros _ x Hx. rewrite rd_memset, decide_True by done. done.
Qed.

(** The lists after kfree(pa): the page goes to the front of the list of the
    hart that owns it, or of the shared list. *)
Definition kfree_lists (pa : Z) (G : list Z) (Hs : list (list Z)) :
    list Z * list (list Z) :=
  if page_hart pa <? NCPU then (G, alter (cons pa) (Z.to_nat (page_hart pa)) Hs)
  else (pa :: G, Hs).

Lemma pkfree_id pa :
  layout_ok -> page_ok pa -> u64 (pa - per_hart_start) / PER_HART_ALLOC_SIZE = page_hart pa.
Proof.
  intros Hlay (? & ? & ?). pose proof (per_hart_start_spec Hlay). destruct Hlay.
  unfold page_hart. rewrite u64_small; [done|].
  unfold PHYSTOP, KERNBASE in *. lia.
Qed.

Lemma page_hart_nonneg pa : page_ok pa -> 0 <= page_hart pa.
Proof.
  intros (? & ? & ?). unfold page_hart, PER_HART_ALLOC_SIZE. apply Z.div_pos; lia.
Qed.

Lemma freelist_range m fl G Hs :
  layout_ok -> alloc_rep m fl G Hs -> 0 <= fl < 2 ^ 64.
Proof.
  intros Hlay []. destruct G as [|p G]; simpl in *; [lia|].
  inv ar_pages0. destruct ar_global0 as (-> & _).
  pose proof (page_ok_range p Hlay ltac:(done)). lia.
Qed.

Lemma kfree_rep s G Hs pa :
  layout_ok -> mem_ok (k_mem s) -> hart_ok s ->
  alloc_rep (k_mem s) (k_freelist s) G Hs ->
  page_ok pa -> pa ∉ G ++ concat Hs ->
  wp (kfree pa) (fun _ s' =>
    let '(G', Hs') := kfree_lists pa G Hs in
    sync s' = sync s /\ rest s' = rest s /\ mem_ok (k_mem s') /\
    alloc_rep (k_mem s') (k_freelist s') G' Hs' /\ mem_frame pa s s') s.
Proof.
  intros Hlay Hm Hok Hrep Hpa Hnew. pose proof (page_ok_range pa Hlay Hpa) as Hr.
  pose proof (page_hart_nonneg pa Hpa) as Hge.
  unfold kfree. destruct (Hpa) as (Hal & Hlo & Hhi). rewrite Hal. cbn [Z.eqb negb orb].
  rewrite (proj2 (Z.ltb_ge pa kend)), (proj2 (Z.leb_gt PHYSTOP pa)) by lia. cbn [orb].
  apply wp_bind, wp_modify. set (m1 := memset (k_mem s) pa 1 PGSIZE).
  assert (Hm1 : mem_ok m1) by (unfold m1; mem_ok_tac).
  assert (Hrep1 : alloc_rep m1 (k_freelist s) G Hs) by by apply alloc_rep_memset.
  assert (Hfr : forall x, ~ (pa <= x < pa + PGSIZE) -> rd m1 x = rd (k_mem s) x).
  { intros. unfold m1. by rewrite rd_memset, decide_False. }
  unfold pkfree. rewrite pkfree_id by done. unfold kfree_lists.
  destruct (Z.leb_spec NCPU (page_hart pa)) as [Hge8|Hlt8].
  - rewrite (proj2 (Z.ltb_ge _ _)) by done. apply wp_bind, wp_ret. cbn [Z.eqb negb].
    apply wp_bind, wp_acquire; [apply Hok|]. wp_steps. unfold upd_mem. wp_steps.
    wp_rel; [apply Hok|].
    split; [ksync|]. split; [done|]. cbn. split; [mem_ok_tac|].
    split; [apply alloc_rep_push_global; try done; by eapply freelist_range|].
    intros x _ Hx. cbn. rewrite rd_st64_out by lia. apply Hfr. lia.
  - rewrite (proj2 (Z.ltb_lt _ _)) by done.
    destruct (lookup_Some_total Hs (Z.to_nat (page_hart pa))) as [l Hl].
    { rewrite (ar_len _ _ _ _ Hrep). lia. }
    unfold upd_mem. wp_steps. apply wp_acquire; [apply Hok|]. wp_steps.
    wp_rel; [apply Hok|].
    wp_steps. cbn [Z.eqb negb]. apply wp_ret.
    split; [ksync|]. split; [done|]. cbn. split; [mem_ok_tac|].
    rewrite (list_alter_insert _ _ _ _ Hl).
    pose proof (alloc_rep_push_hart m1 _ pa _ _ _ _ Hlay Hm1 Hl Hrep1 Hpa) as Hpush.
    rewrite Z2Nat.id in Hpush by done. split; [by apply Hpush|].
    intros x Hx Hx'. cbn. rewrite rd_st64_hart, rd_st64_out by lia. apply Hfr. lia.
Qed.

(** ** Lemmas: initialisation *)

Lemma elem_of_pages_from p a n :
  p ∈ pages_from a n <-> exists k, 0 <= k < Z.of_nat n /\ p = a + k * PGSIZE.
Proof.
  revert a. induction n as [|n IH]; intros a; cbn [pages_from].
  { split; [by intros ?%not_elem_of_nil|intros (k & ? & _); lia]. }
  rewrite elem_of_cons, IH. split.
  - intros [->|(k & ? & ->)]; [exists 0; lia|exists (k + 1); lia].
  - intros (k & ? & ->). destruct (decide (k = 0)); [left; lia|].
    right. exists (k - 1). lia.
Qed.

(** The fill loop links the [n] pages from [a] in front of the list of hart [i]. *)
Lemma per_hart_fill_spec n : forall s (i : nat) a fl G Hs l Q,
  layout_ok -> mem_ok (k_mem s) -> alloc_rep (k_mem s) fl G Hs -> Hs !! i = Some l ->
  a + Z.of_nat n * PGSIZE < 2 ^ 64 -> 0 <= a ->
  (forall p, p ∈ pages_from a n -> page_ok p /\ page_hart p = Z.of_nat i /\ p ∉ G ++ concat Hs) ->
  (forall m, mem_ok m -> alloc_rep m fl G (<[i := reverse (pages_from a n) ++ l]> Hs) ->
     Q (a + Z.of_nat n * PGSIZE) (upd_k_mem (fun _ => m) s)) ->
  wp (per_hart_fill (Z.of_nat i) a n) Q s.
Proof.
  induction n as [|n IH]; intros s i a fl G Hs l Q Hlay Hm Hrep Hl Ha Ha0 Hp HQ.
  { cbn. apply wp_ret. specialize (HQ (k_mem s) Hm). cbn in HQ.
    rewrite list_insert_id in HQ by done. rewrite Z.add_0_r in HQ.
    replace (upd_k_mem (fun _ => k_mem s) s) with s in HQ by (by destruct s). by apply HQ. }
  cbn [per_hart_fill]. unfold upd_mem at 1 2. wp_steps.
  destruct (Hp a) as (Hpa & Hown & Hnew); [apply list_elem_of_here|].
  rewrite u64_small by lia.
  eapply IH; cbn.
  - done.
  - mem_ok_tac.
  - apply (alloc_rep_push_hart _ _ _ _ _ _ _ Hlay Hm Hl Hrep Hpa Hown Hnew).
  - by apply list_lookup_insert_eq, (lookup_lt_Some _ _ _ Hl).
  - lia.
  - lia.
  - intros p Hpn. destruct (Hp p) as (? & ? & Hn); [by apply list_elem_of_further|].
    split; [done|]. split; [done|]. rewrite (concat_insert_cons _ _ _ _ Hl), <- Permutation_middle.
    apply not_elem_of_cons. split; [|done]. intros ->.
    apply elem_of_pages_from in Hpn as (k & ? & ?). lia.
  - intros m Hmm Hrepm. replace (a + PGSIZE + Z.of_nat n * PGSIZE) with
      (a + Z.of_nat (S n) * PGSIZE) by lia.
    specialize (HQ m Hmm). rewrite list_insert_insert_eq in Hrepm.
    cbn [pages_from] in HQ. rewrite reverse_cons, <- app_assoc in HQ. by apply HQ.
Qed.

End kalloc.
