(* ===== verification/KallocInit.v ===== *)
(** * The page allocator's contract and its initialisation (kernel/kalloc.c)

    kinit() puts every page above the kernel on exactly one list; kalloc() and
    kfree() implement a set of free pages ([Free]), which is the interface
    [PageAllocator] the rest of the memory management is verified against. *)

From Stdlib Require Import ZArith Lia.
From stdpp Require Import base tactics numbers gmap strings option list_numbers list.
From S2P Require Import Prelude Kernel Spinlock Kstring Riscv Kalloc.

(** ** The interface *)

Section interface.
Context `{Platform}.

(** What a client may assume of an allocator whose free pages are [Free]. *)
Class PageAllocator (Free : kstate -> gset Z -> Prop) : Prop := {
  pa_page s F p : Free s F -> p ∈ F -> page_ok p;
  pa_layout s F : Free s F -> layout_ok;
  pa_mem s F : Free s F -> mem_ok (k_mem s);
  pa_kalloc s F : Free s F ->
    wp kalloc (fun r s' => alloc_frame F s s' /\
      (r = 0 /\ Free s' F \/ r <> 0 /\ r ∈ F /\ Free s' (F ∖ {[r]}))) s;
  pa_kfree s F p : Free s F -> page_ok p -> p ∉ F ->
    wp (kfree p) (fun _ s' => alloc_frame (F ∪ {[p]}) s s' /\ Free s' (F ∪ {[p]})) s;
  (** Writes outside the allocator's memory keep the contract. *)
  pa_frame s s' F : Free s F -> mem_ok (k_mem s') -> sync s' = sync s ->
    k_freelist s' = k_freelist s ->
    (forall x, alloc_owned F x -> rd (k_mem s') x = rd (k_mem s) x) -> Free s' F;
  (** So does taking or releasing a lock that the allocator does not use. *)
  pa_sync s s' F : Free s F -> others s' = others s -> sync_ok s' ->
    r_tp (k_csr s') = r_tp (k_csr s) ->
    (free L_kmem s -> free L_kmem s') -> (forall i, free (L_hart i) s -> free (L_hart i) s') ->
    Free s' F;
}.

End interface.

Section init.
Context `{Platform}.

(** ** Lemmas: initialisation *)

Lemma page_hart_range (i k : Z) p :
  layout_ok -> 0 <= i < NCPU -> 0 <= k < PER_HART_ALLOC_SIZE / PGSIZE ->
  p = per_hart_start + i * PER_HART_ALLOC_SIZE + k * PGSIZE ->
  page_ok p /\ page_hart p = i.
Proof.
  intros Hlay Hi Hk ->. destruct (per_hart_start_spec Hlay) as [Hal _]. destruct Hlay as [_ Hhi].
  change (PER_HART_ALLOC_SIZE / PGSIZE) with 256 in Hk.
  unfold page_ok, page_hart in *. change PER_HART_ALLOC_SIZE with 1048576 in *.
  change PHYSTOP with 2281701376 in *. split; [|zdm]. split_and!; zdm.
Qed.

Lemma hart_pages_spec i p :
  layout_ok -> 0 <= i < NCPU ->
  p ∈ pages_from (per_hart_start + i * PER_HART_ALLOC_SIZE)
        (Z.to_nat (PER_HART_ALLOC_SIZE / PGSIZE)) ->
  page_ok p /\ page_hart p = i.
Proof.
  intros Hlay Hi (k & Hk & Hp)%elem_of_pages_from.
  apply (page_hart_range i k); [done|done|lia|lia].
Qed.

Lemma not_in_hart_lists m fl Hs (i : nat) p :
  alloc_rep m fl [] Hs -> Hs !! i = Some [] -> page_hart p = Z.of_nat i ->
  p ∉ [] ++ concat Hs.
Proof.
  intros Hrep Hi Hp Hin. cbn in Hin. apply list_elem_of_In, in_concat in Hin as (l & Hl & Hpl).
  apply list_elem_of_In, list_elem_of_lookup in Hl as [j Hj].
  apply list_elem_of_In in Hpl. pose proof (ar_hart_own _ _ _ _ Hrep _ _ Hj) as Hown.
  rewrite Forall_forall in Hown. specialize (Hown p Hpl).
  assert (i = j) as -> by lia. rewrite Hi in Hj. simplify_eq. by apply not_elem_of_nil in Hpl.
Qed.

(** The lists after the first [j] harts are filled. *)
Definition filled (j : nat) : list (list Z) :=
  (hart_pages <$> seqZ 0 (Z.of_nat j)) ++ replicate (8 - j) [].

Lemma filled_S j : (j < 8)%nat ->
  filled j !! j = Some [] /\ <[j := hart_pages (Z.of_nat j)]> (filled j) = filled (S j).
Proof.
  intros Hj. unfold filled. replace (8 - j)%nat with (S (8 - S j)) by lia. cbn [replicate].
  assert (Hl : length (hart_pages <$> seqZ 0 (Z.of_nat j)) = j) by (len; rewrite length_seqZ; lia).
  split.
  - rewrite lookup_app_r by lia. by rewrite Hl, Nat.sub_diag.
  - rewrite insert_app_r_alt by lia. rewrite Hl, Nat.sub_diag. cbn [insert list_insert].
    rewrite Nat2Z.inj_succ, <- Z.add_1_r, seqZ_app by lia.
    rewrite fmap_app, <- app_assoc. done.
Qed.

Lemma per_hart_fill_all_spec s Q :
  layout_ok -> mem_ok (k_mem s) -> alloc_rep (k_mem s) 0 [] (filled 0) ->
  (forall m, mem_ok m -> alloc_rep m 0 [] (filled 8) -> Q shared_start (upd_k_mem (fun _ => m) s)) ->
  wp (per_hart_fill_all per_hart_start) Q s.
Proof.
  intros Hlay Hm Hrep HQ. unfold per_hart_fill_all.
  pose proof (per_hart_start_spec Hlay). pose proof (proj2 Hlay) as Hhi.
  change PER_HART_ALLOC_SIZE with 1048576 in *. change PHYSTOP with 2281701376 in *.
  apply (wp_foldM (fun d b s' =>
    b = per_hart_start + Z.of_nat (length d) * 1048576 /\
    exists m, s' = upd_k_mem (fun _ => m) s /\ mem_ok m /\ alloc_rep m 0 [] (filled (length d)))).
  - split; [cbn; lia|]. exists (k_mem s). split; [by destruct s|done].
  - intros d x r b s' Hseq (-> & m & -> & Hmm & Hrm).
    assert (Hlen : (length d < 8)%nat).
    { apply (f_equal length) in Hseq. rewrite length_seqZ, length_app in Hseq. cbn in Hseq. lia. }
    assert (x = Z.of_nat (length d)) as ->.
    { assert (Hx : seqZ 0 8 !! length d = Some x)
        by (rewrite Hseq, lookup_app_r, Nat.sub_diag by lia; done).
      apply lookup_seqZ in Hx. lia. }
    destruct (filled_S (length d) Hlen) as [Hnil Hins].
    apply wp_bind. eapply (per_hart_fill_spec _ _ (length d)); cbn; try done.
    + change (Z.to_nat (1048576 / 4096)) with 256%nat. lia.
    + destruct Hlay as [[? ?] _]. unfold KERNBASE in *. lia.
    + intros p Hp. destruct (hart_pages_spec (Z.of_nat (length d)) p Hlay) as [? Hh].
      * lia.
      * done.
      * split; [done|]. split; [done|]. by eapply not_in_hart_lists.
    + intros m' Hm' Hrm'. change (Z.to_nat (1048576 / 4096)) with 256%nat.
      change (Z.of_nat 256 * 4096) with 1048576.
      rewrite (proj2 (Z.leb_le _ _)) by lia. apply wp_ret.
      rewrite length_app. cbn [length]. split; [lia|]. exists m'. split; [by destruct s|].
      split; [done|]. rewrite app_nil_r in Hrm'. rewrite Nat.add_1_r, <- Hins. exact Hrm'.
  - intros b s' (-> & m & -> & Hmm & Hrm). rewrite length_seqZ in *.
    by apply HQ.
Qed.

(** The first loop empties the lists of all harts. *)
Lemma clear_lists_spec s Q :
  layout_ok -> mem_ok (k_mem s) -> k_locks s = [] ->
  (forall m, mem_ok m -> alloc_rep m 0 [] (filled 0) -> Q tt (upd_k_mem (fun _ => m) s)) ->
  wp (for_each (seqZ 0 NCPU) (fun i =>
        initlock (L_hart i);; upd_mem (fun m => st64 m (hart_freelist i) 0))) Q s.
Proof.
  intros Hlay Hm Hlk HQ.
  apply (wp_for_each (fun d s' => exists m, s' = upd_k_mem (fun _ => m) s /\ mem_ok m /\
    forall i, i ∈ d -> ld64 m (hart_freelist i) = 0)).
  - exists (k_mem s). split; [by destruct s|]. split; [done|]. by intros i ?%not_elem_of_nil.
  - intros d x r s' Hseq (m & -> & Hmm & Hd). unfold initlock, upd_mem. wp_steps.
    exists (st64 m (hart_freelist x) 0). split; [destruct s; cbn in *; by subst|].
    split; [mem_ok_tac|]. intros i Hi.
    assert (Hrange : forall y, y ∈ d ++ [x] -> 0 <= y < NCPU).
    { intros y Hy. assert (y ∈ seqZ 0 8) as ?%elem_of_seqZ by (rewrite Hseq; set_solver). lia. }
    destruct (decide (i = x)) as [->|Hne]; [by rewrite ld64_st64|].
    rewrite ld64_st64_hart; [apply Hd; set_solver|..|done]; apply Hrange; set_solver.
  - intros s' (m & -> & Hmm & Hd). apply HQ; [done|].
    split; cbn; try (done || constructor).
    + intros i l Hl. apply (lookup_replicate 8) in Hl as [-> Hi]. cbn. apply Hd.
      apply elem_of_seqZ. lia.
    + intros i l Hl. apply (lookup_replicate 8) in Hl as [-> _]. constructor.
Qed.

(** freerange() pushes each page of the range on the shared list. *)
Lemma freerange_loop_spec n : forall fuel s a e G Hs Q,
  layout_ok -> mem_ok (k_mem s) -> hart_ok s ->
  alloc_rep (k_mem s) (k_freelist s) G Hs ->
  (n < fuel)%nat -> a + Z.of_nat n * PGSIZE <= e < a + Z.of_nat (S n) * PGSIZE ->
  (forall p, p ∈ pages_from a n -> page_ok p /\ NCPU <= page_hart p /\ p ∉ G ++ concat Hs) ->
  (forall s', sync s' = sync s -> rest s' = rest s -> mem_ok (k_mem s') ->
     alloc_rep (k_mem s') (k_freelist s') (reverse (pages_from a n) ++ G) Hs -> Q tt s') ->
  wp (freerange_loop fuel a e) Q s.
Proof.
  induction n as [|n IH]; intros [|fuel] s a e G Hs Q Hlay Hm Hok Hrep Hf He Hp HQ; try lia;
    cbn [freerange_loop].
  { rewrite (proj2 (Z.leb_gt _ _)) by lia. apply wp_ret. by apply HQ. }
  rewrite (proj2 (Z.leb_le _ _)) by lia. apply wp_bind.
  destruct (Hp a) as (Hpa & Hown & Hnew); [apply list_elem_of_here|].
  eapply wp_mono; [by apply (kfree_rep s G Hs)|]. cbn beta. intros _ s1.
  unfold kfree_lists. rewrite (proj2 (Z.ltb_ge _ _)) by done.
  intros (Hsy & Hrest & Hm1 & Hrep1 & _).
  eapply (IH fuel s1); try done.
  - by eapply hart_ok_sync.
  - lia.
  - lia.
  - intros p Hpn. destruct (Hp p) as (? & ? & Hn); [by apply list_elem_of_further|].
    split; [done|]. split; [done|]. cbn. apply not_elem_of_cons. split; [|done].
    intros ->. apply elem_of_pages_from in Hpn as (k & ? & ?). lia.
  - intros s' Hsy' Hrest' Hm' Hrep'. apply HQ; [congruence..|done|].
    cbn [pages_from]. by rewrite reverse_cons, <- app_assoc.
Qed.

Lemma shared_pages_spec p :
  layout_ok -> p ∈ shared_pages -> page_ok p /\ NCPU <= page_hart p.
Proof.
  intros Hlay Hp. unfold shared_pages in Hp. apply elem_of_reverse, elem_of_pages_from in Hp
    as (k & Hk & ->).
  destruct (per_hart_start_spec Hlay) as [Hal _]. destruct Hlay as [_ Hhi].
  unfold shared_start, page_ok, page_hart in *. change PER_HART_ALLOC_SIZE with 1048576 in *.
  change PHYSTOP with 2281701376 in *. split; [split_and!|]; zdm.
Qed.

(** The state kinit() leaves: every page above the array on one list. *)
Lemma kinit_spec s :
  layout_ok -> mem_ok (k_mem s) -> k_locks s = [] -> k_freelist s = 0 ->
  sync_ok s -> 0 <= r_tp (k_csr s) < NCPU ->
  wp kinit (fun _ s' => sync s' = sync s /\ rest s' = rest s /\ mem_ok (k_mem s') /\
    hart_ok s' /\ alloc_rep (k_mem s') (k_freelist s') shared_pages (filled 8)) s.
Proof.
  intros Hlay Hm Hlk Hfl Hsy Htp. unfold kinit, per_hart_alloc_init.
  apply wp_bind, wp_bind. apply clear_lists_spec; [done..|]. intros m1 Hm1 Hrep1.
  apply per_hart_fill_all_spec; [done..|]. intros m2 Hm2 Hrep2. cbn beta.
  unfold initlock. wp_steps. set (s2 := upd_k_locks _ _).
  assert (Hs2 : sync s2 = sync s) by (unfold s2; destruct s; cbn in *; by subst).
  assert (Hok2 : hart_ok s2).
  { apply (hart_ok_sync s); [done|]. split; try done; unfold free; rewrite Hlk; done. }
  destruct (per_hart_start_spec Hlay) as [Hal ?]. pose proof Hlay as [[? ?] Hhi].
  assert (Hup : PGROUNDUP shared_start = shared_start).
  { apply PGROUNDUP_aligned; unfold shared_start, KERNBASE in *;
      change PER_HART_ALLOC_SIZE with 1048576 in *; change PHYSTOP with 2281701376 in *; zdm. }
  unfold freerange. cbv zeta. rewrite Hup.
  apply (freerange_loop_spec (Z.to_nat ((PHYSTOP - shared_start) / PGSIZE)) _ s2
           shared_start PHYSTOP [] (filled 8)); try done.
  - cbn. rewrite Hfl. exact Hrep2.
  - lia.
  - unfold shared_start in *. change PER_HART_ALLOC_SIZE with 1048576 in *.
    change PHYSTOP with 2281701376 in *. zdm.
  - intros p Hp. destruct (shared_pages_spec p Hlay) as [? Hge]; [by apply elem_of_reverse|].
    split; [done|]. split; [done|]. intros Hin. cbn in Hin.
    apply list_elem_of_In, in_concat in Hin as (l & Hl & Hpl).
    apply list_elem_of_In, list_elem_of_lookup in Hl as [j Hj].
    apply list_elem_of_In in Hpl.
    pose proof (ar_hart_own _ _ _ _ Hrep2 _ _ Hj) as Hown. rewrite Forall_forall in Hown.
    specialize (Hown p Hpl). apply lookup_lt_Some in Hj. rewrite (ar_len _ _ _ _ Hrep2) in Hj. lia.
  - intros s' Hsy' Hrest' Hm' Hrep'. rewrite app_nil_r in Hrep'.
    split; [congruence|]. split; [rewrite Hrest'; unfold s2; by destruct s|].
    split; [done|]. split; [by eapply hart_ok_sync|done].
Qed.

(** ** The allocator implements the interface *)

Lemma list_to_set_remove (l l' : list Z) p :
  l ≡ₚ p :: l' -> NoDup l -> list_to_set (C:=gset Z) l ∖ {[p]} = list_to_set l'.
Proof.
  intros Hp Hnd. rewrite Hp in Hnd. inv Hnd.
  rewrite (list_to_set_perm_L _ _ Hp). cbn. set_solver.
Qed.

Lemma kalloc_lists_perm id l G Hs p G' Hs' :
  Hs !! id = Some l -> kalloc_lists id l G Hs = (p, G', Hs') -> p <> 0 ->
  G ++ concat Hs ≡ₚ p :: (G' ++ concat Hs').
Proof.
  intros Hl. unfold kalloc_lists. destruct l as [|q l]; [destruct G as [|q G]|]; intros [= <- <- <-] Hp.
  - done.
  - done.
  - rewrite <- (concat_insert_tail _ _ _ _ Hl). symmetry. apply Permutation_middle.
Qed.

Lemma kfree_lists_perm pa G Hs G' Hs' :
  page_ok pa -> length Hs = Z.to_nat NCPU -> kfree_lists pa G Hs = (G', Hs') ->
  G' ++ concat Hs' ≡ₚ pa :: (G ++ concat Hs).
Proof.
  intros Hpa Hlen. unfold kfree_lists. destruct (Z.ltb_spec (page_hart pa) NCPU); intros [= <- <-].
  - destruct (lookup_Some_total Hs (Z.to_nat (page_hart pa))) as [l Hl].
    { pose proof (page_hart_nonneg pa Hpa). lia. }
    rewrite (list_alter_insert _ _ _ _ Hl), (concat_insert_cons _ _ _ _ Hl).
    symmetry. apply Permutation_middle.
  - done.
Qed.

#[export] Instance free_page_allocator : PageAllocator Free.
Proof.
  split.
  - intros s F p (_ & _ & _ & G & Hs & Hrep & ->) Hp. apply elem_of_list_to_set in Hp.
    eapply Forall_forall; [apply Hrep|done].
  - by intros s F (? & _).
  - by intros s F (_ & ? & _).
  - intros s F (Hlay & Hm & Hok & G & Hs & Hrep & ->).
    destruct (hart_list s G Hs Hok Hrep) as [l Hl].
    eapply wp_mono; [by eapply kalloc_rep|]. cbn beta. intros r s'.
    destruct (kalloc_lists _ l G Hs) as [[p G'] Hs'] eqn:E.
    intros (-> & Hsy & Hrest & Hm' & Hrep' & Hfr & _).
    destruct (decide (p = 0)) as [->|Hp].
    + split.
      { split_and!; [done..|]. intros x Hx. apply Hfr; [|lia]. intros ?. apply Hx. by left. }
      left. split; [done|]. split_and!; [done|done|by eapply hart_ok_sync|].
      exists G', Hs'. split; [done|]. unfold kalloc_lists in E.
      destruct l as [|q l]; [destruct G as [|q G]|]; simplify_eq.
      * done.
      * pose proof (ar_global _ _ _ _ Hrep) as (_ & ? & _). done.
      * pose proof (ar_harts _ _ _ _ Hrep _ _ Hl) as (_ & ? & _). done.
    + pose proof (kalloc_lists_perm _ _ _ _ _ _ _ Hl E Hp) as Hperm.
      assert (Hin : p ∈ list_to_set (C:=gset Z) (G ++ concat Hs)).
      { apply elem_of_list_to_set. rewrite Hperm. apply list_elem_of_here. }
      split.
      { split_and!; [done..|]. intros x Hx. apply Hfr.
        - intros ?. apply Hx. by left.
        - intros [_ ?]. apply Hx. right. eauto. }
      right. split; [done|]. split; [done|].
      rewrite (list_to_set_remove _ _ _ Hperm (ar_nodup _ _ _ _ Hrep)).
      split_and!; [done|done|by eapply hart_ok_sync|]. by exists G', Hs'.
  - intros s F p (Hlay & Hm & Hok & G & Hs & Hrep & ->) Hp Hnew.
    rewrite elem_of_list_to_set in Hnew.
    eapply wp_mono; [by eapply kfree_rep|]. cbn beta. intros _ s'.
    destruct (kfree_lists p G Hs) as [G' Hs'] eqn:E.
    intros (Hsy & Hrest & Hm' & Hrep' & Hfr).
    pose proof (kfree_lists_perm _ _ _ _ _ Hp (ar_len _ _ _ _ Hrep) E) as Hperm. split.
    + split_and!; [done..|]. intros x Hx. apply Hfr.
      * intros ?. apply Hx. by left.
      * intros [_ ?]. apply Hx. right. exists p. set_solver.
    + split_and!; [done|done|by eapply hart_ok_sync|]. exists G', Hs'. split; [done|].
      rewrite (list_to_set_perm_L _ _ Hperm). cbn. set_solver.
  - intros s s' F (Hlay & Hm & Hok & G & Hs & Hrep & ->) Hm' Hsy Hfl Hx.
    split_and!; [done|done|by eapply hart_ok_sync|]. exists G, Hs. split; [|done].
    rewrite Hfl. eapply alloc_rep_ext; [..|exact Hrep].
    + intros p Hp. symmetry. apply ld64_ext. intros x ?. apply Hx. right. exists p.
      split; [by apply elem_of_list_to_set|lia].
    + intros i Hi. symmetry. apply ld64_ext. intros x ?. apply Hx. left.
      pose proof (hart_freelist_range i Hi). unfold FREE_LIST_SIZE. lia.
  - intros s s' F (Hlay & Hm & [Htp Hsy Hk Hh] & G & Hs & Hrep & ->) Ho Hsy' Htp' Hk' Hh'.
    assert (k_mem s' = k_mem s /\ k_freelist s' = k_freelist s) as [Em Ef]
      by (split; by injection Ho).
    split_and!; [done|by rewrite Em| |].
    + split; [by rewrite Htp'|done|by apply Hk'|intros i; by apply Hh'].
    + exists G, Hs. by rewrite Em, Ef.
Qed.

Lemma elem_of_concat_filled p :
  layout_ok -> page_ok p -> page_hart p < NCPU -> p ∈ concat (filled 8).
Proof.
  intros Hlay Hp Hlt. pose proof (page_hart_nonneg p Hp).
  apply (elem_of_concat_lookup _ (Z.to_nat (page_hart p)) (hart_pages (page_hart p))).
  - unfold filled. rewrite app_nil_r, list_lookup_fmap, lookup_seqZ_lt by lia.
    cbn. do 2 f_equal. lia.
  - apply elem_of_reverse, elem_of_pages_from.
    exists ((p - per_hart_start - page_hart p * PER_HART_ALLOC_SIZE) / PGSIZE).
    destruct (per_hart_start_spec Hlay) as [Hal _]. destruct Hp as (? & ? & ?).
    unfold page_hart in *. change PER_HART_ALLOC_SIZE with 1048576 in *.
    change (Z.of_nat (Z.to_nat (1048576 / 4096))) with 256. zdm.
Qed.

Lemma elem_of_shared_pages p :
  layout_ok -> page_ok p -> NCPU <= page_hart p -> p ∈ shared_pages.
Proof.
  intros Hlay (? & ? & ?) Hge. apply elem_of_reverse, elem_of_pages_from.
  exists ((p - shared_start) / PGSIZE).
  destruct (per_hart_start_spec Hlay) as [Hal _]. destruct Hlay as [_ Hhi].
  unfold shared_start, page_hart in *. change PER_HART_ALLOC_SIZE with 1048576 in *.
  change PHYSTOP with 2281701376 in *. zdm.
Qed.

(** ** Properties *)

(** C31: after kinit() every page between the allocator's array and PHYSTOP is on
    exactly one free list: those of the first eight megabytes on the list of the
    hart that owns the megabyte, the others on the shared list. *)
Theorem kinit_partitions_memory s :
  layout_ok -> mem_ok (k_mem s) -> k_locks s = [] -> k_freelist s = 0 ->
  sync_ok s -> 0 <= r_tp (k_csr s) < NCPU ->
  wp kinit (fun _ s' => exists G Hs,
    alloc_rep (k_mem s') (k_freelist s') G Hs /\ NoDup (G ++ concat Hs) /\
    forall p, page_ok p <-> p ∈ G ++ concat Hs) s.
Proof.
  intros Hlay Hm Hlk Hfl Hsy Htp. eapply wp_mono; [by apply kinit_spec|].
  cbn beta. intros _ s' (_ & _ & _ & _ & Hrep). exists shared_pages, (filled 8).
  split; [done|]. split; [apply Hrep|]. intros p. split.
  - intros Hp. apply elem_of_app. destruct (Z.lt_ge_cases (page_hart p) NCPU).
    + right. by apply elem_of_concat_filled.
    + left. by apply elem_of_shared_pages.
  - intros Hp. eapply Forall_forall; [apply Hrep|done].
Qed.

(** Kalloc() takes the first page of the running hart's own list, else the
    first page of the shared list, and returns 0 exactly when both are empty;
    the page is filled with 5s and nothing but that page and the list heads
    changes.  Pages on the lists of other harts are never used. *)
Theorem kalloc_correct s G Hs l :
  layout_ok -> mem_ok (k_mem s) -> hart_ok s ->
  alloc_rep (k_mem s) (k_freelist s) G Hs ->
  Hs !! Z.to_nat (r_tp (k_csr s)) = Some l ->
  wp kalloc (fun r s' =>
    let '(p, G', Hs') := kalloc_lists (Z.to_nat (r_tp (k_csr s))) l G Hs in
    r = p /\ (r = 0 <-> l = [] /\ G = []) /\
    sync s' = sync s /\ rest s' = rest s /\
    alloc_rep (k_mem s') (k_freelist s') G' Hs' /\ mem_frame r s s' /\
    (r <> 0 -> forall x, r <= x < r + PGSIZE -> rd (k_mem s') x = 5)) s.
Proof.
  intros Hlay Hm Hok Hrep Hl. eapply wp_mono; [by eapply kalloc_rep|].
  cbn beta. intros r s'. destruct (kalloc_lists _ l G Hs) as [[p G'] Hs'] eqn:E.
  intros (-> & ? & ? & ? & ? & ? & ?). split_and!; try done.
  unfold kalloc_lists in E. destruct l as [|q l]; [destruct G as [|q G]|]; simplify_eq.
  - done.
  - pose proof (ar_global _ _ _ _ Hrep) as (_ & ? & _). naive_solver.
  - pose proof (ar_harts _ _ _ _ Hrep _ _ Hl) as (_ & ? & _). naive_solver.
Qed.

(** kfree() puts a page back at the front of the list of the hart whose
    megabyte it lies in, whichever hart frees it, or of the shared list, and
    changes nothing else; a misaligned address or one outside [end, PHYSTOP)
    makes it panic. *)
Theorem kfree_correct s G Hs pa :
  layout_ok -> mem_ok (k_mem s) -> hart_ok s ->
  alloc_rep (k_mem s) (k_freelist s) G Hs -> pa ∉ G ++ concat Hs ->
  (page_ok pa ->
   wp (kfree pa) (fun _ s' =>
     let '(G', Hs') := kfree_lists pa G Hs in
     sync s' = sync s /\ rest s' = rest s /\
     alloc_rep (k_mem s') (k_freelist s') G' Hs' /\ mem_frame pa s s') s) /\
  (pa mod PGSIZE <> 0 \/ pa < kend \/ PHYSTOP <= pa -> kfree pa s = Panic "kfree").
Proof.
  intros Hlay Hm Hok Hrep Hnew. split.
  - intros Hpa. eapply wp_mono; [by apply (kfree_rep s G Hs)|]. cbn beta. intros _ s'.
    destruct (kfree_lists pa G Hs). intros (? & ? & ? & ? & ?). by split_and!.
  - intros Hbad. unfold kfree.
    replace (negb (pa mod PGSIZE =? 0) || (pa <? kend) || (PHYSTOP <=? pa)) with true; [done|].
    symmetry. rewrite !orb_true_iff, negb_true_iff, Z.eqb_neq, Z.ltb_lt, Z.leb_le. tauto.
Qed.

End init.

(** ** Witnesses *)

(** A kernel that ends at 0x80022000. *)
Definition example_platform : Platform :=
  {| kend := 0x80022000; etext := 0x80008000; trampoline := 0x80007000;
     uservec_off := 0; userret_off := 0x9c; addr_kernelvec := 0x80005a00;
     addr_usertrap := 0x80001c00; addr_forkret := 0x80001900;
     addr_main := 0x80000e00; addr_timervec := 0x80005c80;
     addr_timer_scratch := 0x80008980 |}.

Lemma example_layout_ok : @layout_ok example_platform.
Proof. by vm_compute. Qed.

(** One page on the shared list, none on the lists of the harts. *)
Definition example_one_page : kstate :=
  upd_k_freelist (fun _ => 0x80900000) (boot_state 2 ∅ ∅).

Lemma example_hart_ok : hart_ok example_one_page.
Proof. by split. Qed.

Lemma example_alloc_rep :
  @alloc_rep example_platform ∅ 0x80900000 [0x80900000] (replicate 8 []).
Proof.
  split; try done.
  - intros i l [-> Hi]%lookup_replicate. cbn. by do 8 (destruct i as [|i]; [by vm_compute|]); lia.
  - repeat constructor; by vm_compute.
  - repeat constructor; by vm_compute.
  - intros i l [-> _]%lookup_replicate. constructor.
  - cbn. apply NoDup_singleton.
Qed.

Lemma kinit_partitions_memory_witness :
  @layout_ok example_platform /\
  wp (@kinit example_platform) (fun _ s' => exists G Hs,
    @alloc_rep example_platform (k_mem s') (k_freelist s') G Hs /\ NoDup (G ++ concat Hs) /\
    forall p, @page_ok example_platform p <-> p ∈ G ++ concat Hs) (boot_state 0 ∅ ∅).
Proof.
  split; [exact example_layout_ok|].
  apply (@kinit_partitions_memory example_platform (boot_state 0 ∅ ∅));
    [exact example_layout_ok|exact mem_ok_empty|done|done|by split|done].
Defined.

Lemma kalloc_correct_witness :
  wp (@kalloc example_platform) (fun r s' => r = 0x80900000) example_one_page.
Proof.
  eapply wp_mono.
  - apply (@kalloc_correct example_platform example_one_page [0x80900000] (replicate 8 []) []);
      [exact example_layout_ok|exact mem_ok_empty|exact example_hart_ok|
       exact example_alloc_rep|done].
  - cbn. by intros r s' [-> _].
Defined.

Lemma kfree_correct_witness :
  wp (@kfree example_platform 0x80901000)
     (fun _ s' => sync s' = sync example_one_page) example_one_page /\
  @kfree example_platform 0x80901001 example_one_page = Panic "kfree".
Proof.
  split.
  - eapply wp_mono.
    + apply (@kfree_correct example_platform example_one_page [0x80900000] (replicate 8 []) 0x80901000);
        [exact example_layout_ok|exact mem_ok_empty|exact example_hart_ok|
         exact example_alloc_rep|cbn; set_solver|by vm_compute].
    + cbn. by intros _ s' [? _].
  - apply (@kfree_correct example_platform example_one_page [0x80900000] (replicate 8 []) 0x80901001);
      [exact example_layout_ok|exact mem_ok_empty|exact example_hart_ok|
       exact example_alloc_rep|cbn; set_solver|by left].
Defined.
