(* ===== verification/Vm.v ===== *)
(** * Page tables (kernel/vm.c): definitions, walk() and mappages()

    The Sv39 page tables live in the physical memory of the kernel state; every
    function of vm.c is a computation on that memory and on the page allocator.
    Kernel buffers that user memory is copied to or from are byte lists.

    The lemmas of this file are proved against the interface [PageAllocator]:
    [dir_ok] says that memory holds a well-formed three-level table, [pt_lookup]
    is the entry the hardware finds for a virtual address, and walk() and
    mappages() are specified by their effect on both. *)

From Stdlib Require Import ZArith Lia.
From stdpp Require Import base tactics numbers gmap strings option list.
From S2P Require Import Prelude Kernel Spinlock Kstring Riscv Kalloc KallocInit.

Section vm.
Context `{Platform}.

(** ** Definitions *)

Definition load (a : Z) : K Z := gets (fun s => ld64 (k_mem s) a).

Definition store (a v : Z) : K unit := upd_mem (fun m => st64 m a v).

(** pte_t *walk(pagetable_t pagetable, uint64 va, int alloc) *)
Definition walk_body (va : Z) (alloc : bool) (st : Z * Z) : K (Z * Z + Z) :=
  let '(level, pagetable) := st in
  if 0 <? level then
    let pte := pagetable + 8 * PX level va in
    e ← load pte;
    if pte_has e PTE_V then mret (inl (level - 1, PTE2PA e))
    else if negb alloc then mret (inr 0)
    else
      pt ← kalloc;
      if pt =? 0 then mret (inr 0)
      else
        upd_mem (fun m => memset m pt 0 PGSIZE);;
        store pte (Z.lor (PA2PTE pt) PTE_V);;
        mret (inl (level - 1, pt))
  else mret (inr (pagetable + 8 * PX 0 va)).

Definition walk (pagetable va : Z) (alloc : bool) : K Z :=
  if MAXVA <=? va then panic "walk"
  else loop 3 (walk_body va alloc) (2, pagetable).

(** uint64 walkaddr(pagetable_t pagetable, uint64 va) *)
Definition walkaddr (pagetable va : Z) : K Z :=
  if MAXVA <=? va then mret 0
  else
    pte ← walk pagetable va false;
    if pte =? 0 then mret 0
    else
      e ← load pte;
      if negb (pte_has e PTE_V) then mret 0
      else if negb (pte_has e PTE_U) then mret 0
      else mret (PTE2PA e).

(** int mappages(pagetable_t pagetable, uint64 va, uint64 size, uint64 pa, int perm) *)
Definition mappages_body (pagetable last perm : Z) (st : Z * Z) : K (Z * Z + Z) :=
  let '(a, pa) := st in
  pte ← walk pagetable a true;
  if pte =? 0 then mret (inr (-1))
  else
    e ← load pte;
    if pte_has e PTE_V then panic "mappages: remap"
    else
      store pte (Z.lor (Z.lor (PA2PTE pa) perm) PTE_V);;
      if a =? last then mret (inr 0)
      else mret (inl (u64 (a + PGSIZE), u64 (pa + PGSIZE))).

Definition mappages (pagetable va size pa perm : Z) : K Z :=
  if size =? 0 then panic "mappages: size"
  else
    let a := PGROUNDDOWN va in
    let last := PGROUNDDOWN (u64 (u64 (va + size) - 1)) in
    loop (S (Z.to_nat (u64 (last - a) / PGSIZE))) (mappages_body pagetable last perm) (a, pa).

(** void kvmmap(pagetable_t kpgtbl, uint64 va, uint64 pa, uint64 sz, int perm) *)
Definition kvmmap (kpgtbl va pa sz perm : Z) : K unit :=
  r ← mappages kpgtbl va sz pa perm;
  if negb (r =? 0) then panic "kvmmap" else mret tt.

(** void proc_mapstacks(pagetable_t kpgtbl), of proc.c *)
Definition proc_mapstacks (kpgtbl : Z) : K unit :=
  for_each (seqZ 0 NPROC) (fun p =>
    pa ← kalloc;
    if pa =? 0 then panic "kalloc"
    else kvmmap kpgtbl (KSTACK p) pa PGSIZE (Z.lor PTE_R PTE_W)).

(** pagetable_t kvmmake(void) *)
Definition kvmmake : K Z :=
  kpgtbl ← kalloc;
  upd_mem (fun m => memset m kpgtbl 0 PGSIZE);;
  kvmmap kpgtbl UART0 UART0 PGSIZE (Z.lor PTE_R PTE_W);;
  kvmmap kpgtbl VIRTIO0 VIRTIO0 PGSIZE (Z.lor PTE_R PTE_W);;
  kvmmap kpgtbl PLIC PLIC 0x400000 (Z.lor PTE_R PTE_W);;
  kvmmap kpgtbl KERNBASE KERNBASE (u64 (etext - KERNBASE)) (Z.lor PTE_R PTE_X);;
  kvmmap kpgtbl etext etext (u64 (PHYSTOP - etext)) (Z.lor PTE_R PTE_W);;
  kvmmap kpgtbl TRAMPOLINE trampoline PGSIZE (Z.lor PTE_R PTE_X);;
  proc_mapstacks kpgtbl;;
  mret kpgtbl.

(** void kvminit(void) *)
Definition kvminit : K unit :=
  p ← kvmmake;
  modify (upd_k_kpgtbl (fun _ => p)).

(** void kvminithart(): the TLB flushes have no effect on this state. *)
Definition kvminithart : K unit :=
  modify (fun s => upd_k_csr (upd_r_satp (fun _ => MAKE_SATP (k_kpgtbl s))) s).

(** void uvmunmap(pagetable_t pagetable, uint64 va, uint64 npages, int do_free) *)
Definition uvmunmap_body (pagetable va_end : Z) (do_free : bool) (a : Z) : K (Z + unit) :=
  if a <? va_end then
    pte ← walk pagetable a false;
    if pte =? 0 then panic "uvmunmap: walk"
    else
      e ← load pte;
      if negb (pte_has e PTE_V) then panic "uvmunmap: not mapped"
      else if PTE_FLAGS e =? PTE_V then panic "uvmunmap: not a leaf"
      else
        when do_free (kfree (PTE2PA e));;
        store pte 0;;
        mret (inl (u64 (a + PGSIZE)))
  else mret (inr tt).

Definition uvmunmap (pagetable va npages : Z) (do_free : bool) : K unit :=
  if negb (va mod PGSIZE =? 0) then panic "uvmunmap: not aligned"
  else
    let va_end := u64 (va + u64 (npages * PGSIZE)) in
    loop (S (Z.to_nat (u64 (va_end - va) / PGSIZE)))
      (uvmunmap_body pagetable va_end do_free) va.

(** pagetable_t uvmcreate() *)
Definition uvmcreate : K Z :=
  pagetable ← kalloc;
  if pagetable =? 0 then mret 0
  else
    upd_mem (fun m => memset m pagetable 0 PGSIZE);;
    mret pagetable.

(** void uvmfirst(pagetable_t pagetable, uchar *src, uint sz) *)
Definition uvmfirst (pagetable : Z) (src : list Z) : K unit :=
  if PGSIZE <=? Z.of_nat (length src) then panic "uvmfirst: more than a page"
  else
    mem ← kalloc;
    upd_mem (fun m => memset m mem 0 PGSIZE);;
    _ ← mappages pagetable 0 PGSIZE mem (Z.lor (Z.lor (Z.lor PTE_W PTE_R) PTE_X) PTE_U);
    upd_mem (fun m => wr_bytes m mem src).

(** uint64 uvmdealloc(pagetable_t pagetable, uint64 oldsz, uint64 newsz) *)
Definition uvmdealloc (pagetable oldsz newsz : Z) : K Z :=
  if oldsz <=? newsz then mret oldsz
  else
    when (PGROUNDUP newsz <? PGROUNDUP oldsz)
      (let npages := s32 (u64 (PGROUNDUP oldsz - PGROUNDUP newsz) / PGSIZE) in
       uvmunmap pagetable (PGROUNDUP newsz) (u64 npages) true);;
    mret newsz.

(** uint64 uvmalloc(pagetable_t pagetable, uint64 oldsz, uint64 newsz, int xperm) *)
Definition uvmalloc_body (pagetable oldsz newsz xperm a : Z) : K (Z + Z) :=
  if a <? newsz then
    mem ← kalloc;
    if mem =? 0 then
      uvmdealloc pagetable a oldsz;;
      mret (inr 0)
    else
      upd_mem (fun m => memset m mem 0 PGSIZE);;
      r ← mappages pagetable a PGSIZE mem (Z.lor (Z.lor PTE_R PTE_U) xperm);
      if negb (r =? 0) then
        kfree mem;;
        uvmdealloc pagetable a oldsz;;
        mret (inr 0)
      else mret (inl (u64 (a + PGSIZE)))
  else mret (inr newsz).

Definition uvmalloc (pagetable oldsz newsz xperm : Z) : K Z :=
  if newsz <? oldsz then mret oldsz
  else
    let oldsz := PGROUNDUP oldsz in
    loop (S (S (Z.to_nat ((newsz - oldsz) / PGSIZE))))
      (uvmalloc_body pagetable oldsz newsz xperm) oldsz.

(** void freewalk(pagetable_t pagetable); the fuel is the number of levels. *)
Definition freewalk_body (freewalk : Z -> K unit) (pagetable : Z) : K unit :=
  for_each (seqZ 0 512) (fun i =>
    pte ← load (pagetable + 8 * i);
    if pte_has pte PTE_V && negb (pte_has pte (Z.lor (Z.lor PTE_R PTE_W) PTE_X)) then
      freewalk (PTE2PA pte);;
      store (pagetable + 8 * i) 0
    else if pte_has pte PTE_V then panic "freewalk: leaf"
    else mret tt);;
  kfree pagetable.

Fixpoint freewalk_levels (fuel : nat) : Z -> K unit :=
  match fuel with
  | O => fun _ => out_of_fuel
  | S k => freewalk_body (freewalk_levels k)
  end.

Definition freewalk : Z -> K unit := freewalk_levels 3.

(** void uvmfree(pagetable_t pagetable, uint64 sz) *)
Definition uvmfree (pagetable sz : Z) : K unit :=
  when (0 <? sz) (uvmunmap pagetable 0 (PGROUNDUP sz / PGSIZE) true);;
  freewalk pagetable.

(** int uvmcopy(pagetable_t old, pagetable_t new, uint64 sz); the loop leaves
    with the index of the page that failed. *)
Definition uvmcopy_body (old new sz i : Z) : K (Z + option Z) :=
  if i <? sz then
    pte ← walk old i false;
    if pte =? 0 then panic "uvmcopy: pte should exist"
    else
      e ← load pte;
      if negb (pte_has e PTE_V) then panic "uvmcopy: page not present"
      else
        let pa := PTE2PA e in
        let flags := PTE_FLAGS e in
        mem ← kalloc;
        if mem =? 0 then mret (inr (Some i))
        else
          upd_mem (fun m => memmove m mem pa PGSIZE);;
          r ← mappages new i PGSIZE mem flags;
          if negb (r =? 0) then kfree mem;; mret (inr (Some i))
          else mret (inl (u64 (i + PGSIZE)))
  else mret (inr None).

Definition uvmcopy (old new sz : Z) : K Z :=
  r ← loop (S (S (Z.to_nat (sz / PGSIZE)))) (uvmcopy_body old new sz) 0;
  match r with
  | None => mret 0
  | Some i => uvmunmap new 0 (i / PGSIZE) true;; mret (-1)
  end.

(** void uvmclear(pagetable_t pagetable, uint64 va) *)
Definition uvmclear (pagetable va : Z) : K unit :=
  pte ← walk pagetable va false;
  if pte =? 0 then panic "uvmclear"
  else
    e ← load pte;
    store pte (Z.land e (Z.lnot PTE_U)).

(** int copyout(pagetable_t pagetable, uint64 dstva, char *src, uint64 len) *)
Definition copyout_body (pagetable : Z) (st : Z * list Z) : K (Z * list Z + Z) :=
  let '(dstva, src) := st in
  let len := Z.of_nat (length src) in
  if 0 <? len then
    let va0 := PGROUNDDOWN dstva in
    pa0 ← walkaddr pagetable va0;
    if pa0 =? 0 then mret (inr (-1))
    else
      let n := PGSIZE - (dstva - va0) in
      let n := if len <? n then len else n in
      upd_mem (fun m => wr_bytes m (pa0 + (dstva - va0)) (take (Z.to_nat n) src));;
      mret (inl (u64 (va0 + PGSIZE), drop (Z.to_nat n) src))
  else mret (inr 0).

Definition copyout (pagetable dstva : Z) (src : list Z) : K Z :=
  loop (S (length src)) (copyout_body pagetable) (dstva, src).

(** int copyin(pagetable_t pagetable, char *dst, uint64 srcva, uint64 len);
    the second result is what was stored from dst on. *)
Definition copyin_body (pagetable : Z) (st : Z * Z * list Z) : K (Z * Z * list Z + Z * list Z) :=
  let '(srcva, len, dst) := st in
  if 0 <? len then
    let va0 := PGROUNDDOWN srcva in
    pa0 ← walkaddr pagetable va0;
    if pa0 =? 0 then mret (inr (-1, dst))
    else
      let n := PGSIZE - (srcva - va0) in
      let n := if len <? n then len else n in
      bs ← gets (fun s => rd_bytes (k_mem s) (pa0 + (srcva - va0)) (Z.to_nat n));
      mret (inl (u64 (va0 + PGSIZE), len - n, dst ++ bs))
  else mret (inr (0, dst)).

Definition copyin (pagetable srcva len : Z) : K (Z * list Z) :=
  loop (S (Z.to_nat len)) (copyin_body pagetable) (srcva, len, []).

(** int copyinstr(pagetable_t pagetable, char *dst, uint64 srcva, uint64 max) *)
Definition copyinstr_page (st : Z * Z * Z * list Z) :
    K (Z * Z * Z * list Z + bool * Z * list Z) :=
  let '(n, max, p, dst) := st in
  if 0 <? n then
    c ← gets (fun s => rd (k_mem s) p);
    if c =? 0 then mret (inr (true, max, dst ++ [0]))
    else mret (inl (n - 1, max - 1, p + 1, dst ++ [c]))
  else mret (inr (false, max, dst)).

Definition copyinstr_body (pagetable : Z) (st : bool * Z * Z * list Z) :
    K (bool * Z * Z * list Z + Z * list Z) :=
  let '(got_null, srcva, max, dst) := st in
  if negb got_null && (0 <? max) then
    let va0 := PGROUNDDOWN srcva in
    pa0 ← walkaddr pagetable va0;
    if pa0 =? 0 then mret (inr (-1, dst))
    else
      let n := PGSIZE - (srcva - va0) in
      let n := if max <? n then max else n in
      r ← loop (S (Z.to_nat n)) copyinstr_page (n, max, pa0 + (srcva - va0), dst);
      let '(got_null, max, dst) := r in
      mret (inl (got_null, u64 (va0 + PGSIZE), max, dst))
  else mret (inr (if got_null then 0 else -1, dst)).

Definition copyinstr (pagetable srcva max : Z) : K (Z * list Z) :=
  loop (S (S (Z.to_nat max))) (copyinstr_body pagetable) (false, srcva, max, []).

(** ** Specification *)

(** The table pages of a page table, by the indices that lead to them from the
    root: the root at the empty path, a level-1 page at [[i]], a level-0 page at
    [[i; j]].  [dir_ok m pt D] says that memory [m] holds such a table at [pt]. *)
Record dir_ok (m : gmap Z Z) (pt : Z) (D : gmap (list Z) Z) : Prop := {
  do_root : D !! [] = Some pt;
  do_page q p : D !! q = Some p -> page_ok p;
  do_inj q q' p : D !! q = Some p -> D !! q' = Some p -> q = q';
  do_path q i p : D !! (q ++ [i]) = Some p ->
    is_Some (D !! q) /\ 0 <= i < 512 /\ (length q < 2)%nat;
  do_entry q p i : D !! q = Some p -> (length q < 2)%nat -> 0 <= i < 512 ->
    match D !! (q ++ [i]) with
    | Some p' => ld64 m (p + 8 * i) = Z.lor (PA2PTE p') PTE_V
    | None => pte_has (ld64 m (p + 8 * i)) PTE_V = false
    end;
}.

Definition dir_pages (D : gmap (list Z) Z) : gset Z := map_img D.

(** The address of the leaf entry for [va] that the hardware's walk reaches,
    or 0. *)
Definition pt_walk (m : gmap Z Z) (pt va : Z) : Z :=
  let e2 := ld64 m (pt + 8 * PX 2 va) in
  if negb (pte_has e2 PTE_V) then 0
  else
    let e1 := ld64 m (PTE2PA e2 + 8 * PX 1 va) in
    if negb (pte_has e1 PTE_V) then 0
    else PTE2PA e1 + 8 * PX 0 va.

(** The valid entry that translates [va], if there is one. *)
Definition pt_lookup (m : gmap Z Z) (pt va : Z) : option Z :=
  let a := pt_walk m pt va in
  if a =? 0 then None
  else if pte_has (ld64 m a) PTE_V then Some (ld64 m a) else None.

(** The path of the level-0 page that holds the entry of [va]. *)
Definition va_path (va : Z) : list Z := [PX 2 va; PX 1 va].

(** Memory holds a page table at [pt] with table pages [D], none of them among
    the free pages [F]. *)
Record vm_ok (Avail : kstate -> gset Z -> Prop) (s : kstate) (F : gset Z) (pt : Z)
    (D : gmap (list Z) Z) : Prop := {
  vo_free : Avail s F;
  vo_dir : dir_ok (k_mem s) pt D;
  vo_disj : F ## dir_pages D;
}.

(** A step that only moves pages from the free set to the table and writes
    only in those pages. *)
Record vm_step (Avail : kstate -> gset Z -> Prop) (pt : Z)
    (s : kstate) (F : gset Z) (D : gmap (list Z) Z)
    (s' : kstate) (F' : gset Z) (D' : gmap (list Z) Z) : Prop := {
  vs_ok : vm_ok Avail s' F' pt D';
  vs_pages : F' ∪ dir_pages D' = F ∪ dir_pages D;
  vs_sub : D ⊆ D';
  vs_frame : alloc_frame (F ∪ dir_pages D) s s';
}.

(** The leaf entry that maps a page to [pa] with permissions [perm]. *)
Definition leaf (pa perm : Z) : Z := Z.lor (Z.lor (PA2PTE pa) perm) PTE_V.

(** ** Lemmas: the allocator's frame *)

Lemma alloc_frame_refl F s : alloc_frame F s s.
Proof. done. Qed.

Lemma alloc_frame_trans F s1 s2 s3 :
  alloc_frame F s1 s2 -> alloc_frame F s2 s3 -> alloc_frame F s1 s3.
Proof.
  intros (Hr & Hs & Hm) (Hr' & Hs' & Hm'). split; [congruence|]. split; [congruence|].
  intros x Hx. by rewrite Hm', Hm.
Qed.

Lemma alloc_owned_mono F F' x : F ⊆ F' -> alloc_owned F x -> alloc_owned F' x.
Proof. unfold alloc_owned. set_solver. Qed.

Lemma alloc_frame_mono F F' s s' : F ⊆ F' -> alloc_frame F s s' -> alloc_frame F' s s'.
Proof.
  intros HF (Hr & Hs & Hm). split; [done|]. split; [done|].
  intros x Hx. apply Hm. intros Ho. by eapply Hx, alloc_owned_mono.
Qed.

(** A byte of a managed page outside [F] is not the allocator's. *)
Lemma not_alloc_owned F p x :
  layout_ok -> (forall q, q ∈ F -> page_ok q) -> page_ok p -> p ∉ F ->
  p <= x < p + PGSIZE -> ~ alloc_owned F x.
Proof.
  intros Hlay HF Hp Hn Hx [Ha|(q & Hq & Hxq)].
  - pose proof (page_ok_range p Hlay Hp). unfold FREE_LIST_SIZE in Ha. lia.
  - assert (p = q) as ->; [|done].
    destruct (decide (p = q)) as [|Hne]; [done|].
    destruct (HF q Hq) as (? & _), Hp as (? & _).
    destruct (pages_apart p q) as [?|?]; try done; lia.
Qed.

Lemma elem_of_dir_pages D p : p ∈ dir_pages D <-> exists q, D !! q = Some p.
Proof. apply elem_of_map_img. Qed.

Lemma dir_pages_insert D q p :
  D !! q = None -> dir_pages (<[q := p]> D) = {[p]} ∪ dir_pages D.
Proof. intros. apply set_eq. intros x. unfold dir_pages. by rewrite map_img_insert_notin. Qed.

(** ** Lemmas: page tables in memory *)

Lemma page_pte p : layout_ok -> page_ok p ->
  PTE2PA (Z.lor (PA2PTE p) PTE_V) = p /\ pte_has (Z.lor (PA2PTE p) PTE_V) PTE_V = true /\
  0 <= Z.lor (PA2PTE p) PTE_V < 2 ^ 64.
Proof.
  intros Hlay Hp. pose proof (page_ok_range p Hlay Hp) as Hr. destruct Hp as (Hal & _).
  rewrite PTE2PA_PA2PTE, pte_has_PA2PTE by (done || lia). split_and!; try done.
  - rewrite PA2PTE_eq, lor_low by (done || lia). change PTE_V with 1. zdm.
  - rewrite PA2PTE_eq, lor_low by (done || lia). change PTE_V with 1. zdm.
Qed.

Lemma va_path_range va : Forall (fun i => 0 <= i < 512) (va_path va).
Proof. repeat constructor; apply PX_range; lia. Qed.

Lemma dir_child m pt D q p i :
  layout_ok -> dir_ok m pt D -> D !! q = Some p -> (length q < 2)%nat -> 0 <= i < 512 ->
  let e := ld64 m (p + 8 * i) in
  D !! (q ++ [i]) = if pte_has e PTE_V then Some (PTE2PA e) else None.
Proof.
  intros Hlay HD Hq Hlen Hi. pose proof (do_entry _ _ _ HD q p i Hq Hlen Hi) as He.
  destruct (D !! (q ++ [i])) as [p'|] eqn:E; cbn.
  - destruct (page_pte p' Hlay) as (Hpa & Hv & _); [by eapply do_page|].
    by rewrite He, Hv, Hpa.
  - by rewrite He.
Qed.

(** The indices are those of the page. *)
Lemma PX_page l va va' :
  0 <= l -> PGROUNDDOWN va = PGROUNDDOWN va' -> PX l va = PX l va'.
Proof.
  intros Hl. rewrite !PGROUNDDOWN_eq, !PX_eq by done. intros E.
  rewrite Z.pow_add_r, <- !Z.div_div by lia. change (2 ^ 12) with 4096. do 2 f_equal. lia.
Qed.

Lemma va_path_page va va' : PGROUNDDOWN va = PGROUNDDOWN va' -> va_path va = va_path va'.
Proof. intros. unfold va_path. f_equal; [|f_equal]; by apply PX_page. Qed.

(** The hardware's walk follows the directory. *)
Lemma dir_walk m pt D va :
  layout_ok -> dir_ok m pt D ->
  pt_walk m pt va = match D !! va_path va with Some p => p + 8 * PX 0 va | None => 0 end.
Proof.
  intros Hlay HD. unfold pt_walk, va_path. pose proof (va_path_range va) as Hr.
  inv Hr as [|? ? Hi2 Hr']. inv Hr' as [|? ? Hi1 _].
  pose proof (dir_child m pt D [] pt (PX 2 va) Hlay HD (do_root _ _ _ HD)) as H2.
  cbn in H2. rewrite <- (app_nil_l [PX 2 va; PX 1 va]).
  destruct (pte_has (ld64 m (pt + 8 * PX 2 va)) PTE_V) eqn:E2; cbn.
  - specialize (H2 ltac:(lia) Hi2).
    pose proof (dir_child m pt D [PX 2 va] _ (PX 1 va) Hlay HD H2) as H1. cbn in H1.
    rewrite H1 by (done || lia). by case_match.
  - specialize (H2 ltac:(lia) Hi2).
    destruct (D !! [PX 2 va; PX 1 va]) eqn:E; [|done].
    destruct (do_path _ _ _ HD [PX 2 va] (PX 1 va) z E) as ([? ?] & _). congruence.
Qed.

Lemma dir_lookup m pt D va :
  layout_ok -> dir_ok m pt D ->
  pt_lookup m pt va =
    match D !! va_path va with
    | Some p => let e := ld64 m (p + 8 * PX 0 va) in if pte_has e PTE_V then Some e else None
    | None => None
    end.
Proof.
  intros Hlay HD. unfold pt_lookup. rewrite (dir_walk m pt D) by done.
  destruct (D !! va_path va) as [p|] eqn:E; [|done].
  pose proof (page_ok_range p Hlay (do_page _ _ _ HD _ _ E)).
  pose proof (PX_range 0 va). rewrite (proj2 (Z.eqb_neq _ 0)) by lia. done.
Qed.

(** The table is a function of the bytes of its pages. *)
Lemma dir_ok_ext m m' pt D :
  (forall q p x, D !! q = Some p -> p <= x < p + PGSIZE -> rd m' x = rd m x) ->
  dir_ok m pt D -> dir_ok m' pt D.
Proof.
  intros Hm []. split; try done. intros q p i Hq Hlen Hi.
  rewrite (ld64_ext m' m); [by apply do_entry0|].
  intros x Hx. eapply Hm; [done|lia].
Qed.

Lemma pt_lookup_ext m m' pt D va :
  layout_ok -> dir_ok m pt D ->
  (forall q p x, D !! q = Some p -> p <= x < p + PGSIZE -> rd m' x = rd m x) ->
  pt_lookup m' pt va = pt_lookup m pt va.
Proof.
  intros Hlay HD Hm. assert (dir_ok m' pt D) by by eapply dir_ok_ext.
  rewrite !(dir_lookup _ pt D) by done. destruct (D !! va_path va) as [p|] eqn:E; [|done].
  pose proof (PX_range 0 va). cbn.
  rewrite (ld64_ext m' m); [done|]. intros x Hx. eapply Hm; [done|lia].
Qed.

(** Two entries of a table at the same address are the same entry. *)
Lemma dir_slot_inj m pt D q q' p p' i i' x :
  dir_ok m pt D -> D !! q = Some p -> D !! q' = Some p' ->
  0 <= i < 512 -> 0 <= i' < 512 ->
  p + 8 * i <= x < p + 8 * i + 8 -> p' + 8 * i' <= x < p' + 8 * i' + 8 ->
  q = q' /\ i = i'.
Proof.
  intros HD Hq Hq' Hi Hi' Hx Hx'.
  destruct (do_page _ _ _ HD _ _ Hq) as (Ha & _), (do_page _ _ _ HD _ _ Hq') as (Ha' & _).
  destruct (decide (p = p')) as [->|Hne].
  - split; [by eapply do_inj|lia].
  - destruct (pages_apart p p') as [?|?]; try done; lia.
Qed.

(** Linking a zeroed page into the table. *)
Lemma dir_ok_link m m' pt D q p i p' :
  dir_ok m pt D -> D !! q = Some p -> (length q < 2)%nat -> 0 <= i < 512 ->
  D !! (q ++ [i]) = None -> page_ok p' -> p' ∉ dir_pages D ->
  (forall r a x, D !! r = Some a -> a <= x < a + PGSIZE ->
     ~ (p + 8 * i <= x < p + 8 * i + 8) -> rd m' x = rd m x) ->
  ld64 m' (p + 8 * i) = Z.lor (PA2PTE p') PTE_V ->
  (forall x, p' <= x < p' + PGSIZE -> rd m' x = 0) ->
  dir_ok m' pt (<[q ++ [i] := p']> D).
Proof.
  intros HD Hq Hlen Hi Hnone Hp' Hnew Hm He Hz.
  assert (Hfresh : forall r, D !! r <> Some p').
  { intros r Hr. apply Hnew, elem_of_dir_pages. by exists r. }
  split.
  - rewrite lookup_insert_ne; [apply HD|]. by destruct q.
  - intros r a. rewrite lookup_insert. case_decide; [by intros [= <-]|apply HD].
  - intros r r' a. rewrite !lookup_insert. repeat case_decide; subst; try done.
    + intros [= <-] Hr'. by destruct (Hfresh r').
    + intros Hr [= <-]. by destruct (Hfresh r).
    + apply HD.
  - intros r j a. rewrite lookup_insert. case_decide as E.
    + intros [= <-]. apply app_inj_tail in E as [-> ->].
      split; [|done]. rewrite lookup_insert_ne; [by eexists|].
      intros E%(f_equal length). rewrite length_app in E. cbn in E. lia.
    + intros Hr. destruct (do_path _ _ _ HD _ _ _ Hr) as ([b Hb] & ? & ?).
      split; [|done]. rewrite lookup_insert. case_decide; [by eexists|by eexists].
  - intros r a j Hr Hlr Hj. rewrite lookup_insert in Hr. case_decide as E.
    + injection Hr as <-. rewrite lookup_insert_ne.
      2:{ subst r. intros E'%(f_equal length). rewrite !length_app in E'. cbn in E'. lia. }
      destruct (D !! (r ++ [j])) as [b|] eqn:Eb.
      { destruct (do_path _ _ _ HD _ _ _ Eb) as ([c Hc] & _). congruence. }
      replace (ld64 m' (p' + 8 * j)) with 0; [done|].
      rewrite (ld64_ext m' ∅); [done|]. intros x Hx. rewrite Hz by lia. done.
    + rewrite lookup_insert. case_decide as E'.
      * apply app_inj_tail in E' as [-> ->]. by rewrite Hq in Hr; injection Hr as ->.
      * rewrite (ld64_ext m' m); [by eapply do_entry|].
        intros x Hx. eapply Hm; [done|lia|]. intros Hx'.
        destruct (dir_slot_inj m pt D r q a p j i x) as [-> ->]; done.
Qed.

Lemma link_lookup m m' pt D q p i r va :
  layout_ok -> dir_ok m pt D -> dir_ok m' pt (<[q ++ [i] := r]> D) ->
  D !! q = Some p -> (length q < 2)%nat -> 0 <= i < 512 -> D !! (q ++ [i]) = None ->
  (forall q' p' x, D !! q' = Some p' -> p' <= x < p' + PGSIZE ->
     ~ (p + 8 * i <= x < p + 8 * i + 8) -> rd m' x = rd m x) ->
  (forall x, r <= x < r + PGSIZE -> rd m' x = 0) ->
  pt_lookup m' pt va = pt_lookup m pt va.
Proof.
  intros Hlay HD HD' Hq Hlen Hi Hnone Hm Hz.
  rewrite (dir_lookup m pt D), (dir_lookup m' pt (<[q ++ [i] := r]> D)) by done.
  pose proof (PX_range 0 va ltac:(lia)) as H0.
  rewrite lookup_insert. case_decide as E; cbn.
  - rewrite <- E, Hnone.
    rewrite (ld64_ext m' ∅); [done|]. intros x Hx. rewrite Hz by lia. done.
  - destruct (D !! va_path va) as [p'|] eqn:Ep; [|done].
    rewrite (ld64_ext m' m); [done|]. intros x Hx. eapply Hm; [done|lia|].
    intros Hx'. destruct (dir_slot_inj m pt D (va_path va) q p' p (PX 0 va) i x) as [<- _];
      try done. cbn in Hlen. lia.
Qed.

(** ** Lemmas: walk() *)

Lemma walk_noalloc pt va s :
  va < MAXVA -> walk pt va false s = Ok (pt_walk (k_mem s) pt va) s.
Proof.
  intros Hva. unfold walk. rewrite (proj2 (Z.leb_gt MAXVA va)) by done.
  unfold pt_walk. cbn [loop walk_body]. unfold load. run. cbn [Z.ltb Z.compare].
  destruct (pte_has (ld64 (k_mem s) (pt + 8 * PX 2 va)) PTE_V); cbn [negb]; [|done].
  change (2 - 1) with 1. cbn [walk_body Z.ltb Z.compare]. unfold load. run.
  by destruct (pte_has (ld64 (k_mem s) (_ + 8 * PX 1 va)) PTE_V).
Qed.

Section walk.
Context (Avail : kstate -> gset Z -> Prop) `{!PageAllocator Avail}.

Lemma vm_page s F pt D p :
  vm_ok Avail s F pt D -> p ∈ F ∪ dir_pages D -> page_ok p.
Proof.
  intros [Hf Hd _] [Hp|(q & Hq)%elem_of_dir_pages]%elem_of_union.
  - by eapply pa_page.
  - by eapply do_page.
Qed.

Lemma vm_step_refl s F pt D : vm_ok Avail s F pt D -> vm_step Avail pt s F D s F D.
Proof. intros. split; done. Qed.

Lemma vm_step_trans pt s1 F1 D1 s2 F2 D2 s3 F3 D3 :
  vm_step Avail pt s1 F1 D1 s2 F2 D2 -> vm_step Avail pt s2 F2 D2 s3 F3 D3 ->
  vm_step Avail pt s1 F1 D1 s3 F3 D3.
Proof.
  intros [Hok Hpg Hsub Hfr] [Hok' Hpg' Hsub' Hfr']. split; [done|congruence| |].
  - by etrans.
  - eapply alloc_frame_trans; [done|]. by rewrite <- Hpg.
Qed.

(** Bytes of the table's pages survive what the allocator does with [F]. *)
Lemma vm_frame_dir s s' F pt D q p x :
  vm_ok Avail s F pt D -> alloc_frame F s s' ->
  D !! q = Some p -> p <= x < p + PGSIZE -> rd (k_mem s') x = rd (k_mem s) x.
Proof.
  intros Hok (_ & _ & Hm) Hq Hx. apply Hm.
  assert (p ∈ dir_pages D) by (apply elem_of_dir_pages; by exists q).
  pose proof (vo_disj _ _ _ _ _ Hok).
  eapply not_alloc_owned; [by eapply pa_layout, Hok| | | |done].
  - intros r Hr. eapply vm_page; [done|]. set_solver.
  - eapply vm_page; [done|]. set_solver.
  - set_solver.
Qed.

(** Writing in a page that is not free keeps the allocator's contract. *)
Lemma avail_write s F p f :
  Avail s F -> page_ok p -> p ∉ F -> mem_ok (f (k_mem s)) ->
  (forall x, ~ (p <= x < p + PGSIZE) -> rd (f (k_mem s)) x = rd (k_mem s) x) ->
  Avail (upd_k_mem f s) F.
Proof.
  intros Hf Hp Hn Hm Hx. eapply pa_frame; [done|done|by ksync|done|].
  intros x Ho. apply Hx. intros Hin. revert Ho.
  eapply not_alloc_owned; [by eapply pa_layout| |done|done|done].
  intros r Hr. by eapply pa_page.
Qed.

Lemma frame_write s F p f :
  p ∈ F -> (forall x, ~ (p <= x < p + PGSIZE) -> rd (f (k_mem s)) x = rd (k_mem s) x) ->
  alloc_frame F s (upd_k_mem f s).
Proof.
  intros Hp Hx. split; [done|]. split; [by ksync|]. intros x Ho. apply Hx.
  intros Hin. apply Ho. right. by exists p.
Qed.

Lemma avail_store s F pt D q p i v :
  vm_ok Avail s F pt D -> D !! q = Some p -> 0 <= i < 512 ->
  Avail (upd_k_mem (fun m => st64 m (p + 8 * i) v) s) F.
Proof.
  intros Hok Hq Hi. pose proof (vo_free _ _ _ _ _ Hok) as Hf.
  apply (avail_write _ _ p); [done|by eapply do_page; [eapply Hok|]| | |].
  - assert (p ∈ dir_pages D) by (apply elem_of_dir_pages; by exists q).
    pose proof (vo_disj _ _ _ _ _ Hok). set_solver.
  - apply mem_ok_st64. by eapply pa_mem.
  - intros x Hx. apply rd_st64_out. lia.
Qed.

Lemma frame_store F p i v s :
  p ∈ F -> 0 <= i < 512 ->
  alloc_frame F s (upd_k_mem (fun m => st64 m (p + 8 * i) v) s).
Proof.
  intros Hp Hi. apply (frame_write _ _ p); [done|]. intros. apply rd_st64_out. lia.
Qed.

(** The state after kalloc() gave page [r], which walk() then clears and links
    from entry [i] of table page [p]. *)
Lemma vm_link s s1 F pt D q p i r :
  vm_ok Avail s F pt D -> alloc_frame F s s1 -> r ∈ F -> Avail s1 (F ∖ {[r]}) ->
  D !! q = Some p -> (length q < 2)%nat -> 0 <= i < 512 -> D !! (q ++ [i]) = None ->
  let s2 := upd_k_mem (fun m => st64 m (p + 8 * i) (Z.lor (PA2PTE r) PTE_V))
              (upd_k_mem (fun m => memset m r 0 PGSIZE) s1) in
  vm_step Avail pt s F D s2 (F ∖ {[r]}) (<[q ++ [i] := r]> D) /\
  forall va, pt_lookup (k_mem s2) pt va = pt_lookup (k_mem s) pt va.
Proof.
  intros Hok Hfr Hr Hf1 Hq Hlen Hi Hnone s2.
  pose proof (vo_free _ _ _ _ _ Hok) as Hf. pose proof (pa_layout _ _ Hf) as Hlay.
  pose proof (vo_dir _ _ _ _ _ Hok) as Hdir. pose proof (pa_page _ _ _ Hf Hr) as Hpr.
  pose proof (vo_disj _ _ _ _ _ Hok) as Hdisj.
  assert (HpD : p ∈ dir_pages D) by (apply elem_of_dir_pages; by exists q).
  assert (Hpp : page_ok p) by by eapply do_page.
  assert (Hrp : r + PGSIZE <= p \/ p + PGSIZE <= r).
  { apply pages_apart; [apply Hpr|apply Hpp|set_solver]. }
  assert (Hmem1 : mem_ok (memset (k_mem s1) r 0 PGSIZE)).
  { apply mem_ok_memset. by eapply pa_mem. }
  assert (Hsame : forall q' p' x, D !! q' = Some p' -> p' <= x < p' + PGSIZE ->
     ~ (p + 8 * i <= x < p + 8 * i + 8) -> rd (k_mem s2) x = rd (k_mem s) x).
  { intros q' p' x Hq' Hx Hx'. unfold s2. ksimpl. rewrite rd_st64_out, rd_memset by lia.
    assert (p' ∈ dir_pages D) by (apply elem_of_dir_pages; by exists q').
    assert (page_ok p') as (Hal & _) by by eapply do_page.
    destruct (pages_apart r p') as [?|?]; [apply Hpr|done|set_solver| |];
      (rewrite decide_False by lia; by eapply vm_frame_dir). }
  assert (Hzero : forall x, r <= x < r + PGSIZE -> rd (k_mem s2) x = 0).
  { intros x Hx. unfold s2. ksimpl. rewrite rd_st64_out, rd_memset, decide_True by lia. done. }
  assert (Hd2 : dir_ok (k_mem s2) pt (<[q ++ [i] := r]> D)).
  { eapply (dir_ok_link (k_mem s)); [eassumption..|clear -Hr Hdisj; set_solver|eassumption| |eassumption].
    - unfold s2. ksimpl. rewrite ld64_st64. apply u64_small.
      by destruct (page_pte r Hlay Hpr) as (_ & _ & ?). }
  split; [|intros va; eapply (link_lookup _ _ pt D q p i r); eassumption]. split.
  - split; [|done|].
    + apply (avail_write _ _ p); [|done|clear -HpD Hdisj; set_solver| |].
      * apply (avail_write _ _ r); [done..|clear; set_solver|done|].
        intros x Hx. by rewrite rd_memset, decide_False.
      * ksimpl. by apply mem_ok_st64.
      * intros x Hx. apply rd_st64_out. lia.
    + rewrite dir_pages_insert by done. clear -Hdisj. set_solver.
  - rewrite dir_pages_insert by done. apply set_eq. intros x. clear -Hr.
    destruct (decide (x = r)); set_solver.
  - by apply insert_subseteq.
  - assert (F ⊆ F ∪ dir_pages D) by (clear; set_solver).
    eapply alloc_frame_trans; [by eapply alloc_frame_mono|].
    apply (alloc_frame_trans _ _ (upd_k_mem (fun m => memset m r 0 PGSIZE) s1)).
    + apply (frame_write _ _ r); [by apply elem_of_union_l|].
      intros x Hx. by rewrite rd_memset, decide_False.
    + apply frame_store; [by apply elem_of_union_r|done].
Qed.

(** One level of walk() with allocation. *)
Lemma walk_body_spec s F pt D q p level va :
  vm_ok Avail s F pt D -> D !! q = Some p ->
  level = 2 - Z.of_nat (length q) -> 0 < level ->
  wp (walk_body va true (level, p)) (fun r s' => exists F' D',
    vm_step Avail pt s F D s' F' D' /\
    (forall va', pt_lookup (k_mem s') pt va' = pt_lookup (k_mem s) pt va') /\
    (r = inr 0 \/
     exists p', r = inl (level - 1, p') /\ D' !! (q ++ [PX level va]) = Some p')) s.
Proof.
  intros Hok Hq Hlev Hpos. pose proof (vo_free _ _ _ _ _ Hok) as Hf.
  pose proof (pa_layout _ _ Hf) as Hlay. pose proof (vo_dir _ _ _ _ _ Hok) as Hdir.
  pose proof (PX_range level va ltac:(lia)) as Hi.
  pose proof (dir_child _ _ _ q p (PX level va) Hlay Hdir Hq ltac:(lia) Hi) as Hc.
  cbn zeta in Hc. unfold walk_body. rewrite (proj2 (Z.ltb_lt 0 level)) by done.
  unfold load. wp_steps. destruct (pte_has _ PTE_V) eqn:Ev.
  { wp_steps. exists F, D. split; [by apply vm_step_refl|]. split; [done|].
    right. eexists. split; [done|]. done. }
  cbn [negb]. wp_steps. eapply wp_mono; [by eapply pa_kalloc|]. cbn beta.
  intros r s1 (Hfr & [(-> & Hf1)|(Hr0 & HrF & Hf1)]).
  { cbn [Z.eqb]. wp_steps. exists F, D.
    assert (Hsame : forall q p x, D !! q = Some p -> p <= x < p + PGSIZE ->
              rd (k_mem s1) x = rd (k_mem s) x) by (intros; by eapply vm_frame_dir).
    split; [split|split].
    - split; [done| |by eapply vo_disj]. eapply dir_ok_ext; [|done]. done.
    - done.
    - done.
    - eapply alloc_frame_mono; [|done]. set_solver.
    - intros va'. by eapply pt_lookup_ext.
    - by left. }
  rewrite (proj2 (Z.eqb_neq r 0)) by done. unfold store, upd_mem. wp_steps.
  destruct (vm_link s s1 F pt D q p (PX level va) r) as [Hst Hlk]; try done; [lia|].
  eexists _, _. split; [exact Hst|]. split; [done|]. right. exists r. split; [done|].
  apply lookup_insert_eq.
Qed.

(** walk() with allocation: it fails, or the table now has the level-0 page of
    [va] and the result is the address of the entry; no translation changes. *)
Lemma walk_alloc s F pt D va :
  vm_ok Avail s F pt D -> 0 <= va < MAXVA ->
  wp (walk pt va true) (fun r s' => exists F' D',
    vm_step Avail pt s F D s' F' D' /\
    (forall va', pt_lookup (k_mem s') pt va' = pt_lookup (k_mem s) pt va') /\
    (r = 0 \/ exists p, D' !! va_path va = Some p /\ r = p + 8 * PX 0 va)) s.
Proof.
  intros Hok Hva. unfold walk. rewrite (proj2 (Z.leb_gt MAXVA va)) by lia.
  apply wp_loop_step. eapply wp_mono.
  { apply (walk_body_spec s F pt D [] pt); [done|apply Hok|done|lia]. }
  intros r s1 (F1 & D1 & Hst1 & Hlk1 & [->|(p1 & -> & Hp1)]); cbn beta iota.
  { exists F1, D1. split; [done|]. split; [done|]. by left. }
  apply wp_loop_step. change (2 - 1) with 1. eapply wp_mono.
  { apply (walk_body_spec s1 F1 pt D1 [PX 2 va] p1); [apply Hst1|done|done|lia]. }
  intros r s2 (F2 & D2 & Hst2 & Hlk2 & [->|(p2 & -> & Hp2)]); cbn beta iota.
  { exists F2, D2. split; [by eapply vm_step_trans|]. split; [|by left].
    intros. by rewrite Hlk2, Hlk1. }
  apply wp_loop_step. cbn [walk_body]. change (1 - 1) with 0. cbn [Z.ltb Z.compare].
  apply wp_ret. exists F2, D2. split; [by eapply vm_step_trans|]. split.
  - intros. by rewrite Hlk2, Hlk1.
  - right. by exists p2.
Qed.

(** ** Lemmas: mappages() *)

(** Storing the leaf entry of [va] changes the translation of its page only. *)
Lemma vm_set_pte s F pt D va p e :
  vm_ok Avail s F pt D -> D !! va_path va = Some p -> 0 <= va < MAXVA -> 0 <= e < 2 ^ 64 ->
  let s' := upd_k_mem (fun m => st64 m (p + 8 * PX 0 va) e) s in
  vm_step Avail pt s F D s' F D /\
  forall va', 0 <= va' < 2 ^ 39 ->
    pt_lookup (k_mem s') pt va' =
      if decide (PGROUNDDOWN va' = PGROUNDDOWN va)
      then (if pte_has e PTE_V then Some e else None)
      else pt_lookup (k_mem s) pt va'.
Proof.
  intros Hok Hp Hva He s'. pose proof (PX_range 0 va ltac:(lia)) as H0.
  pose proof (pa_layout _ _ (vo_free _ _ _ _ _ Hok)) as Hlay.
  pose proof (vo_dir _ _ _ _ _ Hok) as Hdir.
  assert (Hdir' : dir_ok (k_mem s') pt D).
  { destruct Hdir as [? ? ? ? Hentry]. split; try done. intros q a i Hq Hlen Hi.
    rewrite (ld64_ext _ (k_mem s)); [by apply Hentry|]. intros x Hx. unfold s'. ksimpl.
    apply rd_st64_out. intros Hx'.
    destruct (dir_slot_inj (k_mem s) pt D q (va_path va) a p i (PX 0 va) x) as [-> _];
      [apply Hok|done..|]. cbn in Hlen. lia. }
  split.
  - split; [split; [by eapply avail_store|done|apply Hok]|done|done|].
    apply frame_store; [|done]. apply elem_of_union_r, elem_of_dir_pages. by eexists.
  - intros va' Hva'. pose proof (PX_range 0 va' ltac:(lia)) as H0'.
    rewrite !(dir_lookup _ pt D) by done. unfold s'. ksimpl. case_decide as E.
    + replace (va_path va') with (va_path va) by (by apply va_path_page).
      rewrite Hp. cbn. replace (PX 0 va') with (PX 0 va) by (by apply PX_page).
      by rewrite ld64_st64, u64_small.
    + destruct (D !! va_path va') as [p'|] eqn:Ep; [|done]. cbn.
      rewrite (ld64_ext _ (k_mem s)); [done|]. intros x Hx. apply rd_st64_out. intros Hx'.
      destruct (dir_slot_inj (k_mem s) pt D (va_path va') (va_path va) p' p (PX 0 va') (PX 0 va) x)
        as [[= E2 E1] E0]; try done. change MAXVA with 274877906944 in Hva.
      apply E, PX_inj; done || lia.
Qed.

Lemma leaf_range pa perm :
  0 <= pa < 2 ^ 64 -> 0 <= perm < 1024 ->
  0 <= leaf pa perm < 2 ^ 64 /\ pte_has (leaf pa perm) PTE_V = true.
Proof.
  intros. unfold leaf. assert (0 <= Z.lor perm PTE_V < 1024) as Hf.
  { change PTE_V with 1. split; [apply Z.lor_nonneg; lia|]. apply (lor_bound _ _ 10); lia. }
  rewrite <- Z.lor_assoc, pte_has_PA2PTE by done.
  rewrite PA2PTE_eq, lor_low by done. split; [zdm|].
  unfold pte_has. rewrite Z.land_lor_distr_l. change (Z.land PTE_V PTE_V) with 1.
  rewrite negb_true_iff, Z.eqb_neq. intros [_ ?]%Z.lor_eq_0_iff. done.
Qed.

(** One page of mappages(): out of memory, or the page is mapped. *)
Lemma mappages_page s F pt D a pa perm last :
  vm_ok Avail s F pt D -> 0 <= a < MAXVA -> 0 <= pa < 2 ^ 64 -> 0 <= perm < 1024 ->
  pt_lookup (k_mem s) pt a = None ->
  wp (mappages_body pt last perm (a, pa)) (fun r s' => exists F' D',
    vm_step Avail pt s F D s' F' D' /\
    ((r = inr (-1) /\
      forall va', pt_lookup (k_mem s') pt va' = pt_lookup (k_mem s) pt va') \/
     (r = (if a =? last then inr 0 else inl (u64 (a + PGSIZE), u64 (pa + PGSIZE))) /\
      forall va', 0 <= va' < 2 ^ 39 -> pt_lookup (k_mem s') pt va' =
        if decide (PGROUNDDOWN va' = PGROUNDDOWN a) then Some (leaf pa perm)
        else pt_lookup (k_mem s) pt va'))) s.
Proof.
  intros Hok Ha Hpa Hperm Hnone. unfold mappages_body. apply wp_bind.
  eapply wp_mono; [by apply walk_alloc|]. cbn beta.
  intros r s1 (F1 & D1 & Hst & Hlk & [->|(p & Hp & ->)]).
  { cbn [Z.eqb]. wp_steps. exists F1, D1. split; [done|]. by left. }
  pose proof (vs_ok _ _ _ _ _ _ _ _ Hst) as Hok1.
  pose proof (pa_layout _ _ (vo_free _ _ _ _ _ Hok1)) as Hlay.
  assert (page_ok p) as Hpp by (eapply do_page; [by apply vo_dir in Hok1|done]).
  pose proof (page_ok_range p Hlay Hpp) as Hpr. pose proof (PX_range 0 a ltac:(lia)).
  rewrite (proj2 (Z.eqb_neq _ 0)) by lia.
  unfold load, store, upd_mem. wp_steps.
  assert (pte_has (ld64 (k_mem s1) (p + 8 * PX 0 a)) PTE_V = false) as ->.
  { assert (pt_lookup (k_mem s1) pt a = None) as E by by rewrite Hlk.
    rewrite (dir_lookup _ pt D1) in E by (done || by apply vo_dir in Hok1).
    rewrite Hp in E. cbn in E. by destruct (pte_has _ _). }
  wp_steps. destruct (leaf_range pa perm) as [Hlr Hlv]; [done..|].
  destruct (vm_set_pte s1 F1 pt D1 a p (leaf pa perm)) as [Hst' Hlk']; try done.
  assert (Hres : forall va', 0 <= va' < 2 ^ 39 ->
    pt_lookup (k_mem (upd_k_mem (fun m => st64 m (p + 8 * PX 0 a) (leaf pa perm)) s1)) pt va' =
      if decide (PGROUNDDOWN va' = PGROUNDDOWN a) then Some (leaf pa perm)
      else pt_lookup (k_mem s) pt va').
  { intros va' Hva'. rewrite Hlk' by done. rewrite Hlv. case_decide; [done|apply Hlk]. }
  destruct (a =? last); wp_steps; exists F1, D1;
    (split; [by eapply vm_step_trans|]); right; split; done.
Qed.

(** The pages that mappages(pt, va, size, pa, perm) maps: [n] of them from the
    page of [va]. *)
Definition mapped (m m' : gmap Z Z) (pt a0 pa perm n : Z) : Prop :=
  forall va, 0 <= va < 2 ^ 39 ->
    pt_lookup m' pt va =
      if decide (a0 <= va < a0 + PGSIZE * n)
      then Some (leaf (pa + (PGROUNDDOWN va - a0)) perm)
      else pt_lookup m pt va.

Lemma mapped_step m m1 m2 pt a0 pa perm n :
  a0 mod PGSIZE = 0 -> 0 <= n -> mapped m m1 pt a0 pa perm n ->
  (forall va, 0 <= va < 2 ^ 39 -> pt_lookup m2 pt va =
     if decide (PGROUNDDOWN va = PGROUNDDOWN (a0 + PGSIZE * n))
     then Some (leaf (pa + PGSIZE * n) perm) else pt_lookup m1 pt va) ->
  mapped m m2 pt a0 pa perm (n + 1).
Proof.
  intros Ha Hn H1 H2 va Hva. rewrite H2, H1 by done. clear H1 H2.
  rewrite !PGROUNDDOWN_eq. repeat case_decide; try done; try zdm.
  do 2 f_equal. zdm.
Qed.

Lemma mappages_spec s F pt D va size pa perm :
  vm_ok Avail s F pt D -> 0 <= va -> 0 < size -> va + size <= MAXVA ->
  0 <= pa -> pa + size + PGSIZE <= 2 ^ 64 -> 0 <= perm < 1024 ->
  (forall x, PGROUNDDOWN va <= x < va + size -> pt_lookup (k_mem s) pt x = None) ->
  let a0 := PGROUNDDOWN va in
  wp (mappages pt va size pa perm) (fun r s' => exists F' D' n,
    vm_step Avail pt s F D s' F' D' /\ mapped (k_mem s) (k_mem s') pt a0 pa perm n /\
    (r = 0 /\ a0 + PGSIZE * (n - 1) = PGROUNDDOWN (va + size - 1) \/
     r = -1 /\ 0 <= n /\ a0 + PGSIZE * n <= PGROUNDDOWN (va + size - 1))) s.
Proof.
  intros Hok Hva Hsz Hmax Hpa Hpamax Hperm Hnone a0.
  change MAXVA with 274877906944 in *.
  unfold mappages. rewrite (proj2 (Z.eqb_neq size 0)) by lia.
  rewrite (u64_small (va + size)), (u64_small (va + size - 1)) by lia. fold a0.
  destruct (PGROUNDDOWN_spec va) as [Ha0 Ha0']; [done|]. fold a0 in Ha0, Ha0'.
  destruct (PGROUNDDOWN_spec (va + size - 1)) as [Hl Hl']; [lia|].
  set (last := PGROUNDDOWN (va + size - 1)) in *.
  assert (0 <= a0) by zdm. rewrite u64_small by zdm.
  eapply (wp_loop (fun '(a, pa') s' => exists F' D' n, 0 <= n /\
    a = a0 + PGSIZE * n /\ pa' = pa + PGSIZE * n /\ a <= last /\
    vm_step Avail pt s F D s' F' D' /\ mapped (k_mem s) (k_mem s') pt a0 pa perm n)
    (fun '(a, _) => Z.to_nat ((last - a) / PGSIZE))).
  2:{ exists F, D, 0. split; [done|]. split_and!; [lia|lia|zdm|by apply vm_step_refl|].
      intros x Hx. by rewrite decide_False by lia. }
  2:{ lia. }
  intros [a pa'] s1 (F1 & D1 & n & Hn & -> & -> & Hle & Hst & Hmap).
  eapply wp_mono.
  { apply (mappages_page s1 F1 pt D1); [apply Hst| |lia|done|].
    - change MAXVA with 274877906944. lia.
    - rewrite (Hmap _) by lia.
      rewrite decide_False by lia. apply Hnone. lia. }
  cbn beta. intros r s2 (F2 & D2 & Hst2 & [[-> Hlk]|[-> Hlk]]).
  { exists F2, D2, n. split; [by eapply vm_step_trans|]. split; [|right; lia].
    intros x Hx. rewrite Hlk. by apply Hmap. }
  assert (Hmap2 : mapped (k_mem s) (k_mem s2) pt a0 pa perm (n + 1)) by by eapply mapped_step.
  assert (Hst' : vm_step Avail pt s F D s2 F2 D2) by by eapply vm_step_trans.
  destruct (Z.eqb_spec (a0 + PGSIZE * n) last) as [E|E].
  { exists F2, D2, (n + 1). split; [done|]. split; [done|]. left. lia. }
  assert (a0 + PGSIZE * n + PGSIZE <= last) by zdm.
  rewrite !u64_small by lia. split.
  - exists F2, D2, (n + 1). split_and!; [lia|lia|lia|lia|done|done].
  - zdm.
Qed.

End walk.

End vm.
