(* ===== verification/VmUser.v ===== *)
(** * User address spaces (kernel/vm.c): uvmunmap(), uvmalloc(), uvmdealloc()

    An address space is a finite map from user pages to a physical page and its
    permissions.  [as_ok] says that memory holds it as a page table with the data
    pages, and that no page is used twice; the functions that grow and shrink an
    address space are specified by their effect on the map, and never lose a
    page: the free, table and data pages together stay the same set. *)

From Stdlib Require Import ZArith Lia.
From stdpp Require Import base tactics numbers gmap strings option list.
From S2P Require Import Prelude Kernel Spinlock Kstring Riscv Kalloc KallocInit Vm.

Section vmuser.
Context `{Platform} (Avail : kstate -> gset Z -> Prop) `{!PageAllocator Avail}.

(** ** Specification *)

(** The data pages of an address space. *)
Definition upages (U : gmap Z (Z * Z)) : gset Z := map_img (fst <$> U).

Record as_ok (s : kstate) (F : gset Z) (pt : Z) (D : gmap (list Z) Z)
    (U : gmap Z (Z * Z)) : Prop := {
  as_vm : vm_ok Avail s F pt D;
  as_map va : va mod PGSIZE = 0 -> 0 <= va < TRAPFRAME ->
    pt_lookup (k_mem s) pt va = (fun '(pa, perm) => leaf pa perm) <$> U !! va;
  as_dom va x : U !! va = Some x -> va mod PGSIZE = 0 /\ 0 <= va < TRAPFRAME;
  as_page va pa perm : U !! va = Some (pa, perm) ->
    page_ok pa /\ pa ∉ F ∪ dir_pages D /\ 2 <= perm < 1024;
  as_inj va va' pa perm perm' :
    U !! va = Some (pa, perm) -> U !! va' = Some (pa, perm') -> va = va';
}.

(** Every page the address space and the allocator have. *)
Definition as_pages (F : gset Z) (D : gmap (list Z) Z) (U : gmap Z (Z * Z)) : gset Z :=
  F ∪ dir_pages D ∪ upages U.

(** From one address space to another: pages are conserved, memory outside them
    and the content of the data pages they share is unchanged, and so is the
    translation of the addresses from TRAPFRAME on. *)
Record as_step (pt : Z) (s : kstate) (F : gset Z) (D : gmap (list Z) Z) (U : gmap Z (Z * Z))
    (s' : kstate) (F' : gset Z) (D' : gmap (list Z) Z) (U' : gmap Z (Z * Z)) : Prop := {
  st_ok : as_ok s' F' pt D' U';
  st_pages : as_pages F' D' U' = as_pages F D U;
  st_sub : D ⊆ D';
  st_frame : alloc_frame (as_pages F D U) s s';
  st_kept va pa perm perm' : U !! va = Some (pa, perm) -> U' !! va = Some (pa, perm') ->
    forall x, pa <= x < pa + PGSIZE -> rd (k_mem s') x = rd (k_mem s) x;
  st_high va : TRAPFRAME <= va < 2 ^ 39 -> pt_lookup (k_mem s') pt va = pt_lookup (k_mem s) pt va;
}.

(** [n] pages from [a] on. *)
Definition in_pages (a n va : Z) : Prop := a <= va < a + PGSIZE * n.

#[export] Instance in_pages_dec a n va : Decision (in_pages a n va).
Proof. unfold in_pages. apply _. Defined.

(** The address space without them. *)
Definition cut (U : gmap Z (Z * Z)) (a n : Z) : gmap Z (Z * Z) :=
  filter (fun x => ~ in_pages a n x.1) U.

(** ** Lemmas *)

Lemma elem_of_upages U p : p ∈ upages U <-> exists va perm, U !! va = Some (p, perm).
Proof.
  unfold upages. rewrite elem_of_map_img. split.
  - intros (va & Hva). rewrite lookup_fmap in Hva.
    destruct (U !! va) as [[pa perm]|] eqn:E; [|done]. cbn in Hva. simplify_eq. by eexists _, _.
  - intros (va & perm & Hva). exists va. by rewrite lookup_fmap, Hva.
Qed.

Lemma perm_lor_bound perm : 0 <= perm < 1024 -> 0 <= Z.lor perm PTE_V < 1024.
Proof.
  intros. change PTE_V with 1. split; [apply Z.lor_nonneg; lia|]. apply (lor_bound _ _ 10); lia.
Qed.

Lemma leaf_pa pa perm : layout_ok -> page_ok pa -> 0 <= perm < 1024 -> PTE2PA (leaf pa perm) = pa.
Proof.
  intros Hlay Hp Hperm. pose proof (page_ok_range pa Hlay Hp). destruct Hp as (? & _).
  unfold leaf. rewrite <- Z.lor_assoc. apply PTE2PA_PA2PTE; [lia|done|by apply perm_lor_bound].
Qed.

Lemma leaf_flags pa perm :
  0 <= pa < 2 ^ 64 -> 0 <= perm < 1024 -> PTE_FLAGS (leaf pa perm) = Z.lor perm PTE_V.
Proof.
  intros. unfold leaf. rewrite <- Z.lor_assoc. apply PTE_FLAGS_PA2PTE; [done|].
  by apply perm_lor_bound.
Qed.

(** Such an entry is a leaf for uvmunmap(). *)
Lemma leaf_not_table perm : 2 <= perm < 1024 -> Z.lor perm PTE_V <> PTE_V.
Proof.
  intros Hp E. assert (perm = Z.land perm PTE_V) as E'.
  { apply Z.bits_inj'. intros n _. apply (f_equal (fun v => Z.testbit v n)) in E.
    rewrite Z.lor_spec in E. rewrite Z.land_spec.
    by destruct (Z.testbit perm n), (Z.testbit PTE_V n). }
  change PTE_V with (Z.ones 1) in E'. rewrite Z.land_ones in E' by lia.
  change (2 ^ 1) with 2 in E'. zdm.
Qed.

(** The allocator's work on [G] leaves a page table outside [G] alone. *)
Lemma vm_alloc s s' F F' G pt D :
  vm_ok Avail s F pt D -> Avail s' F' -> alloc_frame G s s' -> G ## dir_pages D -> F' ⊆ G ->
  (forall p, p ∈ G -> page_ok p) ->
  vm_ok Avail s' F' pt D /\ forall va, pt_lookup (k_mem s') pt va = pt_lookup (k_mem s) pt va.
Proof.
  intros Hok Hf' (_ & _ & Hm) Hdisj HG Hpg.
  pose proof (pa_layout _ _ Hf') as Hlay. pose proof (vo_dir _ _ _ _ _ Hok) as Hdir.
  assert (Hsame : forall q p x, D !! q = Some p -> p <= x < p + PGSIZE ->
            rd (k_mem s') x = rd (k_mem s) x).
  { intros q p x Hq Hx. apply Hm.
    assert (p ∈ dir_pages D) by (apply elem_of_dir_pages; by exists q).
    eapply not_alloc_owned; [done|done|by eapply do_page|set_solver|done]. }
  split.
  - split; [done|by eapply dir_ok_ext|set_solver].
  - intros va. by eapply pt_lookup_ext.
Qed.

Lemma lookup_walk m pt va e :
  pt_lookup m pt va = Some e ->
  pt_walk m pt va <> 0 /\ ld64 m (pt_walk m pt va) = e /\ pte_has e PTE_V = true.
Proof.
  unfold pt_lookup. destruct (Z.eqb_spec (pt_walk m pt va) 0); [done|].
  destruct (pte_has _ _) eqn:E; [|done]. by intros [= <-].
Qed.

Lemma as_layout s F pt D U : as_ok s F pt D U -> layout_ok.
Proof. intros H0. eapply pa_layout, vo_free, as_vm, H0. Qed.

Lemma as_step_refl pt s F D U : as_ok s F pt D U -> as_step pt s F D U s F D U.
Proof. by split. Qed.

Lemma as_step_trans pt s1 F1 D1 U1 s2 F2 D2 U2 s3 F3 D3 U3 :
  as_step pt s1 F1 D1 U1 s2 F2 D2 U2 -> as_step pt s2 F2 D2 U2 s3 F3 D3 U3 ->
  (forall va x, U1 !! va = Some x -> is_Some (U3 !! va) -> U2 !! va = Some x) ->
  as_step pt s1 F1 D1 U1 s3 F3 D3 U3.
Proof.
  intros [Hok1 Hp1 Hs1 Hf1 Hk1 Hh1] [Hok2 Hp2 Hs2 Hf2 Hk2 Hh2] HU.
  split; [done|congruence|by etrans| | |].
  - eapply alloc_frame_trans; [done|]. by rewrite <- Hp1.
  - intros va pa perm perm' H1 H3 x Hx. pose proof (HU va _ H1 ltac:(by eexists)) as H2.
    rewrite (Hk2 va pa perm perm'), (Hk1 va pa perm perm) by done. done.
  - intros va Hva. by rewrite Hh2, Hh1.
Qed.

Lemma as_pte s F pt D U va pa perm :
  as_ok s F pt D U -> U !! va = Some (pa, perm) ->
  exists p, D !! va_path va = Some p /\ pt_walk (k_mem s) pt va = p + 8 * PX 0 va /\
    pt_lookup (k_mem s) pt va = Some (leaf pa perm).
Proof.
  intros Hok HU. pose proof (as_layout _ _ _ _ _ Hok) as Hlay.
  destruct (as_dom _ _ _ _ _ Hok _ _ HU) as [Hal Hva].
  pose proof (as_map _ _ _ _ _ Hok va Hal Hva) as Hlk. rewrite HU in Hlk. cbn in Hlk.
  pose proof (vo_dir _ _ _ _ _ (as_vm _ _ _ _ _ Hok)) as Hdir.
  pose proof (dir_walk _ _ _ va Hlay Hdir) as Hw.
  pose proof (dir_lookup _ _ _ va Hlay Hdir) as Hl.
  destruct (D !! va_path va) as [p|]; [|congruence]. by exists p.
Qed.

Lemma va_lt_MAXVA va : va < TRAPFRAME -> va < MAXVA /\ va < 2 ^ 39.
Proof. change TRAPFRAME with 274877898752. change MAXVA with 274877906944. lia. Qed.

Lemma upages_delete U a pa perm :
  U !! a = Some (pa, perm) -> {[pa]} ∪ upages (delete a U) = upages U.
Proof.
  intros HU. apply set_eq. intros x. rewrite elem_of_union, elem_of_singleton, !elem_of_upages.
  split.
  - intros [->|(va & pm & Hva)]; [by eexists _, _|].
    rewrite lookup_delete_Some in Hva. destruct Hva. by eexists _, _.
  - intros (va & pm & Hva). destruct (decide (va = a)) as [->|].
    + left. congruence.
    + right. exists va, pm. by rewrite lookup_delete_ne.
Qed.

(** The page of [a] is given back and its entry cleared. *)
Lemma as_clear s s1 F pt D U a pa perm p :
  as_ok s F pt D U -> U !! a = Some (pa, perm) -> D !! va_path a = Some p ->
  Avail s1 (F ∪ {[pa]}) -> alloc_frame (F ∪ {[pa]}) s s1 ->
  as_step pt s F D U (upd_k_mem (fun m => st64 m (p + 8 * PX 0 a) 0) s1)
    (F ∪ {[pa]}) D (delete a U).
Proof.
  intros Hok HU Hp Hf1 Hfr. pose proof (as_layout _ _ _ _ _ Hok) as Hlay.
  destruct (as_dom _ _ _ _ _ Hok _ _ HU) as [Hal Hva].
  destruct (as_page _ _ _ _ _ Hok _ _ _ HU) as (Hpp & Hnin & Hperm).
  pose proof (vo_disj _ _ _ _ _ (as_vm _ _ _ _ _ Hok)) as Hdisj.
  assert (Hpg : forall q, q ∈ F ∪ {[pa]} -> page_ok q) by (intros; by eapply pa_page).
  destruct (vm_alloc s s1 F (F ∪ {[pa]}) (F ∪ {[pa]}) pt D) as [Hok1 Hlk1];
    [apply Hok|done|done|clear -Hdisj Hnin; set_solver|done|done|].
  pose proof (va_lt_MAXVA a) as HaM.
  destruct (vm_set_pte Avail s1 (F ∪ {[pa]}) pt D a p 0) as [Hst Hlk]; [done|done|lia|done|].
  assert (Htot : as_pages (F ∪ {[pa]}) D (delete a U) = as_pages F D U).
  { unfold as_pages. rewrite <- (upages_delete U a pa perm) by done. set_solver. }
  split; [split| | | | |]; try done.
  - apply Hst.
  - intros va Hval Hvar. pose proof (va_lt_MAXVA va). rewrite Hlk, Hlk1 by lia.
    rewrite !PGROUNDDOWN_aligned by done. case_decide as E; subst.
    + by rewrite lookup_delete_eq.
    + rewrite lookup_delete_ne by done. by apply Hok.
  - intros va x [_ Hx]%lookup_delete_Some. by eapply as_dom.
  - intros va pa' pm' [Hne Hx]%lookup_delete_Some.
    destruct (as_page _ _ _ _ _ Hok _ _ _ Hx) as (? & Hn' & ?). split; [done|]. split; [|done].
    assert (Hpne : pa' <> pa) by (intros ->; by apply Hne; eapply (as_inj _ _ _ _ _ Hok)).
    clear -Hn' Hpne. set_solver.
  - intros va va' pa' pm pm' [_ H1]%lookup_delete_Some [_ H2]%lookup_delete_Some.
    by eapply (as_inj _ _ _ _ _ Hok).
  - assert (HpD : p ∈ dir_pages D) by (apply elem_of_dir_pages; by eexists).
    rewrite <- Htot. eapply alloc_frame_trans.
    + eapply alloc_frame_mono; [|done]. unfold as_pages. clear. set_solver.
    + apply frame_store; [|apply PX_range; lia]. unfold as_pages. clear -HpD. set_solver.
  - intros va pa' pm pm' H1 [Hne _]%lookup_delete_Some x Hx.
    destruct (as_page _ _ _ _ _ Hok _ _ _ H1) as (Hp' & Hn' & _).
    assert (Hpne : pa' <> pa) by (intros ->; by apply Hne; eapply (as_inj _ _ _ _ _ Hok)).
    assert (HpD : p ∈ dir_pages D) by (apply elem_of_dir_pages; by eexists).
    ksimpl. pose proof (PX_range 0 a ltac:(lia)). rewrite rd_st64_out.
    + apply Hfr. eapply not_alloc_owned; [done|done|done|clear -Hn' Hpne; set_solver|done].
    + intros Hx'. assert (page_ok p) as (Hpal & _).
      { eapply do_page; [eapply vo_dir, Hok1|done]. }
      destruct (pages_apart p pa') as [?|?]; [done|apply Hp'|clear -HpD Hn'; set_solver|lia|lia].
  - intros va Hvar. rewrite Hlk, Hlk1 by (change TRAPFRAME with 274877898752 in *; lia).
    rewrite decide_False; [done|]. rewrite !PGROUNDDOWN_eq.
    change TRAPFRAME with 274877898752 in *. zdm.
Qed.

Lemma as_unmap_page s F pt D U a pa perm va_end :
  as_ok s F pt D U -> U !! a = Some (pa, perm) -> a < va_end ->
  wp (uvmunmap_body pt va_end true a) (fun r s' => r = inl (u64 (a + PGSIZE)) /\
    as_step pt s F D U s' (F ∪ {[pa]}) D (delete a U)) s.
Proof.
  intros Hok HU Hlt. pose proof (as_layout _ _ _ _ _ Hok) as Hlay.
  destruct (as_dom _ _ _ _ _ Hok _ _ HU) as [Hal Hva].
  destruct (as_page _ _ _ _ _ Hok _ _ _ HU) as (Hpp & Hnin & Hperm).
  destruct (as_pte _ _ _ _ _ _ _ _ Hok HU) as (p & Hp & Hw & Hlk).
  destruct (lookup_walk _ _ _ _ Hlk) as (Hw0 & Hld & Hv).
  pose proof (page_ok_range pa Hlay Hpp) as Hpr.
  unfold uvmunmap_body. rewrite (proj2 (Z.ltb_lt a va_end)) by done.
  apply wp_bind. eapply wp_ok; [apply walk_noalloc, va_lt_MAXVA; lia|].
  rewrite (proj2 (Z.eqb_neq _ 0)) by done. unfold load. wp_steps.
  rewrite Hld, Hv. cbn [negb]. rewrite leaf_flags by lia.
  rewrite (proj2 (Z.eqb_neq _ PTE_V)) by (apply leaf_not_table; lia).
  rewrite leaf_pa by (done || lia). apply wp_bind, wp_when_true; [done|].
  eapply wp_mono.
  { apply pa_kfree; [apply Hok|done|clear -Hnin; set_solver]. }
  cbn beta. intros _ s1 [Hfr Hf1]. unfold store, upd_mem. wp_steps. split; [done|].
  rewrite Hw. by eapply as_clear.
Qed.

Lemma lookup_cut U a n va :
  cut U a n !! va = if decide (in_pages a n va) then None else U !! va.
Proof.
  unfold cut. destruct (U !! va) as [x|] eqn:E; case_decide.
  - apply map_lookup_filter_None. right. intros y Hy. cbn. naive_solver.
  - by apply map_lookup_filter_Some.
  - apply map_lookup_filter_None. by left.
  - apply map_lookup_filter_None. by left.
Qed.

Lemma cut_0 U a n : n <= 0 -> cut U a n = U.
Proof.
  intros. apply map_eq. intros va. rewrite lookup_cut, decide_False; [done|].
  unfold in_pages. lia.
Qed.

Lemma cut_S s F pt D U a n :
  as_ok s F pt D U -> a mod PGSIZE = 0 -> 0 <= n ->
  cut U a (n + 1) = delete (a + PGSIZE * n) (cut U a n).
Proof.
  intros Hok Ha Hn. apply map_eq. intros va. rewrite lookup_delete, !lookup_cut.
  unfold in_pages. repeat case_decide; try done; try lia.
  destruct (U !! va) as [x|] eqn:E; [|done].
  destruct (as_dom _ _ _ _ _ Hok _ _ E) as [? _]. zdm.
Qed.

(** uvmunmap() with do_free: the pages are removed and given back. *)
Lemma uvmunmap_spec s F pt D U va n :
  as_ok s F pt D U -> va mod PGSIZE = 0 -> 0 <= va -> 0 <= n ->
  va + PGSIZE * n <= TRAPFRAME ->
  (forall a, a mod PGSIZE = 0 -> in_pages va n a -> is_Some (U !! a)) ->
  wp (uvmunmap pt va n true) (fun _ s' => exists F',
    as_step pt s F D U s' F' D (cut U va n)) s.
Proof.
  intros Hok Hal Hva Hn Htop Hall. unfold uvmunmap. rewrite Hal. cbn [Z.eqb negb].
  change TRAPFRAME with 274877898752 in *.
  rewrite (u64_small (n * PGSIZE)), (u64_small (va + n * PGSIZE)) by lia.
  rewrite u64_small by lia.
  replace ((va + n * PGSIZE - va) / PGSIZE) with n by zdm.
  eapply (wp_loop (fun a s1 => exists k F1, 0 <= k <= n /\ a = va + PGSIZE * k /\
    as_step pt s F D U s1 F1 D (cut U va k))
    (fun a => Z.to_nat (n - (a - va) / PGSIZE))).
  2:{ exists 0, F. split; [lia|]. split; [lia|]. rewrite cut_0 by lia. by apply as_step_refl. }
  2:{ replace ((va - va) / PGSIZE) with 0 by zdm. lia. }
  intros a s1 (k & F1 & Hk & -> & Hst).
  destruct (decide (k = n)) as [->|Hne].
  { unfold uvmunmap_body. rewrite (proj2 (Z.ltb_ge _ _)) by lia. wp_steps. by exists F1. }
  assert (Hcut : cut U va (k + 1) = delete (va + PGSIZE * k) (cut U va k))
    by (eapply cut_S; [done|done|lia]).
  destruct (Hall (va + PGSIZE * k)) as [[pa perm] HU]; [zdm|unfold in_pages; lia|].
  eapply wp_mono.
  { eapply as_unmap_page; [apply Hst| |lia]. rewrite lookup_cut, decide_False; [exact HU|].
    unfold in_pages. lia. }
  cbn beta. intros r s2 [-> Hst2]. rewrite u64_small by lia. split.
  - exists (k + 1), (F1 ∪ {[pa]}). split; [lia|]. split; [lia|]. rewrite Hcut.
    eapply as_step_trans; [done..|]. intros x y Hx [z Hz].
    apply lookup_delete_Some in Hz as [_ Hz]. rewrite lookup_cut in *. by case_decide.
  - replace ((va + PGSIZE * k + PGSIZE - va) / PGSIZE) with (k + 1) by zdm.
    replace ((va + PGSIZE * k - va) / PGSIZE) with k by zdm. lia.
Qed.

(** uvmdealloc() *)
Lemma uvmdealloc_spec s F pt D U oldsz newsz :
  as_ok s F pt D U -> 0 <= newsz -> 0 <= oldsz <= TRAPFRAME ->
  (forall a, a mod PGSIZE = 0 -> PGROUNDUP newsz <= a < PGROUNDUP oldsz -> is_Some (U !! a)) ->
  wp (uvmdealloc pt oldsz newsz) (fun r s' => exists F',
    if oldsz <=? newsz then r = oldsz /\ as_step pt s F D U s' F' D U
    else r = newsz /\ as_step pt s F D U s' F' D
      (cut U (PGROUNDUP newsz) ((PGROUNDUP oldsz - PGROUNDUP newsz) / PGSIZE))) s.
Proof.
  intros Hok Hnew Hold Hall. change TRAPFRAME with 274877898752 in *.
  unfold uvmdealloc. destruct (Z.leb_spec oldsz newsz) as [Hle|Hlt].
  { wp_steps. exists F. split; [done|]. by apply as_step_refl. }
  rewrite !PGROUNDUP_eq in * by lia. apply wp_bind.
  destruct (Z.ltb_spec (4096 * ((newsz + 4095) / 4096)) (4096 * ((oldsz + 4095) / 4096))) as [H1|H1].
  - unfold when. set (a := 4096 * ((newsz + 4095) / 4096)) in *.
    set (b := 4096 * ((oldsz + 4095) / 4096)) in *.
    assert (0 <= a /\ b <= 274877898752 /\ a mod 4096 = 0 /\ b mod 4096 = 0) as (? & ? & ? & ?)
      by (unfold a, b; zdm).
    rewrite (u64_small (b - a)) by lia. rewrite s32_small by zdm. rewrite u64_small by zdm.
    eapply wp_mono.
    { eapply uvmunmap_spec; [done|done|done|zdm|change TRAPFRAME with 274877898752; zdm|].
      intros x Hx Hin. apply Hall; [done|]. unfold in_pages in Hin. zdm. }
    cbn beta. intros _ s1 [F1 Hst]. wp_steps. by exists F1.
  - unfold when. wp_steps. exists F. split; [done|]. rewrite cut_0; [by apply as_step_refl|zdm].
Qed.

(** ** Lemmas: growing *)

(** What the allocator does with pages [G] outside the address space. *)
Lemma as_alloc s s' F F' G pt D U :
  as_ok s F pt D U -> Avail s' F' -> alloc_frame G s s' ->
  G ## dir_pages D -> G ## upages U -> F' ⊆ G -> (forall p, p ∈ G -> page_ok p) ->
  as_ok s' F' pt D U /\
  (forall va, pt_lookup (k_mem s') pt va = pt_lookup (k_mem s) pt va) /\
  (forall p x, p ∈ upages U -> p <= x < p + PGSIZE -> rd (k_mem s') x = rd (k_mem s) x).
Proof.
  intros Hok Hf' Hfr HGD HGU HF' HG. pose proof (as_layout _ _ _ _ _ Hok) as Hlay.
  destruct (vm_alloc s s' F F' G pt D) as [Hvm Hlk]; try done; [apply Hok|].
  destruct Hok as [Hvm0 Hmap Hdom Hpage Hinj].
  split; [|split; [done|]].
  - split; try done.
    + intros va Hal Hva. rewrite Hlk. by apply Hmap.
    + intros va pa perm HU. destruct (Hpage _ _ _ HU) as (? & Hn & ?). split; [done|].
      split; [|done]. assert (pa ∈ upages U) by (apply elem_of_upages; by eexists _, _).
      clear -HGD HGU HF' Hn H2. set_solver.
  - intros p x (va & perm & HU)%elem_of_upages Hx. apply Hfr.
    assert (p ∈ upages U) by (apply elem_of_upages; by eexists _, _).
    destruct (Hpage _ _ _ HU) as (? & _).
    eapply not_alloc_owned; [done|done|done|clear -HGU H0; set_solver|done].
Qed.

Lemma as_disj s F pt D U : as_ok s F pt D U -> F ∪ dir_pages D ## upages U.
Proof.
  intros Hok p Hp (va & perm & HU)%elem_of_upages.
  by destruct (as_page _ _ _ _ _ Hok _ _ _ HU) as (_ & ? & _).
Qed.

(** kalloc() that finds no page. *)
Lemma as_step_alloc pt s s' F D U :
  as_ok s F pt D U -> Avail s' F -> alloc_frame F s s' -> as_step pt s F D U s' F D U.
Proof.
  intros Hok Hf' Hfr. pose proof (as_disj _ _ _ _ _ Hok) as HFU.
  pose proof (vo_disj _ _ _ _ _ (as_vm _ _ _ _ _ Hok)) as HFD.
  destruct (as_alloc s s' F F F pt D U) as (Hok' & Hlk & Hdat);
    [done..|clear -HFU; set_solver|done|exact (fun p => pa_page s' F p Hf')|].
  split; [done..| | |].
  - eapply alloc_frame_mono; [|done]. unfold as_pages. clear. set_solver.
  - intros va pa pm pm' HU1 _ x Hx. apply (Hdat pa); [|done]. apply elem_of_upages. by eexists _, _.
  - intros va _. apply Hlk.
Qed.

Lemma upages_insert U a pa perm :
  U !! a = None -> upages (<[a := (pa, perm)]> U) = {[pa]} ∪ upages U.
Proof.
  intros HU. apply set_eq. intros x. rewrite elem_of_union, elem_of_singleton, !elem_of_upages.
  split.
  - intros (va & pm & Hva). rewrite lookup_insert in Hva. case_decide; [left; congruence|].
    right. by eexists _, _.
  - intros [->|(va & pm & Hva)].
    + exists a, perm. by rewrite lookup_insert_eq.
    + exists va, pm. rewrite lookup_insert_ne; congruence.
Qed.

(** A page mapped by mappages() joins the address space. *)
Lemma as_insert s s' F F' pt D D' U a pa perm :
  as_ok s F pt D U -> vm_step Avail pt s F D s' F' D' ->
  page_ok pa -> pa ∉ as_pages F D U -> 2 <= perm < 1024 ->
  a mod PGSIZE = 0 -> 0 <= a < TRAPFRAME -> U !! a = None ->
  mapped (k_mem s) (k_mem s') pt a pa perm 1 ->
  as_ok s' F' pt D' (<[a := (pa, perm)]> U).
Proof.
  intros Hok [Hvm Hpg Hsub Hfr] Hpp Hnin Hperm Hal Ha HU Hmap.
  destruct Hok as [Hvm0 Hmap0 Hdom Hpage Hinj]. unfold as_pages in Hnin. split; try done.
  - intros va Hval Hvar. pose proof (va_lt_MAXVA va). rewrite (Hmap va) by lia.
    rewrite lookup_insert. repeat case_decide; subst; try lia; try zdm.
    + cbn. rewrite PGROUNDDOWN_aligned by done. do 2 f_equal. lia.
    + by apply Hmap0.
  - intros va x. rewrite lookup_insert. case_decide; [by intros; subst|apply Hdom].
  - intros va pa' pm. rewrite lookup_insert. case_decide.
    + intros [= <- <-]. split; [done|]. split; [|done]. clear -Hpg Hnin. set_solver.
    + intros Hx. destruct (Hpage _ _ _ Hx) as (? & ? & ?). split; [done|]. split; [|done].
      by rewrite Hpg.
  - assert (Hnew : forall va pm, U !! va <> Some (pa, pm)).
    { intros va pm Hx. apply Hnin, elem_of_union_r, elem_of_upages. by eexists _, _. }
    intros va va' p pm pm'. rewrite !lookup_insert. repeat case_decide; subst; try done.
    + intros [= <- <-] Hx. by destruct (Hnew _ _ Hx).
    + intros Hx [= <- <-]. by destruct (Hnew _ _ Hx).
    + apply Hinj.
Qed.

Lemma as_vm_step s s' F F' pt D D' U :
  as_ok s F pt D U -> vm_step Avail pt s F D s' F' D' ->
  (forall va, 0 <= va < 2 ^ 39 -> pt_lookup (k_mem s') pt va = pt_lookup (k_mem s) pt va) ->
  as_ok s' F' pt D' U.
Proof.
  intros [Hvm0 Hmap0 Hdom Hpage Hinj] [Hvm Hpg Hsub Hfr] Hlk. split; try done.
  - intros va Hval Hvar. pose proof (va_lt_MAXVA va). rewrite Hlk by lia. by apply Hmap0.
  - intros va pa' pm Hx. destruct (Hpage _ _ _ Hx) as (? & ? & ?). split; [done|].
    split; [|done]. by rewrite Hpg.
Qed.

Lemma pt_lookup_page m pt va va' :
  PGROUNDDOWN va = PGROUNDDOWN va' -> pt_lookup m pt va = pt_lookup m pt va'.
Proof.
  intros E. unfold pt_lookup, pt_walk. by rewrite !(PX_page _ va va').
Qed.

(** mappages() of one page. *)
Lemma mappages_one s F pt D U a pa perm :
  as_ok s F pt D U -> a mod PGSIZE = 0 -> 0 <= a < TRAPFRAME -> U !! a = None ->
  page_ok pa -> 0 <= perm < 1024 ->
  wp (mappages pt a PGSIZE pa perm) (fun r s' => exists F' D' n,
    vm_step Avail pt s F D s' F' D' /\ mapped (k_mem s) (k_mem s') pt a pa perm n /\
    (r = 0 /\ n = 1 \/ r = -1 /\ n = 0)) s.
Proof.
  intros Hok Hal Ha HU Hpp Hperm.
  pose proof (page_ok_range pa (as_layout _ _ _ _ _ Hok) Hpp).
  change TRAPFRAME with 274877898752 in *. eapply wp_mono.
  - eapply (mappages_spec Avail); [apply Hok|lia|lia|change MAXVA with 274877906944; zdm|lia|lia|done|].
    intros x Hx. rewrite (pt_lookup_page _ _ x a).
    + rewrite (as_map _ _ _ _ _ Hok) by done. by rewrite HU.
    + rewrite PGROUNDDOWN_aligned in Hx by done. rewrite !PGROUNDDOWN_eq. zdm.
  - cbn beta. rewrite PGROUNDDOWN_aligned by done.
    intros r s' (F' & D' & n & Hst & Hmap & Hr). exists F', D', n. split; [done|]. split; [done|].
    rewrite PGROUNDDOWN_eq in Hr. destruct Hr as [[-> Hr]|(-> & ? & Hr)]; [left|right]; split; try done; zdm.
Qed.

(** Giving back a page that did not make it into the address space. *)
Lemma as_release s s3 F F' pt D D' U mem :
  as_ok s3 F' pt D' U -> page_ok mem -> mem ∉ as_pages F' D' U ->
  as_pages F' D' U ∪ {[mem]} = as_pages F D U -> D ⊆ D' ->
  alloc_frame (as_pages F D U) s s3 ->
  (forall p x, p ∈ upages U -> p <= x < p + PGSIZE -> rd (k_mem s3) x = rd (k_mem s) x) ->
  (forall va, TRAPFRAME <= va < 2 ^ 39 ->
     pt_lookup (k_mem s3) pt va = pt_lookup (k_mem s) pt va) ->
  wp (kfree mem) (fun _ s4 => as_step pt s F D U s4 (F' ∪ {[mem]}) D' U) s3.
Proof.
  intros Hok Hp Hn Hpg Hsub Hfr Hdat Hhigh. unfold as_pages in Hn.
  pose proof (vo_free _ _ _ _ _ (as_vm _ _ _ _ _ Hok)) as Hf.
  pose proof (vo_disj _ _ _ _ _ (as_vm _ _ _ _ _ Hok)) as HFD.
  pose proof (as_disj _ _ _ _ _ Hok) as HFU.
  eapply wp_mono; [apply pa_kfree; [exact Hf|done|clear -Hn; set_solver]|].
  cbn beta. intros _ s4 [Hfr4 Hf4].
  destruct (as_alloc s3 s4 F' (F' ∪ {[mem]}) (F' ∪ {[mem]}) pt D' U) as (Hok4 & Hlk4 & Hdat4);
    [done..|clear -HFD Hn; set_solver|clear -HFU Hn; set_solver|done|
     exact (fun p => pa_page s4 _ p Hf4)|].
  assert (Hpg' : as_pages (F' ∪ {[mem]}) D' U = as_pages F D U).
  { rewrite <- Hpg. unfold as_pages. clear. set_solver. }
  split; [done|done|done|..].
  - eapply alloc_frame_trans; [done|]. eapply alloc_frame_mono; [|done].
    rewrite <- Hpg'. unfold as_pages. clear. set_solver.
  - intros va p pm pm' HU1 _ x Hx. assert (p ∈ upages U) by (apply elem_of_upages; by eexists _, _).
    by rewrite (Hdat4 p), (Hdat p).
  - intros va Hva. by rewrite Hlk4, Hhigh.
Qed.

(** A page from kalloc(), filled by [f] and then mapped at [a]: it becomes part
    of the address space or, when a table page is missing, can be given back. *)
Lemma as_grow s s1 F pt D U a mem perm f :
  as_ok s F pt D U -> mem ∈ F -> alloc_frame F s s1 -> Avail s1 (F ∖ {[mem]}) ->
  mem_ok (f (k_mem s1)) ->
  (forall x, ~ (mem <= x < mem + PGSIZE) -> rd (f (k_mem s1)) x = rd (k_mem s1) x) ->
  a mod PGSIZE = 0 -> 0 <= a < TRAPFRAME -> U !! a = None -> 2 <= perm < 1024 ->
  wp (mappages pt a PGSIZE mem perm) (fun r s3 => exists F' D',
    (r = 0 /\ as_step pt s F D U s3 F' D' (<[a := (mem, perm)]> U) /\
     forall x, mem <= x < mem + PGSIZE -> rd (k_mem s3) x = rd (f (k_mem s1)) x) \/
    (r = -1 /\ wp (kfree mem) (fun _ s4 => as_step pt s F D U s4 (F' ∪ {[mem]}) D' U) s3))
    (upd_k_mem f s1).
Proof.
  intros Hok Hmem Hfr Hf1 Hmok Hout Hal Ha HU Hperm.
  pose proof (as_layout _ _ _ _ _ Hok) as Hlay.
  pose proof (vo_free _ _ _ _ _ (as_vm _ _ _ _ _ Hok)) as Hf.
  pose proof (vo_disj _ _ _ _ _ (as_vm _ _ _ _ _ Hok)) as HFD.
  pose proof (as_disj _ _ _ _ _ Hok) as HFU.
  assert (Hpp : page_ok mem) by by eapply pa_page.
  set (s2 := upd_k_mem f s1).
  assert (Hfr2 : alloc_frame F s s2).
  { eapply alloc_frame_trans; [done|]. by apply (frame_write _ _ mem). }
  assert (Hf2 : Avail s2 (F ∖ {[mem]})).
  { apply (avail_write _ _ _ mem); [done..| |done|done]. clear. set_solver. }
  destruct (as_alloc s s2 F (F ∖ {[mem]}) F pt D U) as (Hok2 & Hlk2 & Hdat2);
    [done..|clear -HFU; set_solver|clear; set_solver|exact (fun p => pa_page s F p Hf)|].
  assert (Hnin : mem ∉ as_pages (F ∖ {[mem]}) D U).
  { unfold as_pages. clear -Hmem HFD HFU. set_solver. }
  eapply wp_mono; [apply (mappages_one s2 (F ∖ {[mem]}) pt D U); [done..|lia]|].
  cbn beta. intros r s3 (F' & D' & n & Hst & Hmap & Hr). exists F', D'.
  pose proof (vs_pages _ _ _ _ _ _ _ _ Hst) as Hpg3.
  assert (Hsame3 : forall p x, page_ok p -> p ∉ F ∖ {[mem]} ∪ dir_pages D ->
            p <= x < p + PGSIZE -> rd (k_mem s3) x = rd (k_mem s2) x).
  { intros p x Hp Hn Hx. apply (vs_frame _ _ _ _ _ _ _ _ Hst).
    eapply not_alloc_owned; [done| |done..]. intros q Hq. eapply (vm_page Avail s2); [apply Hok2|done]. }
  assert (Hdat3 : forall p x, p ∈ upages U -> p <= x < p + PGSIZE ->
            rd (k_mem s3) x = rd (k_mem s) x).
  { intros p x Hp Hx. rewrite <- (Hdat2 p) by done. apply (Hsame3 p); [| |done].
    - apply elem_of_upages in Hp as (va & pm & Hp). by eapply as_page.
    - clear -HFU Hp. set_solver. }
  assert (Hfr3 : alloc_frame (as_pages F D U) s s3).
  { eapply alloc_frame_trans; eapply alloc_frame_mono; [|done| |apply Hst];
      unfold as_pages; clear; set_solver. }
  assert (Hhigh : forall va, TRAPFRAME <= va < 2 ^ 39 ->
            pt_lookup (k_mem s3) pt va = pt_lookup (k_mem s) pt va).
  { intros va Hva. change TRAPFRAME with 274877898752 in *. rewrite (Hmap va) by lia.
    rewrite decide_False, Hlk2; [done|]. destruct Hr as [[_ ->]|[_ ->]]; zdm. }
  destruct Hr as [[-> ->]|[-> ->]]; [left|right].
  - split; [done|]. split.
    + split; [|..|done].
      * eapply as_insert; try done; lia.
      * unfold as_pages. rewrite Hpg3, upages_insert by done. apply set_eq. intros x.
        clear -Hmem. destruct (decide (x = mem)); set_solver.
      * apply Hst.
      * done.
      * intros va p pm pm' HU1 _ x Hx. apply (Hdat3 p); [|done].
        apply elem_of_upages. by eexists _, _.
    + intros x Hx. apply (Hsame3 mem); [done| |done]. clear -Hnin. unfold as_pages in Hnin. set_solver.
  - split; [done|]. eapply as_release; try done.
    + eapply as_vm_step; [done..|]. intros va Hva. rewrite (Hmap va) by done.
      rewrite decide_False by lia. done.
    + unfold as_pages in *. rewrite Hpg3. done.
    + unfold as_pages. rewrite Hpg3. apply set_eq. intros x. clear -Hmem.
      destruct (decide (x = mem)); set_solver.
    + apply Hst.
Qed.

(** [U'] is [U] with [n] zeroed pages from [base] on. *)
Definition grown (m : gmap Z Z) (U U' : gmap Z (Z * Z)) (base n perm : Z) : Prop :=
  forall va, if decide (va mod PGSIZE = 0 /\ in_pages base n va)
    then exists pa, U' !! va = Some (pa, perm) /\
           forall x, pa <= x < pa + PGSIZE -> rd m x = 0
    else U' !! va = U !! va.

Lemma grown_step s s1 F D U U1 s2 F2 D2 pt base n perm mem :
  base mod PGSIZE = 0 -> 0 <= n -> grown (k_mem s1) U U1 base n perm ->
  as_step pt s F D U1 s2 F2 D2 (<[base + PGSIZE * n := (mem, perm)]> U1) -> s = s1 ->
  U1 !! (base + PGSIZE * n) = None ->
  (forall x, mem <= x < mem + PGSIZE -> rd (k_mem s2) x = 0) ->
  grown (k_mem s2) U (<[base + PGSIZE * n := (mem, perm)]> U1) base (n + 1) perm.
Proof.
  intros Hb Hn Hg Hst -> HU1 Hz va. specialize (Hg va). unfold in_pages in *.
  rewrite lookup_insert. destruct (decide (base + PGSIZE * n = va)) as [<-|Hne].
  - rewrite decide_True by (split; [zdm|lia]). by exists mem.
  - destruct (decide (va mod PGSIZE = 0 /\ base <= va < base + PGSIZE * n)) as [[? ?]|Hout].
    + rewrite decide_True by lia. destruct Hg as (pa & Hpa & Hzero). exists pa. split; [done|].
      intros x Hx. rewrite (st_kept _ _ _ _ _ _ _ _ _ Hst va pa perm perm); [by apply Hzero|done| |done].
      by rewrite lookup_insert_ne.
    + rewrite decide_False; [done|]. zdm.
Qed.

Lemma grown_cut m U U' base n perm :
  base mod PGSIZE = 0 -> grown m U U' base n perm ->
  (forall va, in_pages base n va -> U !! va = None) ->
  (forall va x, U' !! va = Some x -> va mod PGSIZE = 0) ->
  cut U' base n = U.
Proof.
  intros Hb Hg Hnone Hal. apply map_eq. intros va. rewrite lookup_cut. specialize (Hg va).
  destruct (decide (in_pages base n va)) as [Hin|Hin]; [by rewrite Hnone|].
  by rewrite decide_False in Hg by naive_solver.
Qed.

Lemma xperm_range xperm : 0 <= xperm < 1024 -> 2 <= Z.lor (Z.lor PTE_R PTE_U) xperm < 1024.
Proof.
  intros Hx. change (Z.lor PTE_R PTE_U) with 18. split.
  - pose proof (lor_ge 18 xperm). lia.
  - apply (lor_bound _ _ 10); lia.
Qed.

(** Undoing what was mapped so far. *)
Lemma uvmalloc_undo s F pt D U s1 F1 D1 U1 base k :
  as_step pt s F D U s1 F1 D1 U1 -> 0 <= base -> base mod PGSIZE = 0 -> 0 <= k ->
  base + PGSIZE * k <= TRAPFRAME -> cut U1 base k = U ->
  (forall va, va mod PGSIZE = 0 -> in_pages base k va -> is_Some (U1 !! va)) ->
  wp (uvmdealloc pt (base + PGSIZE * k) base) (fun _ s2 => exists F2,
    as_step pt s F D U s2 F2 D1 U) s1.
Proof.
  intros Hst Hb Hbal Hk Htop Hcut Hall. change TRAPFRAME with 274877898752 in *.
  assert (HU : forall va x, U !! va = Some x -> U1 !! va = Some x).
  { intros va x. rewrite <- Hcut, lookup_cut. by case_decide. }
  assert (Hr1 : PGROUNDUP base = base) by (apply PGROUNDUP_aligned; done || lia).
  assert (Hr2 : PGROUNDUP (base + PGSIZE * k) = base + PGSIZE * k)
    by (apply PGROUNDUP_aligned; [lia|zdm]).
  eapply wp_mono.
  { apply (uvmdealloc_spec s1 F1 pt D1 U1); [apply Hst|done| |].
    - change TRAPFRAME with 274877898752. lia.
    - rewrite Hr1, Hr2. intros va Hval Hva. by apply Hall. }
  cbn beta. intros r s2 [F2 Hs2]. exists F2. rewrite Hr1, Hr2 in Hs2.
  replace ((base + PGSIZE * k - base) / PGSIZE) with k in Hs2 by zdm.
  destruct (Z.leb_spec (base + PGSIZE * k) base) as [Hle|Hlt].
  - rewrite cut_0 in Hcut by lia. subst U1. eapply as_step_trans; [done|apply Hs2|]. done.
  - rewrite Hcut in Hs2. eapply as_step_trans; [done|apply Hs2|]. intros. by apply HU.
Qed.

Lemma uvmalloc_body_spec s F pt D U base newsz xperm k s1 F1 D1 U1 :
  let perm := Z.lor (Z.lor PTE_R PTE_U) xperm in
  let a := base + PGSIZE * k in
  0 <= base -> base mod PGSIZE = 0 -> newsz <= TRAPFRAME -> 0 <= xperm < 1024 -> 0 <= k ->
  (forall va, base <= va < newsz -> U !! va = None) ->
  as_step pt s F D U s1 F1 D1 U1 -> grown (k_mem s1) U U1 base k perm ->
  wp (uvmalloc_body pt base newsz xperm a) (fun r s2 => exists F2 D2 U2,
    as_step pt s F D U s2 F2 D2 U2 /\
    (newsz <= a /\ r = inr newsz /\ grown (k_mem s2) U U2 base k perm \/
     r = inr 0 /\ U2 = U \/
     a < newsz /\ r = inl (a + PGSIZE) /\ grown (k_mem s2) U U2 base (k + 1) perm)) s1.
Proof.
  intros perm a Hb Hbal Htop Hx Hk Hnone Hst Hg.
  pose proof (xperm_range xperm Hx) as Hperm. fold perm in Hperm.
  assert (Hok1 : as_ok s1 F1 pt D1 U1) by apply Hst.
  assert (Haal : a mod PGSIZE = 0) by (unfold a; zdm).
  unfold uvmalloc_body. destruct (Z.ltb_spec a newsz) as [Hlt|Hge].
  2:{ wp_steps. exists F1, D1, U1. split; [done|]. left. by split_and!. }
  assert (HU1a : U1 !! a = None).
  { specialize (Hg a). rewrite decide_False in Hg by (unfold in_pages, a; lia).
    rewrite Hg. apply Hnone. unfold a in *. lia. }
  assert (HUU1 : forall va x, U !! va = Some x -> U1 !! va = Some x).
  { intros va x HUx. specialize (Hg va).
    destruct (decide (va mod PGSIZE = 0 /\ in_pages base k va)) as [[_ Hin]|_]; [|by rewrite Hg].
    rewrite Hnone in HUx; [done|]. unfold in_pages, a in *. lia. }
  assert (Hundo : forall s2 F2 D2, as_step pt s F D U s2 F2 D2 U1 ->
    wp (uvmdealloc pt a base) (fun _ s3 => exists F3, as_step pt s F D U s3 F3 D2 U) s2).
  { intros s2 F2 D2 Hst2. eapply uvmalloc_undo; [done..|unfold a in *; lia| |].
    - eapply grown_cut; [done..| |intros; by eapply as_dom].
      intros va Hva. apply Hnone. unfold in_pages, a in *. lia.
    - intros va Hval Hva. specialize (Hg va). rewrite decide_True in Hg by done.
      destruct Hg as (? & ? & _). by eexists. }
  apply wp_bind. eapply wp_mono; [apply pa_kalloc, Hok1|].
  cbn beta. intros mem s2 (Hfr & [(-> & Hf2)|(Hm0 & HmF & Hf2)]).
  { cbn [Z.eqb]. apply wp_bind. eapply wp_mono.
    - apply (Hundo s2 F1 D1). eapply as_step_trans; [done|by apply as_step_alloc|]. by intros; apply HUU1.
    - cbn beta. intros _ s3 [F3 Hst3]. wp_steps. exists F3, D1, U. split; [done|]. right. by left. }
  rewrite (proj2 (Z.eqb_neq mem 0)) by done. unfold upd_mem. wp_steps.
  eapply wp_mono.
  { eapply (as_grow s1 s2 F1 pt D1 U1 a mem perm); [done..| | |done| |done|done].
    - apply mem_ok_memset. by eapply pa_mem.
    - intros x Hx'. by rewrite rd_memset, decide_False.
    - unfold a in *. lia. }
  cbn beta. intros r s3 (F3 & D3 & [(-> & Hst3 & Hz)|(-> & Hkf)]); cbn [Z.eqb negb].
  - wp_steps. exists F3, D3, (<[a := (mem, perm)]> U1). split.
    + eapply as_step_trans; [done..|]. by intros; apply HUU1.
    + right; right. split; [done|]. split.
      * do 2 f_equal. apply u64_small. change TRAPFRAME with 274877898752 in *. unfold a in *. lia.
      * eapply grown_step; [done..|]. intros x Hx'. rewrite Hz by done.
        by rewrite rd_memset, decide_True.
  - apply wp_bind. eapply wp_mono; [exact Hkf|]. cbn beta. intros _ s4 Hst4.
    apply wp_bind. eapply wp_mono.
    + apply (Hundo s4 (F3 ∪ {[mem]}) D3). eapply as_step_trans; [done..|].
      by intros; apply HUU1.
    + cbn beta. intros _ s5 [F5 Hst5]. wp_steps. exists F5, D3, U. split; [done|]. right. by left.
Qed.

(** uvmalloc() *)
Lemma uvmalloc_spec s F pt D U oldsz newsz xperm :
  as_ok s F pt D U -> 0 <= oldsz <= newsz -> newsz <= TRAPFRAME -> 0 <= xperm < 1024 ->
  (forall va, PGROUNDUP oldsz <= va < newsz -> U !! va = None) ->
  let perm := Z.lor (Z.lor PTE_R PTE_U) xperm in
  wp (uvmalloc pt oldsz newsz xperm) (fun r s' => exists F' D' U' n,
    as_step pt s F D U s' F' D' U' /\
    (r = newsz /\ grown (k_mem s') U U' (PGROUNDUP oldsz) n perm /\
       n = Z.max 0 ((PGROUNDUP newsz - PGROUNDUP oldsz) / PGSIZE) \/
     r = 0 /\ U' = U)) s.
Proof.
  intros Hok Hold Htop Hx Hnone perm. unfold uvmalloc.
  rewrite (proj2 (Z.ltb_ge _ _)) by lia.
  change TRAPFRAME with 274877898752 in *.
  destruct (PGROUNDUP_spec oldsz) as [Hbal Hb]; [lia|].
  set (base := PGROUNDUP oldsz) in *.
  eapply (wp_loop (fun a s1 => exists k F1 D1 U1, 0 <= k /\ a = base + PGSIZE * k /\
    (k = 0 \/ base + PGSIZE * (k - 1) < newsz) /\
    as_step pt s F D U s1 F1 D1 U1 /\ grown (k_mem s1) U U1 base k perm)
    (fun a => Z.to_nat ((newsz - a) / PGSIZE + 1))).
  2:{ exists 0, F, D, U. split; [lia|]. split; [lia|]. split; [by left|].
      split; [by apply as_step_refl|]. intros va. rewrite decide_False; [done|].
      unfold in_pages. lia. }
  2:{ lia. }
  intros a s1 (k & F1 & D1 & U1 & Hk & -> & Hk' & Hst & Hg). eapply wp_mono.
  { eapply uvmalloc_body_spec; [lia|done|done|done|done|done|done|done]. }
  cbn beta. intros r s2 (F2 & D2 & U2 & Hst2 & [(Hge & -> & Hg2)|[(-> & ->)|(Hlt & -> & Hg2)]]).
  - exists F2, D2, U2, k. split; [done|]. left. split; [done|]. split; [done|].
    rewrite (PGROUNDUP_eq newsz) by lia. unfold base in *. rewrite PGROUNDUP_eq in * by lia. zdm.
  - exists F2, D2, U, 0. split; [done|]. by right.
  - split.
    + exists (k + 1), F2, D2, U2. split_and!; try done; lia.
    + zdm.
Qed.

End vmuser.
