(* ===== verification/VmCopy.v ===== *)
(** * Copies between kernel and user memory (kernel/vm.c): walkaddr(), copyin(),
    copyout(), copyinstr()

    [uaddr] is the physical address of a user virtual address, [ubytes] the
    bytes of a range of user memory.  copyin() and copyinstr() are functions of
    those; copyout() is specified on an address space ([as_ok]): it stores the
    bytes in the range and changes no other user byte. *)

From Stdlib Require Import ZArith Lia.
From stdpp Require Import base tactics numbers gmap strings option list.
From S2P Require Import Prelude Kernel Spinlock Kstring Riscv Kalloc KallocInit Vm VmUser.

Section vmcopy.
Context `{Platform}.

(** ** Specification *)

(** The physical page of the user page at [va], or 0: what walkaddr() finds. *)
Definition upage (m : gmap Z Z) (pt va : Z) : Z :=
  if MAXVA <=? va then 0
  else match pt_lookup m pt va with
       | Some e => if pte_has e PTE_U then PTE2PA e else 0
       | None => 0
       end.

Definition uaddr (m : gmap Z Z) (pt va : Z) : option Z :=
  let pa := upage m pt (PGROUNDDOWN va) in
  if pa =? 0 then None else Some (pa + (va - PGROUNDDOWN va)).

(** The [n] bytes of user memory from [va] on, if all of them are mapped. *)
Fixpoint ubytes (m : gmap Z Z) (pt va : Z) (n : nat) : option (list Z) :=
  match n with
  | O => Some []
  | S k =>
      a ← uaddr m pt va;
      l ← ubytes m pt (va + 1) k;
      Some (rd m a :: l)
  end.

(** The same addresses, from the map of an address space. *)
Definition ua (U : gmap Z (Z * Z)) (va : Z) : option Z :=
  match U !! PGROUNDDOWN va with
  | Some (pa, perm) => if pte_has perm PTE_U then Some (pa + (va - PGROUNDDOWN va)) else None
  | None => None
  end.

(** No user page from TRAPFRAME on: the trapframe and trampoline pages are not
    accessible to user code. *)
Definition high_ok (m : gmap Z Z) (pt : Z) : Prop :=
  forall va, TRAPFRAME <= va < MAXVA -> upage m pt va = 0.

(** ** Lemmas *)

Lemma walkaddr_pure pt va s : walkaddr pt va s = Ok (upage (k_mem s) pt va) s.
Proof.
  unfold walkaddr, upage. destruct (Z.leb_spec MAXVA va) as [|Hlt]; [done|].
  erewrite bind_ok by by apply walk_noalloc.
  unfold pt_lookup. destruct (_ =? 0); [done|].
  unfold load. run. by destruct (pte_has _ PTE_V), (pte_has _ PTE_U).
Qed.

Lemma ubytes_app m pt va n k :
  ubytes m pt va (n + k) =
    (l1 ← ubytes m pt va n; l2 ← ubytes m pt (va + Z.of_nat n) k; Some (l1 ++ l2)).
Proof.
  revert va. induction n as [|n IH]; intros va.
  { cbn. rewrite Z.add_0_r. by destruct (ubytes m pt va k). }
  cbn [ubytes Nat.add]. destruct (uaddr m pt va) as [a|]; [|done]. cbn.
  rewrite IH. replace (va + Z.of_nat (S n)) with (va + 1 + Z.of_nat n) by lia.
  destruct (ubytes m pt (va + 1) n); [|done]. cbn.
  by destruct (ubytes m pt (va + 1 + Z.of_nat n) k).
Qed.

Lemma ubytes_length m pt va n l : ubytes m pt va n = Some l -> length l = n.
Proof.
  revert va l. induction n as [|n IH]; intros va l; cbn; [by intros [= <-]|].
  destruct (uaddr m pt va); [|done]. cbn. destruct (ubytes m pt (va + 1) n) eqn:E; [|done].
  intros [= <-]. cbn. by erewrite IH.
Qed.

Lemma PGROUNDDOWN_in va j :
  0 <= j -> va - PGROUNDDOWN va + j < PGSIZE -> PGROUNDDOWN (va + j) = PGROUNDDOWN va.
Proof. rewrite !PGROUNDDOWN_eq. intros. zdm. Qed.

(** Within a page user bytes are consecutive physical bytes. *)
Lemma ubytes_page m pt va n :
  upage m pt (PGROUNDDOWN va) <> 0 -> va - PGROUNDDOWN va + Z.of_nat n <= PGSIZE ->
  ubytes m pt va n =
    Some (rd_bytes m (upage m pt (PGROUNDDOWN va) + (va - PGROUNDDOWN va)) n).
Proof.
  intros Hpa. revert va Hpa. induction n as [|n IH]; intros va Hpa Hn; [done|].
  rewrite rd_bytes_S. cbn [ubytes]. unfold uaddr at 1. rewrite (proj2 (Z.eqb_neq _ 0)) by done.
  cbn. destruct n as [|n]; [done|].
  assert (E : PGROUNDDOWN (va + 1) = PGROUNDDOWN va) by (apply PGROUNDDOWN_in; lia).
  rewrite IH; [|by rewrite E|rewrite E; lia]. cbn [mbind option_bind]. rewrite E.
  do 3 f_equal. lia.
Qed.

Lemma ubytes_fail m pt va n : uaddr m pt va = None -> (0 < n)%nat -> ubytes m pt va n = None.
Proof. intros Hu Hn. destruct n; [lia|]. cbn. by rewrite Hu. Qed.

Lemma upage_lt m pt va : upage m pt va <> 0 -> va < MAXVA.
Proof. unfold upage. by destruct (Z.leb_spec MAXVA va). Qed.

(** ** copyin() *)

Lemma copyin_spec pt srcva len s :
  0 <= srcva < 2 ^ 64 -> 0 <= len ->
  wp (copyin pt srcva len) (fun r s' => s' = s /\
    match ubytes (k_mem s) pt srcva (Z.to_nat len) with
    | Some l => r = (0, l)
    | None => exists k, (k < Z.to_nat len)%nat /\ r.1 = -1 /\
        ubytes (k_mem s) pt srcva k = Some r.2
    end) s.
Proof.
  intros Hva Hlen. unfold copyin. set (m := k_mem s).
  eapply (wp_loop (fun '(va, l, dst) s' => s' = s /\ exists k : nat,
      0 <= l <= len /\ Z.of_nat k + l = len /\ 0 <= va < 2 ^ 64 /\
      (0 < l -> va = srcva + Z.of_nat k) /\ ubytes m pt srcva k = Some dst)
    (fun '(_, l, _) => Z.to_nat l)).
  2:{ split; [done|]. exists O. split_and!; try done; lia. }
  2:{ lia. }
  intros [[va l] dst] s' (-> & k & Hl & Hkl & Hvar & Hvk & Hdst). unfold copyin_body.
  destruct (Z.ltb_spec 0 l) as [Hpos|Hz].
  2:{ wp_steps. split; [done|]. replace (Z.to_nat len) with k by lia. by rewrite Hdst. }
  specialize (Hvk Hpos). subst va. set (va := srcva + Z.of_nat k) in *.
  apply wp_bind. eapply wp_ok; [apply walkaddr_pure|]. fold m.
  destruct (Z.eqb_spec (upage m pt (PGROUNDDOWN va)) 0) as [E|E].
  { wp_steps. split; [done|]. replace (Z.to_nat len) with (k + Z.to_nat l)%nat by lia.
    rewrite ubytes_app, Hdst. cbn. rewrite ubytes_fail; [|unfold uaddr; fold va; by rewrite E|lia].
    cbn. exists k. split_and!; done || lia. }
  destruct (PGROUNDDOWN_spec va) as [Hal Hpg]; [lia|].
  pose proof (upage_lt _ _ _ E) as Hmax. change MAXVA with 274877906944 in Hmax.
  set (n := PGSIZE - (va - PGROUNDDOWN va)) in *.
  set (n' := if l <? n then l else n).
  assert (Hn' : 0 < n' <= l /\ n' <= n /\ (n' < l -> n' = n)).
  { unfold n'. destruct (Z.ltb_spec l n); lia. }
  assert (Hn : n = PGSIZE - (va - PGROUNDDOWN va)) by done.
  assert (Hvak : va = srcva + Z.of_nat k) by done.
  wp_steps. rewrite u64_small by lia. split; [|lia].
  split; [done|]. exists (k + Z.to_nat n')%nat. split_and!; [lia..|].
  rewrite ubytes_app, Hdst. cbn. fold va. rewrite ubytes_page by (done || lia). done.
Qed.

(** ** copyinstr() *)

(** The scan of one page: a NUL among its bytes, or all of them copied. *)
Lemma copyinstr_page_spec s (n : nat) : forall max p dst,
  wp (loop (S n) copyinstr_page (Z.of_nat n, max, p, dst)) (fun r s' => s' = s /\
    let bs := rd_bytes (k_mem s) p n in
    let str := upto_nul bs in
    r = (if decide (length str < n)%nat
         then (true, max - Z.of_nat (length str), dst ++ str ++ [0])
         else (false, max - Z.of_nat n, dst ++ bs))) s.
Proof.
  induction n as [|n IH]; intros max p dst; apply wp_loop_step; unfold copyinstr_page.
  - cbn. split; [done|]. rewrite Z.sub_0_r, app_nil_r. done.
  - rewrite (proj2 (Z.ltb_lt 0 _)) by lia. rewrite rd_bytes_S. cbn [upto_nul].
    wp_steps. destruct (rd (k_mem s) p =? 0).
    + wp_steps. split; [done|]. rewrite decide_True by (cbn; lia). cbn. do 2 f_equal. lia.
    + wp_steps. replace (Z.of_nat (S n) - 1) with (Z.of_nat n) by lia.
      eapply wp_mono; [apply IH|]. cbn beta zeta. intros r s' (-> & ->). split; [done|].
      cbn [length]. set (str := upto_nul _). destruct (decide (length str < n)%nat) as [Hlt|Hge].
      * rewrite decide_True by lia. rewrite <- !app_assoc. do 2 f_equal. lia.
      * rewrite decide_False by lia. rewrite <- !app_assoc. do 2 f_equal. lia.
Qed.

Lemma upto_nul_app l1 l2 :
  upto_nul (l1 ++ l2) =
    if decide (length (upto_nul l1) < length l1)%nat then upto_nul l1 else l1 ++ upto_nul l2.
Proof.
  induction l1 as [|b l1 IH]; cbn; [done|]. destruct (b =? 0); [done|].
  rewrite IH. cbn. repeat case_decide; try lia; done.
Qed.

Lemma upto_nul_all l : ~ (length (upto_nul l) < length l)%nat -> upto_nul l = l.
Proof.
  induction l as [|b l IH]; cbn; [done|]. destruct (b =? 0); cbn; [lia|].
  intros. f_equal. apply IH. lia.
Qed.

(** copyinstr(): the string up to and with its NUL when the user bytes reach one
    within [max]; an error when they end first or [max] bytes hold no NUL. *)
Lemma copyinstr_spec pt srcva max s :
  0 <= srcva < 2 ^ 64 -> 0 <= max ->
  wp (copyinstr pt srcva max) (fun r s' => s' = s /\
    ((exists k bs, (k <= Z.to_nat max)%nat /\ ubytes (k_mem s) pt srcva k = Some bs /\
       (length (upto_nul bs) < k)%nat /\ r = (0, upto_nul bs ++ [0])) \/
     (exists k bs, (k <= Z.to_nat max)%nat /\ ubytes (k_mem s) pt srcva k = Some bs /\
       upto_nul bs = bs /\ r = (-1, bs) /\
       (k = Z.to_nat max \/ uaddr (k_mem s) pt (srcva + Z.of_nat k) = None)))) s.
Proof.
  intros Hva Hmax. unfold copyinstr. set (m := k_mem s).
  eapply (wp_loop (fun '(got, va, l, dst) s' => s' = s /\ 0 <= va < 2 ^ 64 /\
      if (got : bool) then exists k bs, (k <= Z.to_nat max)%nat /\ ubytes m pt srcva k = Some bs /\
        (length (upto_nul bs) < k)%nat /\ dst = upto_nul bs ++ [0]
      else exists k : nat, 0 <= l /\ Z.of_nat k + l = max /\
        (0 < l -> va = srcva + Z.of_nat k) /\ ubytes m pt srcva k = Some dst /\ upto_nul dst = dst)
    (fun '(got, _, l, _) => if (got : bool) then O else S (Z.to_nat l))).
  2:{ split; [done|]. split; [done|]. exists O. split_and!; try done; lia. }
  2:{ lia. }
  intros [[[got va] l] dst] s' (-> & Hvar & Hinv). unfold copyinstr_body. destruct got; cbn [negb andb].
  { wp_steps. split; [done|]. left. destruct Hinv as (k & bs & ? & ? & ? & ->). by exists k, bs. }
  destruct Hinv as (k & Hl & Hkl & Hvk & Hdst & Hnul).
  destruct (Z.ltb_spec 0 l) as [Hpos|Hz].
  2:{ wp_steps. split; [done|]. right. exists k, dst. split_and!; try done; [lia|left; lia]. }
  specialize (Hvk Hpos). subst va. set (va := srcva + Z.of_nat k) in *.
  apply wp_bind. eapply wp_ok; [apply walkaddr_pure|]. fold m.
  destruct (Z.eqb_spec (upage m pt (PGROUNDDOWN va)) 0) as [E|E].
  { wp_steps. split; [done|]. right. exists k, dst. split_and!; try done; [lia|].
    right. unfold uaddr. fold va. by rewrite E. }
  destruct (PGROUNDDOWN_spec va) as [Hal Hpg]; [lia|].
  pose proof (upage_lt _ _ _ E) as Hlt. change MAXVA with 274877906944 in Hlt.
  set (n := PGSIZE - (va - PGROUNDDOWN va)) in *.
  set (n' := if l <? n then l else n).
  assert (Hn' : 0 < n' <= l /\ n' <= n /\ (n' < l -> n' = n)).
  { unfold n'. destruct (Z.ltb_spec l n); lia. }
  assert (Hn : n = PGSIZE - (va - PGROUNDDOWN va)) by done.
  assert (Hvak : va = srcva + Z.of_nat k) by done.
  apply wp_bind. rewrite <- (Z2Nat.id n') at 2 by lia. eapply wp_mono; [apply copyinstr_page_spec|].
  cbn beta zeta. intros r s' (-> & ->). fold m. set (j := Z.to_nat n') in *.
  set (bs := rd_bytes m _ j).
  assert (Hub : ubytes m pt srcva (k + j) = Some (dst ++ bs)).
  { rewrite ubytes_app, Hdst. cbn. fold va. rewrite ubytes_page by (done || lia). done. }
  assert (Hbl : length bs = j) by apply length_rd_bytes.
  assert (Hdl : length dst = k) by by eapply ubytes_length.
  assert (Hcat : upto_nul (dst ++ bs) = dst ++ upto_nul bs).
  { rewrite upto_nul_app, Hnul. by rewrite decide_False by lia. }
  case_decide as Hs; wp_steps; rewrite u64_small by lia; (split; [|lia]);
    (split; [done|]); (split; [lia|]).
  - exists (k + j)%nat, (dst ++ bs). split; [lia|]. split; [done|]. rewrite Hcat.
    split; [len|]. by rewrite app_assoc.
  - exists (k + j)%nat. split; [lia|]. split; [lia|]. split; [lia|]. split; [done|].
    rewrite Hcat, (upto_nul_all bs); [done|lia].
Qed.

(** ** copyout() *)

Section copyout.
Context (Avail : kstate -> gset Z -> Prop) `{!PageAllocator Avail}.
Abbreviation as_ok := (as_ok Avail).

Lemma as_upage s F pt D U va :
  as_ok s F pt D U -> high_ok (k_mem s) pt -> 0 <= va -> va mod PGSIZE = 0 ->
  upage (k_mem s) pt va =
    match U !! va with
    | Some (pa, perm) => if pte_has perm PTE_U then pa else 0
    | None => 0
    end.
Proof.
  intros Hok Hhigh Hva Hal. pose proof (as_layout _ _ _ _ _ _ Hok) as Hlay.
  destruct (Z.lt_ge_cases va TRAPFRAME) as [Hlo|Hhi].
  - unfold upage. pose proof (va_lt_MAXVA va Hlo). rewrite (proj2 (Z.leb_gt _ _)) by lia.
    rewrite (as_map _ _ _ _ _ _ Hok) by done. destruct (U !! va) as [[pa perm]|] eqn:E; [|done].
    destruct (as_page _ _ _ _ _ _ Hok _ _ _ E) as (Hp & _ & Hperm). cbn.
    pose proof (page_ok_range pa Hlay Hp). rewrite leaf_pa by (done || lia).
    unfold leaf. rewrite <- Z.lor_assoc, pte_has_PA2PTE; [|lia|apply perm_lor_bound; lia|done].
    replace (pte_has (Z.lor perm PTE_V) PTE_U) with (pte_has perm PTE_U); [done|].
    unfold pte_has. rewrite Z.land_lor_distr_l. by rewrite Z.lor_0_r.
  - assert (U !! va = None) as ->.
    { destruct (U !! va) as [x|] eqn:E; [|done]. apply (as_dom _ _ _ _ _ _ Hok) in E. lia. }
    destruct (Z.lt_ge_cases va MAXVA); [by apply Hhigh|].
    unfold upage. by rewrite (proj2 (Z.leb_le _ _)).
Qed.

Lemma as_uaddr s F pt D U va :
  as_ok s F pt D U -> high_ok (k_mem s) pt -> 0 <= va ->
  uaddr (k_mem s) pt va = ua U va.
Proof.
  intros Hok Hhigh Hva. destruct (PGROUNDDOWN_spec va Hva) as [Hal Hr]. unfold uaddr, ua.
  rewrite (as_upage s F pt D U) by (done || zdm).
  destruct (U !! PGROUNDDOWN va) as [[pa perm]|] eqn:E; [|done].
  destruct (as_page _ _ _ _ _ _ Hok _ _ _ E) as (Hp & _).
  pose proof (page_ok_range pa (as_layout _ _ _ _ _ _ Hok) Hp).
  destruct (pte_has perm PTE_U); [|done]. by rewrite (proj2 (Z.eqb_neq pa 0)) by lia.
Qed.

(** User addresses do not share bytes. *)
Lemma ua_inj s F pt D U va va' x :
  as_ok s F pt D U -> 0 <= va -> 0 <= va' -> ua U va = Some x -> ua U va' = Some x -> va = va'.
Proof.
  intros Hok Hva Hva'. unfold ua.
  destruct (PGROUNDDOWN_spec va Hva) as [_ Hr], (PGROUNDDOWN_spec va' Hva') as [_ Hr'].
  destruct (U !! PGROUNDDOWN va) as [[pa perm]|] eqn:E; [|done].
  destruct (U !! PGROUNDDOWN va') as [[pa' perm']|] eqn:E'; [|done].
  destruct (pte_has perm PTE_U), (pte_has perm' PTE_U); try done.
  intros [= <-] [= Hx].
  destruct (as_page _ _ _ _ _ _ Hok _ _ _ E) as ((Hal & _) & _).
  destruct (as_page _ _ _ _ _ _ Hok _ _ _ E') as ((Hal' & _) & _).
  destruct (decide (pa = pa')) as [->|Hne].
  - pose proof (as_inj _ _ _ _ _ _ Hok _ _ _ _ _ E E'). lia.
  - destruct (pages_apart pa pa') as [?|?]; try done; lia.
Qed.

(** Writing in a data page keeps the address space. *)
Lemma as_write s F pt D U va pa perm f :
  as_ok s F pt D U -> U !! va = Some (pa, perm) -> mem_ok (f (k_mem s)) ->
  (forall x, ~ (pa <= x < pa + PGSIZE) -> rd (f (k_mem s)) x = rd (k_mem s) x) ->
  as_ok (upd_k_mem f s) F pt D U /\
  forall va', pt_lookup (f (k_mem s)) pt va' = pt_lookup (k_mem s) pt va'.
Proof.
  intros Hok HU Hm Hout. pose proof (as_layout _ _ _ _ _ _ Hok) as Hlay.
  destruct (as_page _ _ _ _ _ _ Hok _ _ _ HU) as (Hp & Hn & _).
  pose proof (vo_dir _ _ _ _ _ (as_vm _ _ _ _ _ _ Hok)) as Hdir.
  assert (Hsame : forall q p x, D !! q = Some p -> p <= x < p + PGSIZE ->
            rd (f (k_mem s)) x = rd (k_mem s) x).
  { intros q p x Hq Hx. apply Hout. assert (p ∈ dir_pages D) by (apply elem_of_dir_pages; by exists q).
    assert (page_ok p) as (Hal & _) by by eapply do_page.
    destruct (pages_apart p pa) as [?|?]; [done|apply Hp|clear -Hn H0; set_solver|lia|lia]. }
  assert (Hlk : forall va', pt_lookup (f (k_mem s)) pt va' = pt_lookup (k_mem s) pt va').
  { intros va'. by eapply pt_lookup_ext. }
  split; [|done]. destruct Hok as [Hvm Hmap Hdom Hpage Hinj]. split; try done.
  - split; [|by eapply dir_ok_ext|apply Hvm].
    apply (avail_write _ _ _ pa); [apply Hvm|done|clear -Hn; set_solver|done|done].
  - intros va' Hal Hva'. ksimpl. rewrite Hlk. by apply Hmap.
Qed.

(** The first [k] bytes of [src] are stored from [dstva] on and no other byte of
    memory changed. *)
Definition stored (U : gmap Z (Z * Z)) (m m' : gmap Z Z) (dstva : Z) (src : list Z) (k : nat) :=
  (forall (i : nat) b, (i < k)%nat -> src !! i = Some b ->
     exists x, ua U (dstva + Z.of_nat i) = Some x /\ rd m' x = b) /\
  (forall x, (forall i : nat, (i < k)%nat -> ua U (dstva + Z.of_nat i) <> Some x) -> rd m' x = rd m x).

Lemma ua_page U va pa perm j :
  U !! PGROUNDDOWN va = Some (pa, perm) -> pte_has perm PTE_U = true ->
  0 <= j -> va - PGROUNDDOWN va + j < PGSIZE ->
  ua U (va + j) = Some (pa + (va - PGROUNDDOWN va) + j).
Proof.
  intros HU Hu Hj Hlt. unfold ua. rewrite PGROUNDDOWN_in by done. rewrite HU, Hu. f_equal. lia.
Qed.

(** The part of copyout() that lies in one page. *)
Lemma stored_page s F pt D U m dstva src k n pa perm :
  let va := dstva + Z.of_nat k in
  let a := pa + (va - PGROUNDDOWN va) in
  as_ok s F pt D U -> 0 <= dstva -> U !! PGROUNDDOWN va = Some (pa, perm) ->
  pte_has perm PTE_U = true -> va - PGROUNDDOWN va + Z.of_nat n <= PGSIZE ->
  (k + n <= length src)%nat -> Forall byte_ok src ->
  stored U m (k_mem s) dstva src k ->
  stored U m (wr_bytes (k_mem s) a (take n (drop k src))) dstva src (k + n).
Proof.
  intros va a Hok Hd HU Hu Hn Hlen Hb [Hin Hout].
  assert (Hb' : Forall byte_ok (take n (drop k src))) by by apply Forall_take, Forall_drop.
  assert (Hln : length (take n (drop k src)) = n) by len.
  assert (Hat : forall j : nat, (j < n)%nat -> ua U (dstva + Z.of_nat (k + j)) = Some (a + Z.of_nat j)).
  { intros j Hj. replace (dstva + Z.of_nat (k + j)) with (va + Z.of_nat j) by (unfold va; lia).
    unfold a. eapply ua_page; [done|done|lia|lia]. }
  split.
  - intros i b Hi Hsrc.
    destruct (decide (i < k)%nat) as [Hlt|Hge].
    + destruct (Hin i b Hlt Hsrc) as (x & Hx & Hrd). exists x. split; [done|].
      rewrite rd_wr_bytes by done. rewrite decide_False; [done|]. rewrite Hln. intros Hx'.
      assert (ua U (dstva + Z.of_nat (k + Z.to_nat (x - a))) = Some x) as Hx2.
      { rewrite Hat by lia. f_equal. lia. }
      assert (dstva + Z.of_nat i = dstva + Z.of_nat (k + Z.to_nat (x - a)))
        by (eapply ua_inj; [exact Hok| | |exact Hx|exact Hx2]; lia). lia.
    + exists (a + Z.of_nat (i - k)). replace i with (k + (i - k))%nat at 1 by lia.
      split; [apply Hat; lia|]. rewrite rd_wr_bytes, decide_True by (done || lia).
      replace (Z.to_nat _) with (i - k)%nat by lia.
      rewrite lookup_take_lt, lookup_drop by lia. replace (k + (i - k))%nat with i by lia.
      by rewrite Hsrc.
  - intros x Hx. rewrite rd_wr_bytes by done. rewrite decide_False.
    + apply Hout. intros i Hi. apply Hx. lia.
    + rewrite Hln. intros Hx'. apply (Hx (k + Z.to_nat (x - a))%nat); [lia|].
      rewrite Hat by lia. f_equal. lia.
Qed.

Lemma copyout_spec s F pt D U dstva src :
  as_ok s F pt D U -> high_ok (k_mem s) pt -> 0 <= dstva < 2 ^ 64 -> Forall byte_ok src ->
  wp (copyout pt dstva src) (fun r s' => exists k,
    as_ok s' F pt D U /\ high_ok (k_mem s') pt /\ rest s' = rest s /\ sync s' = sync s /\
    stored U (k_mem s) (k_mem s') dstva src k /\
    (r = 0 /\ k = length src \/
     r = -1 /\ (k < length src)%nat /\ ua U (dstva + Z.of_nat k) = None)) s.
Proof.
  intros Hok Hhigh Hd Hb. unfold copyout.
  eapply (wp_loop (fun '(va, src') s1 => exists k, src' = drop k src /\ (k <= length src)%nat /\
      (src' <> [] -> va = dstva + Z.of_nat k) /\ 0 <= va < 2 ^ 64 /\
      as_ok s1 F pt D U /\ high_ok (k_mem s1) pt /\ rest s1 = rest s /\ sync s1 = sync s /\
      stored U (k_mem s) (k_mem s1) dstva src k)
    (fun '(_, src') => length src')).
  2:{ exists O. rewrite drop_0. split_and!; try done; [lia..|]. split; [lia|by intros]. }
  2:{ lia. }
  intros [va src'] s1 (k & Hsrc & Hk & Hvk & Hvr & Hok1 & Hhi1 & Hr1 & Hs1 & Hst). unfold copyout_body.
  destruct (Z.ltb_spec 0 (Z.of_nat (length src'))) as [Hpos|Hz].
  2:{ wp_steps. exists k. split_and!; try done. left. split; [done|]. subst src'. len. }
  rewrite Hvk in Hvr |- * by (intros ->; cbn in Hpos; lia).
  set (va1 := dstva + Z.of_nat k) in *.
  destruct (PGROUNDDOWN_spec va1) as [Hal Hpg]; [lia|].
  apply wp_bind. eapply wp_ok; [apply walkaddr_pure|].
  rewrite (as_upage s1 F pt D U) by (done || zdm).
  assert (Hfail : ua U va1 = None -> exists k0 : nat,
      as_ok s1 F pt D U /\ high_ok (k_mem s1) pt /\ rest s1 = rest s /\ sync s1 = sync s /\
      stored U (k_mem s) (k_mem s1) dstva src k0 /\
      (-1 = 0 /\ k0 = length src \/
       -1 = -1 /\ (k0 < length src)%nat /\ ua U (dstva + Z.of_nat k0) = None)).
  { intros Hu. exists k. split_and!; try done. right. split_and!; try done. subst src'. len. }
  destruct (U !! PGROUNDDOWN va1) as [[pa perm]|] eqn:EU.
  2:{ wp_steps. apply Hfail. unfold ua. by rewrite EU. }
  destruct (pte_has perm PTE_U) eqn:Eu.
  2:{ wp_steps. apply Hfail. unfold ua. by rewrite EU, Eu. }
  destruct (as_page _ _ _ _ _ _ Hok1 _ _ _ EU) as (Hp & _).
  destruct (as_dom _ _ _ _ _ _ Hok1 _ _ EU) as (_ & Hdom). change TRAPFRAME with 274877898752 in Hdom.
  pose proof (page_ok_range pa (as_layout _ _ _ _ _ _ Hok1) Hp).
  rewrite (proj2 (Z.eqb_neq pa 0)) by lia.
  set (n := PGSIZE - (va1 - PGROUNDDOWN va1)) in *.
  set (l := Z.of_nat (length src')) in *.
  set (n' := if l <? n then l else n).
  assert (Hn : n = PGSIZE - (va1 - PGROUNDDOWN va1)) by done.
  assert (Hlen : l = Z.of_nat (length src')) by done.
  assert (Hn' : 0 < n' <= l /\ n' <= n /\ (n' < l -> n' = n)).
  { unfold n'. destruct (Z.ltb_spec l n); lia. }
  assert (Hls : (k + Z.to_nat n' <= length src)%nat) by (subst src'; len).
  unfold upd_mem. wp_steps. rewrite u64_small by lia. subst src'. rewrite drop_drop. split; [|len].
  destruct (as_write s1 F pt D U (PGROUNDDOWN va1) pa perm
    (fun m => wr_bytes m (pa + (va1 - PGROUNDDOWN va1)) (take (Z.to_nat n') (drop k src))))
    as [Hok2 Hlk2]; [done|done|..].
  { apply mem_ok_wr_bytes. eapply pa_mem, vo_free, as_vm, Hok1. }
  { intros x Hx. rewrite rd_wr_bytes by by apply Forall_take, Forall_drop.
    rewrite decide_False; [done|]. len. }
  exists (k + Z.to_nat n')%nat. split_and!; [done|lia| |lia|lia|done| |done| |].
  - intros Hne. assert (n' < l); [|lia]. destruct (Z.lt_ge_cases n' l); [done|].
    destruct Hne. apply drop_ge. len.
  - intros va' Hva'. unfold upage. ksimpl. rewrite Hlk2. by apply Hhi1.
  - by rewrite <- Hs1.
  - ksimpl. fold va1. eapply stored_page; [done|lia|done|done|fold va1; lia|done|done|done].
Qed.

End copyout.

End vmcopy.
