(* ===== verification/VmFork.v ===== *)
(** * Copying and freeing address spaces (kernel/vm.c): uvmcopy(), freewalk(),
    uvmfree()

    uvmcopy() gives the child its own copy of every page of the parent and
    leaves the parent alone, or undoes what it did; uvmfree() returns every data
    and table page of an address space to the allocator. *)

From Stdlib Require Import ZArith Lia.
From stdpp Require Import base tactics numbers gmap strings option list.
From S2P Require Import Prelude Kernel Spinlock Kstring Riscv Kalloc KallocInit Vm VmUser VmCopy.

Section vmfork.
Context `{Platform} (Avail : kstate -> gset Z -> Prop) `{!PageAllocator Avail}.
Abbreviation as_ok := (as_ok Avail).
Abbreviation as_step := (as_step Avail).

(** ** Specification *)

(** The pages below [n] of the parent [Uo], which had memory [m], and their
    copies in [U'] in memory [m']; the other pages of [U'] are those of [U]. *)
Definition copied (m m' : gmap Z Z) (Uo U U' : gmap Z (Z * Z)) (n : Z) : Prop :=
  forall va, if decide (va mod PGSIZE = 0 /\ 0 <= va < n)
    then exists pa perm pa', Uo !! va = Some (pa, perm) /\
           U' !! va = Some (pa', Z.lor perm PTE_V) /\
           forall j, 0 <= j < PGSIZE -> rd m' (pa' + j) = rd m (pa + j)
    else U' !! va = U !! va.

(** ** uvmcopy() *)

Lemma as_page_ok s F pt D U p : as_ok s F pt D U -> p ∈ as_pages F D U -> page_ok p.
Proof.
  intros Hok Hp. unfold as_pages in Hp. apply elem_of_union in Hp as [Hp|Hp].
  - eapply vm_page; [done|apply Hok|done].
  - apply elem_of_upages in Hp as (va & perm & Hp). by eapply as_page.
Qed.

(** What happens to the child leaves the parent alone. *)
Lemma as_other s F old Do Uo new Dn Un s1 F1 D1 U1 :
  as_ok s F old Do Uo -> as_ok s F new Dn Un -> as_step new s F Dn Un s1 F1 D1 U1 ->
  as_pages F Dn Un ## dir_pages Do ∪ upages Uo ->
  as_ok s1 F1 old Do Uo /\
  forall p x, p ∈ upages Uo -> p <= x < p + PGSIZE -> rd (k_mem s1) x = rd (k_mem s) x.
Proof.
  intros Hold Hnew Hst Hdisj.
  destruct (as_alloc Avail s s1 F F1 (as_pages F Dn Un) old Do Uo) as (Hok & _ & Hdat).
  - done.
  - eapply vo_free, as_vm, Hst.
  - apply Hst.
  - clear -Hdisj. set_solver.
  - clear -Hdisj. set_solver.
  - rewrite <- (st_pages _ _ _ _ _ _ _ _ _ _ Hst). unfold as_pages. clear. set_solver.
  - intros p Hp. by eapply as_page_ok.
  - done.
Qed.

Lemma rd_memmove_page m mem pa x :
  mem_ok m -> ~ (mem <= x < mem + PGSIZE) -> rd (memmove m mem pa PGSIZE) x = rd m x.
Proof. intros. by rewrite rd_memmove, decide_False by (done || lia). Qed.

Lemma perm_flags perm : 2 <= perm < 1024 -> 2 <= Z.lor perm PTE_V < 1024.
Proof.
  intros. pose proof (perm_lor_bound perm ltac:(lia)). pose proof (lor_ge perm PTE_V).
  change PTE_V with 1 in *. lia.
Qed.

(** The fields of an entry of an address space. *)
Lemma as_entry s F pt D U va pa perm :
  as_ok s F pt D U -> U !! va = Some (pa, perm) ->
  va < MAXVA /\ pt_walk (k_mem s) pt va <> 0 /\
  let e := ld64 (k_mem s) (pt_walk (k_mem s) pt va) in
  pte_has e PTE_V = true /\ PTE2PA e = pa /\ PTE_FLAGS e = Z.lor perm PTE_V.
Proof.
  intros Hok HU. pose proof (as_layout _ _ _ _ _ _ Hok) as Hlay.
  destruct (as_dom _ _ _ _ _ _ Hok _ _ HU) as [_ Hva].
  destruct (as_page _ _ _ _ _ _ Hok _ _ _ HU) as (Hp & _ & Hperm).
  destruct (as_pte _ _ _ _ _ _ _ _ _ Hok HU) as (p & _ & _ & Hlk).
  destruct (lookup_walk _ _ _ _ Hlk) as (Hw0 & Hld & Hv).
  pose proof (page_ok_range pa Hlay Hp). split; [apply va_lt_MAXVA; lia|]. split; [done|].
  cbn zeta. rewrite Hld, leaf_pa, leaf_flags by (done || lia). done.
Qed.

Lemma copied_step old s s1 s2 F1 D1 U1 F2 D2 Uo Un Do n mem new pa perm :
  n mod PGSIZE = 0 -> 0 <= n -> copied (k_mem s) (k_mem s1) Uo Un U1 n ->
  as_ok s1 F1 old Do Uo ->
  as_step new s1 F1 D1 U1 s2 F2 D2 (<[n := (mem, Z.lor perm PTE_V)]> U1) ->
  Uo !! n = Some (pa, perm) ->
  (forall j, 0 <= j < PGSIZE -> rd (k_mem s2) (mem + j) = rd (k_mem s) (pa + j)) ->
  copied (k_mem s) (k_mem s2) Uo Un (<[n := (mem, Z.lor perm PTE_V)]> U1) (n + PGSIZE).
Proof.
  intros Hal Hn Hc Hold Hst HU Hcp va. specialize (Hc va).
  destruct (decide (va = n)) as [->|Hne].
  - rewrite decide_True by lia. exists pa, perm, mem. by rewrite lookup_insert_eq.
  - destruct (decide (va mod PGSIZE = 0 /\ 0 <= va < n)) as [[? ?]|Hout].
    + rewrite decide_True by lia. destruct Hc as (p & pm & p' & Hp & Hp' & Hj).
      exists p, pm, p'. rewrite lookup_insert_ne by done. split_and!; try done.
      intros j Hjr. rewrite (st_kept _ _ _ _ _ _ _ _ _ _ Hst va p' (Z.lor pm PTE_V) (Z.lor pm PTE_V));
        [by apply Hj|done|by rewrite lookup_insert_ne|lia].
    + rewrite lookup_insert_ne by done. rewrite decide_False; [done|]. zdm.
Qed.

Lemma copied_kept pt s s1 s2 F1 D1 U1 F2 D2 Uo Un n :
  copied (k_mem s) (k_mem s1) Uo Un U1 n -> as_step pt s1 F1 D1 U1 s2 F2 D2 U1 ->
  copied (k_mem s) (k_mem s2) Uo Un U1 n.
Proof.
  intros Hc Hst va. specialize (Hc va).
  destruct (decide (va mod PGSIZE = 0 /\ 0 <= va < n)) as [_|_]; [|done].
  destruct Hc as (p & pm & p' & Hp & Hp' & Hj). exists p, pm, p'. split_and!; try done.
  intros j Hjr. rewrite (st_kept _ _ _ _ _ _ _ _ _ _ Hst va p' _ _ Hp' Hp') by lia. by apply Hj.
Qed.

Lemma copied_cut m m' Uo U U' n :
  n mod PGSIZE = 0 -> copied m m' Uo U U' n ->
  (forall va, 0 <= va < n -> U !! va = None) ->
  (forall va x, U' !! va = Some x -> va mod PGSIZE = 0) ->
  cut U' 0 (n / PGSIZE) = U.
Proof.
  intros Hal Hc Hnone Hdom. apply map_eq. intros va. rewrite lookup_cut. specialize (Hc va).
  assert (Hiff : in_pages 0 (n / PGSIZE) va <-> 0 <= va < n).
  { unfold in_pages. replace (0 + PGSIZE * (n / PGSIZE)) with n by zdm. done. }
  destruct (decide (in_pages 0 (n / PGSIZE) va)) as [Hin|Hin]; [by rewrite Hnone by tauto|].
  by rewrite decide_False in Hc by tauto.
Qed.

(** One page of uvmcopy(). *)
Lemma uvmcopy_body_spec s F old Do Uo new Dn Un sz s1 F1 D1 U1 n :
  as_ok s F old Do Uo -> as_ok s F new Dn Un ->
  as_pages F Dn Un ## dir_pages Do ∪ upages Uo ->
  (forall va, va mod PGSIZE = 0 -> 0 <= va < sz -> is_Some (Uo !! va) /\ Un !! va = None) ->
  sz <= TRAPFRAME -> n mod PGSIZE = 0 -> 0 <= n ->
  as_step new s F Dn Un s1 F1 D1 U1 -> copied (k_mem s) (k_mem s1) Uo Un U1 n ->
  wp (uvmcopy_body old new sz n) (fun r s2 => exists F2 D2 U2,
    as_step new s F Dn Un s2 F2 D2 U2 /\
    (sz <= n /\ r = inr None /\ copied (k_mem s) (k_mem s2) Uo Un U2 n \/
     n < sz /\ r = inr (Some n) /\ copied (k_mem s) (k_mem s2) Uo Un U2 n \/
     n < sz /\ r = inl (n + PGSIZE) /\ copied (k_mem s) (k_mem s2) Uo Un U2 (n + PGSIZE))) s1.
Proof.
  intros Hold Hnew Hdisj Hall Htop Hal Hn Hst Hc.
  destruct (as_other _ _ _ _ _ _ _ _ _ _ _ _ Hold Hnew Hst Hdisj) as [Hold1 Hdat1].
  assert (Hok1 : as_ok s1 F1 new D1 U1) by apply Hst.
  unfold uvmcopy_body. destruct (Z.ltb_spec n sz) as [Hlt|Hge].
  2:{ wp_steps. exists F1, D1, U1. split; [done|]. left. by split_and!. }
  destruct (Hall n) as [[[pa perm] HU] HUn]; [done|lia|].
  destruct (as_entry _ _ _ _ _ _ _ _ Hold1 HU) as (Hmax & Hw & Hv & Hpa & Hfl).
  destruct (as_page _ _ _ _ _ _ Hold1 _ _ _ HU) as (Hpp & Hpn & Hperm).
  apply wp_bind. eapply wp_ok; [by apply walk_noalloc|]. rewrite (proj2 (Z.eqb_neq _ 0)) by done.
  unfold load. wp_steps. rewrite Hv, Hpa, Hfl. cbn [negb].
  assert (HU1n : U1 !! n = None).
  { specialize (Hc n). rewrite decide_False in Hc by lia. congruence. }
  assert (Hsub : forall va x, Un !! va = Some x -> U1 !! va = Some x).
  { intros va x Hx. specialize (Hc va).
    destruct (decide (va mod PGSIZE = 0 /\ 0 <= va < n)) as [[? ?]|]; [|congruence].
    destruct (Hall va) as [_ ?]; [done|lia|congruence]. }
  apply wp_bind. eapply wp_mono; [apply pa_kalloc, Hok1|].
  cbn beta. intros mem s2 (Hfr & [(-> & Hf2)|(Hm0 & HmF & Hf2)]).
  { cbn [Z.eqb]. wp_steps. exists F1, D1, U1.
    pose proof (as_step_alloc _ new _ _ _ _ _ Hok1 Hf2 Hfr) as Hst2. split.
    - eapply as_step_trans; [done..|]. intros. by apply Hsub.
    - right; left. split; [done|]. split; [done|]. by eapply copied_kept. }
  rewrite (proj2 (Z.eqb_neq mem 0)) by done. unfold upd_mem. wp_steps.
  assert (Hmok2 : mem_ok (k_mem s2)) by by eapply pa_mem.
  eapply wp_mono.
  { eapply (as_grow Avail s1 s2 F1 new D1 U1 n mem (Z.lor perm PTE_V)); [done..| | |done|lia|done|].
    - apply mem_ok_memmove; [done|lia].
    - intros x Hx. by apply rd_memmove_page.
    - by apply perm_flags. }
  cbn beta. intros r s3 (F3 & D3 & [(-> & Hst3 & Hz)|(-> & Hkf)]); cbn [Z.eqb negb].
  - wp_steps. exists F3, D3, (<[n := (mem, Z.lor perm PTE_V)]> U1). split.
    + eapply as_step_trans; [done..|]. intros. by apply Hsub.
    + right; right. split; [done|]. split.
      { do 2 f_equal. apply u64_small. change TRAPFRAME with 274877898752 in *. lia. }
      eapply copied_step; [done..|]. intros j Hj. rewrite Hz by lia.
      rewrite rd_memmove, decide_True by (done || lia). replace (mem + j - mem) with j by lia.
      rewrite <- (Hdat1 pa) by (lia || apply elem_of_upages; by eexists _, _).
      apply Hfr. eapply not_alloc_owned; [by eapply as_layout|
        exact (fun p => pa_page s1 F1 p (vo_free _ _ _ _ _ (as_vm _ _ _ _ _ _ Hok1)))|done| |lia].
      clear -Hpn. set_solver.
  - apply wp_bind. eapply wp_mono; [exact Hkf|]. cbn beta. intros _ s4 Hst4.
    wp_steps. exists (F3 ∪ {[mem]}), D3, U1. split.
    + eapply as_step_trans; [done..|]. intros. by apply Hsub.
    + right; left. split; [done|]. split; [done|]. by eapply copied_kept.
Qed.

Lemma uvmcopy_spec s F old Do Uo new Dn Un sz :
  as_ok s F old Do Uo -> as_ok s F new Dn Un ->
  as_pages F Dn Un ## dir_pages Do ∪ upages Uo ->
  (forall va, va mod PGSIZE = 0 -> 0 <= va < sz -> is_Some (Uo !! va) /\ Un !! va = None) ->
  0 <= sz <= TRAPFRAME ->
  wp (uvmcopy old new sz) (fun r s' => exists F' D' U',
    as_step new s F Dn Un s' F' D' U' /\ as_ok s' F' old Do Uo /\
    (r = 0 /\ copied (k_mem s) (k_mem s') Uo Un U' (PGROUNDUP sz) \/ r = -1 /\ U' = Un)) s.
Proof.
  intros Hold Hnew Hdisj Hall Hsz. unfold uvmcopy.
  assert (Hother : forall s' F' D' U', as_step new s F Dn Un s' F' D' U' -> as_ok s' F' old Do Uo).
  { intros s' F' D' U' Hst.
    by destruct (as_other _ _ _ _ _ _ _ _ _ _ _ _ Hold Hnew Hst Hdisj) as [? _]. }
  change TRAPFRAME with 274877898752 in *. apply wp_bind.
  eapply (wp_loop (fun n s1 => exists F1 D1 U1, n mod PGSIZE = 0 /\ 0 <= n <= PGROUNDUP sz /\
    as_step new s F Dn Un s1 F1 D1 U1 /\ copied (k_mem s) (k_mem s1) Uo Un U1 n)
    (fun n => Z.to_nat ((sz - n) / PGSIZE + 1))).
  2:{ exists F, Dn, Un. split; [done|]. rewrite PGROUNDUP_eq by lia. split; [zdm|].
      split; [by apply as_step_refl|]. intros va. by rewrite decide_False by lia. }
  2:{ rewrite Z.sub_0_r. zdm. }
  intros n s1 (F1 & D1 & U1 & Hal & Hn & Hst & Hc). eapply wp_mono.
  { eapply (uvmcopy_body_spec s F old Do Uo new Dn Un sz s1 F1 D1 U1 n); try done; [|lia].
    change TRAPFRAME with 274877898752. lia. }
  cbn beta. rewrite PGROUNDUP_eq in * by lia.
  intros r s2 (F2 & D2 & U2 & Hst2 & [(Hge & -> & Hc2)|[(Hlt & -> & Hc2)|(Hlt & -> & Hc2)]]).
  - wp_steps. exists F2, D2, U2. split; [done|]. split; [by eapply Hother|]. left. split; [done|].
    by replace (4096 * ((sz + 4095) / 4096)) with n by zdm.
  - assert (Hcut : cut U2 0 (n / PGSIZE) = Un).
    { eapply copied_cut; [done..| |].
      - intros va Hva. destruct (Un !! va) as [x|] eqn:Ex; [|done].
        destruct (as_dom _ _ _ _ _ _ Hnew _ _ Ex) as [Hval _].
        destruct (Hall va) as [_ ?]; [done|lia|congruence].
      - intros va x Hx. eapply as_dom; [apply Hst2|done]. }
    apply wp_bind. eapply wp_mono.
    + eapply (uvmunmap_spec Avail s2 F2 new D2 U2); [apply Hst2|done|done|zdm| |].
      * change TRAPFRAME with 274877898752. zdm.
      * intros a Ha Hin. specialize (Hc2 a). unfold in_pages in Hin.
        rewrite decide_True in Hc2 by (split; [done|zdm]). destruct Hc2 as (? & ? & ? & _ & ? & _).
        by eexists.
    + cbn beta. intros _ s3 [F3 Hst3]. wp_steps. rewrite Hcut in Hst3.
      assert (Hst' : as_step new s F Dn Un s3 F3 D2 Un).
      { eapply as_step_trans; [done..|]. intros va x Hx _.
        rewrite <- Hcut, lookup_cut in Hx. by case_decide. }
      exists F3, D2, Un. split; [done|]. split; [by eapply Hother|]. by right.
  - split; [|zdm]. exists F2, D2, U2. split_and!; try done; zdm.
Qed.

(** ** freewalk() *)

(** The table pages at or below path [q]. *)
Definition below (D : gmap (list Z) Z) (q : list Z) : gset Z :=
  dir_pages (filter (fun x => q `prefix_of` x.1) D).

(** Those below the entries [d] of the page at [q]. *)
Definition below_list (D : gmap (list Z) Z) (q : list Z) (d : list Z) : gset Z :=
  ⋃ ((fun j => below D (q ++ [j])) <$> d).

Lemma elem_of_below D q p :
  p ∈ below D q <-> exists q', D !! q' = Some p /\ q `prefix_of` q'.
Proof.
  unfold below. rewrite elem_of_dir_pages. split.
  - intros (q' & Hq'). apply map_lookup_filter_Some in Hq' as [? ?]. by exists q'.
  - intros (q' & ? & ?). exists q'. by apply map_lookup_filter_Some.
Qed.

Lemma elem_of_below_list D q d p :
  p ∈ below_list D q d <-> exists j, j ∈ d /\ p ∈ below D (q ++ [j]).
Proof.
  unfold below_list. rewrite elem_of_union_list. split.
  - intros (X & HX & Hp). apply list_elem_of_fmap in HX as (j & -> & Hj). by exists j.
  - intros (j & Hj & Hp). exists (below D (q ++ [j])). split; [|done].
    apply list_elem_of_fmap. by exists j.
Qed.

Lemma below_list_snoc D q d i : below_list D q (d ++ [i]) = below_list D q d ∪ below D (q ++ [i]).
Proof.
  apply set_eq. intros p. rewrite elem_of_union, !elem_of_below_list. split.
  - intros (j & [Hj|Hj]%elem_of_app & Hp); [left; by exists j|].
    apply list_elem_of_singleton in Hj as ->. by right.
  - intros [(j & Hj & Hp)|Hp]; [exists j|exists i]; (split; [|done]); set_solver.
Qed.

Section freewalk.
Context (m0 : gmap Z Z) (pt : Z) (D : gmap (list Z) Z).
Hypothesis Hlay : layout_ok.
Hypothesis Hdir : dir_ok m0 pt D.
(** No leaf mapping is left. *)
Hypothesis Hleaf : forall q p i, D !! q = Some p -> length q = 2%nat -> 0 <= i < 512 ->
  pte_has (ld64 m0 (p + 8 * i)) PTE_V = false.

Lemma dir_prefix q r p : D !! (q ++ r) = Some p -> is_Some (D !! q).
Proof.
  revert p. induction r as [|i r IH] using rev_ind; intros p Hp.
  - rewrite app_nil_r in Hp. by eexists.
  - rewrite app_assoc in Hp. destruct (do_path _ _ _ Hdir _ _ _ Hp) as ([p' Hp'] & _). by eapply IH.
Qed.

(** The pages below [q]: its own, and those below its entries. *)
Lemma below_split q p :
  D !! q = Some p -> below D q = {[p]} ∪ below_list D q (seqZ 0 512).
Proof.
  intros Hq. apply set_eq. intros x.
  rewrite elem_of_union, elem_of_singleton, elem_of_below, elem_of_below_list. split.
  - intros (q' & Hq' & [r ->]). destruct r as [|j r].
    + rewrite app_nil_r in Hq'. left. congruence.
    + right. exists j. replace (q ++ j :: r) with ((q ++ [j]) ++ r) in Hq' by by rewrite <- app_assoc.
      destruct (dir_prefix _ _ _ Hq') as [p' Hp'].
      destruct (do_path _ _ _ Hdir _ _ _ Hp') as (_ & Hj & _).
      split; [apply elem_of_seqZ; lia|]. apply elem_of_below. eexists. split; [done|]. by exists r.
  - intros [->|(j & _ & (q' & Hq' & Hpre)%elem_of_below)].
    + by exists q.
    + exists q'. split; [done|]. etrans; [|done]. by exists [j].
Qed.

Lemma below_list_root q d p : D !! q = Some p -> p ∉ below_list D q d.
Proof.
  intros Hq (j & _ & (q' & Hq' & [r ->])%elem_of_below)%elem_of_below_list.
  pose proof (do_inj _ _ _ Hdir _ _ _ Hq Hq') as E%(f_equal length).
  rewrite !length_app in E. cbn in E. lia.
Qed.

Lemma below_disj q i j p : p ∈ below D (q ++ [i]) -> p ∈ below D (q ++ [j]) -> i = j.
Proof.
  intros (q1 & H1 & [r1 ->])%elem_of_below (q2 & H2 & [r2 ->])%elem_of_below.
  pose proof (do_inj _ _ _ Hdir _ _ _ H1 H2) as E. rewrite <- !app_assoc in E.
  apply app_inv_head in E. by injection E.
Qed.

Lemma below_sub q j p : p ∈ below D (q ++ [j]) -> p ∈ below D q.
Proof.
  intros (q' & Hq' & [r ->])%elem_of_below. apply elem_of_below. eexists. split; [done|].
  exists ([j] ++ r). by rewrite app_assoc.
Qed.

Lemma below_page q p : p ∈ below D q -> page_ok p.
Proof. intros (q' & Hq' & _)%elem_of_below. by eapply do_page. Qed.

(** The state after freewalk() dealt with the entries [d] of the page [p] at
    path [q], having started in [s] with the free pages [F]. *)
Record fw_inv (q : list Z) (p : Z) (F : gset Z) (s : kstate) (d : list Z) (s1 : kstate) : Prop := {
  fw_avail : Avail s1 (F ∪ below_list D q d);
  fw_frame : alloc_frame (F ∪ below D q) s s1;
  fw_entries j x : 0 <= j < 512 -> j ∉ d -> p + 8 * j <= x < p + 8 * j + 8 ->
    rd (k_mem s1) x = rd m0 x;
  fw_rest j p' x : j ∉ d -> p' ∈ below D (q ++ [j]) -> p' <= x < p' + PGSIZE ->
    rd (k_mem s1) x = rd m0 x;
}.

(** An entry that points to no table page. *)
Lemma fw_skip q p F s d s1 i :
  D !! (q ++ [i]) = None -> fw_inv q p F s d s1 -> fw_inv q p F s (d ++ [i]) s1.
Proof.
  intros Hnone [Ha Hf He Hr].
  assert (Hemp : below D (q ++ [i]) = ∅).
  { apply set_eq. intros x. split; [|set_solver].
    intros (q' & Hq' & [r ->])%elem_of_below. destruct (dir_prefix _ _ _ Hq') as [? ?]. congruence. }
  split; [|done|..].
  - by rewrite below_list_snoc, Hemp, (right_id_L ∅ (∪)).
  - intros j x Hj Hnin. apply He; [done|]. set_solver.
  - intros j p' x Hnin. apply Hr. set_solver.
Qed.

(** An entry whose table was freed and which was then cleared. *)
Lemma fw_child q p F s d s1 i s2 :
  D !! q = Some p -> 0 <= i < 512 -> i ∉ d -> F ## below D q ->
  (forall j, j ∈ d -> 0 <= j < 512) ->
  fw_inv q p F s d s1 ->
  Avail s2 (F ∪ below_list D q (d ++ [i])) -> alloc_frame (F ∪ below_list D q (d ++ [i])) s1 s2 ->
  fw_inv q p F s (d ++ [i]) (upd_k_mem (fun m => st64 m (p + 8 * i) 0) s2).
Proof.
  intros Hq Hi Hid HFq Hd [Ha Hf He Hr] Ha2 Hf2.
  assert (Hpp : page_ok p) by by eapply do_page.
  assert (Hsub : forall e, (forall j, j ∈ e -> 0 <= j < 512) -> below_list D q e ⊆ below D q).
  { intros e Hr' x Hx. rewrite (below_split q p Hq). apply elem_of_union_r.
    apply elem_of_below_list in Hx as (j & Hj & Hx). apply elem_of_below_list. exists j.
    split; [|done]. apply elem_of_seqZ. specialize (Hr' j Hj). lia. }
  assert (Hd' : forall j, j ∈ d ++ [i] -> 0 <= j < 512) by (intros j; set_solver).
  assert (Hpq : p ∈ below D q) by (apply elem_of_below; by exists q).
  assert (Hpn : p ∉ F ∪ below_list D q (d ++ [i])).
  { pose proof (below_list_root q (d ++ [i]) p Hq). clear -HFq Hpq H0. set_solver. }
  assert (Hok2 : forall r, r ∈ F ∪ below_list D q (d ++ [i]) -> page_ok r)
    by (intros; by eapply pa_page).
  (* pages outside the freed ones keep their content up to the store *)
  assert (Hout : forall r x, page_ok r -> r ∉ F ∪ below_list D q (d ++ [i]) ->
            r <= x < r + PGSIZE -> rd (k_mem s2) x = rd (k_mem s1) x).
  { intros r x Hr0 Hn Hx. apply Hf2. by eapply not_alloc_owned. }
  split.
  - apply (avail_write _ _ _ p); [done..|apply mem_ok_st64; by eapply pa_mem|].
    intros x Hx. apply rd_st64_out. lia.
  - eapply alloc_frame_trans; [done|]. eapply alloc_frame_trans.
    + eapply alloc_frame_mono; [|done]. specialize (Hsub _ Hd'). clear -Hsub. set_solver.
    + apply frame_store; [by apply elem_of_union_r|done].
  - intros j x Hj Hnin Hx. ksimpl. rewrite rd_st64_out.
    + rewrite (Hout p) by (done || lia). eapply He; [done| |done]. set_solver.
    + intros Hx'. assert (j = i) by lia. set_solver.
  - intros j p' x Hnin Hp' Hx. ksimpl.
    assert (Hp'n : p' ∉ F ∪ below_list D q (d ++ [i])).
    { assert (p' ∈ below D q) by by eapply below_sub.
      intros [Hx'|(j' & Hj' & Hx')%elem_of_below_list]%elem_of_union; [clear -HFq H0 Hx'; set_solver|].
      by rewrite (below_disj _ _ _ _ Hp' Hx') in Hnin. }
    assert (Hp'ok : page_ok p') by by eapply below_page.
    rewrite rd_st64_out.
    + rewrite (Hout p') by done. eapply Hr; [|done..]. set_solver.
    + intros Hx'. assert (p <> p') as Hne.
      { intros ->. eapply (below_list_root q [j]); [done|]. apply elem_of_below_list.
        exists j. split; [by apply list_elem_of_singleton|done]. }
      destruct (pages_apart p p') as [?|?]; [apply Hpp|apply Hp'ok|done|lia|lia].
Qed.

Lemma freewalk_levels_spec k : forall q p s F,
  (k = 3 - length q)%nat -> D !! q = Some p -> (length q <= 2)%nat ->
  Avail s F -> F ## below D q ->
  (forall p' x, p' ∈ below D q -> p' <= x < p' + PGSIZE -> rd (k_mem s) x = rd m0 x) ->
  wp (freewalk_levels k p) (fun _ s' =>
    Avail s' (F ∪ below D q) /\ alloc_frame (F ∪ below D q) s s') s.
Proof.
  induction k as [|k IH]; intros q p s F Hk Hq Hlen Ha Hdisj Hsame; [lia|].
  cbn [freewalk_levels]. unfold freewalk_body. apply wp_bind.
  assert (Hpq : p ∈ below D q) by (apply elem_of_below; by exists q).
  apply (wp_for_each (fw_inv q p F s)).
  - split.
    + unfold below_list. cbn. by rewrite (right_id_L ∅ (∪)).
    + done.
    + intros j x Hj _ Hx. apply (Hsame p); [done|lia].
    + intros j p' x _ Hp'. apply (Hsame p'). by eapply below_sub.
  - intros d i r s1 Hl Hinv.
    assert (Hi : 0 <= i < 512).
    { assert (i ∈ seqZ 0 512) as Hin by (rewrite Hl; set_solver). apply elem_of_seqZ in Hin. lia. }
    assert (Hid : i ∉ d).
    { pose proof (NoDup_seqZ 0 512) as Hnd. rewrite Hl in Hnd.
      apply NoDup_app in Hnd as (_ & Hnd & _). intros Hin. apply (Hnd i Hin). set_solver. }
    unfold load. wp_steps.
    assert (ld64 (k_mem s1) (p + 8 * i) = ld64 m0 (p + 8 * i)) as ->.
    { apply ld64_ext. intros x Hx. by eapply fw_entries. }
    destruct (decide (length q = 2%nat)) as [H2|H2].
    { rewrite (Hleaf q p i) by done. cbn [andb]. wp_steps. apply fw_skip; [|done].
      destruct (D !! (q ++ [i])) eqn:E; [|done].
      destruct (do_path _ _ _ Hdir _ _ _ E) as (_ & _ & ?). lia. }
    pose proof (do_entry _ _ _ Hdir q p i Hq ltac:(lia) Hi) as He.
    destruct (D !! (q ++ [i])) as [p'|] eqn:E.
    2:{ rewrite He. cbn [andb]. wp_steps. by apply fw_skip. }
    assert (Hp' : page_ok p') by by eapply do_page.
    pose proof (page_ok_range p' Hlay Hp') as Hpr.
    destruct (page_pte p' Hlay Hp') as (Hpa & Hv & _). rewrite He, Hv, Hpa.
    rewrite pte_has_PA2PTE by (done || lia). cbn [andb negb]. change (pte_has PTE_V _) with false.
    cbn [negb]. apply wp_bind. eapply wp_mono.
    + eapply (IH (q ++ [i]) p' s1 (F ∪ below_list D q d)); 
        [rewrite length_app; cbn; lia|done|rewrite length_app; cbn; lia|apply Hinv| |].
      * intros x Hx Hxi. pose proof (below_sub _ _ _ Hxi).
        apply elem_of_union in Hx as [Hx|(j & Hj & Hx)%elem_of_below_list]; [by eapply Hdisj|].
        by rewrite (below_disj _ _ _ _ Hx Hxi) in Hj.
      * intros p1 x Hp1 Hx. eapply fw_rest; [done| |done|done]. done.
    + cbn beta. intros _ s2 [Ha2 Hf2]. unfold store, upd_mem. wp_steps.
      rewrite <- (assoc_L (∪)), <- below_list_snoc in Ha2, Hf2. eapply fw_child; try done.
      intros j Hj. assert (j ∈ seqZ 0 512) as Hin by (rewrite Hl; set_solver).
      apply elem_of_seqZ in Hin. lia.
  - intros s1 [Ha1 Hf1 _ _]. pose proof (below_list_root q (seqZ 0 512) p Hq) as Hn.
    rewrite (below_split q p Hq). rewrite (below_split q p Hq) in Hf1, Hdisj.
    eapply wp_mono.
    + eapply pa_kfree; [exact Ha1|by eapply do_page|clear -Hn Hdisj; set_solver].
    + cbn beta. intros _ s2 [Hf2 Ha2].
      assert (E : F ∪ below_list D q (seqZ 0 512) ∪ {[p]} = F ∪ ({[p]} ∪ below_list D q (seqZ 0 512))).
      { clear. set_solver. }
      rewrite E in Hf2, Ha2. split; [done|]. by eapply alloc_frame_trans.
Qed.

End freewalk.

(** ** uvmfree() *)

Lemma below_nil D : below D [] = dir_pages D.
Proof.
  apply set_eq. intros p. rewrite elem_of_below, elem_of_dir_pages. split.
  - intros (q & Hq & _). by exists q.
  - intros (q & Hq). exists q. split; [done|]. apply prefix_nil.
Qed.

Lemma PX_join i2 i1 i0 :
  0 <= i2 < 512 -> 0 <= i1 < 512 -> 0 <= i0 < 512 ->
  let va := i2 * 2 ^ 30 + i1 * 2 ^ 21 + i0 * 2 ^ 12 in
  0 <= va < 2 ^ 39 /\ va_path va = [i2; i1] /\ PX 0 va = i0.
Proof.
  intros H2 H1 H0 va. unfold va_path. rewrite !PX_eq by lia.
  change (2 ^ (12 + 9 * 2)) with (2 ^ 30). change (2 ^ (12 + 9 * 1)) with (2 ^ 21).
  change (2 ^ (12 + 9 * 0)) with (2 ^ 12). unfold va. split; [lia|].
  split; [f_equal; [|f_equal]|]; zdm.
Qed.

(** When no address is mapped, freewalk() returns all table pages. *)
Lemma freewalk_spec s F pt D :
  vm_ok Avail s F pt D ->
  (forall va, 0 <= va < 2 ^ 39 -> pt_lookup (k_mem s) pt va = None) ->
  wp (freewalk pt) (fun _ s' =>
    Avail s' (F ∪ dir_pages D) /\ alloc_frame (F ∪ dir_pages D) s s') s.
Proof.
  intros [Hf Hdir Hdisj] Hnone. pose proof (pa_layout _ _ Hf) as Hlay. rewrite <- below_nil.
  eapply (freewalk_levels_spec (k_mem s) pt D Hlay Hdir); [|done|apply Hdir|cbn; lia|done| |done].
  - intros q p i Hq Hlen Hi. destruct q as [|i2 [|i1 [|]]]; try done.
    destruct (do_path _ _ _ Hdir [i2] i1 p Hq) as ([p1 Hp1] & Hi1 & _).
    destruct (do_path _ _ _ Hdir [] i2 p1 Hp1) as (_ & Hi2 & _).
    destruct (PX_join i2 i1 i) as (Hva & Hpath & H0); [done..|].
    specialize (Hnone _ Hva). rewrite (dir_lookup _ _ _ _ Hlay Hdir), Hpath, Hq, H0 in Hnone.
    cbn in Hnone. by destruct (pte_has _ _).
  - by rewrite below_nil.
Qed.

Lemma uvmfree_spec s F pt D U sz :
  as_ok s F pt D U -> 0 <= sz <= TRAPFRAME ->
  (forall va, va mod PGSIZE = 0 -> is_Some (U !! va) <-> 0 <= va < PGROUNDUP sz) ->
  (forall va, TRAPFRAME <= va < 2 ^ 39 -> pt_lookup (k_mem s) pt va = None) ->
  wp (uvmfree pt sz) (fun _ s' => Avail s' (as_pages F D U) /\
    alloc_frame (as_pages F D U) s s') s.
Proof.
  intros Hok Hsz Hdom Hhigh. unfold uvmfree. apply wp_bind.
  assert (Hfree : forall s1 F1, as_step pt s F D U s1 F1 D ∅ ->
    wp (freewalk pt) (fun _ s' => Avail s' (as_pages F D U) /\
      alloc_frame (as_pages F D U) s s') s1).
  { intros s1 F1 Hst. pose proof (st_pages _ _ _ _ _ _ _ _ _ _ Hst) as Hpg.
    assert (E : F1 ∪ dir_pages D = as_pages F D U).
    { rewrite <- Hpg. unfold as_pages. assert (upages ∅ = ∅) as ->; [|clear; set_solver].
      apply set_eq. intros x. rewrite elem_of_upages. split; [|set_solver].
      intros (? & ? & ?). by rewrite lookup_empty in *. }
    eapply wp_mono.
    - apply (freewalk_spec s1 F1 pt D); [apply Hst|]. intros va Hva.
      destruct (Z.lt_ge_cases va TRAPFRAME) as [Hlo|Hhi].
      + destruct (PGROUNDDOWN_spec va) as [Hal Hr]; [lia|].
        rewrite (pt_lookup_page _ _ va (PGROUNDDOWN va)) by by rewrite (PGROUNDDOWN_aligned (PGROUNDDOWN va)).
        assert (0 <= PGROUNDDOWN va) by zdm.
        rewrite (as_map _ _ _ _ _ _ (st_ok _ _ _ _ _ _ _ _ _ _ Hst)) by (done || lia). done.
      + rewrite (st_high _ _ _ _ _ _ _ _ _ _ Hst) by lia. apply Hhigh. lia.
    - cbn beta. intros _ s2 [Ha Hf]. rewrite E in Ha, Hf. split; [done|].
      eapply alloc_frame_trans; [apply Hst|done]. }
  change TRAPFRAME with 274877898752 in Hsz. rewrite PGROUNDUP_eq in * by lia.
  unfold when. destruct (Z.ltb_spec 0 sz) as [Hpos|Hz].
  - eapply wp_mono.
    + eapply (uvmunmap_spec Avail s F pt D U); [done..|zdm| |].
      * change TRAPFRAME with 274877898752. zdm.
      * intros a Ha Hin. apply Hdom; [done|]. unfold in_pages in Hin. zdm.
    + cbn beta. intros _ s1 [F1 Hst]. apply (Hfree s1 F1).
      replace ∅ with (cut U 0 (4096 * ((sz + 4095) / 4096) / PGSIZE)); [done|].
      apply map_eq. intros va. rewrite lookup_cut, lookup_empty. case_decide as Hin; [done|].
      destruct (U !! va) as [x|] eqn:Ex; [|done]. exfalso. apply Hin. unfold in_pages.
      destruct (as_dom _ _ _ _ _ _ Hok _ _ Ex) as [Hal _]. apply mk_is_Some, Hdom in Ex; [|done]. zdm.
  - apply wp_ret. apply (Hfree s F).
    replace ∅ with U; [by apply as_step_refl|]. apply map_eq. intros va. rewrite lookup_empty.
    destruct (U !! va) as [x|] eqn:Ex; [|done]. exfalso.
    destruct (as_dom _ _ _ _ _ _ Hok _ _ Ex) as [Hal _]. apply mk_is_Some, Hdom in Ex; [|done]. zdm.
Qed.

End vmfork.
