(* ===== verification/VmProps.v ===== *)
(** * Properties of the virtual memory code (kernel/vm.c)

    The statements about page tables and address spaces, for any page allocator
    that meets the interface, with their instances for the allocator of kalloc.c
    on a concrete memory. *)

From Stdlib Require Import ZArith Lia.
From stdpp Require Import base tactics numbers gmap strings option list.
From S2P Require Import Prelude Kernel Spinlock Kstring Riscv Kalloc KallocInit.
From S2P Require Import Vm VmUser VmCopy VmFork.

Section vmprops.
Context `{Platform} (Avail : kstate -> gset Z -> Prop) `{!PageAllocator Avail}.

(** Bytes stored by copyout() are what the user sees. *)
Lemma stored_ubytes s F pt D U m va src :
  as_ok Avail s F pt D U -> high_ok (k_mem s) pt -> 0 <= va ->
  stored U m (k_mem s) va src (length src) ->
  ubytes (k_mem s) pt va (length src) = Some src.
Proof.
  intros Hok Hhigh Hva [Hin _].
  assert (Hgen : forall l k, drop k src = l -> (k + length l = length src)%nat ->
    ubytes (k_mem s) pt (va + Z.of_nat k) (length l) = Some l).
  { induction l as [|b l IH]; intros k Hl Hlen; [done|]. cbn [ubytes length].
    assert (Hb : src !! k = Some b).
    { rewrite <- (Nat.add_0_r k), <- lookup_drop, Hl. done. }
    destruct (Hin k b) as (x & Hx & Hrd); [cbn in Hlen; lia|done|].
    rewrite (as_uaddr Avail s F pt D U) by (done || lia). rewrite Hx. cbn.
    replace (va + Z.of_nat k + 1) with (va + Z.of_nat (S k)) by lia.
    rewrite IH; [cbn; by rewrite Hrd| |cbn in Hlen; lia].
    rewrite <- Nat.add_1_r, <- drop_drop, Hl. done. }
  specialize (Hgen src O). rewrite Z.add_0_r in Hgen. by apply Hgen.
Qed.

(** ** Properties *)

(** mappages() maps every page of the range to the consecutive physical pages
    with the given permissions, changes no other translation, and takes table
    pages only from the free pages; when it returns -1 it has mapped a proper
    prefix of the range. *)
Theorem mappages_correct s F pt D va size pa perm :
  vm_ok Avail s F pt D -> 0 <= va -> 0 < size -> va + size <= MAXVA ->
  0 <= pa -> pa + size + PGSIZE <= 2 ^ 64 -> 0 <= perm < 1024 ->
  (forall x, PGROUNDDOWN va <= x < va + size -> pt_lookup (k_mem s) pt x = None) ->
  let a0 := PGROUNDDOWN va in
  wp (mappages pt va size pa perm) (fun r s' => exists F' D' n,
    vm_step Avail pt s F D s' F' D' /\ mapped (k_mem s) (k_mem s') pt a0 pa perm n /\
    (r = 0 /\ a0 + PGSIZE * (n - 1) = PGROUNDDOWN (va + size - 1) \/
     r = -1 /\ 0 <= n /\ a0 + PGSIZE * n <= PGROUNDDOWN (va + size - 1))) s.
Proof. apply mappages_spec. done. Qed.

(** uvmalloc() either grows the address space by zeroed pages with the
    requested permissions, or returns 0 and leaves it as it was; in both cases no
    page is lost and the contents of the existing pages stay. *)
Theorem uvmalloc_correct s F pt D U oldsz newsz xperm :
  as_ok Avail s F pt D U -> 0 <= oldsz <= newsz -> newsz <= TRAPFRAME -> 0 <= xperm < 1024 ->
  (forall va, PGROUNDUP oldsz <= va < newsz -> U !! va = None) ->
  let perm := Z.lor (Z.lor PTE_R PTE_U) xperm in
  wp (uvmalloc pt oldsz newsz xperm) (fun r s' => exists F' D' U' n,
    as_step Avail pt s F D U s' F' D' U' /\
    (r = newsz /\ grown (k_mem s') U U' (PGROUNDUP oldsz) n perm /\
       n = Z.max 0 ((PGROUNDUP newsz - PGROUNDUP oldsz) / PGSIZE) \/
     r = 0 /\ U' = U)) s.
Proof. by apply uvmalloc_spec. Qed.

(** uvmdealloc() removes exactly the pages between the two sizes, gives them
    back to the allocator and returns the new size; when the new size is not
    smaller it changes nothing and returns the old one. *)
Theorem uvmdealloc_correct s F pt D U oldsz newsz :
  as_ok Avail s F pt D U -> 0 <= newsz -> 0 <= oldsz <= TRAPFRAME ->
  (forall a, a mod PGSIZE = 0 -> PGROUNDUP newsz <= a < PGROUNDUP oldsz -> is_Some (U !! a)) ->
  wp (uvmdealloc pt oldsz newsz) (fun r s' => exists F',
    if oldsz <=? newsz then r = oldsz /\ as_step Avail pt s F D U s' F' D U
    else r = newsz /\ as_step Avail pt s F D U s' F' D
      (cut U (PGROUNDUP newsz) ((PGROUNDUP oldsz - PGROUNDUP newsz) / PGSIZE))) s.
Proof. by apply uvmdealloc_spec. Qed.

(** C19: uvmcopy() gives the child a copy of every page of the parent below sz,
    byte for byte and with the same permissions, and leaves the parent's address
    space as it was; when memory runs out it returns -1 and the child has the
    address space it had. *)
Theorem uvmcopy_correct s F old Do Uo new Dn Un sz :
  as_ok Avail s F old Do Uo -> as_ok Avail s F new Dn Un ->
  as_pages F Dn Un ## dir_pages Do ∪ upages Uo ->
  (forall va, va mod PGSIZE = 0 -> 0 <= va < sz -> is_Some (Uo !! va) /\ Un !! va = None) ->
  0 <= sz <= TRAPFRAME ->
  wp (uvmcopy old new sz) (fun r s' => exists F' D' U',
    as_step Avail new s F Dn Un s' F' D' U' /\ as_ok Avail s' F' old Do Uo /\
    (r = 0 /\ copied (k_mem s) (k_mem s') Uo Un U' (PGROUNDUP sz) \/ r = -1 /\ U' = Un)) s.
Proof. by apply uvmcopy_spec. Qed.

(** C20: uvmfree() returns every data page and every table page of an address
    space to the allocator, and nothing else. *)
Theorem uvmfree_correct s F pt D U sz :
  as_ok Avail s F pt D U -> 0 <= sz <= TRAPFRAME ->
  (forall va, va mod PGSIZE = 0 -> is_Some (U !! va) <-> 0 <= va < PGROUNDUP sz) ->
  (forall va, TRAPFRAME <= va < 2 ^ 39 -> pt_lookup (k_mem s) pt va = None) ->
  wp (uvmfree pt sz) (fun _ s' => Avail s' (as_pages F D U) /\
    alloc_frame (as_pages F D U) s s') s.
Proof. by apply uvmfree_spec. Qed.

(** What copyout() stores in user memory, copyin() reads back; copyout()
    changes no byte of memory but those of the range, and fails exactly at the
    first address of the range that user code cannot access. *)
Theorem copyout_copyin s F pt D U va src :
  as_ok Avail s F pt D U -> high_ok (k_mem s) pt -> 0 <= va < 2 ^ 64 -> Forall byte_ok src ->
  wp (copyout pt va src) (fun r s' => exists k,
    stored U (k_mem s) (k_mem s') va src k /\
    (r = 0 /\ wp (copyin pt va (Z.of_nat (length src))) (fun r' s'' => s'' = s' /\ r' = (0, src)) s' \/
     r = -1 /\ (k < length src)%nat /\ ua U (va + Z.of_nat k) = None)) s.
Proof.
  intros Hok Hhigh Hva Hb. eapply wp_mono; [by apply (copyout_spec Avail s F pt D U)|].
  cbn beta. intros r s' (k & Hok' & Hhigh' & _ & _ & Hst & [[-> ->]|Hr]).
  - exists (length src). split; [done|]. left. split; [done|]. eapply wp_mono.
    + apply (copyin_spec pt va (Z.of_nat (length src)) s'); lia.
    + cbn beta. intros r' s'' [-> Hr]. split; [done|].
      rewrite Nat2Z.id in Hr. by erewrite stored_ubytes in Hr by (done || lia).
  - exists k. split; [done|]. by right.
Qed.

End vmprops.

(** Copyinstr() returns the user string with its NUL when one lies within the
    first max accessible bytes, and -1 when the accessible bytes end before a
    NUL or hold none within max; user and kernel memory are unchanged. *)
Theorem copyinstr_correct `{Platform} pt srcva max s :
  0 <= srcva < 2 ^ 64 -> 0 <= max ->
  wp (copyinstr pt srcva max) (fun r s' => s' = s /\
    ((exists k bs, (k <= Z.to_nat max)%nat /\ ubytes (k_mem s) pt srcva k = Some bs /\
       (length (upto_nul bs) < k)%nat /\ r = (0, upto_nul bs ++ [0])) \/
     (exists k bs, (k <= Z.to_nat max)%nat /\ ubytes (k_mem s) pt srcva k = Some bs /\
       upto_nul bs = bs /\ r = (-1, bs) /\
       (k = Z.to_nat max \/ uaddr (k_mem s) pt (srcva + Z.of_nat k) = None)))) s.
Proof. apply copyinstr_spec. Qed.

(** ** Witnesses *)

(** A process with one page of memory: table pages at 0x80a00000, 0x80a01000 and
    0x80a02000, the data page at 0x80a03000, read-only for user code. *)
Definition example_perm : Z := Z.lor PTE_R PTE_U.

Definition example_mem : gmap Z Z :=
  st64 (st64 (st64 ∅ 0x80a00000 (Z.lor (PA2PTE 0x80a01000) PTE_V))
    0x80a01000 (Z.lor (PA2PTE 0x80a02000) PTE_V))
    0x80a02000 (leaf 0x80a03000 example_perm).

Definition example_space : kstate := upd_k_mem (fun _ => example_mem) example_one_page.

Definition example_dir : gmap (list Z) Z :=
  <[[0; 0] := 0x80a02000]> (<[[0] := 0x80a01000]> {[[] := 0x80a00000]}).

Definition example_user : gmap Z (Z * Z) := {[0 := (0x80a03000, example_perm)]}.

#[local] Existing Instance example_platform.
#[local] Existing Instance free_page_allocator.

Lemma example_free_mem m :
  mem_ok m -> (forall x, x < 0x80a00000 -> rd m x = 0) ->
  Free (upd_k_mem (fun _ => m) example_one_page) {[0x80900000]}.
Proof.
  intros Hm Hz. apply (pa_frame example_one_page).
  - split; [exact example_layout_ok|]. split; [exact mem_ok_empty|]. split; [exact example_hart_ok|].
    exists [0x80900000], (replicate 8 []). split; [exact example_alloc_rep|done].
  - done.
  - by ksync.
  - done.
  - intros x Hx. ksimpl. rewrite Hz; [done|].
    destruct Hx as [Hx|(p & ->%elem_of_singleton & Hx)]; [|lia].
    cbn in Hx. unfold FREE_LIST_SIZE in Hx. lia.
Qed.

Lemma example_mem_ok : mem_ok example_mem.
Proof. do 3 apply mem_ok_st64. exact mem_ok_empty. Qed.

Lemma ld64_example a :
  ld64 example_mem a =
    if decide (a = 0x80a00000) then Z.lor (PA2PTE 0x80a01000) PTE_V
    else if decide (a = 0x80a01000) then Z.lor (PA2PTE 0x80a02000) PTE_V
    else if decide (a = 0x80a02000) then leaf 0x80a03000 example_perm
    else ld64 example_mem a.
Proof. repeat case_decide; subst; try done; by vm_compute. Qed.

Lemma ld64_example_zero a i :
  a ∈ [0x80a00000; 0x80a01000; 0x80a02000] -> 0 < i < 512 -> ld64 example_mem (a + 8 * i) = 0.
Proof.
  intros Ha Hi. unfold example_mem. rewrite !ld64_st64_out; [by vm_compute|..];
    apply list_elem_of_In in Ha; cbn in Ha; lia.
Qed.

Lemma example_dir_lookup q p :
  example_dir !! q = Some p ->
  q = [] /\ p = 0x80a00000 \/ q = [0] /\ p = 0x80a01000 \/ q = [0; 0] /\ p = 0x80a02000.
Proof.
  unfold example_dir. rewrite !lookup_insert. repeat case_decide; try naive_solver.
  intros [<- <-]%lookup_singleton_Some. by left.
Qed.

Lemma example_dir_ok : dir_ok example_mem 0x80a00000 example_dir.
Proof.
  split.
  - done.
  - intros q p [[_ ->]|[[_ ->]|[_ ->]]]%example_dir_lookup; by vm_compute.
  - intros q q' p Hq Hq'. apply example_dir_lookup in Hq, Hq'. naive_solver lia.
  - intros q i p [[E _]|[[E _]|[E _]]]%example_dir_lookup.
    + by destruct q.
    + destruct q as [|? [|]]; simplify_eq/=. split; [by eexists|lia].
    + destruct q as [|? [|? [|]]]; simplify_eq/=. split; [by eexists|lia].
  - intros q p i Hq Hlen Hi.
    destruct (decide (i = 0)) as [->|Hne].
    + apply example_dir_lookup in Hq as [[-> ->]|[[-> ->]|[-> ->]]]; [by vm_compute..|cbn in Hlen; lia].
    + assert (example_dir !! (q ++ [i]) = None) as ->.
      { destruct (example_dir !! (q ++ [i])) eqn:E; [|done].
        apply example_dir_lookup in E as [[E _]|[[E _]|[E _]]].
        - by destruct q.
        - destruct q as [|? [|]]; simplify_eq/=.
        - destruct q as [|? [|? [|]]]; simplify_eq/=. }
      rewrite ld64_example_zero; [done| |lia].
      apply example_dir_lookup in Hq as [[_ ->]|[[_ ->]|[_ ->]]]; set_solver.
Qed.

Lemma example_pages : dir_pages example_dir = {[0x80a00000; 0x80a01000; 0x80a02000]}.
Proof. by vm_compute. Qed.

Lemma example_vm_ok : vm_ok Free example_space {[0x80900000]} 0x80a00000 example_dir.
Proof.
  split.
  - apply example_free_mem; [exact example_mem_ok|]. intros x Hx. unfold example_mem.
    rewrite !rd_st64_out by lia. done.
  - exact example_dir_ok.
  - rewrite example_pages. set_solver.
Qed.

Lemma example_user_lookup va x :
  example_user !! va = Some x -> va = 0 /\ x = (0x80a03000, example_perm).
Proof. unfold example_user. by intros [<- <-]%lookup_singleton_Some. Qed.

Lemma example_as_ok :
  as_ok Free example_space {[0x80900000]} 0x80a00000 example_dir example_user.
Proof.
  split.
  - exact example_vm_ok.
  - intros va Hal Hva. change (k_mem example_space) with example_mem.
    rewrite (dir_lookup _ _ _ _ example_layout_ok example_dir_ok).
    destruct (decide (va = 0)) as [->|Hne]; [by vm_compute|].
    unfold example_user. rewrite lookup_singleton_ne by done. cbn.
    destruct (example_dir !! va_path va) as [p|] eqn:E; [|done].
    apply example_dir_lookup in E as [[E _]|[[E _]|[E ->]]]; try done.
    injection E as E2 E1. pose proof (PX_range 0 va ltac:(lia)).
    destruct (decide (PX 0 va = 0)) as [E0|E0].
    + exfalso. apply Hne. change TRAPFRAME with 274877898752 in Hva.
      rewrite <- (PGROUNDDOWN_aligned va Hal), PX_split, E2, E1, E0 by lia. done.
    + by rewrite ld64_example_zero by (set_solver || lia).
  - intros va x [-> _]%example_user_lookup. split; [done|].
    change TRAPFRAME with 274877898752. lia.
  - intros va pa perm [_ [= -> ->]]%example_user_lookup. split; [by vm_compute|].
    split; [rewrite example_pages; set_solver|by vm_compute].
  - by intros va va' pa perm perm' [-> _]%example_user_lookup [-> _]%example_user_lookup.
Qed.

Lemma example_high va : TRAPFRAME <= va < 2 ^ 39 -> pt_lookup example_mem 0x80a00000 va = None.
Proof.
  intros Hva. rewrite (dir_lookup _ _ _ _ example_layout_ok example_dir_ok).
  destruct (example_dir !! va_path va) as [p|] eqn:E; [|done]. exfalso.
  apply example_dir_lookup in E as [[E _]|[[E _]|[E _]]]; try done. injection E as E2 E1.
  change TRAPFRAME with 274877898752 in Hva. rewrite PX_eq in E2, E1 by lia.
  change (2 ^ (12 + 9 * 2)) with 1073741824 in E2. zdm.
Qed.

Lemma example_high_ok : high_ok example_mem 0x80a00000.
Proof.
  intros va Hva. unfold upage. rewrite example_high; [by destruct (_ <=? _)|].
  change MAXVA with 274877906944 in Hva. lia.
Qed.

Lemma example_child_pages : dir_pages {[[] := 0x80a04000]} = {[0x80a04000]}.
Proof. by vm_compute. Qed.

Lemma example_upages : upages example_user = {[0x80a03000]}.
Proof. by vm_compute. Qed.

(** A second, empty page table at 0x80a04000. *)
Lemma example_child :
  as_ok Free example_space {[0x80900000]} 0x80a04000 {[[] := 0x80a04000]} ∅.
Proof.
  assert (Hd : dir_ok example_mem 0x80a04000 {[[] := 0x80a04000]}).
  { split.
    - done.
    - intros q p [<- <-]%lookup_singleton_Some. by vm_compute.
    - by intros q q' p [<- _]%lookup_singleton_Some [<- _]%lookup_singleton_Some.
    - intros q i p [E _]%lookup_singleton_Some. by destruct q.
    - intros q p i [<- <-]%lookup_singleton_Some _ Hi. rewrite lookup_singleton_ne by done.
      unfold example_mem. rewrite !ld64_st64_out by lia. by vm_compute. }
  split; try done.
  - split; [apply example_vm_ok|done|]. rewrite example_child_pages. set_solver.
  - intros va Hal Hva. change (k_mem example_space) with example_mem.
    rewrite (dir_lookup _ _ _ _ example_layout_ok Hd). by rewrite lookup_singleton_ne.
Qed.

Lemma mappages_correct_witness :
  exists s', fst <$> (match mappages 0x80a00000 0x5000 PGSIZE 0x80a06000 18 example_space with
                      | Ok r s => Some (r, s) | _ => None end) = Some s'.
Proof.
  assert (Hw := mappages_correct Free example_space {[0x80900000]} 0x80a00000 example_dir
    0x5000 PGSIZE 0x80a06000 18 example_vm_ok ltac:(lia) ltac:(lia) ltac:(by vm_compute)
    ltac:(lia) ltac:(lia) ltac:(lia)).
  cbv zeta in Hw. apply wp_inv in Hw as (r & s' & -> & _); [by eexists|].
  intros x Hx. rewrite (pt_lookup_page _ _ x 0x5000); [by vm_compute|].
  change (PGROUNDDOWN 0x5000) with 0x5000 in *. rewrite PGROUNDDOWN_eq. zdm.
Defined.

Lemma uvmalloc_correct_witness :
  wp (uvmalloc 0x80a00000 100 5000 PTE_W) (fun r s' => r = 5000 \/ r = 0) example_space.
Proof.
  eapply wp_mono.
  - apply (uvmalloc_correct Free example_space {[0x80900000]} 0x80a00000 example_dir example_user);
      [exact example_as_ok|lia|by vm_compute|by vm_compute|].
    intros va Hva. unfold example_user. rewrite lookup_singleton_ne; [done|].
    change (PGROUNDUP 100) with 4096 in Hva. lia.
  - cbn beta. intros r s' (F' & D' & U' & n & _ & [[-> _]|[-> _]]); [by left|by right].
Defined.

Lemma uvmdealloc_correct_witness :
  wp (uvmdealloc 0x80a00000 4096 0) (fun r s' => r = 0) example_space.
Proof.
  eapply wp_mono.
  - apply (uvmdealloc_correct Free example_space {[0x80900000]} 0x80a00000 example_dir example_user);
      [exact example_as_ok|lia|by vm_compute|].
    change (PGROUNDUP 0) with 0. change (PGROUNDUP 4096) with 4096.
    intros a Ha Hr. replace a with 0 by zdm. by eexists.
  - cbn beta. by intros r s' (F' & -> & _).
Defined.

Lemma uvmcopy_correct_witness :
  wp (uvmcopy 0x80a00000 0x80a04000 4096) (fun r s' => r = 0 \/ r = -1) example_space.
Proof.
  eapply wp_mono.
  - apply (uvmcopy_correct Free example_space {[0x80900000]} 0x80a00000 example_dir example_user
      0x80a04000 {[[] := 0x80a04000]} ∅); [exact example_as_ok|exact example_child| | |by vm_compute].
    { unfold as_pages. rewrite example_child_pages, example_pages, example_upages.
      replace (upages ∅) with (∅ : gset Z) by by vm_compute. set_solver. }
    intros va Ha Hr. replace va with 0 by zdm. split; [by eexists|done].
  - cbn beta. intros r s' (F' & D' & U' & _ & _ & [[-> _]|[-> _]]); [by left|by right].
Defined.

Lemma uvmfree_correct_witness :
  wp (uvmfree 0x80a00000 4096) (fun _ s' =>
    Free s' {[0x80900000; 0x80a00000; 0x80a01000; 0x80a02000; 0x80a03000]}) example_space.
Proof.
  eapply wp_mono.
  - apply (uvmfree_correct Free example_space {[0x80900000]} 0x80a00000 example_dir example_user);
      [exact example_as_ok|by vm_compute| |exact example_high].
    intros va Ha. change (PGROUNDUP 4096) with 4096. split.
    + intros [x [-> _]%example_user_lookup]. lia.
    + intros Hr. replace va with 0 by zdm. by eexists.
  - cbn beta. intros _ s' [Hf _].
    replace {[0x80900000; 0x80a00000; 0x80a01000; 0x80a02000; 0x80a03000]}
      with (as_pages {[0x80900000]} example_dir example_user); [done|].
    unfold as_pages. rewrite example_pages. by vm_compute.
Defined.

Lemma copyout_copyin_witness :
  wp (copyout 0x80a00000 16 [1; 2; 3]) (fun r s' => r = 0 \/ r = -1) example_space.
Proof.
  eapply wp_mono.
  - apply (copyout_copyin Free example_space {[0x80900000]} 0x80a00000 example_dir example_user);
      [exact example_as_ok|exact example_high_ok|lia|repeat constructor; lia].
  - cbn beta. intros r s' (k & _ & [[-> _]|[-> _]]); [by left|by right].
Defined.

Lemma copyinstr_correct_witness :
  wp (copyinstr 0x80a00000 0 16) (fun r s' => s' = example_space) example_space.
Proof.
  eapply wp_mono; [apply (copyinstr_correct 0x80a00000 0 16 example_space); lia|].
  cbn beta. by intros r s' [-> _].
Defined.

