(* ===== verification/Sched.v ===== *)
(** * Sleep, wakeup and the switch to the scheduler (kernel/proc.c,
    kernel/sleeplock.c)

    A kernel thread that gives up the processor ends its run with [Switch] in
    sched(); what it does when the scheduler comes back to it is a definition of
    its own ([sleep_resume], [yield_resume]).  Sleep locks live in the buffers and
    inodes they protect and are named by [slockid]. *)

From Stdlib Require Import ZArith Lia.
From stdpp Require Import base tactics numbers gmap strings option list.
From S2P Require Import Prelude Kernel Spinlock.

(** ** Definitions *)

(** A pointer that must not be null. *)
Definition deref {A} (o : option A) : K A :=
  match o with Some x => mret x | None => panic "kerneltrap" end.

(** struct proc *myproc(void) *)
Definition myproc : K (option nat) :=
  push_off;;
  p ← gets (fun s => c_proc (k_cpu s));
  pop_off;;
  mret p.

(** myproc(), where the code dereferences the result. *)
Definition curproc : K nat := p ← myproc; deref p.

(** void sched(void); swtch() ends the run. *)
Definition sched : K unit :=
  p ← curproc;
  h ← holding (L_proc p);
  if negb h then panic "sched p->lock" else
  noff ← gets (fun s => c_noff (k_cpu s));
  if negb (noff =? 1) then panic "sched locks" else
  pp ← get_proc p;
  if decide (p_state pp = RUNNING) then panic "sched running" else
  i ← intr_get;
  if i : bool then panic "sched interruptible" else
  switch.

(** sched() after swtch() comes back, with the intena it had saved. *)
Definition sched_resume (intena : bool) : K unit :=
  modify (upd_k_cpu (upd_c_intena (fun _ => intena))).

(** void yield(void), and what is left of it after the switch *)
Definition yield : K unit :=
  p ← curproc;
  acquire (L_proc p);;
  upd_proc p (upd_p_state (fun _ => RUNNABLE));;
  sched;;
  release (L_proc p).

Definition yield_resume (intena : bool) : K unit :=
  sched_resume intena;;
  p ← curproc;
  release (L_proc p).

(** void sleep(void *chan, struct spinlock *lk), and its second half *)
Definition sleep (ch : chan) (lk : lockid) : K unit :=
  p ← curproc;
  acquire (L_proc p);;
  release lk;;
  upd_proc p (upd_p_chan (fun _ => ch));;
  upd_proc p (upd_p_state (fun _ => SLEEPING));;
  sched;;
  upd_proc p (upd_p_chan (fun _ => Ch_null));;
  release (L_proc p);;
  acquire lk.

Definition sleep_resume (intena : bool) (lk : lockid) : K unit :=
  sched_resume intena;;
  p ← curproc;
  upd_proc p (upd_p_chan (fun _ => Ch_null));;
  release (L_proc p);;
  acquire lk.

(** void wakeup(void *chan) *)
Definition wakeup (ch : chan) : K unit :=
  for_each (seq 0 64) (fun i =>
    p ← myproc;
    if decide (p = Some i) then mret tt
    else
      acquire (L_proc i);;
      pp ← get_proc i;
      when (bool_decide (p_state pp = SLEEPING) && bool_decide (p_chan pp = ch))
        (upd_proc i (upd_p_state (fun _ => RUNNABLE)));;
      release (L_proc i)).

(** int kill(int pid) *)
Definition kill_body (pid : Z) (i : nat) : K (nat + Z) :=
  if (i <? 64)%nat then
    acquire (L_proc i);;
    p ← get_proc i;
    if p_pid p =? pid then
      upd_proc i (upd_p_killed (fun _ => 1));;
      when (bool_decide (p_state p = SLEEPING)) (upd_proc i (upd_p_state (fun _ => RUNNABLE)));;
      release (L_proc i);;
      mret (inr 0)
    else
      release (L_proc i);;
      mret (inl (S i))
  else mret (inr (-1)).

Definition kill (pid : Z) : K Z := loop 65 (kill_body pid) O.

(** void setkilled(struct proc *p) *)
Definition setkilled (p : nat) : K unit :=
  acquire (L_proc p);;
  upd_proc p (upd_p_killed (fun _ => 1));;
  release (L_proc p).

(** int killed(struct proc *p) *)
Definition killed (p : nat) : K Z :=
  acquire (L_proc p);;
  pp ← get_proc p;
  release (L_proc p);;
  mret (p_killed pp).

(** One turn of the loop of scheduler() for process [i], up to the switch to it
    and after the switch back. *)
Definition scheduler_turn (i : nat) : K unit :=
  acquire (L_proc i);;
  p ← get_proc i;
  if decide (p_state p = RUNNABLE) then
    upd_proc i (upd_p_state (fun _ => RUNNING));;
    modify (upd_k_cpu (upd_c_proc (fun _ => Some i)));;
    switch
  else release (L_proc i).

Definition scheduler_back (i : nat) : K unit :=
  modify (upd_k_cpu (upd_c_proc (fun _ => None)));;
  release (L_proc i).

(** *** sleeplock.c *)

Definition get_slock (l : slockid) : K sleeplock :=
  match l with
  | SL_buf i => b ← get_buf i; mret (b_lock b)
  | SL_inode i => ip ← get_inode i; mret (i_lock ip)
  end.

Definition upd_slock (l : slockid) (f : sleeplock -> sleeplock) : K unit :=
  match l with
  | SL_buf i => upd_buf i (upd_b_lock f)
  | SL_inode i => upd_inode i (upd_i_lock f)
  end.

(** void initsleeplock(struct sleeplock *lk, char *name) *)
Definition initsleeplock (l : slockid) : K unit :=
  initlock (L_sleep l);;
  upd_slock l (upd_sl_locked (fun _ => false));;
  upd_slock l (upd_sl_pid (fun _ => 0)).

(** void acquiresleep(struct sleeplock *lk): when the lock is held the run ends
    in sleep(); woken, the thread is back at the test of the loop, with lk->lk
    held. *)
Definition acquiresleep_loop (l : slockid) : K unit :=
  sl ← get_slock l;
  when (sl_locked sl) (sleep (Ch_slock l) (L_sleep l));;
  upd_slock l (upd_sl_locked (fun _ => true));;
  p ← curproc;
  pp ← get_proc p;
  upd_slock l (upd_sl_pid (fun _ => p_pid pp));;
  release (L_sleep l).

Definition acquiresleep (l : slockid) : K unit :=
  acquire (L_sleep l);;
  acquiresleep_loop l.

Definition acquiresleep_resume (intena : bool) (l : slockid) : K unit :=
  sleep_resume intena (L_sleep l);;
  acquiresleep_loop l.

(** void releasesleep(struct sleeplock *lk) *)
Definition releasesleep (l : slockid) : K unit :=
  acquire (L_sleep l);;
  upd_slock l (upd_sl_locked (fun _ => false));;
  upd_slock l (upd_sl_pid (fun _ => 0));;
  wakeup (Ch_slock l);;
  release (L_sleep l).

(** int holdingsleep(struct sleeplock *lk) *)
Definition holdingsleep (l : slockid) : K bool :=
  acquire (L_sleep l);;
  sl ← get_slock l;
  r ← (if sl_locked sl then p ← curproc; pp ← get_proc p; mret (sl_pid sl =? p_pid pp)
       else mret false);
  release (L_sleep l);;
  mret r.

(** ** Specification *)

(** The hart runs a process, its interrupt state is consistent, and at most the
    locks [lks] are held. *)
Record calm (lks : list lockid) (s : kstate) : Prop := {
  cm_sync : sync_ok s;
  cm_free lk : lk ∉ lks -> free lk s;
  cm_procs : length (k_procs s) = 64%nat;
  cm_me : exists p, c_proc (k_cpu s) = Some p /\ (p < 64)%nat;
}.

(** The processes after wakeup(ch) by [me] looked at those in [d]. *)
Definition woken (ch : chan) (me : option nat) (d : list nat) (ps : list proc) : list proc :=
  imap (fun i p =>
    if decide (i ∈ d /\ me <> Some i /\ p_state p = SLEEPING /\ p_chan p = ch)
    then upd_p_state (fun _ => RUNNABLE) p else p) ps.

(** Some processes that slept have been made runnable. *)
Definition woke (me : option nat) (ps ps' : list proc) : Prop :=
  length ps' = length ps /\
  forall i p, ps !! i = Some p ->
    exists p', ps' !! i = Some p' /\
      (p' = p \/ p_state p = SLEEPING /\ me <> Some i /\ p' = upd_p_state (fun _ => RUNNABLE) p).

(** ** Lemmas *)

Lemma calm_keq lks s s' : s' ≡ s -> calm lks s -> calm lks s'.
Proof.
  intros E [Hs Hf Hp Hm]. split.
  - by eapply sync_sync_ok; [apply keq_sync|].
  - intros lk Hlk. eapply sync_free; [by apply keq_sync|by apply Hf].
  - by rewrite (keq_k_procs _ _ E).
  - by rewrite (keq_c_proc _ _ E).
Qed.

Lemma calm_ext lks s s' :
  sync s' = sync s -> length (k_procs s') = length (k_procs s) -> calm lks s -> calm lks s'.
Proof.
  intros E Hl [Hs Hf Hp Hm]. split.
  - by eapply sync_sync_ok.
  - intros lk Hlk. by eapply sync_free, Hf.
  - congruence.
  - assert (c_proc (k_cpu s') = c_proc (k_cpu s)) as ->; [|done].
    unfold sync, settle in E. congruence.
Qed.

Lemma calm_locked lks lk s : calm lks s -> calm (lk :: lks) (locked lk s).
Proof.
  intros [Hs Hf Hp Hm]. split; try done.
  - by apply sync_ok_locked.
  - intros lk' Hlk. apply free_locked; [set_solver|]. apply Hf. set_solver.
Qed.

Lemma calm_mono lks lks' s : calm lks s -> (forall lk, lk ∈ lks -> lk ∈ lks') -> calm lks' s.
Proof. intros [Hs Hf Hp Hm] Hsub. split; try done. intros lk Hlk. apply Hf. naive_solver. Qed.

Lemma wp_myproc s Q :
  sync_ok s -> (forall s', s' ≡ s -> Q (c_proc (k_cpu s)) s') -> wp myproc Q s.
Proof.
  intros Hs HQ. unfold myproc. apply wp_bind. eapply wp_ok; [apply push_off_ok|].
  wp_steps. eapply wp_ok; [by apply (pop_off_ok s)|]. wp_steps. apply HQ. split.
  - unfold sync, settle, sie. ksimpl. unfold settle, sie. ksimpl.
    by destruct (c_noff (k_cpu s) =? 0).
  - reflexivity.
Qed.

Lemma wp_curproc s p Q :
  sync_ok s -> c_proc (k_cpu s) = Some p -> (forall s', s' ≡ s -> Q p s') -> wp curproc Q s.
Proof.
  intros Hs Hp HQ. unfold curproc. apply wp_bind, wp_myproc; [done|]. intros s' Hs'.
  rewrite Hp. apply wp_ret. by apply HQ.
Qed.

Lemma woken_nil ch me ps : woken ch me [] ps = ps.
Proof.
  unfold woken. apply list_eq. intros i.
  rewrite list_lookup_imap. destruct (ps !! i); [|done]. cbn. rewrite decide_False; [done|]. set_solver.
Qed.

Lemma length_woken ch me d ps : length (woken ch me d ps) = length ps.
Proof. apply length_imap. Qed.

Lemma lookup_woken ch me d ps i :
  woken ch me d ps !! i = (fun p =>
    if decide (i ∈ d /\ me <> Some i /\ p_state p = SLEEPING /\ p_chan p = ch)
    then upd_p_state (fun _ => RUNNABLE) p else p) <$> ps !! i.
Proof. apply list_lookup_imap. Qed.

Lemma woken_snoc ch me d i ps p :
  ps !! i = Some p -> i ∉ d ->
  woken ch me (d ++ [i]) ps =
    (if decide (me <> Some i /\ p_state p = SLEEPING /\ p_chan p = ch)
     then alter (upd_p_state (fun _ => RUNNABLE)) i (woken ch me d ps) else woken ch me d ps).
Proof.
  intros Hp Hd. apply list_eq. intros j. rewrite lookup_woken.
  destruct (decide (i = j)) as [<-|Hne].
  - rewrite Hp. cbn. destruct (decide (me <> Some i /\ p_state p = SLEEPING /\ p_chan p = ch)) as [H1|H1].
    + rewrite decide_True by set_solver. rewrite list_lookup_alter_eq, lookup_woken, Hp. cbn.
      by rewrite decide_False by tauto.
    + rewrite decide_False by tauto. rewrite lookup_woken, Hp. cbn. by rewrite decide_False by tauto.
  - assert (woken ch me d ps !! j = (if decide (me <> Some i /\ p_state p = SLEEPING /\ p_chan p = ch)
      then alter (upd_p_state (fun _ => RUNNABLE)) i (woken ch me d ps) else woken ch me d ps) !! j) as <-.
    { case_decide; [by rewrite list_lookup_alter_ne|done]. }
    rewrite lookup_woken. destruct (ps !! j) as [q|]; [|done]. cbn. f_equal.
    assert (j ∈ d ++ [i] <-> j ∈ d) as Hiff by set_solver. repeat case_decide; tauto || done.
Qed.

Lemma wakeup_spec lks ch s :
  calm lks s -> (forall i, L_proc i ∉ lks) ->
  wp (wakeup ch) (fun _ s' =>
    s' ≡ upd_k_procs (woken ch (c_proc (k_cpu s)) (seq 0 64)) s) s.
Proof.
  intros Hc Hlk. unfold wakeup. set (me := c_proc (k_cpu s)).
  apply (wp_for_each (fun d s' => s' ≡ upd_k_procs (woken ch me d) s)).
  - split; [done|]. unfold others. ksimpl. by rewrite woken_nil.
  - intros d i r s1 Hl Hs1.
    assert (Hi : (i < 64)%nat).
    { assert (i ∈ seq 0 64) as Hin by (rewrite Hl; set_solver). apply elem_of_seq in Hin. lia. }
    assert (Hid : i ∉ d).
    { pose proof (NoDup_seq 0 64) as Hnd. rewrite Hl in Hnd.
      apply NoDup_app in Hnd as (_ & Hnd & _). intros Hin. apply (Hnd i Hin). set_solver. }
    destruct (lookup_Some_total (k_procs s) i) as [p Hp]; [by rewrite (cm_procs _ _ Hc)|].
    assert (Hc1 : calm lks s1).
    { eapply calm_keq; [done|]. eapply calm_ext; [by ksync| |done]. apply length_woken. }
    apply wp_bind, wp_myproc; [apply Hc1|]. intros s2 Hs2.
    assert (c_proc (k_cpu s1) = me) as -> by (by rewrite (keq_c_proc _ _ Hs1)).
    case_decide as Hme.
    { apply wp_ret. rewrite Hs2, Hs1. erewrite upd_k_procs_ext; [done|].
      erewrite woken_snoc by done. by rewrite decide_False by tauto. }
    assert (Hs2' : s2 ≡ upd_k_procs (woken ch me d) s) by (etrans; [exact Hs2|exact Hs1]).
    pose proof (calm_keq _ _ _ Hs2 Hc1) as Hc2.
    apply wp_bind, wp_acquire; [by apply Hc2|].
    apply wp_bind, (wp_get_entry _ _ p).
    { kread. rewrite (keq_k_procs _ _ Hs2'). ksimpl. rewrite lookup_woken, Hp. cbn.
      by rewrite decide_False by tauto. }
    apply wp_bind. unfold when. rewrite <- bool_decide_and.
    case_bool_decide as Hb; unfold upd_proc; wp_steps; (wp_rel; [apply Hc2|]).
    + transitivity (upd_k_procs (alter (upd_p_state (fun _ => RUNNABLE)) i) s2); [keq|].
      rewrite Hs2', upd_k_procs_comp. erewrite upd_k_procs_ext; [done|].
      erewrite (woken_snoc ch me d) by done. by rewrite decide_True by done.
    + transitivity s2; [keq|]. rewrite Hs2'. erewrite upd_k_procs_ext; [done|].
      erewrite (woken_snoc ch me d) by done. by rewrite decide_False by tauto.
  - done.
Qed.

Lemma woke_refl me ps : woke me ps ps.
Proof. split; [done|]. intros i p Hp. exists p. auto. Qed.

Lemma woke_trans me ps1 ps2 ps3 : woke me ps1 ps2 -> woke me ps2 ps3 -> woke me ps1 ps3.
Proof.
  intros [L1 H1] [L2 H2]. split; [congruence|]. intros i p Hp.
  destruct (H1 i p Hp) as (p2 & Hp2 & [->|(Hs & Hm & ->)]).
  - by apply H2.
  - destruct (H2 i _ Hp2) as (p3 & Hp3 & [->|(Hs' & _)]); [|done].
    exists (upd_p_state (fun _ => RUNNABLE) p). auto.
Qed.

Lemma woken_woke ch me d ps : woke me ps (woken ch me d ps).
Proof.
  split; [apply length_woken|]. intros i p Hp. rewrite lookup_woken, Hp. cbn.
  eexists. split; [done|]. case_decide as H; [|by left]. right. naive_solver.
Qed.

Lemma woke_me me i p ps ps' : woke me ps ps' -> me = Some i -> ps !! i = Some p -> ps' !! i = Some p.
Proof. intros [_ H] -> Hp. destruct (H i p Hp) as (p' & Hp' & [->|(_ & [] & _)]); done. Qed.

(** ** Sleep locks *)

(** A sleep lock and the state with it changed. *)
Definition slock (l : slockid) (s : kstate) : option sleeplock :=
  match l with
  | SL_buf i => b_lock <$> bc_buf (k_bcache s) !! i
  | SL_inode i => i_lock <$> k_itable s !! i
  end.

Definition set_slock (l : slockid) (f : sleeplock -> sleeplock) (s : kstate) : kstate :=
  match l with
  | SL_buf i => upd_k_bcache (upd_bc_buf (alter (upd_b_lock f) i)) s
  | SL_inode i => upd_k_itable (alter (upd_i_lock f) i) s
  end.

(** The pid of the running process. *)
Definition mypid (s : kstate) : Z :=
  match c_proc (k_cpu s) with
  | Some p => default 0 (p_pid <$> k_procs s !! p)
  | None => 0
  end.

#[export] Instance set_slock_proper l f : Proper ((≡) ==> (≡)) (set_slock l f).
Proof. destruct l; apply _. Qed.

Lemma sync_set_slock l f s : sync (set_slock l f s) = sync s.
Proof. by destruct l. Qed.

#[export] Hint Rewrite sync_set_slock : ksync.

Lemma upd_slock_eq l f : upd_slock l f = modify (set_slock l f).
Proof. by destruct l. Qed.

Lemma slock_keq l s s' : s ≡ s' -> slock l s = slock l s'.
Proof.
  intros E. destruct l; cbn; [by rewrite (keq_k_bcache _ _ E)|by rewrite (keq_k_itable _ _ E)].
Qed.

Lemma mypid_keq s s' : s ≡ s' -> mypid s = mypid s'.
Proof. intros E. unfold mypid. by rewrite (keq_c_proc _ _ E), (keq_k_procs _ _ E). Qed.

Lemma wp_get_slock l sl s (Q : sleeplock -> kstate -> Prop) :
  slock l s = Some sl -> Q sl s -> wp (get_slock l) Q s.
Proof.
  destruct l as [i|i]; cbn; intros Hs HQ.
  - destruct (bc_buf (k_bcache s) !! i) as [b|] eqn:E; [|done]. cbn in Hs. simplify_eq.
    apply wp_bind. eapply wp_get_entry; [done|]. by apply wp_ret.
  - destruct (k_itable s !! i) as [ip|] eqn:E; [|done]. cbn in Hs. simplify_eq.
    apply wp_bind. eapply wp_get_entry; [done|]. by apply wp_ret.
Qed.

Lemma slock_set_same l f s : slock l (set_slock l f s) = f <$> slock l s.
Proof.
  destruct l; cbn; rewrite list_lookup_alter_eq; by destruct (_ !! _).
Qed.

(** Setting both fields, one after the other. *)
Lemma set_slock_both l b p s :
  set_slock l (upd_sl_pid (fun _ => p)) (set_slock l (upd_sl_locked (fun _ => b)) s) =
  set_slock l (fun _ => mkSleeplock b p) s.
Proof.
  destruct l as [i|i]; cbn; rewrite ?upd_k_bcache_comp, ?upd_k_itable_comp.
  - apply upd_k_bcache_ext. unfold upd_bc_buf. ksimpl. f_equal. rewrite list_alter_alter_eq.
    by apply list_alter_ext.
  - apply upd_k_itable_ext. rewrite list_alter_alter_eq. by apply list_alter_ext.
Qed.

Lemma k_procs_set_slock l f s : k_procs (set_slock l f s) = k_procs s.
Proof. by destruct l. Qed.

Lemma k_cpu_set_slock l f s : k_cpu (set_slock l f s) = k_cpu s.
Proof. by destruct l. Qed.

Lemma calm_proc lks s :
  calm lks s -> exists p pp, c_proc (k_cpu s) = Some p /\ k_procs s !! p = Some pp /\ mypid s = p_pid pp.
Proof.
  intros [_ _ Hp (p & Hc & Hlt)]. destruct (lookup_Some_total (k_procs s) p) as [pp Hpp]; [lia|].
  exists p, pp. split; [done|]. split; [done|]. unfold mypid. by rewrite Hc, Hpp.
Qed.

Lemma calm_set_slock lks l f s : calm lks s -> calm lks (set_slock l f s).
Proof. apply calm_ext; [by ksync|by rewrite k_procs_set_slock]. Qed.

(** Reading the running process. *)
Lemma wp_curproc_calm lks s Q :
  calm lks s ->
  (forall p pp s', s' ≡ s -> c_proc (k_cpu s) = Some p -> k_procs s' !! p = Some pp ->
     p_pid pp = mypid s -> Q p s') ->
  wp curproc Q s.
Proof.
  intros Hc HQ. destruct (calm_proc _ _ Hc) as (p & pp & Hp & Hpp & Hpid).
  apply (wp_curproc s p); [apply Hc|done|]. intros s' Hs'.
  apply (HQ p pp); try done. by rewrite (keq_k_procs _ _ Hs').
Qed.

Lemma others_set_slock l f s s' : others s = others s' -> others (set_slock l f s) = others (set_slock l f s').
Proof.
  intros E. destruct l as [i|i]; unfold set_slock.
  - exact (keq_others _ _ (upd_k_bcache_proper _ (resync s s) (resync s s') (conj eq_refl E))).
  - exact (keq_others _ _ (upd_k_itable_proper _ (resync s s) (resync s s') (conj eq_refl E))).
Qed.

Lemma acquiresleep_spec lks l s sl :
  calm lks s -> L_sleep l ∉ lks -> slock l s = Some sl -> sl_locked sl = false ->
  wp (acquiresleep l) (fun _ s' => s' ≡ set_slock l (fun _ => mkSleeplock true (mypid s)) s) s.
Proof.
  intros Hc Hlk Hsl Hfree. unfold acquiresleep, acquiresleep_loop.
  apply wp_bind, wp_acquire; [by apply Hc|].
  apply wp_bind, (wp_get_slock l sl); [by destruct l|]. rewrite Hfree. unfold when.
  rewrite !upd_slock_eq. wp_steps.
  apply (wp_curproc_calm (L_sleep l :: lks)).
  { by apply calm_set_slock, calm_locked. }
  intros p pp s1 Hs1 _ Hpp Hpid. apply wp_bind, (wp_get_entry _ _ pp); [done|].
  rewrite upd_slock_eq. wp_steps.
  apply (wp_release (L_sleep l) s); [apply Hc| |].
  - autorewrite with ksync. rewrite (keq_sync _ _ Hs1). by ksync.
  - apply resync_keq; [|by ksync]. rewrite (others_set_slock _ _ _ _ (keq_others _ _ Hs1)).
    rewrite set_slock_both. rewrite Hpid.
    replace (mypid (set_slock _ _ _)) with (mypid s) by (by destruct l).
    by apply others_set_slock.
Qed.

Lemma others_upd_k_procs f s s' : others s = others s' -> others (upd_k_procs f s) = others (upd_k_procs f s').
Proof.
  intros E. exact (keq_others _ _ (upd_k_procs_proper _ (resync s s) (resync s s') (conj eq_refl E))).
Qed.

Lemma releasesleep_spec lks l s :
  calm lks s -> L_sleep l ∉ lks -> (forall i, L_proc i ∉ lks) ->
  wp (releasesleep l) (fun _ s' =>
    s' ≡ upd_k_procs (woken (Ch_slock l) (c_proc (k_cpu s)) (seq 0 64))
           (set_slock l (fun _ => mkSleeplock false 0) s)) s.
Proof.
  intros Hc Hlk Hp. unfold releasesleep. apply wp_bind, wp_acquire; [by apply Hc|].
  rewrite !upd_slock_eq. wp_steps. rewrite set_slock_both.
  eapply wp_mono.
  { apply (wakeup_spec (L_sleep l :: lks)); [by apply calm_set_slock, calm_locked|set_solver]. }
  cbn beta. intros _ s1 Hs1. rewrite k_cpu_set_slock in Hs1.
  apply (wp_release (L_sleep l) s); [apply Hc| |].
  - rewrite (keq_sync _ _ Hs1). by ksync.
  - apply resync_keq; [|by ksync]. rewrite (keq_others _ _ Hs1).
    by apply others_upd_k_procs, others_set_slock.
Qed.

Lemma holdingsleep_spec lks l s sl :
  calm lks s -> L_sleep l ∉ lks -> slock l s = Some sl ->
  wp (holdingsleep l) (fun r s' =>
    r = sl_locked sl && (sl_pid sl =? mypid s) /\ s' ≡ s) s.
Proof.
  intros Hc Hlk Hsl. unfold holdingsleep. apply wp_bind, wp_acquire; [by apply Hc|].
  apply wp_bind, (wp_get_slock l sl); [by destruct l|]. destruct (sl_locked sl); cbn [andb]; wp_steps.
  - apply (wp_curproc_calm (L_sleep l :: lks)); [by apply calm_locked|].
    intros p pp s1 Hs1 _ Hpp Hpid. apply wp_bind, (wp_get_entry _ _ pp); [done|]. wp_steps.
    apply (wp_release (L_sleep l) s); [apply Hc|by rewrite (keq_sync _ _ Hs1)|]. wp_steps.
    split; [by rewrite Hpid|]. apply resync_keq; [|done]. by rewrite (keq_others _ _ Hs1).
  - wp_rel; [apply Hc|]. wp_steps. split; [done|keq].
Qed.

Lemma mypid_woken ch me d s : mypid (upd_k_procs (woken ch me d) s) = mypid s.
Proof.
  unfold mypid. ksimpl. destruct (c_proc (k_cpu s)) as [p|]; [|done]. rewrite lookup_woken.
  destruct (k_procs s !! p); [|done]. cbn. by case_decide.
Qed.
