(* ===== verification/Ring.v ===== *)
(** * Circular buffers indexed by free-running counters

    The UART driver, the console and pipes keep bytes in an array of [size]
    cells between two unsigned counters that are never reduced modulo [size]
    and wrap around at the width of their type.  [queue] is what such a
    buffer holds; storing at the write counter appends to it, reading at the
    read counter takes its head and stepping a counter back drops its last
    element, also when a counter wraps. *)

From Stdlib Require Import ZArith Lia.
From stdpp Require Import base tactics numbers list.
From S2P Require Import Prelude.

(** ** Definitions *)

(** Cell [i mod size] of the array. *)
Definition queue_at (size i : Z) (data : list Z) : Z :=
  nth (Z.to_nat (i mod size)) data 0.

Definition queue_set (size i v : Z) (data : list Z) : list Z :=
  <[Z.to_nat (i mod size) := v]> data.

(** The queue between counters [r] and [w] of modulus [N]. *)
Definition queue (N size : Z) (data : list Z) (r w : Z) : list Z :=
  (fun i => queue_at size ((r + Z.of_nat i) mod N) data) <$> seq 0 (Z.to_nat ((w - r) mod N)).

(** ** Lemmas *)

Section queue.
Context (N size : Z) (data : list Z).
Hypothesis Hsize : 0 < size.
Hypothesis HN : (size | N).
Hypothesis HNpos : 0 < N.

Lemma queue_cell i : (i mod N) mod size = i mod size.
Proof using HN. by apply Z.mod_mod_divide. Qed.

Lemma queue_length r w : length (queue N size data r w) = Z.to_nat ((w - r) mod N).
Proof using Type. unfold queue. len. Qed.

Lemma queue_empty r : queue N size data r r = [].
Proof using HNpos. unfold queue. by rewrite Z.sub_diag, Z.mod_0_l by lia. Qed.

(** Equal counters are the only empty queue. *)
Lemma queue_nil r w : 0 <= r < N -> 0 <= w < N -> (w - r) mod N = 0 -> w = r.
Proof using HNpos. intros Hr Hw [k Hk]%Z.mod_divide; [|lia]. assert (k = 0) by nia. lia. Qed.

Lemma queue_succ r w :
  (w - r) mod N < N - 1 -> ((w + 1) mod N - r) mod N = (w - r) mod N + 1.
Proof using HNpos.
  intros H. rewrite <- Zminus_mod_idemp_l, Zmod_mod, Zminus_mod_idemp_l.
  replace (w + 1 - r) with ((w - r) + 1) by lia.
  rewrite <- Zplus_mod_idemp_l. apply Z.mod_small.
  pose proof (Z.mod_pos_bound (w - r) N). lia.
Qed.

(** A store outside the queue does not change it. *)
Lemma queue_frame r w e c :
  (w - r) mod N <= (e - r) mod N < size ->
  queue N size (queue_set size e c data) r w = queue N size data r w.
Proof using HN HNpos Hsize.
  intros He. apply list_fmap_ext. intros k j Hj. apply lookup_seq in Hj as [-> Hk]. simpl.
  pose proof (Z.mod_pos_bound (w - r) N HNpos) as Hb.
  unfold queue_at, queue_set. rewrite !nth_lookup, list_lookup_insert_ne; [done|].
  rewrite queue_cell. intros E. apply Z2Nat.inj in E; [|apply Z.mod_pos_bound; lia..].
  assert (Hd : ((e - r) mod N - Z.of_nat k) mod size = 0).
  { rewrite <- Zminus_mod_idemp_l, queue_cell, Zminus_mod_idemp_l.
    replace (e - r - Z.of_nat k) with (e - (r + Z.of_nat k)) by lia.
    rewrite Zminus_mod, E, Z.sub_diag. apply Z.mod_0_l. lia. }
  rewrite Z.mod_small in Hd by lia. lia.
Qed.

(** Adjacent queues. *)
Lemma queue_app r w e :
  (w - r) mod N + (e - w) mod N < N ->
  queue N size data r e = queue N size data r w ++ queue N size data w e.
Proof using HNpos.
  intros Hlt. unfold queue.
  pose proof (Z.mod_pos_bound (w - r) N HNpos) as Hb.
  pose proof (Z.mod_pos_bound (e - w) N HNpos) as Hb'.
  assert (E : (e - r) mod N = (w - r) mod N + (e - w) mod N).
  { replace (e - r) with ((w - r) + (e - w)) by lia.
    rewrite Zplus_mod. apply Z.mod_small. lia. }
  rewrite E, Z2Nat.inj_add, seq_app, fmap_app by lia. f_equal.
  rewrite Nat.add_0_l, <- (Nat.add_0_r (Z.to_nat ((w - r) mod N))) at 1.
  rewrite <- fmap_add_seq, <- list_fmap_compose. apply list_fmap_ext. intros k j _. cbn.
  unfold queue_at. do 3 f_equal. rewrite Nat2Z.inj_add, Z2Nat.id by lia.
  rewrite Z.add_assoc, <- Zplus_mod_idemp_l, Zplus_mod_idemp_r, Zplus_mod_idemp_l. f_equal. lia.
Qed.

(** [data[w % size] = c; w++] appends [c]. *)
Lemma queue_put r w c :
  length data = Z.to_nat size -> (w - r) mod N < size -> size < N ->
  queue N size (queue_set size w c data) r ((w + 1) mod N) = queue N size data r w ++ [c].
Proof using HN HNpos Hsize.
  intros Hlen Hroom HsN. rewrite <- (queue_frame r w w c) by lia. unfold queue.
  rewrite queue_succ by lia.
  pose proof (Z.mod_pos_bound (w - r) N HNpos) as Hb.
  rewrite Z2Nat.inj_add by lia. rewrite seq_app, fmap_app. f_equal.
  change (Z.to_nat 1) with 1%nat. cbn [seq]. rewrite list_fmap_singleton. f_equal.
  unfold queue_at, queue_set. rewrite Nat.add_0_l.
  assert (((r + Z.of_nat (Z.to_nat ((w - r) mod N))) mod N) mod size = w mod size) as ->.
  { rewrite Z2Nat.id by lia. rewrite Zplus_mod_idemp_r.
    replace (r + (w - r)) with w by lia. apply queue_cell. }
  rewrite nth_lookup, list_lookup_insert_eq; [done|].
  rewrite Hlen. apply Z2Nat.inj_lt; [apply Z.mod_pos_bound; lia|lia|apply Z.mod_pos_bound; lia].
Qed.

(** [c = data[r % size]; r++] takes the head. *)
Lemma queue_get r w :
  (w - r) mod N <> 0 ->
  queue N size data r w = queue_at size r data :: queue N size data ((r + 1) mod N) w.
Proof using HN HNpos.
  intros Hne. unfold queue.
  pose proof (Z.mod_pos_bound (w - r) N HNpos) as Hb.
  assert (E : (w - (r + 1) mod N) mod N = (w - r) mod N - 1).
  { rewrite Zminus_mod_idemp_r. replace (w - (r + 1)) with ((w - r) - 1) by lia.
    rewrite <- Zminus_mod_idemp_l. apply Z.mod_small. lia. }
  rewrite E. replace (Z.to_nat ((w - r) mod N)) with (S (Z.to_nat ((w - r) mod N - 1))) by lia.
  cbn [seq]. rewrite fmap_cons. f_equal.
  - unfold queue_at. rewrite Z.add_0_r. by rewrite queue_cell.
  - rewrite <- fmap_S_seq, <- list_fmap_compose. apply list_fmap_ext. intros k j Hj. cbn.
    unfold queue_at. do 2 f_equal. rewrite !queue_cell.
    rewrite <- (Zplus_mod_idemp_l ((r + 1) mod N)), queue_cell, Zplus_mod_idemp_l.
    f_equal. lia.
Qed.

(** [w--] drops the last element. *)
Lemma queue_unput r w :
  (w - r) mod N <> 0 ->
  queue N size data r w =
  queue N size data r ((w - 1) mod N) ++ [queue_at size ((w - 1) mod N) data].
Proof using HNpos.
  intros Hne. unfold queue.
  pose proof (Z.mod_pos_bound (w - r) N HNpos) as Hb.
  assert (E : ((w - 1) mod N - r) mod N = (w - r) mod N - 1).
  { rewrite Zminus_mod_idemp_l. replace (w - 1 - r) with ((w - r) - 1) by lia.
    rewrite <- Zminus_mod_idemp_l. apply Z.mod_small. lia. }
  rewrite E.
  replace (Z.to_nat ((w - r) mod N)) with (Z.to_nat ((w - r) mod N - 1) + 1)%nat by lia.
  rewrite seq_app, fmap_app. f_equal. cbn. f_equal. unfold queue_at.
  do 2 f_equal. rewrite Z2Nat.id by lia. f_equal.
  rewrite Z.add_sub_assoc, <- Zminus_mod_idemp_l, Zplus_mod_idemp_r.
  rewrite Zminus_mod_idemp_l. f_equal. lia.
Qed.

End queue.
