(* ===== verification/Uart.v ===== *)
(** * The UART driver (kernel/uart.c) and consputc() (kernel/console.c)

    Output waits in a ring of 32 bytes between two 64-bit counters until the
    device reports that its holding register is empty.  The device is what it
    has been sent ([u_out]), what it has received ([u_in]) and the values its
    status register will report ([u_idle]; a device that was given time is
    idle).

    The file shows that the driver sends every byte once and in order
    ([uartstart_spec], [uartputc_spec]) and that the busy wait of
    uartputc_sync() ends. *)

From Stdlib Require Import ZArith Lia.
From stdpp Require Import base tactics numbers gmap strings option list.
From S2P Require Import Prelude Kernel Spinlock Sched Ring.

(** ** Definitions *)

(** Register numbers and bits. *)
Definition IER : Z := 1.
Definition IER_RX_ENABLE : Z := Z.shiftl 1 0.
Definition IER_TX_ENABLE : Z := Z.shiftl 1 1.
Definition FCR : Z := 2.
Definition FCR_FIFO_ENABLE : Z := Z.shiftl 1 0.
Definition FCR_FIFO_CLEAR : Z := Z.shiftl 3 1.
Definition LCR : Z := 3.
Definition LCR_EIGHT_BITS : Z := Z.shiftl 3 0.
Definition LCR_BAUD_LATCH : Z := Z.shiftl 1 7.
Definition LSR_RX_READY : Z := Z.shiftl 1 0.
Definition LSR_TX_IDLE : Z := Z.shiftl 1 5.

(** WriteReg(reg, v) on a control register, and on THR *)
Definition write_reg (reg v : Z) : K unit :=
  modify (upd_k_uart (upd_u_regs (fun l => l ++ [(reg, u8 v)]))).

Definition write_thr (v : Z) : K unit :=
  modify (upd_k_uart (upd_u_out (fun l => l ++ [u8 v]))).

(** ReadReg(LSR): reading it takes time, so the next value may differ. *)
Definition read_lsr : K Z :=
  u ← gets k_uart;
  modify (upd_k_uart (upd_u_idle tail));;
  mret (Z.lor (if bool_decide (u_in u = []) then 0 else LSR_RX_READY)
              (if default true (head (u_idle u)) then LSR_TX_IDLE else 0)).

(** void uartinit(void) *)
Definition uartinit : K unit :=
  write_reg IER 0x00;;
  write_reg LCR LCR_BAUD_LATCH;;
  write_reg 0 0x03;;
  write_reg 1 0x00;;
  write_reg LCR LCR_EIGHT_BITS;;
  write_reg FCR (Z.lor FCR_FIFO_ENABLE FCR_FIFO_CLEAR);;
  write_reg IER (Z.lor IER_TX_ENABLE IER_RX_ENABLE);;
  initlock L_uart.

(** void uartstart() *)
Definition uartstart_body (_ : unit) : K (unit + unit) :=
  u ← gets k_uart;
  if tx_w u =? tx_r u then mret (inr tt)
  else
    lsr ← read_lsr;
    if Z.land lsr LSR_TX_IDLE =? 0 then mret (inr tt)
    else
      c ← gets (fun s => queue_at 32 (tx_r (k_uart s)) (tx_buf (k_uart s)));
      modify (upd_k_uart (upd_tx_r (fun r => u64 (r + 1))));;
      wakeup Ch_uart;;
      write_thr c;;
      mret (inl tt).

(** The fuel is the number of bytes waiting, and one more round. *)
Definition uartstart : K unit :=
  u ← gets k_uart;
  loop (S (Z.to_nat (u64 (tx_w u - tx_r u)))) uartstart_body tt.

(** void uartputc(int c): the loop that waits for room and what follows it, the
    function, and what runs when the sleep in the loop returns *)
Definition uartputc_loop (c : Z) : K unit :=
  u ← gets k_uart;
  when (tx_w u =? u64 (tx_r u + 32)) (sleep Ch_uart L_uart);;
  modify (upd_k_uart (upd_tx_buf (queue_set 32 (tx_w u) (u8 c))));;
  modify (upd_k_uart (upd_tx_w (fun w => u64 (w + 1))));;
  uartstart;;
  release L_uart.

Definition uartputc (c : Z) : K unit :=
  acquire L_uart;;
  p ← gets k_panicked;
  when p spin;;
  uartputc_loop c.

Definition uartputc_resume (intena : bool) (c : Z) : K unit :=
  sleep_resume intena L_uart;;
  uartputc_loop c.

(** void uartputc_sync(int c); the fuel of the busy wait is the number of
    status values the device still has to report before it stays idle. *)
Definition wait_idle (_ : unit) : K (unit + unit) :=
  lsr ← read_lsr;
  mret (if Z.land lsr LSR_TX_IDLE =? 0 then inl tt else inr tt).

Definition uartputc_sync (c : Z) : K unit :=
  push_off;;
  p ← gets k_panicked;
  when p spin;;
  u ← gets k_uart;
  loop (S (length (u_idle u))) wait_idle tt;;
  write_thr c;;
  pop_off.

(** int uartgetc(void) *)
Definition uartgetc : K Z :=
  lsr ← read_lsr;
  if negb (Z.land lsr LSR_RX_READY =? 0) then
    u ← gets k_uart;
    modify (upd_k_uart (upd_u_in tail));;
    mret (default 0 (head (u_in u)))
  else mret (-1).

(** void consputc(int c), of console.c *)
Definition BACKSPACE : Z := 0x100.

Definition consputc (c : Z) : K unit :=
  if c =? BACKSPACE then
    uartputc_sync 8;;
    uartputc_sync 32;;
    uartputc_sync 8
  else uartputc_sync c.

(** ** Specification *)

(** The bytes waiting to be sent. *)
Definition tx_pending (u : uartst) : list Z := queue (2 ^ 64) 32 (tx_buf u) (tx_r u) (tx_w u).

Record uart_ok (u : uartst) : Prop := {
  uo_len : length (tx_buf u) = 32%nat;
  uo_r : 0 <= tx_r u < 2 ^ 64;
  uo_w : 0 <= tx_w u < 2 ^ 64;
  uo_room : (tx_w u - tx_r u) mod 2 ^ 64 <= 32;
  uo_bytes : Forall byte_ok (tx_buf u);
}.

(** The device reports values up to the first that says idle. *)
Fixpoint after_idle (l : list bool) : list bool :=
  match l with
  | [] => []
  | b :: l' => if b then l' else after_idle l'
  end.

(** The device is sent [c] by busy waiting. *)
Definition say1 (c : Z) (u : uartst) : uartst :=
  upd_u_out (fun l => l ++ [u8 c]) (upd_u_idle after_idle u).

Definition say (cs : list Z) (u : uartst) : uartst := foldl (fun u c => say1 c u) u cs.

(** The bytes consputc() sends. *)
Definition cons_bytes (c : Z) : list Z := if c =? BACKSPACE then [8; 32; 8] else [c].

(** The driver has sent a prefix of what was waiting. *)
Record drained (u u' : uartst) : Prop := {
  dr_ok : uart_ok u';
  dr_sent : exists bs, u_out u' = u_out u ++ bs /\ tx_pending u = bs ++ tx_pending u';
  dr_w : tx_w u' = tx_w u;
  dr_in : u_in u' = u_in u;
}.

(** Code that changes the UART and wakes processes. *)
Definition uart_step (s s' : kstate) : Prop :=
  s' ≡ upd_k_uart (fun _ => k_uart s') (upd_k_procs (fun _ => k_procs s') s) /\
  woke (c_proc (k_cpu s)) (k_procs s) (k_procs s').

(** ** Lemmas *)

Lemma lsr_idle a b :
  (Z.land (Z.lor (if a : bool then 0 else LSR_RX_READY) (if b : bool then LSR_TX_IDLE else 0))
     LSR_TX_IDLE =? 0) = negb b.
Proof. by destruct a, b. Qed.

Lemma lsr_ready a b :
  (Z.land (Z.lor (if a : bool then 0 else LSR_RX_READY) (if b : bool then LSR_TX_IDLE else 0))
     LSR_RX_READY =? 0) = a.
Proof. by destruct a, b. Qed.

Lemma wp_read_lsr (Q : Z -> kstate -> Prop) s :
  Q (Z.lor (if bool_decide (u_in (k_uart s) = []) then 0 else LSR_RX_READY)
           (if default true (head (u_idle (k_uart s))) then LSR_TX_IDLE else 0))
    (upd_k_uart (upd_u_idle tail) s) ->
  wp read_lsr Q s.
Proof. intros HQ. unfold read_lsr. by wp_steps. Qed.

Lemma wait_idle_loop s fuel :
  (length (u_idle (k_uart s)) < fuel)%nat ->
  wp (loop fuel wait_idle tt) (fun _ s' => s' = upd_k_uart (upd_u_idle after_idle) s) s.
Proof.
  revert s. induction fuel as [|fuel IH]; intros s Hf; [lia|].
  apply wp_loop_step. unfold wait_idle. apply wp_bind, wp_read_lsr, wp_ret.
  rewrite lsr_idle. destruct (u_idle (k_uart s)) as [|[] l] eqn:E; cbn [head default negb].
  - apply upd_k_uart_ext. unfold upd_u_idle. by rewrite E.
  - apply upd_k_uart_ext. unfold upd_u_idle. by rewrite E.
  - eapply wp_mono.
    { apply IH. ksimpl. rewrite E. cbn in *. lia. }
    cbn beta. intros _ s' ->. rewrite upd_k_uart_comp. apply upd_k_uart_ext.
    unfold upd_u_idle. ksimpl. by rewrite E.
Qed.

(** The busy wait ends and the device is sent the byte; nothing else changes. *)
Lemma uartputc_sync_spec c s :
  sync_ok s -> k_panicked s = false ->
  wp (uartputc_sync c) (fun _ s' => s' ≡ upd_k_uart (say1 c) s) s.
Proof.
  intros Hs Hp. unfold uartputc_sync. apply wp_bind. eapply wp_ok; [apply push_off_ok|].
  wp_steps. change (k_panicked (pushed s)) with (k_panicked s). rewrite Hp. wp_steps.
  eapply wp_mono; [apply wait_idle_loop, Nat.lt_succ_diag_r|]. cbn beta. intros _ s1 ->.
  unfold write_thr. wp_steps. by apply (wp_pop_off s _ (upd_k_uart (say1 c) s)).
Qed.

Lemma say_app cs ds u : say (cs ++ ds) u = say ds (say cs u).
Proof. apply foldl_app. Qed.

Lemma upd_say_app cs ds s :
  upd_k_uart (say (cs ++ ds)) s = upd_k_uart (say ds) (upd_k_uart (say cs) s).
Proof. rewrite upd_k_uart_comp. apply upd_k_uart_ext, say_app. Qed.

Lemma consputc_spec c s :
  sync_ok s -> k_panicked s = false ->
  wp (consputc c) (fun _ s' => s' ≡ upd_k_uart (say (cons_bytes c)) s) s.
Proof.
  intros Hs Hp. unfold consputc, cons_bytes. destruct (c =? BACKSPACE).
  2: { by apply uartputc_sync_spec. }
  apply wp_bind. eapply wp_mono; [by apply uartputc_sync_spec|]. cbn beta. intros _ s1 E1.
  assert (Hs1 : sync_ok s1) by (eapply sync_sync_ok; [by rewrite (keq_sync _ _ E1)|done]).
  apply wp_bind. eapply wp_mono.
  { apply uartputc_sync_spec; [done|]. by rewrite (keq_k_panicked _ _ E1). }
  cbn beta. intros _ s2 E2.
  assert (Hs2 : sync_ok s2) by (eapply sync_sync_ok; [by rewrite (keq_sync _ _ E2)|done]).
  eapply wp_mono.
  { apply uartputc_sync_spec; [done|].
    by rewrite (keq_k_panicked _ _ E2); ksimpl; rewrite (keq_k_panicked _ _ E1). }
  cbn beta. intros _ s3 E3. rewrite E3, E2, E1. by rewrite !upd_k_uart_comp.
Qed.

(** Characters sent one after the other. *)
Lemma say_each (f : Z -> list Z) (m : Z -> K unit) cs s :
  (forall c s, sync_ok s -> k_panicked s = false ->
     wp (m c) (fun _ s' => s' ≡ upd_k_uart (say (f c)) s) s) ->
  sync_ok s -> k_panicked s = false ->
  wp (for_each cs m) (fun _ s' => s' ≡ upd_k_uart (say (cs ≫= f)) s) s.
Proof.
  intros Hm. revert s. induction cs as [|c cs IH]; intros s Hs Hp; simpl.
  { apply wp_ret. unfold say. simpl. keq. }
  apply wp_bind. eapply wp_mono; [by apply Hm|]. cbn beta. intros _ s1 E1.
  eapply wp_mono.
  { apply IH; [by eapply sync_sync_ok; [rewrite (keq_sync _ _ E1); ksync|]|].
    by rewrite (keq_k_panicked _ _ E1). }
  cbn beta. intros _ s2 E2. by rewrite E2, E1, upd_say_app.
Qed.

(** *** The transmit ring *)

Lemma div_32_64 : (32 | 2 ^ 64).
Proof. by exists (2 ^ 59). Qed.

Lemma tx_empty u : uart_ok u -> tx_w u = tx_r u -> tx_pending u = [].
Proof. intros _ E. unfold tx_pending. rewrite E. by apply queue_empty. Qed.

(** One iteration of uartstart(). *)
Lemma tx_take u :
  uart_ok u -> tx_w u <> tx_r u ->
  let c := queue_at 32 (tx_r u) (tx_buf u) in
  byte_ok c /\
  drained u (upd_u_out (fun l => l ++ [u8 c]) (upd_tx_r (fun r => u64 (r + 1)) (upd_u_idle tail u))) /\
  u64 (tx_w u - u64 (tx_r u + 1)) = u64 (tx_w u - tx_r u) - 1.
Proof.
  intros [Hl Hr Hw Hroom Hb] Hne c.
  assert (Hc : byte_ok c).
  { unfold c, queue_at. destruct (nth_in_or_default (Z.to_nat (tx_r u mod 32)) (tx_buf u) 0) as [Hin| ->].
    - rewrite Forall_forall in Hb. apply Hb. by apply list_elem_of_In.
    - unfold byte_ok. lia. }
  assert (Hm : (tx_w u - tx_r u) mod 2 ^ 64 <> 0) by (intros E; apply queue_nil in E; [congruence|lia..]).
  assert (Hd : u64 (tx_w u - u64 (tx_r u + 1)) = u64 (tx_w u - tx_r u) - 1) by (unfold u64 in *; zdm).
  split; [done|]. split; [|done]. split; ksimpl; try done.
  - split; ksimpl; try done; [apply u64_range|]. unfold u64 in *. lia.
  - exists [c]. split; [by rewrite u8_small|]. unfold tx_pending. ksimpl.
    rewrite queue_get; [done|apply div_32_64|lia|done].
Qed.

Lemma drained_refl u : uart_ok u -> drained u u.
Proof. intros. split; try done. exists []. by rewrite app_nil_r. Qed.

Lemma drained_trans u1 u2 u3 : drained u1 u2 -> drained u2 u3 -> drained u1 u3.
Proof.
  intros [_ (b1 & O1 & P1) W1 I1] [H2 (b2 & O2 & P2) W2 I2].
  split; [done| |congruence..]. exists (b1 ++ b2).
  by rewrite O2, O1, P1, P2, !app_assoc.
Qed.

Lemma uart_step_refl s : uart_step s s.
Proof. split; [keq|apply woke_refl]. Qed.

Lemma uart_step_trans s1 s2 s3 : uart_step s1 s2 -> uart_step s2 s3 -> uart_step s1 s3.
Proof.
  intros [E12 W12] [E23 W23]. split.
  - transitivity (upd_k_uart (fun _ => k_uart s3) (upd_k_procs (fun _ => k_procs s3) s2));
      [exact E23|]. rewrite E12. keq.
  - rewrite (keq_c_proc _ _ E12) in W23. by eapply woke_trans.
Qed.

Lemma uart_step_upd f s : uart_step s (upd_k_uart f s).
Proof. split; [keq|apply woke_refl]. Qed.

Lemma uart_step_wakeup ch d s s' :
  s' ≡ upd_k_procs (woken ch (c_proc (k_cpu s)) d) s -> uart_step s s'.
Proof.
  intros E. split.
  - rewrite (keq_k_uart _ _ E), (keq_k_procs _ _ E). rewrite E at 1. keq.
  - rewrite (keq_k_procs _ _ E). apply woken_woke.
Qed.

Lemma uart_step_calm lks s s' : uart_step s s' -> calm lks s -> calm lks s'.
Proof.
  intros [E [L _]] Hc. eapply calm_keq; [exact E|]. eapply calm_ext; [by ksync| |exact Hc]. exact L.
Qed.

Lemma uart_step_proc s s' : uart_step s s' -> c_proc (k_cpu s') = c_proc (k_cpu s).
Proof. intros [E _]. apply (keq_c_proc _ _ E). Qed.

(** uartstart() sends a prefix of what waits, in order; all of it when the device
    keeps up. *)
Lemma uartstart_loop lks fuel s :
  calm lks s -> (forall i, L_proc i ∉ lks) -> uart_ok (k_uart s) ->
  u64 (tx_w (k_uart s) - tx_r (k_uart s)) < Z.of_nat fuel ->
  wp (loop fuel uartstart_body tt) (fun _ s' =>
    uart_step s s' /\ drained (k_uart s) (k_uart s') /\
    (u_idle (k_uart s) = [] -> tx_pending (k_uart s') = [])) s.
Proof.
  intros Hc Hlk. revert s Hc. induction fuel as [|fuel IH]; intros s Hc Hu Hf.
  { pose proof (u64_range (tx_w (k_uart s) - tx_r (k_uart s))). lia. }
  apply wp_loop_step. unfold uartstart_body. wp_steps.
  destruct (Z.eqb_spec (tx_w (k_uart s)) (tx_r (k_uart s))) as [E|Hne].
  { wp_steps. split; [apply uart_step_refl|]. split; [by apply drained_refl|]. by intros; apply tx_empty. }
  wp_steps. apply wp_read_lsr. rewrite lsr_idle.
  destruct (default true (head (u_idle (k_uart s)))) eqn:Ei; cbn [negb].
  2: { wp_steps. split; [apply uart_step_upd|]. split; [|by intros E0; rewrite E0 in Ei].
       destruct Hu. split; ksimpl; try done. exists []. by rewrite app_nil_r. }
  destruct (tx_take _ Hu Hne) as (Hb & Hd & Hn). wp_steps.
  assert (H1 : uart_step s (upd_k_uart (upd_tx_r (fun r => u64 (r + 1)))
    (upd_k_uart (upd_u_idle tail) s))) by (eapply uart_step_trans; apply uart_step_upd).
  eapply wp_mono; [by apply (wakeup_spec lks); [eapply uart_step_calm|]|].
  cbn beta. intros _ s1 E1. unfold write_thr. wp_steps.
  pose proof (uart_step_trans _ _ _ H1 (uart_step_wakeup _ _ _ _ E1)) as H2.
  match goal with |- wp (loop _ _ _) _ ?x => assert (H3 : uart_step s x)
    by (eapply uart_step_trans; [exact H2|apply uart_step_upd]); set (s2 := x) in * end.
  assert (Eu : k_uart s2 = upd_u_out (fun l => l ++ [u8 (queue_at 32 (tx_r (k_uart s))
    (tx_buf (k_uart s)))]) (upd_tx_r (fun r => u64 (r + 1)) (upd_u_idle tail (k_uart s)))).
  { unfold s2. ksimpl. rewrite (keq_k_uart _ _ E1). reflexivity. }
  rewrite <- Eu in Hd. eapply wp_mono.
  { apply IH; [by eapply uart_step_calm|apply Hd|]. rewrite Eu. ksimpl. lia. }
  cbn beta. intros _ s3 (H4 & Hd' & Hi). split; [by eapply uart_step_trans|].
  split; [by eapply drained_trans|]. intros E0. apply Hi. rewrite Eu. ksimpl. by rewrite E0.
Qed.

Lemma uartstart_spec lks s :
  calm lks s -> (forall i, L_proc i ∉ lks) -> uart_ok (k_uart s) ->
  wp uartstart (fun _ s' =>
    uart_step s s' /\ drained (k_uart s) (k_uart s') /\
    (u_idle (k_uart s) = [] -> tx_pending (k_uart s') = [])) s.
Proof.
  intros Hc Hlk Hu. unfold uartstart. wp_steps. apply (uartstart_loop lks); [done..|].
  pose proof (u64_range (tx_w (k_uart s) - tx_r (k_uart s))). lia.
Qed.

(** Storing a byte in the ring. *)
Lemma tx_put c u :
  uart_ok u -> tx_w u <> u64 (tx_r u + 32) ->
  let u' := upd_tx_w (fun w => u64 (w + 1)) (upd_tx_buf (queue_set 32 (tx_w u) (u8 c)) u) in
  uart_ok u' /\ tx_pending u' = tx_pending u ++ [u8 c].
Proof.
  intros [Hl Hr Hw Hroom Hb] Hne u'.
  assert (Hlt : (tx_w u - tx_r u) mod 2 ^ 64 < 32).
  { destruct (Z.eq_dec ((tx_w u - tx_r u) mod 2 ^ 64) 32) as [E|]; [|lia].
    destruct Hne. unfold u64. zdm. }
  split.
  - split; unfold u'; ksimpl; try done.
    + unfold queue_set. by len.
    + apply u64_range.
    + unfold u64. rewrite queue_succ by lia. lia.
    + unfold queue_set. apply Forall_insert; [done|]. apply u8_range.
  - unfold tx_pending, u'. ksimpl. apply queue_put; [lia|apply div_32_64|lia|done|lia|lia].
Qed.

Lemma uart_step_keq s s1 s' : s1 ≡ s -> uart_step s1 s' -> uart_step s s'.
Proof.
  intros E [E' W]. split; [by rewrite <- E|].
  by rewrite <- (keq_c_proc _ _ E), <- (keq_k_procs _ _ E).
Qed.

(** ** Properties *)

(** uartputc() with room in the ring loses no byte and keeps their order: the
    bytes the device got and those that wait are afterwards the same sequence
    followed by the new byte, across wrap-around of the counters; a device that
    is ready has then been sent all of them. *)
Theorem uartputc_fifo c s :
  calm [] s -> k_panicked s = false -> uart_ok (k_uart s) ->
  tx_w (k_uart s) <> u64 (tx_r (k_uart s) + 32) ->
  wp (uartputc c) (fun _ s' =>
    u_out (k_uart s') ++ tx_pending (k_uart s') =
      u_out (k_uart s) ++ tx_pending (k_uart s) ++ [u8 c] /\
    uart_ok (k_uart s') /\ uart_step s s' /\
    (u_idle (k_uart s) = [] -> tx_pending (k_uart s') = [])) s.
Proof.
  intros Hc Hp Hu Hroom. destruct (tx_put c _ Hu Hroom) as [Hu' Hpend].
  unfold uartputc, uartputc_loop. apply wp_bind, wp_acquire; [apply Hc; set_solver|].
  wp_steps. change (k_panicked (locked L_uart s)) with (k_panicked s). rewrite Hp. wp_steps.
  change (k_uart (locked L_uart s)) with (k_uart s).
  rewrite (proj2 (Z.eqb_neq _ _) Hroom). wp_steps.
  eapply wp_mono.
  { apply (uartstart_spec [L_uart]); [|set_solver|exact Hu'].
    eapply uart_step_calm; [|by apply calm_locked]. eapply uart_step_trans; apply uart_step_upd. }
  cbn beta. intros _ s1 (Hs & Hd & Hi). pose proof Hs as [E W].
  apply (wp_release L_uart s); [apply Hc|by rewrite (keq_sync _ _ E)|].
  destruct Hd as [Hok (bs & Hout & Hbs) _ _]. change (k_uart (resync s s1)) with (k_uart s1).
  assert (Hbs' : tx_pending (k_uart s) ++ [u8 c] = bs ++ tx_pending (k_uart s1))
    by (rewrite <- Hpend; exact Hbs).
  assert (Hout' : u_out (k_uart s1) = u_out (k_uart s) ++ bs) by exact Hout.
  split; [|split; [exact Hok|split; [|exact Hi]]].
  - by rewrite Hout', Hbs', app_assoc.
  - split; [|exact W]. apply resync_keq; [|by ksync]. rewrite (keq_others _ _ E). reflexivity.
Qed.

(** A ring that is about to wrap, with a byte in it and an idle device. *)
Definition example_uart : kstate :=
  upd_k_cpu (upd_c_proc (fun _ => Some 0%nat))
    (upd_k_uart (fun _ => mkUart (replicate 32 65) (2 ^ 64 - 1) (2 ^ 64 - 2) [] [] [] [])
      (boot_state 0 ∅ ∅)).

Lemma uartputc_fifo_witness :
  calm [] example_uart /\ wp (uartputc 66) (fun _ s' => u_out (k_uart s') = [65; 66]) example_uart.
Proof.
  assert (Hc : calm [] example_uart).
  { split; [by split|done|done|]. exists 0%nat. split; [done|lia]. }
  split; [done|]. eapply wp_mono.
  - apply (uartputc_fifo 66 example_uart); [done|done| |by vm_compute].
    split; [done|by vm_compute..|]. apply Forall_replicate. unfold byte_ok. lia.
  - intros _ s' (Ho & _ & _ & Hi). rewrite (Hi eq_refl), app_nil_r in Ho. rewrite Ho.
    by vm_compute.
Defined.
