(* ===== verification/Printf.v ===== *)
(** * Kernel output (kernel/printf.c) and procdump() (kernel/proc.c)

    printfk() sends its output through consputc(), which busy-waits for the
    UART.  [varg] is an argument of the variadic call.  The numerals printkint()
    prints are read back by [numeral]; [printkint_roundtrip] is the round trip,
    with the bound on the digit buffer. *)

From Stdlib Require Import ZArith Lia.
From stdpp Require Import base tactics numbers gmap strings option list.
From S2P Require Import Prelude Kernel Spinlock Kstring Sched Ring Uart.

(** ** Definitions *)

(** digits[] *)
Definition digits : list Z := str "0123456789abcdef".

Definition digit (d : Z) : Z := nth (Z.to_nat d) digits 0.

(** The do-while loop of printkint: the contents of buf, which has [room] bytes
    left; [None] when it would overflow. *)
Fixpoint printkint_digits (room : nat) (x base : Z) : option (list Z) :=
  match room with
  | O => None
  | S room' =>
      let d := digit (x mod base) in
      let x' := x / base in
      if negb (x' =? 0) then cons d <$> printkint_digits room' x' base else Some [d]
  end.

(** buf after [if (sign) buf[i++] = '-';] *)
Definition printkint_buf (xx base : Z) (sign : bool) : option (list Z) :=
  let neg := sign && (xx <? 0) in
  let x := if neg then u32 (- xx) else u32 xx in
  match printkint_digits 16 x base with
  | None => None
  | Some buf =>
      if neg then if (length buf <? 16)%nat then Some (buf ++ str "-") else None
      else Some buf
  end.

(** static void printkint(int xx, int base, int sign) *)
Definition printkint (xx base : Z) (sign : bool) : K unit :=
  match printkint_buf xx base sign with
  | None => panic "buffer overflow"
  | Some buf => for_each (reverse buf) consputc
  end.

(** static void printkptr(uint64 x) *)
Fixpoint printkptr_loop (n : nat) (x : Z) : K unit :=
  match n with
  | O => mret tt
  | S n' =>
      consputc (digit (Z.shiftr x 60));;
      printkptr_loop n' (u64 (Z.shiftl x 4))
  end.

Definition printkptr (x : Z) : K unit :=
  consputc 48;;
  consputc 120;;
  printkptr_loop 16 x.

(** An argument of printfk(); a null string is [A_str None]. *)
Inductive varg := A_int (v : Z) | A_ptr (v : Z) | A_str (o : option (list Z)).

(** va_arg(ap, t).  An argument that is missing or of another type is undefined
    behaviour, which no call in the kernel has. *)
Definition va_int (args : list varg) : K (Z * list varg) :=
  match args with A_int v :: r => mret (v, r) | _ => panic "va_arg" end.

Definition va_ptr (args : list varg) : K (Z * list varg) :=
  match args with A_ptr v :: r => mret (v, r) | _ => panic "va_arg" end.

Definition va_str (args : list varg) : K (option (list Z) * list varg) :=
  match args with A_str o :: r => mret (o, r) | _ => panic "va_arg" end.

(** The loop of printfk over the format string. *)
Fixpoint printfk_loop (fmt : list Z) (args : list varg) : K unit :=
  match fmt with
  | [] => mret tt
  | c :: fmt =>
      if c =? 0 then mret tt
      else if negb (c =? 37) then consputc c;; printfk_loop fmt args
      else
        match fmt with
        | [] => mret tt
        | c :: fmt =>
            if c =? 0 then mret tt
            else if c =? 100 then
              '(v, args) ← va_int args;
              printkint v 10 true;;
              printfk_loop fmt args
            else if c =? 120 then
              '(v, args) ← va_int args;
              printkint v 16 true;;
              printfk_loop fmt args
            else if c =? 112 then
              '(v, args) ← va_ptr args;
              printkptr v;;
              printfk_loop fmt args
            else if c =? 115 then
              '(o, args) ← va_str args;
              for_each (default (str "(null)") o) consputc;;
              printfk_loop fmt args
            else if c =? 37 then consputc 37;; printfk_loop fmt args
            else consputc 37;; consputc c;; printfk_loop fmt args
        end
  end.

(** void printfk(char *fmt, ...) *)
Definition printfk (fmt : option (list Z)) (args : list varg) : K unit :=
  locking ← gets k_prlocking;
  when locking (acquire L_pr);;
  match fmt with
  | None => panic "null fmt"
  | Some fmt =>
      printfk_loop fmt args;;
      when locking (release L_pr)
  end.

(** printfk() of a string literal. *)
Definition printk (fmt : string) (args : list varg) : K unit := printfk (Some (str fmt)) args.

(** A newline; string literals here have no escapes. *)
Definition nl : list Z := [10].

(** void panic(char *s): what it prints, and the function.  [panic] of the
    prelude, which ends a run, stands for a call of it elsewhere. *)
Definition panic_print (s : list Z) : K unit :=
  modify (upd_k_prlocking (fun _ => false));;
  printk "panic: " [];;
  printfk (Some s) [];;
  printfk (Some nl) [];;
  modify (upd_k_panicked (fun _ => true)).

Definition kpanic (s : list Z) : K unit :=
  panic_print s;;
  spin.

(** void printfkinit(void) *)
Definition printfkinit : K unit :=
  initlock L_pr;;
  modify (upd_k_prlocking (fun _ => true)).

(** void procdump(void), of proc.c *)
Definition state_name (st : procstate) : string :=
  match st with
  | UNUSED => "unused"
  | USED => "used"
  | SLEEPING => "sleep "
  | RUNNABLE => "runble"
  | RUNNING => "run   "
  | ZOMBIE => "zombie"
  end.

Definition procdump : K unit :=
  printfk (Some nl) [];;
  for_each (seq 0 64) (fun i =>
    p ← get_proc i;
    if decide (p_state p = UNUSED) then mret tt
    else
      printk "%d %s %s" [A_int (p_pid p); A_str (Some (str (state_name (p_state p))));
                         A_str (Some (upto_nul (p_name p)))];;
      printfk (Some nl) []).

(** ** Specification *)

(** The value of a digit. *)
Definition digit_val (base c : Z) : option Z :=
  match find_index (fun d => d =? c) (take (Z.to_nat base) digits) with
  | Some i => Some (Z.of_nat i)
  | None => None
  end.

(** Reads an unsigned numeral, most significant digit first. *)
Fixpoint unsigned (base acc : Z) (cs : list Z) : option Z :=
  match cs with
  | [] => Some acc
  | c :: cs' => d ← digit_val base c; unsigned base (acc * base + d) cs'
  end.

(** Reads a numeral with an optional minus sign. *)
Definition numeral (base : Z) (cs : list Z) : option Z :=
  match cs with
  | [] => None
  | c :: cs' => if c =? 45 then Z.opp <$> unsigned base 0 cs' else unsigned base 0 cs
  end.

(** ** Lemmas *)

Lemma digit_val_digit base d :
  base = 10 \/ base = 16 -> 0 <= d < base -> digit_val base (digit d) = Some d.
Proof.
  intros Hb Hd.
  assert (Hall : forallb (fun d => bool_decide (digit_val base (digit d) = Some d)) (seqZ 0 base) = true)
    by (by destruct Hb as [->| ->]; vm_compute).
  rewrite forallb_forall in Hall. specialize (Hall d). rewrite bool_decide_eq_true in Hall.
  apply Hall, list_elem_of_In, elem_of_seqZ. lia.
Qed.

Lemma digit_plain base d :
  base = 10 \/ base = 16 -> 0 <= d < base -> 48 <= digit d < 128.
Proof.
  intros Hb Hd.
  assert (Hall : forallb (fun d => (48 <=? digit d) && (digit d <? 128)) (seqZ 0 16) = true)
    by by vm_compute.
  rewrite forallb_forall in Hall. specialize (Hall d).
  assert (H : ((48 <=? digit d) && (digit d <? 128))%bool = true)
    by (apply Hall, list_elem_of_In, elem_of_seqZ; lia).
  bool_decide_tests. lia.
Qed.

Lemma unsigned_snoc base acc cs c d v :
  unsigned base acc cs = Some v -> digit_val base c = Some d ->
  unsigned base acc (cs ++ [c]) = Some (v * base + d).
Proof.
  revert acc. induction cs as [|c' cs IH]; intros acc; simpl.
  - intros [= ->] ->. done.
  - destruct (digit_val base c') as [d'|]; simpl; [|done]. apply IH.
Qed.

(** A number of [k] decimal digits takes at most [k] bytes, and its digits read back
    to it. *)
Lemma printkint_digits_ok base k room x :
  base = 10 \/ base = 16 -> 0 <= x < 10 ^ Z.of_nat k -> (0 < k <= room)%nat ->
  exists buf, printkint_digits room x base = Some buf /\ (0 < length buf <= k)%nat /\
    Forall (fun c => 48 <= c < 128) buf /\ unsigned base 0 (reverse buf) = Some x.
Proof.
  intros Hb. revert x room. induction k as [|k IH]; intros x room Hx Hr; [lia|].
  destruct room as [|room]; [lia|]. cbn [printkint_digits].
  assert (Hd : 0 <= x mod base < base) by (apply Z.mod_pos_bound; lia).
  destruct (Z.eqb_spec (x / base) 0) as [E|Hne]; cbn [negb].
  - eexists. split; [done|]. cbn [length]. split; [lia|].
    split; [constructor; [by eapply digit_plain|done]|].
    rewrite reverse_singleton. cbn [unsigned]. rewrite digit_val_digit by done. cbn. f_equal.
    pose proof (Z.div_mod x base). lia.
  - assert (Hx' : 0 <= x / base < 10 ^ Z.of_nat k).
    { split; [apply Z.div_pos; lia|]. rewrite Nat2Z.inj_succ, Z.pow_succ_r in Hx by lia.
      apply Z.div_lt_upper_bound; [lia|]. nia. }
    assert (Hr' : (0 < k)%nat) by (destruct k; [simpl in Hx'; lia|lia]).
    destruct (IH _ room Hx') as (buf & -> & Hl & Hp & Hv); [lia|]. eexists. split; [done|].
    cbn [length]. split; [lia|]. split; [constructor; [by eapply digit_plain|done]|].
    rewrite reverse_cons. erewrite unsigned_snoc; [|done|by apply digit_val_digit].
    f_equal. pose proof (Z.div_mod x base). lia.
Qed.

Lemma printkint_buf_ok base xx :
  base = 10 \/ base = 16 -> - 2 ^ 31 <= xx < 2 ^ 31 ->
  exists buf, printkint_buf xx base true = Some buf /\
    Forall (fun c => 45 <= c < 128) buf /\ numeral base (reverse buf) = Some xx.
Proof.
  intros Hb Hx. unfold printkint_buf. cbn [andb].
  set (x := if xx <? 0 then u32 (- xx) else u32 xx).
  assert (Ex : x = Z.abs xx) by (unfold x; destruct (Z.ltb_spec xx 0); rewrite u32_small; lia).
  destruct (printkint_digits_ok base 10 16 x) as (buf & -> & Hl & Hp & Hv); [done| |lia|].
  { rewrite Ex. change (10 ^ Z.of_nat 10) with 10000000000. lia. }
  assert (Hp' : Forall (fun c => 45 <= c < 128) buf) by (eapply Forall_impl; [done|]; cbn; lia).
  destruct (Z.ltb_spec xx 0).
  - rewrite (proj2 (Nat.ltb_lt _ _)) by lia. eexists. split; [done|].
    split; [apply Forall_app; split; [done|]; change (str "-") with [45]; by repeat constructor|].
    rewrite reverse_app. change (reverse (str "-")) with [45]. cbn [app numeral]. rewrite Hv. cbn.
    f_equal. lia.
  - eexists. split; [done|]. split; [done|].
    destruct (reverse buf) as [|c cs] eqn:E.
    { apply (f_equal length) in E. rewrite length_reverse in E. simpl in E. lia. }
    cbn [numeral]. rewrite (proj2 (Z.eqb_neq c 45)); [rewrite Hv; f_equal; lia|].
    apply Forall_reverse in Hp. rewrite E in Hp. inversion Hp. lia.
Qed.

Lemma cons_bytes_plain cs : Forall (fun c => 0 <= c < 256) cs -> cs ≫= cons_bytes = cs.
Proof.
  induction 1 as [|c cs Hc _ IH]; [done|]. simpl. unfold cons_bytes at 1.
  rewrite (proj2 (Z.eqb_neq c BACKSPACE)) by (unfold BACKSPACE; lia). simpl. f_equal. exact IH.
Qed.

Lemma consputc_all cs s :
  sync_ok s -> k_panicked s = false -> Forall (fun c => 0 <= c < 256) cs ->
  wp (for_each cs consputc) (fun _ s' => s' ≡ upd_k_uart (say cs) s) s.
Proof.
  intros Hs Hp Hcs. eapply wp_mono.
  { by apply (say_each cons_bytes); [apply consputc_spec|..]. }
  cbn beta. intros _ s'. by rewrite cons_bytes_plain.
Qed.

(** Printing a text without conversions. *)
Lemma printfk_loop_plain fmt args s :
  sync_ok s -> k_panicked s = false -> Forall (fun c => 0 < c < 256 /\ c <> 37) fmt ->
  wp (printfk_loop fmt args) (fun _ s' => s' ≡ upd_k_uart (say fmt) s) s.
Proof.
  intros Hs Hp Hf. revert s Hs Hp. induction Hf as [|c fmt [Hc Hne] _ IH]; intros s Hs Hp.
  { apply wp_ret. unfold say. simpl. keq. }
  cbn [printfk_loop]. rewrite (proj2 (Z.eqb_neq c 0)), (proj2 (Z.eqb_neq c 37)) by lia. cbn [negb].
  apply wp_bind. eapply wp_mono; [by apply consputc_spec|]. cbn beta. intros _ s1 E1.
  assert (Hs1 : sync_ok s1) by (eapply sync_sync_ok; [by rewrite (keq_sync _ _ E1)|done]).
  eapply wp_mono; [apply IH; [done|by rewrite (keq_k_panicked _ _ E1)]|]. cbn beta. intros _ s2 E2.
  etrans; [exact E2|]. etrans; [apply upd_k_uart_proper, E1|].
  unfold cons_bytes. rewrite (proj2 (Z.eqb_neq c BACKSPACE)) by (unfold BACKSPACE; lia).
  rewrite <- upd_say_app. done.
Qed.

Lemma printfk_plain fmt args s :
  sync_ok s -> free L_pr s -> k_panicked s = false -> Forall (fun c => 0 < c < 256 /\ c <> 37) fmt ->
  wp (printfk (Some fmt) args) (fun _ s' => s' ≡ upd_k_uart (say fmt) s) s.
Proof.
  intros Hs Hfr Hp Hf. unfold printfk. wp_steps. destruct (k_prlocking s).
  - cbn [when]. apply wp_acquire; [done|]. apply wp_bind.
    eapply wp_mono; [apply printfk_loop_plain; [by apply sync_ok_locked|done|done]|].
    cbn beta. intros _ s1 E1. cbn [when]. apply (wp_release L_pr s); [done|by rewrite (keq_sync _ _ E1); ksync|].
    apply resync_keq; [|by ksync]. rewrite (keq_others _ _ E1). done.
  - cbn [when]. wp_steps. eapply wp_mono; [by apply printfk_loop_plain|]. cbn beta. intros _ s1 E1. by wp_steps.
Qed.

(** ** Properties *)

(** Printkint() of any int in base 10 or 16 stays within its 16-byte buffer and
    sends a numeral that reads back to the number, the most negative int
    included; nothing else changes. *)
Theorem printkint_roundtrip base xx s :
  base = 10 \/ base = 16 -> - 2 ^ 31 <= xx < 2 ^ 31 -> sync_ok s -> k_panicked s = false ->
  wp (printkint xx base true) (fun _ s' =>
    exists cs, s' ≡ upd_k_uart (say cs) s /\ numeral base cs = Some xx) s.
Proof.
  intros Hb Hx Hs Hp. unfold printkint.
  destruct (printkint_buf_ok base xx Hb Hx) as (buf & -> & Hc & Hn).
  eapply wp_mono; [apply consputc_all; [done..|]|].
  - apply Forall_reverse. eapply Forall_impl; [done|]. cbn. lia.
  - cbn beta. intros _ s' E. eauto.
Qed.

Lemma printkint_roundtrip_witness :
  wp (printkint (- 2 ^ 31) 10 true) (fun _ s' =>
    exists cs, s' ≡ upd_k_uart (say cs) (boot_state 0 ∅ ∅) /\ numeral 10 cs = Some (- 2 ^ 31))
    (boot_state 0 ∅ ∅).
Proof. apply (printkint_roundtrip 10 (- 2 ^ 31)); [by left|lia|by split|done]. Defined.
