(* ===== verification/Uio.v ===== *)
(** * Copies to and from user or kernel memory (kernel/proc.c)

    The pairs [(user, address)] that the file and device code passes around.  A
    kernel address is either physical memory or a local variable of the caller;
    the bytes of a local variable are part of the value that stands for it. *)

From Stdlib Require Import ZArith Lia.
From stdpp Require Import base tactics numbers gmap strings option list.
From S2P Require Import Prelude Kernel Spinlock Kstring Riscv Kalloc KallocInit Vm Sched.

(** ** Definitions *)

(** [UserAddr va] is (1, va); [KernAddr pa] and [KernBuf bs] are (0, address) of
    memory and of a local variable that holds [bs]. *)
Inductive loc := UserAddr (va : Z) | KernAddr (pa : Z) | KernBuf (bs : list Z).

(** [src + i] *)
Definition loc_add (l : loc) (i : Z) : loc :=
  match l with
  | UserAddr va => UserAddr (u64 (va + i))
  | KernAddr pa => KernAddr (u64 (pa + i))
  | KernBuf bs => KernBuf (drop (Z.to_nat i) bs)
  end.

Section uio.
Context `{Platform}.

(** int either_copyout(int user_dst, uint64 dst, void *src, uint64 len).  A local
    variable of the caller is not in this state; the caller's result says what it
    holds. *)
Definition either_copyout (dst : loc) (src : list Z) : K Z :=
  p ← myproc;
  match dst with
  | UserAddr va =>
      p ← deref p;
      pp ← get_proc p;
      copyout (p_pagetable pp) va src
  | KernAddr pa => upd_mem (fun m => wr_bytes m pa src);; mret 0
  | KernBuf _ => mret 0
  end.

(** int either_copyin(void *dst, int user_src, uint64 src, uint64 len): the result
    and the bytes stored at dst *)
Definition either_copyin (src : loc) (len : Z) : K (Z * list Z) :=
  p ← myproc;
  match src with
  | UserAddr va =>
      p ← deref p;
      pp ← get_proc p;
      copyin (p_pagetable pp) va len
  | KernAddr pa =>
      bs ← gets (fun s => rd_bytes (k_mem s) pa (Z.to_nat len));
      mret (0, bs)
  | KernBuf bs => mret (0, take (Z.to_nat len) bs)
  end.

End uio.
