(* ===== verification/Console.v ===== *)
(** * The console (kernel/console.c) and uartintr() (kernel/uart.c)

    Typed characters are edited in the part of a 128-byte ring between [w] and
    [e]; a whole line moves to the part between [r] and [w], where consoleread()
    takes it from.  [edit] is the line editor on lists that consoleintr()
    implements ([consoleintr_edits]). *)

From Stdlib Require Import ZArith Lia.
From stdpp Require Import base tactics numbers gmap strings option list.
From S2P Require Import Prelude Kernel Spinlock Kstring Riscv Kalloc KallocInit Vm Sched Ring.
From S2P Require Import Uart Printf Uio.

(** ** Definitions *)

(** #define C(x) ((x) - '@') *)
Definition C_D : Z := 68 - 64.
Definition C_H : Z := 72 - 64.
Definition C_P : Z := 80 - 64.
Definition C_U : Z := 85 - 64.

Definition upd_cons (f : consst -> consst) : K unit := modify (upd_k_cons f).

Section console.
Context `{Platform}.

(** int consolewrite(int user_src, uint64 src, int n): the loop from [i] on,
    the function, and what runs when a sleep in uartputc() returns *)
Fixpoint consolewrite_from (src : loc) (i : Z) (left : nat) : K Z :=
  match left with
  | O => mret i
  | S left' =>
      r ← either_copyin (loc_add src i) 1;
      if r.1 =? -1 then mret i
      else
        uartputc (nth 0 r.2 0);;
        consolewrite_from src (i + 1) left'
  end.

Definition consolewrite (src : loc) (n : Z) : K Z := consolewrite_from src 0 (Z.to_nat n).

Definition consolewrite_resume (intena : bool) (c : Z) (src : loc) (n i : Z) : K Z :=
  uartputc_resume intena c;;
  consolewrite_from src (i + 1) (Z.to_nat (n - (i + 1))).

(** int consoleread(int user_dst, uint64 dst, int n).  The loop leaves with
    [Some n] at a break and with [None] where it returns -1 after a kill. *)
Definition consoleread_body (target : Z) (st : loc * Z) : K (loc * Z + option Z) :=
  let '(dst, n) := st in
  if 0 <? n then
    cn ← gets k_cons;
    k ← (if cons_r cn =? cons_w cn then
           p ← curproc;
           k ← killed p;
           if negb (k =? 0) then release L_cons;; mret true
           else sleep Ch_consr L_cons;; mret false
         else mret false);
    if k : bool then mret (inr None)
    else
      let c := queue_at 128 (cons_r cn) (cons_buf cn) in
      upd_cons (upd_cons_r (fun r => u32 (r + 1)));;
      if c =? C_D then
        when (u32 n <? target) (upd_cons (upd_cons_r (fun r => u32 (r - 1))));;
        mret (inr (Some n))
      else
        r ← either_copyout dst [c];
        if r =? -1 then mret (inr (Some n))
        else
          let n := n - 1 in
          if c =? 10 then mret (inr (Some n)) else mret (inl (loc_add dst 1, n))
  else mret (inr (Some n)).

Definition consoleread_loop (target : Z) (dst : loc) (n : Z) : K Z :=
  r ← loop (S (Z.to_nat n)) (consoleread_body target) (dst, n);
  match r with
  | None => mret (-1)
  | Some n => release L_cons;; mret (s32 (u32 (target - n)))
  end.

Definition consoleread (dst : loc) (n : Z) : K Z :=
  acquire L_cons;;
  consoleread_loop (u32 n) dst n.

(** After the sleep the test of the inner loop runs again, with [n] left to read. *)
Definition consoleread_resume (intena : bool) (target : Z) (dst : loc) (n : Z) : K Z :=
  sleep_resume intena L_cons;;
  consoleread_loop target dst n.

End console.

(** The loop that erases the line. *)
Definition kill_line (_ : unit) : K (unit + unit) :=
  cn ← gets k_cons;
  if negb (cons_e cn =? cons_w cn) &&
     negb (queue_at 128 (u32 (cons_e cn - 1)) (cons_buf cn) =? 10)
  then
    upd_cons (upd_cons_e (fun e => u32 (e - 1)));;
    consputc BACKSPACE;;
    mret (inl tt)
  else mret (inr tt).

(** void consoleintr(int c) *)
Definition consoleintr (c : Z) : K unit :=
  acquire L_cons;;
  (if c =? C_P then procdump
   else if c =? C_U then
     cn ← gets k_cons;
     loop (S (Z.to_nat (u32 (cons_e cn - cons_w cn)))) kill_line tt
   else if (c =? C_H) || (c =? 0x7f) then
     cn ← gets k_cons;
     when (negb (cons_e cn =? cons_w cn))
       (upd_cons (upd_cons_e (fun e => u32 (e - 1)));;
        consputc BACKSPACE)
   else
     cn ← gets k_cons;
     when (negb (c =? 0) && (u32 (cons_e cn - cons_r cn) <? 128))
       (let c := if c =? 13 then 10 else c in
        consputc c;;
        upd_cons (upd_cons_buf (queue_set 128 (cons_e cn) (u8 c)));;
        upd_cons (upd_cons_e (fun e => u32 (e + 1)));;
        cn ← gets k_cons;
        when ((c =? 10) || (c =? C_D) || (u32 (cons_e cn - cons_r cn) =? 128))
          (upd_cons (fun cn => upd_cons_w (fun _ => cons_e cn) cn);;
           wakeup Ch_consr)));;
  release L_cons.

(** void consoleinit(void) *)
Definition CONSOLE : nat := 1.

Definition consoleinit : K unit :=
  initlock L_cons;;
  uartinit;;
  modify (upd_k_devsw (alter (upd_dv_read (fun _ => Some D_consoleread)) CONSOLE));;
  modify (upd_k_devsw (alter (upd_dv_write (fun _ => Some D_consolewrite)) CONSOLE)).

(** void uartintr(void), of uart.c; the fuel is the input that waits. *)
Definition uartintr_body (_ : unit) : K (unit + unit) :=
  c ← uartgetc;
  if c =? -1 then mret (inr tt)
  else consoleintr c;; mret (inl tt).

Definition uartintr : K unit :=
  u ← gets k_uart;
  loop (S (length (u_in u))) uartintr_body tt;;
  acquire L_uart;;
  uartstart;;
  release L_uart.

(** ** Specification *)

(** What waits for consoleread(), and the line being edited. *)
Definition cons_ready (cn : consst) : list Z := queue (2 ^ 32) 128 (cons_buf cn) (cons_r cn) (cons_w cn).

Definition cons_line (cn : consst) : list Z := queue (2 ^ 32) 128 (cons_buf cn) (cons_w cn) (cons_e cn).

Record cons_ok (cn : consst) : Prop := {
  cn_len : length (cons_buf cn) = 128%nat;
  cn_r : 0 <= cons_r cn < 2 ^ 32;
  cn_w : 0 <= cons_w cn < 2 ^ 32;
  cn_e : 0 <= cons_e cn < 2 ^ 32;
  cn_room : (cons_w cn - cons_r cn) mod 2 ^ 32 + (cons_e cn - cons_w cn) mod 2 ^ 32 <= 128;
  cn_line : Forall (fun c => c <> 10) (cons_line cn);
}.

(** The line editor: lines ready to be read and the line being typed. *)
Definition edit (c : Z) (st : list Z * list Z) : list Z * list Z :=
  let '(ready, line) := st in
  if c =? C_U then (ready, [])
  else if (c =? C_H) || (c =? 0x7f) then (ready, removelast line)
  else if (c =? 0) || (128 <=? length ready + length line)%nat then (ready, line)
  else
    let c := if c =? 13 then 10 else c in
    let line := line ++ [c] in
    if (c =? 10) || (c =? C_D) || (length ready + length line =? 128)%nat
    then (ready ++ line, []) else (ready, line).

(** What it echoes. *)
Definition echo (c : Z) (st : list Z * list Z) : list Z :=
  let '(ready, line) := st in
  if c =? C_U then concat (replicate (length line) [8; 32; 8])
  else if (c =? C_H) || (c =? 0x7f) then if decide (line = []) then [] else [8; 32; 8]
  else if (c =? 0) || (128 <=? length ready + length line)%nat then []
  else [if c =? 13 then 10 else c].

(** Console code changes the console, the UART and wakes processes. *)
Definition cons_step (s s' : kstate) : Prop :=
  s' ≡ upd_k_cons (fun _ => k_cons s') (upd_k_uart (fun _ => k_uart s')
         (upd_k_procs (fun _ => k_procs s') s)) /\
  woke (c_proc (k_cpu s)) (k_procs s) (k_procs s').

(** ** Lemmas *)

Lemma div_128_32 : (128 | 2 ^ 32).
Proof. by exists (2 ^ 25). Qed.

(** [e--] *)
Lemma cons_back cn :
  cons_ok cn -> cons_e cn <> cons_w cn ->
  let cn' := upd_cons_e (fun e => u32 (e - 1)) cn in
  cons_ok cn' /\ cons_ready cn' = cons_ready cn /\
  cons_line cn = cons_line cn' ++ [queue_at 128 (u32 (cons_e cn - 1)) (cons_buf cn)].
Proof.
  intros [Hl Hr Hw He Hroom Hline] Hne cn'.
  assert (Hm : (cons_e cn - cons_w cn) mod 2 ^ 32 <> 0)
    by (intros E; apply queue_nil in E; [congruence|lia..]).
  assert (Hq : cons_line cn = cons_line cn' ++ [queue_at 128 (u32 (cons_e cn - 1)) (cons_buf cn)]).
  { unfold cons_line, cn'. ksimpl. apply queue_unput; [lia|done]. }
  split; [|done]. split; unfold cn'; ksimpl; try done.
  - apply u32_range.
  - unfold u32. zdm.
  - rewrite Hq in Hline. by apply Forall_app in Hline as [? _].
Qed.

(** [buf[e++ % INPUT_BUF_SIZE] = c], up to the test for a whole line. *)
Lemma cons_add c cn :
  cons_ok cn -> u32 (cons_e cn - cons_r cn) < 128 ->
  let cn' := upd_cons_e (fun e => u32 (e + 1)) (upd_cons_buf (queue_set 128 (cons_e cn) c) cn) in
  length (cons_buf cn') = 128%nat /\ cons_line cn' = cons_line cn ++ [c] /\
  cons_ready cn' = cons_ready cn /\
  queue (2 ^ 32) 128 (cons_buf cn') (cons_r cn') (cons_e cn') = cons_ready cn ++ cons_line cn ++ [c] /\
  u32 (cons_e cn' - cons_r cn') = u32 (cons_e cn - cons_r cn) + 1.
Proof.
  intros [Hl Hr Hw He Hroom Hline] Hlt cn'.
  assert (Hm : u32 (cons_e cn - cons_r cn) =
    (cons_w cn - cons_r cn) mod 2 ^ 32 + (cons_e cn - cons_w cn) mod 2 ^ 32) by (unfold u32; zdm).
  assert (Hl1 : cons_line cn' = cons_line cn ++ [c]).
  { unfold cons_line, cn'. ksimpl. apply queue_put; [lia|apply div_128_32|lia|done|zdm|lia]. }
  assert (Hr1 : cons_ready cn' = cons_ready cn).
  { unfold cons_ready, cn'. ksimpl. apply queue_frame; [lia|apply div_128_32|lia|].
    unfold u32 in *. zdm. }
  assert (Hn : u32 (cons_e cn' - cons_r cn') = u32 (cons_e cn - cons_r cn) + 1).
  { unfold cn', u32. ksimpl. apply queue_succ; [lia|]. unfold u32 in *. lia. }
  split; [|split; [done|split; [done|split; [|done]]]].
  - unfold cn', queue_set. ksimpl. by len.
  - rewrite (queue_app (2 ^ 32) _ _ ltac:(lia) _ (cons_w cn')).
    + fold (cons_ready cn') (cons_line cn'). by rewrite Hl1, Hr1.
    + unfold cn', u32 in *. ksimpl. zdm.
Qed.

Lemma cons_empty cn : cons_ok cn -> cons_e cn = cons_w cn -> cons_line cn = [].
Proof. intros _ E. unfold cons_line. rewrite E. by apply queue_empty. Qed.

Lemma cons_nonempty cn : cons_ok cn -> cons_e cn <> cons_w cn -> cons_line cn <> [].
Proof.
  intros Hok Hne. destruct (cons_back cn Hok Hne) as (_ & _ & ->).
  by intros [_ [=]]%app_nil.
Qed.

(** consputc() in code that holds locks. *)
Lemma wp_consputc lks c s Q :
  calm lks s -> k_panicked s = false ->
  (forall s', s' ≡ upd_k_uart (say (cons_bytes c)) s -> calm lks s' -> k_panicked s' = false ->
     Q tt s') ->
  wp (consputc c) Q s.
Proof.
  intros Hc Hp HQ. eapply wp_mono; [apply consputc_spec; [apply Hc|done]|].
  cbn beta. intros [] s' E. apply HQ; [done| |].
  - eapply calm_keq; [exact E|]. eapply calm_ext; [by ksync|done|exact Hc].
  - by rewrite (keq_k_panicked _ _ E).
Qed.

Lemma say_nil u : say [] u = u.
Proof. done. Qed.

Lemma kill_line_loop lks fuel s :
  calm lks s -> k_panicked s = false -> cons_ok (k_cons s) ->
  u32 (cons_e (k_cons s) - cons_w (k_cons s)) < Z.of_nat fuel ->
  wp (loop fuel kill_line tt) (fun _ s' =>
    cons_ok (k_cons s') /\ cons_ready (k_cons s') = cons_ready (k_cons s) /\
    cons_line (k_cons s') = [] /\
    s' ≡ upd_k_cons (fun _ => k_cons s')
      (upd_k_uart (say (concat (replicate (length (cons_line (k_cons s))) [8; 32; 8]))) s)) s.
Proof.
  revert s. induction fuel as [|fuel IH]; intros s Hc Hp Hok Hf.
  { pose proof (u32_range (cons_e (k_cons s) - cons_w (k_cons s))). lia. }
  apply wp_loop_step. unfold kill_line, upd_cons. wp_steps.
  destruct (Z.eqb_spec (cons_e (k_cons s)) (cons_w (k_cons s))) as [E|Hne]; cbn [negb andb].
  { wp_steps. rewrite (cons_empty _ Hok E). cbn [length replicate concat].
    split; [done|]. split; [done|]. split; [done|]. by keq. }
  destruct (cons_back _ Hok Hne) as (Hok' & Hr & Hl).
  assert (Hx : queue_at 128 (u32 (cons_e (k_cons s) - 1)) (cons_buf (k_cons s)) <> 10).
  { pose proof (cn_line _ Hok) as Hline. rewrite Hl in Hline.
    apply Forall_app in Hline as [_ Hline]. by inversion Hline. }
  rewrite (proj2 (Z.eqb_neq _ _) Hx). cbn [negb]. wp_steps.
  eapply (wp_consputc lks); [eapply calm_ext; [by ksync|done|exact Hc]|done|].
  intros s1 E1 Hc1 Hp1. wp_steps.
  assert (Ec : k_cons s1 = upd_cons_e (fun e => u32 (e - 1)) (k_cons s)) by apply (keq_k_cons _ _ E1).
  eapply wp_mono.
  { apply IH; [done|done|by rewrite Ec|]. rewrite Ec. ksimpl.
    assert (cons_e (k_cons s) <> cons_w (k_cons s)) by done.
    destruct Hok. unfold u32 in *. zdm. }
  cbn beta. intros _ s2 (Ho2 & Hr2 & Hl2 & E2). split; [done|]. split; [by rewrite Hr2, Ec|].
  split; [done|]. rewrite E2 at 1. rewrite Hl, Ec, length_app, Nat.add_comm. cbn [length Nat.add replicate concat].
  rewrite E1, upd_say_app. keq.
Qed.

(** The effect of one character on the console. *)
Definition edited (c : Z) (s s' : kstate) : Prop :=
  let st := (cons_ready (k_cons s), cons_line (k_cons s)) in
  cons_ok (k_cons s') /\ (cons_ready (k_cons s'), cons_line (k_cons s')) = edit c st /\
  s' ≡ upd_k_cons (fun _ => k_cons s') (upd_k_uart (say (echo c st))
         (upd_k_procs (fun _ => k_procs s') s)) /\
  woke (c_proc (k_cpu s)) (k_procs s) (k_procs s').

(** Consing onto a queue that fits the buffer. *)
Lemma cons_total cn :
  cons_ok cn -> (length (cons_ready cn) + length (cons_line cn))%nat = Z.to_nat (u32 (cons_e cn - cons_r cn)).
Proof.
  intros []. unfold cons_ready, cons_line. rewrite !queue_length.
  rewrite <- Z2Nat.inj_add by (apply Z.mod_pos_bound; lia). f_equal. unfold u32. zdm.
Qed.

Lemma edited_backspace c lks s :
  c = C_H \/ c = 0x7f -> calm lks s -> k_panicked s = false -> cons_ok (k_cons s) ->
  wp (cn ← gets k_cons;
      when (negb (cons_e cn =? cons_w cn))
        (upd_cons (upd_cons_e (fun e => u32 (e - 1)));; consputc BACKSPACE))
     (fun _ => edited c s) s.
Proof.
  intros Hch Hc Hp Hok. unfold edited.
  assert (He : forall st, edit c st = (st.1, removelast st.2) /\
    echo c st = if decide (st.2 = []) then [] else [8; 32; 8])
    by (intros [? ?]; by destruct Hch as [->| ->]).
  destruct (He (cons_ready (k_cons s), cons_line (k_cons s))) as [-> ->]. cbn [fst snd].
  wp_steps. destruct (Z.eqb_spec (cons_e (k_cons s)) (cons_w (k_cons s))) as [E|Hne]; cbn [negb].
  - wp_steps. rewrite (cons_empty _ Hok E). split; [done|]. split; [done|].
    split; [|apply woke_refl]. cbn [decide]. by keq.
  - destruct (cons_back _ Hok Hne) as (Hok' & Hr & Hl).
    rewrite decide_False by (by apply cons_nonempty). wp_steps. unfold upd_cons. wp_steps.
    eapply (wp_consputc lks); [eapply calm_ext; [by ksync|done|exact Hc]|done|].
    intros s1 E1 _ _.
    assert (Ec : k_cons s1 = upd_cons_e (fun e => u32 (e - 1)) (k_cons s)) by apply (keq_k_cons _ _ E1).
    assert (Ep : k_procs s1 = k_procs s) by apply (keq_k_procs _ _ E1). rewrite Ec, Ep.
    split; [done|]. split; [by rewrite Hr, Hl, removelast_last|].
    split; [rewrite E1; keq|apply woke_refl].
Qed.

(** Storing a character, with the test for a whole line. *)
Lemma cons_typed c cn :
  cons_ok cn -> u32 (cons_e cn - cons_r cn) < 128 ->
  let cn' := upd_cons_e (fun e => u32 (e + 1)) (upd_cons_buf (queue_set 128 (cons_e cn) c) cn) in
  let whole := (c =? 10) || (c =? C_D) || (u32 (cons_e cn' - cons_r cn') =? 128) in
  let cn2 := if whole then upd_cons_w (fun _ => cons_e cn') cn' else cn' in
  let ready := cons_ready cn in
  let line := cons_line cn ++ [c] in
  cons_ok cn2 /\
  (cons_ready cn2, cons_line cn2) =
    if (c =? 10) || (c =? C_D) || (length ready + length line =? 128)%nat
    then (ready ++ line, []) else (ready, line).
Proof.
  intros Hok Hlt cn' whole cn2 ready line.
  destruct (cons_add c cn Hok Hlt) as (Hlen & Hl & Hr & Hq & Hn). fold cn' in Hlen, Hl, Hr, Hq, Hn.
  assert (Hw : whole = (c =? 10) || (c =? C_D) || (length ready + length line =? 128)%nat).
  { unfold whole. f_equal. rewrite Hn. unfold line. rewrite length_app, Nat.add_assoc.
    unfold ready. rewrite (cons_total _ Hok). cbn [length].
    pose proof (u32_range (cons_e cn - cons_r cn)).
    destruct (Z.eqb_spec (u32 (cons_e cn - cons_r cn) + 1) 128), (Nat.eqb_spec
      (Z.to_nat (u32 (cons_e cn - cons_r cn)) + 1) 128); lia. }
  rewrite <- Hw. pose proof Hok as [Hlb Hbr Hbw Hbe Hroom Hline].
  assert (He' : 0 <= cons_e cn' < 2 ^ 32) by apply u32_range.
  unfold cn2. destruct whole eqn:W.
  - split; [split|].
    + done.
    + exact Hbr.
    + exact He'.
    + exact He'.
    + change ((cons_e cn' - cons_r cn') mod 2 ^ 32 + (cons_e cn' - cons_e cn') mod 2 ^ 32 <= 128).
      rewrite Z.sub_diag, Z.mod_0_l by lia. unfold u32 in *. lia.
    + unfold cons_line. ksimpl. by rewrite queue_empty.
    + f_equal; [|unfold cons_line; ksimpl; by apply queue_empty]. exact Hq.
  - split; [split|].
    + done.
    + exact Hbr.
    + exact Hbw.
    + exact He'.
    + unfold cn', u32 in *. ksimpl. zdm.
    + rewrite Hl. apply Forall_app. split; [done|]. constructor; [|done].
      intros ->. done.
    + by rewrite Hr, Hl.
Qed.

Lemma edited_char c lks s :
  c <> C_P -> c <> C_U -> c <> C_H -> c <> 0x7f -> 0 <= c < 256 ->
  calm lks s -> (forall i, L_proc i ∉ lks) -> k_panicked s = false -> cons_ok (k_cons s) ->
  wp (cn ← gets k_cons;
      when (negb (c =? 0) && (u32 (cons_e cn - cons_r cn) <? 128))
        (let c := if c =? 13 then 10 else c in
         consputc c;;
         upd_cons (upd_cons_buf (queue_set 128 (cons_e cn) (u8 c)));;
         upd_cons (upd_cons_e (fun e => u32 (e + 1)));;
         cn ← gets k_cons;
         when ((c =? 10) || (c =? C_D) || (u32 (cons_e cn - cons_r cn) =? 128))
           (upd_cons (fun cn => upd_cons_w (fun _ => cons_e cn) cn);;
            wakeup Ch_consr)))
     (fun _ => edited c s) s.
Proof.
  intros HP HU HH HD Hc Hcalm Hlk Hp Hok. pose proof (cons_total _ Hok) as Htot.
  pose proof (u32_range (cons_e (k_cons s) - cons_r (k_cons s))) as Hrange.
  unfold edited, edit, echo.
  rewrite (proj2 (Z.eqb_neq _ _) HU), (proj2 (Z.eqb_neq _ _) HH), (proj2 (Z.eqb_neq _ _) HD). cbn [orb].
  wp_steps. rewrite Htot.
  destruct (Z.eqb_spec c 0) as [->|Hc0]; cbn [negb andb orb].
  { wp_steps. split; [done|]. split; [done|]. split; [by keq|apply woke_refl]. }
  destruct (Z.ltb_spec (u32 (cons_e (k_cons s) - cons_r (k_cons s))) 128) as [Hlt|Hge].
  2: { rewrite (proj2 (Nat.leb_le _ _)) by lia. wp_steps. split; [done|]. split; [done|].
       split; [by keq|apply woke_refl]. }
  rewrite (proj2 (Nat.leb_gt _ _)) by lia. wp_steps.
  set (c' := if c =? 13 then 10 else c).
  assert (Hc' : 0 < c' < 256) by (unfold c'; destruct (c =? 13); lia).
  assert (Hb : cons_bytes c' = [c'])
    by (unfold cons_bytes; by rewrite (proj2 (Z.eqb_neq _ _)) by (unfold BACKSPACE; lia)).
  eapply (wp_consputc lks); [exact Hcalm|done|]. rewrite Hb. intros s1 E1 Hc1 Hp1.
  assert (Ec : k_cons s1 = k_cons s) by apply (keq_k_cons _ _ E1).
  assert (Ep : k_procs s1 = k_procs s) by apply (keq_k_procs _ _ E1).
  pose proof (cons_typed c' _ Hok Hlt) as Ht.
  set (cn' := upd_cons_e (fun e => u32 (e + 1))
    (upd_cons_buf (queue_set 128 (cons_e (k_cons s)) c') (k_cons s))) in *.
  unfold upd_cons. wp_steps. rewrite (u8_small c') by lia.
  match goal with |- wp _ _ ?x => set (s2 := x) end.
  assert (Ec2 : k_cons s2 = cn') by (unfold s2, cn'; ksimpl; by rewrite Ec).
  assert (E2 : s2 ≡ upd_k_cons (fun _ => cn') (upd_k_uart (say [c']) s)).
  { unfold s2. rewrite E1. keq. }
  assert (Hc2 : calm lks s2)
    by (eapply calm_keq; [exact E2|]; eapply calm_ext; [by ksync|done|exact Hcalm]).
  assert (Ep2 : k_procs s2 = k_procs s) by apply (keq_k_procs _ _ E2).
  assert (Em : c_proc (k_cpu s2) = c_proc (k_cpu s)) by apply (keq_c_proc _ _ E2).
  clearbody s2. cbv zeta in Ht. rewrite Ec2. destruct Ht as [Hok' Hst].
  destruct (_ || _ || (u32 (cons_e cn' - _) =? _)) eqn:W; wp_steps.
  - eapply wp_mono.
    { apply (wakeup_spec lks); [|done]. eapply calm_ext; [by ksync|done|exact Hc2]. }
    cbn beta. intros _ s3 E3.
    assert (Ec3 : k_cons s3 = upd_cons_w (fun _ => cons_e cn') cn')
      by (rewrite (keq_k_cons _ _ E3); ksimpl; by rewrite Ec2).
    rewrite Ec3. split; [exact Hok'|]. split; [exact Hst|].
    change (c_proc (k_cpu (upd_k_cons _ s2))) with (c_proc (k_cpu s2)) in E3. rewrite Em in E3.
    assert (Ep3 : k_procs s3 = woken Ch_consr (c_proc (k_cpu s)) (seq 0 64) (k_procs s))
      by (rewrite (keq_k_procs _ _ E3); ksimpl; by rewrite Ep2).
    rewrite Ep3. split; [rewrite E3, E2; keq|apply woken_woke].
  - rewrite Ec2, Ep2. split; [exact Hok'|]. split; [exact Hst|].
    split; [rewrite E2; keq|apply woke_refl].
Qed.

(** Leaving the critical section. *)
Lemma edited_release c s s1 :
  calm [] s -> edited c (locked L_cons s) s1 -> wp (release L_cons) (fun _ => edited c s) s1.
Proof.
  intros Hc (Ho & Hst & E & W). apply (wp_release L_cons s); [apply Hc|by rewrite (keq_sync _ _ E)|].
  split; [exact Ho|]. split; [exact Hst|]. split; [|exact W].
  apply resync_keq; [|by ksync]. rewrite (keq_others _ _ E). reflexivity.
Qed.

(** ** Properties *)

(** C37: consoleintr() is the line editor [edit]: for every byte but ^P the lines
    ready to be read and the line being typed change as [edit] says, the echo is
    what [echo] says, and nothing else changes but that sleepers may be woken. *)
Theorem consoleintr_edits c s :
  calm [] s -> k_panicked s = false -> cons_ok (k_cons s) -> 0 <= c < 256 -> c <> C_P ->
  wp (consoleintr c) (fun _ => edited c s) s.
Proof.
  intros Hc Hp Hok Hb HP. unfold consoleintr. apply wp_bind, wp_acquire; [apply Hc; set_solver|].
  pose proof (calm_locked _ L_cons _ Hc) as Hc1. apply wp_bind.
  apply (wp_mono _ (fun _ => edited c (locked L_cons s))); [|by intros _ s1 He; apply edited_release].
  rewrite (proj2 (Z.eqb_neq _ _) HP). destruct (Z.eqb_spec c C_U) as [->|HU].
  { wp_steps. eapply wp_mono.
    { apply (kill_line_loop [L_cons]); [done..|].
      match goal with |- u32 ?x < _ => pose proof (u32_range x) end. lia. }
    cbn beta. intros _ s1 (Ho & Hr & Hl & E). unfold edited, edit, echo.
    rewrite (Z.eqb_refl C_U). split; [done|]. split; [by rewrite Hr, Hl|].
    rewrite (keq_k_procs _ _ E). split; [rewrite E at 1; keq|apply woke_refl]. }
  destruct (Z.eqb_spec c C_H) as [->|HH]; cbn [orb];
    [apply (edited_backspace _ [L_cons]); by auto|].
  destruct (Z.eqb_spec c 0x7f) as [->|HD]; [apply (edited_backspace _ [L_cons]); by auto|].
  apply (edited_char _ [L_cons]); try done. set_solver.
Qed.

(** A console with a typed [a] at the wrap-around of its counters. *)
Definition example_cons : kstate :=
  upd_k_cpu (upd_c_proc (fun _ => Some 0%nat))
    (upd_k_cons (fun _ => mkCons (replicate 128 97) (2 ^ 32 - 1) (2 ^ 32 - 1) 0) (boot_state 0 ∅ ∅)).

Lemma consoleintr_edits_witness :
  calm [] example_cons /\
  wp (consoleintr 13) (fun _ s' => cons_ready (k_cons s') = [97; 10] /\ cons_line (k_cons s') = [])
    example_cons.
Proof.
  assert (Hc : calm [] example_cons).
  { split; [by split|done|done|]. exists 0%nat. split; [done|lia]. }
  split; [done|]. eapply wp_mono.
  - apply (consoleintr_edits 13 example_cons); [done|done| |lia|done].
    split; [done|by vm_compute..|].
    assert (cons_line (k_cons example_cons) = [97]) as -> by by vm_compute. by repeat constructor.
  - assert (E : edit 13 (cons_ready (k_cons example_cons), cons_line (k_cons example_cons)) =
      ([97; 10], [])) by by vm_compute.
    intros _ s' (_ & Hst & _). rewrite E in Hst. by injection Hst as -> ->.
Defined.
