(* ===== verification/Bio.v ===== *)
(** * The buffer cache (kernel/bio.c)

    Buffers are linked in a ring through [b_prev] and [b_next], which are buffer
    indices; index [NBUF] is the list head of bcache.  [virtio_disk_rw] is the
    contract of the disk driver: when it returns, the block has been transferred
    between the buffer and the disk.

    The file shows that the ring stays a list of all the buffers, most recently
    used first, and that bget() finds the buffer of a cached block or recycles the
    least recently used free one. *)

From Stdlib Require Import ZArith Lia.
From stdpp Require Import base tactics numbers gmap strings option list.
From S2P Require Import Prelude Kernel Spinlock Sched.

(** ** Definitions *)

(** *** The disk *)

(** The content of block [b]: the last write of it, or what it held at power-on. *)
Definition dget (d : diskst) (b : Z) : list Z :=
  foldl (fun x w => if w.1 =? b then w.2 else x)
    (default (replicate 1024 0) (d_init d !! b)) (d_hist d).

Definition dput (b : Z) (x : list Z) (d : diskst) : diskst :=
  upd_d_hist (fun h => h ++ [(b, x)]) d.

(** void virtio_disk_rw(struct buf *b, int write) *)
Definition virtio_disk_rw (i : nat) (write : bool) : K unit :=
  b ← get_buf i;
  if write then modify (upd_k_disk (dput (b_blockno b) (b_data b)))
  else
    x ← gets (fun s => dget (k_disk s) (b_blockno b));
    upd_buf i (upd_b_data (fun _ => x)).

(** *** bio.c *)

(** The list head of the ring. *)
Definition bhead : nat := 30.

Definition nxt (bc : bcachest) (i : nat) : nat :=
  if decide (i = bhead) then bc_hnext bc
  else match bc_buf bc !! i with Some b => b_next b | None => i end.

Definition prv (bc : bcachest) (i : nat) : nat :=
  if decide (i = bhead) then bc_hprev bc
  else match bc_buf bc !! i with Some b => b_prev b | None => i end.

Definition set_nxt (i v : nat) (bc : bcachest) : bcachest :=
  if decide (i = bhead) then upd_bc_hnext (fun _ => v) bc
  else upd_bc_buf (alter (upd_b_next (fun _ => v)) i) bc.

Definition set_prv (i v : nat) (bc : bcachest) : bcachest :=
  if decide (i = bhead) then upd_bc_hprev (fun _ => v) bc
  else upd_bc_buf (alter (upd_b_prev (fun _ => v)) i) bc.

Definition upd_bc (f : bcachest -> bcachest) : K unit := modify (upd_k_bcache f).

(** Linking buffer [b] in after the head. *)
Definition link_front (b : nat) : K unit :=
  upd_bc (fun bc => set_nxt b (nxt bc bhead) bc);;
  upd_bc (set_prv b bhead);;
  upd_bc (fun bc => set_prv (nxt bc bhead) b bc);;
  upd_bc (set_nxt bhead b).

(** void binit(void) *)
Definition binit : K unit :=
  initlock L_bcache;;
  upd_bc (set_prv bhead bhead);;
  upd_bc (set_nxt bhead bhead);;
  for_each (seq 0 30) (fun b =>
    upd_bc (fun bc => set_nxt b (nxt bc bhead) bc);;
    upd_bc (set_prv b bhead);;
    initsleeplock (SL_buf b);;
    upd_bc (fun bc => set_prv (nxt bc bhead) b bc);;
    upd_bc (set_nxt bhead b)).

(** static struct buf *bget(uint dev, uint blockno): the two scans and the
    function *)
Definition bget_scan (dev blockno : Z) (i : nat) : K (nat + option nat) :=
  if decide (i = bhead) then mret (inr None)
  else
    b ← get_buf i;
    if (b_dev b =? dev) && (b_blockno b =? blockno) then mret (inr (Some i))
    else mret (inl (b_next b)).

Definition bget_lru (i : nat) : K (nat + option nat) :=
  if decide (i = bhead) then mret (inr None)
  else
    b ← get_buf i;
    if b_refcnt b =? 0 then mret (inr (Some i))
    else mret (inl (b_prev b)).

Definition bget (dev blockno : Z) : K nat :=
  acquire L_bcache;;
  first ← gets (fun s => bc_hnext (k_bcache s));
  r ← loop 31 (bget_scan dev blockno) first;
  match r with
  | Some b =>
      upd_buf b (upd_b_refcnt (fun n => u32 (n + 1)));;
      release L_bcache;;
      acquiresleep (SL_buf b);;
      mret b
  | None =>
      last ← gets (fun s => bc_hprev (k_bcache s));
      r ← loop 31 bget_lru last;
      match r with
      | Some b =>
          upd_buf b (upd_b_dev (fun _ => dev));;
          upd_buf b (upd_b_blockno (fun _ => blockno));;
          upd_buf b (upd_b_valid (fun _ => false));;
          upd_buf b (upd_b_refcnt (fun _ => 1));;
          release L_bcache;;
          acquiresleep (SL_buf b);;
          mret b
      | None => panic "bget: no buffers"
      end
  end.

(** struct buf *bread(uint dev, uint blockno) *)
Definition bread (dev blockno : Z) : K nat :=
  i ← bget dev blockno;
  b ← get_buf i;
  when (negb (b_valid b))
    (virtio_disk_rw i false;;
     upd_buf i (upd_b_valid (fun _ => true)));;
  mret i.

(** void bwrite(struct buf *b) *)
Definition bwrite (i : nat) : K unit :=
  h ← holdingsleep (SL_buf i);
  if negb h then panic "bwrite" else virtio_disk_rw i true.

(** void brelse(struct buf *b) *)
Definition brelse (i : nat) : K unit :=
  h ← holdingsleep (SL_buf i);
  if negb h then panic "brelse" else
  releasesleep (SL_buf i);;
  acquire L_bcache;;
  upd_buf i (upd_b_refcnt (fun n => u32 (n - 1)));;
  b ← get_buf i;
  when (b_refcnt b =? 0)
    (upd_bc (fun bc => set_prv (nxt bc i) (prv bc i) bc);;
     upd_bc (fun bc => set_nxt (prv bc i) (nxt bc i) bc);;
     link_front i);;
  release L_bcache.

(** void bpin(struct buf *b) and void bunpin(struct buf *b) *)
Definition bpin (i : nat) : K unit :=
  acquire L_bcache;;
  upd_buf i (upd_b_refcnt (fun n => u32 (n + 1)));;
  release L_bcache.

Definition bunpin (i : nat) : K unit :=
  acquire L_bcache;;
  upd_buf i (upd_b_refcnt (fun n => u32 (n - 1)));;
  release L_bcache.

(** ** Specification *)

(** Following [f] from [a] visits [l] and then [b]. *)
Fixpoint linked (f : nat -> nat) (a : nat) (l : list nat) (b : nat) : Prop :=
  match l with
  | [] => f a = b
  | x :: l' => f a = x /\ linked f x l' b
  end.

(** [l] is the list of the buffers from most to least recently used. *)
Record ring (bc : bcachest) (l : list nat) : Prop := {
  rg_len : length (bc_buf bc) = 30%nat;
  rg_perm : l ≡ₚ seq 0 30;
  rg_next : linked (nxt bc) bhead l bhead;
  rg_prev : linked (prv bc) bhead (reverse l) bhead;
}.

(** Function update. *)
Definition fup (f : nat -> nat) (a v : nat) : nat -> nat :=
  fun x => if decide (x = a) then v else f x.

(** ** Lemmas: the ring *)

Lemma linked_ext f g a l b :
  (forall x, x ∈ a :: l -> f x = g x) -> linked f a l b -> linked g a l b.
Proof.
  revert a. induction l as [|y l IH]; intros a Hfg; cbn.
  - intros <-. symmetry. apply Hfg. set_solver.
  - intros [<- Hl]. rewrite <- (Hfg a) by set_solver. split; [done|].
    apply IH; [|done]. intros x Hx. apply Hfg. set_solver.
Qed.

Lemma linked_app f a l1 x l2 b :
  linked f a (l1 ++ x :: l2) b <-> linked f a l1 x /\ linked f x l2 b.
Proof.
  revert a. induction l1 as [|y l1 IH]; intros a; cbn; [done|]. rewrite IH. tauto.
Qed.

(** Only the value of [f] at the start matters for where the path starts. *)
Lemma linked_start f g a a' l b :
  f a = g a' -> (forall x, x ∈ l -> f x = g x) -> linked f a l b -> linked g a' l b.
Proof.
  intros Ha Hl. destruct l as [|y l]; cbn; [congruence|]. intros [<- Hk]. split; [done|].
  eapply linked_ext; [|done]. intros x Hx. by apply Hl.
Qed.

Lemma fup_same f a v : fup f a v a = v.
Proof. unfold fup. by rewrite decide_True. Qed.

Lemma fup_other f a v x : x <> a -> fup f a v x = f x.
Proof. intros. unfold fup. by rewrite decide_False. Qed.

(** Unlinking [i]: its predecessor, which [g] points to, gets its successor. *)
Lemma linked_unlink f g h a b i :
  NoDup (h :: a ++ i :: b) -> linked f h (a ++ i :: b) h -> linked g i (reverse a) h ->
  linked (fup f (g i) (f i)) h (a ++ b) h.
Proof.
  intros Hnd Hf Hg. apply linked_app in Hf as [Hfa Hfb].
  destruct a as [|x a _] using rev_ind.
  - cbn in *. rewrite Hg. eapply (linked_start f _ i); [by rewrite fup_same| |done].
    intros y Hy. rewrite fup_other; [done|]. intros ->. apply NoDup_cons in Hnd as [Hnd _]. set_solver.
  - rewrite reverse_app in Hg. cbn in Hg. destruct Hg as [-> _].
    apply linked_app in Hfa as [Hfa _]. rewrite <- app_assoc. cbn. apply linked_app.
    rewrite <- app_assoc in Hnd. cbn in Hnd.
    assert (Hxa : x ∉ h :: a).
    { apply NoDup_cons in Hnd as [Hh Hnd]. apply NoDup_app in Hnd as (_ & Hd & _).
      intros [->|Hx]%elem_of_cons; [set_solver|]. apply (Hd x Hx). set_solver. }
    assert (Hxb : x ∉ b).
    { apply NoDup_cons in Hnd as [_ Hnd]. apply NoDup_app in Hnd as (_ & _ & Hnd).
      apply NoDup_cons in Hnd as [Hn _]. set_solver. }
    split.
    + eapply linked_ext; [|done]. intros y Hy. rewrite fup_other; [done|]. by intros ->.
    + eapply (linked_start f _ i); [by rewrite fup_same| |done].
      intros y Hy. rewrite fup_other; [done|]. by intros ->.
Qed.

(** Linking [i] in after the head [h]. *)
Lemma linked_front f h l i :
  i ∉ h :: l -> h ∉ l -> linked f h l h -> linked (fup (fup f i (f h)) h i) h (i :: l) h.
Proof.
  intros Hi Hh Hl. cbn. split; [apply fup_same|].
  eapply (linked_start f _ h); [|intros x Hx|done].
  - rewrite fup_other, fup_same; [done|set_solver].
  - rewrite !fup_other; [done|set_solver..].
Qed.

Lemma linked_front_prev f g h l i :
  NoDup (h :: i :: l) -> linked f h (reverse l) h -> linked g h l h ->
  linked (fup (fup f i h) (g h) i) h (reverse (i :: l)) h.
Proof.
  intros Hnd Hf Hg. rewrite reverse_cons. apply linked_app. cbn.
  assert (Hhi : h <> i) by (apply NoDup_cons in Hnd as [Hn _]; set_solver).
  assert (Hhl : h ∉ l) by (apply NoDup_cons in Hnd as [Hn _]; set_solver).
  assert (Hil : i ∉ l) by (apply NoDup_cons in Hnd as [_ Hnd]; apply NoDup_cons in Hnd as [Hn _]; set_solver).
  destruct l as [|x l]; cbn in Hg.
  - rewrite Hg. cbn. rewrite fup_same. split; [done|]. by rewrite fup_other, fup_same.
  - destruct Hg as [-> _]. rewrite reverse_cons in *. apply linked_app in Hf as [Hf _].
    split.
    + apply linked_app. split; [|apply fup_same]. eapply linked_ext; [|done].
      intros y Hy. assert (y ∈ h :: l) as Hy' by (rewrite elem_of_cons, elem_of_reverse in *; done).
      assert (x ∉ l).
      { do 2 apply NoDup_cons in Hnd as [_ Hnd]. by apply NoDup_cons in Hnd as [? _]. }
      rewrite !fup_other; [done|set_solver..].
    + rewrite fup_other, fup_same; [done|set_solver].
Qed.

Create Rewrite HintDb links.

(** A buffer without its links. *)
Definition core (b : buf) :=
  (b_valid b, b_disk b, b_dev b, b_blockno b, b_lock b, b_refcnt b, b_data b).

Lemma core_set_nxt i v bc : core <$> bc_buf (set_nxt i v bc) = core <$> bc_buf bc.
Proof.
  unfold set_nxt. case_decide; [done|]. ksimpl. apply list_eq. intros j.
  rewrite !list_lookup_fmap, list_lookup_alter. case_decide; [|done]. subst.
  by destruct (bc_buf bc !! j).
Qed.

Lemma core_set_prv i v bc : core <$> bc_buf (set_prv i v bc) = core <$> bc_buf bc.
Proof.
  unfold set_prv. case_decide; [done|]. ksimpl. apply list_eq. intros j.
  rewrite !list_lookup_fmap, list_lookup_alter. case_decide; [|done]. subst.
  by destruct (bc_buf bc !! j).
Qed.

Lemma core_length bc bc' : core <$> bc_buf bc = core <$> bc_buf bc' -> length (bc_buf bc) = length (bc_buf bc').
Proof. intros E%(f_equal length). by rewrite !length_fmap in E. Qed.

Lemma nxt_set_nxt i v bc j :
  length (bc_buf bc) = 30%nat -> (i <= 30)%nat -> nxt (set_nxt i v bc) j = fup (nxt bc) i v j.
Proof.
  intros Hlen Hi. unfold nxt, set_nxt, fup. unfold bhead in *. repeat case_decide; subst; try done.
  - ksimpl. rewrite list_lookup_alter_eq.
    destruct (lookup_Some_total (bc_buf bc) i) as [b ->]; [lia|]. done.
  - ksimpl. by rewrite list_lookup_alter_ne.
Qed.

Lemma prv_set_prv i v bc j :
  length (bc_buf bc) = 30%nat -> (i <= 30)%nat -> prv (set_prv i v bc) j = fup (prv bc) i v j.
Proof.
  intros Hlen Hi. unfold prv, set_prv, fup. unfold bhead in *. repeat case_decide; subst; try done.
  - ksimpl. rewrite list_lookup_alter_eq.
    destruct (lookup_Some_total (bc_buf bc) i) as [b ->]; [lia|]. done.
  - ksimpl. by rewrite list_lookup_alter_ne.
Qed.

Lemma prv_set_nxt i v bc j : prv (set_nxt i v bc) j = prv bc j.
Proof.
  unfold prv, set_nxt. repeat case_decide; try done. ksimpl. rewrite list_lookup_alter.
  case_decide; [|done]. subst. by destruct (bc_buf bc !! j).
Qed.

Lemma nxt_set_prv i v bc j : nxt (set_prv i v bc) j = nxt bc j.
Proof.
  unfold nxt, set_prv. repeat case_decide; try done. ksimpl. rewrite list_lookup_alter.
  case_decide; [|done]. subst. by destruct (bc_buf bc !! j).
Qed.

Lemma linked_in f a l b x : linked f a l b -> x ∈ a :: l -> f x ∈ l ++ [b].
Proof.
  revert a. induction l as [|y l IH]; intros a; cbn.
  - intros <- ->%list_elem_of_singleton. set_solver.
  - intros [<- Hl] [->|Hx]%elem_of_cons; [set_solver|]. specialize (IH _ Hl Hx). set_solver.
Qed.

Lemma ring_lt bc l i : ring bc l -> i ∈ l -> (i < 30)%nat.
Proof. intros Hr Hi. rewrite (rg_perm _ _ Hr) in Hi. apply elem_of_seq in Hi. lia. Qed.

Lemma ring_nodup bc l : ring bc l -> NoDup (bhead :: l).
Proof.
  intros Hr. apply NoDup_cons. split.
  - intros Hi%(ring_lt _ _ _ Hr). unfold bhead in Hi. lia.
  - rewrite (rg_perm _ _ Hr). apply NoDup_seq.
Qed.

Lemma length_set_nxt i v bc : length (bc_buf (set_nxt i v bc)) = length (bc_buf bc).
Proof. apply core_length, core_set_nxt. Qed.

Lemma length_set_prv i v bc : length (bc_buf (set_prv i v bc)) = length (bc_buf bc).
Proof. apply core_length, core_set_prv. Qed.

#[local] Hint Rewrite length_set_nxt length_set_prv nxt_set_prv prv_set_nxt : links.

(** Linking [i], which is not in the list, in after the head. *)
Definition link (i : nat) (bc : bcachest) : bcachest :=
  let bc3 := set_nxt i (nxt bc bhead) bc in
  let bc4 := set_prv i bhead bc3 in
  let bc5 := set_prv (nxt bc4 bhead) i bc4 in
  set_nxt bhead i bc5.

(** Taking [i] out of the list. *)
Definition unlink (i : nat) (bc : bcachest) : bcachest :=
  let bc1 := set_prv (nxt bc i) (prv bc i) bc in
  set_nxt (prv bc1 i) (nxt bc1 i) bc1.

(** [l] is a doubly linked list of buffers. *)
Definition dlist (bc : bcachest) (l : list nat) : Prop :=
  length (bc_buf bc) = 30%nat /\ (forall i, i ∈ l -> (i < 30)%nat) /\ NoDup (bhead :: l) /\
  linked (nxt bc) bhead l bhead /\ linked (prv bc) bhead (reverse l) bhead.

Lemma dlist_le bc l i : dlist bc l -> i ∈ bhead :: l -> (nxt bc i <= 30)%nat /\ (prv bc i <= 30)%nat.
Proof.
  intros (_ & Hlt & _ & Hn & Hp) Hi.
  assert (Hle : forall x, x ∈ l ++ [bhead] -> (x <= 30)%nat).
  { intros x [H%Hlt|H%list_elem_of_singleton]%elem_of_app; [lia|]. unfold bhead in H. lia. }
  split; apply Hle.
  - by apply (linked_in _ _ _ _ _ Hn).
  - assert (i ∈ bhead :: reverse l) as Hi' by (rewrite elem_of_cons, elem_of_reverse in *; done).
    pose proof (linked_in _ _ _ _ _ Hp Hi') as H. rewrite elem_of_app, elem_of_reverse in H. by rewrite elem_of_app.
Qed.

Lemma link_dlist bc l i :
  dlist bc l -> (i < 30)%nat -> i ∉ l -> dlist (link i bc) (i :: l).
Proof.
  intros Hd Hi Hl. destruct (dlist_le _ _ bhead Hd) as [Hle _]; [set_solver|].
  destruct Hd as (Hlen & Hlt & Hnd & Hn & Hp).
  assert (Hih : i <> bhead) by (unfold bhead; lia). unfold link. cbv zeta.
  assert (Hnd' : NoDup (bhead :: i :: l)).
  { apply NoDup_cons in Hnd as [H1 H2]. apply NoDup_cons. split; [set_solver|]. by apply NoDup_cons. }
  split_and!; try done.
  - by autorewrite with links.
  - set_solver.
  - eapply linked_ext; [|apply linked_front; [| |exact Hn]]; [|set_solver|by apply NoDup_cons in Hnd as [? _]].
    intros x _. rewrite nxt_set_nxt by (autorewrite with links; first [done|unfold bhead; lia]).
    unfold fup at 1 3. case_decide; [done|]. autorewrite with links.
    rewrite nxt_set_nxt by (done || lia). done.
  - eapply linked_ext; [|apply linked_front_prev; [done|exact Hp|exact Hn]].
    intros x _. autorewrite with links.
    rewrite nxt_set_nxt by (done || lia). rewrite (fup_other _ _ _ bhead) by done.
    rewrite prv_set_prv by (autorewrite with links; first [done|lia]).
    unfold fup at 1 3. case_decide; [done|].
    rewrite prv_set_prv by (autorewrite with links; first [done|lia]).
    unfold fup. case_decide; [done|]. by autorewrite with links.
Qed.

Lemma unlink_dlist bc l1 i l2 :
  dlist bc (l1 ++ i :: l2) -> dlist (unlink i bc) (l1 ++ l2).
Proof.
  intros Hd. destruct (dlist_le _ _ i Hd) as [Hle Hle']; [set_solver|].
  destruct Hd as (Hlen & Hlt & Hnd & Hn & Hp). unfold unlink. cbv zeta.
  assert (Hi : nxt bc i <> i /\ prv bc i <> i).
  { apply linked_app in Hn as [_ Hn]. rewrite reverse_app, reverse_cons, <- app_assoc in Hp. cbn in Hp.
    apply linked_app in Hp as [_ Hp].
    assert (Hii : i ∉ l1 ++ l2 /\ i <> bhead).
    { rewrite <- Permutation_middle in Hnd. apply NoDup_cons in Hnd as [H1 H2].
      apply NoDup_cons in H2 as [H2 _]. clear -H1 H2; set_solver. }
    pose proof (linked_in _ _ _ _ i Hn (list_elem_of_here _ _)) as Hni.
    pose proof (linked_in _ _ _ _ i Hp (list_elem_of_here _ _)) as Hpi.
    rewrite elem_of_app in Hni, Hpi. rewrite elem_of_reverse in Hpi. rewrite !list_elem_of_singleton in *.
    destruct Hii as [Hii Hib]. rewrite elem_of_app in Hii. split; intros E; rewrite E in *; tauto. }
  assert (Hpi : prv (set_prv (nxt bc i) (prv bc i) bc) i = prv bc i).
  { rewrite prv_set_prv by (done || lia). apply fup_other. intros E. by destruct Hi as [[] _]. }
  rewrite Hpi. autorewrite with links. split_and!; try done.
  - by autorewrite with links.
  - set_solver.
  - rewrite <- Permutation_middle in Hnd.
    apply NoDup_cons in Hnd as [H1 H2]. apply NoDup_cons in H2 as [H2 H3]. apply NoDup_cons.
    split; [|done]. by apply not_elem_of_cons in H1 as [_ H1].
  - eapply linked_ext; [|apply (linked_unlink _ (prv bc) _ _ _ i Hnd Hn)].
    + intros x _. rewrite nxt_set_nxt by (autorewrite with links; first [done|lia]).
      unfold fup. case_decide; [done|]. by autorewrite with links.
    + rewrite reverse_app, reverse_cons, <- app_assoc in Hp. by apply linked_app in Hp as [_ Hp].
  - rewrite reverse_app, reverse_cons, <- app_assoc in Hp. cbn in Hp. rewrite reverse_app.
    eapply linked_ext; [|apply (linked_unlink (prv bc) (nxt bc) _ _ _ i)]; [| |exact Hp|].
    + intros x _. autorewrite with links. by rewrite prv_set_prv by (done || lia).
    + rewrite <- Permutation_middle, !reverse_Permutation. rewrite <- Permutation_middle in Hnd.
      by rewrite (Permutation_app_comm l2 l1).
    + rewrite reverse_involutive. by apply linked_app in Hn as [_ Hn].
Qed.

Lemma ring_dlist bc l : ring bc l <-> dlist bc l /\ l ≡ₚ seq 0 30.
Proof.
  split.
  - intros Hr. split; [|apply Hr]. split_and!; try apply Hr.
    + intros i. apply (ring_lt _ _ _ Hr).
    + apply (ring_nodup _ _ Hr).
  - intros [(? & ? & ? & ? & ?) ?]. by split.
Qed.

(** brelse() moves the buffer to the front of the ring. *)
Lemma move_front_ring bc l1 i l2 :
  ring bc (l1 ++ i :: l2) -> ring (link i (unlink i bc)) (i :: l1 ++ l2).
Proof.
  rewrite !ring_dlist. intros [Hd Hp]. split; [|by rewrite Permutation_middle].
  destruct Hd as (H1 & H2 & H3 & H4 & H5) eqn:E. clear E.
  apply link_dlist; [by apply unlink_dlist|apply H2; set_solver|].
  rewrite <- Permutation_middle in H3. apply NoDup_cons in H3 as [_ H3].
  by apply NoDup_cons in H3 as [H3 _].
Qed.

(** ** Lemmas: the operations *)

(** The tests of the two scans of bget(). *)
Definition buf_is (dev blockno : Z) (bc : bcachest) (i : nat) : bool :=
  match bc_buf bc !! i with
  | Some b => (b_dev b =? dev) && (b_blockno b =? blockno)
  | None => false
  end.

Definition buf_free (bc : bcachest) (i : nat) : bool :=
  match bc_buf bc !! i with Some b => b_refcnt b =? 0 | None => false end.

Definition recycle (dev blockno : Z) (b : buf) : buf :=
  upd_b_refcnt (fun _ => 1) (upd_b_valid (fun _ => false)
    (upd_b_blockno (fun _ => blockno) (upd_b_dev (fun _ => dev) b))).

(** The buffer that bget() chooses and what it does to it. *)
Definition bget_pick (dev blockno : Z) (bc : bcachest) (l : list nat) : option (nat * (buf -> buf)) :=
  match List.find (buf_is dev blockno bc) l with
  | Some i => Some (i, upd_b_refcnt (fun n => u32 (n + 1)))
  | None =>
      match List.find (buf_free bc) (reverse l) with
      | Some i => Some (i, recycle dev blockno)
      | None => None
      end
  end.

Lemma ring_lookup bc l i : ring bc l -> i ∈ l -> exists b, bc_buf bc !! i = Some b.
Proof.
  intros Hr Hi. apply lookup_Some_total. rewrite (rg_len _ _ Hr). by apply (ring_lt _ _ _ Hr).
Qed.

Lemma scan_ok (body : nat -> K (nat + option nat)) (p : nat -> bool) (f : nat -> nat) s l a fuel :
  (forall i, i ∈ l -> i <> bhead /\ body i s = Ok (if p i then inr (Some i) else inl (f i)) s) ->
  body bhead s = Ok (inr None) s ->
  linked f a l bhead -> (length l < fuel)%nat ->
  loop fuel body (f a) s = Ok (List.find p l) s.
Proof.
  intros Hb Hend. revert a fuel. induction l as [|x l IH]; intros a fuel Hl Hf.
  - destruct fuel as [|fuel]; [cbn in Hf; lia|]. cbn in Hl. rewrite Hl. cbn. run. by rewrite Hend.
  - destruct fuel as [|fuel]; [cbn in Hf; lia|]. cbn in Hf. destruct Hl as [-> Hl].
    cbn [loop List.find]. unfold mbind, M_bind. rewrite (proj2 (Hb x ltac:(set_solver))).
    destruct (p x); [done|]. apply IH; [|done|lia]. intros i Hi. apply Hb. set_solver.
Qed.

Lemma bget_scan_ok dev blockno s l :
  ring (k_bcache s) l ->
  loop 31 (bget_scan dev blockno) (bc_hnext (k_bcache s)) s =
    Ok (List.find (buf_is dev blockno (k_bcache s)) l) s.
Proof.
  intros Hr. apply (scan_ok _ _ (nxt (k_bcache s)) _ _ bhead).
  - intros i Hi. destruct (ring_lookup _ _ _ Hr Hi) as [b Hb].
    assert (Hne : i <> bhead).
    { pose proof (ring_lt _ _ _ Hr Hi). unfold bhead. lia. }
    split; [done|]. unfold bget_scan, buf_is, nxt. rewrite decide_False by done.
    unfold get_buf, get_entry. run. rewrite Hb. rewrite decide_False by done.
    by destruct (_ && _).
  - unfold bget_scan. by rewrite decide_True.
  - apply Hr.
  - rewrite (rg_perm _ _ Hr), length_seq. lia.
Qed.

Lemma bget_lru_ok s l :
  ring (k_bcache s) l ->
  loop 31 bget_lru (bc_hprev (k_bcache s)) s = Ok (List.find (buf_free (k_bcache s)) (reverse l)) s.
Proof.
  intros Hr. apply (scan_ok _ _ (prv (k_bcache s)) _ _ bhead).
  - intros i Hi. rewrite elem_of_reverse in Hi. destruct (ring_lookup _ _ _ Hr Hi) as [b Hb].
    assert (Hne : i <> bhead).
    { pose proof (ring_lt _ _ _ Hr Hi). unfold bhead. lia. }
    split; [done|]. unfold bget_lru, buf_free, prv. rewrite decide_False by done.
    unfold get_buf, get_entry. run. rewrite Hb. rewrite decide_False by done.
    by destruct (b_refcnt b =? 0).
  - unfold bget_lru. by rewrite decide_True.
  - apply Hr.
  - rewrite length_reverse, (rg_perm _ _ Hr), length_seq. lia.
Qed.

(** Changing one buffer. *)
Definition on_buf (i : nat) (f : buf -> buf) : kstate -> kstate :=
  upd_k_bcache (upd_bc_buf (alter f i)).

Lemma on_buf_comp i f g s : on_buf i f (on_buf i g s) = on_buf i (f ∘ g) s.
Proof.
  unfold on_buf. rewrite upd_k_bcache_comp. apply upd_k_bcache_ext. unfold upd_bc_buf. ksimpl.
  f_equal. by rewrite list_alter_alter_eq.
Qed.

Lemma calm_on_buf lks i f s : calm lks s -> calm lks (on_buf i f s).
Proof. apply calm_ext; [unfold on_buf; by ksync|done]. Qed.

#[export] Instance on_buf_proper i f : Proper ((≡) ==> (≡)) (on_buf i f).
Proof. apply _. Qed.

Lemma find_in {A} (p : A -> bool) l x : List.find p l = Some x -> x ∈ l /\ p x = true.
Proof. intros H%List.find_some. rewrite list_elem_of_In. done. Qed.

Lemma find_not {A} (p : A -> bool) l x : List.find p l = None -> x ∈ l -> p x = false.
Proof. intros H Hx. apply (List.find_none _ _ H). by rewrite <- list_elem_of_In. Qed.

Lemma bget_pick_in dev blockno bc l i f : bget_pick dev blockno bc l = Some (i, f) -> i ∈ l.
Proof.
  unfold bget_pick. destruct (List.find _ l) eqn:E1.
  - intros [= -> _]. by apply find_in in E1 as [? _].
  - destruct (List.find _ (reverse l)) eqn:E2; [|done]. intros [= -> _].
    apply find_in in E2 as [H _]. by rewrite elem_of_reverse in H.
Qed.

Lemma bget_spec lks dev blockno s l i f b :
  calm lks s -> L_bcache ∉ lks -> L_sleep (SL_buf i) ∉ lks -> ring (k_bcache s) l ->
  bget_pick dev blockno (k_bcache s) l = Some (i, f) ->
  bc_buf (k_bcache s) !! i = Some b -> sl_locked (b_lock (f b)) = false ->
  wp (bget dev blockno) (fun r s' => r = i /\
    s' ≡ on_buf i (fun b => upd_b_lock (fun _ => mkSleeplock true (mypid s)) (f b)) s) s.
Proof.
  intros Hc Hlk Hlk2 Hr Hpick Hb Hfree.
  assert (Hend : forall s1, s1 ≡ on_buf i f s ->
    wp (acquiresleep (SL_buf i);; mret i) (fun r s' => r = i /\
      s' ≡ on_buf i (fun b => upd_b_lock (fun _ => mkSleeplock true (mypid s)) (f b)) s) s1).
  { intros s1 Hs1. apply wp_bind. eapply wp_mono.
    - apply (acquiresleep_spec lks _ _ (b_lock (f b))); [|done| |done].
      + eapply calm_keq; [exact Hs1|]. by apply calm_on_buf.
      + rewrite (slock_keq _ _ _ Hs1). cbn. by rewrite list_lookup_alter_eq, Hb.
    - cbn beta. intros _ s2 Hs2. apply wp_ret. split; [done|]. etrans; [exact Hs2|].
      rewrite (mypid_keq _ _ Hs1). etrans; [apply set_slock_proper, Hs1|].
      cbn [set_slock]. change (mypid (on_buf i f s)) with (mypid s).
      change (on_buf i (upd_b_lock (fun _ => mkSleeplock true (mypid s))) (on_buf i f s) ≡
        on_buf i (fun b => upd_b_lock (fun _ => mkSleeplock true (mypid s)) (f b)) s).
      by rewrite on_buf_comp. }
  unfold bget. apply wp_bind, wp_acquire; [by apply Hc|]. wp_steps.
  eapply wp_ok; [by apply bget_scan_ok|].
  change (k_bcache (locked L_bcache s)) with (k_bcache s).
  unfold bget_pick in Hpick. destruct (List.find _ l) as [j|] eqn:E1.
  { simplify_eq. unfold upd_buf. wp_steps. wp_rel; [apply Hc|]. apply Hend. keq. }
  wp_steps. eapply wp_ok; [by apply bget_lru_ok|].
  change (k_bcache (locked L_bcache s)) with (k_bcache s).
  destruct (List.find _ (reverse l)) as [j|] eqn:E2; [|done]. simplify_eq.
  unfold upd_buf. wp_steps. wp_rel; [apply Hc|]. apply Hend.
  transitivity (on_buf i (upd_b_refcnt (fun _ => 1)) (on_buf i (upd_b_valid (fun _ => false))
    (on_buf i (upd_b_blockno (fun _ => blockno)) (on_buf i (upd_b_dev (fun _ => dev)) s)))); [keq|].
  by rewrite !on_buf_comp.
Qed.

(** Without a free buffer for a block that is not cached, bget() panics. *)
Lemma bget_panics lks dev blockno s l :
  calm lks s -> L_bcache ∉ lks -> ring (k_bcache s) l ->
  bget_pick dev blockno (k_bcache s) l = None -> bget dev blockno s = Panic "bget: no buffers".
Proof.
  intros Hc Hlk Hr Hpick. unfold bget. rewrite (bind_ok _ _ tt s (locked L_bcache s)) by (by apply acquire_ok, Hc).
  unfold bget_pick in Hpick. destruct (List.find _ l) eqn:E1; [done|].
  destruct (List.find _ (reverse l)) eqn:E2; [done|].
  erewrite bind_ok by done. erewrite bind_ok by (by apply bget_scan_ok).
  change (k_bcache (locked L_bcache s)) with (k_bcache s). rewrite E1.
  erewrite bind_ok by done. erewrite bind_ok by (by apply bget_lru_ok).
  change (k_bcache (locked L_bcache s)) with (k_bcache s). by rewrite E2.
Qed.

(** What brelse() does to the cache once the sleep lock is released. *)
Definition brelse_bc (i : nat) (bc : bcachest) : bcachest :=
  let bc' := upd_bc_buf (alter (upd_b_refcnt (fun n => u32 (n - 1))) i) bc in
  if buf_free bc' i then link i (unlink i bc') else bc'.

Lemma link_front_eq i s : link_front i s = Ok tt (upd_k_bcache (link i) s).
Proof. unfold link_front, upd_bc. run. by rewrite !upd_k_bcache_comp. Qed.

Lemma brelse_spec lks i s b :
  calm lks s -> L_bcache ∉ lks -> L_sleep (SL_buf i) ∉ lks -> (forall j, L_proc j ∉ lks) ->
  bc_buf (k_bcache s) !! i = Some b -> b_lock b = mkSleeplock true (mypid s) ->
  wp (brelse i) (fun _ s' => s' ≡ upd_k_bcache (brelse_bc i)
    (upd_k_procs (woken (Ch_slock (SL_buf i)) (c_proc (k_cpu s)) (seq 0 64))
      (on_buf i (upd_b_lock (fun _ => mkSleeplock false 0)) s))) s.
Proof.
  intros Hc Hlk Hlk2 Hp Hb Hl. unfold brelse. apply wp_bind. eapply wp_mono.
  { apply (holdingsleep_spec lks _ _ (b_lock b)); [done|done|]. cbn. by rewrite Hb. }
  cbn beta. intros r s1 [-> Hs1]. rewrite Hl. cbn [sl_locked sl_pid]. rewrite Z.eqb_refl. cbn [andb negb].
  assert (Hc1 : calm lks s1) by (by eapply calm_keq).
  apply wp_bind. eapply wp_mono; [by apply (releasesleep_spec lks)|].
  cbn beta. intros _ s2 Hs2.
  set (s3 := upd_k_procs (woken (Ch_slock (SL_buf i)) (c_proc (k_cpu s)) (seq 0 64))
      (on_buf i (upd_b_lock (fun _ => mkSleeplock false 0)) s)).
  assert (Hs3 : s2 ≡ s3).
  { etrans; [exact Hs2|]. rewrite (keq_c_proc _ _ Hs1). apply upd_k_procs_proper.
    exact (set_slock_proper (SL_buf i) _ _ _ Hs1). }
  assert (Hc3 : calm lks s3).
  { eapply calm_ext; [| |exact (calm_on_buf _ i (upd_b_lock (fun _ => mkSleeplock false 0)) _ Hc)].
    - unfold s3. by ksync.
    - apply length_woken. }
  pose proof (calm_keq _ _ _ Hs3 Hc3) as Hc2.
  assert (Hbuf : bc_buf (k_bcache s2) !! i = Some (upd_b_lock (fun _ => mkSleeplock false 0) b)).
  { rewrite (keq_k_bcache _ _ Hs3). unfold s3, on_buf. ksimpl. by rewrite list_lookup_alter_eq, Hb. }
  apply (wp_mono _ (fun _ s' => s' ≡ upd_k_bcache (brelse_bc i) s2)).
  2: { cbn beta. intros _ s' Hs'. etrans; [exact Hs'|]. by apply upd_k_bcache_proper. }
  apply wp_bind, wp_acquire; [by apply Hc2|]. unfold upd_buf. wp_steps.
  eapply wp_get_entry. { kread. by rewrite list_lookup_alter_eq, Hbuf. }
  set (rc := alter (upd_b_refcnt (fun n => u32 (n - 1))) i).
  assert (Hrf : buf_free (upd_bc_buf rc (k_bcache s2)) i = (u32 (b_refcnt b - 1) =? 0)).
  { unfold buf_free, rc. ksimpl. by rewrite list_lookup_alter_eq, Hbuf. }
  cbn [b_refcnt upd_b_refcnt upd_b_lock]. destruct (u32 (b_refcnt b - 1) =? 0); unfold upd_bc; wp_steps.
  - eapply wp_ok; [apply link_front_eq|]. wp_rel; [apply Hc2|].
    transitivity (upd_k_bcache (link i ∘ unlink i ∘ upd_bc_buf rc) s2); [by rewrite !upd_k_bcache_comp; keq|].
    erewrite upd_k_bcache_ext; [done|]. unfold brelse_bc. fold rc. by rewrite Hrf.
  - wp_rel; [apply Hc2|]. transitivity (upd_k_bcache (upd_bc_buf rc) s2); [keq|].
    erewrite upd_k_bcache_ext; [done|]. unfold brelse_bc. fold rc. by rewrite Hrf.
Qed.
