(* ===== verification/Bcache.v ===== *)
(** * What the buffer cache promises (kernel/bio.c)

    [cache_ok s h P] relates the cache to a view of the disk: [h] gives the block
    number and the content of every buffer the running process has locked, [P]
    the content of the blocks that are pinned.  Any other cached block agrees with
    the disk.  The [BlockCache] class states the contract of bread(), bwrite(),
    brelse(), bpin() and bunpin() in these terms; bio.c is an instance of it and
    the log is verified against the class. *)

From Stdlib Require Import ZArith Lia.
From stdpp Require Import base tactics numbers gmap strings option list.
From S2P Require Import Prelude Bytes Kernel Spinlock Sched Bio.

(** ** Specification *)

(** A block of the disk. *)
Definition blk_ok (x : list Z) : Prop := length x = 1024%nat /\ Forall byte_ok x.

Definition disk_ok (d : diskst) : Prop := forall b, blk_ok (dget d b).

(** What reading block [b] yields. *)
Definition content (d : diskst) (P : gmap Z (list Z)) (b : Z) : list Z :=
  default (dget d b) (P !! b).

(** The file system's code changes only these fields. *)
Definition fs_step (s s' : kstate) : Prop :=
  s' ≡ upd_k_bcache (fun _ => k_bcache s') (upd_k_procs (fun _ => k_procs s')
         (upd_k_log (fun _ => k_log s') (upd_k_disk (fun _ => k_disk s')
           (upd_k_itable (fun _ => k_itable s') s)))) /\
  woke (c_proc (k_cpu s)) (k_procs s) (k_procs s').

(** [fs_step] that leaves log, disk and inode table alone. *)
Definition bio_step (s s' : kstate) : Prop :=
  fs_step s s' /\ k_log s' = k_log s /\ k_disk s' = k_disk s /\ k_itable s' = k_itable s.

(** The state of buffer [i]: its reference count counts the lock holder and the
    pin; locked, it holds what [h] says; unlocked and valid, what reading its block
    yields. *)
Record buf_ok (d : diskst) (pid : Z) (h : gmap nat (Z * list Z)) (P : gmap Z (list Z))
    (i : nat) (b : buf) : Prop := {
  bo_dev : b_dev b = 0 \/ b_dev b = 1;
  bo_dev0 : b_dev b = 0 -> b_valid b = false;
  bo_ref : b_refcnt b = (if decide (is_Some (h !! i)) then 1 else 0) +
                        (if decide (b_dev b = 1 /\ is_Some (P !! b_blockno b)) then 1 else 0);
  bo_held n x : h !! i = Some (n, x) ->
    b_lock b = mkSleeplock true pid /\ b_dev b = 1 /\ b_blockno b = n /\ b_valid b = true /\
    b_data b = x;
  bo_free : h !! i = None ->
    sl_locked (b_lock b) = false /\ (b_valid b = true -> b_data b = content d P (b_blockno b));
}.

Record bufs_ok (d : diskst) (pid : Z) (h : gmap nat (Z * list Z)) (P : gmap Z (list Z))
    (bs : list buf) : Prop := {
  co_buf i b : bs !! i = Some b -> buf_ok d pid h P i b;
  co_uniq i j b b' :
    bs !! i = Some b -> bs !! j = Some b' -> b_dev b = 1 -> b_dev b' = 1 ->
    b_blockno b = b_blockno b' -> i = j;
  co_pin n x : P !! n = Some x ->
    exists i b, bs !! i = Some b /\ b_dev b = 1 /\ b_blockno b = n /\ b_valid b = true;
  co_held i nx : h !! i = Some nx -> (i < 30)%nat;
  co_disk : disk_ok d;
  co_blk_h i n x : h !! i = Some (n, x) -> blk_ok x;
  co_blk_P n x : P !! n = Some x -> blk_ok x;
}.

Definition cache_ok (s : kstate) (h : gmap nat (Z * list Z)) (P : gmap Z (list Z)) : Prop :=
  (exists l, ring (k_bcache s) l) /\ bufs_ok (k_disk s) (mypid s) h P (bc_buf (k_bcache s)).

(** No buffer holds block [n]. *)
Definition unheld (h : gmap nat (Z * list Z)) (n : Z) : Prop :=
  forall i x, h !! i <> Some (n, x).

(** The contract of the cache.  [Cache s h P] is its invariant. *)
Class BlockCache (Cache : kstate -> gmap nat (Z * list Z) -> gmap Z (list Z) -> Prop) := {
  bc_blk_h s h P i n x : Cache s h P -> h !! i = Some (n, x) -> blk_ok x;
  bc_content s h P n : Cache s h P -> blk_ok (content (k_disk s) P n);
  bc_ext s s' h P : Cache s h P -> mypid s' = mypid s ->
    k_bcache s' = k_bcache s -> k_disk s' = k_disk s -> Cache s' h P;
  bc_data s h P i n x : Cache s h P -> h !! i = Some (n, x) ->
    b_data <$> bc_buf (k_bcache s) !! i = Some x /\
    b_blockno <$> bc_buf (k_bcache s) !! i = Some n;
  bc_bread s h P n :
    calm [] s -> Cache s h P -> unheld h n ->
    is_Some (P !! n) \/ (size h + size P < 30)%nat ->
    wp (bread 1 n) (fun i s' =>
      h !! i = None /\ Cache s' (<[i := (n, content (k_disk s) P n)]> h) P /\ bio_step s s') s;
  bc_store s h P i n x y :
    calm [] s -> Cache s h P -> h !! i = Some (n, x) -> blk_ok y ->
    Cache (on_buf i (upd_b_data (fun _ => y)) s) (<[i := (n, y)]> h) P;
  bc_bwrite s h P i n x :
    calm [] s -> Cache s h P -> h !! i = Some (n, x) ->
    wp (bwrite i) (fun _ s' => Cache s' h P /\ s' ≡ upd_k_disk (dput n x) s) s;
  bc_brelse s h P i n x :
    calm [] s -> Cache s h P -> h !! i = Some (n, x) -> x = content (k_disk s) P n ->
    wp (brelse i) (fun _ s' => Cache s' (delete i h) P /\ bio_step s s') s;
  bc_bpin lks s h P i n x :
    calm lks s -> L_bcache ∉ lks -> Cache s h P -> h !! i = Some (n, x) -> P !! n = None ->
    wp (bpin i) (fun _ s' => Cache s' h (<[n := x]> P) /\ bio_step s s') s;
  bc_bunpin s h P i n x y :
    calm [] s -> Cache s h P -> h !! i = Some (n, x) -> P !! n = Some y ->
    wp (bunpin i) (fun _ s' => Cache s' h (delete n P) /\ bio_step s s') s;
  bc_repin s h P i n x y :
    Cache s h P -> h !! i = Some (n, x) -> P !! n = Some y -> Cache s h (<[n := x]> P);
}.

(** ** Lemmas: steps *)

Lemma fs_step_keq s s' : s' ≡ s -> fs_step s s'.
Proof.
  intros E. pose proof E as [E1 E2]. split.
  - rewrite (keq_k_bcache _ _ E), (keq_k_procs _ _ E), (keq_k_log _ _ E), (keq_k_disk _ _ E),
      (keq_k_itable _ _ E). by rewrite E; keq.
  - rewrite (keq_k_procs _ _ E). apply woke_refl.
Qed.

Lemma fs_step_c_proc s s' : fs_step s s' -> c_proc (k_cpu s') = c_proc (k_cpu s).
Proof. intros [E _]. by rewrite (keq_c_proc _ _ E). Qed.

#[export] Instance fs_step_preorder : PreOrder fs_step.
Proof.
  split.
  - intros s. by apply fs_step_keq.
  - intros s1 s2 s3 H12 H23. pose proof (fs_step_c_proc _ _ H12) as Hc.
    destruct H12 as [E12 W12], H23 as [E23 W23]. split.
    + etrans; [exact E23|]. etrans; [eapply upd_k_bcache_proper, upd_k_procs_proper, upd_k_log_proper,
        upd_k_disk_proper, upd_k_itable_proper, E12|]. keq.
    + rewrite Hc in W23. by eapply woke_trans.
Qed.

#[export] Instance bio_step_preorder : PreOrder bio_step.
Proof.
  split.
  - intros s. by split.
  - intros s1 s2 s3 (H12 & ? & ? & ?) (H23 & ? & ? & ?). split; [by etrans|]. split_and!; congruence.
Qed.

Lemma bio_step_keq s s' : s' ≡ s -> bio_step s s'.
Proof.
  intros E. split; [by apply fs_step_keq|].
  by rewrite (keq_k_log _ _ E), (keq_k_disk _ _ E), (keq_k_itable _ _ E).
Qed.

Lemma bio_step_fs s s' : bio_step s s' -> fs_step s s'.
Proof. by intros [? _]. Qed.

(** A change of the cache that wakes processes up. *)
Lemma bio_step_upd s s' f ch d :
  s' ≡ upd_k_bcache f (upd_k_procs (woken ch (c_proc (k_cpu s)) d) s) -> bio_step s s'.
Proof.
  intros E. split; [split|].
  - rewrite (keq_k_bcache _ _ E), (keq_k_procs _ _ E), (keq_k_log _ _ E), (keq_k_disk _ _ E),
      (keq_k_itable _ _ E). etrans; [exact E|]. keq.
  - rewrite (keq_k_procs _ _ E). apply woken_woke.
  - by rewrite (keq_k_log _ _ E), (keq_k_disk _ _ E), (keq_k_itable _ _ E).
Qed.

Lemma bio_step_bcache s s' f : s' ≡ upd_k_bcache f s -> bio_step s s'.
Proof.
  intros E. apply (bio_step_upd _ _ f Ch_null []). etrans; [exact E|].
  apply upd_k_bcache_proper. split; [by ksync|]. unfold others. ksimpl. by rewrite woken_nil.
Qed.

Lemma fs_step_calm lks s s' : fs_step s s' -> calm lks s -> calm lks s'.
Proof.
  intros [E [W _]] Hc. eapply calm_keq; [exact E|]. by eapply calm_ext; [by ksync| |exact Hc].
Qed.

Lemma fs_step_mypid s s' : fs_step s s' -> calm [] s -> mypid s' = mypid s.
Proof.
  intros H Hc. pose proof (fs_step_c_proc _ _ H) as E. destruct (calm_proc _ _ Hc) as (p & pp & Hp & Hpp & ->).
  unfold mypid. rewrite E, Hp. destruct H as [_ W]. by rewrite (woke_me _ _ _ _ _ W Hp Hpp).
Qed.

(** ** Lemmas: the invariant *)

Lemma core_fields b b' :
  core b = core b' ->
  b_valid b = b_valid b' /\ b_dev b = b_dev b' /\ b_blockno b = b_blockno b' /\
  b_lock b = b_lock b' /\ b_refcnt b = b_refcnt b' /\ b_data b = b_data b'.
Proof. unfold core. intros E. injection E. tauto. Qed.

Lemma core_lookup (bs bs' : list buf) (i : nat) (b : buf) :
  core <$> bs = core <$> bs' -> bs !! i = Some b -> exists b', bs' !! i = Some b' /\ core b' = core b.
Proof.
  intros E Hb. assert (core <$> bs' !! i = Some (core b)) as H.
  { by rewrite <- list_lookup_fmap, <- E, list_lookup_fmap, Hb. }
  destruct (bs' !! i) as [b'|]; [|done]. cbn in H. exists b'. split; [done|]. congruence.
Qed.

Lemma buf_ok_core d pid h P i b b' : core b = core b' -> buf_ok d pid h P i b -> buf_ok d pid h P i b'.
Proof.
  intros (E1 & E2 & E3 & E4 & E5 & E6)%core_fields [H1 H2 H3 H4 H5].
  split; rewrite <- ?E1, <- ?E2, <- ?E3, <- ?E4, <- ?E5, <- ?E6; done.
Qed.

Lemma bufs_ok_core d pid h P bs bs' :
  core <$> bs = core <$> bs' -> bufs_ok d pid h P bs -> bufs_ok d pid h P bs'.
Proof.
  intros E [H1 H2 H3 H4 H5 H6 H7]. split; try done.
  - intros i b Hb. destruct (core_lookup _ _ _ _ (eq_sym E) Hb) as (b' & Hb' & Ec).
    by eapply buf_ok_core; [|by apply H1].
  - intros i j b b' Hb Hb'. destruct (core_lookup _ _ _ _ (eq_sym E) Hb) as (c & Hc & Ec).
    destruct (core_lookup _ _ _ _ (eq_sym E) Hb') as (c' & Hc' & Ec').
    apply core_fields in Ec as (_ & <- & <- & _). apply core_fields in Ec' as (_ & <- & <- & _). eauto.
  - intros n x Hn. destruct (H3 n x Hn) as (i & b & Hb & Hr).
    destruct (core_lookup _ _ _ _ E Hb) as (c & Hc & Ec). exists i, c.
    apply core_fields in Ec as (-> & -> & -> & _). done.
Qed.

(** Changing one buffer and, with it, the view. *)
Lemma bufs_ok_alter d pid h P bs d' h' P' i b f :
  bufs_ok d pid h P bs -> bs !! i = Some b -> length bs = 30%nat ->
  buf_ok d' pid h' P' i (f b) ->
  (forall j c, j <> i -> bs !! j = Some c -> buf_ok d pid h P j c -> buf_ok d' pid h' P' j c) ->
  (forall j c, j <> i -> bs !! j = Some c -> b_dev c = 1 -> b_dev (f b) = 1 -> b_blockno c <> b_blockno (f b)) ->
  (forall n, is_Some (P' !! n) -> is_Some (P !! n) \/ b_blockno (f b) = n) ->
  (is_Some (P !! b_blockno b) /\ b_dev b = 1 \/ is_Some (P' !! b_blockno (f b)) ->
    b_dev (f b) = 1 /\ b_valid (f b) = true) ->
  (is_Some (P !! b_blockno b) /\ b_dev b = 1 -> b_blockno (f b) = b_blockno b) ->
  (forall j, is_Some (h' !! j) -> is_Some (h !! j) \/ j = i) ->
  disk_ok d' -> (forall j n x, h' !! j = Some (n, x) -> blk_ok x) ->
  (forall n x, P' !! n = Some x -> blk_ok x) ->
  bufs_ok d' pid h' P' (alter f i bs).
Proof.
  intros [H1 H2 H3 H4 H5 H6 H7] Hb Hlen Hi Hj Hu HP Hv Hn Hh Hd Hbh HbP. split; try done.
  - intros j c. rewrite list_lookup_alter. case_decide as E; [subst j|]; cbn; [|eauto].
    rewrite Hb. cbn. by intros [= <-].
  - intros j k c c'. rewrite !list_lookup_alter. repeat case_decide; subst; try done; rewrite ?Hb; cbn.
    + intros [= <-] Hc' D1 D2 E. edestruct (Hu k c'); done.
    + intros Hc [= <-] D1 D2 E. edestruct (Hu j c); done.
    + eauto.
  - intros n x Hx. destruct (decide (b_blockno (f b) = n)) as [<-|Hne].
    + exists i, (f b). rewrite list_lookup_alter_eq, Hb. split; [done|]. split; [|split; [done|]]; apply Hv; eauto.
    + destruct (HP n) as [[y Hy]|]; [eauto| |done]. destruct (H3 n y Hy) as (j & c & Hc & Hcd & Hcn & Hcv).
      assert (j <> i).
      { intros ->. simplify_eq. apply Hne, Hn. eauto. }
      exists j, c. rewrite list_lookup_alter_ne by done. done.
  - intros j nx Hx. destruct (Hh j) as [[y Hy]| ->]; [eauto|eauto|]. apply lookup_lt_Some in Hb. lia.
Qed.

Lemma ring_alter bc l f i :
  (forall b, b_next (f b) = b_next b /\ b_prev (f b) = b_prev b) ->
  ring bc l -> ring (upd_bc_buf (alter f i) bc) l.
Proof.
  intros Hf [H1 H2 H3 H4]. split; [by ksimpl; rewrite length_alter|done|eapply linked_ext; [|exact H3]|eapply linked_ext; [|exact H4]];
    intros x _; unfold nxt, prv; case_decide; try done; ksimpl; rewrite list_lookup_alter;
    case_decide; try done; subst; destruct (bc_buf bc !! x); try done; cbn; by destruct (Hf b).
Qed.

Lemma NoDup_size {A} `{Countable A} {B} (l : list A) (m : gmap A B) :
  NoDup l -> (forall x, x ∈ l -> is_Some (m !! x)) -> (length l <= size m)%nat.
Proof.
  intros Hnd Hl. rewrite <- size_dom, <- (size_list_to_set (C := gset A) l) by done.
  apply subseteq_size. intros x. rewrite elem_of_list_to_set, elem_of_dom. apply Hl.
Qed.

Lemma length_filter_split {A} (P : A -> Prop) `{forall x, Decision (P x)} (l : list A) :
  (length (filter P l) + length (filter (fun x => ~ P x) l) = length l)%nat.
Proof.
  induction l as [|x l IH]; [done|]. rewrite !filter_cons. repeat case_decide; try tauto; cbn; lia.
Qed.

(** As long as fewer than NBUF blocks are locked or pinned, a buffer is free. *)
Lemma free_buffer d pid h P bs :
  bufs_ok d pid h P bs -> length bs = 30%nat -> (size h + size P < 30)%nat ->
  exists i b, bs !! i = Some b /\ b_refcnt b = 0.
Proof.
  intros Hbs Hlen Hroom. destruct (decide (Exists (fun b => b_refcnt b = 0) bs)) as [He|Hn].
  { apply Exists_exists in He as (b & [i Hi]%list_elem_of_lookup & Hb). eauto. }
  exfalso. set (g := fun i => default 0 (b_blockno <$> bs !! i)).
  assert (Hg : forall i, i ∈ seq 0 30 -> h !! i = None -> exists b, bs !! i = Some b /\ b_dev b = 1 /\ is_Some (P !! b_blockno b)).
  { intros i Hi Hh. apply elem_of_seq in Hi. destruct (lookup_Some_total bs i) as [b Hb]; [lia|].
    exists b. split; [done|]. pose proof (bo_ref _ _ _ _ _ _ (co_buf _ _ _ _ _ Hbs _ _ Hb)) as Hr.
    rewrite decide_False in Hr by (rewrite Hh; by intros []). case_decide; [done|].
    destruct Hn. apply Exists_exists. exists b. split; [by eapply list_elem_of_lookup_2|lia]. }
  assert (HA : (length (filter (fun i => is_Some (h !! i)) (seq 0 30)) <= size h)%nat).
  { apply NoDup_size; [apply NoDup_filter, NoDup_seq|]. intros x. rewrite list_elem_of_filter. tauto. }
  assert (HB : (length (g <$> filter (fun i => ~ is_Some (h !! i)) (seq 0 30)) <= size P)%nat).
  { apply NoDup_size.
    - apply NoDup_fmap_2_strong; [|apply NoDup_filter, NoDup_seq]. intros x y.
      rewrite !list_elem_of_filter, <- !eq_None_not_Some. intros [Hx1 Hx2] [Hy1 Hy2] E.
      destruct (Hg x Hx2 Hx1) as (b & Hb & Hd & _), (Hg y Hy2 Hy1) as (c & Hc & Hd' & _).
      unfold g in E. rewrite Hb, Hc in E. cbn in E. by eapply (co_uniq _ _ _ _ _ Hbs).
    - intros n (i & -> & Hi)%list_elem_of_fmap. rewrite list_elem_of_filter, <- eq_None_not_Some in Hi.
      destruct (Hg i (proj2 Hi) (proj1 Hi)) as (b & Hb & _ & Hp). unfold g. by rewrite Hb. }
  rewrite length_fmap in HB. pose proof (length_filter_split (fun i => is_Some (h !! i)) (seq 0 30)) as HC.
  rewrite length_seq in HC. lia.
Qed.

(** What bget() finds: an unlocked buffer that is, or becomes, the one of the
    block. *)
Record picked (d : diskst) (h : gmap nat (Z * list Z)) (P : gmap Z (list Z)) (bs : list buf) (n : Z)
    (i : nat) (f : buf -> buf) (b : buf) : Prop := {
  pk_buf : bs !! i = Some b;
  pk_free : h !! i = None;
  pk_unlocked : sl_locked (b_lock (f b)) = false;
  pk_dev : b_dev (f b) = 1;
  pk_blockno : b_blockno (f b) = n;
  pk_ref : b_refcnt (f b) = 1 + (if decide (is_Some (P !! n)) then 1 else 0);
  pk_valid : b_valid (f b) = true -> b_data (f b) = content d P n;
  pk_invalid : b_valid (f b) = false -> P !! n = None;
  pk_uniq j c : j <> i -> bs !! j = Some c -> b_dev c = 1 -> b_blockno c <> n;
  pk_pin : is_Some (P !! b_blockno b) /\ b_dev b = 1 -> b_blockno b = n;
  pk_link c : b_next (f c) = b_next c /\ b_prev (f c) = b_prev c;
}.

Lemma picked_cached d pid h P bs n i b :
  bufs_ok d pid h P bs -> unheld h n -> bs !! i = Some b -> b_dev b = 1 -> b_blockno b = n ->
  picked d h P bs n i (upd_b_refcnt (fun n => u32 (n + 1))) b.
Proof.
  intros Hbs Hun Hb Hd Hn. pose proof (co_buf _ _ _ _ _ Hbs _ _ Hb) as Hok.
  assert (Hh : h !! i = None).
  { destruct (h !! i) as [[m x]|] eqn:E; [|done].
    destruct (bo_held _ _ _ _ _ _ Hok _ _ E) as (_ & _ & <- & _). subst n. by destruct (Hun i x). }
  destruct (bo_free _ _ _ _ _ _ Hok Hh) as [Hl Hv].
  pose proof (bo_ref _ _ _ _ _ _ Hok) as Hr. rewrite decide_False in Hr by (rewrite Hh; by intros []).
  split; try done.
  - cbn. rewrite Hr, Hd, Hn. destruct (decide (is_Some (P !! n))) as [H2|H2].
    + by rewrite decide_True.
    + by rewrite decide_False by tauto.
  - cbn. intros Hv'. rewrite Hv by done. by rewrite Hn.
  - cbn. intros Hv'. destruct (P !! n) as [x|] eqn:E; [|done].
    destruct (co_pin _ _ _ _ _ Hbs _ _ E) as (j & c & Hc & Hcd & Hcn & Hcv).
    assert (j = i) as -> by (eapply (co_uniq _ _ _ _ _ Hbs); try done; congruence). congruence.
  - intros j c Hj Hc Hcd Hcn. apply Hj. eapply (co_uniq _ _ _ _ _ Hbs); try done. congruence.
Qed.

Lemma picked_recycled d pid h P bs n i b :
  bufs_ok d pid h P bs -> bs !! i = Some b -> b_refcnt b = 0 ->
  (forall j c, bs !! j = Some c -> b_dev c = 1 -> b_blockno c <> n) ->
  picked d h P bs n i (recycle 1 n) b.
Proof.
  intros Hbs Hb Hr Hno. pose proof (co_buf _ _ _ _ _ Hbs _ _ Hb) as Hok.
  rewrite (bo_ref _ _ _ _ _ _ Hok) in Hr.
  assert (Hh : h !! i = None).
  { destruct (h !! i); [|done]. rewrite decide_True in Hr by done. case_decide; lia. }
  assert (Hp : P !! n = None).
  { destruct (P !! n) as [x|] eqn:E; [|done].
    destruct (co_pin _ _ _ _ _ Hbs _ _ E) as (j & c & Hc & Hcd & Hcn & _). by destruct (Hno j c). }
  split; try done.
  - by apply (bo_free _ _ _ _ _ _ Hok).
  - cbn. rewrite Hp. by rewrite decide_False by (by intros []).
  - eauto.
  - rewrite (decide_False (P := is_Some (h !! i))) in Hr by (rewrite Hh; by intros []).
    case_decide; [lia|]. tauto.
Qed.

Lemma pick_ok bc l d pid h P n :
  ring bc l -> bufs_ok d pid h P (bc_buf bc) -> unheld h n ->
  is_Some (P !! n) \/ (size h + size P < 30)%nat ->
  exists i f b, bget_pick 1 n bc l = Some (i, f) /\ picked d h P (bc_buf bc) n i f b.
Proof.
  intros Hr Hbs Hun Hroom. unfold bget_pick. destruct (List.find (buf_is 1 n bc) l) as [i|] eqn:E1.
  { apply find_in in E1 as [Hi Ht]. destruct (ring_lookup _ _ _ Hr Hi) as [b Hb]. unfold buf_is in Ht.
    rewrite Hb in Ht. bool_decide_tests. eexists i, _, b. split; [done|]. by eapply picked_cached. }
  assert (Hno : forall j c, bc_buf bc !! j = Some c -> b_dev c = 1 -> b_blockno c <> n).
  { intros j c Hc Hcd Hcn. assert (Hj : j ∈ l).
    { rewrite (rg_perm _ _ Hr), elem_of_seq. apply lookup_lt_Some in Hc. rewrite (rg_len _ _ Hr) in Hc. lia. }
    pose proof (find_not _ _ _ E1 Hj) as Ht. unfold buf_is in Ht. rewrite Hc, Hcd, Hcn, !Z.eqb_refl in Ht.
    done. }
  destruct Hroom as [[x Hx]|Hroom].
  { destruct (co_pin _ _ _ _ _ Hbs _ _ Hx) as (j & c & Hc & Hcd & Hcn & _). by destruct (Hno j c). }
  destruct (free_buffer _ _ _ _ _ Hbs (rg_len _ _ Hr) Hroom) as (j & c & Hc & Hcr).
  destruct (List.find (buf_free bc) (reverse l)) as [i|] eqn:E2.
  - apply find_in in E2 as [Hi Ht]. rewrite elem_of_reverse in Hi. destruct (ring_lookup _ _ _ Hr Hi) as [b Hb].
    unfold buf_free in Ht. rewrite Hb in Ht. bool_decide_tests.
    eexists i, _, b. split; [done|]. by eapply picked_recycled.
  - assert (Hj : j ∈ reverse l).
    { rewrite elem_of_reverse, (rg_perm _ _ Hr), elem_of_seq. apply lookup_lt_Some in Hc.
      rewrite (rg_len _ _ Hr) in Hc. lia. }
    pose proof (find_not _ _ _ E2 Hj) as Ht. unfold buf_free in Ht. rewrite Hc, Hcr in Ht. done.
Qed.

(** ** Lemmas: the operations *)

Lemma buf_ok_other d pid h P j c i nx :
  j <> i -> buf_ok d pid h P j c -> buf_ok d pid (<[i := nx]> h) P j c.
Proof. intros Hj [H1 H2 H3 H4 H5]. split; try done; by rewrite lookup_insert_ne. Qed.

Lemma blk_insert (h : gmap nat (Z * list Z)) i n x :
  blk_ok x -> (forall j m y, h !! j = Some (m, y) -> blk_ok y) ->
  forall j m y, <[i := (n, x)]> h !! j = Some (m, y) -> blk_ok y.
Proof.
  intros Hx Hh j m y. rewrite lookup_insert. case_decide; [intros; by simplify_eq|]. apply Hh.
Qed.

Lemma blk_content d pid h P bs n : bufs_ok d pid h P bs -> blk_ok (content d P n).
Proof.
  intros Hbs. unfold content. destruct (P !! n) eqn:E; cbn.
  - by eapply (co_blk_P _ _ _ _ _ Hbs).
  - apply (co_disk _ _ _ _ _ Hbs).
Qed.

(** Locking the buffer bget() found. *)
Lemma hold_ok d pid h P bs n i f b g :
  bufs_ok d pid h P bs -> length bs = 30%nat -> picked d h P bs n i f b ->
  core (g b) = (true, b_disk (g b), 1, n, mkSleeplock true pid, b_refcnt (f b), content d P n) ->
  bufs_ok d pid (<[i := (n, content d P n)]> h) P (alter g i bs).
Proof.
  intros Hbs Hlen Hpk Hg. unfold core in Hg. injection Hg as Hv Hd Hn Hl Hr Hx.
  pose proof (blk_content _ _ _ _ _ n Hbs) as Hblk.
  eapply bufs_ok_alter; try done; [apply Hpk|..].
  - split.
    + rewrite Hd. auto.
    + by rewrite Hd.
    + rewrite lookup_insert_eq, (decide_True (P := is_Some _)) by done. rewrite Hr, (pk_ref _ _ _ _ _ _ _ _ Hpk), Hd, Hn.
      destruct (decide (is_Some (P !! n))); [by rewrite decide_True|by rewrite decide_False by tauto].
    + intros m x. rewrite lookup_insert_eq. intros. by simplify_eq.
    + by rewrite lookup_insert_eq.
  - intros j c Hj _. by apply buf_ok_other.
  - intros j c Hj Hc Hcd _. rewrite Hn. by eapply (pk_uniq _ _ _ _ _ _ _ _ Hpk).
  - auto.
  - rewrite Hn. intros H. symmetry. by apply (pk_pin _ _ _ _ _ _ _ _ Hpk).
  - intros j. rewrite lookup_insert. case_decide; auto.
  - apply Hbs.
  - apply blk_insert; [done|]. apply Hbs.
  - apply Hbs.
Qed.

Lemma cache_ok_buf s s' i f h P h' P' :
  s' ≡ on_buf i f s -> (forall b, b_next (f b) = b_next b /\ b_prev (f b) = b_prev b) ->
  cache_ok s h P ->
  (length (bc_buf (k_bcache s)) = 30%nat -> bufs_ok (k_disk s) (mypid s) h P (bc_buf (k_bcache s)) ->
    bufs_ok (k_disk s) (mypid s) h' P' (alter f i (bc_buf (k_bcache s)))) ->
  cache_ok s' h' P'.
Proof.
  intros E Hf [[l Hr] Hbs] Hok. unfold cache_ok. rewrite (keq_k_bcache _ _ E), (keq_k_disk _ _ E), (mypid_keq _ _ E).
  split; [exists l; by apply ring_alter|]. apply Hok; [apply Hr|done].
Qed.

Lemma bread_spec s h P n :
  calm [] s -> cache_ok s h P -> unheld h n -> is_Some (P !! n) \/ (size h + size P < 30)%nat ->
  wp (bread 1 n) (fun i s' =>
    h !! i = None /\ cache_ok s' (<[i := (n, content (k_disk s) P n)]> h) P /\ bio_step s s') s.
Proof.
  intros Hc Hok Hun Hroom. pose proof Hok as [[l Hr] Hbs].
  destruct (pick_ok _ _ _ _ _ _ _ Hr Hbs Hun Hroom) as (i & f & b & Hpick & Hpk).
  unfold bread. apply wp_bind. eapply wp_mono.
  { by apply (bget_spec [] 1 n s l i f b); [..|apply Hpk|apply Hpk]; try done; apply not_elem_of_nil. }
  cbn beta. intros _ s1 [-> Hs1].
  assert (Hend : forall s' g, s' ≡ on_buf i g s -> (forall c, b_next (g c) = b_next c /\ b_prev (g c) = b_prev c) ->
    core (g b) = (true, b_disk (g b), 1, n, mkSleeplock true (mypid s), b_refcnt (f b), content (k_disk s) P n) ->
    h !! i = None /\ cache_ok s' (<[i := (n, content (k_disk s) P n)]> h) P /\ bio_step s s').
  { intros s' g Hs' Hl Hg. split; [apply Hpk|]. split; [|by eapply bio_step_bcache].
    eapply cache_ok_buf; [done|done|exact Hok|]. intros Hlen _. by eapply hold_ok. }
  apply wp_bind. eapply wp_get_entry.
  { rewrite (keq_k_bcache _ _ Hs1). unfold on_buf. ksimpl. by rewrite list_lookup_alter_eq, (pk_buf _ _ _ _ _ _ _ _ Hpk). }
  cbn [b_valid upd_b_lock]. destruct (b_valid (f b)) eqn:Hv; cbn [negb]; wp_steps.
  - eapply Hend; [exact Hs1| |].
    + intros c. apply (pk_link _ _ _ _ _ _ _ _ Hpk).
    + unfold core. cbn. by rewrite (pk_dev _ _ _ _ _ _ _ _ Hpk), (pk_blockno _ _ _ _ _ _ _ _ Hpk), Hv, (pk_valid _ _ _ _ _ _ _ _ Hpk).
  - unfold virtio_disk_rw. apply wp_bind. eapply wp_get_entry.
    { rewrite (keq_k_bcache _ _ Hs1). unfold on_buf. ksimpl. by rewrite list_lookup_alter_eq, (pk_buf _ _ _ _ _ _ _ _ Hpk). }
    unfold upd_buf. wp_steps. cbn [b_blockno upd_b_lock]. rewrite (keq_k_disk _ _ Hs1).
    eapply (Hend _ (fun c => upd_b_valid (fun _ => true) (upd_b_data (fun _ => dget (k_disk s) (b_blockno (f b)))
      (upd_b_lock (fun _ => mkSleeplock true (mypid s)) (f c))))).
    + etrans; [apply (on_buf_proper i), (on_buf_proper i), Hs1|]. by rewrite !on_buf_comp.
    + intros c. apply (pk_link _ _ _ _ _ _ _ _ Hpk).
    + unfold core, content. cbn. by rewrite (pk_dev _ _ _ _ _ _ _ _ Hpk), (pk_blockno _ _ _ _ _ _ _ _ Hpk),
        (pk_invalid _ _ _ _ _ _ _ _ Hpk Hv).
Qed.

(** A locked buffer. *)
Lemma held_buf d pid h P bs i n x :
  bufs_ok d pid h P bs -> length bs = 30%nat -> h !! i = Some (n, x) ->
  exists b, bs !! i = Some b /\ buf_ok d pid h P i b /\ b_lock b = mkSleeplock true pid /\
    b_dev b = 1 /\ b_blockno b = n /\ b_valid b = true /\ b_data b = x.
Proof.
  intros Hbs Hlen Hi. destruct (lookup_Some_total bs i) as [b Hb].
  { rewrite Hlen. by eapply (co_held _ _ _ _ _ Hbs). }
  pose proof (co_buf _ _ _ _ _ Hbs _ _ Hb) as Hok. exists b. split; [done|]. split; [done|].
  by apply (bo_held _ _ _ _ _ _ Hok).
Qed.

(** Changing a locked buffer but not its lock, device and block number. *)
Lemma bufs_ok_held d pid h P bs P' i n x y g :
  bufs_ok d pid h P bs -> length bs = 30%nat -> h !! i = Some (n, x) -> blk_ok y ->
  (forall b, b_lock b = mkSleeplock true pid -> b_dev b = 1 -> b_blockno b = n -> b_valid b = true ->
     b_refcnt b = 1 + (if decide (is_Some (P !! n)) then 1 else 0) -> b_data b = x ->
     core (g b) = (true, b_disk (g b), 1, n, mkSleeplock true pid,
       1 + (if decide (is_Some (P' !! n)) then 1 else 0), y)) ->
  (forall m, m <> n -> P' !! m = P !! m) -> (forall z, P' !! n = Some z -> blk_ok z) ->
  bufs_ok d pid (<[i := (n, y)]> h) P' (alter g i bs).
Proof.
  intros Hbs Hlen Hi Hy Hg HP' HPn.
  destruct (held_buf _ _ _ _ _ _ _ _ Hbs Hlen Hi) as (b & Hb & Hok & Hl & Hd & Hn & Hv & Hx).
  assert (Hr : b_refcnt b = 1 + (if decide (is_Some (P !! n)) then 1 else 0)).
  { rewrite (bo_ref _ _ _ _ _ _ Hok), (decide_True (P := is_Some _)) by (rewrite Hi; done). rewrite Hd, Hn.
    destruct (decide (is_Some (P !! n))); [by rewrite decide_True|by rewrite decide_False by tauto]. }
  specialize (Hg b Hl Hd Hn Hv Hr Hx). unfold core in Hg. injection Hg as Hv' Hd' Hn' Hl' Hr' Hx'.
  assert (Hpin : forall m, is_Some (P' !! m) -> is_Some (P !! m) \/ m = n).
  { intros m. destruct (decide (m = n)) as [->|]; [by right|]. rewrite HP' by done. by left. }
  eapply bufs_ok_alter; try done.
  - split.
    + rewrite Hd'. auto.
    + by rewrite Hd'.
    + rewrite lookup_insert_eq, (decide_True (P := is_Some _)) by done. rewrite Hr', Hd', Hn'.
      destruct (decide (is_Some (P' !! n))); [by rewrite decide_True|by rewrite decide_False by tauto].
    + intros m z. rewrite lookup_insert_eq. intros. by simplify_eq.
    + by rewrite lookup_insert_eq.
  - intros j c Hj Hc Hcok. apply buf_ok_other; [done|].
    assert (Hcn : b_dev c = 1 -> b_blockno c <> n).
    { intros E1 E2. apply Hj. eapply (co_uniq _ _ _ _ _ Hbs); try done. congruence. }
    destruct Hcok as [K1 K2 K3 K4 K5]. split; try done.
    + rewrite K3. f_equal. destruct K1 as [K1|K1]; [by rewrite !decide_False by (rewrite K1; intros []; done)|].
      by rewrite HP' by auto.
    + intros E. destruct (K5 E) as [K6 K7]. split; [done|]. intros Hcv. rewrite K7 by done. unfold content.
      rewrite HP'; [done|]. destruct K1 as [K1|K1]; [by rewrite K2 in Hcv|auto].
  - intros j c Hj Hc Hcd _. rewrite Hn'. intros Hcn. apply Hj. eapply (co_uniq _ _ _ _ _ Hbs); try done. congruence.
  - intros m Hm. rewrite Hn'. destruct (Hpin m Hm); auto.
  - intros _. by rewrite Hn', Hn.
  - intros j. rewrite lookup_insert. destruct (decide (i = j)); auto.
  - apply Hbs.
  - apply blk_insert; [done|]. apply Hbs.
  - intros m z. destruct (decide (m = n)) as [->|Hm]; [apply HPn|]. rewrite HP' by done. apply Hbs.
Qed.

Lemma cache_len s h P : cache_ok s h P -> length (bc_buf (k_bcache s)) = 30%nat.
Proof. intros [[l Hr] _]. apply Hr. Qed.

Lemma cache_held s h P i n x :
  cache_ok s h P -> h !! i = Some (n, x) ->
  exists b, bc_buf (k_bcache s) !! i = Some b /\ b_lock b = mkSleeplock true (mypid s) /\
    b_dev b = 1 /\ b_blockno b = n /\ b_data b = x /\
    b_refcnt b = 1 + (if decide (is_Some (P !! n)) then 1 else 0).
Proof.
  intros Hok Hi. pose proof Hok as [_ Hbs].
  destruct (held_buf _ _ _ _ _ _ _ _ Hbs (cache_len _ _ _ Hok) Hi) as (b & Hb & Hbo & Hl & Hd & Hn & Hv & Hx).
  exists b. split_and!; try done. rewrite (bo_ref _ _ _ _ _ _ Hbo), (decide_True (P := is_Some _)) by (by rewrite Hi).
  rewrite Hd, Hn. destruct (decide (is_Some (P !! n))); [by rewrite decide_True|by rewrite decide_False by tauto].
Qed.

Lemma store_spec s h P i n x y :
  cache_ok s h P -> h !! i = Some (n, x) -> blk_ok y ->
  cache_ok (on_buf i (upd_b_data (fun _ => y)) s) (<[i := (n, y)]> h) P.
Proof.
  intros Hok Hi Hy. eapply cache_ok_buf; [done|done|exact Hok|]. intros Hlen Hbs.
  eapply bufs_ok_held; try done; [|apply Hbs]. intros b Hl Hd Hn Hv Hr Hx. unfold core. cbn. congruence.
Qed.

Lemma bpin_spec lks s h P i n x :
  calm lks s -> L_bcache ∉ lks -> cache_ok s h P -> h !! i = Some (n, x) -> P !! n = None ->
  wp (bpin i) (fun _ s' => cache_ok s' h (<[n := x]> P) /\ bio_step s s') s.
Proof.
  intros Hc Hlk Hok Hi Hn. unfold bpin. apply wp_bind, wp_acquire; [by apply Hc|].
  unfold upd_buf. wp_steps. wp_rel; [apply Hc|].
  match goal with |- cache_ok ?s' _ _ /\ _ => assert (E : s' ≡ on_buf i (upd_b_refcnt (fun n => u32 (n + 1))) s) by keq end.
  split; [|by eapply bio_step_bcache]. rewrite <- (insert_id h i (n, x)) by done.
  eapply cache_ok_buf; [exact E|done|exact Hok|]. intros Hlen Hbs.
  pose proof (co_blk_h _ _ _ _ _ Hbs _ _ _ Hi) as Hx.
  eapply bufs_ok_held; try done.
  - intros b Hl Hd Hbn Hv Hr Hbx. unfold core. cbn. rewrite Hr, lookup_insert_eq, Hn.
    rewrite decide_False by (by intros []). rewrite decide_True by done. rewrite Hl, Hd, Hbn, Hv, Hbx. done.
  - intros m Hm. by rewrite lookup_insert_ne.
  - intros z. rewrite lookup_insert_eq. intros. by simplify_eq.
Qed.

Lemma bunpin_spec s h P i n x y :
  calm [] s -> cache_ok s h P -> h !! i = Some (n, x) -> P !! n = Some y ->
  wp (bunpin i) (fun _ s' => cache_ok s' h (delete n P) /\ bio_step s s') s.
Proof.
  intros Hc Hok Hi Hn. unfold bunpin. apply wp_bind, wp_acquire; [apply Hc, not_elem_of_nil|].
  unfold upd_buf. wp_steps. wp_rel; [apply Hc|].
  match goal with |- cache_ok ?s' _ _ /\ _ => assert (E : s' ≡ on_buf i (upd_b_refcnt (fun n => u32 (n - 1))) s) by keq end.
  split; [|by eapply bio_step_bcache]. rewrite <- (insert_id h i (n, x)) by done.
  eapply cache_ok_buf; [exact E|done|exact Hok|]. intros Hlen Hbs.
  pose proof (co_blk_h _ _ _ _ _ Hbs _ _ _ Hi) as Hx.
  eapply bufs_ok_held; try done.
  - intros b Hl Hd Hbn Hv Hr Hbx. unfold core. cbn. rewrite Hr, lookup_delete_eq, Hn.
    rewrite decide_True by done. rewrite decide_False by (by intros []). rewrite Hl, Hd, Hbn, Hv, Hbx. done.
  - intros m Hm. by rewrite lookup_delete_ne.
  - intros z. by rewrite lookup_delete_eq.
Qed.

Lemma repin_ok s h P i n x y :
  cache_ok s h P -> h !! i = Some (n, x) -> P !! n = Some y -> cache_ok s h (<[n := x]> P).
Proof.
  intros Hok Hi Hn. rewrite <- (insert_id h i (n, x)) by done.
  apply (cache_ok_buf s s i (fun b => b) h P); [|done|done|].
  { split; [done|]. unfold on_buf, others. ksimpl. destruct (k_bcache s). unfold upd_bc_buf. cbn.
    assert (forall (l : list buf), alter (fun b => b) i l = l) as ->; [|done].
    intros l0. apply list_eq. intros j. rewrite list_lookup_alter. case_decide; subst; by destruct (l0 !! j). }
  intros Hlen Hbs. pose proof (co_blk_h _ _ _ _ _ Hbs _ _ _ Hi) as Hx. eapply bufs_ok_held; try done.
  - intros b Hl Hd Hbn Hv Hr Hbx. unfold core. rewrite lookup_insert_eq. rewrite Hn in Hr.
    rewrite decide_True in Hr by done. rewrite decide_True by done. by rewrite Hl, Hd, Hbn, Hv, Hr, Hbx.
  - intros m Hm. by rewrite lookup_insert_ne.
  - intros z. rewrite lookup_insert_eq. intros. by simplify_eq.
Qed.

Lemma dget_dput n x d m : dget (dput n x d) m = if decide (n = m) then x else dget d m.
Proof.
  unfold dget, dput. ksimpl. rewrite foldl_app. cbn. case_decide as E.
  - subst. by rewrite Z.eqb_refl.
  - by rewrite (proj2 (Z.eqb_neq n m)).
Qed.

Lemma disk_ok_dput n x d : blk_ok x -> disk_ok d -> disk_ok (dput n x d).
Proof. intros Hx Hd b. rewrite dget_dput. by case_decide. Qed.

Lemma bwrite_spec s h P i n x :
  calm [] s -> cache_ok s h P -> h !! i = Some (n, x) ->
  wp (bwrite i) (fun _ s' => cache_ok s' h P /\ s' ≡ upd_k_disk (dput n x) s) s.
Proof.
  intros Hc Hok Hi. destruct (cache_held _ _ _ _ _ _ Hok Hi) as (b & Hb & Hl & Hd & Hn & Hx & Hr).
  unfold bwrite. apply wp_bind. eapply wp_mono.
  { apply (holdingsleep_spec [] _ _ (b_lock b)); [done|apply not_elem_of_nil|]. cbn. by rewrite Hb. }
  cbn beta. intros r s1 [-> Hs1]. rewrite Hl. cbn [sl_locked sl_pid]. rewrite Z.eqb_refl. cbn [andb negb].
  unfold virtio_disk_rw. apply wp_bind. eapply wp_get_entry; [by rewrite (keq_k_bcache _ _ Hs1)|].
  wp_steps. rewrite Hn, Hx.
  assert (E : upd_k_disk (dput n x) s1 ≡ upd_k_disk (dput n x) s) by (by apply upd_k_disk_proper).
  split; [|done]. destruct Hok as [Hring Hbs]. unfold cache_ok.
  rewrite (keq_k_bcache _ _ E), (keq_k_disk _ _ E), (mypid_keq _ _ E). split; [done|].
  change (mypid (upd_k_disk (dput n x) s)) with (mypid s). ksimpl.
  pose proof (co_blk_h _ _ _ _ _ Hbs _ _ _ Hi) as Hblk. pose proof Hbs as [K1 K2 K3 K4 K5 K6 K7].
  split; try done; [|by apply disk_ok_dput].
  intros j c Hj. destruct (K1 _ _ Hj) as [J1 J2 J3 J4 J5]. split; try done.
  intros Hh. destruct (J5 Hh) as [J6 J7]. split; [done|]. intros Hv. rewrite J7 by done. unfold content.
  rewrite dget_dput. destruct (decide (n = b_blockno c)) as [En|]; [|done]. subst n.
  assert (j = i) as ->; [|by rewrite Hi in Hh].
  eapply K2; [exact Hj|exact Hb| |done|congruence]. destruct J1 as [J1|J1]; [by rewrite J2 in Hv|done].
Qed.

(** Unlocking a buffer that agrees with what reading its block yields. *)
Lemma bufs_ok_drop d pid h P bs i n g :
  bufs_ok d pid h P bs -> length bs = 30%nat -> h !! i = Some (n, content d P n) ->
  (forall b, core (g b) = (b_valid b, b_disk b, b_dev b, b_blockno b, mkSleeplock false 0,
     u32 (b_refcnt b - 1), b_data b)) ->
  bufs_ok d pid (delete i h) P (alter g i bs).
Proof.
  intros Hbs Hlen Hi Hg.
  destruct (held_buf _ _ _ _ _ _ _ _ Hbs Hlen Hi) as (b & Hb & Hok & Hl & Hd & Hn & Hv & Hx).
  specialize (Hg b). unfold core in Hg. injection Hg as Hv' _ Hd' Hn' Hl' Hr' Hx'.
  pose proof (bo_ref _ _ _ _ _ _ Hok) as Hr. rewrite (decide_True (P := is_Some (h !! i))) in Hr by (by rewrite Hi).
  eapply bufs_ok_alter; try done.
  - split.
    + rewrite Hd', Hd. auto.
    + rewrite Hd', Hd. done.
    + rewrite lookup_delete_eq, (decide_False (P := is_Some None)) by (by intros []).
      rewrite Hr', Hr, Hd', Hn'. by case_decide.
    + intros m z. by rewrite lookup_delete_eq.
    + intros _. rewrite Hl'. split; [done|]. intros _. by rewrite Hx', Hn', Hx, Hn.
  - intros j c Hj _ [J1 J2 J3 J4 J5]. split; try done; by rewrite lookup_delete_ne.
  - intros j c Hj Hc Hcd _. rewrite Hn'. intros E. apply Hj. eapply (co_uniq _ _ _ _ _ Hbs); done.
  - auto.
  - intros _. by rewrite Hd', Hv'.
  - intros j. rewrite lookup_delete. destruct (decide (i = j)); auto.
  - apply Hbs.
  - intros j m z. rewrite lookup_delete. destruct (decide (i = j)); [done|]. apply Hbs.
  - apply Hbs.
Qed.

Lemma brelse_ring bc l i :
  ring bc l -> i ∈ l -> exists l', ring (brelse_bc i bc) l' /\
    core <$> bc_buf (brelse_bc i bc) = core <$> alter (upd_b_refcnt (fun n => u32 (n - 1))) i (bc_buf bc).
Proof.
  intros Hr Hi. unfold brelse_bc. assert (Hr' : ring (upd_bc_buf (alter (upd_b_refcnt (fun n => u32 (n - 1))) i) bc) l)
    by (by apply ring_alter).
  destruct (buf_free _ _); [|by exists l]. apply list_elem_of_split in Hi as (l1 & l2 & ->).
  exists (i :: l1 ++ l2). split; [by apply move_front_ring|].
  unfold link, unlink. cbv zeta. by rewrite core_set_nxt, !core_set_prv, !core_set_nxt, core_set_prv.
Qed.

Lemma brelse_cache s h P i n :
  calm [] s -> cache_ok s h P -> h !! i = Some (n, content (k_disk s) P n) ->
  wp (brelse i) (fun _ s' => cache_ok s' (delete i h) P /\ bio_step s s') s.
Proof.
  intros Hc Hok Hi. destruct (cache_held _ _ _ _ _ _ Hok Hi) as (b & Hb & Hl & Hd & Hn & Hx & Hr).
  eapply wp_mono.
  { apply (brelse_spec [] i s b); try done; intros; apply not_elem_of_nil. }
  cbn beta. intros _ s' E. split.
  2: { eapply (bio_step_upd _ _ (fun bc => brelse_bc i (upd_bc_buf (alter (upd_b_lock (fun _ => mkSleeplock false 0)) i) bc))).
       etrans; [exact E|]. keq. }
  unfold cache_ok. rewrite (keq_k_bcache _ _ E), (keq_k_disk _ _ E), (mypid_keq _ _ E).
  destruct Hok as [[l Hring] Hbs]. set (bc := upd_bc_buf (alter (upd_b_lock (fun _ => mkSleeplock false 0)) i) (k_bcache s)).
  destruct (brelse_ring bc l i) as (l' & Hl' & Hcore).
  { by apply ring_alter. }
  { rewrite (rg_perm _ _ Hring), elem_of_seq. apply lookup_lt_Some in Hb. rewrite (rg_len _ _ Hring) in Hb. lia. }
  split; [by exists l'|].
  change (mypid _) with (mypid (upd_k_procs (woken (Ch_slock (SL_buf i)) (c_proc (k_cpu s)) (seq 0 64)) s)).
  rewrite mypid_woken. ksimpl. fold bc.
  eapply bufs_ok_core; [symmetry; exact Hcore|]. unfold bc. cbn [bc_buf upd_bc_buf].
  rewrite list_alter_alter_eq || rewrite <- list_alter_compose.
  eapply bufs_ok_drop; [done|apply Hring|done|]. done.
Qed.

#[export] Instance bio_block_cache : BlockCache cache_ok.
Proof.
  split.
  - intros s h P i n x [_ Hbs]. apply (co_blk_h _ _ _ _ _ Hbs).
  - intros s h P n [_ Hbs]. by eapply blk_content.
  - intros s s' h P [Hr Hbs] E1 E2 E3. unfold cache_ok. by rewrite E1, E2, E3.
  - intros s h P i n x Hok Hi. destruct (cache_held _ _ _ _ _ _ Hok Hi) as (b & -> & _ & _ & <- & <- & _). done.
  - apply bread_spec.
  - intros s h P i n x y _. apply store_spec.
  - apply bwrite_spec.
  - intros s h P i n x Hc Hok Hi ->. by eapply brelse_cache.
  - apply bpin_spec.
  - apply bunpin_spec.
  - apply repin_ok.
Qed.

(** ** Lemmas: binit() *)

(** A buffer that has never been used. *)
Definition empty_buf (b : buf) : Prop :=
  b_dev b = 0 /\ b_valid b = false /\ b_refcnt b = 0 /\ sl_locked (b_lock b) = false.

Lemma empty_bufs_ok d pid bs : disk_ok d -> Forall empty_buf bs -> bufs_ok d pid ∅ ∅ bs.
Proof.
  intros Hd Hbs. rewrite Forall_lookup in Hbs.
  split; try done; try (intros *; by rewrite lookup_empty).
  - intros i b (H1 & H2 & H3 & H4)%Hbs. split; try done; [by left|..].
    + rewrite !lookup_empty, !decide_False; [done|by intros [_ []]|by intros []].
    + intros _. split; [done|congruence].
  - intros i j b b' (H1 & _)%Hbs _ ?. congruence.
Qed.

Lemma empty_set_nxt i v bc : Forall empty_buf (bc_buf bc) -> Forall empty_buf (bc_buf (set_nxt i v bc)).
Proof.
  intros H. unfold set_nxt. case_decide; [done|]. ksimpl. apply Forall_alter; [done|]. intros b _ (?&?&?&?). done.
Qed.

Lemma empty_set_prv i v bc : Forall empty_buf (bc_buf bc) -> Forall empty_buf (bc_buf (set_prv i v bc)).
Proof.
  intros H. unfold set_prv. case_decide; [done|]. ksimpl. apply Forall_alter; [done|]. intros b _ (?&?&?&?). done.
Qed.

(** The links do not depend on the sleep locks. *)
Lemma dlist_lock bc l i f : dlist bc l -> dlist (upd_bc_buf (alter (upd_b_lock f) i) bc) l.
Proof.
  intros (H1 & H2 & H3 & H4 & H5). split_and!; try done; [by ksimpl; rewrite length_alter|..].
  all: eapply linked_ext; [|done]; intros x _; unfold nxt, prv; case_decide; [done|]; ksimpl;
    rewrite list_lookup_alter; case_decide; [subst|done]; by destruct (bc_buf bc !! x).
Qed.

Lemma dlist_ext bc bc' l :
  length (bc_buf bc') = length (bc_buf bc) -> (forall x, nxt bc' x = nxt bc x /\ prv bc' x = prv bc x) ->
  dlist bc l -> dlist bc' l.
Proof.
  intros Hlen Hx (H1 & H2 & H3 & H4 & H5). split_and!; try done; [congruence|..].
  all: eapply linked_ext; [|done]; intros x _; by destruct (Hx x).
Qed.

(** One iteration of binit(): the sleep lock is initialised between the link
    updates. *)
Definition binit_link (b : nat) (bc : bcachest) : bcachest :=
  let bc1 := set_prv b bhead (set_nxt b (nxt bc bhead) bc) in
  let bc2 := upd_bc_buf (alter (upd_b_lock (fun _ => mkSleeplock false 0)) b) bc1 in
  set_nxt bhead b (set_prv (nxt bc2 bhead) b bc2).

Lemma lock_links bc b f x :
  nxt (upd_bc_buf (alter (upd_b_lock f) b) bc) x = nxt bc x /\ prv (upd_bc_buf (alter (upd_b_lock f) b) bc) x = prv bc x.
Proof.
  unfold nxt, prv. case_decide; [done|]. ksimpl. rewrite list_lookup_alter. case_decide; [subst|done].
  by destruct (bc_buf bc !! x).
Qed.

Lemma binit_link_dlist bc l i :
  dlist bc l -> (i < 30)%nat -> i ∉ l -> dlist (binit_link i bc) (i :: l).
Proof.
  intros Hd Hi Hl. pose proof (link_dlist _ _ _ Hd Hi Hl) as Hk.
  destruct (dlist_le _ _ bhead Hd) as [Hle _]; [set_solver|]. pose proof (proj1 Hd) as Hlen.
  eapply dlist_ext; [| |exact Hk]; unfold binit_link, link; cbv zeta.
  - ksimpl. rewrite !length_set_nxt, !length_set_prv. ksimpl. by rewrite length_alter, !length_set_prv, !length_set_nxt.
  - set (bc1 := set_prv i bhead (set_nxt i (nxt bc bhead) bc)).
    assert (H1 : length (bc_buf bc1) = 30%nat) by (unfold bc1; by rewrite length_set_prv, length_set_nxt).
    set (bc2 := upd_bc_buf _ bc1).
    assert (H2 : length (bc_buf bc2) = 30%nat) by (unfold bc2; ksimpl; by rewrite length_alter).
    assert (Hk2 : forall x, nxt bc2 x = nxt bc1 x /\ prv bc2 x = prv bc1 x) by (intros; apply lock_links).
    assert (Hn1 : (nxt bc1 bhead <= 30)%nat).
    { unfold bc1. rewrite nxt_set_prv, nxt_set_nxt by (done || lia). unfold fup. case_decide; lia. }
    intros x. rewrite (proj1 (Hk2 bhead)).
    rewrite !nxt_set_nxt by (rewrite ?length_set_prv; first [done|unfold bhead; lia]).
    rewrite !prv_set_nxt, !prv_set_prv by (done || lia). unfold fup. rewrite !nxt_set_prv, !(proj1 (Hk2 _)), !(proj2 (Hk2 _)). done.
Qed.

Lemma binit_link_empty bc i : Forall empty_buf (bc_buf bc) -> Forall empty_buf (bc_buf (binit_link i bc)).
Proof.
  intros H. unfold binit_link. cbv zeta. apply empty_set_nxt, empty_set_prv. ksimpl.
  apply Forall_alter; [by apply empty_set_prv, empty_set_nxt|]. intros b _ (?&?&?&?). done.
Qed.

Lemma binit_spec s :
  length (bc_buf (k_bcache s)) = 30%nat -> Forall empty_buf (bc_buf (k_bcache s)) -> disk_ok (k_disk s) ->
  wp binit (fun _ s' => cache_ok s' ∅ ∅ /\ ring (k_bcache s') (reverse (seq 0 30))) s.
Proof.
  intros Hlen He Hd. unfold binit, initlock, upd_bc. wp_steps.
  set (s1 := upd_k_bcache _ _). 
  apply (wp_for_each (fun d s' => dlist (k_bcache s') (reverse d) /\ Forall empty_buf (bc_buf (k_bcache s')) /\
    k_disk s' = k_disk s)).
  - split; [|done]. split_and!; try done.
    + intros i Hi. by apply not_elem_of_nil in Hi.
    + apply NoDup_singleton.
  - intros d i r s2 E (H1 & H2 & H3). pose proof (seq_mid _ _ _ _ E) as [-> Hi].
    assert (Hni : length d ∉ reverse d).
    { pose proof (NoDup_seq 0 30) as Hnd. rewrite E in Hnd. apply NoDup_app in Hnd as (_ & Hnd & _).
      rewrite elem_of_reverse. intros Hin. apply (Hnd _ Hin), list_elem_of_here. }
    unfold initsleeplock, initlock. wp_steps. rewrite !upd_slock_eq. wp_steps. rewrite set_slock_both, reverse_app.
    change (dlist (binit_link (length d) (k_bcache s2)) (length d :: reverse d) /\
      Forall empty_buf (bc_buf (binit_link (length d) (k_bcache s2))) /\ k_disk s2 = k_disk s).
    split; [by apply binit_link_dlist|]. split; [by apply binit_link_empty|done].
  - intros s' (H1 & H2 & H3).
    assert (Hr : ring (k_bcache s') (reverse (seq 0 30))).
    { apply ring_dlist. split; [done|]. by rewrite reverse_Permutation. }
    split; [|done]. split; [by eexists|]. apply empty_bufs_ok; [by rewrite H3|done].
Qed.
