(* ===== verification/Log.v ===== *)
(** * The log (kernel/log.c)

    The operations of log.c.  The header block is [struct logheader]: a count and
    the home block numbers of the logged blocks, 32-bit little-endian each. *)

From Stdlib Require Import ZArith Lia.
From stdpp Require Import base tactics numbers gmap strings option list.
From S2P Require Import Prelude Bytes Kernel Spinlock Sched Bio.

(** ** Definitions *)

(** memmove(d->data, s->data, BSIZE) on buffers *)
Definition copy_data (d s : nat) : K unit :=
  b ← get_buf s;
  upd_buf d (upd_b_data (fun y => splice y 0 (slice (b_data b) 0 1024))).

(** hb->n and hb->block[i] of the header in block [x] *)
Definition hdr_n (x : list Z) : Z := s32 (get_le 4 0 x).

Definition hdr_block (x : list Z) (i : nat) : Z := s32 (get_le 4 (4 + 4 * i) x).

(** log.lh.block[i] and log.lh.block[i] = v *)
Definition lh_block (i : nat) : K Z := get_entry (fun s => l_block (k_log s)) i.

Definition set_lh_block (i : nat) (v : Z) : K unit :=
  _ ← lh_block i;
  modify (upd_k_log (upd_l_block (<[i := v]>))).

(** The iterations of [for (i = 0; i < log.lh.n; i++)] *)
Definition lh_iter : K (list nat) := gets (fun s => seq 0 (Z.to_nat (l_n (k_log s)))).

(** static void install_trans(int recovering) *)
Definition install_trans (recovering : bool) : K unit :=
  its ← lh_iter;
  for_each its (fun tail =>
    lg ← gets k_log;
    lbuf ← bread (u32 (l_dev lg)) (u32 (l_start lg + Z.of_nat tail + 1));
    blk ← lh_block tail;
    dbuf ← bread (u32 (l_dev lg)) (u32 blk);
    copy_data dbuf lbuf;;
    bwrite dbuf;;
    when (negb recovering) (bunpin dbuf);;
    brelse lbuf;;
    brelse dbuf).

(** static void read_head(void) *)
Definition read_head : K unit :=
  lg ← gets k_log;
  buf ← bread (u32 (l_dev lg)) (u32 (l_start lg));
  b ← get_buf buf;
  modify (upd_k_log (upd_l_n (fun _ => hdr_n (b_data b))));;
  its ← lh_iter;
  for_each its (fun i =>
    b ← get_buf buf;
    set_lh_block i (hdr_block (b_data b) i));;
  brelse buf.

(** static void write_head(void) *)
Definition write_head : K unit :=
  lg ← gets k_log;
  buf ← bread (u32 (l_dev lg)) (u32 (l_start lg));
  n ← gets (fun s => l_n (k_log s));
  upd_buf buf (upd_b_data (put_le 4 0 n));;
  its ← lh_iter;
  for_each its (fun i =>
    v ← lh_block i;
    upd_buf buf (upd_b_data (put_le 4 (4 + 4 * i) v)));;
  bwrite buf;;
  brelse buf.

(** static void recover_from_log(void) *)
Definition recover_from_log : K unit :=
  read_head;;
  install_trans true;;
  modify (upd_k_log (upd_l_n (fun _ => 0)));;
  write_head.

(** void initlog(int dev, struct superblock *sb); sizeof(struct logheader) is 124 *)
Definition initlog (dev : Z) (sb : superblock) : K unit :=
  if 124 >=? BSIZE then panic "initlog: too big logheader" else
  initlock L_log;;
  modify (upd_k_log (upd_l_start (fun _ => s32 (sb_logstart sb))));;
  modify (upd_k_log (upd_l_size (fun _ => s32 (sb_nlog sb))));;
  modify (upd_k_log (upd_l_dev (fun _ => dev)));;
  recover_from_log.

(** void begin_op(void): the loop, the function, and what runs when a sleep in
    the loop returns *)
Definition begin_op_loop : K unit :=
  lg ← gets k_log;
  if l_committing lg then sleep Ch_log L_log
  else if l_n lg + (l_outstanding lg + 1) * MAXOPBLOCKS >? LOGSIZE then sleep Ch_log L_log
  else
    modify (upd_k_log (upd_l_outstanding (fun n => n + 1)));;
    release L_log.

Definition begin_op : K unit :=
  acquire L_log;;
  begin_op_loop.

Definition begin_op_resume (intena : bool) : K unit :=
  sleep_resume intena L_log;;
  begin_op_loop.

(** static void write_log(void) *)
Definition write_log : K unit :=
  its ← lh_iter;
  for_each its (fun tail =>
    lg ← gets k_log;
    to ← bread (u32 (l_dev lg)) (u32 (l_start lg + Z.of_nat tail + 1));
    blk ← lh_block tail;
    from ← bread (u32 (l_dev lg)) (u32 blk);
    copy_data to from;;
    bwrite to;;
    brelse from;;
    brelse to).

(** static void commit() *)
Definition commit : K unit :=
  lg ← gets k_log;
  when (l_n lg >? 0)
    (write_log;;
     write_head;;
     install_trans false;;
     modify (upd_k_log (upd_l_n (fun _ => 0)));;
     write_head).

(** void end_op(void) *)
Definition end_op : K unit :=
  acquire L_log;;
  modify (upd_k_log (upd_l_outstanding (fun n => n - 1)));;
  lg ← gets k_log;
  if l_committing lg then panic "log.committing" else
  do_commit ←
    (if l_outstanding lg =? 0 then
       modify (upd_k_log (upd_l_committing (fun _ => true)));;
       mret true
     else wakeup Ch_log;; mret false);
  release L_log;;
  when do_commit
    (commit;;
     acquire L_log;;
     modify (upd_k_log (upd_l_committing (fun _ => false)));;
     wakeup Ch_log;;
     release L_log).

(** void log_write(struct buf *b): the search and the function *)
Definition log_search (blockno : Z) (lg : logst) : nat :=
  default (Z.to_nat (l_n lg))
    (find_index (fun x => u32 x =? blockno) (take (Z.to_nat (l_n lg)) (l_block lg))).

Definition log_write (b : nat) : K unit :=
  acquire L_log;;
  lg ← gets k_log;
  if (l_n lg >=? LOGSIZE) || (l_n lg >=? l_size lg - 1) then panic "too big a transaction" else
  if l_outstanding lg <? 1 then panic "log_write outside of trans" else
  bb ← get_buf b;
  let i := log_search (b_blockno bb) lg in
  set_lh_block i (s32 (b_blockno bb));;
  when (Z.of_nat i =? l_n lg)
    (bpin b;;
     modify (upd_k_log (upd_l_n (fun n => n + 1))));;
  release L_log.
