(* ===== verification/LogSpec.v ===== *)
(** * Correctness of the log (kernel/log.c)

    The functions of log.c are specified by the list of disk writes they perform,
    in order, against the contract of the buffer cache.  From the lists follows
    crash safety: [log_abs] gives the contents a disk stands for, the log applied;
    every prefix of commit()'s writes stands for the contents before or after the
    transaction, and every prefix of recovery's writes stands for the same contents
    as the disk it started from. *)

From Stdlib Require Import ZArith Lia.
From stdpp Require Import base tactics numbers gmap strings option list.
From S2P Require Import Prelude Bytes Kernel Spinlock Sched Bio Bcache Log.

(** ** Specification *)

(** The disk after the writes [ws]. *)
Definition disk_writes (ws : list (Z * list Z)) (d : diskst) : diskst :=
  upd_d_hist (fun h => h ++ ws) d.

(** File-system code that wrote [ws] to the disk. *)
Definition dsk_step (ws : list (Z * list Z)) (s s' : kstate) : Prop :=
  fs_step s s' /\ k_log s' = k_log s /\ k_itable s' = k_itable s /\
  k_disk s' = disk_writes ws (k_disk s).

(** The log of device 1 starts at block [st] and the transaction in memory has
    the blocks [bl]. *)
Record log_at (lg : logst) (st : Z) (bl : list Z) : Prop := {
  la_dev : l_dev lg = 1;
  la_start : l_start lg = st;
  la_st : 0 <= st < 2 ^ 30;
  la_n : l_n lg = Z.of_nat (length bl);
  la_arr : length (l_block lg) = 30%nat;
  la_max : (length bl <= 29)%nat;
  la_bl : take (length bl) (l_block lg) = bl;
  la_rng b : b ∈ bl -> 0 <= b < 2 ^ 31;
}.

(** Block [b] is neither the header nor one of the log's 29 blocks. *)
Definition off_log (st b : Z) : Prop := b < st \/ st + 29 < b.

(** ** Lemmas: steps *)

Lemma disk_writes_nil d : disk_writes [] d = d.
Proof. unfold disk_writes, upd_d_hist. rewrite app_nil_r. by destruct d. Qed.

Lemma disk_writes_app ws ws' d : disk_writes ws' (disk_writes ws d) = disk_writes (ws ++ ws') d.
Proof. unfold disk_writes, upd_d_hist. cbn. by rewrite app_assoc. Qed.

Lemma disk_writes_one n x d : dput n x d = disk_writes [(n, x)] d.
Proof. done. Qed.

Lemma dsk_step_bio s s' : bio_step s s' -> dsk_step [] s s'.
Proof. intros (? & ? & ? & ?). unfold dsk_step. by rewrite disk_writes_nil. Qed.

Lemma dsk_step_trans ws ws' s1 s2 s3 :
  dsk_step ws s1 s2 -> dsk_step ws' s2 s3 -> dsk_step (ws ++ ws') s1 s3.
Proof.
  intros (H1 & L1 & I1 & D1) (H2 & L2 & I2 & D2). split; [by etrans|].
  rewrite D2, D1, disk_writes_app. split_and!; congruence.
Qed.

Lemma dsk_step_bio_l ws s1 s2 s3 : bio_step s1 s2 -> dsk_step ws s2 s3 -> dsk_step ws s1 s3.
Proof. intros H1 H2. by apply (dsk_step_trans [] ws _ s2), H2; apply dsk_step_bio. Qed.

Lemma dsk_step_bio_r ws s1 s2 s3 : dsk_step ws s1 s2 -> bio_step s2 s3 -> dsk_step ws s1 s3.
Proof.
  intros H1 H2. rewrite <- (app_nil_r ws). eapply dsk_step_trans; [done|]. by apply dsk_step_bio.
Qed.

Lemma dsk_step_write n x s s' : s' ≡ upd_k_disk (dput n x) s -> dsk_step [(n, x)] s s'.
Proof.
  intros E. unfold dsk_step, fs_step.
  rewrite (keq_k_bcache _ _ E), (keq_k_procs _ _ E), (keq_k_log _ _ E), (keq_k_disk _ _ E), (keq_k_itable _ _ E).
  split_and!; try done; first [apply woke_refl|etrans; [exact E|]; keq].
Qed.

Lemma dsk_step_calm ws lks s s' : dsk_step ws s s' -> calm lks s -> calm lks s'.
Proof. intros [H _]. by apply fs_step_calm. Qed.

Lemma bio_step_calm lks s s' : bio_step s s' -> calm lks s -> calm lks s'.
Proof. intros [H _]. by apply fs_step_calm. Qed.

(** ** Lemmas: the header, the disk and the transaction *)

Lemma la_lookup lg st bl i b : log_at lg st bl -> bl !! i = Some b -> l_block lg !! i = Some b.
Proof.
  intros H Hb. pose proof (lookup_lt_Some _ _ _ Hb). rewrite <- (la_bl _ _ _ H) in Hb.
  by rewrite lookup_take_lt in Hb.
Qed.

Lemma la_len lg st bl : log_at lg st bl -> (length bl <= 29)%nat.
Proof. apply la_max. Qed.

Lemma log_at_nil lg st bl : log_at lg st bl -> log_at (upd_l_n (fun _ => 0) lg) st [].
Proof. intros []. split; try done; [cbn; lia|]. intros b Hin. by apply not_elem_of_nil in Hin. Qed.

Lemma content_pin d d' P n : is_Some (P !! n) -> content d P n = content d' P n.
Proof. intros [x Hx]. unfold content. by rewrite Hx. Qed.

Lemma content_written d P n x : P !! n = None -> content (disk_writes [(n, x)] d) P n = x.
Proof. intros Hn. unfold content. rewrite Hn. change (dget (dput n x d) n = x). by rewrite dget_dput, decide_True. Qed.

(** The writes that copy the transaction to the log. *)
Definition log_writes (st : Z) (P : gmap Z (list Z)) (bl : list Z) : list (Z * list Z) :=
  imap (fun i b => (st + Z.of_nat i + 1, default [] (P !! b))) bl.

(** The writes that copy the log to the home locations. *)
Definition inst_writes (d : diskst) (st : Z) (bl : list Z) : list (Z * list Z) :=
  imap (fun i b => (b, dget d (st + Z.of_nat i + 1))) bl.

Lemma dget_writes_other ws d n : n ∉ ws.*1 -> dget (disk_writes ws d) n = dget d n.
Proof.
  unfold dget, disk_writes, upd_d_hist. cbn. rewrite foldl_app. generalize (foldl (fun x w => if w.1 =? n then w.2 else x)
    (default (replicate 1024 0) (d_init d !! n)) (d_hist d)). induction ws as [|[m x] ws IH]; intros y Hn; [done|].
  cbn. cbn in Hn. rewrite not_elem_of_cons in Hn. destruct Hn as [Hm Hn].
  rewrite (proj2 (Z.eqb_neq m n)) by done. by apply IH.
Qed.

(** The pins left when the blocks [done] have been installed. *)
Definition unpinned (done : list Z) (P : gmap Z (list Z)) : gmap Z (list Z) :=
  filter (fun kv => kv.1 ∉ done) P.

Lemma unpinned_lookup l P n : unpinned l P !! n = if decide (n ∈ l) then None else P !! n.
Proof.
  unfold unpinned. rewrite map_lookup_filter. destruct (P !! n); cbn; repeat case_decide; try done.
  all: repeat case_guard; done.
Qed.

Lemma unpinned_snoc l b P : unpinned (l ++ [b]) P = delete b (unpinned l P).
Proof.
  apply map_eq. intros n. rewrite lookup_delete, !unpinned_lookup.
  destruct (decide (b = n)) as [->|Hne].
  - by rewrite decide_True by set_solver.
  - destruct (decide (n ∈ l)); [by rewrite decide_True by set_solver|by rewrite decide_False by set_solver].
Qed.

Lemma unpinned_size l P : (size (unpinned l P) <= size P)%nat.
Proof. apply map_subseteq_size, map_filter_subseteq. Qed.

Lemma off_log_writes d st bl n i :
  (forall b, b ∈ bl -> off_log st b) -> (i <= 29)%nat -> dget (disk_writes (take n (inst_writes d st bl)) d) (st + Z.of_nat i)
    = dget d (st + Z.of_nat i).
Proof.
  intros Hoff Hi. apply dget_writes_other. intros Hin.
  apply list_elem_of_fmap in Hin as ([m x] & E & Hin). cbn in E. subst m.
  apply list_elem_of_lookup in Hin as [j Hj]. apply lookup_take_Some in Hj as [Hj _].
  unfold inst_writes in Hj. rewrite list_lookup_imap in Hj. destruct (bl !! j) as [b|] eqn:E; [|done].
  cbn in Hj. simplify_eq. apply list_elem_of_lookup_2, Hoff in E. unfold off_log in E. lia.
Qed.

(** The header block written for the transaction [bl] over the old block [x]. *)
Definition hdr_fill (x : list Z) (l : list (nat * Z)) : list Z :=
  foldl (fun y ib => put_le 4 (4 + 4 * ib.1) ib.2 y) x l.

Definition hdr_enc (bl : list Z) (x : list Z) : list Z :=
  hdr_fill (put_le 4 0 (Z.of_nat (length bl)) x) (imap pair bl).

Lemma blk_put n off v x : (off + n <= 1024)%nat -> blk_ok x -> blk_ok (put_le n off v x).
Proof.
  intros Ho [Hl Hb]. split; [|by apply put_le_bytes]. rewrite length_put_le; lia.
Qed.

Lemma hdr_fill_ok x l : (forall i b, (i, b) ∈ l -> (i < 30)%nat) -> blk_ok x -> blk_ok (hdr_fill x l).
Proof.
  unfold hdr_fill. revert x. induction l as [|[i b] l IH]; intros x Hl Hx; [done|]. cbn [foldl].
  apply IH; [set_solver|]. apply blk_put; [|done]. cbn [fst]. assert (i < 30)%nat by (apply (Hl i b), list_elem_of_here). lia.
Qed.

Lemma imap_pair_lt (bl : list Z) i b : (length bl <= 29)%nat -> (i, b) ∈ imap pair bl -> (i < 30)%nat.
Proof.
  intros Hl (j & c & [= -> ->] & Hj)%elem_of_lookup_imap_1. apply lookup_lt_Some in Hj. lia.
Qed.

Lemma hdr_enc_ok bl x : (length bl <= 29)%nat -> blk_ok x -> blk_ok (hdr_enc bl x).
Proof.
  intros Hl Hx. apply hdr_fill_ok; [|by apply blk_put; [lia|]]. intros i b. by apply imap_pair_lt.
Qed.

Lemma hdr_fill_other x l n off :
  blk_ok x -> (forall i b, (i, b) ∈ l -> (i < 30)%nat /\ (off + n <= 4 + 4 * i \/ 8 + 4 * i <= off)%nat) ->
  get_le n off (hdr_fill x l) = get_le n off x.
Proof.
  unfold hdr_fill. revert x. induction l as [|[i b] l IH]; intros x Hx Hl; [done|]. cbn [foldl].
  destruct (Hl i b) as [Hi Ho]; [apply list_elem_of_here|].
  rewrite IH.
  - apply get_put_le_other; cbn [fst]; [|lia]. rewrite (proj1 Hx). lia.
  - apply blk_put; [cbn [fst]; lia|done].
  - intros j c Hj. apply (Hl j c), list_elem_of_further, Hj.
Qed.

(** The header can be read back. *)
Lemma hdr_n_enc bl x : (length bl <= 29)%nat -> blk_ok x -> hdr_n (hdr_enc bl x) = Z.of_nat (length bl).
Proof.
  intros Hl Hx. unfold hdr_n, hdr_enc. rewrite hdr_fill_other.
  - rewrite get_put_le by (rewrite (proj1 Hx); lia). change (256 ^ Z.of_nat 4) with (2 ^ 32).
    change (s32 (u32 (Z.of_nat (length bl))) = Z.of_nat (length bl)). rewrite s32_u32, s32_small; lia.
  - by apply blk_put; [lia|].
  - intros i b Hi. pose proof (imap_pair_lt _ _ _ Hl Hi). lia.
Qed.

Lemma hdr_block_enc bl x i b :
  (length bl <= 29)%nat -> blk_ok x -> bl !! i = Some b -> hdr_block (hdr_enc bl x) i = s32 b.
Proof.
  intros Hl Hx Hb. unfold hdr_block, hdr_enc.
  rewrite <- (take_drop_middle bl i b Hb) at 2. rewrite imap_app. cbn [imap].
  unfold hdr_fill. rewrite foldl_app. cbn [foldl]. pose proof (lookup_lt_Some _ _ _ Hb) as Hi.
  set (x1 := foldl _ _ (imap pair (take i bl))). rewrite length_take, Nat.min_l, Nat.add_0_r by lia.
  assert (Hx1 : blk_ok x1).
  { apply (hdr_fill_ok _ (imap pair (take i bl))); [|by apply blk_put; [lia|]].
    intros j c. apply imap_pair_lt. rewrite length_take. lia. }
  rewrite (hdr_fill_other (put_le 4 (4 + 4 * i) b x1)).
  - cbn [fst snd]. rewrite get_put_le by (rewrite (proj1 Hx1); lia). apply s32_u32.
  - apply blk_put; [lia|done].
  - intros j c (k & y & [= -> ->] & Hk)%elem_of_lookup_imap_1. apply lookup_lt_Some in Hk.
    rewrite length_drop in Hk. cbn. lia.
Qed.

(** Code that changed the log and wrote [ws] to the disk. *)
Definition log_step (ws : list (Z * list Z)) (s s' : kstate) : Prop :=
  fs_step s s' /\ k_itable s' = k_itable s /\ k_disk s' = disk_writes ws (k_disk s) /\
  l_dev (k_log s') = l_dev (k_log s) /\ l_start (k_log s') = l_start (k_log s) /\
  l_size (k_log s') = l_size (k_log s) /\ l_outstanding (k_log s') = l_outstanding (k_log s) /\
  l_committing (k_log s') = l_committing (k_log s) /\
  length (l_block (k_log s')) = length (l_block (k_log s)).

Lemma log_step_dsk ws s s' : dsk_step ws s s' -> log_step ws s s'.
Proof. intros (H & L & I & D). unfold log_step. by rewrite L. Qed.

Lemma log_step_trans ws ws' s1 s2 s3 :
  log_step ws s1 s2 -> log_step ws' s2 s3 -> log_step (ws ++ ws') s1 s3.
Proof.
  intros (H1 & I1 & D1 & A1 & B1 & C1 & E1 & F1 & G1) (H2 & I2 & D2 & A2 & B2 & C2 & E2 & F2 & G2).
  split; [by etrans|]. rewrite D2, D1, disk_writes_app. split_and!; congruence.
Qed.

Lemma fs_step_upd_log f s : fs_step s (upd_k_log f s).
Proof. split; [keq|apply woke_refl]. Qed.

Lemma log_step_upd f s :
  (forall lg, l_dev (f lg) = l_dev lg /\ l_start (f lg) = l_start lg /\ l_size (f lg) = l_size lg /\
     l_outstanding (f lg) = l_outstanding lg /\ l_committing (f lg) = l_committing lg /\
     length (l_block (f lg)) = length (l_block lg)) ->
  log_step [] s (upd_k_log f s).
Proof.
  intros Hf. destruct (Hf (k_log s)) as (? & ? & ? & ? & ? & ?).
  split; [apply fs_step_upd_log|]. rewrite disk_writes_nil. done.
Qed.

(** Releasing a lock after a step. *)
Lemma fs_step_release lk s s' : fs_step (locked lk s) s' -> fs_step s (resync s s').
Proof.
  intros [E W]. split; [|exact W]. apply resync_keq; [|by ksync]. rewrite (keq_others _ _ E). done.
Qed.

Lemma calm_upd_log lks f s : calm lks s -> calm lks (upd_k_log f s).
Proof. apply fs_step_calm, fs_step_upd_log. Qed.

(** The blocks that the header in [x] lists. *)
Definition hdr_blocks (x : list Z) : list Z := hdr_block x <$> seq 0 (Z.to_nat (hdr_n x)).

(** The disk writes of commit() for the transaction [bl]. *)
Definition commit_writes (d : diskst) (st : Z) (P : gmap Z (list Z)) (bl : list Z) : list (Z * list Z) :=
  let h1 := hdr_enc bl (dget d st) in
  log_writes st P bl ++ [(st, h1)] ++
  ((fun b => (b, default [] (P !! b))) <$> bl) ++ [(st, put_le 4 0 0 h1)].

(** The last write of a block counts. *)
Lemma dget_foldl ws d b :
  dget (disk_writes ws d) b = foldl (fun x w => if w.1 =? b then w.2 else x) (dget d b) ws.
Proof. unfold dget, disk_writes, upd_d_hist. cbn. by rewrite foldl_app. Qed.

Lemma dget_writes_in ws d b x :
  b ∈ ws.*1 -> (forall y, (b, y) ∈ ws -> y = x) -> dget (disk_writes ws d) b = x.
Proof.
  rewrite dget_foldl. generalize (dget d b). induction ws as [|[n y] ws IH] using rev_ind; intros z Hin Hx.
  { by apply not_elem_of_nil in Hin. }
  rewrite foldl_app. cbn. destruct (Z.eqb_spec n b) as [->|Hne].
  - apply Hx. set_solver.
  - apply IH; [|intros w Hw; apply Hx; set_solver]. rewrite fmap_app in Hin. set_solver.
Qed.

Lemma log_writes_read st P bl d h i b :
  bl !! i = Some b -> dget (disk_writes (log_writes st P bl ++ [(st, h)]) d) (st + Z.of_nat i + 1) = default [] (P !! b).
Proof.
  intros Hb. apply dget_writes_in.
  - apply list_elem_of_fmap. exists (st + Z.of_nat i + 1, default [] (P !! b)). split; [done|].
    apply elem_of_app. left. apply elem_of_lookup_imap. eauto.
  - intros y [(j & c & [= E ->] & Hj)%elem_of_lookup_imap_1|H]%elem_of_app.
    + assert (j = i) as -> by lia. by simplify_eq.
    + apply list_elem_of_singleton in H. simplify_eq. lia.
Qed.

Lemma inst_writes_eq st P bl d h :
  inst_writes (disk_writes (log_writes st P bl ++ [(st, h)]) d) st bl = (fun b => (b, default [] (P !! b))) <$> bl.
Proof.
  unfold inst_writes. apply list_eq. intros i. rewrite list_lookup_imap, list_lookup_fmap.
  destruct (bl !! i) as [b|] eqn:Hb; [|done].
  cbn [fmap option_fmap option_map]. do 2 f_equal. by apply log_writes_read.
Qed.

Lemma log_writes_off st P bl d b : (b <= st \/ st + Z.of_nat (length bl) < b) ->
  dget (disk_writes (log_writes st P bl) d) b = dget d b.
Proof.
  intros Hb. apply dget_writes_other.
  intros ([n x] & -> & (j & c & [= -> ->] & Hj)%elem_of_lookup_imap_1)%list_elem_of_fmap.
  apply lookup_lt_Some in Hj. cbn in Hb. lia.
Qed.

(** ** Lemmas: using the cache *)

Section cache.
Context (Cache : kstate -> gmap nat (Z * list Z) -> gmap Z (list Z) -> Prop) `{!BlockCache Cache}.

Lemma wp_bread s h P n Q :
  calm [] s -> Cache s h P -> unheld h n -> is_Some (P !! n) \/ (size h + size P < 30)%nat ->
  (forall i s', calm [] s' -> h !! i = None -> Cache s' (<[i := (n, content (k_disk s) P n)]> h) P ->
     bio_step s s' -> Q i s') ->
  wp (bread 1 n) Q s.
Proof.
  intros Hc Hok Hun Hroom HQ. eapply wp_mono; [by apply (bc_bread s h P n)|].
  intros i s' (H1 & H2 & H3). apply HQ; try done. by eapply bio_step_calm.
Qed.

(** A locked buffer is there to be read. *)
Lemma wp_get_held s h P i n x Q :
  Cache s h P -> h !! i = Some (n, x) ->
  (forall b, b_data b = x -> b_blockno b = n -> bc_buf (k_bcache s) !! i = Some b -> Q b s) ->
  wp (get_buf i) Q s.
Proof.
  intros Hok Hi HQ. destruct (bc_data _ _ _ _ _ _ Hok Hi) as [H1 H2].
  destruct (bc_buf (k_bcache s) !! i) as [b|] eqn:E; [|done]. cbn in *. simplify_eq.
  eapply wp_get_entry; [done|]. by apply HQ.
Qed.

Lemma wp_store s h P i n x f Q :
  calm [] s -> Cache s h P -> h !! i = Some (n, x) -> blk_ok (f x) ->
  (forall s', calm [] s' -> Cache s' (<[i := (n, f x)]> h) P -> bio_step s s' -> Q tt s') ->
  wp (upd_buf i (upd_b_data f)) Q s.
Proof.
  intros Hc Hok Hi Hf HQ. unfold upd_buf. apply wp_modify. fold (on_buf i (upd_b_data f) s).
  assert (E : on_buf i (upd_b_data f) s = on_buf i (upd_b_data (fun _ => f x)) s).
  { unfold on_buf. apply upd_k_bcache_ext. unfold upd_bc_buf. f_equal.
    destruct (bc_data _ _ _ _ _ _ Hok Hi) as [H1 _].
    destruct (bc_buf (k_bcache s) !! i) as [b|] eqn:Eb; [|done]. cbn in H1. simplify_eq.
    by rewrite !(list_alter_insert _ _ _ _ Eb). }
  rewrite E. assert (Hst : bio_step s (on_buf i (upd_b_data (fun _ => f x)) s)) by (by eapply bio_step_bcache).
  apply HQ; [by eapply bio_step_calm| |done]. by eapply bc_store.
Qed.

Lemma wp_bwrite s h P i n x Q :
  calm [] s -> Cache s h P -> h !! i = Some (n, x) ->
  (forall s', calm [] s' -> Cache s' h P -> dsk_step [(n, x)] s s' -> Q tt s') ->
  wp (bwrite i) Q s.
Proof.
  intros Hc Hok Hi HQ. eapply wp_mono; [by eapply bc_bwrite|]. cbn. intros [] s' [H1 H2].
  apply dsk_step_write in H2. apply HQ; try done. by eapply dsk_step_calm.
Qed.

Lemma wp_brelse s h P i n x Q :
  calm [] s -> Cache s h P -> h !! i = Some (n, x) -> x = content (k_disk s) P n ->
  (forall s', calm [] s' -> Cache s' (delete i h) P -> bio_step s s' -> Q tt s') ->
  wp (brelse i) Q s.
Proof.
  intros Hc Hok Hi Hx HQ. eapply wp_mono; [by eapply bc_brelse|]. cbn. intros [] s' [H1 H2].
  apply HQ; try done. by eapply bio_step_calm.
Qed.

Lemma wp_bunpin s h P i n x y Q :
  calm [] s -> Cache s h P -> h !! i = Some (n, x) -> P !! n = Some y ->
  (forall s', calm [] s' -> Cache s' h (delete n P) -> bio_step s s' -> Q tt s') ->
  wp (bunpin i) Q s.
Proof.
  intros Hc Hok Hi Hn HQ. eapply wp_mono; [by eapply bc_bunpin|]. cbn. intros [] s' [H1 H2].
  apply HQ; try done. by eapply bio_step_calm.
Qed.

Lemma wp_copy_data s h P d i nd xd n x Q :
  calm [] s -> Cache s h P -> h !! d = Some (nd, xd) -> h !! i = Some (n, x) ->
  (forall s', calm [] s' -> Cache s' (<[d := (nd, x)]> h) P -> bio_step s s' -> Q tt s') ->
  wp (copy_data d i) Q s.
Proof.
  intros Hc Hok Hd Hi HQ. unfold copy_data. apply wp_bind. eapply wp_get_held; [done|done|].
  intros b Hb _ _. pose proof (bc_blk_h _ _ _ _ _ _ Hok Hi) as Hx. pose proof (bc_blk_h _ _ _ _ _ _ Hok Hd) as Hxd.
  assert (E : splice xd 0 (slice (b_data b) 0 1024) = x).
  { rewrite Hb, slice_all by apply Hx. apply splice_all. rewrite (proj1 Hx). apply Hxd. }
  eapply wp_store; [done|done|done|by rewrite E|]. rewrite E. done.
Qed.

(** Rewrites the map of locked buffers in [H] to [m]. *)
Ltac held H m :=
  lazymatch type of H with
  | Cache _ ?m' _ =>
      replace m' with m in H;
      [|symmetry; apply map_eq; intros ?;
        repeat (rewrite lookup_delete || rewrite lookup_insert); rewrite ?lookup_empty;
        repeat case_decide; subst; simplify_map_eq; congruence]
  end.

(** ** Lemmas: the functions of log.c *)

(** One iteration of write_log(). *)
Lemma write_log_step s st P bl tail b :
  calm [] s -> Cache s ∅ P -> log_at (k_log s) st bl -> bl !! tail = Some b ->
  is_Some (P !! b) -> (forall n, is_Some (P !! n) -> off_log st n) -> (size P < 30)%nat ->
  wp (lg ← gets k_log;
      to ← bread (u32 (l_dev lg)) (u32 (l_start lg + Z.of_nat tail + 1));
      blk ← lh_block tail;
      from ← bread (u32 (l_dev lg)) (u32 blk);
      copy_data to from;; bwrite to;; brelse from;; brelse to)
    (fun _ s' => calm [] s' /\ Cache s' ∅ P /\
       dsk_step [(st + Z.of_nat tail + 1, default [] (P !! b))] s s') s.
Proof.
  intros Hc Hok Hla Hb Hpin Hoff Hsz. pose proof (la_len _ _ _ Hla) as Hlen. pose proof (la_st _ _ _ Hla) as Hst.
  pose proof (lookup_lt_Some _ _ _ Hb) as Htl.
  assert (Hrb : 0 <= b < 2 ^ 31) by (apply (la_rng _ _ _ Hla); by eapply list_elem_of_lookup_2).
  wp_steps. rewrite (la_dev _ _ _ Hla), (la_start _ _ _ Hla).
  set (nl := st + Z.of_nat tail + 1). assert (Enl : nl = st + Z.of_nat tail + 1) by done.
  rewrite (u32_small nl) by lia. change (u32 1) with 1.
  assert (Hnl : P !! nl = None).
  { apply eq_None_not_Some. intros Hn%Hoff. unfold off_log in Hn. lia. }
  assert (Hbl : b <> nl) by (intros ->; by rewrite Hnl in Hpin; destruct Hpin).
  eapply wp_bread; [done|done|by intros i x|right; rewrite map_size_empty; lia|].
  intros to s1 Hc1 _ Hok1 Hs1. apply wp_bind.
  eapply wp_get_entry. { destruct Hs1 as (_ & -> & _). by eapply la_lookup. }
  apply wp_bind. rewrite u32_small by lia. eapply wp_bread; [done|done| |by left|].
  { intros i x. rewrite lookup_insert. case_decide; [congruence|]. by rewrite lookup_empty. }
  intros from s2 Hc2 Hft Hok2 Hs2.
  assert (Hne : from <> to) by (intros ->; by rewrite lookup_insert_eq in Hft).
  apply wp_bind. eapply wp_copy_data; [done|done| |by rewrite lookup_insert_eq|].
  { by rewrite lookup_insert_ne, lookup_insert_eq. }
  intros s3 Hc3 Hok3 Hs3. apply wp_bind. eapply wp_bwrite; [done|done|by rewrite lookup_insert_eq|].
  intros s4 Hc4 Hok4 Hs4. apply wp_bind.
  eapply wp_brelse; [done|done|by rewrite lookup_insert_ne, lookup_insert_eq by done|by apply content_pin|].
  intros s5 Hc5 Hok5 Hs5.
  eapply wp_brelse; [done|done|by rewrite lookup_delete_ne, lookup_insert_eq by done| |].
  { destruct Hs5 as (_ & _ & -> & _). destruct Hs4 as (_ & _ & _ & ->). by rewrite content_written. }
  intros s6 Hc6 Hok6 Hs6. split; [done|]. split.
  - by held Hok6 (∅ : gmap nat (Z * list Z)).
  - eapply dsk_step_bio_l; [exact Hs1|]. eapply dsk_step_bio_l; [exact Hs2|]. eapply dsk_step_bio_l; [exact Hs3|].
    eapply dsk_step_bio_r; [|exact Hs6]. eapply dsk_step_bio_r; [|exact Hs5].
    destruct Hpin as [x Hx]. unfold content in Hs4. rewrite Hx in *. exact Hs4.
Qed.

Lemma write_log_spec s st P bl :
  calm [] s -> Cache s ∅ P -> log_at (k_log s) st bl -> (forall b, b ∈ bl -> is_Some (P !! b)) ->
  (forall n, is_Some (P !! n) -> off_log st n) -> (size P < 30)%nat ->
  wp write_log (fun _ s' => calm [] s' /\ Cache s' ∅ P /\ dsk_step (log_writes st P bl) s s') s.
Proof.
  intros Hc Hok Hla Hbl Hoff Hsz. unfold write_log, lh_iter. wp_steps. rewrite (la_n _ _ _ Hla), Nat2Z.id.
  apply (wp_for_each (fun d s' => calm [] s' /\ Cache s' ∅ P /\ dsk_step (take (length d) (log_writes st P bl)) s s')).
  - split; [done|]. split; [done|]. by apply dsk_step_bio.
  - intros d tail r s1 [-> Htl]%seq_mid (Hc1 & Hok1 & Hs1).
    destruct (lookup_Some_total bl (length d)) as [b Hb]; [done|].
    assert (Hla1 : log_at (k_log s1) st bl) by (destruct Hs1 as (_ & -> & _); done).
    eapply wp_mono.
    { eapply write_log_step; try done. apply Hbl. by eapply list_elem_of_lookup_2. }
    cbn beta. intros _ s2 (Hc2 & Hok2 & Hs2). split; [done|]. split; [done|].
    rewrite length_app. cbn. rewrite Nat.add_1_r. erewrite take_S_r; [by eapply dsk_step_trans|].
    unfold log_writes. by rewrite list_lookup_imap, Hb.
  - intros s' (Hc' & Hok' & Hs'). rewrite length_seq, take_ge in Hs'; [done|]. unfold log_writes. by rewrite length_imap.
Qed.

(** One iteration of install_trans(). *)
Lemma install_step r s st P bl tail b :
  calm [] s -> Cache s ∅ P -> log_at (k_log s) st bl -> bl !! tail = Some b -> off_log st b ->
  r = false /\ is_Some (P !! b) \/ r = true /\ P = ∅ ->
  (forall n, is_Some (P !! n) -> off_log st n) -> (size P < 30)%nat ->
  wp (lg ← gets k_log;
      lbuf ← bread (u32 (l_dev lg)) (u32 (l_start lg + Z.of_nat tail + 1));
      blk ← lh_block tail;
      dbuf ← bread (u32 (l_dev lg)) (u32 blk);
      copy_data dbuf lbuf;; bwrite dbuf;; when (negb r) (bunpin dbuf);; brelse lbuf;; brelse dbuf)
    (fun _ s' => calm [] s' /\ Cache s' ∅ (if r then P else delete b P) /\
       dsk_step [(b, dget (k_disk s) (st + Z.of_nat tail + 1))] s s') s.
Proof.
  intros Hc Hok Hla Hb Hob Hpin Hoff Hsz. pose proof (la_len _ _ _ Hla) as Hlen. pose proof (la_st _ _ _ Hla) as Hst.
  pose proof (lookup_lt_Some _ _ _ Hb) as Htl.
  assert (Hrb : 0 <= b < 2 ^ 31) by (apply (la_rng _ _ _ Hla); by eapply list_elem_of_lookup_2).
  wp_steps. rewrite (la_dev _ _ _ Hla), (la_start _ _ _ Hla).
  set (nl := st + Z.of_nat tail + 1). assert (Enl : nl = st + Z.of_nat tail + 1) by done.
  rewrite (u32_small nl) by lia. change (u32 1) with 1.
  assert (Hnl : P !! nl = None).
  { apply eq_None_not_Some. intros Hn%Hoff. unfold off_log in Hn. lia. }
  assert (Hbl : b <> nl) by (intros ->; unfold off_log in Hob; lia).
  set (P' := if r then P else delete b P).
  assert (HP' : P' !! nl = None /\ P' !! b = None).
  { unfold P'. destruct Hpin as [[-> _]|[-> ->]]; [|done].
    rewrite lookup_delete_eq, lookup_delete_ne by done. done. }
  eapply wp_bread; [done|done|by intros i x|right; rewrite map_size_empty; lia|].
  intros lb s1 Hc1 _ Hok1 Hs1. apply wp_bind.
  eapply wp_get_entry. { destruct Hs1 as (_ & -> & _). by eapply la_lookup. }
  apply wp_bind. rewrite u32_small by lia. eapply wp_bread; [done|done| | |].
  { intros i x. rewrite lookup_insert. case_decide; [congruence|]. by rewrite lookup_empty. }
  { destruct Hpin as [[_ ?]|[_ ->]]; [by left|right]. rewrite insert_empty, map_size_singleton, map_size_empty. lia. }
  intros db s2 Hc2 Hft Hok2 Hs2.
  assert (Hne : db <> lb) by (intros ->; by rewrite lookup_insert_eq in Hft).
  apply wp_bind. eapply wp_copy_data; [done|done|by rewrite lookup_insert_eq| |].
  { by rewrite lookup_insert_ne, lookup_insert_eq. }
  intros s3 Hc3 Hok3 Hs3. apply wp_bind. eapply wp_bwrite; [done|done|by rewrite lookup_insert_eq|].
  assert (Ex : content (k_disk s) P nl = dget (k_disk s) nl) by (unfold content; by rewrite Hnl).
  rewrite Ex in *. intros s4 Hc4 Hok4 Hs4. apply wp_bind.
  apply (wp_mono _ (fun _ s5 => calm [] s5 /\ Cache s5 (<[db := (b, dget (k_disk s) nl)]>
     (<[lb := (nl, dget (k_disk s) nl)]> ∅)) P' /\ bio_step s4 s5)).
  { held Hok4 (<[db := (b, dget (k_disk s) nl)]> (<[lb := (nl, dget (k_disk s) nl)]> (∅ : gmap nat (Z * list Z)))).
    unfold P'. destruct r; cbn [negb when]; [by apply wp_ret|]. destruct Hpin as [[_ [y Hy]]|[? _]]; [|done].
    eapply wp_bunpin; [done|done|by rewrite lookup_insert_eq|done|]. done. }
  intros _ s5 (Hc5 & Hok5 & Hs5).
  assert (Hd5 : k_disk s5 = disk_writes [(b, dget (k_disk s) nl)] (k_disk s)).
  { destruct Hs5 as (_ & _ & -> & _), Hs4 as (_ & _ & _ & ->), Hs3 as (_ & _ & -> & _), Hs2 as (_ & _ & -> & _),
      Hs1 as (_ & _ & -> & _). done. }
  apply wp_bind. eapply wp_brelse; [done|done|by rewrite lookup_insert_ne, lookup_insert_eq by done| |].
  { unfold content. rewrite (proj1 HP'), Hd5. cbn [default from_option id]. rewrite dget_writes_other; [done|]. cbn.
    rewrite list_elem_of_singleton. congruence. }
  intros s6 Hc6 Hok6 Hs6. eapply wp_brelse; [done|done|by rewrite lookup_delete_ne, lookup_insert_eq by done| |].
  { destruct Hs6 as (_ & _ & -> & _). rewrite Hd5, content_written; [done|]. apply HP'. }
  intros s7 Hc7 Hok7 Hs7. split; [done|]. split.
  - by held Hok7 (∅ : gmap nat (Z * list Z)).
  - eapply dsk_step_bio_l; [exact Hs1|]. eapply dsk_step_bio_l; [exact Hs2|]. eapply dsk_step_bio_l; [exact Hs3|].
    eapply dsk_step_bio_r; [|exact Hs7]. eapply dsk_step_bio_r; [|exact Hs6]. eapply dsk_step_bio_r; [|exact Hs5].
    exact Hs4.
Qed.

Lemma install_trans_spec r s st P bl :
  calm [] s -> Cache s ∅ P -> log_at (k_log s) st bl -> (forall b, b ∈ bl -> off_log st b) ->
  r = false /\ NoDup bl /\ (forall b, b ∈ bl -> is_Some (P !! b)) \/ r = true /\ P = ∅ ->
  (forall n, is_Some (P !! n) -> off_log st n) -> (size P < 30)%nat ->
  wp (install_trans r) (fun _ s' => calm [] s' /\ Cache s' ∅ (if r then P else unpinned bl P) /\
    dsk_step (inst_writes (k_disk s) st bl) s s') s.
Proof.
  intros Hc Hok Hla Hbl Hr Hoff Hsz. pose proof (la_len _ _ _ Hla) as Hlen.
  unfold install_trans, lh_iter. wp_steps. rewrite (la_n _ _ _ Hla), Nat2Z.id.
  apply (wp_for_each (fun d s' => calm [] s' /\ Cache s' ∅ (if r then P else unpinned (take (length d) bl) P) /\
    dsk_step (take (length d) (inst_writes (k_disk s) st bl)) s s')).
  - split; [done|]. split; [|by apply dsk_step_bio]. destruct r; [done|].
    assert (unpinned (take (length (@nil nat)) bl) P = P) as ->; [|done].
    apply map_eq. intros n. rewrite unpinned_lookup. cbn. rewrite decide_False; [done|]. apply not_elem_of_nil.
  - intros d tail r' s1 [-> Htl]%seq_mid (Hc1 & Hok1 & Hs1).
    destruct (lookup_Some_total bl (length d)) as [b Hb]; [done|]. pose proof (list_elem_of_lookup_2 _ _ _ Hb) as Hbin.
    assert (Hla1 : log_at (k_log s1) st bl) by (destruct Hs1 as (_ & -> & _); done).
    eapply wp_mono.
    { eapply (install_step r s1 st _ bl); try done.
      - by apply Hbl.
      - destruct Hr as [(-> & Hnd & Hp)|[-> ->]]; [left|by right]. split; [done|].
        rewrite unpinned_lookup, decide_False; [by apply Hp|].
        intros [j Hj]%list_elem_of_lookup. apply lookup_take_Some in Hj as [Hj Hlt].
        pose proof (NoDup_lookup _ _ _ _ Hnd Hb Hj). lia.
      - intros n. destruct r; [apply Hoff|]. rewrite unpinned_lookup. case_decide; [by intros []|apply Hoff].
      - destruct r; [done|]. pose proof (unpinned_size (take (length d) bl) P). lia. }
    cbn beta. intros _ s2 (Hc2 & Hok2 & Hs2). rewrite length_app. cbn [length]. rewrite Nat.add_1_r.
    split; [done|]. split.
    + destruct r; [done|]. by erewrite take_S_r, unpinned_snoc.
    + erewrite take_S_r; [by eapply dsk_step_trans|]. unfold inst_writes. rewrite list_lookup_imap, Hb. cbn.
      destruct Hs1 as (_ & _ & _ & ->). do 2 f_equal.
      replace (st + Z.of_nat (length d) + 1) with (st + Z.of_nat (S (length d))) by lia.
      symmetry. apply off_log_writes; [done|lia].
  - intros s' (Hc' & Hok' & Hs'). rewrite length_seq in *. rewrite take_ge in Hs'; [|unfold inst_writes; by rewrite length_imap].
    split; [done|]. split; [|done]. by rewrite firstn_all in Hok'.
Qed.

Lemma write_head_spec s st P bl :
  calm [] s -> Cache s ∅ P -> log_at (k_log s) st bl -> P !! st = None -> (size P < 30)%nat ->
  wp write_head (fun _ s' => calm [] s' /\ Cache s' ∅ P /\
    dsk_step [(st, hdr_enc bl (dget (k_disk s) st))] s s') s.
Proof.
  intros Hc Hok Hla Hst Hsz. pose proof (la_len _ _ _ Hla) as Hlen. pose proof (la_st _ _ _ Hla) as Hst'.
  unfold write_head, lh_iter. wp_steps. rewrite (la_dev _ _ _ Hla), (la_start _ _ _ Hla).
  rewrite (u32_small st) by lia. change (u32 1) with 1.
  eapply wp_bread; [done|done|by intros i x|right; rewrite map_size_empty; lia|].
  assert (Ex : content (k_disk s) P st = dget (k_disk s) st) by (unfold content; by rewrite Hst).
  pose proof (bc_content _ _ _ st Hok) as Hx0. rewrite Ex in *. set (x0 := dget (k_disk s) st) in *.
  intros buf s1 Hc1 _ Hok1 Hs1. wp_steps.
  assert (El : k_log s1 = k_log s) by apply Hs1. rewrite El, (la_n _ _ _ Hla).
  set (x1 := put_le 4 0 (Z.of_nat (length bl)) x0).
  assert (Hx1 : blk_ok x1) by (by apply blk_put; [lia|]).
  eapply wp_store; [done|done|by rewrite lookup_insert_eq|done|]. fold x1. rewrite insert_insert_eq.
  intros s2 Hc2 Hok2 Hs2. wp_steps.
  assert (El2 : k_log s2 = k_log s) by (destruct Hs2 as (_ & -> & _); done). rewrite El2, (la_n _ _ _ Hla), Nat2Z.id.
  apply (wp_for_each (fun d s' => calm [] s' /\
    Cache s' {[buf := (st, hdr_fill x1 (imap pair (take (length d) bl)))]} P /\ bio_step s s')).
  - split; [done|]. split; [done|]. by etrans.
  - intros d i r s3 [-> Hi]%seq_mid (Hc3 & Hok3 & Hs3).
    destruct (lookup_Some_total bl (length d)) as [b Hb]; [done|].
    apply wp_bind. eapply wp_get_entry. { destruct Hs3 as (_ & -> & _). by eapply la_lookup. }
    assert (Hfill : forall n, blk_ok (hdr_fill x1 (imap pair (take n bl)))).
    { intros n. apply hdr_fill_ok; [|done]. intros j c. apply imap_pair_lt. rewrite length_take. lia. }
    assert (E : put_le 4 (4 + 4 * length d) b (hdr_fill x1 (imap pair (take (length d) bl))) =
      hdr_fill x1 (imap pair (take (length (d ++ [length d])) bl))).
    { rewrite length_app. cbn [length]. rewrite Nat.add_1_r. erewrite take_S_r by done. rewrite imap_app. unfold hdr_fill.
      rewrite foldl_app. cbn [imap foldl fst snd]. rewrite length_take, Nat.min_l, Nat.add_0_r by lia. done. }
    eapply wp_store; [done|done|by rewrite lookup_singleton_eq|by rewrite E|].
    rewrite E, insert_singleton_eq. intros s4 Hc4 Hok4 Hs4. split; [done|]. split; [done|]. by etrans.
  - intros s3 (Hc3 & Hok3 & Hs3). rewrite length_seq, firstn_all in Hok3. fold (hdr_enc bl x0) in Hok3.
    apply wp_bind. eapply wp_bwrite; [done|done|by rewrite lookup_singleton_eq|]. intros s4 Hc4 Hok4 Hs4.
    eapply wp_brelse; [done|done|by rewrite lookup_singleton_eq| |].
    { destruct Hs4 as (_ & _ & _ & ->). by rewrite content_written. }
    intros s5 Hc5 Hok5 Hs5. split; [done|]. rewrite delete_singleton_eq in Hok5. split; [done|].
    eapply dsk_step_bio_l; [exact Hs3|]. eapply dsk_step_bio_r; [exact Hs4|done].
Qed.

Lemma cache_upd_log f s h P : Cache s h P -> Cache (upd_k_log f s) h P.
Proof. intros H. by apply (bc_ext s). Qed.

Lemma read_head_spec s st :
  calm [] s -> Cache s ∅ ∅ -> l_dev (k_log s) = 1 -> l_start (k_log s) = st -> 0 <= st < 2 ^ 30 ->
  length (l_block (k_log s)) = 30%nat -> 0 <= hdr_n (dget (k_disk s) st) <= 29 ->
  (forall b, b ∈ hdr_blocks (dget (k_disk s) st) -> 0 <= b < 2 ^ 31) ->
  wp read_head (fun _ s' => calm [] s' /\ Cache s' ∅ ∅ /\
    log_at (k_log s') st (hdr_blocks (dget (k_disk s) st)) /\ log_step [] s s') s.
Proof.
  intros Hc Hok Hdev Hst Hrng Harr Hn Hb. unfold read_head, lh_iter. set (x := dget (k_disk s) st) in *.
  wp_steps. rewrite Hdev, Hst, (u32_small st) by lia. change (u32 1) with 1.
  eapply wp_bread; [done|done|by intros i y|right; rewrite !map_size_empty; lia|].
  change (content (k_disk s) ∅ st) with x. intros buf s1 Hc1 _ Hok1 Hs1. wp_steps.
  eapply wp_get_held; [done|by rewrite lookup_insert_eq|]. intros b Hbx _ _. rewrite Hbx. wp_steps.
  set (s2 := upd_k_log (upd_l_n (fun _ => hdr_n x)) s1). change (l_n (k_log s2)) with (hdr_n x).
  assert (Hs2 : log_step [] s s2).
  { apply (log_step_trans [] [] _ s1); [by apply log_step_dsk, dsk_step_bio|]. by apply log_step_upd. }
  apply (wp_for_each (fun d s' => calm [] s' /\ Cache s' {[buf := (st, x)]} ∅ /\ log_step [] s s' /\
    l_n (k_log s') = hdr_n x /\ take (length d) (l_block (k_log s')) = hdr_block x <$> d)).
  - split; [by apply calm_upd_log|]. split; [by apply cache_upd_log|]. done.
  - intros d i r s3 [-> Hi]%seq_mid (Hc3 & Hok3 & Hs3 & Hn3 & Ht3).
    apply wp_bind. eapply wp_get_held; [done|by rewrite lookup_singleton_eq|]. intros b' Hbx' _ _. rewrite Hbx'.
    assert (Hl3 : length (l_block (k_log s3)) = 30%nat) by (rewrite <- Harr; apply Hs3).
    destruct (lookup_Some_total (l_block (k_log s3)) (length d)) as [v Hv]; [lia|].
    unfold set_lh_block. apply wp_bind. eapply wp_get_entry; [exact Hv|]. wp_steps.
    split; [by apply calm_upd_log|]. split; [by apply cache_upd_log|]. split.
    + apply (log_step_trans [] [] _ s3); [done|]. apply log_step_upd. intros lg. ksimpl. by rewrite length_insert.
    + cbn [k_log upd_k_log l_n l_block upd_l_block]. split; [done|]. rewrite length_app. cbn [length]. rewrite Nat.add_1_r.
      erewrite take_S_r by (rewrite list_lookup_insert, decide_True; [done|lia]).
      rewrite take_insert_ge by lia. by rewrite fmap_app, Ht3.
  - intros s3 (Hc3 & Hok3 & Hs3 & Hn3 & Ht3).
    eapply wp_brelse; [done|done|by rewrite lookup_singleton_eq| |].
    { destruct Hs3 as (_ & _ & -> & _). by rewrite disk_writes_nil. }
    intros s4 Hc4 Hok4 Hs4. split; [done|]. rewrite delete_singleton_eq in Hok4. split; [done|].
    assert (Hs4' : log_step [] s s4).
    { apply (log_step_trans [] [] _ s3); [done|]. by apply log_step_dsk, dsk_step_bio. }
    split; [|done]. assert (El : k_log s4 = k_log s3) by apply Hs4.
    assert (Hlb : length (hdr_blocks x) = Z.to_nat (hdr_n x)) by (unfold hdr_blocks; by rewrite length_fmap, length_seq).
    destruct Hs4' as (_ & _ & _ & E1 & E2 & _ & _ & _ & E3). split; try done; try congruence.
    + rewrite El, Hn3, Hlb. lia.
    + rewrite Hlb. lia.
    + rewrite El, Hlb. by rewrite length_seq in Ht3.
Qed.

(** ** Lemmas: recovery and commit *)

Lemma recover_spec s st :
  calm [] s -> Cache s ∅ ∅ -> l_dev (k_log s) = 1 -> l_start (k_log s) = st -> 0 <= st < 2 ^ 30 ->
  length (l_block (k_log s)) = 30%nat -> 0 <= hdr_n (dget (k_disk s) st) <= 29 ->
  (forall b, b ∈ hdr_blocks (dget (k_disk s) st) -> 0 <= b < 2 ^ 31 /\ off_log st b) ->
  wp recover_from_log (fun _ s' => calm [] s' /\ Cache s' ∅ ∅ /\ log_at (k_log s') st [] /\
    log_step (inst_writes (k_disk s) st (hdr_blocks (dget (k_disk s) st)) ++
              [(st, put_le 4 0 0 (dget (k_disk s) st))]) s s') s.
Proof.
  intros Hc Hok Hdev Hst Hrng Harr Hn Hb. unfold recover_from_log. apply wp_bind.
  eapply wp_mono; [eapply read_head_spec; try done; naive_solver|].
  cbn beta. intros _ s1 (Hc1 & Hok1 & Hla1 & Hs1). apply wp_bind. eapply wp_mono.
  { eapply (install_trans_spec true); try done.
    - naive_solver.
    - by right.
    - intros n [? ?]. by rewrite lookup_empty in *.
    - rewrite map_size_empty. lia. }
  cbn beta. intros _ s2 (Hc2 & Hok2 & Hs2). wp_steps. set (s3 := upd_k_log (upd_l_n (fun _ => 0)) s2).
  assert (El : k_log s2 = k_log s1) by apply Hs2.
  assert (Hla3 : log_at (k_log s3) st []).
  { unfold s3. ksimpl. rewrite El. by eapply log_at_nil. }
  eapply wp_mono.
  { apply (write_head_spec s3 st ∅ []); try done; [by apply calm_upd_log|by apply cache_upd_log|rewrite map_size_empty; lia]. }
  cbn beta. intros _ s4 (Hc4 & Hok4 & Hs4). split; [done|]. split; [done|].
  assert (El4 : k_log s4 = k_log s3) by apply Hs4. rewrite El4. split; [done|].
  apply (log_step_trans _ _ _ s3).
  - rewrite <- (app_nil_r (inst_writes _ _ _)). apply (log_step_trans _ _ _ s2); [|by apply log_step_upd].
    apply (log_step_trans [] _ _ s1); [done|]. apply log_step_dsk.
    assert (Ed : k_disk s1 = k_disk s) by (destruct Hs1 as (_ & _ & -> & _); apply disk_writes_nil).
    rewrite Ed in Hs2. exact Hs2.
  - apply log_step_dsk. change (k_disk s3) with (k_disk s2) in Hs4.
    replace (dget (k_disk s2) st) with (dget (k_disk s) st) in Hs4; [exact Hs4|].
    destruct Hs2 as (_ & _ & _ & ->). destruct Hs1 as (_ & _ & -> & _). rewrite disk_writes_nil.
    pose proof (off_log_writes (k_disk s) st (hdr_blocks (dget (k_disk s) st))
      (length (inst_writes (k_disk s) st (hdr_blocks (dget (k_disk s) st)))) 0) as E.
    rewrite firstn_all, Z.add_0_r in E. symmetry. apply E; [naive_solver|lia].
Qed.

Lemma commit_spec s st P bl :
  calm [] s -> Cache s ∅ P -> log_at (k_log s) st bl -> bl <> [] -> NoDup bl ->
  (forall n, is_Some (P !! n) <-> n ∈ bl) -> (forall n, n ∈ bl -> off_log st n) -> (size P < 30)%nat ->
  wp commit (fun _ s' => calm [] s' /\ Cache s' ∅ ∅ /\ log_at (k_log s') st [] /\
    log_step (commit_writes (k_disk s) st P bl) s s') s.
Proof.
  intros Hc Hok Hla Hne Hnd HP Hoff Hsz. unfold commit. wp_steps. rewrite (la_n _ _ _ Hla).
  assert (HPst : P !! st = None).
  { apply eq_None_not_Some. rewrite HP. intros Hin%Hoff. unfold off_log in Hin. lia. }
  assert (HPoff : forall n, is_Some (P !! n) -> off_log st n) by (intros n Hn%HP; by apply Hoff).
  destruct bl as [|b0 bl0]; [done|]. set (bl := b0 :: bl0) in *.
  rewrite (proj2 (Z.gtb_lt _ _)) by (cbn; lia).
  wp_steps. eapply wp_mono; [eapply (write_log_spec s st P bl); try done; intros b; by rewrite HP|].
  cbn beta. intros _ s1 (Hc1 & Hok1 & Hs1). apply wp_bind.
  assert (El1 : k_log s1 = k_log s) by apply Hs1.
  eapply wp_mono; [apply (write_head_spec s1 st P bl); try done; by rewrite El1|].
  cbn beta. intros _ s2 (Hc2 & Hok2 & Hs2). apply wp_bind.
  assert (El2 : k_log s2 = k_log s) by (destruct Hs2 as (_ & -> & _); done).
  assert (Eh : dget (k_disk s1) st = dget (k_disk s) st).
  { destruct Hs1 as (_ & _ & _ & ->). apply log_writes_off. by left. }
  rewrite Eh in Hs2. pose proof (dsk_step_trans _ _ _ _ _ Hs1 Hs2) as Hs12.
  eapply wp_mono.
  { apply (install_trans_spec false s2 st P bl); try done; [by rewrite El2|]. left. split_and!; try done.
    intros b. by rewrite HP. }
  cbn beta. intros _ s3 (Hc3 & Hok3 & Hs3). wp_steps. set (s4 := upd_k_log (upd_l_n (fun _ => 0)) s3).
  assert (El3 : k_log s3 = k_log s) by (destruct Hs3 as (_ & -> & _); done).
  assert (HU : unpinned bl P = ∅).
  { apply map_eq. intros n. rewrite unpinned_lookup, lookup_empty. case_decide; [done|].
    apply eq_None_not_Some. by rewrite HP. }
  rewrite HU in Hok3.
  assert (Hla4 : log_at (k_log s4) st []).
  { unfold s4. ksimpl. rewrite El3. by eapply log_at_nil. }
  eapply wp_mono.
  { apply (write_head_spec s4 st ∅ []); try done; [by apply calm_upd_log|by apply cache_upd_log|rewrite map_size_empty; lia]. }
  cbn beta. intros _ s5 (Hc5 & Hok5 & Hs5). split; [done|]. split; [done|].
  assert (El5 : k_log s5 = k_log s4) by apply Hs5. rewrite El5. split; [done|].
  assert (Ei : inst_writes (k_disk s2) st bl = (fun b => (b, default [] (P !! b))) <$> bl).
  { destruct Hs12 as (_ & _ & _ & ->). apply inst_writes_eq. }
  rewrite Ei in Hs3. pose proof (dsk_step_trans _ _ _ _ _ Hs12 Hs3) as Hs123.
  assert (Eh3 : dget (k_disk s3) st = hdr_enc bl (dget (k_disk s) st)).
  { destruct Hs123 as (_ & _ & _ & ->). apply dget_writes_in.
    - rewrite !fmap_app. cbn. set_solver.
    - intros y. rewrite !elem_of_app, list_elem_of_singleton. intros [[(j & c & [= E ->] & _)%elem_of_lookup_imap_1|[= <-]]|(b & [= -> ->] & Hb)%list_elem_of_fmap].
      + lia.
      + done.
      + apply Hoff in Hb. unfold off_log in Hb. lia. }
  unfold commit_writes. cbv zeta. rewrite app_assoc, app_assoc.
  apply (log_step_trans _ _ _ s4).
  - rewrite <- (app_nil_r (_ ++ _)). apply (log_step_trans _ _ _ s3); [by apply log_step_dsk|by apply log_step_upd].
  - apply log_step_dsk. rewrite <- Eh3. exact Hs5.
Qed.

(** The writes of commit(), which does nothing for a transaction without blocks. *)
Definition txn_writes (d : diskst) (st : Z) (P : gmap Z (list Z)) (bl : list Z) : list (Z * list Z) :=
  if decide (bl = []) then [] else commit_writes d st P bl.

Lemma commit_any s st P bl :
  calm [] s -> Cache s ∅ P -> log_at (k_log s) st bl -> NoDup bl ->
  (forall n, is_Some (P !! n) <-> n ∈ bl) -> (forall n, n ∈ bl -> off_log st n) -> (size P < 30)%nat ->
  wp commit (fun _ s' => calm [] s' /\ Cache s' ∅ ∅ /\ log_at (k_log s') st [] /\
    log_step (txn_writes (k_disk s) st P bl) s s') s.
Proof.
  intros Hc Hok Hla Hnd HP Hoff Hsz. unfold txn_writes. case_decide as Hb; [|by apply commit_spec].
  subst bl. assert (EP : P = ∅).
  { apply map_eq. intros n. rewrite lookup_empty. apply eq_None_not_Some. rewrite HP. apply not_elem_of_nil. }
  subst P. unfold commit. wp_steps. rewrite (la_n _ _ _ Hla). cbn. wp_steps.
  split_and!; try done. unfold log_step. by rewrite disk_writes_nil.
Qed.

(** ** Lemmas: transactions *)

Lemma cache_resync lk s s' h P : fs_step (locked lk s) s' -> Cache s' h P -> Cache (resync s s') h P.
Proof.
  intros Hst H. apply (bc_ext s'); try done. pose proof (fs_step_c_proc _ _ Hst) as E.
  unfold mypid. change (c_proc (k_cpu (resync s s'))) with (c_proc (k_cpu s)).
  change (c_proc (k_cpu (locked lk s))) with (c_proc (k_cpu s)) in E. by rewrite E.
Qed.

Lemma calm_resync lk s s' : fs_step (locked lk s) s' -> calm [] s -> calm [] (resync s s').
Proof. intros Hst Hc. eapply fs_step_calm; [by eapply fs_step_release|done]. Qed.

(** log_write()'s search finds the block's place in the transaction. *)
Lemma log_search_spec lg st bl n :
  log_at lg st bl ->
  (n ∈ bl /\ bl !! log_search n lg = Some n) \/ (n ∉ bl /\ log_search n lg = length bl).
Proof.
  intros Hla. unfold log_search. rewrite (la_n _ _ _ Hla), Nat2Z.id, (la_bl _ _ _ Hla).
  assert (Hu : forall b, b ∈ bl -> u32 b = b) by (intros b Hb%(la_rng _ _ _ Hla); apply u32_small; lia).
  destruct (find_index _ bl) as [j|] eqn:E; cbn.
  - left. apply find_index_Some in E as (b & Hb & Hp & _). bool_decide_tests.
    pose proof (list_elem_of_lookup_2 _ _ _ Hb) as Hin. rewrite (Hu b Hin) in Hp. by subst n.
  - right. split; [|done]. intros [j Hj]%list_elem_of_lookup. pose proof (find_index_None _ _ E _ _ Hj) as Hp.
    cbn in Hp. bool_decide_tests. apply Hp, Hu. by eapply list_elem_of_lookup_2.
Qed.

(** Setting lh.block[i] to what it is, or adding a block after the last. *)
Lemma log_at_same lg st bl j n :
  log_at lg st bl -> bl !! j = Some n -> log_at (upd_l_block (<[j := n]>) lg) st bl.
Proof.
  intros Hla Hj. pose proof (la_lookup _ _ _ _ _ Hla Hj) as Hl. destruct Hla. split; try done.
  - cbn. by rewrite length_insert.
  - cbn. by rewrite list_insert_id.
Qed.

Lemma log_at_snoc lg st bl n :
  log_at lg st bl -> (length bl < 29)%nat -> 0 <= n < 2 ^ 31 ->
  log_at (upd_l_n (fun m => m + 1) (upd_l_block (<[length bl := n]>) lg)) st (bl ++ [n]).
Proof.
  intros Hla Hlen Hn. destruct Hla. split; try done.
  - cbn. rewrite length_app. cbn. lia.
  - cbn. by rewrite length_insert.
  - rewrite length_app. cbn. lia.
  - cbn. rewrite length_app. cbn [length]. rewrite Nat.add_1_r.
    erewrite take_S_r by (rewrite list_lookup_insert, decide_True; [done|lia]).
    rewrite take_insert_ge by lia. by rewrite la_bl0.
  - intros b [Hb|Hb]%elem_of_app; [auto|]. apply list_elem_of_singleton in Hb. by subst.
Qed.

Lemma log_write_spec s h st bl P i n x :
  calm [] s -> Cache s h P -> log_at (k_log s) st bl -> (forall m, is_Some (P !! m) <-> m ∈ bl) ->
  h !! i = Some (n, x) -> 0 <= n < 2 ^ 31 -> (length bl < 29)%nat -> Z.of_nat (length bl) < l_size (k_log s) - 1 ->
  1 <= l_outstanding (k_log s) ->
  wp (log_write i) (fun _ s' => calm [] s' /\ Cache s' h (<[n := x]> P) /\
    log_at (k_log s') st (if decide (n ∈ bl) then bl else bl ++ [n]) /\ log_step [] s s') s.
Proof.
  intros Hc Hok Hla HP Hi Hn Hlen Hsz Hout. unfold log_write. apply wp_bind, wp_acquire; [apply Hc, not_elem_of_nil|].
  wp_steps. change (k_log (locked L_log s)) with (k_log s). rewrite (la_n _ _ _ Hla).
  rewrite !Z.geb_leb, (proj2 (Z.leb_gt 30 _)), (proj2 (Z.leb_gt (l_size _ - 1) _)) by lia. cbn [orb].
  rewrite (proj2 (Z.ltb_ge _ 1)) by lia. apply wp_bind.
  assert (Hokl : Cache (locked L_log s) h P) by (by apply (bc_ext s)).
  eapply wp_get_held; [done|done|]. intros b _ Hbn _. rewrite Hbn, s32_small by lia. cbv zeta.
  set (j := log_search n (k_log s)). pose proof (la_arr _ _ _ Hla) as Harr.
  assert (Hj : (j < 30)%nat).
  { destruct (log_search_spec _ _ _ n Hla) as [[_ H]|[_ H]]; fold j in H; [apply lookup_lt_Some in H|]; lia. }
  destruct (lookup_Some_total (l_block (k_log s)) j) as [v Hv]; [lia|].
  unfold set_lh_block. wp_steps. eapply wp_get_entry; [exact Hv|]. wp_steps.
  set (f := upd_l_block (<[j := n]>)). set (s1 := upd_k_log f (locked L_log s)).
  assert (Hs1 : fs_step (locked L_log s) s1) by apply fs_step_upd_log.
  destruct (log_search_spec _ _ _ n Hla) as [[Hin Hs]|[Hin Hs]]; fold j in Hs.
  - rewrite (proj2 (Z.eqb_neq _ _)) by (apply lookup_lt_Some in Hs; lia). wp_steps.
    apply (wp_release L_log s); [apply Hc|by rewrite (keq_sync _ _ (proj1 Hs1)); ksync|].
    rewrite decide_True by done. split; [by eapply calm_resync|]. destruct (proj2 (HP n) Hin) as [y Hy]. split; [|split].
    + eapply cache_resync; [done|]. apply cache_upd_log. by eapply bc_repin.
    + by apply log_at_same.
    + split; [by eapply fs_step_release|]. rewrite disk_writes_nil. split_and!; try done. cbn. by rewrite length_insert.
  - rewrite Hs, Z.eqb_refl. wp_steps. eapply wp_mono.
    { eapply (bc_bpin [L_log] s1); [|set_solver| |done|].
      - by apply calm_upd_log, calm_locked.
      - by apply cache_upd_log.
      - apply eq_None_not_Some. by rewrite HP. }
    cbn beta. intros _ s2 [Hok2 Hs2]. wp_steps. set (s3 := upd_k_log (upd_l_n (fun m => m + 1)) s2).
    assert (Hs3 : fs_step (locked L_log s) s3).
    { etrans; [exact Hs1|]. etrans; [apply Hs2|]. apply fs_step_upd_log. }
    apply (wp_release L_log s); [apply Hc|rewrite (keq_sync _ _ (proj1 Hs3)); by ksync|].
    assert (El : k_log (resync s s3) = upd_l_n (fun m => m + 1) (f (k_log s))).
    { change (k_log (resync s s3)) with (upd_l_n (fun m => m + 1) (k_log s2)). by destruct Hs2 as (_ & -> & _). }
    rewrite decide_False by done. split; [by eapply calm_resync|]. split; [|split].
    + eapply cache_resync; [done|]. by apply cache_upd_log.
    + rewrite El. unfold f. rewrite Hs. by apply log_at_snoc.
    + split; [by eapply fs_step_release|]. rewrite El, disk_writes_nil. destruct Hs2 as (_ & _ & D2 & I2).
      split_and!; try done. cbn. by rewrite length_insert.
Qed.

Lemma begin_op_spec s :
  calm [] s -> l_committing (k_log s) = false ->
  l_n (k_log s) + (l_outstanding (k_log s) + 1) * 10 <= 30 ->
  wp begin_op (fun _ s' => s' ≡ upd_k_log (upd_l_outstanding (fun n => n + 1)) s) s.
Proof.
  intros Hc Hcm Hroom. unfold begin_op, begin_op_loop. apply wp_bind, wp_acquire; [apply Hc, not_elem_of_nil|].
  wp_steps. change (k_log (locked L_log s)) with (k_log s). rewrite Hcm.
  rewrite Z.gtb_ltb, (proj2 (Z.ltb_ge _ _)) by lia. wp_steps. wp_rel; [apply Hc|]. keq.
Qed.

(** end_op() by an operation that is not the last. *)
Lemma end_op_more s :
  calm [] s -> l_committing (k_log s) = false -> l_outstanding (k_log s) <> 1 ->
  wp end_op (fun _ s' => s' ≡ upd_k_procs (woken Ch_log (c_proc (k_cpu s)) (seq 0 64))
    (upd_k_log (upd_l_outstanding (fun n => n - 1)) s)) s.
Proof.
  intros Hc Hcm Hout. unfold end_op. apply wp_bind, wp_acquire; [apply Hc, not_elem_of_nil|]. wp_steps.
  cbn [k_log upd_k_log l_committing upd_l_outstanding l_outstanding locked pushed].
  change (k_log (locked L_log s)) with (k_log s). rewrite Hcm.
  rewrite (proj2 (Z.eqb_neq _ _)) by lia. wp_steps. eapply wp_mono.
  { apply (wakeup_spec [L_log]); [|set_solver]. by apply calm_upd_log, calm_locked. }
  cbn beta. intros _ s1 Hs1. wp_steps.
  apply (wp_release L_log s); [apply Hc|by rewrite (keq_sync _ _ Hs1); ksync|]. wp_steps.
  apply resync_keq; [|by ksync]. rewrite (keq_others _ _ Hs1). done.
Qed.

Lemma fs_step_woken ch s : fs_step s (upd_k_procs (woken ch (c_proc (k_cpu s)) (seq 0 64)) s).
Proof. split; [keq|apply woken_woke]. Qed.

Lemma fs_step_release_keq lk s s' s'' : fs_step (locked lk s) s' -> s'' ≡ s' -> fs_step s (resync s s'').
Proof. intros H E. apply (fs_step_release lk). etrans; [exact H|]. by apply fs_step_keq. Qed.

(** end_op() by the last operation commits. *)
Lemma end_op_last s st bl P :
  calm [] s -> Cache s ∅ P -> log_at (k_log s) st bl -> NoDup bl ->
  (forall n, is_Some (P !! n) <-> n ∈ bl) -> (forall n, n ∈ bl -> off_log st n) -> (size P < 30)%nat ->
  l_committing (k_log s) = false -> l_outstanding (k_log s) = 1 ->
  wp end_op (fun _ s' => calm [] s' /\ Cache s' ∅ ∅ /\ log_at (k_log s') st [] /\ fs_step s s' /\
    k_disk s' = disk_writes (txn_writes (k_disk s) st P bl) (k_disk s) /\
    l_outstanding (k_log s') = 0 /\ l_committing (k_log s') = false /\ l_size (k_log s') = l_size (k_log s)) s.
Proof.
  intros Hc Hok Hla Hnd HP Hoff Hsz Hcm Hout. unfold end_op.
  apply wp_bind, wp_acquire; [apply Hc, not_elem_of_nil|]. wp_steps.
  change (k_log (upd_k_log ?f (locked L_log s))) with (f (k_log s)).
  cbn [l_committing upd_l_outstanding l_outstanding]. rewrite Hcm, Hout. change (1 - 1 =? 0) with true. cbn iota. wp_steps.
  wp_rel; [apply Hc|]. wp_steps.
  set (s1 := resync s _).
  assert (E1 : s1 ≡ upd_k_log (fun lg => upd_l_committing (fun _ => true) (upd_l_outstanding (fun n => n - 1) lg)) s) by (unfold s1; keq).
  assert (Hs1 : fs_step s s1) by (etrans; [apply fs_step_upd_log|apply fs_step_keq, E1]).
  assert (Hc1 : calm [] s1) by (by eapply fs_step_calm).
  assert (Hok1 : Cache s1 ∅ P) by (by apply (bc_ext s)).
  assert (Hla1 : log_at (k_log s1) st bl) by (by destruct Hla).
  eapply wp_mono; [by apply (commit_any s1 st P bl)|]. cbn beta. intros _ s2 (Hc2 & Hok2 & Hla2 & Hs2).
  apply wp_bind, wp_acquire; [apply Hc2, not_elem_of_nil|]. wp_steps.
  set (s3 := upd_k_log (upd_l_committing (fun _ => false)) (locked L_log s2)).
  assert (Hs3 : fs_step (locked L_log s2) s3) by apply fs_step_upd_log.
  eapply wp_mono.
  { apply (wakeup_spec [L_log] Ch_log s3); [|set_solver]. by apply calm_upd_log, calm_locked. }
  cbn beta. intros _ s4 Hs4.
  assert (Hs34 : fs_step (locked L_log s2) s4).
  { etrans; [exact Hs3|]. etrans; [apply (fs_step_woken Ch_log)|]. by apply fs_step_keq. }
  apply (wp_release L_log s2); [apply Hc2|by rewrite (keq_sync _ _ Hs4); ksync|].
  assert (El : k_log (resync s2 s4) = upd_l_committing (fun _ => false) (k_log s2)) by (exact (keq_k_log _ _ Hs4)).
  split; [by eapply calm_resync|]. split; [|split].
  - eapply cache_resync; [done|]. apply (bc_ext s2); [done|..].
    + rewrite (mypid_keq _ _ Hs4), mypid_woken. done.
    + exact (keq_k_bcache _ _ Hs4).
    + exact (keq_k_disk _ _ Hs4).
  - rewrite El. by destruct Hla2.
  - split; [|split].
    + etrans; [exact Hs1|]. etrans; [apply Hs2|]. by eapply fs_step_release.
    + change (k_disk (resync s2 s4)) with (k_disk s4). rewrite (keq_k_disk _ _ Hs4). apply Hs2.
    + rewrite El. cbn. destruct Hs2 as (_ & _ & _ & _ & _ & -> & -> & _). cbn. by rewrite Hout.
Qed.
End cache.
