(* ===== verification/BcacheProps.v ===== *)
(** * Properties of the buffer cache (kernel/bio.c)

    The theorems on bio.c, each with an instance on a concrete cache. *)

From Stdlib Require Import ZArith Lia.
From stdpp Require Import base tactics numbers gmap strings option list.
From S2P Require Import Prelude Bytes Kernel Spinlock Sched Bio Bcache Log LogSpec.

(** ** Properties *)

(** C36: bget() of device 1 returns the buffer of the block if the block is
    cached; otherwise it recycles the least recently used buffer that nobody
    references; it panics when there is none.  [l] lists the buffers from most to
    least recently used. *)
Theorem bget_correct s l n :
  calm [] s -> ring (k_bcache s) l ->
  match List.find (buf_is 1 n (k_bcache s)) l, List.find (buf_free (k_bcache s)) (reverse l) with
  | Some i, _ => forall b, bc_buf (k_bcache s) !! i = Some b -> sl_locked (b_lock b) = false ->
      wp (bget 1 n) (fun r s' => r = i /\
        s' ≡ on_buf i (fun b => upd_b_lock (fun _ => mkSleeplock true (mypid s))
                                  (upd_b_refcnt (fun c => u32 (c + 1)) b)) s) s
  | None, Some i => forall b, bc_buf (k_bcache s) !! i = Some b -> sl_locked (b_lock b) = false ->
      wp (bget 1 n) (fun r s' => r = i /\
        s' ≡ on_buf i (fun b => upd_b_lock (fun _ => mkSleeplock true (mypid s)) (recycle 1 n b)) s) s
  | None, None => bget 1 n s = Panic "bget: no buffers"
  end.
Proof.
  intros Hc Hr. pose proof (bget_spec [] 1 n s l) as Hs. pose proof (bget_panics [] 1 n s l) as Hp.
  unfold bget_pick in Hs, Hp. destruct (List.find (buf_is 1 n (k_bcache s)) l) as [i|].
  - intros b Hb Hl. by apply (Hs i _ b); try apply not_elem_of_nil.
  - destruct (List.find (buf_free (k_bcache s)) (reverse l)) as [i|].
    + intros b Hb Hl. by apply (Hs i _ b); try apply not_elem_of_nil.
    + apply Hp; try done. apply not_elem_of_nil.
Qed.

(** while fewer than NBUF blocks are locked or pinned, bread() returns a
    buffer, locked by the running process, whose data is what the disk holds, or
    the pinned content of a block of the running transaction; no other buffer's
    lock or content and no block of the disk changes. *)
Theorem bread_correct s h P n :
  calm [] s -> cache_ok s h P -> unheld h n -> (size h + size P < 30)%nat ->
  wp (bread 1 n) (fun i s' =>
    h !! i = None /\ cache_ok s' (<[i := (n, content (k_disk s) P n)]> h) P /\
    b_data <$> bc_buf (k_bcache s') !! i = Some (content (k_disk s) P n) /\ bio_step s s') s.
Proof.
  intros Hc Hok Hun Hroom. eapply wp_mono; [apply bread_spec; eauto|].
  intros i s' (Hi & Hok' & Hs). split_and!; try done.
  by apply (bc_data s' _ P i n) with (1 := Hok'); rewrite lookup_insert_eq.
Qed.

(** data put into a locked buffer and written with bwrite() is on the disk,
    and is what the next bread() of the block returns after brelse(). *)
Theorem bwrite_bread_roundtrip s h P i n x y :
  calm [] s -> cache_ok s h P -> h !! i = Some (n, x) -> P !! n = None -> blk_ok y ->
  (forall j z, j <> i -> h !! j <> Some (n, z)) -> (size h + size P <= 30)%nat ->
  wp (upd_buf i (upd_b_data (fun _ => y));; bwrite i;; brelse i;; bread 1 n) (fun j s' =>
    b_data <$> bc_buf (k_bcache s') !! j = Some y /\ dget (k_disk s') n = y /\
    forall m, m <> n -> dget (k_disk s') m = dget (k_disk s) m) s.
Proof.
  intros Hc Hok Hi HP Hy Hun Hroom. apply wp_bind. eapply (wp_store cache_ok); try done.
  intros s1 Hc1 Hok1 Hs1. apply wp_bind. eapply (wp_bwrite cache_ok); [done|done|by rewrite lookup_insert_eq|].
  intros s2 Hc2 Hok2 Hs2. apply wp_bind.
  assert (Ed : k_disk s2 = dput n y (k_disk s)).
  { destruct Hs2 as (_ & _ & _ & ->). by destruct Hs1 as (_ & _ & -> & _). }
  eapply (wp_brelse cache_ok); [done|done|by rewrite lookup_insert_eq| |].
  { unfold content. rewrite HP, Ed. cbn [default from_option id]. by rewrite dget_dput, decide_True. }
  intros s3 Hc3 Hok3 Hs3. rewrite delete_insert_eq in Hok3.
  assert (Hsz : (size (delete i h) < size h)%nat).
  { rewrite map_size_delete, Hi. assert (size h <> 0%nat); [|lia]. rewrite map_size_non_empty_iff. intros ->. done. }
  eapply (wp_bread cache_ok); [done|done| |right; lia|].
  { intros j z. rewrite lookup_delete. case_decide; [done|]. by apply Hun. }
  intros j s4 Hc4 _ Hok4 Hs4. assert (Ed4 : k_disk s4 = dput n y (k_disk s)).
  { destruct Hs4 as (_ & _ & -> & _). by destruct Hs3 as (_ & _ & -> & _). }
  assert (Ec : content (k_disk s3) P n = y).
  { destruct Hs3 as (_ & _ & -> & _). unfold content. rewrite HP, Ed. cbn [default from_option id].
    by rewrite dget_dput, decide_True. }
  rewrite Ec in Hok4. rewrite Ed4. split_and!.
  - by apply (bc_data s4 _ P j n) with (1 := Hok4); rewrite lookup_insert_eq.
  - by rewrite dget_dput, decide_True.
  - intros m Hm. by rewrite dget_dput, decide_False.
Qed.

(** binit() on the zeroed buffers links all of them into the ring and leaves
    a cache with nothing locked or pinned. *)
Theorem binit_correct s :
  length (bc_buf (k_bcache s)) = 30%nat -> Forall empty_buf (bc_buf (k_bcache s)) -> disk_ok (k_disk s) ->
  wp binit (fun _ s' => cache_ok s' ∅ ∅ /\ ring (k_bcache s') (reverse (seq 0 30))) s.
Proof. apply binit_spec. Qed.

(** ** Witnesses *)

(** Buffers in a ring in index order; [f] changes the first. *)
Definition example_bufs (f : buf -> buf) : list buf :=
  alter f 0%nat ((fun i => mkBuf false false 0 0 zero_sleeplock 0 (if (i =? 0)%nat then 30%nat else (i - 1)%nat) (i + 1)%nat
    (replicate 1024 0)) <$> seq 0 30).

(** A process runs, with cache [bs], log [lg] and disk [d]. *)
Definition example_fs (bs : list buf) (lg : logst) (d : diskst) : kstate :=
  upd_k_bcache (fun _ => mkBcache bs 29 0) (upd_k_log (fun _ => lg) (upd_k_disk (fun _ => d)
    (upd_k_cpu (upd_c_proc (fun _ => Some 0%nat)) (boot_state 0 ∅ ∅)))).

Definition example_disk : diskst := mkDisk ∅ [].

Definition example_log : logst := mkLog 2 30 0 false 1 0 (replicate 30 0).

Lemma example_calm bs lg d : calm [] (example_fs bs lg d).
Proof. split; [by split|done|done|]. exists 0%nat. split; [done|lia]. Qed.

Lemma example_ring f lg d :
  (forall b, b_next (f b) = b_next b /\ b_prev (f b) = b_prev b) ->
  ring (k_bcache (example_fs (example_bufs f) lg d)) (seq 0 30).
Proof.
  intros Hf. apply (ring_alter (mkBcache (example_bufs (fun b => b)) 29 0)); [done|].
  split; [done|done| |]; vm_compute; repeat split.
Qed.

Lemma blk_zero v : byte_ok v -> blk_ok (replicate 1024 v).
Proof. intros Hv. split; [by rewrite length_replicate|]. by apply Forall_replicate. Qed.

Lemma example_disk_ok : disk_ok example_disk.
Proof. intros b. unfold dget. cbn [d_init d_hist example_disk]. rewrite lookup_empty. by apply blk_zero. Qed.

Lemma example_bufs_empty : Forall empty_buf (example_bufs (fun b => b)).
Proof.
  apply Forall_alter; [|done]. apply Forall_fmap, Forall_forall. by intros i _.
Qed.

Definition example_idle : kstate := example_fs (example_bufs (fun b => b)) example_log example_disk.

Lemma example_cache_ok : cache_ok example_idle ∅ ∅.
Proof.
  split; [eexists; by apply example_ring|]. apply empty_bufs_ok; [apply example_disk_ok|apply example_bufs_empty].
Qed.

Lemma bget_correct_witness :
  wp (bget 1 33) (fun r s' => r = 29%nat /\ s' ≡ on_buf 29 (fun b => upd_b_lock (fun _ => mkSleeplock true 0)
    (recycle 1 33 b)) example_idle) example_idle.
Proof.
  apply (bget_correct example_idle (seq 0 30) 33 (example_calm _ _ _) (example_ring _ _ _ (fun b => conj eq_refl eq_refl))
    (mkBuf false false 0 0 zero_sleeplock 0 28 30 (replicate 1024 0))); reflexivity.
Defined.

Lemma bread_correct_witness :
  wp (bread 1 33) (fun i s' => b_data <$> bc_buf (k_bcache s') !! i = Some (replicate 1024 0)) example_idle.
Proof.
  eapply wp_mono.
  - apply (bread_correct example_idle ∅ ∅ 33); [apply example_calm|exact example_cache_ok|done|].
    rewrite !map_size_empty. lia.
  - cbn beta. by intros i s' (_ & _ & -> & _).
Defined.

(** Buffer 0 locked, holding block 33. *)
Definition example_locked : kstate :=
  example_fs (example_bufs (fun b => upd_b_valid (fun _ => true) (upd_b_lock (fun _ => mkSleeplock true 0)
    (recycle 1 33 b)))) example_log example_disk.

Lemma example_locked_ok : cache_ok example_locked {[0%nat := (33, replicate 1024 0)]} ∅.
Proof.
  split; [eexists; by apply example_ring|].
  set (f := fun b => upd_b_valid (fun _ => true) (upd_b_lock (fun _ => mkSleeplock true 0) (recycle 1 33 b))).
  change (bc_buf (k_bcache example_locked)) with (alter f 0%nat (example_bufs (fun b => b))).
  pose proof (empty_bufs_ok _ 0 _ example_disk_ok example_bufs_empty) as He.
  assert (Hz : replicate 1024 0 = content example_disk ∅ 33) by (unfold content, dget; by rewrite !lookup_empty).
  rewrite Hz. eapply (hold_ok example_disk 0 ∅ ∅ (example_bufs (fun b => b)) 33 0 (recycle 1 33)
    (mkBuf false false 0 0 zero_sleeplock 0 30 1 (replicate 1024 0)) f); [exact He|done| |].
  2: { rewrite <- Hz. done. }
  eapply picked_recycled; [exact He|done|done|]. intros j c Hc Hd.
  pose proof example_bufs_empty as Hf. rewrite Forall_lookup in Hf. destruct (Hf _ _ Hc) as (E & _). congruence.
Qed.

Lemma bwrite_bread_roundtrip_witness :
  wp (upd_buf 0 (upd_b_data (fun _ => replicate 1024 7));; bwrite 0;; brelse 0;; bread 1 33) (fun j s' =>
    b_data <$> bc_buf (k_bcache s') !! j = Some (replicate 1024 7) /\ dget (k_disk s') 33 = replicate 1024 7) example_locked.
Proof.
  eapply wp_mono.
  - eapply (bwrite_bread_roundtrip example_locked {[0%nat := (33, replicate 1024 0)]} ∅ 0 33 _ (replicate 1024 7));
      [apply example_calm|exact example_locked_ok|apply lookup_singleton_eq|done|by apply blk_zero| |].
    + intros j z Hj. by rewrite lookup_singleton_ne.
    + rewrite map_size_singleton, map_size_empty. lia.
  - cbn beta. by intros j s' (? & ? & _).
Defined.

Lemma binit_correct_witness :
  wp binit (fun _ s' => cache_ok s' ∅ ∅ /\ ring (k_bcache s') (reverse (seq 0 30))) (boot_state 0 ∅ ∅).
Proof.
  apply (binit_correct (boot_state 0 ∅ ∅)); [done| |apply example_disk_ok].
  apply Forall_replicate. done.
Defined.
