(* ===== verification/Crash.v ===== *)
(** * Crash safety of the log (kernel/log.c)

    A crash stops the kernel after some of the disk writes of a run; what was
    written stays.  The file shows that a crash at any point of commit(), followed
    by any number of crashes during recovery, leaves a disk from which recovery
    restores all of the transaction or none of it. *)

From Stdlib Require Import ZArith Lia.
From stdpp Require Import base tactics numbers gmap strings option list.
From S2P Require Import Prelude Bytes Kernel Spinlock Sched Bio Bcache Log LogSpec BcacheProps.

(** ** Specification *)

(** [d] is what a crash of [m], run from [s], leaves on the disk. *)
Definition crashes {A} (m : K A) (s : kstate) (d : diskst) : Prop :=
  exists a s' k, m s = Ok a s' /\ (length (d_hist (k_disk s)) <= k)%nat /\
    d = upd_d_hist (take k) (k_disk s').

(** The kernel came up on disk [d]: initlog() has set the log's place and the
    buffer cache is empty of locked and pinned blocks. *)
Record booted (st : Z) (d : diskst) (s : kstate) : Prop := {
  bt_calm : calm [] s;
  bt_cache : cache_ok s ∅ ∅;
  bt_disk : k_disk s = d;
  bt_dev : l_dev (k_log s) = 1;
  bt_start : l_start (k_log s) = st;
  bt_arr : length (l_block (k_log s)) = 30%nat;
}.

(** Disks reached from [d] by reboots that crash during recovery. *)
Inductive reboots (st : Z) (d : diskst) : diskst -> Prop :=
| reboots_none : reboots st d d
| reboots_crash d' d'' s :
    reboots st d d' -> booted st d' s -> crashes recover_from_log s d'' -> reboots st d d''.

(** The contents that disk [d] stands for: the log applied to the home blocks. *)
Definition log_abs (st : Z) (d : diskst) (b : Z) : list Z :=
  dget (disk_writes (inst_writes d st (hdr_blocks (dget d st))) d) b.

(** The log on disk [d] can be recovered. *)
Definition log_valid (st : Z) (d : diskst) : Prop :=
  0 <= hdr_n (dget d st) <= 29 /\
  forall b, b ∈ hdr_blocks (dget d st) -> 0 <= b < 2 ^ 31 /\ off_log st b.

Definition recovery_writes (st : Z) (d : diskst) : list (Z * list Z) :=
  inst_writes d st (hdr_blocks (dget d st)) ++ [(st, put_le 4 0 0 (dget d st))].

(** ** Lemmas *)

Lemma hdr_blocks_nil x : hdr_n x = 0 -> hdr_blocks x = [].
Proof. intros E. unfold hdr_blocks. by rewrite E. Qed.

Lemma hdr_n_clear x : blk_ok x -> hdr_n (put_le 4 0 0 x) = 0.
Proof. intros Hx. unfold hdr_n. rewrite get_put_le by (rewrite (proj1 Hx); lia). reflexivity. Qed.

Lemma hdr_blocks_enc bl x :
  (length bl <= 29)%nat -> blk_ok x -> (forall b, b ∈ bl -> 0 <= b < 2 ^ 31) -> hdr_blocks (hdr_enc bl x) = bl.
Proof.
  intros Hl Hx Hb. unfold hdr_blocks. rewrite hdr_n_enc, Nat2Z.id by done. apply list_eq. intros i.
  rewrite list_lookup_fmap. destruct (bl !! i) as [b|] eqn:Hi.
  - rewrite lookup_seq_lt by (by eapply lookup_lt_Some). cbn [fmap option_fmap option_map].
    rewrite (hdr_block_enc _ _ _ b) by done. 
    apply list_elem_of_lookup_2, Hb in Hi. by rewrite s32_small by lia.
  - rewrite lookup_seq_ge; [done|]. by apply lookup_ge_None.
Qed.

Lemma log_abs_empty st d b : hdr_n (dget d st) = 0 -> log_abs st d b = dget d b.
Proof. intros E. unfold log_abs. rewrite hdr_blocks_nil by done. apply (f_equal (fun d => dget d b)), disk_writes_nil. Qed.

Lemma log_valid_empty st d : hdr_n (dget d st) = 0 -> log_valid st d.
Proof.
  intros E. split; [lia|]. rewrite hdr_blocks_nil by done. intros b Hb. by apply not_elem_of_nil in Hb.
Qed.

(** A write of block [b] hides what was there. *)
Lemma dget_writes_base ws d d' b : b ∈ ws.*1 -> dget (disk_writes ws d) b = dget (disk_writes ws d') b.
Proof.
  rewrite !dget_foldl. generalize (dget d b), (dget d' b). induction ws as [|[n y] ws IH] using rev_ind; intros z z' Hin.
  { by apply not_elem_of_nil in Hin. }
  rewrite !foldl_app. cbn. destruct (Z.eqb_spec n b) as [->|Hne]; [done|].
  apply IH. rewrite fmap_app in Hin. set_solver.
Qed.

Lemma dget_writes_twice ws k d b : dget (disk_writes ws (disk_writes (take k ws) d)) b = dget (disk_writes ws d) b.
Proof.
  destruct (decide (b ∈ ws.*1)) as [Hin|Hni]; [by apply dget_writes_base|].
  rewrite !dget_writes_other; try done. intros H. apply Hni.
  apply list_elem_of_fmap in H as (w & -> & Hw). apply list_elem_of_fmap. exists w. split; [done|].
  rewrite <- (take_drop k ws). apply elem_of_app. by left.
Qed.

Lemma inst_writes_keys d st bl : (inst_writes d st bl).*1 = bl.
Proof.
  unfold inst_writes. apply list_eq. intros i. rewrite list_lookup_fmap, list_lookup_imap.
  by destruct (bl !! i).
Qed.

Lemma take_app_cases {A} k (l1 l2 : list A) :
  take k (l1 ++ l2) = take k l1 \/ exists j, take k (l1 ++ l2) = l1 ++ take j l2.
Proof.
  destruct (decide (k <= length l1)%nat); [left; by apply take_app_le|right].
  exists (k - length l1)%nat. rewrite take_app. by rewrite (take_ge l1) by lia.
Qed.

Lemma take_one {A} j (x : A) : take j [x] = [] \/ take j [x] = [x].
Proof. destruct j as [|j]; [by left|right]. cbn. by destruct j. Qed.

(** Recovery cut after any number of its writes. *)
Lemma recovery_prefix st d k :
  log_valid st d -> disk_ok d -> let d' := disk_writes (take k (recovery_writes st d)) d in
  log_valid st d' /\ forall b, off_log st b -> log_abs st d' b = log_abs st d b.
Proof.
  intros [Hn Hb] Hd. cbv zeta. unfold recovery_writes. set (x := dget d st) in *. set (bl := hdr_blocks x) in *.
  assert (Hoff : forall b, b ∈ bl -> off_log st b) by naive_solver.
  assert (Hlen : (length bl <= 29)%nat) by (unfold bl, hdr_blocks; rewrite length_fmap, length_seq; lia).
  assert (Hpre : forall j, log_valid st (disk_writes (take j (inst_writes d st bl)) d) /\
    forall b, off_log st b -> log_abs st (disk_writes (take j (inst_writes d st bl)) d) b = log_abs st d b).
  { intros j. set (d' := disk_writes _ d).
    assert (Ex : dget d' st = x).
    { pose proof (off_log_writes d st bl j 0 Hoff ltac:(lia)) as E. by rewrite Z.add_0_r in E. }
    unfold log_valid, log_abs. rewrite Ex. split; [done|]. intros b _. fold x bl.
    replace (inst_writes d' st bl) with (inst_writes d st bl); [apply dget_writes_twice|].
    apply list_eq. intros i. unfold inst_writes at 1 2. rewrite !list_lookup_imap.
    destruct (bl !! i) as [c|] eqn:Hi; [|done]. cbn [fmap option_fmap option_map]. do 2 f_equal.
    apply lookup_lt_Some in Hi.
    replace (st + Z.of_nat i + 1) with (st + Z.of_nat (S i)) by lia. symmetry. apply off_log_writes; [done|lia]. }
  destruct (take_app_cases k (inst_writes d st bl) [(st, put_le 4 0 0 x)]) as [->|[j ->]]; [apply Hpre|].
  destruct (take_one j (st, put_le 4 0 0 x)) as [->| ->].
  { rewrite app_nil_r, <- (firstn_all (inst_writes d st bl)). apply Hpre. }
  rewrite <- disk_writes_app, <- disk_writes_one.
  assert (E0 : hdr_n (dget (dput st (put_le 4 0 0 x) (disk_writes (inst_writes d st bl) d)) st) = 0).
  { rewrite dget_dput, decide_True by done. apply hdr_n_clear, Hd. }
  split; [by apply log_valid_empty|]. intros b Hob. rewrite log_abs_empty by done.
  rewrite dget_dput, decide_False; [done|]. intros <-. unfold off_log in Hob. lia.
Qed.

(** Complete recovery leaves the home blocks with the contents that the disk
    stood for. *)
Lemma recovery_done st d b :
  off_log st b -> dget (disk_writes (recovery_writes st d) d) b = log_abs st d b.
Proof.
  intros Hob. unfold recovery_writes. rewrite <- disk_writes_app, <- disk_writes_one.
  rewrite dget_dput, decide_False; [done|]. intros <-. unfold off_log in Hob. lia.
Qed.

(** The home blocks after the transaction [bl] has been installed. *)
Lemma installed P bl d b :
  (forall n, is_Some (P !! n) <-> n ∈ bl) ->
  dget (disk_writes ((fun b => (b, default [] (P !! b))) <$> bl) d) b = content d P b.
Proof.
  intros HP. unfold content. destruct (P !! b) as [x|] eqn:Hb.
  - apply dget_writes_in.
    + rewrite <- list_fmap_compose. apply list_elem_of_fmap. exists b. split; [done|]. apply HP. eauto.
    + intros y (c & [= -> ->] & _)%list_elem_of_fmap. by rewrite Hb.
  - apply dget_writes_other. rewrite <- list_fmap_compose. intros (c & -> & Hc)%list_elem_of_fmap.
    apply HP in Hc. cbn in Hb. rewrite Hb in Hc. by destruct Hc.
Qed.

(** The disk after the header of the transaction [bl] has been written and [j]
    of its blocks installed. *)
Lemma committed_prefix st P bl d j :
  (length bl <= 29)%nat -> disk_ok d -> (forall b, b ∈ bl -> 0 <= b < 2 ^ 31) ->
  (forall n, is_Some (P !! n) <-> n ∈ bl) -> (forall n, n ∈ bl -> off_log st n) ->
  let IW := (fun b => (b, default [] (P !! b))) <$> bl in
  let d' := disk_writes ((log_writes st P bl ++ [(st, hdr_enc bl (dget d st))]) ++ take j IW) d in
  log_valid st d' /\ forall b, off_log st b -> log_abs st d' b = content d P b.
Proof.
  intros Hlen Hd Hrng HP Hoff IW d'. set (h1 := hdr_enc bl (dget d st)) in *.
  set (d1 := disk_writes (log_writes st P bl ++ [(st, h1)]) d).
  assert (Ed' : d' = disk_writes (take j (inst_writes d1 st bl)) d1).
  { unfold d', d1. rewrite inst_writes_eq. by rewrite disk_writes_app. }
  assert (Eh1 : dget d1 st = h1).
  { unfold d1. rewrite <- disk_writes_app, <- disk_writes_one, dget_dput, decide_True; done. }
  assert (Eh : dget d' st = h1).
  { rewrite Ed'. pose proof (off_log_writes d1 st bl j 0 Hoff ltac:(lia)) as E. rewrite Z.add_0_r in E. by rewrite E. }
  assert (Hbl : hdr_blocks h1 = bl) by (by apply hdr_blocks_enc).
  assert (Hn1 : hdr_n h1 = Z.of_nat (length bl)) by (by apply hdr_n_enc).
  unfold log_valid, log_abs. rewrite Eh, Hbl, Hn1. split; [split; [lia|naive_solver]|].
  intros b Hob.
  assert (Ei : inst_writes d' st bl = inst_writes d1 st bl).
  { rewrite Ed'. apply list_eq. intros i. unfold inst_writes at 1 3. rewrite !list_lookup_imap.
    destruct (bl !! i) as [c|] eqn:Hi; [|done]. cbn [fmap option_fmap option_map]. do 2 f_equal.
    apply lookup_lt_Some in Hi.
    replace (st + Z.of_nat i + 1) with (st + Z.of_nat (S i)) by lia. apply off_log_writes; [done|lia]. }
  rewrite Ei, Ed', dget_writes_twice. unfold d1 at 1. rewrite inst_writes_eq, installed by done.
  unfold content. destruct (P !! b); [done|]. cbn [default from_option id]. unfold d1.
  rewrite <- disk_writes_app, <- disk_writes_one, dget_dput, decide_False; [|intros <-; unfold off_log in Hob; lia].
  apply log_writes_off. unfold off_log in Hob. lia.
Qed.

(** The disk while the log is being written, the header still empty. *)
Lemma logged_prefix st P bl d k :
  (length bl <= 29)%nat -> hdr_n (dget d st) = 0 -> let d' := disk_writes (take k (log_writes st P bl)) d in
  log_valid st d' /\ forall b, off_log st b -> log_abs st d' b = dget d b.
Proof.
  intros Hlen H0 d'.
  assert (Hoth : forall b, b <= st \/ st + 29 < b -> dget d' b = dget d b).
  { intros b Hb. apply dget_writes_other. intros ([n x] & -> & Hin)%list_elem_of_fmap.
    assert (Hin' : (n, x) ∈ log_writes st P bl) by (rewrite <- (take_drop k (log_writes st P bl)); set_solver).
    apply elem_of_lookup_imap_1 in Hin' as (i & c & [= -> ->] & Hi). apply lookup_lt_Some in Hi. cbn in Hb. lia. }
  assert (E0 : hdr_n (dget d' st) = 0) by (rewrite Hoth; [done|by left; lia]).
  split; [by apply log_valid_empty|]. intros b Hob. rewrite log_abs_empty by done. apply Hoth.
  unfold off_log in Hob. lia.
Qed.

(** The disk after all of commit()'s writes. *)
Lemma commit_final st P bl d :
  (length bl <= 29)%nat -> disk_ok d ->
  (forall n, is_Some (P !! n) <-> n ∈ bl) -> let d' := disk_writes (commit_writes d st P bl) d in
  hdr_n (dget d' st) = 0 /\ forall b, off_log st b -> dget d' b = content d P b.
Proof.
  intros Hlen Hd HP. cbv zeta. unfold commit_writes. cbv zeta. set (h1 := hdr_enc bl (dget d st)).
  rewrite !app_assoc, <- disk_writes_app, <- disk_writes_one. split.
  - rewrite dget_dput, decide_True by done. by apply hdr_n_clear, hdr_enc_ok.
  - intros b Hob. rewrite dget_dput, decide_False; [|intros <-; unfold off_log in Hob; lia].
    rewrite <- disk_writes_app, installed by done. unfold content.
    destruct (P !! b); [done|]. cbn [default from_option id].
    rewrite <- disk_writes_app, <- disk_writes_one, dget_dput, decide_False; [|intros <-; unfold off_log in Hob; lia].
    apply log_writes_off. unfold off_log in Hob. lia.
Qed.

(** commit() cut after any number of its writes. *)
Lemma commit_prefix st P bl d k :
  (length bl <= 29)%nat -> disk_ok d -> (forall b, b ∈ bl -> 0 <= b < 2 ^ 31) ->
  (forall n, is_Some (P !! n) <-> n ∈ bl) -> (forall n, n ∈ bl -> off_log st n) ->
  hdr_n (dget d st) = 0 -> let d' := disk_writes (take k (commit_writes d st P bl)) d in
  log_valid st d' /\ ((forall b, off_log st b -> log_abs st d' b = dget d b) \/
                      (forall b, off_log st b -> log_abs st d' b = content d P b)).
Proof.
  intros Hlen Hd Hrng HP Hoff H0. cbv zeta. unfold commit_writes. cbv zeta. set (h1 := hdr_enc bl (dget d st)) in *.
  set (IW := (fun b => (b, default [] (P !! b))) <$> bl).
  assert (Hcom : forall j, log_valid st (disk_writes ((log_writes st P bl ++ [(st, h1)]) ++ take j IW) d) /\
    forall b, off_log st b -> log_abs st (disk_writes ((log_writes st P bl ++ [(st, h1)]) ++ take j IW) d) b = content d P b).
  { intros j. by apply committed_prefix. }
  destruct (take_app_cases k (log_writes st P bl) ([(st, h1)] ++ IW ++ [(st, put_le 4 0 0 h1)])) as [->|[j ->]].
  { destruct (logged_prefix st P bl d k) as [? ?]; auto. }
  destruct j as [|j].
  { rewrite app_nil_r, <- (firstn_all (log_writes st P bl)).
    destruct (logged_prefix st P bl d (length (log_writes st P bl))) as [? ?]; auto. }
  cbn [take app]. rewrite cons_middle, app_assoc.
  destruct (take_app_cases j IW [(st, put_le 4 0 0 h1)]) as [->|[i ->]].
  { destruct (Hcom j) as [? ?]. auto. }
  destruct (take_one i (st, put_le 4 0 0 h1)) as [->| ->].
  { rewrite app_nil_r, <- (firstn_all IW). destruct (Hcom (length IW)) as [? ?]. auto. }
  destruct (commit_final st P bl d Hlen Hd HP) as [E0 Hf]. unfold commit_writes in E0, Hf. cbv zeta in E0, Hf.
  fold h1 IW in E0, Hf. rewrite !app_assoc in E0, Hf. rewrite app_assoc.
  split; [by apply log_valid_empty|]. right. intros b Hob. rewrite log_abs_empty by done. by apply Hf.
Qed.

(** What a crash leaves, in terms of the writes of the run. *)
Lemma crashes_writes {A} (m : K A) s d ws :
  crashes m s d -> wp m (fun _ s' => k_disk s' = disk_writes ws (k_disk s)) s ->
  exists k, d = disk_writes (take k ws) (k_disk s).
Proof.
  intros (a & s' & k & Hm & Hk & ->) Hwp. unfold wp in Hwp. rewrite Hm in Hwp. rewrite Hwp.
  exists (k - length (d_hist (k_disk s)))%nat. unfold disk_writes, upd_d_hist. cbn.
  by rewrite take_app, take_ge.
Qed.

Lemma booted_recover st d s :
  0 <= st < 2 ^ 30 -> booted st d s -> log_valid st d ->
  wp recover_from_log (fun _ s' => k_disk s' = disk_writes (recovery_writes st d) (k_disk s)) s.
Proof.
  intros Hst Hb [Hn Hv]. rewrite <- (bt_disk _ _ _ Hb) in *. eapply wp_mono.
  { apply (recover_spec cache_ok s st); try done; apply Hb. }
  cbn beta. by intros _ s' (_ & _ & _ & _ & _ & -> & _).
Qed.

(** Crashes during recovery do not change what the disk stands for. *)
Lemma reboots_abs st d d' :
  0 <= st < 2 ^ 30 -> log_valid st d -> reboots st d d' ->
  log_valid st d' /\ forall b, off_log st b -> log_abs st d' b = log_abs st d b.
Proof.
  intros Hst Hv. induction 1 as [|d' d'' s _ [Hv' IH] Hb Hc]; [done|].
  destruct (crashes_writes _ _ _ _ Hc (booted_recover _ _ _ Hst Hb Hv')) as [k ->].
  rewrite (bt_disk _ _ _ Hb). destruct (recovery_prefix st d' k) as [H1 H2]; [done| |].
  { rewrite <- (bt_disk _ _ _ Hb). apply (bt_cache _ _ _ Hb). }
  split; [done|]. intros b Hob. rewrite H2 by done. by apply IH.
Qed.

(** A transaction that is ready to commit: [bl] are its blocks, [P] their new
    contents, pinned in the cache, and the log on disk is empty. *)
Record in_trans (s : kstate) (st : Z) (bl : list Z) (P : gmap Z (list Z)) : Prop := {
  it_calm : calm [] s;
  it_cache : cache_ok s ∅ P;
  it_log : log_at (k_log s) st bl;
  it_nodup : NoDup bl;
  it_pinned n : is_Some (P !! n) <-> n ∈ bl;
  it_off n : n ∈ bl -> off_log st n;
  it_size : (size P < 30)%nat;
  it_empty : hdr_n (dget (k_disk s) st) = 0;
}.

Lemma commit_run s st bl P :
  in_trans s st bl P ->
  wp commit (fun _ s' => k_disk s' = disk_writes (txn_writes (k_disk s) st P bl) (k_disk s)) s.
Proof.
  intros []. eapply wp_mono; [by apply (commit_any cache_ok s st P bl)|].
  cbn beta. by intros _ s' (_ & _ & _ & _ & _ & -> & _).
Qed.

(** A crash among the writes of a transaction's commit leaves a disk that stands for
    the contents before or after it. *)
Lemma trans_prefix s st bl P k :
  in_trans s st bl P -> let d := disk_writes (take k (txn_writes (k_disk s) st P bl)) (k_disk s) in
  log_valid st d /\ ((forall b, off_log st b -> log_abs st d b = dget (k_disk s) b) \/
                     (forall b, off_log st b -> log_abs st d b = content (k_disk s) P b)).
Proof.
  intros Ht. cbv zeta. unfold txn_writes. destruct Ht. case_decide.
  - rewrite take_nil, disk_writes_nil. split; [by apply log_valid_empty|].
    left. intros b _. by apply log_abs_empty.
  - apply commit_prefix; try done; [by eapply la_len|apply it_cache0|by apply (la_rng _ _ _ it_log0)].
Qed.

(** What recovery makes of a disk after crashes. *)
Lemma recovered st d d' sb :
  0 <= st < 2 ^ 30 -> log_valid st d -> reboots st d d' -> booted st d' sb ->
  wp recover_from_log (fun _ sr => forall b, off_log st b -> dget (k_disk sr) b = log_abs st d b) sb.
Proof.
  intros Hst Hv Hre Hb. destruct (reboots_abs _ _ _ Hst Hv Hre) as [Hv' Habs'].
  eapply wp_mono; [by apply booted_recover|]. cbn beta. intros _ sr ->. rewrite (bt_disk _ _ _ Hb).
  intros b Hob. by rewrite recovery_done, Habs'.
Qed.

(** No file-system operation is running and the log is empty. *)
Record quiet (s : kstate) (st : Z) : Prop := {
  qt_calm : calm [] s;
  qt_cache : cache_ok s ∅ ∅;
  qt_log : log_at (k_log s) st [];
  qt_empty : hdr_n (dget (k_disk s) st) = 0;
  qt_size : l_size (k_log s) = 30;
  qt_out : l_outstanding (k_log s) = 0;
  qt_com : l_committing (k_log s) = false;
}.

(** The use of the log that the comment on log_write() shows. *)
Definition update_block (n : Z) (f : list Z -> list Z) : K unit :=
  begin_op;;
  bp ← bread 1 n;
  upd_buf bp (upd_b_data f);;
  log_write bp;;
  brelse bp;;
  end_op.

Lemma quiet_begin s st s' :
  quiet s st -> s' ≡ upd_k_log (upd_l_outstanding (fun n => n + 1)) s ->
  calm [] s' /\ cache_ok s' ∅ ∅ /\ log_at (k_log s') st [] /\ k_disk s' = k_disk s /\
  l_outstanding (k_log s') = 1 /\ l_committing (k_log s') = false /\ l_size (k_log s') = 30.
Proof.
  intros [] E. split; [eapply calm_keq; [exact E|by apply calm_upd_log]|]. split.
  { unfold cache_ok. rewrite (keq_k_bcache _ _ E), (keq_k_disk _ _ E), (mypid_keq _ _ E). exact qt_cache0. }
  rewrite (keq_k_log _ _ E), (keq_k_disk _ _ E). cbn. rewrite qt_out0, qt_com0, qt_size0. split; [by destruct qt_log0|done].
Qed.

(** ** Properties *)

(** C1: a crash at any point of commit(), followed by any number of reboots that
    crash during recovery, leaves a disk from which recovery returns normally with
    every home block as it was before the transaction, or every home block with
    the transaction's contents. *)
Theorem commit_crash_safe s st bl P d d' sb :
  in_trans s st bl P -> crashes commit s d -> reboots st d d' -> booted st d' sb ->
  wp recover_from_log (fun _ sr =>
    (forall b, off_log st b -> dget (k_disk sr) b = dget (k_disk s) b) \/
    (forall b, off_log st b -> dget (k_disk sr) b = content (k_disk s) P b)) sb.
Proof.
  intros Ht Hcr Hre Hb. pose proof (la_st _ _ _ (it_log _ _ _ _ Ht)) as Hst.
  destruct (crashes_writes _ _ _ _ Hcr (commit_run _ _ _ _ Ht)) as [k ->].
  destruct (trans_prefix _ _ _ _ k Ht) as [Hv Habs].
  eapply wp_mono; [exact (recovered st _ d' sb Hst Hv Hre Hb)|]. cbn beta. intros _ sr Hr.
  destruct Habs as [Habs|Habs]; [left|right]; intros b Hob; by rewrite Hr, Habs.
Qed.

(** commit() returns normally, after which every home block on the disk has
    the transaction's contents, the log on disk is empty, no block is pinned and
    the in-memory header is empty. *)
Theorem commit_installs s st bl P :
  in_trans s st bl P ->
  wp commit (fun _ s' => cache_ok s' ∅ ∅ /\ log_at (k_log s') st [] /\ hdr_n (dget (k_disk s') st) = 0 /\
    forall b, off_log st b -> dget (k_disk s') b = content (k_disk s) P b) s.
Proof.
  intros Ht. destruct Ht. destruct (decide (bl = [])) as [->|Hne].
  { unfold commit. wp_steps. rewrite (la_n _ _ _ it_log0). cbn. wp_steps.
    assert (P = ∅) as ->.
    { apply map_eq. intros n. rewrite lookup_empty. apply eq_None_not_Some. rewrite it_pinned0. apply not_elem_of_nil. }
    done. }
  eapply wp_mono; [by apply (commit_spec cache_ok s st P bl)|]. cbn beta.
  intros _ s' (Hc & Hok & Hla & Hs). split; [done|]. split; [done|].
  assert (Ed : k_disk s' = disk_writes (commit_writes (k_disk s) st P bl) (k_disk s)) by apply Hs. rewrite Ed.
  apply commit_final; [by eapply la_len|apply it_cache0|done].
Qed.


(** ** Witnesses *)

(** Block 40 is in the running transaction, with new contents in buffer 0. *)
Definition example_pins : gmap Z (list Z) := {[40 := replicate 1024 7]}.

Definition example_txn : kstate :=
  example_fs (example_bufs (fun b => upd_b_data (fun _ => replicate 1024 7) (upd_b_valid (fun _ => true) (recycle 1 40 b))))
    (mkLog 2 30 0 true 1 1 (40 :: replicate 29 0)) example_disk.

Lemma example_pins_ok : bufs_ok example_disk 0 ∅ example_pins
  (alter (fun b => upd_b_data (fun _ => replicate 1024 7) (upd_b_valid (fun _ => true) (recycle 1 40 b))) 0%nat
    (example_bufs (fun b => b))).
Proof.
  pose proof (empty_bufs_ok example_disk 0 _ example_disk_ok example_bufs_empty) as He.
  eapply (bufs_ok_alter example_disk 0 ∅ ∅); [exact He|reflexivity|done|..].
  - split.
    + by right.
    + done.
    + unfold example_pins. cbn [b_dev b_blockno b_refcnt upd_b_data upd_b_valid recycle upd_b_refcnt upd_b_blockno upd_b_dev].
      rewrite lookup_empty, lookup_singleton_eq, decide_False, decide_True; [done|done|by intros []].
    + intros n x H. by rewrite lookup_empty in H.
    + intros _. split; [done|]. intros _. unfold content, example_pins. by rewrite lookup_singleton_eq.
  - intros j c Hj Hc _. pose proof example_bufs_empty as Hf. rewrite Forall_lookup in Hf.
    destruct (Hf _ _ Hc) as (E1 & E2 & E3 & E4). split; try done; [by left|rewrite E1, E3|].
    + rewrite lookup_empty, !decide_False; [done|by intros [? _]|by intros []].
    + intros _. split; [done|congruence].
  - intros j c Hj Hc Hd. pose proof example_bufs_empty as Hf. rewrite Forall_lookup in Hf.
    destruct (Hf _ _ Hc) as (E1 & _). congruence.
  - intros n H. unfold example_pins in H. apply lookup_singleton_is_Some in H as <-. by right.
  - done.
  - intros [_ H]. done.
  - intros j [? H]. by rewrite lookup_empty in H.
  - apply example_disk_ok.
  - intros j n x H. by rewrite lookup_empty in H.
  - intros n x H. unfold example_pins in H. apply lookup_singleton_Some in H as [<- <-]. by apply blk_zero.
Qed.

Lemma example_in_trans : in_trans example_txn 2 [40] example_pins.
Proof.
  split.
  - apply example_calm.
  - split; [eexists; by apply example_ring|exact example_pins_ok].
  - split; try done; [cbn; lia|]. intros b ->%list_elem_of_singleton. lia.
  - apply NoDup_singleton.
  - intros n. unfold example_pins. by rewrite lookup_singleton_is_Some, list_elem_of_singleton.
  - intros n ->%list_elem_of_singleton. right. lia.
  - unfold example_pins. rewrite map_size_singleton. lia.
  - by vm_compute.
Qed.

(** The power fails after the third write of commit(). *)
Definition example_crash : diskst := disk_writes (take 3 (commit_writes example_disk 2 example_pins [40])) example_disk.

Lemma example_crashes : crashes commit example_txn example_crash.
Proof.
  destruct (wp_inv _ _ _ (commit_run _ _ _ _ example_in_trans)) as ([] & s' & Hm & Hd).
  exists tt, s', 3%nat. split; [exact Hm|]. split; [cbn; lia|]. rewrite Hd. done.
Qed.

Lemma example_booted d : disk_ok d -> booted 2 d (example_fs (example_bufs (fun b => b)) example_log d).
Proof.
  intros Hd. split; try done; [apply example_calm|]. split; [eexists; by apply example_ring|].
  apply empty_bufs_ok; [done|apply example_bufs_empty].
Qed.

Lemma disk_writes_ok ws d : disk_ok d -> Forall (fun w => blk_ok w.2) ws -> disk_ok (disk_writes ws d).
Proof.
  intros Hd Hws b. rewrite dget_foldl. assert (H0 : blk_ok (dget d b)) by apply Hd. revert H0. generalize (dget d b).
  induction Hws as [|w ws Hw _ IH]; intros x Hx; [done|]. cbn. apply IH. by destruct (w.1 =? b).
Qed.

Lemma example_crash_ok : disk_ok example_crash.
Proof.
  assert (H7 : blk_ok (replicate 1024 7)) by (by apply blk_zero).
  assert (Hh : blk_ok (hdr_enc [40] (dget example_disk 2))) by (apply hdr_enc_ok; [cbn; lia|apply example_disk_ok]).
  apply disk_writes_ok; [apply example_disk_ok|]. apply Forall_take. unfold commit_writes, log_writes, example_pins.
  cbn [imap fmap list_fmap]. rewrite lookup_singleton_eq. cbv zeta. rewrite !Forall_app, !Forall_singleton.
  split_and!; try exact H7; [exact Hh|]. by apply blk_put; [lia|].
Qed.

Lemma commit_crash_safe_witness :
  wp recover_from_log (fun _ sr =>
    (forall b, off_log 2 b -> dget (k_disk sr) b = dget example_disk b) \/
    (forall b, off_log 2 b -> dget (k_disk sr) b = content example_disk example_pins b))
    (example_fs (example_bufs (fun b => b)) example_log example_crash).
Proof.
  apply (commit_crash_safe example_txn 2 [40] example_pins example_crash example_crash);
    [exact example_in_trans|exact example_crashes|apply reboots_none|apply example_booted, example_crash_ok].
Defined.

Lemma commit_installs_witness :
  wp commit (fun _ s' => dget (k_disk s') 40 = replicate 1024 7) example_txn.
Proof.
  eapply wp_mono; [apply (commit_installs example_txn 2 [40] example_pins example_in_trans)|].
  cbn beta. intros _ s' (_ & _ & _ & H). rewrite H; [|right; lia]. unfold content, example_pins.
  by rewrite lookup_singleton_eq.
Defined.

Lemma example_quiet : quiet example_idle 2.
Proof.
  split; [apply example_calm|apply example_cache_ok| |by vm_compute|done|done|done].
  split; try done; [cbn; lia|]. intros b H. by apply not_elem_of_nil in H.
Qed.

