(* ===== verification/Fs.v ===== *)
(** * The file system (kernel/fs.c, fs.h, stat.h): definitions

    Blocks, inodes, directories and path names on top of the buffer cache and
    the log.  On-disk structures are byte layouts: [dinode] and [dirent] are
    encoded in the blocks as the compiler lays them out.  Inode pointers are
    indices of the in-memory table; a null pointer is [None].

    An operation that has to wait (for a sleep lock, or for room in the log)
    ends the run; the theorems are about runs that do not. *)

From Stdlib Require Import ZArith Lia.
From stdpp Require Import base tactics numbers gmap strings option list.
From S2P Require Import Prelude Bytes Kernel Spinlock Kstring Riscv Kalloc KallocInit Vm Sched.
From S2P Require Import Uart Printf Uio Bio Log.

(** ** On-disk structures *)

(** stat.h *)
Definition T_DIR : Z := 1.
Definition T_FILE : Z := 2.
Definition T_DEVICE : Z := 3.

(** struct dinode *)
Record dinode := mkDinode {
  di_type : Z;
  di_major : Z;
  di_minor : Z;
  di_nlink : Z;
  di_size : Z;
  di_addrs : list Z;
}.

(** Inodes per block, the block of inode [i], the bitmap block of block [b]. *)
Definition IPB : Z := 16.
Definition IBLOCK (i : Z) (sb : superblock) : Z := u32 (i / IPB + sb_inodestart sb).
Definition BPB : Z := 8192.
Definition BBLOCK (b : Z) (sb : superblock) : Z := u32 (b / BPB + sb_bmapstart sb).

(** Byte offset of inode [i] in its block; sizeof(struct dinode) is 64. *)
Definition dinode_off (i : Z) : nat := Z.to_nat (64 * (i mod IPB)).

Definition dinode_enc (d : dinode) : list Z :=
  le_split 2 (di_type d) ++ le_split 2 (di_major d) ++ le_split 2 (di_minor d) ++
  le_split 2 (di_nlink d) ++ le_split 4 (di_size d) ++ (di_addrs d ≫= le_split 4).

Definition dinode_dec (x : list Z) (o : nat) : dinode :=
  mkDinode (s16 (get_le 2 o x)) (s16 (get_le 2 (o + 2) x)) (s16 (get_le 2 (o + 4) x))
    (s16 (get_le 2 (o + 6) x)) (get_le 4 (o + 8) x)
    ((fun k => get_le 4 (o + 12 + 4 * k) x) <$> seq 0 13).

(** struct dirent: inum and a name of DIRSIZ bytes *)
Definition dirent_enc (inum : Z) (name : list Z) : list Z := le_split 2 inum ++ name.

Definition de_inum (de : list Z) : Z := get_le 2 0 de.

Definition de_name (de : list Z) : list Z := slice de 2 14.

(** struct stat; its four bytes of padding hold [pad]. *)
Record stat := mkStat { st_dev : Z; st_ino : Z; st_type : Z; st_nlink : Z; st_size : Z }.

Definition stat_enc (pad : list Z) (st : stat) : list Z :=
  le_split 4 (st_dev st) ++ le_split 4 (st_ino st) ++ le_split 2 (st_type st) ++
  le_split 2 (st_nlink st) ++ pad ++ le_split 8 (st_size st).

(** The superblock in block 1. *)
Definition superblock_dec (x : list Z) : superblock :=
  mkSb (get_le 4 0 x) (get_le 4 4 x) (get_le 4 8 x) (get_le 4 12 x) (get_le 4 16 x)
    (get_le 4 20 x) (get_le 4 24 x) (get_le 4 28 x).

(** bp->data, and an update of it *)
Definition buf_data (bp : nat) : K (list Z) := b ← get_buf bp; mret (b_data b).

Definition upd_data (bp : nat) (f : list Z -> list Z) : K unit := upd_buf bp (upd_b_data f).

Definition get_sb : K superblock := gets k_sb.

(** ** Blocks *)

(** static void readsb(int dev, struct superblock *sb) *)
Definition readsb (dev : Z) : K unit :=
  bp ← bread dev 1;
  x ← buf_data bp;
  modify (upd_k_sb (fun _ => superblock_dec x));;
  brelse bp.

(** void fsinit(int dev) *)
Definition fsinit (dev : Z) : K unit :=
  readsb dev;;
  sb ← get_sb;
  if negb (sb_magic sb =? FSMAGIC) then panic "invalid file system" else
  initlog dev sb.

(** static void bzero(int dev, int bno) *)
Definition bzero (dev bno : Z) : K unit :=
  bp ← bread dev (u32 bno);
  upd_data bp (fun _ => replicate 1024 0);;
  log_write bp;;
  brelse bp.

(** Bit [bi] of a bitmap block. *)
Definition bit_mask (bi : Z) : Z := Z.shiftl 1 (bi mod 8).

Definition bit_clear (x : list Z) (bi : Z) : bool :=
  Z.land (nth (Z.to_nat (bi / 8)) x 0) (bit_mask bi) =? 0.

(** The inner loop of balloc(): the first clear bit of a bitmap block. *)
Definition balloc_scan (x : list Z) (b size : Z) : option Z :=
  List.find (fun bi => bit_clear x bi) (seqZ 0 (Z.min BPB (size - b))).

(** static uint balloc(uint dev) *)
Definition balloc_body (dev b : Z) : K (Z + Z) :=
  sb ← get_sb;
  if b <? sb_size sb then
    bp ← bread dev (BBLOCK b sb);
    x ← buf_data bp;
    match balloc_scan x b (sb_size sb) with
    | Some bi =>
        upd_data bp (alter (fun v => Z.lor v (bit_mask bi)) (Z.to_nat (bi / 8)));;
        log_write bp;;
        brelse bp;;
        bzero dev (b + bi);;
        mret (inr (b + bi))
    | None =>
        brelse bp;;
        mret (inl (b + BPB))
    end
  else
    printfk (Some (str "balloc: out of blocks" ++ nl)) [];;
    mret (inr 0).

Definition balloc (dev : Z) : K Z :=
  sb ← get_sb;
  loop (S (S (Z.to_nat (sb_size sb / BPB)))) (balloc_body dev) 0.

(** static void bfree(int dev, uint b) *)
Definition bfree (dev b : Z) : K unit :=
  sb ← get_sb;
  bp ← bread dev (BBLOCK b sb);
  let bi := b mod BPB in
  x ← buf_data bp;
  if bit_clear x bi then panic "freeing free block" else
  upd_data bp (alter (fun v => Z.land v (Z.lnot (bit_mask bi))) (Z.to_nat (bi / 8)));;
  log_write bp;;
  brelse bp.

(** ** Inodes *)

(** void iinit() *)
Definition iinit : K unit :=
  initlock L_itable;;
  for_each (seq 0 50) (fun i => initsleeplock (SL_inode i)).

(** static struct inode *iget(uint dev, uint inum): the scan for the inode and
    the first empty slot, and the function *)
Fixpoint iget_scan (dev inum : Z) (i : nat) (empty : option nat) (tbl : list inode) :
    option nat * option nat :=
  match tbl with
  | [] => (None, empty)
  | ip :: tbl' =>
      if (0 <? i_ref ip) && (i_dev ip =? dev) && (i_inum ip =? inum) then (Some i, empty)
      else
        let empty := if bool_decide (empty = None) && (i_ref ip =? 0) then Some i else empty in
        iget_scan dev inum (S i) empty tbl'
  end.

Definition iget (dev inum : Z) : K nat :=
  acquire L_itable;;
  tbl ← gets k_itable;
  match iget_scan dev inum 0 None tbl with
  | (Some ip, _) =>
      upd_inode ip (upd_i_ref (fun n => n + 1));;
      release L_itable;;
      mret ip
  | (None, None) => panic "iget: no inodes"
  | (None, Some ip) =>
      upd_inode ip (upd_i_dev (fun _ => dev));;
      upd_inode ip (upd_i_inum (fun _ => inum));;
      upd_inode ip (upd_i_ref (fun _ => 1));;
      upd_inode ip (upd_i_valid (fun _ => false));;
      release L_itable;;
      mret ip
  end.

(** struct inode *idup(struct inode *ip) *)
Definition idup (ip : nat) : K nat :=
  acquire L_itable;;
  upd_inode ip (upd_i_ref (fun n => n + 1));;
  release L_itable;;
  mret ip.

(** struct inode *ialloc(uint dev, short type) *)
Definition ialloc_body (dev type inum : Z) : K (Z + option nat) :=
  sb ← get_sb;
  if inum <? sb_ninodes sb then
    bp ← bread dev (IBLOCK inum sb);
    x ← buf_data bp;
    if di_type (dinode_dec x (dinode_off inum)) =? 0 then
      upd_data bp (fun x => put_le 2 (dinode_off inum) type
        (splice x (dinode_off inum) (replicate 64 0)));;
      log_write bp;;
      brelse bp;;
      ip ← iget dev (u32 inum);
      mret (inr (Some ip))
    else
      brelse bp;;
      mret (inl (inum + 1))
  else
    printfk (Some (str "ialloc: no inodes" ++ nl)) [];;
    mret (inr None).

Definition ialloc (dev type : Z) : K (option nat) :=
  sb ← get_sb;
  loop (S (Z.to_nat (sb_ninodes sb))) (ialloc_body dev type) 1.

(** The on-disk part of an in-memory inode, and the inode with it replaced. *)
Definition inode_dinode (ip : inode) : dinode :=
  mkDinode (i_type ip) (i_major ip) (i_minor ip) (i_nlink ip) (i_size ip) (i_addrs ip).

Definition inode_load (d : dinode) (ip : inode) : inode :=
  upd_i_type (fun _ => di_type d) (upd_i_major (fun _ => di_major d)
    (upd_i_minor (fun _ => di_minor d) (upd_i_nlink (fun _ => di_nlink d)
      (upd_i_size (fun _ => di_size d) (upd_i_addrs (fun _ => di_addrs d) ip))))).

(** void iupdate(struct inode *ip) *)
Definition iupdate (ip : nat) : K unit :=
  i ← get_inode ip;
  sb ← get_sb;
  bp ← bread (i_dev i) (IBLOCK (i_inum i) sb);
  upd_data bp (fun x => splice x (dinode_off (i_inum i)) (dinode_enc (inode_dinode i)));;
  log_write bp;;
  brelse bp.

(** void ilock(struct inode *ip): what follows acquiresleep(), and the function *)
Definition ilock_load (ip : nat) : K unit :=
  i ← get_inode ip;
  if negb (i_valid i) then
    sb ← get_sb;
    bp ← bread (i_dev i) (IBLOCK (i_inum i) sb);
    x ← buf_data bp;
    upd_inode ip (inode_load (dinode_dec x (dinode_off (i_inum i))));;
    brelse bp;;
    upd_inode ip (upd_i_valid (fun _ => true));;
    i ← get_inode ip;
    if i_type i =? 0 then panic "ilock: no type" else mret tt
  else mret tt.

Definition ilock (ip : option nat) : K unit :=
  match ip with
  | None => panic "ilock"
  | Some ip =>
      i ← get_inode ip;
      if i_ref i <? 1 then panic "ilock" else
      acquiresleep (SL_inode ip);;
      ilock_load ip
  end.

Definition ilock_resume (intena : bool) (ip : nat) : K unit :=
  acquiresleep_resume intena (SL_inode ip);;
  ilock_load ip.

(** void iunlock(struct inode *ip) *)
Definition iunlock (ip : option nat) : K unit :=
  match ip with
  | None => panic "iunlock"
  | Some ip =>
      h ← holdingsleep (SL_inode ip);
      if negb h then panic "iunlock" else
      i ← get_inode ip;
      if i_ref i <? 1 then panic "iunlock" else
      releasesleep (SL_inode ip)
  end.

(** The array of block numbers in an indirect block. *)
Definition ind_get (x : list Z) (k : Z) : Z := get_le 4 (Z.to_nat (4 * k)) x.

(** static uint bmap(struct inode *ip, uint bn) *)
Definition bmap (ip : nat) (bn : Z) : K Z :=
  i ← get_inode ip;
  if bn <? NDIRECT then
    let addr := nth (Z.to_nat bn) (i_addrs i) 0 in
    if addr =? 0 then
      addr ← balloc (i_dev i);
      if addr =? 0 then mret 0
      else upd_inode ip (upd_i_addrs (<[Z.to_nat bn := addr]>));; mret addr
    else mret addr
  else
    let bn := bn - NDIRECT in
    if bn <? NINDIRECT then
      ind ← (let addr := nth 12 (i_addrs i) 0 in
             if addr =? 0 then
               addr ← balloc (i_dev i);
               if addr =? 0 then mret 0
               else upd_inode ip (upd_i_addrs (<[12%nat := addr]>));; mret addr
             else mret addr);
      if ind =? 0 then mret 0
      else
        bp ← bread (i_dev i) ind;
        x ← buf_data bp;
        addr ← (if ind_get x bn =? 0 then
                  addr ← balloc (i_dev i);
                  when (negb (addr =? 0))
                    (upd_data bp (put_le 4 (Z.to_nat (4 * bn)) addr);;
                     log_write bp);;
                  mret addr
                else mret (ind_get x bn));
        brelse bp;;
        mret addr
    else panic "bmap: out of range".

(** void itrunc(struct inode *ip) *)
Definition itrunc (ip : nat) : K unit :=
  for_each (seq 0 12) (fun k =>
    i ← get_inode ip;
    let a := nth k (i_addrs i) 0 in
    when (negb (a =? 0))
      (bfree (i_dev i) a;;
       upd_inode ip (upd_i_addrs (<[k := 0]>))));;
  i ← get_inode ip;
  let ind := nth 12 (i_addrs i) 0 in
  when (negb (ind =? 0))
    (bp ← bread (i_dev i) ind;
     x ← buf_data bp;
     for_each (seqZ 0 NINDIRECT) (fun j =>
       when (negb (ind_get x j =? 0)) (bfree (i_dev i) (ind_get x j)));;
     brelse bp;;
     bfree (i_dev i) ind;;
     upd_inode ip (upd_i_addrs (<[12%nat := 0]>)));;
  upd_inode ip (upd_i_size (fun _ => 0));;
  iupdate ip.

(** void iput(struct inode *ip) *)
Definition iput (ip : nat) : K unit :=
  acquire L_itable;;
  i ← get_inode ip;
  when ((i_ref i =? 1) && i_valid i && (i_nlink i =? 0))
    (acquiresleep (SL_inode ip);;
     release L_itable;;
     itrunc ip;;
     upd_inode ip (upd_i_type (fun _ => 0));;
     iupdate ip;;
     upd_inode ip (upd_i_valid (fun _ => false));;
     releasesleep (SL_inode ip);;
     acquire L_itable);;
  upd_inode ip (upd_i_ref (fun n => n - 1));;
  release L_itable.

(** void iunlockput(struct inode *ip) *)
Definition iunlockput (ip : nat) : K unit :=
  iunlock (Some ip);;
  iput ip.

(** void stati(struct inode *ip, struct stat *st) *)
Definition stati (ip : nat) : K stat :=
  i ← get_inode ip;
  mret (mkStat (i_dev i) (i_inum i) (i_type i) (i_nlink i) (i_size i)).

Section fs.
Context `{Platform}.

(** int readi(struct inode *ip, int user_dst, uint64 dst, uint off, uint n): the
    result, and the bytes stored from dst on *)
Definition readi_body (ip : nat) (n : Z) (st : Z * Z * loc * list Z) :
    K (Z * Z * loc * list Z + Z * list Z) :=
  let '(tot, off, dst, acc) := st in
  if tot <? n then
    addr ← bmap ip (off / BSIZE);
    if addr =? 0 then mret (inr (tot, acc))
    else
      i ← get_inode ip;
      bp ← bread (i_dev i) addr;
      let m := Z.min (u32 (n - tot)) (u32 (BSIZE - off mod BSIZE)) in
      x ← buf_data bp;
      let bs := slice x (Z.to_nat (off mod BSIZE)) (Z.to_nat m) in
      r ← either_copyout dst bs;
      brelse bp;;
      if r =? -1 then mret (inr (u32 (-1), acc))
      else mret (inl (u32 (tot + m), u32 (off + m), loc_add dst m, acc ++ bs))
  else mret (inr (tot, acc)).

Definition readi (ip : nat) (dst : loc) (off n : Z) : K (Z * list Z) :=
  i ← get_inode ip;
  if (i_size i <? off) || (u32 (off + n) <? off) then mret (0, [])
  else
    let n := if i_size i <? u32 (off + n) then u32 (i_size i - off) else n in
    r ← loop (4 + Z.to_nat (n / BSIZE)) (readi_body ip n) (0, off, dst, []);
    mret (s32 r.1, r.2).

(** int writei(struct inode *ip, int user_src, uint64 src, uint off, uint n).  When
    either_copyin() fails, the bytes it had copied stay in the buffer. *)
Definition writei_body (ip : nat) (n : Z) (st : Z * Z * loc) : K (Z * Z * loc + Z * Z) :=
  let '(tot, off, src) := st in
  if tot <? n then
    addr ← bmap ip (off / BSIZE);
    if addr =? 0 then mret (inr (tot, off))
    else
      i ← get_inode ip;
      bp ← bread (i_dev i) addr;
      let m := Z.min (u32 (n - tot)) (u32 (BSIZE - off mod BSIZE)) in
      r ← either_copyin src m;
      upd_data bp (fun x => splice x (Z.to_nat (off mod BSIZE)) r.2);;
      if r.1 =? -1 then brelse bp;; mret (inr (tot, off))
      else
        log_write bp;;
        brelse bp;;
        mret (inl (u32 (tot + m), u32 (off + m), loc_add src m))
  else mret (inr (tot, off)).

Definition writei (ip : nat) (src : loc) (off n : Z) : K Z :=
  i ← get_inode ip;
  if (i_size i <? off) || (u32 (off + n) <? off) then mret (-1)
  else if MAXFILE * BSIZE <? u32 (off + n) then mret (-1)
  else
    r ← loop (4 + Z.to_nat (n / BSIZE)) (writei_body ip n) (0, off, src);
    let '(tot, off) := r in
    i ← get_inode ip;
    when (i_size i <? off) (upd_inode ip (upd_i_size (fun _ => off)));;
    iupdate ip;;
    mret (s32 tot).

(** ** Directories *)

(** strncmp() on two arrays of at most [n] bytes; 0 follows their end. *)
Fixpoint strncmp_bytes (n : nat) (p q : list Z) : Z :=
  match n with
  | O => 0
  | S n' =>
      let a := hd 0 p in
      let b := hd 0 q in
      if negb (a =? 0) && (a =? b) then strncmp_bytes n' (tl p) (tl q) else a - b
  end.

(** int namecmp(const char *s, const char *t) *)
Definition namecmp (s t : list Z) : Z := strncmp_bytes 14 s t.

(** readi() of the directory entry at [off]; [msg] is the panic of a short read. *)
Definition read_dirent (dp : nat) (off : Z) (msg : string) : K (list Z) :=
  r ← readi dp (KernBuf (replicate 16 0)) off 16;
  if negb (r.1 =? 16) then panic msg else mret r.2.

(** struct inode *dirlookup(struct inode *dp, char *name, uint *poff): the inode
    and the offset of the entry *)
Definition dirlookup_body (dp : nat) (name : list Z) (off : Z) : K (Z + option (nat * Z)) :=
  d ← get_inode dp;
  if off <? i_size d then
    de ← read_dirent dp off "dirlookup read";
    if de_inum de =? 0 then mret (inl (u32 (off + 16)))
    else if namecmp name (de_name de) =? 0 then
      ip ← iget (i_dev d) (de_inum de);
      mret (inr (Some (ip, off)))
    else mret (inl (u32 (off + 16)))
  else mret (inr None).

Definition dirlookup (dp : nat) (name : list Z) : K (option (nat * Z)) :=
  d ← get_inode dp;
  if negb (i_type d =? T_DIR) then panic "dirlookup not DIR" else
  loop (S (S (Z.to_nat (i_size d / 16)))) (dirlookup_body dp name) 0.

(** int dirlink(struct inode *dp, char *name, uint inum): the search for an empty
    entry and the function *)
Definition dirlink_body (dp : nat) (off : Z) : K (Z + Z) :=
  d ← get_inode dp;
  if off <? i_size d then
    de ← read_dirent dp off "dirlink read";
    if de_inum de =? 0 then mret (inr off) else mret (inl (off + 16))
  else mret (inr off).

Definition dirlink (dp : nat) (name : list Z) (inum : Z) : K Z :=
  r ← dirlookup dp name;
  match r with
  | Some (ip, _) => iput ip;; mret (-1)
  | None =>
      d ← get_inode dp;
      off ← loop (S (S (Z.to_nat (i_size d / 16)))) (dirlink_body dp) 0;
      let de := dirent_enc inum (nul_padded 14 name) in
      r ← writei dp (KernBuf de) off 16;
      mret (if negb (r =? 16) then -1 else 0)
  end.

(** ** Paths *)

(** [while ( *path == '/') path++;] *)
Fixpoint skip_slashes (path : list Z) : list Z :=
  match path with
  | c :: path' => if c =? 47 then skip_slashes path' else path
  | [] => []
  end.

(** [while ( *path != '/' && *path != 0) path++;]: what it passes and what is left *)
Fixpoint span_elem (path : list Z) : list Z * list Z :=
  match path with
  | c :: path' =>
      if (c =? 47) || (c =? 0) then ([], path)
      else let r := span_elem path' in (c :: r.1, r.2)
  | [] => ([], [])
  end.

(** static char *skipelem(char *path, char *name): the rest of the path and the
    name buffer, of DIRSIZ bytes *)
Definition skipelem (path name : list Z) : option (list Z * list Z) :=
  let path := skip_slashes path in
  if hd 0 path =? 0 then None
  else
    let '(s, path) := span_elem path in
    let name := if (14 <=? length s)%nat then splice name 0 (take 14 s)
                else splice name 0 (s ++ [0]) in
    Some (skip_slashes path, name).

(** static struct inode *namex(char *path, int nameiparent, char *name): the inode
    and the name buffer *)
Definition namex_body (nameiparent : bool) (st : list Z * list Z * nat) :
    K (list Z * list Z * nat + option nat * list Z) :=
  let '(path, name, ip) := st in
  match skipelem path name with
  | Some (path, name) =>
      ilock (Some ip);;
      i ← get_inode ip;
      if negb (i_type i =? T_DIR) then
        iunlockput ip;;
        mret (inr (None, name))
      else if nameiparent && (hd 0 path =? 0) then
        iunlock (Some ip);;
        mret (inr (Some ip, name))
      else
        next ← dirlookup ip name;
        iunlockput ip;;
        match next with
        | None => mret (inr (None, name))
        | Some (next, _) => mret (inl (path, name, next))
        end
  | None =>
      if nameiparent then
        iput ip;;
        mret (inr (None, name))
      else mret (inr (Some ip, name))
  end.

Definition namex (path : list Z) (nameiparent : bool) (name : list Z) : K (option nat * list Z) :=
  ip ← (if hd 0 path =? 47 then iget ROOTDEV ROOTINO
        else
          p ← curproc;
          pp ← get_proc p;
          cwd ← deref (p_cwd pp);
          idup cwd);
  loop (S (length path)) (namex_body nameiparent) (path, name, ip).

(** struct inode *namei(char *path); its name buffer is uninitialised, which no
    result depends on. *)
Definition namei (path : list Z) : K (option nat) :=
  r ← namex path false (replicate 14 0);
  mret r.1.

(** struct inode *nameiparent(char *path, char *name) *)
Definition nameiparent (path name : list Z) : K (option nat * list Z) := namex path true name.

End fs.
