(* ===== verification/Txn.v ===== *)
(** * Transactions as the file system sees them

    Inside begin_op() ... end_op() the file system reads and writes blocks through
    the buffer cache and log_write().  [txn] describes such a state by the contents
    [V] of every block as bread() returns them, the buffers [h] that are locked, and
    the number [k] of further blocks that the transaction may log.  The rules below
    are the only facts about cache and log that the correctness of the file-system
    code uses; [txn_commit] gives back what end_op() makes of the blocks. *)

From Stdlib Require Import ZArith Lia.
From stdpp Require Import base tactics numbers gmap strings option list.
From S2P Require Import Prelude Bytes Kernel Spinlock Kstring Sched Uart Printf Bio Bcache.
From S2P Require Import Log LogSpec BcacheProps Crash Fs.

(** ** Specification *)

(** A step of file-system code inside a transaction: it may also print. *)
Definition op_step (s s' : kstate) : Prop :=
  s' ≡ upd_k_bcache (fun _ => k_bcache s') (upd_k_procs (fun _ => k_procs s')
         (upd_k_log (fun _ => k_log s') (upd_k_uart (fun _ => k_uart s')
           (upd_k_itable (fun _ => k_itable s') s)))) /\
  woke (c_proc (k_cpu s)) (k_procs s) (k_procs s') /\
  l_outstanding (k_log s') = l_outstanding (k_log s) /\ l_size (k_log s') = l_size (k_log s).

(** Block contents with block [n] replaced. *)
Definition vput (n : Z) (x : list Z) (V : Z -> list Z) : Z -> list Z :=
  fun b => if b =? n then x else V b.

Section txn.
Context (Cache : kstate -> gmap nat (Z * list Z) -> gmap Z (list Z) -> Prop).

Record txn_at (s : kstate) (st : Z) (bl : list Z) (P : gmap Z (list Z))
    (h : gmap nat (Z * list Z)) (V : Z -> list Z) (k : nat) : Prop := {
  tx_calm : calm [] s;
  tx_cache : Cache s h P;
  tx_log : log_at (k_log s) st bl;
  tx_nodup : NoDup bl;
  tx_pinned n : is_Some (P !! n) <-> n ∈ bl;
  tx_off n : n ∈ bl -> off_log st n;
  tx_view b : V b = content (k_disk s) P b;
  tx_room : Z.of_nat (length bl + k) <= l_size (k_log s) - 1;
  tx_bufs : (length bl + k <= 27)%nat;
  tx_out : 1 <= l_outstanding (k_log s);
  tx_com : l_committing (k_log s) = false;
  tx_empty : hdr_n (dget (k_disk s) st) = 0;
  tx_alive : k_panicked s = false;
}.

Definition txn (s : kstate) (st : Z) (h : gmap nat (Z * list Z)) (V : Z -> list Z) (k : nat) : Prop :=
  exists bl P, txn_at s st bl P h V k.

End txn.

(** ** Lemmas: steps *)

Lemma op_step_keq s s' : s' ≡ s -> op_step s s'.
Proof.
  intros E. pose proof E as [E1 E2]. split.
  - rewrite (keq_k_bcache _ _ E), (keq_k_procs _ _ E), (keq_k_log _ _ E), (keq_k_uart _ _ E),
      (keq_k_itable _ _ E). by rewrite E; keq.
  - rewrite (keq_k_procs _ _ E), (keq_k_log _ _ E). split; [apply woke_refl|done].
Qed.

Lemma op_step_c_proc s s' : op_step s s' -> c_proc (k_cpu s') = c_proc (k_cpu s).
Proof. intros [E _]. by rewrite (keq_c_proc _ _ E). Qed.

Lemma op_step_calm lks s s' : op_step s s' -> calm lks s -> calm lks s'.
Proof.
  intros (E & [W _] & _) Hc. eapply calm_keq; [exact E|]. by eapply calm_ext; [by ksync| |exact Hc].
Qed.

Lemma op_step_mypid s s' : op_step s s' -> calm [] s -> mypid s' = mypid s.
Proof.
  intros H Hc. pose proof (op_step_c_proc _ _ H) as E. destruct (calm_proc _ _ Hc) as (p & pp & Hp & Hpp & ->).
  unfold mypid. rewrite E, Hp. destruct H as (_ & W & _). by rewrite (woke_me _ _ _ _ _ W Hp Hpp).
Qed.

#[export] Instance op_step_preorder : PreOrder op_step.
Proof.
  split.
  - intros s. by apply op_step_keq.
  - intros s1 s2 s3 H12 H23. pose proof (op_step_c_proc _ _ H12) as Hc.
    destruct H12 as (E12 & W12 & O12 & Z12), H23 as (E23 & W23 & O23 & Z23). split; [|split].
    + etrans; [exact E23|]. etrans; [eapply upd_k_bcache_proper, upd_k_procs_proper, upd_k_log_proper,
        upd_k_uart_proper, upd_k_itable_proper, E12|]. keq.
    + rewrite Hc in W23. by eapply woke_trans.
    + split; congruence.
Qed.

Lemma op_step_fs s s' :
  fs_step s s' -> k_disk s' = k_disk s -> l_outstanding (k_log s') = l_outstanding (k_log s) ->
  l_size (k_log s') = l_size (k_log s) -> op_step s s'.
Proof.
  intros [E W] Ed Eo Ez. split; [|done].
  assert (Eu : k_uart s' = k_uart s) by apply (keq_k_uart _ _ E). rewrite Eu.
  etrans; [exact E|]. rewrite Ed. keq.
Qed.

Lemma op_step_bio s s' : bio_step s s' -> op_step s s' /\ k_itable s' = k_itable s.
Proof. intros (? & El & ? & ?). split; [apply op_step_fs; by rewrite ?El|done]. Qed.

Lemma op_step_log s s' : log_step [] s s' -> op_step s s' /\ k_itable s' = k_itable s.
Proof. intros (? & ? & E & _ & _ & ? & ? & _). rewrite disk_writes_nil in E. split; [by apply op_step_fs|done]. Qed.

Lemma op_step_uart f s s' : s' ≡ upd_k_uart f s -> op_step s s' /\ k_itable s' = k_itable s.
Proof.
  intros E. assert (op_step (upd_k_uart f s) s') by by apply op_step_keq.
  split; [|by rewrite (keq_k_itable _ _ E)]. etrans; [|done]. split; [keq|split; [apply woke_refl|done]].
Qed.

Lemma op_step_itable f s : op_step s (upd_k_itable f s).
Proof. split; [keq|split; [apply woke_refl|done]]. Qed.

Lemma op_step_sb s s' : op_step s s' -> k_sb s' = k_sb s.
Proof. intros [E _]. by rewrite (keq_k_sb _ _ E). Qed.

Lemma op_step_disk s s' : op_step s s' -> k_disk s' = k_disk s.
Proof. intros [E _]. by rewrite (keq_k_disk _ _ E). Qed.

Lemma op_step_panicked s s' : op_step s s' -> k_panicked s' = k_panicked s.
Proof. intros [E _]. by rewrite (keq_k_panicked _ _ E). Qed.

Lemma vput_same n x V : vput n x V n = x.
Proof. unfold vput. by rewrite Z.eqb_refl. Qed.

Lemma vput_other n x V b : b <> n -> vput n x V b = V b.
Proof. intros Hb. unfold vput. by rewrite (proj2 (Z.eqb_neq b n)). Qed.

(** ** Lemmas: the rules *)

Section rules.
Context (Cache : kstate -> gmap nat (Z * list Z) -> gmap Z (list Z) -> Prop) `{!BlockCache Cache}.
Abbreviation txn := (txn Cache).
Abbreviation txn_at := (txn_at Cache).

(** The view of the blocks depends on its values only. *)
Lemma txn_ext s st h V V' k : (forall b, V b = V' b) -> txn s st h V k -> txn s st h V' k.
Proof.
  intros E (bl & P & []). exists bl, P. split; try done. intros b. by rewrite <- E.
Qed.

Lemma txn_less s st h V k k' : (k' <= k)%nat -> txn s st h V k -> txn s st h V k'.
Proof. intros Hk (bl & P & []). exists bl, P. split; try done; lia. Qed.

Lemma txn_blk s st h V k b : txn s st h V k -> blk_ok (V b).
Proof. intros (bl & P & Ht). rewrite (tx_view _ _ _ _ _ _ _ _ Ht). eapply bc_content, Ht. Qed.

Lemma txn_pins (P : gmap Z (list Z)) bl :
  NoDup bl -> (forall n, is_Some (P !! n) <-> n ∈ bl) -> size P = length bl.
Proof.
  intros Hnd HP. rewrite <- size_dom. rewrite <- (size_list_to_set (C := gset Z) bl Hnd). f_equal.
  apply set_eq. intros n. by rewrite elem_of_dom, elem_of_list_to_set.
Qed.

(** Steps that keep the cache and the log. *)
Lemma txn_keep s s' st h V k :
  txn s st h V k -> op_step s s' -> k_bcache s' = k_bcache s -> k_log s' = k_log s -> txn s' st h V k.
Proof.
  intros (bl & P & []) Hs Eb El. pose proof (op_step_disk _ _ Hs) as Ed. exists bl, P.
  split; rewrite ?El, ?Ed; try done.
  - by eapply op_step_calm.
  - eapply bc_ext; try done. by eapply op_step_mypid.
  - by rewrite (op_step_panicked _ _ Hs).
Qed.

Lemma txn_bread s st h V k n Q :
  txn s st h V k -> unheld h n -> (size h < 3)%nat ->
  (forall i s', h !! i = None -> txn s' st (<[i := (n, V n)]> h) V k -> op_step s s' ->
     k_itable s' = k_itable s -> Q i s') ->
  wp (bread 1 n) Q s.
Proof.
  intros (bl & P & Ht) Hun Hh HQ. pose proof Ht as []. pose proof (txn_pins P bl tx_nodup0 tx_pinned0).
  apply (wp_bread Cache s h P n); [done|done|done|right; lia|]. intros i s' Hc Hi Hok Hs.
  destruct (op_step_bio _ _ Hs) as [Ho Hit]. apply HQ; [done| |done|done].
  destruct Hs as (_ & El & Ed & _). exists bl, P.
  split; rewrite ?El, ?Ed; try done; [by rewrite tx_view0|by rewrite (op_step_panicked _ _ Ho)].
Qed.

Lemma txn_data s st h V k i n x Q :
  txn s st h V k -> h !! i = Some (n, x) -> Q x s -> wp (buf_data i) Q s.
Proof.
  intros (bl & P & Ht) Hi HQ. unfold buf_data. apply wp_bind.
  eapply (wp_get_held Cache s h P i n x); [apply Ht|done|]. intros b <- _ _. by apply wp_ret.
Qed.

Lemma txn_store s st h V k i n x f Q :
  txn s st h V k -> h !! i = Some (n, x) -> blk_ok (f x) ->
  (forall s', txn s' st (<[i := (n, f x)]> h) V k -> op_step s s' -> k_itable s' = k_itable s -> Q tt s') ->
  wp (upd_data i f) Q s.
Proof.
  intros (bl & P & Ht) Hi Hf HQ. unfold upd_data. pose proof Ht as [].
  eapply (wp_store Cache s h P i n x); [done|done|done|done|]. intros s' Hc Hok Hs.
  destruct (op_step_bio _ _ Hs) as [Ho Hit]. apply HQ; [|done|done].
  destruct Hs as (_ & El & Ed & _). exists bl, P.
  split; rewrite ?El, ?Ed; try done. by rewrite (op_step_panicked _ _ Ho).
Qed.

Lemma txn_log_write s st h V k i n x Q :
  txn s st h V (S k) -> h !! i = Some (n, x) -> 0 <= n < 2 ^ 31 -> off_log st n ->
  (forall s', txn s' st h (vput n x V) k -> op_step s s' -> k_itable s' = k_itable s -> Q tt s') ->
  wp (log_write i) Q s.
Proof.
  intros (bl & P & Ht) Hi Hn Hoff HQ. pose proof Ht as [].
  eapply wp_mono; [eapply (log_write_spec Cache s h st bl P i n x); try done; lia|].
  cbn beta. intros [] s' (Hc & Hok & Hla & Hs). destruct (op_step_log _ _ Hs) as [Ho Hit].
  apply HQ; [|done|done]. destruct Hs as (_ & _ & Ed & _ & _ & Esz & Eout & Ecom & _).
  rewrite disk_writes_nil in Ed. set (bl' := if decide (n ∈ bl) then bl else bl ++ [n]) in *.
  assert (Hbl : (forall m, m ∈ bl' <-> m = n \/ m ∈ bl) /\ NoDup bl' /\ (length bl' <= S (length bl))%nat).
  { unfold bl'. destruct (decide (n ∈ bl)).
    - split_and!; [set_solver|done|lia].
    - split_and!; [set_solver| |rewrite length_app; cbn; lia].
      apply NoDup_app. split_and!; [done|set_solver|apply NoDup_singleton]. }
  destruct Hbl as (Hin & Hnd & Hlen). exists bl', (<[n := x]> P).
  split; rewrite ?Ed, ?Esz, ?Eout, ?Ecom; try done; try lia.
  - intros m. rewrite Hin, <- tx_pinned0, lookup_insert_is_Some'. naive_solver.
  - intros m [->|Hm]%Hin; [done|by apply tx_off0].
  - intros b. unfold vput, content. destruct (Z.eqb_spec b n) as [->|Hne].
    + by rewrite lookup_insert_eq.
    + rewrite lookup_insert_ne by done. apply tx_view0.
  - by rewrite (op_step_panicked _ _ Ho).
Qed.

Lemma txn_brelse s st h V k i n Q :
  txn s st h V k -> h !! i = Some (n, V n) ->
  (forall s', txn s' st (delete i h) V k -> op_step s s' -> k_itable s' = k_itable s -> Q tt s') ->
  wp (brelse i) Q s.
Proof.
  intros (bl & P & Ht) Hi HQ. pose proof Ht as [].
  eapply (wp_brelse Cache s h P i n (V n)); [done|done|done|apply tx_view0|]. intros s' Hc Hok Hs.
  destruct (op_step_bio _ _ Hs) as [Ho Hit]. apply HQ; [|done|done].
  destruct Hs as (_ & El & Ed & _). exists bl, P.
  split; rewrite ?El, ?Ed; try done. by rewrite (op_step_panicked _ _ Ho).
Qed.

(** Change a locked buffer, log it and release it. *)
Lemma txn_change s st h V k i n f Q :
  txn s st (<[i := (n, V n)]> h) V (S k) -> h !! i = None -> 0 <= n < 2 ^ 31 -> off_log st n ->
  blk_ok (f (V n)) ->
  (forall s', txn s' st h (vput n (f (V n)) V) k -> op_step s s' -> k_itable s' = k_itable s -> Q tt s') ->
  wp (upd_data i f;; log_write i;; brelse i) Q s.
Proof.
  intros Ht Hi Hn Hoff Hf HQ. apply wp_bind.
  eapply txn_store; [done|by rewrite lookup_insert_eq|done|]. rewrite insert_insert_eq.
  intros s1 Ht1 Hs1 I1. apply wp_bind. eapply txn_log_write; [done|by rewrite lookup_insert_eq|done|done|].
  intros s2 Ht2 Hs2 I2. eapply txn_brelse; [done|by rewrite lookup_insert_eq, vput_same|].
  intros s3 Ht3 Hs3 I3. rewrite delete_insert_id in Ht3 by done. apply HQ; [done| |congruence].
  etrans; [exact Hs1|]. by etrans.
Qed.

Lemma txn_change_then {B} s st h V k i n f (m : K B) Q :
  txn s st (<[i := (n, V n)]> h) V (S k) -> h !! i = None -> 0 <= n < 2 ^ 31 -> off_log st n ->
  blk_ok (f (V n)) ->
  (forall s', txn s' st h (vput n (f (V n)) V) k -> op_step s s' -> k_itable s' = k_itable s -> wp m Q s') ->
  wp (upd_data i f;; log_write i;; brelse i;; m) Q s.
Proof.
  intros Ht Hi Hn Hoff Hf HQ.
  pose proof (txn_change s st h V k i n f (fun _ s' => wp m Q s') Ht Hi Hn Hoff Hf HQ) as Hw.
  apply wp_bind. apply wp_bind_inv in Hw. eapply wp_mono; [exact Hw|]. cbn beta. intros _ s1 Hw1.
  apply wp_bind. apply wp_bind_inv in Hw1. eapply wp_mono; [exact Hw1|]. cbn beta. intros _ s2 Hw2.
  by apply wp_bind.
Qed.

(** Release a locked buffer that was not changed. *)
Lemma txn_drop s st h V k i n Q :
  txn s st (<[i := (n, V n)]> h) V k -> h !! i = None ->
  (forall s', txn s' st h V k -> op_step s s' -> k_itable s' = k_itable s -> Q tt s') ->
  wp (brelse i) Q s.
Proof.
  intros Ht Hi HQ. eapply txn_brelse; [done|by rewrite lookup_insert_eq|].
  intros s1 Ht1. rewrite delete_insert_id in Ht1 by done. auto.
Qed.

(** Printing inside a transaction. *)
Lemma txn_print s st h V k fmt args Q :
  txn s st h V k -> Forall (fun c => 0 < c < 256 /\ c <> 37) fmt ->
  (forall s', txn s' st h V k -> op_step s s' -> k_itable s' = k_itable s -> Q tt s') ->
  wp (printfk (Some fmt) args) Q s.
Proof.
  intros Ht Hf HQ. pose proof Ht as (bl & P & []). eapply wp_mono.
  { apply printfk_plain; [apply tx_calm0|apply tx_calm0, not_elem_of_nil|done|done]. }
  cbn beta. intros [] s' E. destruct (op_step_uart _ _ _ E) as [Ho Hit].
  apply HQ; [|done|done]. eapply txn_keep; [done|done|apply (keq_k_bcache _ _ E)|apply (keq_k_log _ _ E)].
Qed.

End rules.

(** ** Lemmas: the whole operation *)

(** begin_op() opens a transaction on the contents of the disk. *)
Lemma txn_begin s st Q :
  quiet s st -> k_panicked s = false ->
  (forall s', txn cache_ok s' st ∅ (dget (k_disk s)) 27 -> l_outstanding (k_log s') = 1 -> l_size (k_log s') = 30 ->
     s' ≡ upd_k_log (upd_l_outstanding (fun n => n + 1)) s -> Q tt s') ->
  wp begin_op Q s.
Proof.
  intros Hq Hp HQ. pose proof Hq as [Hc Hok Hla Hh Hsz Hout Hcm].
  eapply wp_mono; [apply begin_op_spec; [done|done|]; rewrite Hout, (la_n _ _ _ Hla); cbn; lia|].
  cbn beta. intros [] s1 E1. destruct (quiet_begin _ _ _ Hq E1) as (Hc1 & Hok1 & Hla1 & Hd1 & Ho1 & Hcm1 & Hsz1).
  apply HQ; [|done|done|done]. exists [], ∅. split; rewrite ?Hd1; try done.
  - apply NoDup_nil_2.
  - intros n. rewrite lookup_empty. split; [by intros []|intros Hn; by apply not_elem_of_nil in Hn].
  - intros n Hn. by apply not_elem_of_nil in Hn.
  - rewrite Hsz1. cbn. lia.
  - rewrite Ho1. lia.
  - by rewrite (keq_k_panicked _ _ E1).
Qed.

(** end_op() of the only operation writes the transaction to the disk. *)
Lemma txn_end s st V k :
  txn cache_ok s st ∅ V k -> l_outstanding (k_log s) = 1 -> l_size (k_log s) = 30 ->
  exists bl P, in_trans s st bl P /\ (forall b, V b = content (k_disk s) P b) /\
    wp end_op (fun _ s' => quiet s' st /\ k_disk s' = disk_writes (txn_writes (k_disk s) st P bl) (k_disk s) /\
      forall b, off_log st b -> dget (k_disk s') b = V b) s.
Proof.
  intros (bl & P & []) Ho Hsz. exists bl, P. pose proof (txn_pins P bl tx_nodup0 tx_pinned0).
  assert (HPs : (size P < 30)%nat) by lia. split; [by split|]. split; [done|].
  eapply wp_mono; [by apply (end_op_last cache_ok s st bl P)|].
  cbn beta. intros _ s' (Hc & Hok & Hla & Hs & Hd & Ho' & Hcm & Hsz').
  assert (Hfin : hdr_n (dget (k_disk s') st) = 0 /\ forall b, off_log st b -> dget (k_disk s') b = content (k_disk s) P b).
  { rewrite Hd. unfold txn_writes. case_decide as Hb.
    - rewrite disk_writes_nil. split; [done|]. intros b _. unfold content.
      destruct (P !! b) eqn:E; [|done]. assert (Hin : b ∈ bl) by (apply tx_pinned0; by rewrite E).
      subst bl. by apply not_elem_of_nil in Hin.
    - apply commit_final; [by eapply la_len|apply tx_cache0|done]. }
  destruct Hfin as [F1 F2]. split; [|split; [done|]].
  - split; try done. congruence.
  - intros b Hb. by rewrite F2, tx_view0.
Qed.

(** A file-system operation. *)
Definition fs_op {A} (m : K A) : K A :=
  begin_op;;
  r ← m;
  end_op;;
  mret r.

Section atomic.
Context {A : Type} (m : K A) (s : kstate) (st : Z) (R : A -> (Z -> list Z) -> Prop).
Hypothesis Hq : quiet s st.
Hypothesis Halive : k_panicked s = false.
Hypothesis Hm : forall s1, txn cache_ok s1 st ∅ (dget (k_disk s)) 27 ->
  s1 ≡ upd_k_log (upd_l_outstanding (fun n => n + 1)) s ->
  wp m (fun a s2 => exists V' k, R a V' /\ txn cache_ok s2 st ∅ V' k /\ op_step s1 s2) s1.

(** The run of the operation, with the state in which it commits. *)
Lemma fs_op_run :
  wp (fs_op m) (fun a s' => quiet s' st /\ exists V' s2 bl P,
    R a V' /\ in_trans s2 st bl P /\ k_disk s2 = k_disk s /\ (forall b, V' b = content (k_disk s2) P b) /\
    k_disk s' = disk_writes (txn_writes (k_disk s2) st P bl) (k_disk s2) /\
    forall b, off_log st b -> dget (k_disk s') b = V' b) s.
Proof using All.
  unfold fs_op. apply wp_bind. apply txn_begin with st; [done|done|]. intros s1 Ht1 Ho1 Hz1 E1.
  apply wp_bind. eapply wp_mono; [by apply Hm|]. cbn beta. intros a s2 (V' & k & HR & Ht2 & Hs2).
  pose proof Hs2 as (_ & _ & Eo & Ez). rewrite <- Eo in Ho1. rewrite <- Ez in Hz1.
  destruct (txn_end s2 st V' k Ht2 Ho1 Hz1) as (bl & P & Hin & HV & Hwp).
  apply wp_bind. eapply wp_mono; [exact Hwp|]. cbn beta. intros _ s3 (Hq3 & Hd3 & Hv3). apply wp_ret.
  split; [done|]. exists V', s2, bl, P. split_and!; try done.
  by rewrite (op_step_disk _ _ Hs2), (keq_k_disk _ _ E1).
Qed.

(** A crash during the operation leaves all of its effect or none of it. *)
Lemma fs_op_crash d d' sb :
  crashes (fs_op m) s d -> reboots st d d' -> booted st d' sb ->
  wp recover_from_log (fun _ sr =>
    (forall b, off_log st b -> dget (k_disk sr) b = dget (k_disk s) b) \/
    exists a V', R a V' /\ forall b, off_log st b -> dget (k_disk sr) b = V' b) sb.
Proof using All.
  intros Hcr Hre Hb. pose proof fs_op_run as Hwp. pose proof Hcr as (a & s' & k0 & Hrun & _ & _).
  unfold wp in Hwp. rewrite Hrun in Hwp. destruct Hwp as (_ & V' & s2 & bl & P & HR & Hin & Hd2 & HV & Hd' & _).
  destruct (crashes_writes (fs_op m) s d (txn_writes (k_disk s2) st P bl) Hcr) as [k ->].
  { unfold wp. rewrite Hrun, <- Hd2. exact Hd'. }
  pose proof (la_st _ _ _ (it_log _ _ _ _ Hin)) as Hst. destruct (trans_prefix _ _ _ _ k Hin) as [Hv Habs].
  rewrite Hd2 in *. eapply wp_mono; [exact (recovered st _ d' sb Hst Hv Hre Hb)|]. cbn beta. intros _ sr Hr.
  destruct Habs as [Habs|Habs]; [left|right; exists a, V'; split; [done|]]; intros b Hob.
  - by rewrite Hr, Habs.
  - by rewrite Hr, Habs, HV.
Qed.

End atomic.
