(* ===== verification/FsExample.v ===== *)
(** * A small file system

    A disk of 60 blocks as mkfs lays it out: boot block, superblock, log (2-31),
    one block of inodes (32), bitmap (33), data.  Inode 1 is the root directory, in
    block 34; inode 2 is a file of 1500 bytes in blocks 35 and 36.  The witnesses of
    the file-system theorems run on it. *)

From Stdlib Require Import ZArith Lia.
From stdpp Require Import base tactics numbers gmap strings option list.
From S2P Require Import Prelude Bytes Kernel Spinlock Kstring Sched Uart Printf Bio Bcache.
From S2P Require Import Log LogSpec BcacheProps Crash Fs Txn.

(** ** Definitions *)

Definition example_sb : superblock := mkSb FSMAGIC 60 26 16 30 2 32 33.

Definition example_root : dinode := mkDinode T_DIR 0 0 1 48 (34 :: replicate 12 0).

Definition example_file : dinode := mkDinode T_FILE 0 0 1 1500 (35 :: 36 :: replicate 11 0).

Definition example_inodes : list Z :=
  replicate 64 0 ++ dinode_enc example_root ++ dinode_enc example_file ++ replicate 832 0.

(** Blocks 0 to 36 are in use. *)
Definition example_bitmap : list Z := [255; 255; 255; 255; 31] ++ replicate 1019 0.

Definition example_dir : list Z :=
  dirent_enc 1 (nul_padded 14 (str ".")) ++ dirent_enc 1 (nul_padded 14 (str "..")) ++
  dirent_enc 2 (nul_padded 14 (str "init")) ++ replicate 976 0.

Definition example_fs_disk : diskst :=
  mkDisk {[32 := example_inodes; 33 := example_bitmap; 34 := example_dir;
           35 := replicate 1024 65; 36 := replicate 1024 66]} [].

(** Inside an operation: slot 0 of the inode table holds the file, slot 1 the root. *)
Definition example_slot (inum : Z) (d : dinode) : inode :=
  inode_load d (mkInode 1 inum 1 (mkSleeplock true 0) true 0 0 0 0 0 []).

Definition example_itable : list inode :=
  example_slot 2 example_file :: example_slot 1 example_root :: replicate 48 zero_inode.

Definition example_op : kstate :=
  upd_k_sb (fun _ => example_sb) (upd_k_itable (fun _ => example_itable)
    (example_fs (example_bufs (fun b => b)) (mkLog 2 30 1 false 1 0 (replicate 30 0)) example_fs_disk)).

(** ** Lemmas *)

Lemma example_fs_disk_ok : disk_ok example_fs_disk.
Proof.
  intros b. unfold dget. cbn [d_hist d_init example_fs_disk foldl].
  repeat (rewrite lookup_insert || rewrite lookup_singleton; case_decide;
    [subst; split; [by vm_compute|apply (bool_decide_unpack _); by vm_compute]|]).
  by apply blk_zero.
Qed.

Lemma example_op_txn : txn cache_ok example_op 2 ∅ (dget example_fs_disk) 10.
Proof.
  exists [], ∅. split; try done.
  - split; [by split|done|done|]. exists 0%nat. split; [done|lia].
  - split; [eexists; by apply (example_ring (fun b => b) example_log example_fs_disk)|].
    apply empty_bufs_ok; [apply example_fs_disk_ok|apply example_bufs_empty].
  - split; try done; [cbn; lia|]. intros b Hb. by apply not_elem_of_nil in Hb.
  - apply NoDup_nil_2.
  - intros n. rewrite lookup_empty. split; [by intros []|intros Hn; by apply not_elem_of_nil in Hn].
  - intros n Hn. by apply not_elem_of_nil in Hn.
  - cbn. lia.
Qed.
