(* ===== verification/FsBlocks.v ===== *)
(** * Correctness of block allocation (kernel/fs.c): balloc(), bfree(), bzero()

    [used] reads the bitmap in the block contents of a transaction.  balloc()
    returns the first block that is not in use, zeroed and marked; bfree() undoes
    it and panics on a block that is free. *)

From Stdlib Require Import ZArith Lia.
From stdpp Require Import base tactics numbers gmap strings option list.
From S2P Require Import Prelude Bytes Kernel Spinlock Kstring Sched Uart Printf Bio Bcache.
From S2P Require Import Log LogSpec BcacheProps Crash Fs Txn FsExample.

(** ** Specification *)

(** The bitmap says that block [b] is in use. *)
Definition used (sb : superblock) (V : Z -> list Z) (b : Z) : bool :=
  negb (bit_clear (V (BBLOCK b sb)) (b mod BPB)).

(** Block [n] holds a part of the bitmap. *)
Definition bitmap_blk (sb : superblock) (n : Z) : Prop :=
  exists b, 0 <= b < sb_size sb /\ n = BBLOCK b sb.

(** The bitmap is on the disk and not in the log. *)
Record bitmap_ok (sb : superblock) (st : Z) : Prop := {
  bm_size : 0 < sb_size sb < 2 ^ 31;
  bm_start : 0 <= sb_bmapstart sb;
  bm_end : sb_bmapstart sb + sb_size sb / BPB < 2 ^ 31;
  bm_off n : bitmap_blk sb n -> off_log st n;
}.

(** Block [n] holds inodes. *)
Definition inode_blk (sb : superblock) (n : Z) : Prop :=
  exists i, 0 <= i < sb_ninodes sb /\ n = IBLOCK i sb.

(** Block [b] is for data: not block 0, not of the log, the bitmap or the inodes. *)
Definition data_blk (sb : superblock) (st b : Z) : Prop :=
  b <> 0 /\ off_log st b /\ ~ bitmap_blk sb b /\ ~ inode_blk sb b.

(** Blocks that are not in use are data blocks. *)
Definition free_ok (sb : superblock) (st : Z) (V : Z -> list Z) : Prop :=
  forall b, 0 <= b < sb_size sb -> used sb V b = false -> data_blk sb st b.

(** [r] was taken from the blocks not in use: it is zeroed and marked, nothing else
    changed. *)
Definition fresh (sb : superblock) (V V' : Z -> list Z) (r : Z) : Prop :=
  0 < r < sb_size sb /\ used sb V r = false /\ V' r = replicate 1024 0 /\
  (forall b, 0 <= b < sb_size sb -> used sb V' b = used sb V b || (b =? r)) /\
  (forall n, n <> r -> ~ bitmap_blk sb n -> V' n = V n).

(** None of the blocks that balloc() reads or returns is locked. *)
Definition alloc_unheld (sb : superblock) (V : Z -> list Z) (h : gmap nat (Z * list Z)) : Prop :=
  (forall n, bitmap_blk sb n -> unheld h n) /\
  (forall b, 0 <= b < sb_size sb -> used sb V b = false -> unheld h b).

(** ** Lemmas: bits *)

Lemma bit_clear_testbit x bi :
  0 <= bi -> bit_clear x bi = negb (Z.testbit (nth (Z.to_nat (bi / 8)) x 0) (bi mod 8)).
Proof.
  intros Hb. unfold bit_clear, bit_mask. set (v := nth _ x 0). set (j := bi mod 8).
  assert (Hj : 0 <= j) by (unfold j; zdm). rewrite Z.shiftl_1_l.
  destruct (Z.testbit v j) eqn:E; cbn; [apply Z.eqb_neq|apply Z.eqb_eq].
  - intros H. apply (f_equal (fun z => Z.testbit z j)) in H.
    rewrite Z.land_spec, E, Z.pow2_bits_true, Z.bits_0 in H by done. done.
  - apply Z.bits_inj'. intros i Hi. rewrite Z.land_spec, Z.bits_0.
    destruct (decide (i = j)) as [->|Hne]; [by rewrite E|].
    rewrite Z.pow2_bits_false by done. apply andb_false_r.
Qed.

Lemma bit_mask_range bi : 0 < bit_mask bi < 256.
Proof.
  unfold bit_mask. rewrite Z.shiftl_1_l. assert (0 <= bi mod 8 < 8) by zdm.
  split; [apply Z.pow_pos_nonneg; lia|]. change 256 with (2 ^ 8). apply Z.pow_lt_mono_r; lia.
Qed.

Lemma byte_lor_mask v bi : byte_ok v -> byte_ok (Z.lor v (bit_mask bi)).
Proof.
  intros Hv. pose proof (bit_mask_range bi). unfold byte_ok in *.
  split; [apply Z.lor_nonneg; lia|]. change 256 with (2 ^ 8). apply lor_bound; lia.
Qed.

Lemma byte_land v w : byte_ok v -> byte_ok (Z.land v w).
Proof.
  unfold byte_ok. intros Hv. pose proof (proj2 (Z.land_nonneg v w)). split; [lia|].
  pose proof (lor_ge (Z.land v w) (Z.ldiff v w)) as Hle.
  rewrite Z.lor_comm, Z.lor_ldiff_and in Hle. pose proof (proj2 (Z.ldiff_nonneg v w)). lia.
Qed.

Lemma Forall_alter {A} (P : A -> Prop) (f : A -> A) l i :
  Forall P l -> (forall x, P x -> P (f x)) -> Forall P (alter f i l).
Proof.
  intros Hl Hf. rewrite Forall_lookup in Hl |- *. intros j x Hx.
  destruct (decide (j = i)) as [->|Hne].
  - rewrite list_lookup_alter_eq in Hx. destruct (l !! i) as [y|] eqn:E; [|done].
    cbn in Hx. simplify_eq. eauto.
  - rewrite list_lookup_alter_ne in Hx by done. eauto.
Qed.

Lemma blk_alter f x i : blk_ok x -> (forall v, byte_ok v -> byte_ok (f v)) -> blk_ok (alter f i x).
Proof.
  intros [Hl Hb] Hf. split; [by rewrite length_alter|by apply Forall_alter].
Qed.

Lemma nth_alter (f : Z -> Z) x i j :
  (i < length x)%nat -> nth j (alter f i x) 0 = if decide (j = i) then f (nth i x 0) else nth j x 0.
Proof.
  intros Hi. rewrite !nth_lookup. destruct (lookup_Some_total x i Hi) as [v Hv]. case_decide as Hj.
  - subst j. rewrite list_lookup_alter_eq, Hv. done.
  - by rewrite list_lookup_alter_ne.
Qed.

(** Changing bit [bi] changes no other bit of a bitmap block. *)
Lemma bit_clear_alter (f : Z -> Z) (c : bool) x bi bj :
  0 <= bi < BPB -> 0 <= bj < BPB -> length x = 1024%nat ->
  (forall v j, 0 <= j -> Z.testbit (f v) j = if j =? bi mod 8 then negb c else Z.testbit v j) ->
  bit_clear (alter f (Z.to_nat (bi / 8)) x) bj = if bj =? bi then c else bit_clear x bj.
Proof.
  intros Hi Hj Hl Hf. unfold BPB in *. rewrite !bit_clear_testbit by lia.
  rewrite nth_alter by (rewrite Hl; zdm). case_decide as E.
  - rewrite Hf by zdm. destruct (Z.eqb_spec (bj mod 8) (bi mod 8)), (Z.eqb_spec bj bi); try (exfalso; zdm; fail).
    + apply negb_involutive.
    + rewrite <- E. done.
  - destruct (Z.eqb_spec bj bi) as [->|]; done.
Qed.

Lemma testbit_set v bi j :
  0 <= j -> Z.testbit (Z.lor v (bit_mask bi)) j = if j =? bi mod 8 then negb false else Z.testbit v j.
Proof.
  intros Hj. unfold bit_mask. rewrite Z.lor_spec, Z.shiftl_1_l.
  destruct (Z.eqb_spec j (bi mod 8)) as [->|Hne].
  - rewrite Z.pow2_bits_true by done. apply orb_true_r.
  - rewrite Z.pow2_bits_false by done. apply orb_false_r.
Qed.

Lemma testbit_unset v bi j :
  0 <= j -> Z.testbit (Z.land v (Z.lnot (bit_mask bi))) j = if j =? bi mod 8 then negb true else Z.testbit v j.
Proof.
  intros Hj. unfold bit_mask. rewrite Z.land_spec, Z.lnot_spec, Z.shiftl_1_l by done.
  destruct (Z.eqb_spec j (bi mod 8)) as [->|Hne].
  - rewrite Z.pow2_bits_true by done. apply andb_false_r.
  - rewrite Z.pow2_bits_false by done. apply andb_true_r.
Qed.

(** ** Lemmas: the bitmap *)

Lemma BBLOCK_eq sb st b :
  bitmap_ok sb st -> 0 <= b < sb_size sb ->
  BBLOCK b sb = b / BPB + sb_bmapstart sb /\ 0 <= BBLOCK b sb < 2 ^ 31.
Proof.
  intros [] Hb. unfold BBLOCK. assert (0 <= b / BPB <= sb_size sb / BPB).
  { split; [apply Z.div_pos; unfold BPB; lia|apply Z.div_le_mono; unfold BPB; lia]. }
  rewrite u32_small by lia. lia.
Qed.

(** Changing the bit of block [r]. *)
Lemma used_alter sb st V r b f (c : bool) :
  bitmap_ok sb st -> 0 <= r < sb_size sb -> 0 <= b < sb_size sb -> blk_ok (V (BBLOCK r sb)) ->
  (forall v j, 0 <= j -> Z.testbit (f v) j = if j =? r mod BPB mod 8 then negb c else Z.testbit v j) ->
  used sb (vput (BBLOCK r sb) (alter f (Z.to_nat (r mod BPB / 8)) (V (BBLOCK r sb))) V) b =
    if b =? r then negb c else used sb V b.
Proof.
  intros Hbm Hr Hb Hx Hf. unfold used.
  destruct (BBLOCK_eq _ _ _ Hbm Hr) as [Er _], (BBLOCK_eq _ _ _ Hbm Hb) as [Eb _].
  destruct (decide (BBLOCK b sb = BBLOCK r sb)) as [E|Hne].
  - rewrite E, vput_same. rewrite (bit_clear_alter _ c) by (try apply Hx; try done; unfold BPB; zdm).
    assert (b / BPB = r / BPB) by lia. unfold BPB in *.
    destruct (Z.eqb_spec (b mod 8192) (r mod 8192)), (Z.eqb_spec b r); try (exfalso; zdm; fail); done.
  - rewrite vput_other by done. destruct (Z.eqb_spec b r) as [->|]; done.
Qed.

Lemma used_data sb V n x b :
  ~ bitmap_blk sb n -> 0 <= b < sb_size sb -> used sb (vput n x V) b = used sb V b.
Proof.
  intros Hn Hb. unfold used. rewrite vput_other; [done|]. intros E. apply Hn. by exists b.
Qed.

(** One bitmap block of the search. *)
Lemma balloc_scan_spec sb st V b :
  bitmap_ok sb st -> 0 <= b < sb_size sb -> b mod BPB = 0 ->
  match balloc_scan (V (BBLOCK b sb)) b (sb_size sb) with
  | Some bi => 0 <= bi < BPB /\ b + bi < sb_size sb /\ used sb V (b + bi) = false /\
               forall c, b <= c < b + bi -> used sb V c = true
  | None => forall c, b <= c < b + BPB -> c < sb_size sb -> used sb V c = true
  end.
Proof.
  intros Hbm Hb Hal. unfold balloc_scan.
  assert (Hu : forall j, 0 <= j < BPB -> b + j < sb_size sb ->
                 used sb V (b + j) = negb (bit_clear (V (BBLOCK b sb)) j)).
  { intros j Hj Hlt. unfold used. destruct (BBLOCK_eq _ _ _ Hbm Hb) as [Eb _].
    destruct (BBLOCK_eq _ _ (b + j) Hbm) as [Ej _]; [lia|]. unfold BPB in *.
    replace ((b + j) mod 8192) with j by zdm. by replace (BBLOCK (b + j) sb) with (BBLOCK b sb) by zdm. }
  pose proof (find_first (fun bi => bit_clear (V (BBLOCK b sb)) bi) 0 (Z.min BPB (sb_size sb - b))) as Hf.
  destruct (List.find _ _) as [bi|].
  - destruct Hf as (? & Hc & Hf). split_and!; [lia..| |].
    + rewrite Hu by lia. by rewrite Hc.
    + intros c Hc'. replace c with (b + (c - b)) by lia. rewrite Hu by lia. by rewrite Hf by lia.
  - intros c Hc Hlt. replace c with (b + (c - b)) by lia. rewrite Hu by lia. by rewrite Hf by lia.
Qed.

(** ** Lemmas: the operations *)

Section blocks.
Context (Cache : kstate -> gmap nat (Z * list Z) -> gmap Z (list Z) -> Prop) `{!BlockCache Cache}.
Abbreviation txn := (txn Cache).

Lemma bzero_spec s st h V k n Q :
  txn s st h V (S k) -> unheld h n -> (size h < 3)%nat -> 0 <= n < 2 ^ 31 -> off_log st n ->
  (forall s', txn s' st h (vput n (replicate 1024 0) V) k -> op_step s s' -> k_itable s' = k_itable s -> Q tt s') ->
  wp (bzero 1 n) Q s.
Proof.
  intros Ht Hun Hh Hn Hoff HQ. unfold bzero. rewrite u32_small by lia. apply wp_bind.
  eapply (txn_bread Cache); [done|done|done|]. intros i s1 Hi Ht1 Hs1 I1.
  eapply (txn_change Cache s1 st h V k i n (fun _ => replicate 1024 0)); [done|done|done|done|by apply blk_zero|].
  intros s2 Ht2 Hs2 I2. apply HQ; [done|by etrans|congruence].
Qed.

(** What balloc() promises: the first block not in use, or 0 when all are. *)
Definition balloc_post (sb : superblock) (st : Z) (h : gmap nat (Z * list Z)) (V : Z -> list Z) (k : nat)
    (s : kstate) (r : Z) (s' : kstate) : Prop :=
  op_step s s' /\ k_itable s' = k_itable s /\
  (r = 0 /\ (forall b, 0 <= b < sb_size sb -> used sb V b = true) /\ txn s' st h V (2 + k) \/
   exists V', fresh sb V V' r /\ (forall b, 0 <= b < r -> used sb V b = true) /\ txn s' st h V' k).

Lemma balloc_found s st h V k i sb b bi s0 :
  let x := V (BBLOCK b sb) in
  txn s st (<[i := (BBLOCK b sb, x)]> h) V (2 + k) -> h !! i = None -> k_sb s = sb ->
  bitmap_ok sb st -> free_ok sb st V -> alloc_unheld sb V h -> (size h < 3)%nat ->
  0 <= b < sb_size sb -> b mod BPB = 0 -> 0 <= bi < BPB -> b + bi < sb_size sb ->
  used sb V (b + bi) = false -> (forall c, 0 <= c < b + bi -> used sb V c = true) ->
  op_step s0 s -> k_itable s = k_itable s0 ->
  wp (upd_data i (alter (fun v => Z.lor v (bit_mask bi)) (Z.to_nat (bi / 8)));;
      log_write i;; brelse i;; bzero 1 (b + bi);; mret (inr (A := Z) (b + bi)))
    (fun r s' => exists a, r = inr a /\ balloc_post sb st h V k s0 a s') s.
Proof.
  intros x Ht Hi Hsb Hbm Hfree [_ Hun] Hh Hb Hal Hbi Hlt Hu Hfirst Hs0 I0. set (r := b + bi) in *.
  destruct (BBLOCK_eq _ _ _ Hbm Hb) as [Eb Rb]. destruct (BBLOCK_eq _ _ r Hbm) as [Er Rr]; [lia|].
  assert (E : BBLOCK b sb = BBLOCK r sb) by (unfold r, BPB in *; zdm).
  assert (Em : bi = r mod BPB) by (unfold r, BPB in *; zdm).
  destruct (Hfree r) as (Hr0 & Hoff & Hnb & _); [lia|done|].
  assert (Hx : blk_ok (V (BBLOCK r sb))) by by eapply (txn_blk Cache).
  set (V1 := vput (BBLOCK r sb) (alter (fun v => Z.lor v (bit_mask bi)) (Z.to_nat (bi / 8)) (V (BBLOCK r sb))) V).
  assert (Hu1 : forall c, 0 <= c < sb_size sb -> used sb V1 c = if c =? r then true else used sb V c).
  { intros c Hc. unfold V1. rewrite Em. eapply (used_alter sb st V r c _ false); try done; [lia|].
    intros v j Hj. by apply testbit_set. }
  subst x. rewrite E in Ht. eapply (txn_change_then Cache s st h V (S k) i (BBLOCK r sb)); try done.
  { apply bm_off with sb; [done|]. exists r. split; [lia|done]. }
  { apply blk_alter; [done|]. intros v. apply byte_lor_mask. }
  intros s1 Ht1 Hs1 I1. apply wp_bind. eapply bzero_spec; [exact Ht1|apply Hun; [lia|done]|done| |done|].
  { destruct Hbm. lia. }
  intros s2 Ht2 Hs2 I2. apply wp_ret. eexists. split; [done|]. split; [by etrans; [|etrans]|].
  split; [congruence|]. right. exists (vput r (replicate 1024 0) V1). split; [split_and!|]; try done; [lia..| | |].
  - apply vput_same.
  - intros c Hc. rewrite used_data, Hu1 by done. by destruct (c =? r), (used sb V c).
  - intros n Hn Hnb'. rewrite vput_other by done. apply vput_other. intros ->. apply Hnb'. exists r. split; [lia|done].
Qed.

Lemma balloc_spec s st h V k sb :
  txn s st h V (2 + k) -> k_sb s = sb -> bitmap_ok sb st -> free_ok sb st V -> alloc_unheld sb V h ->
  (size h < 3)%nat ->
  wp (balloc 1) (balloc_post sb st h V k s) s.
Proof.
  intros Ht Hsb Hbm Hfree Hun Hh. unfold balloc. apply wp_bind, wp_gets. rewrite Hsb.
  eapply (wp_loop (fun b s1 => txn s1 st h V (2 + k) /\ op_step s s1 /\ k_itable s1 = k_itable s /\
      0 <= b /\ b mod BPB = 0 /\ (forall c, 0 <= c < b -> c < sb_size sb -> used sb V c = true))
    (fun b => Z.to_nat ((sb_size sb - b + BPB - 1) / BPB))).
  2:{ split_and!; try done; lia. }
  2:{ destruct Hbm. unfold BPB. zdm. }
  intros b s1 (Ht1 & Hs1 & I1 & Hb & Hal & Hused). unfold balloc_body. apply wp_bind, wp_gets.
  rewrite (op_step_sb _ _ Hs1), Hsb. destruct (Z.ltb_spec b (sb_size sb)) as [Hlt|Hge].
  - assert (Hbb : bitmap_blk sb (BBLOCK b sb)) by (exists b; split; [lia|done]).
    apply wp_bind. eapply (txn_bread Cache); [done|by apply (proj1 Hun)|done|]. intros i s2 Hi Ht2 Hs2 I2.
    apply wp_bind. eapply (txn_data Cache); [done|by rewrite lookup_insert_eq|].
    pose proof (balloc_scan_spec sb st V b Hbm (conj Hb Hlt) Hal) as Hscan.
    destruct (balloc_scan _ _ _) as [bi|].
    + destruct Hscan as (Hbi & Hr & Hu & Hfirst).
      eapply wp_mono; [eapply (balloc_found s2 st h V k i sb b bi s); try done|].
      * by rewrite (op_step_sb _ _ Hs2), (op_step_sb _ _ Hs1).
      * intros c Hc. destruct (Z.lt_ge_cases c b); [apply Hused; lia|apply Hfirst; lia].
      * by etrans.
      * congruence.
      * cbn beta. by intros r s' (a & -> & Hp).
    + apply wp_bind. eapply (txn_drop Cache); [done|done|]. intros s3 Ht3 Hs3 I3. apply wp_ret.
      split; [|unfold BPB in *; destruct Hbm; zdm]. split_and!; try done.
      * by etrans; [|etrans].
      * congruence.
      * unfold BPB. lia.
      * unfold BPB in *. zdm.
      * intros c Hc Hcs. destruct (Z.lt_ge_cases c b); [apply Hused; lia|apply Hscan; lia].
  - apply wp_bind. eapply (txn_print Cache); [done| |].
    { by apply (bool_decide_unpack _). }
    intros s2 Ht2 Hs2 I2. apply wp_ret. split; [by etrans|]. split; [congruence|]. left.
    split_and!; try done. intros c Hc. apply Hused; lia.
Qed.

(** The bitmap block of [b], read and checked by bfree(). *)
Lemma bfree_spec s st h V k sb b Q :
  txn s st h V (S k) -> k_sb s = sb -> bitmap_ok sb st -> (forall n, bitmap_blk sb n -> unheld h n) ->
  (size h < 3)%nat -> 0 <= b < sb_size sb -> used sb V b = true ->
  (forall V' s', txn s' st h V' k -> op_step s s' -> k_itable s' = k_itable s ->
     (forall c, 0 <= c < sb_size sb -> used sb V' c = used sb V c && negb (c =? b)) ->
     (forall n, ~ bitmap_blk sb n -> V' n = V n) -> Q tt s') ->
  wp (bfree 1 b) Q s.
Proof.
  intros Ht Hsb Hbm Hun Hh Hb Hu HQ. unfold bfree. apply wp_bind, wp_gets. rewrite Hsb.
  assert (Hbb : bitmap_blk sb (BBLOCK b sb)) by (by exists b).
  apply wp_bind. eapply (txn_bread Cache); [done|by apply Hun|done|]. intros i s1 Hi Ht1 Hs1 I1. cbv zeta.
  apply wp_bind. eapply (txn_data Cache); [done|by rewrite lookup_insert_eq|].
  assert (bit_clear (V (BBLOCK b sb)) (b mod BPB) = false) as ->.
  { unfold used in Hu. by destruct (bit_clear _ _). }
  assert (Hx : blk_ok (V (BBLOCK b sb))) by by eapply (txn_blk Cache).
  eapply (txn_change Cache s1 st h V k i (BBLOCK b sb)); try done.
  { by eapply BBLOCK_eq. }
  { by apply bm_off with sb. }
  { apply blk_alter; [done|]. intros v. apply byte_land. }
  intros s2 Ht2 Hs2 I2. eapply HQ; [exact Ht2|by etrans|congruence| |].
  - intros c Hc. erewrite (used_alter sb st V b c _ true); try done.
    + destruct (c =? b); [by rewrite andb_false_r|by rewrite andb_true_r].
    + intros v j Hj. by apply testbit_unset.
  - intros n Hn. apply vput_other. by intros ->.
Qed.

Lemma bfree_panics s st h V k sb b :
  txn s st h V k -> k_sb s = sb -> bitmap_ok sb st -> (forall n, bitmap_blk sb n -> unheld h n) ->
  (size h < 3)%nat -> 0 <= b < sb_size sb -> used sb V b = false ->
  bfree 1 b s = Panic "freeing free block".
Proof.
  intros Ht Hsb Hbm Hun Hh Hb Hu. unfold bfree. apply bind_wp_panic, wp_gets. rewrite Hsb.
  assert (Hbb : bitmap_blk sb (BBLOCK b sb)) by (by exists b).
  apply bind_wp_panic. eapply (txn_bread Cache); [done|by apply Hun|done|]. intros i s1 Hi Ht1 Hs1 I1. cbv zeta.
  apply bind_wp_panic. eapply (txn_data Cache); [done|by rewrite lookup_insert_eq|].
  unfold used in Hu. by destruct (bit_clear _ _).
Qed.

End blocks.

(** ** Lemmas: the example *)

Lemma example_bitmap_blk n : bitmap_blk example_sb n -> n = 33.
Proof.
  intros (b & Hb & ->). cbn in Hb. unfold BBLOCK. cbn [sb_bmapstart example_sb].
  rewrite Z.div_small by (unfold BPB; lia). done.
Qed.

Lemma example_inode_blk n : inode_blk example_sb n -> n = 32.
Proof.
  intros (i & Hi & ->). cbn in Hi. unfold IBLOCK. cbn [sb_inodestart example_sb].
  rewrite Z.div_small by (unfold IPB; lia). done.
Qed.

Lemma example_bitmap_ok : bitmap_ok example_sb 2.
Proof. split; cbn; try (done || lia). intros n ->%example_bitmap_blk. right. lia. Qed.

Lemma example_used b : 0 <= b < 60 -> used example_sb (dget example_fs_disk) b = (b <? 37).
Proof.
  assert (Hall : Forall (fun b => used example_sb (dget example_fs_disk) b = (b <? 37)) (seqZ 0 60)).
  { apply (bool_decide_unpack _). by vm_compute. }
  intros Hb. rewrite Forall_forall in Hall. apply Hall, elem_of_seqZ. lia.
Qed.

Lemma example_free_ok : free_ok example_sb 2 (dget example_fs_disk).
Proof.
  intros b Hb Hf. cbn in Hb. rewrite example_used in Hf by done. apply Z.ltb_ge in Hf.
  split_and!; [lia|right; lia|intros ->%example_bitmap_blk; lia|intros ->%example_inode_blk; lia].
Qed.

(** ** Properties *)

(** C10: balloc() returns the first block that the bitmap says is not in use, zeroed
    and marked as used, and changes no other bit or block; it returns 0 exactly when
    every block is in use.  It does not write to the disk. *)
Theorem balloc_correct (Cache : kstate -> gmap nat (Z * list Z) -> gmap Z (list Z) -> Prop)
    `{!BlockCache Cache} s st h V k :
  txn Cache s st h V (2 + k) -> bitmap_ok (k_sb s) st -> free_ok (k_sb s) st V ->
  alloc_unheld (k_sb s) V h -> (size h < 3)%nat ->
  wp (balloc 1) (balloc_post Cache (k_sb s) st h V k s) s.
Proof. intros. by apply balloc_spec. Qed.

Lemma balloc_correct_witness :
  wp (balloc 1) (fun r s' => r = 37 /\ exists V', txn cache_ok s' 2 ∅ V' 8 /\
    used example_sb V' 37 = true /\ V' 35 = replicate 1024 65) example_op.
Proof.
  eapply wp_mono.
  - apply (balloc_correct cache_ok example_op 2 ∅ (dget example_fs_disk) 8 example_op_txn).
    + exact example_bitmap_ok.
    + exact example_free_ok.
    + split; by intros.
    + rewrite map_size_empty. lia.
  - cbn beta. intros r s' (_ & _ & [(_ & H & _)|(V' & (Hr & Hf & _ & HV & Hsame) & Hfirst & Ht)]).
    { specialize (H 37). rewrite example_used in H by lia. by cbn in H; ospecialize (H _). }
    assert (r = 37) as ->.
    { change (sb_size (k_sb example_op)) with 60 in *. change (k_sb example_op) with example_sb in *.
      rewrite example_used in Hf by lia. apply Z.ltb_ge in Hf. destruct (Z.lt_ge_cases 37 r) as [Hlt|]; [|lia].
      specialize (Hfirst 37). rewrite example_used in Hfirst by lia. by ospecialize (Hfirst _). }
    split; [done|]. exists V'. split_and!; [done| |].
    + rewrite HV by done. apply orb_true_r.
    + rewrite Hsame; [by vm_compute|done|]. by intros H%example_bitmap_blk.
Defined.

(** bfree() clears the bit of a block in use and changes no other bit and no
    block outside the bitmap; freeing a block that is not in use panics. *)
Theorem bfree_correct (Cache : kstate -> gmap nat (Z * list Z) -> gmap Z (list Z) -> Prop)
    `{!BlockCache Cache} s st h V k b :
  txn Cache s st h V (S k) -> bitmap_ok (k_sb s) st ->
  (forall n, bitmap_blk (k_sb s) n -> unheld h n) -> (size h < 3)%nat -> 0 <= b < sb_size (k_sb s) ->
  if used (k_sb s) V b then
    wp (bfree 1 b) (fun _ s' => exists V', txn Cache s' st h V' k /\ op_step s s' /\
      (forall c, 0 <= c < sb_size (k_sb s) -> used (k_sb s) V' c = used (k_sb s) V c && negb (c =? b)) /\
      (forall n, ~ bitmap_blk (k_sb s) n -> V' n = V n)) s
  else bfree 1 b s = Panic "freeing free block".
Proof.
  intros Ht Hbm Hun Hh Hb. destruct (used (k_sb s) V b) eqn:Hu.
  - eapply (bfree_spec Cache); try done. intros V' s' ? ? ? ? ?. by exists V'.
  - by eapply (bfree_panics Cache).
Qed.

Lemma bfree_correct_witness :
  bfree 1 37 example_op = Panic "freeing free block".
Proof.
  refine (bfree_correct cache_ok example_op 2 ∅ (dget example_fs_disk) 9 37 example_op_txn _ _ _ _).
  - exact example_bitmap_ok.
  - by intros.
  - rewrite map_size_empty. lia.
  - cbn. lia.
Defined.
