(* ===== verification/FsInode.v ===== *)
(** * Correctness of the inode layer (kernel/fs.c): iupdate(), ilock(), iget(), iput()

    [dinode_at] is the inode that the blocks of a transaction hold.  iupdate() and
    ilock() convert between it and the in-memory copy; the in-memory table never
    holds an inode twice ([itable_ok]). *)

From Stdlib Require Import ZArith Lia.
From stdpp Require Import base tactics numbers gmap strings option list.
From S2P Require Import Prelude Bytes Kernel Spinlock Kstring Sched Uart Printf Bio Bcache.
From S2P Require Import Log LogSpec BcacheProps Crash Fs Txn FsExample.

(** ** Specification *)

(** A value that the fields of struct dinode can hold. *)
Record dinode_ok (d : dinode) : Prop := {
  dk_type : - 2 ^ 15 <= di_type d < 2 ^ 15;
  dk_major : - 2 ^ 15 <= di_major d < 2 ^ 15;
  dk_minor : - 2 ^ 15 <= di_minor d < 2 ^ 15;
  dk_nlink : - 2 ^ 15 <= di_nlink d < 2 ^ 15;
  dk_size : 0 <= di_size d < 2 ^ 32;
  dk_len : length (di_addrs d) = 13%nat;
  dk_addrs : Forall (fun a => 0 <= a < 2 ^ 32) (di_addrs d);
}.

(** Inode [inum] in the blocks [V]. *)
Definition dinode_at (sb : superblock) (V : Z -> list Z) (inum : Z) : dinode :=
  dinode_dec (V (IBLOCK inum sb)) (dinode_off inum).

(** The inodes are on the disk and not in the log. *)
Record inodes_ok (sb : superblock) (st : Z) : Prop := {
  ib_n : 0 <= sb_ninodes sb < 2 ^ 31;
  ib_start : 0 <= sb_inodestart sb;
  ib_end : sb_inodestart sb + sb_ninodes sb / IPB < 2 ^ 31;
  ib_off i : 0 <= i < sb_ninodes sb -> off_log st (IBLOCK i sb);
}.

(** At most one entry of the in-memory table refers to an inode. *)
Record itable_ok (tbl : list inode) : Prop := {
  it_len : length tbl = 50%nat;
  it_ref i ip : tbl !! i = Some ip -> 0 <= i_ref ip;
  it_uniq i j ip jp : tbl !! i = Some ip -> tbl !! j = Some jp -> 0 < i_ref ip -> 0 < i_ref jp ->
    i_dev ip = i_dev jp -> i_inum ip = i_inum jp -> i = j;
}.

(** ** Lemmas: layout *)

Lemma slice_mid {A} (p q r : list A) a n :
  length p = a -> length q = n -> slice (p ++ q ++ r) a n = q.
Proof. intros <- <-. unfold slice. by rewrite drop_app_length, take_app_length. Qed.

(** Reading a field of a structure that was stored at [o]. *)
Lemma slice_stored {A} (x e : list A) o a n :
  (o + length e <= length x)%nat -> (a + n <= length e)%nat ->
  slice (splice x o e) (o + a) n = slice e a n.
Proof.
  intros Hx He. apply list_eq. intros j. destruct (decide (j < n)%nat).
  - rewrite !lookup_slice by done. rewrite lookup_splice_in by lia. f_equal. lia.
  - unfold slice. by rewrite !lookup_take_ge by lia.
Qed.

Lemma length_addrs_enc l : length (l ≫= le_split 4) = (4 * length l)%nat.
Proof. induction l as [|a l IH]; [done|]. rewrite bind_cons, length_app, length_le_split, IH. cbn [length]. lia. Qed.

Lemma length_dinode_enc d : length (di_addrs d) = 13%nat -> length (dinode_enc d) = 64%nat.
Proof. intros E. unfold dinode_enc. rewrite !length_app, !length_le_split, length_addrs_enc, E. lia. Qed.

Lemma slice_addrs l k a :
  l !! k = Some a -> slice (l ≫= le_split 4) (4 * k) 4 = le_split 4 a.
Proof.
  intros Hk. rewrite <- (take_drop_middle l k a Hk), bind_app, bind_cons.
  apply lookup_lt_Some in Hk. apply slice_mid; [rewrite length_addrs_enc; len|apply length_le_split].
Qed.

Lemma s16_mod v : - 2 ^ 15 <= v < 2 ^ 15 -> s16 (v mod 256 ^ Z.of_nat 2) = v.
Proof. intros Hv. unfold s16. change (256 ^ Z.of_nat 2) with (2 ^ 16). zdm. Qed.

(** A stored inode reads back. *)
Lemma dinode_dec_enc d x o :
  dinode_ok d -> (o + 64 <= length x)%nat -> dinode_dec (splice x o (dinode_enc d)) o = d.
Proof.
  intros [] Ho. pose proof (length_dinode_enc d dk_len0) as Hl.
  assert (Hg : forall a n q p r, dinode_enc d = p ++ q ++ r -> length p = a -> length q = n ->
            get_le n (o + a) (splice x o (dinode_enc d)) = le_combine q).
  { intros a n q p r E Hp Hq. unfold get_le. rewrite slice_stored; [|by rewrite Hl|].
    - by rewrite E, slice_mid.
    - rewrite E, !length_app. lia. }
  assert (Hf : forall k a, di_addrs d !! k = Some a ->
            get_le 4 (o + 12 + 4 * k) (splice x o (dinode_enc d)) = a).
  { intros k a Hk. pose proof (lookup_lt_Some _ _ _ Hk). unfold get_le.
    replace (o + 12 + 4 * k)%nat with (o + (12 + 4 * k))%nat by lia.
    rewrite slice_stored by (rewrite Hl; lia). unfold dinode_enc. rewrite !app_assoc.
    unfold slice. rewrite <- drop_drop, drop_app_length' by (rewrite !length_app, !length_le_split; lia).
    change (take 4 (drop (4 * k) ?l)) with (slice l (4 * k) 4).
    rewrite (slice_addrs _ _ a), le_combine_split by done. apply Z.mod_small.
    rewrite Forall_lookup in dk_addrs0. by eapply dk_addrs0. }
  destruct d as [t ma mi nl sz ad]. cbn [di_type di_major di_minor di_nlink di_size di_addrs] in *.
  unfold dinode_dec. f_equal.
  - replace o with (o + 0)%nat at 1 by lia. rewrite (Hg 0%nat 2%nat (le_split 2 t) [] _ eq_refl), le_combine_split by (done || apply length_le_split).
    by apply s16_mod.
  - rewrite (Hg 2%nat 2%nat (le_split 2 ma) (le_split 2 t) _ eq_refl), le_combine_split by apply length_le_split.
    by apply s16_mod.
  - rewrite (Hg 4%nat 2%nat (le_split 2 mi) (le_split 2 t ++ le_split 2 ma)
      (le_split 2 nl ++ le_split 4 sz ++ (ad ≫= le_split 4))), le_combine_split;
      [by apply s16_mod|by rewrite <- app_assoc|by rewrite length_app, !length_le_split|apply length_le_split].
  - rewrite (Hg 6%nat 2%nat (le_split 2 nl) (le_split 2 t ++ le_split 2 ma ++ le_split 2 mi)
      (le_split 4 sz ++ (ad ≫= le_split 4))), le_combine_split;
      [by apply s16_mod|by rewrite <- !app_assoc|by rewrite !length_app, !length_le_split|apply length_le_split].
  - rewrite (Hg 8%nat 4%nat (le_split 4 sz) (le_split 2 t ++ le_split 2 ma ++ le_split 2 mi ++ le_split 2 nl)
      (ad ≫= le_split 4)), le_combine_split;
      [by apply Z.mod_small|by rewrite <- !app_assoc|by rewrite !length_app, !length_le_split|apply length_le_split].
  - apply list_eq. intros k. rewrite list_lookup_fmap. destruct (ad !! k) as [a|] eqn:Hk.
    + pose proof (lookup_lt_Some _ _ _ Hk). rewrite lookup_seq_lt by lia. cbn. f_equal. by apply Hf.
    + apply lookup_ge_None in Hk. by rewrite lookup_seq_ge by lia.
Qed.

(** Storing an inode leaves the others of its block alone. *)
Lemma dinode_dec_other x o o' e :
  length e = 64%nat -> (o + 64 <= length x)%nat -> (o + 64 <= o' \/ o' + 64 <= o)%nat ->
  dinode_dec (splice x o e) o' = dinode_dec x o'.
Proof.
  intros He Hx Ho.
  assert (Hg : forall n a, (a + n <= 64)%nat -> get_le n (o' + a) (splice x o e) = get_le n (o' + a) x).
  { intros n a Ha. unfold get_le. by rewrite slice_splice_other by lia. }
  pose proof (Hg 2%nat 0%nat ltac:(lia)) as Hg0. rewrite Nat.add_0_r in Hg0.
  unfold dinode_dec. rewrite Hg0, !Hg by lia. f_equal.
  apply list_fmap_ext. intros k j [-> Hk]%lookup_seq. rewrite <- Nat.add_assoc. apply Hg. lia.
Qed.

Lemma dinode_enc_bytes d : Forall byte_ok (dinode_enc d).
Proof.
  unfold dinode_enc. rewrite !Forall_app. split_and!; try apply le_split_bytes.
  apply Forall_bind, Forall_forall. intros a _. apply le_split_bytes.
Qed.

Lemma dinode_off_le i : (dinode_off i + 64 <= 1024)%nat.
Proof. unfold dinode_off, IPB. zdm. Qed.

Lemma IBLOCK_eq sb st i :
  inodes_ok sb st -> 0 <= i < sb_ninodes sb ->
  IBLOCK i sb = i / IPB + sb_inodestart sb /\ 0 <= IBLOCK i sb < 2 ^ 31.
Proof.
  intros [] Hi. unfold IBLOCK. assert (0 <= i / IPB <= sb_ninodes sb / IPB).
  { split; [apply Z.div_pos; unfold IPB; lia|apply Z.div_le_mono; unfold IPB; lia]. }
  rewrite u32_small by lia. lia.
Qed.

(** The blocks with inode [i] stored. *)
Definition put_dinode (sb : superblock) (i : Z) (d : dinode) (V : Z -> list Z) : Z -> list Z :=
  vput (IBLOCK i sb) (splice (V (IBLOCK i sb)) (dinode_off i) (dinode_enc d)) V.

Lemma dinode_at_put sb st i j d V :
  inodes_ok sb st -> 0 <= i < sb_ninodes sb -> 0 <= j < sb_ninodes sb -> dinode_ok d ->
  blk_ok (V (IBLOCK i sb)) ->
  dinode_at sb (put_dinode sb i d V) j = if j =? i then d else dinode_at sb V j.
Proof.
  intros Hio Hi Hj Hd [Hx _]. unfold dinode_at, put_dinode. pose proof (dinode_off_le i).
  destruct (Z.eqb_spec j i) as [->|Hne].
  { rewrite vput_same. apply dinode_dec_enc; [done|lia]. }
  destruct (decide (IBLOCK j sb = IBLOCK i sb)) as [E|HE]; [|by rewrite vput_other].
  rewrite E, vput_same. apply dinode_dec_other; [by apply length_dinode_enc, Hd|lia|].
  destruct (IBLOCK_eq _ _ _ Hio Hi) as [Ei _], (IBLOCK_eq _ _ _ Hio Hj) as [Ej _].
  unfold dinode_off, IPB in *. zdm.
Qed.

(** ** Lemmas: iupdate() and ilock() *)

Section inode.
Context (Cache : kstate -> gmap nat (Z * list Z) -> gmap Z (list Z) -> Prop) `{!BlockCache Cache}.
Abbreviation txn := (txn Cache).

Lemma iupdate_spec s st h V k ip i Q :
  txn s st h V (S k) -> inodes_ok (k_sb s) st -> k_itable s !! ip = Some i -> i_dev i = 1 ->
  0 <= i_inum i < sb_ninodes (k_sb s) -> length (i_addrs i) = 13%nat ->
  unheld h (IBLOCK (i_inum i) (k_sb s)) -> (size h < 3)%nat ->
  (forall s', txn s' st h (put_dinode (k_sb s) (i_inum i) (inode_dinode i) V) k -> op_step s s' ->
     k_itable s' = k_itable s -> Q tt s') ->
  wp (iupdate ip) Q s.
Proof.
  intros Ht Hio Hi Hdev Hin Hlen Hun Hh HQ. unfold iupdate.
  apply wp_bind. eapply wp_get_entry; [done|]. apply wp_bind, wp_gets. rewrite Hdev.
  apply wp_bind. eapply (txn_bread Cache); [done|done|done|]. intros b s1 Hb Ht1 Hs1 I1.
  destruct (txn_blk Cache _ _ _ _ _ (IBLOCK (i_inum i) (k_sb s)) Ht) as [Hx Hxb].
  pose proof (dinode_off_le (i_inum i)). pose proof (length_dinode_enc (inode_dinode i) Hlen) as Hle.
  eapply (txn_change Cache s1 st h V k b (IBLOCK (i_inum i) (k_sb s))); try done.
  - by eapply IBLOCK_eq.
  - by apply (ib_off _ _ Hio).
  - split; [rewrite length_splice; lia|]. apply Forall_splice; [done|apply dinode_enc_bytes].
  - intros s2 Ht2 Hs2 I2. apply HQ; [done|by etrans|congruence].
Qed.

Lemma ilock_load_spec s st h V k ip i Q :
  txn s st h V k -> k_itable s !! ip = Some i -> i_dev i = 1 -> i_valid i = false ->
  unheld h (IBLOCK (i_inum i) (k_sb s)) -> (size h < 3)%nat ->
  di_type (dinode_at (k_sb s) V (i_inum i)) <> 0 ->
  (forall s', txn s' st h V k -> op_step s s' ->
     k_itable s' = <[ip := upd_i_valid (fun _ => true) (inode_load (dinode_at (k_sb s) V (i_inum i)) i)]> (k_itable s) ->
     Q tt s') ->
  wp (ilock_load ip) Q s.
Proof.
  intros Ht Hi Hdev Hval Hun Hh Hty HQ. unfold ilock_load.
  apply wp_bind. eapply wp_get_entry; [done|]. rewrite Hval. cbn [negb]. apply wp_bind, wp_gets. rewrite Hdev.
  apply wp_bind. eapply (txn_bread Cache); [done|done|done|]. intros b s1 Hb Ht1 Hs1 I1.
  apply wp_bind. eapply (txn_data Cache); [done|by rewrite lookup_insert_eq|].
  fold (dinode_at (k_sb s) V (i_inum i)). set (d := dinode_at (k_sb s) V (i_inum i)) in *.
  apply wp_bind, wp_modify. set (s2 := upd_k_itable _ s1).
  assert (Ht2 : txn s2 st (<[b := (IBLOCK (i_inum i) (k_sb s), V (IBLOCK (i_inum i) (k_sb s)))]> h) V k).
  { by apply (txn_keep Cache s1); [done|apply op_step_itable|..]. }
  apply wp_bind. eapply (txn_drop Cache); [done|done|]. intros s3 Ht3 Hs3 I3.
  apply wp_bind, wp_modify. set (s4 := upd_k_itable _ s3).
  assert (Ht4 : txn s4 st h V k) by (by apply (txn_keep Cache s3); [done|apply op_step_itable|..]).
  assert (I4 : k_itable s4 = <[ip := upd_i_valid (fun _ => true) (inode_load d i)]> (k_itable s)).
  { change (k_itable s4) with (alter (upd_i_valid (fun _ => true)) ip (k_itable s3)). rewrite I3.
    change (k_itable s2) with (alter (inode_load d) ip (k_itable s1)). rewrite I1.
    rewrite (list_alter_insert (inode_load d) _ _ i) by done. pose proof (lookup_lt_Some _ _ _ Hi).
    rewrite (list_alter_insert _ _ _ (inode_load d i)) by (by rewrite list_lookup_insert_eq).
    by rewrite list_insert_insert_eq. }
  apply wp_bind. eapply wp_get_entry.
  { rewrite I4. apply list_lookup_insert_eq. by eapply lookup_lt_Some. }
  change (i_type (upd_i_valid _ (inode_load d i))) with (di_type d).
  rewrite (proj2 (Z.eqb_neq _ _)) by done. apply wp_ret, HQ; [done| |done].
  etrans; [exact Hs1|]. etrans; [apply op_step_itable|]. etrans; [exact Hs3|]. apply op_step_itable.
Qed.

End inode.

(** ** Lemmas: the in-memory table *)

Definition is_inode (dev inum : Z) (ip : inode) : bool :=
  (0 <? i_ref ip) && (i_dev ip =? dev) && (i_inum ip =? inum).

(** The entry that iget() returns, and what it does to it: the entry of the inode
    gets one more reference, else the first unused entry is taken for it. *)
Definition iget_pick (dev inum : Z) (tbl : list inode) : option (nat * (inode -> inode)) :=
  match find_index (is_inode dev inum) tbl with
  | Some ip => Some (ip, upd_i_ref (fun n => n + 1))
  | None =>
      match find_index (fun ip => i_ref ip =? 0) tbl with
      | Some ip => Some (ip, fun i => upd_i_valid (fun _ => false) (upd_i_ref (fun _ => 1)
                               (upd_i_inum (fun _ => inum) (upd_i_dev (fun _ => dev) i))))
      | None => None
      end
  end.

Lemma iget_scan_eq dev inum tbl n e :
  iget_scan dev inum n e tbl =
    match find_index (is_inode dev inum) tbl with
    | Some j => (Some (n + j)%nat, (iget_scan dev inum n e tbl).2)
    | None => (None, match e with
                     | Some x => Some x
                     | None => Nat.add n <$> find_index (fun ip => i_ref ip =? 0) tbl
                     end)
    end.
Proof.
  revert n e. induction tbl as [|ip tbl IH]; intros n e; [by destruct e|].
  cbn [iget_scan find_index]. fold (is_inode dev inum ip). destruct (is_inode dev inum ip).
  { cbn. by rewrite Nat.add_0_r. }
  rewrite IH. destruct (find_index (is_inode dev inum) tbl) as [j|].
  { cbn. do 2 f_equal. lia. }
  cbn. f_equal. destruct e as [x|]; [done|]. rewrite bool_decide_true by done. cbn [andb].
  destruct (i_ref ip =? 0); [cbn; f_equal; lia|].
  destruct (find_index _ tbl); [cbn; f_equal; lia|done].
Qed.

Lemma iget_spec s dev inum i f :
  calm [] s -> iget_pick dev inum (k_itable s) = Some (i, f) ->
  wp (iget dev inum) (fun r s' => r = i /\ s' ≡ upd_k_itable (alter f i) s) s.
Proof.
  intros Hc Hp. unfold iget. apply wp_bind, wp_acquire; [apply Hc, not_elem_of_nil|].
  apply wp_bind, wp_gets. change (k_itable (locked L_itable s)) with (k_itable s).
  rewrite iget_scan_eq. unfold iget_pick in Hp.
  destruct (find_index (is_inode dev inum) _) as [j|].
  - simplify_eq. unfold upd_inode. wp_steps. wp_rel; [apply Hc|]. wp_steps. split; [done|keq].
  - destruct (find_index _ _) as [j|]; [|done]. simplify_eq. cbn [fmap option_fmap option_map Nat.add].
    unfold upd_inode. wp_steps. wp_rel; [apply Hc|]. wp_steps. split; [done|].
    rewrite !upd_k_itable_comp. erewrite (upd_k_itable_ext _ _ (locked L_itable s)); [keq|].
    rewrite !list_alter_alter_eq. done.
Qed.

Lemma iget_panics s dev inum :
  calm [] s -> iget_pick dev inum (k_itable s) = None -> iget dev inum s = Panic "iget: no inodes".
Proof.
  intros Hc Hp. unfold iget. apply bind_wp_panic, wp_acquire; [apply Hc, not_elem_of_nil|].
  apply bind_wp_panic, wp_gets. change (k_itable (locked L_itable s)) with (k_itable s).
  rewrite iget_scan_eq. unfold iget_pick in Hp.
  destruct (find_index (is_inode dev inum) _); [done|]. by destruct (find_index _ _).
Qed.

(** Changing the reference count of an entry that is in use keeps the table. *)
Lemma itable_ok_ref tbl i ip f :
  itable_ok tbl -> tbl !! i = Some ip -> 0 < i_ref ip -> 0 <= f (i_ref ip) ->
  itable_ok (alter (upd_i_ref f) i tbl).
Proof.
  intros [Hl Hr Hu] Hi Hpos Hf. rewrite (list_alter_insert _ _ _ _ Hi).
  assert (H : forall j jp, <[i := upd_i_ref f ip]> tbl !! j = Some jp -> exists jp0, tbl !! j = Some jp0 /\
            i_dev jp = i_dev jp0 /\ i_inum jp = i_inum jp0 /\ (0 < i_ref jp -> 0 < i_ref jp0) /\ 0 <= i_ref jp).
  { intros j jp [(<- & <- & _)|[? Hj]]%list_lookup_insert_Some; [by exists ip|].
    exists jp. split_and!; try done. by eapply Hr. }
  split; [by rewrite length_insert|by intros j jp (? & _ & _ & _ & _ & ?)%H|].
  intros j1 j2 jp1 jp2 (p1 & H1 & D1 & N1 & R1 & _)%H (p2 & H2 & D2 & N2 & R2 & _)%H Hp1 Hp2 Ed En.
  apply (Hu j1 j2 p1 p2); try done; [by apply R1|by apply R2|congruence|congruence].
Qed.

(** iget() keeps the table. *)
Lemma itable_ok_iget dev inum tbl i f :
  itable_ok tbl -> iget_pick dev inum tbl = Some (i, f) -> itable_ok (alter f i tbl).
Proof.
  intros Hok. unfold iget_pick. destruct (find_index (is_inode dev inum) tbl) as [j|] eqn:E.
  - intros [= <- <-]. apply find_index_Some in E as (ip & Hip & Hm & _).
    unfold is_inode in Hm. rewrite !andb_true_iff in Hm. destruct Hm as [[Hpos%Z.ltb_lt _] _].
    apply (itable_ok_ref _ _ ip); [done..|lia].
  - destruct (find_index (fun ip => i_ref ip =? 0) tbl) as [j|] eqn:E0; [|done]. intros [= <- <-].
    apply find_index_Some in E0 as (ip & Hip & _ & _). rewrite (list_alter_insert _ _ _ _ Hip).
    set (ip' := upd_i_valid _ _). destruct Hok as [Hl Hr Hu].
    assert (Hother : forall k kp, k <> j -> <[j := ip']> tbl !! k = Some kp -> 0 < i_ref kp ->
              i_dev kp = dev -> i_inum kp = inum -> False).
    { intros k kp Hk Hkp Hpos Hd Hn. rewrite list_lookup_insert_ne in Hkp by done.
      pose proof (find_index_None _ _ E _ _ Hkp) as H. unfold is_inode in H.
      rewrite (proj2 (Z.ltb_lt _ _)), (proj2 (Z.eqb_eq _ dev)), (proj2 (Z.eqb_eq _ inum)) in H; done. }
    split; [by rewrite length_insert| |].
    + intros k kp [(<- & <- & _)|[_ Hk]]%list_lookup_insert_Some; [by cbn|by eapply Hr].
    + intros k1 k2 p1 p2 H1 H2 R1 R2 Ed En.
      destruct (decide (k1 = j)) as [->|N1], (decide (k2 = j)) as [->|N2]; [done|..].
      * exfalso. rewrite list_lookup_insert_eq in H1 by (by eapply lookup_lt_Some). simplify_eq. by eapply (Hother k2).
      * exfalso. rewrite list_lookup_insert_eq in H2 by (by eapply lookup_lt_Some). simplify_eq. by eapply (Hother k1).
      * rewrite list_lookup_insert_ne in H1, H2 by done. by eapply Hu.
Qed.

Lemma example_itable_ok : itable_ok (k_itable example_op).
Proof.
  change (k_itable example_op) with example_itable.
  assert (Hfree : forall i ip, example_itable !! S (S i) = Some ip -> i_ref ip = 0).
  { intros i ip Hi. change (example_itable !! S (S i)) with (replicate 48 zero_inode !! i) in Hi.
    by apply lookup_replicate in Hi as [-> _]. }
  assert (H01 : example_itable !! 0%nat = Some (example_slot 2 example_file) /\
                example_itable !! 1%nat = Some (example_slot 1 example_root)) by done.
  destruct H01 as [H0 H1]. split; [done|..].
  - intros [|[|i]] ip Hi; [rewrite H0 in Hi; by simplify_eq|rewrite H1 in Hi; by simplify_eq|].
    by rewrite (Hfree _ _ Hi).
  - intros [|[|i]] [|[|j]] ip jp Hi Hj Hp Hq _ E; try done;
      try (apply Hfree in Hi; lia); try (apply Hfree in Hj; lia); simplify_eq; done.
Qed.

(** ** Properties *)

(** Iget() returns the entry of an inode that is in the table with one more
    reference, else the first unused entry, marked as not yet read, else it panics;
    the table never refers to an inode from two entries. *)
Theorem iget_correct s dev inum :
  calm [] s -> itable_ok (k_itable s) ->
  match iget_pick dev inum (k_itable s) with
  | Some (i, f) =>
      wp (iget dev inum) (fun r s' =>
        r = i /\ s' ≡ upd_k_itable (alter f i) s /\ itable_ok (k_itable s') /\
        exists ip, k_itable s' !! i = Some ip /\ is_inode dev inum ip = true) s
  | None => iget dev inum s = Panic "iget: no inodes"
  end.
Proof.
  intros Hc Hok. destruct (iget_pick dev inum (k_itable s)) as [[i f]|] eqn:E; [|by apply iget_panics].
  eapply wp_mono; [by apply iget_spec|]. cbn beta. intros r s' [-> Es]. split; [done|]. split; [done|].
  rewrite (keq_k_itable _ _ Es). split; [by eapply itable_ok_iget|]. ksimpl. unfold iget_pick in E.
  destruct (find_index (is_inode dev inum) _) as [j|] eqn:Ej.
  - simplify_eq. apply find_index_Some in Ej as (ip & Hip & Hm & _).
    rewrite list_lookup_alter_eq, Hip. eexists. split; [done|]. unfold is_inode in *. ksimpl.
    rewrite !andb_true_iff in *. destruct Hm as [[Hm ?] ?]. split_and!; try done. lia.
  - destruct (find_index (fun ip => i_ref ip =? 0) _) as [j|] eqn:E0; [|done]. simplify_eq.
    apply find_index_Some in E0 as (ip & Hip & _ & _).
    rewrite list_lookup_alter_eq, Hip. eexists. split; [done|]. unfold is_inode. ksimpl.
    by rewrite !Z.eqb_refl.
Qed.

Lemma iget_correct_witness :
  wp (iget 1 5) (fun r s' => r = 2%nat /\ itable_ok (k_itable s')) example_op.
Proof.
  assert (Hc : calm [] example_op).
  { split; [by split|done|done|]. exists 0%nat. split; [done|lia]. }
  assert (G : forall o, fst <$> o = Some 2%nat ->
    match o with
    | Some (i, f) =>
        wp (iget 1 5) (fun r s' =>
          r = i /\ s' ≡ upd_k_itable (alter f i) example_op /\ itable_ok (k_itable s') /\
          exists ip, k_itable s' !! i = Some ip /\ is_inode 1 5 ip = true) example_op
    | None => iget 1 5 example_op = Panic "iget: no inodes"
    end -> wp (iget 1 5) (fun r s' => r = 2%nat /\ itable_ok (k_itable s')) example_op).
  { intros [[i f]|] E; [|discriminate E]. injection E as ->. intros H. eapply wp_mono; [exact H|].
    cbn beta. intros r s' (-> & _ & H2 & _). split; [reflexivity|exact H2]. }
  apply (G (iget_pick 1 5 (k_itable example_op))); [by vm_compute|].
  exact (iget_correct example_op 1 5 Hc example_itable_ok).
Defined.

(** what iupdate() stored is what ilock() reads back after the in-memory copy is
    lost; every other inode and every block of another kind is as before. *)
Theorem iupdate_ilock_roundtrip (Cache : kstate -> gmap nat (Z * list Z) -> gmap Z (list Z) -> Prop)
    `{!BlockCache Cache} s st h V k ip i lost :
  txn Cache s st h V (S k) -> inodes_ok (k_sb s) st -> k_itable s !! ip = Some i -> i_dev i = 1 ->
  0 <= i_inum i < sb_ninodes (k_sb s) -> dinode_ok (inode_dinode i) -> i_type i <> 0 ->
  unheld h (IBLOCK (i_inum i) (k_sb s)) -> (size h < 3)%nat ->
  wp (iupdate ip;;
      upd_inode ip (fun j => upd_i_valid (fun _ => false) (inode_load lost j));;
      ilock_load ip)
    (fun _ s' => exists V', txn Cache s' st h V' k /\ op_step s s' /\
      k_itable s' = <[ip := upd_i_valid (fun _ => true) i]> (k_itable s) /\
      dinode_at (k_sb s) V' (i_inum i) = inode_dinode i /\
      (forall j, 0 <= j < sb_ninodes (k_sb s) -> j <> i_inum i -> dinode_at (k_sb s) V' j = dinode_at (k_sb s) V j) /\
      (forall n, n <> IBLOCK (i_inum i) (k_sb s) -> V' n = V n)) s.
Proof.
  intros Ht Hio Hi Hdev Hin Hd Hty Hun Hh. apply wp_bind.
  assert (Hlen : length (i_addrs i) = 13%nat) by apply Hd.
  assert (Hx : blk_ok (V (IBLOCK (i_inum i) (k_sb s)))) by by eapply (txn_blk Cache).
  assert (Hat : dinode_at (k_sb s) (put_dinode (k_sb s) (i_inum i) (inode_dinode i) V) (i_inum i) = inode_dinode i).
  { rewrite (dinode_at_put _ st) by done. by rewrite Z.eqb_refl. }
  eapply (iupdate_spec Cache); try done. intros s1 Ht1 Hs1 I1. apply wp_bind, wp_modify.
  set (i2 := upd_i_valid (fun _ => false) (inode_load lost i)). set (s2 := upd_k_itable _ s1).
  assert (I2 : k_itable s2 = <[ip := i2]> (k_itable s)).
  { change (k_itable s2) with (alter (fun j => upd_i_valid (fun _ => false) (inode_load lost j)) ip (k_itable s1)).
    rewrite I1. by rewrite (list_alter_insert _ _ _ _ Hi). }
  assert (Hs2 : op_step s1 s2) by apply op_step_itable.
  assert (Esb : k_sb s2 = k_sb s) by (by rewrite (op_step_sb _ _ Hs2), (op_step_sb _ _ Hs1)).
  eapply (ilock_load_spec Cache s2 st h _ k ip i2); rewrite ?Esb; try done.
  - eapply (txn_keep Cache s1); [exact Ht1|done|done|done].
  - rewrite I2. apply list_lookup_insert_eq. by eapply lookup_lt_Some.
  - change (i_inum i2) with (i_inum i). by rewrite Hat.
  - intros s3 Ht3 Hs3 I3. eexists. split; [exact Ht3|].
    split; [etrans; [exact Hs1|]; etrans; [exact Hs2|exact Hs3]|]. split_and!.
    + rewrite I3, I2, list_insert_insert_eq. change (i_inum i2) with (i_inum i). rewrite Hat. by destruct i.
    + done.
    + intros j Hj Hne. rewrite (dinode_at_put _ st) by done. by rewrite (proj2 (Z.eqb_neq j _)).
    + intros n Hn. by apply vput_other.
Qed.

Lemma iupdate_ilock_roundtrip_witness :
  wp (iupdate 0;; upd_inode 0 (fun j => upd_i_valid (fun _ => false) (inode_load example_root j));; ilock_load 0)
    (fun _ s' => exists ip, k_itable s' !! 0%nat = Some ip /\ i_size ip = 1500) example_op.
Proof.
  eapply wp_mono.
  - apply (iupdate_ilock_roundtrip cache_ok example_op 2 ∅ (dget example_fs_disk) 9 0 (example_slot 2 example_file) example_root example_op_txn).
    + split; [cbn; lia|cbn; lia|by vm_compute|]. intros i Hi. cbn in Hi. right.
      unfold IBLOCK. cbn [sb_inodestart k_sb example_op upd_k_sb example_sb].
      rewrite Z.div_small by (unfold IPB; lia). by vm_compute.
    + done.
    + done.
    + cbn. lia.
    + split; try (cbn; lia); [done|]. apply (bool_decide_unpack _). by vm_compute.
    + done.
    + done.
    + rewrite map_size_empty. lia.
  - cbn beta. intros _ s' (V' & _ & _ & E & _). rewrite E. eexists. split; [reflexivity|]. done.
Defined.
