(* ===== verification/FsData.v ===== *)
(** * Correctness of file contents (kernel/fs.c): bmap()

    [file_addr] is the block that holds a part of a file, through the direct blocks
    and the indirect block.  bmap() returns it, allocating it first when it is
    missing. *)

From Stdlib Require Import ZArith Lia.
From stdpp Require Import base tactics numbers gmap strings option list.
From S2P Require Import Prelude Bytes Kernel Spinlock Kstring Sched Uart Printf Bio Bcache.
From S2P Require Import Log LogSpec BcacheProps Crash Fs Txn FsExample FsBlocks.

(** ** Specification *)

(** The block of the [bn]th part of a file, 0 if it has none. *)
Definition ind_blk (i : inode) : Z := nth 12 (i_addrs i) 0.

Definition file_addr (V : Z -> list Z) (i : inode) (bn : Z) : Z :=
  if bn <? NDIRECT then nth (Z.to_nat bn) (i_addrs i) 0
  else if ind_blk i =? 0 then 0 else ind_get (V (ind_blk i)) (bn - NDIRECT).

(** A block in use for data. *)
Definition live (sb : superblock) (st : Z) (V : Z -> list Z) (a : Z) : Prop :=
  0 < a < sb_size sb /\ data_blk sb st a /\ used sb V a = true.

(** The blocks [F] of a file and its indirect block [ind] are in use and distinct. *)
Record amap_ok (sb : superblock) (st : Z) (V : Z -> list Z) (ind : Z) (F : Z -> Z) : Prop := {
  am_live bn : 0 <= bn < MAXFILE -> F bn <> 0 -> live sb st V (F bn);
  am_ind : ind <> 0 -> live sb st V ind;
  am_inj bn bn' : 0 <= bn < MAXFILE -> 0 <= bn' < MAXFILE -> F bn <> 0 -> F bn = F bn' -> bn = bn';
  am_ne bn : 0 <= bn < MAXFILE -> F bn <> 0 -> F bn <> ind;
}.

Record inode_wf (sb : superblock) (st : Z) (V : Z -> list Z) (i : inode) : Prop := {
  iw_dev : i_dev i = 1;
  iw_len : length (i_addrs i) = 13%nat;
  iw_map : amap_ok sb st V (ind_blk i) (file_addr V i);
}.

(** Blocks in use stay in use. *)
Definition used_le (sb : superblock) (V V' : Z -> list Z) : Prop :=
  forall b, 0 <= b < sb_size sb -> used sb V b = true -> used sb V' b = true.

(** [V'] has the blocks of [V] that were in use, except those in [X] and the bitmap. *)
Definition grow (sb : superblock) (X : Z -> Prop) (V V' : Z -> list Z) : Prop :=
  used_le sb V V' /\
  (forall n, ~ bitmap_blk sb n -> ~ X n -> ~ (0 <= n < sb_size sb /\ used sb V n = false) -> V' n = V n).

(** What bmap() promises: [r] is the block of part [bn]; it is the old one if there
    was one, else a block that was free, or 0 if none is. *)
Record bmap_post (sb : superblock) (st : Z) (V V' : Z -> list Z) (i i' : inode) (bn r : Z) : Prop := {
  bp_inode : i' = upd_i_addrs (fun _ => i_addrs i') i;
  bp_wf : inode_wf sb st V' i';
  bp_grow : grow sb (eq (ind_blk i)) V V';
  bp_addr : file_addr V' i' bn = r;
  bp_other bn' : 0 <= bn' < MAXFILE -> bn' <> bn -> file_addr V' i' bn' = file_addr V i bn';
  bp_old : file_addr V i bn <> 0 -> V' = V /\ i' = i;
  bp_new : file_addr V i bn = 0 -> r <> 0 -> used sb V r = false /\ V' r = replicate 1024 0;
  bp_ind : ind_blk i' = ind_blk i \/ used sb V (ind_blk i') = false;
  bp_full : r = 0 -> forall b, 0 <= b < sb_size sb -> used sb V' b = true;
}.

(** ** Lemmas: block maps *)

Lemma fresh_grow sb X V V' r : fresh sb V V' r -> grow sb X V V'.
Proof.
  intros (Hr & Hu & _ & HV & Hs). split.
  - intros b Hb Hub. by rewrite HV, Hub.
  - intros n Hn _ Hf. apply Hs; [|done]. intros ->. apply Hf. split; [lia|done].
Qed.

Lemma grow_refl sb X V : grow sb X V V.
Proof. split; [by intros b|done]. Qed.

Lemma grow_trans sb X V1 V2 V3 : grow sb X V1 V2 -> grow sb X V2 V3 -> grow sb X V1 V3.
Proof.
  intros [U1 S1] [U2 S2]. split; [intros b Hb Hu; by apply U2, U1|]. intros n Hn HX Hf. rewrite S2; [by apply S1|done|done|].
  intros [Hr Hu]. destruct (used sb V1 n) eqn:E; [rewrite (U1 n Hr E) in Hu; done|]. by apply Hf.
Qed.

Lemma le_free sb st V V' : used_le sb V V' -> free_ok sb st V -> free_ok sb st V'.
Proof.
  intros U Hf b Hb Hu. apply Hf; [done|]. destruct (used sb V b) eqn:E; [|done].
  rewrite (U b Hb E) in Hu. done.
Qed.

Lemma le_unheld sb V V' h : used_le sb V V' -> alloc_unheld sb V h -> alloc_unheld sb V' h.
Proof.
  intros U [H1 H2]. split; [done|]. intros b Hb Hu. apply H2; [done|].
  destruct (used sb V b) eqn:E; [|done]. rewrite (U b Hb E) in Hu. done.
Qed.

Lemma live_le sb st V V' a : used_le sb V V' -> live sb st V a -> live sb st V' a.
Proof. intros U (Ha & Hd & Hu). split; [done|]. split; [done|]. apply U; [lia|done]. Qed.

(** A live block keeps its contents. *)
Lemma grow_same sb st X V V' a : grow sb X V V' -> live sb st V a -> ~ X a -> V' a = V a.
Proof.
  intros [_ S] (Ha & (_ & _ & Hb & _) & Hu) HX. apply S; [done|done|]. intros [_ H]. congruence.
Qed.

Lemma fresh_live sb st V V' r : free_ok sb st V -> fresh sb V V' r -> live sb st V' r.
Proof.
  intros Hf (Hr & Hu & _ & HV & _). split; [done|]. split; [apply Hf; [lia|done]|].
  rewrite HV, Z.eqb_refl by lia. apply orb_true_r.
Qed.

Lemma fresh_ne sb st V V' r a : fresh sb V V' r -> live sb st V a -> a <> r.
Proof. intros (_ & Hu & _) (_ & _ & Hu') ->. congruence. Qed.

Lemma amap_ok_ext sb st V V' ind F F' :
  (forall bn, 0 <= bn < MAXFILE -> F' bn = F bn) -> used_le sb V V' ->
  amap_ok sb st V ind F -> amap_ok sb st V' ind F'.
Proof.
  intros E Hg []. split.
  - intros bn Hb. rewrite E by done. intros Hne. eapply live_le; [done|auto].
  - intros Hne. eapply live_le; [done|auto].
  - intros bn bn' Hb Hb'. rewrite !E by done. auto.
  - intros bn Hb. rewrite E by done. auto.
Qed.

(** A new block becomes part [bn] of the file. *)
Lemma amap_ok_put sb st V V' ind F F' bn r :
  live sb st V' r -> (forall a, live sb st V a -> a <> r) -> used_le sb V V' -> F' bn = r ->
  (forall bn', 0 <= bn' < MAXFILE -> bn' <> bn -> F' bn' = F bn') ->
  amap_ok sb st V ind F -> amap_ok sb st V' ind F'.
Proof.
  intros Hl Hr Hle Hbn Ho Hm.
  assert (Hne : forall bn', 0 <= bn' < MAXFILE -> F bn' <> 0 -> F bn' <> r).
  { intros bn' Hb' Hn. apply Hr. by eapply am_live. }
  assert (Hval : forall bn', 0 <= bn' < MAXFILE -> bn' = bn /\ F' bn' = r \/ bn' <> bn /\ F' bn' = F bn').
  { intros bn' Hb'. destruct (decide (bn' = bn)) as [->|Hn]; [by left|right; auto]. }
  destruct Hm as [M1 M2 M3 M4]. split.
  - intros b Hb. destruct (Hval b Hb) as [[_ ->]|[_ ->]]; [done|]. intros Hn. eapply live_le; [done|auto].
  - intros Hn. eapply live_le; [done|auto].
  - intros b b' Hb Hb'. destruct (Hval b Hb) as [[-> ->]|[Hb1 ->]], (Hval b' Hb') as [[-> ->]|[Hb2 ->]]; try done.
    + intros Hn E. destruct (decide (F b' = 0)); [destruct Hl; lia|]. by destruct (Hne b').
    + intros Hn E. by destruct (Hne b).
    + auto.
  - intros b Hb. destruct (Hval b Hb) as [[-> ->]|[_ ->]]; [|auto].
    intros Hn E. subst ind. by eapply Hr; [apply M2|].
Qed.

(** A new block becomes the indirect block. *)
Lemma amap_ok_ind sb st V V' F F' r :
  live sb st V' r -> (forall a, live sb st V a -> a <> r) -> used_le sb V V' ->
  (forall bn, 0 <= bn < MAXFILE -> F' bn = F bn) ->
  amap_ok sb st V 0 F -> amap_ok sb st V' r F'.
Proof.
  intros Hl Hr Hle E Hm.
  assert (Hne : forall bn', 0 <= bn' < MAXFILE -> F bn' <> 0 -> F bn' <> r).
  { intros bn' Hb' Hn. apply Hr. by eapply am_live. }
  apply (amap_ok_ext _ _ _ _ _ _ _ E Hle) in Hm. destruct Hm as [M1 M2 M3 M4]. split; try done.
  intros b Hb. rewrite E by done. auto.
Qed.

Lemma ind_get_zero k : 0 <= k < NINDIRECT -> ind_get (replicate 1024 0) k = 0.
Proof.
  intros Hk. unfold ind_get, get_le, slice. rewrite drop_replicate, take_replicate.
  replace (Nat.min 4 (1024 - Z.to_nat (4 * k))) with 4%nat by lia. done.
Qed.

Lemma ind_get_put x k k' a :
  blk_ok x -> 0 <= k < NINDIRECT -> 0 <= k' < NINDIRECT -> 0 <= a < 2 ^ 32 ->
  ind_get (put_le 4 (Z.to_nat (4 * k)) a x) k' = if k' =? k then a else ind_get x k'.
Proof.
  intros [Hx _] Hk Hk' Ha. unfold ind_get. destruct (Z.eqb_spec k' k) as [->|Hne].
  - rewrite get_put_le by lia. change (256 ^ Z.of_nat 4) with (2 ^ 32). by apply Z.mod_small.
  - apply get_put_le_other; lia.
Qed.

Lemma nth_insert_Z (l : list Z) j k (v : Z) :
  (j < length l)%nat -> nth k (<[j := v]> l) 0 = if decide (k = j) then v else nth k l 0.
Proof.
  intros Hj. rewrite !nth_lookup, list_lookup_insert. case_decide as H1; case_decide as H2; try done.
  - destruct H1 as [-> _]. done.
  - subst. by destruct H1.
Qed.

(** The inode with entry [j] of its block list set. *)
Definition set_addr (j : nat) (a : Z) (i : inode) : inode := upd_i_addrs (<[j := a]>) i.

Lemma file_addr_direct V V' i j a :
  length (i_addrs i) = 13%nat -> (j < 12)%nat -> (ind_blk i <> 0 -> V' (ind_blk i) = V (ind_blk i)) ->
  forall bn, 0 <= bn -> file_addr V' (set_addr j a i) bn = if bn =? Z.of_nat j then a else file_addr V i bn.
Proof.
  intros Hl Hj HV bn Hb. unfold file_addr, ind_blk, set_addr in *. ksimpl.
  rewrite !nth_insert_Z by lia. rewrite (decide_False (P := 12%nat = j)) by lia.
  destruct (Z.ltb_spec bn 12), (Z.eqb_spec bn (Z.of_nat j)); try lia.
  - by rewrite decide_True by lia.
  - by rewrite decide_False by lia.
  - destruct (Z.eqb_spec (nth 12 (i_addrs i) 0) 0); [done|]. by rewrite HV.
Qed.

Lemma file_addr_ind V V' i r :
  length (i_addrs i) = 13%nat -> ind_blk i = 0 -> V' r = replicate 1024 0 ->
  forall bn, 0 <= bn < MAXFILE -> file_addr V' (set_addr 12 r i) bn = file_addr V i bn.
Proof.
  intros Hl H0 Hr bn Hb. unfold file_addr, ind_blk, set_addr in *. ksimpl.
  rewrite !nth_insert_Z by lia. rewrite H0. cbn [Z.eqb]. rewrite (decide_True (P := 12%nat = 12%nat)) by done.
  destruct (Z.ltb_spec bn 12).
  - by rewrite decide_False by lia.
  - destruct (Z.eqb_spec r 0); [done|]. rewrite Hr. apply ind_get_zero. lia.
Qed.

Lemma file_addr_entry V V' i k r :
  blk_ok (V (ind_blk i)) -> ind_blk i <> 0 -> 0 <= k < NINDIRECT -> 0 <= r < 2 ^ 32 ->
  V' (ind_blk i) = put_le 4 (Z.to_nat (4 * k)) r (V (ind_blk i)) ->
  forall bn, 0 <= bn < MAXFILE -> file_addr V' i bn = if bn =? k + NDIRECT then r else file_addr V i bn.
Proof.
  intros Hx Hi Hk Hr HV bn Hb. unfold file_addr. rewrite HV, (proj2 (Z.eqb_neq _ 0)) by done.
  destruct (Z.ltb_spec bn 12).
  - by rewrite (proj2 (Z.eqb_neq bn _)) by lia.
  - rewrite ind_get_put by (done || lia).
    destruct (Z.eqb_spec (bn - 12) k), (Z.eqb_spec bn (k + 12)); try lia; done.
Qed.

(** ** Lemmas: bmap() *)

Section data.
Context (Cache : kstate -> gmap nat (Z * list Z) -> gmap Z (list Z) -> Prop) `{!BlockCache Cache}.
Abbreviation txn := (txn Cache).

(** The state outside the file system's blocks that bmap() needs. *)
Record fs_ok (s : kstate) (st : Z) (V : Z -> list Z) (h : gmap nat (Z * list Z)) : Prop := {
  fo_bitmap : bitmap_ok (k_sb s) st;
  fo_free : free_ok (k_sb s) st V;
  fo_unheld : alloc_unheld (k_sb s) V h;
}.

(** Looking up entry [j] of the block list, allocating it if it is 0. *)
Lemma bmap_slot s st h V k ip i j Q :
  txn s st h V (2 + k) -> fs_ok s st V h -> (size h < 3)%nat ->
  k_itable s !! ip = Some i -> i_dev i = 1 -> length (i_addrs i) = 13%nat -> (j < 13)%nat ->
  (nth j (i_addrs i) 0 <> 0 -> forall s', txn s' st h V (2 + k) -> op_step s s' -> k_itable s' = k_itable s ->
     Q (nth j (i_addrs i) 0) s') ->
  (nth j (i_addrs i) 0 = 0 -> (forall b, 0 <= b < sb_size (k_sb s) -> used (k_sb s) V b = true) ->
     forall s', txn s' st h V (2 + k) -> op_step s s' -> k_itable s' = k_itable s -> Q 0 s') ->
  (nth j (i_addrs i) 0 = 0 -> forall r V' s', fresh (k_sb s) V V' r -> txn s' st h V' k -> op_step s s' ->
     k_itable s' = <[ip := set_addr j r i]> (k_itable s) -> Q r s') ->
  wp (let addr := nth j (i_addrs i) 0 in
      if addr =? 0 then
        addr ← balloc (i_dev i);
        if addr =? 0 then mret 0
        else upd_inode ip (upd_i_addrs (<[j := addr]>));; mret addr
      else mret addr) Q s.
Proof.
  intros Ht [Hbm Hf Hun] Hh Hi Hdev Hlen Hj Hold Hfull Hnew. cbv zeta. rewrite Hdev.
  destruct (Z.eqb_spec (nth j (i_addrs i) 0) 0) as [E0|Hne].
  2:{ apply wp_ret. by apply Hold. }
  apply wp_bind. eapply wp_mono; [by eapply (balloc_spec Cache s st h V k (k_sb s))|].
  cbn beta. intros r s1 (Hs1 & I1 & [(-> & Hall & Ht1)|(V' & Hr & _ & Ht1)]).
  { apply wp_ret. by apply Hfull. }
  rewrite (proj2 (Z.eqb_neq r 0)) by (destruct Hr; lia). unfold upd_inode. wp_steps.
  eapply Hnew; [done|exact Hr| | |].
  - eapply (txn_keep Cache s1); [done|apply op_step_itable|done|done].
  - etrans; [exact Hs1|apply op_step_itable].
  - change (k_itable (upd_k_itable ?f s1)) with (f (k_itable s1)). rewrite I1.
    by rewrite (list_alter_insert _ _ _ _ Hi).
Qed.

Lemma unheld_insert h bp m x n : n <> m -> unheld h n -> unheld (<[bp := (m, x)]> h) n.
Proof.
  intros Hn Hun j y Hj. rewrite lookup_insert in Hj. case_decide; [congruence|]. by eapply Hun.
Qed.

(** Locking a live block does not get in balloc()'s way. *)
Lemma alloc_unheld_insert sb st V h bp a x :
  live sb st V a -> alloc_unheld sb V h -> alloc_unheld sb V (<[bp := (a, x)]> h).
Proof.
  intros (_ & (_ & _ & Hb & _) & Hu) [H1 H2]. split.
  - intros n Hn. apply unheld_insert; [by intros ->|auto].
  - intros b Hr Hf. apply unheld_insert; [congruence|auto].
Qed.

(** [bmap_post] when nothing is allocated. *)
Lemma bmap_post_same sb st V i bn :
  inode_wf sb st V i -> (file_addr V i bn = 0 -> forall b, 0 <= b < sb_size sb -> used sb V b = true) ->
  bmap_post sb st V V i i bn (file_addr V i bn).
Proof. intros Hwf Hfull. split; try done; [by destruct i|apply grow_refl|by left]. Qed.

(** A fresh block in entry [k] of the indirect block. *)
Lemma bmap_post_entry sb st V V1 i k r :
  let V2 := vput (ind_blk i) (put_le 4 (Z.to_nat (4 * k)) r (V (ind_blk i))) V1 in
  bitmap_ok sb st -> free_ok sb st V -> inode_wf sb st V i -> ind_blk i <> 0 -> blk_ok (V (ind_blk i)) ->
  0 <= k < NINDIRECT -> file_addr V i (k + NDIRECT) = 0 -> fresh sb V V1 r ->
  bmap_post sb st V V2 i i (k + NDIRECT) r.
Proof.
  intros V2 Hbm Hf [Hd Hl Hm] Hind Hx Hk H0 Hr.
  pose proof (am_ind _ _ _ _ _ Hm Hind) as Hlive. pose proof (bm_size _ _ Hbm) as Hsz.
  pose proof (fresh_ne _ _ _ _ _ _ Hr Hlive) as Hner. pose proof (fresh_grow _ (eq (ind_blk i)) _ _ _ Hr) as [G1 G2].
  pose proof (fresh_live _ _ _ _ _ Hf Hr) as Hrl. pose proof Hr as (Hrr & Hru & Hrz & _ & _).
  assert (Hu : used_le sb V1 V2).
  { intros b Hb Hub. unfold V2. rewrite used_data; [done|apply Hlive|done]. }
  assert (Hle : used_le sb V V2) by (intros b Hb Hub; by apply Hu, G1).
  assert (HF : forall bn, 0 <= bn < MAXFILE -> file_addr V2 i bn = if bn =? k + NDIRECT then r else file_addr V i bn).
  { apply file_addr_entry; try done; [lia|]. unfold V2. by rewrite vput_same. }
  split; try done.
  - by destruct i.
  - split; [done|done|]. apply (amap_ok_put _ _ V V2 (ind_blk i) (file_addr V i) _ (k + NDIRECT) r); try done.
    + by apply (live_le _ _ V1).
    + intros a Ha. by eapply fresh_ne.
    + by rewrite HF, Z.eqb_refl by lia.
    + intros bn' Hb' Hne. rewrite HF by done. by rewrite (proj2 (Z.eqb_neq _ _)).
  - split; [done|]. intros n Hn HX Hfr. unfold V2. rewrite vput_other by done. by apply G2.
  - rewrite HF by lia. by rewrite Z.eqb_refl.
  - intros bn' Hb' Hne. rewrite HF by done. by rewrite (proj2 (Z.eqb_neq _ _)).
  - intros _ _. split; [done|]. unfold V2. by rewrite vput_other.
  - by left.
  - lia.
Qed.

(** A fresh block in entry [j] of the inode. *)
Lemma bmap_post_direct sb st V V' i j r :
  free_ok sb st V -> inode_wf sb st V i -> (j < 12)%nat -> nth j (i_addrs i) 0 = 0 -> fresh sb V V' r ->
  bmap_post sb st V V' i (set_addr j r i) (Z.of_nat j) r.
Proof.
  intros Hf [Hd Hl Hm] Hj H0 Hr. pose proof (fresh_grow _ (eq (ind_blk i)) _ _ _ Hr) as Hg.
  assert (HF : forall bn, 0 <= bn -> file_addr V' (set_addr j r i) bn = if bn =? Z.of_nat j then r else file_addr V i bn).
  { apply file_addr_direct; [done|done|]. intros Hind. pose proof (am_ind _ _ _ _ _ Hm Hind) as Hlive.
    eapply grow_same; [by eapply (fresh_grow _ (fun _ => False))|done|tauto]. }
  assert (Hi : ind_blk (set_addr j r i) = ind_blk i).
  { unfold ind_blk, set_addr. ksimpl. rewrite nth_insert_Z by lia. by rewrite decide_False by lia. }
  split; try done.
  - split; [done|unfold set_addr; ksimpl; by rewrite length_insert|]. rewrite Hi.
    apply (amap_ok_put _ _ V V' (ind_blk i) (file_addr V i) _ (Z.of_nat j) r); try done.
    + by eapply fresh_live.
    + intros a Ha. by eapply fresh_ne.
    + apply Hg.
    + by rewrite HF, Z.eqb_refl by lia.
    + intros bn' Hb' Hne. rewrite HF by lia. by rewrite (proj2 (Z.eqb_neq _ _)).
  - by rewrite HF, Z.eqb_refl by lia.
  - intros bn' Hb' Hne. rewrite HF by lia. by rewrite (proj2 (Z.eqb_neq _ _)).
  - intros Hne. exfalso. apply Hne. unfold file_addr. rewrite (proj2 (Z.ltb_lt _ _)) by lia. by rewrite Nat2Z.id.
  - intros _ _. by destruct Hr as (? & ? & ? & _).
  - by left.
  - intros ->. destruct Hr. lia.
Qed.

(** A fresh indirect block: the file is the same. *)
Lemma inode_wf_ind sb st V V' i r :
  free_ok sb st V -> inode_wf sb st V i -> ind_blk i = 0 -> fresh sb V V' r ->
  inode_wf sb st V' (set_addr 12 r i) /\ ind_blk (set_addr 12 r i) = r /\
  forall bn, 0 <= bn < MAXFILE -> file_addr V' (set_addr 12 r i) bn = file_addr V i bn.
Proof.
  intros Hf [Hd Hl Hm] H0 Hr.
  assert (Hi : ind_blk (set_addr 12 r i) = r).
  { unfold ind_blk, set_addr. ksimpl. by rewrite nth_insert_Z, decide_True by (done || lia). }
  assert (HF : forall bn, 0 <= bn < MAXFILE -> file_addr V' (set_addr 12 r i) bn = file_addr V i bn).
  { apply file_addr_ind; [done|done|apply Hr]. }
  split; [|done]. split; [done|unfold set_addr; ksimpl; by rewrite length_insert|]. rewrite Hi. rewrite H0 in Hm.
  eapply (amap_ok_ind _ _ V V'); try done.
  - by eapply fresh_live.
  - intros a Ha. by eapply fresh_ne.
  - apply (fresh_grow _ (fun _ => False) _ _ _ Hr).
Qed.

(** The indirect block [ind] and what bmap() does with it. *)
Lemma bmap_entry s st h V k i bn Q :
  txn s st h V (3 + k) -> fs_ok s st V h -> (size h < 2)%nat -> inode_wf (k_sb s) st V i ->
  ind_blk i <> 0 -> unheld h (ind_blk i) -> 0 <= bn < NINDIRECT ->
  (forall V' s' r, bmap_post (k_sb s) st V V' i i (bn + NDIRECT) r -> txn s' st h V' k -> op_step s s' ->
     k_itable s' = k_itable s -> Q r s') ->
  wp (bp ← bread 1 (ind_blk i);
      x ← buf_data bp;
      addr ← (if ind_get x bn =? 0 then
                addr ← balloc 1;
                when (negb (addr =? 0))
                  (upd_data bp (put_le 4 (Z.to_nat (4 * bn)) addr);;
                   log_write bp);;
                mret addr
              else mret (ind_get x bn));
      brelse bp;;
      mret addr) Q s.
Proof.
  intros Ht [Hbm Hf Hun] Hh Hwf Hind Hni Hbn HQ. pose proof (am_ind _ _ _ _ _ (iw_map _ _ _ _ Hwf) Hind) as Hlive.
  apply wp_bind. eapply (txn_bread Cache); [done|done|lia|]. intros bp s1 Hbp Ht1 Hs1 I1.
  apply wp_bind. eapply (txn_data Cache); [done|by rewrite lookup_insert_eq|].
  assert (EF : file_addr V i (bn + NDIRECT) = ind_get (V (ind_blk i)) bn).
  { unfold file_addr. rewrite (proj2 (Z.ltb_ge _ _)), (proj2 (Z.eqb_neq _ _)) by (done || lia). f_equal. lia. }
  assert (Hsame : forall s2 s3 V' r, bmap_post (k_sb s) st V V' i i (bn + NDIRECT) r -> txn s3 st h V' (k) ->
            op_step s1 s2 -> k_itable s2 = k_itable s1 -> op_step s2 s3 -> k_itable s3 = k_itable s2 -> wp (mret r) Q s3).
  { intros s2 s3 V' r Hp Ht3 Hs2 I2 Hs3 I3. apply wp_ret. eapply HQ; [done|done| |congruence].
    etrans; [exact Hs1|]. etrans; [exact Hs2|exact Hs3]. }
  apply wp_bind. destruct (Z.eqb_spec (ind_get (V (ind_blk i)) bn) 0) as [E0|Hne].
  2:{ apply wp_ret, wp_bind. eapply (txn_drop Cache); [done|done|]. intros s2 Ht2 Hs2 I2. rewrite <- EF.
      eapply (Hsame s1 s2 V); try done; [apply bmap_post_same; [done|congruence]|].
      eapply (txn_less Cache); [|done]. lia. }
  apply wp_bind. eapply wp_mono.
  { apply (balloc_spec Cache s1 st (<[bp := (ind_blk i, V (ind_blk i))]> h) V (S k) (k_sb s)); try done.
    - by rewrite (op_step_sb _ _ Hs1).
    - by eapply alloc_unheld_insert.
    - rewrite map_size_insert_None by done. lia. }
  cbn beta. intros r s2 (Hs2 & I2 & [(-> & Hall & Ht2)|(V1 & Hr & _ & Ht2)]).
  - cbn [negb Z.eqb when]. wp_steps. eapply (txn_drop Cache); [done|done|]. intros s3 Ht3 Hs3 I3.
    rewrite <- E0, <- EF. eapply (Hsame s2 s3 V); try done; [by apply bmap_post_same|].
    eapply (txn_less Cache); [|done]. lia.
  - rewrite (proj2 (Z.eqb_neq r 0)) by (destruct Hr; lia). cbn [negb when].
    assert (E1 : V1 (ind_blk i) = V (ind_blk i)).
    { eapply grow_same; [by eapply (fresh_grow _ (fun _ => False))|done|tauto]. }
    assert (Hx : blk_ok (V (ind_blk i))) by by eapply (txn_blk Cache).
    apply wp_bind, wp_bind. eapply (txn_store Cache); [done|by rewrite lookup_insert_eq|by apply blk_put; [lia|]|].
    rewrite insert_insert_eq. intros s3 Ht3 Hs3 I3.
    eapply (txn_log_write Cache); [done|by rewrite lookup_insert_eq| |apply Hlive|].
    { destruct Hlive, Hbm. lia. }
    intros s4 Ht4 Hs4 I4. apply wp_ret, wp_bind.
    eapply (txn_brelse Cache); [done|by rewrite lookup_insert_eq, vput_same|]. intros s5 Ht5 Hs5 I5.
    rewrite delete_insert_id in Ht5 by done.
    eapply (Hsame s4 s5); [by apply bmap_post_entry with (V1 := V1); try done; rewrite EF|done| |congruence|done|done].
    etrans; [exact Hs2|]. etrans; [exact Hs3|exact Hs4].
Qed.

(** The indirect block is allocated first, then an entry of it. *)
Lemma bmap_post_trans sb st V V1 V2 i r1 bn r :
  free_ok sb st V -> inode_wf sb st V i -> ind_blk i = 0 -> fresh sb V V1 r1 -> NDIRECT <= bn < MAXFILE ->
  bmap_post sb st V1 V2 (set_addr 12 r1 i) (set_addr 12 r1 i) bn r ->
  bmap_post sb st V V2 i (set_addr 12 r1 i) bn r.
Proof.
  intros Hf Hwf H0 Hr Hbn Hp. destruct (inode_wf_ind _ _ _ _ _ _ Hf Hwf H0 Hr) as (Hwf1 & Hi1 & HF1).
  pose proof (fresh_grow _ (eq (ind_blk i)) _ _ _ Hr) as [G1 G2].
  assert (EF : file_addr V i bn = 0).
  { unfold file_addr. rewrite (proj2 (Z.ltb_ge _ _)) by lia. by rewrite H0. }
  destruct Hp as [P1 P2 [U P3] P4 P5 P6 P7 P9 P8]. rewrite Hi1 in P3. split; try done.
  - split; [intros b Hb Hub; by apply U, G1|]. intros n Hn HX Hfr. rewrite P3; [by apply G2|done| |].
    + intros <-. apply Hfr. destruct Hr as (? & ? & _). split; [lia|done].
    + intros [Hb Hu]. destruct (used sb V n) eqn:E; [rewrite (G1 n Hb E) in Hu; done|]. by apply Hfr.
  - intros bn' Hb' Hne. rewrite P5 by done. by apply HF1.
  - intros Hne Hr0. rewrite HF1 in P7 by lia. destruct (P7 EF Hr0) as [Hu Hz]. split; [|done].
    destruct (used sb V r) eqn:E; [|done]. rewrite G1 in Hu; try done.
    assert (Hl : live sb st V2 r).
    { rewrite <- P4. apply (am_live _ _ _ _ _ (iw_map _ _ _ _ P2)); [lia|by rewrite P4]. }
    destruct Hl. lia.
  - right. rewrite Hi1. apply Hr.
Qed.

Lemma bmap_spec s st h V k ip i bn Q :
  txn s st h V (5 + k) -> fs_ok s st V h -> (size h < 2)%nat -> k_itable s !! ip = Some i ->
  inode_wf (k_sb s) st V i -> (ind_blk i <> 0 -> unheld h (ind_blk i)) -> 0 <= bn < MAXFILE ->
  (forall V' i' r s', bmap_post (k_sb s) st V V' i i' bn r -> txn s' st h V' k -> op_step s s' ->
     k_itable s' = <[ip := i']> (k_itable s) -> Q r s') ->
  wp (bmap ip bn) Q s.
Proof.
  intros Ht Hfo Hh Hi Hwf Hni Hbn HQ. pose proof Hfo as [Hbm Hf Hun]. pose proof Hwf as [Hdev Hlen Hm].
  assert (Hid : forall s', k_itable s' = k_itable s -> k_itable s' = <[ip := i]> (k_itable s)).
  { intros s' ->. by rewrite list_insert_id. }
  unfold bmap. apply wp_bind. eapply wp_get_entry; [done|]. destruct (Z.ltb_spec bn 12) as [Hlt|Hge].
  - assert (EF : file_addr V i bn = nth (Z.to_nat bn) (i_addrs i) 0).
    { unfold file_addr. by rewrite (proj2 (Z.ltb_lt _ _)). }
    eapply (bmap_slot s st h V (3 + k)); try done; [lia|lia|..].
    + intros Hne s1 Ht1 Hs1 I1. rewrite <- EF in *. eapply HQ; [by apply bmap_post_same| |done|by apply Hid].
      eapply (txn_less Cache); [|done]. lia.
    + intros E0 Hall s1 Ht1 Hs1 I1. rewrite <- E0, <- EF. eapply HQ; [by apply bmap_post_same| |done|by apply Hid].
      eapply (txn_less Cache); [|done]. lia.
    + intros E0 r V' s1 Hr Ht1 Hs1 I1. eapply (HQ V'); [| |done|exact I1].
      * replace bn with (Z.of_nat (Z.to_nat bn)) at 2 by lia. apply bmap_post_direct; try done. lia.
      * eapply (txn_less Cache); [|done]. lia.
  - cbv zeta. rewrite (proj2 (Z.ltb_lt (bn - 12) 256)) by lia. rewrite Hdev. apply wp_bind.
    replace 1 with (i_dev i) at 1 by done.
    assert (EF : ind_blk i = 0 -> file_addr V i bn = 0).
    { intros E0. unfold file_addr. rewrite (proj2 (Z.ltb_ge _ _)) by lia. by rewrite E0. }
    eapply (bmap_slot s st h V (3 + k)); try done; [lia|lia|..]; fold (ind_blk i).
    + intros Hne s1 Ht1 Hs1 I1. rewrite (proj2 (Z.eqb_neq _ _)) by done.
      pose proof (op_step_sb _ _ Hs1) as Esb.
      eapply (bmap_entry s1 st h V k i (bn - 12)); rewrite ?Esb; try done; [|by split; rewrite Esb|by apply Hni|lia|].
      * eapply (txn_less Cache); [|done]. lia.
      * rewrite Z.sub_add. intros V' s2 r Hp Ht2 Hs2 I2. eapply HQ; [done|done|by etrans|apply Hid; congruence].
    + intros E0 Hall s1 Ht1 Hs1 I1. cbn [Z.eqb]. apply wp_ret. rewrite <- (EF E0).
      eapply HQ; [by apply bmap_post_same| |done|by apply Hid]. eapply (txn_less Cache); [|done]. lia.
    + intros E0 r1 V1 s1 Hr Ht1 Hs1 I1. rewrite (proj2 (Z.eqb_neq r1 0)) by (destruct Hr; lia).
      destruct (inode_wf_ind _ _ _ _ _ _ Hf Hwf E0 Hr) as (Hwf1 & Hi1 & HF1).
      pose proof (op_step_sb _ _ Hs1) as Esb. pose proof (fresh_grow _ (fun _ => False) _ _ _ Hr) as Hg.
      replace r1 with (ind_blk (set_addr 12 r1 i)) at 1 by done.
      eapply (bmap_entry s1 st h V1 k (set_addr 12 r1 i) (bn - 12)); rewrite ?Esb; try done; [|rewrite Hi1; destruct Hr; lia| |lia|].
      * split; rewrite Esb; [done|by eapply le_free; [apply Hg|]|by eapply le_unheld; [apply Hg|]].
      * rewrite Hi1. apply Hun; destruct Hr as (? & ? & _); [lia|done].
      * rewrite Z.sub_add. intros V' s2 r Hp Ht2 Hs2 I2. apply (HQ V' (set_addr 12 r1 i)); [|exact Ht2|by etrans|congruence].
        apply (bmap_post_trans _ _ V V1); try done. lia.
Qed.

End data.

(** ** Lemmas: the example *)

(** A file with direct blocks only. *)
Lemma inode_wf_direct sb st V i :
  i_dev i = 1 -> length (i_addrs i) = 13%nat -> ind_blk i = 0 ->
  (forall (j : nat) a, (j < 12)%nat -> i_addrs i !! j = Some a -> a <> 0 -> live sb st V a) ->
  (forall (j j' : nat) a, (j < 12)%nat -> (j' < 12)%nat -> i_addrs i !! j = Some a -> i_addrs i !! j' = Some a ->
     a <> 0 -> j = j') ->
  inode_wf sb st V i.
Proof.
  intros Hd Hl H0 Hlive Hinj.
  assert (HF : forall bn, 0 <= bn < MAXFILE -> file_addr V i bn <> 0 ->
            (Z.to_nat bn < 12)%nat /\ i_addrs i !! Z.to_nat bn = Some (file_addr V i bn)).
  { intros bn Hb. unfold file_addr. destruct (Z.ltb_spec bn 12); [|by rewrite H0]. intros _. split; [lia|].
    rewrite nth_lookup. destruct (lookup_Some_total (i_addrs i) (Z.to_nat bn)) as [a Ha]; [lia|]. by rewrite Ha. }
  split; [done|done|]. rewrite H0. split.
  - intros bn Hb Hne. destruct (HF bn Hb Hne) as [Hlt Ha]. by eapply Hlive.
  - done.
  - intros bn bn' Hb Hb' Hne E. destruct (HF bn Hb Hne) as [Hlt Ha].
    destruct (HF bn' Hb') as [Hlt' Ha']; [congruence|]. rewrite <- E in Ha'.
    assert (Z.to_nat bn = Z.to_nat bn') by (by eapply Hinj). lia.
  - done.
Qed.

Lemma example_live a : 34 <= a < 37 -> live example_sb 2 (dget example_fs_disk) a.
Proof.
  intros Ha. split; [cbn; lia|]. split; [|rewrite example_used by lia; apply Z.ltb_lt; lia].
  split_and!; [lia|right; lia|intros ->%example_bitmap_blk; lia|intros ->%example_inode_blk; lia].
Qed.

Lemma example_file_wf : inode_wf example_sb 2 (dget example_fs_disk) (example_slot 2 example_file).
Proof.
  assert (H0 : forall j a, i_addrs (example_slot 2 example_file) !! S (S j) = Some a -> a = 0).
  { intros j a Ha. change (replicate 11 0 !! j = Some a) in Ha. by apply lookup_replicate in Ha as [-> _]. }
  apply inode_wf_direct; [done..| |].
  - intros [|[|j]] a _ Ha Hne; [injection Ha as <-; apply example_live; lia..|by apply H0 in Ha].
  - intros [|[|j]] [|[|j']] a _ _ Ha Ha' Hne; try done;
      try (by apply H0 in Ha); try (by apply H0 in Ha'); injection Ha as <-; injection Ha' as E; done.
Qed.

Lemma example_root_wf : inode_wf example_sb 2 (dget example_fs_disk) (example_slot 1 example_root).
Proof.
  assert (H0 : forall j a, i_addrs (example_slot 1 example_root) !! S j = Some a -> a = 0).
  { intros j a Ha. change (replicate 12 0 !! j = Some a) in Ha. by apply lookup_replicate in Ha as [-> _]. }
  apply inode_wf_direct; [done..| |].
  - intros [|j] a _ Ha Hne; [injection Ha as <-; apply example_live; lia|by apply H0 in Ha].
  - intros [|j] [|j'] a _ _ Ha Ha' Hne; [done|by apply H0 in Ha'|by apply H0 in Ha|by apply H0 in Ha].
Qed.

Lemma example_fs_ok : fs_ok example_op 2 (dget example_fs_disk) ∅.
Proof. split; [exact example_bitmap_ok|exact example_free_ok|]. by split. Qed.

(** ** Properties *)

(** C9: bmap() returns the block of a part of a file if there is one; else it takes a
    free block, zeroed, for it, and for the indirect block where that is missing too;
    it returns 0 only when the disk is full.  All other parts of the file stay where
    they are, the file keeps using each block once, and no block in use of another
    file changes. *)
Theorem bmap_correct (Cache : kstate -> gmap nat (Z * list Z) -> gmap Z (list Z) -> Prop)
    `{!BlockCache Cache} s st h V k ip i bn :
  txn Cache s st h V (5 + k) -> fs_ok s st V h -> (size h < 2)%nat -> k_itable s !! ip = Some i ->
  inode_wf (k_sb s) st V i -> (ind_blk i <> 0 -> unheld h (ind_blk i)) -> 0 <= bn ->
  if bn <? MAXFILE then
    wp (bmap ip bn) (fun r s' => exists V' i', bmap_post (k_sb s) st V V' i i' bn r /\
      txn Cache s' st h V' k /\ op_step s s' /\ k_itable s' = <[ip := i']> (k_itable s)) s
  else bmap ip bn s = Panic "bmap: out of range".
Proof.
  intros Ht Hfo Hh Hi Hwf Hni Hbn. destruct (Z.ltb_spec bn 268) as [Hlt|Hge].
  - eapply (bmap_spec Cache); try done. intros V' i' r s' ? ? ? ?. by exists V', i'.
  - unfold bmap. apply bind_wp_panic. eapply wp_get_entry; [done|].
    by rewrite (proj2 (Z.ltb_ge bn 12)), (proj2 (Z.ltb_ge (bn - 12) 256)) by lia.
Qed.

Lemma bmap_correct_witness :
  wp (bmap 0 1) (fun r _ => r = 36) example_op.
Proof.
  eapply wp_mono.
  - refine (bmap_correct cache_ok example_op 2 ∅ (dget example_fs_disk) 5 0 _ 1 example_op_txn example_fs_ok _ _ example_file_wf _ _).
    + rewrite map_size_empty. lia.
    + done.
    + done.
    + lia.
  - cbn beta. intros r s' (V' & i' & Hp & _). destruct Hp as [_ _ _ <- _ Hold _ _ _].
    destruct Hold as [-> ->]; [by vm_compute|by vm_compute].
Defined.
