(* ===== verification/FsIO.v ===== *)
(** * Correctness of readi() and writei() (kernel/fs.c)

    [file_byte] is the contents of a file: a byte of the block that holds it, 0 where
    there is none.  readi() returns a range of them, up to the end of the file;
    writei() replaces a range, allocating blocks as needed, and changes no other byte
    of this file and no block of another.  The caller's buffer is a local variable
    here ([KernBuf]), as in the directory code. *)

From Stdlib Require Import ZArith Lia.
From stdpp Require Import base tactics numbers gmap strings option list.
From S2P Require Import Prelude Bytes Kernel Spinlock Kstring Sched Uart Printf Bio Bcache.
From S2P Require Import Riscv Kalloc KallocInit Vm Uio Log LogSpec BcacheProps Crash Fs Txn FsExample FsBlocks.
From S2P Require Import FsInode FsData.

(** ** Specification *)

Definition file_byte (V : Z -> list Z) (i : inode) (p : Z) : Z :=
  let a := file_addr V i (p / BSIZE) in
  if a =? 0 then 0 else nth (Z.to_nat (p mod BSIZE)) (V a) 0.

Definition file_range (V : Z -> list Z) (i : inode) (off n : Z) : list Z :=
  (fun j => file_byte V i (off + j)) <$> seqZ 0 n.

(** Every part of the file up to its size has a block. *)
Definition no_holes (V : Z -> list Z) (i : inode) : Prop :=
  0 <= i_size i <= MAXFILE * BSIZE /\
  forall p, 0 <= p < i_size i -> file_addr V i (p / BSIZE) <> 0.

(** No block of the file is locked. *)
Definition file_unheld (V : Z -> list Z) (i : inode) (h : gmap nat (Z * list Z)) : Prop :=
  (ind_blk i <> 0 -> unheld h (ind_blk i)) /\
  forall bn, 0 <= bn < MAXFILE -> file_addr V i bn <> 0 -> unheld h (file_addr V i bn).

(** What readi() returns of [n] bytes from [off] on. *)
Definition readi_bytes (V : Z -> list Z) (i : inode) (off n : Z) : list Z :=
  if decide (i_size i < off \/ 2 ^ 32 <= off + n) then []
  else file_range V i off (Z.min n (i_size i - off)).

(** Blocks from the one of [off] to the one of the byte before [e]. *)
Definition blocks_left (off e : Z) : nat :=
  if off <? e then Z.to_nat ((e - 1) / BSIZE - off / BSIZE + 1) else 0%nat.

(** ** Lemmas: contents *)

Lemma length_file_range V i off n : 0 <= n -> length (file_range V i off n) = Z.to_nat n.
Proof. intros. unfold file_range. by rewrite length_fmap, length_seqZ. Qed.

Lemma lookup_file_range V i off n (j : nat) :
  Z.of_nat j < n -> file_range V i off n !! j = Some (file_byte V i (off + Z.of_nat j)).
Proof.
  intros Hj. unfold file_range. rewrite list_lookup_fmap, lookup_seqZ_lt by lia. cbn. do 2 f_equal.
Qed.

Lemma file_range_app V i off a b :
  0 <= a -> 0 <= b -> file_range V i off (a + b) = file_range V i off a ++ file_range V i (off + a) b.
Proof.
  intros Ha Hb. apply list_eq. intros j. destruct (decide (Z.of_nat j < a)).
  - rewrite lookup_app_l by (rewrite length_file_range; lia). by rewrite !lookup_file_range by lia.
  - rewrite lookup_app_r, length_file_range by (rewrite ?length_file_range; lia).
    destruct (decide (Z.of_nat j < a + b)).
    + rewrite !lookup_file_range by lia. do 2 f_equal. lia.
    + rewrite !lookup_ge_None_2; [done|rewrite length_file_range; lia..].
Qed.

(** A part of one block. *)
Lemma slice_file V i off m :
  file_addr V i (off / BSIZE) <> 0 -> blk_ok (V (file_addr V i (off / BSIZE))) ->
  0 <= m -> off mod BSIZE + m <= BSIZE ->
  slice (V (file_addr V i (off / BSIZE))) (Z.to_nat (off mod BSIZE)) (Z.to_nat m) = file_range V i off m.
Proof.
  intros Ha [Hl _] Hm Hb. apply list_eq. intros j. destruct (decide (Z.of_nat j < m)).
  - rewrite lookup_slice, lookup_file_range by lia. unfold file_byte.
    replace ((off + Z.of_nat j) / 1024) with (off / 1024) by zdm.
    rewrite (proj2 (Z.eqb_neq _ _)) by done.
    replace (Z.to_nat ((off + Z.of_nat j) mod 1024)) with (Z.to_nat (off mod 1024) + j)%nat by zdm.
    destruct (lookup_Some_total (V (file_addr V i (off / 1024))) (Z.to_nat (off mod 1024) + j)) as [v Hv].
    { rewrite Hl. zdm. }
    by rewrite nth_lookup, Hv.
  - rewrite !lookup_ge_None_2; [done|rewrite length_file_range; lia|].
    rewrite length_slice; [lia|]. rewrite Hl. zdm.
Qed.

Lemma blocks_left_step off e m :
  0 <= off < e -> m = Z.min (e - off) (BSIZE - off mod BSIZE) ->
  0 < m /\ off + m <= e /\ (blocks_left (off + m) e < blocks_left off e)%nat /\ off mod BSIZE + m <= BSIZE /\
  blocks_left off e = S (blocks_left (off + m) e).
Proof.
  intros Ho ->. unfold blocks_left. rewrite (proj2 (Z.ltb_lt off e)) by lia.
  destruct (Z.ltb_spec (off + Z.min (e - off) (1024 - off mod 1024)) e); zdm.
Qed.

Lemma blocks_left_fuel off n : 0 <= off -> 0 <= n -> (blocks_left off (off + n) < 4 + Z.to_nat (n / BSIZE))%nat.
Proof. intros Ho Hn. unfold blocks_left. destruct (Z.ltb_spec off (off + n)); zdm. Qed.

(** ** Lemmas: readi() *)

Section io.
Context (Cache : kstate -> gmap nat (Z * list Z) -> gmap Z (list Z) -> Prop) `{!BlockCache Cache}.
Context `{Platform}.
Abbreviation txn := (txn Cache).

(** bmap() of a part that has a block. *)
Lemma bmap_old s st h V k ip i bn Q :
  txn s st h V k -> (size h < 3)%nat -> k_itable s !! ip = Some i -> i_dev i = 1 ->
  (ind_blk i <> 0 -> unheld h (ind_blk i)) -> 0 <= bn < MAXFILE -> file_addr V i bn <> 0 ->
  (forall s', txn s' st h V k -> op_step s s' -> k_itable s' = k_itable s -> Q (file_addr V i bn) s') ->
  wp (bmap ip bn) Q s.
Proof.
  intros Ht Hh Hi Hdev Hni Hbn Ha HQ. unfold bmap. apply wp_bind. eapply wp_get_entry; [done|].
  unfold file_addr in *. destruct (Z.ltb_spec bn 12) as [Hlt|Hge].
  - rewrite (proj2 (Z.eqb_neq _ _)) by done. by apply wp_ret, HQ.
  - cbv zeta. rewrite (proj2 (Z.ltb_lt (bn - 12) 256)) by lia. rewrite Hdev. fold (ind_blk i).
    destruct (Z.eqb_spec (ind_blk i) 0) as [E0|Hne]; [done|].
    apply wp_bind, wp_ret. rewrite (proj2 (Z.eqb_neq _ _)) by done.
    apply wp_bind. eapply (txn_bread Cache); [done|by apply Hni|done|]. intros bp s1 Hbp Ht1 Hs1 I1.
    apply wp_bind. eapply (txn_data Cache); [done|by rewrite lookup_insert_eq|].
    rewrite (proj2 (Z.eqb_neq _ _)) by done. apply wp_bind, wp_ret, wp_bind.
    eapply (txn_drop Cache); [done|done|]. intros s2 Ht2 Hs2 I2.
    apply wp_ret, HQ; [done|by etrans|congruence].
Qed.

Lemma txn_keq s s' st h V k : s' ≡ s -> txn s st h V k -> txn s' st h V k /\ op_step s s' /\ k_itable s' = k_itable s.
Proof.
  intros E Ht. split; [|split; [by apply op_step_keq|apply (keq_k_itable _ _ E)]].
  eapply (txn_keep Cache s); [done|by apply op_step_keq|apply (keq_k_bcache _ _ E)|apply (keq_k_log _ _ E)].
Qed.

Lemma copyout_buf s st h V k dst bs Q :
  txn s st h V k ->
  (forall s', txn s' st h V k -> op_step s s' -> k_itable s' = k_itable s -> Q 0 s') ->
  wp (either_copyout (KernBuf dst) bs) Q s.
Proof.
  intros Ht HQ. unfold either_copyout. pose proof Ht as (bl & P & Ht').
  apply wp_bind, wp_myproc; [apply Ht'|]. intros s' E. apply wp_ret.
  destruct (txn_keq _ _ _ _ _ _ E Ht) as (? & ? & ?). by apply HQ.
Qed.

Lemma copyin_buf s st h V k src m Q :
  txn s st h V k ->
  (forall s', txn s' st h V k -> op_step s s' -> k_itable s' = k_itable s -> Q (0, take (Z.to_nat m) src) s') ->
  wp (either_copyin (KernBuf src) m) Q s.
Proof.
  intros Ht HQ. unfold either_copyin. pose proof Ht as (bl & P & Ht').
  apply wp_bind, wp_myproc; [apply Ht'|]. intros s' E. apply wp_ret.
  destruct (txn_keq _ _ _ _ _ _ E Ht) as (? & ? & ?). by apply HQ.
Qed.

(** One block of readi(). *)
Lemma readi_body_spec s st h V k ip i n tot off dst acc Q :
  txn s st h V k -> (size h < 3)%nat -> k_itable s !! ip = Some i -> inode_wf (k_sb s) st V i ->
  no_holes V i -> file_unheld V i h -> 0 <= tot < n -> n < 2 ^ 31 -> 0 <= off -> off + (n - tot) <= i_size i ->
  let m := Z.min (n - tot) (BSIZE - off mod BSIZE) in
  (forall s', txn s' st h V k -> op_step s s' -> k_itable s' = k_itable s ->
     Q (inl (tot + m, off + m, KernBuf (drop (Z.to_nat m) dst), acc ++ file_range V i off m)) s') ->
  wp (readi_body ip n (tot, off, KernBuf dst, acc)) Q s.
Proof.
  intros Ht Hh Hi Hwf [Hsz Hno] [Hu1 Hu2] Htot Hn Hoff He m HQ. pose proof Hwf as [Hdev Hlen Hm].
  pose proof (blocks_left_step off (off + (n - tot)) m) as (Hm0 & Hme & _ & Hmb & _); [lia|unfold m; f_equal; lia|].
  unfold readi_body. rewrite (proj2 (Z.ltb_lt tot n)) by lia.
  assert (Hbn : 0 <= off / 1024 < 268) by zdm. assert (Ha : file_addr V i (off / 1024) <> 0) by (apply Hno; lia).
  apply wp_bind. eapply bmap_old; try done. intros s1 Ht1 Hs1 I1. rewrite (proj2 (Z.eqb_neq _ _)) by done.
  apply wp_bind. eapply wp_get_entry; [by rewrite I1|]. rewrite Hdev.
  apply wp_bind. eapply (txn_bread Cache); [done|by apply Hu2|done|]. intros bp s2 Hbp Ht2 Hs2 I2.
  rewrite (u32_small (n - tot)), (u32_small (1024 - off mod 1024)) by zdm. fold m. apply wp_bind. eapply (txn_data Cache); [done|by rewrite lookup_insert_eq|].
  rewrite slice_file by (done || lia || by eapply (txn_blk Cache)). cbv zeta.
  apply wp_bind. eapply copyout_buf; [done|]. intros s3 Ht3 Hs3 I3.
  apply wp_bind. eapply (txn_drop Cache); [done|done|]. intros s4 Ht4 Hs4 I4. cbn [Z.eqb].
  assert (Hlt : i_size i < 2 ^ 31) by lia.
  apply wp_ret. rewrite !u32_small by lia. apply HQ; [done| |congruence].
  etrans; [exact Hs1|]. etrans; [exact Hs2|]. etrans; [exact Hs3|exact Hs4].
Qed.

Lemma readi_spec s st h V k ip i dst off n Q :
  txn s st h V k -> (size h < 3)%nat -> k_itable s !! ip = Some i -> inode_wf (k_sb s) st V i ->
  no_holes V i -> file_unheld V i h -> 0 <= off < 2 ^ 32 -> 0 <= n < 2 ^ 32 ->
  (forall s', txn s' st h V k -> op_step s s' -> k_itable s' = k_itable s ->
     Q (Z.of_nat (length (readi_bytes V i off n)), readi_bytes V i off n) s') ->
  wp (readi ip (KernBuf dst) off n) Q s.
Proof.
  intros Ht Hh Hi Hwf Hno Hun Hoff Hn HQ. pose proof Hno as [Hsz _]. unfold readi.
  apply wp_bind. eapply wp_get_entry; [done|]. unfold readi_bytes in HQ.
  assert (Eov : (i_size i <? off) || (u32 (off + n) <? off) = bool_decide (i_size i < off \/ 2 ^ 32 <= off + n)).
  { unfold u32. destruct (Z.ltb_spec (i_size i) off); cbn [orb].
    - symmetry. apply bool_decide_true. by left.
    - destruct (Z.ltb_spec ((off + n) mod 2 ^ 32) off); symmetry;
        [apply bool_decide_true|apply bool_decide_false]; zdm. }
  rewrite Eov. case_bool_decide as Hov; [rewrite decide_True in HQ by done; by apply wp_ret, HQ|].
  rewrite decide_False in HQ by done. rewrite (u32_small (off + n)), (u32_small (i_size i - off)) by lia.
  replace (if i_size i <? off + n then i_size i - off else n) with (Z.min n (i_size i - off))
    by (destruct (Z.ltb_spec (i_size i) (off + n)); lia).
  set (n' := Z.min n (i_size i - off)) in *. assert (Hn' : 0 <= n' /\ off + n' <= i_size i) by lia.
  apply wp_bind. eapply (wp_loop (fun '(tot, off', dst', acc) s1 => exists bs, dst' = KernBuf bs /\
      0 <= tot <= n' /\ off' = off + tot /\ acc = file_range V i off tot /\
      txn s1 st h V k /\ op_step s s1 /\ k_itable s1 = k_itable s)
    (fun '(tot, off', _, _) => blocks_left off' (off + n'))).
  - intros [[[tot off'] dst'] acc] s1 (bs & -> & Htot & -> & -> & Ht1 & Hs1 & I1).
    destruct (decide (tot = n')) as [->|Hne].
    { unfold readi_body. rewrite Z.ltb_irrefl. wp_steps.
      cbn [fst snd]. rewrite s32_small by lia. specialize (HQ s1). rewrite length_file_range, Z2Nat.id in HQ by lia. by apply HQ. }
    pose proof (blocks_left_step (off + tot) (off + n') _ ltac:(lia) eq_refl) as (Hm0 & Hme & Hmu & _ & _).
    replace (off + n' - (off + tot)) with (n' - tot) in * by lia.
    eapply (readi_body_spec s1 st h V k ip i); try done; [by rewrite I1|by rewrite (op_step_sb _ _ Hs1)|lia..|].
    intros s2 Ht2 Hs2 I2. split; [|exact Hmu].
    eexists. split_and!; try done; [lia|lia|lia| |by etrans|congruence].
    by rewrite file_range_app by lia.
  - exists dst. split_and!; try done; lia.
  - replace (off + 0) with off by lia. apply blocks_left_fuel; lia.
Qed.

End io.

(** ** Lemmas: the example *)

Lemma example_no_holes : no_holes (dget example_fs_disk) (example_slot 2 example_file).
Proof.
  split; [cbn; lia|]. intros p Hp. change (i_size (example_slot 2 example_file)) with 1500 in Hp.
  assert (H : p / 1024 = 0 \/ p / 1024 = 1) by zdm. destruct H as [-> | ->]; by vm_compute.
Qed.

Lemma example_root_no_holes : no_holes (dget example_fs_disk) (example_slot 1 example_root).
Proof.
  split; [cbn; lia|]. intros p Hp. change (i_size (example_slot 1 example_root)) with 48 in Hp.
  assert (H : p / 1024 = 0) by zdm. rewrite H. by vm_compute.
Qed.

Lemma empty_file_unheld V i : file_unheld V i ∅.
Proof. by split. Qed.

(** ** Properties *)


