(* ===== verification/FsWrite.v ===== *)
(** * Correctness of writei() (kernel/fs.c)

    [wrote] relates the blocks and the inode during the loop of writei() to those
    before it: the bytes of the file are the old ones with a prefix of the new ones
    put over them, blocks of the file stay where they are, and blocks of other files
    are as before. *)

From Stdlib Require Import ZArith Lia.
From stdpp Require Import base tactics numbers gmap strings option list.
From S2P Require Import Prelude Bytes Kernel Spinlock Kstring Sched Uart Printf Bio Bcache.
From S2P Require Import Riscv Kalloc KallocInit Vm Uio Log LogSpec BcacheProps Crash Fs Txn FsExample FsBlocks.
From S2P Require Import FsInode FsData FsIO.

(** ** Specification *)

(** [n] is a block of the file. *)
Definition file_blk (V : Z -> list Z) (i : inode) (n : Z) : Prop :=
  n <> 0 /\ (n = ind_blk i \/ exists bn, 0 <= bn < MAXFILE /\ n = file_addr V i bn).

Record wrote (sb : superblock) (st : Z) (V : Z -> list Z) (i : inode) (V1 : Z -> list Z) (i1 : inode)
    (off : Z) (bs : list Z) (tot : Z) : Prop := {
  wr_inode : i1 = upd_i_addrs (fun _ => i_addrs i1) i;
  wr_wf : inode_wf sb st V1 i1;
  wr_byte p : 0 <= p < MAXFILE * BSIZE ->
    file_byte V1 i1 p = if decide (off <= p < off + tot) then nth (Z.to_nat (p - off)) bs 0 else file_byte V i p;
  wr_kept bn : 0 <= bn < MAXFILE -> file_addr V i bn <> 0 -> file_addr V1 i1 bn = file_addr V i bn;
  wr_there p : off <= p < off + tot -> file_addr V1 i1 (p / BSIZE) <> 0;
  wr_le : used_le sb V V1;
  wr_from a : file_blk V1 i1 a -> file_blk V i a \/ used sb V a = false;
  wr_frame n : n <> 0 -> ~ bitmap_blk sb n -> ~ file_blk V i n -> ~ (0 <= n < sb_size sb /\ used sb V n = false) -> V1 n = V n;
}.

(** ** Lemmas: one step of the loop *)

Lemma wrote_refl sb st V i off bs : inode_wf sb st V i -> wrote sb st V i V i off bs 0.
Proof.
  intros Hwf. split; try done.
  - by destruct i.
  - intros p Hp. by rewrite decide_False by lia.
  - lia.
  - by intros b.
  - by left.
Qed.

Lemma file_blk_live sb st V i a : inode_wf sb st V i -> file_blk V i a -> live sb st V a.
Proof.
  intros [_ _ Hm] [Ha [->|(bn & Hbn & ->)]]; [by apply (am_ind _ _ _ _ _ Hm)|by apply (am_live _ _ _ _ _ Hm)].
Qed.

(** bmap() does not change the contents. *)
Lemma bmap_bytes sb st V V' i i' bn r p :
  inode_wf sb st V i -> bmap_post sb st V V' i i' bn r -> 0 <= bn < MAXFILE -> 0 <= p < MAXFILE * BSIZE ->
  file_byte V' i' p = file_byte V i p.
Proof.
  intros [_ _ Hm] [P1 P2 P3 P4 P5 P6 P7 P9 P8] Hbn Hp. unfold file_byte. assert (Hq : 0 <= p / 1024 < 268) by zdm.
  destruct (decide (p / 1024 = bn)) as [->|Hne].
  - rewrite P4. destruct (Z.eqb_spec (file_addr V i bn) 0) as [E|E].
    + destruct (Z.eqb_spec r 0) as [|Hr]; [done|]. destruct (P7 E Hr) as [_ ->].
      rewrite nth_lookup. destruct (_ !! _) as [v|] eqn:Ev; [|done]. by apply lookup_replicate in Ev as [-> _].
    + destruct (P6 E) as [-> ->]. rewrite P4. by rewrite (proj2 (Z.eqb_neq r 0)) by congruence.
  - rewrite P5 by done. destruct (Z.eqb_spec (file_addr V i (p / 1024)) 0) as [|E]; [done|].
    f_equal. eapply grow_same; [exact P3|by apply (am_live _ _ _ _ _ Hm)|].
    intros E'. by eapply am_ne.
Qed.

Lemma wrote_bmap sb st V i V1 i1 off bs tot V2 i2 bn r :
  wrote sb st V i V1 i1 off bs tot -> bmap_post sb st V1 V2 i1 i2 bn r -> 0 <= bn < MAXFILE ->
  0 <= off -> off + tot <= MAXFILE * BSIZE -> wrote sb st V i V2 i2 off bs tot.
Proof.
  intros [] Hp Hbn Hoff Hend. pose proof Hp as [P1 P2 [P3a P3b] P4 P5 P6 P7 P9 P8].
  assert (Hle : used_le sb V V2) by (intros b Hb Hu; by apply P3a, wr_le0).
  assert (Hold : forall bn', 0 <= bn' < MAXFILE -> file_addr V1 i1 bn' <> 0 -> file_addr V2 i2 bn' = file_addr V1 i1 bn').
  { intros bn' Hb' Hne. destruct (decide (bn' = bn)) as [->|]; [|by apply P5]. by destruct (P6 Hne) as [-> ->]. }
  assert (Hfree : forall a, used sb V1 a = false -> 0 <= a < sb_size sb -> used sb V a = false).
  { intros a Hu Ha. destruct (used sb V a) eqn:E; [|done]. by rewrite (wr_le0 a Ha E) in Hu. }
  split; try done.
  - rewrite P1, wr_inode0. done.
  - intros p Hp'. rewrite (bmap_bytes _ _ _ _ _ _ _ _ _ wr_wf0 Hp) by done. by apply wr_byte0.
  - intros bn' Hb' Hne. rewrite Hold; [by apply wr_kept0|done|by rewrite wr_kept0].
  - intros p Hp'. rewrite Hold; [by apply wr_there0|zdm|by apply wr_there0].
  - intros a Ha. pose proof (file_blk_live _ _ _ _ _ P2 Ha) as (Hra & _ & _).
    assert (Ho : file_blk V1 i1 a -> file_blk V i a \/ used sb V a = false) by auto.
    destruct Ha as [Ha [->|(bn' & Hb' & ->)]].
    + destruct P9 as [E|P9]; [apply Ho; split; [done|by left]|right; apply Hfree; [done|lia]].
    + destruct (decide (file_addr V1 i1 bn' = 0)) as [E0|E0].
      * destruct (decide (bn' = bn)) as [->|Hne]; [|by rewrite P5 in Ha].
        rewrite P4 in *. right. apply Hfree; [by apply P7|lia].
      * rewrite Hold in * by done. apply Ho. split; [done|]. right. by exists bn'.
  - intros n Hn0 Hn Hnf Hnu. rewrite P3b; [by apply wr_frame0|done| |].
    + intros <-. assert (Hb : file_blk V1 i1 (ind_blk i1)) by (split; [done|by left]).
      pose proof (file_blk_live _ _ _ _ _ wr_wf0 Hb) as (Hra & _ & _).
      destruct (wr_from0 _ Hb) as [?|Hu]; [done|]. apply Hnu. split; [lia|done].
    + intros [Hr Hu]. apply Hnu. split; [done|by apply Hfree].
Qed.

Lemma nth_splice (x k : list Z) o j :
  (o + length k <= length x)%nat ->
  nth j (splice x o k) 0 = if decide (o <= j < o + length k)%nat then nth (j - o) k 0 else nth j x 0.
Proof.
  intros Hl. rewrite !nth_lookup. case_decide.
  - by rewrite lookup_splice_in.
  - by rewrite lookup_splice_out.
Qed.

Lemma file_addr_store sb st V i bn x :
  inode_wf sb st V i -> 0 <= bn < MAXFILE -> file_addr V i bn <> 0 ->
  forall bn', file_addr (vput (file_addr V i bn) x V) i bn' = file_addr V i bn'.
Proof.
  intros [_ _ Hm] Hbn Ha bn'. pose proof (am_ne _ _ _ _ _ Hm bn Hbn Ha) as Hne.
  unfold file_addr at 1 3. by rewrite (vput_other _ _ _ (ind_blk i)) by congruence.
Qed.

Lemma file_byte_store sb st V i p k q :
  inode_wf sb st V i -> 0 <= p < MAXFILE * BSIZE -> file_addr V i (p / BSIZE) <> 0 ->
  blk_ok (V (file_addr V i (p / BSIZE))) -> p mod BSIZE + Z.of_nat (length k) <= BSIZE ->
  0 <= q < MAXFILE * BSIZE ->
  file_byte (vput (file_addr V i (p / BSIZE))
      (splice (V (file_addr V i (p / BSIZE))) (Z.to_nat (p mod BSIZE)) k) V) i q =
    if decide (p <= q < p + Z.of_nat (length k)) then nth (Z.to_nat (q - p)) k 0 else file_byte V i q.
Proof.
  intros Hwf Hp Ha [Hx _] Hk Hq. assert (Hbn : 0 <= p / 1024 < 268) by zdm. assert (Hbq : 0 <= q / 1024 < 268) by zdm.
  unfold file_byte. rewrite (file_addr_store sb st) by done.
  destruct (decide (q / 1024 = p / 1024)) as [E|Hne].
  - rewrite E, (proj2 (Z.eqb_neq _ _)), vput_same, nth_splice by (done || rewrite Hx; zdm).
    case_decide as H1; case_decide as H2; try done; [|exfalso; zdm|exfalso; zdm].
    f_equal. zdm.
  - rewrite decide_False by zdm. destruct (Z.eqb_spec (file_addr V i (q / 1024)) 0) as [|Hq0]; [done|].
    rewrite vput_other; [done|]. intros E. apply Hne. by eapply (am_inj _ _ _ _ _ (iw_map _ _ _ _ Hwf)).
Qed.

Lemma wrote_store sb st V i V1 i1 off bs tot m :
  let p := off + tot in
  let a := file_addr V1 i1 (p / BSIZE) in
  wrote sb st V i V1 i1 off bs tot -> a <> 0 -> blk_ok (V1 a) -> 0 <= off -> 0 <= tot -> 0 <= m ->
  p mod BSIZE + m <= BSIZE -> (Z.to_nat (tot + m) <= length bs)%nat -> p + m <= MAXFILE * BSIZE -> p < MAXFILE * BSIZE ->
  wrote sb st V i
    (vput a (splice (V1 a) (Z.to_nat (p mod BSIZE)) (take (Z.to_nat m) (drop (Z.to_nat tot) bs))) V1) i1
    off bs (tot + m).
Proof.
  intros p a [W1 W2 W3 W4 W5 W6 W7 W8] Ha Hx Hoff Htot Hm Hpm Hlen Hend Hp. assert (Ep : p = off + tot) by done. clearbody p.
  assert (Hbn : 0 <= p / 1024 < 268) by zdm.
  pose proof (file_addr_store sb st V1 i1 (p / 1024) (splice (V1 a) (Z.to_nat (p mod 1024)) (take (Z.to_nat m) (drop (Z.to_nat tot) bs))) W2 Hbn Ha) as HF.
  fold a in HF. set (V2 := vput a _ V1) in *.
  pose proof (am_live _ _ _ _ _ (iw_map _ _ _ _ W2) _ Hbn Ha) as (Hra & (_ & _ & Hnb & _) & Hua).
  assert (Hk : length (take (Z.to_nat m) (drop (Z.to_nat tot) bs)) = Z.to_nat m) by len.
  assert (Hu : used_le sb V1 V2) by (intros b Hb Hub; unfold V2; by rewrite used_data).
  assert (Hb : file_blk V1 i1 a) by (split; [done|right; by exists (p / 1024)]).
  split; try done.
  - split; [apply W2|apply W2|]. eapply (amap_ok_ext _ _ V1); [|done|apply W2]. intros bn _. apply HF.
  - intros q Hq. pose proof (file_byte_store sb st V1 i1 p (take (Z.to_nat m) (drop (Z.to_nat tot) bs)) q) as E.
    fold a in E. fold V2 in E. rewrite E, Hk by (done || lia). clear E. rewrite W3 by done.
    repeat case_decide; try done; try lia.
    rewrite !nth_lookup, lookup_take_lt, lookup_drop by lia. do 2 f_equal. lia.
  - intros bn Hb' Hne. rewrite HF. by apply W4.
  - intros q Hq. rewrite HF. destruct (Z.lt_ge_cases q p); [apply W5; lia|].
    by replace (q / 1024) with (p / 1024) by zdm.
  - intros b Hb' Hub. by apply Hu, W6.
  - intros b [Hb0 Hb1]. apply W7. split; [done|]. destruct Hb1 as [->|(bn & Hbn' & ->)]; [by left|right].
    exists bn. split; [done|apply HF].
  - intros n Hn0 Hn Hnf Hnu. unfold V2. rewrite vput_other; [by apply W8|]. intros ->.
    destruct (W7 a Hb) as [?|Hu']; [done|]. apply Hnu. split; [lia|done].
Qed.

(** No block of the file is locked, during the loop. *)
Lemma from_unheld sb st V i V1 i1 h :
  inode_wf sb st V1 i1 -> (forall a, file_blk V1 i1 a -> file_blk V i a \/ used sb V a = false) ->
  file_unheld V i h -> alloc_unheld sb V h -> file_unheld V1 i1 h.
Proof.
  intros W2 W7 [H1 H2] [_ H3].
  assert (H : forall a, file_blk V1 i1 a -> unheld h a).
  { intros a Ha. pose proof (file_blk_live _ _ _ _ _ W2 Ha) as (Hr & _).
    destruct (W7 a Ha) as [[Ha0 [->|(bn & Hbn & ->)]]|Hu]; [auto|auto|]. apply H3; [lia|done]. }
  split.
  - intros Hne. apply H. split; [done|by left].
  - intros bn Hbn Hne. apply H. split; [done|right; by exists bn].
Qed.

Lemma wrote_unheld sb st V i V1 i1 off bs tot h :
  wrote sb st V i V1 i1 off bs tot -> file_unheld V i h -> alloc_unheld sb V h -> file_unheld V1 i1 h.
Proof. intros [W1 W2 W3 W4 W5 W6 W7 W8]. by eapply from_unheld. Qed.

Lemma wrote_fs_ok s st V i V1 i1 off bs tot h s1 :
  wrote (k_sb s) st V i V1 i1 off bs tot -> fs_ok s st V h -> k_sb s1 = k_sb s -> fs_ok s1 st V1 h.
Proof.
  intros [W1 W2 W3 W4 W5 W6 W7 W8] [H1 H2 H3] E. split; rewrite E; [done|by eapply le_free|by eapply le_unheld].
Qed.

(** ** Lemmas: writei() *)

Section write.
Context (Cache : kstate -> gmap nat (Z * list Z) -> gmap Z (list Z) -> Prop) `{!BlockCache Cache}.
Context `{Platform}.
Abbreviation txn := (txn Cache).

(** One block of writei(). *)
Lemma writei_body_spec s st h V i V1 i1 k ip off bs tot n Q :
  let m := Z.min (n - tot) (BSIZE - (off + tot) mod BSIZE) in
  txn s st h V1 (6 + k) -> fs_ok s st V1 h -> (size h < 2)%nat -> k_itable s !! ip = Some i1 ->
  wrote (k_sb s) st V i V1 i1 off bs tot -> file_unheld V1 i1 h -> Forall byte_ok bs ->
  0 <= off -> 0 <= tot < n -> off + n <= MAXFILE * BSIZE -> (Z.to_nat n <= length bs)%nat ->
  (forall V2 i2 s2, wrote (k_sb s) st V i V2 i2 off bs tot ->
     (forall b, 0 <= b < sb_size (k_sb s) -> used (k_sb s) V2 b = true) -> txn s2 st h V2 (1 + k) -> op_step s s2 ->
     k_itable s2 = <[ip := i2]> (k_itable s) -> Q (inr (tot, off + tot)) s2) ->
  (forall V2 i2 s2, wrote (k_sb s) st V i V2 i2 off bs (tot + m) -> txn s2 st h V2 k -> op_step s s2 ->
     k_itable s2 = <[ip := i2]> (k_itable s) ->
     Q (inl (tot + m, off + tot + m, KernBuf (drop (Z.to_nat (tot + m)) bs))) s2) ->
  wp (writei_body ip n (tot, off + tot, KernBuf (drop (Z.to_nat tot) bs))) Q s.
Proof.
  intros m Ht Hfo Hh Hi Hw Hun Hbs Hoff Htot Hend Hlen Hstop Hgo. set (p := off + tot) in *.
  assert (Ep : p = off + tot) by done.
  pose proof (blocks_left_step p (off + n) m) as (Hm0 & Hme & _ & Hmb & _); [lia|unfold m; f_equal; lia|].
  assert (Hbn : 0 <= p / 1024 < 268) by zdm. pose proof (bm_size _ _ (fo_bitmap _ _ _ _ Hfo)) as Hsz.
  unfold writei_body. rewrite (proj2 (Z.ltb_lt tot n)) by lia. apply wp_bind.
  eapply (bmap_spec Cache s st h V1 (1 + k) ip i1); try done; [apply Hw|apply Hun|].
  intros V2 i2 a s1 Hp Ht1 Hs1 I1.
  assert (Hw2 : wrote (k_sb s) st V i V2 i2 off bs tot) by (eapply wrote_bmap; try done; lia).
  destruct (Z.eqb_spec a 0) as [->|Ha].
  { apply wp_ret. eapply Hstop; try done. by apply (bp_full _ _ _ _ _ _ _ _ Hp). }
  assert (Hi2 : k_itable s1 !! ip = Some i2).
  { rewrite I1. apply list_lookup_insert_eq. by eapply lookup_lt_Some. }
  assert (Hdev : i_dev i2 = 1) by apply Hw2.
  assert (Hua : unheld h a).
  { assert (Hu : file_unheld V2 i2 h).
    { apply (wrote_unheld (k_sb s) st V1 i1 V2 i2 off bs 0 h); [|done|apply Hfo].
      eapply wrote_bmap; [apply wrote_refl, Hw|done|done|lia|lia]. }
    rewrite <- (bp_addr _ _ _ _ _ _ _ _ Hp) in *. by apply Hu. }
  assert (Ea : file_addr V2 i2 (p / 1024) = a) by exact (bp_addr _ _ _ _ _ _ _ _ Hp).
  pose proof (am_live _ _ _ _ _ (iw_map _ _ _ _ (wr_wf _ _ _ _ _ _ _ _ _ Hw2)) (p / 1024) Hbn) as Hlive.
  rewrite Ea in Hlive. destruct (Hlive Ha) as (Hra & (_ & Hoffa & _) & _).
  apply wp_bind. eapply wp_get_entry; [done|]. rewrite Hdev. apply wp_bind.
  eapply (txn_bread Cache); [done|done|lia|]. intros bp s2 Hbp Ht2 Hs2 I2.
  rewrite (u32_small (n - tot)), (u32_small (1024 - p mod 1024)) by zdm. fold m. cbv zeta.
  apply wp_bind. eapply (copyin_buf Cache); [done|]. intros s3 Ht3 Hs3 I3. cbn [fst snd Z.eqb].
  assert (Hx : blk_ok (V2 a)) by by eapply (txn_blk Cache).
  assert (Hk : length (take (Z.to_nat m) (drop (Z.to_nat tot) bs)) = Z.to_nat m) by len.
  eapply (txn_change_then Cache s3 st h V2 k bp a); try done; [lia| |].
  { destruct Hx as [Hxl Hxb]. split; [rewrite length_splice; rewrite ?Hk, ?Hxl; zdm|].
    apply Forall_splice; [done|]. by apply Forall_take, Forall_drop. }
  intros s4 Ht4 Hs4 I4. apply wp_ret. rewrite (u32_small (tot + m)), (u32_small (p + m)) by lia.
  unfold loc_add. rewrite drop_drop. replace (Z.to_nat tot + Z.to_nat m)%nat with (Z.to_nat (tot + m)) by lia.
  eapply (Hgo _ i2); [|exact Ht4| |congruence].
  - rewrite <- Ea. apply (wrote_store (k_sb s) st V i V2 i2 off bs tot m); try done; fold p; rewrite ?Ea; try done; lia.
  - etrans; [exact Hs1|]. etrans; [exact Hs2|]. etrans; [exact Hs3|exact Hs4].
Qed.

Lemma writei_loop s st h V i k ip off bs n Q :
  txn s st h V (6 * blocks_left off (off + n) + (1 + k)) -> fs_ok s st V h -> (size h < 2)%nat ->
  k_itable s !! ip = Some i -> inode_wf (k_sb s) st V i -> file_unheld V i h -> Forall byte_ok bs ->
  0 <= off -> 0 <= n -> off + n <= MAXFILE * BSIZE -> (Z.to_nat n <= length bs)%nat ->
  (forall V1 i1 tot s1, wrote (k_sb s) st V i V1 i1 off bs tot -> 0 <= tot <= n ->
     (tot < n -> forall b, 0 <= b < sb_size (k_sb s) -> used (k_sb s) V1 b = true) ->
     txn s1 st h V1 (1 + k) -> op_step s s1 -> k_itable s1 = <[ip := i1]> (k_itable s) -> Q (tot, off + tot) s1) ->
  wp (loop (4 + Z.to_nat (n / BSIZE)) (writei_body ip n) (0, off, KernBuf bs)) Q s.
Proof.
  intros Ht Hfo Hh Hi Hwf Hun Hbs Hoff Hn Hend Hlen HQ.
  eapply (wp_loop (fun '(tot, off', src) s1 => exists V1 i1, src = KernBuf (drop (Z.to_nat tot) bs) /\
      off' = off + tot /\ 0 <= tot <= n /\ wrote (k_sb s) st V i V1 i1 off bs tot /\
      txn s1 st h V1 (6 * blocks_left off' (off + n) + (1 + k)) /\ op_step s s1 /\
      k_itable s1 = <[ip := i1]> (k_itable s))
    (fun '(tot, off', _) => blocks_left off' (off + n))).
  2:{ exists V, i. rewrite Z.add_0_r. split_and!; try done; [by apply wrote_refl|by rewrite list_insert_id]. }
  2:{ by apply blocks_left_fuel. }
  intros [[tot off'] src] s1 (V1 & i1 & -> & -> & Htot & Hw & Ht1 & Hs1 & I1).
  destruct (decide (tot = n)) as [->|Hne].
  { unfold writei_body. rewrite Z.ltb_irrefl. apply wp_ret. eapply HQ; try done; [lia|].
    eapply (txn_less Cache); [|done]. lia. }
  pose proof (blocks_left_step (off + tot) (off + n) _ ltac:(lia) eq_refl) as (Hm0 & Hme & Hmu & _ & Hbl).
  replace (off + n - (off + tot)) with (n - tot) in * by lia.
  rewrite Hbl in Ht1. set (m := Z.min (n - tot) _) in *. pose proof (op_step_sb _ _ Hs1) as Esb.
  assert (Hins : forall i2, <[ip := i2]> (k_itable s1) = <[ip := i2]> (k_itable s)).
  { intros i2. rewrite I1. apply list_insert_insert_eq. }
  eapply (writei_body_spec s1 st h V i V1 i1 (6 * blocks_left (off + tot + m) (off + n) + (1 + k))); rewrite ?Esb; try done.
  - eapply (txn_less Cache); [|done]. lia.
  - by eapply wrote_fs_ok.
  - rewrite I1. apply list_lookup_insert_eq. by eapply lookup_lt_Some.
  - eapply wrote_unheld; [done|done|apply Hfo].
  - lia.
  - intros V2 i2 s2 Hw2 Hfull Ht2 Hs2 I2. eapply HQ; try done; [|by etrans|by rewrite I2].
    eapply (txn_less Cache); [|done]. lia.
  - intros V2 i2 s2 Hw2 Ht2 Hs2 I2. split; [|done]. exists V2, i2. split_and!; try done; [lia|lia|lia|by etrans|by rewrite I2].
Qed.

(** What writei() promises of [tot] bytes written. *)
Record writei_post (sb : superblock) (st : Z) (V : Z -> list Z) (i : inode) (V' : Z -> list Z) (i' : inode)
    (off : Z) (bs : list Z) (n tot : Z) : Prop := {
  wp_tot : 0 <= tot <= n;
  wp_full : tot < n -> forall b, 0 <= b < sb_size sb -> used sb V' b = true;
  wp_inode : i' = upd_i_size (fun _ => Z.max (i_size i) (off + tot)) (upd_i_addrs (fun _ => i_addrs i') i);
  wp_wf : inode_wf sb st V' i';
  wp_byte p : 0 <= p < MAXFILE * BSIZE ->
    file_byte V' i' p = if decide (off <= p < off + tot) then nth (Z.to_nat (p - off)) bs 0 else file_byte V i p;
  wp_holes : no_holes V' i';
  wp_disk : dinode_at sb V' (i_inum i) = inode_dinode i';
  wp_others j : 0 <= j < sb_ninodes sb -> j <> i_inum i -> dinode_at sb V' j = dinode_at sb V j;
  wp_le : used_le sb V V';
  wp_from a : file_blk V' i' a -> file_blk V i a \/ used sb V a = false;
  wp_frame m : m <> 0 -> m <> IBLOCK (i_inum i) sb -> ~ bitmap_blk sb m -> ~ file_blk V i m ->
    ~ (0 <= m < sb_size sb /\ used sb V m = false) -> V' m = V m;
}.

(** Bitmap and inodes are in different blocks of the disk, none of them block 0. *)
Record layout_fs (sb : superblock) (st : Z) : Prop := {
  lf_bitmap : bitmap_ok sb st;
  lf_inodes : inodes_ok sb st;
  lf_apart n : inode_blk sb n -> ~ bitmap_blk sb n;
  lf_pos n : inode_blk sb n -> n <> 0;
}.

(** Storing an inode does not change the files. *)
Lemma put_dinode_files sb st V i inum d :
  layout_fs sb st -> 0 <= inum < sb_ninodes sb -> inode_wf sb st V i ->
  let V' := put_dinode sb inum d V in
  used_le sb V V' /\ inode_wf sb st V' i /\ (forall bn, file_addr V' i bn = file_addr V i bn) /\
  forall p, 0 <= p < MAXFILE * BSIZE -> file_byte V' i p = file_byte V i p.
Proof.
  intros [Hbm Hio Hap Hpos] Hin Hwf V'. pose proof Hwf as [Hdev Hlen Hm].
  assert (Hib : inode_blk sb (IBLOCK inum sb)) by (by exists inum).
  assert (Hle : used_le sb V V') by (intros b Hb Hub; unfold V', put_dinode; rewrite used_data; auto).
  assert (Hsame : forall a, live sb st V a -> V' a = V a).
  { intros a (_ & (_ & _ & _ & Hni) & _). apply vput_other. by intros ->. }
  assert (HF : forall bn, file_addr V' i bn = file_addr V i bn).
  { intros bn. unfold file_addr. destruct (bn <? 12); [done|]. destruct (Z.eqb_spec (ind_blk i) 0); [done|].
    by rewrite Hsame by by apply (am_ind _ _ _ _ _ Hm). }
  split_and!; try done.
  - split; [done|done|]. eapply (amap_ok_ext _ _ V); [|done|done]. auto.
  - intros p Hp. unfold file_byte. rewrite HF. destruct (Z.eqb_spec (file_addr V i (p / 1024)) 0); [done|].
    rewrite Hsame; [done|]. apply (am_live _ _ _ _ _ Hm); [zdm|done].
Qed.

Lemma wf_addrs sb st V i : bitmap_ok sb st -> inode_wf sb st V i -> Forall (fun a => 0 <= a < 2 ^ 32) (i_addrs i).
Proof.
  intros Hbm [_ Hlen Hm]. apply Forall_lookup. intros j a Hj. pose proof (lookup_lt_Some _ _ _ Hj) as Hlt.
  pose proof (bm_size _ _ Hbm). destruct (decide (a = 0)) as [->|Ha]; [lia|].
  assert (Hl : live sb st V a); [|destruct Hl; lia]. destruct (decide (j = 12%nat)) as [->|Hne].
  - assert (E : ind_blk i = a) by (unfold ind_blk; by rewrite nth_lookup, Hj). rewrite <- E in *.
    by apply (am_ind _ _ _ _ _ Hm).
  - assert (E : file_addr V i (Z.of_nat j) = a).
    { unfold file_addr. rewrite (proj2 (Z.ltb_lt _ _)), Nat2Z.id, nth_lookup, Hj by lia. done. }
    rewrite <- E in *. apply (am_live _ _ _ _ _ Hm); [lia|done].
Qed.

(** The end of writei(): the size and the inode on disk. *)
Lemma writei_finish sb st V i V1 i1 off bs n tot :
  let i2 := upd_i_size (fun _ => Z.max (i_size i) (off + tot)) i1 in
  wrote sb st V i V1 i1 off bs tot -> layout_fs sb st -> free_ok sb st V -> inode_wf sb st V i -> no_holes V i ->
  dinode_ok (inode_dinode i) -> 0 <= i_inum i < sb_ninodes sb -> blk_ok (V1 (IBLOCK (i_inum i) sb)) ->
  0 <= off <= i_size i -> off + n <= MAXFILE * BSIZE -> 0 <= tot <= n ->
  (tot < n -> forall b, 0 <= b < sb_size sb -> used sb V1 b = true) ->
  writei_post sb st V i (put_dinode sb (i_inum i) (inode_dinode i2) V1) i2 off bs n tot.
Proof.
  intros i2 [W1 W2 W3 W4 W5 W6 W7 W8] Hlf Hfree Hwf [Hsz Hno] Hd Hin Hx Hoff Hend Htot Hfull.
  pose proof Hlf as [Hbm Hio Hap Hpos].
  assert (Hwf2 : inode_wf sb st V1 i2) by (by destruct W2).
  destruct (put_dinode_files sb st V1 i2 (i_inum i) (inode_dinode i2) Hlf Hin Hwf2) as (Hle & Hwf3 & HF & HB).
  set (V3 := put_dinode _ _ _ _) in *.
  assert (Hd2 : dinode_ok (inode_dinode i2)).
  { destruct Hd as [D1 D2 D3 D4 D5 D6 D7]. unfold i2. rewrite W1. split; try done.
    - unfold inode_dinode. ksimpl. cbn [di_size]. lia.
    - apply W2.
    - exact (wf_addrs sb st V1 i1 Hbm W2). }
  assert (Hother : forall j, 0 <= j < sb_ninodes sb -> V1 (IBLOCK j sb) = V (IBLOCK j sb)).
  { intros j Hj. assert (Hjb : inode_blk sb (IBLOCK j sb)) by (by exists j).
    apply W8; [by apply Hpos|by apply Hap| |].
    - intros Hfb. by destruct (file_blk_live _ _ _ _ _ Hwf Hfb) as (_ & (_ & _ & _ & Hni) & _).
    - intros [Hr Hu]. by destruct (Hfree _ Hr Hu) as (_ & _ & _ & Hni). }
  split; try done.
  - intros Hlt b Hb. apply Hle; [done|]. by apply Hfull.
  - unfold i2. rewrite W1. done.
  - intros p Hp. rewrite HB by done. by apply W3.
  - split; [unfold i2; ksimpl; lia|]. intros p Hp. rewrite HF. change (file_addr V1 i2) with (file_addr V1 i1).
    change (i_size i2) with (Z.max (i_size i) (off + tot)) in Hp.
    destruct (Z.lt_ge_cases p (i_size i)) as [Hlt|Hge]; [|apply W5; lia].
    assert (0 <= p / 1024 < 268) by zdm. assert (file_addr V i (p / 1024) <> 0) by (apply Hno; lia).
    by rewrite W4.
  - unfold V3. rewrite (dinode_at_put sb st) by done. by rewrite Z.eqb_refl.
  - intros j Hj Hne. unfold V3. rewrite (dinode_at_put sb st) by done. rewrite (proj2 (Z.eqb_neq _ _)) by done.
    unfold dinode_at. by rewrite Hother.
  - intros b Hb Hu. by apply Hle, W6.
  - intros a [Ha0 Ha]. apply W7. split; [done|]. destruct Ha as [->|(bn & Hbn & ->)]; [by left|right].
    exists bn. split; [done|apply HF].
  - intros m Hm0 Hm1 Hm2 Hm3 Hm4. unfold V3, put_dinode. rewrite vput_other by done. by apply W8.
Qed.

Lemma writei_spec s st h V i k ip off bs n Q :
  txn s st h V (6 * blocks_left off (off + n) + (1 + k)) -> layout_fs (k_sb s) st -> fs_ok s st V h ->
  (size h < 2)%nat -> k_itable s !! ip = Some i -> inode_wf (k_sb s) st V i -> no_holes V i ->
  file_unheld V i h -> unheld h (IBLOCK (i_inum i) (k_sb s)) -> dinode_ok (inode_dinode i) ->
  0 <= i_inum i < sb_ninodes (k_sb s) -> Forall byte_ok bs ->
  0 <= off <= i_size i -> 0 <= n -> off + n <= MAXFILE * BSIZE -> (Z.to_nat n <= length bs)%nat ->
  (forall V' i' tot s', writei_post (k_sb s) st V i V' i' off bs n tot -> txn s' st h V' k -> op_step s s' ->
     k_itable s' = <[ip := i']> (k_itable s) -> Q tot s') ->
  wp (writei ip (KernBuf bs) off n) Q s.
Proof.
  intros Ht Hlf Hfo Hh Hi Hwf Hno Hun Hui Hd Hin Hbs Hoff Hn Hend Hlen HQ. pose proof Hno as [Hsz _].
  unfold writei. apply wp_bind. eapply wp_get_entry; [done|]. rewrite (u32_small (off + n)) by lia.
  rewrite (proj2 (Z.ltb_ge (i_size i) off)), (proj2 (Z.ltb_ge (off + n) off)), (proj2 (Z.ltb_ge _ (off + n))) by lia.
  cbn [orb]. apply wp_bind. eapply writei_loop; try done; [lia|].
  intros V1 i1 tot s1 Hw Htot Hfull Ht1 Hs1 I1. cbn iota.
  set (i2 := upd_i_size (fun _ => Z.max (i_size i) (off + tot)) i1).
  pose proof (lookup_lt_Some _ _ _ Hi) as Hip.
  assert (Hi1 : k_itable s1 !! ip = Some i1) by (rewrite I1; by apply list_lookup_insert_eq).
  assert (Esz : i_size i1 = i_size i) by (rewrite (wr_inode _ _ _ _ _ _ _ _ _ Hw); done).
  apply wp_bind. eapply wp_get_entry; [done|]. rewrite Esz. apply wp_bind.
  set (s2 := if i_size i <? off + tot then upd_k_itable (alter (upd_i_size (fun _ => off + tot)) ip) s1 else s1).
  assert (Hs2 : op_step s1 s2 /\ k_bcache s2 = k_bcache s1 /\ k_log s2 = k_log s1 /\
                k_itable s2 = <[ip := i2]> (k_itable s)).
  { unfold s2, i2. destruct (Z.ltb_spec (i_size i) (off + tot)).
    - split_and!; try done; [apply op_step_itable|]. change (k_itable (upd_k_itable ?f s1)) with (f (k_itable s1)).
      rewrite (list_alter_insert _ _ _ _ Hi1), I1, list_insert_insert_eq. by rewrite Z.max_r by lia.
    - split_and!; try done. rewrite I1, Z.max_l, <- Esz by lia. by destruct i1. }
  destruct Hs2 as (Hs2 & Eb & El & I2).
  assert (Ht2 : txn s2 st h V1 (1 + k)) by (by eapply (txn_keep Cache s1)).
  assert (Hgo : wp (iupdate ip;; mret (s32 tot)) Q s2).
  { pose proof (op_step_sb _ _ Hs1) as Esb1. pose proof (op_step_sb _ _ Hs2) as Esb2. rewrite Esb1 in Esb2.
    assert (En : i_inum i2 = i_inum i) by (unfold i2; rewrite (wr_inode _ _ _ _ _ _ _ _ _ Hw); done).
    apply wp_bind. eapply (iupdate_spec Cache s2 st h V1 k ip i2); rewrite ?Esb2, ?En; try done.
    - apply Hlf.
    - rewrite I2. by apply list_lookup_insert_eq.
    - apply (iw_dev _ _ _ _ (wr_wf _ _ _ _ _ _ _ _ _ Hw)).
    - apply (iw_len _ _ _ _ (wr_wf _ _ _ _ _ _ _ _ _ Hw)).
    - lia.
    - intros s3 Ht3 Hs3 I3. apply wp_ret. rewrite s32_small by lia.
      eapply HQ; [|exact Ht3|etrans; [exact Hs1|by etrans]|by rewrite I3].
      apply writei_finish; try done; [apply Hfo|]. by eapply (txn_blk Cache). }
  unfold s2 in Hgo. destruct (i_size i <? off + tot); cbn [when]; [by apply wp_modify|by apply wp_ret].
Qed.

End write.

(** ** Lemmas: the example *)

Lemma example_layout : layout_fs example_sb 2.
Proof.
  split; [exact example_bitmap_ok| | |].
  - split; [cbn; lia|cbn; lia|by vm_compute|]. intros i Hi.
    assert (E : IBLOCK i example_sb = 32) by (apply example_inode_blk; by exists i). rewrite E. right. lia.
  - intros n ->%example_inode_blk E%example_bitmap_blk. done.
  - by intros n ->%example_inode_blk.
Qed.

Lemma example_file_dinode : dinode_ok (inode_dinode (example_slot 2 example_file)).
Proof. split; try (cbn; lia); [done|]. apply (bool_decide_unpack _). by vm_compute. Qed.

(** ** Properties *)




