(* ===== verification/FsDir.v ===== *)
(** * Correctness of directories and path names (kernel/fs.c)

    A directory is the list of its 16-byte entries ([dirents]).  dirlookup() finds the
    first entry with a name, dirlink() adds one; skipelem() splits a path into its
    components. *)

From Stdlib Require Import ZArith Lia.
From stdpp Require Import base tactics numbers gmap strings option list.
From S2P Require Import Prelude Bytes Kernel Spinlock Kstring Sched Uart Printf Bio Bcache.
From S2P Require Import Riscv Kalloc KallocInit Vm Uio Log LogSpec BcacheProps Crash Fs Txn FsExample FsBlocks.
From S2P Require Import FsInode FsData FsIO FsWrite.

(** ** Specification: paths *)

(** The components of a path: its pieces between slashes that are not empty. *)
Fixpoint pieces (p : list Z) : list (list Z) :=
  match p with
  | [] => [[]]
  | c :: p' =>
      if c =? 47 then [] :: pieces p'
      else match pieces p' with
           | e :: es => (c :: e) :: es
           | [] => [[c]]
           end
  end.

Definition components (p : list Z) : list (list Z) :=
  filter (fun e => e <> []) (pieces (upto_nul p)).

(** What skipelem() leaves in the name buffer for component [e]. *)
Definition elem_name (e name : list Z) : list Z :=
  splice name 0 (if (14 <=? length e)%nat then take 14 e else e ++ [0]).

(** ** Lemmas: paths *)

Lemma upto_nul_zero p : hd 0 p = 0 -> upto_nul p = [].
Proof. destruct p as [|c p]; [done|]. cbn. intros ->. done. Qed.

Lemma pieces_ne p : pieces p <> [].
Proof. destruct p as [|c p]; [done|]. cbn. destruct (c =? 47); [done|]. by destruct (pieces p). Qed.

Lemma components_slash p : components (47 :: p) = components p.
Proof. unfold components. cbn. done. Qed.

Lemma components_skip p : components (skip_slashes p) = components p.
Proof.
  induction p as [|c p IH]; [done|]. cbn [skip_slashes]. destruct (Z.eqb_spec c 47) as [->|]; [|done].
  by rewrite components_slash.
Qed.

Lemma skip_slashes_le p : (length (skip_slashes p) <= length p)%nat.
Proof. induction p as [|c p IH]; [done|]. cbn. destruct (c =? 47); cbn; lia. Qed.

Lemma skip_slashes_hd p : hd 0 (skip_slashes p) <> 47.
Proof. induction p as [|c p IH]; [done|]. cbn. destruct (Z.eqb_spec c 47); [done|]. by cbn. Qed.

(** A component and what follows it. *)
Lemma span_elem_spec p :
  let '(e, r) := span_elem p in
  p = e ++ r /\ (hd 0 r = 47 \/ hd 0 r = 0) /\ Forall (fun c => c <> 47 /\ c <> 0) e.
Proof.
  induction p as [|c p IH]; [by split_and!; [|right|]|]. cbn [span_elem].
  destruct (Z.eqb_spec c 47) as [->|H47]; [cbn; split_and!; [done|by left|done]|].
  destruct (Z.eqb_spec c 0) as [->|H0]; [cbn; split_and!; [done|by right|done]|]. cbn [orb].
  destruct (span_elem p) as [e r]. cbn. destruct IH as (-> & Hr & He). split_and!; [done|done|].
  by constructor.
Qed.

Lemma upto_nul_elem e r : Forall (fun c => c <> 47 /\ c <> 0) e -> upto_nul (e ++ r) = e ++ upto_nul r.
Proof.
  induction 1 as [|c e [_ Hc] _ IH]; [done|]. cbn. rewrite (proj2 (Z.eqb_neq c 0)) by done. by f_equal.
Qed.

Lemma components_span e r :
  e <> [] -> Forall (fun c => c <> 47 /\ c <> 0) e -> hd 0 r = 47 \/ hd 0 r = 0 ->
  components (e ++ r) = e :: components r.
Proof.
  intros Hne He Hr. unfold components. rewrite upto_nul_elem by done.
  assert (Hp : pieces (e ++ upto_nul r) = match pieces (upto_nul r) with x :: es => (e ++ x) :: es | [] => [] end).
  { clear Hne. induction He as [|c e [Hc _] _ IH]; [cbn; by destruct (pieces (upto_nul r))|].
    cbn [app pieces]. rewrite (proj2 (Z.eqb_neq c 47)) by done. rewrite IH.
    destruct (pieces (upto_nul r)) eqn:E; [by apply pieces_ne in E|done]. }
  rewrite Hp. destruct Hr as [Hr|Hr].
  - destruct r as [|c r]; [done|]. cbn in Hr. subst c.
    change (pieces (upto_nul (47 :: r))) with ([] :: pieces (upto_nul r)). cbn iota.
    rewrite app_nil_r, filter_cons_True by done. by rewrite filter_cons_False by (intros H; by apply H).
  - rewrite (upto_nul_zero r Hr). change (pieces []) with [[] : list Z]. cbn iota.
    rewrite app_nil_r, filter_cons_True by done. by rewrite filter_cons_False by (intros H; by apply H).
Qed.

Lemma components_nil p : hd 0 p = 0 -> components p = [].
Proof. intros H. unfold components. by rewrite upto_nul_zero. Qed.

(** skipelem() takes one component off a path. *)
Lemma skipelem_spec path name :
  match skipelem path name with
  | None => components path = []
  | Some (rest, name') =>
      exists e, components path = e :: components rest /\ name' = elem_name e name /\
        Forall (fun c => c <> 47 /\ c <> 0) e /\ hd 0 rest <> 47 /\ (length rest < length path)%nat
  end.
Proof.
  unfold skipelem. rewrite <- (components_skip path). pose proof (skip_slashes_le path) as Hle.
  pose proof (skip_slashes_hd path) as Hhd. set (p := skip_slashes path) in *.
  destruct (Z.eqb_spec (hd 0 p) 0) as [H0|H0]; [by apply components_nil|].
  pose proof (span_elem_spec p) as Hs. destruct (span_elem p) as [e r]. destruct Hs as (E & Hr & He).
  exists e. rewrite components_skip. pose proof (skip_slashes_le r).
  assert (Hne : e <> []) by (intros ->; cbn in E; subst; by destruct Hr).
  split_and!; try done.
  - rewrite E. by apply components_span.
  - unfold elem_name. by destruct (14 <=? length e)%nat.
  - apply skip_slashes_hd.
  - rewrite E, length_app in Hle. destruct e; [done|]. cbn in Hle. lia.
Qed.

(** ** Specification: directories *)

(** The name that a field of 14 bytes holds. *)
Definition name14 (l : list Z) : list Z := upto_nul (take 14 l).

(** Entry [k] of a directory. *)
Definition dirent_at (V : Z -> list Z) (i : inode) (k : Z) : list Z := file_range V i (16 * k) 16.

Definition de_matches (name de : list Z) : bool :=
  negb (de_inum de =? 0) && bool_decide (name14 name = name14 (de_name de)).

(** The first entry with a name. *)
Definition dir_find (V : Z -> list Z) (i : inode) (name : list Z) : option Z :=
  List.find (fun k => de_matches name (dirent_at V i k)) (seqZ 0 (i_size i / 16)).

Record dir_ok (V : Z -> list Z) (i : inode) : Prop := {
  dr_type : i_type i = T_DIR;
  dr_size : i_size i mod 16 = 0;
  dr_holes : no_holes V i;
}.

(** ** Lemmas: names *)

Lemma strncmp_bytes_0 n p q : strncmp_bytes n p q = 0 <-> upto_nul (take n p) = upto_nul (take n q).
Proof.
  revert p q. induction n as [|n IH]; intros p q; [done|]. cbn [strncmp_bytes].
  destruct p as [|a p], q as [|b q]; cbn [hd tl take upto_nul]; try done.
  - cbn [Z.eqb negb andb]. destruct (Z.eqb_spec b 0) as [->|]; split; (done || lia).
  - destruct (Z.eqb_spec a 0) as [->|]; [by split|]. cbn [negb andb]. split; (done || lia).
  - destruct (Z.eqb_spec a 0) as [->|Ha]; cbn [negb andb].
    + destruct (Z.eqb_spec b 0) as [->|]; split; (done || lia).
    + destruct (Z.eqb_spec a b) as [->|Hab].
      * rewrite (proj2 (Z.eqb_neq b 0)) by done. rewrite IH. split; [by intros ->|by intros [= ->]].
      * split; [lia|]. destruct (b =? 0); [done|]. intros [= ->]. lia.
Qed.

Lemma namecmp_eq p q : (namecmp p q =? 0) = bool_decide (name14 p = name14 q).
Proof.
  unfold namecmp, name14. case_bool_decide as E.
  - by apply Z.eqb_eq, strncmp_bytes_0.
  - apply Z.eqb_neq. by rewrite strncmp_bytes_0.
Qed.

(** The buffer that skipelem() filled holds the component, cut to 14 bytes. *)
Lemma name14_elem e name :
  Forall (fun c => c <> 47 /\ c <> 0) e -> length name = 14%nat -> name14 (elem_name e name) = take 14 e.
Proof.
  intros He Hn. unfold name14, elem_name.
  assert (Hu : forall l r, Forall (fun c => c <> 47 /\ c <> 0) l -> upto_nul (l ++ 0 :: r) = l).
  { intros l r Hl. rewrite upto_nul_elem by done. cbn. apply app_nil_r. }
  destruct (Nat.leb_spec 14 (length e)).
  - rewrite splice_all by len. rewrite take_take, Nat.min_id.
    rewrite <- (app_nil_r (take 14 e)), upto_nul_elem by (by apply Forall_take). cbn. by rewrite !app_nil_r.
  - unfold splice. change (take 0 name) with (@nil Z). rewrite length_app. cbn [length Nat.add app].
    rewrite <- app_assoc. cbn [app]. rewrite take_ge; [rewrite Hu by done; by rewrite take_ge by lia|].
    rewrite length_app. cbn [length]. rewrite length_drop. lia.
Qed.

(** ** Lemmas: dirlookup() *)

Section dir.
Context (Cache : kstate -> gmap nat (Z * list Z) -> gmap Z (list Z) -> Prop) `{!BlockCache Cache}.
Context `{Platform}.
Abbreviation txn := (txn Cache).

Lemma read_dirent_spec s st h V k dp d j msg Q :
  txn s st h V k -> (size h < 3)%nat -> k_itable s !! dp = Some d -> inode_wf (k_sb s) st V d ->
  dir_ok V d -> file_unheld V d h -> 0 <= j < i_size d / 16 ->
  (forall s', txn s' st h V k -> op_step s s' -> k_itable s' = k_itable s -> Q (dirent_at V d j) s') ->
  wp (read_dirent dp (16 * j) msg) Q s.
Proof.
  intros Ht Hh Hd Hwf [Hty Hal Hno] Hun Hj HQ. pose proof Hno as [Hsz _]. unfold read_dirent.
  assert (Hb : 16 * j + 16 <= i_size d) by zdm. apply wp_bind.
  assert (E : readi_bytes V d (16 * j) 16 = dirent_at V d j).
  { unfold readi_bytes. rewrite decide_False by lia. by rewrite Z.min_l by lia. }
  eapply (readi_spec Cache); try done; [lia|]. intros s1 Ht1 Hs1 I1. rewrite E. unfold dirent_at at 1.
  rewrite length_file_range by lia. cbn [fst snd]. change (Z.of_nat (Z.to_nat 16)) with 16. cbn [Z.eqb negb].
  apply wp_ret. by apply HQ.
Qed.

Lemma txn_iget s st h V k dev inum j f Q :
  txn s st h V k -> iget_pick dev inum (k_itable s) = Some (j, f) ->
  (forall s', txn s' st h V k -> op_step s s' -> k_itable s' = alter f j (k_itable s) -> Q j s') ->
  wp (iget dev inum) Q s.
Proof.
  intros Ht Hp HQ. pose proof Ht as (bl & P & Ht'). eapply wp_mono; [by apply iget_spec; [apply Ht'|]|].
  cbn beta. intros r s' [-> E].
  assert (Hs : op_step s s') by (etrans; [apply (op_step_itable (alter f j))|by apply op_step_keq]).
  apply HQ; [|done|apply (keq_k_itable _ _ E)].
  eapply (txn_keep Cache s); [done|done|apply (keq_k_bcache _ _ E)|apply (keq_k_log _ _ E)].
Qed.

Lemma dirlookup_spec s st h V k dp d name Q :
  txn s st h V k -> (size h < 3)%nat -> k_itable s !! dp = Some d -> inode_wf (k_sb s) st V d ->
  dir_ok V d -> file_unheld V d h ->
  (dir_find V d name = None -> forall s', txn s' st h V k -> op_step s s' -> k_itable s' = k_itable s -> Q None s') ->
  (forall j, dir_find V d name = Some j -> exists ip f,
     iget_pick 1 (de_inum (dirent_at V d j)) (k_itable s) = Some (ip, f) /\
     forall s', txn s' st h V k -> op_step s s' -> k_itable s' = alter f ip (k_itable s) -> Q (Some (ip, 16 * j)) s') ->
  wp (dirlookup dp name) Q s.
Proof.
  intros Ht Hh Hd Hwf Hdir Hun Hnone Hsome. pose proof Hdir as [Hty Hal Hno]. pose proof Hno as [Hsz _].
  unfold dirlookup. apply wp_bind. eapply wp_get_entry; [done|]. rewrite Hty. cbn [negb Z.eqb].
  change (negb (T_DIR =? T_DIR)) with false. cbn iota.
  pose proof (find_first (fun k => de_matches name (dirent_at V d k)) 0 (i_size d / 16)) as Hff.
  fold (dir_find V d name) in Hff.
  eapply (wp_loop (fun off s1 => exists j, off = 16 * j /\ 0 <= j <= i_size d / 16 /\
      (forall y, 0 <= y < j -> de_matches name (dirent_at V d y) = false) /\
      txn s1 st h V k /\ op_step s s1 /\ k_itable s1 = k_itable s)
    (fun off => Z.to_nat ((i_size d - off) / 16))).
  2:{ exists 0. split_and!; try done; zdm. }
  2:{ zdm. }
  intros off s1 (j & -> & Hj & Hbef & Ht1 & Hs1 & I1). unfold dirlookup_body.
  apply wp_bind. eapply wp_get_entry; [by rewrite I1|]. destruct (Z.ltb_spec (16 * j) (i_size d)) as [Hlt|Hge].
  2:{ apply wp_ret. apply Hnone; try done. destruct (dir_find V d name) as [x|]; [|done].
      destruct Hff as (Hx & Hm & _). rewrite Hbef in Hm by zdm. done. }
  assert (Hj' : 0 <= j < i_size d / 16) by zdm. apply wp_bind.
  eapply read_dirent_spec; [exact Ht1|done|by rewrite I1|by rewrite (op_step_sb _ _ Hs1)|done|done|done|].
  intros s2 Ht2 Hs2 I2.
  assert (Hnext : de_matches name (dirent_at V d j) = false ->
            (exists j0, u32 (16 * j + 16) = 16 * j0 /\ 0 <= j0 <= i_size d / 16 /\
               (forall y, 0 <= y < j0 -> de_matches name (dirent_at V d y) = false) /\
               txn s2 st h V k /\ op_step s s2 /\ k_itable s2 = k_itable s) /\
            (Z.to_nat ((i_size d - u32 (16 * j + 16)) / 16) < Z.to_nat ((i_size d - 16 * j) / 16))%nat).
  { intros Hm. rewrite u32_small by zdm. split; [|zdm]. exists (j + 1). split_and!; try done; try lia; try zdm.
    - intros y Hy. destruct (decide (y = j)) as [->|]; [done|]. apply Hbef. lia.
    - by etrans.
    - congruence. }
  pose proof (eq_refl (de_matches name (dirent_at V d j))) as Hm. unfold de_matches at 2 in Hm.
  destruct (Z.eqb_spec (de_inum (dirent_at V d j)) 0) as [E0|E0]; cbn [negb andb] in Hm.
  { apply wp_ret. by apply Hnext. }
  rewrite namecmp_eq. case_bool_decide as En.
  2:{ apply wp_ret. by apply Hnext. }
  assert (Hf : dir_find V d name = Some j).
  { destruct (dir_find V d name) as [x|].
    - destruct Hff as (Hx & Hmx & Hfirst). destruct (Z.lt_trichotomy x j) as [Hl|[->|Hg]]; [|done|].
      + rewrite Hbef in Hmx by lia. done.
      + rewrite Hfirst in Hm by lia. done.
    - rewrite Hff in Hm by lia. done. }
  destruct (Hsome j Hf) as (ip & f & Hpick & HQ). apply wp_bind. rewrite (iw_dev _ _ _ _ Hwf).
  eapply txn_iget; [exact Ht2|by rewrite I2, I1|]. intros s3 Ht3 Hs3 I3. apply wp_ret. apply HQ; [done| |congruence].
  etrans; [exact Hs1|]. by etrans.
Qed.

(** ** Lemmas: dirlink() *)

(** iput() when the inode is not to be freed. *)
Lemma iput_keep s st h V k ip i Q :
  txn s st h V k -> k_itable s !! ip = Some i -> (i_ref i =? 1) && i_valid i && (i_nlink i =? 0) = false ->
  (forall s', txn s' st h V k -> op_step s s' -> k_itable s' = alter (upd_i_ref (fun n => n - 1)) ip (k_itable s) -> Q tt s') ->
  wp (iput ip) Q s.
Proof.
  intros Ht Hi Hc HQ. pose proof Ht as (bl & P & Ht'). unfold iput.
  apply wp_bind, wp_acquire; [apply Ht', not_elem_of_nil|].
  apply wp_bind. eapply wp_get_entry; [exact Hi|]. rewrite Hc. cbn [when]. unfold upd_inode. wp_steps.
  wp_rel; [apply Ht'|]. set (s' := resync _ _).
  assert (E : s' ≡ upd_k_itable (alter (upd_i_ref (fun n => n - 1)) ip) s) by (unfold s'; keq).
  assert (Hs : op_step s s').
  { etrans; [apply (op_step_itable (alter (upd_i_ref (fun n => n - 1)) ip))|by apply op_step_keq]. }
  apply HQ; [|done|apply (keq_k_itable _ _ E)].
  eapply (txn_keep Cache s); [done|done|apply (keq_k_bcache _ _ E)|apply (keq_k_log _ _ E)].
Qed.

(** The entry that dirlink() uses: the first free one, else a new one at the end. *)
Definition dir_slot (V : Z -> list Z) (i : inode) : Z :=
  match List.find (fun k => de_inum (dirent_at V i k) =? 0) (seqZ 0 (i_size i / 16)) with
  | Some k => k
  | None => i_size i / 16
  end.

Lemma dir_slot_spec V i :
  0 <= i_size i -> 0 <= dir_slot V i <= i_size i / 16 /\
  (forall y, 0 <= y < dir_slot V i -> de_inum (dirent_at V i y) <> 0) /\
  (dir_slot V i < i_size i / 16 -> de_inum (dirent_at V i (dir_slot V i)) = 0).
Proof.
  intros Hs. unfold dir_slot.
  pose proof (find_first (fun k => de_inum (dirent_at V i k) =? 0) 0 (i_size i / 16)) as Hf.
  destruct (List.find _ _) as [x|].
  - destruct Hf as (Hx & Hz%Z.eqb_eq & Hb). split; [lia|]. split; [|done]. intros y Hy.
    specialize (Hb y Hy). by apply Z.eqb_neq in Hb.
  - split; [zdm|]. split; [|intros; lia]. intros y Hy. specialize (Hf y). rewrite Z.add_0_l in Hf.
    by apply Z.eqb_neq, Hf.
Qed.

Lemma dirlink_search s st h V k dp d Q :
  txn s st h V k -> (size h < 3)%nat -> k_itable s !! dp = Some d -> inode_wf (k_sb s) st V d ->
  dir_ok V d -> file_unheld V d h ->
  (forall s', txn s' st h V k -> op_step s s' -> k_itable s' = k_itable s -> Q (16 * dir_slot V d) s') ->
  wp (loop (S (S (Z.to_nat (i_size d / 16)))) (dirlink_body dp) 0) Q s.
Proof.
  intros Ht Hh Hd Hwf Hdir Hun HQ. pose proof Hdir as [Hty Hal Hno]. pose proof Hno as [Hsz _].
  destruct (dir_slot_spec V d) as (Hr & Hbef & Hat); [lia|].
  eapply (wp_loop (fun off s1 => exists j, off = 16 * j /\ 0 <= j <= dir_slot V d /\
      txn s1 st h V k /\ op_step s s1 /\ k_itable s1 = k_itable s)
    (fun off => Z.to_nat ((i_size d - off) / 16))).
  2:{ exists 0. split_and!; try done. lia. }
  2:{ zdm. }
  intros off s1 (j & -> & Hj & Ht1 & Hs1 & I1). unfold dirlink_body.
  apply wp_bind. eapply wp_get_entry; [by rewrite I1|]. destruct (Z.ltb_spec (16 * j) (i_size d)) as [Hlt|Hge].
  2:{ apply wp_ret. replace j with (dir_slot V d) by zdm. by apply HQ. }
  apply wp_bind. eapply read_dirent_spec; [exact Ht1|done|by rewrite I1|by rewrite (op_step_sb _ _ Hs1)|done|done|zdm|].
  intros s2 Ht2 Hs2 I2. destruct (Z.eqb_spec (de_inum (dirent_at V d j)) 0) as [E0|E0]; apply wp_ret.
  - replace j with (dir_slot V d).
    + apply HQ; [done|by etrans|congruence].
    + destruct (Z.lt_ge_cases j (dir_slot V d)) as [Hl|]; [|lia]. exfalso. apply (Hbef j); [lia|done].
  - split; [|zdm]. assert (Hlt' : j < dir_slot V d).
    { destruct (Z.lt_ge_cases j (dir_slot V d)); [done|]. exfalso. apply E0.
      replace j with (dir_slot V d) by lia. apply Hat. zdm. }
    exists (j + 1). split_and!; try done; try lia; [by etrans|congruence].
Qed.

(** What dirlink() stores. *)
Definition new_dirent (name : list Z) (inum : Z) : list Z := dirent_enc inum (nul_padded 14 name).

Lemma length_new_dirent name inum : length (new_dirent name inum) = 16%nat.
Proof.
  unfold new_dirent, dirent_enc, nul_padded. rewrite length_app, length_le_split, length_take, length_app, length_replicate. lia.
Qed.

Lemma dirlink_spec s st h V i k dp name inum Q :
  txn s st h V (7 + k) -> layout_fs (k_sb s) st -> fs_ok s st V h -> (size h < 2)%nat ->
  k_itable s !! dp = Some i -> inode_wf (k_sb s) st V i -> dir_ok V i -> file_unheld V i h ->
  unheld h (IBLOCK (i_inum i) (k_sb s)) -> dinode_ok (inode_dinode i) -> 0 <= i_inum i < sb_ninodes (k_sb s) ->
  Forall byte_ok name -> dir_find V i name = None -> 16 * dir_slot V i + 16 <= MAXFILE * BSIZE ->
  (forall V' i' tot s', writei_post (k_sb s) st V i V' i' (16 * dir_slot V i) (new_dirent name inum) 16 tot ->
     txn s' st h V' k -> op_step s s' -> k_itable s' = <[dp := i']> (k_itable s) ->
     Q (if tot =? 16 then 0 else -1) s') ->
  wp (dirlink dp name inum) Q s.
Proof.
  intros Ht Hlf Hfo Hh Hi Hwf Hdir Hun Hui Hd Hin Hb Hnone Hend HQ. pose proof Hdir as [Hty Hal Hno].
  pose proof Hno as [Hsz _]. destruct (dir_slot_spec V i) as (Hr & _ & _); [lia|].
  unfold dirlink. apply wp_bind. eapply (dirlookup_spec s st h V _ dp i); try done; [lia| |].
  2:{ intros j Hj. by rewrite Hnone in Hj. }
  intros _ s1 Ht1 Hs1 I1. pose proof (op_step_sb _ _ Hs1) as Esb1.
  apply wp_bind. eapply wp_get_entry; [by rewrite I1|]. apply wp_bind.
  eapply (dirlink_search s1 st h V _ dp i); try done; [lia|by rewrite I1|by rewrite Esb1|].
  intros s2 Ht2 Hs2 I2. pose proof (op_step_sb _ _ Hs2) as Esb2. rewrite Esb1 in Esb2. fold (new_dirent name inum).
  assert (Ebl : blocks_left (16 * dir_slot V i) (16 * dir_slot V i + 16) = 1%nat).
  { unfold blocks_left. rewrite (proj2 (Z.ltb_lt _ _)) by lia. zdm. }
  apply wp_bind. eapply (writei_spec Cache s2 st h V i k dp); rewrite ?Esb2, ?Ebl; try done.
  - destruct Hfo. by split; rewrite Esb2.
  - by rewrite I2, I1.
  - unfold new_dirent, dirent_enc, nul_padded. apply Forall_app. split; [apply le_split_bytes|].
    apply Forall_take, Forall_app. split; [|by apply Forall_replicate].
    eapply Forall_impl; [by apply Forall_upto_nul|]. unfold byte_ok. cbn. lia.
  - zdm.
  - rewrite length_new_dirent. lia.
  - intros V' i' tot s3 Hp Ht3 Hs3 I3. apply wp_ret.
    assert (E : (if negb (tot =? 16) then -1 else 0) = (if tot =? 16 then 0 else -1)) by by destruct (tot =? 16).
    rewrite E. eapply HQ; [done|done| |by rewrite I3, I2, I1].
    etrans; [exact Hs1|]. by etrans.
Qed.

End dir.

(** ** Lemmas: a directory after dirlink() *)

Lemma take_upto_nul n l : take n (upto_nul l) = upto_nul (take n l).
Proof.
  revert n. induction l as [|b l IH]; intros [|n]; cbn [take upto_nul]; try done.
  destruct (b =? 0); [done|]. cbn [take]. by rewrite IH.
Qed.

Lemma new_dirent_name name inum : name14 (de_name (new_dirent name inum)) = name14 name.
Proof.
  unfold de_name, new_dirent, dirent_enc.
  assert (Hl : length (nul_padded 14 name) = 14%nat).
  { unfold nul_padded. rewrite length_take, length_app, length_replicate. lia. }
  pose proof (slice_mid (le_split 2 inum) (nul_padded 14 name) [] 2 14) as E. rewrite app_nil_r in E.
  rewrite E by (apply length_le_split || done). unfold name14. rewrite take_ge by lia. unfold nul_padded.
  rewrite take_app, take_replicate, take_upto_nul. apply upto_nul_app_zeros.
Qed.

Lemma new_dirent_inum name inum : 0 <= inum < 2 ^ 16 -> de_inum (new_dirent name inum) = inum.
Proof.
  intros Hi. unfold de_inum, get_le, new_dirent, dirent_enc.
  pose proof (slice_mid [] (le_split 2 inum) (nul_padded 14 name) 0 2) as E. cbn [app] in E.
  rewrite E by (apply length_le_split || done). rewrite le_combine_split. by apply Z.mod_small.
Qed.

Lemma new_dirent_matches name inum : 0 < inum < 2 ^ 16 -> de_matches name (new_dirent name inum) = true.
Proof.
  intros Hi. unfold de_matches. rewrite new_dirent_inum by lia. rewrite (proj2 (Z.eqb_neq inum 0)) by lia.
  cbn [negb andb]. apply bool_decide_true. by rewrite new_dirent_name.
Qed.

(** The entries after the write of one of them. *)
Lemma dirent_at_write sb st V i V' i' slot e k :
  writei_post sb st V i V' i' (16 * slot) e 16 16 -> length e = 16%nat -> 0 <= slot -> 0 <= k ->
  16 * k + 16 <= MAXFILE * BSIZE ->
  dirent_at V' i' k = if k =? slot then e else dirent_at V i k.
Proof.
  intros Hp He Hs Hk Hend. pose proof (wp_byte _ _ _ _ _ _ _ _ _ _ Hp) as Hb. unfold dirent_at.
  apply list_eq. intros j. destruct (decide (Z.of_nat j < 16)).
  - rewrite lookup_file_range, Hb by lia. destruct (Z.eqb_spec k slot) as [->|Hne].
    + rewrite decide_True by lia. replace (Z.to_nat (16 * slot + Z.of_nat j - 16 * slot)) with j by lia.
      destruct (lookup_Some_total e j) as [v Hv]; [lia|]. by rewrite nth_lookup, Hv.
    + rewrite decide_False by lia. by rewrite lookup_file_range by lia.
  - rewrite lookup_ge_None_2 by (rewrite length_file_range; lia).
    destruct (k =? slot); symmetry; apply lookup_ge_None_2; [|rewrite length_file_range]; lia.
Qed.

Lemma dir_find_new sb st V i V' i' name inum :
  writei_post sb st V i V' i' (16 * dir_slot V i) (new_dirent name inum) 16 16 -> dir_ok V i ->
  dir_find V i name = None -> 0 < inum < 2 ^ 16 -> 16 * dir_slot V i + 16 <= MAXFILE * BSIZE ->
  dir_ok V' i' /\ dir_find V' i' name = Some (dir_slot V i) /\
  dirent_at V' i' (dir_slot V i) = new_dirent name inum.
Proof.
  intros Hp [Hty Hal Hno] Hnone Hinum Hend. pose proof Hno as [Hsz _]. set (slot := dir_slot V i) in *.
  destruct (dir_slot_spec V i) as (Hr & _ & _); [lia|]. fold slot in Hr.
  assert (Esz : i_size i' = Z.max (i_size i) (16 * slot + 16)) by (by rewrite (wp_inode _ _ _ _ _ _ _ _ _ _ Hp)).
  assert (Hty' : i_type i' = T_DIR) by (by rewrite (wp_inode _ _ _ _ _ _ _ _ _ _ Hp)).
  assert (Hent : forall k, 0 <= k -> 16 * k + 16 <= 268 * 1024 ->
            dirent_at V' i' k = if k =? slot then new_dirent name inum else dirent_at V i k).
  { intros k Hk Hke. eapply dirent_at_write; try done; [apply length_new_dirent|lia]. }
  assert (Hslot : dirent_at V' i' slot = new_dirent name inum) by (rewrite Hent by lia; by rewrite Z.eqb_refl).
  assert (Hal' : i_size i' mod 16 = 0) by (rewrite Esz; zdm).
  split; [split; [done|done|apply Hp]|]. split; [|done].
  pose proof (find_first (fun k => de_matches name (dirent_at V i k)) 0 (i_size i / 16)) as Hff.
  fold (dir_find V i name) in Hff. rewrite Hnone in Hff.
  pose proof (find_first (fun k => de_matches name (dirent_at V' i' k)) 0 (i_size i' / 16)) as Hff'.
  fold (dir_find V' i' name) in Hff'.
  assert (Hm : de_matches name (dirent_at V' i' slot) = true) by (rewrite Hslot; by apply new_dirent_matches).
  destruct (dir_find V' i' name) as [x|].
  - destruct Hff' as (Hx & Hmx & Hfirst). f_equal. destruct (Z.lt_trichotomy x slot) as [Hl|[->|Hg]]; [|done|].
    + exfalso. rewrite Hent in Hmx by zdm. rewrite (proj2 (Z.eqb_neq x slot)) in Hmx by lia. rewrite Hff in Hmx by lia. done.
    + exfalso. rewrite Hfirst in Hm by lia. done.
  - exfalso. rewrite Hff' in Hm by (rewrite Esz; zdm). done.
Qed.

Lemma length_elem_name e name : length name = 14%nat -> length (elem_name e name) = 14%nat.
Proof.
  intros Hn. unfold elem_name. rewrite length_splice; [done|].
  destruct (Nat.leb_spec 14 (length e)); [rewrite length_take; lia|rewrite length_app; cbn; lia].
Qed.

Lemma example_root_dir : dir_ok (dget example_fs_disk) (example_slot 1 example_root).
Proof. split; [done|done|exact example_root_no_holes]. Qed.

Lemma example_root_dinode : dinode_ok (inode_dinode (example_slot 1 example_root)).
Proof. split; try (cbn; lia); [done|]. apply (bool_decide_unpack _). by vm_compute. Qed.

(** ** Properties *)

(** C40: skipelem() returns 0 exactly when the path has no component left; otherwise
    the name buffer holds the first component, cut to DIRSIZ bytes, and the rest of
    the path, which is shorter, has the other components. *)
Theorem skipelem_correct path name :
  length name = 14%nat ->
  match skipelem path name with
  | None => components path = []
  | Some (rest, name') =>
      exists e, components path = e :: components rest /\ name14 name' = take 14 e /\
        length name' = 14%nat /\ hd 0 rest <> 47 /\ (length rest < length path)%nat
  end.
Proof.
  intros Hn. pose proof (skipelem_spec path name) as H. destruct (skipelem path name) as [[rest name']|]; [|done].
  destruct H as (e & H1 & -> & He & H2 & H3). exists e. split_and!; try done.
  - by apply name14_elem.
  - by apply length_elem_name.
Qed.

Lemma skipelem_correct_witness :
  exists rest name', skipelem (str "///a//bb") (replicate 14 9) = Some (rest, name') /\ rest = str "bb" /\
    name14 name' = str "a".
Proof.
  pose proof (skipelem_correct (str "///a//bb") (replicate 14 9) eq_refl) as H.
  destruct (skipelem (str "///a//bb") (replicate 14 9)) as [[rest name']|] eqn:E; [|vm_compute in E; discriminate E].
  exists rest, name'. split; [done|]. destruct H as (e & H1 & H2 & _).
  assert (E1 : components (str "///a//bb") = [str "a"; str "bb"]) by by vm_compute.
  rewrite E1 in H1. injection H1 as <- _. split; [|exact H2]. vm_compute in E. by injection E as <- _.
Defined.

(** C8: dirlookup() returns the first entry of the directory with the name (compared
    on DIRSIZ bytes), with its offset and a reference to its inode; without such an
    entry it returns 0.  It changes no block. *)
Theorem dirlookup_correct (Cache : kstate -> gmap nat (Z * list Z) -> gmap Z (list Z) -> Prop)
    `{!BlockCache Cache} `{Platform} s st h V k dp d name :
  txn Cache s st h V k -> (size h < 3)%nat -> k_itable s !! dp = Some d -> inode_wf (k_sb s) st V d ->
  dir_ok V d -> file_unheld V d h -> (exists i ip, k_itable s !! i = Some ip /\ i_ref ip = 0) ->
  wp (dirlookup dp name) (fun r s' => txn Cache s' st h V k /\ op_step s s' /\
    match dir_find V d name with
    | None => r = None /\ k_itable s' = k_itable s
    | Some j => exists ip f, iget_pick 1 (de_inum (dirent_at V d j)) (k_itable s) = Some (ip, f) /\
        r = Some (ip, 16 * j) /\ k_itable s' = alter f ip (k_itable s)
    end) s.
Proof.
  intros Ht Hh Hd Hwf Hdir Hun (i0 & ip0 & Hi0 & Hr0). eapply (dirlookup_spec Cache); try done.
  - intros E s' ? ? ?. by rewrite E.
  - intros j Hj. rewrite Hj. unfold iget_pick at 1.
    destruct (find_index (is_inode 1 (de_inum (dirent_at V d j))) (k_itable s)) as [ip|] eqn:E1.
    + eexists ip, _. split; [done|]. intros s' ? ? I. split; [done|]. split; [done|]. eexists ip, _.
      split; [unfold iget_pick; by rewrite E1|done].
    + destruct (find_index (fun ip => i_ref ip =? 0) (k_itable s)) as [ip|] eqn:E2.
      * eexists ip, _. split; [done|]. intros s' ? ? I. split; [done|]. split; [done|]. eexists ip, _.
        split; [unfold iget_pick; by rewrite E1, E2|done].
      * exfalso. pose proof (find_index_None _ _ E2 _ _ Hi0) as Hc. cbn in Hc. by rewrite Hr0 in Hc.
Qed.

Lemma dirlookup_correct_witness :
  wp (dirlookup (H := example_platform) 1 (str "init")) (fun r s' =>
    r = Some (0%nat, 32) /\ i_ref <$> k_itable s' !! 0%nat = Some 2) example_op.
Proof.
  eapply wp_mono.
  - apply (dirlookup_correct cache_ok example_op 2 ∅ (dget example_fs_disk) 10 1 (example_slot 1 example_root) (str "init") example_op_txn).
    + rewrite map_size_empty. lia.
    + done.
    + exact example_root_wf.
    + exact example_root_dir.
    + apply empty_file_unheld.
    + exists 2%nat, zero_inode. done.
  - cbn beta. intros r s' (_ & _ & H).
    assert (E : dir_find (dget example_fs_disk) (example_slot 1 example_root) (str "init") = Some 2) by by vm_compute.
    rewrite E in H. destruct H as (ip & f & Hp & -> & ->).
    assert (E2 : de_inum (dirent_at (dget example_fs_disk) (example_slot 1 example_root) 2) = 2) by by vm_compute.
    rewrite E2 in Hp. change (k_itable example_op) with example_itable in *. unfold iget_pick in Hp.
    assert (E3 : find_index (is_inode 1 2) example_itable = Some 0%nat) by by vm_compute.
    rewrite E3 in Hp. injection Hp as <- <-. done.
Defined.

(** C7: after dirlink() has added a name that the directory did not have, dirlookup()
    of the name finds the new entry, with the inode number that was stored; dirlink()
    returns -1 only if the disk was full. *)
Theorem dirlink_dirlookup (Cache : kstate -> gmap nat (Z * list Z) -> gmap Z (list Z) -> Prop)
    `{!BlockCache Cache} `{Platform} s st h V i k dp name inum :
  txn Cache s st h V (7 + k) -> layout_fs (k_sb s) st -> fs_ok s st V h -> (size h < 2)%nat ->
  k_itable s !! dp = Some i -> inode_wf (k_sb s) st V i -> dir_ok V i -> file_unheld V i h ->
  unheld h (IBLOCK (i_inum i) (k_sb s)) -> dinode_ok (inode_dinode i) -> 0 <= i_inum i < sb_ninodes (k_sb s) ->
  Forall byte_ok name -> dir_find V i name = None -> 16 * dir_slot V i + 16 <= MAXFILE * BSIZE ->
  0 < inum < 2 ^ 16 ->
  (forall i', i' = upd_i_size (fun _ => i_size i') (upd_i_addrs (fun _ => i_addrs i') i) ->
     is_Some (iget_pick 1 inum (<[dp := i']> (k_itable s)))) ->
  wp (r ← dirlink dp name inum;
      if r =? 0 then x ← dirlookup dp name; mret (r, x) else mret (r, None))
    (fun '(r, x) s' => exists V', txn Cache s' st h V' k /\
       (r = 0 /\ (exists ip f, x = Some (ip, 16 * dir_slot V i) /\
          exists i', iget_pick 1 inum (<[dp := i']> (k_itable s)) = Some (ip, f) /\
            k_itable s' = alter f ip (<[dp := i']> (k_itable s))) \/
        r = -1 /\ forall b, 0 <= b < sb_size (k_sb s) -> used (k_sb s) V' b = true)) s.
Proof.
  intros Ht Hlf Hfo Hh Hi Hwf Hdir Hun Hui Hd Hin Hb Hnone Hend Hinum Hroom. apply wp_bind.
  eapply (dirlink_spec Cache); try done. intros V' i' tot s1 Hp Ht1 Hs1 I1.
  pose proof (wp_tot _ _ _ _ _ _ _ _ _ _ Hp) as Htot. destruct (Z.eqb_spec tot 16) as [->|Hne].
  2:{ cbn [Z.eqb]. apply wp_ret. exists V'. split; [done|]. right. split; [done|].
      apply (wp_full _ _ _ _ _ _ _ _ _ _ Hp). lia. }
  destruct (dir_find_new _ _ _ _ _ _ _ _ Hp Hdir Hnone Hinum Hend) as (Hdir' & Hfind & Hent).
  pose proof (op_step_sb _ _ Hs1) as Esb. change (0 =? 0) with true. cbn iota. apply wp_bind.
  assert (Ei' : i' = upd_i_size (fun _ => i_size i') (upd_i_addrs (fun _ => i_addrs i') i)).
  { rewrite (wp_inode _ _ _ _ _ _ _ _ _ _ Hp). done. }
  destruct (Hroom i' Ei') as [[ip f] Hpick].
  eapply (dirlookup_spec Cache s1 st h V' k dp i'); rewrite ?Esb; try done.
  - lia.
  - rewrite I1. apply list_lookup_insert_eq. by eapply lookup_lt_Some.
  - apply Hp.
  - eapply from_unheld; [apply Hp|apply Hp|done|apply Hfo].
  - intros E. by rewrite Hfind in E.
  - intros j Hj. rewrite Hfind in Hj. injection Hj as <-. exists ip, f.
    rewrite Hent, new_dirent_inum, I1 by lia. split; [done|]. intros s2 Ht2 Hs2 I2. apply wp_ret.
    exists V'. split; [done|]. left. split; [done|]. exists ip, f. split; [done|]. by exists i'.
Qed.

Lemma dirlink_dirlookup_witness :
  wp (r ← dirlink (H := example_platform) 1 (str "sh") 7;
      if r =? 0 then x ← dirlookup (H := example_platform) 1 (str "sh"); mret (r, x) else mret (r, None))
    (fun '(r, x) s' => r = 0 /\ (exists ip, x = Some (ip, 48)) \/ r = -1) example_op.
Proof.
  eapply wp_mono.
  - apply (dirlink_dirlookup cache_ok example_op 2 ∅ (dget example_fs_disk) (example_slot 1 example_root) 3 1 (str "sh") 7
      example_op_txn example_layout example_fs_ok).
    + rewrite map_size_empty. lia.
    + done.
    + exact example_root_wf.
    + exact example_root_dir.
    + apply empty_file_unheld.
    + done.
    + exact example_root_dinode.
    + cbn. lia.
    + apply (bool_decide_unpack _). by vm_compute.
    + by vm_compute.
    + by vm_compute.
    + lia.
    + intros i' Ei'. change (k_itable example_op) with example_itable.
      change (<[1%nat := i']> example_itable) with (example_slot 2 example_file :: i' :: replicate 48 zero_inode).
      rewrite Ei'. vm_compute. by eexists.
  - assert (E : 16 * dir_slot (dget example_fs_disk) (example_slot 1 example_root) = 48) by by vm_compute.
    cbn beta. intros [r x] s' (V' & _ & [[-> (ip & f & -> & _)]|[-> _]]); [left|by right].
    split; [reflexivity|]. exists ip. by rewrite E.
Defined.
