(* ===== verification/File.v ===== *)
(** * Open files and pipes (kernel/file.c, kernel/pipe.c): definitions

    File pointers are indices of the open-file table.  A pipe lives in a page of
    its own: [k_pipes] maps the addresses of these pages to the structure they
    hold, and freeing the page removes it. *)

From Stdlib Require Import ZArith Lia.
From stdpp Require Import base tactics numbers gmap strings option list.
From S2P Require Import Prelude Bytes Kernel Spinlock Kstring Riscv Kalloc KallocInit Vm Sched.
From S2P Require Import Ring Uart Printf Uio Console Bio Log Fs.

Section file.
Context `{Platform}.

(** ** Pipes *)

(** The pipe at address [pi]. *)
Definition get_pipe (pi : Z) : K pipe := fun s =>
  match k_pipes s !! pi with Some p => Ok p s | None => Panic "kerneltrap" end.

Definition upd_pipe (pi : Z) (f : pipe -> pipe) : K unit := modify (upd_k_pipes (alter f pi)).

(** void pipeclose(struct pipe *pi, int writable) *)
Definition pipeclose (pi : Z) (writable : bool) : K unit :=
  acquire (L_pipe pi);;
  (if writable then
     upd_pipe pi (upd_pi_writeopen (fun _ => false));;
     wakeup (Ch_nread pi)
   else
     upd_pipe pi (upd_pi_readopen (fun _ => false));;
     wakeup (Ch_nwrite pi));;
  p ← get_pipe pi;
  if negb (pi_readopen p) && negb (pi_writeopen p) then
    release (L_pipe pi);;
    modify (upd_k_pipes (delete pi));;
    kfree pi
  else release (L_pipe pi).

(** int pipewrite(struct pipe *pi, uint64 addr, int n): the body of its loop, the
    loop from [i] with what follows, the function, and what runs when the sleep
    in the loop returns.  The loop leaves with [None] where it returns -1. *)
Definition pipewrite_body (pi addr n i : Z) : K (Z + option Z) :=
  if i <? n then
    pr ← curproc;
    p ← get_pipe pi;
    dead ← (if negb (pi_readopen p) then mret true
            else k ← killed pr; mret (negb (k =? 0)));
    if dead : bool then mret (inr None)
    else if pi_nwrite p =? u32 (pi_nread p + 512) then
      wakeup (Ch_nread pi);;
      sleep (Ch_nwrite pi) (L_pipe pi);;
      mret (inl i)
    else
      pp ← get_proc pr;
      r ← copyin (p_pagetable pp) (u64 (addr + i)) 1;
      if r.1 =? -1 then mret (inr (Some i))
      else
        upd_pipe pi (upd_pi_data (queue_set 512 (pi_nwrite p) (nth 0 r.2 0)));;
        upd_pipe pi (upd_pi_nwrite (fun w => u32 (w + 1)));;
        mret (inl (i + 1))
  else mret (inr (Some i)).

Definition pipewrite_from (pi addr n i : Z) : K Z :=
  r ← loop (S (Z.to_nat (n - i))) (pipewrite_body pi addr n) i;
  match r with
  | None => release (L_pipe pi);; mret (-1)
  | Some i =>
      wakeup (Ch_nread pi);;
      release (L_pipe pi);;
      mret i
  end.

Definition pipewrite (pi addr n : Z) : K Z :=
  acquire (L_pipe pi);;
  pipewrite_from pi addr n 0.

Definition pipewrite_resume (intena : bool) (pi addr n i : Z) : K Z :=
  sleep_resume intena (L_pipe pi);;
  pipewrite_from pi addr n i.

(** int piperead(struct pipe *pi, uint64 addr, int n): the copy loop, the test of
    the waiting loop with what follows, the function, and what runs when the
    sleep in the waiting loop returns *)
Definition piperead_body (pi addr n i : Z) : K (Z + Z) :=
  if i <? n then
    p ← get_pipe pi;
    if pi_nread p =? pi_nwrite p then mret (inr i)
    else
      let ch := queue_at 512 (pi_nread p) (pi_data p) in
      upd_pipe pi (upd_pi_nread (fun r => u32 (r + 1)));;
      pr ← curproc;
      pp ← get_proc pr;
      r ← copyout (p_pagetable pp) (u64 (addr + i)) [ch];
      if r =? -1 then mret (inr i) else mret (inl (i + 1))
  else mret (inr i).

Definition piperead_loop (pi addr n : Z) : K Z :=
  p ← get_pipe pi;
  dead ← (if (pi_nread p =? pi_nwrite p) && pi_writeopen p then
            pr ← curproc;
            k ← killed pr;
            if negb (k =? 0) then mret true
            else sleep (Ch_nread pi) (L_pipe pi);; mret false
          else mret false);
  if dead : bool then release (L_pipe pi);; mret (-1)
  else
    i ← loop (S (Z.to_nat n)) (piperead_body pi addr n) 0;
    wakeup (Ch_nwrite pi);;
    release (L_pipe pi);;
    mret i.

Definition piperead (pi addr n : Z) : K Z :=
  acquire (L_pipe pi);;
  piperead_loop pi addr n.

Definition piperead_resume (intena : bool) (pi addr n : Z) : K Z :=
  sleep_resume intena (L_pipe pi);;
  piperead_loop pi addr n.

(** ** Files *)

(** void fileinit(void) *)
Definition fileinit : K unit := initlock L_ftable.

(** struct file *filealloc(void) *)
Definition filealloc : K (option nat) :=
  acquire L_ftable;;
  tbl ← gets k_ftable;
  match find_index (fun f => f_ref f =? 0) tbl with
  | Some f =>
      upd_file f (upd_f_ref (fun _ => 1));;
      release L_ftable;;
      mret (Some f)
  | None =>
      release L_ftable;;
      mret None
  end.

(** struct file *filedup(struct file *f) *)
Definition filedup (f : nat) : K nat :=
  acquire L_ftable;;
  ff ← get_file f;
  if f_ref ff <? 1 then panic "filedup" else
  upd_file f (upd_f_ref (fun n => n + 1));;
  release L_ftable;;
  mret f.

(** void fileclose(struct file *f) *)
Definition fileclose (f : nat) : K unit :=
  acquire L_ftable;;
  ff ← get_file f;
  if f_ref ff <? 1 then panic "fileclose" else
  upd_file f (upd_f_ref (fun n => n - 1));;
  ff ← get_file f;
  if 0 <? f_ref ff then release L_ftable
  else
    upd_file f (upd_f_ref (fun _ => 0));;
    upd_file f (upd_f_type (fun _ => FD_NONE));;
    release L_ftable;;
    match f_type ff with
    | FD_PIPE => pipeclose (f_pipe ff) (f_writable ff)
    | FD_INODE | FD_DEVICE =>
        begin_op;;
        ip ← deref (f_ip ff);
        iput ip;;
        end_op
    | FD_NONE => mret tt
    end.

(** int pipealloc(struct file **f0, struct file **f1): the two files on success *)
Definition pipealloc_bad (pi : Z) (f0 f1 : option nat) : K (option (nat * nat)) :=
  when (negb (pi =? 0)) (modify (upd_k_pipes (delete pi));; kfree pi);;
  match f0 with Some f => fileclose f | None => mret tt end;;
  match f1 with Some f => fileclose f | None => mret tt end;;
  mret None.

Definition pipealloc : K (option (nat * nat)) :=
  f0 ← filealloc;
  match f0 with
  | None => pipealloc_bad 0 None None
  | Some f0 =>
      f1 ← filealloc;
      match f1 with
      | None => pipealloc_bad 0 (Some f0) None
      | Some f1 =>
          pi ← kalloc;
          if pi =? 0 then pipealloc_bad 0 (Some f0) (Some f1)
          else
            modify (upd_k_pipes (insert pi (mkPipe (replicate 512 5) 0 0 true true)));;
            initlock (L_pipe pi);;
            upd_file f0 (fun f => mkFile FD_PIPE (f_ref f) true false pi (f_ip f) (f_off f) (f_major f));;
            upd_file f1 (fun f => mkFile FD_PIPE (f_ref f) false true pi (f_ip f) (f_off f) (f_major f));;
            mret (Some (f0, f1))
      end
  end.

(** int filestat(struct file *f, uint64 addr); [pad] is what the padding of the
    local struct stat holds. *)
Definition filestat (pad : list Z) (f : nat) (addr : Z) : K Z :=
  ff ← get_file f;
  match f_type ff with
  | FD_INODE | FD_DEVICE =>
      ilock (f_ip ff);;
      ip ← deref (f_ip ff);
      st ← stati ip;
      iunlock (f_ip ff);;
      p ← curproc;
      pp ← get_proc p;
      r ← copyout (p_pagetable pp) addr (stat_enc pad st);
      mret (if r <? 0 then -1 else 0)
  | _ => mret (-1)
  end.

(** A call through devsw[]. *)
Definition call_dev (fn : devfn) (l : loc) (n : Z) : K Z :=
  match fn with
  | D_consoleread => consoleread l n
  | D_consolewrite => consolewrite l n
  end.

(** devsw[major].read or .write, if major is in range and the pointer is set *)
Definition dev_fn (field : devsw -> option devfn) (major : Z) : K (option devfn) :=
  if (major <? 0) || (NDEV <=? major) then mret None
  else
    d ← get_entry k_devsw (Z.to_nat major);
    mret (field d).

(** int fileread(struct file *f, uint64 addr, int n) *)
Definition fileread (f : nat) (addr n : Z) : K Z :=
  ff ← get_file f;
  if negb (f_readable ff) then mret (-1)
  else
    match f_type ff with
    | FD_PIPE => piperead (f_pipe ff) addr n
    | FD_DEVICE =>
        fn ← dev_fn dv_read (f_major ff);
        match fn with
        | None => mret (-1)
        | Some fn => call_dev fn (UserAddr addr) n
        end
    | FD_INODE =>
        ilock (f_ip ff);;
        ip ← deref (f_ip ff);
        r ← readi ip (UserAddr addr) (f_off ff) (u32 n);
        when (0 <? r.1) (upd_file f (upd_f_off (fun o => u32 (o + r.1))));;
        iunlock (f_ip ff);;
        mret r.1
    | FD_NONE => panic "fileread"
    end.

(** int filewrite(struct file *f, uint64 addr, int n): one round of its loop, and
    the function *)
Definition filewrite_max : Z := ((MAXOPBLOCKS - 1 - 1 - 2) / 2) * BSIZE.

Definition filewrite_body (f : nat) (addr n i : Z) : K (Z + Z) :=
  if i <? n then
    let remaining := if filewrite_max <? n - i then filewrite_max else n - i in
    begin_op;;
    ff ← get_file f;
    ilock (f_ip ff);;
    ip ← deref (f_ip ff);
    ff ← get_file f;
    r ← writei ip (UserAddr (u64 (addr + i))) (f_off ff) (u32 remaining);
    when (0 <? r) (upd_file f (upd_f_off (fun o => u32 (o + r))));;
    iunlock (f_ip ff);;
    end_op;;
    if negb (r =? remaining) then mret (inr i) else mret (inl (i + r))
  else mret (inr i).

Definition filewrite (f : nat) (addr n : Z) : K Z :=
  ff ← get_file f;
  if negb (f_writable ff) then mret (-1)
  else
    match f_type ff with
    | FD_PIPE => pipewrite (f_pipe ff) addr n
    | FD_DEVICE =>
        fn ← dev_fn dv_write (f_major ff);
        match fn with
        | None => mret (-1)
        | Some fn => call_dev fn (UserAddr addr) n
        end
    | FD_INODE =>
        i ← loop (S (S (Z.to_nat (n / filewrite_max)))) (filewrite_body f addr n) 0;
        mret (if i =? n then n else -1)
    | FD_NONE => panic "filewrite"
    end.

End file.
