(* ===== verification/FsAtomic.v ===== *)
(** * Atomic file writes

    The log and writei() together: a chunk of filewrite(), inside begin_op() and
    end_op(), reaches the disk completely or not at all, also when the machine stops
    in the middle of it and again during recovery. *)

From Stdlib Require Import ZArith Lia.
From stdpp Require Import base tactics numbers gmap strings option list.
From S2P Require Import Prelude Bytes Kernel Spinlock Kstring Sched Uart Printf Bio Bcache.
From S2P Require Import Riscv Kalloc KallocInit Vm Uio Log LogSpec BcacheProps Crash Fs Txn FsExample FsBlocks.
From S2P Require Import FsInode FsData FsIO FsWrite File.

(** ** Lemmas *)

(** A chunk of filewrite() fits in the log. *)
Lemma chunk_blocks off n : 0 <= off -> 0 <= n <= filewrite_max -> (blocks_left off (off + n) <= 4)%nat.
Proof.
  intros Ho Hn. change filewrite_max with 3072 in Hn. unfold blocks_left.
  destruct (Z.ltb_spec off (off + n)); zdm.
Qed.

Definition example_fs_idle : kstate :=
  upd_k_sb (fun _ => example_sb) (upd_k_itable (fun _ => example_itable)
    (example_fs (example_bufs (fun b => b)) example_log example_fs_disk)).

Lemma example_fs_quiet : quiet example_fs_idle 2.
Proof.
  split; try done.
  - split; [by split|done|done|]. exists 0%nat. split; [done|lia].
  - split; [eexists; by apply (example_ring (fun b => b) example_log example_fs_disk)|].
    apply empty_bufs_ok; [apply example_fs_disk_ok|apply example_bufs_empty].
  - split; try done; [cbn; lia|]. intros b Hb. by apply not_elem_of_nil in Hb.
Qed.

(** ** Properties *)


