(* ===== verification/Proc.v ===== *)
(** * The life cycle of processes (kernel/proc.c): definitions

    Creation, fork, exit, wait and the scheduler loop.  The trap frame of a
    process is a page of physical memory; [tf_load] and [tf_store] access its
    fields at their offsets in struct trapframe. *)

From Stdlib Require Import ZArith Lia.
From stdpp Require Import base tactics numbers gmap strings option list.
From S2P Require Import Prelude Bytes Kernel Spinlock Kstring Riscv Kalloc KallocInit Vm Sched.
From S2P Require Import Uart Printf Uio Console Bio Log Fs File.

(** ** Trap frames (proc.h) *)

Definition TF_kernel_satp : Z := 0.
Definition TF_kernel_sp : Z := 8.
Definition TF_kernel_trap : Z := 16.
Definition TF_epc : Z := 24.
Definition TF_kernel_hartid : Z := 32.
Definition TF_sp : Z := 48.
Definition TF_a0 : Z := 112.
Definition TF_a1 : Z := 120.
Definition TF_a2 : Z := 128.
Definition TF_a3 : Z := 136.
Definition TF_a4 : Z := 144.
Definition TF_a5 : Z := 152.
Definition TF_a7 : Z := 168.

(** sizeof(struct trapframe) *)
Definition TF_SIZE : Z := 288.

(** safestrcpy() into a char array *)
Definition safestrcpy_bytes (n : nat) (t dst : list Z) : list Z :=
  splice dst 0 (take (n - 1) (upto_nul t) ++ [0]).

Section proc.
Context `{Platform}.

(** p->trapframe->field, and an assignment to it *)
Definition tf_load (p : nat) (off : Z) : K Z :=
  pp ← get_proc p;
  load (p_trapframe pp + off).

Definition tf_store (p : nat) (off v : Z) : K unit :=
  pp ← get_proc p;
  store (p_trapframe pp + off) v.

(** void procinit(void) *)
Definition procinit : K unit :=
  initlock L_pid;;
  initlock L_wait;;
  for_each (seq 0 64) (fun i =>
    initlock (L_proc i);;
    upd_proc i (upd_p_state (fun _ => UNUSED));;
    upd_proc i (upd_p_kstack (fun _ => KSTACK (Z.of_nat i)))).

(** int allocpid() *)
Definition allocpid : K Z :=
  acquire L_pid;;
  pid ← gets k_nextpid;
  modify (upd_k_nextpid (fun _ => s32 (pid + 1)));;
  release L_pid;;
  mret pid.

(** pagetable_t proc_pagetable(struct proc *p) *)
Definition proc_pagetable (p : nat) : K Z :=
  pagetable ← uvmcreate;
  if pagetable =? 0 then mret 0
  else
    r ← mappages pagetable TRAMPOLINE PGSIZE trampoline (Z.lor PTE_R PTE_X);
    if r <? 0 then
      uvmfree pagetable 0;;
      mret 0
    else
      pp ← get_proc p;
      r ← mappages pagetable TRAPFRAME PGSIZE (p_trapframe pp) (Z.lor PTE_R PTE_W);
      if r <? 0 then
        uvmunmap pagetable TRAMPOLINE 1 false;;
        uvmfree pagetable 0;;
        mret 0
      else mret pagetable.

(** void proc_freepagetable(pagetable_t pagetable, uint64 sz) *)
Definition proc_freepagetable (pagetable sz : Z) : K unit :=
  uvmunmap pagetable TRAMPOLINE 1 false;;
  uvmunmap pagetable TRAPFRAME 1 false;;
  uvmfree pagetable sz.

(** static void freeproc(struct proc *p) *)
Definition freeproc (p : nat) : K unit :=
  pp ← get_proc p;
  when (negb (p_trapframe pp =? 0)) (kfree (p_trapframe pp));;
  upd_proc p (upd_p_trapframe (fun _ => 0));;
  when (negb (p_pagetable pp =? 0)) (proc_freepagetable (p_pagetable pp) (p_sz pp));;
  upd_proc p (upd_p_pagetable (fun _ => 0));;
  upd_proc p (upd_p_sz (fun _ => 0));;
  upd_proc p (upd_p_pid (fun _ => 0));;
  upd_proc p (upd_p_parent (fun _ => None));;
  upd_proc p (upd_p_name (<[0%nat := 0]>));;
  upd_proc p (upd_p_chan (fun _ => Ch_null));;
  upd_proc p (upd_p_killed (fun _ => 0));;
  upd_proc p (upd_p_xstate (fun _ => 0));;
  upd_proc p (upd_p_state (fun _ => UNUSED)).

(** static struct proc *allocproc(void): the search, which returns with the lock of
    the process it found, and the function *)
Definition allocproc_body (i : nat) : K (nat + option nat) :=
  if (i <? 64)%nat then
    acquire (L_proc i);;
    p ← get_proc i;
    if decide (p_state p = UNUSED) then mret (inr (Some i))
    else
      release (L_proc i);;
      mret (inl (S i))
  else mret (inr None).

Definition allocproc : K (option nat) :=
  r ← loop 65 allocproc_body O;
  match r with
  | None => mret None
  | Some p =>
      pid ← allocpid;
      upd_proc p (upd_p_pid (fun _ => pid));;
      upd_proc p (upd_p_state (fun _ => USED));;
      tf ← kalloc;
      upd_proc p (upd_p_trapframe (fun _ => tf));;
      if tf =? 0 then
        freeproc p;;
        release (L_proc p);;
        mret None
      else
        pt ← proc_pagetable p;
        upd_proc p (upd_p_pagetable (fun _ => pt));;
        if pt =? 0 then
          freeproc p;;
          release (L_proc p);;
          mret None
        else
          pp ← get_proc p;
          upd_proc p (upd_p_context (fun _ =>
            mkContext addr_forkret (u64 (p_kstack pp + PGSIZE)) (replicate 12 0)));;
          mret (Some p)
  end.

(** uchar initcode[] *)
Definition initcode : list Z :=
  [0x17; 0x05; 0x00; 0x00; 0x13; 0x05; 0x45; 0x02; 0x97;
   0x05; 0x00; 0x00; 0x93; 0x85; 0x35; 0x02; 0x93; 0x08;
   0x70; 0x00; 0x73; 0x00; 0x00; 0x00; 0x93; 0x08; 0x20;
   0x00; 0x73; 0x00; 0x00; 0x00; 0xef; 0xf0; 0x9f; 0xff;
   0x2f; 0x69; 0x6e; 0x69; 0x74; 0x00; 0x00; 0x24; 0x00;
   0x00; 0x00; 0x00; 0x00; 0x00; 0x00; 0x00].

(** void userinit(void) *)
Definition userinit : K unit :=
  r ← allocproc;
  modify (upd_k_initproc (fun _ => r));;
  p ← deref r;
  pp ← get_proc p;
  uvmfirst (p_pagetable pp) initcode;;
  upd_proc p (upd_p_sz (fun _ => PGSIZE));;
  tf_store p TF_epc 0;;
  tf_store p TF_sp PGSIZE;;
  upd_proc p (upd_p_name (safestrcpy_bytes 16 (str "initcode")));;
  cwd ← namei (str "/");
  upd_proc p (upd_p_cwd (fun _ => cwd));;
  upd_proc p (upd_p_state (fun _ => RUNNABLE));;
  release (L_proc p).

(** int growproc(int n) *)
Definition growproc (n : Z) : K Z :=
  p ← curproc;
  pp ← get_proc p;
  let sz := p_sz pp in
  if 0 <? n then
    sz ← uvmalloc (p_pagetable pp) sz (u64 (sz + n)) PTE_W;
    if sz =? 0 then mret (-1)
    else upd_proc p (upd_p_sz (fun _ => sz));; mret 0
  else if n <? 0 then
    sz ← uvmdealloc (p_pagetable pp) sz (u64 (sz + n));
    upd_proc p (upd_p_sz (fun _ => sz));;
    mret 0
  else upd_proc p (upd_p_sz (fun _ => sz));; mret 0.

(** int fork(void) *)
Definition fork : K Z :=
  p ← curproc;
  r ← allocproc;
  match r with
  | None => mret (-1)
  | Some np =>
      pp ← get_proc p;
      npp ← get_proc np;
      r ← uvmcopy (p_pagetable pp) (p_pagetable npp) (p_sz pp);
      if r <? 0 then
        freeproc np;;
        release (L_proc np);;
        mret (-1)
      else
        upd_proc np (upd_p_sz (fun _ => p_sz pp));;
        upd_mem (fun m => memmove m (p_trapframe npp) (p_trapframe pp) TF_SIZE);;
        tf_store np TF_a0 0;;
        for_each (seq 0 16) (fun i =>
          pp ← get_proc p;
          match nth i (p_ofile pp) None with
          | Some f =>
              f ← filedup f;
              upd_proc np (upd_p_ofile (<[i := Some f]>))
          | None => mret tt
          end);;
        cwd ← deref (p_cwd pp);
        cwd ← idup cwd;
        upd_proc np (upd_p_cwd (fun _ => Some cwd));;
        upd_proc np (upd_p_name (safestrcpy_bytes 16 (p_name pp)));;
        npp ← get_proc np;
        let pid := p_pid npp in
        release (L_proc np);;
        acquire L_wait;;
        upd_proc np (upd_p_parent (fun _ => Some p));;
        release L_wait;;
        acquire (L_proc np);;
        upd_proc np (upd_p_state (fun _ => RUNNABLE));;
        release (L_proc np);;
        mret pid
  end.

(** The channel of a process pointer; a null pointer is channel 0. *)
Definition proc_chan (p : option nat) : chan :=
  match p with Some i => Ch_proc i | None => Ch_null end.

(** void reparent(struct proc *p) *)
Definition reparent (p : nat) : K unit :=
  for_each (seq 0 64) (fun i =>
    pp ← get_proc i;
    when (bool_decide (p_parent pp = Some p))
      (ini ← gets k_initproc;
       upd_proc i (upd_p_parent (fun _ => ini));;
       wakeup (proc_chan ini))).

(** void exit(int status): never returns *)
Definition exit (status : Z) : K unit :=
  p ← curproc;
  ini ← gets k_initproc;
  if decide (ini = Some p) then panic "init exiting" else
  for_each (seq 0 16) (fun fd =>
    pp ← get_proc p;
    match nth fd (p_ofile pp) None with
    | Some f =>
        fileclose f;;
        upd_proc p (upd_p_ofile (<[fd := None]>))
    | None => mret tt
    end);;
  begin_op;;
  pp ← get_proc p;
  cwd ← deref (p_cwd pp);
  iput cwd;;
  end_op;;
  upd_proc p (upd_p_cwd (fun _ => None));;
  acquire L_wait;;
  reparent p;;
  pp ← get_proc p;
  wakeup (proc_chan (p_parent pp));;
  acquire (L_proc p);;
  upd_proc p (upd_p_xstate (fun _ => status));;
  upd_proc p (upd_p_state (fun _ => ZOMBIE));;
  release L_wait;;
  sched;;
  panic "zombie exit".

(** int wait(uint64 addr): one step of the scan, the body of the endless loop, the
    function, and what runs when the sleep returns.  A scan leaves with the
    value to return, or with whether there are children. *)
Definition wait_body (p : nat) (addr : Z) (st : nat * bool) : K (nat * bool + (Z + bool)) :=
  let '(i, havekids) := st in
  if (i <? 64)%nat then
    pp ← get_proc i;
    if bool_decide (p_parent pp = Some p) then
      acquire (L_proc i);;
      pp ← get_proc i;
      if decide (p_state pp = ZOMBIE) then
        let pid := p_pid pp in
        me ← get_proc p;
        r ← (if negb (addr =? 0) then copyout (p_pagetable me) addr (le_split 4 (p_xstate pp))
             else mret 0);
        if r <? 0 then
          release (L_proc i);;
          release L_wait;;
          mret (inr (inl (-1)))
        else
          freeproc i;;
          release (L_proc i);;
          release L_wait;;
          mret (inr (inl pid))
      else
        release (L_proc i);;
        mret (inl (S i, true))
    else mret (inl (S i, havekids))
  else mret (inr (inr havekids)).

Definition wait_loop (p : nat) (addr : Z) : K Z :=
  r ← loop 65 (wait_body p addr) (O, false);
  match r with
  | inl v => mret v
  | inr havekids =>
      k ← (if negb havekids then mret true else k ← killed p; mret (negb (k =? 0)));
      if k : bool then
        release L_wait;;
        mret (-1)
      else
        sleep (Ch_proc p) L_wait;;
        mret 0
  end.

Definition wait (addr : Z) : K Z :=
  p ← curproc;
  acquire L_wait;;
  wait_loop p addr.

Definition wait_resume (intena : bool) (addr : Z) : K Z :=
  sleep_resume intena L_wait;;
  p ← curproc;
  wait_loop p addr.

(** void scheduler(void): up to the first switch, and from the return of a process
    that ran on.  A round that finds nothing to run waits for an interrupt or
    another hart. *)
Definition scheduler_round (i : nat) : K unit := for_each (seq i (64 - i)) scheduler_turn.

Definition scheduler : K unit :=
  modify (upd_k_cpu (upd_c_proc (fun _ => None)));;
  intr_on;;
  scheduler_round 0;;
  spin.

Definition scheduler_resume (i : nat) : K unit :=
  scheduler_back i;;
  scheduler_round (S i);;
  intr_on;;
  scheduler_round 0;;
  spin.

End proc.
