(* ===== verification/SchedProps.v ===== *)
(** * Scheduling: sleep, wakeup and the scheduler loop

    The handshake between sleep() and wakeup() and the choice of scheduler(), as
    statements about the state in which a run gives up the processor. *)

From Stdlib Require Import ZArith Lia.
From stdpp Require Import base tactics numbers gmap strings option list.
From S2P Require Import Prelude Bytes Kernel Spinlock Kstring Riscv Kalloc KallocInit Vm Sched.
From S2P Require Import Uart Printf Uio Console Bio Log Fs File Proc.

(** ** Specification *)

(** Process [p] is asleep on [ch]. *)
Definition asleep (p : nat) (ch : chan) (s : kstate) : Prop :=
  exists pp, k_procs s !! p = Some pp /\ p_state pp = SLEEPING /\ p_chan pp = ch.

(** The state after [upd_proc p]. *)
Definition on_proc (p : nat) (f : proc -> proc) : kstate -> kstate := upd_k_procs (alter f p).

(** Process [i] is the first that can run. *)
Definition first_runnable (ps : list proc) (i : nat) : Prop :=
  exists pp, ps !! i = Some pp /\ p_state pp = RUNNABLE /\
    forall j q, (j < i)%nat -> ps !! j = Some q -> p_state q <> RUNNABLE.

(** The run gives up the processor in a state that satisfies [Q]. *)
Definition switches {A} (m : K A) (Q : kstate -> Prop) (s : kstate) : Prop :=
  match m s with Switch s' => Q s' | _ => False end.

(** The run returns with [Q] or gives up the processor with [R]. *)
Definition ends {A} (m : K A) (Q : A -> kstate -> Prop) (R : kstate -> Prop) (s : kstate) : Prop :=
  match m s with Ok a s' => Q a s' | Switch s' => R s' | _ => False end.

(** ** Lemmas *)

Lemma ends_of_wp {A} (m : K A) Q R s : wp m Q s -> ends m Q R s.
Proof. unfold wp, ends. by destruct (m s). Qed.

Lemma ends_of_switches {A} (m : K A) Q R s : switches m R s -> ends m Q R s.
Proof. unfold switches, ends. by destruct (m s). Qed.

Lemma ends_mono {A} (m : K A) (Q Q' : A -> kstate -> Prop) (R R' : kstate -> Prop) s :
  ends m Q R s -> (forall a s', Q a s' -> Q' a s') -> (forall s', R s' -> R' s') -> ends m Q' R' s.
Proof. unfold ends. destruct (m s); auto. Qed.

Lemma ends_bind {A B} (m : K A) (f : A -> K B) Q R s :
  ends m (fun a s' => ends (f a) Q R s') R s -> ends (m ≫= f) Q R s.
Proof. unfold ends, mbind, M_bind. by destruct (m s). Qed.

Lemma ends_wp {A B} (m : K A) (f : A -> K B) Q R s :
  wp m (fun a s' => ends (f a) Q R s') s -> ends (m ≫= f) Q R s.
Proof. intros Hm. by apply ends_bind, ends_of_wp. Qed.

(** A loop with an invariant and a measure. *)
Lemma ends_loop {A B} (I : A -> kstate -> Prop) (mu : A -> nat) (body : A -> K (A + B)) Q R :
  (forall a s, I a s ->
     ends (body a) (fun r s' => match r with
                                | inl a' => I a' s' /\ (mu a' < mu a)%nat
                                | inr b => Q b s'
                                end) R s) ->
  forall fuel a s, I a s -> (mu a < fuel)%nat -> ends (loop fuel body a) Q R s.
Proof.
  intros Hbody fuel. induction fuel as [|k IH]; intros a s HI Hmu; [lia|].
  cbn [loop]. apply ends_bind. eapply ends_mono; [by apply Hbody| |done].
  intros [a'|b] s'; cbn; [|done]. intros [HI' Hlt]. apply IH; [done|lia].
Qed.

Lemma switches_wp {A B} (m : K A) (f : A -> K B) Q s :
  wp m (fun a s' => switches (f a) Q s') s -> switches (m ≫= f) Q s.
Proof. unfold wp, switches, mbind, M_bind. by destruct (m s). Qed.

Lemma switches_bind {A B} (m : K A) (f : A -> K B) Q s : switches m Q s -> switches (m ≫= f) Q s.
Proof. unfold switches, mbind, M_bind. by destruct (m s). Qed.

Lemma switches_mono {A} (m : K A) (P Q : kstate -> Prop) s :
  switches m P s -> (forall s', P s' -> Q s') -> switches m Q s.
Proof. unfold switches. destruct (m s); naive_solver. Qed.

Lemma holder_remove lk lk' l :
  lk <> lk' -> lock_holder lk (lock_remove lk' l) = lock_holder lk l.
Proof.
  intros Hne. induction l as [|[lk2 c] l IH]; [done|]. cbn.
  destruct (decide (lk' = lk2)) as [->|]; cbn.
  - by rewrite decide_False.
  - by case_decide.
Qed.

Lemma sync_c_proc s s' : sync s = sync s' -> c_proc (k_cpu s) = c_proc (k_cpu s').
Proof. unfold sync, settle. congruence. Qed.

Lemma sync_c_noff s s' : sync s = sync s' -> c_noff (k_cpu s) = c_noff (k_cpu s').
Proof. unfold sync, settle. congruence. Qed.

Lemma sync_k_csr s s' : sync s = sync s' -> k_csr s = k_csr s'.
Proof. unfold sync. congruence. Qed.

Lemma sync_k_locks s s' : sync s = sync s' -> k_locks s = k_locks s'.
Proof. unfold sync. congruence. Qed.

Lemma sync_locked lk s s' : sync s = sync s' -> sync (locked lk s) = sync (locked lk s').
Proof.
  intros E. pose proof (sync_k_csr _ _ E) as Ec. pose proof (sync_k_locks _ _ E) as El.
  assert (Es : settle s = settle s') by (unfold sync in E; congruence).
  unfold settle in Es. injection Es as Ep En Ei. unfold sync. f_equal; [f_equal|].
  - change (k_csr (locked lk ?x)) with (k_csr (pushed x)). unfold pushed. cbn. by rewrite Ec.
  - unfold settle. cbn. rewrite Ep, Ei, En. f_equal. unfold sie. cbn. by rewrite Ec.
  - cbn. by rewrite Ec, El.
Qed.

(** release() inside another push_off(). *)
Lemma release_nested lk s :
  held lk s = true -> sie s = false -> 2 <= c_noff (k_cpu s) ->
  release lk s = Ok tt (upd_k_cpu (upd_c_noff (fun n => n - 1)) (upd_k_locks (lock_remove lk) s)).
Proof.
  intros Hh Hi Hn. unfold release, holding, pop_off, intr_get. run. rewrite Hh. cbn [negb].
  change (sie (upd_k_locks _ s)) with (sie s). rewrite Hi.
  change (k_cpu (upd_k_locks (lock_remove lk) s)) with (k_cpu s).
  rewrite (proj2 (Z.ltb_ge _ _)) by lia.
  change (k_cpu (upd_k_cpu _ (upd_k_locks _ s))) with (upd_c_noff (fun n => n - 1) (k_cpu s)).
  change (c_noff (upd_c_noff _ _)) with (c_noff (k_cpu s) - 1).
  by rewrite (proj2 (Z.eqb_neq _ _)) by lia.
Qed.

(** Releasing the outer of two locks leaves the state of the inner one alone. *)
Lemma release_outer lk1 lk2 s0 s :
  lk1 <> lk2 -> sync_ok s0 -> sync s = sync (locked lk1 (locked lk2 s0)) ->
  wp (release lk2) (fun _ s' => sync s' = sync (locked lk1 s0) /\ others s' = others s) s.
Proof.
  intros Hne [Hn _] Hs.
  pose proof (sync_c_noff _ _ Hs) as En. cbn in En.
  eapply wp_ok; [apply release_nested|].
  - unfold held. rewrite (sync_k_locks _ _ Hs), (sync_k_csr _ _ Hs). cbn.
    rewrite decide_False, decide_True by done. apply Z.eqb_refl.
  - unfold sie. rewrite (sync_k_csr _ _ Hs). cbn. by rewrite land_sie_off.
  - lia.
  - split; [|reflexivity].
    assert (Ecpu : settle s = settle (locked lk1 (locked lk2 s0))) by (unfold sync in Hs; congruence).
    unfold settle in Ecpu. rewrite En in Ecpu. cbn in Ecpu.
    rewrite !(proj2 (Z.eqb_neq (c_noff (k_cpu s0) + 1 + 1) 0)) in Ecpu by lia.
    rewrite (proj2 (Z.eqb_neq (c_noff (k_cpu s0) + 1) 0)) in Ecpu by lia.
    unfold sync. f_equal; [f_equal|].
    + change (k_csr (upd_k_cpu _ _)) with (k_csr s). rewrite (sync_k_csr _ _ Hs). cbn.
      unfold upd_r_sstatus. cbn. by rewrite <- Z.land_assoc, Z.land_diag.
    + unfold settle. cbn. rewrite En. injection Ecpu as E1 E2.
      rewrite (proj2 (Z.eqb_neq (_ + 1 + 1 - 1) 0)) by lia.
      rewrite (proj2 (Z.eqb_neq (c_noff (k_cpu s0) + 1) 0)) by lia. rewrite E1, E2. f_equal. lia.
    + change (k_locks (upd_k_cpu _ (upd_k_locks _ s))) with (lock_remove lk2 (k_locks s)).
      rewrite (sync_k_locks _ _ Hs). cbn. rewrite decide_False, decide_True by done. done.
Qed.

(** sched() with p->lock the only lock held gives up the processor. *)
Lemma sched_switches p pp s0 s :
  sync_ok s0 -> c_noff (k_cpu s0) = 0 -> c_proc (k_cpu s0) = Some p ->
  sync s = sync (locked (L_proc p) s0) -> k_procs s !! p = Some pp -> p_state pp <> RUNNING ->
  switches sched (fun s' => s' ≡ s) s.
Proof.
  intros Hok Hn Hp Hs Hpp Hst. unfold sched.
  assert (Hok1 : sync_ok s) by (eapply sync_sync_ok; [done|by apply sync_ok_locked]).
  assert (Hc : c_proc (k_cpu s) = Some p) by (rewrite (sync_c_proc _ _ Hs); exact Hp).
  assert (Hn1 : c_noff (k_cpu s) = 1).
  { rewrite (sync_c_noff _ _ Hs). cbn. lia. }
  apply switches_wp, (wp_curproc s p); [done|done|]. intros s' E.
  apply switches_wp. unfold holding. wp_steps.
  assert (held (L_proc p) s' = true) as -> by (apply (held_locked _ s0); by rewrite (keq_sync _ _ E)).
  cbn [negb]. apply switches_wp. wp_steps. rewrite (keq_c_noff _ _ E), Hn1. cbn [Z.eqb Pos.eqb negb].
  apply switches_wp, (wp_get_entry _ _ pp); [by rewrite (keq_k_procs _ _ E)|].
  rewrite decide_False by done. apply switches_wp. unfold intr_get. wp_steps.
  assert (sie s' = false) as ->; [|done].
  assert (sync_ok s') as [_ Hoff] by (by eapply sync_sync_ok; [apply keq_sync|]).
  apply Hoff. rewrite (keq_c_noff _ _ E). lia.
Qed.

(** The state in which sleep() gives up the processor. *)
Lemma sleep_switches lk ch p pp s0 s :
  sync_ok s0 -> c_noff (k_cpu s0) = 0 -> c_proc (k_cpu s0) = Some p ->
  free (L_proc p) s0 -> lk <> L_proc p -> sync s = sync (locked lk s0) -> k_procs s !! p = Some pp ->
  switches (sleep ch lk) (fun s1 =>
    sync s1 = sync (locked (L_proc p) s0) /\
    others s1 = others (on_proc p (fun q => upd_p_state (fun _ => SLEEPING) (upd_p_chan (fun _ => ch) q)) s)) s.
Proof.
  intros Hok Hn Hp Hf Hne Hs Hpp. unfold sleep.
  assert (Hok1 : sync_ok s) by (eapply sync_sync_ok; [done|by apply sync_ok_locked]).
  assert (Hc : c_proc (k_cpu s) = Some p) by (rewrite (sync_c_proc _ _ Hs); exact Hp).
  apply switches_wp, (wp_curproc s p); [done|done|]. intros s1 E1.
  apply switches_wp, wp_acquire.
  { eapply sync_free; [rewrite (keq_sync _ _ E1); exact Hs|]. by apply free_locked. }
  apply switches_wp. eapply wp_mono.
  { apply (release_outer (L_proc p) lk s0); [done|done|].
    apply sync_locked. by rewrite (keq_sync _ _ E1). }
  cbn beta. intros _ s2 [Hs2 Ho2]. unfold upd_proc. apply switches_wp. wp_steps.
  apply switches_wp. wp_steps. rewrite upd_k_procs_comp.
  assert (Hp2 : k_procs s2 = k_procs s).
  { assert (E : k_procs s2 = k_procs (locked (L_proc p) s1)) by (unfold others in Ho2; congruence).
    rewrite E. apply (keq_k_procs _ _ E1). }
  match goal with |- switches _ _ ?x => set (s3 := x) end.
  assert (Ep3 : k_procs s3 = alter (upd_p_state (fun _ => SLEEPING))
    p (alter (upd_p_chan (fun _ => ch)) p (k_procs s))) by (unfold s3; ksimpl; by rewrite Hp2).
  assert (Hs3 : sync s3 = sync (locked (L_proc p) s0)) by (rewrite <- Hs2; by unfold s3; ksync).
  apply switches_bind.
  assert (Hsw : switches sched (fun s' => s' ≡ s3) s3).
  { eapply (sched_switches p _ s0); [exact Hok|exact Hn|exact Hp|exact Hs3| |].
    - by rewrite Ep3, !list_lookup_alter_eq, Hpp.
    - done. }
  unfold switches in *. destruct (sched s3) as [| |s4| |]; try done.
  split; [by rewrite (keq_sync _ _ Hsw)|]. rewrite (keq_others _ _ Hsw).
  assert (Ho : others s2 = others s) by (rewrite Ho2; apply (keq_others _ _ E1)).
  unfold s3, on_proc. rewrite (others_upd_k_procs _ _ _ Ho).
  f_equal. apply upd_k_procs_ext. by rewrite list_alter_alter_eq.
Qed.

(** The rest of sleep() once the scheduler has switched back, with p->lock held; [s] is
    the state without that lock. *)
Lemma sleep_resume_spec intena lk me s s1 Q :
  calm [] s -> c_proc (k_cpu s) = Some me -> length (k_procs s1) = 64%nat ->
  sync (upd_k_cpu (upd_c_intena (fun _ => intena)) s1) = sync (locked (L_proc me) s) ->
  (forall s2, sync s2 = sync (locked lk s) -> others s2 = others (on_proc me (upd_p_chan (fun _ => Ch_null)) s1) -> Q tt s2) ->
  wp (sleep_resume intena lk) Q s1.
Proof.
  intros Hc Hme Hlen Hs HQ. unfold sleep_resume, sched_resume. apply wp_bind, wp_modify. set (s2 := upd_k_cpu _ s1) in *.
  assert (Hok : sync_ok s2) by (eapply sync_sync_ok; [exact Hs|]; apply sync_ok_locked, Hc).
  apply wp_bind, (wp_curproc s2 me); [done|by rewrite (sync_c_proc _ _ Hs)|]. intros s3 E3.
  unfold upd_proc. apply wp_bind, wp_modify. apply wp_bind, (wp_release (L_proc me) s); [apply Hc| |].
  { autorewrite with ksync. by rewrite (keq_sync _ _ E3). }
  apply wp_acquire.
  { eapply sync_free; [apply sync_resync|]. apply Hc, not_elem_of_nil. }
  apply HQ.
  - apply sync_locked, sync_resync.
  - unfold on_proc. change (others (locked ?l ?x)) with (others x). change (others (resync ?a ?x)) with (others x).
    apply others_upd_k_procs. by rewrite (keq_others _ _ E3).
Qed.

(** What scheduler() does when a process gives up the processor: it releases the
    lock the process left held. *)
Lemma scheduler_back_spec p s0 s :
  sync_ok s0 -> sync s = sync (locked (L_proc p) s0) ->
  wp (scheduler_back p) (fun _ s' =>
    others s' = others s /\ c_proc (k_cpu s') = None /\ c_noff (k_cpu s') = c_noff (k_cpu s0) /\
    k_csr s' = k_csr s0 /\ k_locks s' = k_locks s0) s.
Proof.
  intros Hok Hs. unfold scheduler_back. wp_steps.
  set (s0' := upd_k_cpu (upd_c_proc (fun _ => None)) s0).
  apply (wp_release (L_proc p) s0'); [exact Hok| |].
  - pose proof (sync_k_csr _ _ Hs) as Ec. pose proof (sync_k_locks _ _ Hs) as El.
    assert (Es : settle s = settle (locked (L_proc p) s0)) by (unfold sync in Hs; congruence).
    unfold sync. f_equal; [f_equal; [exact Ec|]|exact El].
    unfold settle in Es |- *. injection Es as Ep En Ei. cbn in *. f_equal; [exact En|exact Ei].
  - done.
Qed.

(** ** Properties *)


(** A process that holds the log's lock. *)
Definition example_sleeper : kstate :=
  upd_k_cpu (upd_c_proc (fun _ => Some 3%nat)) (boot_state 0 ∅ ∅).


(** *** The scheduler *)

Lemma for_each_app {A} (l1 l2 : list A) (f : A -> K unit) s :
  for_each (l1 ++ l2) f s = (for_each l1 f;; for_each l2 f) s.
Proof.
  revert s. induction l1 as [|x l1 IH]; intros s; [done|]. cbn [for_each app].
  rewrite bind_assoc. unfold mbind, M_bind. by destruct (f x s).
Qed.

Lemma switches_for_each {A} (l1 l2 : list A) (f : A -> K unit) Q s :
  switches (for_each l1 f;; for_each l2 f) Q s -> switches (for_each (l1 ++ l2) f) Q s.
Proof. unfold switches. by rewrite for_each_app. Qed.

(** A hart that runs the scheduler: no process, no locks, 64 processes. *)
Record idle (s : kstate) : Prop := {
  id_sync : sync_ok s;
  id_free lk : free lk s;
  id_procs : length (k_procs s) = 64%nat;
}.

Lemma idle_keq s s' : s' ≡ s -> idle s -> idle s'.
Proof.
  intros E [Hs Hf Hp]. split.
  - by eapply sync_sync_ok; [apply keq_sync|].
  - intros lk. eapply sync_free; [by apply keq_sync|done].
  - by rewrite (keq_k_procs _ _ E).
Qed.

(** The processes of [l] that cannot run are passed over. *)
Lemma scheduler_skip l s :
  idle s -> (forall i q, i ∈ l -> k_procs s !! i = Some q -> p_state q <> RUNNABLE) ->
  (forall i, i ∈ l -> (i < 64)%nat) ->
  wp (for_each l scheduler_turn) (fun _ s' => s' ≡ s) s.
Proof.
  intros Hid Hl Hlt. apply (wp_for_each (fun _ s' => s' ≡ s)); [done| |done].
  intros d i r s1 -> E1. pose proof (idle_keq _ _ E1 Hid) as Hid1.
  destruct (lookup_Some_total (k_procs s) i) as [q Hq].
  { rewrite (id_procs _ Hid). apply Hlt. set_solver. }
  unfold scheduler_turn. apply wp_bind, wp_acquire; [apply Hid1|].
  apply wp_bind, (wp_get_entry _ _ q); [by kread; rewrite (keq_k_procs _ _ E1)|].
  rewrite decide_False by (apply (Hl i q); [set_solver|done]).
  wp_rel; [apply Hid1|]. transitivity s1; [keq|done].
Qed.

(** Switching to a process that can run. *)
Lemma scheduler_run i q s :
  idle s -> k_procs s !! i = Some q -> p_state q = RUNNABLE ->
  switches (scheduler_turn i) (fun s' =>
    s' = upd_k_cpu (upd_c_proc (fun _ => Some i))
           (on_proc i (upd_p_state (fun _ => RUNNING)) (locked (L_proc i) s))) s.
Proof.
  intros Hid Hq Hst. unfold scheduler_turn. apply switches_wp, wp_acquire; [apply Hid|].
  apply switches_wp, (wp_get_entry _ _ q); [exact Hq|]. rewrite decide_True by done.
  unfold upd_proc. apply switches_wp. wp_steps. apply switches_wp. wp_steps. done.
Qed.

(** scheduler() switches to the first process that can run, with that process
    marked RUNNING, its lock the only one held and interrupts off, and changes
    nothing else; when no process can run it spins with interrupts on. *)
Theorem scheduler_picks s :
  idle s -> c_noff (k_cpu s) = 0 ->
  (forall i, first_runnable (k_procs s) i ->
     switches scheduler (fun s' =>
       c_proc (k_cpu s') = Some i /\ c_noff (k_cpu s') = 1 /\ sie s' = false /\
       held (L_proc i) s' = true /\ (forall lk, lk <> L_proc i -> free lk s') /\
       others s' = others (on_proc i (upd_p_state (fun _ => RUNNING)) s)) s) /\
  ((forall i q, k_procs s !! i = Some q -> p_state q <> RUNNABLE) -> scheduler s = Spin).
Proof.
  intros Hid Hn.
  set (s1 := upd_k_csr (upd_r_sstatus (fun x => Z.lor x SSTATUS_SIE))
    (upd_k_cpu (upd_c_proc (fun _ => None)) s)).
  assert (Hid1 : idle s1).
  { destruct Hid as [[H1 H2] Hf Hp]. split; [|done|done].
    split; [exact H1|]. change (c_noff (k_cpu s1)) with (c_noff (k_cpu s)). lia. }
  split.
  - intros i (q & Hq & Hst & Hfirst).
    assert (Hi : (i < 64)%nat) by (apply lookup_lt_Some in Hq; rewrite (id_procs _ Hid) in Hq; done).
    unfold scheduler. apply switches_wp. wp_steps. unfold intr_on. apply switches_wp. wp_steps.
    fold s1. apply switches_bind.
    assert (E : seq 0 (64 - 0) = seq 0 i ++ i :: seq (S i) (63 - i)).
    { change (i :: seq (S i) (63 - i)) with (seq i (S (63 - i))). rewrite <- seq_app. f_equal. lia. }
    assert (Hskip : wp (for_each (seq 0 i) scheduler_turn) (fun _ s' => s' ≡ s1) s1).
    { apply scheduler_skip; [done| |].
      - intros j q' Hj%elem_of_seq. apply Hfirst. lia.
      - intros j Hj%elem_of_seq. lia. }
    unfold scheduler_round. rewrite E. apply switches_for_each, switches_wp.
    eapply wp_mono; [exact Hskip|]. cbn beta. intros _ s2 E2. cbn [for_each]. apply switches_bind.
    pose proof (idle_keq _ _ E2 Hid1) as Hid2. eapply switches_mono.
    { apply (scheduler_run i q); [done| |done]. by rewrite (keq_k_procs _ _ E2). }
    cbn beta. intros s3 ->. split; [done|].
    split; [cbn; rewrite (keq_c_noff _ _ E2); cbn; lia|]. split; [apply (sie_pushed s2)|].
    split; [|split].
    + unfold held. change (k_locks (upd_k_cpu _ _)) with (k_locks (locked (L_proc i) s2)).
      rewrite holder_locked. apply Z.eqb_refl.
    + intros lk Hlk. apply (free_locked lk (L_proc i) s2); [done|apply Hid2].
    + apply (others_upd_k_procs _ (locked (L_proc i) s2) s). exact (keq_others _ _ E2).
  - intros Hnone.
    assert (Hskip : wp (scheduler_round 0) (fun _ s' => s' ≡ s1) s1).
    { apply scheduler_skip; [done| |].
      - intros j q' _. apply Hnone.
      - intros j Hj%elem_of_seq. lia. }
    apply wp_inv in Hskip as ([] & s2 & Hr & _).
    unfold scheduler, intr_on. erewrite bind_ok by done. erewrite bind_ok by done.
    fold s1. by erewrite bind_ok by exact Hr.
Qed.

(** Processes 1 and 2 can run. *)
Definition example_runnable : kstate :=
  on_proc 2 (upd_p_state (fun _ => RUNNABLE)) (on_proc 1 (upd_p_state (fun _ => RUNNABLE))
    (boot_state 0 ∅ ∅)).

Lemma scheduler_picks_witness :
  first_runnable (k_procs example_runnable) 1 /\
  switches scheduler (fun s' => c_proc (k_cpu s') = Some 1%nat) example_runnable.
Proof.
  assert (Hf : first_runnable (k_procs example_runnable) 1).
  { eexists. split; [done|]. split; [done|]. intros [|j] q Hj; [by intros [= <-]|lia]. }
  split; [done|]. eapply switches_mono; [apply scheduler_picks; [by split; [split|..]|done|exact Hf]|].
  by intros s' (Hc & _).
Defined.
