(* ===== verification/PipeProps.v ===== *)
(** * Correctness of pipes (kernel/pipe.c)

    A pipe is a queue of bytes.  piperead() moves bytes from its head to user memory,
    pipewrite() from user memory to its tail, in order and each once; the counters
    wrap around at 2^32. *)

From Stdlib Require Import ZArith Lia.
From stdpp Require Import base tactics numbers gmap strings option list.
From S2P Require Import Prelude Bytes Kernel Spinlock Kstring Riscv Kalloc KallocInit Vm VmUser VmCopy Sched.
From S2P Require Import VmFork VmProps Ring Uart Printf Uio Console Bio Log Fs File Proc SchedProps.

(** ** Specification *)

Definition pipe_bytes (p : pipe) : list Z := queue (2 ^ 32) 512 (pi_data p) (pi_nread p) (pi_nwrite p).

Record pipe_ok (p : pipe) : Prop := {
  pk_len : length (pi_data p) = 512%nat;
  pk_bytes : Forall byte_ok (pi_data p);
  pk_nread : 0 <= pi_nread p < 2 ^ 32;
  pk_nwrite : 0 <= pi_nwrite p < 2 ^ 32;
  pk_fit : (pi_nwrite p - pi_nread p) mod 2 ^ 32 <= 512;
}.

(** The running process uses page table [pt] and has not been killed. *)
Definition runs_with (s : kstate) (pt : Z) : Prop :=
  exists p pp, c_proc (k_cpu s) = Some p /\ k_procs s !! p = Some pp /\ p_pagetable pp = pt /\ p_killed pp = 0.

(** ** Lemmas: the queue *)

Lemma pipe_empty p : pipe_ok p -> (pi_nread p = pi_nwrite p <-> pipe_bytes p = []).
Proof.
  intros []. split.
  - intros E. unfold pipe_bytes. rewrite E. by apply queue_empty.
  - intros E. apply (f_equal length) in E. unfold pipe_bytes in E. rewrite queue_length in E. cbn in E.
    symmetry. apply (queue_nil (2 ^ 32)); [lia|done|done|]. pose proof (Z.mod_pos_bound (pi_nwrite p - pi_nread p) (2 ^ 32)). lia.
Qed.

Lemma div_512_32 : (512 | 2 ^ 32).
Proof. by exists (2 ^ 23). Qed.

(** Taking the head. *)
Lemma pipe_take p c q :
  pipe_ok p -> pipe_bytes p = c :: q -> let p' := upd_pi_nread (fun r => u32 (r + 1)) p in
  queue_at 512 (pi_nread p) (pi_data p) = c /\ pipe_ok p' /\ pipe_bytes p' = q.
Proof.
  intros [] E p'. unfold pipe_bytes in *.
  assert (Hne : (pi_nwrite p - pi_nread p) mod 2 ^ 32 <> 0).
  { apply (f_equal length) in E. rewrite queue_length in E. cbn in E. lia. }
  pose proof (queue_get (2 ^ 32) 512 (pi_data p) div_512_32 ltac:(lia) (pi_nread p) (pi_nwrite p) Hne) as Eg.
  rewrite E in Eg. injection Eg as -> ->. split; [done|]. split; [|done]. split; try done.
  - apply u32_range.
  - unfold p', u32. ksimpl. rewrite Zminus_mod_idemp_r.
    replace (pi_nwrite p - (pi_nread p + 1)) with (pi_nwrite p - pi_nread p - 1) by lia.
    rewrite <- Zminus_mod_idemp_l. rewrite Z.mod_small; [lia|].
    pose proof (Z.mod_pos_bound (pi_nwrite p - pi_nread p) (2 ^ 32)). lia.
Qed.

(** The pipe is full. *)
Lemma pipe_full p : pipe_ok p -> (pi_nwrite p = u32 (pi_nread p + 512) <-> length (pipe_bytes p) = 512%nat).
Proof.
  intros []. unfold pipe_bytes, u32. rewrite queue_length.
  pose proof (Z.mod_pos_bound (pi_nwrite p - pi_nread p) (2 ^ 32)). split.
  - intros ->. rewrite Zminus_mod_idemp_l. replace (pi_nread p + 512 - pi_nread p) with 512 by lia. done.
  - intros E. assert (Em : (pi_nwrite p - pi_nread p) mod 2 ^ 32 = 512) by lia.
    rewrite <- (Z.mod_small (pi_nwrite p) (2 ^ 32)) at 1 by done.
    replace (pi_nwrite p) with (pi_nread p + (pi_nwrite p - pi_nread p)) at 1 by lia.
    rewrite <- Zplus_mod_idemp_r, Em. done.
Qed.

(** Adding at the tail. *)
Lemma pipe_add p c :
  pipe_ok p -> byte_ok c -> length (pipe_bytes p) <> 512%nat ->
  let p' := upd_pi_nwrite (fun w => u32 (w + 1)) (upd_pi_data (queue_set 512 (pi_nwrite p) c) p) in
  pipe_ok p' /\ pipe_bytes p' = pipe_bytes p ++ [c].
Proof.
  intros [] Hc Hf p'. unfold pipe_bytes in *. rewrite queue_length in Hf.
  pose proof (Z.mod_pos_bound (pi_nwrite p - pi_nread p) (2 ^ 32)).
  split; [|apply queue_put; [lia|apply div_512_32|lia|done|lia|lia]]. split; try done.
  - unfold p'. ksimpl. unfold queue_set. by rewrite length_insert.
  - unfold p'. ksimpl. by apply Forall_insert.
  - apply u32_range.
  - unfold p', u32. ksimpl. rewrite queue_succ by lia. lia.
Qed.

Lemma pipe_bytes_ok p : pipe_ok p -> Forall byte_ok (pipe_bytes p).
Proof.
  intros Hok. unfold pipe_bytes, queue. apply Forall_fmap, Forall_true. intros j. unfold queue_at. cbn.
  rewrite nth_lookup. destruct (pi_data p !! _) as [v|] eqn:E; [|by split]. exact (Forall_lookup_1 _ _ _ _ (pk_bytes _ Hok) E).
Qed.

(** ** Lemmas: address spaces and locks *)

Section pipe.
Context `{Platform} (Avail : kstate -> gset Z -> Prop) `{!PageAllocator Avail}.
Abbreviation as_ok := (as_ok Avail).

Lemma as_ok_move s s' F pt D U :
  as_ok s F pt D U -> k_mem s' = k_mem s -> Avail s' F -> as_ok s' F pt D U.
Proof.
  intros [[Hv Hd Hj] Hm Hdom Hp Hi] E Ha. split; rewrite ?E; try done. by split; rewrite ?E.
Qed.

(** Changes outside memory and locks. *)
Lemma as_ok_frame s s' F pt D U :
  as_ok s F pt D U -> k_mem s' = k_mem s -> k_freelist s' = k_freelist s -> sync s' = sync s -> as_ok s' F pt D U.
Proof.
  intros Hok Em Ef Es. eapply as_ok_move; [done|done|]. pose proof (vo_free _ _ _ _ _ (as_vm _ _ _ _ _ _ Hok)) as Ha.
  eapply pa_frame; [exact Ha| |done|done|by rewrite Em]. rewrite Em. by eapply pa_mem.
Qed.

Lemma as_ok_locked s lk F pt D U :
  as_ok s F pt D U -> sync_ok s -> lk <> L_kmem -> (forall i, lk <> L_hart i) -> as_ok (locked lk s) F pt D U.
Proof.
  intros Hok Hs H1 H2. eapply as_ok_move; [done|done|]. eapply (pa_sync s); [apply Hok|done|by apply sync_ok_locked|done|..].
  - intros Hf. by apply free_locked.
  - intros i Hf. by apply free_locked.
Qed.

(** One more byte. *)
Lemma stored_snoc s F pt D U m m1 m2 va bs (i : nat) c :
  as_ok s F pt D U -> 0 <= va -> stored U m m1 va bs i -> bs !! i = Some c ->
  stored U m1 m2 (va + Z.of_nat i) [c] 1 -> stored U m m2 va bs (S i).
Proof.
  intros Hok Hva [A1 A2] Hc [B1 B2]. destruct (B1 0%nat c) as (x & Hx & Hrd); [lia|done|]. rewrite Z.add_0_r in Hx.
  assert (B2' : forall y, y <> x -> rd m2 y = rd m1 y).
  { intros y Hy. apply B2. intros j Hj. replace j with 0%nat by lia. rewrite Z.add_0_r. congruence. }
  split.
  - intros j b Hj Hb. destruct (decide (j = i)) as [->|Hne].
    { exists x. split; [done|]. congruence. }
    destruct (A1 j b) as (y & Hy & Hrdy); [lia|done|]. exists y. split; [done|]. rewrite B2'; [done|]. intros ->.
    assert (va + Z.of_nat j = va + Z.of_nat i) by (eapply ua_inj; [exact Hok|lia|lia|done|done]). lia.
  - intros y Hy. rewrite B2'; [apply A2; intros j Hj; apply Hy; lia|]. intros ->. apply (Hy i); [lia|done].
Qed.

(** What holds while piperead() copies: [i] bytes of [q] have been moved. *)
Record reading (pi addr pt : Z) (F : gset Z) D U (q : list Z) (s s1 : kstate) (i : nat) (q1 : list Z) : Prop := {
  rg_sync : sync s1 = sync (locked (L_pipe pi) s);
  rg_procs : k_procs s1 = k_procs s;
  rg_as : as_ok s1 F pt D U;
  rg_high : high_ok (k_mem s1) pt;
  rg_stored : stored U (k_mem s) (k_mem s1) addr q i;
  rg_pipe p : k_pipes s !! pi = Some p ->
    exists p1, k_pipes s1 = <[pi := p1]> (k_pipes s) /\ pipe_ok p1 /\ pipe_bytes p1 = q1 /\
      pi_readopen p1 = pi_readopen p /\ pi_writeopen p1 = pi_writeopen p;
}.

(** One byte. *)
Lemma piperead_body_spec pi addr n pt F D U q s s1 (i : nat) p Q :
  calm [] s -> runs_with s pt -> k_pipes s !! pi = Some p -> Forall byte_ok q ->
  0 <= addr -> addr + n <= 2 ^ 64 -> Z.of_nat i < n ->
  reading pi addr pt F D U q s s1 i (drop i q) ->
  (drop i q = [] -> Q (inr (Z.of_nat i)) s1) ->
  (forall s2, (i < length q)%nat -> reading pi addr pt F D U q s s2 (S i) (drop (S i) q) -> Q (inl (Z.of_nat (S i))) s2) ->
  (forall s2, (i < length q)%nat -> ua U (addr + Z.of_nat i) = None ->
     reading pi addr pt F D U q s s2 i (drop (S i) q) -> Q (inr (Z.of_nat i)) s2) ->
  wp (piperead_body pi addr n (Z.of_nat i)) Q s1.
Proof.
  intros Hc (me & pp & Hme & Hpp & Hpt & _) Hp Hq Hva Hend Hi [Rs Rp Ra Rh Rst Rpi] Hempty Hmore Hfail.
  destruct (Rpi p Hp) as (p1 & Epi & Hok1 & Hb1 & Hro & Hwo).
  unfold piperead_body. rewrite (proj2 (Z.ltb_lt _ _)) by lia.
  assert (Hg : forall (f : pipe -> K (Z + Z)), wp (f p1) Q s1 -> wp (x ← get_pipe pi; f x) Q s1).
  { intros f Hf. apply wp_bind. unfold get_pipe, wp. rewrite Epi, lookup_insert_eq. exact Hf. }
  apply Hg. destruct (Z.eqb_spec (pi_nread p1) (pi_nwrite p1)) as [E|Hne].
  { apply wp_ret, Hempty. rewrite <- Hb1. by apply pipe_empty. }
  destruct (drop i q) as [|c q'] eqn:Ed; [by apply pipe_empty in Hb1|].
  assert (Hci : q !! i = Some c) by (rewrite <- (Nat.add_0_r i), <- lookup_drop, Ed; done).
  pose proof (lookup_lt_Some _ _ _ Hci) as Hlt.
  assert (Eq' : q' = drop (S i) q).
  { change q' with (drop 1 (c :: q')). rewrite <- Ed, drop_drop. f_equal. lia. }
  destruct (pipe_take p1 c q' Hok1 Hb1) as (Hch & Hok2 & Hb2). rewrite Hch. set (p2 := upd_pi_nread _ p1) in *.
  unfold upd_pipe. apply wp_bind, wp_modify. set (s2 := upd_k_pipes _ s1).
  assert (Epi2 : k_pipes s2 = <[pi := p2]> (k_pipes s)).
  { change (k_pipes s2) with (alter (upd_pi_nread (fun r => u32 (r + 1))) pi (k_pipes s1)). rewrite Epi.
    by rewrite alter_insert_eq. }
  assert (Hs2 : sync s2 = sync s1) by (unfold s2; by ksync).
  assert (Hsok : sync_ok s2).
  { eapply sync_sync_ok; [etrans; [exact Hs2|exact Rs]|]. by apply sync_ok_locked, Hc. }
  assert (Hme2 : c_proc (k_cpu s2) = Some me) by (by rewrite (sync_c_proc s2 s1), (sync_c_proc s1 _ Rs)).
  apply wp_bind, (wp_curproc s2 me); [done|done|]. intros s3 E3.
  assert (Hpr3 : k_procs s3 = k_procs s) by (rewrite (keq_k_procs _ _ E3); exact Rp).
  apply wp_bind. eapply wp_get_entry; [by rewrite Hpr3|]. rewrite Hpt, u64_small by lia.
  assert (Ha3 : as_ok s3 F pt D U).
  { apply (as_ok_frame s1); [done|apply (keq_k_mem _ _ E3)|apply (keq_k_freelist _ _ E3)|].
    by rewrite (keq_sync _ _ E3). }
  assert (Em3 : k_mem s3 = k_mem s1) by apply (keq_k_mem _ _ E3).
  apply wp_bind. eapply wp_mono.
  { apply (copyout_spec Avail s3 F pt D U (addr + Z.of_nat i) [c]); [done|by rewrite Em3|lia|].
    apply Forall_singleton. by eapply Forall_lookup_1. }
  cbn beta. intros r s4 (k & Ha4 & Hh4 & Hr4 & Hs4 & Hst4 & Hres). rewrite Em3 in Hst4.
  assert (Hread : forall j, stored U (k_mem s) (k_mem s4) addr q j -> reading pi addr pt F D U q s s4 j (drop (S i) q)).
  { intros j Hj. split; try done.
    - by rewrite Hs4, (keq_sync _ _ E3), Hs2.
    - rewrite <- Hpr3. by injection Hr4.
    - intros p0 Hp0. assert (p0 = p) as -> by congruence. exists p2. split_and!; try done; [|by rewrite Hb2].
      rewrite <- Epi2, <- (keq_k_pipes _ _ E3). by injection Hr4. }
  destruct Hres as [[-> ->]|(-> & Hk & Hu)]; cbn [Z.eqb].
  - apply wp_ret. replace (Z.of_nat i + 1) with (Z.of_nat (S i)) by lia. apply Hmore; [done|]. apply Hread.
    by eapply stored_snoc.
  - apply wp_ret. cbn in Hk. replace k with 0%nat in * by lia. rewrite Z.add_0_r in Hu. apply Hfail; [done|done|].
    apply Hread. destruct Rst as [S1 S2], Hst4 as [_ T2]. assert (T : forall x, rd (k_mem s4) x = rd (k_mem s1) x).
    { intros x. apply T2. lia. }
    split.
    + intros j b Hj Hb. destruct (S1 j b Hj Hb) as (x & Hx & Hrd). exists x. by rewrite T.
    + intros x Hx. rewrite T. by apply S2.
Qed.

(** What a read of [i] bytes promises: they are the first of the pipe, they are in
    user memory, nothing else of memory changed and writers are woken.  Where user
    memory ends early, one more byte has left the pipe. *)
Record read_post (pi addr n pt : Z) (F : gset Z) D U (s : kstate) (p : pipe) (i : nat) (s' : kstate) : Prop := {
  rp_le : Z.of_nat i <= n /\ (i <= length (pipe_bytes p))%nat;
  rp_stored : stored U (k_mem s) (k_mem s') addr (pipe_bytes p) i;
  rp_as : as_ok s' F pt D U;
  rp_sync : sync s' = sync s;
  rp_procs : k_procs s' = woken (Ch_nwrite pi) (c_proc (k_cpu s)) (seq 0 64) (k_procs s);
  rp_pipe : exists p', k_pipes s' = <[pi := p']> (k_pipes s) /\ pipe_ok p' /\
    pi_readopen p' = pi_readopen p /\ pi_writeopen p' = pi_writeopen p /\
    (pipe_bytes p' = drop i (pipe_bytes p) /\ (Z.of_nat i = n \/ i = length (pipe_bytes p)) \/
     pipe_bytes p' = drop (S i) (pipe_bytes p) /\ ua U (addr + Z.of_nat i) = None);
}.

(** The end of a pipe operation: wake the other side and release the lock. *)
Lemma pipe_finish pi ch s s1 F pt D U {B} (b : B) Q :
  calm [] s -> sync s1 = sync (locked (L_pipe pi) s) -> k_procs s1 = k_procs s -> as_ok s1 F pt D U -> as_ok s F pt D U ->
  (forall s', k_mem s' = k_mem s1 -> k_pipes s' = k_pipes s1 -> sync s' = sync s -> as_ok s' F pt D U ->
     k_procs s' = woken ch (c_proc (k_cpu s)) (seq 0 64) (k_procs s) -> Q b s') ->
  wp (wakeup ch;; release (L_pipe pi);; mret b) Q s1.
Proof.
  intros Hc Hs1 Hp1 Ha1 Ha HQ.
  assert (Hc1 : calm [L_pipe pi] s1).
  { eapply calm_ext; [exact Hs1|by rewrite Hp1|by apply calm_locked]. }
  apply wp_bind. eapply wp_mono; [apply (wakeup_spec [L_pipe pi] ch s1); [done|set_solver]|].
  cbn beta. intros _ s2 E2. apply wp_bind. apply (wp_release (L_pipe pi) s).
  { apply Hc. }
  { rewrite (keq_sync _ _ E2). etrans; [|exact Hs1]. by ksync. }
  apply wp_ret. assert (Ecp : c_proc (k_cpu s1) = c_proc (k_cpu s)) by (by rewrite (sync_c_proc s1 _ Hs1)).
  assert (Ha2 : as_ok s2 F pt D U).
  { apply (as_ok_frame s1); [done|apply (keq_k_mem _ _ E2)|apply (keq_k_freelist _ _ E2)|].
    rewrite (keq_sync _ _ E2). by ksync. }
  apply HQ; [exact (keq_k_mem _ _ E2)|exact (keq_k_pipes _ _ E2)|apply sync_resync| |].
  - eapply as_ok_move; [exact Ha2|done|].
    pose proof (vo_free _ _ _ _ _ (as_vm _ _ _ _ _ _ Ha2)) as Hv2.
    eapply (pa_sync s2); [exact Hv2|done|eapply sync_sync_ok; [apply sync_resync|apply Hc]| |..].
    + change (r_tp (k_csr (resync s s2))) with (r_tp (k_csr s)). rewrite (sync_k_csr s2 s1).
      * by rewrite (sync_k_csr s1 _ Hs1).
      * rewrite (keq_sync _ _ E2). by ksync.
    + intros _. apply (sync_free _ s); [apply sync_resync|]. apply Hc, not_elem_of_nil.
    + intros i _. apply (sync_free _ s); [apply sync_resync|]. apply Hc, not_elem_of_nil.
  - change (k_procs (resync s s2)) with (k_procs s2). rewrite (keq_k_procs _ _ E2).
    change (k_procs (upd_k_procs ?f s1)) with (f (k_procs s1)). by rewrite Ecp, Hp1.
Qed.

Lemma piperead_spec pi addr n pt F D U s p Q :
  calm [] s -> runs_with s pt -> as_ok s F pt D U -> high_ok (k_mem s) pt ->
  k_pipes s !! pi = Some p -> pipe_ok p -> pipe_bytes p <> [] \/ pi_writeopen p = false ->
  0 <= addr -> 0 <= n -> addr + n <= 2 ^ 64 ->
  (forall i s', read_post pi addr n pt F D U s p i s' -> Q (Z.of_nat i) s') ->
  wp (piperead pi addr n) Q s.
Proof.
  intros Hc Hrun Ha Hh Hp Hok Hdata Hva Hn Hend HQ. set (q := pipe_bytes p) in *.
  unfold piperead. apply wp_bind, wp_acquire; [apply Hc, not_elem_of_nil|]. set (s1 := locked (L_pipe pi) s).
  assert (Ha1 : as_ok s1 F pt D U) by (apply as_ok_locked; [done|apply Hc|done|done]).
  pose proof (pipe_bytes_ok p Hok) as Hqb.
  assert (Hr1 : reading pi addr pt F D U q s s1 0 (drop 0 q)).
  { split; try done; [split; [lia|done]|]. intros p0 Hp0. assert (p0 = p) as -> by congruence.
    exists p. split; [|done]. symmetry. by apply insert_id. }
  unfold piperead_loop. apply wp_bind. unfold get_pipe at 1, wp at 1.
  change (k_pipes s1) with (k_pipes s). rewrite Hp.
  assert (Ec : (pi_nread p =? pi_nwrite p) && pi_writeopen p = false).
  { destruct (Z.eqb_spec (pi_nread p) (pi_nwrite p)) as [E|]; [|done]. apply pipe_empty in E; [|done].
    destruct Hdata as [Hd | ->]; [|done]. by destruct Hd. }
  rewrite Ec. apply wp_bind, wp_ret. apply wp_bind.
  assert (Hfin : forall i s2, reading pi addr pt F D U q s s2 i (drop i q) -> Z.of_nat i <= n -> (i <= length q)%nat ->
            (Z.of_nat i = n \/ drop i q = []) -> wp (wakeup (Ch_nwrite pi);; release (L_pipe pi);; mret (Z.of_nat i)) Q s2).
  { intros i s2 [R1 R2 R3 R4 R5 R6] Hi Hil Hwhy. eapply (pipe_finish pi _ s s2 F pt D U); [done..|].
    intros s' Em Ep Es As Er. apply HQ. destruct (R6 p Hp) as (p1 & Epi & Hok1 & Hb1 & Hro & Hwo).
    split; try done; [by rewrite Em|]. exists p1. rewrite Ep. split_and!; try done. left. split; [done|].
    destruct Hwhy as [?|Hd]; [by left|right]. apply (f_equal length) in Hd. rewrite length_drop in Hd. cbn in Hd. unfold q in *. lia. }
  eapply (wp_loop (fun i s2 => exists j : nat, i = Z.of_nat j /\ Z.of_nat j <= n /\ (j <= length q)%nat /\
      reading pi addr pt F D U q s s2 j (drop j q)) (fun i => Z.to_nat (n - i))).
  - intros i s2 (j & -> & Hj & Hjl & Hr). destruct (decide (Z.of_nat j = n)) as [E|Hne].
    { unfold piperead_body. rewrite E, Z.ltb_irrefl. apply wp_ret. rewrite <- E. apply Hfin; try done; lia. }
    eapply (piperead_body_spec pi addr n pt F D U q s s2 j p); try done; [lia|..].
    + intros Hd. apply Hfin; try done. by right.
    + intros s3 Hlt Hr3. split; [|lia]. exists (S j). split_and!; try done; lia.
    + intros s3 Hlt Hu [R1 R2 R3 R4 R5 R6]. eapply (pipe_finish pi _ s s3 F pt D U); [done..|].
      intros s' Em Ep Es As Er. apply HQ. destruct (R6 p Hp) as (p1 & Epi & Hok1 & Hb1 & Hro & Hwo).
      split; try done; [by rewrite Em|]. exists p1. rewrite Ep. split_and!; try done. by right.
  - exists 0%nat. split_and!; try done; lia.
  - lia.
Qed.

End pipe.

(** ** Lemmas: pipewrite() *)

(** The state with pipe [pi] holding [p]. *)
Definition with_pipe (pi : Z) (p : pipe) (s : kstate) : kstate :=
  upd_k_pipes (fun _ => <[pi := p]> (k_pipes s)) s.

Lemma with_pipe_id pi p s : k_pipes s !! pi = Some p -> with_pipe pi p s = s.
Proof.
  intros Hp. unfold with_pipe. rewrite (upd_k_pipes_ext _ (fun x => x)); [by destruct s|]. by apply insert_id.
Qed.

Lemma killed_spec lks p pp s Q :
  calm lks s -> L_proc p ∉ lks -> k_procs s !! p = Some pp ->
  (forall s', s' ≡ s -> Q (p_killed pp) s') -> wp (killed p) Q s.
Proof.
  intros Hc Hn Hp HQ. unfold killed. apply wp_bind, wp_acquire; [by apply Hc|].
  apply wp_bind, (wp_get_entry _ _ pp); [done|].
  apply wp_bind, (wp_release (L_proc p) s); [apply Hc|done|]. apply wp_ret, HQ. by apply resync_keq.
Qed.

(** The pipe [p1] is [p] with the bytes [l] added. *)
Record wrote_pipe (p p1 : pipe) (l : list Z) : Prop := {
  wp_ok1 : pipe_ok p1;
  wp_bytes : pipe_bytes p1 = pipe_bytes p ++ l;
  wp_ro : pi_readopen p1 = pi_readopen p;
  wp_wo : pi_writeopen p1 = pi_writeopen p;
}.

Section write.
Context `{Platform} (pi addr n pt : Z) (s : kstate) (me : nat) (pp : proc) (p : pipe).
Hypothesis Hcalm : calm [] s.
Hypothesis Hnoff : c_noff (k_cpu s) = 0.
Hypothesis Hmem : mem_ok (k_mem s).
Hypothesis Hme : c_proc (k_cpu s) = Some me.
Hypothesis Hpp : k_procs s !! me = Some pp.
Hypothesis Hpt : p_pagetable pp = pt.
Hypothesis Hp : k_pipes s !! pi = Some p.
Hypothesis Hok : pipe_ok p.
Hypothesis Hva : 0 <= addr.
Hypothesis Hend : addr + n <= 2 ^ 64.

(** [i] bytes, [l], have been added; the pipe is now [p1]. *)
Record writing (s1 : kstate) (i : nat) (l : list Z) (p1 : pipe) : Prop := {
  wg_bytes : ubytes (k_mem s) pt addr i = Some l;
  wg_pipe : wrote_pipe p p1 l;
  wg_state : s1 ≡ with_pipe pi p1 (locked (L_pipe pi) s);
}.

(** The caller sleeps on the pipe, which is full; readers are awake and the pipe's
    lock is free. *)
Definition write_sleeps (s' : kstate) : Prop :=
  exists (i : nat) l p1, ubytes (k_mem s) pt addr i = Some l /\ Z.of_nat i < n /\ wrote_pipe p p1 l /\
    length (pipe_bytes p1) = 512%nat /\
    s' ≡ locked (L_proc me) (on_proc me (fun q => upd_p_state (fun _ => SLEEPING) (upd_p_chan (fun _ => Ch_nwrite pi) q))
      (upd_k_procs (woken (Ch_nread pi) (Some me) (seq 0 64)) (with_pipe pi p1 s))).

Lemma writing_sync s1 i l p1 : writing s1 i l p1 -> sync s1 = sync (locked (L_pipe pi) s).
Proof. intros [_ _ E]. rewrite (keq_sync _ _ E). unfold with_pipe. by ksync. Qed.

Lemma writing_calm s1 i l p1 : writing s1 i l p1 -> calm [L_pipe pi] s1.
Proof.
  intros Hw. eapply calm_ext; [by eapply writing_sync| |by apply calm_locked].
  by rewrite (keq_k_procs _ _ (wg_state _ _ _ _ Hw)).
Qed.

Lemma writing_keq s1 s2 i l p1 : s2 ≡ s1 -> writing s1 i l p1 -> writing s2 i l p1.
Proof. intros E [? ? E1]. split; [done|done|]. by etrans; [exact E|]. Qed.

(** The pipe is full: wake the readers and sleep. *)
Lemma pipewrite_block s1 (i : nat) l p1 :
  writing s1 i l p1 -> Z.of_nat i < n -> length (pipe_bytes p1) = 512%nat ->
  switches (wakeup (Ch_nread pi);; sleep (Ch_nwrite pi) (L_pipe pi);; mret (inl (Z.of_nat i) : Z + option Z)) write_sleeps s1.
Proof.
  intros Hw Hi Hfull. pose proof (writing_sync _ _ _ _ Hw) as Es. pose proof (writing_calm _ _ _ _ Hw) as Hc1.
  destruct Hw as [Hu Hw E1].
  apply switches_wp. eapply wp_mono; [apply (wakeup_spec [L_pipe pi] _ s1); [done|set_solver]|].
  cbn beta. intros _ s2 E2. rewrite (sync_c_proc _ _ Es) in E2. change (c_proc (k_cpu (locked _ s))) with (c_proc (k_cpu s)) in E2.
  rewrite Hme in E2. set (ps := woken (Ch_nread pi) (Some me) (seq 0 64)) in *.
  assert (Ep2 : k_procs s2 = ps (k_procs s)).
  { rewrite (keq_k_procs _ _ E2). change (k_procs (upd_k_procs ps s1)) with (ps (k_procs s1)). by rewrite (keq_k_procs _ _ E1). }
  apply switches_bind. eapply switches_mono.
  - eapply (sleep_switches (L_pipe pi) (Ch_nwrite pi) me _ s s2); [apply Hcalm|done|done|apply Hcalm, not_elem_of_nil|done| |].
    + rewrite (keq_sync _ _ E2), sync_k_procs. exact Es.
    + rewrite Ep2. unfold ps. by rewrite lookup_woken, Hpp.
  - intros s3 [S3 O3]. exists i, l, p1. split_and!; try done. split.
    + rewrite S3. apply sync_locked. unfold on_proc, with_pipe. by ksync.
    + rewrite O3. unfold on_proc. apply others_upd_k_procs. rewrite (keq_others _ _ E2). apply others_upd_k_procs.
      by rewrite (keq_others _ _ E1).
Qed.

(** The test at the top of the loop. *)
Lemma pipewrite_alive s1 (i : nat) l (f : bool -> K (Z + option Z)) Q R p1 :
  writing s1 i l p1 ->
  (forall s2, writing s2 i l p1 -> ends (f (negb (pi_readopen p) || negb (p_killed pp =? 0))) Q R s2) ->
  ends (dead ← (if negb (pi_readopen p1) then mret true else k ← killed me; mret (negb (k =? 0))); f dead) Q R s1.
Proof.
  intros Hw Hf. rewrite (wp_ro _ _ _ (wg_pipe _ _ _ _ Hw)). destruct (pi_readopen p); [|by apply ends_wp, wp_ret, Hf].
  apply ends_wp, wp_bind. eapply (killed_spec [L_pipe pi] me pp); [by eapply writing_calm|set_solver| |].
  - by rewrite (keq_k_procs _ _ (wg_state _ _ _ _ Hw)).
  - intros s2 E. apply wp_ret, Hf. by eapply writing_keq.
Qed.

(** The caller cannot write. *)
Abbreviation dead := (negb (pi_readopen p) || negb (p_killed pp =? 0)).

(** One byte. *)
Lemma pipewrite_byte s1 (i : nat) l p1 c :
  writing s1 i l p1 -> length (pipe_bytes p1) <> 512%nat -> ubytes (k_mem s) pt (addr + Z.of_nat i) 1 = Some [c] ->
  exists p2, writing (upd_k_pipes (alter (upd_pi_nwrite (fun w => u32 (w + 1))) pi)
    (upd_k_pipes (alter (upd_pi_data (queue_set 512 (pi_nwrite p1) c)) pi) s1)) (S i) (l ++ [c]) p2.
Proof.
  intros [Hu [H1 H2 H3 H4] E] Hf Hc. destruct (pipe_add p1 c) as [Hok2 Hb2]; [done| |done|].
  { cbn in Hc. destruct (uaddr _ _ _); [|done]. injection Hc as <-. apply Hmem. }
  eexists. split; [|split; [exact Hok2|by rewrite Hb2, H2, app_assoc|exact H3|exact H4]|].
  - replace (S i) with (i + 1)%nat by lia. rewrite ubytes_app, Hu. cbn [mbind option_bind]. by rewrite Hc.
  - rewrite upd_k_pipes_comp, E. unfold with_pipe. rewrite upd_k_pipes_comp.
    erewrite upd_k_pipes_ext; [reflexivity|]. cbn beta. by rewrite !alter_insert_eq.
Qed.

(** An iteration. *)
Lemma pipewrite_body_spec s1 (i : nat) l p1 Q :
  writing s1 i l p1 -> Z.of_nat i < n ->
  (dead = true -> forall s2, writing s2 i l p1 -> Q (inr None) s2) ->
  (forall s2 l' p2, dead = false -> writing s2 (S i) l' p2 -> Q (inl (Z.of_nat (S i))) s2) ->
  (forall s2, dead = false -> writing s2 i l p1 ->
     ubytes (k_mem s) pt addr (S i) = None -> Q (inr (Some (Z.of_nat i))) s2) ->
  ends (pipewrite_body pi addr n (Z.of_nat i)) Q write_sleeps s1.
Proof.
  intros Hw Hi Hdead Hmore Hfail. unfold pipewrite_body. rewrite (proj2 (Z.ltb_lt _ _)) by lia.
  pose proof (writing_calm _ _ _ _ Hw) as Hc1. pose proof (writing_sync _ _ _ _ Hw) as Es.
  apply ends_wp, (wp_curproc s1 me); [apply Hc1|by rewrite (sync_c_proc _ _ Es)|]. intros s2 E2.
  assert (Hw2 : writing s2 i l p1) by (by eapply writing_keq).
  apply ends_wp. unfold get_pipe, wp. rewrite (keq_k_pipes _ _ (wg_state _ _ _ _ Hw2)).
  change (k_pipes (with_pipe pi p1 _)) with (<[pi := p1]> (k_pipes s)). rewrite lookup_insert_eq.
  eapply pipewrite_alive; [exact Hw2|]. intros s3 Hw3. destruct (negb (pi_readopen p) || _) eqn:Ed; [by apply Hdead|].
  destruct (wg_pipe _ _ _ _ Hw3) as [Hok1 Hb1 _ _].
  destruct (Z.eqb_spec (pi_nwrite p1) (u32 (pi_nread p1 + 512))) as [Ef|Hf].
  { apply ends_of_switches, (pipewrite_block s3 i l p1); [done|done|]. by apply pipe_full. }
  assert (Hf' : length (pipe_bytes p1) <> 512%nat) by (by rewrite <- pipe_full).
  assert (E3 : k_procs s3 = k_procs s) by apply (keq_k_procs _ _ (wg_state _ _ _ _ Hw3)).
  assert (Em : k_mem s3 = k_mem s) by apply (keq_k_mem _ _ (wg_state _ _ _ _ Hw3)).
  apply ends_wp, (wp_get_entry _ _ pp); [by rewrite E3|]. rewrite Hpt, u64_small by lia.
  apply ends_wp. eapply wp_mono; [apply (copyin_spec pt (addr + Z.of_nat i) 1 s3); lia|].
  cbn beta. intros [r bs] s4 [-> Hr]. rewrite Em in Hr. change (Z.to_nat 1) with 1%nat in Hr.
  destruct (ubytes (k_mem s) pt (addr + Z.of_nat i) 1) as [l1|] eqn:Eu.
  - injection Hr as -> ->. pose proof (ubytes_length _ _ _ _ _ Eu) as Hl. destruct l1 as [|c [|]]; try done.
    cbn [fst snd nth Z.eqb]. unfold upd_pipe. apply ends_wp, wp_modify. apply ends_wp, wp_modify.
    destruct (pipewrite_byte s3 i l p1 c Hw3 Hf' Eu) as (p2 & Hw4).
    replace (Z.of_nat i + 1) with (Z.of_nat (S i)) by lia. by eapply Hmore.
  - destruct Hr as (k & Hk & Hr & _). cbn [fst] in *. rewrite Hr. cbn [Z.eqb Pos.eqb]. apply Hfail; [done|done|].
    replace (S i) with (i + 1)%nat by lia. rewrite ubytes_app, (wg_bytes _ _ _ _ Hw3). cbn [mbind option_bind]. by rewrite Eu.
Qed.

(** What a write that returns promises: the pipe has been closed or the caller killed
    and nothing has changed, or the bytes of user memory have been added and readers
    are awake. *)
Definition write_returns (r : Z) (s' : kstate) : Prop :=
  r = -1 /\ dead = true /\ s' ≡ s \/
  exists (i : nat) l p1, r = Z.of_nat i /\ Z.of_nat i <= n /\ (dead = true -> n = 0) /\ ubytes (k_mem s) pt addr i = Some l /\ wrote_pipe p p1 l /\
    (Z.of_nat i = n \/ ubytes (k_mem s) pt addr (S i) = None) /\
    s' ≡ upd_k_procs (woken (Ch_nread pi) (Some me) (seq 0 64)) (with_pipe pi p1 s).

Lemma pipewrite_done s1 (i : nat) l p1 :
  writing s1 i l p1 -> Z.of_nat i <= n -> (dead = true -> n = 0) ->
  Z.of_nat i = n \/ ubytes (k_mem s) pt addr (S i) = None ->
  wp (wakeup (Ch_nread pi);; release (L_pipe pi);; mret (Z.of_nat i)) write_returns s1.
Proof.
  intros Hw Hi Hd Hwhy. pose proof (writing_sync _ _ _ _ Hw) as Es.
  apply wp_bind. eapply wp_mono; [apply (wakeup_spec [L_pipe pi] _ s1); [by eapply writing_calm|set_solver]|].
  cbn beta. intros _ s2 E2. rewrite (sync_c_proc _ _ Es) in E2. change (c_proc (k_cpu (locked _ s))) with (c_proc (k_cpu s)) in E2.
  rewrite Hme in E2. apply wp_bind, (wp_release (L_pipe pi) s); [apply Hcalm|by rewrite (keq_sync _ _ E2), sync_k_procs|].
  apply wp_ret. right. exists i, l, p1. destruct Hw as [Hu Hw E1]. split_and!; try done. apply resync_keq.
  - rewrite (keq_others _ _ E2). apply others_upd_k_procs. by rewrite (keq_others _ _ E1).
  - unfold with_pipe. by ksync.
Qed.

Lemma pipewrite_spec : 0 <= n -> ends (pipewrite pi addr n) write_returns write_sleeps s.
Proof.
  intros Hn. unfold pipewrite. apply ends_wp, wp_acquire; [apply Hcalm, not_elem_of_nil|].
  unfold pipewrite_from. apply ends_bind.
  eapply (ends_loop (fun i s1 => exists (j : nat) l p1, i = Z.of_nat j /\ Z.of_nat j <= n /\
      (dead = true -> i = 0 /\ p1 = p) /\ writing s1 j l p1) (fun i => Z.to_nat (n - i))).
  - intros i s1 (j & l & p1 & -> & Hj & Hd & Hw). destruct (decide (Z.of_nat j = n)) as [E|Hne].
    { unfold pipewrite_body. rewrite E, Z.ltb_irrefl. apply ends_of_wp, wp_ret. rewrite <- E.
      apply ends_of_wp, (pipewrite_done s1 j l p1); try done; [|by left]. intros Ed. destruct (Hd Ed). lia. }
    apply (pipewrite_body_spec s1 j l p1); [done|lia|..].
    + intros Ed s2 Hw2. apply ends_of_wp, wp_bind, (wp_release (L_pipe pi) s); [apply Hcalm|by eapply writing_sync|].
      apply wp_ret. left. split_and!; [done|done|]. apply resync_keq; [|done]. destruct (Hd Ed) as [_ ->].
      rewrite (keq_others _ _ (wg_state _ _ _ _ Hw2)). by rewrite with_pipe_id.
    + intros s2 l' p2 Ed Hw2. split; [|lia]. exists (S j), l', p2. split_and!; [done|lia|congruence|done].
    + intros s2 Ed Hw2 Hu. apply ends_of_wp, (pipewrite_done s2 j l p1); try done; [congruence|by right].
  - exists 0%nat, [], p. split_and!; try done. split; [done|split; [done|by rewrite app_nil_r|done|done]|].
    by rewrite with_pipe_id.
  - lia.
Qed.

End write.

(** ** Properties *)

(** A process with a page of memory at 0 and a pipe that holds two bytes, its
    counters about to wrap around. *)
Definition example_pipe : pipe := mkPipe (<[510%nat := 7]> (<[511%nat := 8]> (replicate 512 0))) (2 ^ 32 - 2) 0 true true.

Definition example_piping : kstate :=
  upd_k_cpu (upd_c_proc (fun _ => Some 3%nat))
    (upd_k_pipes (fun _ => {[ 0x80a08000 := example_pipe ]})
      (upd_k_procs (alter (upd_p_pagetable (fun _ => 0x80a00000)) 3%nat) example_space)).

#[local] Existing Instance example_platform.
#[local] Existing Instance free_page_allocator.

Lemma example_pipe_ok : pipe_ok example_pipe /\ pipe_bytes example_pipe = [7; 8].
Proof.
  split; [|by vm_compute]. split; [done| |done|done|done]. apply (bool_decide_unpack _). by vm_compute.
Qed.

Lemma example_piping_calm : calm [] example_piping.
Proof. split; [by split|done|done|]. exists 3%nat. split; [done|lia]. Qed.

Lemma example_piping_as : as_ok Free example_piping {[0x80900000]} 0x80a00000 example_dir example_user.
Proof.
  assert (Ha : as_ok Free (upd_k_cpu (fun _ => k_cpu example_space) example_piping)
    {[0x80900000]} 0x80a00000 example_dir example_user) by (apply (as_ok_frame Free example_space); [exact example_as_ok|done..]).
  eapply as_ok_move; [exact Ha|done|].
  eapply pa_sync; [apply (vo_free _ _ _ _ _ (as_vm _ _ _ _ _ _ Ha))|done|by split|done|done|done].
Qed.

(** C33: a read from a pipe that has bytes, or whose write side is closed, returns the
    number of bytes moved: the first bytes of the pipe, in order, now in user memory at
    the given address, and no others; the rest stays in the pipe, whose counters may
    wrap around; writers are woken.  When an address is not mapped, the read stops
    there and the byte it had taken from the pipe is gone. *)
Theorem piperead_correct `{Platform} Avail `{!PageAllocator Avail} pi addr n pt F D U s p :
  calm [] s -> runs_with s pt -> as_ok Avail s F pt D U -> high_ok (k_mem s) pt ->
  k_pipes s !! pi = Some p -> pipe_ok p -> pipe_bytes p <> [] \/ pi_writeopen p = false ->
  0 <= addr -> 0 <= n -> addr + n <= 2 ^ 64 ->
  wp (piperead pi addr n) (fun r s' => exists i, r = Z.of_nat i /\ read_post Avail pi addr n pt F D U s p i s') s.
Proof.
  intros. eapply (piperead_spec Avail pi addr n pt F D U s p); try done. intros i s' Hr. by exists i.
Qed.

Lemma piperead_correct_witness :
  wp (piperead 0x80a08000 16 10) (fun r s' => exists i, r = Z.of_nat i /\ (i <= 2)%nat) example_piping.
Proof.
  eapply wp_mono.
  - apply (piperead_correct Free 0x80a08000 16 10 0x80a00000 {[0x80900000]} example_dir example_user example_piping example_pipe);
      [exact example_piping_calm| |exact example_piping_as|exact example_high_ok|done|apply example_pipe_ok| |lia..].
    + by eexists 3%nat, _.
    + left. by rewrite (proj2 example_pipe_ok).
  - cbn beta. intros r s' (i & -> & Hr). exists i. split; [done|].
    destruct Hr as [[_ Hi] _ _ _ _ _]. rewrite (proj2 example_pipe_ok) in Hi. exact Hi.
Defined.

(** C34: a write to a pipe adds the bytes of user memory to its end, in order, and wakes
    readers.  It returns their number, all [n] unless an address is not mapped; or,
    where the pipe fills up first, the caller sleeps until a reader wakes it, with the
    lock free and the pipe full of the first bytes; or the read side is closed or the
    caller has been killed, and it returns -1 with nothing changed. *)
Theorem pipewrite_correct `{Platform} pi addr n pt s me pp p :
  calm [] s -> c_noff (k_cpu s) = 0 -> mem_ok (k_mem s) -> c_proc (k_cpu s) = Some me -> k_procs s !! me = Some pp ->
  p_pagetable pp = pt -> k_pipes s !! pi = Some p -> pipe_ok p -> 0 <= addr -> 0 <= n -> addr + n <= 2 ^ 64 ->
  ends (pipewrite pi addr n) (write_returns pi addr n pt s me pp p) (write_sleeps pi addr n pt s me p) s.
Proof. intros. by apply pipewrite_spec. Qed.

Lemma pipewrite_correct_witness :
  ends (pipewrite 0x80a08000 0 600) (fun r s' => -1 <= r <= 600) (fun s' => exists p1, k_pipes s' !! 0x80a08000 = Some p1 /\
    length (pipe_bytes p1) = 512%nat) example_piping.
Proof.
  eapply ends_mono.
  - eapply (pipewrite_correct 0x80a08000 0 600 0x80a00000 example_piping 3 _ example_pipe);
      [exact example_piping_calm|done|exact example_mem_ok|done|reflexivity|done|done|apply example_pipe_ok|lia..].
  - intros r s' [[-> _]|(i & l & p1 & -> & Hi & _)]; lia.
  - intros s' (i & l & p1 & _ & _ & _ & Hl & E). exists p1. split; [|done]. by rewrite (keq_k_pipes _ _ E).
Defined.
