(* ===== verification/ProcMem.v ===== *)
(** * Correctness of the memory of processes (kernel/proc.c)

    A process owns its trapframe page, the pages of its page table and its user pages.
    proc_pagetable() makes a page table with the trampoline and the trapframe, growproc()
    changes the user part, freeproc() gives all pages back to the allocator. *)

From Stdlib Require Import ZArith Lia.
From stdpp Require Import base tactics numbers gmap strings option list.
From S2P Require Import Prelude Kernel Spinlock Kstring Riscv Kalloc KallocInit Vm VmUser VmCopy VmFork VmProps Sched Proc PipeProps.

(** ** Specification *)

Section mem.
Context `{Platform}.
Context (Avail : kstate -> gset Z -> Prop) `{!PageAllocator Avail}.

(** What a process's page table maps above its memory: the trapframe page [tf] and the
    trampoline *)
Definition high_map (tf va : Z) : option Z :=
  if decide (PGROUNDDOWN va = TRAPFRAME) then Some (leaf tf (Z.lor PTE_R PTE_W))
  else if decide (PGROUNDDOWN va = TRAMPOLINE) then Some (leaf trampoline (Z.lor PTE_R PTE_X))
  else None.

(** The user memory of a process of size [sz] with page table [pt]: the user pages [U]
    are those below [sz], and the table pages are [D]. *)
Record user_as (s : kstate) (F : gset Z) (pt sz : Z) (D : gmap (list Z) Z) (U : gmap Z (Z * Z)) : Prop := {
  ps_as : as_ok Avail s F pt D U;
  ps_sz : 0 <= sz <= TRAPFRAME;
  ps_dom va : va mod PGSIZE = 0 -> is_Some (U !! va) <-> 0 <= va < PGROUNDUP sz;
}.

(** Its whole page table. *)
Definition proc_as (s : kstate) (F : gset Z) (pt tf sz : Z) (D : gmap (list Z) Z) (U : gmap Z (Z * Z)) : Prop :=
  user_as s F pt sz D U /\
  forall va, TRAPFRAME <= va < 2 ^ 39 -> pt_lookup (k_mem s) pt va = high_map tf va.

(** [U'] has pages of [U] and new pages: a page of [U] keeps its frame and permissions, a
    new page is zeroed, readable and writable by the user. *)
Definition resized (m : gmap Z Z) (U U' : gmap Z (Z * Z)) : Prop :=
  forall va pa perm, U' !! va = Some (pa, perm) ->
    U !! va = Some (pa, perm) \/
    U !! va = None /\ perm = Z.lor (Z.lor PTE_R PTE_U) PTE_W /\ forall x, pa <= x < pa + PGSIZE -> rd m x = 0.

(** ** Lemmas: trampoline and trapframe *)

Lemma tramp_values : TRAPFRAME = 274877898752 /\ TRAMPOLINE = 274877902848 /\ MAXVA = 274877906944.
Proof. done. Qed.

(** Unmapping one of the two pages leaves the rest alone. *)
Lemma unmap_high s F pt D U va pa perm :
  as_ok Avail s F pt D U -> va = TRAPFRAME \/ va = TRAMPOLINE ->
  pt_lookup (k_mem s) pt va = Some (leaf pa perm) -> 0 <= pa < 2 ^ 64 -> 2 <= perm < 1024 ->
  wp (uvmunmap pt va 1 false) (fun _ s' => as_ok Avail s' F pt D U /\ alloc_frame (as_pages F D U) s s' /\
    forall va', TRAPFRAME <= va' < 2 ^ 39 -> pt_lookup (k_mem s') pt va' =
      if decide (PGROUNDDOWN va' = va) then None else pt_lookup (k_mem s) pt va') s.
Proof.
  intros Hok Hva Hlk Hpa Hperm. pose proof (as_layout _ _ _ _ _ _ Hok) as Hlay. pose proof tramp_values as (ET & EM & EV).
  assert (Hal : va mod PGSIZE = 0) by (destruct Hva as [-> | ->]; done).
  assert (Hr : TRAPFRAME <= va < MAXVA) by (rewrite ET, EM, EV in *; lia).
  pose proof (vo_dir _ _ _ _ _ (as_vm _ _ _ _ _ _ Hok)) as Hdir.
  pose proof (dir_walk _ _ _ va Hlay Hdir) as Hw. pose proof (dir_lookup _ _ _ va Hlay Hdir) as Hl.
  destruct (D !! va_path va) as [p|] eqn:Hp; [|congruence].
  destruct (lookup_walk _ _ _ _ Hlk) as (Hw0 & Hld & Hv).
  unfold uvmunmap. rewrite Hal. cbn [Z.eqb negb]. rewrite ET, EM, EV in *. rewrite (u64_small (1 * PGSIZE)), (u64_small (va + 1 * PGSIZE)), u64_small by lia.
  replace ((va + 1 * PGSIZE - va) / PGSIZE) with 1 by zdm. change (Z.to_nat 1) with 1%nat.
  apply wp_loop_step. unfold uvmunmap_body at 1. rewrite (proj2 (Z.ltb_lt va _)) by lia.
  apply wp_bind. eapply wp_ok; [apply walk_noalloc; rewrite EV; lia|].
  rewrite (proj2 (Z.eqb_neq _ 0)) by done. unfold load. wp_steps. rewrite Hld, Hv. cbn [negb]. rewrite leaf_flags by lia.
  rewrite (proj2 (Z.eqb_neq _ PTE_V)) by (apply leaf_not_table; lia).
  apply wp_bind, wp_when_false; [done|]. unfold store, upd_mem. wp_steps. rewrite Hw.
  destruct (vm_set_pte Avail s F pt D va p 0) as [Hst Hlk']; [apply Hok|done|rewrite EV; lia|done|].
  set (s' := upd_k_mem _ s) in *. rewrite u64_small by lia.
  apply wp_loop_step. unfold uvmunmap_body. rewrite (proj2 (Z.ltb_ge (va + PGSIZE) _)) by lia. apply wp_ret.
  split; [|split].
  - destruct Hok as [Hvm Hmap Hdom Hpage Hinj]. split; try done; [apply Hst|]. intros a Ha1 Ha2. rewrite Hlk' by (rewrite ?ET in *; lia).
    rewrite decide_False; [by apply Hmap|]. rewrite !PGROUNDDOWN_aligned by done. rewrite ET in *. lia.
  - eapply alloc_frame_mono; [|apply Hst]. unfold as_pages. clear. set_solver.
  - intros va' Hva'. rewrite Hlk' by lia. rewrite (PGROUNDDOWN_aligned va) by done. by case_decide.
Qed.

Lemma perm_values : Z.lor PTE_R PTE_W = 6 /\ Z.lor PTE_R PTE_X = 10.
Proof. done. Qed.

(** ** Lemmas: giving a page table back *)

Lemma proc_freepagetable_spec s F pt tf sz D U :
  proc_as s F pt tf sz D U -> 0 <= tf < 2 ^ 64 -> 0 <= trampoline < 2 ^ 64 ->
  wp (proc_freepagetable pt sz) (fun _ s' => Avail s' (as_pages F D U) /\ alloc_frame (as_pages F D U) s s') s.
Proof.
  intros [[Has Hsz Hdom] Hhigh] Htf Htr. pose proof tramp_values as (ET & EM & EV). destruct perm_values as [EW EX].
  unfold proc_freepagetable. apply wp_bind. eapply wp_mono.
  { apply (unmap_high s F pt D U TRAMPOLINE trampoline 10); [done|by right| |done|lia].
    rewrite Hhigh by (rewrite ET, EM; lia). unfold high_map. rewrite EX. done. }
  cbn beta. intros _ s1 (Has1 & Hfr1 & Hlk1). apply wp_bind. eapply wp_mono.
  { apply (unmap_high s1 F pt D U TRAPFRAME tf 6); [done|by left| |done|lia].
    rewrite Hlk1, Hhigh by (rewrite ET; lia). unfold high_map. rewrite EW. done. }
  cbn beta. intros _ s2 (Has2 & Hfr2 & Hlk2). eapply wp_mono.
  { apply (uvmfree_spec Avail s2 F pt D U sz); [done..|]. intros va Hva. rewrite Hlk2, Hlk1, Hhigh by done. unfold high_map. by repeat case_decide. }
  cbn beta. intros _ s3 [Ha Hf]. split; [done|]. eapply alloc_frame_trans; [|done]. by eapply alloc_frame_trans.
Qed.

(** ** Lemmas: a new page table *)

Lemma ld64_zero m a : (forall x, a <= x < a + 8 -> rd m x = 0) -> ld64 m a = 0.
Proof.
  intros Hz. rewrite (ld64_ext m ∅) by (intros x Hx; rewrite Hz by done; done). done.
Qed.

Lemma uvmcreate_spec s F :
  Avail s F ->
  wp uvmcreate (fun r s' => alloc_frame F s s' /\
    (r = 0 /\ Avail s' F \/
     r <> 0 /\ r ∈ F /\ as_ok Avail s' (F ∖ {[r]}) r {[[] := r]} ∅ /\ forall va, pt_lookup (k_mem s') r va = None)) s.
Proof.
  intros Ha. unfold uvmcreate. apply wp_bind. eapply wp_mono; [by apply pa_kalloc|]. cbn beta.
  intros r s1 [Hfr [[-> Ha1]|(Hr & Hin & Ha1)]]; [apply wp_ret; split; [done|by left]|].
  rewrite (proj2 (Z.eqb_neq r 0)) by done. unfold upd_mem. apply wp_bind, wp_modify, wp_ret.
  assert (Hp : page_ok r) by exact (pa_page _ _ _ Ha Hin). pose proof (pa_layout _ _ Ha) as Hlay.
  set (f := fun m : gmap Z Z => memset m r 0 PGSIZE).
  assert (Hout : forall x, ~ (r <= x < r + PGSIZE) -> rd (f (k_mem s1)) x = rd (k_mem s1) x).
  { intros x Hx. unfold f. by rewrite rd_memset, decide_False. }
  assert (Hz : forall i, 0 <= i < 512 -> ld64 (f (k_mem s1)) (r + 8 * i) = 0).
  { intros i Hi. apply ld64_zero. intros x Hx. unfold f. by rewrite rd_memset, decide_True by lia. }
  assert (Hm : mem_ok (f (k_mem s1))) by (unfold f; apply mem_ok_memset, (pa_mem _ _ Ha1)).
  clearbody f. assert (Ha2 : Avail (upd_k_mem f s1) (F ∖ {[r]})) by (apply (avail_write Avail _ _ r); [done|done|set_solver|done..]).
  assert (Hfr2 : alloc_frame F s1 (upd_k_mem f s1)) by by apply (frame_write _ _ r).
  assert (Em : k_mem (upd_k_mem f s1) = f (k_mem s1)) by by ksimpl. rewrite <-Em in Hz. set (s2 := upd_k_mem f s1) in *. clearbody s2.
  assert (Hd : dir_ok (k_mem s2) r {[[] := r]}).
  { split; [done|by intros q p [<- <-]%lookup_singleton_Some|by intros q q' p [<- _]%lookup_singleton_Some [<- _]%lookup_singleton_Some| |].
    - intros q i p [E _]%lookup_singleton_Some. by destruct q.
    - intros q p i [<- <-]%lookup_singleton_Some _ Hi. rewrite lookup_singleton_ne by done. by rewrite Hz. }
  assert (Hlk : forall va, pt_lookup (k_mem s2) r va = None).
  { intros va. rewrite (dir_lookup _ _ _ _ Hlay Hd). by rewrite lookup_singleton_ne. }
  split; [by eapply alloc_frame_trans|]. right. split_and!; [done|done| |done].
  split; try done. split; [done|done|].
  intros p' Hp' (q & [<- <-]%lookup_singleton_Some)%elem_of_dir_pages. set_solver.
Qed.

(** Mapping one of the two pages leaves the rest alone, also when it fails. *)
Lemma map_high s F pt D U va pa perm :
  as_ok Avail s F pt D U -> va = TRAPFRAME \/ va = TRAMPOLINE ->
  (forall x, va <= x < va + PGSIZE -> pt_lookup (k_mem s) pt x = None) ->
  0 <= pa -> pa + 2 * PGSIZE <= 2 ^ 64 -> 0 <= perm < 1024 ->
  wp (mappages pt va PGSIZE pa perm) (fun r s' => exists F' D', as_ok Avail s' F' pt D' U /\
    as_pages F' D' U = as_pages F D U /\ alloc_frame (as_pages F D U) s s' /\
    (r = 0 /\ (forall va', TRAPFRAME <= va' < 2 ^ 39 -> pt_lookup (k_mem s') pt va' =
       if decide (PGROUNDDOWN va' = va) then Some (leaf pa perm) else pt_lookup (k_mem s) pt va') \/
     r = -1 /\ forall va', TRAPFRAME <= va' < 2 ^ 39 -> pt_lookup (k_mem s') pt va' = pt_lookup (k_mem s) pt va')) s.
Proof.
  intros Hok Hva Hnone Hpa Hpa2 Hperm. pose proof tramp_values as (ET & EM & EV).
  assert (Hal : va mod PGSIZE = 0) by (destruct Hva as [-> | ->]; done).
  assert (Hr : TRAPFRAME <= va <= TRAMPOLINE) by (rewrite ET, EM in *; lia).
  rewrite ET, EM in *. change PGSIZE with 4096 in *.
  pose proof (PGROUNDDOWN_aligned va Hal) as Ea.
  assert (Ed : forall x, 0 <= x -> PGROUNDDOWN x = 4096 * (x / 4096)) by (intros x Hx; by apply PGROUNDDOWN_eq).
  eapply wp_mono.
  { apply (mappages_spec Avail s F pt D va 4096 pa perm); [apply Hok|lia|lia|rewrite EV; lia|lia|change PGSIZE with 4096; lia|done|by rewrite Ea]. }
  cbn beta zeta. rewrite Ea. intros r s' (F' & D' & n & Hst & Hmap & Hret). exists F', D'. change PGSIZE with 4096 in *. rewrite Ed in Hret by lia.
  assert (Hlow : forall x, 0 <= x < va -> pt_lookup (k_mem s') pt x = pt_lookup (k_mem s) pt x).
  { intros x Hx. rewrite Hmap, decide_False by lia. done. }
  destruct Hok as [Hvm Hm Hdom Hpage Hinj]. destruct Hst as [Hvm' Hpg Hsub Hfr]. split_and!.
  - split; try done; [intros x Hx Hx'; rewrite Hlow by (rewrite ?ET in *; lia); by apply Hm|].
    intros x y z Hu. rewrite Hpg. by eapply Hpage.
  - unfold as_pages. by rewrite Hpg.
  - eapply alloc_frame_mono; [|done]. unfold as_pages. clear. set_solver.
  - destruct Hret as [[-> Hn]|(-> & Hn & Hn')]; [left|right]; split; try done; intros x Hx; rewrite Hmap by lia.
    + rewrite Ed by lia. assert (n = 1) as -> by zdm. repeat case_decide; try done; [|zdm|zdm].
      do 2 f_equal. zdm.
    + rewrite decide_False; [done|]. assert (n = 0) as -> by zdm. lia.
Qed.

Lemma frame_procs F s s' : alloc_frame F s s' -> k_procs s' = k_procs s.
Proof. intros [Hr _]. unfold rest in Hr. by injection Hr. Qed.

Lemma upages_empty : upages ∅ = ∅.
Proof. done. Qed.

Lemma empty_dom va : va mod PGSIZE = 0 -> is_Some ((∅ : gmap Z (Z * Z)) !! va) <-> 0 <= va < PGROUNDUP 0.
Proof. intros _. change (PGROUNDUP 0) with 0. rewrite lookup_empty. split; [by intros []|lia]. Qed.

(** The pages of a table that has only its root. *)
Lemma root_pages (F : gset Z) pt : pt ∈ F -> as_pages (F ∖ {[pt]}) {[[] := pt]} ∅ = F.
Proof.
  intros Hin. unfold as_pages. replace (dir_pages {[[] := pt]}) with ({[pt]} : gset Z).
  - rewrite upages_empty. apply set_eq. intros x. destruct (decide (x = pt)); set_solver.
  - apply set_eq. intros x. rewrite elem_of_dir_pages. split; [intros ->%elem_of_singleton; by exists []|].
    intros (q & [_ <-]%lookup_singleton_Some). by apply elem_of_singleton.
Qed.

(** uvmfree() of a table without mappings. *)
Lemma free_table s F pt D :
  as_ok Avail s F pt D ∅ -> (forall va, TRAPFRAME <= va < 2 ^ 39 -> pt_lookup (k_mem s) pt va = None) ->
  wp (uvmfree pt 0) (fun _ s' => Avail s' (as_pages F D ∅) /\ alloc_frame (as_pages F D ∅) s s') s.
Proof.
  intros Has Hno. apply uvmfree_spec; [done..|split; [done|]|apply empty_dom|done].
  change TRAPFRAME with 274877898752. lia.
Qed.

(** proc_pagetable() makes the table of a process without user memory, or gives back
    what it took. *)
Lemma proc_pagetable_spec s F p pp :
  Avail s F -> k_procs s !! p = Some pp -> 0 <= p_trapframe pp -> p_trapframe pp + 2 * PGSIZE <= 2 ^ 64 ->
  0 <= trampoline -> trampoline + 2 * PGSIZE <= 2 ^ 64 ->
  wp (proc_pagetable p) (fun r s' => alloc_frame F s s' /\
    (r = 0 /\ Avail s' F \/
     r <> 0 /\ exists F' D, proc_as s' F' r (p_trapframe pp) 0 D ∅ /\ as_pages F' D ∅ = F)) s.
Proof.
  intros Ha Hp Htf Htf2 Htr Htr2. unfold proc_pagetable. pose proof tramp_values as (ET & EM & EV). destruct perm_values as [EW EX].
  apply wp_bind. eapply wp_mono; [by apply uvmcreate_spec|]. cbn beta.
  intros pt s1 [Hfr1 [[-> Ha1]|(Hpt & Hin & Has1 & Hno1)]]; [apply wp_ret; split; [done|by left]|].
  rewrite (proj2 (Z.eqb_neq pt 0)) by done.
  pose proof (root_pages _ _ Hin) as Epg.
  apply wp_bind. eapply wp_mono.
  { apply (map_high s1 (F ∖ {[pt]}) pt {[[] := pt]} ∅ TRAMPOLINE trampoline 10); [done|by right|intros; apply Hno1|done|done|lia]. }
  cbn beta. rewrite Epg. intros r s2 (F2 & D2 & Has2 & E2 & Hfr2 & [[-> Hl2]|[-> Hl2]]); cbn [Z.ltb Z.compare].
  2:{ eapply wp_bind, wp_mono; [eapply free_table; [done|intros va Hva; by rewrite Hl2]|]. cbn beta. rewrite E2. intros _ s3 [Ha3 Hfr3].
    apply wp_ret. split; [|by left]. eapply alloc_frame_trans; [done|by eapply alloc_frame_trans]. }
  apply wp_bind. eapply wp_get_entry.
  { rewrite (frame_procs _ _ _ Hfr2), (frame_procs _ _ _ Hfr1). exact Hp. }
  apply wp_bind. eapply wp_mono.
  { apply (map_high s2 F2 pt D2 ∅ TRAPFRAME (p_trapframe pp) 6); [done|by left| |done|done|lia].
    intros x Hx. rewrite Hl2, decide_False by (rewrite ?PGROUNDDOWN_eq, ?ET, ?EM in *; change PGSIZE with 4096 in *; zdm). apply Hno1. }
  cbn beta. rewrite E2. intros r s3 (F3 & D3 & Has3 & E3 & Hfr3 & [[-> Hl3]|[-> Hl3]]); cbn [Z.ltb Z.compare].
  - apply wp_ret. split; [eapply alloc_frame_trans; [done|by eapply alloc_frame_trans]|]. right. split; [done|]. exists F3, D3.
    split; [|done]. split; [split; [done|rewrite ET; lia|apply empty_dom]|]. intros va Hva. rewrite Hl3, Hl2, Hno1 by done. done.
  - apply wp_bind. eapply wp_mono.
    { apply (unmap_high s3 F3 pt D3 ∅ TRAMPOLINE trampoline 10); [done|by right| |lia|lia].
      rewrite Hl3, Hl2 by (rewrite ET, EM; lia). by rewrite PGROUNDDOWN_aligned, decide_True. }
    cbn beta. rewrite E3. intros _ s4 (Has4 & Hfr4 & Hl4). eapply wp_bind, wp_mono.
    { eapply free_table; [done|]. intros va Hva. rewrite Hl4, Hl3, Hl2, Hno1 by done. by case_decide. }
    cbn beta. rewrite E3. intros _ s5 [Ha5 Hfr5]. apply wp_ret. split; [|by left].
    do 3 (eapply alloc_frame_trans; [done|]). by eapply alloc_frame_trans.
Qed.

(** ** Lemmas: growproc() *)

Lemma upd_procs_id f s : f (k_procs s) = k_procs s -> upd_k_procs f s = s.
Proof. destruct s. unfold upd_k_procs. cbn. by intros ->. Qed.

Lemma alter_sz p pp (l : list proc) : l !! p = Some pp -> alter (upd_p_sz (fun _ => p_sz pp)) p l = l.
Proof.
  intros Hp. apply list_eq. intros j. destruct (decide (p = j)) as [<-|Hne]; [|by rewrite list_lookup_alter_ne].
  rewrite list_lookup_alter_eq, Hp. by destruct pp.
Qed.

(** The address space stays when the process table changes. *)
Lemma as_ok_procs f s F pt D U : as_ok Avail s F pt D U -> as_ok Avail (upd_k_procs f s) F pt D U.
Proof. intros Hok. eapply as_ok_frame; [done..|by ksync]. Qed.

Lemma PGROUNDUP_le a b : 0 <= a <= b -> b + PGSIZE < 2 ^ 64 -> PGROUNDUP a <= PGROUNDUP b.
Proof.
  intros Ha Hb. change PGSIZE with 4096 in Hb. rewrite !PGROUNDUP_eq by lia.
  apply Z.mul_le_mono_nonneg_l, Z.div_le_mono; lia.
Qed.

(** What uvmalloc() does to the user memory. *)
Lemma grow_step s F pt sz D U n :
  user_as s F pt sz D U -> 0 < n -> sz + n <= TRAPFRAME ->
  wp (uvmalloc pt sz (sz + n) PTE_W) (fun r s' => exists F' D' U', as_step Avail pt s F D U s' F' D' U' /\
    resized (k_mem s') U U' /\
    (r = sz + n /\ user_as s' F' pt (sz + n) D' U' \/ r = 0 /\ user_as s' F' pt sz D' U')) s.
Proof.
  intros [Has Hsz Hdom] Hn Hmax. eapply wp_mono.
  { apply (uvmalloc_spec Avail s F pt D U sz (sz + n) PTE_W); [done|lia|done|done|].
    intros va Hva. destruct (U !! va) as [x|] eqn:E; [|done]. destruct (as_dom _ _ _ _ _ _ Has _ _ E) as [Hal _].
    assert (0 <= va < PGROUNDUP sz) by (apply Hdom; [done|by rewrite E]). lia. }
  cbn beta zeta. intros r s' (F' & D' & U' & k & Hst & Hret). exists F', D', U'. split; [done|].
  destruct Hret as [(-> & Hg & Hk)|[-> ->]].
  2:{ split; [|right; split; [done|by split; [apply Hst| |]]]. intros va pa perm Hu. by left. }
  change TRAPFRAME with 274877898752 in *. split.
  - intros va pa perm Hu. specialize (Hg va). case_decide as Hd; [|left; congruence]. right.
    destruct Hg as (pa' & Hu' & Hz). rewrite Hu in Hu'. injection Hu' as <- ->. split; [|done].
    destruct (U !! va) as [x|] eqn:E; [|done]. destruct Hd as [Hal Hin]. unfold in_pages in Hin.
    assert (0 <= va < PGROUNDUP sz) by (apply Hdom; [done|by rewrite E]). lia.
  - left. split; [done|]. split; [apply Hst|change TRAPFRAME with 274877898752; lia|]. intros va Hal. specialize (Hg va). unfold in_pages in Hg.
    destruct (PGROUNDUP_spec sz) as [B1 B2]; [lia|]. destruct (PGROUNDUP_spec (sz + n)) as [B3 B4]; [lia|].
    pose proof (PGROUNDUP_le sz (sz + n) ltac:(lia) ltac:(change PGSIZE with 4096; lia)) as Hle.
    assert (Ek : PGROUNDUP sz + PGSIZE * k = PGROUNDUP (sz + n)) by (change PGSIZE with 4096 in *; zdm).
    case_decide as Hd; [|rewrite Hg, Hdom by done; lia].
    destruct Hg as (pa & -> & _). split; [lia|done].
Qed.

(** What uvmdealloc() does to it. *)
Lemma shrink_step s F pt sz D U n :
  user_as s F pt sz D U -> 0 <= n <= sz ->
  wp (uvmdealloc pt sz n) (fun r s' => exists F' U', as_step Avail pt s F D U s' F' D U' /\
    resized (k_mem s') U U' /\ r = n /\ user_as s' F' pt n D U') s.
Proof.
  intros [Has Hsz Hdom] Hn. change TRAPFRAME with 274877898752 in *.
  destruct (PGROUNDUP_spec sz) as [B1 B2]; [lia|]. destruct (PGROUNDUP_spec n) as [B3 B4]; [lia|].
  pose proof (PGROUNDUP_le n sz ltac:(lia) ltac:(change PGSIZE with 4096; lia)) as Hle.
  eapply wp_mono.
  { apply (uvmdealloc_spec Avail s F pt D U sz n); [done|lia|change TRAPFRAME with 274877898752; lia|].
    intros a Hal Ha. apply Hdom; [done|lia]. }
  cbn beta. intros r s' (F' & Hret). exists F'. destruct (Z.leb_spec sz n) as [Hge|Hlt].
  - destruct Hret as [-> Hst]. replace n with sz by lia. exists U. split; [done|]. split; [intros va pa perm Hu; by left|].
    split; [done|]. by split; [apply Hst| |].
  - destruct Hret as [-> Hst]. eexists _. split; [done|]. split; [|split; [done|]].
    + intros va pa perm. rewrite lookup_cut. case_decide; [done|by left].
    + split; [apply Hst|change TRAPFRAME with 274877898752; lia|]. intros va Hal. rewrite lookup_cut. unfold in_pages.
      case_decide as Hd; [split; [by intros []|change PGSIZE with 4096 in *; zdm]|].
      rewrite Hdom by done. change PGSIZE with 4096 in *. zdm.
Qed.

Lemma PGROUNDUP_nonneg n : 0 <= PGROUNDUP n.
Proof. unfold PGROUNDUP. apply Z.land_nonneg. left. apply u64_range. Qed.

(** A shrink by more than the size wraps around and leaves the memory as it is. *)
Lemma shrink_wrap s F pt sz D U n :
  user_as s F pt sz D U -> 2 ^ 63 <= n < 2 ^ 64 ->
  wp (uvmdealloc pt sz n) (fun r s' => exists F', as_step Avail pt s F D U s' F' D U /\ r = sz) s.
Proof.
  intros [Has Hsz Hdom] Hn. eapply wp_mono.
  { apply (uvmdealloc_spec Avail s F pt D U sz n); [done|lia|done|].
    intros a Hal Ha. apply Hdom; [done|]. pose proof (PGROUNDUP_nonneg n). lia. }
  cbn beta. change TRAPFRAME with 274877898752 in *. rewrite (proj2 (Z.leb_le sz n)) by lia.
  intros r s' (F' & -> & Hst). by exists F'.
Qed.

Lemma rest_others s s' : others s = others s' -> rest s = rest s'.
Proof. unfold others, rest. intros E. injection E. intros. congruence. Qed.

Lemma as_step_keq pt s s0 F D U s' F' D' U' :
  s0 ≡ s -> as_step Avail pt s0 F D U s' F' D' U' -> as_step Avail pt s F D U s' F' D' U'.
Proof.
  intros E [A1 A2 A3 A4 A5 A6]. split; try done.
  - destruct A4 as (B1 & B2 & B3). split; [|split].
    + rewrite B1. by apply rest_others, keq_others.
    + by rewrite B2, (keq_sync _ _ E).
    + intros x Hx. by rewrite B3, (keq_k_mem _ _ E).
  - intros va pa pm pm' H1 H2 x Hx. by rewrite (A5 va pa pm pm'), (keq_k_mem _ _ E).
  - intros va Hva. by rewrite A6, (keq_k_mem _ _ E).
Qed.

Lemma user_as_keq s s0 F pt sz D U : s0 ≡ s -> user_as s F pt sz D U -> user_as s0 F pt sz D U.
Proof.
  intros E [A1 A2 A3]. split; [|done|done].
  apply (as_ok_frame Avail s); [done|apply (keq_k_mem _ _ E)|apply (keq_k_freelist _ _ E)|apply (keq_sync _ _ E)].
Qed.

(** The assignment of p->sz that ends growproc(). *)
Lemma grow_done s s1 p pt F D U F' D' U' sz' r (Q : Z -> Z -> Prop) :
  as_step Avail pt s F D U s1 F' D' U' -> user_as s1 F' pt sz' D' U' -> resized (k_mem s1) U U' -> Q r sz' ->
  wp (upd_proc p (upd_p_sz (fun _ => sz'));; mret r) (fun r' s' => exists s1 F' D' U' sz',
    s' = upd_k_procs (alter (upd_p_sz (fun _ => sz')) p) s1 /\ as_step Avail pt s F D U s1 F' D' U' /\
    user_as s' F' pt sz' D' U' /\ resized (k_mem s') U U' /\ Q r' sz') s1.
Proof.
  intros Hst Hu Hr HQ. unfold upd_proc. wp_steps. exists s1, F', D', U', sz'. split_and!; try done.
  destruct Hu as [Has Hsz Hdom]. split; [|done|done]. by apply as_ok_procs.
Qed.

(** ** Properties *)

(** C26: growproc(n) keeps the memory of the process well formed.  It returns 0 with the
    size changed by n, or -1 with the size unchanged when a growth finds no memory; pages
    are mapped exactly below the new size, pages that stay keep frame, permissions and
    contents, new ones are zeroed and user-writable, the frames add up, and the pages above
    the user memory stay mapped as they were.  A shrink by more than the size wraps around:
    it returns 0 and changes nothing. *)
Theorem growproc_correct s F p pp D U n :
  sync_ok s -> c_proc (k_cpu s) = Some p -> k_procs s !! p = Some pp ->
  user_as s F (p_pagetable pp) (p_sz pp) D U -> -2 ^ 31 <= n < 2 ^ 31 -> p_sz pp + n <= TRAPFRAME ->
  wp (growproc n) (fun r s' => exists s1 F' D' U' sz',
    s' = upd_k_procs (alter (upd_p_sz (fun _ => sz')) p) s1 /\
    as_step Avail (p_pagetable pp) s F D U s1 F' D' U' /\
    user_as s' F' (p_pagetable pp) sz' D' U' /\ resized (k_mem s') U U' /\
    (r = 0 /\ sz' = (if p_sz pp + n <? 0 then p_sz pp else p_sz pp + n) \/ r = -1 /\ 0 < n /\ sz' = p_sz pp)) s.
Proof.
  intros Hs Hc Hp Hu Hn Hmax. unfold growproc. apply wp_bind, (wp_curproc s p); [done..|]. intros s0 E0.
  assert (Hu0 : user_as s0 F (p_pagetable pp) (p_sz pp) D U) by by eapply user_as_keq.
  pose proof (ps_sz _ _ _ _ _ _ Hu) as Hsz. rewrite <-(keq_k_procs _ _ E0) in Hp.
  apply wp_bind. eapply wp_get_entry; [done|]. change TRAPFRAME with 274877898752 in *.
  destruct (Z.ltb_spec 0 n) as [Hpos|Hneg].
  - rewrite u64_small by lia. eapply wp_bind, wp_mono; [by apply grow_step; [|lia|change TRAPFRAME with 274877898752; lia]|].
    cbn beta. intros r s1 (F' & D' & U' & Hst & Hre & [[-> Hu1]|[-> Hu1]]).
    + rewrite (proj2 (Z.eqb_neq _ 0)), (proj2 (Z.ltb_ge _ 0)) by lia. eapply grow_done; [by eapply as_step_keq|done|done|by left].
    + cbn [Z.eqb]. apply wp_ret. exists s1, F', D', U', (p_sz pp).
      rewrite <-(frame_procs _ _ _ (st_frame _ _ _ _ _ _ _ _ _ _ Hst)) in Hp.
      rewrite upd_procs_id by by apply alter_sz. split_and!; [done|by eapply as_step_keq|done|done|by right].
  - destruct (Z.ltb_spec n 0) as [Hlt|Hge].
    + destruct (Z.ltb_spec (p_sz pp + n) 0) as [Hw|Hw].
      * replace (u64 (p_sz pp + n)) with (p_sz pp + n + 2 ^ 64) by (unfold u64; zdm).
        eapply wp_bind, wp_mono; [by apply shrink_wrap; [|lia]|]. cbn beta. intros r s1 (F' & Hst & ->).
        eapply grow_done; [by eapply as_step_keq| |intros va pa pm Hua; by left|by left].
        destruct Hu0. by split; [apply Hst|..].
      * rewrite u64_small by lia. eapply wp_bind, wp_mono; [by apply shrink_step; [|lia]|]. cbn beta.
        intros r s1 (F' & U' & Hst & Hre & -> & Hu1). eapply grow_done; [by eapply as_step_keq|done|done|by left].
    + rewrite (proj2 (Z.ltb_ge _ 0)) by lia. eapply grow_done; [eapply as_step_keq; [done|apply as_step_refl, Hu0]|done|intros va pa pm Hua; by left|].
      left. split; [done|lia].
Qed.
End mem.

(** A process of one page, which runs. *)
Definition example_running : kstate := upd_k_procs (alter (upd_p_sz (fun _ => 4096)) 3%nat) example_piping.

#[local] Existing Instance example_platform.
#[local] Existing Instance free_page_allocator.

Lemma example_user_as : user_as Free example_running {[0x80900000]} 0x80a00000 4096 example_dir example_user.
Proof.
  split; [exact (as_ok_procs Free _ _ _ _ _ _ example_piping_as)|change TRAPFRAME with 274877898752; lia|].
  intros va Hal. change (PGROUNDUP 4096) with 4096. change PGSIZE with 4096 in Hal. split.
  - intros [x [-> _]%example_user_lookup]. lia.
  - intros Hva. assert (va = 0) as -> by zdm. by eexists.
Qed.

Lemma growproc_correct_witness :
  wp (growproc (-4096)) (fun r s' => r = 0 /\ p_sz <$> k_procs s' !! 3%nat = Some 0) example_running.
Proof.
  eapply wp_mono.
  - eapply (growproc_correct Free example_running {[0x80900000]} 3%nat _ example_dir example_user (-4096));
      [by split|done|reflexivity|exact example_user_as|lia|].
    change TRAPFRAME with 274877898752. by vm_compute.
  - cbn beta. intros r s' (s1 & F' & D' & U' & sz' & -> & Hst & _ & _ & [[-> ->]|(_ & ? & _)]); [|lia].
    split; [done|]. ksimpl. rewrite list_lookup_alter_eq, (frame_procs _ _ _ (st_frame _ _ _ _ _ _ _ _ _ _ Hst)). done.
Defined.

(** The table of a process without user memory: the trapframe is the page at 0x80a05000. *)
Definition example_tf : Z := 0x80a05000.

Definition example_proc_mem : gmap Z Z :=
  st64 (st64 (st64 (st64 ∅ (0x80a00000 + 8 * 255) (Z.lor (PA2PTE 0x80a01000) PTE_V))
    (0x80a01000 + 8 * 511) (Z.lor (PA2PTE 0x80a02000) PTE_V))
    (0x80a02000 + 8 * 510) (leaf example_tf (Z.lor PTE_R PTE_W)))
    (0x80a02000 + 8 * 511) (leaf trampoline (Z.lor PTE_R PTE_X)).

Definition example_proc_dir : gmap (list Z) Z :=
  <[[255; 511] := 0x80a02000]> (<[[255] := 0x80a01000]> {[[] := 0x80a00000]}).

Lemma example_proc_dir_lookup q p :
  example_proc_dir !! q = Some p ->
  q = [] /\ p = 0x80a00000 \/ q = [255] /\ p = 0x80a01000 \/ q = [255; 511] /\ p = 0x80a02000.
Proof.
  unfold example_proc_dir. rewrite !lookup_insert. repeat case_decide; try naive_solver.
  intros [<- <-]%lookup_singleton_Some. by left.
Qed.

(** The entries of the three pages, one by one. *)
Lemma example_proc_entries :
  Forall (fun i => (i <> 255 -> ld64 example_proc_mem (0x80a00000 + 8 * i) = 0) /\
                   (i <> 511 -> ld64 example_proc_mem (0x80a01000 + 8 * i) = 0) /\
                   (i < 510 -> ld64 example_proc_mem (0x80a02000 + 8 * i) = 0)) (seqZ 0 512).
Proof. apply (bool_decide_unpack _). by vm_compute. Qed.

Lemma example_proc_zero i : 0 <= i < 512 ->
  (i <> 255 -> ld64 example_proc_mem (0x80a00000 + 8 * i) = 0) /\
  (i <> 511 -> ld64 example_proc_mem (0x80a01000 + 8 * i) = 0) /\
  (i < 510 -> ld64 example_proc_mem (0x80a02000 + 8 * i) = 0).
Proof. intros Hi. apply (proj1 (Forall_forall _ _) example_proc_entries). apply elem_of_seqZ. lia. Qed.

Lemma example_proc_dir_ok : dir_ok example_proc_mem 0x80a00000 example_proc_dir.
Proof.
  split.
  - done.
  - intros q p [[_ ->]|[[_ ->]|[_ ->]]]%example_proc_dir_lookup; by vm_compute.
  - intros q q' p Hq Hq'. apply example_proc_dir_lookup in Hq, Hq'. naive_solver lia.
  - intros q i p [[E _]|[[E _]|[E _]]]%example_proc_dir_lookup.
    + by destruct q.
    + destruct q as [|? [|]]; simplify_eq/=. split; [by eexists|lia].
    + destruct q as [|? [|? [|]]]; simplify_eq/=. split; [by eexists|lia].
  - intros q p i Hq Hlen Hi. destruct (example_proc_zero i Hi) as (Z1 & Z2 & _).
    apply example_proc_dir_lookup in Hq as [[-> ->]|[[-> ->]|[-> ->]]]; [| |cbn in Hlen; lia]; cbn [app].
    + destruct (decide (i = 255)) as [->|Hne]; [by vm_compute|]. unfold example_proc_dir.
      rewrite !lookup_insert_ne, lookup_singleton_ne by congruence. by rewrite Z1.
    + destruct (decide (i = 511)) as [->|Hne]; [by vm_compute|]. unfold example_proc_dir.
      rewrite !lookup_insert_ne, lookup_singleton_ne by congruence. by rewrite Z2.
Qed.

Lemma example_proc_high va :
  TRAPFRAME <= va < 2 ^ 39 -> pt_lookup example_proc_mem 0x80a00000 va = high_map example_tf va.
Proof.
  intros Hva. rewrite (dir_lookup _ _ _ _ example_layout_ok example_proc_dir_ok). pose proof tramp_values as (ET & EM & EV).
  unfold high_map. rewrite ET, EM in *. rewrite PGROUNDDOWN_eq. unfold va_path. rewrite !PX_eq by lia.
  change (2 ^ (12 + 9 * 2)) with 1073741824. change (2 ^ (12 + 9 * 1)) with 2097152. change (2 ^ (12 + 9 * 0)) with 4096.
  destruct (decide (va < 274877906944)) as [Hlt|Hge].
  - replace ((va / 1073741824) mod 512) with 255 by zdm. replace ((va / 2097152) mod 512) with 511 by zdm.
    change (example_proc_dir !! [255; 511]) with (Some 0x80a02000). cbv iota.
    destruct (decide (va < 274877902848)).
    + rewrite decide_True by zdm. replace ((va / 4096) mod 512) with 510 by zdm. by vm_compute.
    + rewrite decide_False, decide_True by zdm. replace ((va / 4096) mod 512) with 511 by zdm. by vm_compute.
  - rewrite !decide_False by zdm. unfold example_proc_dir. assert ((va / 1073741824) mod 512 <> 255) by zdm.
    rewrite !lookup_insert_ne, lookup_singleton_ne by congruence. done.
Qed.

Lemma example_proc_low va : 0 <= va < TRAPFRAME -> pt_lookup example_proc_mem 0x80a00000 va = None.
Proof.
  intros Hva. rewrite (dir_lookup _ _ _ _ example_layout_ok example_proc_dir_ok). pose proof tramp_values as (ET & _ & _). rewrite ET in *.
  destruct (example_proc_dir !! va_path va) as [p|] eqn:E; [|done].
  apply example_proc_dir_lookup in E as [[E _]|[[E _]|[E ->]]]; try done. injection E as E2 E1.
  pose proof (PX_range 0 va ltac:(lia)) as Hr. destruct (example_proc_zero _ Hr) as (_ & _ & Z3). rewrite Z3; [done|].
  rewrite PX_eq in * by lia. change (2 ^ (12 + 9 * 2)) with 1073741824 in E2. change (2 ^ (12 + 9 * 1)) with 2097152 in E1.
  change (2 ^ (12 + 9 * 0)) with 4096. zdm.
Qed.

Definition example_proc_state : kstate := upd_k_mem (fun _ => example_proc_mem) example_one_page.

Lemma example_proc_as : proc_as Free example_proc_state {[0x80900000]} 0x80a00000 example_tf 0 example_proc_dir ∅.
Proof.
  split; [|exact example_proc_high]. split; [|change TRAPFRAME with 274877898752; lia|exact empty_dom].
  split; [| |done..].
  - split; [|exact example_proc_dir_ok|].
    + apply example_free_mem; [by repeat apply mem_ok_st64|]. intros x Hx. unfold example_proc_mem. rewrite !rd_st64_out by lia. done.
    + by apply (bool_decide_unpack _); vm_compute.
  - intros va _ Hva. rewrite lookup_empty. by apply example_proc_low.
Qed.
