(* ===== verification/ProcAlloc.v ===== *)
(** * Correctness of freeproc() and allocproc() (kernel/proc.c)

    An entry of the process table owns its trapframe page, the pages of its page table and
    its user pages.  freeproc() gives them back to the allocator and makes the entry unused;
    allocproc() takes an unused entry and fills it, or leaves no trace. *)

From Stdlib Require Import ZArith Lia.
From stdpp Require Import base tactics numbers gmap strings option list.
From S2P Require Import Prelude Kernel Spinlock Kstring Riscv Kalloc KallocInit Vm VmUser VmCopy VmFork VmProps Sched Proc PipeProps ProcMem.

(** ** Specification *)

(** The entry after freeproc(). *)
Definition freed (pp : proc) : proc :=
  upd_p_state (fun _ => UNUSED) (upd_p_xstate (fun _ => 0) (upd_p_killed (fun _ => 0)
    (upd_p_chan (fun _ => Ch_null) (upd_p_name (<[0%nat := 0]>) (upd_p_parent (fun _ => None)
      (upd_p_pid (fun _ => 0) (upd_p_sz (fun _ => 0) (upd_p_pagetable (fun _ => 0)
        (upd_p_trapframe (fun _ => 0) pp))))))))).

(** An entry that allocproc() filled. *)
Definition filled `{Platform} (pid tf pt : Z) (pp : proc) : proc :=
  upd_p_context (fun _ => mkContext addr_forkret (u64 (p_kstack pp + PGSIZE)) (replicate 12 0))
    (upd_p_pagetable (fun _ => pt) (upd_p_trapframe (fun _ => tf)
      (upd_p_state (fun _ => USED) (upd_p_pid (fun _ => pid) pp)))).

(** The state with another entry [p]. *)
Definition with_proc (p : nat) (pp : proc) (s : kstate) : kstate := upd_k_procs (<[p := pp]>) s.

(** What allocproc() relies on in an unused entry. *)
Definition unused_ok (pp : proc) : Prop := p_state pp = UNUSED -> p_pagetable pp = 0 /\ p_sz pp = 0.

(** The entry [p] is the first unused one. *)
Definition first_unused (s : kstate) (p : nat) (pp : proc) : Prop :=
  k_procs s !! p = Some pp /\ p_state pp = UNUSED /\
  forall j pj, (j < p)%nat -> k_procs s !! j = Some pj -> p_state pj <> UNUSED.

Section alloc.
Context `{Platform}.
Context (Avail : kstate -> gset Z -> Prop) `{!PageAllocator Avail}.
Context (Htramp : 0 <= trampoline /\ trampoline + 2 * PGSIZE <= 2 ^ 64).

(** The entry [pp] owns pages that make up [G] together with the free pages [F]: the
    trapframe, and the page table with the user memory, each if there is one. *)
Definition proc_owns (s : kstate) (F : gset Z) (pp : proc) (G : gset Z) : Prop :=
  exists G',
    (p_pagetable pp = 0 /\ Avail s F /\ G' = F \/
     p_pagetable pp <> 0 /\ exists D U, proc_as Avail s F (p_pagetable pp) (p_trapframe pp) (p_sz pp) D U /\ G' = as_pages F D U) /\
    (p_trapframe pp = 0 /\ G = G' \/
     p_trapframe pp <> 0 /\ page_ok (p_trapframe pp) /\ p_trapframe pp ∉ G' /\ G = G' ∪ {[p_trapframe pp]}).

(** ** Lemmas: frames *)

Lemma alloc_frame_procs G f s s' : alloc_frame G s s' -> alloc_frame G (upd_k_procs f s) (upd_k_procs f s').
Proof.
  intros (Hr & Hs & Hm). split; [|split; [by ksync|done]].
  unfold rest in *. ksimpl. injection Hr. intros. congruence.
Qed.

Lemma alloc_frame_keq G s s0 s' : s0 ≡ s -> alloc_frame G s0 s' -> alloc_frame G s s'.
Proof.
  intros E (Hr & Hs & Hm). split; [|split].
  - rewrite Hr. by apply rest_others, keq_others.
  - by rewrite Hs, (keq_sync _ _ E).
  - intros x Hx. by rewrite Hm, (keq_k_mem _ _ E).
Qed.

Lemma upd_procs_compose f g p s :
  upd_k_procs (alter f p) (upd_k_procs (alter g p) s) = upd_k_procs (alter (f ∘ g) p) s.
Proof.
  destruct s. unfold upd_k_procs. cbn. f_equal. apply list_eq. intros j. rewrite !list_lookup_alter.
  case_decide; [|done]. rewrite decide_True by done. by destruct (k_procs !! p).
Qed.

Lemma avail_procs f s F : Avail s F -> Avail (upd_k_procs f s) F.
Proof. intros Ha. apply (pa_frame s); [done|change (mem_ok (k_mem s)); by eapply pa_mem|by ksync|done|done]. Qed.

Lemma proc_as_procs f s F pt tf sz D U :
  proc_as Avail s F pt tf sz D U -> proc_as Avail (upd_k_procs f s) F pt tf sz D U.
Proof. intros [[] Hh]. split; [|done]. split; [by apply as_ok_procs|done|done]. Qed.

(** kfree() of a page outside the address space. *)
Lemma proc_as_kfree s s' F pt tf sz D U q :
  proc_as Avail s F pt tf sz D U -> page_ok q -> q ∉ as_pages F D U -> alloc_frame (F ∪ {[q]}) s s' -> Avail s' (F ∪ {[q]}) ->
  proc_as Avail s' (F ∪ {[q]}) pt tf sz D U.
Proof.
  intros [[Has Hsz Hdom] Hh] Hq Hn Hfr Ha. unfold as_pages in Hn.
  destruct (as_alloc Avail s s' F (F ∪ {[q]}) (F ∪ {[q]}) pt D U) as (Hok & Hlk & _); try done.
  - pose proof (vo_disj _ _ _ _ _ (as_vm _ _ _ _ _ _ Has)). set_solver.
  - pose proof (as_disj _ _ _ _ _ _ Has). set_solver.
  - intros p Hp. exact (pa_page _ _ _ Ha Hp).
  - split; [by split|]. intros va Hva. by rewrite Hlk, Hh.
Qed.

(** ** Lemmas: freeproc() *)

(** What is left to free after the trapframe. *)
Definition table_owns (s : kstate) (F : gset Z) (pp : proc) (G : gset Z) : Prop :=
  p_pagetable pp = 0 /\ Avail s F /\ G = F \/
  p_pagetable pp <> 0 /\ exists D U, proc_as Avail s F (p_pagetable pp) (p_trapframe pp) (p_sz pp) D U /\ G = as_pages F D U.

Lemma free_trapframe s F pp G :
  proc_owns s F pp G ->
  wp (when (negb (p_trapframe pp =? 0)) (kfree (p_trapframe pp))) (fun _ s1 => alloc_frame G s s1 /\ exists F1, table_owns s1 F1 pp G) s.
Proof.
  intros (G' & Hpt & [[-> ->]|(Hne & Hpg & Hn & ->)]).
  { apply wp_when_false; [done|]. split; [done|]. exists F. destruct Hpt as [(Hz & Ha & ->)|(Hz & D & U & Hps & ->)]; [by left|right; eauto]. }
  apply wp_when_true; [by apply negb_true_iff, Z.eqb_neq|].
  assert (Hfree : Avail s F /\ p_trapframe pp ∉ F /\ F ⊆ G').
  { destruct Hpt as [(Hz & Ha & ->)|(Hz & D & U & [[Has _ _] _] & ->)]; [done|].
    split; [apply Has|]. unfold as_pages in *. split; set_solver. }
  destruct Hfree as (Ha & Hn' & Hsub). eapply wp_mono; [by apply pa_kfree|]. cbn beta. intros _ s1 [Hfr Ha1].
  split; [eapply alloc_frame_mono; [|done]; set_solver|]. exists (F ∪ {[p_trapframe pp]}).
  destruct Hpt as [(Hz & _ & ->)|(Hz & D & U & Hps & ->)]; [by left|]. right. split; [done|]. exists D, U.
  split; [by eapply proc_as_kfree|]. unfold as_pages. set_solver.
Qed.

Lemma free_pagetable s F pp G :
  table_owns s F pp G -> 0 <= p_trapframe pp < 2 ^ 64 ->
  wp (when (negb (p_pagetable pp =? 0)) (proc_freepagetable (p_pagetable pp) (p_sz pp)))
    (fun _ s2 => Avail s2 G /\ alloc_frame G s s2) s.
Proof.
  intros [(-> & Ha & ->)|(Hne & D & U & Hps & ->)] Htf; [by apply wp_when_false|].
  apply wp_when_true; [by apply negb_true_iff, Z.eqb_neq|]. change PGSIZE with 4096 in Htramp.
  apply (proc_freepagetable_spec Avail s F _ (p_trapframe pp)); [done|done|lia].
Qed.

Lemma table_owns_procs f s F pp G : table_owns s F pp G -> table_owns (upd_k_procs f s) F pp G.
Proof.
  intros [(Hz & Ha & ->)|(Hne & D & U & Hps & ->)]; [left|right].
  - split_and!; [done|by apply avail_procs|done].
  - split; [done|]. exists D, U. split; [by apply proc_as_procs|done].
Qed.

Lemma owns_trapframe s F pp G : proc_owns s F pp G -> 0 <= p_trapframe pp < 2 ^ 64.
Proof.
  intros (G' & Hpt & [[-> _]|(_ & Hpg & _ & _)]); [lia|].
  assert (Hlay : layout_ok).
  { destruct Hpt as [(_ & Ha & _)|(_ & D & U & [[Has _ _] _] & _)]; [by eapply pa_layout|by eapply as_layout]. }
  pose proof (page_ok_range _ Hlay Hpg). lia.
Qed.

Lemma freeproc_spec s F p pp G :
  k_procs s !! p = Some pp -> proc_owns s F pp G ->
  wp (freeproc p) (fun _ s' => Avail s' G /\ alloc_frame G (upd_k_procs (alter freed p) s) s') s.
Proof.
  intros Hp How. pose proof (owns_trapframe _ _ _ _ How) as Htf. unfold freeproc, upd_proc.
  apply wp_bind. eapply wp_get_entry; [done|].
  apply wp_bind. eapply wp_mono; [by eapply free_trapframe|]. cbn beta. intros _ s1 (Hfr1 & F1 & Hs1).
  apply wp_bind, wp_modify, wp_bind. eapply wp_mono; [by eapply free_pagetable; [apply table_owns_procs|]|].
  cbn beta. intros _ s2 (Ha2 & Hfr2). wp_steps. rewrite !upd_procs_compose. split; [by apply avail_procs|].
  apply (alloc_frame_procs _ (alter (upd_p_trapframe (fun _ => 0)) p)) in Hfr1.
  assert (Hfr : alloc_frame G (upd_k_procs (alter (upd_p_trapframe (fun _ => 0)) p) s) s2) by by eapply alloc_frame_trans.
  eapply (alloc_frame_procs G (alter _ p)) in Hfr. rewrite upd_procs_compose in Hfr. exact Hfr.
Qed.

(** ** Lemmas: allocproc() *)

Lemma search_spec n i s s0 :
  sync_ok s -> (forall j, free (L_proc j) s) -> length (k_procs s) = 64%nat -> (i + n = 64)%nat -> s0 ≡ s ->
  (forall j pj, (j < i)%nat -> k_procs s !! j = Some pj -> p_state pj <> UNUSED) ->
  wp (loop (S n) allocproc_body i) (fun r s' => match r with
    | None => s' ≡ s /\ forall j pj, k_procs s !! j = Some pj -> p_state pj <> UNUSED
    | Some p => exists s1 pp, s1 ≡ s /\ s' = locked (L_proc p) s1 /\ first_unused s p pp
    end) s0.
Proof.
  intros Hs Hfree Hlen. revert i s0. induction n as [|n IH]; intros i s0 Hi E Hj; apply wp_loop_step; unfold allocproc_body at 1.
  { rewrite (proj2 (Nat.ltb_ge i 64)) by lia. apply wp_ret. split; [done|]. intros j pj Hl. apply (Hj j); [|done].
    apply lookup_lt_Some in Hl. lia. }
  rewrite (proj2 (Nat.ltb_lt i 64)) by lia.
  assert (Hs0 : sync_ok s0) by (eapply sync_sync_ok; [apply (keq_sync _ _ E)|done]).
  apply wp_bind, wp_acquire; [eapply sync_free; [apply (keq_sync _ _ E)|apply Hfree]|].
  destruct (lookup_lt_is_Some_2 (k_procs s) i) as [pp Hpp]; [lia|].
  apply wp_bind. eapply wp_get_entry; [kread; rewrite (keq_k_procs _ _ E); exact Hpp|].
  case_decide as Hu; [apply wp_ret; by exists s0, pp|].
  apply wp_bind, (wp_release (L_proc i) s0); [done|done|]. apply wp_ret. apply IH; [lia| |].
  - etrans; [|exact E]. by apply resync_keq.
  - intros j pj Hlt Hl. destruct (decide (j = i)) as [->|Hne]; [by simplify_eq|]. apply (Hj j); [lia|done].
Qed.

Lemma allocpid_spec s :
  sync_ok s -> free L_pid s ->
  wp allocpid (fun r s' => r = k_nextpid s /\ s' ≡ upd_k_nextpid (fun n => s32 (n + 1)) s) s.
Proof.
  intros Hs Hf. unfold allocpid. apply wp_bind, wp_acquire; [done|]. wp_steps.
  apply wp_bind, (wp_release L_pid s); [done|by ksync|]. apply wp_ret. split; [done|].
  apply resync_keq; [done|by ksync].
Qed.

Lemma avail_keq s s0 F : s0 ≡ s -> Avail s F -> Avail s0 F.
Proof.
  intros E Ha. apply (pa_frame s); [done| |apply (keq_sync _ _ E)|apply (keq_k_freelist _ _ E)|].
  - rewrite (keq_k_mem _ _ E). by eapply pa_mem.
  - intros x _. by rewrite (keq_k_mem _ _ E).
Qed.

Lemma avail_nextpid f s F : Avail s F -> Avail (upd_k_nextpid f s) F.
Proof. intros Ha. apply (pa_frame s); [done|change (mem_ok (k_mem s)); by eapply pa_mem|by ksync|done|done]. Qed.

Lemma avail_locked lk s F :
  Avail s F -> sync_ok s -> lk <> L_kmem -> (forall i, lk <> L_hart i) -> Avail (locked lk s) F.
Proof.
  intros Ha Hs H1 H2. apply (pa_sync s); [done|done|by apply sync_ok_locked|done|..].
  - intros Hf. by apply free_locked.
  - intros i Hf. by apply free_locked.
Qed.

(** The frame through an update of the entry. *)
Lemma frame_alter G f p pp T s :
  (p < length (k_procs T))%nat -> alloc_frame G (with_proc p pp T) s ->
  alloc_frame G (with_proc p (f pp) T) (upd_k_procs (alter f p) s).
Proof.
  intros Hp Hfr. replace (with_proc p (f pp) T) with (upd_k_procs (alter f p) (with_proc p pp T)); [by apply alloc_frame_procs|].
  destruct T. unfold with_proc, upd_k_procs. cbn in *. f_equal. apply list_eq. intros j. rewrite list_lookup_alter, !list_lookup_insert.
  repeat case_decide; naive_solver.
Qed.

Lemma frame_proc G p pp T s :
  (p < length (k_procs T))%nat -> alloc_frame G (with_proc p pp T) s -> k_procs s !! p = Some pp.
Proof.
  intros Hp Hfr. rewrite (frame_procs _ _ _ Hfr). unfold with_proc. ksimpl. by apply list_lookup_insert_eq.
Qed.

Lemma with_proc_keq p pp g s0 s :
  s0 ≡ s -> with_proc p pp (upd_k_nextpid g s0) ≡ with_proc p pp (upd_k_nextpid g s).
Proof. intros E. unfold with_proc. by rewrite E. Qed.

Lemma locked_keq lk s0 s : s0 ≡ s -> locked lk s0 ≡ locked lk s.
Proof.
  intros [Es Eo]. split; [|exact Eo]. unfold sync, settle, sie in *. injection Es as E1 E2 E3 E4 E5.
  unfold locked, pushed, sie. ksimpl. rewrite E1, E2, E5. unfold sie. ksimpl. rewrite E1 in *. by rewrite E4, E3.
Qed.

Lemma alter_with_proc f p pp s : k_procs s !! p = Some pp -> upd_k_procs (alter f p) s = with_proc p (f pp) s.
Proof.
  destruct s. unfold with_proc, upd_k_procs. cbn. intros Hp. f_equal. apply list_eq. intros j.
  destruct (decide (p = j)) as [<-|Hne]; [|by rewrite list_lookup_alter_ne, list_lookup_insert_ne].
  rewrite list_lookup_alter_eq, Hp, list_lookup_insert_eq; [done|]. by eapply lookup_lt_Some.
Qed.

Lemma with_proc_id p pp s : k_procs s !! p = Some pp -> with_proc p pp s = s.
Proof. intros Hp. unfold with_proc. apply upd_procs_id. by apply list_insert_id. Qed.

(** allocproc()'s release(&p->lock) on failure. *)
Lemma fail_release s s0 G p pp g s1 Q :
  sync_ok s -> s0 ≡ s -> alloc_frame G (with_proc p pp (upd_k_nextpid g (locked (L_proc p) s0))) s1 -> Avail s1 G ->
  (forall s', alloc_frame G (with_proc p pp (upd_k_nextpid g s)) s' -> Avail s' G -> Q tt s') ->
  wp (release (L_proc p)) Q s1.
Proof.
  intros Hs E (Hr & Hy & Hm) Ha HQ.
  assert (Hs0 : sync_ok s0) by (eapply sync_sync_ok; [apply (keq_sync _ _ E)|done]).
  assert (Hy1 : sync s1 = sync (locked (L_proc p) s0)) by (rewrite Hy; unfold with_proc; by ksync).
  apply (wp_release (L_proc p) s0); [done..|]. apply HQ.
  - split; [|split].
    + change (rest (resync s0 s1)) with (rest s1). rewrite Hr. apply rest_others.
      exact (keq_others _ _ (with_proc_keq p pp g s0 s E)).
    + rewrite sync_resync, (keq_sync _ _ E). unfold with_proc. by ksync.
    + intros x Hx. change (k_mem (resync s0 s1)) with (k_mem s1). rewrite Hm by done. exact (f_equal (fun m => rd m x) (keq_k_mem _ _ E)).
  - assert (El : k_locks s1 = k_locks (locked (L_proc p) s0)) by (unfold sync in Hy1; congruence).
    apply (pa_sync s1); [done|done|eapply sync_sync_ok; [apply sync_resync|done]| |..].
    + unfold sync in Hy1. change (r_tp (k_csr s0) = r_tp (k_csr s1)). replace (k_csr s1) with (k_csr (locked (L_proc p) s0)) by congruence. done.
    + unfold free. rewrite El. done.
    + intros i. unfold free. rewrite El. done.
Qed.

(** The failure paths of allocproc(). *)
Lemma fail_spec s s0 F F' p pp pq g s1 :
  sync_ok s -> s0 ≡ s -> (p < length (k_procs s))%nat -> freed pq = freed pp -> proc_owns s1 F' pq F ->
  alloc_frame F (with_proc p pq (upd_k_nextpid g (locked (L_proc p) s0))) s1 ->
  wp (freeproc p;; release (L_proc p);; mret None)
    (fun (r : option nat) s' => r = None /\ Avail s' F /\ alloc_frame F (with_proc p (freed pp) (upd_k_nextpid g s)) s') s1.
Proof.
  intros Hs E Hlt Hfd How Hfr. set (T := upd_k_nextpid g (locked (L_proc p) s0)) in *.
  assert (HT : (p < length (k_procs T))%nat) by (change (k_procs T) with (k_procs s0); by rewrite (keq_k_procs _ _ E)).
  apply wp_bind. eapply wp_mono; [eapply freeproc_spec; [by eapply frame_proc|done]|].
  cbn beta. intros _ s4 [Ha4 Hfr4]. apply wp_bind. eapply (fail_release s s0); [done|done| |done|].
  { eapply alloc_frame_trans; [|exact Hfr4]. by apply (frame_alter _ freed). }
  rewrite Hfd. intros s5 Hfr5 Ha5. by apply wp_ret.
Qed.

(** The end of allocproc(): the page table and the context. *)
Lemma fill_spec s s0 F p pp tf g s1 pid :
  sync_ok s -> s0 ≡ s -> (p < length (k_procs s))%nat -> p_pagetable pp = 0 -> p_sz pp = 0 ->
  tf ∈ F -> tf <> 0 -> page_ok tf -> Avail s1 (F ∖ {[tf]}) ->
  let pu := upd_p_trapframe (fun _ => tf) (upd_p_state (fun _ => USED) (upd_p_pid (fun _ => pid) pp)) in
  alloc_frame F (with_proc p pu (upd_k_nextpid g (locked (L_proc p) s0))) s1 ->
  wp (pt ← proc_pagetable p;
      upd_proc p (upd_p_pagetable (fun _ => pt));;
      if pt =? 0 then freeproc p;; release (L_proc p);; mret None
      else
        pp ← get_proc p;
        upd_proc p (upd_p_context (fun _ => mkContext addr_forkret (u64 (p_kstack pp + PGSIZE)) (replicate 12 0)));;
        mret (Some p))
    (fun r s' => match r with
     | Some p' => p' = p /\ exists pt F', pt <> 0 /\ proc_owns s' F' (filled pid tf pt pp) F /\
         alloc_frame F (with_proc p (filled pid tf pt pp) (upd_k_nextpid g (locked (L_proc p) s))) s'
     | None => Avail s' F /\ alloc_frame F (with_proc p (freed pp) (upd_k_nextpid g s)) s'
     end) s1.
Proof.
  intros Hs E Hlt Hpt Hsz Hin Htf Hpg Ha pu Hfr. set (T := upd_k_nextpid g (locked (L_proc p) s0)) in *.
  assert (HT : (p < length (k_procs T))%nat) by (unfold T; kread; by rewrite (keq_k_procs _ _ E)).
  pose proof (pa_layout _ _ Ha) as Hlay. pose proof (page_ok_range _ Hlay Hpg) as Hrng.
  apply wp_bind. eapply wp_mono.
  { apply (proc_pagetable_spec Avail s1 (F ∖ {[tf]}) p pu); [done|by eapply frame_proc|cbn; lia|cbn; lia|lia|lia]. }
  cbn beta. intros pt s2 [Hfr2 Hret]. apply wp_bind, wp_modify.
  assert (Hfr2' : alloc_frame F (with_proc p pu T) s2).
  { eapply alloc_frame_trans; [done|]. eapply alloc_frame_mono; [|done]. set_solver. }
  apply (frame_alter _ (upd_p_pagetable (fun _ => pt))) in Hfr2'; [|done].
  set (s3 := upd_k_procs _ s2) in *. pose proof (frame_proc _ _ _ _ _ HT Hfr2') as Hp3.
  assert (EF : F ∖ {[tf]} ∪ {[tf]} = F).
  { apply set_eq. intros x. destruct (decide (x = tf)); set_solver. }
  destruct Hret as [[-> Ha2]|(Hne & F' & D & Hps & Epg)].
  - cbn [Z.eqb]. eapply wp_mono; [eapply (fail_spec s s0 F (F ∖ {[tf]})); [done|done|done| | |exact Hfr2']|].
    + by destruct pp.
    + exists (F ∖ {[tf]}). split; [left; split_and!; [done|by apply avail_procs|done]|].
      right. split_and!; [done|done|cbn; set_solver|symmetry; exact EF].
    + cbn beta. by intros r s4 (-> & Ha4 & Hfr4).
  - rewrite (proj2 (Z.eqb_neq pt 0)) by done. apply wp_bind. eapply wp_get_entry; [exact Hp3|].
    unfold upd_proc. wp_steps. split; [done|]. exists pt, F'. split; [done|]. split.
    + exists (F ∖ {[tf]}). split.
      * right. split; [done|]. exists D, ∅. split; [|done]. cbn. rewrite Hsz. do 2 apply proc_as_procs. exact Hps.
      * right. split_and!; [done|done|cbn; set_solver|symmetry; exact EF].
    + eapply alloc_frame_keq; [|by apply (frame_alter _ (upd_p_context (fun _ => mkContext addr_forkret (u64 (p_kstack pp + PGSIZE)) (replicate 12 0))))].
      unfold T, with_proc. by rewrite (locked_keq (L_proc p) s0 s E).
Qed.

Lemma allocproc_spec s F :
  sync_ok s -> (forall i, free (L_proc i) s) -> free L_pid s -> length (k_procs s) = 64%nat ->
  Forall unused_ok (k_procs s) -> Avail s F ->
  let next := upd_k_nextpid (fun n => s32 (n + 1)) in
  wp allocproc (fun r s' => match r with
    | Some p => exists pp tf pt F', first_unused s p pp /\ tf ∈ F /\ pt <> 0 /\
        proc_owns s' F' (filled (k_nextpid s) tf pt pp) F /\
        alloc_frame F (with_proc p (filled (k_nextpid s) tf pt pp) (next (locked (L_proc p) s))) s'
    | None => Avail s' F /\
        (s' ≡ s /\ (forall j pj, k_procs s !! j = Some pj -> p_state pj <> UNUSED) \/
         exists p pp, first_unused s p pp /\ alloc_frame F (with_proc p (freed pp) (next s)) s')
    end) s.
Proof.
  intros Hs Hfree Hpid Hlen Hun Ha next. unfold allocproc. apply wp_bind. eapply wp_mono; [apply (search_spec 64 0 s s); [done..|intros; lia]|].
  cbn beta. intros [p|] s1; [|intros [E Hnone]; apply wp_ret; split; [by eapply avail_keq|by left]].
  intros (s0 & pp & E & -> & Hfu). pose proof Hfu as (Hp & Hst & _).
  destruct (Forall_lookup_1 _ _ _ _ Hun Hp Hst) as [Hpt Hsz]. pose proof (lookup_lt_Some _ _ _ Hp) as Hlt.
  assert (Hs0 : sync_ok s0) by (eapply sync_sync_ok; [apply (keq_sync _ _ E)|done]).
  apply wp_bind. eapply wp_mono.
  { apply allocpid_spec; [by apply sync_ok_locked|]. apply free_locked; [done|]. eapply sync_free; [apply (keq_sync _ _ E)|done]. }
  cbn beta. intros pid s2 [-> E2]. change (k_nextpid (locked (L_proc p) s0)) with (k_nextpid s0). rewrite (keq_k_nextpid _ _ E).
  fold next in E2. set (T := next (locked (L_proc p) s0)) in *.
  assert (HT : (p < length (k_procs T))%nat) by (change (k_procs T) with (k_procs s0); by rewrite (keq_k_procs _ _ E)).
  assert (Ha2 : Avail s2 F).
  { eapply avail_keq; [done|]. apply (avail_nextpid _ _ _). apply avail_locked; [by eapply avail_keq|done..]. }
  assert (Hp2 : k_procs T !! p = Some pp) by (change (k_procs T) with (k_procs s0); by rewrite (keq_k_procs _ _ E)).
  assert (Hfr2 : alloc_frame F (with_proc p pp T) s2).
  { rewrite (with_proc_id _ _ _ Hp2). by eapply alloc_frame_keq. }
  unfold upd_proc at 1 2. apply wp_bind, wp_modify, wp_bind, wp_modify.
  apply (frame_alter _ (upd_p_pid (fun _ => k_nextpid s))) in Hfr2; [|done].
  apply (frame_alter _ (upd_p_state (fun _ => USED))) in Hfr2; [|done].
  set (s3 := upd_k_procs _ (upd_k_procs _ s2)) in *.
  assert (Ha3 : Avail s3 F) by by do 2 apply avail_procs.
  apply wp_bind. eapply wp_mono; [by apply pa_kalloc|]. cbn beta. intros tf s4 [Hfr4 Hret].
  unfold upd_proc at 1. apply wp_bind, wp_modify.
  assert (Hfr : alloc_frame F (with_proc p (upd_p_state (fun _ => USED) (upd_p_pid (fun _ => k_nextpid s) pp)) T) s4) by by eapply alloc_frame_trans.
  apply (frame_alter _ (upd_p_trapframe (fun _ => tf))) in Hfr; [|done].
  destruct Hret as [[-> Ha4]|(Hne & Hin & Ha4)].
  - cbn [Z.eqb]. eapply wp_mono; [eapply (fail_spec s s0 F F); [done|done|done| | |exact Hfr]|].
    + by destruct pp.
    + exists F. split; [left; split_and!; [done|by apply avail_procs|done]|by left].
    + cbn beta. intros r s5 (-> & Ha5 & Hfr5). split; [done|]. right. by exists p, pp.
  - rewrite (proj2 (Z.eqb_neq tf 0)) by done. eapply wp_mono.
    { eapply (fill_spec s s0 F p pp tf _ _ (k_nextpid s)); try done; [exact (pa_page _ _ _ Ha3 Hin)|by apply avail_procs]. }
    cbn beta. intros [p'|] s5.
    + intros (-> & pt & F' & H1 & H2 & H3). exists pp, tf, pt, F'. done.
    + intros [H1 H2]. split; [done|]. right. by exists p, pp.
Qed.

(** ** Properties *)

(** C25: freeproc() gives every page that the entry owns back to the allocator: the
    trapframe, the user memory and the pages of the page table, none twice and none left
    out.  It changes no other page and no other entry, and the entry is unused afterwards,
    with the fields allocproc() relies on reset. *)
Theorem freeproc_correct s F p pp G :
  k_procs s !! p = Some pp -> proc_owns s F pp G ->
  wp (freeproc p) (fun _ s' => Avail s' G /\ alloc_frame G (with_proc p (freed pp) s) s' /\ unused_ok (freed pp)) s.
Proof.
  intros Hp How. eapply wp_mono; [by eapply freeproc_spec|]. cbn beta. intros _ s' [Ha Hfr]. split_and!; [done| |done].
  by rewrite (alter_with_proc freed p pp s Hp) in Hfr.
Qed.

(** C24: allocproc() takes the first unused entry, gives it the next process number, a
    trapframe page and a page table with trampoline and trapframe and no user memory, the
    context that makes it start in forkret(), and returns with its lock held; the free
    pages and those of the entry add up.  Otherwise it returns 0 with all its pages given
    back and all locks as before: nothing changed when every entry is in use, and when
    memory ran out the entry is unused again. *)
Theorem allocproc_correct s F :
  sync_ok s -> (forall i, free (L_proc i) s) -> free L_pid s -> length (k_procs s) = 64%nat ->
  Forall unused_ok (k_procs s) -> Avail s F ->
  let next := upd_k_nextpid (fun n => s32 (n + 1)) in
  wp allocproc (fun r s' => match r with
    | Some p => exists pp tf pt F', first_unused s p pp /\ tf ∈ F /\ pt <> 0 /\
        proc_owns s' F' (filled (k_nextpid s) tf pt pp) F /\
        alloc_frame F (with_proc p (filled (k_nextpid s) tf pt pp) (next (locked (L_proc p) s))) s'
    | None => Avail s' F /\
        (s' ≡ s /\ (forall j pj, k_procs s !! j = Some pj -> p_state pj <> UNUSED) \/
         exists p pp, first_unused s p pp /\ alloc_frame F (with_proc p (freed pp) (next s)) s')
    end) s.
Proof. exact (allocproc_spec s F). Qed.
End alloc.

#[local] Existing Instance example_platform.
#[local] Existing Instance free_page_allocator.

Lemma example_tramp : 0 <= trampoline /\ trampoline + 2 * PGSIZE <= 2 ^ 64.
Proof. by vm_compute. Qed.

Lemma example_free : Free example_one_page {[0x80900000]}.
Proof. exact (example_free_mem ∅ mem_ok_empty (fun _ _ => eq_refl)). Qed.

(** An entry that owns a trapframe and a page table of three pages. *)
Definition example_entry : proc :=
  upd_p_pagetable (fun _ => 0x80a00000) (upd_p_trapframe (fun _ => example_tf) (upd_p_state (fun _ => USED) zero_proc)).

Definition example_owned : gset Z := {[0x80900000; 0x80a00000; 0x80a01000; 0x80a02000; example_tf]}.

Lemma example_owns : proc_owns Free (with_proc 2 example_entry example_proc_state) {[0x80900000]} example_entry example_owned.
Proof.
  exists {[0x80900000; 0x80a00000; 0x80a01000; 0x80a02000]}. split.
  - right. split; [done|]. exists example_proc_dir, ∅. split; [|by vm_compute]. exact (proc_as_procs Free _ _ _ _ _ _ _ _ example_proc_as).
  - right. split_and!; [done|by vm_compute|by apply (bool_decide_unpack _); vm_compute|by vm_compute].
Qed.

Lemma freeproc_correct_witness :
  wp (freeproc 2) (fun _ s' => Free s' example_owned /\ p_state <$> k_procs s' !! 2%nat = Some UNUSED)
    (with_proc 2 example_entry example_proc_state).
Proof.
  eapply wp_mono.
  - exact (freeproc_correct Free example_tramp (with_proc 2 example_entry example_proc_state) {[0x80900000]} 2 example_entry example_owned eq_refl example_owns).
  - cbn beta. intros _ s' (Ha & Hfr & _). split; [exact Ha|]. rewrite (frame_procs _ _ _ Hfr). reflexivity.
Defined.

Lemma allocproc_correct_witness :
  wp allocproc (fun r s' => r = None \/ r = Some 0%nat) example_one_page.
Proof.
  eapply wp_mono.
  - apply (allocproc_correct Free example_tramp example_one_page {[0x80900000]});
      [by split|done|done|done| |exact example_free].
    apply Forall_replicate. done.
  - cbn beta. intros [p|] s' Hr; [right|by left]. destruct Hr as (pp & tf & pt & F' & (_ & _ & Hf) & _).
    destruct p as [|p]; [done|]. exfalso. exact (Hf 0%nat zero_proc ltac:(lia) eq_refl eq_refl).
Defined.
