(* ===== verification/ProcFork.v ===== *)
(** * Correctness of fork() (kernel/proc.c)

    The child has a copy of the parent's memory, its registers with a0 = 0, its open files
    and its directory, each with one more reference, and is runnable; the parent is
    unchanged.  When there is no entry or no memory, fork() leaves no trace but an unused
    process number. *)

From Stdlib Require Import ZArith Lia.
From stdpp Require Import base tactics numbers gmap strings option list.
From S2P Require Import Prelude Bytes Kernel Spinlock Kstring Riscv Kalloc KallocInit Vm VmUser VmCopy VmFork VmProps Sched.
From S2P Require Import Fs File Proc PipeProps ProcMem ProcAlloc.

(** ** Specification *)

(** One more reference to each open file. *)
Definition dup_file (o : option nat) (t : list file) : list file :=
  match o with Some f => alter (upd_f_ref (fun n => n + 1)) f t | None => t end.

Definition dup_files (fs : list (option nat)) (t : list file) : list file := foldl (fun t o => dup_file o t) t fs.

(** The open files are files. *)
Definition files_ok (fs : list (option nat)) (t : list file) : Prop :=
  forall i f, fs !! i = Some (Some f) -> exists ff, t !! f = Some ff /\ 1 <= f_ref ff.

(** The child of the process [p] with entry [pp], in an entry that allocproc() filled. *)
Definition child_of (p : nat) (pp np : proc) : proc :=
  upd_p_state (fun _ => RUNNABLE) (upd_p_parent (fun _ => Some p) (upd_p_name (safestrcpy_bytes 16 (p_name pp))
    (upd_p_cwd (fun _ => p_cwd pp) (upd_p_ofile (fun _ => p_ofile pp) (upd_p_sz (fun _ => p_sz pp) np))))).

Section fork.
Context `{Platform}.

(** ** Lemmas: references *)

Lemma filedup_spec s f ff :
  sync_ok s -> free L_ftable s -> k_ftable s !! f = Some ff -> 1 <= f_ref ff ->
  wp (filedup f) (fun r s' => r = f /\ s' ≡ upd_k_ftable (dup_file (Some f)) s) s.
Proof.
  intros Hs Hf Hff Hr. unfold filedup, upd_file. apply wp_bind, wp_acquire; [done|].
  apply wp_bind. eapply wp_get_entry; [exact Hff|]. rewrite (proj2 (Z.ltb_ge _ 1)) by lia.
  apply wp_bind, wp_modify, wp_bind, (wp_release L_ftable s); [done|by ksync|]. apply wp_ret. split; [done|].
  apply resync_keq; [done|by ksync].
Qed.

Lemma idup_spec s ip :
  sync_ok s -> free L_itable s -> wp (idup ip) (fun r s' => r = ip /\ s' ≡ upd_k_itable (alter (upd_i_ref (fun n => n + 1)) ip) s) s.
Proof.
  intros Hs Hf. unfold idup, upd_inode. apply wp_bind, wp_acquire; [done|].
  apply wp_bind, wp_modify, wp_bind, (wp_release L_itable s); [done|by ksync|]. apply wp_ret. split; [done|].
  apply resync_keq; [done|by ksync].
Qed.

Lemma files_ok_dup fs o t : files_ok fs t -> files_ok fs (dup_file o t).
Proof.
  intros Hf i f Hi. destruct (Hf i f Hi) as (ff & Hff & Hr). destruct o as [g|]; cbn [dup_file]; [|eauto].
  destruct (decide (g = f)) as [->|Hne].
  - exists (upd_f_ref (fun n => n + 1) ff). rewrite list_lookup_alter_eq, Hff. split; [done|]. cbn. lia.
  - exists ff. by rewrite list_lookup_alter_ne.
Qed.

Lemma dup_files_ok l fs t : files_ok fs t -> files_ok fs (dup_files l t).
Proof. revert t. induction l as [|o l IH]; intros t Hf; [done|]. apply IH. by apply files_ok_dup. Qed.

(** ** Lemmas: the copies of the open files *)

(** The state while the open files are copied: [k] of them are. *)
Definition duping (np : nat) (nq : proc) (fs : list (option nat)) (k : nat) (s : kstate) : kstate :=
  with_proc np (upd_p_ofile (fun _ => take k fs ++ replicate (16 - k) None) nq) (upd_k_ftable (dup_files (take k fs)) s).

(** The loop over the open files *)
Definition dup_body (p np i : nat) : K unit :=
  pp ← get_proc p;
  match nth i (p_ofile pp) None with
  | Some f => f ← filedup f; upd_proc np (upd_p_ofile (<[i := Some f]>))
  | None => mret tt
  end.

Lemma duping_ofile (fs : list (option nat)) k o :
  (k < 16)%nat -> fs !! k = Some o -> take (S k) fs ++ replicate (16 - S k) None = <[k := o]> (take k fs ++ replicate (16 - k) None).
Proof.
  intros Hk Ho. pose proof (lookup_lt_Some _ _ _ Ho) as Hl. rewrite (take_S_r _ _ _ Ho), <-app_assoc.
  replace (16 - k)%nat with (S (16 - S k)) by lia. cbn [replicate].
  rewrite insert_app_r_alt by (rewrite length_take; lia). rewrite length_take, Nat.min_l, Nat.sub_diag by lia. done.
Qed.

Lemma dup_step s s1 p pp np nq k :
  sync_ok s -> free L_ftable s -> k_procs s !! p = Some pp -> (np < length (k_procs s))%nat -> p <> np ->
  length (p_ofile pp) = 16%nat -> files_ok (p_ofile pp) (k_ftable s) -> (k < 16)%nat -> s1 ≡ duping np nq (p_ofile pp) k s ->
  wp (dup_body p np k) (fun _ s' => s' ≡ duping np nq (p_ofile pp) (S k) s) s1.
Proof.
  intros Hs Hf Hp Hnp Hne Hlen Hok Hk E. unfold dup_body.
  assert (Hp1 : k_procs s1 !! p = Some pp).
  { rewrite (keq_k_procs _ _ E). unfold duping, with_proc. ksimpl. by rewrite list_lookup_insert_ne. }
  assert (Hft : k_ftable s1 = dup_files (take k (p_ofile pp)) (k_ftable s)) by by rewrite (keq_k_ftable _ _ E).
  assert (Hy : sync s1 = sync s) by (rewrite (keq_sync _ _ E); unfold duping, with_proc; by ksync).
  apply wp_bind. eapply wp_get_entry; [exact Hp1|].
  destruct (lookup_lt_is_Some_2 (p_ofile pp) k) as [o Ho]; [lia|]. rewrite (nth_lookup_Some _ _ _ _ Ho).
  assert (Ed : dup_files (take (S k) (p_ofile pp)) (k_ftable s) = dup_file o (dup_files (take k (p_ofile pp)) (k_ftable s))).
  { unfold dup_files. by rewrite (take_S_r _ _ _ Ho), foldl_app. }
  assert (Eo : duping np nq (p_ofile pp) (S k) s =
    upd_k_procs (alter (upd_p_ofile (<[k := o]>)) np) (upd_k_ftable (dup_file o) (duping np nq (p_ofile pp) k s))).
  { unfold duping, with_proc. rewrite (upd_k_ftable_ext _ (fun t => dup_file o (dup_files (take k (p_ofile pp)) t)) s Ed), (duping_ofile _ _ _ Hk Ho).
    set (q := upd_p_ofile _ nq). set (q' := upd_p_ofile (fun _ => take k _ ++ _) nq).
    apply (upd_k_procs_ext (<[np := q]>) (fun l => alter (upd_p_ofile (<[k := o]>)) np (<[np := q']> l))
      (upd_k_ftable (fun t => dup_file o (dup_files (take k (p_ofile pp)) t)) s)).
    apply list_eq. intros j. rewrite list_lookup_alter, !list_lookup_insert. repeat case_decide; naive_solver. }
  rewrite Eo. destruct o as [f|].
  - destruct (Hok k f Ho) as (ff & Hff & Hr).
    destruct (dup_files_ok (take k (p_ofile pp)) (p_ofile pp) (k_ftable s) Hok k f Ho) as (ff' & Hff' & Hr').
    apply wp_bind. eapply wp_mono; [apply (filedup_spec s1 f ff')|].
    + by eapply sync_sync_ok.
    + by eapply sync_free.
    + by rewrite Hft.
    + done.
    + cbn beta. intros r s2 [-> E2]. unfold upd_proc. apply wp_modify. by rewrite E2, E.
  - apply wp_ret. rewrite E, <-Eo. unfold duping. rewrite (duping_ofile _ _ _ Hk Ho), list_insert_id.
    + rewrite (upd_k_ftable_ext _ _ s Ed). done.
    + rewrite lookup_app_r by (rewrite length_take; lia). rewrite length_take, Nat.min_l by lia. apply lookup_replicate_2. lia.
Qed.

Lemma dup_loop s p pp np nq :
  sync_ok s -> free L_ftable s -> k_procs s !! p = Some pp -> k_procs s !! np = Some nq -> p <> np ->
  length (p_ofile pp) = 16%nat -> p_ofile nq = replicate 16 None -> files_ok (p_ofile pp) (k_ftable s) ->
  wp (for_each (seq 0 16) (dup_body p np))
    (fun _ s' => s' ≡ with_proc np (upd_p_ofile (fun _ => p_ofile pp) nq) (upd_k_ftable (dup_files (p_ofile pp)) s)) s.
Proof.
  intros Hs Hf Hp Hnp Hne Hlen Hno Hok. pose proof (lookup_lt_Some _ _ _ Hnp) as Hlt.
  assert (Hg : forall n k s1, (k + n = 16)%nat -> s1 ≡ duping np nq (p_ofile pp) k s ->
    wp (for_each (seq k n) (dup_body p np)) (fun _ s' => s' ≡ duping np nq (p_ofile pp) 16 s) s1).
  { induction n as [|n IH]; intros k s1 Hk E; cbn [seq for_each].
    - apply wp_ret. by assert (k = 16%nat) as -> by lia.
    - apply wp_bind. eapply wp_mono; [by apply (dup_step s s1 p pp np nq k); [..|lia|]|]. cbn beta. intros _ s2 E2. apply IH; [lia|done]. }
  eapply wp_mono; [apply (Hg 16%nat 0%nat s); [done|]|].
  - unfold duping. change (take 0 (p_ofile pp) ++ replicate (16 - 0) None) with (replicate 16 (@None nat)). rewrite <-Hno.
    replace (upd_p_ofile (fun _ => p_ofile nq) nq) with nq by by destruct nq. rewrite with_proc_id by done. by destruct s.
  - cbn beta. intros _ s' E. rewrite E. unfold duping. rewrite take_ge by lia. change (replicate (16 - 16) None) with (@nil (option nat)). by rewrite app_nil_r.
Qed.

(** ** Lemmas: the child becomes runnable *)

Lemma with_proc_alter np f q s : upd_k_procs (alter f np) (with_proc np q s) = with_proc np (f q) s.
Proof.
  unfold with_proc. apply (upd_k_procs_ext (fun l => alter f np (<[np := q]> l)) (<[np := f q]>) s).
  apply list_eq. intros j. destruct (decide (np = j)) as [->|Hne]; [|by rewrite list_lookup_alter_ne, !list_lookup_insert_ne].
  rewrite list_lookup_alter_eq. destruct (decide (j < length (k_procs s))%nat); [by rewrite !list_lookup_insert_eq|].
  by rewrite !list_insert_ge, lookup_ge_None_2 by lia.
Qed.

(** An assignment to a field of an entry under a lock. *)
Lemma locked_update {A} lk i f (k : K A) Q s :
  sync_ok s -> free lk s -> (forall s', s' ≡ upd_k_procs (alter f i) s -> wp k Q s') ->
  wp (acquire lk;; upd_proc i f;; release lk;; k) Q s.
Proof.
  intros Hs Hf Hk. apply wp_bind, wp_acquire; [done|]. unfold upd_proc. apply wp_bind, wp_modify, wp_bind, (wp_release lk s); [done|by ksync|].
  apply Hk. apply resync_keq; [done|by ksync].
Qed.

(** The tables after fork(). *)
Definition forked (p : nat) (pp : proc) (np : nat) (nq : proc) (c : nat) (s : kstate) : kstate :=
  with_proc np (child_of p pp nq) (upd_k_itable (alter (upd_i_ref (fun n => n + 1)) c) (upd_k_ftable (dup_files (p_ofile pp)) s)).

(** The end of fork(): the child's files, directory, name, parent and state *)
Definition fork_end (p : nat) (pp : proc) (np : nat) : K Z :=
  for_each (seq 0 16) (dup_body p np);;
  cwd ← deref (p_cwd pp);
  cwd ← idup cwd;
  upd_proc np (upd_p_cwd (fun _ => Some cwd));;
  upd_proc np (upd_p_name (safestrcpy_bytes 16 (p_name pp)));;
  npp ← get_proc np;
  let pid := p_pid npp in
  release (L_proc np);;
  acquire L_wait;;
  upd_proc np (upd_p_parent (fun _ => Some p));;
  release L_wait;;
  acquire (L_proc np);;
  upd_proc np (upd_p_state (fun _ => RUNNABLE));;
  release (L_proc np);;
  mret pid.

Lemma rest_procs f s s' : rest s = rest s' -> rest (upd_k_procs f s) = rest (upd_k_procs f s').
Proof. intros Hr. unfold rest in *. ksimpl. injection Hr. intros. congruence. Qed.

Lemma rest_itable f s s' : rest s = rest s' -> rest (upd_k_itable f s) = rest (upd_k_itable f s').
Proof. intros Hr. unfold rest in *. ksimpl. injection Hr. intros. congruence. Qed.

Lemma rest_ftable f s s' : rest s = rest s' -> rest (upd_k_ftable f s) = rest (upd_k_ftable f s').
Proof. intros Hr. unfold rest in *. ksimpl. injection Hr. intros. congruence. Qed.

Lemma rest_forked p pp np nq c s s' : rest s = rest s' -> rest (forked p pp np nq c s) = rest (forked p pp np nq c s').
Proof. intros Hr. by apply rest_procs, rest_itable, rest_ftable. Qed.

Lemma forked_with_proc p pp np nq q c s : forked p pp np nq c (with_proc np q s) = forked p pp np nq c s.
Proof.
  unfold forked, with_proc. set (f := alter _ c). set (g := dup_files _).
  apply (upd_k_procs_ext (fun l => <[np := child_of p pp nq]> (<[np := q]> l)) (<[np := child_of p pp nq]>) (upd_k_itable f (upd_k_ftable g s))).
  apply list_insert_insert_eq.
Qed.

Lemma fork_tail s s3 p pp np nq c :
  sync_ok s -> free (L_proc np) s -> free L_wait s -> free L_ftable s -> free L_itable s ->
  sync s3 = sync (locked (L_proc np) s) -> k_procs s3 !! p = Some pp -> k_procs s3 !! np = Some nq -> p <> np ->
  length (p_ofile pp) = 16%nat -> p_ofile nq = replicate 16 None -> files_ok (p_ofile pp) (k_ftable s3) ->
  p_sz nq = p_sz pp -> p_cwd pp = Some c ->
  wp (fork_end p pp np)
    (fun r s' => r = p_pid nq /\ s' ≡ forked p pp np nq c (resync s s3)) s3.
Proof.
  intros Hs Hfp Hfw Hff Hfi Hy Hp Hnp Hne Hlen Hno Hok Hsz Hc. unfold fork_end.
  assert (Hs3 : sync_ok s3) by (eapply sync_sync_ok; [exact Hy|by apply sync_ok_locked]).
  assert (Hl : forall lk, lk <> L_proc np -> free lk s -> free lk s3).
  { intros lk Hlk Hf. eapply sync_free; [exact Hy|by apply free_locked]. }
  apply wp_bind. eapply wp_mono; [apply (dup_loop s3 p pp np nq); try done; by apply Hl|]. cbn beta. intros _ s4 E4.
  rewrite Hc. cbn [deref]. apply wp_bind, wp_ret, wp_bind.
  assert (Hy4 : sync s4 = sync s3) by (rewrite (keq_sync _ _ E4); unfold with_proc; by ksync).
  eapply wp_mono; [apply (idup_spec s4 c); [by eapply sync_sync_ok|eapply sync_free; [exact Hy4|by apply Hl]]|]. cbn beta. intros r s5 [-> E5].
  unfold upd_proc at 1 2. apply wp_bind, wp_modify, wp_bind, wp_modify. set (s6 := upd_k_procs _ (upd_k_procs _ s5)).
  set (Z := upd_k_itable (alter (upd_i_ref (fun n => n + 1)) c) (upd_k_ftable (dup_files (p_ofile pp)) s3)).
  set (q3 := upd_p_name (safestrcpy_bytes 16 (p_name pp)) (upd_p_cwd (fun _ => Some c) (upd_p_ofile (fun _ => p_ofile pp) nq))).
  assert (E6 : s6 ≡ with_proc np q3 Z).
  { unfold s6. rewrite E5, E4. unfold q3, Z. rewrite <-!with_proc_alter. reflexivity. }
  apply wp_bind. eapply wp_get_entry.
  { rewrite (keq_k_procs _ _ E6). unfold with_proc. ksimpl. apply list_lookup_insert_eq. by eapply lookup_lt_Some. }
  change (p_pid q3) with (p_pid nq). cbv zeta.
  apply wp_bind, (wp_release (L_proc np) s); [done|rewrite (keq_sync _ _ E6); unfold with_proc, Z; by ksync|].
  set (Y := upd_k_itable (alter (upd_i_ref (fun n => n + 1)) c) (upd_k_ftable (dup_files (p_ofile pp)) (resync s s3))).
  assert (E7 : resync s s6 ≡ with_proc np q3 Y).
  { split; [rewrite sync_resync; unfold with_proc, Y; by ksync|]. exact (keq_others _ _ E6). }
  assert (Hy7 : sync (resync s s6) = sync s) by apply sync_resync.
  apply locked_update; [by eapply sync_sync_ok|by eapply sync_free|]. intros s8 E8.
  assert (Hy8 : sync s8 = sync s) by (rewrite (keq_sync _ _ E8); by ksync).
  apply locked_update; [by eapply sync_sync_ok|by eapply sync_free|]. intros s9 E9. apply wp_ret. split; [done|].
  rewrite E9, E8, E7. unfold forked. fold Y. rewrite !with_proc_alter. unfold q3, child_of. rewrite Hc.
  replace (upd_p_sz (fun _ => p_sz pp) nq) with nq; [done|]. rewrite <-Hsz. by destruct nq.
Qed.
End fork.

(** The trap frame of the child: that of the parent, but fork() returns 0. *)
Definition tf_copied (m m' : gmap Z Z) (tf tf' : Z) : Prop :=
  ld64 m' (tf' + TF_a0) = 0 /\
  forall i, 0 <= i < TF_SIZE -> ~ (TF_a0 <= i < TF_a0 + 8) -> rd m' (tf' + i) = rd m (tf + i).

Section memory.
Context `{Platform}.
Context (Avail : kstate -> gset Z -> Prop) `{!PageAllocator Avail}.

(** ** Lemmas: memory *)

(** A lock is released. *)
Lemma avail_release lk s s3 F :
  sync_ok s -> sync s3 = sync (locked lk s) -> lk <> L_kmem -> (forall i, lk <> L_hart i) -> Avail s3 F -> Avail (resync s s3) F.
Proof.
  intros Hs Hy H1 H2 Ha. assert (El : k_locks s3 = k_locks (locked lk s)) by (unfold sync in Hy; congruence).
  apply (pa_sync s3); [done|done|eapply sync_sync_ok; [apply sync_resync|done]| |..].
  - unfold sync in Hy. change (r_tp (k_csr s) = r_tp (k_csr s3)). replace (k_csr s3) with (k_csr (locked lk s)) by congruence. done.
  - unfold free. rewrite El. cbn. by rewrite decide_False.
  - intros i. unfold free. rewrite El. cbn. by rewrite decide_False.
Qed.

(** The memory of a process while the allocator works on other pages. *)
Lemma proc_as_alloc s s' F F' G pt tf sz D U :
  proc_as Avail s F pt tf sz D U -> Avail s' F' -> alloc_frame G s s' -> G ## dir_pages D -> G ## upages U -> F' ⊆ G ->
  (forall p, p ∈ G -> page_ok p) ->
  proc_as Avail s' F' pt tf sz D U /\ forall p x, p ∈ upages U -> p <= x < p + PGSIZE -> rd (k_mem s') x = rd (k_mem s) x.
Proof.
  intros [[Has Hsz Hdom] Hh] Ha Hfr H1 H2 Hsub Hpg.
  destruct (as_alloc Avail s s' F F' G pt D U Has Ha Hfr H1 H2 Hsub Hpg) as (Has' & Hlk & Hrd).
  split; [|done]. split; [by split|]. intros va Hva. by rewrite Hlk, Hh.
Qed.

Lemma proc_as_disj s F pt tf sz D U : proc_as Avail s F pt tf sz D U -> F ## dir_pages D /\ F ## upages U.
Proof.
  intros [[Has _ _] _]. split; [exact (vo_disj _ _ _ _ _ (as_vm _ _ _ _ _ _ Has))|]. pose proof (as_disj _ _ _ _ _ _ Has). set_solver.
Qed.

Lemma proc_as_move s s' F pt tf sz D U :
  proc_as Avail s F pt tf sz D U -> k_mem s' = k_mem s -> Avail s' F -> proc_as Avail s' F pt tf sz D U.
Proof.
  intros [[Has Hsz Hdom] Hh] E Ha. split; [split; [by eapply as_ok_move|done|done]|]. by rewrite E.
Qed.

(** The child's trap frame is written. *)
Lemma write_trapframe s F tf tf' :
  Avail s F -> page_ok tf -> page_ok tf' -> tf <> tf' -> tf' ∉ F ->
  let f m := st64 (memmove m tf' tf TF_SIZE) (tf' + TF_a0) 0 in
  Avail (upd_k_mem f s) F /\ alloc_frame (F ∪ {[tf']}) s (upd_k_mem f s) /\ tf_copied (k_mem s) (k_mem (upd_k_mem f s)) tf tf'.
Proof.
  intros Ha Hp Hp' Hne Hn f. pose proof (pa_mem _ _ Ha) as Hm. pose proof (pa_layout _ _ Ha) as Hlay.
  assert (Hf : forall x, rd (f (k_mem s)) x = if decide (tf' + TF_a0 <= x < tf' + TF_a0 + 8) then rd (f (k_mem s)) x
                         else if decide (tf' <= x < tf' + TF_SIZE) then rd (k_mem s) (tf + (x - tf')) else rd (k_mem s) x).
  { intros x. case_decide; [done|]. unfold f. rewrite rd_st64_out by lia. by apply rd_memmove. }
  assert (Hout : forall x, ~ (tf' <= x < tf' + PGSIZE) -> rd (f (k_mem s)) x = rd (k_mem s) x).
  { intros x Hx. rewrite Hf. unfold TF_a0, TF_SIZE. change PGSIZE with 4096 in Hx. by rewrite !decide_False by lia. }
  assert (Hok : mem_ok (f (k_mem s))) by (apply mem_ok_st64, mem_ok_memmove; [done|by compute]).
  split; [by apply (avail_write Avail _ _ tf')|]. split; [apply (frame_write _ _ tf'); [set_solver|done]|]. split.
  - change (k_mem (upd_k_mem f s)) with (f (k_mem s)). unfold f. by rewrite ld64_st64.
  - intros i Hi Hi'. change (k_mem (upd_k_mem f s)) with (f (k_mem s)). rewrite Hf, decide_False, decide_True by lia. f_equal. lia.
Qed.

(** ** Lemmas: the pages of the child *)

Lemma filled_owns s F' F pid tf pt np :
  proc_owns Avail s F' (filled pid tf pt np) F -> pt <> 0 -> tf <> 0 -> p_sz np = 0 ->
  exists Dn, proc_as Avail s F' pt tf 0 Dn ∅ /\ tf ∉ as_pages F' Dn ∅ /\ F = as_pages F' Dn ∅ ∪ {[tf]} /\ page_ok tf.
Proof.
  intros (G & Hpt & Htf) Hpt0 Htf0 Hsz. destruct Htf as [[Ez _]|(_ & Hpg & Hn & ->)]; [by destruct (Htf0 Ez)|].
  destruct Hpt as [(Ez & _)|(_ & Dn & Un & Hps & ->)]; [by destruct (Hpt0 Ez)|].
  change (p_sz (filled pid tf pt np)) with (p_sz np) in Hps. rewrite Hsz in Hps.
  assert (Un = ∅) as ->; [|by exists Dn].
  apply map_empty. intros va. destruct Hps as [[Has _ Hdom] _]. destruct (Un !! va) as [x|] eqn:E; [|done].
  destruct (as_dom _ _ _ _ _ _ Has _ _ E) as [Hal _]. apply Hdom in Hal. rewrite E in Hal. change (PGROUNDUP 0) with 0 in Hal.
  destruct (proj1 Hal ltac:(eauto)). lia.
Qed.

(** The address space of the child after uvmcopy(). *)
Lemma copied_as s F pt tf sz m Dn s2 F2 D2 U U2 :
  proc_as Avail s F pt tf 0 Dn ∅ -> as_step Avail pt s F Dn ∅ s2 F2 D2 U2 -> 0 <= sz <= TRAPFRAME ->
  copied m (k_mem s2) U ∅ U2 (PGROUNDUP sz) -> proc_as Avail s2 F2 pt tf sz D2 U2.
Proof.
  intros [_ Hh] Hst Hsz Hc. split; [split; [apply Hst|done|]|].
  - intros va Hal. specialize (Hc va). case_decide as Hd.
    + destruct Hc as (pa & perm & pa' & _ & -> & _). split; [intros _; tauto|eauto].
    + rewrite Hc, lookup_empty. split; [by intros []|]. intros Hva. by destruct Hd.
  - intros va Hva. rewrite (st_high _ _ _ _ _ _ _ _ _ _ Hst) by done. by apply Hh.
Qed.

(** The child without memory, when uvmcopy() fails. *)
Lemma uncopied_owns s F pt tf Dn s2 F2 D2 pid np G :
  proc_as Avail s F pt tf 0 Dn ∅ -> as_step Avail pt s F Dn ∅ s2 F2 D2 ∅ -> p_sz np = 0 -> pt <> 0 -> tf <> 0 -> page_ok tf ->
  tf ∉ as_pages F Dn ∅ -> G = as_pages F Dn ∅ ∪ {[tf]} -> proc_owns Avail s2 F2 (filled pid tf pt np) G.
Proof.
  intros [[_ Hsz Hdom] Hh] Hst Ez Hpt Htf Hpg Hn ->. exists (as_pages F Dn ∅). split.
  - right. split; [done|]. exists D2, ∅. rewrite <-(st_pages _ _ _ _ _ _ _ _ _ _ Hst). split; [|done].
    change (p_sz (filled pid tf pt np)) with (p_sz np). rewrite Ez. split; [split; [apply Hst|done|done]|].
    intros va Hva. rewrite (st_high _ _ _ _ _ _ _ _ _ _ Hst) by done. by apply Hh.
  - right. done.
Qed.

(** ** Lemmas: the paths of fork() *)

Context (Htramp : 0 <= trampoline /\ trampoline + 2 * PGSIZE <= 2 ^ 64).

Definition next_pid (s : kstate) : kstate := upd_k_nextpid (fun n => s32 (n + 1)) s.

(** What fork() relies on in an unused entry. *)
Definition entry_ok (pp : proc) : Prop :=
  p_state pp = UNUSED -> (p_pagetable pp = 0 /\ p_sz pp = 0) /\ p_ofile pp = replicate 16 None.

(** The running process [p], with directory [c], and the other entries. *)
Record parent_ok (s : kstate) (F : gset Z) (p : nat) (pp : proc) (c : nat) (D : gmap (list Z) Z) (U : gmap Z (Z * Z)) : Prop := {
  fk_sync : sync_ok s;
  fk_free lk : free lk s;
  fk_cpu : c_proc (k_cpu s) = Some p;
  fk_proc : k_procs s !! p = Some pp;
  fk_state : p_state pp <> UNUSED;
  fk_len : length (k_procs s) = 64%nat;
  fk_entries : Forall entry_ok (k_procs s);
  fk_mem : proc_as Avail s F (p_pagetable pp) (p_trapframe pp) (p_sz pp) D U;
  fk_tf : page_ok (p_trapframe pp);
  fk_tf_own : p_trapframe pp ∉ as_pages F D U;
  fk_ofile : length (p_ofile pp) = 16%nat;
  fk_files : files_ok (p_ofile pp) (k_ftable s);
  fk_cwd : p_cwd pp = Some c;
}.

(** fork() failed: the parent and the free pages are as before. *)
Definition not_forked (s : kstate) (F : gset Z) (pp : proc) (D : gmap (list Z) Z) (U : gmap Z (Z * Z)) (s' : kstate) : Prop :=
  proc_as Avail s' F (p_pagetable pp) (p_trapframe pp) (p_sz pp) D U /\
  (s' ≡ s \/ exists np npp q, first_unused s np npp /\ p_state q = UNUSED /\ entry_ok q /\ alloc_frame F (with_proc np q (next_pid s)) s').

(** fork() made the child [np], with the pages that were taken from the free ones. *)
Definition has_forked (s : kstate) (F : gset Z) (p : nat) (pp : proc) (c : nat) (D : gmap (list Z) Z) (U : gmap Z (Z * Z)) (s' : kstate) : Prop :=
  exists np npp tf pt F' D' U',
    first_unused s np npp /\ alloc_frame F (forked p pp np (filled (k_nextpid s) tf pt npp) c (next_pid s)) s' /\
    proc_as Avail s' F' (p_pagetable pp) (p_trapframe pp) (p_sz pp) D U /\
    proc_as Avail s' F' pt tf (p_sz pp) D' U' /\ tf ∉ as_pages F' D' U' /\ F = as_pages F' D' U' ∪ {[tf]} /\
    copied (k_mem s) (k_mem s') U ∅ U' (PGROUNDUP (p_sz pp)) /\ tf_copied (k_mem s) (k_mem s') (p_trapframe pp) tf.

Section paths.
Context s F p pp c D U (Hpar : parent_ok s F p pp c D U).

Lemma parent_avail : Avail s F.
Proof. apply (fk_mem _ _ _ _ _ _ _ Hpar). Qed.

Lemma entry_unused : Forall unused_ok (k_procs s).
Proof. eapply Forall_impl; [apply (fk_entries _ _ _ _ _ _ _ Hpar)|]. intros q Hq Hu. by apply Hq. Qed.

(** The parent's memory in the state that a frame starts from. *)
Lemma parent_base np q lk :
  lk <> L_kmem -> (forall i, lk <> L_hart i) ->
  proc_as Avail (with_proc np q (next_pid (locked lk s))) F (p_pagetable pp) (p_trapframe pp) (p_sz pp) D U.
Proof.
  intros H1 H2. eapply proc_as_move; [apply (fk_mem _ _ _ _ _ _ _ Hpar)|done|].
  apply (avail_procs Avail), (avail_nextpid Avail), (avail_locked Avail); [apply parent_avail|apply (fk_sync _ _ _ _ _ _ _ Hpar)|done|done].
Qed.

Lemma parent_base' np q :
  proc_as Avail (with_proc np q (next_pid s)) F (p_pagetable pp) (p_trapframe pp) (p_sz pp) D U.
Proof.
  eapply proc_as_move; [apply (fk_mem _ _ _ _ _ _ _ Hpar)|done|]. apply (avail_procs Avail), (avail_nextpid Avail), parent_avail.
Qed.

(** The parent's memory while pages move from [F] to the child. *)
Lemma parent_kept T s1 F1 :
  proc_as Avail T F (p_pagetable pp) (p_trapframe pp) (p_sz pp) D U -> alloc_frame F T s1 -> Avail s1 F1 -> F1 ⊆ F ->
  proc_as Avail s1 F1 (p_pagetable pp) (p_trapframe pp) (p_sz pp) D U /\
  forall q x, q ∈ upages U -> q <= x < q + PGSIZE -> rd (k_mem s1) x = rd (k_mem T) x.
Proof.
  intros HT Hfr Ha Hsub. destruct (proc_as_disj _ _ _ _ _ _ _ HT) as [H1 H2].
  apply (proc_as_alloc T s1 F F1 F); try done. intros q Hq. exact (pa_page _ _ _ parent_avail Hq).
Qed.

Lemma fork_fail np npp tf pt s2 F2 :
  first_unused s np npp -> proc_owns Avail s2 F2 (filled (k_nextpid s) tf pt npp) F ->
  alloc_frame F (with_proc np (filled (k_nextpid s) tf pt npp) (next_pid (locked (L_proc np) s))) s2 ->
  wp (freeproc np;; release (L_proc np);; mret (-1)) (fun r s' => r = -1 /\ not_forked s F pp D U s') s2.
Proof.
  intros Hfu How Hfr. pose proof Hfu as (Hnp & Hun & _). pose proof (lookup_lt_Some _ _ _ Hnp) as Hlt. set (nq := filled (k_nextpid s) tf pt npp) in *.
  assert (HT : (np < length (k_procs (next_pid (locked (L_proc np) s))))%nat) by exact Hlt.
  apply wp_bind. eapply wp_mono; [apply (freeproc_spec Avail Htramp s2 F2 np nq F); [exact (frame_proc _ _ _ _ _ HT Hfr)|done]|].
  cbn beta. intros _ s3 [Ha3 Hfr3]. apply wp_bind.
  eapply (fail_release Avail s s F np (freed nq)); [apply (fk_sync _ _ _ _ _ _ _ Hpar)|done| |done|].
  { eapply alloc_frame_trans; [|exact Hfr3]. exact (frame_alter Htramp F freed np nq _ _ HT Hfr). }
  intros s4 Hfr4 Ha4. apply wp_ret. split; [done|]. split; [by apply (parent_kept _ s4 F (parent_base' np (freed nq)) Hfr4 Ha4)|].
  right. exists np, npp, (freed nq). split_and!; [done|done| |exact Hfr4]. intros _. split; [done|].
  by apply (Forall_lookup_1 _ _ _ _ (fk_entries _ _ _ _ _ _ _ Hpar) Hnp).
Qed.

Lemma forked_frame np nq lk s3 s' :
  alloc_frame F (with_proc np nq (next_pid (locked lk s))) s3 -> s' ≡ forked p pp np nq c (resync s s3) ->
  alloc_frame F (forked p pp np nq c (next_pid s)) s'.
Proof.
  intros (Hr & _ & Hm) E. split; [|split].
  - rewrite (rest_others _ _ (keq_others _ _ E)). etrans; [apply (rest_forked p pp np nq c _ _ Hr)|].
    by rewrite forked_with_proc.
  - rewrite (keq_sync _ _ E). unfold forked, with_proc, next_pid. rewrite !sync_k_procs, !sync_k_itable, !sync_k_ftable, sync_resync. by ksync.
  - intros x Hx. rewrite (keq_k_mem _ _ E). exact (Hm x Hx).
Qed.

Lemma avail_forked np nq s1 F1 : Avail s1 F1 -> Avail (forked p pp np nq c s1) F1.
Proof.
  intros Ha. apply (pa_frame s1); [done|change (mem_ok (k_mem s1)); by eapply pa_mem| |done|done].
  unfold forked, with_proc. by ksync.
Qed.

(** The memory of the parent and of the child when the trap frame has been written. *)
Lemma fork_memory T tf pt s2 F2 D2 U2 :
  let f m := st64 (memmove m tf (p_trapframe pp) TF_SIZE) (tf + TF_a0) 0 in
  proc_as Avail s2 F2 (p_pagetable pp) (p_trapframe pp) (p_sz pp) D U -> proc_as Avail s2 F2 pt tf (p_sz pp) D2 U2 ->
  page_ok tf -> tf ∉ as_pages F2 D2 U2 -> F = as_pages F2 D2 U2 ∪ {[tf]} -> alloc_frame F T s2 ->
  let s3 := upd_k_mem f s2 in
  alloc_frame F T s3 /\ proc_as Avail s3 F2 (p_pagetable pp) (p_trapframe pp) (p_sz pp) D U /\
  proc_as Avail s3 F2 pt tf (p_sz pp) D2 U2 /\ tf_copied (k_mem s2) (k_mem s3) (p_trapframe pp) tf /\
  forall va pa perm j, U2 !! va = Some (pa, perm) -> 0 <= j < PGSIZE -> rd (k_mem s3) (pa + j) = rd (k_mem s2) (pa + j).
Proof.
  intros f Hpp Hcp Hpg Hn HF Hfr s3. destruct (proc_as_disj _ _ _ _ _ _ _ (fk_mem _ _ _ _ _ _ _ Hpar)) as [P1 P2].
  destruct (proc_as_disj _ _ _ _ _ _ _ Hcp) as [C1 C2]. pose proof (fk_tf_own _ _ _ _ _ _ _ Hpar) as Hown.
  assert (Ha : Avail s2 F2) by apply Hcp. assert (HinF : tf ∈ F) by set_solver. assert (Hsub : F2 ∪ {[tf]} ⊆ F) by (rewrite HF; unfold as_pages; set_solver).
  assert (Hne : p_trapframe pp <> tf) by (intros E; apply Hown; rewrite E; unfold as_pages; set_solver).
  assert (Hpages : forall q, q ∈ F2 ∪ {[tf]} -> page_ok q) by (intros q Hq; exact (pa_page _ _ _ parent_avail (Hsub q Hq))).
  destruct (write_trapframe s2 F2 (p_trapframe pp) tf) as (Ha3 & Hfr3 & Htf); try done; [apply Hpar|unfold as_pages in Hn; set_solver|]. fold f s3 in Ha3, Hfr3, Htf.
  destruct (proc_as_alloc s2 s3 F2 F2 (F2 ∪ {[tf]}) (p_pagetable pp) (p_trapframe pp) (p_sz pp) D U) as [Hpp3 _]; try done; [set_solver..|].
  destruct (proc_as_alloc s2 s3 F2 F2 (F2 ∪ {[tf]}) pt tf (p_sz pp) D2 U2) as [Hcp3 Hrd]; try done; [unfold as_pages in Hn; set_solver..|].
  split_and!; try done.
  - eapply alloc_frame_trans; [done|]. by eapply alloc_frame_mono.
  - intros va pa perm j HU Hj. apply (Hrd pa); [|lia]. apply elem_of_upages. eauto.
Qed.

Lemma tf_copied_from m m1 m2 tf tf' :
  tf_copied m1 m2 tf tf' -> (forall x, tf <= x < tf + PGSIZE -> rd m1 x = rd m x) -> tf_copied m m2 tf tf'.
Proof.
  intros [H0 H1] Hx. split; [done|]. intros i Hi Hi'. rewrite H1 by done. apply Hx. unfold TF_SIZE in Hi. change PGSIZE with 4096. lia.
Qed.

Lemma copied_to m m1 m2 U2 n :
  copied m m1 U ∅ U2 n -> (forall va pa perm j, U2 !! va = Some (pa, perm) -> 0 <= j < PGSIZE -> rd m2 (pa + j) = rd m1 (pa + j)) ->
  copied m m2 U ∅ U2 n.
Proof.
  intros Hc Hx va. specialize (Hc va). case_decide; [|done]. destruct Hc as (pa & perm & pa' & H1 & H2 & H3).
  exists pa, perm, pa'. split_and!; [done|done|]. intros j Hj. by rewrite (Hx _ _ _ _ H2 Hj), H3.
Qed.

Lemma copied_from m m1 m2 U2 n :
  copied m1 m2 U ∅ U2 n -> (forall q x, q ∈ upages U -> q <= x < q + PGSIZE -> rd m1 x = rd m x) -> copied m m2 U ∅ U2 n.
Proof.
  intros Hc Hx va. specialize (Hc va). case_decide; [|done]. destruct Hc as (pa & perm & pa' & H1 & H2 & H3).
  exists pa, perm, pa'. split_and!; [done|done|]. intros j Hj. rewrite H3 by done. apply (Hx pa); [|lia]. apply elem_of_upages. eauto.
Qed.

Lemma fork_done np npp tf pt s2 F2 D2 U2 :
  let nq := filled (k_nextpid s) tf pt npp in
  first_unused s np npp -> alloc_frame F (with_proc np nq (next_pid (locked (L_proc np) s))) s2 ->
  proc_as Avail s2 F2 (p_pagetable pp) (p_trapframe pp) (p_sz pp) D U -> proc_as Avail s2 F2 pt tf (p_sz pp) D2 U2 ->
  page_ok tf -> tf ∉ as_pages F2 D2 U2 -> F = as_pages F2 D2 U2 ∪ {[tf]} -> copied (k_mem s) (k_mem s2) U ∅ U2 (PGROUNDUP (p_sz pp)) ->
  wp (upd_proc np (upd_p_sz (fun _ => p_sz pp));;
      upd_mem (fun m => memmove m (p_trapframe nq) (p_trapframe pp) TF_SIZE);;
      tf_store np TF_a0 0;;
      fork_end p pp np) (fun r s' => r = k_nextpid s /\ has_forked s F p pp c D U s') s2.
Proof.
  intros nq Hfu Hfr Hpp Hcp Hpg Hn HF Hc. pose proof Hfu as (Hnp & Hun & _). pose proof (lookup_lt_Some _ _ _ Hnp) as Hlt.
  set (T := next_pid (locked (L_proc np) s)) in *. assert (HT : (np < length (k_procs T))%nat) by exact Hlt.
  assert (Hne : p <> np). { intros <-. rewrite (fk_proc _ _ _ _ _ _ _ Hpar) in Hnp. simplify_eq. by apply (fk_state _ _ _ _ _ _ _ Hpar). }
  unfold upd_proc at 1, upd_mem. apply wp_bind, wp_modify, wp_bind, wp_modify.
  apply (frame_alter Htramp F (upd_p_sz (fun _ => p_sz pp)) np nq _ _ HT) in Hfr. set (nz := upd_p_sz (fun _ => p_sz pp) nq) in *.
  set (s2a := upd_k_procs _ s2) in *. unfold tf_store, store, upd_mem. apply wp_bind, wp_bind. eapply wp_get_entry; [exact (frame_proc _ _ _ _ _ HT Hfr)|].
  apply wp_modify. change (p_trapframe nz) with tf. change (p_trapframe nq) with tf. rewrite upd_k_mem_comp.
  destruct (fork_memory _ tf pt s2a F2 D2 U2 (proc_as_procs Avail _ _ _ _ _ _ _ _ Hpp) (proc_as_procs Avail _ _ _ _ _ _ _ _ Hcp) Hpg Hn HF Hfr)
    as (Hfr3 & Hpp3 & Hcp3 & Htf3 & Hrd3). set (s3 := upd_k_mem _ s2a) in *.
  assert (Hy3 : sync s3 = sync (locked (L_proc np) s)) by (rewrite (proj1 (proj2 Hfr3)); unfold with_proc, T, next_pid; by ksync).
  assert (Hpr3 : k_procs s3 = <[np := nz]> (k_procs s)) by exact (frame_procs _ _ _ Hfr3).
  assert (Hft3 : k_ftable s3 = k_ftable s) by exact (f_equal (fun r => r.1.1.1.1.1.1.1.1.1.1.1.1.2) (proj1 Hfr3)).
  pose proof (fk_free _ _ _ _ _ _ _ Hpar) as Hfree.
  eapply wp_mono; [apply (fork_tail s s3 p pp np nz c); try apply Hpar; try done|].
  - rewrite Hpr3, list_lookup_insert_ne by done. apply Hpar.
  - rewrite Hpr3. by apply list_lookup_insert_eq.
  - by apply (Forall_lookup_1 _ _ _ _ (fk_entries _ _ _ _ _ _ _ Hpar) Hnp).
  - rewrite Hft3. apply Hpar.
  - cbn beta. intros r s' [-> E]. split; [done|].
    assert (Ha' : Avail s' F2).
    { eapply (avail_keq Avail); [exact E|]. apply avail_forked, (avail_release (L_proc np)); [apply Hpar|done|done|done|apply Hcp3]. }
    assert (Em : k_mem s' = k_mem s3) by exact (keq_k_mem _ _ E).
    exists np, npp, tf, pt, F2, D2, U2. split_and!; try done.
    + pose proof (forked_frame np nz _ s3 s' Hfr3 E) as Hfr'. exact Hfr'.
    + by eapply proc_as_move.
    + by eapply proc_as_move.
    + rewrite Em. by eapply copied_to.
    + rewrite Em. eapply tf_copied_from; [exact Htf3|]. intros x Hx. change (k_mem s2a) with (k_mem s2).
      apply (proj2 (proj2 Hfr)). apply (not_alloc_owned F (p_trapframe pp)); [eapply pa_layout, parent_avail| |apply Hpar| |done].
      * intros q Hq. exact (pa_page _ _ _ parent_avail Hq).
      * pose proof (fk_tf_own _ _ _ _ _ _ _ Hpar) as Ho. unfold as_pages in Ho. set_solver.
Qed.

(** allocproc() found no entry or no memory. *)
Lemma fork_none s1 :
  Avail s1 F ->
  (s1 ≡ s /\ (forall j pj, k_procs s !! j = Some pj -> p_state pj <> UNUSED) \/
   exists np npp, first_unused s np npp /\ alloc_frame F (with_proc np (freed npp) (next_pid s)) s1) ->
  not_forked s F pp D U s1.
Proof.
  intros Ha [[E _]|(np & npp & Hfu & Hfr)].
  - split; [|by left]. eapply proc_as_move; [apply (fk_mem _ _ _ _ _ _ _ Hpar)|apply (keq_k_mem _ _ E)|done].
  - split; [by apply (parent_kept _ s1 F (parent_base' np (freed npp)) Hfr Ha)|]. right. exists np, npp, (freed npp).
    split_and!; [done|done| |done]. intros _. split; [done|]. destruct Hfu as (Hnp & Hun & _).
    by apply (Forall_lookup_1 _ _ _ _ (fk_entries _ _ _ _ _ _ _ Hpar) Hnp).
Qed.

(** What fork() does with an entry that allocproc() filled. *)
Lemma fork_some np npp tf pt F1 s1 :
  let nq := filled (k_nextpid s) tf pt npp in
  first_unused s np npp -> tf ∈ F -> pt <> 0 -> proc_owns Avail s1 F1 nq F ->
  alloc_frame F (with_proc np nq (next_pid (locked (L_proc np) s))) s1 ->
  wp (r ← uvmcopy (p_pagetable pp) pt (p_sz pp);
      if r <? 0 then freeproc np;; release (L_proc np);; mret (-1)
      else
        upd_proc np (upd_p_sz (fun _ => p_sz pp));;
        upd_mem (fun m => memmove m (p_trapframe nq) (p_trapframe pp) TF_SIZE);;
        tf_store np TF_a0 0;;
        fork_end p pp np)
    (fun r s' => r = -1 /\ not_forked s F pp D U s' \/ r = k_nextpid s /\ has_forked s F p pp c D U s') s1.
Proof.
  intros nq Hfu Hin Hpt How Hfr. pose proof (pa_layout _ _ parent_avail) as Hlay. pose proof Hfu as (Hnp & Hun & _).
  pose proof (pa_page _ _ _ parent_avail Hin) as Hpg. assert (Htf : tf <> 0) by (pose proof (page_ok_range _ Hlay Hpg); lia).
  destruct (Forall_lookup_1 _ _ _ _ (fk_entries _ _ _ _ _ _ _ Hpar) Hnp Hun) as [[_ Hsz0] _].
  destruct (filled_owns s1 F1 F _ tf pt npp How Hpt Htf Hsz0) as (Dn & Hcp & Hn & HF & _).
  assert (Hsub : as_pages F1 Dn ∅ ⊆ F) by (rewrite HF; set_solver).
  destruct (parent_kept _ s1 F1 (parent_base np nq (L_proc np) ltac:(done) ltac:(done)) Hfr) as [Hpp1 Hrd1]; [apply Hcp|unfold as_pages in Hsub; set_solver|].
  destruct (proc_as_disj _ _ _ _ _ _ _ (fk_mem _ _ _ _ _ _ _ Hpar)) as [P1 P2].
  pose proof (fk_mem _ _ _ _ _ _ _ Hpar) as [[_ Hsz Hdom] _].
  apply wp_bind. eapply wp_mono; [apply (uvmcopy_spec Avail s1 F1 (p_pagetable pp) D U pt Dn ∅ (p_sz pp)); [apply Hpp1|apply Hcp|set_solver| |done]|].
  { intros va Hal Hva. split; [|done]. apply Hdom; [done|]. change TRAPFRAME with 274877898752 in Hsz.
    pose proof (PGROUNDUP_spec (p_sz pp) ltac:(change PGSIZE with 4096; lia)). lia. }
  cbn beta. intros r s2 (F2 & D2 & U2 & Hst & Hold & Hr).
  assert (Hfr2 : alloc_frame F (with_proc np nq (next_pid (locked (L_proc np) s))) s2).
  { eapply alloc_frame_trans; [exact Hfr|]. eapply alloc_frame_mono; [exact Hsub|apply Hst]. }
  assert (HaF2 : Avail s2 F2) by apply (st_ok _ _ _ _ _ _ _ _ _ _ Hst).
  assert (HF2 : F2 ⊆ as_pages F1 Dn ∅) by (rewrite <-(st_pages _ _ _ _ _ _ _ _ _ _ Hst); unfold as_pages; set_solver).
  destruct (proc_as_alloc s1 s2 F1 F2 (as_pages F1 Dn ∅) _ _ _ D U Hpp1 HaF2 (st_frame _ _ _ _ _ _ _ _ _ _ Hst)) as [Hpp2 _];
    [set_solver|set_solver|done|intros q Hq; exact (pa_page _ _ _ parent_avail (Hsub q Hq))|].
  destruct Hr as [[-> Hc]|[-> ->]]; cbn [Z.ltb Z.compare].
  - eapply wp_mono; [eapply (fork_done np npp tf pt s2 F2 D2 U2); try done|].
    + by eapply copied_as; [..|exact Hc].
    + by rewrite (st_pages _ _ _ _ _ _ _ _ _ _ Hst).
    + by rewrite (st_pages _ _ _ _ _ _ _ _ _ _ Hst).
    + eapply copied_from; [exact Hc|]. intros q x Hq Hx. by rewrite (Hrd1 q x Hq Hx).
    + cbn beta. intros r s'. by right.
  - eapply wp_mono; [eapply (fork_fail np npp tf pt s2 F2); [done| |done]|].
    + by eapply (uncopied_owns s1 F1 pt tf Dn s2 F2 D2).
    + cbn beta. intros r s'. by left.
Qed.
End paths.

(** States that differ in a dead variable. *)
Lemma parent_ok_keq s s0 F p pp c D U : s0 ≡ s -> parent_ok s F p pp c D U -> parent_ok s0 F p pp c D U.
Proof.
  intros E [H1 H2 H3 H4 H5 H6 H7 H8 H9 H10 H11 H12 H13]. pose proof (keq_k_procs _ _ E) as Ep.
  split; rewrite ?Ep, ?(keq_c_proc _ _ E), ?(keq_k_ftable _ _ E); try done.
  - eapply sync_sync_ok; [apply (keq_sync _ _ E)|done].
  - intros lk. eapply sync_free; [apply (keq_sync _ _ E)|done].
  - eapply proc_as_move; [exact H8|apply (keq_k_mem _ _ E)|]. eapply (avail_keq Avail); [exact E|apply H8].
Qed.

Lemma first_unused_keq s s0 np npp : s0 ≡ s -> first_unused s0 np npp -> first_unused s np npp.
Proof. intros E. unfold first_unused. by rewrite (keq_k_procs _ _ E). Qed.

Lemma not_forked_keq s s0 F pp D U s' : s0 ≡ s -> not_forked s0 F pp D U s' -> not_forked s F pp D U s'.
Proof.
  intros E [Hp [E'|(np & npp & q & Hfu & Hq & Hok & Hfr)]]; (split; [done|]); [left; by etrans|]. right. exists np, npp, q.
  split_and!; [by eapply first_unused_keq|done|done|]. eapply (alloc_frame_keq F); [|exact Hfr]. unfold with_proc, next_pid. by rewrite E.
Qed.

Lemma has_forked_keq s s0 F p pp c D U s' : s0 ≡ s -> has_forked s0 F p pp c D U s' -> has_forked s F p pp c D U s'.
Proof.
  intros E (np & npp & tf & pt & F' & D' & U' & Hfu & Hfr & Hr). exists np, npp, tf, pt, F', D', U'.
  rewrite (keq_k_nextpid _ _ E), (keq_k_mem _ _ E) in *. split; [by eapply first_unused_keq|]. split; [|done].
  eapply (alloc_frame_keq F); [|exact Hfr]. unfold forked, with_proc, next_pid. by rewrite E.
Qed.

(** ** Properties *)

(** C21: fork() takes the first unused entry and makes it a copy of the running process: the
    user memory page by page in pages of its own with the same permissions, the trap frame
    with 0 in a0, the open files and the directory with one more reference each, the name,
    the parent and a new process number, which it returns; the entry is runnable and no lock
    is held.  The pages of the child are taken from the free ones, and the parent is
    unchanged.  When all entries are in use or memory runs out, fork() returns -1 with all
    free pages free again, no reference taken and the entry unused. *)
Theorem fork_correct s F p pp c D U :
  parent_ok s F p pp c D U ->
  wp fork (fun r s' => r = -1 /\ not_forked s F pp D U s' \/ r = k_nextpid s /\ has_forked s F p pp c D U s') s.
Proof.
  intros Hpar. pose proof Hpar as [Hs _ Hcpu _ _ _ _ _ _ _ _ _ _]. unfold fork. apply wp_bind, (wp_curproc s p); [done..|]. intros s0 E0.
  apply (parent_ok_keq _ _ _ _ _ _ _ _ E0) in Hpar. rewrite <-(keq_k_nextpid _ _ E0).
  assert (Hw : forall r s', r = -1 /\ not_forked s0 F pp D U s' \/ r = k_nextpid s0 /\ has_forked s0 F p pp c D U s' ->
    r = -1 /\ not_forked s F pp D U s' \/ r = k_nextpid s0 /\ has_forked s F p pp c D U s').
  { intros r s' [[-> Hn]|[-> Hh]]; [left|right]; (split; [done|]); [by eapply not_forked_keq|by eapply has_forked_keq]. }
  apply wp_bind. eapply wp_mono.
  { apply (allocproc_spec Avail Htramp s0 F); try apply Hpar; [intros; apply Hpar|by eapply entry_unused]. }
  cbn beta zeta. intros [np|] s1.
  - intros (npp & tf & pt & F1 & Hfu & Hin & Hpt & How & Hfr). pose proof Hfu as (Hnp & Hun & _).
    assert (Hne : p <> np). { intros <-. rewrite (fk_proc _ _ _ _ _ _ _ Hpar) in Hnp. simplify_eq. by apply (fk_state _ _ _ _ _ _ _ Hpar). }
    pose proof (frame_procs _ _ _ Hfr) as Hpr. unfold with_proc in Hpr. ksimpl.
    apply wp_bind. eapply wp_get_entry; [rewrite (frame_procs _ _ _ Hfr); exact (eq_trans (list_lookup_insert_ne _ _ _ _ (not_eq_sym Hne)) (fk_proc _ _ _ _ _ _ _ Hpar))|].
    apply wp_bind. eapply wp_get_entry; [rewrite (frame_procs _ _ _ Hfr); exact (list_lookup_insert_eq _ _ _ (lookup_lt_Some _ _ _ Hnp))|].
    eapply wp_mono; [exact (fork_some s0 F p pp c D U Hpar np npp tf pt F1 s1 Hfu Hin Hpt How Hfr)|exact Hw].
  - intros [Ha1 Hno]. apply wp_ret. apply Hw. left. split; [done|]. exact (fork_none s0 F p pp c D U Hpar s1 Ha1 Hno).
Qed.
End memory.

(** ** Witness: a process without user memory *)

#[local] Existing Instance example_platform.
#[local] Existing Instance free_page_allocator.

Definition example_parent : proc := upd_p_cwd (fun _ => Some 0%nat) (upd_p_state (fun _ => RUNNING) example_entry).

Definition example_forking : kstate :=
  with_proc 2 example_parent (upd_k_cpu (upd_c_proc (fun _ => Some 2%nat)) example_proc_state).

Lemma example_parent_ok : parent_ok Free example_forking {[0x80900000]} 2 example_parent 0 example_proc_dir ∅.
Proof.
  split.
  - by split.
  - reflexivity.
  - reflexivity.
  - reflexivity.
  - discriminate.
  - reflexivity.
  - change (Forall entry_ok (<[2%nat := example_parent]> (replicate 64 zero_proc))). apply Forall_insert; [|discriminate].
    apply Forall_replicate. intros _. split; [split; reflexivity|reflexivity].
  - eapply proc_as_move; [exact example_proc_as|reflexivity|].
    apply (avail_procs Free), (pa_sync example_proc_state); [apply example_proc_as|reflexivity|by split|reflexivity|reflexivity|reflexivity].
  - by vm_compute.
  - apply (bool_decide_unpack _). by vm_compute.
  - reflexivity.
  - intros i f Hi. change (replicate 16 (@None nat) !! i = Some (Some f)) in Hi. by apply lookup_replicate in Hi as [? _].
  - reflexivity.
Qed.

Lemma fork_correct_witness :
  wp fork (fun r s' => r = -1 \/ r = 1 /\ exists np npp, first_unused example_forking np npp /\ p_state <$> k_procs s' !! np = Some RUNNABLE)
    example_forking.
Proof.
  eapply wp_mono; [exact (fork_correct Free example_tramp example_forking {[0x80900000]} 2 example_parent 0 example_proc_dir ∅ example_parent_ok)|].
  cbn beta. intros r s' [[-> _]|[-> (np & npp & tf & pt & F' & D' & U' & Hfu & Hfr & _)]]; [left; reflexivity|]. right. split; [reflexivity|].
  exists np, npp. split; [exact Hfu|]. rewrite (frame_procs _ _ _ Hfr). destruct Hfu as (Hnp & _). unfold forked, with_proc.
  change (p_state <$> <[np := child_of 2 example_parent (filled (k_nextpid example_forking) tf pt npp)]> (k_procs example_forking) !! np = Some RUNNABLE).
  rewrite list_lookup_insert_eq; [reflexivity|]. exact (lookup_lt_Some _ _ _ Hnp).
Defined.
