(* ===== verification/ProcWait.v ===== *)
(** * Correctness of wait() (kernel/proc.c)

    A zombie child is taken out of the process table: its pages go back to the allocator and
    its exit status goes to the parent's memory.  Without one, wait() fails or sleeps. *)

From Stdlib Require Import ZArith Lia.
From stdpp Require Import base tactics numbers gmap strings option list.
From S2P Require Import Prelude Kernel Spinlock Kstring Riscv Kalloc KallocInit Vm VmUser VmCopy VmFork VmProps Sched Fs File Proc SchedProps.
From S2P Require Import PipeProps ProcMem ProcAlloc ProcFork.

(** ** Specification *)

(** Entry [i] is a child of [p]. *)
Definition child (s : kstate) (p i : nat) (ci : proc) : Prop := k_procs s !! i = Some ci /\ p_parent ci = Some p.

(** Entry [i] is the first child of [p] that has exited. *)
Definition first_zombie (s : kstate) (p i : nat) (ci : proc) : Prop :=
  child s p i ci /\ p_state ci = ZOMBIE /\
  forall j cj, (j < i)%nat -> child s p j cj -> p_state cj <> ZOMBIE.

(** What wait(addr) stores at [addr]: the exit status, if there is an address. *)
Definition status (addr : Z) (ci : proc) : list Z := if addr =? 0 then [] else le_split 4 (p_xstate ci).

(** The bytes [bs] are in user memory from [addr] on, and its other bytes are as before. *)
Definition user_stored (U : gmap Z (Z * Z)) (m m' : gmap Z Z) (addr : Z) (bs : list Z) : Prop :=
  (forall (k : nat) b, bs !! k = Some b -> exists x, ua U (addr + Z.of_nat k) = Some x /\ rd m' x = b) /\
  (forall q x, q ∈ upages U -> q <= x < q + PGSIZE ->
     (forall k : nat, (k < length bs)%nat -> ua U (addr + Z.of_nat k) <> Some x) -> rd m' x = rd m x).

Lemma others_procs s s' : others s = others s' -> k_procs s = k_procs s'.
Proof. unfold others. congruence. Qed.

Section wait.
Context `{Platform}.
Context (Avail : kstate -> gset Z -> Prop) `{!PageAllocator Avail}.
Context (Htramp : 0 <= trampoline /\ trampoline + 2 * PGSIZE <= 2 ^ 64).

(** The running process [p], with its memory; a child that has exited owns its pages, which
    are none of the parent's. *)
Record waiter_ok (s : kstate) (F : gset Z) (p : nat) (pp : proc) (D : gmap (list Z) Z) (U : gmap Z (Z * Z)) : Prop := {
  wt_calm : calm [] s;
  wt_noff : c_noff (k_cpu s) = 0;
  wt_cpu : c_proc (k_cpu s) = Some p;
  wt_proc : k_procs s !! p = Some pp;
  wt_state : p_state pp <> ZOMBIE;
  wt_as : as_ok Avail s F (p_pagetable pp) D U;
  wt_high : high_ok (k_mem s) (p_pagetable pp);
  wt_child i ci : child s p i ci -> p_state ci = ZOMBIE ->
    exists G, proc_owns Avail s F ci G /\ G ## dir_pages D /\ G ## upages U;
}.

(** The child [i] is gone: its pages are free and its status is stored. *)
Definition reaped (s : kstate) (F : gset Z) (pp : proc) (D : gmap (list Z) Z) (U : gmap Z (Z * Z)) (addr : Z) (i : nat) (ci : proc) (s' : kstate) : Prop :=
  exists G, proc_owns Avail s F ci G /\ as_ok Avail s' G (p_pagetable pp) D U /\
    alloc_frame (G ∪ upages U) (with_proc i (freed ci) s) s' /\ user_stored U (k_mem s) (k_mem s') addr (status addr ci).

(** The status could not be stored: the child stays. *)
Definition unreaped (s : kstate) (F : gset Z) (pp : proc) (D : gmap (list Z) Z) (U : gmap Z (Z * Z)) (addr : Z) (ci : proc) (s' : kstate) : Prop :=
  exists k, as_ok Avail s' F (p_pagetable pp) D U /\ rest s' = rest s /\ sync s' = sync s /\
    stored U (k_mem s) (k_mem s') addr (status addr ci) k /\ (k < length (status addr ci))%nat /\ ua U (addr + Z.of_nat k) = None.

(** ** Lemmas: pages *)

(** What an entry owns while other pages [Y] change. *)
Lemma owns_alloc s s' F Y pp G :
  proc_owns Avail s F pp G -> Avail s' F -> alloc_frame (F ∪ Y) s s' -> Y ## G -> (forall q, q ∈ Y -> page_ok q) -> proc_owns Avail s' F pp G.
Proof.
  intros (G' & Ht & Htf) Ha Hfr HY Hpg. exists G'. split; [|done].
  destruct Ht as [(Hz & _ & ->)|(Hne & D & U & Hps & ->)]; [by left|]. right. split; [done|]. exists D, U. split; [|done].
  destruct (proc_as_disj _ _ _ _ _ _ _ _ Hps) as [H1 H2].
  assert (Hsub : as_pages F D U ⊆ G) by (destruct Htf as [[_ ->]|(_ & _ & _ & ->)]; set_solver). unfold as_pages in Hsub.
  apply (proc_as_alloc Avail s s' F F (F ∪ Y)); try done; [set_solver..|].
  intros q [Hq|Hq]%elem_of_union; [exact (pa_page _ _ _ Ha Hq)|by apply Hpg].
Qed.

Lemma owns_move s s' F pp G : proc_owns Avail s F pp G -> k_mem s' = k_mem s -> (Avail s F -> Avail s' F) -> proc_owns Avail s' F pp G.
Proof.
  intros (G' & Ht & Htf) Em HA. exists G'. split; [|done].
  destruct Ht as [(Hz & Ha & ->)|(Hne & D & U & Hps & ->)]; [left; by split_and!; [|apply HA|]|]. right. split; [done|]. exists D, U. split; [|done].
  eapply proc_as_move; [done|done|]. apply HA, Hps.
Qed.

(** User memory is made of user pages. *)
Lemma ua_upages U va x : 0 <= va -> ua U va = Some x -> exists q, q ∈ upages U /\ q <= x < q + PGSIZE.
Proof.
  intros Hva. unfold ua. destruct (U !! PGROUNDDOWN va) as [[pa perm]|] eqn:E; [|done]. destruct (pte_has perm PTE_U); [|done]. intros [= <-].
  exists pa. split; [apply elem_of_upages; by eexists _, _|]. destruct (PGROUNDDOWN_spec va Hva) as [_ Hr]. lia.
Qed.

Lemma stored_frame F U s s' addr bs k :
  0 <= addr -> rest s' = rest s -> sync s' = sync s -> stored U (k_mem s) (k_mem s') addr bs k -> alloc_frame (F ∪ upages U) s s'.
Proof.
  intros Ha Hr Hs [_ Hst]. split_and!; [done..|]. intros x Hx. apply Hst. intros i _ Hi. apply Hx.
  destruct (ua_upages U (addr + Z.of_nat i) x ltac:(lia) Hi) as (q & Hq & Hqx). right. exists q. set_solver.
Qed.

(** ** Lemmas: a child that has exited *)

Lemma copy_status s F pt D U addr ci :
  as_ok Avail s F pt D U -> high_ok (k_mem s) pt -> 0 <= addr < 2 ^ 64 ->
  wp (if negb (addr =? 0) then copyout pt addr (le_split 4 (p_xstate ci)) else mret 0) (fun r s' => exists k,
    as_ok Avail s' F pt D U /\ rest s' = rest s /\ sync s' = sync s /\ stored U (k_mem s) (k_mem s') addr (status addr ci) k /\
    (r = 0 /\ k = length (status addr ci) \/
     r = -1 /\ (k < length (status addr ci))%nat /\ ua U (addr + Z.of_nat k) = None)) s.
Proof.
  intros Has Hh Ha. unfold status. destruct (addr =? 0); cbn [negb].
  - apply wp_ret. exists O. split; [done|]. split; [done|]. split; [done|]. split; [split; [lia|done]|by left].
  - eapply wp_mono; [by apply (copyout_spec Avail s F pt D U); [..|apply le_split_bytes]|]. cbn beta.
    intros r s' (k & H1 & _ & H2). by exists k.
Qed.

Section reap.
Context s F p pp D U addr (Hw : waiter_ok s F p pp D U) (Haddr : 0 <= addr < 2 ^ 64).

(** The two locks are released. *)
Lemma release_both i s1 s4 v Q :
  s1 ≡ locked L_wait s -> sync s4 = sync (locked (L_proc i) s1) ->
  Q (inr (inl v)) (resync s (resync s1 s4)) ->
  wp (release (L_proc i);; release L_wait;; mret (inr (inl v) : nat * bool + (Z + bool))) Q s4.
Proof.
  intros E Hy HQ. pose proof (cm_sync _ _ (wt_calm _ _ _ _ _ _ Hw)) as Hs.
  assert (Hs1 : sync_ok s1) by (eapply sync_sync_ok; [apply (keq_sync _ _ E)|by apply sync_ok_locked]).
  apply wp_bind, (wp_release _ s1); [done|done|]. apply wp_bind, (wp_release _ s); [done| |].
  - by rewrite sync_resync, (keq_sync _ _ E).
  - by apply wp_ret.
Qed.

Lemma avail_both i s1 s4 G :
  s1 ≡ locked L_wait s -> sync s4 = sync (locked (L_proc i) s1) -> Avail s4 G -> Avail (resync s (resync s1 s4)) G.
Proof.
  intros E Hy Ha. pose proof (cm_sync _ _ (wt_calm _ _ _ _ _ _ Hw)) as Hs.
  assert (Hs1 : sync_ok s1) by (eapply sync_sync_ok; [apply (keq_sync _ _ E)|by apply sync_ok_locked]).
  apply (avail_release Avail L_wait); [done| |done|done|].
  - by rewrite sync_resync, (keq_sync _ _ E).
  - by apply (avail_release Avail (L_proc i)).
Qed.

(** The state in which the child is looked at. *)
Lemma avail_scan i s1 : s1 ≡ locked L_wait s -> Avail s F -> Avail (locked (L_proc i) s1) F.
Proof.
  intros E Ha. pose proof (cm_sync _ _ (wt_calm _ _ _ _ _ _ Hw)) as Hs.
  apply (avail_keq Avail (locked (L_proc i) (locked L_wait s))); [by apply locked_keq|].
  apply (avail_locked Avail); [|by apply sync_ok_locked|done|done]. by apply (avail_locked Avail).
Qed.

Lemma reap_freed i ci s1 s3 G :
  first_zombie s p i ci -> s1 ≡ locked L_wait s -> rest s3 = rest (locked (L_proc i) s1) -> sync s3 = sync (locked (L_proc i) s1) ->
  as_ok Avail s3 F (p_pagetable pp) D U -> stored U (k_mem s) (k_mem s3) addr (status addr ci) (length (status addr ci)) ->
  proc_owns Avail s F ci G -> G ## dir_pages D -> G ## upages U ->
  wp (freeproc i;; release (L_proc i);; release L_wait;; mret (inr (inl (p_pid ci)) : nat * bool + (Z + bool)))
    (fun r s' => r = inr (inl (p_pid ci)) /\ reaped s F pp D U addr i ci s') s3.
Proof.
  intros (Hch & Hz & Hfirst) E Hr3 Hy3 Has3 Hst Hown HD HU. pose proof (cm_sync _ _ (wt_calm _ _ _ _ _ _ Hw)) as Hs.
  assert (Hp3 : k_procs s3 !! i = Some ci).
  { assert (Ep : k_procs s3 = k_procs (locked (L_proc i) s1)) by (unfold rest in Hr3; congruence). rewrite Ep.
    change (k_procs s1 !! i = Some ci). rewrite (keq_k_procs _ _ E). apply Hch. }
  assert (Hrest : rest s3 = rest s) by (rewrite Hr3; apply (rest_others _ _ (keq_others _ _ E))).
  assert (Hfr3 : alloc_frame (F ∪ upages U) (locked (L_proc i) s1) s3).
  { apply (stored_frame F U _ _ addr (status addr ci) (length (status addr ci))); [lia|done|done|].
    change (k_mem (locked (L_proc i) s1)) with (k_mem s1). by rewrite (keq_k_mem _ _ E). }
  assert (Hown3 : proc_owns Avail s3 F ci G).
  { apply (owns_alloc (locked (L_proc i) s1) s3 F (upages U)); [|apply Has3|done|done|].
    - eapply owns_move; [exact Hown|exact (keq_k_mem _ _ E)|]. by apply avail_scan.
    - intros q (va & perm & Hva)%elem_of_upages. apply (as_page _ _ _ _ _ _ Has3 _ _ _ Hva). }
  apply wp_bind. eapply wp_mono; [apply (freeproc_spec Avail Htramp s3 F i ci G Hp3 Hown3)|]. cbn beta. intros _ s4 [Ha4 Hfr4].
  assert (Hy4 : sync s4 = sync (locked (L_proc i) s1)).
  { destruct Hfr4 as (_ & Hy & _). rewrite Hy, <-Hy3. by ksync. }
  destruct (as_alloc Avail _ s4 F G G (p_pagetable pp) D U (as_ok_procs Avail (alter freed i) _ _ _ _ _ Has3) Ha4 Hfr4 HD HU) as (Has4 & _ & Hrd4);
    [done|intros q Hq; exact (pa_page _ _ _ Ha4 Hq)|].
  apply (release_both i s1 s4); [done|done|]. split; [done|]. exists G. split; [done|].
  pose proof (avail_both i s1 s4 G E Hy4 Ha4) as Ha5. split; [by eapply as_ok_move|].
  change (k_mem (resync s (resync s1 s4))) with (k_mem s4). split; [split_and!|split].
  - change (rest (resync s (resync s1 s4))) with (rest s4). rewrite (proj1 Hfr4), (rest_procs _ _ _ Hrest).
    by rewrite (alter_with_proc freed i ci s (proj1 Hch)).
  - rewrite sync_resync. unfold with_proc. by ksync.
  - intros x Hx. change (rd (k_mem s4) x = rd (k_mem s) x). destruct Hfr4 as (_ & _ & Hm4).
    rewrite Hm4 by (intros Ho; apply Hx; eapply alloc_owned_mono; [|exact Ho]; set_solver).
    apply Hst. intros k _ Hk. apply Hx. destruct (ua_upages U (addr + Z.of_nat k) x ltac:(lia) Hk) as (q & Hq & Hqx). right. exists q. set_solver.
  - intros k b Hb. destruct (proj1 Hst k b (lookup_lt_Some _ _ _ Hb) Hb) as (x & Hx & Hv). exists x. split; [done|].
    destruct (ua_upages U (addr + Z.of_nat k) x ltac:(lia) Hx) as (q & Hq & Hqx). by rewrite (Hrd4 q x Hq Hqx).
  - intros q x Hq Hqx Hno. rewrite (Hrd4 q x Hq Hqx). by apply Hst.
Qed.

(** What a scan that does not return has found. *)
Definition no_zombie (hk : bool) : Prop :=
  (forall j cj, child s p j cj -> p_state cj <> ZOMBIE) /\ (hk = true <-> exists j cj, child s p j cj).

(** What wait() returns when there is a zombie. *)
Definition found (r : Z) (s' : kstate) : Prop :=
  exists i ci, first_zombie s p i ci /\ (r = p_pid ci /\ reaped s F pp D U addr i ci s' \/ r = -1 /\ unreaped s F pp D U addr ci s').

Lemma reap_spec i ci s1 :
  first_zombie s p i ci -> s1 ≡ locked L_wait s ->
  wp (me ← get_proc p;
      r ← (if negb (addr =? 0) then copyout (p_pagetable me) addr (le_split 4 (p_xstate ci)) else mret 0);
      if r <? 0 then release (L_proc i);; release L_wait;; mret (inr (inl (-1)))
      else freeproc i;; release (L_proc i);; release L_wait;; mret (inr (inl (p_pid ci)) : nat * bool + (Z + bool)))
    (fun r s' => exists v, r = inr (inl v) /\ found v s') (locked (L_proc i) s1).
Proof.
  intros Hfz E. pose proof Hw as [Hc _ _ Hp _ Has Hh Hch]. pose proof Hfz as (Hci & Hz & _).
  destruct (Hch i ci Hci Hz) as (G & Hown & HD & HU).
  apply wp_bind. apply (wp_get_entry _ _ pp); [change (k_procs s1 !! p = Some pp); rewrite (keq_k_procs _ _ E); exact Hp|].
  assert (Has2 : as_ok Avail (locked (L_proc i) s1) F (p_pagetable pp) D U).
  { eapply as_ok_move; [exact Has|exact (keq_k_mem _ _ E)|]. apply avail_scan; [done|apply Has]. }
  assert (Em : k_mem (locked (L_proc i) s1) = k_mem s) by exact (keq_k_mem _ _ E).
  apply wp_bind. eapply wp_mono; [apply (copy_status _ F (p_pagetable pp) D U addr ci Has2); [by rewrite Em|done]|].
  cbn beta. rewrite Em. intros r s3 (k & Has3 & Hr3 & Hy3 & Hst & [[-> ->]|(-> & Hk & Hua)]).
  - change (0 <? 0) with false. cbv iota. eapply wp_mono; [by eapply reap_freed|]. cbn beta. intros r s' [-> Hre].
    exists (p_pid ci). split; [done|]. exists i, ci. auto.
  - change (-1 <? 0) with true. cbv iota. apply (release_both i s1 s3); [done|done|]. exists (-1). split; [done|]. exists i, ci.
    split; [done|]. right. split; [done|]. exists k. split_and!; [|by etrans; [exact Hr3|apply rest_others, (keq_others _ _ E)]|apply sync_resync|exact Hst|done|done].
    eapply as_ok_move; [exact Has3|done|]. apply (avail_both i s1 s3 F); [done|done|apply Has3].
Qed.

(** ** Lemmas: the scan *)

Lemma wait_scan n i hk s1 :
  (i + n = 64)%nat -> s1 ≡ locked L_wait s -> (forall j cj, (j < i)%nat -> child s p j cj -> p_state cj <> ZOMBIE) ->
  (hk = true <-> exists j cj, (j < i)%nat /\ child s p j cj) ->
  wp (loop (S n) (wait_body p addr) (i, hk)) (fun r s' => match r with
    | inl v => found v s'
    | inr hk' => s' ≡ locked L_wait s /\ no_zombie hk'
    end) s1.
Proof.
  pose proof (wt_calm _ _ _ _ _ _ Hw) as Hc. pose proof (cm_procs _ _ Hc) as Hlen.
  revert i hk s1. induction n as [|n IH]; intros i hk s1 Hi E Hno Hhk; apply wp_loop_step; cbn beta iota delta [wait_body].
  { rewrite (proj2 (Nat.ltb_ge i 64)) by lia. apply wp_ret. split; [done|].
    assert (Hlt : forall j cj, child s p j cj -> (j < i)%nat) by (intros j cj [Hl _]; apply lookup_lt_Some in Hl; lia).
    split; [intros; by eapply Hno; [eapply Hlt|]|]. rewrite Hhk. naive_solver. }
  rewrite (proj2 (Nat.ltb_lt i 64)) by lia. pose proof (keq_k_procs _ _ E) as Ep. change (k_procs s1 = k_procs s) in Ep.
  destruct (lookup_lt_is_Some_2 (k_procs s) i) as [ci Hci]; [lia|].
  apply wp_bind, (wp_get_entry _ _ ci); [by rewrite Ep|].
  assert (Hstep : forall j cj, (j < S i)%nat -> child s p j cj -> (j < i)%nat \/ j = i /\ cj = ci).
  { intros j cj Hj [Hl Hpar]. destruct (decide (j = i)) as [->|]; [right; split; [done|congruence]|left; lia]. }
  case_bool_decide as Hpar; [|apply wp_ret, IH; [lia|done| |]].
  2:{ intros j cj Hj Hch. destruct (Hstep j cj Hj Hch) as [Hlt|[-> ->]]; [by eapply Hno|]. by destruct Hch. }
  2:{ rewrite Hhk. split; intros (j & cj & Hj & Hch); exists j, cj; (split; [|done]); [lia|].
      destruct (Hstep j cj Hj Hch) as [Hlt|[-> ->]]; [done|]. by destruct Hch. }
  assert (Hchild : child s p i ci) by done.
  assert (Hs1 : sync_ok s1) by (eapply sync_sync_ok; [apply (keq_sync _ _ E)|]; apply sync_ok_locked, Hc).
  apply wp_bind, wp_acquire; [eapply sync_free; [apply (keq_sync _ _ E)|]; apply free_locked; [done|]; apply Hc, not_elem_of_nil|].
  apply wp_bind, (wp_get_entry _ _ ci); [change (k_procs s1 !! i = Some ci); by rewrite Ep|].
  case_decide as Hz.
  - eapply wp_mono; [by apply (reap_spec i ci s1)|]. cbn beta. by intros r s' (v & -> & Hf).
  - apply wp_bind, (wp_release _ s1); [done|done|]. apply wp_ret, IH; [lia| | |].
    + etrans; [|exact E]. by apply resync_keq.
    + intros j cj Hj Hch. destruct (Hstep j cj Hj Hch) as [Hlt|[-> ->]]; [by eapply Hno|done].
    + split; [|done]. intros _. exists i, ci. split; [lia|done].
Qed.

(** wait() when there is no zombie. *)
Definition returned (r : Z) (s' : kstate) : Prop :=
  r = -1 /\ s' ≡ s /\ (forall j cj, child s p j cj -> p_state cj <> ZOMBIE) /\
  ((forall j cj, ~ child s p j cj) \/ p_killed pp <> 0).

(** wait() sleeps on the process itself, with wait_lock free. *)
Definition waiting (s' : kstate) : Prop :=
  (exists j cj, child s p j cj) /\ (forall j cj, child s p j cj -> p_state cj <> ZOMBIE) /\ p_killed pp = 0 /\
  sync s' = sync (locked (L_proc p) s) /\
  others s' = others (with_proc p (upd_p_state (fun _ => SLEEPING) (upd_p_chan (fun _ => Ch_proc p) pp)) s).

Lemma wait_ends s1 : s1 ≡ locked L_wait s -> ends (wait_loop p addr) (fun r s' => found r s' \/ returned r s') waiting s1.
Proof.
  intros E. pose proof Hw as [Hc Hn Hcpu Hp _ _ _ _]. pose proof (cm_sync _ _ Hc) as Hs.
  unfold wait_loop. apply ends_wp. eapply wp_mono.
  { apply (wait_scan 64 0 false); [done|done|lia|]. split; [done|]. intros (j & cj & Hj & _). lia. }
  cbn beta. intros [v|hk] s2; [intros Hf; apply ends_of_wp, wp_ret; by left|]. intros (E2 & Hno & Hhk).
  assert (Hret : forall s3, s3 ≡ locked L_wait s -> (forall j cj, ~ child s p j cj) \/ p_killed pp <> 0 ->
    ends (release L_wait;; mret (-1)) (fun r s' => found r s' \/ returned r s') waiting s3).
  { intros s3 E3 Hwhy. apply ends_of_wp, wp_bind, (wp_release _ s); [done|apply (keq_sync _ _ E3)|]. apply wp_ret. right.
    split_and!; [done| |done|done]. apply resync_keq; [|done]. exact (keq_others _ _ E3). }
  destruct hk; cbn [negb].
  - apply ends_wp, wp_bind. apply (killed_spec [L_wait] p pp); [| |by rewrite (keq_k_procs _ _ E2)|].
    + eapply calm_keq; [exact E2|]. by apply calm_locked.
    + by intros ?%list_elem_of_singleton.
    + intros s3 E3. apply wp_ret. destruct (Z.eqb_spec (p_killed pp) 0) as [Hk|Hk]; cbn [negb].
      2:{ apply Hret; [by etrans|by right]. }
      apply ends_of_switches, switches_bind. eapply switches_mono.
      { apply (sleep_switches L_wait (Ch_proc p) p pp s); [done..| | | |].
        - apply Hc, not_elem_of_nil.
        - done.
        - rewrite (keq_sync _ _ E3). apply (keq_sync _ _ E2).
        - by rewrite (keq_k_procs _ _ E3), (keq_k_procs _ _ E2). }
      cbn beta. intros s4 [Hy4 Ho4]. split_and!; [by apply Hhk|done|done|done|]. rewrite Ho4.
      set (f := fun q => upd_p_state (fun _ => SLEEPING) (upd_p_chan (fun _ => Ch_proc p) q)).
      etrans; [|exact (f_equal others (alter_with_proc f p pp s Hp))]. apply others_upd_k_procs. rewrite (keq_others _ _ E3). exact (keq_others _ _ E2).
  - apply ends_wp, wp_ret. apply Hret; [done|]. left. intros j cj Hch. discriminate (proj2 Hhk (ex_intro _ j (ex_intro _ cj Hch))).
Qed.
End reap.

(** ** Properties *)

(** C23: wait() takes the first child that has exited out of the table: it returns the
    child's process number with the exit status in the parent's memory at [addr], unless
    [addr] is 0, no other byte of that memory changed, every page of the child free and its
    entry unused; where the address is not mapped it returns -1 and the child stays a zombie.
    Without such a child it returns -1 with nothing changed if there is no child at all or the
    caller has been killed, and sleeps otherwise, with no lock but its own held.  When it
    wakes up it does the same on the state it then finds. *)
Theorem wait_correct s F p pp D U addr :
  waiter_ok s F p pp D U -> 0 <= addr < 2 ^ 64 ->
  let ret r s' := found s F p pp D U addr r s' \/ returned s p pp r s' in
  ends (wait addr) ret (waiting s p pp) s /\
  forall intena s1, sync (upd_k_cpu (upd_c_intena (fun _ => intena)) s1) = sync (locked (L_proc p) s) ->
    others (on_proc p (upd_p_chan (fun _ => Ch_null)) s1) = others s -> ends (wait_resume intena addr) ret (waiting s p pp) s1.
Proof.
  intros Hw Ha ret. pose proof Hw as [Hc _ Hcpu _ _ _ _ _]. pose proof (cm_sync _ _ Hc) as Hs. split.
  - unfold wait. apply ends_wp, (wp_curproc s p); [done..|]. intros s1 E.
    apply ends_wp, wp_acquire; [eapply sync_free; [apply (keq_sync _ _ E)|]; apply Hc, not_elem_of_nil|].
    apply (wait_ends s F p pp D U addr Hw Ha). by apply locked_keq.
  - intros intena s1 Hy Ho. unfold wait_resume. apply ends_wp, (sleep_resume_spec intena L_wait p s); [done|done| |done|].
    { pose proof (others_procs _ _ Ho) as Ep. rewrite <-(cm_procs _ _ Hc), <-Ep. symmetry. apply length_alter. }
    intros s2 Hy2 Ho2. assert (E2 : s2 ≡ locked L_wait s) by (split; [done|by rewrite Ho2]).
    apply ends_wp, (wp_curproc s2 p).
    + eapply sync_sync_ok; [exact Hy2|by apply sync_ok_locked].
    + rewrite (keq_c_proc _ _ E2). exact Hcpu.
    + intros s3 E3. apply (wait_ends s F p pp D U addr Hw Ha). by etrans.
Qed.
End wait.

(** ** Witness: a child that left a trapframe page and status 7 *)

#[local] Existing Instance example_platform.
#[local] Existing Instance free_page_allocator.

Definition example_zombie : proc :=
  upd_p_trapframe (fun _ => example_tf) (upd_p_parent (fun _ => Some 3%nat) (upd_p_pid (fun _ => 9) (upd_p_xstate (fun _ => 7)
    (upd_p_state (fun _ => ZOMBIE) zero_proc)))).

Definition example_waiting : kstate := with_proc 5 example_zombie example_piping.

Definition example_waiter : proc := upd_p_pagetable (fun _ => 0x80a00000) zero_proc.

Lemma example_only_child i ci : child example_waiting 3 i ci -> i = 5%nat /\ ci = example_zombie.
Proof.
  intros [Hl Hp]. change (<[5%nat := example_zombie]> (alter (upd_p_pagetable (fun _ => 0x80a00000)) 3%nat (replicate 64 zero_proc)) !! i = Some ci) in Hl.
  apply list_lookup_insert_Some in Hl as [(-> & -> & _)|(_ & Hl)]; [done|].
  assert (Hall : Forall (fun q => p_parent q = None) (alter (upd_p_pagetable (fun _ => 0x80a00000)) 3%nat (replicate 64 zero_proc))).
  { apply Forall_alter; [by apply Forall_replicate|by intros]. }
  apply (Forall_lookup_1 _ _ _ _ Hall) in Hl. congruence.
Qed.

Lemma example_waiting_as : as_ok Free example_waiting {[0x80900000]} 0x80a00000 example_dir example_user.
Proof. exact (as_ok_procs Free _ _ _ _ _ _ example_piping_as). Qed.

Lemma example_waiter_ok : waiter_ok Free example_waiting {[0x80900000]} 3 example_waiter example_dir example_user.
Proof.
  split.
  - split; [by split|reflexivity|reflexivity|]. exists 3%nat. split; [reflexivity|lia].
  - reflexivity.
  - reflexivity.
  - reflexivity.
  - discriminate.
  - exact example_waiting_as.
  - exact example_high_ok.
  - intros i ci [-> ->]%example_only_child _. exists ({[0x80900000]} ∪ {[example_tf]}). split.
    + exists {[0x80900000]}. split; [left; split; [reflexivity|]; split; [|reflexivity]; apply example_waiting_as|]. right.
      split; [discriminate|]. split; [by vm_compute|]. split; [|reflexivity]. apply (bool_decide_unpack _). by vm_compute.
    + split; apply (bool_decide_unpack _); by vm_compute.
Qed.

Lemma wait_correct_witness :
  ends (wait 16) (fun r s' => r = 9 /\ p_state <$> k_procs s' !! 5%nat = Some UNUSED /\ rd (k_mem s') 0x80a03010 = 7) (fun _ => False)
    example_waiting.
Proof.
  eapply ends_mono; [exact (proj1 (wait_correct Free example_tramp example_waiting {[0x80900000]} 3 example_waiter example_dir example_user 16 example_waiter_ok ltac:(lia)))|..].
  - cbn beta. intros r s' [(i & ci & ([-> ->]%example_only_child & _) & [[-> (G & _ & _ & Hfr & Hst & _)]|[-> (k & _ & _ & _ & _ & Hk & Hua)]])|(_ & _ & Hno & _)].
    + split; [reflexivity|]. split; [by rewrite (frame_procs _ _ _ Hfr)|].
      destruct (Hst 0%nat 7 eq_refl) as (x & Hx & Hv). change (Some 0x80a03010 = Some x) in Hx. by simplify_eq.
    + exfalso. destruct k as [|[|[|[|k]]]]; try discriminate Hua. cbn in Hk. lia.
    + by destruct (Hno 5%nat example_zombie).
  - intros s' (_ & Hno & _). by destruct (Hno 5%nat example_zombie).
Defined.
