(* ===== verification/ProcExit.v ===== *)
(** * Correctness of exit() (kernel/proc.c)

    A process gives up its files, its directory and its children, wakes its parent and
    becomes a zombie, which wait() then finds. *)

From Stdlib Require Import ZArith Lia.
From stdpp Require Import base tactics numbers gmap strings option list.
From S2P Require Import Prelude Kernel Spinlock Kstring Riscv Kalloc KallocInit Sched Bio Bcache Log LogSpec BcacheProps Fs File Proc SchedProps ProcAlloc ProcWait.

(** ** Specification *)

(** The number of descriptors of [fs] that name file [f]. *)
Definition refs (f : nat) (fs : list (option nat)) : Z := Z.of_nat (length (filter (fun o => o = Some f) fs)).

(** The file table with one reference less for each descriptor of [fs]. *)
Definition drop_files (fs : list (option nat)) (t : list file) : list file :=
  imap (fun f ff => upd_f_ref (fun n => n - refs f fs) ff) t.

(** Every open file has a reference that is not one of these descriptors. *)
Definition shared_files (fs : list (option nat)) (t : list file) : Prop :=
  forall f, Some f ∈ fs -> exists ff, t !! f = Some ff /\ refs f fs < f_ref ff.

(** The state with other processes, files and inodes. *)
Definition with_tables (l : list proc) (t : list file) (it : list inode) (s : kstate) : kstate :=
  upd_k_procs (fun _ => l) (upd_k_ftable (fun _ => t) (upd_k_itable (fun _ => it) s)).

(** A child of [p] becomes one of the initial process. *)
Definition adopt (p : nat) (ini : option nat) (q : proc) : proc :=
  if decide (p_parent q = Some p) then upd_p_parent (fun _ => ini) q else q.

(** The process [o] does not sleep in wait(). *)
Definition awake (o : option nat) (ps : list proc) : Prop :=
  forall j q, o = Some j -> ps !! j = Some q -> ~ (p_state q = SLEEPING /\ p_chan q = Ch_proc j).

(** The entry of a process that exited. *)
Definition zombie (status : Z) (pp : proc) : proc :=
  upd_p_state (fun _ => ZOMBIE) (upd_p_xstate (fun _ => status) (upd_p_cwd (fun _ => None) (upd_p_ofile (fun _ => replicate 16 None) pp))).

(** The running process [p], with directory [c] and parent [par]; its open files are shared,
    the directory is not freed with its reference, and the log has room. *)
Record exiter_ok (s : kstate) (p : nat) (pp : proc) (c : nat) (ic : inode) (par : nat) : Prop := {
  ex_calm : calm [] s;
  ex_noff : c_noff (k_cpu s) = 0;
  ex_cpu : c_proc (k_cpu s) = Some p;
  ex_proc : k_procs s !! p = Some pp;
  ex_init : k_initproc s <> Some p;
  ex_parent : p_parent pp = Some par /\ par <> p;
  ex_ofile : length (p_ofile pp) = 16%nat;
  ex_files : shared_files (p_ofile pp) (k_ftable s);
  ex_cwd : p_cwd pp = Some c;
  ex_dir : k_itable s !! c = Some ic;
  ex_keep : (i_ref ic =? 1) && i_valid ic && (i_nlink ic =? 0) = false;
  ex_com : l_committing (k_log s) = false;
  ex_room : l_n (k_log s) + (l_outstanding (k_log s) + 1) * 10 <= 30;
  ex_idle : l_outstanding (k_log s) = 0 -> l_n (k_log s) = 0;
}.

(** The processor is given up with the process a zombie. *)
Definition exited (s : kstate) (p : nat) (pp : proc) (c par : nat) (status : Z) (s' : kstate) : Prop :=
  exists ps, woke (Some p) (<[p := zombie status pp]> (adopt p (k_initproc s) <$> k_procs s)) ps /\
    awake (Some par) ps /\ ((exists j cj, k_procs s !! j = Some cj /\ p_parent cj = Some p) -> awake (k_initproc s) ps) /\
    sync s' = sync (locked (L_proc p) s) /\
    others s' = others (with_tables ps (drop_files (p_ofile pp) (k_ftable s)) (alter (upd_i_ref (fun n => n - 1)) c (k_itable s)) s).

Section exit.
Context `{Platform}.

(** ** Lemmas: the tables *)

Lemma with_tables_id s : with_tables (k_procs s) (k_ftable s) (k_itable s) s = s.
Proof. by destruct s. Qed.

Lemma sync_with_tables l t it s : sync (with_tables l t it s) = sync s.
Proof. unfold with_tables. by ksync. Qed.

Section tables.
Context l t it s s1 (E : s1 ≡ with_tables l t it s).

Lemma tables_procs : k_procs s1 = l.
Proof. exact (keq_k_procs _ _ E). Qed.

Lemma tables_ftable : k_ftable s1 = t.
Proof. exact (keq_k_ftable _ _ E). Qed.

Lemma tables_itable : k_itable s1 = it.
Proof. exact (keq_k_itable _ _ E). Qed.

Lemma tables_sync : sync s1 = sync s.
Proof. by rewrite (keq_sync _ _ E), sync_with_tables. Qed.

Lemma tables_calm lks : length l = 64%nat -> calm lks s -> calm lks s1.
Proof. intros Hl Hc. eapply calm_ext; [apply tables_sync| |done]. rewrite tables_procs, Hl. symmetry. apply Hc. Qed.

Lemma tables_upd_procs f : upd_k_procs f s1 ≡ with_tables (f l) t it s.
Proof. rewrite E. reflexivity. Qed.

Lemma tables_upd_ftable f : upd_k_ftable f s1 ≡ with_tables l (f t) it s.
Proof. rewrite E. reflexivity. Qed.

Lemma tables_upd_itable f : upd_k_itable f s1 ≡ with_tables l t (f it) s.
Proof. rewrite E. reflexivity. Qed.
End tables.

(** ** Lemmas: closing the files *)

Lemma fileclose_shared s f ff :
  sync_ok s -> free L_ftable s -> k_ftable s !! f = Some ff -> 1 < f_ref ff ->
  wp (fileclose f) (fun _ s' => s' ≡ upd_k_ftable (alter (upd_f_ref (fun n => n - 1)) f) s) s.
Proof.
  intros Hs Hf Hff Hr. unfold fileclose, upd_file. apply wp_bind, wp_acquire; [done|].
  apply wp_bind, (wp_get_entry _ _ ff); [exact Hff|]. rewrite (proj2 (Z.ltb_ge _ 1)) by lia. apply wp_bind, wp_modify.
  apply wp_bind, (wp_get_entry _ _ (upd_f_ref (fun n => n - 1) ff)).
  { change (alter (upd_f_ref (fun n => n - 1)) f (k_ftable s) !! f = Some (upd_f_ref (fun n => n - 1) ff)). by rewrite list_lookup_alter_eq, Hff. }
  change (f_ref (upd_f_ref (fun n => n - 1) ff)) with (f_ref ff - 1). rewrite (proj2 (Z.ltb_lt 0 _)) by lia.
  apply (wp_release L_ftable s); [done|by ksync|]. apply resync_keq; [done|by ksync].
Qed.

Lemma refs_snoc f fs o : refs f (fs ++ [o]) = refs f fs + (if decide (o = Some f) then 1 else 0).
Proof.
  unfold refs. rewrite filter_app, length_app. rewrite filter_cons, filter_nil. case_decide; cbn [length]; lia.
Qed.

Lemma drop_files_snoc fs o t :
  drop_files (fs ++ [o]) t = match o with Some f => alter (upd_f_ref (fun n => n - 1)) f (drop_files fs t) | None => drop_files fs t end.
Proof.
  apply list_eq. intros j. unfold drop_files. destruct o as [f|]; [destruct (decide (f = j)) as [<-|Hne]|].
  - rewrite list_lookup_alter_eq, !list_lookup_imap. destruct (t !! f) as [ff|]; [|done]. cbn. rewrite refs_snoc, decide_True by done.
    unfold upd_f_ref. cbn. do 2 f_equal. lia.
  - rewrite list_lookup_alter_ne, !list_lookup_imap by done. destruct (t !! j) as [ff|]; [|done]. cbn. rewrite refs_snoc, decide_False by congruence.
    unfold upd_f_ref. cbn. do 2 f_equal. lia.
  - rewrite !list_lookup_imap. destruct (t !! j); [|done]. cbn. rewrite refs_snoc, decide_False by done. unfold upd_f_ref. cbn. do 2 f_equal. lia.
Qed.

(** Before descriptor [k] is closed its file has another reference. *)
Lemma drop_shared fs t k f :
  shared_files fs t -> fs !! k = Some (Some f) -> exists ff, drop_files (take k fs) t !! f = Some ff /\ 1 < f_ref ff.
Proof.
  intros Hsh Hk. destruct (Hsh f) as (ff & Hff & Hr); [by eapply list_elem_of_lookup_2|].
  exists (upd_f_ref (fun n => n - refs f (take k fs)) ff). unfold drop_files. rewrite list_lookup_imap, Hff. split; [done|].
  change (1 < f_ref ff - refs f (take k fs)).
  assert (Hle : refs f (take k fs) + 1 <= refs f fs).
  { rewrite <-(take_drop_middle _ _ _ Hk) at 2. unfold refs. rewrite filter_app, length_app, filter_cons, decide_True by done. cbn [length]. lia. }
  lia.
Qed.

Lemma alter_insert {A} (f : A -> A) (p : nat) (q : A) (l : list A) : alter f p (<[p := q]> l) = <[p := f q]> l.
Proof.
  destruct (decide (p < length l)%nat) as [Hlt|Hge].
  - apply list_eq. intros j. destruct (decide (p = j)) as [<-|Hne].
    + by rewrite list_lookup_alter_eq, !list_lookup_insert_eq.
    + by rewrite list_lookup_alter_ne, !list_lookup_insert_ne.
  - rewrite !list_insert_ge by lia. apply list_eq. intros j. destruct (decide (p = j)) as [<-|Hne].
    + rewrite list_lookup_alter_eq, lookup_ge_None_2 by lia. done.
    + by rewrite list_lookup_alter_ne.
Qed.

(** The descriptors when the first [k] are closed. *)
Definition closed (k : nat) (fs : list (option nat)) : list (option nat) := replicate k None ++ drop k fs.

Lemma closed_step k fs o : fs !! k = Some o -> closed (S k) fs = <[k := None]> (closed k fs).
Proof.
  intros Ho. unfold closed. rewrite (drop_S _ _ _ Ho), insert_app_r_alt by (rewrite length_replicate; lia).
  rewrite length_replicate, Nat.sub_diag. cbn [insert list_insert]. by rewrite replicate_S_end, <-app_assoc.
Qed.

Lemma closed_lookup k fs : closed k fs !! k = fs !! k.
Proof. unfold closed. rewrite lookup_app_r by (rewrite length_replicate; lia). rewrite length_replicate, lookup_drop. f_equal. lia. Qed.

(** One turn of the loop over the descriptors *)
Definition close_body (p fd : nat) : K unit :=
  pp ← get_proc p;
  match nth fd (p_ofile pp) None with
  | Some f => fileclose f;; upd_proc p (upd_p_ofile (<[fd := None]>))
  | None => mret tt
  end.

Section close.
Context s p pp (Hs : sync_ok s) (Hfree : free L_ftable s) (Hp : k_procs s !! p = Some pp).
Context (Hlen : length (p_ofile pp) = 16%nat) (Hsh : shared_files (p_ofile pp) (k_ftable s)).

(** The state when [k] descriptors are closed. *)
Definition closing (k : nat) : kstate :=
  with_tables (<[p := upd_p_ofile (fun _ => closed k (p_ofile pp)) pp]> (k_procs s)) (drop_files (take k (p_ofile pp)) (k_ftable s)) (k_itable s) s.

Lemma closing_step k o :
  p_ofile pp !! k = Some o ->
  closing (S k) = with_tables (alter (upd_p_ofile (<[k := None]>)) p (<[p := upd_p_ofile (fun _ => closed k (p_ofile pp)) pp]> (k_procs s)))
    (match o with Some f => alter (upd_f_ref (fun n => n - 1)) f (drop_files (take k (p_ofile pp)) (k_ftable s)) | None => drop_files (take k (p_ofile pp)) (k_ftable s) end)
    (k_itable s) s.
Proof.
  intros Ho. unfold closing. rewrite (take_S_r _ _ _ Ho), drop_files_snoc. by rewrite alter_insert, (closed_step _ _ _ Ho).
Qed.

Lemma close_step k s1 : (k < 16)%nat -> s1 ≡ closing k -> wp (close_body p k) (fun _ s' => s' ≡ closing (S k)) s1.
Proof.
  intros Hk E. unfold close_body, upd_proc. destruct (lookup_lt_is_Some_2 (p_ofile pp) k) as [o Ho]; [lia|].
  apply wp_bind, (wp_get_entry _ _ (upd_p_ofile (fun _ => closed k (p_ofile pp)) pp)).
  { rewrite (tables_procs _ _ _ _ _ E). apply list_lookup_insert_eq. by eapply lookup_lt_Some. }
  change (p_ofile (upd_p_ofile ?f pp)) with (f (p_ofile pp)). cbn beta.
  assert (Ho' : closed k (p_ofile pp) !! k = Some o) by by rewrite closed_lookup.
  rewrite (nth_lookup_Some _ _ _ _ Ho'), (closing_step k o Ho). pose proof (tables_sync _ _ _ _ _ E) as Hy. destruct o as [f|].
  - destruct (drop_shared _ _ _ _ Hsh Ho) as (ff & Hff & Hr). apply wp_bind. eapply wp_mono; [apply (fileclose_shared s1 f ff)|].
    + by eapply sync_sync_ok.
    + by eapply sync_free.
    + by rewrite (tables_ftable _ _ _ _ _ E).
    + done.
    + cbn beta. intros _ s2 E2. apply wp_modify. apply tables_upd_procs. rewrite E2. by apply tables_upd_ftable.
  - apply wp_ret. rewrite E. unfold closing. rewrite alter_insert.
    change (upd_p_ofile (<[k := None]>) (upd_p_ofile (fun _ => closed k (p_ofile pp)) pp)) with (upd_p_ofile (fun _ => <[k := None]> (closed k (p_ofile pp))) pp).
    by rewrite (list_insert_id _ _ _ Ho').
Qed.

Lemma close_loop s1 : s1 ≡ s -> wp (for_each (seq 0 16) (close_body p)) (fun _ s' => s' ≡ closing 16) s1.
Proof.
  intros E.
  assert (Hg : forall n k s1, (k + n = 16)%nat -> s1 ≡ closing k -> wp (for_each (seq k n) (close_body p)) (fun _ s' => s' ≡ closing 16) s1).
  { induction n as [|n IH]; intros k s2 Hk E2; cbn [seq for_each].
    - apply wp_ret. by assert (k = 16%nat) as -> by lia.
    - apply wp_bind. eapply wp_mono; [by apply (close_step k s2); [lia|]|]. cbn beta. intros _ s3 E3. apply IH; [lia|done]. }
  apply (Hg 16%nat 0%nat s1); [done|]. rewrite E. unfold closing. change (closed 0 (p_ofile pp)) with (p_ofile pp).
  replace (upd_p_ofile (fun _ => p_ofile pp) pp) with pp by by destruct pp. rewrite (list_insert_id _ _ _ Hp).
  replace (drop_files (take 0 (p_ofile pp)) (k_ftable s)) with (k_ftable s); [by rewrite with_tables_id|].
  change (take 0 (p_ofile pp)) with (@nil (option nat)). unfold drop_files. apply list_eq. intros j. rewrite list_lookup_imap.
  destruct (k_ftable s !! j) as [ff|]; [|done]. destruct ff. cbn. unfold upd_f_ref. cbn. do 2 f_equal. unfold refs. cbn. lia.
Qed.
End close.

(** ** Lemmas: the directory *)

Lemma iput_shared s ip i :
  sync_ok s -> free L_itable s -> k_itable s !! ip = Some i -> (i_ref i =? 1) && i_valid i && (i_nlink i =? 0) = false ->
  wp (iput ip) (fun _ s' => s' ≡ upd_k_itable (alter (upd_i_ref (fun n => n - 1)) ip) s) s.
Proof.
  intros Hs Hf Hi Hc. unfold iput, upd_inode. apply wp_bind, wp_acquire; [done|].
  apply wp_bind, (wp_get_entry _ _ i); [exact Hi|]. rewrite Hc. cbn [when]. apply wp_bind, wp_ret, wp_bind, wp_modify.
  apply (wp_release L_itable s); [done|by ksync|]. apply resync_keq; [done|by ksync].
Qed.

(** end_op() when the transaction wrote nothing: with the log marked as committing, and
    as a whole. *)
Lemma commit_empty s s1 :
  calm [] s -> l_committing (k_log s) = false -> l_n (k_log s) = 0 ->
  s1 ≡ upd_k_log (fun lg => upd_l_committing (fun _ => true) (upd_l_outstanding (fun n => n - 1) lg)) s ->
  wp (commit;; acquire L_log;; modify (upd_k_log (upd_l_committing (fun _ => false)));; wakeup Ch_log;; release L_log)
    (fun _ s' => s' ≡ upd_k_procs (woken Ch_log (c_proc (k_cpu s)) (seq 0 64)) (upd_k_log (upd_l_outstanding (fun n => n - 1)) s)) s1.
Proof.
  intros Hc Hcm Hn E1. unfold commit. apply wp_bind, wp_bind, wp_gets.
  apply wp_when_false; [rewrite (keq_k_log _ _ E1); by cbn; rewrite Hn|].
  assert (Hc1 : calm [] s1) by (eapply calm_keq; [exact E1|]; by eapply calm_ext; [ksync|..]).
  apply wp_bind, wp_acquire; [apply Hc1, not_elem_of_nil|]. apply wp_bind, wp_modify, wp_bind.
  set (s3 := upd_k_log (upd_l_committing (fun _ => false)) (locked L_log s1)).
  assert (Ec : c_proc (k_cpu s3) = c_proc (k_cpu s)) by exact (keq_c_proc _ _ E1).
  eapply wp_mono; [apply (wakeup_spec [L_log]); [by apply calm_upd_log, calm_locked|by intros i ?%list_elem_of_singleton]|].
  cbn beta. intros _ s2 E2. apply (wp_release L_log s1); [apply Hc1|by rewrite (keq_sync _ _ E2); ksync|].
  rewrite Ec in E2. apply resync_keq; [|by rewrite (keq_sync _ _ E1); ksync].
  rewrite (keq_others _ _ E2). apply others_upd_k_procs.
  etrans; [exact (keq_others _ _ (upd_k_log_proper (upd_l_committing (fun _ => false)) _ _ E1))|]. rewrite upd_k_log_comp.
  apply f_equal, upd_k_log_ext. unfold upd_l_committing, upd_l_outstanding. cbn. by rewrite Hcm.
Qed.

Lemma end_op_empty s :
  calm [] s -> l_committing (k_log s) = false -> (l_outstanding (k_log s) = 1 -> l_n (k_log s) = 0) ->
  wp end_op (fun _ s' => s' ≡ upd_k_procs (woken Ch_log (c_proc (k_cpu s)) (seq 0 64))
    (upd_k_log (upd_l_outstanding (fun n => n - 1)) s)) s.
Proof.
  intros Hc Hcm Hn. destruct (decide (l_outstanding (k_log s) = 1)) as [Hout|Hout]; [|by apply (end_op_more cache_ok)].
  unfold end_op. apply wp_bind, wp_acquire; [apply Hc, not_elem_of_nil|]. apply wp_bind, wp_modify, wp_bind, wp_gets.
  change (k_log (upd_k_log ?f (locked L_log s))) with (f (k_log s)).
  cbn [l_committing upd_l_outstanding l_outstanding]. rewrite Hcm, Hout. change (1 - 1 =? 0) with true. cbn iota.
  apply wp_bind, wp_bind, wp_modify, wp_ret, wp_bind, (wp_release L_log s); [apply Hc|by ksync|].
  apply wp_when_true; [done|]. apply commit_empty; [done|done|by apply Hn|]. apply resync_keq; [done|by ksync].
Qed.

(** ** Lemmas: the children *)

Lemma woke_alter me f i ps ps' :
  (forall q, f (upd_p_state (fun _ => RUNNABLE) q) = upd_p_state (fun _ => RUNNABLE) (f q)) -> (forall q, p_state (f q) = p_state q) ->
  woke me ps ps' -> woke me (alter f i ps) (alter f i ps').
Proof.
  intros Hf Hst [Hl Hw]. split; [by rewrite !length_alter|]. intros j q Hq. destruct (decide (i = j)) as [<-|Hne].
  - rewrite list_lookup_alter_eq in Hq |- *. destruct (ps !! i) as [q0|] eqn:E; [|done]. cbn in Hq. simplify_eq.
    destruct (Hw i q0 E) as (q' & -> & Hq'). exists (f q'). split; [done|]. rewrite Hst. naive_solver.
  - rewrite list_lookup_alter_ne in Hq |- * by done. by apply Hw.
Qed.

Lemma woke_fmap me f ps ps' :
  (forall q, f (upd_p_state (fun _ => RUNNABLE) q) = upd_p_state (fun _ => RUNNABLE) (f q)) -> (forall q, p_state (f q) = p_state q) ->
  woke me ps ps' -> woke me (f <$> ps) (f <$> ps').
Proof.
  intros Hf Hst [Hl Hw]. split; [by rewrite !length_fmap|]. intros j q Hq. rewrite list_lookup_fmap in Hq |- *.
  destruct (ps !! j) as [q0|] eqn:E; [|done]. cbn in Hq. simplify_eq.
  destruct (Hw j q0 E) as (q' & -> & Hq'). exists (f q'). split; [done|]. rewrite Hst. naive_solver.
Qed.

Lemma woke_insert me i q ps ps' : woke me ps ps' -> woke me (<[i := q]> ps) (<[i := q]> ps').
Proof.
  intros [Hl Hw]. split; [by rewrite !length_insert|]. intros j x Hx. apply list_lookup_insert_Some in Hx as [(<- & <- & Hlt)|[Hne Hx]].
  - exists q. rewrite list_lookup_insert_eq by lia. auto.
  - rewrite list_lookup_insert_ne by done. by apply Hw.
Qed.

Lemma awake_woke me o ps ps' : woke me ps ps' -> awake o ps -> awake o ps'.
Proof.
  intros [Hl Hw] Ha j q Ho Hq [Hst Hch]. destruct (lookup_lt_is_Some_2 ps j) as [q0 Hq0]; [apply lookup_lt_Some in Hq; lia|].
  destruct (Hw j q0 Hq0) as (q' & Hq' & [->|(_ & _ & ->)]); simplify_eq. by eapply Ha.
Qed.

Lemma awake_alter f i o ps :
  (forall q, p_state (f q) = p_state q /\ p_chan (f q) = p_chan q) -> awake o ps -> awake o (alter f i ps).
Proof.
  intros Hf Ha j q Ho Hq [Hst Hch]. destruct (decide (i = j)) as [<-|Hne].
  - rewrite list_lookup_alter_eq in Hq. destruct (ps !! i) as [q0|] eqn:E; [|done]. cbn in Hq. simplify_eq.
    destruct (Hf q0) as [E1 E2]. rewrite E1, E2 in *. by eapply Ha.
  - rewrite list_lookup_alter_ne in Hq by done. by eapply Ha.
Qed.

(** wakeup() on a process's own channel *)
Lemma woken_awake o p ps : o <> Some p -> length ps = 64%nat -> awake o (woken (proc_chan o) (Some p) (seq 0 64) ps).
Proof.
  intros Hne Hl. assert (Hd : forall j q, ps !! j = Some q -> j ∈ seq 0 64).
  { intros j q E. apply elem_of_seq. apply lookup_lt_Some in E. lia. }
  revert Hd. generalize (seq 0 64). intros d Hd j q -> Hq [Hst Hch]. rewrite lookup_woken in Hq. destruct (ps !! j) as [q0|] eqn:E; [|done]. cbn in Hq. simplify_eq.
  case_decide as Hc; [done|]. apply Hc. split_and!; [by eapply Hd|congruence|done|done].
Qed.

(** The entries when those below [k] have been looked at. *)
Definition adopting (p : nat) (ini : option nat) (k : nat) (ps : list proc) : list proc :=
  imap (fun i q => if decide (i < k)%nat then adopt p ini q else q) ps.

Lemma adopting_step p ini k q ps :
  ps !! k = Some q ->
  adopting p ini (S k) ps = if decide (p_parent q = Some p) then alter (upd_p_parent (fun _ => ini)) k (adopting p ini k ps) else adopting p ini k ps.
Proof.
  intros Hq. unfold adopting, adopt. apply list_eq. intros j. destruct (decide (k = j)) as [<-|Hne].
  - assert (E : forall n, imap (fun i q => if decide (i < n)%nat then (if decide (p_parent q = Some p) then upd_p_parent (fun _ => ini) q else q) else q) ps !! k =
      Some (if decide (k < n)%nat then (if decide (p_parent q = Some p) then upd_p_parent (fun _ => ini) q else q) else q)).
    { intros n. by rewrite list_lookup_imap, Hq. }
    rewrite E, decide_True by lia. destruct (decide (p_parent q = Some p)); [rewrite list_lookup_alter_eq|]; by rewrite E, decide_False by lia.
  - transitivity (imap (fun i q => if decide (i < k)%nat then (if decide (p_parent q = Some p) then upd_p_parent (fun _ => ini) q else q) else q) ps !! j).
    + rewrite !list_lookup_imap. destruct (ps !! j); [|done]. cbn. destruct (decide (j < k)%nat).
      * by rewrite decide_True by lia.
      * by rewrite decide_False by lia.
    + case_decide; [by rewrite list_lookup_alter_ne|done].
Qed.

Lemma adopting_all p ini ps : adopting p ini (length ps) ps = adopt p ini <$> ps.
Proof.
  apply list_eq. intros j. unfold adopting. rewrite list_lookup_imap, list_lookup_fmap. destruct (ps !! j) eqn:E; [|done]. cbn.
  by rewrite decide_True by (by eapply lookup_lt_Some).
Qed.

(** What reparent() has done when it has looked at [k] entries. *)
Definition reparenting (s : kstate) (p k : nat) (s' : kstate) : Prop :=
  exists ps, s' ≡ upd_k_procs (fun _ => ps) s /\ woke (Some p) (adopting p (k_initproc s) k (k_procs s)) ps /\
    ((exists j cj, (j < k)%nat /\ k_procs s !! j = Some cj /\ p_parent cj = Some p) -> awake (k_initproc s) ps).

(** One turn of reparent() *)
Definition reparent_body (p i : nat) : K unit :=
  pp ← get_proc i;
  when (bool_decide (p_parent pp = Some p))
    (ini ← gets k_initproc;
     upd_proc i (upd_p_parent (fun _ => ini));;
     wakeup (proc_chan ini)).

Lemma adopting_lookup p ini k q ps : ps !! k = Some q -> adopting p ini k ps !! k = Some q.
Proof. intros Hq. unfold adopting. rewrite list_lookup_imap, Hq. cbn. by rewrite decide_False by lia. Qed.

Lemma reparent_step s p k s1 :
  calm [L_wait] s -> c_proc (k_cpu s) = Some p -> k_initproc s <> Some p -> (k < 64)%nat -> reparenting s p k s1 ->
  wp (reparent_body p k) (fun _ => reparenting s p (S k)) s1.
Proof.
  intros Hc Hcpu Hini Hk (ps & E & Hw & Ha). pose proof (cm_procs _ _ Hc) as Hlen. unfold reparent_body, upd_proc.
  destruct (lookup_lt_is_Some_2 (k_procs s) k) as [q Hq]; [lia|].
  destruct (proj2 Hw k q (adopting_lookup _ _ _ _ _ Hq)) as (q' & Hq' & Hqq).
  assert (Hpar : p_parent q' = p_parent q) by (destruct Hqq as [->|(_ & _ & ->)]; done).
  assert (Hl : length ps = 64%nat) by (rewrite (proj1 Hw); unfold adopting; by rewrite length_imap).
  pose proof (keq_k_procs _ _ E) as Ep. change (k_procs s1 = ps) in Ep.
  apply wp_bind, (wp_get_entry _ _ q'); [by rewrite Ep|]. rewrite Hpar. pose proof (adopting_step p (k_initproc s) k q (k_procs s) Hq) as Est.
  case_bool_decide as Hch.
  - rewrite decide_True in Est by done. apply wp_when_true; [done|]. apply wp_bind, wp_gets.
    assert (Ei : k_initproc s1 = k_initproc s) by exact (keq_k_initproc _ _ E). rewrite Ei.
    apply wp_bind, wp_modify. set (l := alter (upd_p_parent (fun _ => k_initproc s)) k ps).
    assert (E2 : upd_k_procs (alter (upd_p_parent (fun _ => k_initproc s)) k) s1 ≡ upd_k_procs (fun _ => l) s) by (rewrite E; reflexivity).
    assert (Hl2 : length l = 64%nat) by (unfold l; by rewrite length_alter).
    assert (Hw2 : woke (Some p) (adopting p (k_initproc s) (S k) (k_procs s)) l) by (rewrite Est; by apply woke_alter).
    eapply wp_mono; [apply (wakeup_spec [L_wait])|].
    + eapply calm_keq; [exact E2|]. eapply calm_ext; [by ksync| |exact Hc]. by rewrite Hlen.
    + by intros i ?%list_elem_of_singleton.
    + cbn beta. intros _ s3 E3.
      assert (Ec : c_proc (k_cpu (upd_k_procs (alter (upd_p_parent (fun _ => k_initproc s)) k) s1)) = Some p).
      { rewrite (keq_c_proc _ _ E2). exact Hcpu. }
      rewrite Ec in E3. exists (woken (proc_chan (k_initproc s)) (Some p) (seq 0 64) l).
      split; [rewrite E3, E2; reflexivity|]. split; [eapply woke_trans; [exact Hw2|apply woken_woke]|]. intros _. by apply woken_awake.
  - rewrite decide_False in Est by done. apply wp_when_false; [done|]. exists ps. split; [done|]. split; [by rewrite Est|].
    intros (j & cj & Hj & Hcj & Hpj). apply Ha. exists j, cj. split; [|done]. destruct (decide (j = k)) as [->|]; [by simplify_eq|lia].
Qed.

Lemma reparent_spec s p :
  calm [L_wait] s -> c_proc (k_cpu s) = Some p -> k_initproc s <> Some p -> wp (reparent p) (fun _ => reparenting s p 64) s.
Proof.
  intros Hc Hcpu Hini. pose proof (cm_procs _ _ Hc) as Hlen.
  assert (Hg : forall n k s1, (k + n = 64)%nat -> reparenting s p k s1 -> wp (for_each (seq k n) (reparent_body p)) (fun _ => reparenting s p 64) s1).
  { induction n as [|n IH]; intros k s2 Hk E2; cbn [seq for_each].
    - apply wp_ret. by assert (k = 64%nat) as <- by lia.
    - apply wp_bind. eapply wp_mono; [by apply (reparent_step s p k s2); [..|lia|]|]. cbn beta. intros _ s3 E3. apply IH; [lia|done]. }
  apply (Hg 64%nat 0%nat s); [done|]. exists (k_procs s). split; [by destruct s|]. split; [|intros (j & cj & Hj & _); lia].
  replace (adopting p (k_initproc s) 0 (k_procs s)) with (k_procs s); [apply woke_refl|]. unfold adopting. apply list_eq. intros j.
  rewrite list_lookup_imap. by destruct (k_procs s !! j).
Qed.

(** ** Lemmas: exit() *)

Lemma log_back s : upd_k_log (upd_l_outstanding (fun n => n - 1)) (upd_k_log (upd_l_outstanding (fun n => n + 1)) s) = s.
Proof.
  rewrite upd_k_log_comp, (upd_k_log_ext _ (fun x => x)); [by destruct s|]. destruct (k_log s). unfold upd_l_outstanding. cbn. f_equal. lia.
Qed.

(** The directory is given up in a transaction of its own. *)
Lemma put_dir {B} s s1 l t it p q c ic (k : K B) Q :
  calm [] s -> c_proc (k_cpu s) = Some p -> length l = 64%nat -> s1 ≡ with_tables l t it s ->
  l !! p = Some q -> p_cwd q = Some c -> it !! c = Some ic -> (i_ref ic =? 1) && i_valid ic && (i_nlink ic =? 0) = false ->
  l_committing (k_log s) = false -> l_n (k_log s) + (l_outstanding (k_log s) + 1) * 10 <= 30 -> (l_outstanding (k_log s) = 0 -> l_n (k_log s) = 0) ->
  (forall s2, s2 ≡ with_tables (woken Ch_log (Some p) (seq 0 64) l) t (alter (upd_i_ref (fun n => n - 1)) c it) s -> switches k Q s2) ->
  switches (begin_op;; pp ← get_proc p; cwd ← deref (p_cwd pp); iput cwd;; end_op;; k) Q s1.
Proof.
  intros Hc Hcpu Hl E Hq Hcwd Hic Hkeep Hcm Hroom Hidle Hk. pose proof (tables_calm _ _ _ _ _ E [] Hl Hc) as Hc1.
  pose proof (keq_k_log _ _ E) as El. change (k_log s1 = k_log s) in El.
  apply switches_wp. eapply wp_mono; [by apply begin_op_spec; rewrite ?El|]. cbn beta. intros _ s2 E2.
  assert (Hc2 : calm [] s2) by (eapply calm_keq; [exact E2|by apply calm_upd_log]).
  apply switches_wp, (wp_get_entry _ _ q).
  { rewrite (keq_k_procs _ _ E2). change (k_procs s1 !! p = Some q). by rewrite (tables_procs _ _ _ _ _ E). }
  rewrite Hcwd. cbn [deref]. apply switches_wp, wp_ret, switches_wp. eapply wp_mono; [apply (iput_shared s2 c ic)|].
  - apply Hc2.
  - apply Hc2, not_elem_of_nil.
  - rewrite (keq_k_itable _ _ E2). change (k_itable s1 !! c = Some ic). by rewrite (tables_itable _ _ _ _ _ E).
  - done.
  - cbn beta. intros _ s3 E3.
    assert (E3' : s3 ≡ upd_k_log (upd_l_outstanding (fun n => n + 1)) (with_tables l t (alter (upd_i_ref (fun n => n - 1)) c it) s)).
    { rewrite E3, E2, E. reflexivity. }
    pose proof (keq_k_log _ _ E3') as El3. change (k_log s3 = upd_l_outstanding (fun n => n + 1) (k_log s)) in El3.
    apply switches_wp. eapply wp_mono; [apply end_op_empty|].
    + eapply calm_keq; [exact E3'|]. apply calm_upd_log. by eapply tables_calm.
    + by rewrite El3.
    + rewrite El3. cbn. intros Ho. apply Hidle. lia.
    + cbn beta. intros _ s4 E4. apply Hk.
      assert (Ec : c_proc (k_cpu s3) = Some p) by (rewrite (keq_c_proc _ _ E3'); exact Hcpu). rewrite Ec in E4.
      rewrite E4, E3', log_back. reflexivity.
Qed.

(** The end of exit(): with the process a zombie the processor is given up. *)
Lemma exit_sched s s1 l t it p q status :
  calm [] s -> c_noff (k_cpu s) = 0 -> c_proc (k_cpu s) = Some p -> s1 ≡ locked L_wait (with_tables l t it s) -> l !! p = Some q ->
  switches (A := unit) (acquire (L_proc p);; upd_proc p (upd_p_xstate (fun _ => status));; upd_proc p (upd_p_state (fun _ => ZOMBIE));; release L_wait;; sched;; panic "zombie exit")
    (fun s' => sync s' = sync (locked (L_proc p) s) /\
      others s' = others (with_tables (<[p := upd_p_state (fun _ => ZOMBIE) (upd_p_xstate (fun _ => status) q)]> l) t it s)) s1.
Proof.
  intros Hc Hn Hcpu E Hq. pose proof (cm_sync _ _ Hc) as Hs.
  assert (Hy : sync s1 = sync (locked L_wait s)) by (rewrite (keq_sync _ _ E); apply sync_locked, sync_with_tables).
  apply switches_wp, wp_acquire; [eapply sync_free; [exact Hy|]; apply free_locked; [done|]; apply Hc, not_elem_of_nil|].
  unfold upd_proc. apply switches_wp, wp_modify, switches_wp, wp_modify, switches_wp.
  eapply wp_mono; [apply (release_outer (L_proc p) L_wait s); [done|done|]|].
  { rewrite !sync_k_procs. apply sync_locked. exact Hy. }
  cbn beta. intros _ s2 [Hy2 Ho2].
  assert (Ep : others s2 = others (with_tables (<[p := upd_p_state (fun _ => ZOMBIE) (upd_p_xstate (fun _ => status) q)]> l) t it s)).
  { rewrite Ho2. etrans; [apply others_upd_k_procs, others_upd_k_procs; exact (keq_others _ _ E : others s1 = others (with_tables l t it s))|]. rewrite upd_k_procs_comp. unfold with_tables.
    rewrite upd_k_procs_comp. apply f_equal, upd_k_procs_ext. rewrite <-(list_insert_id l p q Hq) at 1. by rewrite !alter_insert. }
  set (l2 := <[p := upd_p_state (fun _ => ZOMBIE) (upd_p_xstate (fun _ => status) q)]> l) in *.
  pose proof (others_procs _ _ Ep) as Hp2.
  apply switches_bind. eapply switches_mono.
  { apply (sched_switches p (upd_p_state (fun _ => ZOMBIE) (upd_p_xstate (fun _ => status) q)) s); [exact Hs|exact Hn|exact Hcpu|exact Hy2| |].
    - rewrite Hp2. change (l2 !! p = Some (upd_p_state (fun _ => ZOMBIE) (upd_p_xstate (fun _ => status) q))). apply list_lookup_insert_eq. by eapply lookup_lt_Some.
    - done. }
  cbn beta. intros s3 E3. split; [by rewrite (keq_sync _ _ E3)|]. by rewrite (keq_others _ _ E3).
Qed.

Lemma exit_tail s s1 l t it p q par status :
  calm [] s -> c_noff (k_cpu s) = 0 -> c_proc (k_cpu s) = Some p -> k_initproc s <> Some p -> length l = 64%nat ->
  s1 ≡ with_tables l t it s -> l !! p = Some q -> p_parent q = Some par -> par <> p ->
  switches (A := unit) (acquire L_wait;; reparent p;; pp ← get_proc p; wakeup (proc_chan (p_parent pp));;
      acquire (L_proc p);; upd_proc p (upd_p_xstate (fun _ => status));; upd_proc p (upd_p_state (fun _ => ZOMBIE));; release L_wait;; sched;; panic "zombie exit")
    (fun s' => exists ps, woke (Some p) (<[p := upd_p_state (fun _ => ZOMBIE) (upd_p_xstate (fun _ => status) q)]> (adopt p (k_initproc s) <$> l)) ps /\
      awake (Some par) ps /\ ((exists j cj, l !! j = Some cj /\ p_parent cj = Some p) -> awake (k_initproc s) ps) /\
      sync s' = sync (locked (L_proc p) s) /\ others s' = others (with_tables ps t it s)) s1.
Proof.
  intros Hc Hn Hcpu Hini Hl E Hq Hpar Hne. pose proof (cm_sync _ _ Hc) as Hs. set (T := locked L_wait (with_tables l t it s)).
  apply switches_wp, wp_acquire; [eapply sync_free; [apply (tables_sync _ _ _ _ _ E)|]; apply Hc, not_elem_of_nil|].
  assert (Hc2 : calm [L_wait] (locked L_wait s1)) by (apply calm_locked; by eapply tables_calm).
  apply switches_wp. eapply wp_mono; [apply (reparent_spec _ p Hc2)|].
  { change (c_proc (k_cpu s1) = Some p). rewrite (keq_c_proc _ _ E). exact Hcpu. }
  { change (k_initproc s1 <> Some p). rewrite (keq_k_initproc _ _ E). exact Hini. }
  cbn beta. intros _ s2 (ps & E2 & Hw & Ha).
  change (k_initproc (locked L_wait s1)) with (k_initproc s1) in Hw, Ha. change (k_procs (locked L_wait s1)) with (k_procs s1) in Hw, Ha.
  rewrite (tables_procs _ _ _ _ _ E) in Hw, Ha. pose proof (keq_k_initproc _ _ E) as Ei. change (k_initproc s1 = k_initproc s) in Ei. rewrite Ei in Hw, Ha.
  rewrite <-Hl, adopting_all in Hw.
  assert (Hq2 : ps !! p = Some q).
  { eapply woke_me; [exact Hw|done|]. rewrite list_lookup_fmap, Hq. cbn. unfold adopt. by rewrite decide_False by congruence. }
  assert (E2' : s2 ≡ locked L_wait (with_tables ps t it s)).
  { rewrite E2. change (locked L_wait (upd_k_procs (fun _ => ps) s1) ≡ locked L_wait (with_tables ps t it s)). apply locked_keq. rewrite E. reflexivity. }
  assert (Hl2 : length ps = 64%nat) by (rewrite (proj1 Hw), length_fmap; done).
  pose proof (keq_k_procs _ _ E2') as Ep. change (k_procs s2 = ps) in Ep.
  apply switches_wp, (wp_get_entry _ _ q); [by rewrite Ep|]. rewrite Hpar. apply switches_wp. eapply wp_mono; [apply (wakeup_spec [L_wait])|].
  { eapply calm_keq; [exact E2'|]. apply calm_locked. by eapply tables_calm. }
  { by intros i ?%list_elem_of_singleton. }
  cbn beta. intros _ s3 E3. assert (Ec : c_proc (k_cpu s2) = Some p) by (rewrite (keq_c_proc _ _ E2'); exact Hcpu). rewrite Ec in E3.
  set (ps3 := woken (proc_chan (Some par)) (Some p) (seq 0 64) ps).
  assert (E3' : s3 ≡ locked L_wait (with_tables ps3 t it s)) by (rewrite E3, E2'; reflexivity).
  assert (Hw3 : woke (Some p) ps ps3) by apply woken_woke.
  assert (Haw : forall o z, awake o ps3 -> o <> Some p -> awake o (<[p := z]> ps3)).
  { intros o z Ho Hop j x -> Hx. rewrite list_lookup_insert_ne in Hx by congruence. by apply Ho. }
  eapply switches_mono; [apply (exit_sched s s3 ps3 t it p q status); [done..|by eapply woke_me]|].
  cbn beta. intros s4 [Hy4 Ho4]. eexists. split_and!; [| | |exact Hy4|exact Ho4].
  - apply woke_insert. by eapply woke_trans.
  - apply Haw; [apply woken_awake; [congruence|done]|congruence].
  - intros (j & cj & Hj & Hpj). apply Haw; [|done]. eapply awake_woke; [exact Hw3|]. apply Ha. exists j, cj. apply lookup_lt_Some in Hj as ?. auto with lia.
Qed.

Lemma adopt_state p ini q : adopt p ini (upd_p_state (fun _ => RUNNABLE) q) = upd_p_state (fun _ => RUNNABLE) (adopt p ini q).
Proof. unfold adopt. change (p_parent (upd_p_state _ q)) with (p_parent q). by case_decide. Qed.

Lemma adopt_p_state p ini q : p_state (adopt p ini q) = p_state q.
Proof. unfold adopt. by case_decide. Qed.

(** The entries of exit() before it gives up the children: [l] is the table with the
    process changed to [q] and some sleepers woken. *)
Lemma exited_tables s p pp c par status q l ps s' :
  k_procs s !! p = Some pp -> p_parent pp = Some par -> par <> p -> p_parent q = p_parent pp ->
  woke (Some p) (<[p := q]> (k_procs s)) l -> upd_p_state (fun _ => ZOMBIE) (upd_p_xstate (fun _ => status) q) = zombie status pp ->
  woke (Some p) (<[p := zombie status pp]> (adopt p (k_initproc s) <$> l)) ps -> awake (Some par) ps ->
  ((exists j cj, l !! j = Some cj /\ p_parent cj = Some p) -> awake (k_initproc s) ps) ->
  sync s' = sync (locked (L_proc p) s) ->
  others s' = others (with_tables ps (drop_files (p_ofile pp) (k_ftable s)) (alter (upd_i_ref (fun n => n - 1)) c (k_itable s)) s) ->
  exited s p pp c par status s'.
Proof.
  intros Hp Hpar Hne Hpq Hw Hz Hw2 Ha Hini Hy Ho. exists ps. split_and!; [|done| |done|done].
  - eapply woke_trans; [|exact Hw2]. apply (woke_fmap _ (adopt p (k_initproc s))) in Hw; [|apply adopt_state|apply adopt_p_state].
    apply (woke_insert _ p (zombie status pp)) in Hw. by rewrite list_fmap_insert, list_insert_insert_eq in Hw.
  - intros (j & cj & Hj & Hcj). apply Hini. assert (Hjp : j <> p) by (intros ->; simplify_eq; congruence).
    destruct (proj2 Hw j cj) as (cj' & Hj' & Hcc); [by rewrite list_lookup_insert_ne|]. exists j, cj'. split; [done|].
    by destruct Hcc as [->|(_ & _ & ->)].
Qed.

(** ** Properties *)

End exit.

(** ** Witness: a process with a sleeping parent and a child *)

#[local] Existing Instance example_platform.

Definition example_exiter : proc :=
  upd_p_state (fun _ => RUNNING) (upd_p_parent (fun _ => Some 1%nat) (upd_p_ofile (<[0%nat := Some 0%nat]>) (upd_p_cwd (fun _ => Some 0%nat) zero_proc))).

Definition example_sleeping : proc := upd_p_state (fun _ => SLEEPING) (upd_p_chan (fun _ => Ch_proc 1) zero_proc).

Definition example_orphan : proc := upd_p_parent (fun _ => Some 2%nat) zero_proc.

Definition example_exiting : kstate :=
  upd_k_cpu (upd_c_proc (fun _ => Some 2%nat)) (upd_k_initproc (fun _ => Some 0%nat)
    (upd_k_ftable (alter (upd_f_ref (fun _ => 2)) 0%nat)
      (upd_k_procs (fun l => <[4%nat := example_orphan]> (<[1%nat := example_sleeping]> (<[2%nat := example_exiter]> l))) (boot_state 0 ∅ ∅)))).

Lemma example_exiter_ok : exists ic, exiter_ok example_exiting 2 example_exiter 0 ic 1.
Proof.
  eexists. split.
  - split; [by split|reflexivity|reflexivity|]. exists 2%nat. split; [reflexivity|lia].
  - reflexivity.
  - reflexivity.
  - reflexivity.
  - discriminate.
  - by split.
  - reflexivity.
  - intros f Hf. change (Some f ∈ Some 0%nat :: replicate 15 (@None nat)) in Hf.
    apply elem_of_cons in Hf as [[= ->]|Hf%elem_of_replicate]; [|by destruct Hf]. eexists. split; [reflexivity|]. by vm_compute.
  - reflexivity.
  - reflexivity.
  - reflexivity.
  - reflexivity.
  - by vm_compute.
  - reflexivity.
Qed.

