(* ===== verification/Asm.v ===== *)
(** * Assembly code (kernel/trampoline.S, swtch.S, kernelvec.S, entry.S, user/initcode.S)

    A hart that executes the instructions the assembly files use: integer registers, the
    CSRs they touch, and memory through the Sv39 page table that satp names.  The programs
    are lists of instructions in the order of the files; the instructions written as C
    calls end a run with the code that follows the call. *)

From Stdlib Require Import ZArith Lia.
From stdpp Require Import base tactics numbers gmap strings option list.
From S2P Require Import Prelude Kernel Kstring Riscv Vm Proc.

(** ** Registers *)

Inductive reg :=
  | zero | ra | sp | gp | tp | t0 | t1 | t2 | s0 | s1 | a0 | a1 | a2 | a3 | a4 | a5 | a6 | a7
  | s2 | s3 | s4 | s5 | s6 | s7 | s8 | s9 | s10 | s11 | t3 | t4 | t5 | t6.

(** Their numbers x0 to x31. *)
Definition regs : list reg :=
  [zero; ra; sp; gp; tp; t0; t1; t2; s0; s1; a0; a1; a2; a3; a4; a5; a6; a7;
   s2; s3; s4; s5; s6; s7; s8; s9; s10; s11; t3; t4; t5; t6].

Definition num (r : reg) : Z :=
  match r with
  | zero => 0 | ra => 1 | sp => 2 | gp => 3 | tp => 4 | t0 => 5 | t1 => 6 | t2 => 7
  | s0 => 8 | s1 => 9 | a0 => 10 | a1 => 11 | a2 => 12 | a3 => 13 | a4 => 14 | a5 => 15
  | a6 => 16 | a7 => 17 | s2 => 18 | s3 => 19 | s4 => 20 | s5 => 21 | s6 => 22 | s7 => 23
  | s8 => 24 | s9 => 25 | s10 => 26 | s11 => 27 | t3 => 28 | t4 => 29 | t5 => 30 | t6 => 31
  end.

Lemma num_regs r : regs !! Z.to_nat (num r) = Some r.
Proof. by destruct r. Qed.

#[export] Instance num_inj : Inj (=) (=) num.
Proof. intros r r' E. pose proof (num_regs r) as H. rewrite E, num_regs in H. congruence. Qed.

#[export] Instance reg_eq_dec : EqDecision reg.
Proof. intros r r'. destruct (decide (num r = num r')) as [E|E]; [left; by apply num_inj|right; congruence]. Defined.

(** ** The hart *)

Inductive csr := sscratch | satp | mscratch | sip | mhartid.

#[export] Instance csr_eq_dec : EqDecision csr.
Proof. solve_decision. Defined.

Inductive priv := Supervisor | Machine.

Record hart := mkHart {
  h_x : reg -> Z;
  h_csr : csr -> Z;
  h_mem : gmap Z Z;
  h_priv : priv;
}.

Definition x_set (r : reg) (v : Z) (h : hart) : hart :=
  mkHart (fun r' => if decide (r' = r /\ r <> zero) then v else h_x h r') (h_csr h) (h_mem h) (h_priv h).

Definition csr_set (c : csr) (v : Z) (h : hart) : hart :=
  mkHart (h_x h) (fun c' => if decide (c' = c) then v else h_csr h c') (h_mem h) (h_priv h).

Definition mem_set (f : gmap Z Z -> gmap Z Z) (h : hart) : hart :=
  mkHart (h_x h) (h_csr h) (f (h_mem h)) (h_priv h).

(** Address translation: none in machine mode and when satp's mode is bare; else Sv39, where
    the supervisor may use pages that are not the user's for the given access. *)
Definition satp_root (v : Z) : Z := Z.shiftl (Z.land v (Z.ones 44)) 12.

Definition xlate (acc : Z) (h : hart) (va : Z) : option Z :=
  match h_priv h with
  | Machine => Some va
  | Supervisor =>
      let v := h_csr h satp in
      if Z.shiftr v 60 =? 0 then Some va
      else if negb (Z.shiftr v 60 =? 8) then None
      else if (2 ^ 38 <=? va) && (va <? 2 ^ 64 - 2 ^ 38) then None
      else
        pte ← pt_lookup (h_mem h) (satp_root v) va;
        if pte_has pte acc && negb (pte_has pte PTE_U) then Some (PTE2PA pte + va mod PGSIZE) else None
  end.

(** ** Instructions *)

Inductive instr :=
  | sd (r : reg) (off : Z) (b : reg)
  | ld (r : reg) (off : Z) (b : reg)
  | csrw (c : csr) (r : reg)
  | csrr (r : reg) (c : csr)
  | csrrw (r : reg) (c : csr) (r' : reg)
  | li (r : reg) (v : Z)
  | la (r : reg) (v : Z)
  | addi (r r' : reg) (v : Z)
  | add (r r1 r2 : reg)
  | mul (r r1 r2 : reg)
  | sfence_vma (r r' : reg)
  | auipc (r : reg) (v : Z)
  | jal (r : reg) (off : Z)
  | jr (r : reg)
  | ret
  | call (f : string)
  | sret
  | mret
  | ecall.

(** How a run of instructions ends. *)
Inductive outcome :=
  | Jump (pc : Z) (h : hart)
  | Call (f : string) (l : list instr) (h : hart)
  | Sret (h : hart)
  | Mret (h : hart)
  | Fault.

(** Runs straight-line code. *)
Fixpoint exec (l : list instr) (h : hart) : outcome :=
  match l with
  | [] => Fault
  | i :: l =>
      let x := h_x h in
      match i with
      | sd r off b =>
          match xlate PTE_W h (u64 (x b + off)) with
          | Some a => exec l (mem_set (fun m => st64 m a (x r)) h)
          | None => Fault
          end
      | ld r off b =>
          match xlate PTE_R h (u64 (x b + off)) with
          | Some a => exec l (x_set r (ld64 (h_mem h) a) h)
          | None => Fault
          end
      | csrw c r => exec l (csr_set c (x r) h)
      | csrr r c => exec l (x_set r (h_csr h c) h)
      | csrrw r c r' => exec l (x_set r (h_csr h c) (csr_set c (x r') h))
      | li r v | la r v => exec l (x_set r (u64 v) h)
      | addi r r' v => exec l (x_set r (u64 (x r' + v)) h)
      | add r r1 r2 => exec l (x_set r (u64 (x r1 + x r2)) h)
      | mul r r1 r2 => exec l (x_set r (u64 (x r1 * x r2)) h)
      | sfence_vma _ _ => exec l h
      | jr r => Jump (x r) h
      | ret => Jump (x ra) h
      | call f => Call f l h
      | sret => Sret h
      | mret => Mret h
      | auipc _ _ | jal _ _ | ecall => Fault
      end
  end.

(** ** trampoline.S *)

Definition uservec : list instr :=
  [csrw sscratch a0; li a0 TRAPFRAME;
   sd ra 40 a0; sd sp 48 a0; sd gp 56 a0; sd tp 64 a0; sd t0 72 a0; sd t1 80 a0;
   sd t2 88 a0; sd s0 96 a0; sd s1 104 a0; sd a1 120 a0; sd a2 128 a0; sd a3 136 a0;
   sd a4 144 a0; sd a5 152 a0; sd a6 160 a0; sd a7 168 a0; sd s2 176 a0; sd s3 184 a0;
   sd s4 192 a0; sd s5 200 a0; sd s6 208 a0; sd s7 216 a0; sd s8 224 a0; sd s9 232 a0;
   sd s10 240 a0; sd s11 248 a0; sd t3 256 a0; sd t4 264 a0; sd t5 272 a0; sd t6 280 a0;
   csrr t0 sscratch; sd t0 112 a0;
   ld sp 8 a0; ld tp 32 a0; ld t0 16 a0; ld t1 0 a0;
   sfence_vma zero zero; csrw satp t1; sfence_vma zero zero; jr t0].

Definition userret : list instr :=
  [sfence_vma zero zero; csrw satp a0; sfence_vma zero zero; li a0 TRAPFRAME;
   ld ra 40 a0; ld sp 48 a0; ld gp 56 a0; ld tp 64 a0; ld t0 72 a0; ld t1 80 a0;
   ld t2 88 a0; ld s0 96 a0; ld s1 104 a0; ld a1 120 a0; ld a2 128 a0; ld a3 136 a0;
   ld a4 144 a0; ld a5 152 a0; ld a6 160 a0; ld a7 168 a0; ld s2 176 a0; ld s3 184 a0;
   ld s4 192 a0; ld s5 200 a0; ld s6 208 a0; ld s7 216 a0; ld s8 224 a0; ld s9 232 a0;
   ld s10 240 a0; ld s11 248 a0; ld t3 256 a0; ld t4 264 a0; ld t5 272 a0; ld t6 280 a0;
   ld a0 112 a0; sret].

(** ** swtch.S *)

Definition swtch : list instr :=
  [sd ra 0 a0; sd sp 8 a0; sd s0 16 a0; sd s1 24 a0; sd s2 32 a0; sd s3 40 a0; sd s4 48 a0;
   sd s5 56 a0; sd s6 64 a0; sd s7 72 a0; sd s8 80 a0; sd s9 88 a0; sd s10 96 a0;
   sd s11 104 a0;
   ld ra 0 a1; ld sp 8 a1; ld s0 16 a1; ld s1 24 a1; ld s2 32 a1; ld s3 40 a1; ld s4 48 a1;
   ld s5 56 a1; ld s6 64 a1; ld s7 72 a1; ld s8 80 a1; ld s9 88 a1; ld s10 96 a1;
   ld s11 104 a1; ret].

(** ** kernelvec.S *)

Definition kernelvec : list instr :=
  [addi sp sp (-256);
   sd ra 0 sp; sd sp 8 sp; sd gp 16 sp; sd tp 24 sp; sd t0 32 sp; sd t1 40 sp; sd t2 48 sp;
   sd s0 56 sp; sd s1 64 sp; sd a0 72 sp; sd a1 80 sp; sd a2 88 sp; sd a3 96 sp;
   sd a4 104 sp; sd a5 112 sp; sd a6 120 sp; sd a7 128 sp; sd s2 136 sp; sd s3 144 sp;
   sd s4 152 sp; sd s5 160 sp; sd s6 168 sp; sd s7 176 sp; sd s8 184 sp; sd s9 192 sp;
   sd s10 200 sp; sd s11 208 sp; sd t3 216 sp; sd t4 224 sp; sd t5 232 sp; sd t6 240 sp;
   call "kerneltrap";
   ld ra 0 sp; ld sp 8 sp; ld gp 16 sp; ld t0 32 sp; ld t1 40 sp; ld t2 48 sp; ld s0 56 sp;
   ld s1 64 sp; ld a0 72 sp; ld a1 80 sp; ld a2 88 sp; ld a3 96 sp; ld a4 104 sp;
   ld a5 112 sp; ld a6 120 sp; ld a7 128 sp; ld s2 136 sp; ld s3 144 sp; ld s4 152 sp;
   ld s5 160 sp; ld s6 168 sp; ld s7 176 sp; ld s8 184 sp; ld s9 192 sp; ld s10 200 sp;
   ld s11 208 sp; ld t3 216 sp; ld t4 224 sp; ld t5 232 sp; ld t6 240 sp;
   addi sp sp 256; sret].

Definition timervec : list instr :=
  [csrrw a0 mscratch a0; sd a1 0 a0; sd a2 8 a0; sd a3 16 a0;
   ld a1 24 a0; ld a2 32 a0; ld a3 0 a1; add a3 a3 a2; sd a3 0 a1;
   li a1 2; csrw sip a1;
   ld a3 16 a0; ld a2 8 a0; ld a1 0 a0; csrrw a0 mscratch a0; mret].

(** ** entry.S *)

Definition entry (stack0 : Z) : list instr :=
  [la sp stack0; li a0 (1024 * 4); csrr a1 mhartid; addi a1 a1 1; mul a0 a0 a1; add sp sp a0;
   call "start"].

(** ** user/initcode.S

    The program with the addresses of its labels, as the assembler expands it at [pc], and
    the machine code of the four instructions it consists of. *)
Definition SYS_exec : Z := 7.
Definition SYS_exit : Z := 2.

Definition initcode_S (init argv exit : Z) : list instr :=
  [la a0 init; la a1 argv; li a7 SYS_exec; ecall; li a7 SYS_exit; ecall; jal ra exit].

Definition sext (n v : Z) : Z := let w := v mod 2 ^ n in if w <? 2 ^ (n - 1) then w else w - 2 ^ n.

Definition expand (pc : Z) (i : instr) : list instr :=
  match i with
  | la r v => [auipc r ((v - pc - sext 12 (v - pc)) / 2 ^ 12); addi r r (sext 12 (v - pc))]
  | li r v => [addi r zero v]
  | jal r target => [jal r (target - pc)]
  | i => [i]
  end.

Fixpoint assemble (pc : Z) (l : list instr) : list instr :=
  match l with
  | [] => []
  | i :: l => expand pc i ++ assemble (pc + 4 * Z.of_nat (length (expand pc i))) l
  end.

Definition field (w lo n : Z) : Z := Z.land (Z.shiftr w lo) (Z.ones n).

Definition decode (w : Z) : option instr :=
  rd ← regs !! Z.to_nat (field w 7 5);
  rs ← regs !! Z.to_nat (field w 15 5);
  let op := field w 0 7 in
  if op =? 0x17 then Some (auipc rd (sext 20 (field w 12 20)))
  else if (op =? 0x13) && (field w 12 3 =? 0) then Some (addi rd rs (sext 12 (field w 20 12)))
  else if op =? 0x6f then
    Some (jal rd (sext 21 (field w 31 1 * 2 ^ 20 + field w 12 8 * 2 ^ 12 + field w 20 1 * 2 ^ 11 + field w 21 10 * 2)))
  else if w =? 0x73 then Some ecall
  else None.

(** Runs machine code in memory up to the next system call. *)
Fixpoint run_user (fuel : nat) (pc : Z) (h : hart) : option (Z * hart) :=
  match fuel with
  | O => None
  | S fuel =>
      i ← decode (le_combine (rd_bytes (h_mem h) pc 4));
      match i with
      | auipc r v => run_user fuel (u64 (pc + 4)) (x_set r (u64 (pc + v * 2 ^ 12)) h)
      | addi r r' v => run_user fuel (u64 (pc + 4)) (x_set r (u64 (h_x h r' + v)) h)
      | jal r off => run_user fuel (u64 (pc + off)) (x_set r (u64 (pc + 4)) h)
      | ecall => Some (pc, h)
      | _ => None
      end
  end.
