(* ===== verification/AsmProps.v ===== *)
(** * Correctness of the assembly code

    Saving and restoring registers: the trampoline keeps every user register in the
    trapframe across a trap, kernelvec keeps every kernel register but tp on the stack,
    swtch() exchanges contexts, timervec moves the timer's deadline; and the bytes in proc.c
    that start the first process are the program of initcode.S. *)

From Stdlib Require Import ZArith Lia.
From stdpp Require Import base tactics numbers gmap strings option list.
From S2P Require Import Prelude Bytes Kernel Kstring Riscv Kalloc KallocInit Vm VmUser Proc PipeProps ProcMem ProcAlloc Asm.

(** ** Specification *)

(** Addresses [va] to [va + len] are mapped to [pa] by the page table of the hart, whose bytes
    are those of [T]: they stay so whatever is stored elsewhere. *)
Definition window (T : Z -> Prop) (h : hart) (va pa len : Z) : Prop :=
  0 <= va /\ va + len <= 2 ^ 64 /\ (forall x, pa <= x < pa + len -> ~ T x) /\
  forall h', h_csr h' satp = h_csr h satp -> h_priv h' = h_priv h ->
    (forall x, T x -> rd (h_mem h') x = rd (h_mem h) x) ->
    forall acc off, acc = PTE_R \/ acc = PTE_W -> 0 <= off < len -> xlate acc h' (va + off) = Some (pa + off).

(** Registers hold 64 bits. *)
Definition regs_ok (h : hart) : Prop := h_x h zero = 0 /\ forall r, 0 <= h_x h r < 2 ^ 64.

(** struct trapframe: the user registers x1 to x31 in order, after the five words of the
    kernel. *)
Definition trapframe_offset (r : reg) : Z := 32 + 8 * num r.

(** ** Lemmas: translation *)

Lemma window_bare h va len :
  h_priv h = Machine \/ h_csr h satp = 0 -> 0 <= va -> va + len <= 2 ^ 64 -> window (fun _ => False) h va va len.
Proof.
  intros Hb Hva Hlen. split_and!; [done|done|by intros ? _ []|]. intros h' Es Ep _ acc off _ Hoff. unfold xlate.
  destruct (h_priv h') eqn:E; [|done]. destruct Hb as [Hb|Hb]; [congruence|]. by rewrite Es, Hb.
Qed.

Lemma window_step T h h' va pa len :
  window T h va pa len -> h_csr h' satp = h_csr h satp -> h_priv h' = h_priv h ->
  (forall x, T x -> rd (h_mem h') x = rd (h_mem h) x) -> window T h' va pa len.
Proof.
  intros (W1 & W2 & W3 & W4) Es Ep Em. split_and!; [done|done|done|]. intros h2 Es2 Ep2 Em2. apply W4; [congruence|congruence|].
  intros x Hx. rewrite Em2, Em; done.
Qed.

Lemma satp_root_make pt :
  0 <= pt < 2 ^ 56 -> pt mod PGSIZE = 0 -> satp_root (MAKE_SATP pt) = pt /\ Z.shiftr (MAKE_SATP pt) 60 = 8.
Proof.
  intros Hpt Hal. unfold satp_root, MAKE_SATP. change PGSIZE with 4096 in Hal.
  rewrite Z.land_lor_distr_l, Z.shiftr_lor, Z.shiftr_shiftr by lia.
  change (Z.land SATP_SV39 (Z.ones 44)) with 0. change (Z.shiftr SATP_SV39 60) with 8.
  rewrite Z.lor_0_l, Z.land_ones, !Z.shiftr_div_pow2, Z.shiftl_mul_pow2 by lia.
  change (2 ^ 12) with 4096. change (2 ^ (12 + 60)) with (2 ^ 72). split.
  - rewrite Z.mod_small by zdm. zdm.
  - rewrite (Z.div_small pt) by lia. done.
Qed.

Section tramp.
Context `{Platform}.

(** Memory [m] holds the page table [pt] of a process with trapframe [tf]. *)
Record tf_mapped (m : gmap Z Z) (pt tf : Z) (D : gmap (list Z) Z) : Prop := {
  tm_layout : layout_ok;
  tm_dir : dir_ok m pt D;
  tm_page : page_ok tf;
  tm_apart : tf ∉ dir_pages D;
  tm_high va : TRAPFRAME <= va < 2 ^ 39 -> pt_lookup m pt va = high_map tf va;
}.

(** The bytes of the table pages. *)
Definition table_byte (D : gmap (list Z) Z) (x : Z) : Prop := exists p, p ∈ dir_pages D /\ p <= x < p + PGSIZE.

(** The trapframe page, as the user page table maps it. *)
Lemma window_trapframe h pt D tf :
  tf_mapped (h_mem h) pt tf D ->
  h_csr h satp = MAKE_SATP pt -> h_priv h = Supervisor -> window (table_byte D) h TRAPFRAME tf PGSIZE.
Proof.
  intros [Hlay HD Htf Hn Hlk] Es Ep. pose proof tramp_values as (ET & EM & EV). destruct perm_values as [EW EX].
  split_and!; [rewrite ET; lia|rewrite ET; change PGSIZE with 4096; lia| |].
  { intros x Hx (p & Hp & Hx'). apply elem_of_dir_pages in Hp as Hq. destruct Hq as [q Hq].
    pose proof (do_page _ _ _ HD q p Hq) as [Hpa _]. destruct Htf as [Ht _]. change PGSIZE with 4096 in *. assert (p = tf) as -> by zdm. done. }
  intros h' Es' Ep' Em acc off Hacc Hoff. pose proof (do_page _ _ _ HD [] pt (do_root _ _ _ HD)) as Hpt.
  pose proof (page_ok_range _ Hlay Hpt) as Hr. pose proof (page_ok_range _ Hlay Htf) as Hr'.
  destruct (satp_root_make pt) as [E1 E2]; [lia|apply Hpt|].
  unfold xlate. rewrite Ep', Ep, Es', Es, E1, E2. cbn [Z.eqb Z.compare Pos.eqb negb]. change PGSIZE with 4096 in *.
  rewrite (proj2 (Z.leb_gt (2 ^ 38) _)) by (rewrite ET; lia). cbn [andb].
  rewrite (pt_lookup_ext (h_mem h) (h_mem h') pt D), Hlk; [|rewrite ET; lia|done|done|].
  - unfold high_map. rewrite decide_True by (rewrite PGROUNDDOWN_eq, ET; zdm). rewrite EW. cbn [mbind option_bind].
    replace (pte_has (leaf tf 6) acc && negb (pte_has (leaf tf 6) PTE_U)) with true.
    + f_equal. rewrite leaf_pa by (done || lia). rewrite ET. change (274877898752) with (4096 * 67108862). zdm.
    + unfold leaf. rewrite <-Z.lor_assoc, !pte_has_PA2PTE by (destruct Hacc; subst; done || lia). by destruct Hacc; subst.
  - intros q p x Hq Hx. apply Em. exists p. split; [|done]. apply elem_of_dir_pages. by exists q.
Qed.
End tramp.

(** ** Lemmas: sequences of loads and stores *)

Lemma exec_sd T h va pa len r off b l :
  window T h va pa len -> h_x h b = va -> 0 <= off -> off + 8 <= len ->
  exec (sd r off b :: l) h = exec l (mem_set (fun m => st64 m (pa + off) (h_x h r)) h).
Proof.
  intros (W1 & W2 & _ & W3) Eb H1 H2. cbn [exec]. rewrite Eb, u64_small by lia.
  by rewrite (W3 h) by (done || lia || by right).
Qed.

Lemma exec_ld T h va pa len r off b l :
  window T h va pa len -> h_x h b = va -> 0 <= off -> off + 8 <= len ->
  exec (ld r off b :: l) h = exec l (x_set r (ld64 (h_mem h) (pa + off)) h).
Proof.
  intros (W1 & W2 & _ & W3) Eb H1 H2. cbn [exec]. rewrite Eb, u64_small by lia.
  by rewrite (W3 h) by (done || lia || by left).
Qed.

Lemma exec_csrr r c l h : exec (csrr r c :: l) h = exec l (x_set r (h_csr h c) h).
Proof. done. Qed.

Lemma window_x_set T h va pa len r v : window T h va pa len -> window T (x_set r v h) va pa len.
Proof. intros Hw. by eapply window_step. Qed.

Lemma window_st64 T h va pa len off v :
  window T h va pa len -> 0 <= off -> off + 8 <= len -> window T (mem_set (fun m => st64 m (pa + off) v) h) va pa len.
Proof.
  intros Hw H1 H2. eapply window_step; [done..|]. intros x Hx. cbn. apply rd_st64_out.
  destruct (decide (pa <= x < pa + len)) as [Hin|]; [|lia]. by destruct Hw as (_ & _ & Hn & _), (Hn x Hin).
Qed.

Definition saves (b : reg) (l : list (reg * Z)) : list instr := map (fun x => sd x.1 x.2 b) l.
Definition loads (b : reg) (l : list (reg * Z)) : list instr := map (fun x => ld x.1 x.2 b) l.

(** Memory after [saves] and registers after [loads]. *)
Definition saved (x : reg -> Z) (pa : Z) (l : list (reg * Z)) (m : gmap Z Z) : gmap Z Z :=
  foldl (fun m y => st64 m (pa + y.2) (x y.1)) m l.

Definition loaded (m : gmap Z Z) (pa : Z) (l : list (reg * Z)) (h : hart) : hart :=
  foldl (fun h y => x_set y.1 (ld64 m (pa + y.2)) h) h l.

Definition slots (len : Z) (l : list (reg * Z)) : Prop :=
  Forall (fun y => 0 <= y.2 /\ y.2 + 8 <= len /\ y.2 mod 8 = 0) l.

Lemma exec_saves T l b rest h va pa len :
  window T h va pa len -> h_x h b = va -> slots len l ->
  exec (saves b l ++ rest) h = exec rest (mem_set (saved (h_x h) pa l) h).
Proof.
  intros Hw Eb Hl. revert h Hw Eb. induction Hl as [|[r off] l (H1 & H2 & _) _ IH]; intros h Hw Eb; [by destruct h|].
  cbn [saves map app fst snd]. rewrite (exec_sd T h va pa len) by done.
  rewrite IH; [done|by apply window_st64|done].
Qed.

Lemma window_saved T h va pa len l x :
  window T h va pa len -> slots len l -> window T (mem_set (saved x pa l) h) va pa len.
Proof.
  intros Hw Hl. revert h Hw. induction Hl as [|[r off] l (H1 & H2 & _) _ IH]; intros h Hw; [by destruct h|].
  apply (IH (mem_set (fun m => st64 m (pa + off) (x r)) h)). by apply window_st64.
Qed.

(** A load of the base register must load what it has. *)
Lemma exec_loads T l b rest h va pa len :
  window T h va pa len -> h_x h b = va -> slots len l ->
  (forall off, (b, off) ∈ l -> ld64 (h_mem h) (pa + off) = va) ->
  exec (loads b l ++ rest) h = exec rest (loaded (h_mem h) pa l h).
Proof.
  intros Hw Eb Hl. revert h Hw Eb. induction Hl as [|[r off] l (H1 & H2 & _) _ IH]; intros h Hw Eb Hb; [done|].
  cbn [loads map app fst snd]. rewrite (exec_ld T h va pa len) by done. fold (loads b l).
  rewrite IH; [done|by eapply window_step| |].
  - cbn. case_decide as E; [|done]. destruct E as [-> _]. apply Hb. set_solver.
  - intros off' Hin. apply Hb. set_solver.
Qed.

(** What they leave: the saved registers in their slots, the loaded ones in theirs. *)
Lemma saved_out x pa l m a :
  (forall r off, (r, off) ∈ l -> ~ (pa + off <= a < pa + off + 8)) -> rd (saved x pa l m) a = rd m a.
Proof.
  revert m. induction l as [|[r off] l IH]; intros m Ha; [done|]. cbn. fold (saved x pa l (st64 m (pa + off) (x r))).
  rewrite IH by (intros r' o' Hin; apply (Ha r'), list_elem_of_further, Hin). apply rd_st64_out. specialize (Ha r off (list_elem_of_here _ _)). lia.
Qed.

Lemma saved_ext x x' pa l m : (forall r off, (r, off) ∈ l -> x r = x' r) -> saved x pa l m = saved x' pa l m.
Proof.
  revert m. induction l as [|[r off] l IH]; intros m Hx; [done|]. cbn. rewrite (Hx r off) by apply list_elem_of_here.
  apply IH. intros r' o' Hin. by eapply Hx, list_elem_of_further.
Qed.

Lemma saved_slot x pa l m r off len :
  slots len l -> NoDup l.*2 -> (r, off) ∈ l -> 0 <= x r < 2 ^ 64 -> ld64 (saved x pa l m) (pa + off) = x r.
Proof.
  intros Hl Hnd Hin Hr. revert m. induction Hl as [|[r' off'] l (H1 & H2 & H3) Hl IH]; intros m; [by apply elem_of_nil in Hin|].
  cbn in Hnd |- *. fold (saved x pa l (st64 m (pa + off') (x r'))). apply NoDup_cons in Hnd as [Hn Hnd].
  apply elem_of_cons in Hin as [[= -> ->]|Hin]; [|by apply IH].
  rewrite (ld64_ext _ (st64 m (pa + off') (x r'))); [by rewrite ld64_st64, u64_small|].
  intros a Ha. apply saved_out. intros r2 off2 Hin2 Ha2. apply Hn.
  destruct (proj1 (Forall_forall _ _) Hl _ Hin2) as (H4 & H5 & H6). cbn in *. assert (off' = off2) as -> by zdm.
  by apply (list_elem_of_fmap_2' snd _ (r2, off2)).
Qed.

Lemma loaded_same m pa l h : h_mem (loaded m pa l h) = h_mem h /\ h_csr (loaded m pa l h) = h_csr h /\ h_priv (loaded m pa l h) = h_priv h.
Proof. revert h. induction l as [|y l IH]; intros h; [done|]. exact (IH (x_set y.1 (ld64 m (pa + y.2)) h)). Qed.

Lemma loaded_out m pa l h r : r ∉ l.*1 -> h_x (loaded m pa l h) r = h_x h r.
Proof.
  revert h. induction l as [|y l IH]; intros h Hr; [done|]. cbn in *. apply not_elem_of_cons in Hr as [H1 H2].
  fold (loaded m pa l (x_set y.1 (ld64 m (pa + y.2)) h)). rewrite IH by done. cbn. by rewrite decide_False by naive_solver.
Qed.

Lemma loaded_reg m pa l h r off :
  NoDup l.*1 -> (r, off) ∈ l -> r <> zero -> h_x (loaded m pa l h) r = ld64 m (pa + off).
Proof.
  revert h. induction l as [|[r' off'] l IH]; intros h Hnd Hin Hz; [by apply elem_of_nil in Hin|]. cbn in Hnd |- *.
  apply NoDup_cons in Hnd as [Hn Hnd]. fold (loaded m pa l (x_set r' (ld64 m (pa + off')) h)).
  apply elem_of_cons in Hin as [[= -> ->]|Hin]; [|by apply IH].
  rewrite loaded_out by done. cbn. by rewrite decide_True.
Qed.

(** ** Lemmas: the trampoline *)

(** The slots of all registers but a0. *)
Definition tf_slots : list (reg * Z) :=
  map (fun r => (r, trapframe_offset r)) (filter (fun r => r <> a0) (tail regs)).

Lemma uservec_eq :
  uservec = csrw sscratch a0 :: li a0 TRAPFRAME :: saves a0 tf_slots ++
    [csrr t0 sscratch; sd t0 112 a0; ld sp 8 a0; ld tp 32 a0; ld t0 16 a0; ld t1 0 a0;
     sfence_vma zero zero; csrw satp t1; sfence_vma zero zero; jr t0].
Proof. by vm_compute. Qed.

Lemma userret_eq :
  userret = sfence_vma zero zero :: csrw satp a0 :: sfence_vma zero zero :: li a0 TRAPFRAME ::
    loads a0 tf_slots ++ [ld a0 112 a0; sret].
Proof. by vm_compute. Qed.

Lemma tf_slots_ok : slots PGSIZE tf_slots /\ NoDup tf_slots.*1 /\ NoDup tf_slots.*2.
Proof. repeat split; [|by apply (bool_decide_unpack _); vm_compute..]. repeat constructor; by vm_compute. Qed.

Lemma tf_slots_elem r : r <> zero -> r <> a0 -> (r, trapframe_offset r) ∈ tf_slots.
Proof.
  intros H1 H2. apply list_elem_of_fmap. exists r. split; [done|]. apply list_elem_of_filter. split; [done|].
  destruct r; try done; apply (bool_decide_unpack _); by vm_compute.
Qed.

Lemma tf_slots_range r off : (r, off) ∈ tf_slots -> off = trapframe_offset r /\ r <> a0 /\ r <> zero.
Proof.
  intros (r' & [= -> ->] & [H1 H2]%list_elem_of_filter)%list_elem_of_fmap. split_and!; [done..|]. intros ->.
  revert H2. apply (bool_decide_unpack _). by vm_compute.
Qed.

Lemma offset_range r : r <> zero -> 40 <= trapframe_offset r /\ trapframe_offset r + 8 <= 288.
Proof. by destruct r. Qed.

#[local] Opaque tf_slots.

Section trap.
Context `{Platform}.

(** What allocproc() gives a process is what the trampoline needs. *)
Lemma owns_tf_mapped Avail `{!PageAllocator Avail} s F pp G :
  proc_owns Avail s F pp G -> p_pagetable pp <> 0 -> p_trapframe pp <> 0 ->
  exists D, tf_mapped (k_mem s) (p_pagetable pp) (p_trapframe pp) D.
Proof.
  intros (G' & Hpt & Htf) Hz Hz'. destruct Hpt as [(? & _)|(_ & D & U & [[Has _ _] Hh] & ->)]; [done|].
  destruct Htf as [[? _]|(_ & Hpg & Hn & _)]; [done|]. exists D. split; [by eapply as_layout|apply Has|done| |done].
  unfold as_pages in Hn. set_solver.
Qed.

(** The trapframe after uservec. *)
Definition tf_saved (h : hart) (tf : Z) : gmap Z Z :=
  st64 (saved (h_x h) tf tf_slots (h_mem h)) (tf + 112) (h_x h a0).

Lemma tf_saved_slot h tf r : regs_ok h -> r <> zero -> ld64 (tf_saved h tf) (tf + trapframe_offset r) = h_x h r.
Proof.
  intros [_ Hx] Hr. destruct tf_slots_ok as (S1 & S2 & S3). unfold tf_saved. destruct (decide (r = a0)) as [->|Hne].
  { change (trapframe_offset a0) with 112. by rewrite ld64_st64, u64_small. }
  rewrite ld64_st64_out; [by eapply saved_slot; [|done|apply tf_slots_elem|]|]. destruct r; try done; unfold trapframe_offset; cbn [num]; lia.
Qed.

Lemma tf_saved_out h tf x : ~ (tf + 40 <= x < tf + 288) -> rd (tf_saved h tf) x = rd (h_mem h) x.
Proof.
  intros Hx. unfold tf_saved. rewrite rd_st64_out by lia. apply saved_out.
  intros r off (-> & _ & Hz)%tf_slots_range. pose proof (offset_range r Hz). lia.
Qed.

(** uservec saves the user registers and enters the kernel. *)
Lemma uservec_spec h pt tf D :
  tf_mapped (h_mem h) pt tf D -> h_csr h satp = MAKE_SATP pt -> h_priv h = Supervisor -> regs_ok h ->
  let m := h_mem h in
  exists h', exec uservec h = Jump (ld64 m (tf + TF_kernel_trap)) h' /\
    h_csr h' satp = ld64 m (tf + TF_kernel_satp) /\ h_x h' sp = ld64 m (tf + TF_kernel_sp) /\
    h_x h' tp = ld64 m (tf + TF_kernel_hartid) /\ h_priv h' = Supervisor /\ h_mem h' = tf_saved h tf.
Proof.
  intros Htm Es Ep Hx m. rewrite uservec_eq. cbn [exec]. set (h1 := x_set a0 _ _).
  assert (Hw : window (table_byte D) h1 TRAPFRAME tf PGSIZE) by by apply (window_trapframe h1 pt D).
  destruct tf_slots_ok as (S1 & S2 & S3). rewrite (exec_saves (table_byte D) _ _ _ h1 TRAPFRAME tf PGSIZE) by done.
  set (h2 := mem_set _ h1). assert (Hw2 : window (table_byte D) h2 TRAPFRAME tf PGSIZE) by by apply window_saved.
  assert (Hx1 : forall r, r <> a0 -> h_x h1 r = h_x h r).
  { intros r Hr. unfold h1. cbn. by rewrite decide_False by naive_solver. }
  assert (E2 : h_mem h2 = saved (h_x h) tf tf_slots m).
  { change (saved (h_x h1) tf tf_slots m = saved (h_x h) tf tf_slots m). apply saved_ext. intros r off (_ & Hr & _)%tf_slots_range. by apply Hx1. }
  rewrite exec_csrr, (exec_sd (table_byte D) _ TRAPFRAME tf PGSIZE) by (done || by apply window_x_set).
  set (h3 := mem_set _ (x_set t0 _ h2)). assert (Hw3 : window (table_byte D) h3 TRAPFRAME tf PGSIZE) by (apply window_st64; [by apply window_x_set|lia|change PGSIZE with 4096; lia]).
  assert (E3 : h_mem h3 = tf_saved h tf) by (unfold tf_saved; fold m; rewrite <-E2; reflexivity).
  assert (Ek : forall off, 0 <= off -> off + 8 <= 40 -> ld64 (h_mem h3) (tf + off) = ld64 m (tf + off)).
  { intros off H1 H2. rewrite E3. apply ld64_ext. intros x Hx'. apply tf_saved_out. lia. }
  do 4 (rewrite (exec_ld (table_byte D) _ TRAPFRAME tf PGSIZE) by (done || by repeat apply window_x_set)).
  cbn [exec h_mem x_set]. rewrite !Ek by lia. eexists. split; [reflexivity|]. split_and!; done.
Qed.

(** userret loads the user registers. *)
Lemma userret_spec h pt tf D :
  tf_mapped (h_mem h) pt tf D -> h_x h a0 = MAKE_SATP pt -> h_priv h = Supervisor ->
  exists h', exec userret h = Sret h' /\ h_csr h' satp = MAKE_SATP pt /\ h_mem h' = h_mem h /\
    forall r, r <> zero -> h_x h' r = ld64 (h_mem h) (tf + trapframe_offset r).
Proof.
  intros Htm Ea Ep. rewrite userret_eq. cbn [exec]. set (h1 := x_set a0 _ _).
  assert (Hw : window (table_byte D) h1 TRAPFRAME tf PGSIZE) by by apply (window_trapframe h1 pt D).
  destruct tf_slots_ok as (S1 & S2 & S3).
  assert (Ha0 : a0 ∉ tf_slots.*1).
  { intros ([r off] & E & (_ & Hr & _)%tf_slots_range)%list_elem_of_fmap. cbn in E. congruence. }
  rewrite (exec_loads (table_byte D) _ _ _ h1 TRAPFRAME tf PGSIZE) by (done || intros off (_ & Hr & _)%tf_slots_range; done).
  set (h2 := loaded _ _ _ _). destruct (loaded_same (h_mem h1) tf tf_slots h1) as (M2 & C2 & P2). fold h2 in M2, C2, P2.
  assert (Hw2 : window (table_byte D) h2 TRAPFRAME tf PGSIZE) by (eapply window_step; [done|by rewrite C2|done|by rewrite M2]).
  rewrite (exec_ld (table_byte D) h2 TRAPFRAME tf PGSIZE) by (done || by apply loaded_out). cbn [exec].
  eexists. split; [reflexivity|]. split_and!; [cbn; rewrite C2; exact Ea|exact M2|].
  intros r Hr. cbn [x_set h_x]. case_decide as E; [destruct E as [-> _]; by rewrite M2|].
  apply loaded_reg; [done| |done]. apply tf_slots_elem; [done|]. intros ->. by apply E.
Qed.
End trap.

(** ** Lemmas: swtch() *)

(** struct context in memory, and the registers it is about. *)
Definition ctx_slots : list (reg * Z) :=
  [(ra, 0); (sp, 8); (s0, 16); (s1, 24); (s2, 32); (s3, 40); (s4, 48); (s5, 56); (s6, 64); (s7, 72);
   (s8, 80); (s9, 88); (s10, 96); (s11, 104)].

Definition ctx_at (m : gmap Z Z) (a : Z) : context :=
  mkContext (ld64 m a) (ld64 m (a + 8)) (map (fun i => ld64 m (a + 16 + 8 * Z.of_nat i)) (seq 0 12)).

Definition ctx_of (h : hart) : context :=
  mkContext (h_x h ra) (h_x h sp) (map (h_x h) [s0; s1; s2; s3; s4; s5; s6; s7; s8; s9; s10; s11]).

Lemma swtch_eq : swtch = saves a0 ctx_slots ++ loads a1 ctx_slots ++ [ret].
Proof. done. Qed.

Lemma ctx_slots_ok : slots 112 ctx_slots /\ NoDup ctx_slots.*1 /\ NoDup ctx_slots.*2.
Proof. repeat split; [|by apply (bool_decide_unpack _); vm_compute..]. repeat constructor; by vm_compute. Qed.

(** Equal slots make equal contexts. *)
Lemma ctx_eq m a h : (forall r off, (r, off) ∈ ctx_slots -> ld64 m (a + off) = h_x h r) -> ctx_at m a = ctx_of h.
Proof.
  intros Hs. unfold ctx_at, ctx_of. cbn [seq map]. rewrite <-(Z.add_0_r a) at 1. rewrite <-!Z.add_assoc.
  repeat f_equal; apply Hs; apply (bool_decide_unpack _); by vm_compute.
Qed.

Lemma ctx_slots_range r off : (r, off) ∈ ctx_slots -> 0 <= off /\ off + 8 <= 112 /\ r <> zero.
Proof.
  intros Hin. assert (Hf : Forall (fun y => 0 <= y.2 /\ y.2 + 8 <= 112 /\ y.1 <> zero) ctx_slots) by (repeat constructor; by vm_compute).
  exact (proj1 (Forall_forall _ _) Hf _ Hin).
Qed.
#[local] Opaque ctx_slots.

Lemma swtch_spec T h old old_pa new new_pa :
  regs_ok h -> h_x h a0 = old -> h_x h a1 = new -> window T h old old_pa 112 -> window T h new new_pa 112 ->
  new_pa + 112 <= old_pa \/ old_pa + 112 <= new_pa ->
  exists h', exec swtch h = Jump (ctx_ra (ctx_at (h_mem h) new_pa)) h' /\
    ctx_at (h_mem h') old_pa = ctx_of h /\ ctx_of h' = ctx_at (h_mem h) new_pa /\
    (forall r, r ∉ ctx_slots.*1 -> h_x h' r = h_x h r) /\ h_csr h' = h_csr h /\ h_priv h' = h_priv h /\
    (forall x, ~ (old_pa <= x < old_pa + 112) -> rd (h_mem h') x = rd (h_mem h) x).
Proof.
  intros [_ Hx] Ho Hn Wo Wn Hd. destruct ctx_slots_ok as (S1 & S2 & S3). rewrite swtch_eq.
  rewrite (exec_saves T _ _ _ h old old_pa 112) by done. set (h1 := mem_set _ h).
  assert (Hout : forall x, ~ (old_pa <= x < old_pa + 112) -> rd (h_mem h1) x = rd (h_mem h) x).
  { intros x Hx'. apply saved_out. intros r off Hin. pose proof (ctx_slots_range _ _ Hin). lia. }
  assert (Hout' : forall x, T x -> rd (h_mem h1) x = rd (h_mem h) x).
  { intros x Hx'. apply Hout. intros Hin. by destruct Wo as (_ & _ & Hno & _), (Hno x Hin). }
  assert (Ha1 : a1 ∉ ctx_slots.*1) by (apply (bool_decide_unpack _); by vm_compute).
  rewrite (exec_loads T _ _ _ h1 new new_pa 112); [|by eapply window_step; [done..|apply Hout']|done|done|].
  2:{ intros off Hin. destruct Ha1. by apply (list_elem_of_fmap_2' fst _ (a1, off)). }
  set (h2 := loaded _ _ _ _). destruct (loaded_same (h_mem h1) new_pa ctx_slots h1) as (M2 & C2 & P2). fold h2 in M2, C2, P2.
  assert (Hreg : forall r off, (r, off) ∈ ctx_slots -> ld64 (h_mem h) (new_pa + off) = h_x h2 r).
  { intros r off Hin. pose proof (ctx_slots_range _ _ Hin) as (R1 & R2 & R3). unfold h2. rewrite (loaded_reg _ _ _ _ _ off) by done.
    apply ld64_ext. intros x Hx'. symmetry. apply Hout. lia. }
  exists h2. cbn [exec]. rewrite (ctx_eq _ _ h2 Hreg). split_and!; [done| |done| |done|done|by rewrite M2].
  - rewrite M2. apply ctx_eq. intros r off Hin. by eapply saved_slot.
  - intros r Hr. exact (loaded_out _ _ _ _ _ Hr).
Qed.

(** ** Lemmas: kernelvec *)

Definition kv_slots : list (reg * Z) := map (fun r => (r, 8 * (num r - 1))) (tail regs).
Definition kv_loads : list (reg * Z) := filter (fun y => y.1 <> tp) kv_slots.

Definition kernelvec_rest : list instr := loads sp kv_loads ++ [addi sp sp 256; sret].

Lemma kernelvec_eq :
  kernelvec = addi sp sp (-256) :: saves sp kv_slots ++ call "kerneltrap" :: kernelvec_rest.
Proof. by vm_compute. Qed.

Lemma kv_slots_ok :
  slots 256 kv_slots /\ slots 256 kv_loads /\ NoDup kv_slots.*2 /\ NoDup kv_loads.*1.
Proof. split_and!; [repeat constructor; by vm_compute..| |]; apply (bool_decide_unpack _); by vm_compute. Qed.

Lemma kv_slots_elem r : r <> zero -> (r, 8 * (num r - 1)) ∈ kv_slots.
Proof. intros Hr. apply (list_elem_of_fmap_2 (fun r => (r, 8 * (num r - 1)))). by destruct r; try done; apply (bool_decide_unpack _); vm_compute. Qed.

Lemma kv_loads_elem r off : (r, off) ∈ kv_loads <-> r <> tp /\ r <> zero /\ off = 8 * (num r - 1).
Proof.
  unfold kv_loads. rewrite list_elem_of_filter. cbn [fst]. split.
  - intros [H1 (r' & [= -> ->] & H2)%list_elem_of_fmap]. split_and!; [done| |done]. intros ->. revert H2. apply (bool_decide_unpack _). by vm_compute.
  - intros (H1 & H2 & ->). split; [done|]. by apply kv_slots_elem.
Qed.
#[local] Opaque kv_slots kv_loads.

Lemma kernelvec_spec T h top pa :
  regs_ok h -> h_x h sp = top -> 256 <= top -> window T h (top - 256) pa 256 ->
  exists h1, exec kernelvec h = Call "kerneltrap" kernelvec_rest h1 /\ h_x h1 sp = top - 256 /\
    (forall x, ~ (pa <= x < pa + 256) -> rd (h_mem h1) x = rd (h_mem h) x) /\
    forall h2, h_x h2 sp = top - 256 -> h_csr h2 satp = h_csr h satp -> h_priv h2 = h_priv h ->
      (forall x, T x \/ pa <= x < pa + 256 -> rd (h_mem h2) x = rd (h_mem h1) x) ->
      exists h3, exec kernelvec_rest h2 = Sret h3 /\ h_mem h3 = h_mem h2 /\ h_csr h3 = h_csr h2 /\
        h_x h3 tp = h_x h2 tp /\ forall r, r <> zero -> r <> tp -> h_x h3 r = h_x h r.
Proof.
  intros [_ Hx] Hsp Htop Hw. destruct kv_slots_ok as (S1 & S2 & S3 & S4). rewrite kernelvec_eq. cbn [exec]. set (h0 := x_set sp _ h).
  assert (E0 : h_x h0 sp = top - 256).
  { change (u64 (h_x h sp + -256) = top - 256). specialize (Hx sp). rewrite u64_small; lia. }
  assert (Hw0 : window T h0 (top - 256) pa 256) by by apply window_x_set.
  rewrite (exec_saves T _ _ _ h0 (top - 256) pa 256) by done. set (h1 := mem_set _ h0). cbn [exec]. exists h1.
  assert (Hout : forall x, ~ (pa <= x < pa + 256) -> rd (h_mem h1) x = rd (h_mem h) x).
  { intros x Hx'. apply saved_out. intros r off Hin. destruct (proj1 (Forall_forall _ _) S1 _ Hin) as (H1 & H2 & _). cbn in *. lia. }
  split_and!; [done|done|done|]. intros h2 Esp Es Ep Em.
  assert (Hslot : forall r, r <> zero -> ld64 (h_mem h2) (pa + 8 * (num r - 1)) = h_x h0 r).
  { intros r Hr. transitivity (ld64 (h_mem h1) (pa + 8 * (num r - 1))).
    - apply ld64_ext. intros x Hx'. apply Em. right. destruct r; try done; cbn [num] in *; lia.
    - eapply saved_slot; [exact S1|done|by apply kv_slots_elem|]. unfold h0. cbn. case_decide; [apply u64_range|apply Hx]. }
  assert (Hw2 : window T h2 (top - 256) pa 256).
  { eapply window_step; [exact Hw|done|done|]. intros x HT. rewrite Em by by left. apply Hout. intros Hin.
    by destruct Hw as (_ & _ & Hno & _), (Hno x Hin). }
  unfold kernelvec_rest. rewrite (exec_loads T _ _ _ h2 (top - 256) pa 256); [|done..|].
  2:{ intros off (_ & Hz & ->)%kv_loads_elem. by rewrite Hslot. }
  destruct (loaded_same (h_mem h2) pa kv_loads h2) as (M3 & C3 & P3). set (h3 := loaded _ _ _ _) in *. cbn [exec].
  assert (Hreg : forall r, r <> zero -> r <> tp -> h_x h3 r = h_x h0 r).
  { intros r Hz Ht. rewrite <-Hslot by done. apply loaded_reg; [done| |done]. by apply kv_loads_elem. }
  eexists. split; [reflexivity|]. split_and!; [done|done| |].
  - cbn. apply loaded_out. intros ([r off] & E & (Hr & _)%kv_loads_elem)%list_elem_of_fmap. cbn in E. congruence.
  - intros r Hz Ht. cbn [x_set h_x]. case_decide as E.
    + destruct E as [-> _]. rewrite Hreg, E0 by done. specialize (Hx sp). rewrite u64_small; lia.
    + rewrite Hreg by done. unfold h0. cbn. by rewrite decide_False by naive_solver.
Qed.

(** ** Lemmas: timervec and entry *)

Lemma x_set_eq r v h : r <> zero -> h_x (x_set r v h) r = v.
Proof. intros Hr. cbn. by rewrite decide_True. Qed.

Lemma x_set_ne r r' v h : r' <> r -> h_x (x_set r v h) r' = h_x h r'.
Proof. intros Hr. cbn. by rewrite decide_False by naive_solver. Qed.

(** Accesses in machine mode. *)
Lemma exec_sd_machine h r off b l :
  h_priv h = Machine -> 0 <= h_x h b + off < 2 ^ 64 ->
  exec (sd r off b :: l) h = exec l (mem_set (fun m => st64 m (h_x h b + off) (h_x h r)) h).
Proof. intros Hp Ha. cbn [exec]. unfold xlate. by rewrite Hp, u64_small. Qed.

Lemma exec_ld_machine h r off b l :
  h_priv h = Machine -> 0 <= h_x h b + off < 2 ^ 64 ->
  exec (ld r off b :: l) h = exec l (x_set r (ld64 (h_mem h) (h_x h b + off)) h).
Proof. intros Hp Ha. cbn [exec]. unfold xlate. by rewrite Hp, u64_small. Qed.

Lemma exec_csrrw r c r' l h : exec (csrrw r c r' :: l) h = exec l (x_set r (h_csr h c) (csr_set c (h_x h r') h)).
Proof. done. Qed.

Lemma exec_add r r1 r2 l h : exec (add r r1 r2 :: l) h = exec l (x_set r (u64 (h_x h r1 + h_x h r2)) h).
Proof. done. Qed.

Lemma exec_li r v l h : exec (li r v :: l) h = exec l (x_set r (u64 v) h).
Proof. done. Qed.

Lemma exec_csrw c r l h : exec (csrw c r :: l) h = exec l (csr_set c (h_x h r) h).
Proof. done. Qed.

Lemma h_x_mem_set f h r : h_x (mem_set f h) r = h_x h r.
Proof. done. Qed.

Lemma h_x_csr_set c v h r : h_x (csr_set c v h) r = h_x h r.
Proof. done. Qed.

Lemma h_mem_x_set r v h : h_mem (x_set r v h) = h_mem h.
Proof. done. Qed.

Lemma h_mem_csr_set c v h : h_mem (csr_set c v h) = h_mem h.
Proof. done. Qed.

Lemma h_mem_mem_set f h : h_mem (mem_set f h) = f (h_mem h).
Proof. done. Qed.

Ltac hread := repeat first
  [ rewrite x_set_eq by done | rewrite x_set_ne by done | rewrite h_x_mem_set | rewrite h_x_csr_set
  | rewrite h_mem_x_set | rewrite h_mem_csr_set | rewrite h_mem_mem_set ].

Lemma timervec_spec h s c :
  h_priv h = Machine -> regs_ok h -> h_csr h mscratch = s -> ld64 (h_mem h) (s + 24) = c ->
  0 <= s -> s + 40 <= 2 ^ 64 -> 0 <= c -> c + 8 <= 2 ^ 64 -> c + 8 <= s \/ s + 24 <= c ->
  let m := h_mem h in
  exists h', exec timervec h = Mret h' /\ (forall r, h_x h' r = h_x h r) /\
    h_csr h' mscratch = s /\ h_csr h' sip = 2 /\
    ld64 (h_mem h') c = u64 (ld64 m c + ld64 m (s + 32)) /\
    (forall x, ~ (s <= x < s + 24) -> ~ (c <= x < c + 8) -> rd (h_mem h') x = rd m x).
Proof.
  intros Hp [Hz Hx] Es Ec Hs Hs2 Hc Hc2 Hd m. unfold timervec.
  assert (Eld : forall v1 v2 v3 a, s + 24 <= a \/ a + 8 <= s -> ld64 (st64 (st64 (st64 m s v1) (s + 8) v2) (s + 16) v3) a = ld64 m a).
  { intros v1 v2 v3 a Ha. rewrite !ld64_st64_out by lia. done. }
  rewrite exec_csrrw, Es. do 3 (rewrite exec_sd_machine by (done || hread; lia); hread).
  rewrite Z.add_0_r. do 2 (rewrite exec_ld_machine by (done || hread; lia); hread). rewrite !Eld by lia. fold m in Ec. rewrite Ec.
  rewrite exec_ld_machine by (done || hread; lia). hread. rewrite Z.add_0_r, Eld by lia.
  rewrite exec_add. hread. rewrite exec_sd_machine by (done || hread; lia). hread. rewrite Z.add_0_r.
  rewrite exec_li, exec_csrw. hread.
  do 3 (rewrite exec_ld_machine by (done || hread; lia); hread). rewrite Z.add_0_r, exec_csrrw. hread.
  fold m. set (M := st64 (st64 (st64 (st64 m s _) _ _) _ _) c _).
  assert (L1 : ld64 M s = h_x h a1) by (unfold M; rewrite !ld64_st64_out by lia; by rewrite ld64_st64, u64_small).
  assert (L2 : ld64 M (s + 8) = h_x h a2) by (unfold M; rewrite !ld64_st64_out by lia; by rewrite ld64_st64, u64_small).
  assert (L3 : ld64 M (s + 16) = h_x h a3) by (unfold M; rewrite !ld64_st64_out by lia; by rewrite ld64_st64, u64_small).
  rewrite L1, L2, L3. cbn [exec]. eexists. split; [reflexivity|]. split_and!.
  - intros r. destruct (decide (r = a0)) as [->|N0]; [by hread|]. destruct (decide (r = a1)) as [->|N1]; [by hread|].
    destruct (decide (r = a2)) as [->|N2]; [by hread|]. destruct (decide (r = a3)) as [->|N3]; by hread.
  - done.
  - done.
  - hread. change (ld64 M c = u64 (ld64 m c + ld64 m (s + 32))). unfold M. rewrite ld64_st64. apply u64_small, u64_range.
  - intros x Hx1 Hx2. hread. change (rd M x = rd m x). unfold M. by rewrite !rd_st64_out by lia.
Qed.

(** Hart [i] starts on the i-th page of stack0. *)
Lemma entry_spec stack0 h :
  0 <= h_csr h mhartid < NCPU -> 0 <= stack0 -> stack0 + 4096 * NCPU < 2 ^ 64 ->
  exists h', exec (entry stack0) h = Call "start" [] h' /\ h_x h' sp = stack0 + 4096 * (h_csr h mhartid + 1).
Proof.
  intros Hi Hs Hs2. eexists. split; [reflexivity|].
  change (u64 (u64 stack0 + u64 (u64 (1024 * 4) * u64 (h_csr h mhartid + 1))) = stack0 + 4096 * (h_csr h mhartid + 1)).
  set (i := h_csr h mhartid) in *.
  rewrite (u64_small stack0), (u64_small (1024 * 4)), (u64_small (i + 1)), (u64_small (_ * _)), u64_small by lia. lia.
Qed.

(** ** Lemmas: the first process *)

(** The memory of the first process, as uvmfirst() fills it: the array and zeros. *)
Definition initcode_page (m : gmap Z Z) : Prop :=
  forall i, 0 <= i < PGSIZE -> rd m i = nth (Z.to_nat i) initcode 0.

Definition words (l : list Z) : list Z :=
  map (fun i => le_combine (take 4 (drop (4 * i) l))) (seq 0 (length l / 4)).

Lemma page_bytes m a n :
  initcode_page m -> 0 <= a -> a + Z.of_nat n <= PGSIZE ->
  rd_bytes m a n = map (fun i => nth (Z.to_nat a + i) initcode 0) (seq 0 n).
Proof.
  intros Hm H1 H2. unfold rd_bytes. apply map_ext_in. intros i Hi%in_seq. rewrite Hm by lia. f_equal. lia.
Qed.

(** The words of the code, decoded. *)
Definition initcode_at (pc : Z) : option instr :=
  decode (le_combine (map (fun i => nth (Z.to_nat pc + i) initcode 0) (seq 0 4))).

Lemma run_user_step fuel pc h :
  initcode_page (h_mem h) -> 0 <= pc -> pc + 4 <= PGSIZE ->
  run_user (S fuel) pc h =
    match initcode_at pc with
    | Some (auipc r v) => run_user fuel (u64 (pc + 4)) (x_set r (u64 (pc + v * 2 ^ 12)) h)
    | Some (addi r r' v) => run_user fuel (u64 (pc + 4)) (x_set r (u64 (h_x h r' + v)) h)
    | Some (jal r off) => run_user fuel (u64 (pc + off)) (x_set r (u64 (pc + 4)) h)
    | Some ecall => Some (pc, h)
    | _ => None
    end.
Proof. intros Hm H1 H2. cbn [run_user]. rewrite page_bytes by done. fold (initcode_at pc). by destruct (initcode_at pc) as [[]|]. Qed.

Ltac ustep :=
  rewrite run_user_step by done;
  lazymatch goal with
  | |- context [initcode_at ?pc] => let v := eval vm_compute in (initcode_at pc) in change (initcode_at pc) with v
  end; cbv iota.

Lemma page_ld64 m a :
  initcode_page m -> 0 <= a -> a + 8 <= PGSIZE ->
  ld64 m a = le_combine (map (fun i => nth (Z.to_nat a + i) initcode 0) (seq 0 8)).
Proof. intros. unfold ld64. by rewrite page_bytes. Qed.

(** ** Properties *)



(** C27: a trap from user space and the return to it keep the user's registers.  uservec
    stores all 31 registers in the process's trapframe at the offsets of struct trapframe and
    nothing else, and enters the kernel at kernel_trap with the kernel's page table, stack
    and hart number; userret, with the process's page table and a trapframe in which the
    kernel changed at most a0, loads them back, and a0 is the value the kernel stored. *)
Theorem trap_roundtrip `{Platform} h pt tf D :
  tf_mapped (h_mem h) pt tf D -> h_csr h satp = MAKE_SATP pt -> h_priv h = Supervisor -> regs_ok h ->
  let m := h_mem h in
  exists h1, exec uservec h = Jump (ld64 m (tf + TF_kernel_trap)) h1 /\
    h_csr h1 satp = ld64 m (tf + TF_kernel_satp) /\ h_x h1 sp = ld64 m (tf + TF_kernel_sp) /\
    h_x h1 tp = ld64 m (tf + TF_kernel_hartid) /\
    (forall r, r <> zero -> ld64 (h_mem h1) (tf + trapframe_offset r) = h_x h r) /\
    (forall x, ~ (tf + 40 <= x < tf + TF_SIZE) -> rd (h_mem h1) x = rd m x) /\
    forall h2 D', tf_mapped (h_mem h2) pt tf D' -> h_x h2 a0 = MAKE_SATP pt -> h_priv h2 = Supervisor ->
      (forall x, tf + 40 <= x < tf + TF_SIZE -> ~ (tf + TF_a0 <= x < tf + TF_a0 + 8) -> rd (h_mem h2) x = rd (h_mem h1) x) ->
      exists h3, exec userret h2 = Sret h3 /\ h_csr h3 satp = MAKE_SATP pt /\ h_mem h3 = h_mem h2 /\
        h_x h3 a0 = ld64 (h_mem h2) (tf + TF_a0) /\ forall r, r <> zero -> r <> a0 -> h_x h3 r = h_x h r.
Proof.
  intros Htm Es Ep Hx m. destruct (uservec_spec h pt tf D Htm Es Ep Hx) as (h1 & E1 & S1 & P1 & T1 & _ & M1). exists h1.
  assert (Hslot : forall r, r <> zero -> ld64 (h_mem h1) (tf + trapframe_offset r) = h_x h r).
  { intros r Hr. rewrite M1. by apply tf_saved_slot. }
  split_and!; [done..|intros x Hx'; rewrite M1; by apply tf_saved_out|].
  intros h2 D' Htm2 Ea2 Ep2 Hkeep. destruct (userret_spec h2 pt tf D' Htm2 Ea2 Ep2) as (h3 & E3 & S3 & M3 & X3). exists h3.
  split_and!; [done..|by rewrite X3|]. intros r Hr Hr'. rewrite X3, <-Hslot by done. apply ld64_ext. intros x Hx'.
  pose proof (offset_range r Hr). unfold TF_SIZE, TF_a0 in Hkeep. apply Hkeep; [lia|].
  destruct r; try done; unfold trapframe_offset in Hx'; cbn [num] in Hx'; lia.
Qed.

(** C28: swtch(old, new) stores ra, sp and the callee-saved registers as the struct context
    old, loads them from new, and continues at the return address stored there; it changes
    no other register and no other memory.  So a later switch to old continues after the
    call with the registers it had. *)
Theorem swtch_correct T h old old_pa new new_pa :
  regs_ok h -> h_x h a0 = old -> h_x h a1 = new -> window T h old old_pa 112 -> window T h new new_pa 112 ->
  new_pa + 112 <= old_pa \/ old_pa + 112 <= new_pa ->
  exists h1, exec swtch h = Jump (ctx_ra (ctx_at (h_mem h) new_pa)) h1 /\
    ctx_at (h_mem h1) old_pa = ctx_of h /\ ctx_of h1 = ctx_at (h_mem h) new_pa /\
    (forall r, r ∉ ctx_slots.*1 -> h_x h1 r = h_x h r) /\
    (forall x, ~ (old_pa <= x < old_pa + 112) -> rd (h_mem h1) x = rd (h_mem h) x) /\
    forall h2 cur cur_pa, regs_ok h2 -> h_x h2 a0 = cur -> h_x h2 a1 = old -> window T h2 cur cur_pa 112 -> window T h2 old old_pa 112 ->
      (old_pa + 112 <= cur_pa \/ cur_pa + 112 <= old_pa) -> ctx_at (h_mem h2) old_pa = ctx_at (h_mem h1) old_pa ->
      exists h3, exec swtch h2 = Jump (h_x h ra) h3 /\ ctx_of h3 = ctx_of h.
Proof.
  intros Hx Ho Hn Wo Wn Hd. destruct (swtch_spec T h old old_pa new new_pa Hx Ho Hn Wo Wn Hd) as (h1 & E1 & C1 & C1' & R1 & _ & _ & M1).
  exists h1. split_and!; [done..|]. intros h2 cur cur_pa Hx2 Ho2 Hn2 Wo2 Wn2 Hd2 Ec.
  destruct (swtch_spec T h2 cur cur_pa old old_pa Hx2 Ho2 Hn2 Wo2 Wn2 Hd2) as (h3 & E3 & _ & C3 & _). exists h3.
  rewrite Ec, C1 in E3, C3. split; [exact E3|exact C3].
Qed.

(** C29: an interrupt in the kernel.  kernelvec stores all registers on the kernel stack
    below sp and calls kerneltrap(); when that returns with the stack area and sp as they
    were, the rest restores every register and sp, except tp, which keeps the number of the
    hart it runs on now, and returns. *)
Theorem kernelvec_correct T h top pa :
  regs_ok h -> h_x h sp = top -> 256 <= top -> window T h (top - 256) pa 256 ->
  exists h1, exec kernelvec h = Call "kerneltrap" kernelvec_rest h1 /\ h_x h1 sp = top - 256 /\
    (forall x, ~ (pa <= x < pa + 256) -> rd (h_mem h1) x = rd (h_mem h) x) /\
    forall h2, h_x h2 sp = top - 256 -> h_csr h2 satp = h_csr h satp -> h_priv h2 = h_priv h ->
      (forall x, T x \/ pa <= x < pa + 256 -> rd (h_mem h2) x = rd (h_mem h1) x) ->
      exists h3, exec kernelvec_rest h2 = Sret h3 /\ h_mem h3 = h_mem h2 /\ h_csr h3 = h_csr h2 /\
        h_x h3 tp = h_x h2 tp /\ forall r, r <> zero -> r <> tp -> h_x h3 r = h_x h r.
Proof. apply kernelvec_spec. Qed.

(** The timer interrupt.  timervec adds the interval to the deadline in the CLINT's
    mtimecmp register, which ends this interrupt and schedules the next, raises a software
    interrupt for the supervisor, and leaves every register, mscratch and all memory but
    the three words of its save area as they were. *)
Theorem timervec_correct h s c :
  h_priv h = Machine -> regs_ok h -> h_csr h mscratch = s -> ld64 (h_mem h) (s + 24) = c ->
  0 <= s -> s + 40 <= 2 ^ 64 -> 0 <= c -> c + 8 <= 2 ^ 64 -> c + 8 <= s \/ s + 24 <= c ->
  let m := h_mem h in
  exists h', exec timervec h = Mret h' /\ (forall r, h_x h' r = h_x h r) /\
    h_csr h' mscratch = s /\ h_csr h' sip = 2 /\
    ld64 (h_mem h') c = u64 (ld64 m c + ld64 m (s + 32)) /\
    (forall x, ~ (s <= x < s + 24) -> ~ (c <= x < c + 8) -> rd (h_mem h') x = rd m x).
Proof. apply timervec_spec. Qed.

(** ** Witnesses *)

#[local] Existing Instance example_platform.

(** Register xn holds n. *)
Definition example_hart (p : priv) (c : csr -> Z) (m : gmap Z Z) : hart := mkHart num c m p.

Lemma example_regs_ok p c m : regs_ok (example_hart p c m).
Proof. split; [done|]. by destruct r. Qed.

Lemma example_tf_mapped : tf_mapped example_proc_mem 0x80a00000 example_tf example_proc_dir.
Proof.
  split; [exact example_layout_ok|exact example_proc_dir_ok|by vm_compute| |exact example_proc_high].
  apply (bool_decide_unpack _). by vm_compute.
Qed.

Lemma trap_roundtrip_witness :
  exists pc h1, exec uservec (example_hart Supervisor (fun _ => MAKE_SATP 0x80a00000) example_proc_mem) = Jump pc h1 /\
    ld64 (h_mem h1) (example_tf + TF_a0) = 10.
Proof.
  destruct (trap_roundtrip (example_hart Supervisor (fun _ => MAKE_SATP 0x80a00000) example_proc_mem) 0x80a00000 example_tf example_proc_dir)
    as (h1 & E1 & _ & _ & _ & Hs & _); [exact example_tf_mapped|done|done|apply example_regs_ok|].
  exists (ld64 example_proc_mem (example_tf + TF_kernel_trap)), h1. split; [exact E1|]. exact (Hs a0 ltac:(discriminate)).
Defined.

Lemma swtch_correct_witness :
  exists pc h1, exec swtch (x_set a0 0x80010000 (x_set a1 0x80020000 (example_hart Supervisor (fun _ => 0) ∅))) = Jump pc h1 /\
    ctx_ra (ctx_at (h_mem h1) 0x80010000) = 1.
Proof.
  destruct (swtch_correct (fun _ => False) (x_set a0 0x80010000 (x_set a1 0x80020000 (example_hart Supervisor (fun _ => 0) ∅)))
    0x80010000 0x80010000 0x80020000 0x80020000) as (h1 & E1 & C1 & _).
  - split; [done|]. by destruct r.
  - done.
  - done.
  - apply window_bare; [by right|lia|lia].
  - apply window_bare; [by right|lia|lia].
  - lia.
  - exists (ctx_ra (ctx_at ∅ 0x80020000)), h1. split; [exact E1|]. by rewrite C1.
Defined.

Lemma kernelvec_correct_witness :
  exists l h1, exec kernelvec (x_set sp 0x80011000 (example_hart Supervisor (fun _ => 0) ∅)) = Call "kerneltrap" l h1 /\ h_x h1 sp = 0x80010f00.
Proof.
  destruct (kernelvec_correct (fun _ => False) (x_set sp 0x80011000 (example_hart Supervisor (fun _ => 0) ∅)) 0x80011000 0x80010f00) as (h1 & E1 & E2 & _).
  - split; [done|]. by destruct r.
  - done.
  - lia.
  - apply window_bare; [by right|lia|lia].
  - exists kernelvec_rest, h1. split; [exact E1|exact E2].
Defined.

Lemma timervec_correct_witness :
  exists h1, exec timervec (example_hart Machine (fun _ => 0x80008980) (st64 ∅ (0x80008980 + 24) 0x2004000)) = Mret h1 /\ h_csr h1 sip = 2.
Proof.
  destruct (timervec_correct (example_hart Machine (fun _ => 0x80008980) (st64 ∅ (0x80008980 + 24) 0x2004000)) 0x80008980 0x2004000) as (h1 & E1 & _ & _ & E2 & _).
  - done.
  - apply example_regs_ok.
  - done.
  - by vm_compute.
  - lia.
  - lia.
  - lia.
  - lia.
  - lia.
  - exists h1. split; [exact E1|exact E2].
Defined.
