(* ===== verification/Exec.v ===== *)
(** * Program execution (kernel/exec.c, elf.h): definitions

    exec() reads an ELF file through the file system, builds a new address space
    and replaces the one of the calling process.  The argument vector is a list
    of addresses of strings in kernel memory. *)

From Stdlib Require Import ZArith Lia.
From stdpp Require Import base tactics numbers gmap strings option list.
From S2P Require Import Prelude Bytes Kernel Spinlock Kstring Riscv Kalloc KallocInit Vm Sched.
From S2P Require Import Uart Printf Uio Console Bio Log Fs File Proc.

(** ** elf.h *)

Definition ELF_MAGIC : Z := 0x464C457F.
Definition ELF_PROG_LOAD : Z := 1.

(** struct elfhdr: the fields exec() uses, at their offsets *)
Record elfhdr := mkElfhdr { eh_magic : Z; eh_entry : Z; eh_phoff : Z; eh_phnum : Z }.

Definition elfhdr_dec (x : list Z) : elfhdr :=
  mkElfhdr (get_le 4 0 x) (get_le 8 24 x) (get_le 8 32 x) (get_le 2 56 x).

(** struct proghdr *)
Record proghdr := mkProghdr {
  ph_type : Z; ph_flags : Z; ph_off : Z; ph_vaddr : Z; ph_filesz : Z; ph_memsz : Z
}.

Definition proghdr_dec (x : list Z) : proghdr :=
  mkProghdr (get_le 4 0 x) (get_le 4 4 x) (get_le 8 8 x) (get_le 8 16 x) (get_le 8 32 x)
    (get_le 8 40 x).

(** ** exec.c *)

(** int flags2perm(int flags) *)
Definition flags2perm (flags : Z) : Z :=
  let perm := if negb (Z.land flags 0x1 =? 0) then PTE_X else 0 in
  if negb (Z.land flags 0x2 =? 0) then Z.lor perm PTE_W else perm.

Section exec.
Context `{Platform}.

(** static int loadseg(pagetable_t pagetable, uint64 va, struct inode *ip, uint
    offset, uint sz) *)
Definition loadseg_body (pagetable va : Z) (ip : nat) (offset sz i : Z) : K (Z + Z) :=
  if i <? sz then
    pa ← walkaddr pagetable (u64 (va + i));
    if pa =? 0 then panic "loadseg: address should exist"
    else
      let n := if u32 (sz - i) <? PGSIZE then u32 (sz - i) else PGSIZE in
      r ← readi ip (KernAddr pa) (u32 (offset + i)) n;
      if negb (u32 r.1 =? n) then mret (inr (-1)) else mret (inl (u32 (i + PGSIZE)))
  else mret (inr 0).

Definition loadseg (pagetable va : Z) (ip : nat) (offset sz : Z) : K Z :=
  loop (S (S (Z.to_nat (sz / PGSIZE)))) (loadseg_body pagetable va ip offset sz) 0.

(** The label bad: of exec() *)
Definition exec_bad (pagetable sz : Z) (ip : option nat) : K Z :=
  when (negb (pagetable =? 0)) (proc_freepagetable pagetable sz);;
  match ip with
  | Some ip => iunlockput ip;; end_op
  | None => mret tt
  end;;
  mret (-1).

(** The loop over the program headers; it leaves with [(true, sz)] when all were
    loaded and with [(false, sz)] at goto bad. *)
Definition exec_load (pagetable : Z) (ip : nat) (phnum : Z) (st : Z * Z * Z) :
    K (Z * Z * Z + bool * Z) :=
  let '(i, off, sz) := st in
  if i <? phnum then
    r ← readi ip (KernBuf (replicate 56 0)) (u32 off) 56;
    if negb (r.1 =? 56) then mret (inr (false, sz))
    else
      let ph := proghdr_dec r.2 in
      let off := s32 (off + 56) in
      if negb (ph_type ph =? ELF_PROG_LOAD) then mret (inl (i + 1, off, sz))
      else if ph_memsz ph <? ph_filesz ph then mret (inr (false, sz))
      else if u64 (ph_vaddr ph + ph_memsz ph) <? ph_vaddr ph then mret (inr (false, sz))
      else if negb (ph_vaddr ph mod PGSIZE =? 0) then mret (inr (false, sz))
      else
        sz1 ← uvmalloc pagetable sz (u64 (ph_vaddr ph + ph_memsz ph)) (flags2perm (s32 (ph_flags ph)));
        if sz1 =? 0 then mret (inr (false, sz))
        else
          r ← loadseg pagetable (ph_vaddr ph) ip (u32 (ph_off ph)) (u32 (ph_filesz ph));
          if r <? 0 then mret (inr (false, sz1)) else mret (inl (i + 1, off, sz1))
  else mret (inr (true, sz)).

(** The string at address [a] of kernel memory, at most a page. *)
Definition kstr (m : gmap Z Z) (a : Z) : list Z := upto_nul (rd_bytes m a 4096).

(** The loop that pushes the argument strings; [None] is goto bad. *)
Fixpoint exec_args (pagetable stackbase : Z) (argv : list Z) (sp : Z) (ustack : list Z) :
    K (option (Z * list Z)) :=
  match argv with
  | [] => mret (Some (sp, ustack))
  | a :: argv' =>
      if a =? 0 then mret (Some (sp, ustack))
      else if MAXARG <=? Z.of_nat (length ustack) then mret None
      else
        s ← gets (fun st => kstr (k_mem st) a);
        let sp := u64 (sp - (Z.of_nat (length s) + 1)) in
        let sp := u64 (sp - sp mod 16) in
        if sp <? stackbase then mret None
        else
          r ← copyout pagetable sp (s ++ [0]);
          if r <? 0 then mret None
          else exec_args pagetable stackbase argv' sp (ustack ++ [sp])
  end.

(** The part of [path] after its last slash. *)
Fixpoint last_elem (last path : list Z) : list Z :=
  match path with
  | [] => last
  | c :: path' =>
      if c =? 0 then last
      else last_elem (if c =? 47 then path' else last) path'
  end.

(** The end of exec(): from the allocation of the stack on, with the file closed. *)
Definition exec_stack (path argv : list Z) (entry pagetable sz : Z) : K Z :=
  p ← curproc;
  pp ← get_proc p;
  let oldsz := p_sz pp in
  let sz := PGROUNDUP sz in
  sz1 ← uvmalloc pagetable sz (u64 (sz + 2 * PGSIZE)) PTE_W;
  if sz1 =? 0 then exec_bad pagetable sz None
  else
    let sz := sz1 in
    uvmclear pagetable (u64 (sz - 2 * PGSIZE));;
    let stackbase := u64 (sz - PGSIZE) in
    r ← exec_args pagetable stackbase argv sz [];
    match r with
    | None => exec_bad pagetable sz None
    | Some (sp, ustack) =>
        let argc := Z.of_nat (length ustack) in
        let sp := u64 (sp - (argc + 1) * 8) in
        let sp := u64 (sp - sp mod 16) in
        if sp <? stackbase then exec_bad pagetable sz None
        else
          r ← copyout pagetable sp ((ustack ++ [0]) ≫= le_split 8);
          if r <? 0 then exec_bad pagetable sz None
          else
            tf_store p TF_a1 sp;;
            upd_proc p (upd_p_name (safestrcpy_bytes 16 (last_elem path path)));;
            pp ← get_proc p;
            let oldpagetable := p_pagetable pp in
            upd_proc p (upd_p_pagetable (fun _ => pagetable));;
            upd_proc p (upd_p_sz (fun _ => sz));;
            tf_store p TF_epc entry;;
            tf_store p TF_sp sp;;
            proc_freepagetable oldpagetable oldsz;;
            mret argc
    end.

(** int exec(char *path, char **argv) *)
Definition exec (path argv : list Z) : K Z :=
  p ← curproc;
  begin_op;;
  r ← namei path;
  match r with
  | None => end_op;; mret (-1)
  | Some ip =>
      ilock (Some ip);;
      r ← readi ip (KernBuf (replicate 64 0)) 0 64;
      if negb (r.1 =? 64) then exec_bad 0 0 (Some ip)
      else
        let elf := elfhdr_dec r.2 in
        if negb (eh_magic elf =? ELF_MAGIC) then exec_bad 0 0 (Some ip)
        else
          pagetable ← proc_pagetable p;
          if pagetable =? 0 then exec_bad 0 0 (Some ip)
          else
            r ← loop (S (Z.to_nat (eh_phnum elf))) (exec_load pagetable ip (eh_phnum elf))
                  (0, s32 (eh_phoff elf), 0);
            let '(ok, sz) := r in
            if negb ok then exec_bad pagetable sz (Some ip)
            else
              iunlockput ip;;
              end_op;;
              exec_stack path argv (eh_entry elf) pagetable sz
  end.

End exec.
