(* ===== verification/Syscall.v ===== *)
(** * System-call arguments and process system calls (kernel/syscall.c,
    kernel/sysproc.c): definitions

    Arguments are the user registers saved in the trap frame.  A system call
    returns a uint64, so a result of -1 is [u64 (-1)]. *)

From Stdlib Require Import ZArith Lia.
From stdpp Require Import base tactics numbers gmap strings option list.
From S2P Require Import Prelude Bytes Kernel Spinlock Kstring Riscv Kalloc KallocInit Vm Sched.
From S2P Require Import Uart Printf Uio Console Bio Log Fs File Proc.

Section syscall.
Context `{Platform}.

(** ** Fetching arguments *)

(** int fetchaddr(uint64 addr, uint64 *ip): the word, if it is there *)
Definition fetchaddr (addr : Z) : K (option Z) :=
  p ← curproc;
  pp ← get_proc p;
  if (p_sz pp <=? addr) || (p_sz pp <? u64 (addr + 8)) then mret None
  else
    r ← copyin (p_pagetable pp) addr 8;
    if negb (r.1 =? 0) then mret None else mret (Some (le_combine r.2)).

(** int fetchstr(uint64 addr, char *buf, int max): the result and what was stored in
    buf *)
Definition fetchstr (addr max : Z) : K (Z * list Z) :=
  p ← curproc;
  pp ← get_proc p;
  r ← copyinstr (p_pagetable pp) addr (u64 max);
  if r.1 <? 0 then mret (-1, r.2) else mret (Z.of_nat (length (upto_nul r.2)), r.2).

(** static uint64 argraw(int n) *)
Definition argraw (n : Z) : K Z :=
  p ← curproc;
  if n =? 0 then tf_load p TF_a0
  else if n =? 1 then tf_load p TF_a1
  else if n =? 2 then tf_load p TF_a2
  else if n =? 3 then tf_load p TF_a3
  else if n =? 4 then tf_load p TF_a4
  else if n =? 5 then tf_load p TF_a5
  else panic "argraw".

(** void argint(int n, int *ip) *)
Definition argint (n : Z) : K Z := v ← argraw n; mret (s32 v).

(** void argaddr(int n, uint64 *ip) *)
Definition argaddr (n : Z) : K Z := argraw n.

(** int argstr(int n, char *buf, int max) *)
Definition argstr (n max : Z) : K (Z * list Z) :=
  addr ← argaddr n;
  fetchstr addr max.

(** ** sysproc.c *)

Definition sys_exit : K Z :=
  n ← argint 0;
  exit n;;
  mret 0.

Definition sys_getpid : K Z :=
  p ← curproc;
  pp ← get_proc p;
  mret (u64 (p_pid pp)).

Definition sys_fork : K Z := r ← fork; mret (u64 r).

Definition sys_wait : K Z :=
  p ← argaddr 0;
  r ← wait p;
  mret (u64 r).

Definition sys_sbrk : K Z :=
  n ← argint 0;
  p ← curproc;
  pp ← get_proc p;
  let addr := p_sz pp in
  r ← growproc n;
  if r <? 0 then mret (u64 (-1)) else mret addr.

(** sys_sleep: the test of its loop with what follows, the function, and what runs
    when the sleep returns *)
Definition sys_sleep_loop (ticks0 n : Z) : K Z :=
  t ← gets k_ticks;
  if u32 (t - ticks0) <? u32 n then
    p ← curproc;
    k ← killed p;
    if negb (k =? 0) then
      release L_ticks;;
      mret (u64 (-1))
    else
      sleep Ch_ticks L_ticks;;
      mret 0
  else
    release L_ticks;;
    mret 0.

Definition sys_sleep : K Z :=
  n ← argint 0;
  acquire L_ticks;;
  ticks0 ← gets k_ticks;
  sys_sleep_loop ticks0 n.

Definition sys_sleep_resume (intena : bool) (ticks0 n : Z) : K Z :=
  sleep_resume intena L_ticks;;
  sys_sleep_loop ticks0 n.

Definition sys_kill : K Z :=
  pid ← argint 0;
  r ← kill pid;
  mret (u64 r).

Definition sys_uptime : K Z :=
  acquire L_ticks;;
  xticks ← gets k_ticks;
  release L_ticks;;
  mret xticks.

End syscall.
