(* ===== verification/Sysfile.v ===== *)
(** * File system calls (kernel/sysfile.c, fcntl.h): definitions

    Each system call as the code has it: argument checks, the transaction around
    the file-system work, and the clean-up of every failure path. *)

From Stdlib Require Import ZArith Lia.
From stdpp Require Import base tactics numbers gmap strings option list.
From S2P Require Import Prelude Bytes Kernel Spinlock Kstring Riscv Kalloc KallocInit Vm Sched.
From S2P Require Import Uart Printf Uio Console Bio Log Fs File Proc Exec Syscall.

(** ** fcntl.h *)

Definition O_RDONLY : Z := 0x000.
Definition O_WRONLY : Z := 0x001.
Definition O_RDWR : Z := 0x002.
Definition O_CREATE : Z := 0x200.
Definition O_TRUNC : Z := 0x400.

(** omode & flag *)
Definition has_mode (omode flag : Z) : bool := negb (Z.land omode flag =? 0).

(** -1 as a uint64 *)
Definition ERR : Z := u64 (-1).

(** An uninitialised name buffer; no result depends on its contents. *)
Definition no_name : list Z := replicate 14 0.

Section sysfile.
Context `{Platform}.

(** ** Descriptors *)

(** static int argfd(int n, int *pfd, struct file **pf): both, if the argument is an
    open descriptor *)
Definition argfd (n : Z) : K (option (nat * nat)) :=
  fd ← argint n;
  if (fd <? 0) || (NOFILE <=? fd) then mret None
  else
    p ← curproc;
    pp ← get_proc p;
    match nth (Z.to_nat fd) (p_ofile pp) None with
    | Some f => mret (Some (Z.to_nat fd, f))
    | None => mret None
    end.

(** p->ofile[fd] = f *)
Definition set_ofile (fd : nat) (f : option nat) : K unit :=
  p ← curproc;
  upd_proc p (upd_p_ofile (<[fd := f]>)).

(** static int fdalloc(struct file *f) *)
Definition fdalloc (f : nat) : K (option nat) :=
  p ← curproc;
  pp ← get_proc p;
  match find_index (fun o => bool_decide (o = None)) (p_ofile pp) with
  | Some fd => set_ofile fd (Some f);; mret (Some fd)
  | None => mret None
  end.

Definition sys_dup : K Z :=
  r ← argfd 0;
  match r with
  | None => mret ERR
  | Some (_, f) =>
      fd ← fdalloc f;
      match fd with
      | None => mret ERR
      | Some fd => filedup f;; mret (Z.of_nat fd)
      end
  end.

Definition sys_read : K Z :=
  p ← argaddr 1;
  n ← argint 2;
  r ← argfd 0;
  match r with
  | None => mret ERR
  | Some (_, f) => v ← fileread f p n; mret (u64 v)
  end.

Definition sys_write : K Z :=
  p ← argaddr 1;
  n ← argint 2;
  r ← argfd 0;
  match r with
  | None => mret ERR
  | Some (_, f) => v ← filewrite f p n; mret (u64 v)
  end.

Definition sys_close : K Z :=
  r ← argfd 0;
  match r with
  | None => mret ERR
  | Some (fd, f) =>
      set_ofile fd None;;
      fileclose f;;
      mret 0
  end.

(** [pad] is the padding of the struct stat on the kernel stack. *)
Definition sys_fstat (pad : list Z) : K Z :=
  st ← argaddr 1;
  r ← argfd 0;
  match r with
  | None => mret ERR
  | Some (_, f) => v ← filestat pad f st; mret (u64 v)
  end.

(** ** Links *)

(** The label bad: of sys_link *)
Definition sys_link_bad (ip : nat) : K Z :=
  ilock (Some ip);;
  upd_inode ip (upd_i_nlink (fun n => s16 (n - 1)));;
  iupdate ip;;
  iunlockput ip;;
  end_op;;
  mret ERR.

Definition sys_link : K Z :=
  old ← argstr 0 MAXPATH;
  if old.1 <? 0 then mret ERR else
  new ← argstr 1 MAXPATH;
  if new.1 <? 0 then mret ERR else
  begin_op;;
  r ← namei old.2;
  match r with
  | None => end_op;; mret ERR
  | Some ip =>
      ilock (Some ip);;
      i ← get_inode ip;
      if i_type i =? T_DIR then
        iunlockput ip;;
        end_op;;
        mret ERR
      else
        upd_inode ip (upd_i_nlink (fun n => s16 (n + 1)));;
        iupdate ip;;
        iunlock (Some ip);;
        r ← nameiparent new.2 no_name;
        match r with
        | (None, _) => sys_link_bad ip
        | (Some dp, name) =>
            ilock (Some dp);;
            d ← get_inode dp;
            i ← get_inode ip;
            bad ← (if negb (i_dev d =? i_dev i) then mret true
                   else r ← dirlink dp name (i_inum i); mret (r <? 0));
            iunlockput dp;;
            if bad : bool then sys_link_bad ip
            else
              iput ip;;
              end_op;;
              mret 0
        end
  end.

(** static int isdirempty(struct inode *dp) *)
Definition isdirempty_body (dp : nat) (off : Z) : K (Z + bool) :=
  d ← get_inode dp;
  if off <? i_size d then
    de ← read_dirent dp off "isdirempty: readi";
    if negb (de_inum de =? 0) then mret (inr false) else mret (inl (off + 16))
  else mret (inr true).

Definition isdirempty (dp : nat) : K bool :=
  d ← get_inode dp;
  loop (S (S (Z.to_nat (i_size d / 16)))) (isdirempty_body dp) 32.

(** The label bad: of sys_unlink *)
Definition sys_unlink_bad (dp : nat) : K Z :=
  iunlockput dp;;
  end_op;;
  mret ERR.

Definition sys_unlink : K Z :=
  path ← argstr 0 MAXPATH;
  if path.1 <? 0 then mret ERR else
  begin_op;;
  r ← nameiparent path.2 no_name;
  match r with
  | (None, _) => end_op;; mret ERR
  | (Some dp, name) =>
      ilock (Some dp);;
      if (namecmp name (str ".") =? 0) || (namecmp name (str "..") =? 0) then sys_unlink_bad dp
      else
        r ← dirlookup dp name;
        match r with
        | None => sys_unlink_bad dp
        | Some (ip, off) =>
            ilock (Some ip);;
            i ← get_inode ip;
            if i_nlink i <? 1 then panic "unlink: nlink < 1" else
            full ← (if i_type i =? T_DIR then e ← isdirempty ip; mret (negb e) else mret false);
            if full : bool then
              iunlockput ip;;
              sys_unlink_bad dp
            else
              r ← writei dp (KernBuf (replicate 16 0)) off 16;
              if negb (r =? 16) then panic "unlink: writei" else
              when (i_type i =? T_DIR)
                (upd_inode dp (upd_i_nlink (fun n => s16 (n - 1)));;
                 iupdate dp);;
              iunlockput dp;;
              upd_inode ip (upd_i_nlink (fun n => s16 (n - 1)));;
              iupdate ip;;
              iunlockput ip;;
              end_op;;
              mret 0
        end
  end.

(** ** Creation *)

(** The label fail: of create() *)
Definition create_fail (ip dp : nat) : K (option nat) :=
  upd_inode ip (upd_i_nlink (fun _ => 0));;
  iupdate ip;;
  iunlockput ip;;
  iunlockput dp;;
  mret None.

(** static struct inode *create(char *path, short type, short major, short minor) *)
Definition create (path : list Z) (type major minor : Z) : K (option nat) :=
  r ← nameiparent path no_name;
  match r with
  | (None, _) => mret None
  | (Some dp, name) =>
      ilock (Some dp);;
      r ← dirlookup dp name;
      match r with
      | Some (ip, _) =>
          iunlockput dp;;
          ilock (Some ip);;
          i ← get_inode ip;
          if (type =? T_FILE) && ((i_type i =? T_FILE) || (i_type i =? T_DEVICE))
          then mret (Some ip)
          else
            iunlockput ip;;
            mret None
      | None =>
          d ← get_inode dp;
          r ← ialloc (i_dev d) type;
          match r with
          | None =>
              iunlockput dp;;
              mret None
          | Some ip =>
              ilock (Some ip);;
              upd_inode ip (upd_i_major (fun _ => major));;
              upd_inode ip (upd_i_minor (fun _ => minor));;
              upd_inode ip (upd_i_nlink (fun _ => 1));;
              iupdate ip;;
              i ← get_inode ip;
              d ← get_inode dp;
              dots ← (if type =? T_DIR then
                        r ← dirlink ip (str ".") (i_inum i);
                        if r <? 0 then mret false
                        else r ← dirlink ip (str "..") (i_inum d); mret (negb (r <? 0))
                      else mret true);
              if negb dots then create_fail ip dp
              else
                r ← dirlink dp name (i_inum i);
                if r <? 0 then create_fail ip dp
                else
                  when (type =? T_DIR)
                    (upd_inode dp (upd_i_nlink (fun n => s16 (n + 1)));;
                     iupdate dp);;
                  iunlockput dp;;
                  mret (Some ip)
          end
      end
  end.

(** sys_open: the end shared by both ways to get the inode, and the function *)
Definition sys_open_fail (ip : nat) : K Z :=
  iunlockput ip;;
  end_op;;
  mret ERR.

Definition sys_open_inode (ip : nat) (omode : Z) : K Z :=
  i ← get_inode ip;
  if (i_type i =? T_DEVICE) && ((i_major i <? 0) || (NDEV <=? i_major i)) then sys_open_fail ip
  else
    r ← filealloc;
    match r with
    | None => sys_open_fail ip
    | Some f =>
        r ← fdalloc f;
        match r with
        | None =>
            fileclose f;;
            sys_open_fail ip
        | Some fd =>
            (if i_type i =? T_DEVICE then
               upd_file f (upd_f_type (fun _ => FD_DEVICE));;
               upd_file f (upd_f_major (fun _ => i_major i))
             else
               upd_file f (upd_f_type (fun _ => FD_INODE));;
               upd_file f (upd_f_off (fun _ => 0)));;
            upd_file f (upd_f_ip (fun _ => Some ip));;
            upd_file f (upd_f_readable (fun _ => negb (has_mode omode O_WRONLY)));;
            upd_file f (upd_f_writable (fun _ => has_mode omode O_WRONLY || has_mode omode O_RDWR));;
            when (has_mode omode O_TRUNC && (i_type i =? T_FILE)) (itrunc ip);;
            iunlock (Some ip);;
            end_op;;
            mret (Z.of_nat fd)
        end
    end.

Definition sys_open : K Z :=
  omode ← argint 1;
  path ← argstr 0 MAXPATH;
  if path.1 <? 0 then mret ERR else
  begin_op;;
  if has_mode omode O_CREATE then
    r ← create path.2 T_FILE 0 0;
    match r with
    | None => end_op;; mret ERR
    | Some ip => sys_open_inode ip omode
    end
  else
    r ← namei path.2;
    match r with
    | None => end_op;; mret ERR
    | Some ip =>
        ilock (Some ip);;
        i ← get_inode ip;
        if (i_type i =? T_DIR) && negb (omode =? O_RDONLY) then sys_open_fail ip
        else sys_open_inode ip omode
    end.

Definition sys_mkdir : K Z :=
  begin_op;;
  path ← argstr 0 MAXPATH;
  r ← (if path.1 <? 0 then mret None else create path.2 T_DIR 0 0);
  match r with
  | None => end_op;; mret ERR
  | Some ip =>
      iunlockput ip;;
      end_op;;
      mret 0
  end.

Definition sys_mknod : K Z :=
  begin_op;;
  major ← argint 1;
  minor ← argint 2;
  path ← argstr 0 MAXPATH;
  r ← (if path.1 <? 0 then mret None else create path.2 T_DEVICE (s16 major) (s16 minor));
  match r with
  | None => end_op;; mret ERR
  | Some ip =>
      iunlockput ip;;
      end_op;;
      mret 0
  end.

Definition sys_chdir : K Z :=
  p ← curproc;
  begin_op;;
  path ← argstr 0 MAXPATH;
  r ← (if path.1 <? 0 then mret None else namei path.2);
  match r with
  | None => end_op;; mret ERR
  | Some ip =>
      ilock (Some ip);;
      i ← get_inode ip;
      if negb (i_type i =? T_DIR) then
        iunlockput ip;;
        end_op;;
        mret ERR
      else
        iunlock (Some ip);;
        pp ← get_proc p;
        cwd ← deref (p_cwd pp);
        iput cwd;;
        end_op;;
        upd_proc p (upd_p_cwd (fun _ => Some ip));;
        mret 0
  end.

(** sys_exec: the loop that fetches the arguments, which leaves with whether it got
    them all and with the pages allocated, and the function *)
Definition sys_exec_body (uargv : Z) (st : list Z) : K (list Z + bool * list Z) :=
  let i := Z.of_nat (length st) in
  if MAXARG <=? i then mret (inr (false, st))
  else
    r ← fetchaddr (u64 (uargv + 8 * i));
    match r with
    | None => mret (inr (false, st))
    | Some uarg =>
        if uarg =? 0 then mret (inr (true, st))
        else
          a ← kalloc;
          if a =? 0 then mret (inr (false, st))
          else
            r ← fetchstr uarg PGSIZE;
            upd_mem (fun m => wr_bytes m a r.2);;
            if r.1 <? 0 then mret (inr (false, st ++ [a])) else mret (inl (st ++ [a]))
    end.

Definition sys_exec : K Z :=
  uargv ← argaddr 1;
  path ← argstr 0 MAXPATH;
  if path.1 <? 0 then mret ERR else
  r ← loop 33 (sys_exec_body uargv) [];
  let '(ok, argv) := r in
  if ok : bool then
    ret ← exec path.2 argv;
    for_each argv kfree;;
    mret (u64 ret)
  else
    for_each argv kfree;;
    mret ERR.

Definition sys_pipe : K Z :=
  p ← curproc;
  fdarray ← argaddr 0;
  r ← pipealloc;
  match r with
  | None => mret ERR
  | Some (rf, wf) =>
      fd0 ← fdalloc rf;
      match fd0 with
      | None =>
          fileclose rf;;
          fileclose wf;;
          mret ERR
      | Some fd0 =>
          fd1 ← fdalloc wf;
          match fd1 with
          | None =>
              set_ofile fd0 None;;
              fileclose rf;;
              fileclose wf;;
              mret ERR
          | Some fd1 =>
              pp ← get_proc p;
              r ← copyout (p_pagetable pp) fdarray (le_split 4 (Z.of_nat fd0));
              bad ← (if r <? 0 then mret true
                     else
                       r ← copyout (p_pagetable pp) (u64 (fdarray + 4)) (le_split 4 (Z.of_nat fd1));
                       mret (r <? 0));
              if bad : bool then
                set_ofile fd0 None;;
                set_ofile fd1 None;;
                fileclose rf;;
                fileclose wf;;
                mret ERR
              else mret 0
          end
      end
  end.

End sysfile.
