(* ===== verification/Virtio.v ===== *)
(** * The disk driver (kernel/virtio_disk.c, virtio.h): definitions

    The driver shares a table of eight descriptors and two rings with the
    device.  A request is a chain of three descriptors: a header, the data of a
    buffer and a status byte.  [k_vdisk] is the memory the two share together
    with the driver's own book-keeping and the device's registers.  The pages
    the queue is allocated in are not otherwise used: [k_vdisk] holds their
    contents as the structures they are cast to.

    virtio_disk_rw() always waits for the device, so its run ends in sleep();
    [virtio_rw_wait] is what it does each time it is woken. *)

From Stdlib Require Import ZArith Lia.
From stdpp Require Import base tactics numbers gmap strings option list.
From S2P Require Import Prelude Kernel Spinlock Kstring Riscv Kalloc Sched.

(** ** virtio.h *)

Definition VIRTIO_MMIO_MAGIC_VALUE : Z := 0x000.
Definition VIRTIO_MMIO_VERSION : Z := 0x004.
Definition VIRTIO_MMIO_DEVICE_ID : Z := 0x008.
Definition VIRTIO_MMIO_VENDOR_ID : Z := 0x00c.
Definition VIRTIO_MMIO_DEVICE_FEATURES : Z := 0x010.
Definition VIRTIO_MMIO_DRIVER_FEATURES : Z := 0x020.
Definition VIRTIO_MMIO_QUEUE_SEL : Z := 0x030.
Definition VIRTIO_MMIO_QUEUE_NUM_MAX : Z := 0x034.
Definition VIRTIO_MMIO_QUEUE_NUM : Z := 0x038.
Definition VIRTIO_MMIO_QUEUE_READY : Z := 0x044.
Definition VIRTIO_MMIO_QUEUE_NOTIFY : Z := 0x050.
Definition VIRTIO_MMIO_INTERRUPT_STATUS : Z := 0x060.
Definition VIRTIO_MMIO_INTERRUPT_ACK : Z := 0x064.
Definition VIRTIO_MMIO_STATUS : Z := 0x070.
Definition VIRTIO_MMIO_QUEUE_DESC_LOW : Z := 0x080.
Definition VIRTIO_MMIO_QUEUE_DESC_HIGH : Z := 0x084.
Definition VIRTIO_MMIO_DRIVER_DESC_LOW : Z := 0x090.
Definition VIRTIO_MMIO_DRIVER_DESC_HIGH : Z := 0x094.
Definition VIRTIO_MMIO_DEVICE_DESC_LOW : Z := 0x0a0.
Definition VIRTIO_MMIO_DEVICE_DESC_HIGH : Z := 0x0a4.

Definition VIRTIO_CONFIG_S_ACKNOWLEDGE : Z := 1.
Definition VIRTIO_CONFIG_S_DRIVER : Z := 2.
Definition VIRTIO_CONFIG_S_DRIVER_OK : Z := 4.
Definition VIRTIO_CONFIG_S_FEATURES_OK : Z := 8.

Definition VIRTIO_BLK_F_RO : Z := 5.
Definition VIRTIO_BLK_F_SCSI : Z := 7.
Definition VIRTIO_BLK_F_CONFIG_WCE : Z := 11.
Definition VIRTIO_BLK_F_MQ : Z := 12.
Definition VIRTIO_F_ANY_LAYOUT : Z := 27.
Definition VIRTIO_RING_F_INDIRECT_DESC : Z := 28.
Definition VIRTIO_RING_F_EVENT_IDX : Z := 29.

Definition NUM : Z := 8.
Definition VRING_DESC_F_NEXT : Z := 1.
Definition VRING_DESC_F_WRITE : Z := 2.
Definition VIRTIO_BLK_T_IN : Z := 0.
Definition VIRTIO_BLK_T_OUT : Z := 1.

(** ** Access to the state *)

Definition upd_vd (f : vdiskst -> vdiskst) : K unit := modify (upd_k_vdisk f).

(** *R(r), and an assignment to it.  A device that refuses the features the driver
    offers clears FEATURES_OK. *)
Definition vreg (r : Z) : K Z := gets (fun s => default 0 (dk_regs (k_vdisk s) !! r)).

Definition set_vreg (r v : Z) : K unit :=
  upd_vd (fun d => upd_dk_regs (insert r
    (if (r =? VIRTIO_MMIO_STATUS) && dk_refuses d
     then Z.land (u32 v) (Z.lnot VIRTIO_CONFIG_S_FEATURES_OK) else u32 v)) d).

(** disk.desc[i], disk.info[i] and updates of them; an index out of range is a wild
    access. *)
Definition get_desc (i : Z) : K vdesc := get_entry (fun s => dk_desc (k_vdisk s)) (Z.to_nat i).

Definition upd_desc (i : Z) (f : vdesc -> vdesc) : K unit :=
  upd_vd (upd_dk_desc (alter f (Z.to_nat i))).

Definition upd_info (i : Z) (f : vinfo -> vinfo) : K unit :=
  upd_vd (upd_dk_info (alter f (Z.to_nat i))).

Definition upd_ops (i : Z) (f : vreq -> vreq) : K unit :=
  upd_vd (upd_dk_ops (alter f (Z.to_nat i))).

(** ** virtio_disk.c *)

Section virtio.
Context `{Platform}.

(** [features &= ~(1 << b)] *)
Definition drop_feature (features b : Z) : Z := Z.land features (Z.lnot (Z.shiftl 1 b)).

(** void virtio_disk_init(void) *)
Definition virtio_negotiate (status : Z) : K Z :=
  set_vreg VIRTIO_MMIO_STATUS status;;
  let status := Z.lor status VIRTIO_CONFIG_S_ACKNOWLEDGE in
  set_vreg VIRTIO_MMIO_STATUS status;;
  let status := Z.lor status VIRTIO_CONFIG_S_DRIVER in
  set_vreg VIRTIO_MMIO_STATUS status;;
  features ← vreg VIRTIO_MMIO_DEVICE_FEATURES;
  let features := drop_feature features VIRTIO_BLK_F_RO in
  let features := drop_feature features VIRTIO_BLK_F_SCSI in
  let features := drop_feature features VIRTIO_BLK_F_CONFIG_WCE in
  let features := drop_feature features VIRTIO_BLK_F_MQ in
  let features := drop_feature features VIRTIO_F_ANY_LAYOUT in
  let features := drop_feature features VIRTIO_RING_F_EVENT_IDX in
  let features := drop_feature features VIRTIO_RING_F_INDIRECT_DESC in
  set_vreg VIRTIO_MMIO_DRIVER_FEATURES features;;
  let status := Z.lor status VIRTIO_CONFIG_S_FEATURES_OK in
  set_vreg VIRTIO_MMIO_STATUS status;;
  vreg VIRTIO_MMIO_STATUS.

Definition virtio_disk_init : K unit :=
  initlock L_vdisk;;
  magic ← vreg VIRTIO_MMIO_MAGIC_VALUE;
  version ← vreg VIRTIO_MMIO_VERSION;
  device ← vreg VIRTIO_MMIO_DEVICE_ID;
  vendor ← vreg VIRTIO_MMIO_VENDOR_ID;
  if negb (magic =? 0x74726976) || negb (version =? 2) || negb (device =? 2) ||
     negb (vendor =? 0x554d4551)
  then panic "could not find virtio disk" else
  status ← virtio_negotiate 0;
  if Z.land status VIRTIO_CONFIG_S_FEATURES_OK =? 0 then panic "virtio disk FEATURES_OK unset" else
  set_vreg VIRTIO_MMIO_QUEUE_SEL 0;;
  ready ← vreg VIRTIO_MMIO_QUEUE_READY;
  if negb (ready =? 0) then panic "virtio disk should not be ready" else
  max ← vreg VIRTIO_MMIO_QUEUE_NUM_MAX;
  if max =? 0 then panic "virtio disk has no queue 0" else
  if max <? NUM then panic "virtio disk max queue too short" else
  desc ← kalloc;
  avail ← kalloc;
  used ← kalloc;
  if (desc =? 0) || (avail =? 0) || (used =? 0) then panic "virtio disk kalloc" else
  upd_mem (fun m => memset m desc 0 PGSIZE);;
  upd_mem (fun m => memset m avail 0 PGSIZE);;
  upd_mem (fun m => memset m used 0 PGSIZE);;
  upd_vd (upd_dk_desc (fun _ => replicate 8 zero_vdesc));;
  upd_vd (fun d => upd_dk_avail_idx (fun _ => 0) (upd_dk_avail_ring (fun _ => replicate 8 0) d));;
  upd_vd (fun d => upd_dk_used_idx (fun _ => 0) (upd_dk_used_ring (fun _ => replicate 8 0) d));;
  set_vreg VIRTIO_MMIO_QUEUE_NUM NUM;;
  set_vreg VIRTIO_MMIO_QUEUE_DESC_LOW desc;;
  set_vreg VIRTIO_MMIO_QUEUE_DESC_HIGH (Z.shiftr desc 32);;
  set_vreg VIRTIO_MMIO_DRIVER_DESC_LOW avail;;
  set_vreg VIRTIO_MMIO_DRIVER_DESC_HIGH (Z.shiftr avail 32);;
  set_vreg VIRTIO_MMIO_DEVICE_DESC_LOW used;;
  set_vreg VIRTIO_MMIO_DEVICE_DESC_HIGH (Z.shiftr used 32);;
  set_vreg VIRTIO_MMIO_QUEUE_READY 0x1;;
  upd_vd (upd_dk_free (fun _ => replicate 8 true));;
  set_vreg VIRTIO_MMIO_STATUS (Z.lor status VIRTIO_CONFIG_S_DRIVER_OK).

End virtio.

(** static int alloc_desc() *)
Definition alloc_desc : K Z :=
  d ← gets k_vdisk;
  match find_index (fun b => b) (dk_free d) with
  | Some i =>
      upd_vd (upd_dk_free (<[i := false]>));;
      mret (Z.of_nat i)
  | None => mret (-1)
  end.

(** static void free_desc(int i) *)
Definition free_desc (i : Z) : K unit :=
  if NUM <=? i then panic "free_desc 1" else
  fr ← get_entry (fun s => dk_free (k_vdisk s)) (Z.to_nat i);
  if fr : bool then panic "free_desc 2" else
  upd_desc i (fun _ => mkVdesc VA_null 0 0 0);;
  upd_vd (upd_dk_free (<[Z.to_nat i := true]>));;
  wakeup Ch_diskfree.

(** static void free_chain(int i); free_desc() panics at a descriptor that is free
    already, so the chain ends within NUM steps. *)
Definition free_chain_body (i : Z) : K (Z + unit) :=
  d ← get_desc i;
  free_desc i;;
  mret (if negb (Z.land (vd_flags d) VRING_DESC_F_NEXT =? 0) then inl (vd_next d) else inr tt).

Definition free_chain (i : Z) : K unit := loop 9 free_chain_body i.

(** static int alloc3_desc(int *idx): the three indices, or [None] for -1 *)
Definition alloc3_desc : K (option (Z * Z * Z)) :=
  i0 ← alloc_desc;
  if i0 <? 0 then mret None
  else
    i1 ← alloc_desc;
    if i1 <? 0 then
      free_desc i0;;
      mret None
    else
      i2 ← alloc_desc;
      if i2 <? 0 then
        free_desc i0;;
        free_desc i1;;
        mret None
      else mret (Some (i0, i1, i2)).

(** virtio_disk_rw(): the part that formats the three descriptors and tells the
    device *)
Definition virtio_rw_start (b : nat) (write : bool) (sector : Z) (idx : Z * Z * Z) : K unit :=
  let '(i0, i1, i2) := idx in
  upd_ops i0 (fun _ => mkVreq (if write then VIRTIO_BLK_T_OUT else VIRTIO_BLK_T_IN) 0 sector);;
  upd_desc i0 (fun _ => mkVdesc (VA_ops (Z.to_nat i0)) 16 VRING_DESC_F_NEXT i1);;
  upd_desc i1 (fun _ => mkVdesc (VA_data b) BSIZE
    (Z.lor (if write then 0 else VRING_DESC_F_WRITE) VRING_DESC_F_NEXT) i2);;
  upd_info i0 (upd_vi_status (fun _ => 0xff));;
  upd_desc i2 (fun _ => mkVdesc (VA_status (Z.to_nat i0)) 1 VRING_DESC_F_WRITE 0);;
  upd_buf b (upd_b_disk (fun _ => true));;
  upd_info i0 (upd_vi_b (fun _ => Some b));;
  upd_vd (fun d => upd_dk_avail_ring (<[Z.to_nat (dk_avail_idx d mod NUM) := i0]>) d);;
  upd_vd (upd_dk_avail_idx (fun n => u16 (n + 1)));;
  set_vreg VIRTIO_MMIO_QUEUE_NOTIFY 0.

(** The loop that waits for virtio_disk_intr(), with what follows it. *)
Definition virtio_rw_finish (i0 : Z) : K unit :=
  upd_info i0 (upd_vi_b (fun _ => None));;
  free_chain i0;;
  release L_vdisk.

Definition virtio_rw_wait (b : nat) (i0 : Z) : K unit :=
  bb ← get_buf b;
  when (b_disk bb) (sleep (Ch_buf b) L_vdisk);;
  virtio_rw_finish i0.

(** The loop that allocates descriptors, with what follows it. *)
Definition virtio_rw_alloc (b : nat) (write : bool) (sector : Z) : K unit :=
  idx ← alloc3_desc;
  match idx with
  | None => sleep Ch_diskfree L_vdisk
  | Some idx =>
      virtio_rw_start b write sector idx;;
      virtio_rw_wait b idx.1.1
  end.

(** void virtio_disk_rw(struct buf *b, int write), and what runs when one of its
    sleeps returns *)
Definition virtio_rw (b : nat) (write : bool) : K unit :=
  bb ← get_buf b;
  let sector := u32 (b_blockno bb * (BSIZE / 512)) in
  acquire L_vdisk;;
  virtio_rw_alloc b write sector.

Definition virtio_rw_resume_alloc (intena : bool) (b : nat) (write : bool) (sector : Z) : K unit :=
  sleep_resume intena L_vdisk;;
  virtio_rw_alloc b write sector.

Definition virtio_rw_resume_wait (intena : bool) (b : nat) (i0 : Z) : K unit :=
  sleep_resume intena L_vdisk;;
  virtio_rw_wait b i0.

(** void virtio_disk_intr(); the fuel is the number of entries the device has added
    to the used ring. *)
Definition virtio_intr_body (_ : unit) : K (unit + unit) :=
  d ← gets k_vdisk;
  if dk_seen_idx d =? dk_used_idx d then mret (inr tt)
  else
    let id := nth (Z.to_nat (dk_seen_idx d mod NUM)) (dk_used_ring d) 0 in
    info ← get_entry (fun s => dk_info (k_vdisk s)) (Z.to_nat id);
    if negb (vi_status info =? 0) then panic "virtio_disk_intr status" else
    b ← deref (vi_b info);
    upd_buf b (upd_b_disk (fun _ => false));;
    wakeup (Ch_buf b);;
    upd_vd (upd_dk_seen_idx (fun n => u16 (n + 1)));;
    mret (inl tt).

Definition virtio_disk_intr : K unit :=
  acquire L_vdisk;;
  st ← vreg VIRTIO_MMIO_INTERRUPT_STATUS;
  set_vreg VIRTIO_MMIO_INTERRUPT_ACK (Z.land st 0x3);;
  d ← gets k_vdisk;
  loop (S (Z.to_nat (u16 (dk_used_idx d - dk_seen_idx d)))) virtio_intr_body tt;;
  release L_vdisk.
