(* ===== verification/VirtioProps.v ===== *)
(** * Correctness of the disk driver (kernel/virtio_disk.c)

    The driver and the device share a queue.  [vq_ok] says which requests are in
    it and how far each has come: posted in the avail ring, taken by the device,
    in the used ring, or seen by virtio_disk_intr().  Every operation of the driver
    and every step of the device keeps it, and a request that goes through all of
    them has the effect that bio.c relies on, the contract [virtio_disk_rw]. *)

From Stdlib Require Import ZArith Lia.
From stdpp Require Import base tactics numbers gmap strings option list.
From S2P Require Import Prelude Kernel Spinlock Kstring Riscv Kalloc Sched SchedProps Ring Bio Virtio.

(** ** Specification *)

(** How far a request has come. *)
Inductive phase := Posted | Taken | Served | Done.

#[export] Instance phase_eq_dec : EqDecision phase.
Proof. solve_decision. Defined.

(** A request: its buffer, its direction, the second and third descriptor of its
    chain.  The first descriptor names it. *)
Record req := mkReq {
  vr_b : nat;
  vr_write : bool;
  vr_i1 : nat;
  vr_i2 : nat;
  vr_phase : phase;
}.

Definition chain (id : nat) (r : req) : list nat := [id; vr_i1 r; vr_i2 r].

(** The heads in the avail ring that the device has not taken, where [la] is the
    device's own counter, and those in the used ring that the driver has not seen. *)
Definition posted (la : Z) (d : vdiskst) : list Z := queue (2 ^ 16) 8 (dk_avail_ring d) la (dk_avail_idx d).

Definition unseen (d : vdiskst) : list Z := queue (2 ^ 16) 8 (dk_used_ring d) (dk_seen_idx d) (dk_used_idx d).

Record req_ok (d : vdiskst) (bs : list buf) (id : nat) (r : req) : Prop := {
  ro_dist : NoDup (chain id r);
  ro_lt i : i ∈ chain id r -> (i < 8)%nat;
  ro_d0 : dk_desc d !! id = Some (mkVdesc (VA_ops id) 16 VRING_DESC_F_NEXT (Z.of_nat (vr_i1 r)));
  ro_d1 : dk_desc d !! vr_i1 r = Some (mkVdesc (VA_data (vr_b r)) 1024
            (Z.lor (if vr_write r then 0 else VRING_DESC_F_WRITE) VRING_DESC_F_NEXT) (Z.of_nat (vr_i2 r)));
  ro_d2 : dk_desc d !! vr_i2 r = Some (mkVdesc (VA_status id) 1 VRING_DESC_F_WRITE 0);
  ro_info : dk_info d !! id = Some (mkVinfo (Some (vr_b r))
              (if decide (vr_phase r = Posted \/ vr_phase r = Taken) then 0xff else 0));
  ro_buf : exists bb, bs !! vr_b r = Some bb /\ b_disk bb = bool_decide (vr_phase r <> Done) /\
             dk_ops d !! id = Some (mkVreq (if vr_write r then VIRTIO_BLK_T_OUT else VIRTIO_BLK_T_IN) 0 (u32 (b_blockno bb * 2)));
}.

(** The requests [l] of a ring are those in phase [ph]. *)
Definition ring_ok (R : gmap nat req) (ph : phase) (l : list Z) : Prop :=
  NoDup l /\ forall z, z ∈ l <-> exists id r, z = Z.of_nat id /\ R !! id = Some r /\ vr_phase r = ph.

Record vq_ok (d : vdiskst) (bs : list buf) (la : Z) (R : gmap nat req) : Prop := {
  vq_len : length (dk_desc d) = 8%nat /\ length (dk_free d) = 8%nat /\ length (dk_info d) = 8%nat /\
           length (dk_ops d) = 8%nat /\ length (dk_avail_ring d) = 8%nat /\ length (dk_used_ring d) = 8%nat;
  vq_idx : 0 <= la < 2 ^ 16 /\ 0 <= dk_avail_idx d < 2 ^ 16 /\ 0 <= dk_seen_idx d < 2 ^ 16 /\ 0 <= dk_used_idx d < 2 ^ 16;
  vq_req id r : R !! id = Some r -> req_ok d bs id r;
  vq_disj id id' r r' : R !! id = Some r -> R !! id' = Some r' -> id <> id' ->
    (forall i, i ∈ chain id r -> i ∉ chain id' r') /\ vr_b r <> vr_b r';
  vq_free i : dk_free d !! i = Some true <-> (i < 8)%nat /\ forall id r, R !! id = Some r -> i ∉ chain id r;
  vq_posted : ring_ok R Posted (posted la d);
  vq_unseen : ring_ok R Served (unseen d);
}.

(** What the device does to the queue when it has finished the request with head
    [id] and status byte [k]: the status says success, the head is in the used ring
    and an interrupt is pending. *)
Definition dev_done (id k : nat) (d : vdiskst) : vdiskst :=
  upd_dk_regs (insert VIRTIO_MMIO_INTERRUPT_STATUS 1)
    (upd_dk_used_idx (fun n => u16 (n + 1))
      (upd_dk_used_ring (queue_set 8 (dk_used_idx d) (Z.of_nat id))
        (upd_dk_info (alter (upd_vi_status (fun _ => 0)) k) d))).

(** The block device, which is not part of the kernel.  What the virtio
    specification (5.2, block devices) promises of a request it has taken from the
    avail ring: for a chain of a header, 1024 bytes of data and a status byte it
    transfers the two sectors from the header's sector on, in the direction that
    header and data descriptor agree on, and reports success. *)
Class BlkDevice := {
  dev_complete : nat -> kstate -> kstate;
  dev_law id s j i1 b fl i2 k rq bb :
    dk_desc (k_vdisk s) !! id = Some (mkVdesc (VA_ops j) 16 VRING_DESC_F_NEXT (Z.of_nat i1)) ->
    dk_desc (k_vdisk s) !! i1 = Some (mkVdesc (VA_data b) 1024 fl (Z.of_nat i2)) -> Z.testbit fl 0 = true ->
    dk_desc (k_vdisk s) !! i2 = Some (mkVdesc (VA_status k) 1 VRING_DESC_F_WRITE 0) ->
    dk_ops (k_vdisk s) !! j = Some rq -> bc_buf (k_bcache s) !! b = Some bb -> rq_sector rq mod 2 = 0 ->
    rq_type rq = VIRTIO_BLK_T_OUT /\ Z.testbit fl 1 = false \/ rq_type rq = VIRTIO_BLK_T_IN /\ Z.testbit fl 1 = true ->
    dev_complete id s = upd_k_vdisk (dev_done id k)
      (if rq_type rq =? VIRTIO_BLK_T_OUT then upd_k_disk (dput (rq_sector rq / 2) (b_data bb)) s
       else on_buf b (upd_b_data (fun _ => dget (k_disk s) (rq_sector rq / 2))) s);
}.

(** ** Lemmas: the queue *)

(** What a request says depends on its own parts. *)
Lemma req_ok_frame d d' bs bs' id r :
  req_ok d bs id r -> (forall i, i ∈ chain id r -> dk_desc d' !! i = dk_desc d !! i) ->
  dk_info d' !! id = dk_info d !! id -> dk_ops d' !! id = dk_ops d !! id -> bs' !! vr_b r = bs !! vr_b r ->
  req_ok d' bs' id r.
Proof.
  intros [] Hd Hi Ho Hb. split; try done; rewrite ?Hi, ?Ho, ?Hb; try done; by rewrite Hd by set_solver.
Qed.

Lemma ring_length (l : list Z) R ph d bs la : vq_ok d bs la R -> ring_ok R ph l -> (length l <= 8)%nat.
Proof.
  intros Hq [Hn Hl]. assert (Hs : l ⊆+ (Z.of_nat <$> seq 0 8)).
  { apply NoDup_submseteq; [done|]. intros z (id & r & -> & Hr & _)%Hl. apply list_elem_of_fmap_2. apply elem_of_seq.
    pose proof (ro_lt _ _ _ _ (vq_req _ _ _ _ Hq _ _ Hr) id ltac:(set_solver)). lia. }
  apply submseteq_length in Hs. by rewrite length_fmap, length_seq in Hs.
Qed.

(** A head that is not in the ring leaves room in it. *)
Lemma ring_room (l : list Z) R ph d bs la i :
  vq_ok d bs la R -> ring_ok R ph l -> (i < 8)%nat -> Z.of_nat i ∉ l -> (length l < 8)%nat.
Proof.
  intros Hq [Hn Hl] Hi Hni. assert (Hs : (Z.of_nat i :: l) ⊆+ (Z.of_nat <$> seq 0 8)).
  { apply NoDup_submseteq; [by constructor|]. intros z [->|(id & r & -> & Hr & _)%Hl]%elem_of_cons;
      apply list_elem_of_fmap_2, elem_of_seq; [lia|].
    pose proof (ro_lt _ _ _ _ (vq_req _ _ _ _ Hq _ _ Hr) id ltac:(set_solver)). lia. }
  apply submseteq_length in Hs. rewrite length_fmap, length_seq in Hs. cbn in Hs. lia.
Qed.

(** A request changes phase. *)
Lemma ring_ok_ext R R' ph l : ring_ok R ph l ->
  (forall id, (exists r, R' !! id = Some r /\ vr_phase r = ph) <-> (exists r, R !! id = Some r /\ vr_phase r = ph)) -> ring_ok R' ph l.
Proof.
  intros [Hn Hl] E. split; [done|]. intros z. rewrite Hl. split; intros (id & r & -> & Hr & Hp).
  - destruct (proj2 (E id)) as (r' & ? & ?); [by eexists|]. by exists id, r'.
  - destruct (proj1 (E id)) as (r' & ? & ?); [by eexists|]. by exists id, r'.
Qed.

(** A request enters a ring. *)
Lemma ring_ok_snoc R ph l id r :
  ring_ok R ph l -> (forall r', R !! id = Some r' -> vr_phase r' <> ph) -> vr_phase r = ph ->
  ring_ok (<[id := r]> R) ph (l ++ [Z.of_nat id]).
Proof.
  intros [Hn Hl] Hold Hr. split.
  - apply NoDup_app. split_and!; [done| |apply NoDup_singleton].
    intros z (j & r' & -> & Hj & Hp)%Hl [=]%list_elem_of_singleton. assert (j = id) as -> by lia. by eapply Hold.
  - intros z. rewrite elem_of_app, list_elem_of_singleton, Hl. split.
    + intros [(j & r' & -> & Hj & Hp)| ->]; [|exists id, r; by rewrite lookup_insert_eq].
      exists j, r'. rewrite lookup_insert_ne; [done|]. intros ->. by eapply Hold.
    + intros (j & r' & -> & Hj & Hp). destruct (decide (j = id)) as [->|Hne]; [by right|left].
      rewrite lookup_insert_ne in Hj by done. by exists j, r'.
Qed.

(** A request leaves a ring. *)
Lemma ring_ok_tail R ph l id r :
  ring_ok R ph (Z.of_nat id :: l) -> vr_phase r <> ph -> ring_ok (<[id := r]> R) ph l.
Proof.
  intros [[Hni Hn]%NoDup_cons Hl] Hr. split; [done|]. intros z. split.
  - intros Hz. destruct (proj1 (Hl z)) as (j & r' & -> & Hj & Hp); [by right|]. exists j, r'.
    rewrite lookup_insert_ne; [done|]. by intros ->.
  - intros (j & r' & -> & Hj & Hp). destruct (decide (j = id)) as [->|Hne].
    { rewrite lookup_insert_eq in Hj. congruence. }
    rewrite lookup_insert_ne in Hj by done. assert (Hz : Z.of_nat j ∈ Z.of_nat id :: l) by (apply Hl; by exists j, r').
    apply elem_of_cons in Hz as [?|?]; [lia|done].
Qed.

Lemma ring_ok_insert R ph l id r :
  ring_ok R ph l -> (forall r', R !! id = Some r' -> vr_phase r' <> ph) -> vr_phase r <> ph -> ring_ok (<[id := r]> R) ph l.
Proof.
  intros Hr Hold Hnew. eapply ring_ok_ext; [exact Hr|]. intros j. destruct (decide (j = id)) as [->|Hne].
  - rewrite lookup_insert_eq. split; intros (r' & Hr' & Hp); [simplify_eq|by apply Hold in Hr'].
  - by rewrite lookup_insert_ne.
Qed.

Lemma ring_ok_delete R ph l id :
  ring_ok R ph l -> (forall r', R !! id = Some r' -> vr_phase r' <> ph) -> ring_ok (delete id R) ph l.
Proof.
  intros Hr Hold. eapply ring_ok_ext; [exact Hr|]. intros j. destruct (decide (j = id)) as [->|Hne].
  - rewrite lookup_delete_eq. split; intros (r' & Hr' & Hp); [done|by apply Hold in Hr'].
  - by rewrite lookup_delete_ne.
Qed.

(** A request moves on to its next phase. *)
Lemma vq_update d d' bs bs' la la' R id r ph :
  let r' := mkReq (vr_b r) (vr_write r) (vr_i1 r) (vr_i2 r) ph in
  vq_ok d bs la R -> R !! id = Some r ->
  dk_desc d' = dk_desc d -> dk_free d' = dk_free d -> dk_ops d' = dk_ops d -> dk_avail_ring d' = dk_avail_ring d ->
  length (dk_info d') = 8%nat -> length (dk_used_ring d') = 8%nat ->
  0 <= la' < 2 ^ 16 -> 0 <= dk_avail_idx d' < 2 ^ 16 -> 0 <= dk_seen_idx d' < 2 ^ 16 -> 0 <= dk_used_idx d' < 2 ^ 16 ->
  (forall j, j <> id -> dk_info d' !! j = dk_info d !! j) -> (forall c, c <> vr_b r -> bs' !! c = bs !! c) ->
  req_ok d' bs' id r' -> ring_ok (<[id := r']> R) Posted (posted la' d') -> ring_ok (<[id := r']> R) Served (unseen d') ->
  vq_ok d' bs' la' (<[id := r']> R).
Proof.
  intros r' Hq Hid Ed Ef Eo Ea Hli Hlu Hla Hav Hse Hus Hinfo Hbs Hr' HP HS. destruct Hq as [Hlen Hidx Hreq Hdisj Hfree _ _].
  assert (Hold : forall j q, <[id := r']> R !! j = Some q ->
    exists q0, R !! j = Some q0 /\ chain j q = chain j q0 /\ vr_b q = vr_b q0 /\ (j <> id -> q = q0)).
  { intros j q Hj. destruct (decide (j = id)) as [->|Hne].
    - rewrite lookup_insert_eq in Hj. injection Hj as <-. by exists r.
    - rewrite lookup_insert_ne in Hj by done. by exists q. }
  split.
  - rewrite Ed, Ef, Eo, Ea. naive_solver.
  - done.
  - intros j q Hj. destruct (decide (j = id)) as [->|Hne]; [rewrite lookup_insert_eq in Hj; by injection Hj as <-|].
    rewrite lookup_insert_ne in Hj by done. eapply req_ok_frame; [by apply Hreq|by rewrite Ed|by apply Hinfo|by rewrite Eo|].
    apply Hbs. by destruct (Hdisj j id q r Hj Hid Hne).
  - intros j j' q q' Hj Hj' Hne. destruct (Hold j q Hj) as (q0 & H1 & -> & -> & _).
    destruct (Hold j' q' Hj') as (q0' & H1' & -> & -> & _). by eapply Hdisj.
  - intros i. rewrite Ef, Hfree. split; intros [Hi Hn]; (split; [done|]).
    + intros j q Hj. destruct (Hold j q Hj) as (q0 & H1 & -> & _). by eapply Hn.
    + intros j q Hj. destruct (decide (j = id)) as [->|Hne].
      * assert (q = r) as -> by congruence. apply (Hn id r'). by rewrite lookup_insert_eq.
      * apply (Hn j q). by rewrite lookup_insert_ne.
  - done.
  - done.
Qed.

Lemma div_8_16 : (8 | 2 ^ 16).
Proof. by exists (2 ^ 13). Qed.

Lemma mod16_range x : 0 <= x mod 2 ^ 16 < 2 ^ 16.
Proof. apply Z.mod_pos_bound. lia. Qed.

(** The device takes the next head from the avail ring. *)
Lemma vq_take d bs la R z l :
  vq_ok d bs la R -> posted la d = z :: l ->
  exists id r, z = Z.of_nat id /\ R !! id = Some r /\ vr_phase r = Posted /\
    vq_ok d bs ((la + 1) mod 2 ^ 16) (<[id := mkReq (vr_b r) (vr_write r) (vr_i1 r) (vr_i2 r) Taken]> R).
Proof.
  intros Hq Hp. pose proof (vq_posted _ _ _ _ Hq) as HP. rewrite Hp in HP.
  destruct (proj1 (proj2 HP z)) as (id & r & -> & Hid & Hph); [by left|]. exists id, r. split_and!; try done.
  assert (Hne : (dk_avail_idx d - la) mod 2 ^ 16 <> 0).
  { apply (f_equal length) in Hp. unfold posted in Hp. rewrite queue_length in Hp. cbn in Hp. lia. }
  unfold posted in Hp. rewrite (queue_get (2 ^ 16) 8 _ div_8_16 ltac:(lia)) in Hp by done. injection Hp as _ Hl.
  destruct (vq_idx _ _ _ _ Hq) as (? & ? & ? & ?). destruct (vq_len _ _ _ _ Hq) as (? & ? & ? & ? & ? & ?).
  eapply (vq_update d d bs bs la); try done; [apply mod16_range|..].
  - destruct (vq_req _ _ _ _ Hq id r Hid) as [A1 A2 A3 A4 A5 A6 A7]. rewrite Hph in *. split; try done.
  - unfold posted. rewrite Hl. by apply ring_ok_tail.
  - apply ring_ok_insert; [apply Hq| |done]. intros r' Hr'. congruence.
Qed.

(** The device finishes a request. *)
Lemma vq_complete d bs bs' la R id r bb bb' :
  vq_ok d bs la R -> R !! id = Some r -> vr_phase r = Taken -> bs !! vr_b r = Some bb -> bs' !! vr_b r = Some bb' ->
  b_disk bb' = b_disk bb -> b_blockno bb' = b_blockno bb -> (forall c, c <> vr_b r -> bs' !! c = bs !! c) ->
  vq_ok (dev_done id id d) bs' la (<[id := mkReq (vr_b r) (vr_write r) (vr_i1 r) (vr_i2 r) Served]> R).
Proof.
  intros Hq Hid Hph Hb Hb' Ek En Hbs. pose proof (vq_unseen _ _ _ _ Hq) as HS.
  pose proof (vq_req _ _ _ _ Hq id r Hid) as [A1 A2 A3 A4 A5 A6 (b0 & A7 & A8 & A9)].
  assert (b0 = bb) as -> by congruence.
  assert (Hroom : (length (unseen d) < 8)%nat).
  { eapply (ring_room _ R Served d bs la id); [done|done|apply A2; set_solver|]. intros (j & q & Ej & Hj & Hp)%HS.
    assert (j = id) as -> by lia. congruence. }
  unfold unseen in Hroom. rewrite queue_length in Hroom.
  destruct (vq_idx _ _ _ _ Hq) as (? & ? & ? & ?). destruct (vq_len _ _ _ _ Hq) as (? & ? & ? & ? & ? & ?).
  assert (Hun : unseen (dev_done id id d) = unseen d ++ [Z.of_nat id]).
  { unfold unseen, dev_done. cbn. unfold u16. rewrite queue_put; [done|lia|apply div_8_16|lia|done| |lia].
    pose proof (mod16_range (dk_used_idx d - dk_seen_idx d)). lia. }
  eapply (vq_update d (dev_done id id d) bs bs' la); try done.
  - cbn. by rewrite length_alter.
  - cbn. unfold queue_set. by rewrite length_insert.
  - apply mod16_range.
  - intros j Hj. cbn. by rewrite list_lookup_alter_ne.
  - split; try done.
    + cbn. rewrite list_lookup_alter_eq, A6. done.
    + exists bb'. split_and!; [done| |]; cbn; [rewrite Ek, A8, Hph; done|rewrite En; done].
  - apply ring_ok_insert; [apply Hq| |done]. intros r' Hr'. congruence.
  - rewrite Hun. apply ring_ok_snoc; [done| |done]. intros r' Hr'. congruence.
Qed.

(** virtio_disk_intr() sees a finished request. *)
Definition intr_seen (d : vdiskst) : vdiskst := upd_dk_seen_idx (fun n => u16 (n + 1)) d.

Lemma vq_see d bs la R z l :
  vq_ok d bs la R -> unseen d = z :: l ->
  exists id r, z = Z.of_nat id /\ R !! id = Some r /\ vr_phase r = Served /\ unseen (intr_seen d) = l /\
    vq_ok (intr_seen d) (alter (upd_b_disk (fun _ => false)) (vr_b r) bs) la
      (<[id := mkReq (vr_b r) (vr_write r) (vr_i1 r) (vr_i2 r) Done]> R).
Proof.
  intros Hq Hp. pose proof (vq_unseen _ _ _ _ Hq) as HS. rewrite Hp in HS.
  destruct (proj1 (proj2 HS z)) as (id & r & -> & Hid & Hph); [by left|]. exists id, r.
  assert (Hne : (dk_used_idx d - dk_seen_idx d) mod 2 ^ 16 <> 0).
  { apply (f_equal length) in Hp. unfold unseen in Hp. rewrite queue_length in Hp. cbn in Hp. lia. }
  unfold unseen in Hp. rewrite (queue_get (2 ^ 16) 8 _ div_8_16 ltac:(lia)) in Hp by done. injection Hp as _ Hl.
  assert (Hun : unseen (intr_seen d) = l) by exact Hl. split_and!; try done.
  destruct (vq_idx _ _ _ _ Hq) as (? & ? & ? & ?). destruct (vq_len _ _ _ _ Hq) as (? & ? & ? & ? & ? & ?).
  eapply (vq_update d (intr_seen d) bs _ la); try done.
  - apply mod16_range.
  - intros c Hc. by rewrite list_lookup_alter_ne.
  - destruct (vq_req _ _ _ _ Hq id r Hid) as [A1 A2 A3 A4 A5 A6 (bb & A7 & A8 & A9)]. rewrite Hph in *. split; try done.
    eexists. cbn [vr_b]. rewrite list_lookup_alter_eq, A7. split_and!; done.
  - apply ring_ok_insert; [apply Hq| |done]. intros r' Hr'. congruence.
  - rewrite Hun. by apply ring_ok_tail.
Qed.

(** Three free descriptors. *)
Record three_free (d : vdiskst) (i0 i1 i2 : nat) : Prop := {
  tf_dist : NoDup [i0; i1; i2];
  tf_free i : i ∈ [i0; i1; i2] -> dk_free d !! i = Some true;
}.

(** The queue after virtio_disk_rw() has posted a request. *)
Record posts (d d' : vdiskst) (b : nat) (w : bool) (sector : Z) (i0 i1 i2 : nat) : Prop := {
  ps_ops : dk_ops d' = alter (fun _ => mkVreq (if w then VIRTIO_BLK_T_OUT else VIRTIO_BLK_T_IN) 0 sector) i0 (dk_ops d);
  ps_desc : dk_desc d' = alter (fun _ => mkVdesc (VA_status i0) 1 VRING_DESC_F_WRITE 0) i2
              (alter (fun _ => mkVdesc (VA_data b) 1024 (Z.lor (if w then 0 else VRING_DESC_F_WRITE) VRING_DESC_F_NEXT) (Z.of_nat i2)) i1
                (alter (fun _ => mkVdesc (VA_ops i0) 16 VRING_DESC_F_NEXT (Z.of_nat i1)) i0 (dk_desc d)));
  ps_info : dk_info d' = alter (fun _ => mkVinfo (Some b) 0xff) i0 (dk_info d);
  ps_free : dk_free d' = <[i2 := false]> (<[i1 := false]> (<[i0 := false]> (dk_free d)));
  ps_ring : dk_avail_ring d' = queue_set 8 (dk_avail_idx d) (Z.of_nat i0) (dk_avail_ring d);
  ps_idx : dk_avail_idx d' = u16 (dk_avail_idx d + 1);
  ps_used : dk_used_ring d' = dk_used_ring d /\ dk_used_idx d' = dk_used_idx d /\ dk_seen_idx d' = dk_seen_idx d;
}.

Lemma lookup_alter_const {A} (l : list A) i x : (i < length l)%nat -> alter (fun _ => x) i l !! i = Some x.
Proof. intros Hi. rewrite list_lookup_alter_eq. by destruct (lookup_lt_is_Some_2 l i Hi) as [y ->]. Qed.

Lemma lookup_taken (l : list bool) j i : <[j := false]> l !! i = Some true <-> l !! i = Some true /\ i <> j.
Proof.
  destruct (decide (i = j)) as [->|Hne].
  - split; [|by intros [_ []]]. intros E. destruct (decide (j < length l)%nat) as [Hj|Hj].
    + by rewrite list_lookup_insert_eq in E.
    + rewrite list_insert_ge in E by lia. apply lookup_lt_Some in E. lia.
  - rewrite list_lookup_insert_ne by done. naive_solver.
Qed.

Lemma lookup_freed (l : list bool) j i :
  (j < length l)%nat -> <[j := true]> l !! i = Some true <-> l !! i = Some true \/ i = j.
Proof.
  intros Hj. destruct (decide (i = j)) as [->|Hne].
  - rewrite list_lookup_insert_eq by done. naive_solver.
  - rewrite list_lookup_insert_ne by done. naive_solver.
Qed.

Lemma posts_req d d' bs la R b w i0 i1 i2 bb :
  vq_ok d bs la R -> three_free d i0 i1 i2 -> posts d d' b w (u32 (b_blockno bb * 2)) i0 i1 i2 -> bs !! b = Some bb ->
  req_ok d' (alter (upd_b_disk (fun _ => true)) b bs) i0 (mkReq b w i1 i2 Posted).
Proof.
  intros Hq [Hd Hf] [Eo Ed Ei _ _ _ _] Hb. destruct (vq_len _ _ _ _ Hq) as (L1 & L2 & L3 & L4 & L5 & L6).
  assert (Hlt : forall i, i ∈ [i0; i1; i2] -> (i < 8)%nat) by (intros i Hi; by apply (vq_free _ _ _ _ Hq), Hf).
  assert (i0 < 8 /\ i1 < 8 /\ i2 < 8)%nat as (H0 & H1 & H2) by (split_and!; apply Hlt; set_solver).
  assert (i0 <> i1 /\ i0 <> i2 /\ i1 <> i2) as (N1 & N2 & N3).
  { apply NoDup_cons in Hd as [Ha [Hb' _]%NoDup_cons]. set_solver. }
  split; cbn [vr_b vr_i1 vr_i2 vr_write vr_phase].
  - exact Hd.
  - exact Hlt.
  - rewrite Ed, !list_lookup_alter_ne by done. apply lookup_alter_const. lia.
  - rewrite Ed, list_lookup_alter_ne by done. apply lookup_alter_const. rewrite length_alter. lia.
  - rewrite Ed. apply lookup_alter_const. rewrite !length_alter. lia.
  - rewrite Ei. apply lookup_alter_const. lia.
  - eexists. rewrite list_lookup_alter_eq, Hb. split_and!; [done|done|]. rewrite Eo. apply lookup_alter_const. lia.
Qed.

Lemma vq_post d d' bs la R b w i0 i1 i2 bb :
  vq_ok d bs la R -> three_free d i0 i1 i2 -> posts d d' b w (u32 (b_blockno bb * 2)) i0 i1 i2 -> bs !! b = Some bb ->
  (forall id r, R !! id = Some r -> vr_b r <> b) ->
  posted la d' = posted la d ++ [Z.of_nat i0] /\ R !! i0 = None /\
  vq_ok d' (alter (upd_b_disk (fun _ => true)) b bs) la (<[i0 := mkReq b w i1 i2 Posted]> R).
Proof.
  intros Hq Ht Hp Hb Hown. pose proof (posts_req _ _ _ _ _ _ _ _ _ _ _ Hq Ht Hp Hb) as Hr0.
  destruct Ht as [Hd Hf], Hp as [Eo Ed Ei Ef Ear Eai (Eu1 & Eu2 & Eu3)].
  destruct (vq_len _ _ _ _ Hq) as (L1 & L2 & L3 & L4 & L5 & L6). destruct (vq_idx _ _ _ _ Hq) as (I1 & I2 & I3 & I4).
  assert (Hout : forall id r i, R !! id = Some r -> i ∈ [i0; i1; i2] -> i ∉ chain id r).
  { intros id r i Hr Hi. by eapply (proj1 (vq_free _ _ _ _ Hq i)), Hr; apply Hf. }
  assert (Hi0 : R !! i0 = None).
  { destruct (R !! i0) as [r|] eqn:E; [|done]. destruct (Hout i0 r i0 E); set_solver. }
  assert (Hlt0 : (i0 < 8)%nat) by (apply (ro_lt _ _ _ _ Hr0); set_solver).
  assert (Hroom : (length (posted la d) < 8)%nat).
  { eapply (ring_room _ R Posted d bs la i0); [done|apply Hq|done|]. intros (j & q & Ej & Hj & _)%(proj2 (vq_posted _ _ _ _ Hq)).
    assert (j = i0) as -> by lia. congruence. }
  assert (Hpo : posted la d' = posted la d ++ [Z.of_nat i0]).
  { unfold posted in *. rewrite queue_length in Hroom. rewrite Ear, Eai. unfold u16.
    apply queue_put; [lia|apply div_8_16|lia|done| |lia]. pose proof (mod16_range (dk_avail_idx d - la)). lia. }
  assert (Hun : unseen d' = unseen d) by (unfold unseen; by rewrite Eu1, Eu2, Eu3).
  split_and!; [done|done|]. split.
  - rewrite Ed, Ef, Ei, Eo, Ear, Eu1. unfold queue_set. rewrite !length_alter, !length_insert. done.
  - rewrite Eai, Eu2, Eu3. split; [done|]. split; [apply mod16_range|done].
  - intros id r Hr. destruct (decide (id = i0)) as [->|Hne]; [rewrite lookup_insert_eq in Hr; by injection Hr as <-|].
    rewrite lookup_insert_ne in Hr by done. eapply req_ok_frame; [by apply Hq| | | |].
    + intros i Hi. assert (i ∉ [i0; i1; i2]) by (intros Hc; by eapply Hout).
      rewrite Ed, !list_lookup_alter_ne by set_solver. done.
    + by rewrite Ei, list_lookup_alter_ne.
    + by rewrite Eo, list_lookup_alter_ne.
    + rewrite list_lookup_alter_ne; [done|]. apply not_eq_sym. by eapply Hown.
  - intros id id' r r' Hr Hr' Hne. destruct (decide (id = i0)) as [->|N], (decide (id' = i0)) as [->|N']; [done|..];
      rewrite ?lookup_insert_eq in *; rewrite ?lookup_insert_ne in * by done; simplify_eq.
    + split; [intros i Hi; by eapply Hout|]. cbn. apply not_eq_sym. by eapply Hown.
    + split; [|by eapply Hown]. intros i Hi Hc. by eapply Hout.
    + by eapply Hq.
  - intros i. rewrite Ef, !lookup_taken, (vq_free _ _ _ _ Hq). split.
    + intros [[[[Hi Hn] N0] N1] N2]. split; [done|]. intros id r Hr. destruct (decide (id = i0)) as [->|Hne].
      * rewrite lookup_insert_eq in Hr. injection Hr as <-. set_solver.
      * rewrite lookup_insert_ne in Hr by done. by eapply Hn.
    + intros [Hi Hn]. pose proof (Hn i0 _ (lookup_insert_eq _ _ _)) as Hc. cbn in Hc. split_and!; [done| |set_solver..].
      intros id r Hr. apply (Hn id r). rewrite lookup_insert_ne; [done|]. congruence.
  - rewrite Hpo. apply ring_ok_snoc; [apply Hq| |done]. congruence.
  - rewrite Hun. apply ring_ok_insert; [apply Hq| |done]. congruence.
Qed.

(** The queue after the chain of a request has been freed. *)
Record finishes (d d' : vdiskst) (id : nat) (r : req) : Prop := {
  fi_desc i : i ∉ chain id r -> dk_desc d' !! i = dk_desc d !! i;
  fi_len : length (dk_desc d') = length (dk_desc d);
  fi_free : dk_free d' = <[vr_i2 r := true]> (<[vr_i1 r := true]> (<[id := true]> (dk_free d)));
  fi_info : dk_info d' = alter (upd_vi_b (fun _ => None)) id (dk_info d);
  fi_ops : dk_ops d' = dk_ops d;
  fi_avail : dk_avail_ring d' = dk_avail_ring d /\ dk_avail_idx d' = dk_avail_idx d;
  fi_used : dk_used_ring d' = dk_used_ring d /\ dk_used_idx d' = dk_used_idx d /\ dk_seen_idx d' = dk_seen_idx d;
}.

Lemma vq_finish d d' bs la R id r :
  vq_ok d bs la R -> R !! id = Some r -> vr_phase r = Done -> finishes d d' id r -> vq_ok d' bs la (delete id R).
Proof.
  intros Hq Hid Hph [Ed El Ef Ei Eo [Ea1 Ea2] (Eu1 & Eu2 & Eu3)].
  destruct (vq_len _ _ _ _ Hq) as (L1 & L2 & L3 & L4 & L5 & L6). pose proof (ro_lt _ _ _ _ (vq_req _ _ _ _ Hq id r Hid)) as Hlt.
  assert (id < 8 /\ vr_i1 r < 8 /\ vr_i2 r < 8)%nat as (H0 & H1 & H2) by (split_and!; apply Hlt; set_solver).
  assert (Hpo : posted la d' = posted la d) by (unfold posted; by rewrite Ea1, Ea2).
  assert (Hun : unseen d' = unseen d) by (unfold unseen; by rewrite Eu1, Eu2, Eu3).
  split.
  - rewrite El, Ef, Ei, Eo, Ea1, Eu1, !length_insert, length_alter. done.
  - rewrite Ea2, Eu2, Eu3. apply Hq.
  - intros j q [Hne Hj]%lookup_delete_Some. eapply req_ok_frame; [by apply Hq| | |by rewrite Eo|done].
    + intros i Hi. apply Ed. by eapply (vq_disj _ _ _ _ Hq j id).
    + by rewrite Ei, list_lookup_alter_ne.
  - intros j j' q q' [_ Hj]%lookup_delete_Some [_ Hj']%lookup_delete_Some. by apply (vq_disj _ _ _ _ Hq).
  - intros i. rewrite Ef, !lookup_freed by (rewrite ?length_insert, L2; done). rewrite (vq_free _ _ _ _ Hq). split.
    + intros Hor. assert (Hi : (i < 8)%nat) by naive_solver. split; [done|]. intros j q [Hne Hj]%lookup_delete_Some Hc.
      assert (Hin : i ∉ chain id r) by (by eapply (vq_disj _ _ _ _ Hq j id)). unfold chain in Hin. set_solver.
    + intros [Hi Hn]. destruct (decide (i ∈ chain id r)) as [Hc|Hc]; [unfold chain in Hc; set_solver|].
      do 3 left. split; [done|]. intros j q Hj. destruct (decide (j = id)) as [->|Hne]; [congruence|].
      apply (Hn j q). by rewrite lookup_delete_ne.
  - rewrite Hpo. apply ring_ok_delete; [apply Hq|]. congruence.
  - rewrite Hun. apply ring_ok_delete; [apply Hq|]. congruence.
Qed.

(** ** Lemmas: runs of the driver *)

(** The run changed the queue to [d] and the buffers to [bs] and woke processes. *)
Definition drove (d : vdiskst) (bs : list buf) (s s' : kstate) : Prop :=
  s' ≡ upd_k_procs (fun _ => k_procs s') (upd_k_bcache (upd_bc_buf (fun _ => bs)) (upd_k_vdisk (fun _ => d) s)) /\
  woke (c_proc (k_cpu s)) (k_procs s) (k_procs s').

Abbreviation bufs s := (bc_buf (k_bcache s)).

Lemma drove_refl s s' : s' ≡ s -> drove (k_vdisk s) (bufs s) s s'.
Proof.
  intros E. split; [|rewrite (keq_k_procs _ _ E); apply woke_refl]. rewrite (keq_k_procs _ _ E). etrans; [exact E|].
  destruct s as [? ? ? ? ? ? ? ? ? ? [] ? ? ? ? ? ? ? ? ? ? ? ? ? ? ? ?]. reflexivity.
Qed.

Lemma drove_k_vdisk d bs s s' : drove d bs s s' -> k_vdisk s' = d.
Proof. intros [E _]. by rewrite (keq_k_vdisk _ _ E). Qed.

Lemma drove_bufs d bs s s' : drove d bs s s' -> bufs s' = bs.
Proof. intros [E _]. by rewrite (keq_k_bcache _ _ E). Qed.

Lemma drove_sync d bs s s' : drove d bs s s' -> sync s' = sync s.
Proof. intros [E _]. rewrite (keq_sync _ _ E). by ksync. Qed.

Lemma drove_c_proc d bs s s' : drove d bs s s' -> c_proc (k_cpu s') = c_proc (k_cpu s).
Proof. intros E%drove_sync. by apply sync_c_proc. Qed.

Lemma drove_trans d1 bs1 d2 bs2 s1 s2 s3 : drove d1 bs1 s1 s2 -> drove d2 bs2 s2 s3 -> drove d2 bs2 s1 s3.
Proof.
  intros D1 D2. pose proof (drove_c_proc _ _ _ _ D1) as Ec. destruct D1 as [E1 W1], D2 as [E2 W2]. split.
  - etrans; [exact E2|]. generalize (k_procs s3). intros ps. revert E1. generalize (k_procs s2). intros ps2 E1. by rewrite E1.
  - rewrite Ec in W2. by eapply woke_trans.
Qed.

Lemma drove_vd f s : drove (f (k_vdisk s)) (bufs s) s (upd_k_vdisk f s).
Proof.
  split; [|apply woke_refl]. destruct s as [? ? ? ? ? ? ? ? ? ? [] ? ? ? ? ? ? ? ? ? ? ? ? ? ? ? ?]. reflexivity.
Qed.

Lemma drove_buf b f s : drove (k_vdisk s) (alter f b (bufs s)) s (upd_k_bcache (upd_bc_buf (alter f b)) s).
Proof.
  split; [|apply woke_refl]. destruct s as [? ? ? ? ? ? ? ? ? ? [] ? ? ? ? ? ? ? ? ? ? ? ? ? ? ? ?]. reflexivity.
Qed.

Lemma drove_calm lks d bs s s' : drove d bs s s' -> calm lks s -> calm lks s'.
Proof. intros D Hc. eapply calm_ext; [by eapply drove_sync| |exact Hc]. by destruct D as [_ [E _]]. Qed.

Lemma wakeup_drove lks ch s :
  calm lks s -> (forall i, L_proc i ∉ lks) ->
  wp (wakeup ch) (fun _ s' => drove (k_vdisk s) (bufs s) s s' /\
    k_procs s' = woken ch (c_proc (k_cpu s)) (seq 0 64) (k_procs s)) s.
Proof.
  intros Hc Hl. eapply wp_mono; [by apply (wakeup_spec lks)|]. cbn beta. intros _ s' E.
  assert (Ep : k_procs s' = woken ch (c_proc (k_cpu s)) (seq 0 64) (k_procs s)) by (by rewrite (keq_k_procs _ _ E)).
  split; [|exact Ep]. split; rewrite Ep; [|apply woken_woke]. etrans; [exact E|].
  destruct s as [? ? ? ? ? ? ? ? ? ? [] ? ? ? ? ? ? ? ? ? ? ? ? ? ? ? ?]. reflexivity.
Qed.

Definition freed (i : nat) (d : vdiskst) : vdiskst :=
  upd_dk_free (<[i := true]>) (upd_dk_desc (alter (fun _ => mkVdesc VA_null 0 0 0) i) d).

Lemma free_desc_spec lks (i : nat) s Q :
  calm lks s -> (forall j, L_proc j ∉ lks) -> (i < 8)%nat -> dk_free (k_vdisk s) !! i = Some false ->
  (forall s', drove (freed i (k_vdisk s)) (bufs s) s s' -> Q tt s') -> wp (free_desc (Z.of_nat i)) Q s.
Proof.
  intros Hc Hl Hi Hf HQ. unfold free_desc, NUM. rewrite (proj2 (Z.leb_gt _ _)) by lia. rewrite Nat2Z.id.
  apply wp_bind, (wp_get_entry _ _ false); [done|]. unfold upd_desc, upd_vd. rewrite Nat2Z.id.
  apply wp_bind, wp_modify. apply wp_bind, wp_modify. set (s2 := upd_k_vdisk _ _).
  assert (D : drove (freed i (k_vdisk s)) (bufs s) s s2) by exact (drove_vd (freed i) s).
  eapply wp_mono; [apply (wakeup_drove lks); [by eapply drove_calm|done]|]. cbn beta. intros [] s3 [D3 _].
  apply HQ. eapply drove_trans; [exact D|exact D3].
Qed.

(** The queue is as before but for the contents of free descriptors. *)
Record same_queue (d d' : vdiskst) : Prop := {
  sq_desc i : dk_free d !! i <> Some true -> dk_desc d' !! i = dk_desc d !! i;
  sq_len : length (dk_desc d') = length (dk_desc d);
  sq_free : dk_free d' = dk_free d;
  sq_info : dk_info d' = dk_info d;
  sq_ops : dk_ops d' = dk_ops d;
  sq_avail : dk_avail_ring d' = dk_avail_ring d /\ dk_avail_idx d' = dk_avail_idx d;
  sq_used : dk_used_ring d' = dk_used_ring d /\ dk_used_idx d' = dk_used_idx d /\ dk_seen_idx d' = dk_seen_idx d;
}.

Lemma vq_same d d' bs la R : vq_ok d bs la R -> same_queue d d' -> vq_ok d' bs la R.
Proof.
  intros [] [Ed El Ef Ei Eo [Ea1 Ea2] (Eu1 & Eu2 & Eu3)]. split; try done.
  - by rewrite El, Ef, Ei, Eo, Ea1, Eu1.
  - by rewrite Ea2, Eu2, Eu3.
  - intros id r Hr. eapply req_ok_frame; [by apply vq_req0| |by rewrite Ei|by rewrite Eo|done].
    intros i Hi. apply Ed. intros Hf. by eapply (proj1 (vq_free0 i) Hf).
  - by rewrite Ef.
  - unfold posted. by rewrite Ea1, Ea2.
  - unfold unseen. by rewrite Eu1, Eu2, Eu3.
Qed.

Lemma alloc_desc_spec s Q :
  (forall i : nat, dk_free (k_vdisk s) !! i = Some true -> Q (Z.of_nat i) (upd_k_vdisk (upd_dk_free (<[i := false]>)) s)) ->
  ((forall i, dk_free (k_vdisk s) !! i <> Some true) -> Q (-1) s) -> wp alloc_desc Q s.
Proof.
  intros HS HN. unfold alloc_desc, upd_vd. apply wp_bind, wp_gets.
  destruct (find_index (fun b => b) (dk_free (k_vdisk s))) as [i|] eqn:E.
  - apply find_index_Some in E as (x & Hx & -> & _). apply wp_bind, wp_modify, wp_ret. by apply HS.
  - apply wp_ret, HN. intros i Hi. by apply (find_index_None _ _ E) in Hi.
Qed.

(** Giving back a descriptor that was free leaves the queue as it was. *)
Lemma same_queue_freed d d1 i :
  same_queue d d1 -> dk_free d !! i = Some true -> same_queue d (freed i (upd_dk_free (<[i := false]>) d1)).
Proof.
  intros [Ed El Ef Ei Eo Ea Eu] Hi. split; try done; cbn.
  - intros j Hj. rewrite list_lookup_alter_ne; [by apply Ed|]. congruence.
  - by rewrite length_alter.
  - rewrite list_insert_insert_eq, Ef. by apply list_insert_id.
Qed.

Lemma same_queue_refl d : same_queue d d.
Proof. by split. Qed.

Lemma same_queue_two d i0 i1 :
  dk_free d !! i0 = Some true -> dk_free d !! i1 = Some true ->
  same_queue d (freed i1 (freed i0 (upd_dk_free (fun fr => <[i1 := false]> (<[i0 := false]> fr)) d))).
Proof.
  intros H0 H1. split; try done; cbn.
  - intros j Hj. rewrite !list_lookup_alter_ne; [done|congruence..].
  - by rewrite !length_alter.
  - apply list_eq. intros j. pose proof (lookup_lt_Some _ _ _ H0). pose proof (lookup_lt_Some _ _ _ H1).
    destruct (decide (j = i1)) as [->|N1]; [by rewrite list_lookup_insert_eq by (rewrite !length_insert; done)|].
    rewrite list_lookup_insert_ne by done. destruct (decide (j = i0)) as [->|N0].
    + by rewrite list_lookup_insert_eq by (rewrite !length_insert; done).
    + by rewrite !list_lookup_insert_ne by done.
Qed.

(** Of three free descriptors one is left after two have been taken. *)
Lemma three_free_left d i0 i1 j0 j1 j2 :
  three_free d j0 j1 j2 -> exists j, dk_free d !! j = Some true /\ j <> i0 /\ j <> i1.
Proof.
  intros [[Ha [Hb _]%NoDup_cons]%NoDup_cons Hf]. assert (j0 <> j1 /\ j0 <> j2 /\ j1 <> j2) as (N1 & N2 & N3) by set_solver.
  destruct (decide (j0 = i0 \/ j0 = i1)) as [E0|E0]; [|exists j0; split; [apply Hf; set_solver|tauto]].
  destruct (decide (j1 = i0 \/ j1 = i1)) as [E1|E1]; [|exists j1; split; [apply Hf; set_solver|tauto]].
  exists j2. split; [apply Hf; set_solver|]. intuition congruence.
Qed.

Lemma alloc3_desc_spec lks s Q :
  calm lks s -> (forall j, L_proc j ∉ lks) -> length (dk_free (k_vdisk s)) = 8%nat ->
  (forall i0 i1 i2, three_free (k_vdisk s) i0 i1 i2 -> Q (Some (Z.of_nat i0, Z.of_nat i1, Z.of_nat i2))
     (upd_k_vdisk (upd_dk_free (fun fr => <[i2 := false]> (<[i1 := false]> (<[i0 := false]> fr)))) s)) ->
  ((forall i0 i1 i2, ~ three_free (k_vdisk s) i0 i1 i2) ->
     forall d s', same_queue (k_vdisk s) d -> drove d (bufs s) s s' -> Q None s') ->
  wp alloc3_desc Q s.
Proof.
  intros Hc Hl Hlen HS HN. unfold alloc3_desc. set (d := k_vdisk s) in *.
  assert (Hlt : forall i, dk_free d !! i = Some true -> (i < 8)%nat).
  { intros i Hi. rewrite <- Hlen. by eapply lookup_lt_Some. }
  apply wp_bind, alloc_desc_spec.
  2:{ intros H0. cbn [Z.ltb Z.compare]. apply wp_ret, (HN ltac:(intros i0 i1 i2 [_ Hf]; eapply H0, Hf; by left) d); [done|].
      by apply drove_refl. }
  intros i0 H0. change (k_vdisk s) with d in H0. rewrite (proj2 (Z.ltb_ge _ _)) by lia. set (s1 := upd_k_vdisk _ s).
  assert (D1 : drove (upd_dk_free (<[i0 := false]>) d) (bufs s) s s1) by exact (drove_vd _ s).
  apply wp_bind, alloc_desc_spec; change (dk_free (k_vdisk s1)) with (<[i0 := false]> (dk_free d)).
  2:{ intros H1. cbn [Z.ltb Z.compare].
      apply wp_bind, (free_desc_spec lks); [by eapply drove_calm|done|by apply Hlt| |].
      { change (dk_free (k_vdisk s1)) with (<[i0 := false]> (dk_free d)).
        apply list_lookup_insert_eq. rewrite Hlen. by apply Hlt. }
      intros s2 D2. apply wp_ret. eapply HN.
      - intros j0 j1 j2 (j & Hj & Hne & _)%(three_free_left _ i0 i0). apply (H1 j). by apply lookup_taken.
      - apply (same_queue_freed d d i0); [apply same_queue_refl|done].
      - eapply drove_trans; [exact D1|exact D2]. }
  intros i1 [H1 N1]%lookup_taken. rewrite (proj2 (Z.ltb_ge _ _)) by lia. set (s2 := upd_k_vdisk _ s1).
  assert (D2 : drove (upd_dk_free (fun fr => <[i1 := false]> (<[i0 := false]> fr)) d) (bufs s) s s2).
  { exact (drove_vd (upd_dk_free (fun fr => <[i1 := false]> (<[i0 := false]> fr))) s). }
  apply wp_bind, alloc_desc_spec; change (dk_free (k_vdisk s2)) with (<[i1 := false]> (<[i0 := false]> (dk_free d))).
  - intros i2 [[H2 N2]%lookup_taken N3]%lookup_taken. rewrite (proj2 (Z.ltb_ge _ _)) by lia. apply wp_ret, HS. split.
    + apply NoDup_cons. split; [set_solver|]. apply NoDup_cons. split; [set_solver|]. apply NoDup_singleton.
    + intros i Hi. set_solver.
  - intros H2. cbn [Z.ltb Z.compare]. pose proof (Hlt i0 H0). pose proof (Hlt i1 H1).
    apply wp_bind, (free_desc_spec lks); [by eapply drove_calm|done|done| |].
    { change (dk_free (k_vdisk s2)) with (<[i1 := false]> (<[i0 := false]> (dk_free d))).
      rewrite list_lookup_insert_ne by done. apply list_lookup_insert_eq. by rewrite Hlen. }
    intros s3 D3. pose proof (drove_trans _ _ _ _ _ _ _ D2 D3) as D3'.
    apply wp_bind, (free_desc_spec lks); [by eapply drove_calm|done|done| |].
    { rewrite (drove_k_vdisk _ _ _ _ D3). change (dk_free (freed i0 (k_vdisk s2)))
        with (<[i0 := true]> (<[i1 := false]> (<[i0 := false]> (dk_free d)))).
      rewrite list_lookup_insert_ne by done. apply list_lookup_insert_eq. by rewrite length_insert, Hlen. }
    intros s4 D4. apply wp_ret. rewrite (drove_k_vdisk _ _ _ _ D3), (drove_bufs _ _ _ _ D3) in D4. eapply HN.
    + intros j0 j1 j2 (j & Hj & N0 & N1')%(three_free_left _ i0 i1). apply (H2 j). by rewrite !lookup_taken.
    + by apply (same_queue_two d i0 i1).
    + eapply drove_trans; [exact D3'|exact D4].
Qed.

Lemma virtio_rw_start_spec b w sector i0 i1 i2 s Q :
  (forall d' s', posts (k_vdisk s) d' b w sector i0 i1 i2 ->
     drove d' (alter (upd_b_disk (fun _ => true)) b (bufs s)) s s' -> Q tt s') ->
  wp (virtio_rw_start b w sector (Z.of_nat i0, Z.of_nat i1, Z.of_nat i2)) Q
    (upd_k_vdisk (upd_dk_free (fun fr => <[i2 := false]> (<[i1 := false]> (<[i0 := false]> fr)))) s).
Proof.
  intros HQ. unfold virtio_rw_start, upd_ops, upd_desc, upd_info, upd_buf, set_vreg, upd_vd. rewrite !Nat2Z.id.
  do 9 apply wp_bind, wp_modify. apply wp_modify. match goal with |- Q tt ?x => apply (HQ (k_vdisk x) x) end.
  - split; try done. cbn. by rewrite list_alter_alter_eq.
  - split; [|apply woke_refl]. destruct s as [? ? ? ? ? ? ? ? ? ? [] ? ? ? ? ? ? ? ? ? ? ? ? ? ? ? ?]. reflexivity.
Qed.

(** Process [me] has gone to sleep on [ch] with the driver's lock free, leaving the
    queue [d] and the buffers [bs]. *)
Record parked (me : nat) (ch : chan) (d : vdiskst) (bs : list buf) (s s' : kstate) : Prop := {
  pk_vdisk : k_vdisk s' = d;
  pk_bufs : bufs s' = bs;
  pk_disk : k_disk s' = k_disk s;
  pk_asleep : asleep me ch s';
  pk_sync : sync s' = sync (locked (L_proc me) s);
}.

Lemma sleep_parked me pp ch d bs s s1 :
  calm [] s -> c_noff (k_cpu s) = 0 -> c_proc (k_cpu s) = Some me -> k_procs s !! me = Some pp ->
  drove d bs (locked L_vdisk s) s1 -> switches (sleep ch L_vdisk) (parked me ch d bs s) s1.
Proof.
  intros Hc Hn Hme Hpp D. assert (Hpp1 : k_procs s1 !! me = Some pp).
  { destruct D as [_ W]. by eapply woke_me. }
  eapply switches_mono.
  - apply (sleep_switches L_vdisk ch me pp s s1); [apply Hc|done|done|apply Hc, not_elem_of_nil|done|by eapply drove_sync|done].
  - intros s2 [S2 O2]. split.
    + rewrite <- (drove_k_vdisk _ _ _ _ D). by injection O2.
    + rewrite <- (drove_bufs _ _ _ _ D). f_equal. by injection O2.
    + assert (E : k_disk s2 = k_disk s1) by (by injection O2). rewrite E. destruct D as [E1 _]. apply (keq_k_disk _ _ E1).
    + eexists. assert (E : k_procs s2 = alter (fun q => upd_p_state (fun _ => SLEEPING) (upd_p_chan (fun _ => ch) q)) me (k_procs s1))
        by (by injection O2). rewrite E, list_lookup_alter_eq, Hpp1. done.
    + exact S2.
Qed.

(** virtio_disk_rw() posts its request and waits, or waits for free descriptors. *)
Lemma virtio_rw_spec b w bb la R me pp s Q :
  calm [] s -> c_noff (k_cpu s) = 0 -> c_proc (k_cpu s) = Some me -> k_procs s !! me = Some pp ->
  vq_ok (k_vdisk s) (bufs s) la R -> bufs s !! b = Some bb -> (forall id r, R !! id = Some r -> vr_b r <> b) ->
  (forall d' s', (forall i0 i1 i2, ~ three_free (k_vdisk s) i0 i1 i2) -> vq_ok d' (bufs s) la R ->
     parked me Ch_diskfree d' (bufs s) s s' -> Q s') ->
  (forall i0 i1 i2 d' s', let bs' := alter (upd_b_disk (fun _ => true)) b (bufs s) in
     three_free (k_vdisk s) i0 i1 i2 -> posted la d' = posted la (k_vdisk s) ++ [Z.of_nat i0] -> R !! i0 = None ->
     vq_ok d' bs' la (<[i0 := mkReq b w i1 i2 Posted]> R) -> parked me (Ch_buf b) d' bs' s s' -> Q s') ->
  switches (virtio_rw b w) Q s.
Proof.
  intros Hc Hn Hme Hpp Hq Hb Hown HN HP. unfold virtio_rw. apply switches_wp, (wp_get_entry _ _ bb); [done|].
  apply switches_wp, wp_acquire; [apply Hc, not_elem_of_nil|]. unfold virtio_rw_alloc. apply switches_wp.
  eapply (alloc3_desc_spec [L_vdisk]); [by apply calm_locked|set_solver|apply Hq|..].
  - intros i0 i1 i2 Ht. apply switches_wp, virtio_rw_start_spec. intros d2 s2 Hps D.
    destruct (vq_post _ _ _ _ _ _ _ _ _ _ _ Hq Ht Hps Hb Hown) as (Hpo & Hno & Hq').
    unfold virtio_rw_wait. apply switches_wp, (wp_get_entry _ _ (upd_b_disk (fun _ => true) bb)).
    { rewrite (drove_bufs _ _ _ _ D), list_lookup_alter_eq. change (bufs (locked L_vdisk s)) with (bufs s). by rewrite Hb. }
    cbn [b_disk upd_b_disk when]. apply switches_bind. eapply switches_mono; [by eapply sleep_parked|].
    intros s3. by apply (HP i0 i1 i2 d2).
  - intros Hno d2 s2 Hsame D. eapply switches_mono; [by eapply sleep_parked|]. intros s3. apply (HN d2); [done|].
    by eapply vq_same.
Qed.

(** A request whose completion the driver has seen. *)
Definition see (r : req) : req :=
  mkReq (vr_b r) (vr_write r) (vr_i1 r) (vr_i2 r) (if decide (vr_phase r = Served) then Done else vr_phase r).

(** Buffers differ in b->disk only. *)
Definition same_bufs (bs bs' : list buf) : Prop :=
  forall c bb, bs !! c = Some bb -> exists v, bs' !! c = Some (upd_b_disk (fun _ => v) bb).

(** What virtio_disk_intr() has done when the requests are [R2]: those it has seen have
    had their processes woken. *)
Record seeing (la : Z) (R : gmap nat req) (s s2 : kstate) (R2 : gmap nat req) : Prop := {
  sg_drove : drove (k_vdisk s2) (bufs s2) s s2;
  sg_vq : vq_ok (k_vdisk s2) (bufs s2) la R2;
  sg_see : see <$> R2 = see <$> R;
  sg_bufs : same_bufs (bufs s) (bufs s2);
  sg_woken id r r2 p : R !! id = Some r -> vr_phase r = Served -> R2 !! id = Some r2 -> vr_phase r2 = Done ->
    c_proc (k_cpu s) <> Some p -> asleep p (Ch_buf (vr_b r)) s ->
    exists q, k_procs s2 !! p = Some q /\ p_state q = RUNNABLE;
}.

Lemma see_done r : vr_phase r = Served -> see (mkReq (vr_b r) (vr_write r) (vr_i1 r) (vr_i2 r) Done) = see r.
Proof. intros E. unfold see. cbn. by rewrite E. Qed.

(** Waking does not put a process to sleep, and a sleeper stays asleep or can run. *)
Lemma woke_asleep me ps ps' p pp ch :
  woke me ps ps' -> ps !! p = Some pp -> p_state pp = SLEEPING -> p_chan pp = ch ->
  exists q, ps' !! p = Some q /\ (p_state q = SLEEPING /\ p_chan q = ch \/ p_state q = RUNNABLE).
Proof.
  intros [_ W] Hp Hs Hch. destruct (W p pp Hp) as (q & Hq & [->|(_ & _ & ->)]); exists q + eexists; split; try exact Hq; [by left|by right].
Qed.

Lemma woke_runnable me ps ps' p q :
  woke me ps ps' -> ps !! p = Some q -> p_state q = RUNNABLE -> exists q', ps' !! p = Some q' /\ p_state q' = RUNNABLE.
Proof. intros [_ W] Hp Hs. destruct (W p q Hp) as (q' & Hq & [->|(Hc & _)]); [by exists q|congruence]. Qed.

Lemma same_bufs_alter bs bs' b v : same_bufs bs bs' -> same_bufs bs (alter (upd_b_disk (fun _ => v)) b bs').
Proof.
  intros Hb c bb Hc. destruct (Hb c bb Hc) as (v' & Hv). destruct (decide (c = b)) as [->|Hne].
  - exists v. by rewrite list_lookup_alter_eq, Hv.
  - exists v'. by rewrite list_lookup_alter_ne.
Qed.

(** wakeup() after other wakeups reaches a process that slept at the start. *)
Lemma woken_reaches ch me ps ps2 p :
  woke me ps ps2 -> length ps = 64%nat -> me <> Some p ->
  (exists pp, ps !! p = Some pp /\ p_state pp = SLEEPING /\ p_chan pp = ch) ->
  exists q, woken ch me (seq 0 64) ps2 !! p = Some q /\ p_state q = RUNNABLE.
Proof.
  intros W Hlen Hne (pp & Hp & Hs & Hch). destruct (woke_asleep _ _ _ _ _ _ W Hp Hs Hch) as (q & Hq & Hor).
  rewrite lookup_woken, Hq. cbn [fmap option_fmap option_map]. eexists. split; [reflexivity|].
  assert (Hin : p ∈ seq 0 64) by (apply elem_of_seq; apply lookup_lt_Some in Hp; lia).
  destruct Hor as [[H1 H2]|H1]; [by rewrite decide_True|]. rewrite decide_False; [done|]. intuition congruence.
Qed.

(** One completion. *)
Lemma virtio_intr_step la R s s2 R2 z l :
  calm [L_vdisk] s -> seeing la R s s2 R2 -> unseen (k_vdisk s2) = z :: l ->
  wp (virtio_intr_body tt) (fun r s3 => r = inl tt /\ unseen (k_vdisk s3) = l /\ exists R3, seeing la R s s3 R3) s2.
Proof.
  intros Hc [D Hq Hsee Hb Hw] Hun. destruct (vq_see _ _ _ _ _ _ Hq Hun) as (id & r & -> & Hid & Hph & Hl & Hq').
  destruct (vq_req _ _ _ _ Hq id r Hid) as [A1 A2 A3 A4 A5 A6 (bb & A7 & A8 & A9)]. rewrite Hph in A6.
  unfold virtio_intr_body. apply wp_bind, wp_gets.
  assert (Hne : (dk_used_idx (k_vdisk s2) - dk_seen_idx (k_vdisk s2)) mod 2 ^ 16 <> 0).
  { apply (f_equal length) in Hun. unfold unseen in Hun. rewrite queue_length in Hun. cbn in Hun. lia. }
  destruct (Z.eqb_spec (dk_seen_idx (k_vdisk s2)) (dk_used_idx (k_vdisk s2))) as [E|_].
  { by rewrite E, Z.sub_diag in Hne. }
  unfold unseen in Hun. rewrite (queue_get (2 ^ 16) 8 _ div_8_16 ltac:(lia)) in Hun by done. injection Hun as Hz _.
  unfold NUM. change (nth _ _ 0) with (queue_at 8 (dk_seen_idx (k_vdisk s2)) (dk_used_ring (k_vdisk s2))). rewrite Hz, Nat2Z.id.
  apply wp_bind. eapply wp_get_entry; [exact A6|]. cbn [vi_status negb Z.eqb vi_b].
  apply wp_bind. unfold deref. apply wp_ret. unfold upd_buf. apply wp_bind, wp_modify.
  set (s3 := upd_k_bcache _ s2). pose proof (drove_trans _ _ _ _ _ _ _ D (drove_buf (vr_b r) _ s2 : drove _ _ s2 s3)) as D3.
  apply wp_bind. eapply wp_mono; [apply (wakeup_drove [L_vdisk]); [by eapply drove_calm|set_solver]|].
  cbn beta. intros _ s4 [D4 Ep4]. pose proof (drove_trans _ _ _ _ _ _ _ D3 D4) as D4'.
  unfold upd_vd. apply wp_bind, wp_modify. apply wp_ret. split; [done|].
  set (s5 := upd_k_vdisk _ s4). assert (Ev : k_vdisk s5 = intr_seen (k_vdisk s2)).
  { change (k_vdisk s5) with (intr_seen (k_vdisk s4)). by rewrite (drove_k_vdisk _ _ _ _ D4). }
  assert (Eb : bufs s5 = alter (upd_b_disk (fun _ => false)) (vr_b r) (bufs s2)) by apply (drove_bufs _ _ _ _ D4).
  rewrite Ev. split; [exact Hl|]. exists (<[id := mkReq (vr_b r) (vr_write r) (vr_i1 r) (vr_i2 r) Done]> R2).
  split.
  - eapply drove_trans; [exact D4'|]. pose proof (drove_vd (upd_dk_seen_idx (fun n => u16 (n + 1))) s4) as D5. exact D5.
  - rewrite Ev, Eb. exact Hq'.
  - rewrite fmap_insert, see_done by done. rewrite <- Hsee. apply insert_id. by rewrite lookup_fmap, Hid.
  - rewrite Eb. by apply same_bufs_alter.
  - intros id' r0 r3 p Hr0 Hs0 Hr3 Hd3 Hp Hsl. change (k_procs s5) with (k_procs s4). rewrite Ep4.
    assert (Ecp : c_proc (k_cpu s3) = c_proc (k_cpu s)) by (by eapply drove_c_proc).
    assert (W2 : woke (c_proc (k_cpu s)) (k_procs s) (k_procs s3)) by apply D3. rewrite Ecp.
    destruct (decide (id' = id)) as [->|Hd'].
    + assert (Eb0 : vr_b r0 = vr_b r).
      { assert (E : (see <$> R2) !! id = (see <$> R) !! id) by (by rewrite Hsee). rewrite !lookup_fmap, Hid, Hr0 in E. by injection E. }
      rewrite Eb0 in Hsl. eapply woken_reaches; [exact W2|apply Hc|done|exact Hsl].
    + rewrite lookup_insert_ne in Hr3 by done. destruct (Hw id' r0 r3 p) as (q & Hq2 & Hq3); [done..|].
      eapply woke_runnable; [apply woken_woke|exact Hq2|done].
Qed.

Lemma virtio_intr_loop la R s : calm [L_vdisk] s ->
  forall l s2 R2 fuel, seeing la R s s2 R2 -> unseen (k_vdisk s2) = l -> (length l < fuel)%nat ->
  wp (loop fuel virtio_intr_body tt) (fun _ s3 => unseen (k_vdisk s3) = [] /\ exists R3, seeing la R s s3 R3) s2.
Proof.
  intros Hc l. induction l as [|z l IH]; intros s2 R2 [|fuel] Hs Hu Hf; cbn in Hf; try lia; apply wp_loop_step.
  - unfold virtio_intr_body. apply wp_bind, wp_gets. destruct (vq_idx _ _ _ _ (sg_vq _ _ _ _ _ Hs)) as (_ & _ & I3 & I4).
    assert (E : dk_used_idx (k_vdisk s2) = dk_seen_idx (k_vdisk s2)).
    { pose proof (f_equal length Hu) as Hl. unfold unseen in Hl. rewrite queue_length in Hl. cbn in Hl.
      apply (queue_nil (2 ^ 16)); [lia|done|done|]. pose proof (mod16_range (dk_used_idx (k_vdisk s2) - dk_seen_idx (k_vdisk s2))). lia. }
    rewrite E, Z.eqb_refl. apply wp_ret. split; [done|]. by exists R2.
  - eapply wp_mono; [by eapply virtio_intr_step|]. cbn beta. intros r s3 (-> & Hl & R3 & Hs3). apply (IH s3 R3); [done|done|lia].
Qed.

(** All requests of the used ring have been seen. *)
Lemma seeing_all la R s s2 R2 : seeing la R s s2 R2 -> unseen (k_vdisk s2) = [] -> R2 = see <$> R.
Proof.
  intros [_ Hq Hsee _ _] Hu. rewrite <- Hsee. apply map_eq. intros id. rewrite lookup_fmap.
  destruct (R2 !! id) as [r|] eqn:E; [|done]. cbn. f_equal. unfold see. rewrite decide_False; [by destruct r|]. intros Hp.
  pose proof (proj2 (vq_unseen _ _ _ _ Hq) (Z.of_nat id)) as Hz. rewrite Hu in Hz.
  apply (not_elem_of_nil (Z.of_nat id)). apply Hz. by exists id, r.
Qed.

(** What virtio_disk_intr() leaves. *)
Record intr_post (la : Z) (R : gmap nat req) (s s' : kstate) : Prop := {
  ip_vq : vq_ok (k_vdisk s') (bufs s') la (see <$> R);
  ip_bufs : same_bufs (bufs s) (bufs s');
  ip_disk : k_disk s' = k_disk s;
  ip_sync : sync s' = sync s;
  ip_procs : woke (c_proc (k_cpu s)) (k_procs s) (k_procs s');
  ip_woken id r p : R !! id = Some r -> vr_phase r = Served -> c_proc (k_cpu s) <> Some p ->
    asleep p (Ch_buf (vr_b r)) s -> exists q, k_procs s' !! p = Some q /\ p_state q = RUNNABLE;
}.

Lemma virtio_disk_intr_spec la R s :
  calm [] s -> vq_ok (k_vdisk s) (bufs s) la R -> wp virtio_disk_intr (fun _ s' => intr_post la R s s') s.
Proof.
  intros Hc Hq. unfold virtio_disk_intr, vreg, set_vreg, upd_vd. apply wp_bind, wp_acquire; [apply Hc, not_elem_of_nil|].
  apply wp_bind, wp_gets. apply wp_bind, wp_modify. apply wp_bind, wp_gets. set (s1 := upd_k_vdisk _ _).
  assert (D1 : drove (k_vdisk s1) (bufs s1) (locked L_vdisk s) s1) by apply (drove_vd _ (locked L_vdisk s)).
  assert (Hq1 : vq_ok (k_vdisk s1) (bufs s1) la R) by (by eapply vq_same; [exact Hq|]).
  apply wp_bind. eapply wp_mono.
  - eapply (virtio_intr_loop la R (locked L_vdisk s) (calm_locked [] L_vdisk s Hc) _ s1 R); [|reflexivity|].
    + split; try done.
      * intros c bb Hb. exists (b_disk bb). destruct bb. exact Hb.
      * intros id r r2 p H1 H2 H3 H4. congruence.
    + unfold unseen. rewrite queue_length. unfold u16. lia.
  - cbn beta. intros _ s2 (Hu & R2 & Hs2). pose proof (seeing_all _ _ _ _ _ Hs2 Hu) as ER.
    destruct Hs2 as [D Hq2 Hsee Hb Hw].
    apply (wp_release L_vdisk s); [apply Hc|by eapply drove_sync|]. split; try done.
    + rewrite <- ER. exact Hq2.
    + destruct D as [E _]. apply (keq_k_disk _ _ E).
    + apply sync_resync.
    + apply D.
    + intros id r p Hid Hph Hne Hsl.
      apply (Hw id r (see r) p); try done; [by rewrite ER, lookup_fmap, Hid|]. unfold see. cbn. by rewrite decide_True.
Qed.

(** One descriptor of a chain. *)
Lemma free_chain_step lks (i : nat) de fuel s Q :
  calm lks s -> (forall j, L_proc j ∉ lks) -> (i < 8)%nat -> dk_free (k_vdisk s) !! i = Some false ->
  dk_desc (k_vdisk s) !! i = Some de ->
  (forall s', drove (freed i (k_vdisk s)) (bufs s) s s' ->
     if Z.testbit (vd_flags de) 0 then wp (loop fuel free_chain_body (vd_next de)) Q s' else Q tt s') ->
  wp (loop (S fuel) free_chain_body (Z.of_nat i)) Q s.
Proof.
  intros Hc Hl Hi Hf Hd HQ. apply wp_loop_step. unfold free_chain_body, get_desc. rewrite Nat2Z.id.
  apply wp_bind. eapply wp_get_entry; [exact Hd|]. apply wp_bind, (free_desc_spec lks); [done..|].
  intros s' D. apply wp_ret. specialize (HQ s' D). unfold VRING_DESC_F_NEXT.
  change 1 with (Z.ones 1). rewrite Z.land_ones by lia. change (2 ^ 1) with 2.
  rewrite Z.bit0_odd in HQ. rewrite Zmod_odd. by destruct (Z.odd (vd_flags de)).
Qed.

Lemma free_chain_spec lks i0 i1 i2 d0 d1 d2 s Q :
  calm lks s -> (forall j, L_proc j ∉ lks) -> NoDup [i0; i1; i2] ->
  (forall i, i ∈ [i0; i1; i2] -> (i < 8)%nat /\ dk_free (k_vdisk s) !! i = Some false) ->
  dk_desc (k_vdisk s) !! i0 = Some d0 -> Z.testbit (vd_flags d0) 0 = true -> vd_next d0 = Z.of_nat i1 ->
  dk_desc (k_vdisk s) !! i1 = Some d1 -> Z.testbit (vd_flags d1) 0 = true -> vd_next d1 = Z.of_nat i2 ->
  dk_desc (k_vdisk s) !! i2 = Some d2 -> Z.testbit (vd_flags d2) 0 = false ->
  (forall s', drove (freed i2 (freed i1 (freed i0 (k_vdisk s)))) (bufs s) s s' -> Q tt s') ->
  wp (free_chain (Z.of_nat i0)) Q s.
Proof.
  intros Hc Hl [Ha [Hb _]%NoDup_cons]%NoDup_cons Hf H0 F0 E0 H1 F1 E1 H2 F2 HQ.
  assert (i0 <> i1 /\ i0 <> i2 /\ i1 <> i2) as (N1 & N2 & N3) by set_solver.
  destruct (Hf i0) as [B0 G0]; [set_solver|]. destruct (Hf i1) as [B1 G1]; [set_solver|]. destruct (Hf i2) as [B2 G2]; [set_solver|].
  unfold free_chain. eapply (free_chain_step lks i0); [done..|exact H0|]. rewrite F0, E0. intros s1 D1.
  eapply (free_chain_step lks i1 d1); [by eapply drove_calm|done|done|..].
  { rewrite (drove_k_vdisk _ _ _ _ D1). cbn. by rewrite list_lookup_insert_ne. }
  { rewrite (drove_k_vdisk _ _ _ _ D1). cbn. by rewrite list_lookup_alter_ne. }
  rewrite F1, E1. intros s2 D2. rewrite (drove_k_vdisk _ _ _ _ D1), (drove_bufs _ _ _ _ D1) in D2.
  pose proof (drove_trans _ _ _ _ _ _ _ D1 D2) as D2'.
  eapply (free_chain_step lks i2 d2); [by eapply drove_calm|done|done|..].
  { rewrite (drove_k_vdisk _ _ _ _ D2). cbn. by rewrite !list_lookup_insert_ne. }
  { rewrite (drove_k_vdisk _ _ _ _ D2). cbn. by rewrite !list_lookup_alter_ne. }
  rewrite F2. intros s3 D3. rewrite (drove_k_vdisk _ _ _ _ D2), (drove_bufs _ _ _ _ D2) in D3.
  apply HQ. eapply drove_trans; [exact D2'|exact D3].
Qed.

(** Request [id] is done: its descriptors are freed. *)
Lemma virtio_rw_wait_spec la R id r s s1 Q :
  calm [] s -> sync s1 = sync (locked L_vdisk s) -> length (k_procs s1) = 64%nat ->
  vq_ok (k_vdisk s1) (bufs s1) la R -> R !! id = Some r -> vr_phase r = Done ->
  (forall d' s', vq_ok d' (bufs s1) la (delete id R) -> three_free d' id (vr_i1 r) (vr_i2 r) ->
     k_vdisk s' = d' -> bufs s' = bufs s1 -> k_disk s' = k_disk s1 -> sync s' = sync s -> Q tt s') ->
  wp (virtio_rw_wait (vr_b r) (Z.of_nat id)) Q s1.
Proof.
  intros Hc Hs Hlen Hq Hid Hph HQ. pose proof (vq_req _ _ _ _ Hq id r Hid) as Hr.
  destruct (vq_len _ _ _ _ Hq) as (L1 & L2 & L3 & L4 & L5 & L6).
  assert (Hc1 : calm [L_vdisk] s1).
  { eapply calm_ext; [exact Hs| |by apply calm_locked]. by rewrite Hlen, <- (cm_procs _ _ Hc). }
  assert (Hf : forall i, i ∈ chain id r -> dk_free (k_vdisk s1) !! i = Some false).
  { intros i Hi. destruct (lookup_lt_is_Some_2 (dk_free (k_vdisk s1)) i) as [[] E]; [rewrite L2; by apply Hr| |done].
    exfalso. by apply (proj1 (vq_free _ _ _ _ Hq i) E) in Hid. }
  destruct Hr as [A1 A2 A3 A4 A5 A6 (bb & A7 & A8 & A9)].
  assert (id < 8 /\ vr_i1 r < 8 /\ vr_i2 r < 8)%nat as (B0 & B1 & B2) by (split_and!; apply A2; unfold chain; set_solver).
  unfold virtio_rw_wait. apply wp_bind. eapply wp_get_entry; [exact A7|]. rewrite A8, Hph. cbn [bool_decide decide when].
  apply wp_bind, wp_ret. unfold virtio_rw_finish, upd_info, upd_vd. rewrite Nat2Z.id.
  apply wp_bind, wp_modify. set (s2 := upd_k_vdisk _ s1).
  assert (D2 : drove (k_vdisk s2) (bufs s1) s1 s2) by apply (drove_vd _ s1).
  apply wp_bind. eapply (free_chain_spec [L_vdisk] id (vr_i1 r) (vr_i2 r)); [by eapply drove_calm|set_solver|done|..].
  { intros i Hi. split; [by apply A2|by apply Hf]. }
  { exact A3. } { done. } { done. } { exact A4. } { by destruct (vr_write r). } { done. } { exact A5. } { done. }
  intros s3 D3. pose proof (drove_trans _ _ _ _ _ _ _ D2 D3) as D3'.
  apply (wp_release L_vdisk s); [apply Hc|by rewrite (drove_sync _ _ _ _ D3')|].
  assert (Hfin : finishes (k_vdisk s1) (freed (vr_i2 r) (freed (vr_i1 r) (freed id (k_vdisk s2)))) id r).
  { split; try done; cbn; [|by rewrite !length_alter]. intros i Hi. unfold chain in Hi. by rewrite !list_lookup_alter_ne by set_solver. }
  eapply HQ; [by eapply vq_finish| |exact (drove_k_vdisk _ _ _ _ D3)|exact (drove_bufs _ _ _ _ D3)| |apply sync_resync].
  - split; [done|]. intros i Hi. rewrite (fi_free _ _ _ _ Hfin), !lookup_freed by (rewrite ?length_insert, L2; done). set_solver.
  - destruct D3' as [E _]. apply (keq_k_disk _ _ E).
Qed.

(** Woken and switched to, the caller of virtio_disk_rw() returns. *)
Lemma virtio_rw_resume_spec intena la R id r me s s1 Q :
  calm [] s -> c_proc (k_cpu s) = Some me -> length (k_procs s1) = 64%nat ->
  sync (upd_k_cpu (upd_c_intena (fun _ => intena)) s1) = sync (locked (L_proc me) s) ->
  vq_ok (k_vdisk s1) (bufs s1) la R -> R !! id = Some r -> vr_phase r = Done ->
  (forall s', vq_ok (k_vdisk s') (bufs s') la (delete id R) -> three_free (k_vdisk s') id (vr_i1 r) (vr_i2 r) ->
     bufs s' = bufs s1 -> k_disk s' = k_disk s1 -> sync s' = sync s -> Q tt s') ->
  wp (virtio_rw_resume_wait intena (vr_b r) (Z.of_nat id)) Q s1.
Proof.
  intros Hc Hme Hlen Hs Hq Hid Hph HQ. unfold virtio_rw_resume_wait. apply wp_bind, (sleep_resume_spec _ _ me s); [done..|].
  intros s2 S2 O2. assert (Ev : k_vdisk s2 = k_vdisk s1) by (by injection O2).
  assert (Eb : k_bcache s2 = k_bcache s1) by (by injection O2). assert (Ed : k_disk s2 = k_disk s1) by (by injection O2).
  apply (virtio_rw_wait_spec la R id r s s2); rewrite ?Ev, ?Eb; try done.
  - assert (Ep : k_procs s2 = alter (upd_p_chan (fun _ => Ch_null)) me (k_procs s1)) by (by injection O2).
    by rewrite Ep, length_alter.
  - intros d' s3 Hq3 Ht E1 E2 E3 E4. apply HQ; [by rewrite E1, E2|by rewrite E1|done|by rewrite E3, Ed|done].
Qed.

(** The device's part has the effect of the contract that bio.c uses. *)
Lemma dev_complete_spec `{BlkDevice} la R id r bb s :
  vq_ok (k_vdisk s) (bufs s) la R -> R !! id = Some r -> vr_phase r = Taken -> bufs s !! vr_b r = Some bb ->
  0 <= b_blockno bb < 2 ^ 31 ->
  vq_ok (k_vdisk (dev_complete id s)) (bufs (dev_complete id s)) la
    (<[id := mkReq (vr_b r) (vr_write r) (vr_i1 r) (vr_i2 r) Served]> R) /\
  sync (dev_complete id s) = sync s /\ k_procs (dev_complete id s) = k_procs s /\
  wp (virtio_disk_rw (vr_b r) (vr_write r)) (fun _ t =>
    k_disk (dev_complete id s) = k_disk t /\ bufs (dev_complete id s) = bufs t) s.
Proof.
  intros Hq Hid Hph Hb Hn. destruct (vq_req _ _ _ _ Hq id r Hid) as [A1 A2 A3 A4 A5 A6 (b0 & A7 & A8 & A9)].
  assert (b0 = bb) as -> by congruence.
  assert (Esec : u32 (b_blockno bb * 2) = b_blockno bb * 2) by (apply u32_small; lia). rewrite Esec in A9.
  erewrite (dev_law id s id (vr_i1 r) (vr_b r) _ (vr_i2 r) id _ bb); [|exact A3|exact A4|by destruct (vr_write r)|exact A5|exact A9|done|..].
  2:{ cbn. by rewrite Z.mod_mul. }
  2:{ cbn. destruct (vr_write r); [by left|by right]. }
  cbn [rq_type rq_sector]. rewrite Z.div_mul by lia. unfold virtio_disk_rw. destruct (vr_write r) eqn:Ew; cbn.
  - split_and!; [|by ksync|done|].
    + rewrite <- Ew. by eapply vq_complete.
    + apply wp_bind. eapply wp_get_entry; [exact Hb|]. by apply wp_modify.
  - split_and!; [|unfold on_buf; by ksync|done|].
    + rewrite <- Ew. eapply vq_complete; [done|done|done|exact Hb|..].
      * by rewrite list_lookup_alter_eq, Hb.
      * done.
      * done.
      * intros c Hne. by rewrite list_lookup_alter_ne.
    + apply wp_bind. eapply wp_get_entry; [exact Hb|]. apply wp_bind, wp_gets. by apply wp_modify.
Qed.

(** ** Properties *)

(** A device as virtio describes it. *)
Definition example_complete (id : nat) (s : kstate) : kstate :=
  let d := k_vdisk s in
  match dk_desc d !! id with
  | Some (mkVdesc (VA_ops j) _ _ i1) =>
      match dk_desc d !! Z.to_nat i1 with
      | Some (mkVdesc (VA_data b) _ _ i2) =>
          match dk_desc d !! Z.to_nat i2, dk_ops d !! j, bufs s !! b with
          | Some (mkVdesc (VA_status k) _ _ _), Some rq, Some bb =>
              upd_k_vdisk (dev_done id k)
                (if rq_type rq =? VIRTIO_BLK_T_OUT then upd_k_disk (dput (rq_sector rq / 2) (b_data bb)) s
                 else on_buf b (upd_b_data (fun _ => dget (k_disk s) (rq_sector rq / 2))) s)
          | _, _, _ => s
          end
      | _ => s
      end
  | _ => s
  end.

Definition example_device : BlkDevice.
Proof.
  refine {| dev_complete := example_complete |}.
  intros id s j i1 b fl i2 k rq bb H0 H1 _ H2 H3 H4 _ _. unfold example_complete. by rewrite H0, Nat2Z.id, H1, Nat2Z.id, H2, H3, H4.
Defined.

(** The queue after virtio_disk_init(). *)
Definition example_queue : vdiskst :=
  upd_dk_free (fun _ => replicate 8 true) (k_vdisk (boot_state 0 ∅ ∅)).

Definition example_driver : kstate :=
  upd_k_cpu (upd_c_proc (fun _ => Some 3%nat)) (upd_k_vdisk (fun _ => example_queue) (boot_state 0 ∅ ∅)).

(** A write of buffer 5 in the hands of the device. *)
Definition example_posted : vdiskst :=
  upd_dk_ops (alter (fun _ => mkVreq VIRTIO_BLK_T_OUT 0 0) 0%nat)
    (upd_dk_desc (fun l => alter (fun _ => mkVdesc (VA_status 0) 1 VRING_DESC_F_WRITE 0) 2%nat
        (alter (fun _ => mkVdesc (VA_data 5) 1024 VRING_DESC_F_NEXT 2) 1%nat
          (alter (fun _ => mkVdesc (VA_ops 0) 16 VRING_DESC_F_NEXT 1) 0%nat l)))
      (upd_dk_info (alter (fun _ => mkVinfo (Some 5%nat) 0xff) 0%nat)
        (upd_dk_free (fun l => <[2%nat := false]> (<[1%nat := false]> (<[0%nat := false]> l)))
          (upd_dk_avail_ring (queue_set 8 0 0) (upd_dk_avail_idx (fun _ => 1) example_queue))))).

Definition example_taken : kstate :=
  upd_k_vdisk (fun _ => example_posted) (on_buf 5 (upd_b_disk (fun _ => true)) example_driver).

Lemma example_queue_ok : vq_ok example_queue (replicate 30 zero_buf) 0 ∅.
Proof.
  split; try done.
  - intros i. split; [|by intros [Hi _]; do 8 (destruct i as [|i]; [done|]); lia].
    intros Hi. pose proof (lookup_lt_Some _ _ _ Hi). done.
  - split; [constructor|]. intros z. split; [by intros ?%not_elem_of_nil|naive_solver].
  - split; [constructor|]. intros z. split; [by intros ?%not_elem_of_nil|naive_solver].
Qed.

Lemma example_driver_calm : calm [] example_driver.
Proof. split; [by split|done|done|]. exists 3%nat. split; [done|lia]. Qed.

(** Virtio_disk_rw(), called with no request in flight for the buffer.  Where three
    descriptors are free it formats them into a chain for the buffer's block, appends
    the chain's head to the avail ring and sleeps until b->disk is cleared; otherwise
    it gives back what it had taken and sleeps until descriptors are freed.  The queue
    stays consistent for the requests in flight, and the driver's lock is free while
    the caller sleeps. *)
Theorem virtio_rw_posts b w bb la R me pp s :
  calm [] s -> c_noff (k_cpu s) = 0 -> c_proc (k_cpu s) = Some me -> k_procs s !! me = Some pp ->
  vq_ok (k_vdisk s) (bufs s) la R -> bufs s !! b = Some bb -> (forall id r, R !! id = Some r -> vr_b r <> b) ->
  switches (virtio_rw b w) (fun s' =>
    free L_vdisk s' /\
    ((forall i0 i1 i2, ~ three_free (k_vdisk s) i0 i1 i2) /\
       vq_ok (k_vdisk s') (bufs s') la R /\ parked me Ch_diskfree (k_vdisk s') (bufs s) s s' \/
     exists i0 i1 i2, three_free (k_vdisk s) i0 i1 i2 /\
       posted la (k_vdisk s') = posted la (k_vdisk s) ++ [Z.of_nat i0] /\
       vq_ok (k_vdisk s') (bufs s') la (<[i0 := mkReq b w i1 i2 Posted]> R) /\
       parked me (Ch_buf b) (k_vdisk s') (alter (upd_b_disk (fun _ => true)) b (bufs s)) s s')) s.
Proof.
  intros Hc Hn Hme Hpp Hq Hb Hown.
  assert (Hf : forall ch d bs s', parked me ch d bs s s' -> free L_vdisk s').
  { intros ch d bs s' P. eapply sync_free; [apply (pk_sync _ _ _ _ _ _ P)|]. apply free_locked; [done|apply Hc, not_elem_of_nil]. }
  eapply (virtio_rw_spec b w bb la R me pp s); try done.
  - intros d' s' Hno Hq' P. split; [by eapply Hf|left]. pose proof P as [<- Eb _ _ _]. by rewrite Eb.
  - intros i0 i1 i2 d' s' bs' Ht Hpo Hno Hq' P. split; [by eapply Hf|right]. exists i0, i1, i2.
    pose proof P as [<- Eb _ _ _]. by rewrite Eb.
Qed.

Lemma virtio_rw_posts_witness :
  switches (virtio_rw 5 true) (fun s' => free L_vdisk s') example_driver.
Proof.
  eapply switches_mono.
  - apply (virtio_rw_posts 5 true zero_buf 0 ∅ 3 zero_proc example_driver);
      [exact example_driver_calm|done|done|done|exact example_queue_ok|done|done].
  - intros s' [Hf _]. exact Hf.
Defined.

Lemma example_taken_ok :
  vq_ok example_posted (bufs example_taken) 1 {[ 0%nat := mkReq 5 true 1 2 Taken ]}.
Proof.
  assert (Ht : three_free example_queue 0 1 2).
  { split; [apply (bool_decide_unpack _); by vm_compute|]. intros i Hi. repeat (apply elem_of_cons in Hi as [->|Hi]; [done|]).
    by apply not_elem_of_nil in Hi. }
  destruct (vq_post example_queue example_posted (replicate 30 zero_buf) 0 ∅ 5 true 0 1 2 zero_buf example_queue_ok Ht)
    as (Hp & _ & Hq); [by split|done|done|].
  destruct (vq_take _ _ _ _ _ _ Hq Hp) as (id & r & E & Hr & _ & Hq').
  assert (id = 0%nat) as -> by lia. rewrite insert_empty, lookup_singleton_eq in Hr. injection Hr as <-.
  rewrite insert_empty, insert_singleton_eq in Hq'. exact Hq'.
Qed.

(** C3: the driver and a device that serves a request together do what bio.c relies on.
    When the device has finished request [id] and virtio_disk_intr() has run, every
    process asleep on the request's buffer can run; switched to, virtio_disk_rw() of
    that buffer returns with its three descriptors free and the queue consistent for
    all other requests, whatever their phase, and the disk and the buffers are those
    of the contract [virtio_disk_rw] that the buffer cache is verified against, but
    for the flags b->disk. *)
Theorem virtio_refines_contract `{BlkDevice} la R id r bb s :
  calm [] s -> vq_ok (k_vdisk s) (bufs s) la R -> R !! id = Some r -> vr_phase r = Taken ->
  bufs s !! vr_b r = Some bb -> 0 <= b_blockno bb < 2 ^ 31 ->
  wp (modify (dev_complete id);; virtio_disk_intr) (fun _ s2 =>
    (forall p, c_proc (k_cpu s) <> Some p -> asleep p (Ch_buf (vr_b r)) s ->
       exists q, k_procs s2 !! p = Some q /\ p_state q = RUNNABLE) /\
    forall intena me s0 s3, calm [] s0 -> c_proc (k_cpu s0) = Some me -> length (k_procs s3) = 64%nat ->
      sync (upd_k_cpu (upd_c_intena (fun _ => intena)) s3) = sync (locked (L_proc me) s0) ->
      k_vdisk s3 = k_vdisk s2 -> bufs s3 = bufs s2 -> k_disk s3 = k_disk s2 ->
      wp (virtio_rw_resume_wait intena (vr_b r) (Z.of_nat id)) (fun _ s4 =>
        sync s4 = sync s0 /\ vq_ok (k_vdisk s4) (bufs s4) la (delete id (see <$> R)) /\
        three_free (k_vdisk s4) id (vr_i1 r) (vr_i2 r) /\
        wp (virtio_disk_rw (vr_b r) (vr_write r)) (fun _ t =>
          k_disk s4 = k_disk t /\ same_bufs (bufs t) (bufs s4)) s) s3) s.
Proof.
  intros Hc Hq Hid Hph Hb Hn. destruct (dev_complete_spec la R id r bb s Hq Hid Hph Hb Hn) as (Hq1 & Hs1 & Hp1 & Hcon).
  apply wp_bind, wp_modify. set (s1 := dev_complete id s) in *. set (R1 := <[id := _]> R) in Hq1.
  assert (Hc1 : calm [] s1) by (eapply calm_ext; [exact Hs1|by rewrite Hp1|done]).
  eapply wp_mono; [by apply (virtio_disk_intr_spec la R1)|]. cbn beta. intros _ s2 [I1 I2 I3 I4 I5 I6].
  assert (Hid1 : R1 !! id = Some (mkReq (vr_b r) (vr_write r) (vr_i1 r) (vr_i2 r) Served)) by apply lookup_insert_eq.
  split.
  - intros p Hp Hsl. apply (I6 id _ p Hid1); [done|by rewrite (sync_c_proc _ _ Hs1)|]. unfold asleep. by rewrite Hp1.
  - intros intena me s0 s3 Hc0 Hme Hlen Hs3 Ev Eb Ed.
    eapply (virtio_rw_resume_spec intena la (see <$> R1) id (see (mkReq (vr_b r) (vr_write r) (vr_i1 r) (vr_i2 r) Served)) me s0 s3);
      try done; [by rewrite Ev, Eb|by rewrite lookup_fmap, Hid1|].
    intros s4 Hq4 Ht Eb4 Ed4 Hs4. split_and!; [done| |done|].
    + replace (delete id (see <$> R)) with (delete id (see <$> R1)); [done|]. unfold R1.
      by rewrite fmap_insert, delete_insert_eq.
    + eapply wp_mono; [exact Hcon|]. cbn beta. intros _ t [Hd Hbt]. rewrite Eb4, Ed4, Ed, Eb, I3. split; [done|].
      rewrite <- Hbt. exact I2.
Qed.

Lemma virtio_refines_contract_witness :
  wp (modify (dev_complete (BlkDevice := example_device) 0);; virtio_disk_intr) (fun _ s2 =>
    forall p, Some 3%nat <> Some p -> asleep p (Ch_buf 5) example_taken ->
      exists q, k_procs s2 !! p = Some q /\ p_state q = RUNNABLE) example_taken.
Proof.
  eapply wp_mono.
  - refine (virtio_refines_contract (H := example_device) 1 _ 0 _ (upd_b_disk (fun _ => true) zero_buf) example_taken
      _ example_taken_ok (lookup_singleton_eq _ _) eq_refl eq_refl _).
    + split; [by split|done|done|]. exists 3%nat. split; [done|lia].
    + cbn. lia.
  - intros _ s2 [Hw _]. exact Hw.
Defined.
