(* ===== verification/Trap.v ===== *)
(** * Traps, interrupts and boot (kernel/trap.c, plic.c, syscall.c, start.c, main.c,
    and forkret() of proc.c): definitions

    A return to user space is the jump to userret with its argument: the value
    of [usertrapret].  The assembly that runs before usertrap() and after that
    jump is not modelled. *)

From Stdlib Require Import ZArith Lia.
From stdpp Require Import base tactics numbers gmap strings option list.
From S2P Require Import Prelude Bytes Kernel Spinlock Kstring Riscv Kalloc KallocInit Vm Sched.
From S2P Require Import Uart Printf Uio Console Bio Log Fs File Proc Exec Syscall Sysfile Virtio.

(** ** plic.c *)

(** A store to a register of the interrupt controller. *)
Definition plic_write (a v : Z) : K unit := modify (upd_k_plic (upd_pl_reg (insert a (u32 v)))).

(** void plicinit(void) *)
Definition plicinit : K unit :=
  plic_write (PLIC + UART0_IRQ * 4) 1;;
  plic_write (PLIC + VIRTIO0_IRQ * 4) 1.

(** void plicinithart(void) *)
Definition plicinithart : K unit :=
  hart ← cpuid;
  plic_write (PLIC_SENABLE hart) (Z.lor (Z.shiftl 1 UART0_IRQ) (Z.shiftl 1 VIRTIO0_IRQ));;
  plic_write (PLIC_SPRIORITY hart) 0.

(** int plic_claim(void): reading the register takes the interrupt; it reads 0 when
    there is none. *)
Definition plic_claim : K Z :=
  q ← gets (fun s => pl_pending (k_plic s));
  modify (upd_k_plic (upd_pl_pending tail));;
  mret (default 0 (head q)).

(** void plic_complete(int irq) *)
Definition plic_complete (irq : Z) : K unit :=
  hart ← cpuid;
  plic_write (PLIC_SCLAIM hart) irq.

(** ** trap.c *)

Definition SSTATUS_SPP : Z := Z.shiftl 1 8.
Definition SSTATUS_SPIE : Z := Z.shiftl 1 5.

Definition upd_csr (f : csrs -> csrs) : K unit := modify (upd_k_csr f).

(** void clockintr() *)
Definition clockintr : K unit :=
  acquire L_ticks;;
  modify (upd_k_ticks (fun t => u32 (t + 1)));;
  wakeup Ch_ticks;;
  release L_ticks.

(** int devintr() *)
Definition devintr : K Z :=
  c ← gets k_csr;
  let scause := r_scause c in
  if negb (Z.land scause 0x8000000000000000 =? 0) && (Z.land scause 0xff =? 9) then
    irq ← plic_claim;
    (if irq =? UART0_IRQ then uartintr
     else if irq =? VIRTIO0_IRQ then virtio_disk_intr
     else when (negb (irq =? 0))
       (printfk (Some (str "unexpected interrupt irq=%d" ++ nl)) [A_int irq]));;
    when (negb (irq =? 0)) (plic_complete irq);;
    mret 1
  else if scause =? 0x8000000000000001 then
    id ← cpuid;
    when (id =? 0) clockintr;;
    upd_csr (upd_r_sip (fun x => Z.land x (Z.lnot 2)));;
    mret 2
  else mret 0.

(** void trapinit(void) *)
Definition trapinit : K unit := initlock L_ticks.

Section trap.
Context `{Platform}.

(** void trapinithart(void) *)
Definition trapinithart : K unit := upd_csr (upd_r_stvec (fun _ => addr_kernelvec)).

(** void usertrapret(void): the address jumped to and its argument *)
Definition usertrapret : K (Z * Z) :=
  p ← curproc;
  intr_off;;
  upd_csr (upd_r_stvec (fun _ => TRAMPOLINE + uservec_off));;
  c ← gets k_csr;
  pp ← get_proc p;
  tf_store p TF_kernel_satp (r_satp c);;
  tf_store p TF_kernel_sp (u64 (p_kstack pp + PGSIZE));;
  tf_store p TF_kernel_trap addr_usertrap;;
  tf_store p TF_kernel_hartid (r_tp c);;
  upd_csr (upd_r_sstatus (fun x => Z.lor (Z.land x (Z.lnot SSTATUS_SPP)) SSTATUS_SPIE));;
  epc ← tf_load p TF_epc;
  upd_csr (upd_r_sepc (fun _ => epc));;
  mret (TRAMPOLINE + userret_off, MAKE_SATP (p_pagetable pp)).

(** syscalls[] *)
Definition syscalls (pad : list Z) (num : Z) : option (K Z) :=
  match num with
  | 1 => Some sys_fork
  | 2 => Some sys_exit
  | 3 => Some sys_wait
  | 4 => Some sys_pipe
  | 5 => Some sys_read
  | 6 => Some sys_kill
  | 7 => Some sys_exec
  | 8 => Some (sys_fstat pad)
  | 9 => Some sys_chdir
  | 10 => Some sys_dup
  | 11 => Some sys_getpid
  | 12 => Some sys_sbrk
  | 13 => Some sys_sleep
  | 14 => Some sys_uptime
  | 15 => Some sys_open
  | 16 => Some sys_write
  | 17 => Some sys_mknod
  | 18 => Some sys_unlink
  | 19 => Some sys_link
  | 20 => Some sys_mkdir
  | 21 => Some sys_close
  | _ => None
  end.

(** void syscall(void); [pad] is the padding of fstat()'s local struct stat. *)
Definition syscall (pad : list Z) : K unit :=
  p ← curproc;
  a7 ← tf_load p TF_a7;
  let num := s32 a7 in
  match syscalls pad num with
  | Some f =>
      r ← f;
      tf_store p TF_a0 r
  | None =>
      pp ← get_proc p;
      printfk (Some (str "%d %s: unknown sys call %d" ++ nl))
        [A_int (p_pid pp); A_str (Some (upto_nul (p_name pp))); A_int num];;
      tf_store p TF_a0 (u64 (-1))
  end.

(** void usertrap(void), and what is left of it when yield() returns *)
Definition usertrap_cause (pad : list Z) (p : nat) : K Z :=
  c ← gets k_csr;
  if r_scause c =? 8 then
    k ← killed p;
    when (negb (k =? 0)) (exit (-1));;
    epc ← tf_load p TF_epc;
    tf_store p TF_epc (u64 (epc + 4));;
    intr_on;;
    syscall pad;;
    mret 0
  else
    which_dev ← devintr;
    if negb (which_dev =? 0) then mret which_dev
    else
      c ← gets k_csr;
      pp ← get_proc p;
      printfk (Some (str "usertrap(): unexpected scause %p pid=%d" ++ nl))
        [A_ptr (r_scause c); A_int (p_pid pp)];;
      printfk (Some (str "            sepc=%p stval=%p" ++ nl)) [A_ptr (r_sepc c); A_ptr (r_stval c)];;
      setkilled p;;
      mret 0.

Definition usertrap (pad : list Z) : K (Z * Z) :=
  c ← gets k_csr;
  if negb (Z.land (r_sstatus c) SSTATUS_SPP =? 0) then panic "usertrap: not from user mode" else
  upd_csr (upd_r_stvec (fun _ => addr_kernelvec));;
  p ← curproc;
  c ← gets k_csr;
  tf_store p TF_epc (r_sepc c);;
  which_dev ← usertrap_cause pad p;
  k ← killed p;
  when (negb (k =? 0)) (exit (-1));;
  when (which_dev =? 2) yield;;
  usertrapret.

Definition usertrap_resume (intena : bool) : K (Z * Z) :=
  yield_resume intena;;
  usertrapret.

(** void kerneltrap(), and what is left of it when yield() returns *)
Definition kerneltrap_restore (sepc sstatus : Z) : K unit :=
  upd_csr (upd_r_sepc (fun _ => sepc));;
  upd_csr (upd_r_sstatus (fun _ => sstatus)).

Definition kerneltrap : K unit :=
  c ← gets k_csr;
  let sepc := r_sepc c in
  let sstatus := r_sstatus c in
  let scause := r_scause c in
  if Z.land sstatus SSTATUS_SPP =? 0 then panic "kerneltrap: not from supervisor mode" else
  i ← intr_get;
  if i : bool then panic "kerneltrap: interrupts enabled" else
  which_dev ← devintr;
  if which_dev =? 0 then
    printfk (Some (str "scause %p" ++ nl)) [A_ptr scause];;
    c ← gets k_csr;
    printfk (Some (str "sepc=%p stval=%p" ++ nl)) [A_ptr (r_sepc c); A_ptr (r_stval c)];;
    panic "kerneltrap"
  else
    (if which_dev =? 2 then
       p ← myproc;
       match p with
       | None => mret tt
       | Some p =>
           pp ← get_proc p;
           when (bool_decide (p_state pp = RUNNING)) yield
       end
     else mret tt);;
    kerneltrap_restore sepc sstatus.

Definition kerneltrap_resume (intena : bool) (sepc sstatus : Z) : K unit :=
  yield_resume intena;;
  kerneltrap_restore sepc sstatus.

(** void forkret(void), of proc.c *)
Definition forkret : K (Z * Z) :=
  p ← curproc;
  release (L_proc p);;
  first ← gets k_first;
  when first
    (modify (upd_k_first (fun _ => false));;
     fsinit ROOTDEV);;
  usertrapret.

(** ** start.c *)

Definition MSTATUS_MPP_MASK : Z := Z.shiftl 3 11.
Definition MSTATUS_MPP_S : Z := Z.shiftl 1 11.
Definition MSTATUS_MIE : Z := Z.shiftl 1 3.
Definition SIE_SEIE : Z := Z.shiftl 1 9.
Definition SIE_STIE : Z := Z.shiftl 1 5.
Definition SIE_SSIE : Z := Z.shiftl 1 1.
Definition MIE_MTIE : Z := Z.shiftl 1 7.

Definition upd_mach (f : machst -> machst) : K unit := modify (upd_k_mach f).

(** void timerinit() *)
Definition timerinit : K unit :=
  id ← gets (fun s => s32 (m_hartid (k_mach s)));
  let interval := 1000000 in
  t ← load CLINT_MTIME;
  store (CLINT_MTIMECMP id) (u64 (t + interval));;
  let scratch := addr_timer_scratch + 40 * id in
  store (scratch + 8 * 3) (CLINT_MTIMECMP id);;
  store (scratch + 8 * 4) interval;;
  upd_mach (upd_m_scratch (fun _ => scratch));;
  upd_mach (upd_m_tvec (fun _ => addr_timervec));;
  upd_mach (upd_m_status (fun x => Z.lor x MSTATUS_MIE));;
  upd_mach (upd_m_ie (fun x => Z.lor x MIE_MTIE)).

(** void start(): up to mret *)
Definition start : K unit :=
  upd_mach (upd_m_status (fun x => Z.lor (Z.land x (Z.lnot MSTATUS_MPP_MASK)) MSTATUS_MPP_S));;
  upd_mach (upd_m_epc (fun _ => addr_main));;
  upd_csr (upd_r_satp (fun _ => 0));;
  upd_mach (upd_m_edeleg (fun _ => 0xffff));;
  upd_mach (upd_m_ideleg (fun _ => 0xffff));;
  upd_mach (upd_s_ie (fun x => Z.lor (Z.lor (Z.lor x SIE_SEIE) SIE_STIE) SIE_SSIE));;
  upd_mach (upd_m_pmpaddr0 (fun _ => 0x3fffffffffffff));;
  upd_mach (upd_m_pmpcfg0 (fun _ => 0xf));;
  timerinit;;
  id ← gets (fun s => s32 (m_hartid (k_mach s)));
  upd_csr (upd_r_tp (fun _ => id)).

(** ** main.c *)

(** int main() *)
Definition main : K unit :=
  id ← cpuid;
  (if id =? 0 then
     consoleinit;;
     printfkinit;;
     printfk (Some nl) [];;
     printfk (Some (str "xv6 kernel is booting" ++ nl)) [];;
     printfk (Some nl) [];;
     kinit;;
     kvminit;;
     kvminithart;;
     procinit;;
     trapinit;;
     trapinithart;;
     plicinit;;
     plicinithart;;
     binit;;
     iinit;;
     fileinit;;
     virtio_disk_init;;
     userinit;;
     modify (upd_k_started (fun _ => true))
   else
     started ← gets k_started;
     when (negb started) spin;;
     printfk (Some (str "hart %d starting" ++ nl)) [A_int id];;
     kvminithart;;
     trapinithart;;
     plicinithart);;
  scheduler.

End trap.
