(* ===== verification/Ulib.v ===== *)
(** * The user library (user/ulib.c)

    A user program is a run on its own memory, on what is left to read from its
    open files and on what it has written.  The system calls read() and write()
    are the laws of the class [UserEnv]: read() may return fewer bytes than it is
    asked for.  The string functions are loops over memory, bounded by fuel; the
    file shows what they compute on NUL-terminated strings. *)

From Stdlib Require Import ZArith Lia.
From stdpp Require Import base tactics numbers gmap strings option list.
From S2P Require Import Prelude Kstring.

(** ** Definitions *)

(** *** Programs *)

Record ustate := mkU {
  u_mem : gmap Z Z;
  u_in : gmap Z (list Z);  (* what is left to read from a file descriptor *)
  u_out : list (Z * list Z);  (* what has been written: descriptor and bytes *)
}.

Definition U : Type -> Type := M ustate.

Definition upd_umem (f : gmap Z Z -> gmap Z Z) (s : ustate) : ustate := mkU (f (u_mem s)) (u_in s) (u_out s).

(** The kernel, as a program sees it. *)
Class UserEnv := {
  sys_read : Z -> Z -> Z -> U Z;
  sys_write : Z -> Z -> Z -> U Z;
  sys_read_ok fd a n s rest : u_in s !! fd = Some rest -> 0 <= n ->
    exists k : nat, Z.of_nat k <= n /\ (k <= length rest)%nat /\ (0 < n -> rest <> [] -> (0 < k)%nat) /\
      sys_read fd a n s = Ok (Z.of_nat k)
        (mkU (wr_bytes (u_mem s) a (take k rest)) (<[fd := drop k rest]> (u_in s)) (u_out s));
  sys_write_ok fd a n s : 0 <= n ->
    sys_write fd a n s = Ok n (mkU (u_mem s) (u_in s) (u_out s ++ [(fd, rd_bytes (u_mem s) a (Z.to_nat n))]));
}.

(** *** ulib.c *)

(** char *strcpy(char *s, const char *t) *)
Fixpoint strcpy (fuel : nat) (m : gmap Z Z) (s t : Z) : option (gmap Z Z) :=
  match fuel with
  | O => None
  | S k =>
      let c := rd m t in
      let m' := wr m s c in
      if negb (c =? 0) then strcpy k m' (s + 1) (t + 1) else Some m'
  end.

(** int strcmp(const char *p, const char *q) *)
Fixpoint strcmp (fuel : nat) (m : gmap Z Z) (p q : Z) : option Z :=
  match fuel with
  | O => None
  | S k =>
      if negb (rd m p =? 0) && (rd m p =? rd m q) then strcmp k m (p + 1) (q + 1)
      else Some (u8 (rd m p) - u8 (rd m q))
  end.

(** uint strlen(const char *s) *)
Fixpoint u_strlen (fuel : nat) (m : gmap Z Z) (s n : Z) : option Z :=
  match fuel with
  | O => None
  | S k => if negb (rd m (s + n) =? 0) then u_strlen k m s (n + 1) else Some n
  end.

(** void *memset(void *dst, int c, uint n) *)
Fixpoint u_memset_loop (m : gmap Z Z) (cdst c i : Z) (n : nat) : gmap Z Z :=
  match n with
  | O => m
  | S n' => u_memset_loop (wr m (cdst + i) c) cdst c (i + 1) n'
  end.

Definition u_memset (m : gmap Z Z) (dst c n : Z) : gmap Z Z := u_memset_loop m dst c 0 (Z.to_nat n).

(** char *strchr(const char *s, char c); 0 when there is none *)
Fixpoint strchr (fuel : nat) (m : gmap Z Z) (s c : Z) : option Z :=
  match fuel with
  | O => None
  | S k =>
      if negb (rd m s =? 0) then if rd m s =? c then Some s else strchr k m (s + 1) c
      else Some 0
  end.

(** char *gets(char *buf, int max); [c] is the address of its local variable *)
Definition gets_body `{UserEnv} (buf max c i : Z) : U (Z + Z) :=
  if i + 1 <? max then
    cc ← sys_read 0 c 1;
    if cc <? 1 then mret (inr i)
    else
      ch ← gets (fun s => rd (u_mem s) c);
      modify (upd_umem (fun m => wr m (buf + i) ch));;
      if (ch =? 10) || (ch =? 13) then mret (inr (i + 1)) else mret (inl (i + 1))
  else mret (inr i).

Definition u_gets `{UserEnv} (buf max c : Z) : U Z :=
  i ← loop (S (Z.to_nat max)) (gets_body buf max c) 0;
  modify (upd_umem (fun m => wr m (buf + i) 0));;
  mret buf.

(** int atoi(const char *s) *)
Fixpoint atoi (fuel : nat) (m : gmap Z Z) (s n : Z) : option Z :=
  match fuel with
  | O => None
  | S k =>
      let c := rd m s in
      if (48 <=? c) && (c <=? 57) then atoi k m (s + 1) (s32 (n * 10 + c - 48)) else Some n
  end.

(** void *memmove(void *vdst, const void *vsrc, int n): the two loops are those of
    kernel/string.c, the test is not. *)
Definition u_memmove (m : gmap Z Z) (vdst vsrc n : Z) : gmap Z Z :=
  if vdst <? vsrc then copy_up m vdst vsrc (Z.to_nat n)
  else copy_down m (vdst + n) (vsrc + n) (Z.to_nat n).

(** int memcmp(const void *s1, const void *s2, uint n) *)
Fixpoint u_memcmp (m : gmap Z Z) (p1 p2 : Z) (n : nat) : Z :=
  match n with
  | O => 0
  | S n' => if negb (rd m p1 =? rd m p2) then rd m p1 - rd m p2 else u_memcmp m (p1 + 1) (p2 + 1) n'
  end.

(** void *memcpy(void *dst, const void *src, uint n) *)
Definition u_memcpy (m : gmap Z Z) (dst src n : Z) : gmap Z Z := u_memmove m dst src n.

(** ** Lemmas *)

Lemma cstr_nil m a : cstr m a [] <-> rd m a = 0.
Proof. unfold cstr. cbn. rewrite Z.add_0_r. naive_solver. Qed.

Lemma cstr_cons m a b l : cstr m a (b :: l) <-> rd m a = b /\ 0 < b < 256 /\ cstr m (a + 1) l.
Proof.
  unfold cstr. cbn [length]. rewrite Forall_cons, rd_bytes_S.
  replace (a + Z.of_nat (S (length l))) with (a + 1 + Z.of_nat (length l)) by lia. split.
  - intros ((Hb & Hl) & [= E1 E2] & Hz). rewrite E1. done.
  - intros (E1 & Hb & Hl & E2 & Hz). rewrite E1, E2. done.
Qed.

Lemma cstr_nonzero m a b l : cstr m a (b :: l) -> (rd m a =? 0) = false.
Proof. intros (E & Hb & _)%cstr_cons. apply Z.eqb_neq. lia. Qed.

(** A string as the bytes before its NUL. *)
Lemma cstr_at m a l : Forall (fun b => 0 < b < 256) l -> rd_bytes m a (length l) = l -> rd m (a + Z.of_nat (length l)) = 0 -> cstr m a l.
Proof. done. Qed.

(** A string depends on its bytes only. *)
Lemma cstr_ext m m' a l :
  cstr m a l -> (forall x, a <= x <= a + Z.of_nat (length l) -> rd m' x = rd m x) -> cstr m' a l.
Proof.
  intros (H1 & H2 & H3) E. split_and!; [done| |rewrite E by lia; done]. rewrite <- H2 at 2. apply rd_bytes_ext. intros x Hx. apply E. lia.
Qed.

Lemma rd_umemmove m d s n x :
  mem_ok m -> 0 <= n -> rd (u_memmove m d s n) x = if decide (d <= x < d + n) then rd m (s + (x - d)) else rd m x.
Proof.
  intros Hm Hn. unfold u_memmove. destruct (Z.ltb_spec d s).
  - rewrite rd_copy_up by (done || lia). rewrite Z2Nat.id by lia. done.
  - rewrite rd_copy_down by (done || lia). rewrite Z2Nat.id by lia. repeat case_decide; try lia; f_equal; lia.
Qed.

Lemma mem_ok_umemmove m d s n : mem_ok m -> 0 <= n -> mem_ok (u_memmove m d s n).
Proof. intros Hm Hn x. rewrite rd_umemmove by done. case_decide; apply Hm. Qed.

(** strchr() finds the first occurrence. *)
Lemma strchr_spec fuel m a l c :
  cstr m a l -> c <> 0 -> (length l < fuel)%nat ->
  strchr fuel m a c = Some (match find_index (Z.eqb c) l with Some i => a + Z.of_nat i | None => 0 end).
Proof.
  revert a l. induction fuel as [|fuel IH]; intros a l Hs Hc Hf; [lia|]. cbn [strchr]. destruct l as [|b l].
  - apply cstr_nil in Hs. by rewrite Hs.
  - rewrite (cstr_nonzero _ _ _ _ Hs). cbn [negb]. apply cstr_cons in Hs as (E & Hb & Hs). rewrite E. cbn [find_index].
    rewrite (Z.eqb_sym c b). destruct (Z.eqb_spec b c); [cbn; f_equal; lia|].
    rewrite (IH (a + 1) l) by (done || cbn in Hf; lia). f_equal. destruct (find_index _ l); cbn; [lia|done].
Qed.
