(* ===== verification/UlibProps.v ===== *)
(** * Correctness of the user library (user/ulib.c)

    What the string functions, atoi(), memset(), memcmp() and gets() compute, on
    NUL-terminated strings in the memory of a program. *)

From Stdlib Require Import ZArith Lia.
From stdpp Require Import base tactics numbers gmap strings option list.
From S2P Require Import Prelude Kstring Printf Ulib.

(** ** Strings *)

Lemma u_strlen_spec l : forall fuel m a n, cstr m (a + n) l -> (length l < fuel)%nat -> u_strlen fuel m a n = Some (n + Z.of_nat (length l)).
Proof.
  induction l as [|c l IH]; intros [|fuel] m a n Hs Hf; cbn [length] in *; try lia; cbn [u_strlen].
  - apply cstr_nil in Hs. rewrite Hs. cbn. f_equal. lia.
  - rewrite (cstr_nonzero _ _ _ _ Hs). cbn [negb]. apply cstr_cons in Hs as (_ & _ & Hs).
    rewrite IH by (lia || by rewrite Z.add_assoc). f_equal. lia.
Qed.

(** strcpy() copies the string with its NUL, and nothing else. *)
Lemma strcpy_spec l : forall fuel m s t,
  cstr m t l -> (length l < fuel)%nat -> s + Z.of_nat (length l) < t \/ t + Z.of_nat (length l) < s ->
  exists m', strcpy fuel m s t = Some m' /\ cstr m' s l /\
    forall x, ~ (s <= x <= s + Z.of_nat (length l)) -> rd m' x = rd m x.
Proof.
  induction l as [|c l IH]; intros [|fuel] m s t Hs Hf Ha; cbn [length] in *; try lia; cbn [strcpy].
  - apply cstr_nil in Hs. rewrite Hs. cbn [Z.eqb negb]. eexists. split; [done|]. split; [apply cstr_nil; by rewrite rd_wr_eq|].
    intros x Hx. apply rd_wr_ne. lia.
  - rewrite (cstr_nonzero _ _ _ _ Hs). cbn [negb]. apply cstr_cons in Hs as (E & Hc & Hs). rewrite E.
    destruct (IH fuel (wr m s c) (s + 1) (t + 1)) as (m' & Em & Hm & Hx); [|lia|lia|].
    { apply (cstr_ext m); [done|]. intros x Hx. apply rd_wr_ne. lia. }
    exists m'. split; [done|]. split.
    + apply cstr_cons. rewrite Hx, rd_wr_eq by lia. unfold u8. rewrite Z.mod_small by lia. done.
    + intros x Hx'. rewrite Hx by lia. apply rd_wr_ne. lia.
Qed.

(** strcmp() is 0 exactly on equal strings. *)
Lemma strcmp_spec l : forall fuel m p q l',
  cstr m p l -> cstr m q l' -> (length l < fuel)%nat -> exists r, strcmp fuel m p q = Some r /\ (r = 0 <-> l = l').
Proof.
  induction l as [|c l IH]; intros [|fuel] m p q l' Hp Hq Hf; cbn [length] in *; try lia; cbn [strcmp].
  - apply cstr_nil in Hp. rewrite Hp. cbn [Z.eqb negb andb]. eexists. split; [done|]. destruct l' as [|c' l'].
    + apply cstr_nil in Hq. by rewrite Hq.
    + apply cstr_cons in Hq as (-> & Hc & _). unfold u8. rewrite !Z.mod_small by lia. split; [lia|done].
  - rewrite (cstr_nonzero _ _ _ _ Hp). cbn [negb andb]. apply cstr_cons in Hp as (-> & Hc & Hp). destruct l' as [|c' l'].
    + apply cstr_nil in Hq. rewrite Hq, (proj2 (Z.eqb_neq c 0)) by lia. eexists. split; [done|].
      unfold u8. rewrite !Z.mod_small by lia. split; [lia|done].
    + apply cstr_cons in Hq as (-> & Hc' & Hq). destruct (Z.eqb_spec c c') as [->|Hne].
      * destruct (IH fuel m (p + 1) (q + 1) l' Hp Hq ltac:(lia)) as (r & -> & Hr). exists r. split; [done|]. rewrite Hr. split; [by intros ->|by intros [= ->]].
      * eexists. split; [done|]. unfold u8. rewrite !Z.mod_small by lia. split; [lia|by intros [= ? _]].
Qed.

(** ** Memory *)

Lemma u_memset_loop_spec n : forall m d c i x,
  rd (u_memset_loop m d c i n) x = if decide (d + i <= x < d + i + Z.of_nat n) then u8 c else rd m x.
Proof.
  induction n as [|n IH]; intros m d c i x; cbn [u_memset_loop]; [by rewrite decide_False by lia|].
  rewrite IH. destruct (decide (x = d + i)) as [->|Hne].
  - rewrite decide_False, rd_wr_eq, decide_True by lia. done.
  - rewrite rd_wr_ne by done. destruct (decide (d + (i + 1) <= x < d + (i + 1) + Z.of_nat n)); [rewrite decide_True by lia|rewrite decide_False by lia]; done.
Qed.

Lemma rd_u_memset m d c n x : 0 <= n -> rd (u_memset m d c n) x = if decide (d <= x < d + n) then u8 c else rd m x.
Proof. intros Hn. unfold u_memset. rewrite u_memset_loop_spec, Z.add_0_r, Z2Nat.id by done. done. Qed.

(** memcmp() is 0 exactly on equal bytes. *)
Lemma u_memcmp_spec m n : forall p q, u_memcmp m p q n = 0 <-> rd_bytes m p n = rd_bytes m q n.
Proof.
  induction n as [|n IH]; intros p q; [done|]. cbn [u_memcmp]. rewrite !rd_bytes_S. destruct (Z.eqb_spec (rd m p) (rd m q)) as [E|Hne]; cbn [negb].
  - rewrite IH, E. split; [by intros ->|by intros [= ->]].
  - split; [lia|by intros [= ? _]].
Qed.

(** ** atoi() *)

Lemma digit_val_char c d : digit_val 10 c = Some d -> c = 48 + d /\ 0 <= d < 10.
Proof.
  unfold digit_val. change (take (Z.to_nat 10) digits) with [48; 49; 50; 51; 52; 53; 54; 55; 56; 57]. cbn [find_index].
  do 10 (match goal with |- context [?k =? c] => destruct (Z.eqb_spec k c) as [<-|?]; [by intros [= <-]|] end). done.
Qed.

(** atoi() reads the decimal digits at the start of a string, as long as they fit an int. *)
Lemma atoi_spec ds : forall fuel m a acc v,
  unsigned 10 acc ds = Some v -> 0 <= acc -> v < 2 ^ 31 -> (length ds < fuel)%nat ->
  rd_bytes m a (length ds) = ds -> ~ (48 <= rd m (a + Z.of_nat (length ds)) <= 57) -> atoi fuel m a acc = Some v.
Proof.
  assert (Hmono : forall ds acc v, unsigned 10 acc ds = Some v -> 0 <= acc -> acc <= v).
  { clear. induction ds as [|c ds IH]; intros acc v; cbn [unsigned]; [by intros [= ->]|].
    destruct (digit_val 10 c) as [d|] eqn:E; [|done]. apply digit_val_char in E as [_ Hd]. cbn. intros Hv Ha. specialize (IH _ _ Hv). lia. }
  induction ds as [|c ds IH]; intros [|fuel] m a acc v Hu Ha Hv Hf Hb Hz; cbn [length] in *; try lia; cbn [atoi].
  - injection Hu as ->. rewrite Z.add_0_r in Hz. destruct (Z.leb_spec 48 (rd m a)), (Z.leb_spec (rd m a) 57); cbn; try done. lia.
  - rewrite rd_bytes_S in Hb. injection Hb as Ec Hb. cbn [unsigned] in Hu. destruct (digit_val 10 c) as [d|] eqn:E; [|done]. cbn in Hu.
    apply digit_val_char in E as [Ed Hd]. pose proof (Hmono _ _ _ Hu ltac:(lia)). rewrite Ec.
    rewrite (proj2 (Z.leb_le 48 c)), (proj2 (Z.leb_le c 57)) by lia. cbn [andb]. rewrite s32_small by lia.
    apply IH; try done; try lia.
    + by replace (acc * 10 + c - 48) with (acc * 10 + d) by lia.
    + by replace (a + 1 + Z.of_nat (length ds)) with (a + Z.of_nat (S (length ds))) by lia.
Qed.

(** ** gets() *)

(** The first line of a text, through its newline or carriage return and of at most [n] bytes *)
Fixpoint first_line (n : nat) (rest : list Z) : list Z :=
  match n, rest with
  | S n', b :: r => b :: (if (b =? 10) || (b =? 13) then [] else first_line n' r)
  | _, _ => []
  end.

Section gets.
Context `{UserEnv} (buf max c : Z) (Hc : ~ (buf <= c < buf + max)).

Lemma gets_loop_spec n : forall fuel i rest s,
  u_in s !! 0 = Some rest -> Forall byte_ok rest -> 0 <= i -> i + 1 + Z.of_nat n = max -> (n < fuel)%nat ->
  wp (loop fuel (gets_body buf max c) i) (fun j s' =>
    let l := first_line n rest in
    j = i + Z.of_nat (length l) /\ u_in s' = <[0 := drop (length l) rest]> (u_in s) /\ u_out s' = u_out s /\
    rd_bytes (u_mem s') (buf + i) (length l) = l /\ forall x, buf <= x < buf + i -> rd (u_mem s') x = rd (u_mem s) x) s.
Proof.
  induction n as [|n IH]; intros [|fuel] i rest s Hin Hb Hi Hmax Hf; try lia; apply wp_loop_step; unfold gets_body at 1.
  { rewrite (proj2 (Z.ltb_ge (i + 1) max)) by lia. apply wp_ret. cbn. split_and!; [lia|by rewrite insert_id|done..]. }
  rewrite (proj2 (Z.ltb_lt (i + 1) max)) by lia. apply wp_bind.
  destruct (sys_read_ok 0 c 1 s rest Hin ltac:(lia)) as (k & Hk & Hkl & Hk0 & E). apply (wp_ok _ _ _ _ _ E). destruct rest as [|b r].
  { cbn in Hkl. assert (k = 0%nat) as -> by lia. cbn [Z.of_nat Z.ltb Z.compare]. apply wp_ret. cbn. split_and!; [lia|done..]. }
  specialize (Hk0 ltac:(lia) ltac:(done)). assert (k = 1%nat) as -> by lia. cbn [Z.of_nat Pos.of_succ_nat Z.ltb Z.compare Pos.compare Pos.compare_cont].
  apply Forall_cons in Hb as [Hb0 Hb]. apply wp_bind, wp_gets. change (wr_bytes (u_mem s) c (take 1 (b :: r))) with (wr (u_mem s) c b).
  assert (Ech : rd (wr (u_mem s) c b) c = b) by (rewrite rd_wr_eq; by apply u8_small). cbn [u_mem]. rewrite Ech.
  apply wp_bind, wp_modify. cbn [drop first_line].
  assert (Hst : forall m, rd (wr m (buf + i) b) (buf + i) = b) by (intros m; rewrite rd_wr_eq; unfold u8; by rewrite Z.mod_small by apply Hb0).
  destruct ((b =? 10) || (b =? 13)).
  - apply wp_ret. cbn [length drop u_in u_out u_mem upd_umem]. split_and!; [lia|by rewrite drop_0|done| |].
    + rewrite rd_bytes_S. cbn [rd_bytes seq fmap list_fmap]. by rewrite Hst.
    + intros x Hx. rewrite !rd_wr_ne by lia. done.
  - apply wp_ret. eapply wp_mono; [apply (IH fuel (i + 1) r); [apply lookup_insert_eq|done|lia|lia|lia]|].
    cbn beta zeta. cbn [u_in u_out u_mem upd_umem length drop]. intros j s' (-> & Hin' & Hout & Hl & Hx). split_and!; [lia|by rewrite Hin', insert_insert_eq|done| |].
    + rewrite rd_bytes_S, Hx, Hst by lia. f_equal. by replace (buf + i + 1) with (buf + (i + 1)) by lia.
    + intros x Hx'. rewrite Hx, !rd_wr_ne by lia. done.
Qed.

(** gets() stores the first line of the standard input and a NUL, and leaves the rest to
    be read. *)
Lemma gets_spec rest s :
  u_in s !! 0 = Some rest -> Forall byte_ok rest -> 0 < max ->
  wp (u_gets buf max c) (fun r s' =>
    let l := first_line (Z.to_nat max - 1) rest in
    r = buf /\ u_in s' = <[0 := drop (length l) rest]> (u_in s) /\ u_out s' = u_out s /\
    rd_bytes (u_mem s') buf (length l) = l /\ rd (u_mem s') (buf + Z.of_nat (length l)) = 0) s.
Proof.
  intros Hin Hb Hm. unfold u_gets. apply wp_bind.
  eapply wp_mono; [apply (gets_loop_spec (Z.to_nat max - 1) (S (Z.to_nat max)) 0 rest s); [done|done|lia|lia|lia]|].
  cbn beta zeta. set (l := first_line _ rest). intros j s' (-> & Hin' & Hout & Hl & _). rewrite Z.add_0_r in Hl. apply wp_bind, wp_modify, wp_ret.
  cbn [u_in u_out u_mem upd_umem]. rewrite Z.add_0_l. split_and!; [done|done|done| |by rewrite rd_wr_eq].
  etrans; [|exact Hl]. apply rd_bytes_ext. intros x Hx. apply rd_wr_ne. lia.
Qed.
End gets.
