(* ===== verification/Umalloc.v ===== *)
(** * The memory allocator of user programs (user/umalloc.c)

    Kernighan and Ritchie's allocator: blocks of 16-byte units with a header, the free ones
    on a circular list in address order, from which malloc() takes the first that fits and to
    which free() gives blocks back, joining neighbours.  Headers live in the memory of the
    process; sbrk() is a law of the class [UserHeap]. *)

From Stdlib Require Import ZArith Lia.
From stdpp Require Import base tactics numbers gmap strings option list.
From S2P Require Import Prelude Kstring.

(** ** Definitions *)

(** The memory of the program, the variable freep and the program break. *)
Record mast := mkMa {
  ma_mem : gmap Z Z;
  ma_freep : Z;
  ma_brk : Z;
}.

Definition MA : Type -> Type := M mast.

Definition upd_ma_mem (f : gmap Z Z -> gmap Z Z) (s : mast) : mast := mkMa (f (ma_mem s)) (ma_freep s) (ma_brk s).
Definition upd_ma_freep (f : Z -> Z) (s : mast) : mast := mkMa (ma_mem s) (f (ma_freep s)) (ma_brk s).

(** The variable base, the first program break, and sbrk(): it extends the memory by [n]
    bytes at the break and returns the old break, or returns -1. *)
Class UserHeap := {
  base : Z;
  heap_start : Z;
  sys_sbrk : Z -> MA Z;
  base_ok : 0 < base /\ base + 16 <= heap_start;
  sys_sbrk_ok n s : 0 <= n -> mem_ok (ma_mem s) ->
    wp (sys_sbrk n) (fun r s' => r = -1 /\ s' = s \/
      r = ma_brk s /\ ma_brk s' = ma_brk s + n /\ ma_brk s' <= 2 ^ 35 /\ ma_freep s' = ma_freep s /\
      mem_ok (ma_mem s') /\ forall x, x < ma_brk s -> rd (ma_mem s') x = rd (ma_mem s) x) s;
}.

(** *** union header: ptr at offset 0, size, an unsigned int, at offset 8 *)

Definition ld32 (m : gmap Z Z) (a : Z) : Z := le_combine (rd_bytes m a 4).
Definition st32 (m : gmap Z Z) (a v : Z) : gmap Z Z := wr_bytes m a (le_split 4 v).

Definition s_ptr (m : gmap Z Z) (p : Z) : Z := ld64 m p.
Definition s_size (m : gmap Z Z) (p : Z) : Z := ld32 m (p + 8).

Definition get_ptr (p : Z) : MA Z := gets (fun s => s_ptr (ma_mem s) p).
Definition get_size (p : Z) : MA Z := gets (fun s => s_size (ma_mem s) p).
Definition set_ptr (p v : Z) : MA unit := modify (upd_ma_mem (fun m => st64 m p v)).
Definition set_size (p v : Z) : MA unit := modify (upd_ma_mem (fun m => st32 m (p + 8) v)).

(** Pointer arithmetic on Header *. *)
Definition hdr_add (p k : Z) : Z := u64 (p + 16 * k).

Section umalloc.
Context `{UserHeap}.

(** *** void free(void *ap): the search for the place and the function *)
Definition free_body (bp p : Z) : MA (Z + Z) :=
  nx ← get_ptr p;
  if (p <? bp) && (bp <? nx) then mret (inr p)
  else if (nx <=? p) && ((p <? bp) || (bp <? nx)) then mret (inr p)
  else mret (inl nx).

Definition free (fuel : nat) (ap : Z) : MA unit :=
  let bp := hdr_add ap (-1) in
  freep ← gets ma_freep;
  p ← loop fuel (free_body bp) freep;
  bsize ← get_size bp;
  nx ← get_ptr p;
  (if hdr_add bp bsize =? nx then
     nsize ← get_size nx;
     set_size bp (u32 (bsize + nsize));;
     nn ← get_ptr nx;
     set_ptr bp nn
   else set_ptr bp nx);;
  psize ← get_size p;
  (if hdr_add p psize =? bp then
     bsize ← get_size bp;
     set_size p (u32 (psize + bsize));;
     bnext ← get_ptr bp;
     set_ptr p bnext
   else set_ptr p bp);;
  modify (upd_ma_freep (fun _ => p)).

(** *** static Header *morecore(uint nu); sbrk() takes an int *)
Definition morecore (fuel : nat) (nu : Z) : MA Z :=
  let nu := if nu <? 4096 then 4096 else nu in
  p ← sys_sbrk (s32 (nu * 16));
  if p =? -1 then mret 0
  else
    set_size p nu;;
    free fuel (hdr_add p 1);;
    gets ma_freep.

(** *** void *malloc(uint nbytes): the loop over prevp and p, and the function *)
Definition malloc_body (fuel : nat) (nunits : Z) (st : Z * Z) : MA (Z * Z + Z) :=
  let '(prevp, p) := st in
  psize ← get_size p;
  if nunits <=? psize then
    p ← (if psize =? nunits then
           nx ← get_ptr p;
           set_ptr prevp nx;;
           mret p
         else
           set_size p (u32 (psize - nunits));;
           psize ← get_size p;
           let p := hdr_add p psize in
           set_size p nunits;;
           mret p);
    modify (upd_ma_freep (fun _ => prevp));;
    mret (inr (hdr_add p 1))
  else
    freep ← gets ma_freep;
    if p =? freep then
      p ← morecore fuel nunits;
      if p =? 0 then mret (inr 0)
      else nx ← get_ptr p; mret (inl (p, nx))
    else nx ← get_ptr p; mret (inl (p, nx)).

Definition malloc (fuel : nat) (nbytes : Z) : MA Z :=
  let nunits := u32 ((nbytes + 16 - 1) / 16 + 1) in
  freep ← gets ma_freep;
  prevp ← (if freep =? 0 then
             modify (upd_ma_freep (fun _ => base));;
             set_ptr base base;;
             set_size base 0;;
             mret base
           else mret freep);
  p ← get_ptr prevp;
  loop fuel (malloc_body fuel nunits) (prevp, p).

End umalloc.
