(* ===== verification/UmallocHeap.v ===== *)
(** * The heap of user programs and free() (user/umalloc.c)

    The heap is a row of tiles, used and free, from the first program break to the current
    one; the circular list holds exactly the free tiles in address order.  malloc() turns a
    free tile, or part of one, into a used tile, free() does the reverse and joins free
    neighbours, and neither touches what the program stored in used tiles.  This file has the
    invariant and free(). *)

From Stdlib Require Import ZArith Lia Sorted.
From stdpp Require Import base tactics numbers gmap strings option list sorting.
From S2P Require Import Prelude Kstring Umalloc.

(** ** Specification *)

Record tile := mkTile { t_addr : Z; t_units : Z; t_used : bool }.

(** The tiles cover [lo] to [hi] without gaps. *)
Fixpoint tiled (lo : Z) (B : list tile) (hi : Z) : Prop :=
  match B with
  | [] => lo = hi
  | t :: B' => t_addr t = lo /\ 0 < t_units t /\ tiled (lo + 16 * t_units t) B' hi
  end.

(** The free or the used tiles: address and units. *)
Definition pick (u : bool) (B : list tile) : list (Z * Z) :=
  (fun t => (t_addr t, t_units t)) <$> filter (fun t => t_used t = u) B.

(** No two free tiles are neighbours. *)
Fixpoint joined (B : list tile) : Prop :=
  match B with
  | t :: ((t' :: _) as B') => (t_used t = true \/ t_used t' = true) /\ joined B'
  | _ => True
  end.

(** The address of the first node, [q] if there is none. *)
Definition first (N : list (Z * Z)) (q : Z) : Z := match N with (a, _) :: _ => a | [] => q end.

(** Headers in memory form a list of the nodes [N] that ends with a pointer to [q]. *)
Fixpoint nodes (m : gmap Z Z) (N : list (Z * Z)) (q : Z) : Prop :=
  match N with
  | [] => True
  | (a, n) :: N' => s_size m a = n /\ s_ptr m a = first N' q /\ nodes m N' q
  end.

Section heap.
Context `{UserHeap}.

(** The nodes of the circular list: base and the free tiles. *)
Definition ring (B : list tile) : list (Z * Z) := (base, 0) :: pick false B.

Record heap_ok (s : mast) (B : list tile) : Prop := {
  ho_mem : mem_ok (ma_mem s);
  ho_tiled : tiled heap_start B (ma_brk s);
  ho_brk : ma_brk s <= 2 ^ 35;
  ho_ring : nodes (ma_mem s) (ring B) base;
  ho_freep : ma_freep s ∈ (ring B).*1;
  ho_used a n : (a, n) ∈ pick true B -> s_size (ma_mem s) a = n;
  ho_joined : joined B;
}.

(** The heap before the first call. *)
Definition heap_init (s : mast) : Prop :=
  ma_freep s = 0 /\ ma_brk s = heap_start /\ heap_start <= 2 ^ 35 /\ mem_ok (ma_mem s).

Definition heap (s : mast) (B : list tile) : Prop := heap_ok s B \/ heap_init s /\ B = [].

(** What the program stored in its blocks is unchanged. *)
Definition kept (m m' : gmap Z Z) (L : list (Z * Z)) : Prop :=
  forall a n x, (a, n) ∈ L -> a + 16 <= x < a + 16 * n -> rd m' x = rd m x.

(** ** Lemmas: headers *)

Lemma ld32_st32 m a v : ld32 (st32 m a v) a = v mod 2 ^ 32.
Proof.
  unfold ld32, st32. pose proof (rd_bytes_wr_bytes m a (le_split 4 v) (le_split_bytes 4 v)) as E.
  rewrite length_le_split in E. rewrite E, le_combine_split. done.
Qed.

Lemma ld32_ext m m' a : (forall x, a <= x < a + 4 -> rd m x = rd m' x) -> ld32 m a = ld32 m' a.
Proof. intros Hx. unfold ld32. f_equal. by apply rd_bytes_ext. Qed.

Lemma rd_st32_out m a v x : ~ (a <= x < a + 4) -> rd (st32 m a v) x = rd m x.
Proof.
  intros Hx. unfold st32. rewrite rd_wr_bytes by apply le_split_bytes. rewrite length_le_split. by rewrite decide_False by lia.
Qed.

Lemma mem_ok_st32 m a v : mem_ok m -> mem_ok (st32 m a v).
Proof. apply mem_ok_wr_bytes. Qed.

(** A header depends on its 16 bytes only. *)
Lemma s_ptr_ext m m' a : (forall x, a <= x < a + 16 -> rd m' x = rd m x) -> s_ptr m' a = s_ptr m a.
Proof. intros Hx. apply ld64_ext. intros x Hx'. apply Hx. lia. Qed.

Lemma s_size_ext m m' a : (forall x, a <= x < a + 16 -> rd m' x = rd m x) -> s_size m' a = s_size m a.
Proof. intros Hx. apply ld32_ext. intros x Hx'. apply Hx. lia. Qed.

(** Stores of a field. *)
Lemma ptr_st64 m p v : 0 <= v < 2 ^ 64 -> s_ptr (st64 m p v) p = v.
Proof. intros Hv. unfold s_ptr. by rewrite ld64_st64, u64_small. Qed.

Lemma size_st64 m p v : s_size (st64 m p v) p = s_size m p.
Proof. apply ld32_ext. intros x Hx. apply rd_st64_out. lia. Qed.

Lemma ptr_st32 m p v : s_ptr (st32 m (p + 8) v) p = s_ptr m p.
Proof. apply ld64_ext. intros x Hx. apply rd_st32_out. lia. Qed.

Lemma size_st32 m p v : 0 <= v < 2 ^ 32 -> s_size (st32 m (p + 8) v) p = v.
Proof. intros Hv. unfold s_size. by rewrite ld32_st32, Z.mod_small. Qed.

(** Two headers do not overlap. *)
Definition apart (p q : Z) : Prop := p + 16 <= q \/ q + 16 <= p.

Lemma ptr_st64_apart m p q v : apart p q -> s_ptr (st64 m p v) q = s_ptr m q.
Proof. intros Ha. apply s_ptr_ext. intros x Hx. apply rd_st64_out. unfold apart in Ha. lia. Qed.

Lemma size_st64_apart m p q v : apart p q -> s_size (st64 m p v) q = s_size m q.
Proof. intros Ha. apply s_size_ext. intros x Hx. apply rd_st64_out. unfold apart in Ha. lia. Qed.

Lemma ptr_st32_apart m p q v : apart p q -> s_ptr (st32 m (p + 8) v) q = s_ptr m q.
Proof. intros Ha. apply s_ptr_ext. intros x Hx. apply rd_st32_out. unfold apart in Ha. lia. Qed.

Lemma size_st32_apart m p q v : apart p q -> s_size (st32 m (p + 8) v) q = s_size m q.
Proof. intros Ha. apply s_size_ext. intros x Hx. apply rd_st32_out. unfold apart in Ha. lia. Qed.

(** ** Lemmas: lists of nodes *)

Lemma first_app N1 N2 q : first (N1 ++ N2) q = first N1 (first N2 q).
Proof. by destruct N1 as [|[]]. Qed.

Lemma nodes_app m N1 N2 q : nodes m (N1 ++ N2) q <-> nodes m N1 (first N2 q) /\ nodes m N2 q.
Proof. induction N1 as [|[a n] N1 IH]; cbn; [naive_solver|]. rewrite first_app, IH. naive_solver. Qed.

Lemma nodes_ext m m' N q :
  (forall a n x, (a, n) ∈ N -> a <= x < a + 16 -> rd m' x = rd m x) -> nodes m N q -> nodes m' N q.
Proof.
  induction N as [|[a n] N IH]; [done|]. intros Hx (H1 & H2 & H3). cbn [nodes].
  rewrite (s_size_ext m m' a), (s_ptr_ext m m' a) by (intros x; apply (Hx a n), list_elem_of_here).
  split_and!; [done..|]. apply IH; [|done]. intros a' n' x Hin. by apply (Hx a' n'), list_elem_of_further.
Qed.

Lemma nodes_size m N q a n : nodes m N q -> (a, n) ∈ N -> s_size m a = n.
Proof.
  intros Hn (N1 & N2 & ->)%list_elem_of_split. apply nodes_app in Hn as [_ (H1 & _ & _)]. done.
Qed.

(** ** Lemmas: tiles *)

Lemma tiled_app lo B1 B2 hi : tiled lo (B1 ++ B2) hi <-> exists mid, tiled lo B1 mid /\ tiled mid B2 hi.
Proof.
  revert lo. induction B1 as [|t B1 IH]; intros lo; cbn; [naive_solver|]. rewrite IH. naive_solver.
Qed.

Lemma tiled_le lo B hi : tiled lo B hi -> lo <= hi.
Proof. revert lo. induction B as [|t B IH]; intros lo; cbn; [lia|]. intros (_ & Hn & Ht). apply IH in Ht. lia. Qed.

Lemma pick_app u B1 B2 : pick u (B1 ++ B2) = pick u B1 ++ pick u B2.
Proof. unfold pick. by rewrite filter_app, fmap_app. Qed.

Lemma pick_cons u t B : pick u (t :: B) = (if bool_decide (t_used t = u) then [(t_addr t, t_units t)] else []) ++ pick u B.
Proof. unfold pick. rewrite filter_cons. case_decide as E; [rewrite bool_decide_true|rewrite bool_decide_false]; done. Qed.

Lemma length_pick u B : (length (pick u B) <= length B)%nat.
Proof. unfold pick. rewrite length_fmap. apply length_filter. Qed.

Lemma pick_used a n B : pick false (mkTile a n true :: B) = pick false B.
Proof. by rewrite pick_cons. Qed.

Lemma pick_free a n B : pick false (mkTile a n false :: B) = (a, n) :: pick false B.
Proof. by rewrite pick_cons. Qed.

Lemma pick_true_used a n B : pick true (mkTile a n true :: B) = (a, n) :: pick true B.
Proof. by rewrite pick_cons. Qed.

Lemma pick_true_free a n B : pick true (mkTile a n false :: B) = pick true B.
Proof. by rewrite pick_cons. Qed.

Lemma elem_of_pick u B a n : (a, n) ∈ pick u B <-> mkTile a n u ∈ B.
Proof.
  unfold pick. rewrite list_elem_of_fmap. setoid_rewrite list_elem_of_filter. split.
  - intros ([a' n' u'] & [= -> ->] & <- & Hin). done.
  - intros Hin. by exists (mkTile a n u).
Qed.

(** A tile lies within the bounds. *)
Lemma tiled_elem lo B hi t : tiled lo B hi -> t ∈ B -> lo <= t_addr t /\ 0 < t_units t /\ t_addr t + 16 * t_units t <= hi.
Proof.
  intros Ht (B1 & B2 & ->)%list_elem_of_split. apply tiled_app in Ht as (mid & H1 & <- & Hn & H2).
  apply tiled_le in H1, H2. lia.
Qed.

(** Two tiles are the same or disjoint. *)
Lemma tiled_disjoint lo B hi t t' :
  tiled lo B hi -> t ∈ B -> t' ∈ B ->
  t = t' \/ t_addr t + 16 * t_units t <= t_addr t' \/ t_addr t' + 16 * t_units t' <= t_addr t.
Proof.
  intros Ht (B1 & B2 & ->)%list_elem_of_split Hin. apply tiled_app in Ht as (mid & H1 & <- & Hn & H2).
  apply elem_of_app in Hin as [Hin|[->|Hin]%elem_of_cons]; [|by left|].
  - destruct (tiled_elem _ _ _ _ H1 Hin) as (_ & _ & ?). lia.
  - destruct (tiled_elem _ _ _ _ H2 Hin) as (? & _ & _). lia.
Qed.

Lemma pick_range lo B hi u a n : tiled lo B hi -> (a, n) ∈ pick u B -> lo <= a /\ 0 < n /\ a + 16 * n <= hi.
Proof. intros Ht Hin%elem_of_pick. exact (tiled_elem _ _ _ _ Ht Hin). Qed.

(** Headers of different tiles do not overlap. *)
Lemma pick_sorted16 lo B hi u : tiled lo B hi -> StronglySorted (fun x y => x.1 + 16 <= y.1) (pick u B).
Proof.
  revert lo. induction B as [|t B IH]; intros lo Ht; [constructor|]. destruct Ht as (<- & Hn & Ht). rewrite pick_cons.
  case_bool_decide; [|exact (IH _ Ht)]. constructor; [exact (IH _ Ht)|]. apply Forall_forall. intros [a n] Hin.
  pose proof (pick_range _ _ _ _ _ _ Ht Hin). cbn. lia.
Qed.

Lemma ring_sorted16 lo B hi : tiled lo B hi -> base + 16 <= lo -> StronglySorted (fun x y => x.1 + 16 <= y.1) (ring B).
Proof.
  intros Ht Hlo. constructor; [by eapply pick_sorted16|]. apply Forall_forall. intros [a n] Hin.
  pose proof (pick_range _ _ _ _ _ _ Ht Hin). cbn. lia.
Qed.

Lemma pick_sorted lo B hi u : tiled lo B hi -> StronglySorted (fun x y => x.1 < y.1) (pick u B).
Proof.
  revert lo. induction B as [|t B IH]; intros lo Ht; [constructor|]. destruct Ht as (<- & Hn & Ht). rewrite pick_cons.
  case_bool_decide; [|exact (IH _ Ht)]. constructor; [exact (IH _ Ht)|]. apply Forall_forall. intros [a n] Hin.
  pose proof (pick_range _ _ _ _ _ _ Ht Hin). cbn. lia.
Qed.

Lemma sorted_after (N1 N2 : list (Z * Z)) x y :
  StronglySorted (fun x y => x.1 < y.1) (N1 ++ x :: N2) -> y ∈ N2 -> x.1 < y.1.
Proof.
  intros Hs Hy. apply StronglySorted_app in Hs as (_ & _ & Hs). apply StronglySorted_inv in Hs as [_ Hs].
  by apply (proj1 (Forall_forall _ _) Hs).
Qed.

(** ** Lemmas: the search in free() *)

Lemma free_body_eq bp p s :
  free_body bp p s = Ok (let nx := s_ptr (ma_mem s) p in
    if (p <? bp) && (bp <? nx) then inr p
    else if (nx <=? p) && ((p <? bp) || (bp <? nx)) then inr p else inl nx) s.
Proof. unfold free_body, get_ptr. run. by repeat case_match. Qed.

(** The nodes [N1], base among them, are below [b], the nodes [N2] above. *)
Record split_at (m : gmap Z Z) (N1 N2 : list (Z * Z)) (b : Z) : Prop := {
  sa_nodes : nodes m (N1 ++ N2) base;
  sa_sorted : StronglySorted (fun x y => x.1 < y.1) (N1 ++ N2);
  sa_head : exists N1', N1 = (base, 0) :: N1';
  sa_below a n : (a, n) ∈ N1 -> a < b;
  sa_above a n : (a, n) ∈ N2 -> b < a;
}.

Lemma search_low s N1 N2 b M1 p n M2 fuel :
  split_at (ma_mem s) N1 N2 b -> N1 = M1 ++ (p, n) :: M2 -> (length M2 < fuel)%nat ->
  loop fuel (free_body b) p s = Ok (default base (fst <$> last N1)) s.
Proof.
  intros [Hn Hs [N1' Hh] Hlo Hhi]. revert M1 p n fuel. induction M2 as [|[p' n'] M2 IH]; intros M1 p n fuel E Hf;
    (destruct fuel as [|fuel]; [cbn in Hf; lia|]); cbn [loop]; run; rewrite free_body_eq; cbv beta iota zeta.
  - assert (Hp : p < b) by (apply (Hlo p n); rewrite E; set_solver). rewrite (proj2 (Z.ltb_lt p b)) by done.
    rewrite E, <-app_assoc in Hn. apply nodes_app in Hn as [_ (_ & -> & _)]. cbn [first app].
    rewrite E, last_snoc. cbn. destruct N2 as [|[a k] N2]; cbn [first].
    + assert (Hb : base <= p).
      { rewrite Hh in E. destruct M1 as [|x M1]; cbn in E; simplify_eq; [lia|].
        apply (sorted_after [] _ (base, 0) (p, n)) in Hs; [cbn in Hs; lia|set_solver]. }
      rewrite (proj2 (Z.leb_le base p)) by done. cbn [andb orb]. by destruct (b <? base).
    + by rewrite (proj2 (Z.ltb_lt b a)) by (apply (Hhi a k), list_elem_of_here).
  - assert (Hp' : p' < b) by (apply (Hlo p' n'); rewrite E; set_solver).
    assert (Hlt : p < p').
    { rewrite E, <-app_assoc in Hs. exact (sorted_after M1 _ (p, n) (p', n') Hs ltac:(set_solver)). }
    assert (Hptr : s_ptr (ma_mem s) p = p').
    { rewrite E, <-app_assoc in Hn. apply nodes_app in Hn as [_ (_ & -> & _)]. done. }
    rewrite Hptr, (proj2 (Z.ltb_ge b p')), (proj2 (Z.leb_gt p' p)), andb_false_r by lia. cbn [andb].
    apply (IH (M1 ++ [(p, n)]) p' n'); [by rewrite <-app_assoc|cbn in Hf; lia].
Qed.

Lemma free_search_spec s N1 N2 b p fuel :
  split_at (ma_mem s) N1 N2 b -> p ∈ (N1 ++ N2).*1 -> (length (N1 ++ N2) < fuel)%nat ->
  loop fuel (free_body b) p s = Ok (default base (fst <$> last N1)) s.
Proof.
  intros Hsp. pose proof Hsp as [Hn Hs [N1' Hh] Hlo Hhi]. rewrite fmap_app, elem_of_app, length_app.
  intros [([p' n] & -> & Hin)%list_elem_of_fmap|([p' n] & -> & Hin)%list_elem_of_fmap] Hf; cbn.
  { apply list_elem_of_split in Hin as (M1 & M2 & ->). eapply search_low; [done|done|]. rewrite length_app in Hf. cbn in Hf. lia. }
  apply list_elem_of_split in Hin as (M1 & M2 & E).
  assert (Hf' : (length M2 + S (length N1) < fuel)%nat) by (rewrite E, length_app in Hf; cbn in Hf; lia). clear Hf.
  revert p' n fuel M1 E Hf'. induction M2 as [|[q k] M2 IH]; intros p n fuel M1 E Hf;
    (destruct fuel as [|fuel]; [lia|]); cbn [loop]; run; rewrite free_body_eq; cbv beta iota zeta;
    (assert (Hp : b < p) by (apply (Hhi p n); rewrite E; set_solver)); rewrite (proj2 (Z.ltb_ge p b)) by lia; cbn [andb orb];
    rewrite E, app_assoc in Hn; apply nodes_app in Hn as [_ (_ & Hptr & _)]; rewrite Hptr; cbn [first].
  - assert (Hb : base < b) by (apply (Hlo base 0); rewrite Hh; set_solver).
    rewrite (proj2 (Z.ltb_ge b base)), andb_false_r by lia.
    eapply (search_low s N1 N2 b []); [done|exact Hh|]. rewrite Hh in Hf. cbn in Hf. lia.
  - assert (Hlt : p < q).
    { rewrite E, app_assoc in Hs. exact (sorted_after _ _ (p, n) (q, k) Hs ltac:(set_solver)). }
    rewrite (proj2 (Z.leb_gt q p)) by lia. cbn [andb]. apply (IH q k fuel (M1 ++ [(p, n)])); [by rewrite <-app_assoc|cbn in Hf; lia].
Qed.

(** ** Lemmas: joining a block with its neighbours *)

(** Memory after the first and after the second conditional of free(). *)
Definition right_mem (m : gmap Z Z) (b p : Z) : gmap Z Z :=
  let nx := s_ptr m p in
  if hdr_add b (s_size m b) =? nx then
    let m1 := st32 m (b + 8) (u32 (s_size m b + s_size m nx)) in st64 m1 b (s_ptr m1 nx)
  else st64 m b nx.

Definition left_mem (m : gmap Z Z) (b p : Z) : gmap Z Z :=
  if hdr_add p (s_size m p) =? b then
    let m1 := st32 m (p + 8) (u32 (s_size m p + s_size m b)) in st64 m1 p (s_ptr m1 b)
  else st64 m p b.

Lemma free_run s fuel ap b p :
  hdr_add ap (-1) = b -> loop fuel (free_body b) (ma_freep s) s = Ok p s ->
  free fuel ap s = Ok tt (mkMa (left_mem (right_mem (ma_mem s) b p) b p) p (ma_brk s)).
Proof.
  intros Eb El. unfold free, get_size, get_ptr, set_size, set_ptr. rewrite Eb. run. rewrite El.
  unfold right_mem, left_mem, upd_ma_mem, upd_ma_freep. cbn [ma_mem ma_freep ma_brk].
  destruct (hdr_add b _ =? s_ptr _ p); cbn [ma_mem ma_freep ma_brk]; by destruct (hdr_add p _ =? b).
Qed.

(** The block [b] of [n] units joined with the first of the nodes above it. *)
Definition join_right (b n : Z) (N2 : list (Z * Z)) : Z * list (Z * Z) :=
  match N2 with
  | (a, k) :: N2' => if b + 16 * n =? a then (n + k, N2') else (n, N2)
  | [] => (n, [])
  end.

Lemma right_mem_spec m N1 p np N2 b n :
  nodes m (N1 ++ (p, np) :: N2) base -> s_size m b = n ->
  0 < b -> 0 <= n -> b + 16 * n <= 2 ^ 35 -> 0 < base < b -> p < b -> apart b p ->
  (forall a k, (a, k) ∈ N2 -> b + 16 * n <= a /\ 0 < k /\ a + 16 * k <= 2 ^ 35 /\ 0 < n) ->
  let m' := right_mem m b p in let '(bn, N2') := join_right b n N2 in
  s_size m' b = bn /\ s_ptr m' b = first N2' base /\ (forall x, ~ (b <= x < b + 16) -> rd m' x = rd m x).
Proof.
  intros Hn Hsz Hb Hn0 Htop Hbase Hp Hap Hhi. apply nodes_app in Hn as [_ (_ & Hptr & Hn2)].
  unfold right_mem. rewrite Hptr, Hsz. unfold hdr_add. rewrite u64_small by lia.
  destruct N2 as [|[a k] N2]; cbn [first join_right].
  - rewrite (proj2 (Z.eqb_neq _ base)) by lia. rewrite size_st64, ptr_st64 by lia. split_and!; [done..|].
    intros x Hx. apply rd_st64_out. lia.
  - destruct (Hhi a k (list_elem_of_here _ _)) as (R1 & R2 & R3 & R4). destruct Hn2 as (Hk & Hpa & Hn2).
    destruct (Z.eqb_spec (b + 16 * n) a) as [Ea|Ne].
    + rewrite Hk. assert (Hapa : apart b a) by (unfold apart; lia).
      rewrite size_st64, ptr_st32_apart, Hpa by done. unfold u32. rewrite Z.mod_small by lia. rewrite size_st32 by lia.
      assert (Hf : 0 <= first N2 base < 2 ^ 64).
      { destruct N2 as [|[a' k'] N2]; cbn; [lia|]. destruct (Hhi a' k') as (? & ? & ? & ?); [set_solver|lia]. }
      rewrite ptr_st64 by done. split_and!; [done..|]. intros x Hx. rewrite rd_st64_out, rd_st32_out by lia. done.
    + rewrite size_st64, ptr_st64 by lia. split_and!; [done..|]. intros x Hx. apply rd_st64_out. lia.
Qed.

Lemma left_mem_spec m N1 p np N2 b bn :
  nodes m N1 p -> nodes m N2 base -> s_size m p = np -> s_size m b = bn -> s_ptr m b = first N2 base ->
  0 <= np -> 0 <= bn -> 0 <= p < b -> b <= 2 ^ 35 -> p + 16 * np <= b -> np + bn < 2 ^ 32 -> 0 <= first N2 base < 2 ^ 64 ->
  apart b p -> (forall a k, (a, k) ∈ N1 ++ N2 -> apart p a) ->
  let m' := left_mem m b p in
  nodes m' (N1 ++ (if p + 16 * np =? b then (p, np + bn) :: N2 else (p, np) :: (b, bn) :: N2)) base /\
  (forall x, ~ (p <= x < p + 16) -> rd m' x = rd m x).
Proof.
  intros Hn1 Hn2 Hp Hb Hbp Hnp0 Hbn0 Hpb Hb35 Hle Hsum Hf Hap Haps m'.
  assert (Hout : forall x, ~ (p <= x < p + 16) -> rd m' x = rd m x).
  { intros x Hx. unfold m', left_mem. destruct (_ =? b); [rewrite rd_st64_out, rd_st32_out by lia|rewrite rd_st64_out by lia]; done. }
  split; [|done]. assert (Hext : forall a k x, (a, k) ∈ N1 ++ N2 -> a <= x < a + 16 -> rd m' x = rd m x).
  { intros a k x Hin Hx. apply Hout. specialize (Haps a k Hin). unfold apart in Haps. lia. }
  assert (Hn1' : nodes m' N1 p) by (eapply nodes_ext; [|done]; intros a k x Hin; apply (Hext a k); set_solver).
  assert (Hn2' : nodes m' N2 base) by (eapply nodes_ext; [|done]; intros a k x Hin; apply (Hext a k); set_solver).
  assert (Eb : s_size m' b = bn /\ s_ptr m' b = first N2 base).
  { rewrite (s_size_ext m m' b), (s_ptr_ext m m' b) by (intros x Hx; apply Hout; unfold apart in Hap; lia). done. }
  assert (Ep : s_size m' p = (if p + 16 * np =? b then np + bn else np) /\
    s_ptr m' p = (if p + 16 * np =? b then first N2 base else b)).
  { unfold m', left_mem. rewrite Hp, Hb. unfold hdr_add. rewrite u64_small by lia. destruct (p + 16 * np =? b).
    - assert (Hap' : apart p b) by (unfold apart in *; lia). rewrite size_st64, ptr_st32_apart, Hbp by done.
      rewrite ptr_st64 by done. unfold u32. rewrite Z.mod_small by lia. by rewrite size_st32 by lia.
    - rewrite size_st64, ptr_st64 by lia. done. }
  apply nodes_app. destruct (p + 16 * np =? b); cbn [first nodes]; naive_solver.
Qed.

(** The tiles after free(). *)
Definition joinr (n : Z) (B2 : list tile) : Z * list tile :=
  match B2 with
  | t :: B2' => if t_used t then (n, B2) else (n + t_units t, B2')
  | [] => (n, [])
  end.

Definition joinl (B1 : list tile) (b n : Z) : list tile :=
  match last B1 with
  | Some t => if t_used t then B1 ++ [mkTile b n false] else removelast B1 ++ [mkTile (t_addr t) (t_units t + n) false]
  | None => [mkTile b n false]
  end.

Definition join (B1 : list tile) (b n : Z) (B2 : list tile) : list tile :=
  let '(bn, B2') := joinr n B2 in joinl B1 b bn ++ B2'.

Lemma joinr_pick b n B2 hi :
  tiled (b + 16 * n) B2 hi -> join_right b n (pick false B2) = ((joinr n B2).1, pick false (joinr n B2).2).
Proof.
  destruct B2 as [|[a k u] B2]; [done|]. intros (E & Hk & Ht). cbn [t_addr t_units] in E, Hk, Ht. subst a.
  destruct u; cbn [joinr t_used t_units fst snd].
  - rewrite pick_used. destruct (pick false B2) as [|[a' k'] L] eqn:E; [done|]. cbn [join_right].
    destruct (pick_range _ _ _ false a' k' Ht) as (H1 & _); [rewrite E; set_solver|].
    by rewrite (proj2 (Z.eqb_neq _ a')) by lia.
  - rewrite pick_free. cbn [join_right]. by rewrite Z.eqb_refl.
Qed.

Lemma exists_last_or_nil {A} (l : list A) : l = [] \/ exists l' x, l = l' ++ [x].
Proof. destruct l as [|x l _] using rev_ind; [by left|right; eauto]. Qed.

(** The node before [b], and whether it is its neighbour. *)
Lemma joinl_pick lo B1 b bn N2 :
  tiled lo B1 b -> base + 16 <= lo -> 0 < bn ->
  exists N1 p np, (base, 0) :: pick false B1 = N1 ++ [(p, np)] /\ 0 <= np /\ p + 16 * np <= b /\ p + 16 <= b /\
    (base, 0) :: pick false (joinl B1 b bn) ++ N2 = N1 ++ (if p + 16 * np =? b then (p, np + bn) :: N2 else (p, np) :: (b, bn) :: N2).
Proof.
  intros Ht Hlo Hbn. unfold joinl. destruct B1 as [|t B1] using rev_ind; [|clear IHB1].
  { cbn in Ht. subst b. exists [], base, 0. cbn. rewrite (proj2 (Z.eqb_neq _ lo)) by lia. split_and!; try lia; done. }
  rewrite last_snoc. apply tiled_app in Ht as (mid & Ht & Ea & Hk & Eb). cbn in Eb. destruct t as [a k u]. cbn [t_addr t_units t_used] in *. subst mid.
  destruct u.
  - rewrite !pick_app, pick_used. change (pick false []) with (@nil (Z * Z)). rewrite !app_nil_r.
    change (pick false [mkTile b bn false]) with [(b, bn)]. rewrite <-app_assoc. pose proof (tiled_le _ _ _ Ht) as Hle.
    destruct (exists_last_or_nil (pick false B1)) as [E|(L & [p np] & E)]; rewrite E.
    + exists [], base, 0. cbn. rewrite (proj2 (Z.eqb_neq _ b)) by lia. split_and!; try lia; done.
    + destruct (pick_range _ _ _ false p np Ht) as (H1 & H2 & H3); [rewrite E; set_solver|].
      exists ((base, 0) :: L), p, np. rewrite (proj2 (Z.eqb_neq _ b)) by lia. split_and!; try lia; [done|]. cbn. by rewrite <-app_assoc.
  - rewrite removelast_last, !pick_app. change (pick false [mkTile a k false]) with [(a, k)].
    change (pick false [mkTile a (k + bn) false]) with [(a, k + bn)]. exists ((base, 0) :: pick false B1), a, k.
    rewrite (proj2 (Z.eqb_eq _ b)) by lia. split_and!; try lia; [done|]. cbn. by rewrite <-app_assoc.
Qed.

(** The nodes before the last one of [B1] and before [b]. *)
Lemma joinl_below lo B1 b N1 p np :
  tiled lo B1 b -> base + 16 <= lo -> (base, 0) :: pick false B1 = N1 ++ [(p, np)] ->
  forall a k, (a, k) ∈ N1 -> a + 16 <= p.
Proof.
  intros Ht Hlo E a k Hin. pose proof (ring_sorted16 _ _ _ Ht Hlo) as Hs. unfold ring in Hs. rewrite E in Hs.
  exact (StronglySorted_app_1_elem_of _ _ _ (a, k) (p, np) Hs Hin ltac:(set_solver)).
Qed.

Lemma joinr_tiled b n B2 hi :
  0 < n -> tiled (b + 16 * n) B2 hi -> 0 < (joinr n B2).1 /\ tiled (b + 16 * (joinr n B2).1) (joinr n B2).2 hi.
Proof.
  intros Hn H2. destruct B2 as [|[a k []] B2]; cbn -[tiled]; [done|done|]. destruct H2 as (Ea & Hk & H2). cbn in *. split; [lia|].
  by replace (b + 16 * (n + k)) with (b + 16 * n + 16 * k) by lia.
Qed.

Lemma join_tiled lo B1 b n B2 hi :
  tiled lo (B1 ++ mkTile b n true :: B2) hi -> tiled lo (join B1 b n B2) hi.
Proof.
  rewrite tiled_app. intros (mid & H1 & E & Hn & H2). cbn [t_addr t_units] in *. subst mid. unfold join.
  pose proof (joinr_tiled _ _ _ _ Hn H2) as Hr.
  destruct (joinr n B2) as [bn B2']. cbn [fst snd] in Hr. destruct Hr as [Hbn Hr]. unfold joinl.
  destruct (exists_last_or_nil B1) as [->|(B & [a k u] & ->)]; [by cbn in *; subst|]. rewrite last_snoc.
  apply tiled_app in H1 as (mid & H1 & Ea & Hk & Eb). cbn [t_addr t_units t_used tiled] in *. subst mid.
  destruct u; [|rewrite removelast_last]; rewrite <-?app_assoc; apply tiled_app; exists a; (split; [done|]); cbn.
  - split_and!; [done|done|done|done|by rewrite Eb].
  - split_and!; [done|lia|]. by replace (a + 16 * (k + bn)) with (b + 16 * bn) by lia.
Qed.

Lemma joined_app B1 B2 :
  joined (B1 ++ B2) <-> joined B1 /\ joined B2 /\
    match last B1, head B2 with Some t, Some t' => t_used t = true \/ t_used t' = true | _, _ => True end.
Proof.
  induction B1 as [|t B1 IH]; [by cbn; destruct (head B2); naive_solver|].
  destruct B1 as [|t' B1]; [destruct B2 as [|t' B2]; cbn; naive_solver|].
  cbn [app] in IH |- *. change (joined (t :: t' :: B1 ++ B2)) with ((t_used t = true \/ t_used t' = true) /\ joined (t' :: B1 ++ B2)).
  rewrite IH. change (last (t :: t' :: B1)) with (last (t' :: B1)). cbn [joined]. naive_solver.
Qed.

Lemma join_joined B1 b n B2 : joined (B1 ++ mkTile b n true :: B2) -> joined (join B1 b n B2).
Proof.
  rewrite joined_app. intros (H1 & H2 & _). unfold join.
  assert (Hr : joined (joinr n B2).2 /\ match head (joinr n B2).2 with Some t => t_used t = true | None => True end).
  { destruct B2 as [|[a k u] B2]; [done|]. destruct H2 as [_ H2]. destruct u; cbn [joinr t_used fst snd]; [done|].
    destruct B2 as [|t B2]; [done|]. destruct H2 as [[?|?] H2]; done. }
  destruct (joinr n B2) as [bn B2']. cbn [fst snd] in Hr. destruct Hr as [Hr Hh]. unfold joinl.
  assert (Hmk : forall a k, joined ([mkTile a k false] ++ B2')).
  { intros a k. apply joined_app. split_and!; [done|done|]. cbn. destruct (head B2'); [by right|done]. }
  destruct (exists_last_or_nil B1) as [->|(B & [a k u] & ->)]; [apply Hmk|]. rewrite last_snoc.
  destruct u; cbn [t_used].
  - rewrite <-app_assoc. apply joined_app. split_and!; [done|apply Hmk|]. rewrite last_snoc. by left.
  - rewrite removelast_last, <-app_assoc. apply joined_app in H1 as (H1 & _ & H3). apply joined_app. split_and!; [done|apply Hmk|].
    destruct (last B) as [t|]; [|done]. cbn in *. destruct H3 as [?|?]; [by left|done].
Qed.

Lemma join_used B1 b n B2 : pick true (join B1 b n B2) = pick true B1 ++ pick true B2.
Proof.
  unfold join. assert (Hr : pick true (joinr n B2).2 = pick true B2).
  { destruct B2 as [|[a k []] B2]; cbn [joinr t_used snd]; [done|done|]. by rewrite pick_cons. }
  destruct (joinr n B2) as [bn B2']. cbn [snd] in Hr. rewrite pick_app, Hr. f_equal. unfold joinl.
  destruct (exists_last_or_nil B1) as [->|(B & [a k u] & ->)]; [done|]. rewrite last_snoc. destruct u; cbn [t_used].
  - rewrite pick_app. change (pick true [mkTile b bn false]) with (@nil (Z * Z)). by rewrite app_nil_r.
  - rewrite removelast_last, !pick_app. done.
Qed.

(** ** Lemmas: free() *)

Lemma ring_split s B1 b n B2 :
  heap_ok s (B1 ++ mkTile b n true :: B2) ->
  ring (B1 ++ mkTile b n true :: B2) = ((base, 0) :: pick false B1) ++ pick false B2 /\
  split_at (ma_mem s) ((base, 0) :: pick false B1) (pick false B2) b.
Proof.
  intros Hok. assert (E : ring (B1 ++ mkTile b n true :: B2) = ((base, 0) :: pick false B1) ++ pick false B2).
  { unfold ring. by rewrite pick_app, pick_used. }
  split; [done|]. pose proof base_ok as [Hb0 Hb1]. pose proof (ho_tiled _ _ Hok) as Ht. pose proof (pick_sorted _ _ _ false Ht) as Hs.
  apply tiled_app in Ht as (mid & H1 & Ea & Hn & H2). cbn in Ea, Hn, H2. subst mid. split.
  - rewrite <-E. apply Hok.
  - cbn. rewrite pick_app, pick_used in Hs. constructor; [exact Hs|]. apply Forall_forall. intros [a k] [Hin|Hin]%elem_of_app.
    + pose proof (pick_range _ _ _ _ _ _ H1 Hin). cbn. lia.
    + pose proof (pick_range _ _ _ _ _ _ H2 Hin). pose proof (tiled_le _ _ _ H1). cbn. lia.
  - by eexists.
  - intros a k [[= -> ->]|Hin]%elem_of_cons; [pose proof (tiled_le _ _ _ H1); lia|]. pose proof (pick_range _ _ _ _ _ _ H1 Hin). lia.
  - intros a k Hin. pose proof (pick_range _ _ _ _ _ _ H2 Hin). lia.
Qed.

Lemma mem_ok_free m b p : mem_ok m -> mem_ok (left_mem (right_mem m b p) b p).
Proof.
  intros Hm. assert (Hr : mem_ok (right_mem m b p)).
  { unfold right_mem. destruct (_ =? _); repeat first [apply mem_ok_st64 | apply mem_ok_st32]; done. }
  unfold left_mem. destruct (_ =? _); repeat first [apply mem_ok_st64 | apply mem_ok_st32]; done.
Qed.

(** A used tile keeps clear of base and of the free tiles. *)
Lemma used_apart s B a n p np :
  heap_ok s B -> mkTile a n true ∈ B -> (p, np) ∈ ring B -> p + 16 * Z.max 1 np <= a \/ a + 16 * n <= p.
Proof.
  intros Hok Ha [[= -> ->]|Hp%elem_of_pick]%elem_of_cons; pose proof (ho_tiled _ _ Hok) as Ht.
  - pose proof base_ok. destruct (tiled_elem _ _ _ _ Ht Ha) as (H1 & _). cbn in H1. lia.
  - destruct (tiled_elem _ _ _ _ Ht Hp) as (_ & H1 & _). cbn in H1.
    destruct (tiled_disjoint _ _ _ _ _ Ht Ha Hp) as [?|[?|?]]; [done|cbn in *; lia..].
Qed.

(** The memory after free(), when [p] is the node before the block. *)
Lemma free_mem s B1 b n B2 N1 p np :
  heap_ok s (B1 ++ mkTile b n true :: B2) ->
  (base, 0) :: pick false B1 = N1 ++ [(p, np)] -> 0 <= np -> p + 16 * np <= b -> p + 16 <= b ->
  (base, 0) :: pick false (joinl B1 b (joinr n B2).1) ++ pick false (joinr n B2).2 =
    N1 ++ (if p + 16 * np =? b then (p, np + (joinr n B2).1) :: pick false (joinr n B2).2
           else (p, np) :: (b, (joinr n B2).1) :: pick false (joinr n B2).2) ->
  let m' := left_mem (right_mem (ma_mem s) b p) b p in
  nodes m' (ring (join B1 b n B2)) base /\
  (forall x, ~ (b <= x < b + 16) -> ~ (p <= x < p + 16) -> rd m' x = rd (ma_mem s) x).
Proof.
  intros Hok EN Hnp Hp1 Hp2 EN'. destruct (ring_split _ _ _ _ _ Hok) as [Er _]. pose proof (ho_tiled _ _ Hok) as Ht.
  apply tiled_app in Ht as (mid & H1 & Ea & Hn & H2). cbn [t_addr t_units] in Ea, Hn, H2. subst mid.
  pose proof base_ok as [Hb0 Hb1]. pose proof (ho_brk _ _ Hok) as Hbrk. pose proof (tiled_le _ _ _ H1) as L1. pose proof (tiled_le _ _ _ H2) as L2.
  assert (Hbn : s_size (ma_mem s) b = n) by (apply (ho_used _ _ Hok), elem_of_pick; set_solver).
  destruct (joinr_tiled b n B2 _ Hn H2) as [Hbn0 H2']. pose proof (joinr_pick b n B2 _ H2) as Ej.
  pose proof (joinl_below heap_start B1 b N1 p np H1 Hb1 EN) as Hap1. pose proof (tiled_le _ _ _ H2') as L3.
  assert (Hp0 : base <= p).
  { assert (Hin : (p, np) ∈ (base, 0) :: pick false B1) by (rewrite EN; set_solver).
    apply elem_of_cons in Hin as [[= -> ->]|Hin]; [lia|]. pose proof (pick_range _ _ _ _ _ _ H1 Hin). lia. }
  assert (Hn0 : nodes (ma_mem s) (N1 ++ (p, np) :: pick false B2) base).
  { pose proof (ho_ring _ _ Hok) as Hr. rewrite Er, EN, <-app_assoc in Hr. exact Hr. }
  pose proof (right_mem_spec (ma_mem s) N1 p np (pick false B2) b n Hn0 Hbn) as Hright.
  rewrite Ej in Hright. destruct Hright as (R1 & R2 & R3); [lia|lia|lia|lia|lia|unfold apart; lia| |].
  { intros a k Hin. pose proof (pick_range _ _ _ _ _ _ H2 Hin). lia. }
  assert (Hn2 : nodes (ma_mem s) (pick false (joinr n B2).2) base).
  { apply nodes_app in Hn0 as [_ (_ & _ & Hn2)]. destruct B2 as [|[a k []] B2]; [done|done|]. rewrite pick_free in Hn2. apply Hn2. }
  unfold ring, join. destruct (joinr n B2) as [bn B2']. cbn [fst snd] in *. rewrite pick_app, EN'.
  set (mR := right_mem (ma_mem s) b p) in *. assert (Hhi : forall a k, (a, k) ∈ pick false B2' -> b + 16 <= a /\ a < 2 ^ 35).
  { intros a k Hin. pose proof (pick_range _ _ _ _ _ _ H2' Hin). lia. }
  destruct (left_mem_spec mR N1 p np (pick false B2') b bn) as [Hnodes Hout]; try done; try lia.
  - apply nodes_app in Hn0 as [Hn1 _]. eapply nodes_ext; [|exact Hn1]. intros a k x Hin Hx. apply R3. specialize (Hap1 a k Hin). lia.
  - eapply nodes_ext; [|exact Hn2]. intros a k x Hin Hx. apply R3. specialize (Hhi a k Hin). lia.
  - rewrite (s_size_ext (ma_mem s) mR p) by (intros x Hx; apply R3; lia). eapply nodes_size; [exact Hn0|set_solver].
  - destruct (pick false B2') as [|[a k] L] eqn:E; cbn; [lia|]. specialize (Hhi a k ltac:(set_solver)). lia.
  - unfold apart. lia.
  - intros a k [Hin|Hin]%elem_of_app; unfold apart; [specialize (Hap1 a k Hin)|specialize (Hhi a k Hin)]; lia.
  - split; [exact Hnodes|]. intros x Hx1 Hx2. by rewrite Hout, R3.
Qed.

Lemma free_spec s B1 b n B2 fuel :
  heap_ok s (B1 ++ mkTile b n true :: B2) -> (length B1 + length B2 + 2 < fuel)%nat ->
  wp (free fuel (b + 16)) (fun _ s' => heap_ok s' (join B1 b n B2) /\ ma_brk s' = ma_brk s /\
    (exists p np, (p, np) ∈ (base, 0) :: pick false B1 /\ ma_freep s' = p /\
      forall x, ~ (b <= x < b + 16) -> ~ (p <= x < p + 16) -> rd (ma_mem s') x = rd (ma_mem s) x)) s.
Proof.
  intros Hok Hf. destruct (ring_split _ _ _ _ _ Hok) as [Er Hsp]. pose proof (ho_tiled _ _ Hok) as Ht. pose proof (join_tiled _ _ _ _ _ _ Ht) as Ht'.
  apply tiled_app in Ht as (mid & H1 & Ea & Hn & H2). cbn [t_addr t_units] in Ea, Hn, H2. subst mid.
  pose proof base_ok as [Hb0 Hb1]. pose proof (ho_brk _ _ Hok) as Hbrk. pose proof (tiled_le _ _ _ H1) as L1. pose proof (tiled_le _ _ _ H2) as L2.
  destruct (joinl_pick heap_start B1 b (joinr n B2).1 (pick false (joinr n B2).2)) as (N1 & p & np & EN & Hnp & Hp1 & Hp2 & EN'); [done|done| |].
  { exact (proj1 (joinr_tiled _ _ _ _ Hn H2)). }
  destruct (free_mem s B1 b n B2 N1 p np Hok EN Hnp Hp1 Hp2 EN') as [Hnodes Hout].
  assert (Hsearch : loop fuel (free_body b) (ma_freep s) s = Ok p s).
  { rewrite (free_search_spec s _ _ b _ fuel Hsp); [by rewrite EN, last_snoc|rewrite <-Er; apply Hok|].
    rewrite length_app. cbn [length]. pose proof (length_pick false B1). pose proof (length_pick false B2). lia. }
  assert (Hin : (p, np) ∈ (base, 0) :: pick false B1) by (rewrite EN; set_solver).
  unfold wp. rewrite (free_run s fuel (b + 16) b p); [|unfold hdr_add; rewrite u64_small; lia|done].
  split; [|split; [done|by exists p, np]]. split; cbn [ma_mem ma_freep ma_brk]; [|done|done|done| | |].
  - apply mem_ok_free, Hok.
  - unfold ring, join. destruct (joinr n B2) as [bn B2']. rewrite pick_app. cbn [fst snd] in EN'.
    rewrite EN'. rewrite fmap_app. destruct (_ =? b); cbn; set_solver.
  - intros a k Hin'. rewrite join_used in Hin'.
    assert (Ha : mkTile a k true ∈ B1 ++ B2) by (apply elem_of_pick; by rewrite pick_app).
    assert (Ha' : mkTile a k true ∈ B1 ++ mkTile b n true :: B2) by set_solver.
    assert (Hpr : (p, np) ∈ ring (B1 ++ mkTile b n true :: B2)) by (rewrite Er; set_solver).
    pose proof (used_apart _ _ _ _ _ _ Hok Ha' Hpr) as Hap. pose proof (tiled_elem _ _ _ _ (ho_tiled _ _ Hok) Ha') as (_ & Hk & _). cbn in Hk.
    rewrite (s_size_ext (ma_mem s)); [apply (ho_used _ _ Hok), elem_of_pick, Ha'|]. intros x Hx. apply Hout; [|lia].
    apply elem_of_app in Ha as [Ha|Ha]; [pose proof (tiled_elem _ _ _ _ H1 Ha)|pose proof (tiled_elem _ _ _ _ H2 Ha)]; cbn in *; lia.
  - apply join_joined, Hok.
Qed.

End heap.
