(* ===== verification/UmallocProps.v ===== *)
(** * Correctness of the memory allocator of user programs (user/umalloc.c)

    The walk of malloc() over the circular list, the tile it takes, and more memory from
    sbrk(); then what malloc() and free() promise a program. *)

From Stdlib Require Import ZArith Lia Sorted.
From stdpp Require Import base tactics numbers gmap strings option list sorting.
From S2P Require Import Prelude Kstring Umalloc UmallocHeap.

Section heap.
Context `{UserHeap}.

(** ** Lemmas: the circular list *)

(** Following the pointers from [x] meets the nodes [W]. *)
Fixpoint path (m : gmap Z Z) (x : Z) (W : list (Z * Z)) : Prop :=
  match W with
  | [] => True
  | (a, k) :: W' => s_ptr m x = a /\ s_size m a = k /\ path m a W'
  end.

Lemma path_of_nodes m N x q : nodes m N q -> s_ptr m x = first N (s_ptr m x) -> path m x N.
Proof.
  revert x. induction N as [|[a k] N IH]; intros x Hn Hx; [done|]. destruct Hn as (H1 & H2 & H3). cbn in Hx |- *.
  split_and!; [done..|]. apply IH; [done|]. rewrite H2. by destruct N as [|[]].
Qed.

Lemma path_app m x N1 N2 y : s_ptr m y = s_ptr m (default x (fst <$> last N1)) -> path m x N1 -> path m y N2 -> path m x (N1 ++ N2).
Proof.
  revert x. induction N1 as [|[a k] N1 IH]; intros x Hy H1 H2; cbn [app path] in *.
  - destruct N2 as [|[a k] N2]; [done|]. destruct H2 as (H2 & H3 & H4). cbn in *. split_and!; [congruence|done..].
  - destruct H1 as (E1 & E2 & H1). split_and!; [done..|]. apply IH; [|done|done]. rewrite Hy. f_equal.
    destruct N1 as [|z N1]; [done|]. change (last ((a, k) :: z :: N1)) with (last (z :: N1)).
    destruct (last (z :: N1)) eqn:E; [done|]. by apply last_None in E.
Qed.

Lemma nodes_last m N q y k : nodes m (N ++ [(y, k)]) q -> s_ptr m y = q.
Proof. rewrite nodes_app. intros [_ (_ & E & _)]. done. Qed.

(** All nodes, from the one after freep to freep. *)
Lemma ring_path s B :
  heap_ok s B -> exists W n, path (ma_mem s) (ma_freep s) (W ++ [(ma_freep s, n)]) /\ W ++ [(ma_freep s, n)] ≡ₚ ring B.
Proof.
  intros Hok. pose proof (ho_freep _ _ Hok) as ([f n] & E & Hin)%list_elem_of_fmap. cbn in E. subst f.
  apply list_elem_of_split in Hin as (M1 & M2 & E). set (f := ma_freep s) in *. exists (M2 ++ M1), n.
  pose proof (ho_ring _ _ Hok) as Hn. rewrite E in Hn |- *. split.
  2:{ by rewrite (Permutation_app_comm M2 M1), <-Permutation_cons_append, Permutation_middle. }
  assert (H2 : path (ma_mem s) f M2).
  { apply nodes_app in Hn as [_ (_ & E2 & Hn)]. eapply path_of_nodes; [exact Hn|]. rewrite E2. by destruct M2 as [|[]]. }
  assert (Hl : s_ptr (ma_mem s) (default f (fst <$> last M2)) = base).
  { destruct (exists_last_or_nil M2) as [->|(M & [y k] & ->)]; [by apply nodes_last in Hn|].
    rewrite last_snoc. cbn. eapply nodes_last. rewrite app_comm_cons, app_assoc in Hn. exact Hn. }
  rewrite <-app_assoc. eapply path_app; [reflexivity|exact H2|].
  assert (Hn1 : nodes (ma_mem s) (M1 ++ [(f, n)]) (first M2 base)).
  { apply (nodes_app _ (M1 ++ [(f, n)]) M2 base). by rewrite <-app_assoc. }
  eapply path_of_nodes; [exact Hn1|]. rewrite Hl. unfold ring in E. by destruct M1 as [|[] M1]; cbn in E |- *; congruence.
Qed.

Lemma sorted_split_unique (N1 N2 M1 M2 : list (Z * Z)) x :
  N1 ++ x :: N2 = M1 ++ x :: M2 -> StronglySorted (fun x y => x.1 + 16 <= y.1) (N1 ++ x :: N2) -> N1 = M1.
Proof.
  revert M1. induction N1 as [|z N1 IH]; intros [|z' M1] E Hs; cbn in *; [done|injection E as <- E|injection E as -> E|injection E as <- E];
    apply StronglySorted_inv in Hs as [Hs Hf]; rewrite Forall_forall in Hf.
  - specialize (Hf x). rewrite E in Hf. specialize (Hf ltac:(set_solver)). lia.
  - specialize (Hf x ltac:(set_solver)). lia.
  - f_equal. by apply IH.
Qed.

(** The node before a free tile. *)
Lemma ring_pred s B x a k :
  heap_ok s B -> x ∈ (ring B).*1 -> s_ptr (ma_mem s) x = a -> s_size (ma_mem s) a = k -> a <> base ->
  exists B1 B2 N1 nx, B = B1 ++ mkTile a k false :: B2 /\ (base, 0) :: pick false B1 = N1 ++ [(x, nx)].
Proof.
  intros Hok ([y nx] & -> & Hin)%list_elem_of_fmap Hx Hk Ha. apply list_elem_of_split in Hin as (N1 & N2 & E). cbn in Hx.
  pose proof (ho_ring _ _ Hok) as Hn. rewrite E in Hn. apply nodes_app in Hn as [_ (_ & Hp & Hn2)].
  destruct N2 as [|[a' k'] N2]; cbn in Hp; [congruence|]. destruct Hn2 as (Hk' & _). assert (a' = a) as -> by congruence.
  assert (k' = k) as -> by congruence. clear Hk'.
  assert (Hin : (a, k) ∈ pick false B).
  { assert (Hr : (a, k) ∈ ring B) by (rewrite E; set_solver). apply elem_of_cons in Hr as [[= ? ?]|Hr]; done. }
  apply elem_of_pick, list_elem_of_split in Hin as (B1 & B2 & ->). exists B1, B2, N1, nx. split; [done|].
  pose proof (ring_sorted16 _ _ _ (ho_tiled _ _ Hok) (proj2 base_ok)) as Hs. unfold ring in E, Hs. rewrite pick_app, pick_free in E, Hs.
  apply (sorted_split_unique _ (pick false B2) (N1 ++ [(y, nx)]) N2 (a, k)); [by rewrite <-app_assoc|exact Hs].
Qed.

(** ** Lemmas: taking a free tile *)

(** Used tiles keep their headers when free headers are written. *)
Lemma used_kept s B m' (W : list (Z * Z)) :
  heap_ok s B -> (forall x, (forall p np, (p, np) ∈ W -> ~ (p <= x < p + 16 * Z.max 1 np)) -> rd m' x = rd (ma_mem s) x) ->
  (forall p np, (p, np) ∈ W -> (p, np) ∈ ring B) ->
  (forall a n, (a, n) ∈ pick true B -> s_size m' a = n) /\ kept (ma_mem s) m' (pick true B).
Proof.
  intros Hok Hm HW. assert (Hout : forall a n x, (a, n) ∈ pick true B -> a <= x < a + 16 * n -> rd m' x = rd (ma_mem s) x).
  { intros a n x Ha Hx. apply Hm. intros p np Hp. pose proof (used_apart _ _ a n p np Hok (proj1 (elem_of_pick _ _ _ _) Ha) (HW p np Hp)). lia. }
  split.
  - intros a n Ha. rewrite (s_size_ext (ma_mem s)); [by apply (ho_used _ _ Hok)|]. intros x Hx. apply (Hout a n); [done|].
    destruct (pick_range _ _ _ _ _ _ (ho_tiled _ _ Hok) Ha). lia.
  - intros a n x Ha Hx. apply (Hout a n); [done|lia].
Qed.

Lemma ring_ge s B x nx : heap_ok s B -> (x, nx) ∈ ring B -> base <= x /\ x + 16 <= 2 ^ 36.
Proof.
  intros Hok Hin. pose proof (ho_tiled _ _ Hok) as Ht. pose proof (ho_brk _ _ Hok). pose proof base_ok. pose proof (tiled_le _ _ _ Ht).
  apply elem_of_cons in Hin as [[= -> ->]|Hin]; [lia|]. pose proof (pick_range _ _ _ _ _ _ Ht Hin). lia.
Qed.

Lemma joined_use B1 a n u B2 : joined (B1 ++ mkTile a n u :: B2) -> joined (B1 ++ mkTile a n true :: B2).
Proof.
  change (mkTile a n u :: B2) with ([mkTile a n u] ++ B2). change (mkTile a n true :: B2) with ([mkTile a n true] ++ B2).
  rewrite !(joined_app B1), !(joined_app [_] B2). intros (H1 & (_ & H2 & H3) & H4). split_and!; [done..| |].
  - cbn in *. destruct (head B2); [by left|done].
  - cbn in *. destruct (last B1); [by right|done].
Qed.

Lemma take_exact s B1 a n B2 N1 x nx :
  heap_ok s (B1 ++ mkTile a n false :: B2) -> (base, 0) :: pick false B1 = N1 ++ [(x, nx)] ->
  let m' := st64 (ma_mem s) x (s_ptr (ma_mem s) a) in
  heap_ok (mkMa m' x (ma_brk s)) (B1 ++ mkTile a n true :: B2) /\ kept (ma_mem s) m' (pick true (B1 ++ B2)).
Proof.
  intros Hok EN m'. pose proof (ho_tiled _ _ Hok) as Ht. pose proof (ho_ring _ _ Hok) as Hn. pose proof (ho_brk _ _ Hok) as Hbrk. pose proof base_ok as [Hb0 Hb1]. pose proof (tiled_le _ _ _ Ht) as Hle.
  assert (Er : ring (B1 ++ mkTile a n false :: B2) = N1 ++ (x, nx) :: (a, n) :: pick false B2).
  { unfold ring. rewrite pick_app, pick_free, app_comm_cons, EN, <-app_assoc. done. }
  rewrite Er in Hn. apply nodes_app in Hn as [Hn1 (Hxs & _ & (Has & Hap & Hn2))].
  pose proof (ring_sorted16 _ _ _ Ht Hb1) as Hs. rewrite Er in Hs. apply StronglySorted_app in Hs as (Hs1 & _ & Hs2).
  apply StronglySorted_inv in Hs2 as [_ Hs2]. rewrite Forall_forall in Hs2.
  assert (Hout : forall y, ~ (x <= y < x + 16) -> rd m' y = rd (ma_mem s) y) by (intros y Hy; apply rd_st64_out; lia).
  destruct (used_kept s _ m' [(x, nx)] Hok) as [Hu Hk].
  { intros y Hy. apply Hout. specialize (Hy x nx ltac:(set_solver)). lia. }
  { intros p np ->%list_elem_of_singleton. rewrite Er. set_solver. }
  assert (Eu : pick true (B1 ++ mkTile a n false :: B2) = pick true (B1 ++ B2)) by (rewrite !pick_app, pick_cons; done).
  rewrite Eu in Hk, Hu. assert (Hf : 0 <= first (pick false B2) base < 2 ^ 64).
  { apply tiled_app in Ht as (mid & _ & _ & _ & H2). destruct (pick false B2) as [|[b k] L] eqn:E; cbn; [lia|].
    destruct (pick_range _ _ _ false b k H2) as (R1 & R2 & R3); [rewrite E; set_solver|]. specialize (Hs2 (b, k) ltac:(set_solver)).
    destruct (ring_ge s _ x nx Hok) as [Hx0 _]; [rewrite Er; set_solver|]. cbn in Hs2. lia. }
  split; [|exact Hk]. split; cbn [ma_mem ma_freep ma_brk].
  - apply mem_ok_st64, Hok.
  - rewrite tiled_app in Ht |- *. exact Ht.
  - done.
  - unfold ring. rewrite pick_app, pick_used, app_comm_cons, EN, <-app_assoc. apply nodes_app. cbn [app nodes first]. split_and!.
    + eapply nodes_ext; [|exact Hn1]. intros b k y Hin Hy. apply Hout. specialize (Hs1 (b, k) (x, nx) Hin ltac:(set_solver)). cbn in Hs1. lia.
    + unfold m'. by rewrite size_st64.
    + unfold m'. rewrite Hap. by apply ptr_st64.
    + eapply nodes_ext; [|exact Hn2]. intros b k y Hin Hy. apply Hout. specialize (Hs2 (b, k) ltac:(set_solver)). cbn in Hs2. lia.
  - unfold ring. rewrite pick_app, pick_used, app_comm_cons, EN, <-app_assoc, fmap_app. set_solver.
  - intros b k. rewrite pick_app, pick_true_used, elem_of_app, elem_of_cons. intros Hin.
    assert (Hcase : (b, k) = (a, n) \/ (b, k) ∈ pick true (B1 ++ B2)) by (rewrite pick_app, elem_of_app; tauto).
    destruct Hcase as [[= -> ->]|Hin']; [|by apply Hu].
    unfold m'. rewrite size_st64_apart; [done|]. specialize (Hs2 (a, n) ltac:(set_solver)). cbn in Hs2. unfold apart. lia.
  - by eapply joined_use, Hok.
Qed.

Lemma joined_cut B1 a k B2 a' k' q n :
  joined (B1 ++ mkTile a k false :: B2) -> joined (B1 ++ mkTile a' k' false :: mkTile q n true :: B2).
Proof.
  rewrite !(joined_app B1). intros (H1 & H2 & H3). split_and!; [done| |done]. split; [by right|].
  destruct B2 as [|t B2]; [done|]. destruct H2 as [_ H2]. split; [by left|done].
Qed.

Lemma take_split s B1 a k B2 n x :
  heap_ok s (B1 ++ mkTile a k false :: B2) -> x ∈ (ring (B1 ++ mkTile a k false :: B2)).*1 -> 0 < n < k ->
  let q := a + 16 * (k - n) in
  let m' := st32 (st32 (ma_mem s) (a + 8) (k - n)) (q + 8) n in
  heap_ok (mkMa m' x (ma_brk s)) (B1 ++ mkTile a (k - n) false :: mkTile q n true :: B2) /\
  kept (ma_mem s) m' (pick true (B1 ++ B2)).
Proof.
  intros Hok Hx Hnk q m'. pose proof (ho_tiled _ _ Hok) as Ht. pose proof (ho_ring _ _ Hok) as Hn. pose proof (ho_brk _ _ Hok) as Hbrk. pose proof base_ok as [Hb0 Hb1].
  assert (Er : forall j u, ring (B1 ++ mkTile a j false :: u) = ((base, 0) :: pick false B1) ++ (a, j) :: pick false u).
  { intros j u. unfold ring. by rewrite pick_app, pick_free. }
  rewrite Er in Hn. apply nodes_app in Hn as [Hn1 (Has & Hap & Hn2)].
  assert (Hout : forall y, ~ (a <= y < a + 16 * k) -> rd m' y = rd (ma_mem s) y).
  { intros y Hy. unfold m', q. rewrite !rd_st32_out by lia. done. }
  destruct (used_kept s _ m' [(a, k)] Hok) as [Hu Hk].
  { intros y Hy. apply Hout. specialize (Hy a k ltac:(set_solver)). lia. }
  { intros p np ->%list_elem_of_singleton. rewrite Er. set_solver. }
  rewrite pick_app, pick_true_free, <-pick_app in Hk, Hu. pose proof Ht as Ht'.
  apply tiled_app in Ht as (mid & H1 & Ea & Hk0 & H2). cbn [t_addr t_units] in *. subst mid. pose proof (tiled_le _ _ _ H1). pose proof (tiled_le _ _ _ H2).
  split; [|exact Hk]. split; cbn [ma_mem ma_freep ma_brk].
  - do 2 apply mem_ok_st32. apply Hok.
  - apply tiled_app. exists a. cbn [tiled t_addr t_units]. split_and!; [done|done|lia|done|lia|].
    by replace (a + 16 * (k - n) + 16 * n) with (a + 16 * k) by lia.
  - done.
  - rewrite Er, pick_used. apply nodes_app. split; [|cbn [nodes]; split_and!].
    + eapply nodes_ext; [|exact Hn1]. intros b j y Hin Hy. apply Hout.
      apply elem_of_cons in Hin as [[= -> ->]|Hin]; [lia|]. pose proof (pick_range _ _ _ _ _ _ H1 Hin). lia.
    + unfold m'. rewrite size_st32_apart by (unfold apart, q; lia). apply size_st32. lia.
    + unfold m'. rewrite ptr_st32_apart by (unfold apart, q; lia). by rewrite ptr_st32.
    + eapply nodes_ext; [|exact Hn2]. intros b j y Hin Hy. apply Hout. pose proof (pick_range _ _ _ _ _ _ H2 Hin). lia.
  - rewrite Er in Hx |- *. rewrite pick_used. rewrite fmap_app in Hx |- *. exact Hx.
  - intros b j. rewrite pick_app, pick_true_free, pick_true_used, elem_of_app, elem_of_cons. intros Hin.
    assert (Hcase : (b, j) = (q, n) \/ (b, j) ∈ pick true (B1 ++ B2)) by (rewrite pick_app, elem_of_app; tauto).
    destruct Hcase as [[= -> ->]|Hin']; [|by apply Hu]. unfold m'. apply size_st32. lia.
  - by eapply joined_cut, Hok.
Qed.

(** What a successful malloc() of [n] units leaves. *)
Definition taken (s : mast) (B : list tile) (n r : Z) (s' : mast) : Prop :=
  exists B' q, r = q + 16 /\ 0 < q /\ heap_ok s' B' /\ pick true B' ≡ₚ (q, n) :: pick true B /\
    kept (ma_mem s) (ma_mem s') (pick true B).

Lemma take_spec s B fuel pv a k n :
  heap_ok s B -> pv ∈ (ring B).*1 -> s_ptr (ma_mem s) pv = a -> s_size (ma_mem s) a = k -> 0 < n <= k ->
  exists r s', malloc_body fuel n (pv, a) s = Ok (inr r) s' /\ taken s B n r s'.
Proof.
  intros Hok Hpv Ha Hk Hn.
  assert (Hne : a <> base).
  { intros ->. pose proof (nodes_size _ _ _ base 0 (ho_ring _ _ Hok) ltac:(set_solver)). lia. }
  destruct (ring_pred _ _ _ _ _ Hok Hpv Ha Hk Hne) as (B1 & B2 & N1 & nx & -> & EN).
  pose proof (ho_tiled _ _ Hok) as Ht. pose proof (ho_brk _ _ Hok) as Hbrk. pose proof base_ok as [Hb0 Hb1].
  pose proof (tiled_elem _ _ _ (mkTile a k false) Ht ltac:(set_solver)) as (R1 & R2 & R3). cbn in R1, R2, R3.
  assert (Eu : pick true (B1 ++ mkTile a k false :: B2) = pick true (B1 ++ B2)) by by rewrite !pick_app, pick_true_free.
  unfold malloc_body, get_size, get_ptr, set_size, set_ptr. run. rewrite Hk. rewrite (proj2 (Z.leb_le n k)) by lia.
  destruct (Z.eqb_spec k n) as [->|Hkn].
  - destruct (take_exact s B1 a n B2 N1 pv nx Hok EN) as [Hok' Hk']. eexists _, _. split; [reflexivity|].
    unfold taken. rewrite Eu. exists (B1 ++ mkTile a n true :: B2), a. split_and!; [unfold hdr_add; rewrite u64_small; lia|lia|exact Hok'| |exact Hk'].
    rewrite !pick_app, pick_true_used. by rewrite Permutation_middle.
  - destruct (take_split s B1 a k B2 n pv Hok Hpv) as [Hok' Hk']; [lia|].
    set (q := a + 16 * (k - n)) in *. unfold u32. rewrite (Z.mod_small (k - n)) by lia. cbn [ma_mem upd_ma_mem].
    rewrite size_st32 by lia. eexists _, _. split; [reflexivity|].
    assert (Eq : hdr_add a (k - n) = q) by (unfold hdr_add; apply u64_small; lia). rewrite Eq. unfold taken. rewrite Eu.
    exists (B1 ++ mkTile a (k - n) false :: mkTile q n true :: B2), q.
    split_and!; [unfold hdr_add; rewrite u64_small; lia|lia|exact Hok'| |exact Hk'].
    rewrite !pick_app, pick_true_free, pick_true_used. by rewrite Permutation_middle.
Qed.

(** ** Lemmas: more memory *)

Lemma grow_ok s s1 B n :
  heap_ok s B -> 0 < n < 2 ^ 32 -> ma_brk s1 = ma_brk s + 16 * n -> ma_brk s1 <= 2 ^ 35 -> ma_freep s1 = ma_freep s -> mem_ok (ma_mem s1) ->
  (forall x, x < ma_brk s -> rd (ma_mem s1) x = rd (ma_mem s) x) ->
  heap_ok (upd_ma_mem (fun m => st32 m (ma_brk s + 8) n) s1) (B ++ [mkTile (ma_brk s) n true]).
Proof.
  intros Hok Hn Hbrk Hb35 Hfp Hm Hx. pose proof (ho_tiled _ _ Hok) as Ht. pose proof base_ok as [Hb0 Hb1]. pose proof (tiled_le _ _ _ Ht) as Hle.
  assert (Er : ring (B ++ [mkTile (ma_brk s) n true]) = ring B).
  { unfold ring. rewrite pick_app, pick_used. change (pick false []) with (@nil (Z * Z)). by rewrite app_nil_r. }
  assert (Hout : forall x, x < ma_brk s -> rd (st32 (ma_mem s1) (ma_brk s + 8) n) x = rd (ma_mem s) x).
  { intros x Hlt. rewrite rd_st32_out by lia. by apply Hx. }
  split; cbn [ma_mem ma_freep ma_brk upd_ma_mem].
  - by apply mem_ok_st32.
  - apply tiled_app. exists (ma_brk s). cbn. split_and!; [done|done|lia|lia].
  - done.
  - rewrite Er. eapply nodes_ext; [|apply (ho_ring _ _ Hok)]. intros a k x Hin Hx'. apply Hout.
    apply elem_of_cons in Hin as [[= -> ->]|Hin]; [lia|]. pose proof (pick_range _ _ _ _ _ _ Ht Hin). lia.
  - rewrite Er, Hfp. apply Hok.
  - intros a k. rewrite pick_app, elem_of_app. intros [Hin|Hin].
    + pose proof (pick_range _ _ _ _ _ _ Ht Hin). rewrite (s_size_ext (ma_mem s)); [by apply (ho_used _ _ Hok)|].
      intros x Hx'. apply Hout. lia.
    + rewrite pick_true_used in Hin. apply list_elem_of_singleton in Hin as [= -> ->]. apply size_st32. lia.
  - apply joined_app. split_and!; [apply Hok|done|]. cbn. destruct (last B); [by right|done].
Qed.

(** Some free tile is large enough. *)
Definition has_free (B : list tile) (n : Z) : Prop := exists a k, (a, k) ∈ pick false B /\ n <= k.

Lemma join_has_free B b n B2 :
  0 < n -> Forall (fun t => 0 < t_units t) B -> Forall (fun t => 0 < t_units t) B2 -> has_free (join B b n B2) n.
Proof.
  intros Hn HB HB2. unfold join. assert (Hr : n <= (joinr n B2).1).
  { destruct HB2 as [|[a k u] B2 Hk _]; [done|]. cbn in Hk. destruct u; cbn; lia. }
  destruct (joinr n B2) as [bn B2']. cbn in Hr. unfold joinl.
  destruct (exists_last_or_nil B) as [->|(B' & [a k u] & ->)]; [exists b, bn; split; [apply elem_of_pick; set_solver|done]|].
  rewrite last_snoc. destruct u; cbn [t_used t_addr t_units].
  - exists b, bn. split; [|lia]. apply elem_of_pick. set_solver.
  - rewrite removelast_last. exists a, (k + bn). split; [apply elem_of_pick; set_solver|].
    apply Forall_app in HB as [_ HB]. apply Forall_cons in HB as [HB _]. cbn in HB. lia.
Qed.

Lemma tiled_units lo B hi : tiled lo B hi -> Forall (fun t => 0 < t_units t) B.
Proof. intros Ht. apply Forall_forall. intros t Hin. by destruct (tiled_elem _ _ _ _ Ht Hin) as (_ & ? & _). Qed.

Lemma length_join B b n : (length (join B b n []) <= S (length B))%nat.
Proof.
  unfold join, joinl. cbn [joinr]. rewrite app_nil_r. destruct (exists_last_or_nil B) as [->|(B' & [a k u] & ->)]; [done|].
  rewrite last_snoc. destruct u; cbn [t_used]; [|rewrite removelast_last]; rewrite !length_app; cbn; lia.
Qed.

(** What a successful morecore() leaves. *)
Definition extended (s : mast) (B : list tile) (nu : Z) (s' : mast) : Prop :=
  exists B', heap_ok s' B' /\ has_free B' nu /\ pick true B' = pick true B /\
    kept (ma_mem s) (ma_mem s') (pick true B) /\ (length B' <= S (length B))%nat.

Lemma morecore_spec s B fuel nu :
  heap_ok s B -> 0 < nu -> nu * 16 < 2 ^ 31 -> (length B + 2 < fuel)%nat ->
  wp (morecore fuel nu) (fun r s' => r = 0 /\ s' = s \/ r <> 0 /\ r = ma_freep s' /\ extended s B nu s') s.
Proof.
  intros Hok Hnu Hmax Hf. unfold morecore. set (n := if nu <? 4096 then 4096 else nu).
  assert (Hn : nu <= n /\ 0 < n /\ n * 16 < 2 ^ 31) by (unfold n; destruct (Z.ltb_spec nu 4096); lia).
  assert (Es : s32 (n * 16) = n * 16) by (apply s32_small; lia). rewrite Es.
  apply wp_bind. eapply wp_mono; [apply (sys_sbrk_ok (n * 16) s); [lia|apply Hok]|]. cbn beta.
  pose proof (ho_tiled _ _ Hok) as Ht. pose proof base_ok as [Hb0 Hb1]. pose proof (tiled_le _ _ _ Ht) as Hle.
  intros r s1 [[-> ->]|(-> & Hbrk & Hb35 & Hfp & Hm & Hx)]; [apply wp_ret; by left|].
  rewrite (proj2 (Z.eqb_neq _ (-1))) by lia. unfold set_size. apply wp_bind, wp_modify.
  assert (Hok1 := grow_ok s s1 B n Hok ltac:(lia) ltac:(lia) Hb35 Hfp Hm Hx). set (s2 := upd_ma_mem _ s1) in *.
  assert (Eh : hdr_add (ma_brk s) 1 = ma_brk s + 16) by (unfold hdr_add; apply u64_small; lia). rewrite Eh.
  apply wp_bind. eapply wp_mono; [apply (free_spec s2 B (ma_brk s) n [] fuel Hok1); cbn; lia|].
  cbn beta. intros _ s3 (Hok3 & Hbrk3 & p & np & Hp & Hfp3 & Hout). apply wp_gets. right.
  pose proof (ring_ge _ _ p np Hok Hp) as [Hp0 _]. split; [lia|]. split; [done|]. exists (join B (ma_brk s) n []). split_and!.
  - done.
  - destruct (join_has_free B (ma_brk s) n []) as (a & k & Hin & Hk); [lia| |done|exists a, k; split; [done|lia]].
    by eapply tiled_units.
  - rewrite join_used. change (pick true []) with (@nil (Z * Z)). by rewrite app_nil_r.
  - intros a k x Hin Hx'. pose proof (pick_range _ _ _ _ _ _ Ht Hin) as (K1 & K2 & K3).
    pose proof (used_apart _ _ a k p np Hok (proj1 (elem_of_pick _ _ _ _) Hin) Hp).
    rewrite Hout by lia. change (ma_mem s2) with (st32 (ma_mem s1) (ma_brk s + 8) n). rewrite rd_st32_out by lia. apply Hx. lia.
  - apply length_join.
Qed.

(** ** Lemmas: the walk of malloc() *)

(** The nodes from [pv] on, up to and including freep. *)
Record walks (s : mast) (B : list tile) (pv : Z) (W : list (Z * Z)) : Prop := {
  wk_path : path (ma_mem s) pv W;
  wk_ring : Forall (fun x => x ∈ ring B) W;
  wk_last : exists n, last W = Some (ma_freep s, n);
  wk_nodup : NoDup W.*1;
  wk_start : pv ∈ (ring B).*1;
}.

Lemma sorted16_nodup (l : list (Z * Z)) : StronglySorted (fun x y => x.1 + 16 <= y.1) l -> NoDup l.*1.
Proof.
  induction 1 as [|x l _ IH Hf]; [constructor|]. cbn. apply NoDup_cons. split; [|exact IH].
  intros (y & E & Hy)%list_elem_of_fmap. rewrite Forall_forall in Hf. specialize (Hf y Hy). lia.
Qed.

Lemma walks_start s B :
  heap_ok s B -> exists W, walks s B (ma_freep s) W /\ W ≡ₚ ring B.
Proof.
  intros Hok. destruct (ring_path s B Hok) as (W & n & Hp & HW). exists (W ++ [(ma_freep s, n)]). split; [|done].
  split; [done| | | |apply Hok].
  - apply Forall_forall. intros x Hx. by rewrite <-HW.
  - exists n. apply last_snoc.
  - rewrite HW. pose proof (ring_sorted16 _ _ _ (ho_tiled _ _ Hok) (proj2 base_ok)) as Hs.
    by apply sorted16_nodup.
Qed.

(** One step of the walk over a tile that is too small. *)
Lemma walks_step s B pv a k W fuel n :
  walks s B pv ((a, k) :: W) -> W <> [] -> k < n ->
  s_ptr (ma_mem s) pv = a /\ walks s B a W /\ malloc_body fuel n (pv, a) s = Ok (inl (a, s_ptr (ma_mem s) a)) s.
Proof.
  intros [(E1 & E2 & Hp) Hr [f Hl] Hnd _] Hne Hk. destruct W as [|y W]; [done|].
  apply Forall_cons in Hr as [Hr1 Hr]. cbn in Hnd. apply NoDup_cons in Hnd as [Hn Hnd].
  assert (Hf : ma_freep s <> a).
  { intros E. apply Hn. change (y.1 :: W.*1) with ((y :: W).*1). rewrite <-E. change (last ((a, k) :: y :: W)) with (last (y :: W)) in Hl.
    apply (list_elem_of_fmap_2' fst _ (ma_freep s, f)); [by apply last_Some_elem_of|done]. }
  split; [done|]. split.
  - split; [done|done|by exists f|done|]. by apply (list_elem_of_fmap_2' fst _ (a, k)).
  - unfold malloc_body, get_size, get_ptr. run. rewrite E2, (proj2 (Z.leb_gt n k)) by lia.
    by rewrite (proj2 (Z.eqb_neq a _)) by congruence.
Qed.

Lemma walks_nil s B pv : ~ walks s B pv [].
Proof. by intros [_ _ [f [=]] _ _]. Qed.

(** The walk takes the first tile that fits, if there is one. *)
Lemma walk_found s B n fuel0 W : forall pv fuel,
  heap_ok s B -> walks s B pv W -> 0 < n -> (exists x, x ∈ W /\ n <= x.2) -> (length W <= fuel)%nat ->
  wp (loop fuel (malloc_body fuel0 n) (pv, s_ptr (ma_mem s) pv)) (fun r s' => taken s B n r s') s.
Proof.
  induction W as [|[a k] W IH]; intros pv fuel Hok Hw Hn Hx Hf; [by destruct (walks_nil _ _ _ Hw)|].
  destruct fuel as [|fuel]; [cbn in Hf; lia|]. apply wp_loop_step. destruct (Z.le_gt_cases n k) as [Hk|Hk].
  - destruct Hw as [(E1 & E2 & _) _ _ _ Hst].
    destruct (take_spec s B fuel0 pv a k n Hok Hst E1 E2 ltac:(lia)) as (r & s' & E & Ht). rewrite E1. by apply (wp_ok _ _ _ _ _ E).
  - assert (HW : W <> []) by (intros ->; destruct Hx as (x & Hx & Hx'); apply list_elem_of_singleton in Hx as ->; cbn in Hx'; lia).
    destruct (walks_step s B pv a k W fuel0 n Hw HW ltac:(lia)) as (E1 & Hw' & E). rewrite E1. apply (wp_ok _ _ _ _ _ E).
    apply IH; try done; [|cbn in Hf; lia]. destruct Hx as (x & [->|Hx]%elem_of_cons & Hx'); [cbn in Hx'; lia|by exists x].
Qed.

(** If none fits, it comes back to freep and asks for more memory. *)
Lemma walk_none s B n fuel0 W Q : forall pv fuel,
  heap_ok s B -> walks s B pv W -> 0 < n -> Forall (fun x => x.2 < n) W -> (length W <= fuel)%nat ->
  (forall fuel', (fuel <= fuel' + length W)%nat ->
     wp (p ← morecore fuel0 n; if p =? 0 then mret (inr 0) else nx ← get_ptr p; mret (inl (p, nx)))
       (fun x s' => match x with inl st => wp (loop fuel' (malloc_body fuel0 n) st) Q s' | inr r => Q r s' end) s) ->
  wp (loop fuel (malloc_body fuel0 n) (pv, s_ptr (ma_mem s) pv)) Q s.
Proof.
  induction W as [|[a k] W IH]; intros pv fuel Hok Hw Hn Hall Hf HQ; [by destruct (walks_nil _ _ _ Hw)|].
  destruct fuel as [|fuel]; [cbn in Hf; lia|]. apply wp_loop_step. apply Forall_cons in Hall as [Hk Hall]. cbn in Hk.
  destruct (decide (W = [])) as [->|HW].
  - destruct Hw as [(E1 & E2 & _) _ [f [= Ef _]] _ _]. unfold malloc_body at 1. rewrite E1. unfold get_size at 1. apply wp_bind, wp_gets.
    rewrite E2, (proj2 (Z.leb_gt n k)) by lia. apply wp_bind, wp_gets. rewrite (proj2 (Z.eqb_eq a _)) by done.
    apply HQ. cbn. lia.
  - destruct (walks_step s B pv a k W fuel0 n Hw HW ltac:(lia)) as (E1 & Hw' & E). rewrite E1. apply (wp_ok _ _ _ _ _ E).
    apply IH; try done; [cbn in Hf; lia|]. intros fuel' Hf'. apply HQ. cbn. lia.
Qed.

(** ** Lemmas: malloc() and free() *)

(** The units of a block of [nbytes] bytes, the header included. *)
Definition units (nbytes : Z) : Z := (nbytes + 15) / 16 + 1.

Lemma units_range nbytes : 0 <= nbytes <= 2 ^ 31 - 64 -> 0 < units nbytes /\ units nbytes * 16 < 2 ^ 31 /\ nbytes <= 16 * (units nbytes - 1).
Proof. unfold units. intros Hn. pose proof (Z.div_mod (nbytes + 15) 16). pose proof (Z.mod_pos_bound (nbytes + 15) 16). lia. Qed.

(** What malloc() of [n] units leaves. *)
Definition malloced (s : mast) (B : list tile) (n r : Z) (s' : mast) : Prop :=
  exists B', heap_ok s' B' /\ kept (ma_mem s) (ma_mem s') (pick true B) /\
    (r = 0 /\ pick true B' = pick true B /\ ~ has_free B n \/
     exists q, r = q + 16 /\ 0 < q /\ pick true B' ≡ₚ (q, n) :: pick true B).

Lemma taken_malloced s B n r s' : taken s B n r s' -> malloced s B n r s'.
Proof. intros (B' & q & Hr & Hq & Hok & Hp & Hk). exists B'. split_and!; [done|done|]. right. by exists q. Qed.

Lemma length_ring B : length (ring B) = S (length (pick false B)).
Proof. done. Qed.

Lemma malloc_loop_spec s B n fuel :
  heap_ok s B -> 0 < n -> n * 16 < 2 ^ 31 -> (2 * length B + 4 <= fuel)%nat ->
  wp (loop fuel (malloc_body fuel n) (ma_freep s, s_ptr (ma_mem s) (ma_freep s))) (malloced s B n) s.
Proof.
  intros Hok Hn Hmax Hf. destruct (walks_start s B Hok) as (W & Hw & HW).
  pose proof (length_pick false B) as HB. assert (Hlen : length W = S (length (pick false B))) by by rewrite HW.
  destruct (decide (Forall (fun x : Z * Z => x.2 < n) W)) as [Hall|Hex].
  - assert (Hno : ~ has_free B n).
    { intros (a & k & Ha & Hk). rewrite Forall_forall in Hall. specialize (Hall (a, k)). rewrite HW in Hall.
      specialize (Hall ltac:(unfold ring; set_solver)). cbn in Hall. lia. }
    apply (walk_none s B n fuel W _ _ _ Hok Hw Hn Hall); [lia|]. intros fuel' Hf'. apply wp_bind.
    eapply wp_mono; [apply (morecore_spec s B fuel n Hok Hn Hmax); lia|]. cbn beta. intros r s' [[-> ->]|(Hr & -> & B' & Hok' & Hfree & Hpick & Hk & Hl)].
    + apply wp_ret. exists B. split_and!; [done|by intros ???|by left].
    + rewrite (proj2 (Z.eqb_neq _ 0)) by done. unfold get_ptr. apply wp_bind, wp_gets, wp_ret.
      destruct (walks_start s' B' Hok') as (W' & Hw' & HW'). pose proof (length_pick false B') as HB'.
      assert (Hlen' : length W' = S (length (pick false B'))) by by rewrite HW'.
      eapply wp_mono; [apply (walk_found s' B' n fuel W'); [done|done|done| |lia]|].
      { destruct Hfree as (a & k & Ha & Hk'). exists (a, k). rewrite HW'. split; [unfold ring; set_solver|done]. }
      cbn beta. intros r s2 (B2 & q & -> & Hq & Hok2 & Hp2 & Hk2). exists B2. rewrite Hpick in Hp2, Hk2.
      split_and!; [done| |right; by exists q]. intros a k x Ha Hx. by rewrite (Hk2 a k x Ha Hx), (Hk a k x Ha Hx).
  - eapply wp_mono; [apply (walk_found s B n fuel W); [done|done|done| |lia]|by intros; apply taken_malloced].
    apply not_Forall_Exists, Exists_exists in Hex as (x & Hx & Hx'); [|apply _]. exists x. split; [done|]. cbn in Hx'. lia.
Qed.

(** The list before the first call of malloc(): base alone. *)
Lemma heap_init_ok s :
  heap_init s -> heap_ok (upd_ma_mem (fun m => st32 m (base + 8) 0) (upd_ma_mem (fun m => st64 m base base) (upd_ma_freep (fun _ => base) s))) [].
Proof.
  intros (_ & Hbrk & Hmax & Hm). pose proof base_ok as [Hb0 Hb1]. split; cbn [ma_mem ma_brk ma_freep upd_ma_mem upd_ma_freep].
  - by apply mem_ok_st32, mem_ok_st64.
  - done.
  - lia.
  - change (ring []) with [(base, 0)]. cbn [nodes first]. split_and!; [by apply size_st32| |done]. rewrite ptr_st32. apply ptr_st64. lia.
  - cbn. set_solver.
  - by intros a n []%elem_of_nil.
  - done.
Qed.

Lemma malloc_spec s B nbytes fuel :
  heap s B -> 0 <= nbytes <= 2 ^ 31 - 64 -> (2 * length B + 4 <= fuel)%nat ->
  wp (malloc fuel nbytes) (malloced s B (units nbytes)) s.
Proof.
  intros Hheap Hn Hf. pose proof (units_range nbytes Hn) as (Hu0 & Hu1 & _). pose proof base_ok as [Hb0 Hb1].
  unfold malloc. assert (Eu : u32 ((nbytes + 16 - 1) / 16 + 1) = units nbytes).
  { replace (nbytes + 16 - 1) with (nbytes + 15) by lia. apply Z.mod_small. fold (units nbytes). lia. }
  rewrite Eu. apply wp_bind, wp_gets. destruct Hheap as [Hok|[Hi ->]].
  - assert (Hfp : ma_freep s <> 0).
    { destruct (proj1 (list_elem_of_fmap _ _ _) (ho_freep _ _ Hok)) as ([a k] & E & Ha). cbn in E. pose proof (ring_ge _ _ _ _ Hok Ha). lia. }
    rewrite (proj2 (Z.eqb_neq _ 0)) by done. apply wp_bind, wp_ret. unfold get_ptr. apply wp_bind, wp_gets. by apply malloc_loop_spec.
  - pose proof (heap_init_ok s Hi) as Hok. destruct Hi as (-> & _). cbn [Z.eqb]. unfold set_ptr, set_size, get_ptr.
    do 2 apply wp_bind. apply wp_modify, wp_bind, wp_modify, wp_bind, wp_modify, wp_ret, wp_bind, wp_gets.
    eapply wp_mono; [exact (malloc_loop_spec _ [] _ fuel Hok Hu0 Hu1 Hf)|]. intros r s' (B' & Hok' & _ & Hr).
    exists B'. split_and!; [done|by intros a k x []%elem_of_nil|done].
Qed.

(** What free() of the block [b] of [n] units leaves: the block is no longer in use, and a
    free one at least as large is on the list. *)
Definition given_back (s : mast) (B : list tile) (b n : Z) (s' : mast) : Prop :=
  exists B', heap_ok s' B' /\ ma_brk s' = ma_brk s /\ pick true B ≡ₚ (b, n) :: pick true B' /\ has_free B' n /\
    kept (ma_mem s) (ma_mem s') (pick true B').

Lemma free_block_spec s B b n fuel :
  heap s B -> (b, n) ∈ pick true B -> (length B + 2 < fuel)%nat ->
  wp (free fuel (b + 16)) (fun _ s' => given_back s B b n s') s.
Proof.
  intros [Hok|[_ ->]] Hin Hf; [|by apply elem_of_nil in Hin].
  apply elem_of_pick, list_elem_of_split in Hin as (B1 & B2 & ->). rewrite length_app in Hf. cbn [length] in Hf.
  pose proof (ho_tiled _ _ Hok) as Ht. pose proof Ht as (mid & T1 & E & Hn & T2)%tiled_app. cbn in E, Hn, T2.
  eapply wp_mono; [apply (free_spec s B1 b n B2 fuel Hok); lia|]. cbn beta. intros _ s' (Hok' & Hbrk & p & np & Hp & _ & Hout).
  exists (join B1 b n B2). split_and!; [done|done| |by apply join_has_free; eauto using tiled_units|].
  - by rewrite join_used, pick_app, pick_true_used, Permutation_middle.
  - rewrite join_used. intros a k x Ha Hx.
    assert (Hin : mkTile a k true ∈ B1 ++ mkTile b n true :: B2) by (rewrite <-pick_app in Ha; apply elem_of_pick in Ha; set_solver).
    assert (Hp' : (p, np) ∈ ring (B1 ++ mkTile b n true :: B2)) by (unfold ring; rewrite pick_app; set_solver).
    pose proof (used_apart _ _ a k p np Hok Hin Hp'). apply Hout; [|lia].
    destruct (pick_range _ _ _ true a k Ht) as (K1 & K2 & K3); [by apply elem_of_pick|].
    apply elem_of_app in Ha as [Ha|Ha].
    + destruct (pick_range _ _ _ _ _ _ T1 Ha). lia.
    + destruct (pick_range _ _ _ _ _ _ T2 Ha). lia.
Qed.

(** A store into a block does not disturb the heap. *)
Lemma heap_ok_store s B a n x v :
  heap_ok s B -> (a, n) ∈ pick true B -> a + 16 <= x < a + 16 * n -> heap_ok (upd_ma_mem (fun m => wr m x v) s) B.
Proof.
  intros Hok Ha Hx. pose proof (ho_tiled _ _ Hok) as Ht.
  split; cbn [ma_mem ma_brk ma_freep upd_ma_mem]; try apply Hok.
  - apply mem_ok_wr, Hok.
  - apply (nodes_ext (ma_mem s)); [|apply Hok]. intros p np y Hp Hy.
    pose proof (used_apart _ _ a n p np Hok (proj1 (elem_of_pick _ _ _ _) Ha) Hp). apply rd_wr_ne. lia.
  - intros b k Hb. rewrite (s_size_ext (ma_mem s)); [by apply (ho_used _ _ Hok)|]. intros y Hy. apply rd_wr_ne.
    pose proof (pick_range _ _ _ _ _ _ Ht Hb). pose proof (pick_range _ _ _ _ _ _ Ht Ha).
    destruct (tiled_disjoint _ _ _ _ _ Ht (proj1 (elem_of_pick _ _ _ _) Ha) (proj1 (elem_of_pick _ _ _ _) Hb)) as [E|[?|?]]; [|cbn in *..].
    + injection E as <- <-. lia.
    + lia.
    + lia.
Qed.

(** Free tiles are not neighbours, so the live blocks bound the tiles. *)
Lemma joined_length B : joined B -> (length B <= 2 * length (pick true B) + 1)%nat.
Proof.
  cut (joined B -> (length B <= 2 * length (pick true B) + 1)%nat /\
       (match B with t :: _ => t_used t = true | [] => True end -> (length B <= 2 * length (pick true B))%nat)); [tauto|].
  induction B as [|[a k u] B IH]; [cbn; lia|]. intros Hj.
  assert (HB : joined B) by (destruct B; [done|apply Hj]). destruct (IH HB) as [I1 I2]. destruct u.
  - rewrite pick_true_used. cbn [length t_used]. lia.
  - rewrite pick_true_free. cbn [length t_used]. split; [|done]. enough (length B <= 2 * length (pick true B))%nat by lia.
    apply I2. destruct B as [|t B]; [done|]. destruct Hj as [[[=]|?] _]. done.
Qed.

(** ** A program that uses the allocator

    Its live blocks: the pointers malloc() returned, with the bytes asked for. *)
Inductive client : mast -> list (Z * Z) -> Prop :=
| client_start s : heap_init s -> client s []
| client_malloc s L n fuel r s' :
    client s L -> 0 <= n <= 2 ^ 31 - 64 -> (4 * length L + 6 <= fuel)%nat ->
    malloc fuel n s = Ok r s' -> client s' (if r =? 0 then L else (r, n) :: L)
| client_free s L1 p n L2 fuel s' :
    client s (L1 ++ (p, n) :: L2) -> (4 * length (L1 ++ (p, n) :: L2) + 6 <= fuel)%nat ->
    free fuel p s = Ok tt s' -> client s' (L1 ++ L2)
| client_store s L p n x v :
    client s L -> (p, n) ∈ L -> p <= x < p + n -> client (upd_ma_mem (fun m => wr m x v) s) L.

(** A live block and the used tile behind it. *)
Definition backed (l t : Z * Z) : Prop := l.1 = t.1 + 16 /\ 0 <= l.2 <= 16 * (t.2 - 1) /\ 0 < t.1.

Definition client_inv (s : mast) (L : list (Z * Z)) : Prop :=
  exists B U, heap s B /\ pick true B ≡ₚ U /\ Forall2 backed L U.

(** The bytes of the blocks are unchanged. *)
Definition contents (m m' : gmap Z Z) (L : list (Z * Z)) : Prop :=
  forall p n x, (p, n) ∈ L -> p <= x < p + n -> rd m' x = rd m x.

Lemma backed_contents m m' T L U : kept m m' T -> T ≡ₚ U -> Forall2 backed L U -> contents m m' L.
Proof.
  intros Hk HU HL p n x (L1 & L2 & ->)%list_elem_of_split Hx. apply Forall2_app_inv_l in HL as (U1 & U2 & _ & HL2 & ->).
  apply Forall2_cons_inv_l in HL2 as ([b k] & U2' & (Ep & En & _) & _ & ->). cbn in Ep, En. subst p.
  apply (Hk b k); [rewrite HU; set_solver|lia].
Qed.

Lemma client_inv_fuel s L B U fuel :
  heap s B -> pick true B ≡ₚ U -> Forall2 backed L U -> (4 * length L + 6 <= fuel)%nat -> (2 * length B + 4 <= fuel)%nat.
Proof.
  intros Hh HU HL%Forall2_length Hf. destruct Hh as [Hok|[_ ->]]; [|cbn; lia].
  pose proof (joined_length _ (ho_joined _ _ Hok)) as Hj. rewrite HU in Hj. lia.
Qed.

Lemma client_inv_malloc s L n fuel :
  client_inv s L -> 0 <= n <= 2 ^ 31 - 64 -> (4 * length L + 6 <= fuel)%nat ->
  wp (malloc fuel n) (fun r s' => client_inv s' (if r =? 0 then L else (r, n) :: L) /\ contents (ma_mem s) (ma_mem s') L) s.
Proof.
  intros (B & U & Hh & HU & HL) Hn Hf. pose proof (client_inv_fuel _ _ _ _ _ Hh HU HL Hf) as Hf'.
  eapply wp_mono; [by apply (malloc_spec s B n fuel)|]. pose proof (units_range n Hn) as (Hu0 & _ & Hu).
  intros r s' (B' & Hok & Hk & Hr). split; [|by eapply backed_contents]. destruct Hr as [(-> & E & _)|(q & -> & Hq & Hp)].
  - cbn. exists B', U. rewrite E. split_and!; [by left|done|done].
  - rewrite (proj2 (Z.eqb_neq _ 0)) by lia. exists B', ((q, units n) :: U). split_and!; [by left|by rewrite Hp, HU|].
    constructor; [|done]. split_and!; cbn; lia.
Qed.

Lemma client_inv_free s L1 p n L2 fuel :
  client_inv s (L1 ++ (p, n) :: L2) -> (4 * length (L1 ++ (p, n) :: L2) + 6 <= fuel)%nat ->
  wp (free fuel p) (fun _ s' => client_inv s' (L1 ++ L2) /\ contents (ma_mem s) (ma_mem s') (L1 ++ L2)) s.
Proof.
  intros (B & U & Hh & HU & HL) Hf. pose proof (client_inv_fuel _ _ _ _ _ Hh HU HL Hf) as Hf'.
  apply Forall2_app_inv_l in HL as (U1 & U2 & HL1 & HL2 & ->). apply Forall2_cons_inv_l in HL2 as ([b k] & U2' & (Ep & _ & _) & HL2 & ->).
  cbn in Ep. subst p. eapply wp_mono; [apply (free_block_spec s B b k fuel Hh); [rewrite HU; set_solver|lia]|].
  cbn beta. intros _ s' (B' & Hok & _ & Hp & _ & Hk). rewrite HU, <-Permutation_middle in Hp. apply Permutation_cons_inv in Hp.
  pose proof (Forall2_app HL1 HL2) as HL. split; [|by eapply backed_contents].
  exists B', (U1 ++ U2'). split_and!; [by left|done|done].
Qed.

Lemma client_inv_store s L p n x v :
  client_inv s L -> (p, n) ∈ L -> p <= x < p + n -> client_inv (upd_ma_mem (fun m => wr m x v) s) L.
Proof.
  intros (B & U & Hh & HU & HL) Hin Hx. exists B, U. split_and!; [|done|done].
  apply list_elem_of_split in Hin as (L1 & L2 & ->). apply Forall2_app_inv_l in HL as (U1 & U2 & _ & HL2 & ->).
  apply Forall2_cons_inv_l in HL2 as ([b k] & U2' & (Ep & En & _) & _ & ->). cbn in Ep, En. subst p.
  assert (Hb : (b, k) ∈ pick true B) by (rewrite HU; set_solver).
  destruct Hh as [Hok|[_ ->]]; [left|by apply elem_of_nil in Hb]. apply (heap_ok_store s B b k); [done|done|lia].
Qed.

Lemma client_client_inv s L : client s L -> client_inv s L.
Proof.
  induction 1 as [s Hs|s L n fuel r s' _ IH Hn Hf E|s L1 p n L2 fuel s' _ IH Hf E|s L p n x v _ IH Hp Hx].
  - exists [], []. split_and!; [by right|done|constructor].
  - pose proof (client_inv_malloc s L n fuel IH Hn Hf) as Hw. unfold wp in Hw. rewrite E in Hw. apply Hw.
  - pose proof (client_inv_free s L1 p n L2 fuel IH Hf) as Hw. unfold wp in Hw. rewrite E in Hw. apply Hw.
  - by apply (client_inv_store s L p n).
Qed.

Lemma tiled_nodup lo B hi : tiled lo B hi -> NoDup (pick true B).
Proof. intros Ht. apply (NoDup_fmap_1 fst), sorted16_nodup. by eapply pick_sorted16. Qed.

(** Live blocks lie in the heap and do not overlap. *)
Lemma client_inv_disjoint s L :
  client_inv s L ->
  (forall p n, (p, n) ∈ L -> heap_start < p /\ p + n <= ma_brk s) /\
  (forall L1 p n L2 q k L3, L = L1 ++ (p, n) :: L2 ++ (q, k) :: L3 -> p + n < q \/ q + k < p).
Proof.
  intros (B & U & Hh & HU & HL). destruct Hh as [Hok|[_ ->]].
  2: { apply Permutation_nil_l in HU as <-. apply Forall2_nil_inv_r in HL as ->. split; [by intros ??[]%elem_of_nil|]. by intros [] ??????. }
  pose proof (ho_tiled _ _ Hok) as Ht. split.
  - intros p n (L1 & L2 & ->)%list_elem_of_split. apply Forall2_app_inv_l in HL as (U1 & U2 & _ & HL2 & ->).
    apply Forall2_cons_inv_l in HL2 as ([b k] & U2' & (Ep & En & _) & _ & ->). cbn in Ep, En. subst p.
    destruct (pick_range _ _ _ true b k Ht) as (K1 & K2 & K3); [rewrite HU; set_solver|]. lia.
  - intros L1 p n L2 q k L3 ->. apply Forall2_app_inv_l in HL as (U1 & U2 & _ & HL2 & ->).
    apply Forall2_cons_inv_l in HL2 as ([b bn] & U2' & (Ep & En & _) & HL2 & ->). cbn in Ep, En.
    apply Forall2_app_inv_l in HL2 as (U3 & U4 & _ & HL4 & ->). apply Forall2_cons_inv_l in HL4 as ([c cn] & U5 & (Eq & Ek & _) & _ & ->). cbn in Eq, Ek.
    pose proof (tiled_nodup _ _ _ Ht) as Hnd. rewrite HU in Hnd.
    destruct (tiled_disjoint _ _ _ (mkTile b bn true) (mkTile c cn true) Ht) as [E|[?|?]]; [apply elem_of_pick; rewrite HU; set_solver..| |cbn in *; lia|cbn in *; lia].
    injection E as <- <-. apply NoDup_app in Hnd as (_ & _ & Hnd). apply NoDup_cons in Hnd as [Hnd _]. destruct Hnd. set_solver.
Qed.

(** ** Properties *)

(** malloc() of up to 2 GB returns: either 0, when no free block is large enough and
    sbrk() refused, with the heap's blocks as they were; or a new block of enough units for
    the bytes asked for, apart from every block in use, whose contents are unchanged.  The
    invariant of the heap (blocks cover it, the free ones on the list in address order and
    not adjacent) is kept. *)
Theorem malloc_correct s B nbytes fuel :
  heap s B -> 0 <= nbytes <= 2 ^ 31 - 64 -> (2 * length B + 4 <= fuel)%nat ->
  nbytes <= 16 * (units nbytes - 1) /\ wp (malloc fuel nbytes) (malloced s B (units nbytes)) s.
Proof. intros Hh Hn Hf. split; [by apply units_range|by apply malloc_spec]. Qed.

(** C15: in every state a program reaches by calls of malloc(), free() of live blocks and
    stores into live blocks, the live blocks lie in the heap and do not overlap; malloc()
    returns and leaves their contents alone, and free() of any of them returns and leaves
    the contents of the others alone. *)
Theorem client_safe s L :
  client s L ->
  (forall p n, (p, n) ∈ L -> heap_start < p /\ p + n <= ma_brk s) /\
  (forall L1 p n L2 q k L3, L = L1 ++ (p, n) :: L2 ++ (q, k) :: L3 -> p + n < q \/ q + k < p) /\
  (forall n fuel, 0 <= n <= 2 ^ 31 - 64 -> (4 * length L + 6 <= fuel)%nat ->
     wp (malloc fuel n) (fun r s' => client s' (if r =? 0 then L else (r, n) :: L) /\ contents (ma_mem s) (ma_mem s') L) s) /\
  (forall L1 p n L2 fuel, L = L1 ++ (p, n) :: L2 -> (4 * length L + 6 <= fuel)%nat ->
     wp (free fuel p) (fun _ s' => client s' (L1 ++ L2) /\ contents (ma_mem s) (ma_mem s') (L1 ++ L2)) s).
Proof.
  intros Hc. pose proof (client_client_inv s L Hc) as Hi. destruct (client_inv_disjoint s L Hi) as [H1 H2].
  split_and!; [done|done| |].
  - intros n fuel Hn Hf. destruct (wp_inv _ _ _ (client_inv_malloc s L n fuel Hi Hn Hf)) as (r & s' & E & _ & Hk).
    apply (wp_ok _ _ _ _ _ E). split; [by apply (client_malloc s L n fuel)|done].
  - intros L1 p n L2 fuel -> Hf. destruct (wp_inv _ _ _ (client_inv_free s L1 p n L2 fuel Hi Hf)) as ([] & s' & E & _ & Hk).
    apply (wp_ok _ _ _ _ _ E). split; [by apply (client_free s L1 p n L2 fuel)|done].
Qed.
End heap.

(** ** Witnesses: a program break that may grow to 1 MB *)

Definition example_sbrk (n : Z) : MA Z := fun s =>
  if ma_brk s + n <=? 2 ^ 20 then Ok (ma_brk s) (mkMa (ma_mem s) (ma_freep s) (ma_brk s + n)) else Ok (-1) s.

#[local] Instance example_heap : UserHeap.
Proof.
  refine {| base := 0x2000; heap_start := 0x4000; sys_sbrk := example_sbrk |}; [lia|].
  intros n s Hn Hm. unfold wp, example_sbrk. destruct (Z.leb_spec (ma_brk s + n) (2 ^ 20)); [right|by left].
  cbn. split_and!; [done|done|lia|done|done|done].
Defined.

Definition example_start : mast := mkMa ∅ 0 0x4000.

Lemma example_start_ok : heap_init example_start.
Proof. split_and!; [done|done|cbn; lia|]. intros a. cbn. unfold rd. rewrite lookup_empty. done. Qed.

(** Two calls of malloc(): the second block is taken from the end of what the first left. *)
Lemma example_two : exists s1 s2, malloc 16 100 example_start = Ok 81808 s1 /\ malloc 16 200 s1 = Ok 81584 s2.
Proof.
  assert (E : match malloc 16 100 example_start with
              | Ok p s => match malloc 16 200 s with Ok q _ => Some (p, q) | _ => None end
              | _ => None
              end = Some (81808, 81584)) by (vm_compute; reflexivity).
  destruct (malloc 16 100 example_start) as [p s1| | | |]; [|discriminate..]. exists s1.
  destruct (malloc 16 200 s1) as [q s2| | | |]; [|discriminate..]. exists s2. by injection E as -> ->.
Qed.

Lemma malloc_correct_witness :
  heap example_start [] /\ wp (malloc 4 100) (malloced example_start [] (units 100)) example_start.
Proof.
  assert (Hh : heap example_start []) by (right; split; [exact example_start_ok|reflexivity]).
  split; [exact Hh|]. apply (malloc_correct example_start [] 100 4 Hh); cbn; lia.
Defined.

Lemma client_safe_witness :
  exists s, client s [(81584, 200); (81808, 100)] /\
    wp (free 16 81808) (fun _ s' => client s' [(81584, 200)] /\ contents (ma_mem s) (ma_mem s') [(81584, 200)]) s.
Proof.
  destruct example_two as (s1 & s2 & E1 & E2). exists s2.
  assert (Hc : client s2 [(81584, 200); (81808, 100)]).
  { apply (client_malloc s1 [(81808, 100)] 200 16 81584 s2); [|lia|cbn; lia|exact E2].
    apply (client_malloc example_start [] 100 16 81808 s1); [|lia|cbn; lia|exact E1]. constructor. exact example_start_ok. }
  split; [exact Hc|]. destruct (client_safe s2 _ Hc) as (_ & _ & _ & Hf).
  apply (Hf [(81584, 200)] 81808 100 [] 16%nat); [reflexivity|cbn; lia].
Defined.
