(* ===== verification/Grep.v ===== *)
(** * grep (user/grep.c)

    The matcher is shown to decide the language its patterns denote: a pattern is
    a list of characters, each taken once or any number of times, with optional
    anchors.  grep() writes the lines of a file that match, in order, however
    read() cuts the file into pieces. *)

From Stdlib Require Import ZArith Lia.
From stdpp Require Import base tactics numbers gmap strings option list.
From S2P Require Import Prelude Kstring Ulib.

(** ** Definitions *)

(** int matchstar(int c, char *re, char *text); [here] is matchhere(re, _) *)
Fixpoint matchstar (here : Z -> option bool) (fuel : nat) (m : gmap Z Z) (c text : Z) : option bool :=
  match fuel with
  | O => None
  | S k =>
      r ← here text;
      if r : bool then Some true
      else if negb (rd m text =? 0) && ((rd m text =? c) || (c =? 46)) then matchstar here k m c (text + 1)
      else Some false
  end.

(** int matchhere(char *re, char *text); [fuel] bounds the pattern, [tf] the text *)
Fixpoint matchhere (fuel tf : nat) (m : gmap Z Z) (re text : Z) : option bool :=
  match fuel with
  | O => None
  | S k =>
      if rd m re =? 0 then Some true
      else if rd m (re + 1) =? 42 then matchstar (matchhere k tf m (re + 2)) tf m (rd m re) text
      else if (rd m re =? 36) && (rd m (re + 1) =? 0) then Some (rd m text =? 0)
      else if negb (rd m text =? 0) && ((rd m re =? 46) || (rd m re =? rd m text))
           then matchhere k tf m (re + 1) (text + 1)
      else Some false
  end.

(** int match(char *re, char *text) *)
Fixpoint match_loop (fuel tf : nat) (m : gmap Z Z) (re : Z) (n : nat) (text : Z) : option bool :=
  match n with
  | O => None
  | S k =>
      r ← matchhere fuel tf m re text;
      if r : bool then Some true
      else if negb (rd m text =? 0) then match_loop fuel tf m re k (text + 1)
      else Some false
  end.

Definition grep_match (fuel tf : nat) (m : gmap Z Z) (re text : Z) : option bool :=
  if rd m re =? 94 then matchhere fuel tf m (re + 1) text
  else match_loop fuel tf m re tf text.

(** void grep(char *pattern, int fd).  [buf] is the address of its global buffer of
    1024 bytes; an argument of a program is shorter than the page exec() puts it
    in. *)
Definition fueled {A} (o : option A) : U A :=
  match o with Some a => mret a | None => out_of_fuel end.

Section grep.
Context `{UserEnv} (buf : Z).

Definition grep_lines_body (pattern p : Z) : U (Z + Z) :=
  m ← gets u_mem;
  q ← fueled (strchr 1024 m p 10);
  if q =? 0 then mret (inr p)
  else
    modify (upd_umem (fun m => wr m q 0));;
    m ← gets u_mem;
    r ← fueled (grep_match 4096 1024 m pattern p);
    when r (modify (upd_umem (fun m => wr m q 10));;
            sys_write 1 p (q + 1 - p);;
            mret tt);;
    mret (inl (q + 1)).

Definition grep_scan (pattern m : Z) : U (Z + unit) :=
  modify (upd_umem (fun mem => wr mem (buf + m) 0));;
  p ← loop 1024 (grep_lines_body pattern) buf;
  if 0 <? m then
    let m := m - (p - buf) in
    modify (upd_umem (fun mem => u_memmove mem buf p m));;
    mret (inl m)
  else mret (inl m).

Definition grep_body (pattern fd m : Z) : U (Z + unit) :=
  n ← sys_read fd (buf + m) (1024 - m - 1);
  if negb (0 <? n) then mret (inr tt) else grep_scan pattern (m + n).

Definition grep (fuel : nat) (pattern fd : Z) : U unit :=
  loop fuel (grep_body pattern fd) 0.

End grep.

(** ** Specification *)

(** A pattern: characters, each to be matched once or any number of times. *)
Inductive item := One (c : Z) | Many (c : Z).

Definition char_ok (c t : Z) : bool := (c =? 46) || (c =? t).

(** The words a list of items denotes. *)
Inductive lang : list item -> list Z -> Prop :=
  | lang_nil : lang [] []
  | lang_one c t r w : char_ok c t = true -> lang r w -> lang (One c :: r) (t :: w)
  | lang_stop c r w : lang r w -> lang (Many c :: r) w
  | lang_more c t r w : char_ok c t = true -> lang (Many c :: r) w -> lang (Many c :: r) (t :: w).

(** The items of a pattern and whether it ends in the anchor $. *)
Fixpoint parse (re : list Z) : list item * bool :=
  match re with
  | [] => ([], false)
  | c :: re' =>
      match re' with
      | d :: re'' => if d =? 42 then let '(r, e) := parse re'' in (Many c :: r, e)
                     else let '(r, e) := parse re' in (One c :: r, e)
      | [] => if c =? 36 then ([], true) else ([One c], false)
      end
  end.

(** [text] starts with a match of the items [r], and ends there if [e]. *)
Definition finds_here (r : list item) (e : bool) (text : list Z) : Prop :=
  exists w post, text = w ++ post /\ lang r w /\ (e = true -> post = []).

(** Pattern [re] occurs in [text]. *)
Definition finds (re text : list Z) : Prop :=
  if bool_decide (head re = Some 94) then finds_here (parse (tail re)).1 (parse (tail re)).2 text
  else exists pre text', text = pre ++ text' /\ finds_here (parse re).1 (parse re).2 text'.

(** The same as a function. *)
Fixpoint star_here (here : list Z -> bool) (c : Z) (text : list Z) : bool :=
  here text || match text with [] => false | t :: text' => char_ok c t && star_here here c text' end.

Fixpoint here (r : list item) (e : bool) (text : list Z) : bool :=
  match r with
  | [] => if e then bool_decide (text = []) else true
  | One c :: r' => match text with [] => false | t :: text' => char_ok c t && here r' e text' end
  | Many c :: r' => star_here (here r' e) c text
  end.

Fixpoint anywhere (f : list Z -> bool) (text : list Z) : bool :=
  f text || match text with [] => false | _ :: text' => anywhere f text' end.

Definition occurs (re text : list Z) : bool :=
  if bool_decide (head re = Some 94) then here (parse (tail re)).1 (parse (tail re)).2 text
  else anywhere (here (parse re).1 (parse re).2) text.

(** The complete lines of a file, and what follows the last newline; [cur] is the
    line so far. *)
Fixpoint lines (cur l : list Z) : list (list Z) :=
  match l with
  | [] => []
  | b :: l' => if b =? 10 then cur :: lines [] l' else lines (cur ++ [b]) l'
  end.

Fixpoint last_line (cur l : list Z) : list Z :=
  match l with
  | [] => cur
  | b :: l' => if b =? 10 then last_line [] l' else last_line (cur ++ [b]) l'
  end.

(** ** Lemmas: the matcher *)

Lemma lang_many c r w : lang (Many c :: r) w <->
  exists u v, w = u ++ v /\ Forall (fun t => char_ok c t = true) u /\ lang r v.
Proof.
  split.
  - intros Hw. remember (Many c :: r) as r' eqn:E. induction Hw as [| |c' r' w Hw IH|c' t r' w Ht Hw IH]; simplify_eq.
    + by exists [], w.
    + destruct IH as (u & v & -> & Hu & Hv); [done|]. exists (t :: u), v. by split_and!; [|constructor|].
  - intros (u & v & -> & Hu & Hv). induction Hu as [|t u Ht _ IH]; [by apply lang_stop|]. by apply lang_more.
Qed.

Lemma star_here_spec f c text : star_here f c text = true <->
  exists u v, text = u ++ v /\ Forall (fun t => char_ok c t = true) u /\ f v = true.
Proof.
  induction text as [|t text IH]; cbn [star_here].
  - rewrite orb_false_r. split; [intros Hf; by exists [], []|]. by intros ([] & [] & ? & _ & Hf).
  - rewrite orb_true_iff, andb_true_iff, IH. split.
    + intros [Hf|(Ht & u & v & -> & Hu & Hf)]; [by exists [], (t :: text)|]. exists (t :: u), v. by split_and!; [|constructor|].
    + intros ([|t' u] & v & E & Hu & Hf); [left; by rewrite E|right]. injection E as <- ->.
      apply Forall_cons in Hu as [Ht Hu]. split; [done|]. by exists u, v.
Qed.

Lemma here_spec r e text : here r e text = true <-> finds_here r e text.
Proof.
  unfold finds_here. revert text. induction r as [|[c|c] r IH]; intros text; cbn [here].
  - split.
    + destruct e; [intros ->%bool_decide_eq_true; exists [], []; split_and!; [done|constructor|done]|].
      intros _. exists [], text. split_and!; [done|constructor|done].
    + intros (w & post & -> & Hw & He). inversion Hw. subst. destruct e; [|done]. by rewrite He.
  - destruct text as [|t text].
    + split; [done|]. intros (w & post & E & Hw & _). inversion Hw. by subst.
    + rewrite andb_true_iff, IH. split.
      * intros (Ht & w & post & -> & Hw & He). exists (t :: w), post. by split_and!; [|constructor|].
      * intros (w & post & E & Hw & He). inversion Hw as [|? t' ? w' Ht Hw'| |]. subst. injection E as -> ->.
        split; [done|]. by exists w', post.
  - rewrite star_here_spec. split.
    + intros (u & v & -> & Hu & (w & post & -> & Hw & He)%IH). exists (u ++ w), post. rewrite app_assoc.
      split_and!; [done| |done]. apply lang_many. by exists u, w.
    + intros (w & post & -> & (u & v & -> & Hu & Hv)%lang_many & He). exists u, (v ++ post). rewrite app_assoc.
      split_and!; [done|done|]. apply IH. by exists v, post.
Qed.

Lemma anywhere_spec f text : anywhere f text = true <-> exists pre text', text = pre ++ text' /\ f text' = true.
Proof.
  induction text as [|t text IH]; cbn [anywhere].
  - rewrite orb_false_r. split; [intros Hf; by exists [], []|]. by intros ([] & [] & ? & Hf).
  - rewrite orb_true_iff, IH. split.
    + intros [Hf|(pre & text' & -> & Hf)]; [by exists [], (t :: text)|by exists (t :: pre), text'].
    + intros ([|t' pre] & text' & E & Hf); [left; by rewrite E|right]. injection E as <- ->. by exists pre, text'.
Qed.

Lemma occurs_spec re text : occurs re text = true <-> finds re text.
Proof.
  unfold occurs, finds. destruct (bool_decide (head re = Some 94)); [apply here_spec|]. rewrite anywhere_spec.
  split; intros (pre & text' & E & Hf); exists pre, text'; (split; [done|]); by apply here_spec.
Qed.

(** The run on memory computes the functions on lists. *)
Lemma matchstar_run hr f tf m c text lt n :
  (forall text lt, cstr m text lt -> (length lt < tf)%nat -> hr text = Some (f lt)) -> 0 < c ->
  cstr m text lt -> (length lt < tf)%nat -> (length lt < n)%nat ->
  matchstar hr n m c text = Some (star_here f c lt).
Proof.
  intros Hh Hc. revert text lt. induction n as [|n IH]; intros text lt Ht Hl Hn; [lia|]. cbn [matchstar].
  rewrite (Hh text lt) by done. cbn [mbind option_bind]. destruct lt as [|t lt]; cbn [star_here].
  - apply cstr_nil in Ht. rewrite Ht. by destruct (f []).
  - destruct (f (t :: lt)); [done|]. rewrite (cstr_nonzero _ _ _ _ Ht). apply cstr_cons in Ht as (-> & Hb & Ht).
    cbn [negb andb orb]. unfold char_ok. rewrite (orb_comm (c =? 46)), (Z.eqb_sym c t). cbn in Hl, Hn.
    destruct ((t =? c) || (c =? 46)); [|done]. apply IH; [done|lia|lia].
Qed.

Lemma matchhere_run fuel tf m re lre text lt :
  cstr m re lre -> cstr m text lt -> (length lre < fuel)%nat -> (length lt < tf)%nat ->
  matchhere fuel tf m re text = Some (here (parse lre).1 (parse lre).2 lt).
Proof.
  revert re lre text lt. induction fuel as [|fuel IH]; intros re lre text lt Hr Ht Hf Hl; [lia|]. cbn [matchhere].
  destruct lre as [|c lre]; [apply cstr_nil in Hr; by rewrite Hr|].
  rewrite (cstr_nonzero _ _ _ _ Hr). apply cstr_cons in Hr as (-> & Hc & Hr). cbn in Hf.
  assert (Ht0 : (rd m text =? 0) = bool_decide (lt = [])).
  { destruct lt; [apply cstr_nil in Ht; by rewrite Ht|]. by rewrite (cstr_nonzero _ _ _ _ Ht). }
  assert (Hone : forall r, (forall text lt, cstr m text lt -> (length lt < tf)%nat ->
      matchhere fuel tf m (re + 1) text = Some (here r.1 r.2 lt)) ->
    (if negb (rd m text =? 0) && ((c =? 46) || (c =? rd m text)) then matchhere fuel tf m (re + 1) (text + 1) else Some false)
      = Some (here (One c :: r.1) r.2 lt)).
  { intros r Hh. rewrite Ht0. destruct lt as [|t lt]; [done|]. cbn [bool_decide negb andb here].
    rewrite bool_decide_eq_false_2 by done. apply cstr_cons in Ht as (-> & _ & Ht). cbn [negb andb]. unfold char_ok. cbn in Hl.
    destruct ((c =? 46) || (c =? t)); [|done]. apply Hh; [done|lia]. }
  destruct lre as [|d lre].
  - pose proof (proj1 (cstr_nil _ _) Hr) as Hz. rewrite Hz. cbn [Z.eqb parse]. destruct (Z.eqb_spec c 36) as [->|Hne]; cbn [andb].
    + by rewrite Ht0.
    + apply (Hone ([], false)). intros text' lt' Ht' Hl'. by apply (IH (re + 1) [] text' lt'); [|done|lia|lia].
  - pose proof Hr as (Ed & Hd & Hr')%cstr_cons. rewrite Ed. cbn [parse]. destruct (Z.eqb_spec d 42) as [->|Hne].
    + destruct (parse lre) as [r e] eqn:Ep. cbn [fst snd here]. apply matchstar_run with tf; [|lia|done|done|done].
      intros text' lt' Ht' Hl'. replace (re + 2) with (re + 1 + 1) by lia.
      rewrite (IH (re + 1 + 1) lre text' lt') by (done || cbn in Hf; lia). by rewrite Ep.
    + rewrite (proj2 (Z.eqb_neq d 0)) by lia. rewrite andb_false_r.
      change (match lre with [] => _ | _ => _ end) with (parse (d :: lre)).
      destruct (parse (d :: lre)) as [r e] eqn:Ep. cbn [fst snd]. apply (Hone (r, e)). intros text' lt' Ht' Hl'.
      rewrite (IH (re + 1) (d :: lre) text' lt') by (done || lia). by rewrite Ep.
Qed.

Lemma match_loop_run fuel tf m re lre text lt n :
  cstr m re lre -> cstr m text lt -> (length lre < fuel)%nat -> (length lt < tf)%nat -> (length lt < n)%nat ->
  match_loop fuel tf m re n text = Some (anywhere (here (parse lre).1 (parse lre).2) lt).
Proof.
  intros Hr. revert text lt. induction n as [|n IH]; intros text lt Ht Hf Hl Hn; [lia|]. cbn [match_loop].
  rewrite (matchhere_run fuel tf m re lre text lt) by done. cbn [mbind option_bind].
  destruct lt as [|t lt]; cbn [anywhere].
  - apply cstr_nil in Ht. rewrite Ht. by destruct (here _ _ []).
  - destruct (here _ _ (t :: lt)); [done|]. rewrite (cstr_nonzero _ _ _ _ Ht). apply cstr_cons in Ht as (_ & _ & Ht).
    cbn [negb orb]. cbn in Hl, Hn. apply IH; [done|done|lia|lia].
Qed.

Lemma grep_match_run fuel tf m re lre text lt :
  cstr m re lre -> cstr m text lt -> (length lre < fuel)%nat -> (length lt < tf)%nat ->
  grep_match fuel tf m re text = Some (occurs lre lt).
Proof.
  intros Hr Ht Hf Hl. unfold grep_match, occurs. destruct lre as [|c lre].
  - rewrite (proj1 (cstr_nil _ _) Hr). cbn [Z.eqb head]. rewrite bool_decide_eq_false_2 by done. by apply match_loop_run.
  - pose proof Hr as (-> & _ & Hr')%cstr_cons. cbn [head tail]. cbn in Hf. destruct (Z.eqb_spec c 94) as [->|Hne].
    + rewrite bool_decide_eq_true_2 by done. apply matchhere_run; [done|done|lia|lia].
    + rewrite bool_decide_eq_false_2 by congruence. by apply match_loop_run.
Qed.

(** ** Lemmas: lines *)

Lemma lines_app cur l1 l2 : lines cur (l1 ++ l2) = lines cur l1 ++ lines (last_line cur l1) l2.
Proof.
  revert cur. induction l1 as [|b l1 IH]; intros cur; [done|]. cbn. destruct (b =? 10); cbn; by rewrite IH.
Qed.

Lemma last_line_app cur l1 l2 : last_line cur (l1 ++ l2) = last_line (last_line cur l1) l2.
Proof. revert cur. induction l1 as [|b l1 IH]; intros cur; [done|]. cbn. destruct (b =? 10); apply IH. Qed.

(** A piece without newline. *)
Lemma lines_none cur l : 10 ∉ l -> lines cur l = [] /\ last_line cur l = cur ++ l.
Proof.
  revert cur. induction l as [|b l IH]; intros cur Hl; [by rewrite app_nil_r|]. cbn.
  rewrite (proj2 (Z.eqb_neq b 10)) by set_solver. destruct (IH (cur ++ [b])) as [-> ->]; [set_solver|].
  by rewrite <- app_assoc.
Qed.

Lemma lines_first l1 l2 : 10 ∉ l1 -> lines [] (l1 ++ 10 :: l2) = l1 :: lines [] l2 /\ last_line [] (l1 ++ 10 :: l2) = last_line [] l2.
Proof.
  intros Hl. rewrite lines_app, last_line_app. by destruct (lines_none [] l1 Hl) as [-> ->].
Qed.

Lemma find_newline l : match find_index (Z.eqb 10) l with
  | Some i => exists l1 l2, l = l1 ++ 10 :: l2 /\ 10 ∉ l1 /\ length l1 = i
  | None => 10 ∉ l
  end.
Proof.
  induction l as [|b l IH]; cbn [find_index]; [apply not_elem_of_nil|]. destruct (Z.eqb_spec 10 b) as [<-|Hne].
  - exists [], l. split_and!; [done|apply not_elem_of_nil|done].
  - destruct (find_index _ l) as [i|].
    + destruct IH as (l1 & l2 & -> & Hl & <-). exists (b :: l1), l2. split_and!; [done|set_solver|done].
    + set_solver.
Qed.

(** ** Lemmas: runs of grep() *)

Definition written (l : list Z) : Z * list Z := (1, l ++ [10]).

(** The lines that grep() writes. *)
Definition selected (lre : list Z) (ls : list (list Z)) : list (list Z) := filter (fun l => occurs lre l = true) ls.

(** A string cut in two at a newline. *)
Lemma cstr_split m a l1 c l2 :
  cstr m a (l1 ++ c :: l2) -> cstr (wr m (a + Z.of_nat (length l1)) 0) a l1 /\ cstr m (a + Z.of_nat (length l1) + 1) l2 /\
    rd_bytes m a (length l1 + 1) = l1 ++ [c].
Proof.
  revert a. induction l1 as [|b l1 IH]; intros a Hs; cbn [app length] in *.
  - apply cstr_cons in Hs as (E & Hc & Hs). rewrite Z.add_0_r. split_and!; [apply cstr_nil, rd_wr_eq|done|].
    change (0 + 1)%nat with 1%nat. rewrite rd_bytes_S, E. done.
  - apply cstr_cons in Hs as (E & Hb & Hs). destruct (IH (a + 1) Hs) as (H1 & H2 & H3).
    replace (a + Z.of_nat (S (length l1))) with (a + 1 + Z.of_nat (length l1)) by lia. split_and!.
    + apply cstr_cons. rewrite rd_wr_ne by lia. done.
    + done.
    + cbn [Nat.add]. by rewrite rd_bytes_S, E, H3.
Qed.

Section runs.
Context `{UserEnv} (buf pattern : Z) (lre : list Z).
Hypothesis Hbuf : 0 < buf.
Hypothesis Hlre : (length lre < 4096)%nat.
Hypothesis Hapart : pattern + Z.of_nat (length lre) < buf \/ buf + 1024 <= pattern.

(** Memory outside the buffer is as in [m]. *)
Definition outside (m m' : gmap Z Z) : Prop := forall x, ~ (buf <= x < buf + 1024) -> rd m' x = rd m x.

Lemma outside_wr m m' a v : outside m m' -> buf <= a < buf + 1024 -> outside m (wr m' a v).
Proof. intros Ho Ha x Hx. rewrite rd_wr_ne by lia. by apply Ho. Qed.

Lemma outside_pattern m m' : outside m m' -> cstr m pattern lre -> cstr m' pattern lre.
Proof. intros Ho Hp. eapply cstr_ext; [exact Hp|]. intros x Hx. apply Ho. lia. Qed.

(** What the loop over the lines of [d] leaves. *)
Record scanned (s : ustate) (p : Z) (d : list Z) (p' : Z) (s' : ustate) : Prop := {
  sc_p : p' = p + Z.of_nat (length d) - Z.of_nat (length (last_line [] d));
  sc_rest : cstr (u_mem s') p' (last_line [] d);
  sc_outside : outside (u_mem s) (u_mem s');
  sc_ok : mem_ok (u_mem s');
  sc_in : u_in s' = u_in s;
  sc_out : u_out s' = u_out s ++ (written <$> selected lre (lines [] d));
}.

(** One line. *)
Lemma grep_line_run l1 l2 p s :
  cstr (u_mem s) pattern lre -> mem_ok (u_mem s) -> cstr (u_mem s) p (l1 ++ 10 :: l2) -> 10 ∉ l1 ->
  buf <= p -> p + Z.of_nat (length (l1 ++ 10 :: l2)) < buf + 1024 ->
  wp (grep_lines_body pattern p) (fun r s' => r = inl (p + Z.of_nat (length l1) + 1) /\
    cstr (u_mem s') (p + Z.of_nat (length l1) + 1) l2 /\ outside (u_mem s) (u_mem s') /\ mem_ok (u_mem s') /\
    u_in s' = u_in s /\ u_out s' = u_out s ++ (written <$> selected lre [l1])) s.
Proof.
  intros Hp Hok Hd Hl1 Hb Hlt. rewrite length_app in Hlt. cbn in Hlt. set (q := p + Z.of_nat (length l1)).
  assert (Hi : find_index (Z.eqb 10) (l1 ++ 10 :: l2) = Some (length l1)).
  { clear -Hl1. induction l1 as [|b l1 IH]; [done|]. cbn [app find_index]. rewrite (proj2 (Z.eqb_neq 10 b)) by set_solver. rewrite IH; [done|set_solver]. }
  destruct (cstr_split _ _ _ _ _ Hd) as (Hs1 & Hs2 & Hbs). fold q in Hs1, Hs2.
  unfold grep_lines_body. apply wp_bind, wp_gets.
  rewrite (strchr_spec 1024 _ p _ 10 Hd) by (done || rewrite length_app; cbn; lia). rewrite Hi. fold q. cbn [fueled].
  apply wp_bind, wp_ret. rewrite (proj2 (Z.eqb_neq q 0)) by lia. apply wp_bind, wp_modify. apply wp_bind, wp_gets.
  set (s1 := upd_umem _ s). assert (Ho1 : outside (u_mem s) (u_mem s1)) by (apply outside_wr; [done|lia]).
  rewrite (grep_match_run 4096 1024 (u_mem s1) pattern lre p l1); [|by eapply outside_pattern|exact Hs1|done|lia].
  cbn [fueled]. apply wp_bind, wp_ret. apply wp_bind. unfold selected, filter. cbn [list_filter].
  destruct (occurs lre l1) eqn:Eo; cbn [when].
  - apply wp_bind, wp_modify. set (s2 := upd_umem _ s1). apply wp_bind. unfold wp. rewrite sys_write_ok by lia.
    cbn [wp mret]. cbv beta. cbn [u_mem u_in u_out]. split_and!; try done.
    + eapply cstr_ext; [exact Hs2|]. intros x Hx. cbn. rewrite !rd_wr_ne by lia. done.
    + apply outside_wr; [done|lia].
    + by apply mem_ok_wr, mem_ok_wr.
    + destruct (decide (true = true)); [|done]. cbn. f_equal. unfold written. repeat f_equal.
      replace (Z.to_nat (q + 1 - p)) with (length l1 + 1)%nat by lia. rewrite <- Hbs. apply rd_bytes_ext. intros x Hx.
      destruct (decide (x = q)) as [->|Hne]; [|by rewrite !rd_wr_ne].
      rewrite rd_wr_eq. apply (f_equal (fun l => l !! length l1)) in Hbs.
      rewrite lookup_rd_bytes, lookup_app_r, Nat.sub_diag in Hbs by lia. injection Hbs as Hq. fold q in Hq. by rewrite Hq.
  - cbn. apply wp_ret. cbv beta. split_and!; try done.
    + eapply cstr_ext; [exact Hs2|]. intros x Hx. cbn. rewrite rd_wr_ne by lia. done.
    + by apply mem_ok_wr.
    + destruct (decide (false = true)); [done|]. cbn. by rewrite app_nil_r.
Qed.

Lemma selected_app l1 l2 : selected lre (l1 ++ l2) = selected lre l1 ++ selected lre l2.
Proof. apply filter_app. Qed.

(** All lines in the buffer. *)
Lemma grep_lines_run fuel : forall d p s,
  cstr (u_mem s) pattern lre -> mem_ok (u_mem s) -> cstr (u_mem s) p d -> buf <= p ->
  p + Z.of_nat (length d) < buf + 1024 -> (length d < fuel)%nat ->
  wp (loop fuel (grep_lines_body pattern) p) (scanned s p d) s.
Proof.
  induction fuel as [|fuel IH]; intros d p s Hp Hok Hd Hb Hlt Hf; [lia|]. apply wp_loop_step.
  pose proof (find_newline d) as Hn. destruct (find_index (Z.eqb 10) d) as [i|] eqn:Ei.
  - destruct Hn as (l1 & l2 & -> & Hl1 & _). destruct (lines_first l1 l2 Hl1) as [El Ela].
    rewrite length_app in Hlt, Hf. cbn in Hlt, Hf.
    eapply wp_mono; [eapply grep_line_run; try done; rewrite length_app; cbn; lia|]. cbn beta.
    intros r s1 (-> & Hd1 & Ho1 & Hok1 & Ei1 & Eo1).
    eapply wp_mono; [apply (IH l2); [by eapply outside_pattern|done|done|lia|lia|lia]|].
    intros p' s2 [A1 A2 A3 A4 A5 A6]. split; rewrite ?El, ?Ela; try done.
    + rewrite length_app. cbn. lia.
    + intros x Hx. rewrite A3 by done. by apply Ho1.
    + by rewrite A5.
    + rewrite A6, Eo1, <- app_assoc, <- fmap_app, <- selected_app. done.
  - unfold grep_lines_body. apply wp_bind, wp_gets. rewrite (strchr_spec 1024 _ p _ 10 Hd) by (done || lia). rewrite Ei.
    cbn [fueled]. apply wp_bind, wp_ret. cbn [Z.eqb]. apply wp_ret.
    destruct (lines_none [] d Hn) as [El Ela]. split; rewrite ?El, ?Ela; cbn [app]; try done; [lia|].
    by rewrite app_nil_r.
Qed.

(** Between two reads: the buffer holds the line so far, [cur], and [rest] is left. *)
Record between (s0 : ustate) (fd : Z) (data : list Z) (m : Z) (s : ustate) : Prop := {
  bt_m : exists done_ rest, data = done_ ++ rest /\ u_in s = <[fd := rest]> (u_in s0) /\
    m = Z.of_nat (length (last_line [] done_)) /\ rd_bytes (u_mem s) buf (length (last_line [] done_)) = last_line [] done_ /\
    u_out s = u_out s0 ++ (written <$> selected lre (lines [] done_));
  bt_ok : mem_ok (u_mem s);
  bt_pattern : cstr (u_mem s) pattern lre;
}.

(** No line is too long for the buffer. *)
Definition short_lines (data : list Z) : Prop :=
  forall d1 d2, data = d1 ++ d2 -> (length (last_line [] d1) <= 1022)%nat.

Lemma last_line_no_nl cur l : 10 ∉ cur -> 10 ∉ last_line cur l.
Proof.
  revert cur. induction l as [|b l IH]; intros cur Hc; [done|]. cbn [last_line].
  destruct (Z.eqb_spec b 10) as [|Hne]; apply IH; [apply not_elem_of_nil|].
  intros [Hin|E%list_elem_of_singleton]%elem_of_app; [done|by apply Hne].
Qed.

Lemma last_line_bytes (P : Z -> Prop) cur l : Forall P cur -> Forall P l -> Forall P (last_line cur l).
Proof.
  intros Hc Hl. revert cur Hc. induction Hl as [|b l Hb _ IH]; intros cur Hc; [done|]. cbn [last_line].
  destruct (b =? 10); apply IH; [constructor|]. apply Forall_app. split; [done|]. by apply Forall_singleton.
Qed.

(** The buffer after a read of [chunk]. *)
Lemma cstr_filled m cur chunk :
  rd_bytes m buf (length cur) = cur -> Forall (fun b => 0 < b < 256) cur -> Forall (fun b => 0 < b < 256) chunk ->
  cstr (wr (wr_bytes m (buf + Z.of_nat (length cur)) chunk) (buf + (Z.of_nat (length cur) + Z.of_nat (length chunk))) 0) buf (cur ++ chunk).
Proof.
  intros Hcur Hc1 Hc2. assert (Hbb : Forall byte_ok chunk) by (eapply Forall_impl; [exact Hc2|]; unfold byte_ok; intros; lia).
  split; [by apply Forall_app|]. rewrite length_app. split.
  - rewrite rd_bytes_app. f_equal.
    + etrans; [|exact Hcur]. apply rd_bytes_ext. intros x Hx. rewrite rd_wr_ne by lia. rewrite rd_wr_bytes by done.
      by rewrite decide_False by lia.
    + etrans; [|exact (rd_bytes_wr_bytes m (buf + Z.of_nat (length cur)) chunk Hbb)]. apply rd_bytes_ext.
      intros x Hx. rewrite rd_wr_ne by lia. done.
  - rewrite Nat2Z.inj_add. by rewrite rd_wr_eq.
Qed.

(** What follows a read of [chunk]. *)
Lemma grep_scan_run cur chunk s :
  let d := cur ++ chunk in
  rd_bytes (u_mem s) buf (length cur) = cur -> 10 ∉ cur -> chunk <> [] ->
  Forall (fun b => 0 < b < 256) cur -> Forall (fun b => 0 < b < 256) chunk ->
  (length d <= 1023)%nat -> (length (last_line cur chunk) <= 1022)%nat -> mem_ok (u_mem s) -> cstr (u_mem s) pattern lre ->
  wp (grep_scan buf pattern (Z.of_nat (length d))) (fun r s' =>
    r = inl (Z.of_nat (length (last_line cur chunk))) /\ mem_ok (u_mem s') /\ outside (u_mem s) (u_mem s') /\
    rd_bytes (u_mem s') buf (length (last_line cur chunk)) = last_line cur chunk /\ u_in s' = u_in s /\
    u_out s' = u_out s ++ (written <$> selected lre (lines cur chunk)))
    (upd_umem (fun m => wr_bytes m (buf + Z.of_nat (length cur)) chunk) s).
Proof.
  intros d Hcur Hnl Hne Hc1 Hc2 Hlen Hlast Hok Hpat. assert (Ed : length d = (length cur + length chunk)%nat) by apply length_app.
  assert (Hbb : Forall byte_ok chunk) by (eapply Forall_impl; [exact Hc2|]; unfold byte_ok; intros; lia).
  destruct (lines_none [] cur Hnl) as [El0 Ela0]. cbn [app] in Ela0.
  assert (El : lines [] d = lines cur chunk) by (unfold d; by rewrite lines_app, El0, Ela0).
  assert (Ela : last_line [] d = last_line cur chunk) by (unfold d; by rewrite last_line_app, Ela0).
  unfold grep_scan. apply wp_bind, wp_modify. set (s2 := upd_umem _ (upd_umem _ s)).
  assert (Hd : cstr (u_mem s2) buf d).
  { unfold s2. cbn. rewrite Ed, Nat2Z.inj_add. by apply cstr_filled. }
  assert (Ho2 : outside (u_mem s) (u_mem s2)).
  { apply outside_wr; [|lia]. intros x Hx. cbn. rewrite rd_wr_bytes by done. rewrite decide_False; [done|lia]. }
  apply wp_bind. eapply wp_mono.
  { apply (grep_lines_run 1024 d buf s2); [by eapply outside_pattern|by apply mem_ok_wr, mem_ok_wr_bytes|done|lia|lia|lia]. }
  cbn beta. intros p' s3 [A1 A2 A3 A4 A5 A6]. rewrite El, Ela in *.
  rewrite (proj2 (Z.ltb_lt 0 _)) by (destruct chunk; [done|]; cbn in Ed; lia). set (m' := _ - (p' - buf)).
  assert (Em : m' = Z.of_nat (length (last_line cur chunk))) by (unfold m'; lia).
  apply wp_bind, wp_modify. apply wp_ret. cbv beta iota. split_and!.
  - by rewrite Em.
  - apply mem_ok_umemmove; [done|lia].
  - intros x Hx. cbn. rewrite rd_umemmove by (done || lia). rewrite decide_False by lia. rewrite A3 by done. by apply Ho2.
  - cbn. rewrite Em. destruct A2 as (_ & A2 & _). etrans; [|exact A2]. apply list_eq. intros i.
    destruct (decide (i < length (last_line cur chunk))%nat); [|by rewrite !lookup_ge_None_2 by (rewrite length_rd_bytes; lia)].
    rewrite !lookup_rd_bytes by done. rewrite rd_umemmove by (done || lia). rewrite decide_True by lia. do 2 f_equal. lia.
  - exact A5.
  - exact A6.
Qed.

(** One turn of the outer loop. *)
Lemma grep_body_run s0 fd data m s :
  between s0 fd data m s -> u_in s0 !! fd = Some data -> Forall (fun b => 0 < b < 256) data -> short_lines data ->
  wp (grep_body buf pattern fd m) (fun r s' =>
    match r with
    | inl m' => between s0 fd data m' s' /\ exists r1 r2, u_in s !! fd = Some r1 /\ u_in s' !! fd = Some r2 /\ (length r2 < length r1)%nat
    | inr _ => u_in s' = <[fd := []]> (u_in s0) /\ u_out s' = u_out s0 ++ (written <$> selected lre (lines [] data))
    end) s.
Proof.
  intros [(dn & rest & -> & Hin & -> & Hcur & Hout) Hok Hpat] Hfd Hbytes Hshort. set (cur := last_line [] dn) in *.
  pose proof (Hshort dn rest eq_refl) as Hsh. fold cur in Hsh. apply Forall_app in Hbytes as [Hb1 Hb2].
  unfold grep_body. apply wp_bind.
  destruct (sys_read_ok fd (buf + Z.of_nat (length cur)) (1024 - Z.of_nat (length cur) - 1) s rest) as (k & Hk1 & Hk2 & Hk3 & E);
    [by rewrite Hin, lookup_insert_eq|lia|]. unfold wp at 1. rewrite E.
  destruct (decide (rest = [])) as [->|Hne].
  { cbn in Hk2. replace k with 0%nat by lia. cbn. apply wp_ret. cbn. rewrite app_nil_r. split; [|done].
    rewrite Hin. by rewrite insert_insert_eq. }
  specialize (Hk3 ltac:(lia) Hne). rewrite (proj2 (Z.ltb_lt 0 _)) by lia. cbn [negb].
  set (chunk := take k rest). assert (Hlc : length chunk = k) by (unfold chunk; rewrite length_take; lia).
  assert (Ed : dn ++ rest = (dn ++ chunk) ++ drop k rest) by (unfold chunk; by rewrite <- app_assoc, take_drop).
  pose proof (Hshort _ _ Ed) as Hsh'. rewrite last_line_app in Hsh'. fold cur in Hsh'.
  replace (Z.of_nat (length cur) + Z.of_nat k) with (Z.of_nat (length (cur ++ chunk))) by (rewrite length_app; lia).
  assert (Hcne : chunk <> []) by (intros Ec; rewrite Ec in Hlc; cbn in Hlc; lia).
  assert (Hlen : (length (cur ++ chunk) <= 1023)%nat) by (rewrite length_app; lia).
  pose proof (grep_scan_run cur chunk (mkU (u_mem s) (<[fd := drop k rest]> (u_in s)) (u_out s)) Hcur
    (last_line_no_nl [] dn (not_elem_of_nil _)) Hcne (last_line_bytes _ [] dn (Forall_nil_2 _) Hb1) (Forall_take _ k _ Hb2)
    Hlen Hsh' Hok Hpat) as Hrun.
  unfold upd_umem in Hrun. cbn [u_mem u_in u_out] in Hrun. eapply wp_mono; [exact Hrun|].
  cbn beta. cbn [u_in u_out u_mem]. intros r s' (-> & A1 & A2 & A3 & A4 & A5). split; [split|].
  - exists (dn ++ chunk), (drop k rest). rewrite lines_app, last_line_app. fold cur. split_and!; [done| |done|done|].
    + by rewrite A4, Hin, insert_insert_eq.
    + by rewrite A5, Hout, <- app_assoc, <- fmap_app, <- selected_app.
  - done.
  - by eapply outside_pattern.
  - exists rest, (drop k rest). rewrite Hin, A4, !lookup_insert_eq, length_drop. split_and!; [done|done|lia].
Qed.

Lemma grep_run s0 fd data fuel : forall m s,
  between s0 fd data m s -> u_in s0 !! fd = Some data -> Forall (fun b => 0 < b < 256) data -> short_lines data ->
  (forall rest, u_in s !! fd = Some rest -> (length rest < fuel)%nat) ->
  wp (loop fuel (grep_body buf pattern fd) m) (fun _ s' =>
    u_in s' = <[fd := []]> (u_in s0) /\ u_out s' = u_out s0 ++ (written <$> selected lre (lines [] data))) s.
Proof.
  induction fuel as [|fuel IH]; intros m s Hb Hfd Hd Hsh Hf.
  { destruct Hb as [(dn & rest & _ & Hin & _) _ _]. specialize (Hf rest). rewrite Hin, lookup_insert_eq in Hf. specialize (Hf eq_refl). lia. }
  apply wp_loop_step. eapply wp_mono; [by eapply grep_body_run|]. cbn beta. intros [m'|[]] s'; [|done].
  intros (Hb' & r1 & r2 & H1 & H2 & Hlt). apply IH; try done. intros rest Hr. specialize (Hf r1 H1).
  rewrite H2 in Hr. injection Hr as <-. lia.
Qed.

End runs.

(** ** Properties *)

(** match() returns for every pattern and text, and returns 1 exactly if the text
    has a part that the pattern denotes: at its start if the pattern begins with ^, up
    to its end if it ends in $, where a dot stands for any character and a character
    followed by * for any number of it. *)
Theorem match_correct fuel tf m re lre text lt :
  cstr m re lre -> cstr m text lt -> (length lre < fuel)%nat -> (length lt < tf)%nat ->
  exists b, grep_match fuel tf m re text = Some b /\ (b = true <-> finds lre lt).
Proof.
  intros Hr Ht Hf Hl. exists (occurs lre lt). split; [by apply grep_match_run|]. apply occurs_spec.
Qed.

(** The pattern [a.*c$] and the text [xabbc]. *)
Definition example_strings : gmap Z Z := wr_bytes (wr_bytes ∅ 100 (str "a.*c$")) 200 (str "xabbc").

Lemma match_correct_witness :
  exists b, grep_match 10 10 example_strings 100 200 = Some b /\ (b = true <-> finds (str "a.*c$") (str "xabbc")).
Proof.
  apply (match_correct 10 10 example_strings 100 (str "a.*c$") 200 (str "xabbc")).
  - split; [apply (bool_decide_unpack _); by vm_compute|by vm_compute].
  - split; [apply (bool_decide_unpack _); by vm_compute|by vm_compute].
  - cbn. lia.
  - cbn. lia.
Defined.


(** A kernel whose read() returns one byte at a time. *)
Definition slow_env : UserEnv.
Proof.
  refine {|
    sys_read fd a n s :=
      let rest := default [] (u_in s !! fd) in
      let k := Z.to_nat (Z.min n (Z.min 1 (Z.of_nat (length rest)))) in
      Ok (Z.of_nat k) (mkU (wr_bytes (u_mem s) a (take k rest)) (<[fd := drop k rest]> (u_in s)) (u_out s));
    sys_write fd a n s := Ok n (mkU (u_mem s) (u_in s) (u_out s ++ [(fd, rd_bytes (u_mem s) a (Z.to_nat n))]));
  |}; [|done].
  intros fd a n s rest E Hn. rewrite E. cbn [default from_option id].
  exists (Z.to_nat (Z.min n (Z.min 1 (Z.of_nat (length rest))))). split_and!; [lia|lia| |done].
  intros Hn1 Hne. destruct rest; [done|]. cbn [length]. lia.
Defined.

Definition example_text : list Z := str "ab" ++ [10] ++ str "xy" ++ [10] ++ str "cab" ++ [10; 97].

