(* ===== verification/Uprintf.v ===== *)
(** * Output of user programs (user/printf.c)

    vprintf() writes its output one byte at a time with write().  [uarg] is an argument of
    the variadic call; a string is an address in the memory of the program.  What a format
    stands for is its list of pieces; [vprintf_spec] shows that vprintf() writes exactly
    them, with numerals that read back to the numbers. *)

From Stdlib Require Import ZArith Lia.
From stdpp Require Import base tactics numbers gmap strings option list.
From S2P Require Import Prelude Kstring Printf Ulib Grep.

(** ** Definitions *)

(** digits[] *)
Definition u_digits : list Z := str "0123456789ABCDEF".

Definition u_digit (d : Z) : Z := nth (Z.to_nat d) u_digits 0.

(** The do-while loop of printint(): the contents of buf, which has [room] bytes left;
    [None] when it would overflow. *)
Fixpoint printint_digits (room : nat) (x base : Z) : option (list Z) :=
  match room with
  | O => None
  | S room' =>
      let d := u_digit (x mod base) in
      let x' := x / base in
      if negb (x' =? 0) then cons d <$> printint_digits room' x' base else Some [d]
  end.

(** buf before the loop that prints it *)
Definition printint_buf (xx base : Z) (sgn : bool) : option (list Z) :=
  let neg := sgn && (xx <? 0) in
  let x := if neg then u32 (- xx) else u32 xx in
  match printint_digits 16 x base with
  | None => None
  | Some buf =>
      if neg then if (length buf <? 16)%nat then Some (buf ++ str "-") else None
      else Some buf
  end.

(** An argument of printf(); a null string has the address 0. *)
Inductive uarg := V_int (v : Z) | V_u64 (v : Z) | V_str (a : Z).

Definition va_uint (args : list uarg) : U (Z * list uarg) :=
  match args with V_int v :: r => mret (v, r) | _ => panic "va_arg" end.

Definition va_u64 (args : list uarg) : U (Z * list uarg) :=
  match args with V_u64 v :: r => mret (v, r) | _ => panic "va_arg" end.

Definition va_ustr (args : list uarg) : U (Z * list uarg) :=
  match args with V_str a :: r => mret (a, r) | _ => panic "va_arg" end.

Section printf.
(** [cb] is the address of putc()'s parameter. *)
Context `{UserEnv} (cb : Z).

(** static void putc(int fd, char c) *)
Definition putc (fd c : Z) : U unit :=
  modify (upd_umem (fun m => wr m cb c));;
  sys_write fd cb 1;;
  mret tt.

(** static void printint(int fd, int xx, int base, int sgn) *)
Definition printint (fd xx base : Z) (sgn : bool) : U unit :=
  match printint_buf xx base sgn with
  | None => panic "buffer overflow"
  | Some buf => for_each (reverse buf) (putc fd)
  end.

(** static void printptr(int fd, uint64 x) *)
Fixpoint printptr_loop (n : nat) (fd x : Z) : U unit :=
  match n with
  | O => mret tt
  | S n' =>
      putc fd (u_digit (Z.shiftr x 60));;
      printptr_loop n' fd (u64 (Z.shiftl x 4))
  end.

Definition printptr (fd x : Z) : U unit :=
  putc fd 48;;
  putc fd 120;;
  printptr_loop 16 fd x.

(** The loop of %s *)
Definition puts_body (fd s : Z) : U (Z + unit) :=
  c ← gets (fun st => rd (u_mem st) s);
  if negb (c =? 0) then putc fd c;; mret (inl (s + 1)) else mret (inr tt).

(** void vprintf(int fd, const char *fmt, va_list ap): the loop over the format, with
    state = '%' as [pct]; [fuel] bounds a string *)
Fixpoint vprintf_loop (fuel : nat) (fd : Z) (fmt : list Z) (pct : bool) (args : list uarg) : U unit :=
  match fmt with
  | [] => mret tt
  | c :: fmt =>
      if c =? 0 then mret tt
      else if negb pct then
        if c =? 37 then vprintf_loop fuel fd fmt true args
        else putc fd c;; vprintf_loop fuel fd fmt false args
      else if c =? 100 then
        '(v, args) ← va_uint args;
        printint fd v 10 true;;
        vprintf_loop fuel fd fmt false args
      else if c =? 108 then
        '(v, args) ← va_u64 args;
        printint fd (s32 v) 10 false;;
        vprintf_loop fuel fd fmt false args
      else if c =? 120 then
        '(v, args) ← va_uint args;
        printint fd v 16 false;;
        vprintf_loop fuel fd fmt false args
      else if c =? 112 then
        '(v, args) ← va_u64 args;
        printptr fd v;;
        vprintf_loop fuel fd fmt false args
      else if c =? 115 then
        '(s, args) ← va_ustr args;
        (if s =? 0 then for_each (str "(null)") (putc fd) else loop fuel (puts_body fd) s);;
        vprintf_loop fuel fd fmt false args
      else if c =? 99 then
        '(v, args) ← va_uint args;
        putc fd v;;
        vprintf_loop fuel fd fmt false args
      else if c =? 37 then
        putc fd c;;
        vprintf_loop fuel fd fmt false args
      else
        putc fd 37;;
        putc fd c;;
        vprintf_loop fuel fd fmt false args
  end.

Definition vprintf (fuel : nat) (fd : Z) (fmt : list Z) (args : list uarg) : U unit :=
  vprintf_loop fuel fd fmt false args.

(** void fprintf(int fd, const char *fmt, ...) *)
Definition fprintf (fuel : nat) (fd : Z) (fmt : list Z) (args : list uarg) : U unit :=
  vprintf fuel fd fmt args.

(** void printf(const char *fmt, ...) *)
Definition printf (fuel : nat) (fmt : list Z) (args : list uarg) : U unit := vprintf fuel 1 fmt args.

End printf.

(** ** Specification *)

(** What a format and its arguments stand for *)
Inductive piece :=
| P_text (cs : list Z)
| P_dec (v : Z)  (* signed *)
| P_udec (v : Z)
| P_hex (v : Z)
| P_ptr (v : Z)
| P_str (a : Z).

(** A conversion: the character after %, and the arguments *)
Definition conv (c : Z) (args : list uarg) : option (piece * list uarg) :=
  if c =? 100 then match args with V_int v :: r => Some (P_dec v, r) | _ => None end
  else if c =? 108 then match args with V_u64 v :: r => Some (P_udec (u32 v), r) | _ => None end
  else if c =? 120 then match args with V_int v :: r => Some (P_hex (u32 v), r) | _ => None end
  else if c =? 112 then match args with V_u64 v :: r => Some (P_ptr v, r) | _ => None end
  else if c =? 115 then
    match args with V_str a :: r => Some (if a =? 0 then P_text (str "(null)") else P_str a, r) | _ => None end
  else if c =? 99 then match args with V_int v :: r => Some (P_text [u8 v], r) | _ => None end
  else if c =? 37 then Some (P_text [37], args)
  else Some (P_text [37; c], args).

Fixpoint pieces (fmt : list Z) (args : list uarg) : option (list piece) :=
  match fmt with
  | [] => Some []
  | c :: fmt =>
      if c =? 37 then
        match fmt with
        | [] => Some []
        | d :: fmt => '(p, args) ← conv d args; cons p <$> pieces fmt args
        end
      else cons (P_text [c]) <$> pieces fmt args
  end.

(** Letters in lower case *)
Definition lower (c : Z) : Z := if (65 <=? c) && (c <=? 90) then c + 32 else c.

(** The bytes [cs] show a piece. *)
Inductive shows (m : gmap Z Z) : piece -> list Z -> Prop :=
| shows_text cs : shows m (P_text cs) cs
| shows_dec v cs : numeral 10 cs = Some v -> shows m (P_dec v) cs
| shows_udec v cs : numeral 10 cs = Some v -> shows m (P_udec v) cs
| shows_hex v cs : numeral 16 (lower <$> cs) = Some v -> shows m (P_hex v) cs
| shows_ptr v cs : length cs = 16%nat -> numeral 16 (lower <$> cs) = Some v -> shows m (P_ptr v) (str "0x" ++ cs)
| shows_str a cs : cstr m a cs -> shows m (P_str a) cs.

(** Numbers in range; strings shorter than the fuel and apart from putc()'s parameter *)
Definition piece_ok (cb : Z) (fuel : nat) (m : gmap Z Z) (p : piece) : Prop :=
  match p with
  | P_text cs => Forall byte_ok cs
  | P_dec v => - 2 ^ 31 <= v < 2 ^ 31
  | P_ptr v => 0 <= v < 2 ^ 64
  | P_str a => exists l, cstr m a l /\ (length l < fuel)%nat /\ ~ (a <= cb <= a + Z.of_nat (length l))
  | _ => True
  end.

(** ** Lemmas *)

#[local] Arguments lower : simpl never.
#[local] Arguments u_digit : simpl never.
#[local] Arguments digit : simpl never.

Lemma lower_digit d : 0 <= d < 16 -> lower (u_digit d) = digit d.
Proof.
  intros Hd. assert (Hall : forallb (fun d => lower (u_digit d) =? digit d) (seqZ 0 16) = true) by by vm_compute.
  rewrite forallb_forall in Hall. apply Z.eqb_eq, Hall, list_elem_of_In, elem_of_seqZ. lia.
Qed.

Lemma u_digit_byte d : 0 <= d < 16 -> 0 < u_digit d < 128.
Proof.
  intros Hd. assert (Hall : forallb (fun d => (0 <? u_digit d) && (u_digit d <? 128)) (seqZ 0 16) = true) by by vm_compute.
  rewrite forallb_forall in Hall. assert (H : ((0 <? u_digit d) && (u_digit d <? 128))%bool = true) by (apply Hall, list_elem_of_In, elem_of_seqZ; lia).
  bool_decide_tests. lia.
Qed.

Lemma u_digit_dec d : 0 <= d < 10 -> u_digit d = digit d.
Proof.
  intros Hd. assert (Hall : forallb (fun d => u_digit d =? digit d) (seqZ 0 10) = true) by by vm_compute.
  rewrite forallb_forall in Hall. apply Z.eqb_eq, Hall, list_elem_of_In, elem_of_seqZ. lia.
Qed.

(** The digits are those of the kernel's printf, in capitals. *)
Lemma printint_digits_lower room x base :
  base = 10 \/ base = 16 -> option_map (fun l : list Z => lower <$> l) (printint_digits room x base) = printkint_digits room x base.
Proof.
  intros Hb. revert x. induction room as [|room IH]; intros x; [done|]. cbn [printint_digits printkint_digits].
  assert (Hd : 0 <= x mod base < 16) by (pose proof (Z.mod_pos_bound x base); lia).
  destruct (negb (x / base =? 0)).
  - rewrite <-IH. destruct (printint_digits room (x / base) base); cbn; [|done]. by rewrite lower_digit.
  - cbn. by rewrite lower_digit.
Qed.

Lemma printint_digits_bytes room x base buf :
  base = 10 \/ base = 16 -> printint_digits room x base = Some buf -> Forall (fun c => 0 < c < 128) buf.
Proof.
  intros Hb. revert x buf. induction room as [|room IH]; intros x buf; [done|]. cbn [printint_digits].
  assert (Hd : 0 <= x mod base < 16) by (pose proof (Z.mod_pos_bound x base); lia). pose proof (u_digit_byte _ Hd).
  destruct (negb (x / base =? 0)).
  - destruct (printint_digits room (x / base) base) as [b|] eqn:E; [|done]. intros [= <-]. constructor; [done|by eapply IH].
  - intros [= <-]. by apply Forall_singleton.
Qed.

Lemma printint_digits_dec room x : printint_digits room x 10 = printkint_digits room x 10.
Proof.
  revert x. induction room as [|room IH]; intros x; [done|]. cbn [printint_digits printkint_digits].
  rewrite IH, u_digit_dec; [done|]. pose proof (Z.mod_pos_bound x 10). lia.
Qed.

Lemma printint_buf_dec xx sgn : printint_buf xx 10 sgn = printkint_buf xx 10 sgn.
Proof. unfold printint_buf, printkint_buf. by rewrite printint_digits_dec. Qed.

(** An unsigned numeral. *)
Lemma printint_buf_unsigned base xx :
  base = 10 \/ base = 16 ->
  exists buf, printint_buf xx base false = Some buf /\ Forall (fun c => 0 < c < 128) buf /\
    numeral base (lower <$> reverse buf) = Some (u32 xx) /\ (base = 10 -> numeral base (reverse buf) = Some (u32 xx)).
Proof.
  intros Hb. unfold printint_buf. cbn [andb]. pose proof (Z.mod_pos_bound xx (2 ^ 32) ltac:(lia)) as Hx. fold (u32 xx) in Hx.
  destruct (printkint_digits_ok base 10 16 (u32 xx)) as (kb & E & Hl & Hp & Hv); [done| |lia|].
  { change (10 ^ Z.of_nat 10) with 10000000000. lia. }
  assert (Hn : numeral base (reverse kb) = Some (u32 xx)).
  { destruct (reverse kb) as [|c cs] eqn:Er; [apply (f_equal length) in Er; rewrite length_reverse in Er; simpl in Er; lia|].
    cbn [numeral]. rewrite (proj2 (Z.eqb_neq c 45)); [done|]. apply Forall_reverse in Hp. rewrite Er in Hp. inversion Hp. lia. }
  pose proof (printint_digits_lower 16 (u32 xx) base Hb) as El. rewrite E in El.
  destruct (printint_digits 16 (u32 xx) base) as [buf|] eqn:Eb; [|done]. injection El as El. exists buf. split; [done|].
  split; [by eapply printint_digits_bytes|]. rewrite fmap_reverse, El. split; [done|]. intros ->.
  rewrite printint_digits_dec, E in Eb. injection Eb as ->. done.
Qed.

(** The digits of printptr() *)
Fixpoint ptr_digits (n : nat) (x : Z) : list Z :=
  match n with O => [] | S n' => u_digit (Z.shiftr x 60) :: ptr_digits n' (u64 (Z.shiftl x 4)) end.

Lemma ptr_digits_ok n x acc :
  0 <= x < 2 ^ 64 -> (n <= 16)%nat ->
  unsigned 16 acc (lower <$> ptr_digits n x) = Some (acc * 16 ^ Z.of_nat n + x / 2 ^ (64 - 4 * Z.of_nat n)) /\
  Forall (fun c => 0 < c < 128) (ptr_digits n x) /\ length (ptr_digits n x) = n.
Proof.
  revert x acc. induction n as [|n IH]; intros x acc Hx Hn.
  { cbn. split_and!; [|constructor|done]. f_equal. rewrite Z.div_small by lia. lia. }
  cbn [ptr_digits fmap list_fmap unsigned length]. rewrite Z.shiftr_div_pow2 by lia.
  assert (Hd : 0 <= x / 2 ^ 60 < 16) by (split; [apply Z.div_pos; lia|apply Z.div_lt_upper_bound; lia]).
  rewrite lower_digit, (digit_val_digit 16) by (lia || by right). cbn [mbind option_bind].
  assert (Eu : u64 (Z.shiftl x 4) = (x mod 2 ^ 60) * 16).
  { unfold u64. rewrite Z.shiftl_mul_pow2 by lia. change (2 ^ 64) with (2 ^ 60 * 2 ^ 4). by rewrite Z.mul_mod_distr_r by lia. }
  pose proof (Z.mod_pos_bound x (2 ^ 60) ltac:(lia)) as Hm. rewrite Eu.
  destruct (IH (x mod 2 ^ 60 * 16) (acc * 16 + x / 2 ^ 60) ltac:(lia) ltac:(lia)) as (E & Hf & Hl). split_and!.
  - etrans; [exact E|]. f_equal. rewrite Nat2Z.inj_succ, Z.pow_succ_r by lia.
    set (k := 64 - 4 * Z.succ (Z.of_nat n)). replace (64 - 4 * Z.of_nat n) with (k + 4) by lia.
    rewrite Z.pow_add_r by lia. change (2 ^ 4) with 16. rewrite Z.div_mul_cancel_r by lia.
    assert (E60 : x / 2 ^ k = x / 2 ^ 60 * 16 ^ Z.of_nat n + x mod 2 ^ 60 / 2 ^ k).
    { rewrite (Z.div_mod x (2 ^ 60)) at 1 by lia. replace (2 ^ 60) with (16 ^ Z.of_nat n * 2 ^ k) at 1.
      2: { change 16 with (2 ^ 4). rewrite <-Z.pow_mul_r, <-Z.pow_add_r by lia. f_equal. lia. }
      replace (16 ^ Z.of_nat n * 2 ^ k * (x / 2 ^ 60) + x mod 2 ^ 60) with (x / 2 ^ 60 * 16 ^ Z.of_nat n * 2 ^ k + x mod 2 ^ 60) by ring.
      apply Z.div_add_l. lia. }
    rewrite E60. ring.
  - constructor; [by apply u_digit_byte|done].
  - by rewrite Hl.
Qed.

Lemma u32_s32 v : u32 (s32 v) = u32 v.
Proof.
  unfold s32, u32. rewrite Zminus_mod, Z.mod_mod, <-Zminus_mod by lia. f_equal. lia.
Qed.

Lemma cstr_unique m a l l' : cstr m a l -> cstr m a l' -> l = l'.
Proof.
  revert a l'. induction l as [|c l IH]; intros a [|c' l']; rewrite ?cstr_nil, ?cstr_cons; [done|intros; lia..|].
  intros (E & _ & Hl) (E' & _ & Hl'). f_equal; [congruence|by eapply IH].
Qed.

Section printf.
Context `{UserEnv} (cb : Z).

(** Only output was made, on [fd], byte by byte. *)
Record emits (fd : Z) (cs : list Z) (s s' : ustate) : Prop := {
  em_in : u_in s' = u_in s;
  em_out : u_out s' = u_out s ++ ((fun c => (fd, [c])) <$> cs);
  em_mem x : x <> cb -> rd (u_mem s') x = rd (u_mem s) x;
  em_ok : mem_ok (u_mem s) -> mem_ok (u_mem s');
}.

Lemma emits_nil fd s : emits fd [] s s.
Proof. split; try done. by rewrite app_nil_r. Qed.

Lemma emits_trans fd cs cs' s s1 s2 : emits fd cs s s1 -> emits fd cs' s1 s2 -> emits fd (cs ++ cs') s s2.
Proof.
  intros [I1 O1 M1 K1] [I2 O2 M2 K2]. split; [by rewrite I2| |intros x Hx; by rewrite M2, M1|auto].
  by rewrite O2, O1, fmap_app, app_assoc.
Qed.

Lemma putc_emits fd c s : wp (putc cb fd c) (fun _ s' => emits fd [u8 c] s s') s.
Proof.
  unfold putc. apply wp_bind, wp_modify, wp_bind. eapply wp_ok; [apply sys_write_ok; lia|]. apply wp_ret.
  split; cbn [u_in u_out u_mem upd_umem]; [done| |by intros; apply rd_wr_ne|apply mem_ok_wr].
  change (Z.to_nat 1) with 1%nat. rewrite rd_bytes_S. cbn. by rewrite rd_wr_eq.
Qed.

Lemma puts_emits fd cs s : Forall byte_ok cs -> wp (for_each cs (putc cb fd)) (fun _ s' => emits fd cs s s') s.
Proof.
  intros Hcs. revert s. induction Hcs as [|c cs Hc _ IH]; intros s; [apply wp_ret, emits_nil|].
  cbn [for_each]. apply wp_bind. eapply wp_mono; [apply putc_emits|]. cbn beta. intros _ s1 E1.
  eapply wp_mono; [apply IH|]. cbn beta. intros _ s2 E2. unfold u8 in E1. rewrite Z.mod_small in E1 by apply Hc. exact (emits_trans _ _ _ _ _ _ E1 E2).
Qed.

Lemma cstr_emits fd cs s s' a l :
  emits fd cs s s' -> ~ (a <= cb <= a + Z.of_nat (length l)) -> cstr (u_mem s) a l -> cstr (u_mem s') a l.
Proof.
  intros E Ha Hs. eapply cstr_ext; [exact Hs|]. intros x Hx. apply (em_mem _ _ _ _ E). lia.
Qed.

Lemma puts_body_emits fd l : forall fuel a s,
  cstr (u_mem s) a l -> ~ (a <= cb <= a + Z.of_nat (length l)) -> (length l < fuel)%nat ->
  wp (loop fuel (puts_body cb fd) a) (fun _ s' => emits fd l s s') s.
Proof.
  induction l as [|c l IH]; intros fuel a s Hc Ha Hf; (destruct fuel as [|fuel]; [lia|]); apply wp_loop_step; unfold puts_body at 1; apply wp_bind, wp_gets.
  - apply cstr_nil in Hc as ->. apply wp_ret, emits_nil.
  - rewrite (cstr_nonzero _ _ _ _ Hc). cbn [negb]. apply cstr_cons in Hc as (-> & Hb & Hc). apply wp_bind.
    eapply wp_mono; [apply putc_emits|]. cbn beta. intros _ s1 E1. apply wp_ret. unfold u8 in E1. rewrite Z.mod_small in E1 by lia. cbn [length] in Ha, Hf.
    eapply wp_mono; [apply IH; [|lia|lia]|].
    + eapply cstr_emits; [exact E1|lia|done].
    + cbn beta. intros _ s2 E2. exact (emits_trans _ _ _ _ _ _ E1 E2).
Qed.

Lemma byte_ok_of lo cs : 0 <= lo -> Forall (fun c => lo <= c < 128) cs -> Forall byte_ok cs.
Proof. intros Hlo Hf. eapply Forall_impl; [exact Hf|]. unfold byte_ok. cbn. lia. Qed.

Lemma printint_signed_emits fd v s :
  - 2 ^ 31 <= v < 2 ^ 31 -> wp (printint cb fd v 10 true) (fun _ s' => exists cs, numeral 10 cs = Some v /\ emits fd cs s s') s.
Proof.
  intros Hv. unfold printint. rewrite printint_buf_dec. destruct (printkint_buf_ok 10 v) as (buf & -> & Hb & Hn); [by left|done|].
  eapply wp_mono; [apply puts_emits, Forall_reverse, (byte_ok_of 45); [lia|done]|]. cbn beta. eauto.
Qed.

Lemma printint_unsigned_emits fd base v s :
  base = 10 \/ base = 16 ->
  wp (printint cb fd v base false) (fun _ s' => exists cs, numeral base (lower <$> cs) = Some (u32 v) /\
    (base = 10 -> numeral base cs = Some (u32 v)) /\ emits fd cs s s') s.
Proof.
  intros Hb. unfold printint. destruct (printint_buf_unsigned base v Hb) as (buf & -> & Hf & Hn & Hn').
  eapply wp_mono; [apply puts_emits, Forall_reverse; eapply Forall_impl; [exact Hf|unfold byte_ok; cbn; lia]|]. cbn beta. eauto.
Qed.

Lemma printptr_loop_emits fd n : forall x s,
  Forall (fun c => 0 < c < 128) (ptr_digits n x) -> wp (printptr_loop cb n fd x) (fun _ s' => emits fd (ptr_digits n x) s s') s.
Proof.
  induction n as [|n IH]; intros x s Hf; [apply wp_ret, emits_nil|]. cbn [printptr_loop ptr_digits] in *.
  apply Forall_cons in Hf as [Hc Hf]. apply wp_bind. eapply wp_mono; [apply putc_emits|]. cbn beta. intros _ s1 E1.
  unfold u8 in E1. rewrite Z.mod_small in E1 by lia. eapply wp_mono; [by apply IH|]. cbn beta. intros _ s2 E2. exact (emits_trans _ _ _ _ _ _ E1 E2).
Qed.

Lemma printptr_emits fd v s :
  0 <= v < 2 ^ 64 ->
  wp (printptr cb fd v) (fun _ s' => exists cs, length cs = 16%nat /\ numeral 16 (lower <$> cs) = Some v /\ emits fd (str "0x" ++ cs) s s') s.
Proof.
  intros Hv. destruct (ptr_digits_ok 16 v 0 Hv ltac:(lia)) as (En & Hf & Hl). unfold printptr.
  apply wp_bind. eapply wp_mono; [apply putc_emits|]. cbn beta. intros _ s1 E1.
  apply wp_bind. eapply wp_mono; [apply putc_emits|]. cbn beta. intros _ s2 E2.
  eapply wp_mono; [by apply printptr_loop_emits|]. cbn beta. intros _ s3 E3. exists (ptr_digits 16 v). split; [done|]. split.
  - destruct (ptr_digits 16 v) as [|c cs] eqn:E; [done|]. cbn [fmap list_fmap numeral] in *. destruct (Z.eqb_spec (lower c) 45) as [E45|_].
    + exfalso. cbn [ptr_digits] in E. injection E as Ec _. rewrite <-Ec, lower_digit in E45.
      * assert (Hd : 0 <= Z.shiftr v 60 < 16) by (rewrite Z.shiftr_div_pow2 by lia; split; [apply Z.div_pos; lia|apply Z.div_lt_upper_bound; lia]).
        pose proof (digit_plain 16 _ ltac:(by right) Hd). lia.
      * rewrite Z.shiftr_div_pow2 by lia; split; [apply Z.div_pos; lia|apply Z.div_lt_upper_bound; lia].
    + rewrite En. f_equal. change (64 - 4 * Z.of_nat 16) with 0. rewrite Z.div_1_r. lia.
  - exact (emits_trans _ _ _ _ _ _ (emits_trans _ _ _ _ _ _ E1 E2) E3).
Qed.

(** ** vprintf() *)

Lemma shows_emits fd cs s s' fuel p out :
  emits fd cs s s' -> piece_ok cb fuel (u_mem s) p -> shows (u_mem s') p out -> shows (u_mem s) p out.
Proof.
  intros E Hp Hs. destruct Hs as [| | | | |a out Hs]; try by constructor. destruct Hp as (l & Hl & _ & Ha).
  pose proof (cstr_emits _ _ _ _ _ _ E Ha Hl) as Hl'. by rewrite (cstr_unique _ _ _ _ Hs Hl'); constructor.
Qed.

Lemma piece_ok_emits fd cs s s' fuel p : emits fd cs s s' -> piece_ok cb fuel (u_mem s) p -> piece_ok cb fuel (u_mem s') p.
Proof.
  intros E. destruct p; cbn; try done. intros (l & Hl & Hf & Ha). exists l. split_and!; [|done|done]. by eapply cstr_emits.
Qed.

Lemma wp_emits {A B} fd p (m : U A) (k : U B) Q s :
  wp m (fun _ s' => exists cs, shows (u_mem s) p cs /\ emits fd cs s s') s ->
  (forall cs s', shows (u_mem s) p cs -> emits fd cs s s' -> wp k Q s') -> wp (m;; k) Q s.
Proof. intros Hm Hk. apply wp_bind. eapply wp_mono; [exact Hm|]. cbn beta. intros _ s' (cs & Hs & E). by eapply Hk. Qed.

Lemma putc_shows fd c s : byte_ok c -> wp (putc cb fd c) (fun _ s' => exists cs, shows (u_mem s) (P_text [c]) cs /\ emits fd cs s s') s.
Proof.
  intros Hc. eapply wp_mono; [apply putc_emits|]. cbn beta. intros _ s' E. unfold u8 in E. rewrite Z.mod_small in E by apply Hc.
  exists [c]. split; [constructor|done].
Qed.

(** One conversion. *)
Lemma vprintf_conv fuel fd c fmt args p args' Q s :
  0 < c < 256 -> conv c args = Some (p, args') -> piece_ok cb fuel (u_mem s) p ->
  (forall cs s', shows (u_mem s) p cs -> emits fd cs s s' -> wp (vprintf_loop cb fuel fd fmt false args') Q s') ->
  wp (vprintf_loop cb fuel fd (c :: fmt) true args) Q s.
Proof.
  intros Hc Hconv Hp Hk. cbn [vprintf_loop negb]. rewrite (proj2 (Z.eqb_neq c 0)) by lia. unfold conv in Hconv.
  destruct (c =? 100); [|destruct (c =? 108); [|destruct (c =? 120); [|destruct (c =? 112); [|destruct (c =? 115); [|destruct (c =? 99); [|destruct (Z.eqb_spec c 37) as [->|_]]]]]]].
  - destruct args as [|[v| |] args]; try done. injection Hconv as <- <-. apply wp_bind, wp_ret. apply (wp_emits fd (P_dec v)); [|done].
    eapply wp_mono; [by apply printint_signed_emits|]. cbn beta. intros _ s' (cs & Hn & E). exists cs. split; [by constructor|done].
  - destruct args as [|[|v|] args]; try done. injection Hconv as <- <-. apply wp_bind, wp_ret. apply (wp_emits fd (P_udec (u32 v))); [|done].
    eapply wp_mono; [apply printint_unsigned_emits; by left|]. cbn beta. intros _ s' (cs & _ & Hn & E). exists cs.
    rewrite u32_s32 in Hn. split; [constructor; by apply Hn|done].
  - destruct args as [|[v| |] args]; try done. injection Hconv as <- <-. apply wp_bind, wp_ret. apply (wp_emits fd (P_hex (u32 v))); [|done].
    eapply wp_mono; [apply printint_unsigned_emits; by right|]. cbn beta. intros _ s' (cs & Hn & _ & E). exists cs. split; [by constructor|done].
  - destruct args as [|[|v|] args]; try done. injection Hconv as <- <-. apply wp_bind, wp_ret. apply (wp_emits fd (P_ptr v)); [|done].
    eapply wp_mono; [by apply printptr_emits|]. cbn beta. intros _ s' (cs & Hl & Hn & E). exists (str "0x" ++ cs). split; [by constructor|done].
  - destruct args as [|[| |a] args]; try done. injection Hconv as <- <-. apply wp_bind, wp_ret. apply (wp_emits fd (if a =? 0 then P_text (str "(null)") else P_str a)); [|done].
    destruct (a =? 0).
    + eapply wp_mono; [by apply puts_emits|]. cbn beta. intros _ s' E. eexists. split; [constructor|done].
    + destruct Hp as (l & Hl & Hf & Ha). eapply wp_mono; [by apply (puts_body_emits fd l)|]. cbn beta. intros _ s' E. exists l. split; [by constructor|done].
  - destruct args as [|[v| |] args]; try done. injection Hconv as <- <-. apply wp_bind, wp_ret. apply (wp_emits fd (P_text [u8 v])); [|done].
    eapply wp_mono; [apply putc_emits|]. cbn beta. intros _ s' E. eexists. split; [constructor|done].
  - injection Hconv as <- <-. apply (wp_emits fd (P_text [37])); [|done]. by apply putc_shows.
  - injection Hconv as <- <-. apply wp_bind. eapply wp_mono; [by apply (putc_shows fd 37)|]. cbn beta. intros _ s1 (cs1 & H1 & E1).
    apply wp_bind. eapply wp_mono; [apply (putc_shows fd c); unfold byte_ok; lia|]. cbn beta. intros _ s2 (cs2 & H2 & E2).
    inversion H1; subst. inversion H2; subst. apply (Hk [37; c]); [constructor|]. exact (emits_trans _ _ _ _ _ _ E1 E2).
Qed.

Lemma vprintf_spec fuel fd n : forall fmt args ps s,
  (length fmt <= n)%nat -> Forall (fun c => 0 < c < 256) fmt -> pieces fmt args = Some ps ->
  Forall (piece_ok cb fuel (u_mem s)) ps ->
  wp (vprintf_loop cb fuel fd fmt false args) (fun _ s' => exists css, Forall2 (shows (u_mem s)) ps css /\ emits fd (concat css) s s') s.
Proof.
  induction n as [|n IH]; intros [|c fmt] args ps s Hl Hf Hps Hok; cbn [length] in Hl; [|lia| |].
  1, 2: injection Hps as <-; apply wp_ret; exists []; split; [constructor|apply emits_nil].
  apply Forall_cons in Hf as [Hc Hf].
  assert (Hstep : forall p ps' fmt' args' cs s1, ps = p :: ps' -> (length fmt' <= n)%nat -> Forall (fun c => 0 < c < 256) fmt' ->
    pieces fmt' args' = Some ps' -> shows (u_mem s) p cs -> emits fd cs s s1 ->
    wp (vprintf_loop cb fuel fd fmt' false args') (fun _ s' => exists css, Forall2 (shows (u_mem s)) ps css /\ emits fd (concat css) s s') s1).
  { intros p ps' fmt' args' cs s1 -> Hl' Hf' Hps' Hs E. apply Forall_cons in Hok as [_ Hok].
    eapply wp_mono; [apply (IH fmt' args' ps'); [done|done|done|]|].
    - eapply Forall_impl; [exact Hok|]. intros q. by apply (piece_ok_emits fd cs).
    - cbn beta. intros _ s2 (css & Hcss & E2). exists (cs :: css). split; [|exact (emits_trans _ _ _ _ _ _ E E2)]. constructor; [done|].
      clear - Hcss Hok E. induction Hcss as [|q out ps css Hq _ IH]; [constructor|]. apply Forall_cons in Hok as [Hq' Hok].
      constructor; [by eapply shows_emits|by apply IH]. }
  cbn [pieces] in Hps. destruct (Z.eqb_spec c 37) as [->|Hne].
  - cbn [vprintf_loop]. cbn [Z.eqb negb Pos.eqb]. destruct fmt as [|d fmt].
    { injection Hps as <-. apply wp_ret. exists []. split; [constructor|apply emits_nil]. }
    apply Forall_cons in Hf as [Hd Hf]. destruct (conv d args) as [[p args']|] eqn:Econv; [|done]. cbn in Hps.
    destruct (pieces fmt args') as [ps'|] eqn:Eps; [|done]. injection Hps as <-. pose proof Hok as [Hp _]%Forall_cons.
    apply (vprintf_conv fuel fd d fmt args p args' _ s Hd Econv Hp). intros cs s' Hs E. cbn [length] in Hl. by eapply Hstep; [..|lia|done|done|done|done].
  - destruct (pieces fmt args) as [ps'|] eqn:Eps; [|done]. injection Hps as <-. cbn [vprintf_loop negb].
    rewrite (proj2 (Z.eqb_neq c 0)), (proj2 (Z.eqb_neq c 37)) by lia.
    apply (wp_emits fd (P_text [c])); [apply putc_shows; unfold byte_ok; lia|]. intros cs s' Hs E. by eapply Hstep; [..|lia|done|done|done|done].
Qed.
End printf.

(** ** Properties *)

(** C38: printf() of a format whose conversions have their arguments returns, and writes
    exactly its pieces, byte by byte, to the descriptor: a number of any size, the most
    negative int included, as a numeral that reads back to it and never overflows the digit
    buffer, a pointer as 0x and sixteen digits, a string up to its NUL.  Nothing else is
    written, and no other byte of memory changes than putc()'s parameter. *)
Theorem vprintf_correct `{UserEnv} cb fuel fd fmt args ps s :
  Forall (fun c => 0 < c < 256) fmt -> pieces fmt args = Some ps -> Forall (piece_ok cb fuel (u_mem s)) ps ->
  wp (vprintf cb fuel fd fmt args) (fun _ s' => exists css, Forall2 (shows (u_mem s)) ps css /\ emits cb fd (concat css) s s') s.
Proof. intros Hf Hp Hok. by apply (vprintf_spec cb fuel fd (length fmt)). Qed.

(** A format with a negative number, a hexadecimal one and a string *)
Definition example_pieces : list piece := [P_dec (- 2 ^ 31); P_text [32]; P_hex (2 ^ 32 - 1); P_text [32]; P_str 100; P_text [37]].

Definition example_printf : ustate := mkU (wr_bytes ∅ 100 (str "ab")) ∅ [].

Lemma vprintf_correct_witness :
  wp (vprintf (H := slow_env) 50 10 1 (str "%d %x %s%%") [V_int (- 2 ^ 31); V_int (-1); V_str 100])
    (fun _ s' => exists css, Forall2 (shows (u_mem example_printf)) example_pieces css /\ emits 50 1 (concat css) example_printf s')
    example_printf.
Proof.
  apply (vprintf_correct (H := slow_env) 50 10 1 (str "%d %x %s%%") [V_int (- 2 ^ 31); V_int (-1); V_str 100] example_pieces example_printf).
  - apply (bool_decide_unpack _). by vm_compute.
  - vm_compute. reflexivity.
  - assert (Ht : forall c, 0 <= c < 256 -> piece_ok 50 10 (u_mem example_printf) (P_text [c])) by (intros c Hc; by apply Forall_singleton).
    unfold example_pieces. repeat (apply Forall_cons; split; [first [apply Ht; lia|cbn [piece_ok]; lia|exact I|idtac]|]); [|apply Forall_nil_2].
    exists (str "ab"). split; [split; [apply (bool_decide_unpack _); by vm_compute|by vm_compute]|].
    change (length (str "ab")) with 2%nat. lia.
Defined.
