(* ===== verification/Ucmds.v ===== *)
(** * The commands of user space (user/cat.c, wc.c, echo.c, ls.c, mkdir.c, rm.c, ln.c, kill.c, init.c)

    Each command is a run on the memory of its process that ends with the status it gives
    to exit(); a function that may call exit() returns [Some] status then.  The system calls
    other than read() and write() are those of the class [UserCalls].  An argument vector is
    the list of the addresses of its strings; the addresses of a command's variables are
    arguments of its definitions. *)

From Stdlib Require Import ZArith Lia.
From stdpp Require Import base tactics numbers gmap strings option list.
From S2P Require Import Prelude Kstring Ulib Uprintf Grep.

(** ** Definitions *)

(** [files] gives the contents of the file at a path.  A process has at most 16 descriptors. *)
Class UserCalls := {
  sys_open : Z -> Z -> U Z;
  sys_close : Z -> U Z;
  sys_fstat : Z -> Z -> U Z;
  sys_mkdir : Z -> U Z;
  sys_unlink : Z -> U Z;
  sys_link : Z -> Z -> U Z;
  sys_kill : Z -> U Z;
  sys_mknod : Z -> Z -> Z -> U Z;
  sys_dup : Z -> U Z;
  sys_fork : U Z;
  sys_wait : Z -> U Z;
  sys_exec : Z -> list Z -> U Z;
  files : list Z -> option (list Z);
  sys_open_ok a mode s p : cstr (u_mem s) a p -> (size (u_in s) < 16)%nat ->
    match files p with
    | Some d => exists fd, 0 <= fd /\ u_in s !! fd = None /\
                  sys_open a mode s = Ok fd (mkU (u_mem s) (<[fd := d]> (u_in s)) (u_out s))
    | None => sys_open a mode s = Ok (-1) s
    end;
  files_bytes p d : files p = Some d -> Forall byte_ok d;
  sys_close_ok fd s : is_Some (u_in s !! fd) ->
    sys_close fd s = Ok 0 (mkU (u_mem s) (delete fd (u_in s)) (u_out s));
}.

Section commands.
(** [cb] is the address of putc()'s parameter; [sf] bounds the strings that are printed. *)
Context `{UserEnv} `{UserCalls} (cb : Z) (sf : nat).

(** A string literal with its newline *)
Definition line (s : string) : list Z := str s ++ [10].

(** *** ulib.c: int stat(const char *n, struct stat *st) *)
Definition u_stat (n st : Z) : U Z :=
  fd ← sys_open n 0;
  if fd <? 0 then mret (-1)
  else
    r ← sys_fstat fd st;
    sys_close fd;;
    mret r.

(** *** ulib.c: void _main(), the entry of a program; [main] ends with the status it gives
    to exit(), or returns *)
Definition u_main (main : U (option Z)) : U Z :=
  r ← main;
  match r with Some st => mret st | None => mret 0 end.

(** *** cat.c; [buf] is the address of buf[512] *)
Definition cat_body (buf fd : Z) (_ : unit) : U (unit + option Z) :=
  n ← sys_read fd buf 512;
  if 0 <? n then
    w ← sys_write 1 buf n;
    if negb (w =? n) then
      fprintf cb sf 2 (line "cat: write error") [];;
      mret (inr (Some 1))
    else mret (inl tt)
  else if n <? 0 then
    fprintf cb sf 2 (line "cat: read error") [];;
    mret (inr (Some 1))
  else mret (inr None).

Definition cat (fuel : nat) (buf fd : Z) : U (option Z) := loop fuel (cat_body buf fd) tt.

Definition cat_args_body (fuel : nat) (buf : Z) (args : list Z) : U (list Z + Z) :=
  match args with
  | [] => mret (inr 0)
  | a :: args =>
      fd ← sys_open a 0;
      if fd <? 0 then
        fprintf cb sf 2 (line "cat: cannot open %s") [V_str a];;
        mret (inr 1)
      else
        r ← cat fuel buf fd;
        match r with
        | Some st => mret (inr st)
        | None => sys_close fd;; mret (inl args)
        end
  end.

Definition cat_main (fuel : nat) (buf : Z) (argv : list Z) : U Z :=
  if (length argv <=? 1)%nat then
    r ← cat fuel buf 0;
    mret (default 0 r)
  else loop (S (length argv)) (cat_args_body fuel buf) (drop 1 argv).

(** *** wc.c; [buf] is the address of buf[512], [ws] of the string of white space *)
Record counts := mkCounts { wc_l : Z; wc_w : Z; wc_c : Z; wc_inword : bool }.

(** The loop over the bytes that were read *)
Fixpoint wc_scan (m : gmap Z Z) (ws a : Z) (n : nat) (k : counts) : option counts :=
  match n with
  | O => Some k
  | S n' =>
      let b := rd m a in
      let c := s32 (wc_c k + 1) in
      let l := if b =? 10 then s32 (wc_l k + 1) else wc_l k in
      q ← strchr 6 m ws b;
      if negb (q =? 0) then wc_scan m ws (a + 1) n' (mkCounts l (wc_w k) c false)
      else if negb (wc_inword k) then wc_scan m ws (a + 1) n' (mkCounts l (s32 (wc_w k + 1)) c true)
      else wc_scan m ws (a + 1) n' (mkCounts l (wc_w k) c (wc_inword k))
  end.

Definition wc_body (buf ws fd : Z) (k : counts) : U (counts + (counts + Z)) :=
  n ← sys_read fd buf 512;
  if 0 <? n then
    m ← gets u_mem;
    k' ← fueled (wc_scan m ws buf (Z.to_nat n) k);
    mret (inl k')
  else if n <? 0 then
    printf cb sf (line "wc: read error") [];;
    mret (inr (inr 1))
  else mret (inr (inl k)).

Definition wc (fuel : nat) (buf ws fd name : Z) : U (option Z) :=
  r ← loop fuel (wc_body buf ws fd) (mkCounts 0 0 0 false);
  match r with
  | inr st => mret (Some st)
  | inl k =>
      printf cb sf (line "%d %d %d %s") [V_int (wc_l k); V_int (wc_w k); V_int (wc_c k); V_str name];;
      mret None
  end.

Definition wc_args_body (fuel : nat) (buf ws : Z) (args : list Z) : U (list Z + Z) :=
  match args with
  | [] => mret (inr 0)
  | a :: args =>
      fd ← sys_open a 0;
      if fd <? 0 then
        printf cb sf (line "wc: cannot open %s") [V_str a];;
        mret (inr 1)
      else
        r ← wc fuel buf ws fd a;
        match r with
        | Some st => mret (inr st)
        | None => sys_close fd;; mret (inl args)
        end
  end.

(** [empty] is the address of an empty string. *)
Definition wc_main (fuel : nat) (buf ws empty : Z) (argv : list Z) : U Z :=
  if (length argv <=? 1)%nat then
    r ← wc fuel buf ws 0 empty;
    mret (default 0 r)
  else loop (S (length argv)) (wc_args_body fuel buf ws) (drop 1 argv).

(** *** grep.c: main() *)
Definition grep_args_body (fuel : nat) (buf pattern : Z) (args : list Z) : U (list Z + Z) :=
  match args with
  | [] => mret (inr 0)
  | a :: args =>
      fd ← sys_open a 0;
      if fd <? 0 then
        printf cb sf (line "grep: cannot open %s") [V_str a];;
        mret (inr 1)
      else
        grep buf fuel pattern fd;;
        sys_close fd;;
        mret (inl args)
  end.

Definition grep_main (fuel : nat) (buf : Z) (argv : list Z) : U Z :=
  match argv with
  | [] | [_] =>
      fprintf cb sf 2 (line "usage: grep pattern [file ...]") [];;
      mret 1
  | [_; pattern] =>
      grep buf fuel pattern 0;;
      mret 0
  | _ :: pattern :: args => loop (S (length args)) (grep_args_body fuel buf pattern) args
  end.

(** *** echo.c; [sp] and [nl] are the addresses of its literals *)
Fixpoint echo_args (sp nl : Z) (args : list Z) : U unit :=
  match args with
  | [] => mret tt
  | a :: args =>
      m ← gets u_mem;
      n ← fueled (u_strlen sf m a 0);
      sys_write 1 a n;;
      (if (0 <? length args)%nat then sys_write 1 sp 1 else sys_write 1 nl 1);;
      echo_args sp nl args
  end.

Definition echo_main (sp nl : Z) (argv : list Z) : U Z :=
  echo_args sp nl (drop 1 argv);;
  mret 0.

(** *** mkdir.c *)
Fixpoint mkdir_args (args : list Z) : U unit :=
  match args with
  | [] => mret tt
  | a :: args =>
      r ← sys_mkdir a;
      if r <? 0 then fprintf cb sf 2 (line "mkdir: %s failed to create") [V_str a]
      else mkdir_args args
  end.

Definition mkdir_main (argv : list Z) : U Z :=
  if (length argv <? 2)%nat then
    fprintf cb sf 2 (line "Usage: mkdir files...") [];;
    mret 1
  else
    mkdir_args (drop 1 argv);;
    mret 0.

(** *** rm.c *)
Fixpoint rm_args (args : list Z) : U unit :=
  match args with
  | [] => mret tt
  | a :: args =>
      r ← sys_unlink a;
      if r <? 0 then fprintf cb sf 2 (line "rm: %s failed to delete") [V_str a]
      else rm_args args
  end.

Definition rm_main (argv : list Z) : U Z :=
  if (length argv <? 2)%nat then
    fprintf cb sf 2 (line "Usage: rm files...") [];;
    mret 1
  else
    rm_args (drop 1 argv);;
    mret 0.

(** *** ln.c *)
Definition ln_main (argv : list Z) : U Z :=
  match argv with
  | [_; old; new] =>
      r ← sys_link old new;
      when (r <? 0) (fprintf cb sf 2 (line "link %s %s: failed") [V_str old; V_str new]);;
      mret 0
  | _ =>
      fprintf cb sf 2 (line "Usage: ln old new") [];;
      mret 1
  end.

(** *** kill.c *)
Definition kill_main (argv : list Z) : U Z :=
  if (length argv <? 2)%nat then
    fprintf cb sf 2 (line "usage: kill pid...") [];;
    mret 1
  else
    for_each (drop 1 argv) (fun a =>
      m ← gets u_mem;
      pid ← fueled (atoi sf m a 0);
      sys_kill pid;;
      mret tt);;
    mret 0.

(** *** ls.c *)

(** The fields of struct stat at the address [st] *)
Definition st_ino (m : gmap Z Z) (st : Z) : Z := le_combine (rd_bytes m (st + 4) 4).
Definition st_type (m : gmap Z Z) (st : Z) : Z := s16 (le_combine (rd_bytes m (st + 8) 2)).
Definition st_size (m : gmap Z Z) (st : Z) : Z := le_combine (rd_bytes m (st + 16) 8).

(** The loop that finds the last slash *)
Fixpoint last_slash (m : gmap Z Z) (path : Z) (n : nat) (p : Z) : Z :=
  match n with
  | O => p
  | S n' => if (path <=? p) && negb (rd m p =? 47) then last_slash m path n' (p - 1) else p
  end.

(** char *fmtname(char *path); [fbuf] is its static buffer of DIRSIZ + 1 = 15 bytes *)
Definition fmtname (fbuf path : Z) : U Z :=
  m ← gets u_mem;
  n ← fueled (u_strlen sf m path 0);
  let p := last_slash m path (Z.to_nat n + 2) (path + n) + 1 in
  k ← fueled (u_strlen sf m p 0);
  if 14 <=? k then mret p
  else
    modify (upd_umem (fun m => u_memmove m fbuf p k));;
    m ← gets u_mem;
    k' ← fueled (u_strlen sf m p 0);
    modify (upd_umem (fun m => u_memset m (fbuf + k') 32 (14 - k')));;
    mret fbuf.

(** The loop of ls() over a directory: [buf] holds the path, to which names are added at
    [p]; [de] and [st] are its struct dirent and struct stat *)
Definition ls_dir_body (fbuf buf p de st fd : Z) (_ : unit) : U (unit + unit) :=
  n ← sys_read fd de 16;
  if negb (n =? 16) then mret (inr tt)
  else
    inum ← gets (fun s => le_combine (rd_bytes (u_mem s) de 2));
    if inum =? 0 then mret (inl tt)
    else
      modify (upd_umem (fun m => u_memmove m p (de + 2) 14));;
      modify (upd_umem (fun m => wr m (p + 14) 0));;
      r ← u_stat buf st;
      if r <? 0 then
        printf cb sf (line "ls: cannot stat %s") [V_str buf];;
        mret (inl tt)
      else
        name ← fmtname fbuf buf;
        m ← gets u_mem;
        printf cb sf (line "%s %d %d %d")
          [V_str name; V_int (st_type m st); V_int (s32 (st_ino m st)); V_int (s32 (st_size m st))];;
        mret (inl tt).

(** void ls(char *path) *)
Definition ls (fuel : nat) (fbuf buf de st path : Z) : U unit :=
  fd ← sys_open path 0;
  if fd <? 0 then fprintf cb sf 2 (line "ls: cannot open %s") [V_str path]
  else
    r ← sys_fstat fd st;
    if r <? 0 then
      fprintf cb sf 2 (line "ls: cannot stat %s") [V_str path];;
      sys_close fd;;
      mret tt
    else
      m ← gets u_mem;
      (if (st_type m st =? 3) || (st_type m st =? 2) then
         name ← fmtname fbuf path;
         m ← gets u_mem;
         printf cb sf (line "%s %d %d %l")
           [V_str name; V_int (st_type m st); V_int (s32 (st_ino m st)); V_u64 (st_size m st)]
       else if st_type m st =? 1 then
         n ← fueled (u_strlen sf m path 0);
         if 512 <? n + 1 + 14 + 1 then printf cb sf (line "ls: path too long") []
         else
           m ← fueled (strcpy sf m buf path);
           modify (upd_umem (fun _ => m));;
           n ← fueled (u_strlen sf m buf 0);
           let p := buf + n in
           modify (upd_umem (fun m => wr m p 47));;
           loop fuel (ls_dir_body fbuf buf (p + 1) de st fd) tt
       else mret tt);;
      sys_close fd;;
      mret tt.

(** [dot] is the address of its literal. *)
Definition ls_main (fuel : nat) (fbuf buf de st dot : Z) (argv : list Z) : U Z :=
  (if (length argv <? 2)%nat then ls fuel fbuf buf de st dot
   else for_each (drop 1 argv) (ls fuel fbuf buf de st));;
  mret 0.

(** *** init.c; [console] and [sh] are the addresses of its literals *)

(** The loop around wait(): whether the shell ended, or the status of exit() *)
Definition init_wait_body (pid : Z) (_ : unit) : U (unit + option Z) :=
  wpid ← sys_wait 0;
  if wpid =? pid then mret (inr None)
  else if wpid <? 0 then
    printf cb sf (line "init: wait returned an error") [];;
    mret (inr (Some 1))
  else mret (inl tt).

(** One round of the outer loop; exec() returns only when it fails. *)
Definition init_body (fuel : nat) (sh : Z) (_ : unit) : U (unit + Z) :=
  printf cb sf (line "init: starting sh") [];;
  pid ← sys_fork;
  if pid <? 0 then
    printf cb sf (line "init: fork failed") [];;
    mret (inr 1)
  else if pid =? 0 then
    sys_exec sh [sh];;
    printf cb sf (line "init: exec sh failed") [];;
    mret (inr 1)
  else
    r ← loop fuel (init_wait_body pid) tt;
    match r with None => mret (inl tt) | Some st => mret (inr st) end.

Definition init_main (fuel : nat) (console sh : Z) : U Z :=
  fd ← sys_open console 2;
  when (fd <? 0) (sys_mknod console 1 0;; sys_open console 2;; mret tt);;
  sys_dup 0;;
  sys_dup 0;;
  loop fuel (init_body fuel sh) tt.

End commands.
