(* ===== verification/UcmdsProps.v ===== *)
(** * Correctness of the commands of user space (user/cat.c, wc.c, echo.c, ls.c)

    What a command has written to a descriptor is the concatenation of its writes.  cat
    copies its files to the standard output; wc prints the numbers of lines, words and
    bytes, where a word is a maximal run of bytes that are not white space; echo prints its
    arguments; fmtname() of ls pads the last component of a path. *)

From Stdlib Require Import ZArith Lia.
From stdpp Require Import base tactics numbers gmap strings option list.
From S2P Require Import Prelude Kstring Printf Ulib UlibProps Grep Uprintf Ucmds.

(** ** Specification *)

(** The bytes written to [fd] *)
Definition outputs (fd : Z) (o : list (Z * list Z)) : list Z := concat (snd <$> filter (fun e => e.1 = fd) o).

(** What cat of the files at the paths writes, and its status: it stops at the first file
    that cannot be opened. *)
Fixpoint cat_out `{UserCalls} (ps : list (list Z)) : list Z * Z :=
  match ps with
  | [] => ([], 0)
  | p :: ps =>
      match files p with
      | None => ([], 1)
      | Some d => let '(o, st) := cat_out ps in (d ++ o, st)
      end
  end.

Definition space (b : Z) : bool := bool_decide (b ∈ [32; 13; 9; 10; 11]).

(** The words of a text *)
Fixpoint word_list (data : list Z) : list (list Z) :=
  match data with
  | [] => []
  | b :: r =>
      if space b then word_list r
      else match r with
           | c :: _ => if space c then [b] :: word_list r
                       else match word_list r with w :: ws => (b :: w) :: ws | [] => [[b]] end
           | [] => [[b]]
           end
  end.

(** The newlines of a text *)
Definition newlines (data : list Z) : nat := length (filter (fun b => b = 10) data).

(** ** Lemmas: output *)

Lemma outputs_app fd o1 o2 : outputs fd (o1 ++ o2) = outputs fd o1 ++ outputs fd o2.
Proof. unfold outputs. by rewrite filter_app, fmap_app, concat_app. Qed.

Lemma outputs_one fd fd' bs : outputs fd [(fd', bs)] = if decide (fd' = fd) then bs else [].
Proof. unfold outputs. rewrite filter_cons. cbn. destruct (decide (fd' = fd)); cbn; by rewrite ?app_nil_r. Qed.

Lemma outputs_cons fd e o : outputs fd (e :: o) = outputs fd [e] ++ outputs fd o.
Proof. apply (outputs_app fd [e]). Qed.

Lemma outputs_bytes fd fd' cs : outputs fd ((fun c => (fd', [c])) <$> cs) = if decide (fd' = fd) then cs else [].
Proof.
  induction cs as [|c cs IH]; [by destruct (decide _)|]. rewrite fmap_cons, outputs_cons, IH, outputs_one. by destruct (decide (fd' = fd)).
Qed.

Lemma emits_outputs cb fd fd' cs s s' :
  emits cb fd cs s s' -> outputs fd' (u_out s') = outputs fd' (u_out s) ++ if decide (fd = fd') then cs else [].
Proof. intros E. by rewrite (em_out _ _ _ _ _ E), outputs_app, outputs_bytes. Qed.

(** ** Lemmas: counting *)

(** A byte of the loop of wc() *)
Definition wc_step (k : counts) (b : Z) : counts :=
  mkCounts (if b =? 10 then s32 (wc_l k + 1) else wc_l k)
    (if space b || wc_inword k then wc_w k else s32 (wc_w k + 1)) (s32 (wc_c k + 1)) (negb (space b)).

Definition white : list Z := [32; 13; 9; 10; 11].

Lemma strchr_zero fuel m a l : cstr m a l -> (length l < fuel)%nat -> strchr fuel m a 0 = Some 0.
Proof.
  revert a l. induction fuel as [|fuel IH]; intros a l Hs Hf; [lia|]. cbn [strchr]. destruct l as [|b l].
  - apply cstr_nil in Hs. by rewrite Hs.
  - rewrite (cstr_nonzero _ _ _ _ Hs). cbn [negb]. apply cstr_cons in Hs as (_ & _ & Hs). apply (IH (a + 1) l); [done|cbn in Hf; lia].
Qed.

Lemma strchr_space m ws b : cstr m ws white -> 0 < ws -> exists q, strchr 6 m ws b = Some q /\ (q =? 0) = negb (space b).
Proof.
  intros Hw Hp. destruct (decide (b = 0)) as [->|Hb]; [exists 0; split; [|done]; by apply (strchr_zero _ _ _ white); [|cbn; lia]|].
  rewrite (strchr_spec 6 m ws white b) by (done || cbn; lia). eexists. split; [done|]. unfold space, white. cbn [find_index].
  do 5 (match goal with |- context [b =? ?c] => destruct (Z.eqb_spec b c) as [->|?]; [cbn; apply Z.eqb_neq; lia|] end). cbn. symmetry. apply negb_true_iff, bool_decide_eq_false. set_solver.
Qed.

Lemma wc_scan_spec m ws data : forall a k,
  cstr m ws white -> 0 < ws -> rd_bytes m a (length data) = data -> wc_scan m ws a (length data) k = Some (foldl wc_step k data).
Proof.
  induction data as [|b data IH]; intros a k Hw Hp Hd; [done|]. cbn [length] in Hd. rewrite rd_bytes_S in Hd. injection Hd as Eb Hd.
  cbn [length wc_scan foldl]. rewrite Eb. destruct (strchr_space m ws b Hw Hp) as (q & -> & Eq). cbn [mbind option_bind]. rewrite Eq, negb_involutive.
  rewrite !IH by done. destruct (space b) eqn:Es; [|destruct (wc_inword k) eqn:Ei]; cbn [negb]; do 2 f_equal; unfold wc_step; by rewrite Es, ?Ei.
Qed.

(** Whether a text begins with a word *)
Definition head_word (data : list Z) : bool := match data with c :: _ => negb (space c) | [] => false end.

Lemma length_word_list b r :
  length (word_list (b :: r)) = (length (word_list r) + if negb (space b) && negb (head_word r) then 1 else 0)%nat.
Proof.
  cbn [word_list]. destruct (space b) eqn:Eb; cbn [negb andb]; [lia|]. destruct r as [|c r']; [done|]. cbn [head_word]. rewrite negb_involutive.
  destruct (space c) eqn:Ec; [cbn [length]; lia|]. cbn [word_list]. rewrite Ec.
  destruct r' as [|d r']; [done|]. destruct (space d); [cbn; lia|]. destruct (word_list (d :: r')); cbn; lia.
Qed.

Lemma foldl_wc data : forall k,
  0 <= wc_l k <= wc_c k -> 0 <= wc_w k <= wc_c k -> wc_c k + Z.of_nat (length data) < 2 ^ 31 ->
  let k' := foldl wc_step k data in
  wc_l k' = wc_l k + Z.of_nat (newlines data) /\ wc_c k' = wc_c k + Z.of_nat (length data) /\
  wc_w k' = wc_w k + Z.of_nat (length (word_list data)) - (if wc_inword k && head_word data then 1 else 0).
Proof.
  induction data as [|b data IH]; intros k Hl Hw Hc k'; [cbn; rewrite andb_false_r; lia|].
  rewrite length_word_list. unfold newlines. rewrite filter_cons. fold (newlines data). cbn [length] in Hc |- *. subst k'. cbn [foldl head_word].
  assert (Hs : forall x, 0 <= x <= wc_c k -> s32 (x + 1) = x + 1) by (intros x Hx; apply s32_small; lia).
  destruct (IH (wc_step k b)) as (-> & -> & ->); unfold wc_step; cbn [wc_l wc_w wc_c wc_inword]; rewrite ?Hs by lia.
  - destruct (b =? 10); lia.
  - destruct (space b || wc_inword k); lia.
  - lia.
  - split_and!; [destruct (Z.eqb_spec b 10), (decide (b = 10)); cbn; unfold newlines; lia|lia|].
    destruct (space b), (wc_inword k), (head_word data); cbn; lia.
Qed.

Section commands.
Context `{UserEnv} `{UserCalls} (cb : Z) (sf : nat).

(** ** Lemmas: cat *)

(** The memory outside the buffer is unchanged. *)
Definition same_but (buf : Z) (m m' : gmap Z Z) : Prop := forall x, ~ (buf <= x < buf + 512) -> x <> cb -> rd m' x = rd m x.

Lemma cat_spec buf fd data : forall fuel s,
  u_in s !! fd = Some data -> Forall byte_ok data -> (length data < fuel)%nat ->
  wp (cat cb sf fuel buf fd) (fun r s' => r = None /\ u_in s' = <[fd := []]> (u_in s) /\
    outputs 1 (u_out s') = outputs 1 (u_out s) ++ data /\ same_but buf (u_mem s) (u_mem s')) s.
Proof.
  unfold cat. remember (length data) as n eqn:En. revert data En. induction n as [n IH] using lt_wf_ind. intros data -> fuel s Hfd Hb Hf.
  destruct fuel as [|fuel]; [lia|]. apply wp_loop_step. unfold cat_body at 1. apply wp_bind.
  destruct (sys_read_ok fd buf 512 s data Hfd ltac:(lia)) as (k & Hk & Hkl & Hk0 & E). apply (wp_ok _ _ _ _ _ E).
  destruct (decide (k = 0%nat)) as [->|Hne].
  - cbn [Z.of_nat Z.ltb Z.compare]. apply wp_ret. assert (data = []) as ->.
    { destruct data; [done|]. specialize (Hk0 ltac:(lia) ltac:(done)). lia. }
    cbn [u_in u_out u_mem take drop wr_bytes]. split_and!; [done|done|by rewrite app_nil_r|by intros ???].
  - rewrite (proj2 (Z.ltb_lt 0 _)) by lia. apply wp_bind. eapply wp_ok; [apply sys_write_ok; lia|].
    rewrite Z.eqb_refl. cbn [negb]. apply wp_ret. rewrite Nat2Z.id. cbn [u_mem u_in u_out].
    assert (Er : rd_bytes (wr_bytes (u_mem s) buf (take k data)) buf k = take k data).
    { rewrite <-(firstn_length_le data Hkl) at 2. apply rd_bytes_wr_bytes. by apply Forall_take. }
    rewrite Er. eapply wp_mono; [apply (IH (length (drop k data)) ltac:(rewrite length_drop; lia) (drop k data) eq_refl fuel)|].
    + cbn [u_in]. apply lookup_insert_eq.
    + by apply Forall_drop.
    + rewrite length_drop. lia.
    + cbn beta. intros r s' (-> & Hin & Hout & Hm). cbn [u_in u_out u_mem] in *. split_and!; [done| | |].
      * by rewrite Hin, insert_insert_eq.
      * rewrite Hout, outputs_app, outputs_one, decide_True by done. by rewrite <-app_assoc, take_drop.
      * intros x Hx Hc. rewrite Hm by done. rewrite rd_wr_bytes, decide_False; [done| |by apply Forall_take]. rewrite length_take. lia.
Qed.

(** An argument: a string apart from what the command writes to *)
Record arg_ok (buf : Z) (m : gmap Z Z) (a : Z) (p : list Z) : Prop := {
  ar_str : cstr m a p;
  ar_len : (length p < sf)%nat;
  ar_null : a <> 0;
  ar_apart x : a <= x <= a + Z.of_nat (length p) -> x <> cb /\ ~ (buf <= x < buf + 512);
}.

Lemma arg_ok_same buf m m' a p : same_but buf m m' -> arg_ok buf m a p -> arg_ok buf m' a p.
Proof.
  intros Hm [Hs Hl Hn Ha]. split; [|done|done|done]. eapply cstr_ext; [exact Hs|]. intros x Hx. destruct (Ha x Hx). by apply Hm.
Qed.

Lemma arg_piece buf m a p : arg_ok buf m a p -> piece_ok cb sf m (if a =? 0 then P_text (str "(null)") else P_str a).
Proof.
  intros [Hs Hl Hn Ha]. rewrite (proj2 (Z.eqb_neq a 0)) by done. exists p. split_and!; [done|done|]. intros Hc. by destruct (Ha cb Hc).
Qed.

Lemma vprintf_emits fd fmt args ps s :
  Forall (fun c => 0 < c < 256) fmt -> pieces fmt args = Some ps -> Forall (piece_ok cb sf (u_mem s)) ps ->
  wp (vprintf cb sf fd fmt args) (fun _ s' => exists css, Forall2 (shows (u_mem s)) ps css /\ emits cb fd (concat css) s s') s.
Proof. intros Hf Hp Hok. by apply (vprintf_spec cb sf fd (length fmt)). Qed.

(** One of the messages. *)
Lemma cat_message_emits buf a p s :
  arg_ok buf (u_mem s) a p ->
  wp (fprintf cb sf 2 (line "cat: cannot open %s") [V_str a]) (fun _ s' => u_in s' = u_in s /\ outputs 1 (u_out s') = outputs 1 (u_out s)) s.
Proof.
  intros Ha. pose proof (arg_piece _ _ _ _ Ha) as Hp. eapply wp_mono; [eapply vprintf_emits; [|vm_compute; reflexivity|]|].
  - apply (bool_decide_unpack _). by vm_compute.
  - repeat (apply Forall_cons; split; [first [exact Hp|apply Forall_singleton; split; by vm_compute]|]). apply Forall_nil_2.
  - cbn beta. intros _ s' (css & _ & E). split; [apply E|]. rewrite (emits_outputs _ _ 1 _ _ _ E), decide_False by done. apply app_nil_r.
Qed.

Lemma cat_args_spec fuel buf ps : forall args s n,
  Forall2 (arg_ok buf (u_mem s)) args ps -> (size (u_in s) < 16)%nat -> (length args < n)%nat ->
  (forall p d, p ∈ ps -> files p = Some d -> (length d < fuel)%nat) ->
  wp (loop n (cat_args_body cb sf fuel buf) args) (fun st s' =>
    st = (cat_out ps).2 /\ outputs 1 (u_out s') = outputs 1 (u_out s) ++ (cat_out ps).1) s.
Proof.
  induction ps as [|p ps IH]; intros args s n Ha Hn Hl Hd; (destruct n as [|n]; [lia|]); apply wp_loop_step.
  { apply Forall2_nil_inv_r in Ha as ->. apply wp_ret. cbn. by rewrite app_nil_r. }
  apply Forall2_cons_inv_r in Ha as (a & args' & Hap & Ha & ->). unfold cat_args_body at 1. apply wp_bind. cbn [cat_out].
  pose proof (sys_open_ok a 0 s p (ar_str _ _ _ _ Hap) Hn) as Ho. destruct (files p) as [d|] eqn:Ep.
  - destruct Ho as (fd & Hfd & Hnone & E). apply (wp_ok _ _ _ _ _ E). rewrite (proj2 (Z.ltb_ge fd 0)) by lia. apply wp_bind.
    eapply wp_mono; [apply (cat_spec buf fd d fuel)|].
    + apply lookup_insert_eq.
    + by eapply files_bytes.
    + apply (Hd p d); [apply list_elem_of_here|done].
    + cbn beta. cbn [u_in u_out u_mem]. intros r s' (-> & Hin & Hout & Hm). rewrite insert_insert_eq in Hin. apply wp_bind.
      eapply wp_ok; [apply sys_close_ok; rewrite Hin, lookup_insert_eq; eauto|]. apply wp_ret.
      eapply wp_mono; [apply (IH args' _ n)|].
      * cbn [u_mem]. eapply Forall2_impl; [exact Ha|]. intros b q. by apply arg_ok_same.
      * cbn [u_in]. by rewrite Hin, delete_insert_id.
      * cbn [length] in Hl. lia.
      * intros q e Hq. apply Hd. by apply list_elem_of_further.
      * cbn beta. cbn [u_out]. intros st s2 [-> Hout2]. rewrite Hout2, Hout. destruct (cat_out ps) as [o st]. cbn [fst snd].
        by rewrite <-app_assoc.
  - apply (wp_ok _ _ _ _ _ Ho). cbn [Z.ltb Z.compare]. apply wp_bind. eapply wp_mono; [by apply (cat_message_emits buf a p)|].
    cbn beta. intros _ s' [_ Hout]. apply wp_ret. cbn. by rewrite Hout, app_nil_r.
Qed.

(** ** Lemmas: wc *)

Lemma wc_loop_spec buf ws fd data : forall fuel k s,
  u_in s !! fd = Some data -> Forall byte_ok data -> (length data < fuel)%nat -> 0 < ws ->
  cstr (u_mem s) ws white -> ws + 5 < buf \/ buf + 512 <= ws ->
  wp (loop fuel (wc_body cb sf buf ws fd) k) (fun r s' => r = inl (foldl wc_step k data) /\ u_in s' = <[fd := []]> (u_in s) /\
    u_out s' = u_out s /\ same_but buf (u_mem s) (u_mem s')) s.
Proof.
  remember (length data) as n eqn:En. revert data En. induction n as [n IH] using lt_wf_ind. intros data -> fuel k s Hfd Hb Hf Hp Hw Ha.
  destruct fuel as [|fuel]; [lia|]. apply wp_loop_step. unfold wc_body at 1. apply wp_bind.
  destruct (sys_read_ok fd buf 512 s data Hfd ltac:(lia)) as (j & Hj & Hjl & Hj0 & E). apply (wp_ok _ _ _ _ _ E).
  destruct (decide (j = 0%nat)) as [->|Hne].
  - cbn [Z.of_nat Z.ltb Z.compare]. apply wp_ret. assert (data = []) as ->.
    { destruct data; [done|]. specialize (Hj0 ltac:(lia) ltac:(done)). lia. }
    cbn [u_in u_out u_mem take drop wr_bytes]. split_and!; [done|done|done|by intros ???].
  - rewrite (proj2 (Z.ltb_lt 0 _)) by lia. apply wp_bind, wp_gets. cbn [u_mem]. rewrite Nat2Z.id.
    set (m := wr_bytes (u_mem s) buf (take j data)). assert (El : length (take j data) = j) by (rewrite length_take; lia).
    assert (Hm : same_but buf (u_mem s) m).
    { intros x Hx _. unfold m. rewrite rd_wr_bytes, decide_False; [done|lia|by apply Forall_take]. }
    assert (Hwm : cstr m ws white).
    { eapply cstr_ext; [exact Hw|]. change (Z.of_nat (length white)) with 5. intros x Hx. unfold m.
      rewrite rd_wr_bytes, decide_False; [done|lia|by apply Forall_take]. }
    assert (Hs : wc_scan m ws buf j k = Some (foldl wc_step k (take j data))).
    { rewrite <-El at 1. apply wc_scan_spec; [done|done|]. apply rd_bytes_wr_bytes. by apply Forall_take. }
    rewrite Hs. cbn [fueled]. apply wp_bind, wp_ret, wp_ret.
    eapply wp_mono; [apply (IH (length (drop j data)) ltac:(rewrite length_drop; lia) (drop j data) eq_refl fuel); try done|].
    + apply lookup_insert_eq.
    + by apply Forall_drop.
    + rewrite length_drop. lia.
    + cbn beta. intros r s' (-> & Hin & Hout & Hm'). cbn [u_in u_out u_mem] in *. split_and!; [|by rewrite Hin, insert_insert_eq|done|].
      * by rewrite <-foldl_app, take_drop.
      * intros x Hx Hc. rewrite Hm' by done. by apply Hm.
Qed.

(** The line that wc() prints *)
Definition wc_line (data name : list Z) (out : list Z) : Prop :=
  exists ls ws cs, out = ls ++ [32] ++ ws ++ [32] ++ cs ++ [32] ++ name ++ [10] /\
    numeral 10 ls = Some (Z.of_nat (newlines data)) /\ numeral 10 ws = Some (Z.of_nat (length (word_list data))) /\
    numeral 10 cs = Some (Z.of_nat (length data)).

Lemma wc_print_spec buf l w c name nm s :
  0 <= l < 2 ^ 31 -> 0 <= w < 2 ^ 31 -> 0 <= c < 2 ^ 31 -> arg_ok buf (u_mem s) name nm ->
  wp (printf cb sf (line "%d %d %d %s") [V_int l; V_int w; V_int c; V_str name]) (fun _ s' =>
    exists ls ws cs, numeral 10 ls = Some l /\ numeral 10 ws = Some w /\ numeral 10 cs = Some c /\
      emits cb 1 (ls ++ [32] ++ ws ++ [32] ++ cs ++ [32] ++ nm ++ [10]) s s') s.
Proof.
  intros Hl Hw Hc Ha. pose proof (arg_piece _ _ _ _ Ha) as Hp.
  assert (Et : forall c, 0 <= c < 256 -> piece_ok cb sf (u_mem s) (P_text [c])) by (intros d Hd; by apply Forall_singleton).
  rewrite (proj2 (Z.eqb_neq name 0)) in Hp by apply Ha.
  assert (Eps : pieces (line "%d %d %d %s") [V_int l; V_int w; V_int c; V_str name] =
                Some [P_dec l; P_text [32]; P_dec w; P_text [32]; P_dec c; P_text [32]; P_str name; P_text [10]]).
  { change (line "%d %d %d %s") with [37; 100; 32; 37; 100; 32; 37; 100; 32; 37; 115; 10]. cbn. by rewrite (proj2 (Z.eqb_neq name 0)) by apply Ha. }
  eapply wp_mono; [eapply vprintf_emits; [apply (bool_decide_unpack _); by vm_compute|exact Eps|]|].
  - repeat (apply Forall_cons; split; [first [exact Hp|apply Et; lia|cbn [piece_ok]; lia]|]). apply Forall_nil_2.
  - cbn beta. intros _ s' (css & Hcss & E).
    repeat match goal with H : Forall2 _ (_ :: _) _ |- _ => apply Forall2_cons_inv_l in H as (? & ? & ?Hs & ? & ->) | H : Forall2 _ [] _ |- _ => apply Forall2_nil_inv_l in H as -> end.
    repeat match goal with H : shows _ (P_text _) _ |- _ => inversion H; clear H; subst | H : shows _ (P_dec _) _ |- _ => inversion H; clear H; subst | H : shows _ (P_str _) _ |- _ => inversion H; clear H; subst end.
    assert (En : x5 = nm) by (by eapply cstr_unique; [|apply Ha]). subst.
    eexists _, _, _. split_and!; [done..|]. exact E.
Qed.

(** ** Lemmas: echo and ls *)

(** What echo writes: its arguments with a space between them and a newline at the end *)
Fixpoint echo_out (ps : list (list Z)) : list Z :=
  match ps with
  | [] => []
  | [p] => p ++ [10]
  | p :: ps => p ++ [32] ++ echo_out ps
  end.

Lemma write_outputs fd a n s bs :
  0 <= n -> rd_bytes (u_mem s) a (Z.to_nat n) = bs ->
  wp (sys_write fd a n) (fun _ s' => u_mem s' = u_mem s /\ outputs fd (u_out s') = outputs fd (u_out s) ++ bs) s.
Proof.
  intros Hn Hb. eapply wp_ok; [by apply sys_write_ok|]. cbn [u_mem u_out]. split; [done|].
  by rewrite outputs_app, outputs_one, decide_True, Hb.
Qed.

Lemma echo_spec sp nl ps : forall args s,
  Forall2 (fun a p => cstr (u_mem s) a p /\ (length p < sf)%nat) args ps -> rd (u_mem s) sp = 32 -> rd (u_mem s) nl = 10 ->
  wp (echo_args sf sp nl args) (fun _ s' => outputs 1 (u_out s') = outputs 1 (u_out s) ++ echo_out ps) s.
Proof.
  induction ps as [|p ps IH]; intros args s Ha Hsp Hnl.
  { apply Forall2_nil_inv_r in Ha as ->. apply wp_ret. by rewrite app_nil_r. }
  apply Forall2_cons_inv_r in Ha as (a & args' & [Hp Hl] & Ha & ->). cbn [echo_args]. apply wp_bind, wp_gets.
  rewrite (u_strlen_spec p) by (done || by rewrite Z.add_0_r). cbn [fueled]. apply wp_bind, wp_ret. rewrite Z.add_0_l.
  apply wp_bind. eapply wp_mono; [apply (write_outputs 1 a _ s p); [lia|rewrite Nat2Z.id; apply Hp]|]. cbn beta. intros _ s1 [Hm1 Ho1].
  apply wp_bind.
  assert (Hd : wp (if (0 <? length args')%nat then sys_write 1 sp 1 else sys_write 1 nl 1)
    (fun _ s' => u_mem s' = u_mem s1 /\ outputs 1 (u_out s') = outputs 1 (u_out s1) ++ (if (0 <? length args')%nat then [32] else [10])) s1).
  { destruct (0 <? length args')%nat; apply write_outputs; try lia; change (Z.to_nat 1) with 1%nat; rewrite Hm1, rd_bytes_S; cbn; by f_equal. }
  eapply wp_mono; [exact Hd|]. cbn beta. intros _ s2 [Hm2 Ho2]. rewrite Hm1 in Hm2.
  eapply wp_mono; [apply IH; [|by rewrite Hm2..]|].
  - eapply Forall2_impl; [exact Ha|]. cbn. by rewrite Hm2.
  - cbn beta. intros _ s3 Ho3. rewrite Ho3, Ho2, Ho1, <-!app_assoc. f_equal. pose proof (Forall2_length _ _ _ Ha) as El. rewrite El.
    destruct ps as [|q ps]; [done|]. done.
Qed.

(** The search of fmtname() stops before the last component, which has no slash. *)
Lemma last_slash_spec m path k : forall n i,
  0 <= k -> k = 0 \/ rd m (path + k - 1) = 47 -> k - 1 <= i -> i - k + 2 <= Z.of_nat n ->
  (forall x, path + k <= x <= path + i -> rd m x <> 47) -> last_slash m path n (path + i) = path + k - 1.
Proof.
  induction n as [|n IH]; intros i Hk Hs Hi Hn Hx; [lia|]. cbn [last_slash]. destruct (decide (i = k - 1)) as [->|Hne].
  - destruct Hs as [->|Hs].
    + rewrite (proj2 (Z.leb_gt path _)) by lia. cbn. lia.
    + replace (path + (k - 1)) with (path + k - 1) by lia. rewrite Hs. cbn [Z.eqb Pos.eqb negb]. by rewrite andb_false_r.
  - rewrite (proj2 (Z.leb_le path _)), (proj2 (Z.eqb_neq _ 47)) by (lia || apply Hx; lia). cbn [andb negb].
    replace (path + i - 1) with (path + (i - 1)) by lia. apply IH; try done; try lia. intros x Hx'. apply Hx. lia.
Qed.

Lemma cstr_app m a d b : cstr m a (d ++ b) -> rd_bytes m a (length d) = d /\ cstr m (a + Z.of_nat (length d)) b.
Proof.
  intros (Hf & Hb & Hz). rewrite length_app, rd_bytes_app in Hb. apply app_inj_1 in Hb as [Hd Hb]; [|by rewrite length_rd_bytes].
  apply Forall_app in Hf as [_ Hf]. split; [done|]. split; [done|]. split; [done|]. rewrite length_app in Hz.
  by replace (a + Z.of_nat (length d) + Z.of_nat (length b)) with (a + Z.of_nat (length d + length b)) by lia.
Qed.

Lemma fmtname_slash m path d b :
  cstr m path (d ++ b) -> d = [] \/ last d = Some 47 -> 47 ∉ b ->
  last_slash m path (Z.to_nat (Z.of_nat (length d + length b)) + 2) (path + Z.of_nat (length d + length b)) = path + Z.of_nat (length d) - 1.
Proof.
  intros Hp Hd Hb. pose proof (cstr_app _ _ _ _ Hp) as [Hbd Hbb].
  apply last_slash_spec; [lia| |lia|lia|].
  - destruct Hd as [->|Hd]; [by left|right]. apply last_Some in Hd as (d' & ->). rewrite length_app in Hbd |- *. cbn [length] in Hbd |- *.
    rewrite rd_bytes_app in Hbd. apply app_inj_1 in Hbd as [_ Hbd]; [|by rewrite length_rd_bytes].
    rewrite rd_bytes_S in Hbd. injection Hbd as Hbd. by replace (path + Z.of_nat (length d' + 1) - 1) with (path + Z.of_nat (length d')) by lia.
  - intros x Hx. destruct Hbb as (_ & Hbb & Hz). destruct (decide (x = path + Z.of_nat (length d) + Z.of_nat (length b))) as [->|Hne]; [lia|].
    intros E. apply Hb. rewrite <-Hbb. apply list_elem_of_lookup. exists (Z.to_nat (x - path - Z.of_nat (length d))).
    rewrite lookup_rd_bytes by lia. f_equal. by replace (path + Z.of_nat (length d) + _) with x by lia.
Qed.

(** fmtname() returns the last component of a path, padded with blanks to 14 bytes. *)
Lemma fmtname_spec fbuf path d b s :
  mem_ok (u_mem s) -> cstr (u_mem s) path (d ++ b) -> (length (d ++ b) < sf)%nat -> d = [] \/ last d = Some 47 -> 47 ∉ b ->
  path + Z.of_nat (length (d ++ b)) < fbuf \/ fbuf + 14 <= path ->
  wp (fmtname sf fbuf path) (fun r s' => u_in s' = u_in s /\ u_out s' = u_out s /\
    if decide (14 <= length b)%nat then r = path + Z.of_nat (length d) /\ s' = s
    else r = fbuf /\ rd_bytes (u_mem s') fbuf 14 = b ++ replicate (14 - length b) 32 /\
         forall x, ~ (fbuf <= x < fbuf + 14) -> rd (u_mem s') x = rd (u_mem s) x) s.
Proof.
  intros Hok Hp Hl Hd Hb Ha. unfold fmtname. apply wp_bind, wp_gets.
  rewrite (u_strlen_spec (d ++ b)) by (done || by rewrite Z.add_0_r). cbn [fueled]. apply wp_bind, wp_ret. rewrite Z.add_0_l.
  pose proof (cstr_app _ _ _ _ Hp) as [Hbd Hbb]. rewrite length_app in *. set (m := u_mem s) in *.
  pose proof (fmtname_slash m path d b Hp Hd Hb) as Els.
  rewrite Els. replace (path + Z.of_nat (length d) - 1 + 1) with (path + Z.of_nat (length d)) by lia. set (q := path + Z.of_nat (length d)) in *.
  rewrite (u_strlen_spec b) by (lia || by rewrite Z.add_0_r). cbn [fueled]. apply wp_bind, wp_ret. rewrite Z.add_0_l. destruct (decide (14 <= length b)%nat) as [Hge|Hlt].
  { rewrite (proj2 (Z.leb_le 14 _)) by lia. by apply wp_ret. }
  rewrite (proj2 (Z.leb_gt 14 _)) by lia. apply wp_bind, wp_modify, wp_bind, wp_gets. cbn [u_mem upd_umem]. fold m.
  set (m1 := u_memmove m fbuf q (Z.of_nat (length b))).
  assert (Hm1 : forall x, rd m1 x = if decide (fbuf <= x < fbuf + Z.of_nat (length b)) then rd m (q + (x - fbuf)) else rd m x) by (intros x; apply rd_umemmove; [done|lia]).
  rewrite (u_strlen_spec b); [|rewrite Z.add_0_r; apply (cstr_ext m); [done|intros x Hx; rewrite Hm1, decide_False by lia; done]|lia].
  cbn [fueled]. apply wp_bind, wp_ret. rewrite Z.add_0_l. apply wp_bind, wp_modify, wp_ret. cbn [u_in u_out u_mem upd_umem].
  assert (Hm2 : forall x, rd (u_memset m1 (fbuf + Z.of_nat (length b)) 32 (14 - Z.of_nat (length b))) x =
    if decide (fbuf + Z.of_nat (length b) <= x < fbuf + 14) then 32 else rd m1 x).
  { intros x. rewrite rd_u_memset by lia. replace (fbuf + Z.of_nat (length b) + (14 - Z.of_nat (length b))) with (fbuf + 14) by lia. done. }
  fold m. fold m1. split_and!; [done|done|done| |].
  - replace 14%nat with (length b + (14 - length b))%nat at 1 by lia. rewrite rd_bytes_app. f_equal.
    + destruct Hbb as (_ & Hbb & _). etrans; [|exact Hbb]. apply list_eq. intros i. destruct (decide (i < length b)%nat).
      * rewrite !lookup_rd_bytes by done. rewrite Hm2, decide_False, Hm1, decide_True by lia. f_equal. f_equal. lia.
      * rewrite !lookup_ge_None_2; [done|rewrite length_rd_bytes; lia..].
    + apply list_eq. intros i. destruct (decide (i < 14 - length b)%nat).
      * rewrite lookup_rd_bytes, lookup_replicate_2 by done. by rewrite Hm2, decide_True by lia.
      * rewrite !lookup_ge_None_2; [done|rewrite ?length_replicate, ?length_rd_bytes; lia..].
  - intros x Hx. by rewrite Hm2, decide_False, Hm1, decide_False by lia.
Qed.

(** ** Properties *)

(** C16: cat of files writes their contents to the standard output, one after another and
    however read() divides them, and ends with status 0; if a file cannot be opened it stops
    there and ends with status 1.  Without arguments it copies the standard input. *)
Theorem cat_correct fuel buf prog args ps s :
  Forall2 (arg_ok buf (u_mem s)) args ps -> (size (u_in s) < 16)%nat ->
  (forall p d, p ∈ ps -> files p = Some d -> (length d < fuel)%nat) ->
  (args <> [] -> wp (cat_main cb sf fuel buf (prog :: args)) (fun st s' =>
    st = (cat_out ps).2 /\ outputs 1 (u_out s') = outputs 1 (u_out s) ++ (cat_out ps).1) s) /\
  (forall data, u_in s !! 0 = Some data -> Forall byte_ok data -> (length data < fuel)%nat ->
    wp (cat_main cb sf fuel buf [prog]) (fun st s' => st = 0 /\ outputs 1 (u_out s') = outputs 1 (u_out s) ++ data) s).
Proof.
  intros Ha Hn Hd. split.
  - intros Hne. unfold cat_main. destruct args as [|a args]; [done|]. cbn [length Nat.leb drop]. apply cat_args_spec; try done. cbn. lia.
  - intros data Hfd Hb Hf. unfold cat_main. cbn [length Nat.leb]. apply wp_bind.
    eapply wp_mono; [by apply (cat_spec buf 0 data)|]. cbn beta. intros r s' (-> & _ & Hout & _). by apply wp_ret.
Qed.

(** C17: wc() reads the file to its end and prints the numbers of its newlines, of its words
    and of its bytes as decimal numerals, followed by the name, however read() divides the
    file; a word is a maximal run of bytes that are not white space. *)
Theorem wc_correct fuel buf ws fd name nm data s :
  u_in s !! fd = Some data -> Forall byte_ok data -> (length data < fuel)%nat -> Z.of_nat (length data) < 2 ^ 31 ->
  0 < ws -> cstr (u_mem s) ws white -> ws + 5 < buf \/ buf + 512 <= ws -> arg_ok buf (u_mem s) name nm ->
  wp (wc cb sf fuel buf ws fd name) (fun r s' => r = None /\ u_in s' = <[fd := []]> (u_in s) /\
    exists out, wc_line data nm out /\ outputs 1 (u_out s') = outputs 1 (u_out s) ++ out) s.
Proof.
  intros Hfd Hb Hf Hmax Hp Hw Ha Hn. unfold wc. apply wp_bind. eapply wp_mono; [by apply (wc_loop_spec buf ws fd data)|].
  cbn beta. intros r s1 (-> & Hin & Hout & Hm).
  destruct (foldl_wc data (mkCounts 0 0 0 false)) as (El & Ec & Ew); [cbn; lia..|]. cbn [wc_l wc_w wc_c wc_inword andb] in El, Ec, Ew.
  rewrite El, Ec, Ew. set (l := newlines data). set (w := length (word_list data)).
  assert (Hl : (l <= length data)%nat) by apply length_filter. assert (Hwl : (w <= length data)%nat).
  { unfold w. clear. induction data as [|b r IH]; [done|]. rewrite length_word_list. cbn [length]. destruct (_ && _); lia. }
  apply wp_bind. eapply wp_mono; [apply (wc_print_spec buf); [lia|lia|lia|by eapply arg_ok_same]|]. cbn beta.
  intros _ s2 (ls & wds & cs & Nl & Nw & Nc & E). apply wp_ret. split; [done|]. split; [by rewrite (em_in _ _ _ _ _ E)|].
  eexists. split; [exists ls, wds, cs; split; [reflexivity|]; split_and!; [rewrite Nl; f_equal; lia|rewrite Nw; f_equal; lia|rewrite Nc; f_equal; lia]|].
  by rewrite (emits_outputs _ _ 1 _ _ _ E), decide_True, Hout.
Qed.
End commands.

(** ** Witnesses: a file system with one file *)

Definition example_files (p : list Z) : option (list Z) :=
  if bool_decide (p = str "a") then Some (str "hello world" ++ [10]) else None.

Definition example_fd (s : ustate) : Z := Z.of_N (fresh (set_map Z.to_N (dom (u_in s)) : gset N)).

Definition no_call : U Z := mret (-1).

Definition example_calls : UserCalls.
Proof.
  refine {|
    sys_open a _ s :=
      if (rd (u_mem s) a =? 97) && (rd (u_mem s) (a + 1) =? 0)
      then Ok (example_fd s) (mkU (u_mem s) (<[example_fd s := str "hello world" ++ [10]]> (u_in s)) (u_out s))
      else Ok (-1) s;
    sys_close fd s := Ok 0 (mkU (u_mem s) (delete fd (u_in s)) (u_out s));
    sys_fstat _ _ := no_call;
    sys_mkdir _ := no_call;
    sys_unlink _ := no_call;
    sys_link _ _ := no_call;
    sys_kill _ := no_call;
    sys_mknod _ _ _ := no_call;
    sys_dup _ := no_call;
    sys_fork := no_call;
    sys_wait _ := no_call;
    sys_exec _ _ := no_call;
    files := example_files;
  |}.
  - intros a mode s p Hp _. unfold example_files.
    assert (E : ((rd (u_mem s) a =? 97) && (rd (u_mem s) (a + 1) =? 0))%bool = bool_decide (p = str "a")).
    { apply eq_true_iff_eq. rewrite andb_true_iff, !Z.eqb_eq, bool_decide_eq_true. change (str "a") with [97]. split.
      - intros [E1 E2]. apply (cstr_unique (u_mem s) a); [done|]. apply cstr_cons. rewrite cstr_nil. split_and!; [done|lia|lia|done].
      - intros ->. apply cstr_cons in Hp as (E1 & _ & E2%cstr_nil). done. }
    rewrite E. destruct (bool_decide _); [|done]. exists (example_fd s). split_and!; [unfold example_fd; lia| |done].
    apply not_elem_of_dom. intros Hin. pose proof (is_fresh (set_map Z.to_N (dom (u_in s)) : gset N)) as Hfr. apply Hfr.
    apply elem_of_map. exists (example_fd s). split; [|done]. unfold example_fd. by rewrite N2Z.id.
  - unfold example_files. intros p d. destruct (bool_decide _); [|done]. intros [= <-]. apply (bool_decide_unpack _). by vm_compute.
  - done.
Defined.

(** The arguments a and b, and the string of white space *)
Definition example_args : ustate :=
  mkU (wr_bytes (wr_bytes (wr_bytes ∅ 100 (str "a")) 200 (str "b")) 300 white) {[ 4 := str "x yz" ++ [10] ]} [].

Lemma example_arg_a : arg_ok 50 20 1000 (u_mem example_args) 100 (str "a").
Proof.
  split; [|cbn; lia|lia|change (length (str "a")) with 1%nat; lia].
  split; [apply (bool_decide_unpack _); by vm_compute|by vm_compute].
Qed.

Lemma example_arg_b : arg_ok 50 20 1000 (u_mem example_args) 200 (str "b").
Proof.
  split; [|cbn; lia|lia|change (length (str "b")) with 1%nat; lia].
  split; [apply (bool_decide_unpack _); by vm_compute|by vm_compute].
Qed.

(** cat a b, where there is no file b *)
Lemma cat_correct_witness :
  wp (cat_main (H := slow_env) (H0 := example_calls) 50 20 100 1000 [0; 100; 200])
    (fun st s' => st = 1 /\ outputs 1 (u_out s') = str "hello world" ++ [10]) example_args.
Proof.
  destruct (cat_correct (H := slow_env) (H0 := example_calls) 50 20 100 1000 0 [100; 200] [str "a"; str "b"] example_args) as [Hc _].
  - constructor; [exact example_arg_a|]. constructor; [exact example_arg_b|constructor].
  - vm_compute. lia.
  - intros p d _ Hp. change (example_files p = Some d) in Hp. unfold example_files in Hp. destruct (bool_decide _); [|done].
    injection Hp as <-. vm_compute. lia.
  - assert (E : cat_out (H := example_calls) [str "a"; str "b"] = (str "hello world" ++ [10], 1)) by (vm_compute; reflexivity).
    eapply wp_mono; [apply Hc; discriminate|]. rewrite E. cbn beta. intros st s' [-> Ho]. split; [reflexivity|]. rewrite Ho. reflexivity.
Defined.

Lemma wc_correct_witness :
  wp (wc (H := slow_env) 50 20 100 1000 300 4 100)
    (fun r s' => r = None /\ exists out, wc_line (str "x yz" ++ [10]) (str "a") out /\ outputs 1 (u_out s') = out) example_args.
Proof.
  eapply wp_mono.
  - apply (wc_correct (H := slow_env) 50 20 100 1000 300 4 100 (str "a") (str "x yz" ++ [10]) example_args);
      [done|apply (bool_decide_unpack _); by vm_compute|cbn; lia|cbn; lia|lia| |lia|exact example_arg_a].
    split; [apply (bool_decide_unpack _); by vm_compute|by vm_compute].
  - cbn beta. intros r s' (Hr & _ & out & Hw & Ho). split; [done|]. by exists out.
Defined.
