(* ===== verification/Sh.v ===== *)
(** * The shell (user/sh.c): definitions

    The parser works on the command line in its buffer and builds command structures on
    the heap.  Both are state: a structure is a node at an address, a pointer into the
    buffer is an index, parsing an argument changes a node that other nodes already
    point to, and nulterminate() writes into the buffer.  panic() ends the run.  The
    parser's mutual recursion takes fuel.

    What runcmd() does is the tree of its system calls, with the results of the calls
    as arguments of the rest: [beh].  A fork has the behaviour of the child and that of
    the parent. *)

From Stdlib Require Import ZArith Lia.
From stdpp Require Import base tactics numbers gmap strings option list.
From S2P Require Import Prelude Kstring Sysfile.

(** ** Definitions *)

(** *** Commands *)

Definition MAXARGS : nat := 10.

(** struct cmd and the structures that extend it; address 0 is the null pointer. *)
Inductive node :=
| Nexec (argv eargv : list (option nat))
| Nredir (cmd file efile : nat) (mode fd : Z)
| Npipe (left right : nat)
| Nlist (left right : nat)
| Nback (cmd : nat).

Record shst := mkSh {
  sh_buf : list Z;
  sh_heap : gmap nat node;
  sh_next : nat;  (* the address of the next structure *)
  sh_room : nat;  (* structures that malloc() has memory for *)
}.

Definition SH : Type -> Type := M shst.

Definition upd_buf_at (i : nat) (c : Z) (s : shst) : shst :=
  mkSh (<[i := c]> (sh_buf s)) (sh_heap s) (sh_next s) (sh_room s).
Definition upd_node_at (a : nat) (n : node) (s : shst) : shst :=
  mkSh (sh_buf s) (<[a := n]> (sh_heap s)) (sh_next s) (sh_room s).

(** malloc(), memset() and the stores into the new structure; without memory the
    stores go to address 0, which faults *)
Definition new_node (n : node) : SH nat := fun s =>
  match sh_room s with
  | O => Panic "fault"
  | S r => Ok (sh_next s) (mkSh (sh_buf s) (<[sh_next s := n]> (sh_heap s)) (S (sh_next s)) r)
  end.

Definition get_node (a : nat) : SH node :=
  h ← gets sh_heap;
  match h !! a with Some n => mret n | None => panic "fault" end.

(** The constructors *)
Definition execcmd : SH nat := new_node (Nexec (replicate MAXARGS None) (replicate MAXARGS None)).

Definition redircmd (subcmd file efile : nat) (mode fd : Z) : SH nat := new_node (Nredir subcmd file efile mode fd).

Definition pipecmd (left right : nat) : SH nat := new_node (Npipe left right).

Definition listcmd (left right : nat) : SH nat := new_node (Nlist left right).

Definition backcmd (subcmd : nat) : SH nat := new_node (Nback subcmd).

(** *** Tokens *)

Definition whitespace : list Z := [32; 9; 13; 10; 11].

Definition symbols : list Z := str "<|>&;()".

(** strchr(toks, c), as a condition *)
Definition has_char (toks : list Z) (c : Z) : bool := existsb (Z.eqb c) toks.

(** The byte at [s] *)
Definition at_ (buf : list Z) (s : nat) : Z := nth s buf 0.

(** [while (s < es && f( *s)) s++;] *)
Fixpoint skip_while (f : Z -> bool) (buf : list Z) (s n : nat) : nat :=
  match n with
  | O => s
  | S n' => if f (at_ buf s) then skip_while f buf (S s) n' else s
  end.

Definition skip_space (buf : list Z) (s es : nat) : nat := skip_while (has_char whitespace) buf s (es - s).

(** int gettoken(char **ps, char *es, char **q, char **eq): the token, *q, *eq and the
    new *ps *)
Definition gettoken (buf : list Z) (ps es : nat) : Z * nat * nat * nat :=
  let s := skip_space buf ps es in
  let q := s in
  let c := at_ buf s in
  let '(ret, s) :=
    if c =? 0 then (c, s)
    else if has_char (str "|();&<") c then (c, S s)
    else if c =? 62 then
      let s := S s in
      if at_ buf s =? 62 then (43, S s) else (c, s)
    else (97, skip_while (fun c => negb (has_char whitespace c) && negb (has_char symbols c)) buf s (es - s)) in
  (ret, q, s, skip_space buf s es).

(** int peek(char **ps, char *es, char *toks): the answer and the new *ps *)
Definition peek (buf : list Z) (ps es : nat) (toks : list Z) : bool * nat :=
  let s := skip_space buf ps es in
  (negb (at_ buf s =? 0) && has_char toks (at_ buf s), s).

(** The string at [q] *)
Definition cstring (buf : list Z) (q : nat) : list Z := upto_nul (drop q buf).

(** *** The parser *)

(** struct cmd *parseredirs(struct cmd *cmd, char **ps, char *es) *)
Definition redir_of (tok : Z) (cmd q eq : nat) : SH nat :=
  if tok =? 60 then redircmd cmd q eq O_RDONLY 0
  else if tok =? 62 then redircmd cmd q eq (Z.lor O_WRONLY (Z.lor O_CREATE O_TRUNC)) 1
  else if tok =? 43 then redircmd cmd q eq (Z.lor O_WRONLY O_CREATE) 1
  else mret cmd.

Definition parseredirs_body (es : nat) (st : nat * nat) : SH (nat * nat + nat * nat) :=
  let '(cmd, ps) := st in
  buf ← gets sh_buf;
  let '(b, ps) := peek buf ps es (str "<>") in
  if b then
    let '(tok, _, _, ps) := gettoken buf ps es in
    let '(tok2, q, eq, ps) := gettoken buf ps es in
    if negb (tok2 =? 97) then panic "missing file for redirection" else
    cmd ← redir_of tok cmd q eq;
    mret (inl (cmd, ps))
  else mret (inr (cmd, ps)).

Definition parseredirs (cmd ps es : nat) : SH (nat * nat) := loop (S (es - ps)) (parseredirs_body es) (cmd, ps).

(** The argument loop of parseexec(): [cmd] is the execcmd, [ret] the command so far *)
Definition set_arg (cmd argc : nat) (q eq : option nat) : SH unit :=
  n ← get_node cmd;
  match n with
  | Nexec argv eargv => modify (upd_node_at cmd (Nexec (<[argc := q]> argv) (<[argc := eq]> eargv)))
  | _ => panic "fault"
  end.

Definition parseexec_body (cmd es : nat) (st : nat * nat * nat) : SH (nat * nat * nat + nat * nat * nat) :=
  let '(ret, argc, ps) := st in
  buf ← gets sh_buf;
  let '(b, ps) := peek buf ps es (str "|)&;") in
  if b then mret (inr (ret, argc, ps)) else
  let '(tok, q, eq, ps) := gettoken buf ps es in
  if tok =? 0 then mret (inr (ret, argc, ps)) else
  if negb (tok =? 97) then panic "syntax" else
  set_arg cmd argc (Some q) (Some eq);;
  let argc := S argc in
  if (MAXARGS <=? argc)%nat then panic "too many args" else
  r ← parseredirs ret ps es;
  mret (inl (r.1, argc, r.2)).

(** [while (peek(ps, es, "&"))] of parseline() *)
Definition parseback_body (es : nat) (st : nat * nat) : SH (nat * nat + nat * nat) :=
  let '(cmd, ps) := st in
  buf ← gets sh_buf;
  let '(b, ps) := peek buf ps es (str "&") in
  if b then
    let '(_, _, _, ps) := gettoken buf ps es in
    cmd ← backcmd cmd;
    mret (inl (cmd, ps))
  else mret (inr (cmd, ps)).

(** struct cmd *parseline(char **ps, char *es) and the functions it calls: the command
    and the new *ps *)
Fixpoint parseline (fuel ps es : nat) {struct fuel} : SH (nat * nat) :=
  match fuel with
  | O => out_of_fuel
  | S k =>
      r ← parsepipe k ps es;
      r ← loop (S (es - r.2)) (parseback_body es) r;
      let '(cmd, ps) := r in
      buf ← gets sh_buf;
      let '(b, ps) := peek buf ps es (str ";") in
      if b then
        let '(_, _, _, ps) := gettoken buf ps es in
        r ← parseline k ps es;
        cmd ← listcmd cmd r.1;
        mret (cmd, r.2)
      else mret (cmd, ps)
  end

with parsepipe (fuel ps es : nat) {struct fuel} : SH (nat * nat) :=
  match fuel with
  | O => out_of_fuel
  | S k =>
      r ← parseexec k ps es;
      let '(cmd, ps) := r in
      buf ← gets sh_buf;
      let '(b, ps) := peek buf ps es (str "|") in
      if b then
        let '(_, _, _, ps) := gettoken buf ps es in
        r ← parsepipe k ps es;
        cmd ← pipecmd cmd r.1;
        mret (cmd, r.2)
      else mret (cmd, ps)
  end

with parseblock (fuel ps es : nat) {struct fuel} : SH (nat * nat) :=
  match fuel with
  | O => out_of_fuel
  | S k =>
      buf ← gets sh_buf;
      let '(b, ps) := peek buf ps es (str "(") in
      if negb b then panic "parseblock" else
      let '(_, _, _, ps) := gettoken buf ps es in
      r ← parseline k ps es;
      let '(cmd, ps) := r in
      buf ← gets sh_buf;
      let '(b, ps) := peek buf ps es (str ")") in
      if negb b then panic "syntax - missing )" else
      let '(_, _, _, ps) := gettoken buf ps es in
      parseredirs cmd ps es
  end

with parseexec (fuel ps es : nat) {struct fuel} : SH (nat * nat) :=
  match fuel with
  | O => out_of_fuel
  | S k =>
      buf ← gets sh_buf;
      let '(b, ps) := peek buf ps es (str "(") in
      if b then parseblock k ps es else
      cmd ← execcmd;
      r ← parseredirs cmd ps es;
      r ← loop (S (es - r.2)) (parseexec_body cmd es) (r.1, O, r.2);
      let '(ret, argc, ps) := r in
      set_arg cmd argc None None;;
      mret (ret, ps)
  end.

(** struct cmd *nulterminate(struct cmd *cmd) *)
Fixpoint nul_args (argv eargv : list (option nat)) : SH unit :=
  match argv, eargv with
  | Some _ :: argv', Some e :: eargv' => modify (upd_buf_at e 0);; nul_args argv' eargv'
  | None :: _, _ => mret tt
  | _, _ => panic "fault"
  end.

Fixpoint nulterminate (fuel : nat) (cmd : nat) : SH unit :=
  match fuel with
  | O => out_of_fuel
  | S k =>
      if (cmd =? 0)%nat then mret tt else
      n ← get_node cmd;
      match n with
      | Nexec argv eargv => nul_args argv eargv
      | Nredir c _ efile _ _ => nulterminate k c;; modify (upd_buf_at efile 0)
      | Npipe l r => nulterminate k l;; nulterminate k r
      | Nlist l r => nulterminate k l;; nulterminate k r
      | Nback c => nulterminate k c
      end
  end.

(** struct cmd *parsecmd(char *s), for s at the start of the buffer *)
Definition parse_fuel (es : nat) : nat := 4 * es + 4.

Definition parsecmd : SH nat :=
  buf ← gets sh_buf;
  let es := length (upto_nul buf) in
  r ← parseline (parse_fuel es) 0 es;
  let '(cmd, s) := r in
  buf ← gets sh_buf;
  let '(_, s) := peek buf s es [] in
  if negb (s =? es)%nat then panic "syntax" else
  n ← gets sh_next;
  nulterminate n cmd;;
  mret cmd.

(** *** Running commands *)

Inductive sysc :=
| Close (fd : Z)
| Open (file : list Z) (mode : Z)
| Dup (fd : Z)
| Wait
| Write (fd : Z) (bs : list Z)
| Chdir (dir : list Z).

(** What a process does: it exits, replaces itself by a program ([failed] follows when
    that fails), or makes a system call and goes on with its result. *)
Inductive beh :=
| B_exit (n : Z)
| B_exec (path : list Z) (argv : list (list Z)) (failed : beh)
| B_sys (c : sysc) (k : Z -> beh)
| B_read (fd n : Z) (k : list Z -> beh)
| B_pipe (k : option (Z * Z) -> beh)
| B_fork (child : beh) (parent : Z -> beh)
| B_fault.

(** fprintf(fd, ...), which writes every byte by itself *)
Fixpoint b_puts (fd : Z) (bs : list Z) (k : beh) : beh :=
  match bs with
  | [] => k
  | c :: bs' => B_sys (Write fd [c]) (fun _ => b_puts fd bs' k)
  end.

(** void panic(char *s), int fork1(void) *)
Definition sh_panic (msg : list Z) : beh := b_puts 2 (msg ++ [10]) (B_exit 1).

Definition fork1 (child parent : beh) : beh :=
  B_fork child (fun pid => if pid =? -1 then sh_panic (str "fork") else parent).

Definition b_close (fd : Z) (k : beh) : beh := B_sys (Close fd) (fun _ => k).

(** The strings of argv[] *)
Fixpoint arg_strings (buf : list Z) (argv : list (option nat)) : list (list Z) :=
  match argv with
  | Some q :: argv' => cstring buf q :: arg_strings buf argv'
  | _ => []
  end.

(** void runcmd(struct cmd *cmd) *)
Fixpoint runcmd (fuel : nat) (buf : list Z) (h : gmap nat node) (cmd : nat) : beh :=
  match fuel with
  | O => B_fault
  | S k =>
      if (cmd =? 0)%nat then B_exit 1 else
      match h !! cmd with
      | None => B_fault
      | Some (Nexec argv _) =>
          match argv with
          | [] => B_fault
          | None :: _ => B_exit 1
          | Some q :: _ =>
              B_exec (cstring buf q) (arg_strings buf argv)
                (b_puts 2 (str "exec " ++ cstring buf q ++ str " failed" ++ [10]) (B_exit 0))
          end
      | Some (Nredir c file _ mode fd) =>
          b_close fd
            (B_sys (Open (cstring buf file) mode) (fun r =>
               if r <? 0 then b_puts 2 (str "open " ++ cstring buf file ++ str " failed" ++ [10]) (B_exit 1)
               else runcmd k buf h c))
      | Some (Nlist l r) =>
          fork1 (runcmd k buf h l) (B_sys Wait (fun _ => runcmd k buf h r))
      | Some (Npipe l r) =>
          B_pipe (fun p =>
            match p with
            | None => sh_panic (str "pipe")
            | Some (p0, p1) =>
                fork1 (b_close 1 (B_sys (Dup p1) (fun _ => b_close p0 (b_close p1 (runcmd k buf h l)))))
                  (fork1 (b_close 0 (B_sys (Dup p0) (fun _ => b_close p0 (b_close p1 (runcmd k buf h r)))))
                     (b_close p0 (b_close p1 (B_sys Wait (fun _ => B_sys Wait (fun _ => B_exit 0))))))
            end)
      | Some (Nback c) => fork1 (runcmd k buf h c) (B_exit 0)
      end
  end.

(** int getcmd(char *buf, int nbuf): the bytes that gets() reads, at most nbuf - 1;
    they go to the rest [k] *)
Fixpoint gets_line (n : nat) (acc : list Z) (k : list Z -> beh) : beh :=
  match n with
  | O => k acc
  | S n' =>
      B_read 0 1 (fun bs =>
        match bs with
        | [] => k acc
        | c :: _ => if (c =? 10) || (c =? 13) then k (acc ++ [c]) else gets_line n' (acc ++ [c]) k
        end)
  end.

Definition getcmd (nbuf : nat) (k : list Z -> beh) : beh :=
  B_sys (Write 2 (str "$ ")) (fun _ => gets_line (nbuf - 1) [] (fun l => k (l ++ replicate (nbuf - length l) 0))).

(** What the child does with the line: messages of the parser are left out *)
Definition run_line (room : nat) (buf : list Z) : beh :=
  match parsecmd (mkSh buf ∅ 1 room) with
  | Ok c s => runcmd (sh_next s) (sh_buf s) (sh_heap s) c
  | Panic _ => B_exit 1
  | _ => B_fault
  end.

(** int main(void): the descriptors, then one command after the other *)
Fixpoint sh_commands (fuel room : nat) : beh :=
  match fuel with
  | O => B_fault
  | S k =>
      getcmd 100 (fun buf =>
        if at_ buf 0 =? 0 then B_exit 0 else
        if (at_ buf 0 =? 99) && (at_ buf 1 =? 100) && (at_ buf 2 =? 32) then
          let buf := <[(length (upto_nul buf) - 1)%nat := 0]> buf in
          B_sys (Chdir (cstring buf 3)) (fun r =>
            if r <? 0 then b_puts 2 (str "cannot cd " ++ cstring buf 3 ++ [10]) (sh_commands k room) else sh_commands k room)
        else fork1 (run_line room buf) (B_sys Wait (fun _ => sh_commands k room)))
  end.

Fixpoint sh_main (fuel room : nat) : beh :=
  match fuel with
  | O => B_fault
  | S k =>
      B_sys (Open (str "console") O_RDWR) (fun fd =>
        if fd <? 0 then sh_commands k room
        else if fd >=? 3 then b_close fd (sh_commands k room)
        else sh_main k room)
  end.
