(* ===== verification/ShGrammar.v ===== *)
(** * The grammar of the shell's command lines (user/sh.c)

    What the parser of sh.c should accept, independent of its code: tokens, the grammar
    as an inductive relation between tokens and commands, and a reference parser on
    token lists.  The reference parser accepts exactly what the grammar derives, so
    that a command line has at most one meaning.

    line ::= pipe "&"* [ ";" line ]       pipe ::= exec [ "|" pipe ]
    exec ::= "(" line ")" redir*  |  (word | redir)*    redir ::= ("<" | ">" | ">>") word *)

From Stdlib Require Import ZArith Lia.
From stdpp Require Import base tactics numbers gmap strings option list.
From S2P Require Import Prelude Kstring Sysfile Sh.

(** ** Specification: tokens and commands *)

Inductive tok (A : Type) :=
| Sym (c : Z)
| App
| Word (w : A).

Arguments Sym {A} c.
Arguments App {A}.
Arguments Word {A} w.

(** Commands; a redirection has the file, the mode of open() and the descriptor. *)
Record redir (A : Type) := mkRedir { rd_file : A; rd_mode : Z; rd_fd : Z }.

Arguments mkRedir {A} _ _ _.
Arguments rd_file {A} _.
Arguments rd_mode {A} _.
Arguments rd_fd {A} _.

Inductive cmd (A : Type) :=
| Exec (args : list A)
| Redir (c : cmd A) (r : redir A)
| Pipe (c1 c2 : cmd A)
| Seq (c1 c2 : cmd A)
| Back (c : cmd A).

Arguments Exec {A} args.
Arguments Redir {A} c r.
Arguments Pipe {A} c1 c2.
Arguments Seq {A} c1 c2.
Arguments Back {A} c.

(** The tokens of the line [l] at position [pos]; [start] is where the current word
    began.  A word is the positions of its first byte and of the byte after it. *)
Definition end_word (start : option nat) (pos : nat) : list (tok (nat * nat)) :=
  match start with Some q => [Word (q, pos)] | None => [] end.

Fixpoint lex (start : option nat) (pos : nat) (l : list Z) : list (tok (nat * nat)) :=
  match l with
  | [] => end_word start pos
  | c :: l' =>
      if has_char whitespace c then end_word start pos ++ lex None (S pos) l'
      else if has_char symbols c then
        end_word start pos ++
        (if c =? 62 then
           match l' with
           | d :: l'' => if d =? 62 then App :: lex None (S (S pos)) l'' else Sym c :: lex None (S pos) l'
           | [] => [Sym c]
           end
         else Sym c :: lex None (S pos) l')
      else lex (Some (default pos start)) (S pos) l'
  end.

Definition tok_map {A B} (f : A -> B) (t : tok A) : tok B :=
  match t with Sym c => Sym c | App => App | Word w => Word (f w) end.

Definition redir_map {A B} (f : A -> B) (r : redir A) : redir B := mkRedir (f (rd_file r)) (rd_mode r) (rd_fd r).

Fixpoint cmd_map {A B} (f : A -> B) (c : cmd A) : cmd B :=
  match c with
  | Exec args => Exec (f <$> args)
  | Redir c r => Redir (cmd_map f c) (redir_map f r)
  | Pipe c1 c2 => Pipe (cmd_map f c1) (cmd_map f c2)
  | Seq c1 c2 => Seq (cmd_map f c1) (cmd_map f c2)
  | Back c => Back (cmd_map f c)
  end.

Definition text (line : list Z) (w : nat * nat) : list Z := slice line w.1 (w.2 - w.1).

Definition tokens (line : list Z) : list (tok (list Z)) := tok_map (text line) <$> lex None 0 line.

(** ** Specification: the grammar *)

Section grammar.
Context {A : Type}.

(** The redirection that an operator stands for. *)
Definition redir_tok (t : tok A) (f : A) : option (redir A) :=
  match t with
  | Sym c => if c =? 60 then Some (mkRedir f O_RDONLY 0)
             else if c =? 62 then Some (mkRedir f (Z.lor O_WRONLY (Z.lor O_CREATE O_TRUNC)) 1) else None
  | App => Some (mkRedir f (Z.lor O_WRONLY O_CREATE) 1)
  | Word _ => None
  end.

Inductive redirs : list (tok A) -> list (redir A) -> Prop :=
| redirs_nil : redirs [] []
| redirs_cons op f r ts rs : redir_tok op f = Some r -> redirs ts rs -> redirs (op :: Word f :: ts) (r :: rs).

(** Words and redirections in any order *)
Inductive simple : list (tok A) -> list A -> list (redir A) -> Prop :=
| simple_nil : simple [] [] []
| simple_word w ts ws rs : simple ts ws rs -> simple (Word w :: ts) (w :: ws) rs
| simple_redir op f r ts ws rs : redir_tok op f = Some r -> simple ts ws rs -> simple (op :: Word f :: ts) ws (r :: rs).

Definition wrap (c : cmd A) (rs : list (redir A)) : cmd A := foldl Redir c rs.

Inductive g_line : list (tok A) -> cmd A -> Prop :=
| g_line_pipe ts n c : g_pipe ts c -> g_line (ts ++ replicate n (Sym 38)) (Nat.iter n Back c)
| g_line_seq ts n c ts' c' : g_pipe ts c -> g_line ts' c' ->
    g_line (ts ++ replicate n (Sym 38) ++ Sym 59 :: ts') (Seq (Nat.iter n Back c) c')
with g_pipe : list (tok A) -> cmd A -> Prop :=
| g_pipe_exec ts c : g_exec ts c -> g_pipe ts c
| g_pipe_pipe ts c ts' c' : g_exec ts c -> g_pipe ts' c' -> g_pipe (ts ++ Sym 124 :: ts') (Pipe c c')
with g_exec : list (tok A) -> cmd A -> Prop :=
| g_exec_simple ts ws rs : simple ts ws rs -> (length ws < MAXARGS)%nat -> g_exec ts (wrap (Exec ws) rs)
| g_exec_block ts c ts' rs : g_line ts c -> redirs ts' rs -> g_exec (Sym 40 :: ts ++ Sym 41 :: ts') (wrap c rs).

(** ** Specification: the reference parser *)

Inductive parsed (B : Type) :=
| POk (b : B) (rest : list (tok A))
| PErr
| PFuel.

Arguments POk {B} b rest.
Arguments PErr {B}.
Arguments PFuel {B}.

Definition pbind {B C} (m : parsed B) (f : B -> list (tok A) -> parsed C) : parsed C :=
  match m with POk b rest => f b rest | PErr => PErr | PFuel => PFuel end.

Definition is_redir (t : tok A) : bool :=
  match t with Sym c => (c =? 60) || (c =? 62) | App => true | Word _ => false end.

Fixpoint p_redirs (ts : list (tok A)) : parsed (list (redir A)) :=
  match ts with
  | op :: ts' =>
      if is_redir op then
        match ts' with
        | Word f :: ts'' =>
            match redir_tok op f with
            | Some r => pbind (p_redirs ts'') (fun rs rest => POk (r :: rs) rest)
            | None => PErr
            end
        | _ => PErr
        end
      else POk [] ts
  | [] => POk [] []
  end.

(** Words and redirections up to one of | ) & ; or the end, [n] words being there *)
Fixpoint p_simple (n : nat) (ts : list (tok A)) : parsed (list A * list (redir A)) :=
  match ts with
  | [] => POk ([], []) []
  | Word w :: ts' =>
      if (MAXARGS <=? S n)%nat then PErr
      else pbind (p_simple (S n) ts') (fun x rest => POk (w :: x.1, x.2) rest)
  | op :: ts' =>
      if is_redir op then
        match ts' with
        | Word f :: ts'' =>
            match redir_tok op f with
            | Some r => pbind (p_simple n ts'') (fun x rest => POk (x.1, r :: x.2) rest)
            | None => PErr
            end
        | _ => PErr
        end
      else match op with
           | Sym c => if has_char (str "|)&;") c then POk ([], []) ts else PErr
           | _ => PErr
           end
  end.

Definition is_sym (c : Z) (t : option (tok A)) : bool := match t with Some (Sym d) => d =? c | _ => false end.

Fixpoint p_backs (c : cmd A) (ts : list (tok A)) : cmd A * list (tok A) :=
  match ts with
  | t :: ts' => if is_sym 38 (Some t) then p_backs (Back c) ts' else (c, ts)
  | [] => (c, [])
  end.

Fixpoint p_line (fuel : nat) (ts : list (tok A)) {struct fuel} : parsed (cmd A) :=
  match fuel with
  | O => PFuel
  | S k =>
      pbind (p_pipe k ts) (fun c ts =>
        let '(c, ts) := p_backs c ts in
        if is_sym 59 (head ts) then pbind (p_line k (tail ts)) (fun c' ts => POk (Seq c c') ts) else POk c ts)
  end
with p_pipe (fuel : nat) (ts : list (tok A)) {struct fuel} : parsed (cmd A) :=
  match fuel with
  | O => PFuel
  | S k =>
      pbind (p_exec k ts) (fun c ts =>
        if is_sym 124 (head ts) then pbind (p_pipe k (tail ts)) (fun c' ts => POk (Pipe c c') ts) else POk c ts)
  end
with p_block (fuel : nat) (ts : list (tok A)) {struct fuel} : parsed (cmd A) :=
  match fuel with
  | O => PFuel
  | S k =>
      if is_sym 40 (head ts) then
        pbind (p_line k (tail ts)) (fun c ts =>
          if is_sym 41 (head ts) then pbind (p_redirs (tail ts)) (fun rs ts => POk (wrap c rs) ts) else PErr)
      else PErr
  end
with p_exec (fuel : nat) (ts : list (tok A)) {struct fuel} : parsed (cmd A) :=
  match fuel with
  | O => PFuel
  | S k =>
      if is_sym 40 (head ts) then p_block k ts
      else pbind (p_simple 0 ts) (fun x ts => POk (wrap (Exec x.1) x.2) ts)
  end.
End grammar.

Arguments parsed A B : clear implicits.
Arguments POk {A B} b rest.
Arguments PErr {A B}.
Arguments PFuel {A B}.

(** ** Lemmas: the reference parser is sound *)

Scheme g_line_ind' := Minimality for g_line Sort Prop
with g_pipe_ind' := Minimality for g_pipe Sort Prop
with g_exec_ind' := Minimality for g_exec Sort Prop.

Combined Scheme g_ind from g_line_ind', g_pipe_ind', g_exec_ind'.

Section lemmas.
Context {A : Type}.
Implicit Types (ts u rest : list (tok A)) (c : cmd A).

Lemma pbind_ok {B C} (m : parsed A B) (f : B -> list (tok A) -> parsed A C) x rest :
  pbind m f = POk x rest -> exists b r, m = POk b r /\ f b r = POk x rest.
Proof. destruct m; [|done..]. cbn. eauto. Qed.

Lemma p_redirs_sound ts rs rest : p_redirs ts = POk rs rest -> exists u, ts = u ++ rest /\ redirs u rs.
Proof.
  remember (length ts) as n eqn:E. revert ts rs rest E. induction n as [n IH] using lt_wf_ind. intros [|op ts] rs rest E; cbn.
  { intros [= <- <-]. exists []. split; [done|constructor]. }
  destruct (is_redir op); [|intros [= <- <-]; exists []; split; [done|constructor]].
  destruct ts as [|[| |f] ts]; [done..|]. destruct (redir_tok op f) as [r|] eqn:Er; [|done].
  intros (rs' & r' & H & [= <- <-])%pbind_ok. apply (IH (length ts)) in H as (u & -> & Hu); [|cbn in E; lia|done].
  exists (op :: Word f :: u). split; [done|by constructor].
Qed.

Lemma p_simple_sound n ts ws rs rest :
  (n < MAXARGS)%nat -> p_simple n ts = POk (ws, rs) rest -> exists u, ts = u ++ rest /\ simple u ws rs /\ (n + length ws < MAXARGS)%nat.
Proof.
  remember (length ts) as m eqn:E. revert n ts ws rs rest E. induction m as [m IH] using lt_wf_ind.
  intros n [|op ts] ws rs rest E Hn; cbn [p_simple].
  { intros [= <- <- <-]. exists []. cbn. rewrite Nat.add_0_r. split_and!; [done|constructor|done]. }
  assert (Hr : forall op f r ts', is_redir op = true -> redir_tok op f = Some r -> (S (length ts') < m)%nat ->
    pbind (p_simple n ts') (fun x rest => POk (x.1, r :: x.2) rest) = POk (ws, rs) rest ->
    exists u, op :: Word f :: ts' = u ++ rest /\ simple u ws rs /\ (n + length ws < MAXARGS)%nat).
  { intros op' f r ts' _ Er Hl ([ws' rs'] & r' & H & [= <- <- <-])%pbind_ok.
    apply (IH (length ts')) in H as (u & -> & Hu & Hl'); [|lia|done|done].
    exists (op' :: Word f :: u). split_and!; [done|by constructor|done]. }
  destruct op as [c| |w]; cbn [is_redir].
  - destruct ((c =? 60) || (c =? 62)) eqn:Ec.
    + destruct ts as [|[| |f] ts]; [done..|]. destruct (redir_tok (Sym c) f) as [r|] eqn:Er; [|done].
      apply Hr; [done|done|cbn in E; lia].
    + destruct (has_char (str "|)&;") c); [|done]. intros [= <- <- <-]. exists []. cbn. rewrite Nat.add_0_r.
      split_and!; [done|constructor|done].
  - destruct ts as [|[| |f] ts]; [done..|]. cbn [redir_tok]. apply Hr; [done|done|cbn in E; lia].
  - destruct (Nat.leb_spec MAXARGS (S n)); [done|]. intros ([ws' rs'] & r' & H1 & [= <- <- <-])%pbind_ok.
    apply (IH (length ts)) in H1 as (u & -> & Hu & Hl); [|cbn in E; lia|done|done].
    exists (Word w :: u). cbn [fst snd length]. split_and!; [done|by constructor|lia].
Qed.

Lemma is_sym_head a ts : is_sym a (head ts) = true -> ts = Sym a :: tail ts.
Proof. destruct ts as [|[d| |] ts]; [done| |done..]. cbn. intros ->%Z.eqb_eq. done. Qed.

Lemma p_backs_sound c ts :
  let '(c', rest) := p_backs c ts in exists n, ts = replicate n (Sym 38) ++ rest /\ c' = Nat.iter n Back c.
Proof.
  revert c. induction ts as [|t ts IH]; intros c; cbn [p_backs]; [by exists O|].
  destruct (is_sym 38 (Some t)) eqn:E; [|by exists O]. specialize (IH (Back c)). destruct (p_backs (Back c) ts) as [c' rest].
  destruct IH as (n & -> & ->). exists (S n). destruct t; [|done..]. apply Z.eqb_eq in E as ->. split; [done|].
  by rewrite Nat.iter_succ_r.
Qed.

Lemma p_sound k :
  (forall ts c rest, p_line k ts = POk c rest -> exists u, ts = u ++ rest /\ g_line u c) /\
  (forall ts c rest, p_pipe k ts = POk c rest -> exists u, ts = u ++ rest /\ g_pipe u c) /\
  (forall ts c rest, p_block k ts = POk c rest -> exists u, ts = u ++ rest /\ g_exec u c) /\
  (forall ts c rest, p_exec k ts = POk c rest -> exists u, ts = u ++ rest /\ g_exec u c).
Proof.
  induction k as [|k (IHl & IHp & IHb & IHe)]; [done|]. split_and!; intros ts c rest.
  - cbn [p_line]. intros (c1 & ts1 & (u1 & -> & Hu1)%IHp & H)%pbind_ok. pose proof (p_backs_sound c1 ts1) as Hb.
    destruct (p_backs c1 ts1) as [c2 ts2]. destruct Hb as (n & -> & ->). destruct (is_sym 59 (head ts2)) eqn:Es.
    + apply is_sym_head in Es. apply pbind_ok in H as (c3 & ts3 & (u3 & E3 & Hu3)%IHl & [= <- <-]).
      exists (u1 ++ replicate n (Sym 38) ++ Sym 59 :: u3). split; [|by constructor].
      rewrite Es, E3. by rewrite <- !app_assoc.
    + injection H as <- <-. exists (u1 ++ replicate n (Sym 38)). split; [by rewrite <- app_assoc|by constructor].
  - cbn [p_pipe]. intros (c1 & ts1 & (u1 & -> & Hu1)%IHe & H)%pbind_ok. destruct (is_sym 124 (head ts1)) eqn:Es.
    + apply is_sym_head in Es. apply pbind_ok in H as (c3 & ts3 & (u3 & E3 & Hu3)%IHp & [= <- <-]).
      exists (u1 ++ Sym 124 :: u3). split; [|by constructor]. rewrite Es, E3. by rewrite <- app_assoc.
    + injection H as <- <-. exists u1. split; [done|by constructor].
  - cbn [p_block]. destruct (is_sym 40 (head ts)) eqn:E1; [|done]. apply is_sym_head in E1.
    intros (c1 & ts1 & (u1 & Hu1 & Hg1)%IHl & H)%pbind_ok. destruct (is_sym 41 (head ts1)) eqn:E2; [|done].
    apply is_sym_head in E2. apply pbind_ok in H as (rs & ts2 & (u2 & Hu2 & Hr)%p_redirs_sound & [= <- <-]).
    exists (Sym 40 :: u1 ++ Sym 41 :: u2). split; [|by constructor]. rewrite E1, Hu1, E2, Hu2. cbn. by rewrite <- app_assoc.
  - cbn [p_exec]. destruct (is_sym 40 (head ts)) eqn:E1; [apply IHb|].
    intros ([ws rs] & ts1 & H & [= <- <-])%pbind_ok. apply p_simple_sound in H as (u & -> & Hu & Hl); [|unfold MAXARGS; lia].
    exists u. split; [done|by constructor].
Qed.

(** ** Lemmas: the reference parser is complete *)

(** What can follow a line, a pipe and a command *)
Definition follow (cs : list Z) ts : Prop := match ts with [] => True | Sym a :: _ => has_char cs a = true | _ => False end.

Lemma follow_mono cs cs' ts : (forall a, has_char cs a = true -> has_char cs' a = true) -> follow cs ts -> follow cs' ts.
Proof. destruct ts as [|[a| |] ts]; cbn; auto. Qed.

Lemma has_char_cons a cs b : has_char (a :: cs) b = (b =? a) || has_char cs b.
Proof. done. Qed.

(** A token that a follow set does not contain *)
Lemma follow_sym cs a ts : follow cs ts -> has_char cs a = false -> is_sym a (head ts) = false.
Proof. destruct ts as [|[b| |] ts]; [done| |done..]. cbn. intros H1 H2. apply Z.eqb_neq. intros ->. congruence. Qed.

Lemma p_redirs_complete u rs rest : redirs u rs -> follow (str "|)&;") rest -> p_redirs (u ++ rest) = POk rs rest.
Proof.
  intros Hu Hf. induction Hu as [|op f r ts rs Hr Hu IH]; cbn [app p_redirs].
  - destruct rest as [|[b| |] rest]; [done| |done..]. cbn. cbn [follow] in Hf.
    destruct (Z.eqb_spec b 60) as [->|]; [done|]. destruct (Z.eqb_spec b 62) as [->|]; done.
  - assert (Hi : is_redir op = true).
    { destruct op as [b| |]; [|done..]. cbn in *. destruct (b =? 60); [done|]. by destruct (b =? 62). }
    by rewrite Hi, Hr, IH.
Qed.

Lemma p_simple_complete n u ws rs rest :
  simple u ws rs -> (n + length ws < MAXARGS)%nat -> follow (str "|)&;") rest -> p_simple n (u ++ rest) = POk (ws, rs) rest.
Proof.
  intros Hu. revert n. induction Hu as [|w ts ws rs Hu IH|op f r ts ws rs Hr Hu IH]; intros n Hn Hf; cbn [app].
  - destruct rest as [|[b| |] rest]; [done| |done..]. cbn [follow] in Hf. cbn [p_simple is_redir].
    destruct (Z.eqb_spec b 60) as [->|]; [done|]. destruct (Z.eqb_spec b 62) as [->|]; [done|]. cbn [orb]. by rewrite Hf.
  - cbn [p_simple]. cbn [length] in Hn. destruct (Nat.leb_spec MAXARGS (S n)); [lia|]. rewrite IH by (done || lia). done.
  - destruct op as [b| |]; [|cbn [p_simple is_redir]; rewrite Hr, IH by done; done|done]. cbn [p_simple is_redir].
    assert (Hi : (b =? 60) || (b =? 62) = true) by (cbn in Hr; destruct (b =? 60); [done|]; by destruct (b =? 62)).
    by rewrite Hi, Hr, IH.
Qed.

Lemma p_backs_complete n c rest :
  is_sym 38 (head rest) = false -> p_backs c (replicate n (Sym 38) ++ rest) = (Nat.iter n Back c, rest).
Proof.
  intros Hr. revert c. induction n as [|n IH]; intros c; cbn [replicate app].
  - destruct rest as [|t rest]; [done|]. cbn in *. by rewrite Hr.
  - cbn [p_backs is_sym]. rewrite Z.eqb_refl, IH. by rewrite Nat.iter_succ_r.
Qed.

(** A simple command does not begin with a parenthesis. *)
Lemma simple_head u ws rs rest : simple u ws rs -> follow (str "|)&;") rest -> is_sym 40 (head (u ++ rest)) = false.
Proof.
  intros [|w ts ws' rs' _|op f r ts ws' rs' Hr _] Hf; cbn [app head]; [by eapply follow_sym|done|].
  destruct op as [b| |]; [|done..]. cbn in *. destruct (Z.eqb_spec b 40) as [->|]; done.
Qed.

Lemma follow_backs n rest : follow (str ")") rest \/ follow (str ");") rest -> follow (str ")&;") (replicate n (Sym 38) ++ rest).
Proof.
  intros Hf. destruct n; [|done]. destruct rest as [|[b| |] rest]; [done| |by destruct Hf..].
  cbn in *. rewrite !orb_true_iff in *. naive_solver.
Qed.

Lemma p_complete :
  (forall u c, g_line u c -> forall k rest, follow (str ")") rest -> (4 * length u + 4 <= k)%nat -> p_line k (u ++ rest) = POk c rest) /\
  (forall u c, g_pipe u c -> forall k rest, follow (str ")&;") rest -> (4 * length u + 3 <= k)%nat -> p_pipe k (u ++ rest) = POk c rest) /\
  (forall u c, g_exec u c -> forall k rest, follow (str "|)&;") rest -> (4 * length u + 2 <= k)%nat -> p_exec k (u ++ rest) = POk c rest).
Proof.
  apply g_ind.
  - intros ts n c _ IH k rest Hf Hk. rewrite length_app, length_replicate in Hk. destruct k as [|k]; [lia|]. cbn [p_line].
    rewrite <- app_assoc, IH; [|by apply follow_backs; left|lia]. cbn [pbind].
    rewrite p_backs_complete by (by eapply follow_sym). by rewrite (follow_sym _ 59 _ Hf).
  - intros ts n c ts' c' _ IH _ IH' k rest Hf Hk. rewrite !length_app, length_replicate in Hk. cbn [length] in Hk.
    destruct k as [|k]; [lia|]. cbn [p_line]. rewrite <- !app_assoc, IH; [|by apply follow_backs; right|lia]. cbn [pbind].
    rewrite p_backs_complete by done. cbn [app head tail]. cbn [is_sym]. rewrite Z.eqb_refl, IH' by (done || lia). done.
  - intros ts c _ IH k rest Hf Hk. destruct k as [|k]; [lia|]. cbn [p_pipe].
    rewrite IH; [|eapply follow_mono; [|done]; intros a; cbn; rewrite !orb_true_iff; naive_solver|lia].
    cbn [pbind]. by rewrite (follow_sym _ 124 _ Hf).
  - intros ts c ts' c' _ IH _ IH' k rest Hf Hk. rewrite length_app in Hk. cbn [length] in Hk. destruct k as [|k]; [lia|]. cbn [p_pipe].
    rewrite <- app_assoc, IH by (done || lia). cbn [pbind app head tail is_sym]. rewrite Z.eqb_refl, IH' by (done || lia). done.
  - intros ts ws rs Hs Hl k rest Hf Hk. destruct k as [|k]; [lia|]. cbn [p_exec].
    rewrite (simple_head _ _ _ _ Hs Hf), (p_simple_complete 0 _ _ _ _ Hs) by done. done.
  - intros ts c ts' rs _ IH Hr k rest Hf Hk. cbn [length] in Hk. rewrite length_app in Hk. cbn [length] in Hk.
    destruct k as [|[|k]]; [lia..|]. cbn [p_exec app head is_sym]. rewrite Z.eqb_refl. cbn [p_block head is_sym tail].
    rewrite Z.eqb_refl, <- app_assoc, IH by (done || lia). cbn [pbind app head tail is_sym]. rewrite Z.eqb_refl.
    by rewrite (p_redirs_complete _ _ _ Hr Hf).
Qed.

(** ** Lemmas: the fuel is enough *)

Lemma p_redirs_fuel ts : p_redirs ts <> PFuel.
Proof.
  remember (length ts) as n eqn:E. revert ts E. induction n as [n IH] using lt_wf_ind. intros [|op ts] E; cbn; [done|].
  destruct (is_redir op); [|done]. destruct ts as [|[| |f] ts]; [done..|]. destruct (redir_tok op f); [|done].
  specialize (IH (length ts) ltac:(cbn in E; lia) ts eq_refl). by destruct (p_redirs ts).
Qed.

Lemma p_simple_fuel n ts : p_simple n ts <> PFuel.
Proof.
  remember (length ts) as m eqn:E. revert n ts E. induction m as [m IH] using lt_wf_ind. intros n [|op ts] E; cbn [p_simple]; [done|].
  assert (IH' : forall ts' n, (length ts' < m)%nat -> p_simple n ts' <> PFuel) by (intros ts' n' Hl; by eapply IH).
  destruct op as [b| |w]; cbn [is_redir].
  - destruct (_ || _); [|by destruct (has_char _ b)]. destruct ts as [|[| |f] ts]; [done..|]. destruct (redir_tok (Sym b) f); [|done].
    specialize (IH' ts n ltac:(cbn in E; lia)). by destruct (p_simple n ts).
  - destruct ts as [|[| |f] ts]; [done..|]. cbn [redir_tok]. specialize (IH' ts n ltac:(cbn in E; lia)). by destruct (p_simple n ts).
  - destruct (MAXARGS <=? S n)%nat; [done|]. specialize (IH' ts (S n) ltac:(cbn in E; lia)). by destruct (p_simple (S n) ts).
Qed.

Lemma tail_lt a ts : is_sym a (head ts) = true -> (S (length (tail ts)) = length ts)%nat.
Proof. by destruct ts. Qed.

Lemma p_fuel k :
  (forall ts, (4 * length ts + 4 <= k)%nat -> p_line k ts <> PFuel) /\
  (forall ts, (4 * length ts + 3 <= k)%nat -> p_pipe k ts <> PFuel) /\
  (forall ts, (4 * length ts + 1 <= k)%nat -> p_block k ts <> PFuel) /\
  (forall ts, (4 * length ts + 2 <= k)%nat -> p_exec k ts <> PFuel).
Proof.
  induction k as [|k (IHl & IHp & IHb & IHe)]; [split_and!; intros; lia|].
  destruct (p_sound k) as (Sl & Sp & Sb & Se). split_and!; intros ts Hk.
  - cbn [p_line]. specialize (IHp ts ltac:(lia)). destruct (p_pipe k ts) as [c r| |] eqn:E; [|done..]. cbn [pbind].
    apply Sp in E as (u & -> & _). pose proof (p_backs_sound c r) as Hb. destruct (p_backs c r) as [c2 r2]. destruct Hb as (n & -> & _).
    destruct (is_sym 59 (head r2)) eqn:Es; [|done]. apply tail_lt in Es. rewrite !length_app in Hk.
    specialize (IHl (tail r2) ltac:(lia)). by destruct (p_line k (tail r2)).
  - cbn [p_pipe]. specialize (IHe ts ltac:(lia)). destruct (p_exec k ts) as [c r| |] eqn:E; [|done..]. cbn [pbind].
    apply Se in E as (u & -> & _). destruct (is_sym 124 (head r)) eqn:Es; [|done]. apply tail_lt in Es. rewrite length_app in Hk.
    specialize (IHp (tail r) ltac:(lia)). by destruct (p_pipe k (tail r)).
  - cbn [p_block]. destruct (is_sym 40 (head ts)) eqn:Es; [|done]. apply tail_lt in Es.
    specialize (IHl (tail ts) ltac:(lia)). destruct (p_line k (tail ts)) as [c r| |]; [|done..]. cbn [pbind].
    destruct (is_sym 41 (head r)); [|done]. pose proof (p_redirs_fuel (tail r)). by destruct (p_redirs (tail r)).
  - cbn [p_exec]. destruct (is_sym 40 (head ts)); [apply IHb; lia|]. pose proof (p_simple_fuel 0 ts). by destruct (p_simple 0 ts).
Qed.
End lemmas.
