(* ===== verification/ShParse.v ===== *)
(** * Correctness of the shell's parser (user/sh.c)

    parsecmd() accepts exactly the command lines of the grammar; the structures that it
    builds are the command that the grammar gives the line, and their strings are
    NUL-terminated in the buffer.  The parser is shown to do what the reference parser
    does on the tokens of the line. *)

From Stdlib Require Import ZArith Lia.
From stdpp Require Import base tactics numbers gmap strings option list.
From S2P Require Import Prelude Kstring Sysfile Sh ShGrammar.

(** ** Specification: structures *)

(** The array of [n] pointers, followed by null pointers *)
Definition args (l : list nat) : list (option nat) := (Some <$> l) ++ replicate (MAXARGS - length l) None.

(** The structure at [c] is the command [t], whose words are positions in the buffer. *)
Fixpoint repr (h : gmap nat node) (c : nat) (t : cmd (nat * nat)) : Prop :=
  match t with
  | Exec ws => (length ws < MAXARGS)%nat /\ h !! c = Some (Nexec (args ws.*1) (args ws.*2))
  | Redir t r => exists c', (c' < c)%nat /\
      h !! c = Some (Nredir c' (rd_file r).1 (rd_file r).2 (rd_mode r) (rd_fd r)) /\ repr h c' t
  | Pipe t1 t2 => exists c1 c2, (c1 < c)%nat /\ (c2 < c)%nat /\ h !! c = Some (Npipe c1 c2) /\ repr h c1 t1 /\ repr h c2 t2
  | Seq t1 t2 => exists c1 c2, (c1 < c)%nat /\ (c2 < c)%nat /\ h !! c = Some (Nlist c1 c2) /\ repr h c1 t1 /\ repr h c2 t2
  | Back t => exists c', (c' < c)%nat /\ h !! c = Some (Nback c') /\ repr h c' t
  end.

(** [ret] is [c] with redirections around it, the last one first. *)
Fixpoint chain (h : gmap nat node) (ret : nat) (rs : list (redir (nat * nat))) (c : nat) : Prop :=
  match rs with
  | [] => ret = c
  | r :: rs' => exists c', (c' < ret)%nat /\
      h !! ret = Some (Nredir c' (rd_file r).1 (rd_file r).2 (rd_mode r) (rd_fd r)) /\ chain h c' rs' c
  end.

(** ** Lemmas: runs that return or panic *)

Definition runs {S A} (m : M S A) (Q : A -> S -> Prop) (F : Prop) (s : S) : Prop :=
  match m s with Ok a s' => Q a s' | Panic _ => F | _ => False end.

Lemma runs_ret {S A} (a : A) (Q : A -> S -> Prop) F s : Q a s -> runs (mret a) Q F s.
Proof. done. Qed.

Lemma runs_bind {S A B} (m : M S A) (f : A -> M S B) Q F s :
  runs m (fun a s' => runs (f a) Q F s') F s -> runs (m ≫= f) Q F s.
Proof. unfold runs, mbind, M_bind. by destruct (m s). Qed.

Lemma runs_mono {S A} (m : M S A) (Q Q' : A -> S -> Prop) (F F' : Prop) s :
  runs m Q F s -> (forall a s', Q a s' -> Q' a s') -> (F -> F') -> runs m Q' F' s.
Proof. unfold runs. destruct (m s); naive_solver. Qed.

Lemma runs_gets {S A} (f : S -> A) (Q : A -> S -> Prop) F s : Q (f s) s -> runs (gets f) Q F s.
Proof. done. Qed.

Lemma runs_panic {S A} msg (Q : A -> S -> Prop) (F : Prop) s : F -> runs (panic msg) Q F s.
Proof. done. Qed.

Lemma runs_loop {S A B} (body : A -> M S (A + B)) n a Q F s :
  runs (body a) (fun r s' => match r with inl a' => runs (loop n body a') Q F s' | inr b => Q b s' end) F s ->
  runs (loop (Datatypes.S n) body a) Q F s.
Proof. intros H. cbn [loop]. apply runs_bind. eapply runs_mono; [exact H| |done]. by intros [a'|b] s'. Qed.

(** ** Lemmas: structures *)

Lemma repr_mono h h' c t : h ⊆ h' -> repr h c t -> repr h' c t.
Proof.
  intros Hh. assert (Hl : forall a n, h !! a = Some n -> h' !! a = Some n) by (intros a n Ha; by eapply lookup_weaken).
  revert c. induction t as [ws|t IH r|t1 IH1 t2 IH2|t1 IH1 t2 IH2|t IH]; intros c; cbn.
  - intros [H1 H2]. auto.
  - intros (c' & H1 & H2 & H3). exists c'. auto.
  - intros (c1 & c2 & H1 & H2 & H3 & H4 & H5). exists c1, c2. auto 6.
  - intros (c1 & c2 & H1 & H2 & H3 & H4 & H5). exists c1, c2. auto 6.
  - intros (c' & H1 & H2 & H3). exists c'. auto.
Qed.

Lemma chain_mono h h' ret rs c : h ⊆ h' -> chain h ret rs c -> chain h' ret rs c.
Proof.
  intros Hh. revert ret. induction rs as [|r rs IH]; intros ret; cbn; [done|].
  intros (c' & Hc & Hl & Hr). exists c'. split_and!; [done|by eapply lookup_weaken|auto].
Qed.

Lemma chain_snoc h ret rs c r c0 :
  chain h ret rs c -> (c0 < c)%nat -> h !! c = Some (Nredir c0 (rd_file r).1 (rd_file r).2 (rd_mode r) (rd_fd r)) ->
  chain h ret (rs ++ [r]) c0.
Proof.
  revert ret. induction rs as [|r' rs IH]; intros ret; cbn.
  - intros -> Hc Hl. by exists c0.
  - intros (c' & Hc' & Hl' & Hr) Hc Hl. exists c'. split_and!; auto.
Qed.

Lemma chain_app h ret rs rs' c c' : chain h ret rs c -> chain h c rs' c' -> chain h ret (rs ++ rs') c'.
Proof.
  revert ret. induction rs as [|r rs IH]; intros ret; cbn; [by intros ->|].
  intros (c1 & Hc1 & Hl & Hr) H. exists c1. split_and!; auto.
Qed.

Lemma chain_le h ret rs c : chain h ret rs c -> (c <= ret)%nat.
Proof. revert ret. induction rs as [|r rs IH]; intros ret; cbn; [lia|]. intros (c' & Hc & _ & H%IH). lia. Qed.

Lemma chain_wrap h ret rs c t : chain h ret (reverse rs) c -> repr h c t -> repr h ret (wrap t rs).
Proof.
  revert ret. induction rs as [|r rs IH] using rev_ind; intros ret; [by intros ->|].
  rewrite reverse_app. cbn. intros (c' & Hc & Hl & Hr) Ht. unfold wrap. rewrite foldl_app. cbn. exists c'. split_and!; [done..|].
  by apply IH.
Qed.

(** Changing the command inside *)
Lemma chain_insert h ret rs c n : chain h ret rs c -> chain (<[c := n]> h) ret rs c.
Proof.
  revert ret. induction rs as [|r rs IH]; intros ret; cbn; [done|]. intros (c' & Hc & Hl & Hr).
  exists c'. pose proof (chain_le _ _ _ _ Hr). rewrite lookup_insert_ne by lia. auto.
Qed.

Lemma args_snoc n l q : length l = n -> (n < MAXARGS)%nat -> <[n := Some q]> (args l) = args (l ++ [q]).
Proof.
  intros <- Hl. unfold args. rewrite fmap_app, length_app. rewrite insert_app_r_alt by (rewrite length_fmap; lia).
  rewrite length_fmap, Nat.sub_diag. cbn [length fmap list_fmap]. rewrite <- app_assoc. f_equal.
  replace (MAXARGS - length l)%nat with (S (MAXARGS - (length l + 1)))%nat by lia. done.
Qed.

Lemma args_none n l : length l = n -> <[n := None]> (args l) = args l.
Proof.
  intros <-.
  unfold args. rewrite insert_app_r_alt, length_fmap, Nat.sub_diag by (rewrite length_fmap; lia). f_equal.
  by destruct (MAXARGS - length l)%nat.
Qed.

(** ** Lemmas: the reference parser *)

Lemma p_redirs_rest {A} (ts : list (tok A)) rs r : p_redirs ts = POk rs r -> forall t, head r = Some t -> is_redir t = false.
Proof.
  remember (length ts) as n eqn:E. revert ts rs r E. induction n as [n IH] using lt_wf_ind. intros [|op ts] rs r E; cbn.
  { by intros [= <- <-]. }
  destruct (is_redir op) eqn:Eop; [|intros [= <- <-]; by intros t [= <-]].
  destruct ts as [|[| |f] ts]; [done..|]. destruct (redir_tok op f); [|done].
  intros (rs' & r' & H & [= <- <-])%pbind_ok. eapply (IH (length ts)); [cbn in E; lia|done|exact H].
Qed.

(** A simple command begins with redirections. *)
Lemma p_simple_redirs {A} n (ts : list (tok A)) :
  p_simple n ts = pbind (p_redirs ts) (fun rs r => pbind (p_simple n r) (fun x r' => POk (x.1, rs ++ x.2) r')).
Proof.
  remember (length ts) as m eqn:E. revert ts E. induction m as [m IH] using lt_wf_ind. intros [|op ts] E; [done|].
  cbn [p_redirs]. destruct (is_redir op) eqn:Eop.
  2:{ cbn [pbind]. destruct (p_simple n (op :: ts)) as [[ws rs] r| |]; done. }
  assert (Hs : p_simple n (op :: ts) = match ts with
    | Word f :: ts'' => match redir_tok op f with Some r => pbind (p_simple n ts'') (fun x rest => POk (x.1, r :: x.2) rest) | None => PErr end
    | _ => PErr end).
  { destruct op as [b| |]; [|done..]. cbn [p_simple]. by rewrite Eop. }
  rewrite Hs. destruct ts as [|[| |f] ts]; [done..|]. destruct (redir_tok op f) as [r|]; [|done].
  rewrite (IH (length ts)) by (cbn in E; lia || done). destruct (p_redirs ts) as [rs r1| |]; [|done..]. cbn [pbind].
  by destruct (p_simple n r1) as [[ws rs'] r2| |].
Qed.

(** ** Lemmas: tokens *)

Definition word_char (c : Z) : bool := negb (has_char whitespace c) && negb (has_char symbols c).

Lemma skip_while_spec f buf s n :
  let r := skip_while f buf s n in
  (s <= r <= s + n)%nat /\ (forall i, (s <= i < r)%nat -> f (at_ buf i) = true) /\ (r = (s + n)%nat \/ f (at_ buf r) = false).
Proof.
  revert s. induction n as [|n IH]; intros s; cbn [skip_while]; [split_and!; [lia..| |left; lia]; intros; lia|].
  destruct (f (at_ buf s)) eqn:E.
  - destruct (IH (S s)) as (H1 & H2 & H3). split_and!; [lia|lia| |destruct H3; [left; lia|by right]].
    intros i Hi. destruct (decide (i = s)) as [->|]; [done|]. apply H2. lia.
  - split_and!; [lia..| |by right]. intros i Hi. lia.
Qed.

Lemma sub_symbols cs : forallb (has_char symbols) cs = true -> forall c, has_char cs c = true -> has_char symbols c = true.
Proof.
  intros Hf c Hc. unfold has_char in Hc. apply existsb_exists in Hc as (x & Hx & ->%Z.eqb_eq).
  by eapply forallb_forall in Hf.
Qed.

Section tokens.
Context (line rest : list Z) (Hline : Forall (fun c => c <> 0) line).

Let es : nat := length line.
Let buf : list Z := line ++ 0 :: rest.

(** The tokens from position [ps] on *)
Definition toks (ps : nat) : list (tok (nat * nat)) := lex None ps (drop ps line).

Lemma at_line s : (s < es)%nat -> line !! s = Some (at_ buf s) /\ at_ buf s <> 0.
Proof using Hline.
  intros Hs. destruct (lookup_Some_total line s Hs) as [c Hc].
  assert (E : at_ buf s = c) by (unfold at_, buf; rewrite nth_lookup, lookup_app_l, Hc by done; done).
  rewrite E. split; [done|]. rewrite Forall_lookup in Hline. eauto.
Qed.

Lemma at_end : at_ buf es = 0.
Proof. unfold at_, buf, es. by rewrite nth_lookup, list_lookup_middle. Qed.

Lemma drop_at s : (s < es)%nat -> drop s line = at_ buf s :: drop (S s) line.
Proof using Hline. intros Hs. apply drop_S. by apply at_line. Qed.

Lemma toks_end : toks es = [].
Proof. unfold toks, es. by rewrite drop_ge. Qed.

Lemma toks_space s : (s < es)%nat -> has_char whitespace (at_ buf s) = true -> toks s = toks (S s).
Proof using Hline. intros Hs Hw. unfold toks. rewrite drop_at by done. cbn [lex]. by rewrite Hw. Qed.

Lemma skip_space_spec ps :
  (ps <= es)%nat ->
  let s := skip_space buf ps es in
  (ps <= s <= es)%nat /\ toks s = toks ps /\ (s = es \/ (s < es)%nat /\ has_char whitespace (at_ buf s) = false).
Proof using Hline.
  intros Hps s. unfold skip_space in s. destruct (skip_while_spec (has_char whitespace) buf ps (es - ps)) as (H1 & H2 & H3).
  fold s in H1, H2, H3. split_and!; [lia..| |destruct H3; [left; lia|]; destruct (decide (s = es)); [by left|right; split; [lia|done]]].
  clear H3. remember (s - ps)%nat as n eqn:E. assert (Hn : s = (ps + n)%nat) by lia. clear E. clearbody s. subst s.
  induction n as [|n IH]; [by rewrite Nat.add_0_r|].
  rewrite <- IH by (lia || intros; apply H2; lia). symmetry. replace (ps + S n)%nat with (S (ps + n)) by lia.
  apply toks_space; [lia|apply H2; lia].
Qed.

(** The rest of a word *)
Lemma lex_word q s :
  (s <= es)%nat ->
  let r := skip_while word_char buf s (es - s) in
  lex (Some q) s (drop s line) = Word (q, r) :: toks r.
Proof using Hline.
  intros Hs r. destruct (skip_while_spec word_char buf s (es - s)) as (H1 & H2 & H3). fold r in H1, H2, H3.
  assert (E : lex (Some q) s (drop s line) = lex (Some q) r (drop r line)).
  { clear H3. remember (r - s)%nat as n eqn:E. assert (Hn : r = (s + n)%nat) by lia. clear E. clearbody r. subst r.
    induction n as [|n IH]; [by rewrite Nat.add_0_r|].
    rewrite IH by (lia || intros; apply H2; lia). rewrite drop_at by lia. cbn [lex].
    specialize (H2 (s + n)%nat ltac:(lia)). apply andb_true_iff in H2 as [Hw Hy].
    apply negb_true_iff in Hw, Hy. rewrite Hw, Hy. cbn [default]. by replace (s + S n)%nat with (S (s + n)) by lia. }
  rewrite E. unfold toks. destruct (decide (r = es)) as [->|Hr]; [unfold es; by rewrite drop_ge|].
  destruct H3 as [H3|H3]; [lia|]. rewrite drop_at by lia. cbn [lex]. unfold word_char in H3.
  destruct (has_char whitespace (at_ buf r)); [done|]. destruct (has_char symbols (at_ buf r)); [|done]. done.
Qed.

(** What gettoken() returns for a token *)
Definition kind {A} (t : tok A) : Z := match t with Sym c => c | App => 43 | Word _ => 97 end.

Lemma gettoken_spec ps :
  (ps <= es)%nat ->
  let '(ret, q, eq, ps') := gettoken buf ps es in
  (ps <= ps' <= es)%nat /\
  match toks ps with
  | [] => ret = 0 /\ toks ps' = []
  | t :: ts => (ps < ps')%nat /\ toks ps' = ts /\ ret = kind t /\ (forall w, t = Word w -> w = (q, eq)) /\
               (forall c, t = Sym c -> has_char symbols c = true)
  end.
Proof using Hline.
  intros Hps. unfold gettoken. destruct (skip_space_spec ps Hps) as (Hs & Ht & Hc). set (s := skip_space buf ps es) in *.
  rewrite <- Ht. destruct Hc as [Hc|[Hs' Hw]].
  { rewrite Hc, at_end, Z.eqb_refl. rewrite toks_end. destruct (skip_space_spec es ltac:(lia)) as (H1 & H2 & _).
    split_and!; [lia|lia|done|by rewrite H2, toks_end]. }
  destruct (at_line s Hs') as [_ Hne]. rewrite (proj2 (Z.eqb_neq _ 0)) by done.
  assert (Hnext : forall r, (s < r <= es)%nat -> (skip_space buf r es <= es)%nat /\ (ps < skip_space buf r es)%nat /\ toks (skip_space buf r es) = toks r).
  { intros r Hr. destruct (skip_space_spec r ltac:(lia)) as (H1 & H2 & _). split_and!; [lia|lia|done]. }
  assert (Et : toks s = lex None s (at_ buf s :: drop (S s) line)) by (unfold toks; by rewrite drop_at).
  rewrite Et. cbn [lex]. rewrite Hw. cbn [end_word app default].
  destruct (has_char (str "|();&<") (at_ buf s)) eqn:E1.
  { assert (Hy : has_char symbols (at_ buf s) = true /\ (at_ buf s =? 62) = false).
    { revert E1. unfold has_char, symbols. cbn. rewrite !orb_true_iff, !Z.eqb_eq, Z.eqb_neq. split; [naive_solver|lia]. }
    destruct Hy as [Hy1 Hy2]. rewrite Hy1, Hy2. destruct (Hnext (S s)) as (H1 & H2 & H3); [lia|]. split_and!; try done; try lia. intros c [= <-]. done. }
  destruct (Z.eqb_spec (at_ buf s) 62) as [E2|E2].
  { rewrite E2. change (has_char symbols 62) with true. cbv iota.
    destruct (decide (S s < es)%nat) as [Hlt|Hge].
    - rewrite (drop_at (S s)) by done. destruct (at_ buf (S s) =? 62) eqn:E3.
      + destruct (Hnext (S (S s))) as (H1 & H2 & H3); [lia|]. split_and!; try done; lia.
      + destruct (Hnext (S s)) as (H1 & H2 & H3); [lia|]. unfold toks in H3. rewrite (drop_at (S s)) in H3 by done.
        split_and!; try done; try lia. by intros c [= <-].
    - assert (S s = es) as E3 by lia. rewrite E3, at_end, drop_ge by done. cbn [Z.eqb].
      destruct (Hnext es) as (H1 & H2 & H3); [lia|]. rewrite toks_end in H3. split_and!; try done; try lia. by intros c [= <-]. }
  assert (Hy : has_char symbols (at_ buf s) = false).
  { apply not_true_is_false. revert E1 E2. unfold has_char, symbols. cbn. rewrite !orb_false_iff, !orb_true_iff, !Z.eqb_eq, !Z.eqb_neq. naive_solver. }
  rewrite Hy. rewrite lex_word by lia. cbn [skip_while]. 
  fold word_char. set (r := skip_while word_char buf s (es - s)).
  assert (Er : r = skip_while word_char buf (S s) (es - S s)).
  { unfold r. replace (es - s)%nat with (S (es - S s)) by lia. cbn [skip_while]. unfold word_char at 1. by rewrite Hw, Hy. }
  rewrite <- Er. destruct (skip_while_spec word_char buf (S s) (es - S s)) as (H1 & _). rewrite <- Er in H1.
  destruct (Hnext r) as (H2 & H3 & H4); [lia|]. split_and!; try done; try lia. by intros w [= <-].
Qed.

(** The first token begins with one of the symbols [cs]. *)
Definition head_in {A} (cs : list Z) (t : option (tok A)) : bool :=
  match t with Some (Sym c) => has_char cs c | Some App => has_char cs 62 | _ => false end.

Lemma peek_spec ps cs :
  (ps <= es)%nat -> (forall c, has_char cs c = true -> has_char symbols c = true) ->
  let '(b, ps') := peek buf ps es cs in
  (ps <= ps' <= es)%nat /\ toks ps' = toks ps /\ b = head_in cs (head (toks ps)) /\ (toks ps = [] <-> ps' = es).
Proof using Hline.
  intros Hps Hcs. unfold peek. destruct (skip_space_spec ps Hps) as (Hs & Ht & Hc). set (s := skip_space buf ps es) in *.
  rewrite <- Ht. destruct Hc as [Hc|[Hs' Hw]].
  { rewrite Hc, at_end, toks_end. done. }
  destruct (at_line s Hs') as [_ Hne]. rewrite (proj2 (Z.eqb_neq _ 0)) by done. cbn [negb andb].
  assert (Hno : s <> es) by lia. split; [lia|]. split; [done|].
  unfold toks. rewrite drop_at by done. cbn [lex]. rewrite Hw. cbn [end_word app default].
  destruct (has_char symbols (at_ buf s)) eqn:Hy.
  - destruct (Z.eqb_spec (at_ buf s) 62) as [E|E].
    + rewrite E. destruct (drop (S s) line) as [|d l]; [done|]. by destruct (d =? 62).
    + done.
  - rewrite lex_word by lia. cbn [head_in head]. split; [|done]. destruct (has_char cs (at_ buf s)) eqn:E; [|done]. apply Hcs in E. congruence.
Qed.

(** ** Lemmas: redirections *)

Record st_ok (s : shst) : Prop := {
  so_buf : sh_buf s = buf;
  so_next : (0 < sh_next s)%nat;
  so_heap a n : sh_heap s !! a = Some n -> (0 < a < sh_next s)%nat;
}.

(** [s'] has more structures than [s]; they took at most [n] units of memory. *)
Definition ext (s s' : shst) (n : nat) : Prop :=
  sh_heap s ⊆ sh_heap s' /\ (sh_next s <= sh_next s')%nat /\ (sh_room s <= sh_room s' + n)%nat.

Lemma ext_refl s : ext s s 0.
Proof. split_and!; [done|lia|lia]. Qed.

Lemma ext_trans s s1 s2 n n1 n2 : ext s s1 n1 -> ext s1 s2 n2 -> (n1 + n2 <= n)%nat -> ext s s2 n.
Proof. intros (H1 & H2 & H3) (H4 & H5 & H6) Hn. split_and!; [by etrans|lia|lia]. Qed.

Lemma new_node_runs n Q F s :
  st_ok s -> (0 < sh_room s)%nat ->
  (forall c s', st_ok s' -> ext s s' 1 -> c = sh_next s -> sh_next s' = S c -> sh_heap s !! c = None ->
     sh_heap s' = <[c := n]> (sh_heap s) -> Q c s') ->
  runs (new_node n) Q F s.
Proof.
  intros Hs Hr HQ. unfold runs, new_node. destruct (sh_room s) as [|r] eqn:Er; [lia|].
  assert (Hn : sh_heap s !! sh_next s = None).
  { destruct (sh_heap s !! sh_next s) eqn:E; [|done]. apply (so_heap _ Hs) in E. lia. }
  apply HQ; cbn; [|split_and!; [by apply insert_subseteq|cbn; lia|cbn; lia]|done..]. destruct Hs as [Hb Hx Hh].
  split; cbn; [done|lia|]. intros a n'. destruct (decide (a = sh_next s)) as [->|Hne]; [lia|].
  rewrite lookup_insert_ne by done. intros Ha%Hh. lia.
Qed.

Lemma redir_of_eq (op : tok (nat * nat)) f r c : redir_tok op f = Some r -> redir_of (kind op) c f.1 f.2 = redircmd c (rd_file r).1 (rd_file r).2 (rd_mode r) (rd_fd r).
Proof.
  destruct op as [b| |]; cbn; [|by intros [= <-]|done]. unfold redir_of.
  destruct (b =? 60); [by intros [= <-]|]. destruct (b =? 62); [by intros [= <-]|done].
Qed.

Lemma head_in_redir op : head_in (str "<>") (Some op) = is_redir (A := nat * nat) op.
Proof. destruct op as [b| |]; [|done..]. unfold head_in, has_char. cbn. by rewrite orb_false_r. Qed.

Lemma parseredirs_runs n c ps s :
  st_ok s -> (ps <= es)%nat -> (es - ps < n)%nat -> (0 < c < sh_next s)%nat -> (2 * length (toks ps) <= sh_room s)%nat ->
  runs (loop n (parseredirs_body es) (c, ps)) (fun x s' => exists rs,
    p_redirs (toks ps) = POk rs (toks x.2) /\ chain (sh_heap s') x.1 (reverse rs) c /\ st_ok s' /\
    ext s s' (2 * length (toks ps) - 2 * length (toks x.2)) /\ (ps <= x.2 <= es)%nat /\ (length (toks x.2) <= length (toks ps))%nat /\
    (0 < x.1 < sh_next s')%nat) (p_redirs (toks ps) = PErr) s.
Proof using Hline.
  revert c ps s. induction n as [|n IH]; intros c ps s Hs Hps Hn Hc Hroom; [lia|]. apply runs_loop.
  unfold parseredirs_body. apply runs_bind, runs_gets. rewrite (so_buf _ Hs).
  pose proof (peek_spec ps (str "<>") Hps) as Hp. destruct (peek buf ps es (str "<>")) as [b ps1].
  destruct Hp as (Hp1 & Hp2 & Hb & Hp4).
  { by apply sub_symbols. }
  rewrite <- Hp2 in *. clear Hp2 Hp4.
  destruct (toks ps1) as [|op ts] eqn:Et; cbn [head] in Hb.
  { rewrite Hb. apply runs_ret. exists []. cbn [fst snd]. rewrite Et. split_and!; [done..|apply ext_refl|lia|lia|done|lia|lia]. }
  rewrite head_in_redir in Hb. rewrite Hb. destruct (is_redir op) eqn:Eop.
  2:{ apply runs_ret. exists []. cbn [fst snd p_redirs]. rewrite Et, Eop. split_and!; [done..|rewrite Nat.sub_diag; apply ext_refl|lia|lia|done|lia|lia]. }
  pose proof (gettoken_spec ps1 ltac:(lia)) as Hg. destruct (gettoken buf ps1 es) as [[[tok1 q1] e1] ps2]. rewrite Et in Hg.
  destruct Hg as (Hg1 & Hg2 & Hg3 & -> & _). subst ts.
  pose proof (gettoken_spec ps2 ltac:(lia)) as Hg'. destruct (gettoken buf ps2 es) as [[[tok2 q] eq] ps3]. destruct Hg' as [Hg5 Hg6].
  cbn [p_redirs]. rewrite Eop. destruct (toks ps2) as [|t ts] eqn:Et2.
  { destruct Hg6 as [-> _]. by apply runs_panic. }
  destruct Hg6 as (Hg6 & Hg7 & -> & Hg8 & Hg9). destruct t as [b'| |f].
  { rewrite (proj2 (Z.eqb_neq (kind (Sym b')) 97)); [by apply runs_panic|]. cbn. intros ->. specialize (Hg9 97 eq_refl). done. }
  { by apply runs_panic. }
  specialize (Hg8 f eq_refl). subst f ts. cbn [kind Z.eqb Pos.eqb negb].
  destruct (redir_tok op (q, eq)) as [r|] eqn:Er.
  2:{ destruct op as [b'| |]; [|done..]. cbn in Er, Eop. destruct (b' =? 60); [done|]. destruct (b' =? 62); done. }
  pose proof (redir_of_eq op (q, eq) r c Er) as Ero. cbn [fst snd] in Ero. rewrite Ero. cbn [length] in Hroom.
  apply runs_bind, new_node_runs; [done|lia|]. intros c1 s1 Hs1 Hx1 Hc1 Hn1 Hfr Hh1. apply runs_ret. cbv iota.
  destruct Hx1 as (Hx1 & Hx2 & Hx3).
  eapply runs_mono; [apply (IH c1 ps3 s1); [done|lia|lia|lia|lia]| |].
  - intros x s2 (rs & E & Hch & Hs2 & Hx & Hr & Hl & Hlt). exists (r :: rs). rewrite E. cbn [pbind]. rewrite reverse_cons.
    split_and!; try done; try lia; [|eapply ext_trans; [by split_and!|done|cbn [length]; lia]|cbn [length]; lia].
    eapply chain_snoc; [done|lia|]. eapply lookup_weaken; [|apply Hx]. rewrite Hh1. by rewrite lookup_insert_eq.
  - intros ->. done.
Qed.

(** ** Lemmas: simple commands *)

(** The execcmd at [c] has the words [ws]; [ret] is it with redirections [rs]. *)
Record exec_at (s0 s : shst) (c ret : nat) (ws : list (nat * nat)) (rs : list (redir (nat * nat))) : Prop := {
  xa_st : st_ok s;
  xa_new : sh_heap s0 !! c = None;
  xa_old : sh_heap s0 ⊆ sh_heap s;
  xa_next : (sh_next s0 <= sh_next s)%nat;
  xa_len : (length ws < MAXARGS)%nat;
  xa_node : sh_heap s !! c = Some (Nexec (args ws.*1) (args ws.*2));
  xa_chain : chain (sh_heap s) ret (reverse rs) c;
  xa_ret : (0 < ret < sh_next s)%nat;
}.

(** Redirections around it *)
Lemma exec_at_redirs s0 s s' c ret ws rs ret' rs' n :
  exec_at s0 s c ret ws rs -> st_ok s' -> ext s s' n -> chain (sh_heap s') ret' (reverse rs') ret ->
  (0 < ret' < sh_next s')%nat -> exec_at s0 s' c ret' ws (rs ++ rs').
Proof.
  intros [] Hs (Hx1 & Hx2 & _) Hc Hr. split; try done; [by etrans|lia|by eapply lookup_weaken|].
  rewrite reverse_app. eapply chain_app; [done|by eapply chain_mono].
Qed.

(** One more argument *)
Lemma set_arg_runs s0 s c ret ws rs q eq Q F :
  exec_at s0 s c ret ws rs ->
  (forall s', st_ok s' -> sh_room s' = sh_room s -> sh_next s' = sh_next s -> sh_heap s0 ⊆ sh_heap s' ->
     sh_heap s' !! c = Some (Nexec (<[length ws := q]> (args ws.*1)) (<[length ws := eq]> (args ws.*2))) ->
     chain (sh_heap s') ret (reverse rs) c -> Q tt s') ->
  runs (set_arg c (length ws) q eq) Q F s.
Proof.
  intros [] HQ. unfold set_arg, get_node. apply runs_bind, runs_bind, runs_gets. rewrite xa_node0. apply runs_ret.
  unfold runs, modify. apply HQ; cbn; [|done..|by apply insert_subseteq_r|by rewrite lookup_insert_eq|by apply chain_insert].
  destruct xa_st0. split; cbn; [done..|]. intros a n. destruct (decide (a = c)) as [->|Hne]; [intros _; by eapply so_heap0|].
  rewrite lookup_insert_ne by done. apply so_heap0.
Qed.

Lemma parseexec_loop n s0 s c ret ps ws rs :
  exec_at s0 s c ret ws rs -> (ps <= es)%nat -> (es - ps < n)%nat -> (2 * length (toks ps) <= sh_room s)%nat ->
  (forall t, head (toks ps) = Some t -> is_redir t = false) ->
  runs (loop n (parseexec_body c es) (ret, length ws, ps)) (fun x s' => exists ws' rs',
    p_simple (length ws) (toks ps) = POk (ws', rs') (toks x.2) /\ exec_at s0 s' c x.1.1 (ws ++ ws') (rs ++ rs') /\
    x.1.2 = length (ws ++ ws') /\ (sh_room s <= sh_room s' + (2 * length (toks ps) - 2 * length (toks x.2)))%nat /\
    (ps <= x.2 <= es)%nat /\ (length (toks x.2) <= length (toks ps))%nat)
    (p_simple (length ws) (toks ps) = PErr) s.
Proof using Hline.
  revert s ret ps ws rs. induction n as [|n IH]; intros s ret ps ws rs Hx Hps Hn Hroom Hnr; [lia|]. apply runs_loop.
  unfold parseexec_body. apply runs_bind, runs_gets. rewrite (so_buf _ (xa_st _ _ _ _ _ _ Hx)).
  pose proof (peek_spec ps (str "|)&;") Hps) as Hp. destruct (peek buf ps es (str "|)&;")) as [b ps1].
  destruct Hp as (Hp1 & Hp2 & Hb & _).
  { by apply sub_symbols. }
  rewrite <- Hp2 in *. clear Hp2. pose proof (gettoken_spec ps1 ltac:(lia)) as Hg.
  destruct (gettoken buf ps1 es) as [[[tok1 q] eq] ps2]. destruct Hg as [Hg1 Hg2].
  destruct (toks ps1) as [|t ts] eqn:Et; cbn [head] in Hb.
  { rewrite Hb. destruct Hg2 as [-> E]. apply runs_ret. exists [], []. cbn [fst snd]. rewrite !app_nil_r, E. split_and!; try done; try lia. }
  specialize (Hnr t eq_refl). destruct Hg2 as (Hg2 & Hg3 & -> & Hg4 & Hg5). destruct t as [a| |w]; [|done|].
  - cbn [head_in] in Hb. cbn [p_simple]. rewrite Hnr. rewrite Hb. destruct (has_char (str "|)&;") a).
    { apply runs_ret. exists [], []. cbn [fst snd]. rewrite !app_nil_r, Et. split_and!; try done; try lia. }
    specialize (Hg5 a eq_refl). cbn [kind]. destruct (Z.eqb_spec a 0) as [->|]; [done|]. destruct (Z.eqb_spec a 97) as [->|]; [done|].
    by apply runs_panic.
  - rewrite Hb. cbn [head_in kind Z.eqb Pos.eqb negb]. specialize (Hg4 w eq_refl). subst w ts. apply runs_bind. cbn [p_simple].
    apply (set_arg_runs s0 s c ret ws rs); [done|]. intros s1 Hs1 Hr1 Hn1 Ho1 Hc1 Hch1.
    destruct (Nat.leb_spec MAXARGS (S (length ws))) as [Hm|Hm]; [by apply runs_panic|].
    rewrite !args_snoc in Hc1 by (rewrite ?length_fmap; lia).
    assert (Hx1 : exec_at s0 s1 c ret (ws ++ [(q, eq)]) rs).
    { destruct Hx. split; try done; [lia|rewrite length_app; cbn; lia|by rewrite !fmap_app|lia]. }
    assert (Hl1 : S (length ws) = length (ws ++ [(q, eq)])) by (rewrite length_app; cbn; lia). cbn [length] in Hroom.
    apply runs_bind. unfold parseredirs. eapply runs_mono; [apply parseredirs_runs; [done|lia|lia|apply Hx1|lia]| |].
    2:{ intros E. by rewrite p_simple_redirs, E. }
    intros x s2 (rs2 & E2 & Hch2 & Hs2 & Hx2 & Hr2 & Hl2 & Hlt2). apply runs_ret. cbv iota. rewrite Hl1.
    rewrite p_simple_redirs, E2. cbn [pbind]. destruct Hx2 as (Hx2 & Hx3 & Hx4).
    eapply runs_mono; [apply (IH s2 x.1 x.2 (ws ++ [(q, eq)]) (rs ++ rs2)); [by eapply exec_at_redirs|lia|lia|lia|by eapply p_redirs_rest]| |].
    + intros y s3 (ws' & rs' & E3 & Hx5 & E4 & Hr3 & Hr4 & Hl4). exists ((q, eq) :: ws'), (rs2 ++ rs'). rewrite E3.
      rewrite <- !app_assoc in *. cbn [pbind fst snd app length] in *. split_and!; try done; try lia.
    + intros ->. done.
Qed.

(** ** Lemmas: lines *)

(** [m] parses from [ps] on what the reference parser parsed into [r]. *)
Definition parses (r : parsed (nat * nat) (cmd (nat * nat))) (ps : nat) (m : SH (nat * nat)) (s : shst) : Prop :=
  runs m (fun x s' => exists t, r = POk t (toks x.2) /\ repr (sh_heap s') x.1 t /\ st_ok s' /\
    ext s s' (2 * length (toks ps) - 2 * length (toks x.2) + 1) /\ (ps <= x.2 <= es)%nat /\
    (length (toks x.2) <= length (toks ps))%nat /\ (0 < x.1 < sh_next s')%nat) (r = PErr) s.

(** peek() for one symbol, and gettoken() past it *)
Lemma peek_sym ps a :
  (ps <= es)%nat -> has_char symbols a = true -> a <> 62 ->
  exists ps1, peek buf ps es [a] = (is_sym a (head (toks ps)), ps1) /\ (ps <= ps1 <= es)%nat /\ toks ps1 = toks ps /\
    (is_sym a (head (toks ps)) = true -> exists ret q eq ps2, gettoken buf ps1 es = (ret, q, eq, ps2) /\
       (ps1 < ps2 <= es)%nat /\ toks ps2 = tail (toks ps) /\ length (toks ps) = S (length (toks ps2))).
Proof using Hline.
  intros Hps Ha H62. pose proof (peek_spec ps [a] Hps) as Hp. destruct (peek buf ps es [a]) as [b ps1].
  destruct Hp as (Hp1 & Hp2 & Hb & _).
  { apply sub_symbols. cbn [forallb]. by rewrite Ha. }
  exists ps1. rewrite Hb. split_and!; [|lia|lia|done|].
  - f_equal. destruct (head (toks ps)) as [[c| |]|]; [|unfold head_in, has_char; cbn [existsb is_sym]; rewrite orb_false_r; apply Z.eqb_neq; congruence|done..].
    unfold head_in, has_char. cbn [existsb is_sym]. by rewrite orb_false_r.
  - intros Hs. apply is_sym_head in Hs. pose proof (gettoken_spec ps1 ltac:(lia)) as Hg.
    destruct (gettoken buf ps1 es) as [[[ret q] eq] ps2]. destruct Hg as [Hg1 Hg2]. rewrite Hp2, Hs in Hg2.
    destruct Hg2 as (Hg2 & Hg3 & _). exists ret, q, eq, ps2. split_and!; [done|lia|lia|done|]. rewrite Hs at 1. cbn [length]. by rewrite Hg3.
Qed.

Lemma parseback_runs n c ps s t :
  st_ok s -> (ps <= es)%nat -> (es - ps < n)%nat -> (0 < c < sh_next s)%nat -> (2 * length (toks ps) <= sh_room s)%nat ->
  repr (sh_heap s) c t ->
  runs (loop n (parseback_body es) (c, ps)) (fun x s' =>
    exists t', p_backs t (toks ps) = (t', toks x.2) /\ repr (sh_heap s') x.1 t' /\ st_ok s' /\
      ext s s' (2 * length (toks ps) - 2 * length (toks x.2)) /\ (ps <= x.2 <= es)%nat /\
      (length (toks x.2) <= length (toks ps))%nat /\ (0 < x.1 < sh_next s')%nat) False s.
Proof using Hline.
  revert c ps s t. induction n as [|n IH]; intros c ps s t Hs Hps Hn Hc Hroom Ht; [lia|]. apply runs_loop.
  unfold parseback_body. apply runs_bind, runs_gets. rewrite (so_buf _ Hs).
  destruct (peek_sym ps 38 Hps) as (ps1 & Hp & Hr1 & Ht1 & Hg); [done..|]. change (str "&") with [38]. rewrite Hp.
  assert (Hb : p_backs t (toks ps) = if is_sym 38 (head (toks ps)) then p_backs (Back t) (tail (toks ps)) else (t, toks ps)) by (by destruct (toks ps)).
  rewrite Hb. destruct (is_sym 38 (head (toks ps))) eqn:Es.
  - destruct (Hg eq_refl) as (ret & q & eq & ps2 & E & Hr2 & Ht2 & Hl2). rewrite E.
    apply runs_bind, new_node_runs; [done|lia|]. intros c1 s1 Hs1 Hx1 Hc1 Hn1 Hf1 Hh1. apply runs_ret. cbv iota. rewrite <- Ht2.
    destruct Hx1 as (Hx1 & Hx2 & Hx3).
    eapply runs_mono; [apply (IH c1 ps2 s1 (Back t)); [done|lia|lia|lia|lia|]| |done].
    + exists c. split; [lia|]. rewrite Hh1, lookup_insert_eq. split; [done|]. rewrite <- Hh1. by eapply repr_mono.
    + intros x s2 (t' & E2 & H1 & H2 & H3 & H4 & H5 & H6). exists t'. split_and!; try done; try lia.
      eapply ext_trans; [by split_and!|done|lia].
  - apply runs_ret. exists t. cbn [fst snd]. rewrite Ht1, Nat.sub_diag. split_and!; try done; try lia. apply ext_refl.
Qed.

(** A command in parentheses *)
Lemma parseblock_step k ps s :
  (forall ps s, st_ok s -> (ps <= es)%nat -> (2 * length (toks ps) + 1 <= sh_room s)%nat -> p_line k (toks ps) <> PFuel ->
     parses (p_line k (toks ps)) ps (parseline k ps es) s) ->
  st_ok s -> (ps <= es)%nat -> (2 * length (toks ps) + 1 <= sh_room s)%nat -> p_block (S k) (toks ps) <> PFuel ->
  parses (p_block (S k) (toks ps)) ps (parseblock (S k) ps es) s.
Proof using Hline.
  intros IHl Hs Hps Hroom Hfuel. cbn [parseblock p_block] in *. unfold parses. apply runs_bind, runs_gets. rewrite (so_buf _ Hs).
  destruct (peek_sym ps 40 Hps) as (ps1 & Hp & Hr1 & Ht1 & Hg); [done..|]. change (str "(") with [40]. rewrite Hp.
  destruct (is_sym 40 (head (toks ps))) eqn:Es; [|by apply runs_panic]. cbn [negb].
  destruct (Hg eq_refl) as (ret & q & eq & ps2 & E & Hr2 & Ht2 & Hl2). rewrite E. rewrite <- Ht2 in *.
  assert (Hf2 : p_line k (toks ps2) <> PFuel) by (intros H; rewrite H in Hfuel; done).
  apply runs_bind. eapply runs_mono; [apply (IHl ps2 s); [done|lia|lia|done]| |intros ->; done].
  intros [c ps3] s3 (t & Et & Hrt & Hs3 & Hx3 & Hr3 & Hl3 & Hc3). cbn [fst snd] in *. rewrite Et in *. cbn [pbind] in *.
  apply runs_bind, runs_gets. rewrite (so_buf _ Hs3).
  destruct (peek_sym ps3 41 ltac:(lia)) as (ps4 & Hp4 & Hr4 & Ht4 & Hg4); [done..|]. change (str ")") with [41]. rewrite Hp4.
  destruct (is_sym 41 (head (toks ps3))) eqn:Es4; [|by apply runs_panic]. cbn [negb].
  destruct (Hg4 eq_refl) as (ret5 & q5 & eq5 & ps5 & E5 & Hr5 & Ht5 & Hl5). rewrite E5. rewrite <- Ht5 in *.
  destruct Hx3 as (Hx1 & Hx2 & Hx3). unfold parseredirs.
  eapply runs_mono; [apply parseredirs_runs; [done|lia|lia|lia|lia]| |intros ->; done].
  intros x s6 (rs & Ers & Hch & Hs6 & Hx6 & Hr6 & Hl6 & Hc6). rewrite Ers. cbn [pbind]. exists (wrap t rs).
  split_and!; try done; try lia; [|eapply ext_trans; [by split_and!|done|lia]].
  eapply chain_wrap; [done|]. eapply repr_mono; [apply Hx6|done].
Qed.

Lemma parseexec_simple k ps s :
  st_ok s -> (ps <= es)%nat -> (2 * length (toks ps) + 1 <= sh_room s)%nat -> is_sym 40 (head (toks ps)) = false ->
  parses (p_exec (S k) (toks ps)) ps (parseexec (S k) ps es) s.
Proof using Hline.
  intros Hs Hps Hroom Es. cbn [parseexec p_exec]. unfold parses. apply runs_bind, runs_gets. rewrite (so_buf _ Hs).
  destruct (peek_sym ps 40 Hps) as (ps1 & Hp & Hr1 & Ht1 & _); [done..|]. change (str "(") with [40]. rewrite Hp, Es, <- Ht1 in *.
  apply runs_bind, new_node_runs; [done|lia|]. intros c s1 Hs1 (Hx1 & Hx2 & Hx3) Hc1 Hn1 Hf1 Hh1. pose proof (so_next _ Hs).
  apply runs_bind. unfold parseredirs. rewrite p_simple_redirs.
  eapply runs_mono; [apply parseredirs_runs; [done|lia|lia|lia|lia]| |intros ->; done].
  intros [ret ps2] s2 (rs & Ers & Hch & Hs2 & Hx & Hr2 & Hl2 & Hc2). cbn [fst snd] in *. rewrite Ers. cbn [pbind].
  destruct Hx as (Hx4 & Hx5 & Hx6).
  assert (Hxa : exec_at s s2 c ret [] rs).
  { split; try done; [by etrans|lia|unfold MAXARGS; cbn; lia|]. eapply lookup_weaken; [|done]. by rewrite Hh1, lookup_insert_eq. }
  apply runs_bind. eapply runs_mono; [apply (parseexec_loop (S (es - ps2)) s s2 c ret ps2 [] rs); [done|lia|lia|lia|by eapply p_redirs_rest]| |cbn [length]; intros ->; done].
  intros [[ret3 argc] ps3] s3 (ws & rs3 & E3 & Hx7 & Ea & Hr3 & Hr4 & Hl3). cbn [fst snd app] in *. subst argc. change (length []) with O in E3. rewrite E3. cbn [pbind fst snd].
  apply runs_bind, (set_arg_runs s s3 c ret3 ws (rs ++ rs3)); [done|]. intros s4 Hs4 Hr5 Hn4 Ho4 Hc4 Hch4. apply runs_ret.
  rewrite !args_none in Hc4 by (by rewrite length_fmap). pose proof (xa_next _ _ _ _ _ _ Hx7). pose proof (xa_ret _ _ _ _ _ _ Hx7). eexists. split; [done|]. cbn [fst snd].
  split_and!; try done; try lia; [|split_and!; [done|lia|lia]].
  eapply chain_wrap; [done|]. split; [apply Hx7|done].
Qed.

(** A second command after the symbol [a], as in a pipe or a list: [sub] parses it. *)
Lemma parse_more s0 ps0 a c t ps s (sub : nat -> nat -> SH (nat * nat)) (psub : list (tok (nat * nat)) -> parsed (nat * nat) (cmd (nat * nat)))
    (N : nat -> nat -> node) (T : cmd (nat * nat) -> cmd (nat * nat) -> cmd (nat * nat)) :
  (forall ps s, st_ok s -> (ps <= es)%nat -> (2 * length (toks ps) + 1 <= sh_room s)%nat -> psub (toks ps) <> PFuel ->
     parses (psub (toks ps)) ps (sub ps es) s) ->
  (forall h c c1 c2 t1 t2, (c1 < c)%nat -> (c2 < c)%nat -> h !! c = Some (N c1 c2) -> repr h c1 t1 -> repr h c2 t2 -> repr h c (T t1 t2)) ->
  has_char symbols a = true -> a <> 62 ->
  st_ok s -> (ps0 <= ps <= es)%nat -> (0 < c < sh_next s)%nat -> repr (sh_heap s) c t ->
  (2 * length (toks ps0) + 1 <= sh_room s0)%nat -> (length (toks ps) <= length (toks ps0))%nat ->
  ext s0 s (2 * length (toks ps0) - 2 * length (toks ps) + 1) ->
  let r := if is_sym a (head (toks ps)) then pbind (psub (tail (toks ps))) (fun c' ts => POk (T t c') ts) else POk t (toks ps) in
  r <> PFuel ->
  runs (let '(b, ps) := peek buf ps es [a] in
        if b then
          let '(_, _, _, ps) := gettoken buf ps es in
          r ← sub ps es;
          cmd ← new_node (N c r.1);
          mret (cmd, r.2)
        else mret (c, ps))
    (fun x s' => exists t', r = POk t' (toks x.2) /\ repr (sh_heap s') x.1 t' /\ st_ok s' /\
      ext s0 s' (2 * length (toks ps0) - 2 * length (toks x.2) + 1) /\ (ps0 <= x.2 <= es)%nat /\
      (length (toks x.2) <= length (toks ps0))%nat /\ (0 < x.1 < sh_next s')%nat) (r = PErr) s.
Proof using Hline.
  intros Hsub HT Ha H62 Hs Hps Hc Ht Hroom Hlen (Hx1 & Hx2 & Hx3) r Hfuel. unfold r in *. clear r.
  destruct (peek_sym ps a ltac:(lia) Ha H62) as (ps1 & Hp & Hr1 & Ht1 & Hg). rewrite Hp. destruct (is_sym a (head (toks ps))).
  - destruct (Hg eq_refl) as (ret & q & eq & ps4 & E & Hr4 & Ht4 & Hl4). rewrite E. rewrite <- Ht4 in *.
    assert (Hf4 : psub (toks ps4) <> PFuel) by (intros H; by rewrite H in Hfuel).
    apply runs_bind. eapply runs_mono; [apply (Hsub ps4 s); [done|lia|lia|done]| |intros ->; done].
    intros [c5 ps5] s5 (t5 & Et5 & Hrt5 & Hs5 & (Hx7 & Hx8 & Hx9) & Hr5 & Hl5 & Hc5). cbn [fst snd] in *. rewrite Et5. cbn [pbind].
    apply runs_bind, new_node_runs; [done|lia|]. intros c6 s6 Hs6 (Hx10 & Hx11 & Hx12) Hc6 Hn6 Hf6 Hh6. apply runs_ret.
    exists (T t t5). cbn [fst snd]. split_and!; try done; try lia; [|split_and!; [by repeat (etrans; [eassumption|])|lia|lia]].
    eapply HT; [| |by rewrite Hh6, lookup_insert_eq|eapply repr_mono; [|exact Ht]; by etrans|by eapply repr_mono]; lia.
  - apply runs_ret. exists t. cbn [fst snd]. rewrite Ht1. split_and!; try done; try lia.
Qed.

Lemma parse_runs k :
  (forall ps s, st_ok s -> (ps <= es)%nat -> (2 * length (toks ps) + 1 <= sh_room s)%nat -> p_line k (toks ps) <> PFuel ->
     parses (p_line k (toks ps)) ps (parseline k ps es) s) /\
  (forall ps s, st_ok s -> (ps <= es)%nat -> (2 * length (toks ps) + 1 <= sh_room s)%nat -> p_pipe k (toks ps) <> PFuel ->
     parses (p_pipe k (toks ps)) ps (parsepipe k ps es) s) /\
  (forall ps s, st_ok s -> (ps <= es)%nat -> (2 * length (toks ps) + 1 <= sh_room s)%nat -> p_block k (toks ps) <> PFuel ->
     parses (p_block k (toks ps)) ps (parseblock k ps es) s) /\
  (forall ps s, st_ok s -> (ps <= es)%nat -> (2 * length (toks ps) + 1 <= sh_room s)%nat -> p_exec k (toks ps) <> PFuel ->
     parses (p_exec k (toks ps)) ps (parseexec k ps es) s).
Proof using Hline.
  induction k as [|k (IHl & IHp & IHb & IHe)]; [by split_and!|]. split_and!; intros ps s Hs Hps Hroom Hfuel.
  - cbn [parseline p_line] in *. unfold parses. assert (Hf1 : p_pipe k (toks ps) <> PFuel) by (intros H; by rewrite H in Hfuel).
    apply runs_bind. eapply runs_mono; [by apply IHp| |intros ->; done].
    intros [c ps1] s1 (t & Et & Hrt & Hs1 & (Hx1 & Hx2 & Hx3) & Hr1 & Hl1 & Hc1). cbn [fst snd] in *. rewrite Et in *. cbn [pbind] in *.
    apply runs_bind. eapply runs_mono; [apply (parseback_runs (S (es - ps1)) c ps1 s1 t); [done|lia|lia|lia|lia|done]| |done].
    intros [c2 ps2] s2 (t2 & Eb & Hrt2 & Hs2 & (Hx4 & Hx5 & Hx6) & Hr2 & Hl2 & Hc2). cbn [fst snd] in *. rewrite Eb in *.
    apply runs_bind, runs_gets. rewrite (so_buf _ Hs2).
    apply (parse_more s ps 59 c2 t2 ps2 s2 (parseline k) (p_line k) Nlist Seq); try done; try lia; [|split_and!; [by etrans|lia|lia]].
    intros h c' c1 c3 t1 t3 H1 H2 H3 H4 H5. by exists c1, c3.
  - cbn [parsepipe p_pipe] in *. unfold parses. assert (Hf1 : p_exec k (toks ps) <> PFuel) by (intros H; by rewrite H in Hfuel).
    apply runs_bind. eapply runs_mono; [by apply IHe| |intros ->; done].
    intros [c2 ps2] s2 (t2 & Et & Hrt2 & Hs2 & Hx & Hr1 & Hl1 & Hc1). cbn [fst snd] in *. rewrite Et in *. cbn [pbind] in *.
    apply runs_bind, runs_gets. rewrite (so_buf _ Hs2).
    apply (parse_more s ps 124 c2 t2 ps2 s2 (parsepipe k) (p_pipe k) Npipe Pipe); try done; try lia.
    intros h c' c1 c3 t1 t3 H1 H2 H3 H4 H5. by exists c1, c3.
  - by apply parseblock_step.
  - destruct (is_sym 40 (head (toks ps))) eqn:Es; [|by apply parseexec_simple].
    cbn [parseexec p_exec] in *. rewrite Es in *. unfold parses. apply runs_bind, runs_gets. rewrite (so_buf _ Hs).
    destruct (peek_sym ps 40 Hps) as (ps1 & Hp & Hr1 & Ht1 & _); [done..|]. change (str "(") with [40]. rewrite Hp, Es.
    rewrite <- Ht1 in *. eapply runs_mono; [apply IHb; [done|lia|lia|done]| |done].
    intros x s' (t & H1 & H2 & H3 & H4 & H5 & H6 & H7). exists t. split_and!; try done; lia.
Qed.
End tokens.

(** ** Lemmas: the reference parser and the text of words *)

Section map.
Context {A B : Type} (f : A -> B).

Definition pmap {C D} (g : C -> D) (r : parsed A C) : parsed B D :=
  match r with POk x rest => POk (g x) (tok_map f <$> rest) | PErr => PErr | PFuel => PFuel end.

Lemma pmap_bind {C D C' D'} (g : C -> D) (g' : C' -> D') (r : parsed A C) (k : C -> list (tok A) -> parsed A C') k' :
  (forall x ts, pmap g' (k x ts) = k' (g x) (tok_map f <$> ts)) -> pmap g' (pbind r k) = pbind (pmap g r) k'.
Proof. intros H. destruct r; [apply H|done..]. Qed.

Lemma is_sym_map a ts : is_sym a (head (tok_map f <$> ts)) = is_sym a (head ts).
Proof. by destruct ts as [|[| |]]. Qed.

Lemma tail_map ts : tail (tok_map f <$> ts) = tok_map f <$> tail ts.
Proof. by destruct ts. Qed.

Lemma is_redir_map t : is_redir (tok_map f t) = is_redir t.
Proof. by destruct t. Qed.

Lemma redir_tok_map op w : redir_tok (tok_map f op) (f w) = redir_map f <$> redir_tok op w.
Proof. destruct op as [b| |]; [|done..]. cbn. destruct (b =? 60); [done|]. by destruct (b =? 62). Qed.

Lemma wrap_map c rs : cmd_map f (wrap c rs) = wrap (cmd_map f c) (redir_map f <$> rs).
Proof. unfold wrap. revert c. induction rs as [|r rs IH]; intros c; [done|]. apply IH. Qed.

Lemma p_redirs_map ts : p_redirs (tok_map f <$> ts) = pmap (fmap (redir_map f)) (p_redirs ts).
Proof.
  remember (length ts) as n eqn:E. revert ts E. induction n as [n IH] using lt_wf_ind. intros [|op ts] E; [done|].
  cbn [p_redirs fmap list_fmap]. rewrite is_redir_map. destruct (is_redir op); [|done].
  destruct ts as [|[| |w] ts]; [done..|]. cbn [fmap list_fmap tok_map]. rewrite redir_tok_map. destruct (redir_tok op w) as [r|]; [|done].
  cbn [fmap option_fmap option_map]. change (list_fmap _ _ (tok_map f) ts) with (tok_map f <$> ts).
  rewrite (IH (length ts)) by (cbn in E; lia || done). symmetry. by apply pmap_bind.
Qed.

Lemma p_simple_map n ts :
  p_simple n (tok_map f <$> ts) = pmap (fun x => (f <$> x.1, redir_map f <$> x.2)) (p_simple n ts).
Proof.
  remember (length ts) as m eqn:E. revert n ts E. induction m as [m IH] using lt_wf_ind. intros n [|op ts] E; [done|].
  assert (Hr : forall op w ts', (S (S (length ts')) = m)%nat ->
    match redir_tok (tok_map f op) (f w) with Some r => pbind (p_simple n (tok_map f <$> ts')) (fun x rest => POk (x.1, r :: x.2) rest) | None => PErr end =
    pmap (fun x => (f <$> x.1, redir_map f <$> x.2)) (match redir_tok op w with Some r => pbind (p_simple n ts') (fun x rest => POk (x.1, r :: x.2) rest) | None => PErr end)).
  { intros op' w ts' El. rewrite redir_tok_map. destruct (redir_tok op' w) as [r|]; [|done]. cbn [fmap option_fmap option_map].
    rewrite (IH (length ts')) by (lia || done). symmetry. by apply pmap_bind. }
  cbn [p_simple fmap list_fmap]. destruct op as [b| |w]; cbn [tok_map is_redir].
  - destruct (_ || _); [|by destruct (has_char _ b)]. destruct ts as [|[| |w] ts]; [done..|]. apply (Hr (Sym b) w ts). cbn in E. lia.
  - destruct ts as [|[| |w] ts]; [done..|]. apply (Hr App w ts). cbn in E. lia.
  - destruct (MAXARGS <=? S n)%nat; [done|]. change (list_fmap _ _ (tok_map f) ts) with (tok_map f <$> ts).
    rewrite (IH (length ts)) by (cbn in E; lia || done). symmetry. by apply pmap_bind.
Qed.

Lemma p_backs_map c ts : p_backs (cmd_map f c) (tok_map f <$> ts) = (cmd_map f (p_backs c ts).1, tok_map f <$> (p_backs c ts).2).
Proof.
  revert c. induction ts as [|t ts IH]; intros c; [done|]. cbn [p_backs fmap list_fmap].
  assert (E : is_sym 38 (Some (tok_map f t)) = is_sym 38 (Some t)) by (by destruct t). rewrite E. destruct (is_sym 38 (Some t)); [|done].
  apply (IH (Back c)).
Qed.

Lemma p_map k :
  (forall ts, p_line k (tok_map f <$> ts) = pmap (cmd_map f) (p_line k ts)) /\
  (forall ts, p_pipe k (tok_map f <$> ts) = pmap (cmd_map f) (p_pipe k ts)) /\
  (forall ts, p_block k (tok_map f <$> ts) = pmap (cmd_map f) (p_block k ts)) /\
  (forall ts, p_exec k (tok_map f <$> ts) = pmap (cmd_map f) (p_exec k ts)).
Proof.
  induction k as [|k (IHl & IHp & IHb & IHe)]; [done|]. split_and!; intros ts.
  - cbn [p_line]. rewrite IHp. symmetry. apply pmap_bind. intros c ts1. rewrite p_backs_map. destruct (p_backs c ts1) as [c2 ts2]. cbn [fst snd].
    rewrite is_sym_map, tail_map. destruct (is_sym 59 (head ts2)); [|done]. rewrite IHl. by apply pmap_bind.
  - cbn [p_pipe]. rewrite IHe. symmetry. apply pmap_bind. intros c ts1. rewrite is_sym_map, tail_map.
    destruct (is_sym 124 (head ts1)); [|done]. rewrite IHp. by apply pmap_bind.
  - cbn [p_block]. rewrite is_sym_map, tail_map. destruct (is_sym 40 (head ts)); [|done]. rewrite IHl. symmetry. apply pmap_bind.
    intros c ts1. rewrite is_sym_map, tail_map. destruct (is_sym 41 (head ts1)); [|done]. rewrite p_redirs_map. apply pmap_bind.
    intros rs ts2. cbn [pmap fst snd]. by rewrite wrap_map.
  - cbn [p_exec]. rewrite is_sym_map. destruct (is_sym 40 (head ts)); [apply IHb|]. rewrite p_simple_map. symmetry. apply pmap_bind.
    intros [ws rs] ts1. cbn [pmap fst snd]. by rewrite wrap_map.
Qed.
End map.

(** ** Lemmas: the words of a line *)

Fixpoint cmd_words {A} (t : cmd A) : list A :=
  match t with
  | Exec ws => ws
  | Redir t r => cmd_words t ++ [rd_file r]
  | Pipe t1 t2 | Seq t1 t2 => cmd_words t1 ++ cmd_words t2
  | Back t => cmd_words t
  end.

Lemma wrap_words {A} (c : cmd A) rs w : w ∈ cmd_words (wrap c rs) -> w ∈ cmd_words c \/ w ∈ rd_file <$> rs.
Proof.
  unfold wrap. revert c. induction rs as [|r rs IH]; intros c; cbn [foldl]; [by left|]. intros [H|H]%IH; [|right; by right].
  cbn in H. apply elem_of_app in H as [H|H]; [by left|]. apply list_elem_of_singleton in H as ->. right. left.
Qed.

Lemma redir_file {A} op (f : A) r : redir_tok op f = Some r -> rd_file r = f.
Proof. destruct op as [b| |]; cbn; [|by intros [= <-]|done]. destruct (b =? 60); [by intros [= <-]|]. destruct (b =? 62); [by intros [= <-]|done]. Qed.

Lemma redirs_words {A} (ts : list (tok A)) rs w : redirs ts rs -> w ∈ rd_file <$> rs -> Word w ∈ ts.
Proof.
  induction 1 as [|op f r ts rs Hr _ IH]; [by intros H%not_elem_of_nil|]. cbn. intros [->|H]%elem_of_cons.
  - rewrite (redir_file _ _ _ Hr). right. left.
  - right. right. auto.
Qed.

Lemma simple_words {A} (ts : list (tok A)) ws rs w : simple ts ws rs -> w ∈ ws \/ w ∈ rd_file <$> rs -> Word w ∈ ts.
Proof.
  induction 1 as [|w' ts ws rs _ IH|op f r ts ws rs Hr _ IH]; [intros [H|H]; by apply not_elem_of_nil in H| |].
  - intros [[->|H]%elem_of_cons|H]; [left|right; auto|right; auto].
  - cbn. intros [H|[->|H]%elem_of_cons]; [right; right; auto| |right; right; auto]. rewrite (redir_file _ _ _ Hr). right. left.
Qed.

Lemma iter_words {A} n (c : cmd A) : cmd_words (Nat.iter n Back c) = cmd_words c.
Proof. by induction n. Qed.

(** The words of a command are words of its line. *)
Lemma line_words {A} :
  (forall (ts : list (tok A)) c, g_line ts c -> forall w, w ∈ cmd_words c -> Word w ∈ ts) /\
  (forall (ts : list (tok A)) c, g_pipe ts c -> forall w, w ∈ cmd_words c -> Word w ∈ ts) /\
  (forall (ts : list (tok A)) c, g_exec ts c -> forall w, w ∈ cmd_words c -> Word w ∈ ts).
Proof.
  apply g_ind.
  - intros ts n c _ IH w. rewrite iter_words. intros Hw. apply elem_of_app. auto.
  - intros ts n c ts' c' _ IH _ IH' w. cbn. rewrite iter_words, elem_of_app, !elem_of_app, elem_of_cons. naive_solver.
  - auto.
  - intros ts c ts' c' _ IH _ IH' w. cbn. rewrite !elem_of_app, elem_of_cons. naive_solver.
  - intros ts ws rs Hs _ w Hw. apply wrap_words in Hw. by eapply simple_words.
  - intros ts c ts' rs _ IH Hr w Hw. apply wrap_words in Hw. rewrite elem_of_cons, elem_of_app, elem_of_cons.
    destruct Hw as [Hw|Hw]; [auto|]. right. right. right. by eapply redirs_words.
Qed.

(** A word of a line: its bytes are no spaces and no symbols, the byte after it is. *)
Definition word_ok (line : list Z) (w : nat * nat) : Prop :=
  (w.1 < w.2 <= length line)%nat /\ (forall i, (w.1 <= i < w.2)%nat -> word_char (at_ line i) = true) /\
  (w.2 = length line \/ word_char (at_ line w.2) = false).

Lemma lex_words line start pos w :
  (pos <= length line)%nat -> (forall q, start = Some q -> (q < pos)%nat /\ forall i, (q <= i < pos)%nat -> word_char (at_ line i) = true) ->
  Word w ∈ lex start pos (drop pos line) -> word_ok line w.
Proof.
  remember (length line - pos)%nat as n eqn:E. revert start pos E. induction n as [n IH] using lt_wf_ind. intros start pos E Hpos Hst.
  assert (Hend : pos = length line \/ word_char (at_ line pos) = false -> Word w ∈ end_word start pos -> word_ok line w).
  { intros Hc. destruct start as [q|]; [|by intros H%not_elem_of_nil]. intros H%list_elem_of_singleton. injection H as ->.
    destruct (Hst q eq_refl). split_and!; cbn; [lia|lia|done|done]. }
  destruct (drop pos line) as [|c l] eqn:El.
  { apply Hend. left. pose proof (length_drop line pos) as H. rewrite El in H. cbn in H. lia. }
  assert (Hlt : (pos < length line)%nat) by (pose proof (length_drop line pos) as H; rewrite El in H; cbn in H; lia).
  assert (Hc : at_ line pos = c /\ l = drop (S pos) line).
  { destruct (lookup_Some_total line pos Hlt) as [d Hd]. rewrite (drop_S _ _ _ Hd) in El. injection El as -> <-. unfold at_. by rewrite nth_lookup, Hd. }
  destruct Hc as [Hc ->]. cbn [lex].
  assert (Hrec : forall k, (pos < k <= length line)%nat -> Word w ∈ lex None k (drop k line) -> word_ok line w).
  { intros k Hk. apply (IH (length line - k)%nat); [lia|done|lia|done]. }
  assert (Hwc : word_char (at_ line pos) = false -> Word w ∈ end_word start pos -> word_ok line w) by auto.
  rewrite Hc in *. unfold word_char in Hwc. destruct (has_char whitespace c) eqn:Ew.
  { intros [H|H]%elem_of_app; [auto|]. apply (Hrec (S pos)); [lia|done]. }
  destruct (has_char symbols c) eqn:Ey.
  - intros [H|H]%elem_of_app; [auto|]. destruct (c =? 62); [|apply elem_of_cons in H as [H|H]; [done|apply (Hrec (S pos)); [lia|done]]].
    destruct (drop (S pos) line) as [|d l] eqn:El2; [by apply list_elem_of_singleton in H|]. destruct (d =? 62).
    + apply elem_of_cons in H as [H|H]; [done|].
      assert (Hlt2 : (S pos < length line)%nat) by (pose proof (length_drop line (S pos)) as H'; rewrite El2 in H'; cbn in H'; lia).
      destruct (lookup_Some_total line (S pos) Hlt2) as [d' Hd]. rewrite (drop_S _ _ _ Hd) in El2. injection El2 as _ <-. apply (Hrec (S (S pos))); [lia|done].
    + apply elem_of_cons in H as [H|H]; [done|]. apply (Hrec (S pos)); [lia|]. by rewrite El2.
  - apply (IH (length line - S pos)%nat); [lia|done|lia|]. intros q [= <-]. destruct start as [q|]; cbn.
    + destruct (Hst q eq_refl) as [H1 H2]. split; [lia|]. intros i Hi. destruct (decide (i = pos)) as [->|]; [unfold word_char; by rewrite Hc, Ew, Ey|apply H2; lia].
    + split; [lia|]. intros i Hi. assert (i = pos) as -> by lia. unfold word_char. by rewrite Hc, Ew, Ey.
Qed.

(** ** Lemmas: nulterminate() *)

Definition zeros (l : list nat) (b : list Z) : list Z := foldl (fun b e => <[e := 0]> b) b l.

Lemma zeros_app l l' b : zeros (l ++ l') b = zeros l' (zeros l b).
Proof. apply foldl_app. Qed.

Lemma length_zeros l b : length (zeros l b) = length b.
Proof. revert b. induction l as [|e l IH]; intros b; [done|]. cbn. change (length (zeros l (<[e := 0]> b)) = length b). by rewrite IH, length_insert. Qed.

Lemma at_insert b e i : at_ (<[e := 0]> b) i = if decide (i = e) then 0 else at_ b i.
Proof.
  unfold at_. rewrite !nth_lookup. case_decide as H; [subst i|by rewrite list_lookup_insert_ne].
  destruct (decide (e < length b)%nat); [by rewrite list_lookup_insert_eq|]. by rewrite lookup_ge_None_2 by (rewrite length_insert; lia).
Qed.

Lemma at_zeros l b i : at_ (zeros l b) i = if decide (i ∈ l) then 0 else at_ b i.
Proof.
  revert b. induction l as [|e l IH]; intros b.
  { rewrite decide_False by apply not_elem_of_nil. done. }
  change (zeros (e :: l) b) with (zeros l (<[e := 0]> b)). rewrite IH, at_insert.
  destruct (decide (i ∈ l)) as [H|H]; [by rewrite decide_True by (by right)|]. destruct (decide (i = e)) as [->|Hne].
  - by rewrite decide_True by left.
  - rewrite decide_False; [done|]. by intros [?|?]%elem_of_cons.
Qed.

Lemma nul_args_spec ws qs s Q :
  length ws = length qs -> (length qs < MAXARGS)%nat ->
  Q tt (mkSh (zeros ws (sh_buf s)) (sh_heap s) (sh_next s) (sh_room s)) -> wp (nul_args (args qs) (args ws)) Q s.
Proof.
  intros El Hl. unfold args. rewrite El. generalize (MAXARGS - length qs)%nat as k, (Nat.sub_gt _ _ Hl : (MAXARGS - length qs <> 0)%nat).
  intros k Hk. clear Hl. revert ws s El. induction qs as [|q qs IH]; intros [|e ws] s El HQ; [|done..|].
  - destruct k; [done|]. destruct s. by apply wp_ret.
  - cbn. apply wp_bind, wp_modify. apply IH; [by injection El|done].
Qed.

Lemma nulterminate_spec k c t s Q :
  repr (sh_heap s) c t -> (forall a n, sh_heap s !! a = Some n -> (0 < a)%nat) -> (c < k)%nat ->
  Q tt (mkSh (zeros (cmd_words t).*2 (sh_buf s)) (sh_heap s) (sh_next s) (sh_room s)) -> wp (nulterminate k c) Q s.
Proof.
  revert c t s Q. induction k as [|k IH]; intros c t s Q Ht Hh Hc HQ; [lia|]. cbn [nulterminate].
  assert (Hnode : forall n, sh_heap s !! c = Some n -> wp (match n with
      | Nexec argv eargv => nul_args argv eargv
      | Nredir c _ efile _ _ => nulterminate k c;; modify (upd_buf_at efile 0)
      | Npipe l r => nulterminate k l;; nulterminate k r
      | Nlist l r => nulterminate k l;; nulterminate k r
      | Nback c => nulterminate k c
      end) Q s -> wp (if (c =? 0)%nat then mret tt else n ← get_node c; match n with
      | Nexec argv eargv => nul_args argv eargv
      | Nredir c _ efile _ _ => nulterminate k c;; modify (upd_buf_at efile 0)
      | Npipe l r => nulterminate k l;; nulterminate k r
      | Nlist l r => nulterminate k l;; nulterminate k r
      | Nback c => nulterminate k c
      end) Q s).
  { intros n Hn H. rewrite (proj2 (Nat.eqb_neq c 0)) by (apply Hh in Hn; lia). unfold get_node. apply wp_bind, wp_bind, wp_gets. by rewrite Hn. }
  destruct t as [ws|t r|t1 t2|t1 t2|t]; cbn [repr cmd_words] in *.
  - destruct Ht as [Hl Hn]. apply (Hnode _ Hn). apply nul_args_spec; [by rewrite !length_fmap|by rewrite length_fmap|done].
  - destruct Ht as (c' & Hlt & Hn & Ht). apply (Hnode _ Hn). apply wp_bind, (IH c' t); [done|done|lia|]. apply wp_modify.
    rewrite fmap_app, zeros_app in HQ. exact HQ.
  - destruct Ht as (c1 & c2 & Hl1 & Hl2 & Hn & Ht1 & Ht2). apply (Hnode _ Hn). apply wp_bind, (IH c1 t1); [done|done|lia|].
    apply (IH c2 t2); [done|done|lia|]. rewrite fmap_app, zeros_app in HQ. exact HQ.
  - destruct Ht as (c1 & c2 & Hl1 & Hl2 & Hn & Ht1 & Ht2). apply (Hnode _ Hn). apply wp_bind, (IH c1 t1); [done|done|lia|].
    apply (IH c2 t2); [done|done|lia|]. rewrite fmap_app, zeros_app in HQ. exact HQ.
  - destruct Ht as (c' & Hlt & Hn & Ht). apply (Hnode _ Hn). apply (IH c' t); [done|done|lia|done].
Qed.

Lemma cstring_eq b q e :
  (q <= e)%nat -> (e <= length b)%nat -> (forall i, (q <= i < e)%nat -> at_ b i <> 0) -> at_ b e = 0 -> cstring b q = slice b q (e - q).
Proof.
  intros Hq. remember (e - q)%nat as n eqn:E. revert q Hq E. induction n as [|n IH]; intros q Hq E Hl Hnz Hz; unfold cstring, slice.
  - assert (q = e) as -> by lia. destruct (drop e b) as [|c l] eqn:Ed; [done|]. cbn.
    assert (at_ b e = c) as Ec. { unfold at_. rewrite nth_lookup, <- (Nat.add_0_r e), <- lookup_drop, Ed. done. }
    by rewrite <- Ec, Hz.
  - destruct (lookup_Some_total b q) as [c Hc]; [lia|]. rewrite (drop_S _ _ _ Hc). cbn [upto_nul take].
    assert (Ec : at_ b q = c) by (unfold at_; by rewrite nth_lookup, Hc). rewrite (proj2 (Z.eqb_neq c 0)) by (rewrite <- Ec; apply Hnz; lia).
    f_equal. apply (IH (S q)); [lia|lia|lia| |done]. intros i Hi. apply Hnz. lia.
Qed.

(** ** Specification: the parsed command *)

(** The structure at [c] is the command [t], its strings NUL-terminated in [b]. *)
Fixpoint crepr (h : gmap nat node) (b : list Z) (c : nat) (t : cmd (list Z)) : Prop :=
  match t with
  | Exec ws => exists qs eqs, h !! c = Some (Nexec (args qs) eqs) /\ (length qs < MAXARGS)%nat /\ cstring b <$> qs = ws
  | Redir t r => exists c' q e, (c' < c)%nat /\ h !! c = Some (Nredir c' q e (rd_mode r) (rd_fd r)) /\
      cstring b q = rd_file r /\ crepr h b c' t
  | Pipe t1 t2 => exists c1 c2, (c1 < c)%nat /\ (c2 < c)%nat /\ h !! c = Some (Npipe c1 c2) /\ crepr h b c1 t1 /\ crepr h b c2 t2
  | Seq t1 t2 => exists c1 c2, (c1 < c)%nat /\ (c2 < c)%nat /\ h !! c = Some (Nlist c1 c2) /\ crepr h b c1 t1 /\ crepr h b c2 t2
  | Back t => exists c', (c' < c)%nat /\ h !! c = Some (Nback c') /\ crepr h b c' t
  end.

(** ** Lemmas: the parsed command *)

Lemma crepr_of h b c line t :
  repr h c t -> (forall w, w ∈ cmd_words t -> cstring b w.1 = text line w) -> crepr h b c (cmd_map (text line) t).
Proof.
  revert c. induction t as [ws|t IH r|t1 IH1 t2 IH2|t1 IH1 t2 IH2|t IH]; intros c; cbn [repr crepr cmd_map cmd_words].
  - intros [Hl Hn] Hw. exists ws.*1, (args ws.*2). split_and!; [done|by rewrite length_fmap|].
    rewrite <- list_fmap_compose. apply list_fmap_ext. intros i w Hi. apply Hw. by eapply list_elem_of_lookup_2.
  - intros (c' & Hc & Hn & Ht) Hw. exists c', (rd_file r).1, (rd_file r).2. split_and!; [done..| |].
    + apply Hw, elem_of_app. right. by apply list_elem_of_singleton.
    + apply IH; [done|]. intros w Hw'. apply Hw, elem_of_app. by left.
  - intros (c1 & c2 & H1 & H2 & H3 & H4 & H5) Hw. setoid_rewrite elem_of_app in Hw. exists c1, c2. split_and!; auto.
  - intros (c1 & c2 & H1 & H2 & H3 & H4 & H5) Hw. setoid_rewrite elem_of_app in Hw. exists c1, c2. split_and!; auto.
  - intros (c' & H1 & H2 & H3) Hw. exists c'. auto.
Qed.

Lemma at_app line rest i : (i < length line)%nat -> at_ (line ++ rest) i = at_ line i.
Proof. intros Hi. unfold at_. by apply app_nth1. Qed.

Lemma words_terminated line rest l w :
  Forall (fun c => c <> 0) line -> (forall w, w ∈ l -> word_ok line w) -> w ∈ l ->
  cstring (zeros l.*2 (line ++ 0 :: rest)) w.1 = text line w.
Proof.
  intros Hline Hl Hw. destruct (Hl w Hw) as (H1 & H2 & H3). set (b := zeros _ _).
  assert (Hin : forall i, (w.1 <= i < w.2)%nat -> at_ b i = at_ line i).
  { intros i Hi. unfold b. rewrite at_zeros, decide_False; [apply at_app; lia|]. intros (w' & -> & Hw')%list_elem_of_fmap.
    destruct (Hl w' Hw') as (_ & _ & [E|E]); [lia|]. rewrite H2 in E by lia. done. }
  assert (Hb : length b = length (line ++ 0 :: rest)) by apply length_zeros. rewrite length_app in Hb.
  rewrite (cstring_eq b w.1 w.2); [|lia|lia| |].
  - unfold text. apply list_eq. intros j. destruct (decide (j < w.2 - w.1)%nat).
    + rewrite !lookup_slice by done. specialize (Hin (w.1 + j)%nat ltac:(lia)). unfold at_ in Hin. rewrite !nth_lookup in Hin.
      destruct (lookup_Some_total b (w.1 + j)) as [x Hx]; [lia|]. destruct (lookup_Some_total line (w.1 + j)) as [y Hy]; [lia|].
      rewrite Hx, Hy in *. cbn in Hin. by rewrite Hin.
    + rewrite !lookup_ge_None_2; [done|rewrite length_slice; lia|rewrite length_slice; lia].
  - intros i Hi. rewrite Hin by done. rewrite Forall_lookup in Hline. destruct (lookup_Some_total line i) as [y Hy]; [lia|].
    unfold at_. rewrite nth_lookup, Hy. eauto.
  - unfold b. rewrite at_zeros, decide_True; [done|]. apply list_elem_of_fmap. by exists w.
Qed.

Lemma upto_nul_line line rest : Forall (fun c => c <> 0) line -> upto_nul (line ++ 0 :: rest) = line.
Proof. induction 1 as [|c l Hc _ IH]; [done|]. cbn. rewrite (proj2 (Z.eqb_neq c 0)) by done. by f_equal. Qed.

(** A line has at most one token per byte. *)
Lemma lex_length_gen start pos l : (length (lex start pos l) <= length (end_word start pos) + length l)%nat.
Proof.
  remember (length l) as n eqn:E. revert start pos l E. induction n as [n IH] using lt_wf_ind. intros start pos [|c l] E; cbn [lex length]; [lia|].
  cbn [length] in E. assert (IH' : forall l' p, (length l' < n)%nat -> (length (lex None p l') <= length l')%nat) by (intros l' p Hl; apply (IH (length l') Hl None p l' eq_refl)).
  destruct (has_char whitespace c); [rewrite length_app; specialize (IH' l (S pos)); lia|]. destruct (has_char symbols c).
  - rewrite length_app. destruct (c =? 62); [|cbn; specialize (IH' l (S pos)); lia].
    destruct l as [|d l]; [cbn; lia|]. cbn [length] in E. destruct (d =? 62); cbn [length].
    + specialize (IH' l (S (S pos))). lia.
    + specialize (IH' (d :: l) (S pos)). cbn [length] in IH'. lia.
  - specialize (IH (length l) ltac:(lia) (Some (default pos start)) (S pos) l eq_refl). destruct start; cbn in *; lia.
Qed.

Lemma lex_length line : (length (lex None 0 line) <= length line)%nat.
Proof. apply (lex_length_gen None 0). Qed.

(** The grammar derives what the reference parser returns, on the text of the words. *)
Lemma p_line_tokens line t k :
  (4 * length (lex None 0 line) + 4 <= k)%nat ->
  g_line (tokens line) t <-> exists t', p_line k (lex None 0 line) = POk t' [] /\ t = cmd_map (text line) t'.
Proof.
  intros Hk. split.
  - intros Hg. destruct (p_complete (A := list Z)) as [Hc _]. pose proof (Hc _ _ Hg k [] I) as H. unfold tokens in H. rewrite length_fmap in H.
    specialize (H Hk). rewrite app_nil_r, (proj1 (p_map (text line) k)) in H.
    destruct (p_line k (lex None 0 line)) as [t' [|]| |]; [|done..]. injection H as <-. eauto.
  - intros (t' & H & ->). destruct (p_sound (A := list Z) k) as [Hs _]. unfold tokens.
    assert (H' : p_line k (tok_map (text line) <$> lex None 0 line) = POk (cmd_map (text line) t') []) by (by rewrite (proj1 (p_map (text line) k)), H).
    apply Hs in H' as (u & E & Hg). rewrite app_nil_r in E. by rewrite E.
Qed.

(** parsecmd() returns or panics as the reference parser does. *)
Lemma parsecmd_runs line rest room :
  Forall (fun c => c <> 0) line -> (2 * length (lex None 0 line) + 1 <= room)%nat ->
  let r := p_line (parse_fuel (length line)) (lex None 0 line) in
  r <> PFuel ->
  runs parsecmd (fun c s => exists t, r = POk t [] /\ crepr (sh_heap s) (sh_buf s) c (cmd_map (text line) t) /\
      (forall a n, sh_heap s !! a = Some n -> (0 < a)%nat) /\ (c < sh_next s)%nat)
    (forall t, r <> POk t []) (mkSh (line ++ 0 :: rest) ∅ 1 room).
Proof.
  intros Hline Hroom r Hfuel. unfold parsecmd. apply runs_bind, runs_gets. cbn [sh_buf]. rewrite upto_nul_line by done.
  set (s0 := mkSh _ _ _ _). assert (Hs0 : st_ok line rest s0) by (split; [done|cbn; lia|]; intros a n Ha; cbn in Ha; by apply lookup_empty_Some in Ha).
  apply runs_bind. destruct (parse_runs line rest Hline (parse_fuel (length line))) as [Hp _].
  eapply runs_mono; [apply (Hp O s0); [done|lia|exact Hroom|exact Hfuel]| |].
  2:{ intros E t. change (toks line 0) with (lex None 0 line) in E. unfold r. rewrite E. done. }
  intros [c ps] s (t & Et & Hr & Hs & Hx & Hps & Hl & Hc). cbn [fst snd] in *. change (toks line 0) with (lex None 0 line) in Et.
  apply runs_bind, runs_gets. rewrite (so_buf _ _ _ Hs). pose proof (peek_spec line rest Hline ps [] ltac:(lia)) as Hpk.
  destruct (peek (line ++ 0 :: rest) ps (length line) []) as [b ps']. destruct Hpk as (Hp1 & Hp2 & _ & Hp4); [done|].
  destruct (Nat.eqb_spec ps' (length line)) as [E|E]; cbn [negb].
  2:{ apply runs_panic. intros t' Et'. unfold r in Et'. rewrite Et in Et'. injection Et' as _ Et'. by apply E, Hp4. }
  apply Hp4 in E. rewrite E in Et. apply runs_bind, runs_gets, runs_bind.
  assert (Hpos : forall a n, sh_heap s !! a = Some n -> (0 < a)%nat) by (intros a n Ha; apply (so_heap _ _ _ Hs) in Ha; lia).
  assert (H : wp (nulterminate (sh_next s) c) (fun _ s' => crepr (sh_heap s') (sh_buf s') c (cmd_map (text line) t) /\
    (forall a n, sh_heap s' !! a = Some n -> (0 < a)%nat) /\ (c < sh_next s')%nat) s).
  { apply (nulterminate_spec _ c t); [done|done|lia|]. cbn [sh_heap sh_buf sh_next].
    split; [|split; [done|lia]]. apply crepr_of; [done|]. intros w Hw. rewrite (so_buf _ _ _ Hs). apply words_terminated; [done| |done].
    intros w' Hw'. apply (lex_words line None 0); [lia|done|]. destruct (p_sound (A := nat * nat) (parse_fuel (length line))) as [Hsd _].
    apply Hsd in Et as (u & Eu & Hg). rewrite app_nil_r in Eu. subst u. by apply (proj1 line_words _ _ Hg). }
  unfold wp in H. unfold runs. destruct (nulterminate (sh_next s) c s); [|done..]. cbn. by exists t.
Qed.

(** ** Theorems *)

(** C13: parsecmd() accepts exactly the command lines of the grammar: for a line that
    the grammar gives a command, it returns structures of that command, with every
    argument and file name NUL-terminated in the buffer; on any other line it panics.
    It always ends (given memory for the structures), and never faults. *)
Theorem parsecmd_correct line rest room :
  Forall (fun c => c <> 0) line -> (2 * length (tokens line) + 1 <= room)%nat ->
  let s0 := mkSh (line ++ 0 :: rest) ∅ 1 room in
  (forall t, g_line (tokens line) t -> wp parsecmd (fun c s => crepr (sh_heap s) (sh_buf s) c t) s0) /\
  ((forall t, ~ g_line (tokens line) t) -> exists msg, parsecmd s0 = Panic msg).
Proof.
  intros Hline Hroom s0. unfold tokens in Hroom. rewrite length_fmap in Hroom.
  pose proof (lex_length line) as Hlen. assert (Hk : (4 * length (lex None 0 line) + 4 <= parse_fuel (length line))%nat) by (unfold parse_fuel; lia).
  pose proof (proj1 (p_fuel (parse_fuel (length line))) _ Hk) as Hf. pose proof (parsecmd_runs line rest room Hline Hroom Hf) as H. split.
  - intros t Hg. apply (p_line_tokens line t _ Hk) in Hg as (t' & E & ->). rewrite E in H. unfold runs in H. unfold wp.
    fold s0 in H. destruct (parsecmd s0); [|by destruct (H t')|done..]. destruct H as (t & [= <-] & H & _). done.
  - intros Hn. unfold runs in H. fold s0 in H. destruct (parsecmd s0) as [c s|msg|s| |]; [|by exists msg|done..].
    destruct H as (t & E & _). exfalso. apply (Hn (cmd_map (text line) t)), (p_line_tokens line _ _ Hk). by exists t.
Qed.

(** ** Witnesses *)

Definition example_line : list Z := str "cat <a | (wc -l; ls) >>b &" ++ [10].

Definition example_cmd : cmd (list Z) :=
  Back (Pipe (Redir (Exec [str "cat"]) (mkRedir (str "a") O_RDONLY 0))
    (Redir (Seq (Exec [str "wc"; str "-l"]) (Exec [str "ls"])) (mkRedir (str "b") (Z.lor O_WRONLY O_CREATE) 1))).

Lemma example_line_cmd : g_line (tokens example_line) example_cmd.
Proof.
  destruct (proj1 (p_sound (A := list Z) 100) (tokens example_line) example_cmd []) as (u & E & Hg); [by vm_compute|].
  rewrite app_nil_r in E. by rewrite E.
Qed.

Lemma parsecmd_correct_witness :
  exists c s, parsecmd (mkSh (example_line ++ 0 :: []) ∅ 1 60) = Ok c s /\ crepr (sh_heap s) (sh_buf s) c example_cmd.
Proof.
  destruct (parsecmd_correct example_line [] 60) as [H _].
  - by repeat constructor.
  - apply Nat.leb_le. by vm_compute.
  - destruct (wp_inv _ _ _ (H example_cmd example_line_cmd)) as (c & s & E & Hc). exists c, s. exact (conj E Hc).
Defined.
