(* ===== verification/ShRun.v ===== *)
(** * Correctness of the shell's runcmd() (user/sh.c)

    A process has a table of descriptors; dup(), open() and pipe() take the lowest free
    ones, as the kernel's fdalloc() does.  [jobs] runs the behaviour of a process and of
    its children and collects the programs that they become, each with its descriptors.
    [meaning] says what a command stands for: which programs run, and what their
    descriptors are.  runcmd() implements it: in a pipeline the left command writes to
    the pipe, the right one reads from it, and no other end of the pipe stays open. *)

From Stdlib Require Import ZArith Lia.
From stdpp Require Import base tactics numbers gmap strings option list.
From S2P Require Import Prelude Kstring Sysfile Sh ShGrammar ShParse.

(** ** Specification *)

Inductive ofile :=
| F_file (name : list Z) (mode : Z)
| F_pipe_r (p : nat)
| F_pipe_w (p : nat)
| F_other (n : Z).

Abbreviation fdt := (gmap Z ofile).

(** The lowest descriptor that is free, of NOFILE = 16 *)
Definition free_fd (t : fdt) : option Z := List.find (fun fd => bool_decide (t !! fd = None)) (seqZ 0 16).

Section semantics.
Context (can_open : list Z -> Z -> bool).

(** The programs that a process and its children become, and the next pipe *)
Fixpoint jobs (b : beh) (t : fdt) (p : nat) : list (list (list Z) * fdt) * nat :=
  match b with
  | B_exit _ | B_fault => ([], p)
  | B_exec _ argv _ => ([(argv, t)], p)
  | B_sys (Close fd) k => jobs (k (if decide (is_Some (t !! fd)) then 0 else -1)) (delete fd t) p
  | B_sys (Open f m) k =>
      match can_open f m, free_fd t with
      | true, Some fd => jobs (k fd) (<[fd := F_file f m]> t) p
      | _, _ => jobs (k (-1)) t p
      end
  | B_sys (Dup fd) k =>
      match t !! fd, free_fd t with
      | Some o, Some n => jobs (k n) (<[n := o]> t) p
      | _, _ => jobs (k (-1)) t p
      end
  | B_sys Wait k => jobs (k 3) t p
  | B_sys (Write _ bs) k => jobs (k (Z.of_nat (length bs))) t p
  | B_sys (Chdir _) k => jobs (k 0) t p
  | B_read _ _ k => jobs (k []) t p
  | B_pipe k =>
      match free_fd t with
      | Some p0 =>
          match free_fd (<[p0 := F_pipe_r p]> t) with
          | Some p1 => jobs (k (Some (p0, p1))) (<[p1 := F_pipe_w p]> (<[p0 := F_pipe_r p]> t)) (S p)
          | None => jobs (k None) t p
          end
      | None => jobs (k None) t p
      end
  | B_fork child parent =>
      let '(j1, p1) := jobs child t p in
      let '(j2, p2) := jobs (parent 3) t p1 in
      (j1 ++ j2, p2)
  end.

(** What a command stands for *)
Fixpoint meaning (c : cmd (list Z)) (t : fdt) (p : nat) : list (list (list Z) * fdt) * nat :=
  match c with
  | Exec ws => (match ws with [] => [] | _ => [(ws, t)] end, p)
  | Redir c r =>
      if can_open (rd_file r) (rd_mode r) then meaning c (<[rd_fd r := F_file (rd_file r) (rd_mode r)]> t) p else ([], p)
  | Pipe c1 c2 =>
      let '(j1, p1) := meaning c1 (<[1 := F_pipe_w p]> t) (S p) in
      let '(j2, p2) := meaning c2 (<[0 := F_pipe_r p]> t) p1 in
      (j1 ++ j2, p2)
  | Seq c1 c2 =>
      let '(j1, p1) := meaning c1 t p in
      let '(j2, p2) := meaning c2 t p1 in
      (j1 ++ j2, p2)
  | Back c => meaning c t p
  end.

(** Standard input and output are open, and two descriptors are free. *)
Record fdt_ok (t : fdt) : Prop := {
  fo_in : is_Some (t !! 0);
  fo_out : is_Some (t !! 1);
  fo_free : exists a b, 0 <= a < b /\ b < 16 /\ t !! a = None /\ t !! b = None;
}.

(** Redirections are of standard input and output. *)
Fixpoint std_fds (c : cmd (list Z)) : Prop :=
  match c with
  | Exec _ => True
  | Redir c r => (rd_fd r = 0 \/ rd_fd r = 1) /\ std_fds c
  | Pipe c1 c2 | Seq c1 c2 => std_fds c1 /\ std_fds c2
  | Back c => std_fds c
  end.

(** ** Lemmas: descriptors *)

Lemma free_fd_spec t :
  match free_fd t with
  | Some a => 0 <= a < 16 /\ t !! a = None /\ forall b, 0 <= b < a -> is_Some (t !! b)
  | None => forall b, 0 <= b < 16 -> is_Some (t !! b)
  end.
Proof.
  unfold free_fd. pose proof (find_first (fun fd => bool_decide (t !! fd = None)) 0 16) as H.
  assert (Hs : forall b, bool_decide (t !! b = None) = false -> is_Some (t !! b)).
  { intros b Hb. apply bool_decide_eq_false in Hb. by apply not_eq_None_Some. }
  destruct (List.find _ _) as [a|]; [|auto]. destruct H as (H1 & H2 & H3).
  apply bool_decide_eq_true in H2. split_and!; [lia|lia|done|auto].
Qed.

(** The lowest one, if it is known which it is *)
Lemma free_fd_eq t a : 0 <= a < 16 -> t !! a = None -> (forall b, 0 <= b < a -> is_Some (t !! b)) -> free_fd t = Some a.
Proof.
  intros Ha Hn Hl. pose proof (free_fd_spec t) as H. destruct (free_fd t) as [x|].
  - destruct H as (Hx & Hxn & Hxl). f_equal. destruct (Z.lt_trichotomy x a) as [Hlt|[?|Hgt]]; [|done|].
    + destruct (Hl x) as [o Ho]; [lia|]. congruence.
    + destruct (Hxl a) as [o Ho]; [lia|]. congruence.
  - destruct (H a Ha) as [o Ho]. congruence.
Qed.

(** pipe() finds two free descriptors above 1. *)
Lemma pipe_fds t o :
  fdt_ok t -> exists p0 p1, free_fd t = Some p0 /\ free_fd (<[p0 := o]> t) = Some p1 /\
    1 < p0 /\ 1 < p1 /\ p0 <> p1 /\ t !! p0 = None /\ t !! p1 = None.
Proof.
  intros [[i Hi] [x Ho] (a & b & Hab & Hb & Ha & Hbn)].
  assert (Hgt : forall c, 0 <= c -> t !! c = None -> 1 < c).
  { intros c Hc Hn. destruct (decide (c = 0)) as [->|]; [congruence|]. destruct (decide (c = 1)) as [->|]; [congruence|lia]. }
  pose proof (free_fd_spec t) as H0. destruct (free_fd t) as [p0|] eqn:E0; [|destruct (H0 a) as [y Hy]; [lia|congruence]].
  destruct H0 as (H0 & H0n & _). pose proof (free_fd_spec (<[p0 := o]> t)) as H1.
  destruct (free_fd (<[p0 := o]> t)) as [p1|] eqn:E1.
  - destruct H1 as (H1 & H1n & _). assert (p0 <> p1) by (intros <-; by rewrite lookup_insert_eq in H1n).
    rewrite lookup_insert_ne in H1n by done. exists p0, p1. split_and!; try done; apply Hgt; (lia || done).
  - exfalso. assert (Hfree : exists c, 0 <= c < 16 /\ c <> p0 /\ t !! c = None).
    { destruct (decide (a = p0)) as [->|]; [exists b; split_and!; [lia|lia|lia|done]|exists a; split_and!; [lia|lia|done|done]]. }
    destruct Hfree as (c & Hc & Hne & Hn). destruct (H1 c Hc) as [y Hy]. rewrite lookup_insert_ne in Hy by done. congruence.
Qed.

Lemma fdt_ok_insert t fd o : fdt_ok t -> fd = 0 \/ fd = 1 -> fdt_ok (<[fd := o]> t).
Proof.
  intros [[i Hi] [x Ho] (a & b & Hab & Hb & Ha & Hbn)] Hfd. split.
  - rewrite lookup_insert_is_Some'. right. eauto.
  - rewrite lookup_insert_is_Some'. right. eauto.
  - exists a, b. rewrite !lookup_insert_ne; [done| |]; intros <-; destruct Hfd; subst; congruence.
Qed.

(** close(fd) and then a new descriptor: it is fd again. *)
Lemma free_fd_closed t fd : fdt_ok t -> fd = 0 \/ fd = 1 -> free_fd (delete fd t) = Some fd.
Proof.
  intros [Hi Ho _] Hfd. apply free_fd_eq; [lia|apply lookup_delete_eq|]. intros b Hb.
  assert (fd = 1 /\ b = 0) as [-> ->] by lia. by rewrite lookup_delete_ne.
Qed.

(** The descriptors of the two sides of a pipe *)
Lemma pipe_side (t : fdt) fd p0 p1 o0 o1 o :
  1 < p0 -> 1 < p1 -> p0 <> p1 -> t !! p0 = None -> t !! p1 = None -> fd = 0 \/ fd = 1 ->
  delete p1 (delete p0 (<[fd := o]> (delete fd (<[p1 := o1]> (<[p0 := o0]> t))))) = <[fd := o]> t.
Proof.
  intros H0 H1 Hne Hn0 Hn1 Hfd. apply map_eq. intros i.
  destruct (decide (i = p1)) as [->|]; [by rewrite lookup_delete_eq, lookup_insert_ne by lia|]. rewrite lookup_delete_ne by done.
  destruct (decide (i = p0)) as [->|]; [by rewrite lookup_delete_eq, lookup_insert_ne by lia|]. rewrite lookup_delete_ne by done.
  destruct (decide (i = fd)) as [->|]; [by rewrite !lookup_insert_eq|]. rewrite !lookup_insert_ne by done.
  by rewrite lookup_delete_ne, !lookup_insert_ne by done.
Qed.

(** ** Lemmas: runcmd() *)

Lemma jobs_puts fd bs k t p : jobs (b_puts fd bs k) t p = jobs k t p.
Proof. induction bs as [|c bs IH]; [done|]. exact IH. Qed.

Lemma arg_strings_args b qs : arg_strings b (args qs) = cstring b <$> qs.
Proof.
  unfold args. generalize (MAXARGS - length qs)%nat as n. intros n.
  induction qs as [|q qs IH]; [by destruct n|]. cbn. f_equal. exact IH.
Qed.

Lemma jobs_fork1 child parent t p :
  jobs (fork1 child parent) t p =
    let '(j1, p1) := jobs child t p in let '(j2, p2) := jobs parent t p1 in (j1 ++ j2, p2).
Proof. done. Qed.

Lemma jobs_close fd k t p : jobs (b_close fd k) t p = jobs k (delete fd t) p.
Proof. done. Qed.

(** One side of a pipe: close(fd), dup(end), close both ends *)
Lemma jobs_side t fd pe p0 p1 o0 o1 o k p :
  fdt_ok t -> 1 < p0 -> 1 < p1 -> p0 <> p1 -> t !! p0 = None -> t !! p1 = None -> fd = 0 \/ fd = 1 -> 1 < pe ->
  <[p1 := o1]> (<[p0 := o0]> t) !! pe = Some o ->
  jobs (b_close fd (B_sys (Dup pe) (fun _ => b_close p0 (b_close p1 k)))) (<[p1 := o1]> (<[p0 := o0]> t)) p =
    jobs k (<[fd := o]> t) p.
Proof.
  intros Ht H0 H1 Hne Hn0 Hn1 Hfd Hpe He. rewrite jobs_close. cbn [jobs]. rewrite lookup_delete_ne, He by lia.
  assert (Hf : free_fd (delete fd (<[p1 := o1]> (<[p0 := o0]> t))) = Some fd).
  { apply free_fd_eq; [lia|apply lookup_delete_eq|]. intros b Hb. assert (fd = 1 /\ b = 0) as [-> ->] by lia.
    rewrite lookup_delete_ne, !lookup_insert_ne by lia. apply Ht. }
  rewrite Hf, !jobs_close, pipe_side by done. done.
Qed.

Lemma runcmd_jobs k b h cmd c t p :
  crepr h b c cmd -> (forall a n, h !! a = Some n -> (0 < a)%nat) -> (c < k)%nat -> std_fds cmd -> fdt_ok t ->
  jobs (runcmd k b h c) t p = meaning cmd t p.
Proof.
  intros Hc Hh. revert cmd c t p Hc. induction k as [|k IH]; intros cmd c t p Hc Hk Hstd Ht; [lia|]. cbn [runcmd].
  assert (H0 : forall n, h !! c = Some n -> (c =? 0)%nat = false) by (intros n Hn%Hh; apply Nat.eqb_neq; lia).
  destruct cmd as [ws|cmd r|cmd1 cmd2|cmd1 cmd2|cmd]; cbn [crepr std_fds meaning] in *.
  - destruct Hc as (qs & eqs & Hn & Hl & <-). rewrite (H0 _ Hn), Hn. destruct qs as [|q qs]; [done|].
    assert (E : args (q :: qs) = Some q :: tail (args (q :: qs))) by done. rewrite E at 1. cbn [jobs].
    by rewrite arg_strings_args.
  - destruct Hc as (c' & q & e & Hlt & Hn & Hf & Hc). rewrite (H0 _ Hn), Hn, jobs_close. cbn [jobs]. destruct Hstd as [Hfd Hstd].
    rewrite Hf, free_fd_closed by done. destruct (can_open (rd_file r) (rd_mode r)).
    + rewrite (proj2 (Z.ltb_ge _ 0)) by lia. rewrite insert_delete_eq. apply IH; [done|lia|done|by apply fdt_ok_insert].
    + cbn [Z.ltb Z.compare]. by rewrite jobs_puts.
  - destruct Hc as (c1 & c2 & Hl1 & Hl2 & Hn & Hc1 & Hc2). rewrite (H0 _ Hn), Hn. cbn [jobs]. destruct Hstd as [Hs1 Hs2].
    destruct (pipe_fds t (F_pipe_r p) Ht) as (p0 & p1 & E0 & E1 & Hp0 & Hp1 & Hne & Hn0 & Hn1). rewrite E0, E1, jobs_fork1.
    rewrite (jobs_side t 1 p1 p0 p1 _ _ (F_pipe_w p)) by (done || lia || (by right) || apply lookup_insert_eq).
    rewrite (IH cmd1 c1) by (done || lia || (apply fdt_ok_insert; [done|by right])).
    destruct (meaning cmd1 _ (S p)) as [j1 n1]. rewrite jobs_fork1.
    rewrite (jobs_side t 0 p0 p0 p1 _ _ (F_pipe_r p)) by (done || lia || (by left) || (rewrite lookup_insert_ne by done; apply lookup_insert_eq)).
    rewrite (IH cmd2 c2) by (done || lia || (apply fdt_ok_insert; [done|by left])).
    destruct (meaning cmd2 _ n1) as [j2 n2]. rewrite !jobs_close. cbn. by rewrite app_nil_r.
  - destruct Hc as (c1 & c2 & Hl1 & Hl2 & Hn & Hc1 & Hc2). rewrite (H0 _ Hn), Hn. destruct Hstd as [Hs1 Hs2]. rewrite jobs_fork1.
    rewrite (IH cmd1 c1) by (done || lia). destruct (meaning cmd1 t p) as [j1 n1]. cbn [jobs]. by rewrite (IH cmd2 c2) by (done || lia).
  - destruct Hc as (c' & Hlt & Hn & Hc). rewrite (H0 _ Hn), Hn, jobs_fork1, (IH cmd c') by (done || lia).
    destruct (meaning cmd t p). cbn. by rewrite app_nil_r.
Qed.
End semantics.

Lemma std_fds_wrap c ts (rs : list (redir (list Z))) : std_fds c -> (exists ws, simple ts ws rs) \/ redirs ts rs -> std_fds (wrap c rs).
Proof.
  intros Hc Hr. assert (H : Forall (fun r => rd_fd r = 0 \/ rd_fd r = 1) rs).
  { assert (Ht : forall op f (r : redir (list Z)), redir_tok op f = Some r -> rd_fd r = 0 \/ rd_fd r = 1).
    { intros [b| |] f r; cbn; [|intros [= <-]; by right|done]. destruct (b =? 60); [intros [= <-]; by left|]. destruct (b =? 62); [intros [= <-]; by right|done]. }
    destruct Hr as [[ws Hs]|Hs]; [induction Hs; eauto|induction Hs; eauto]. }
  unfold wrap. clear Hr. revert c Hc. induction H as [|r rs H _ IH]; intros c Hc; [done|]. apply IH. by split.
Qed.

(** Commands of the grammar redirect only standard input and output. *)
Lemma g_std_fds :
  (forall ts c, g_line ts c -> std_fds c) /\ (forall ts c, g_pipe ts c -> std_fds c) /\ (forall ts c, g_exec ts c -> std_fds c).
Proof.
  apply g_ind.
  - intros ts n c _ IH. by induction n.
  - intros ts n c ts' c' _ IH _ IH'. split; [|done]. by induction n.
  - done.
  - intros ts c ts' c' _ IH _ IH'. by split.
  - intros ts ws rs Hs _. eapply std_fds_wrap; [done|]. left. eauto.
  - intros ts c ts' rs _ IH Hr. eapply std_fds_wrap; [done|]. by right.
Qed.

(** ** Theorems *)


(** ** Witnesses *)

Definition example_fds : fdt := <[0 := F_other 0]> (<[1 := F_other 1]> (<[2 := F_other 2]> ∅)).

Lemma example_fds_ok : fdt_ok example_fds.
Proof. split; [by eexists..|]. exists 3, 4. by vm_compute. Qed.

(** ls > f | wc: wc reads from the pipe, ls writes to the file *)
Definition pipe_line : list Z := str "ls > f | wc".

