(* ===== verification/Mkfs.v ===== *)
(** * The image builder (mkfs/mkfs.c): definitions

    mkfs runs on the host and writes a file-system image sector by sector.  Its state
    is the image, as the sectors written so far, and its global variables; a failed
    assertion, die() and a read beyond the end of the image end the run.  Structures
    have the byte layout of kernel/fs.h, which mkfs includes; the host is
    little-endian, so that xshort() and xint() do not change a number.  A file to be
    copied is its name and the pieces that read() returns of it.  Messages on standard
    output are left out. *)

From Stdlib Require Import ZArith Lia.
From stdpp Require Import base tactics numbers gmap strings option list.
From S2P Require Import Prelude Bytes Kernel Kstring Fs.

(** ** Definitions *)

Definition FSSIZE : Z := 2000.
Definition NINODES : Z := 200.
Definition nbitmap : Z := FSSIZE / (BSIZE * 8) + 1.
Definition ninodeblocks : Z := NINODES / IPB + 1.
Definition nlog : Z := LOGSIZE.

Record mkst := mkMk {
  mk_img : gmap Z (list Z);  (* the sectors of the image *)
  mk_sb : superblock;
  mk_freeinode : Z;
  mk_freeblock : Z;
}.

Definition MK : Type -> Type := M mkst.

Definition upd_img (f : gmap Z (list Z) -> gmap Z (list Z)) (s : mkst) : mkst :=
  mkMk (f (mk_img s)) (mk_sb s) (mk_freeinode s) (mk_freeblock s).
Definition upd_freeinode (f : Z -> Z) (s : mkst) : mkst :=
  mkMk (mk_img s) (mk_sb s) (f (mk_freeinode s)) (mk_freeblock s).
Definition upd_freeblock (f : Z -> Z) (s : mkst) : mkst :=
  mkMk (mk_img s) (mk_sb s) (mk_freeinode s) (f (mk_freeblock s)).

Definition assert_ (b : bool) : MK unit := if b then mret tt else panic "assert".

(** ushort xshort(ushort x), uint xint(uint x) *)
Definition xshort (x : Z) : Z := le_combine [u8 x; u8 (Z.shiftr x 8)].

Definition xint (x : Z) : Z := le_combine [u8 x; u8 (Z.shiftr x 8); u8 (Z.shiftr x 16); u8 (Z.shiftr x 24)].

(** The sector at the file offset that lseek() is given. *)
Definition sect_pos (sec : Z) : Z := u32 (sec * BSIZE) / BSIZE.

(** void wsect(uint sec, void *buf), void rsect(uint sec, void *buf) *)
Definition wsect (sec : Z) (buf : list Z) : MK unit := modify (upd_img (<[sect_pos sec := buf]>)).

Definition rsect (sec : Z) : MK (list Z) :=
  img ← gets mk_img;
  match img !! sect_pos sec with Some x => mret x | None => panic "read" end.

(** void winode(uint inum, struct dinode *ip), void rinode(uint inum, struct dinode *ip) *)
Definition winode (inum : Z) (ip : dinode) : MK unit :=
  sb ← gets mk_sb;
  buf ← rsect (IBLOCK inum sb);
  wsect (IBLOCK inum sb) (splice buf (dinode_off inum) (dinode_enc ip)).

Definition rinode (inum : Z) : MK dinode :=
  sb ← gets mk_sb;
  buf ← rsect (IBLOCK inum sb);
  mret (dinode_dec buf (dinode_off inum)).

(** uint ialloc(ushort type) *)
Definition mk_ialloc (type : Z) : MK Z :=
  inum ← gets mk_freeinode;
  modify (upd_freeinode (fun n => u32 (n + 1)));;
  winode inum (mkDinode (xshort type) 0 0 (xshort 1) (xint 0) (replicate 13 0));;
  mret inum.

(** void balloc(int used) *)
Fixpoint balloc_bits (buf : list Z) (i : Z) (n : nat) : list Z :=
  match n with
  | O => buf
  | S n' => balloc_bits (alter (fun v => Z.lor v (Z.shiftl 1 (i mod 8))) (Z.to_nat (i / 8)) buf) (i + 1) n'
  end.

Definition mk_balloc (used : Z) : MK unit :=
  assert_ (used <? BSIZE * 8);;
  sb ← gets mk_sb;
  wsect (sb_bmapstart sb) (balloc_bits (replicate 1024 0) 0 (Z.to_nat used)).

(** freeblock++ *)
Definition take_block : MK Z :=
  b ← gets mk_freeblock;
  modify (upd_freeblock (fun n => u32 (n + 1)));;
  mret (xint b).

(** void iappend(uint inum, void *xp, int n): entry [k] of the indirect block [a], the
    block of part [fbn], the loop and the function *)
Definition iappend_entry (a k : Z) : MK Z :=
  indirect ← rsect a;
  indirect ← (if ind_get indirect k =? 0 then
                b ← take_block;
                let indirect := put_le 4 (Z.to_nat (4 * k)) b indirect in
                wsect a indirect;;
                mret indirect
              else mret indirect);
  mret (xint (ind_get indirect k)).

Definition set_din_addr (j : nat) (v : Z) (din : dinode) : dinode :=
  mkDinode (di_type din) (di_major din) (di_minor din) (di_nlink din) (di_size din) (<[j := v]> (di_addrs din)).

Definition alloc_addr (j : nat) (din : dinode) : MK dinode :=
  if xint (nth j (di_addrs din) 0) =? 0 then b ← take_block; mret (set_din_addr j b din)
  else mret din.

Definition iappend_block (din : dinode) (fbn : Z) : MK (dinode * Z) :=
  if fbn <? NDIRECT then
    din ← alloc_addr (Z.to_nat fbn) din;
    mret (din, xint (nth (Z.to_nat fbn) (di_addrs din) 0))
  else
    din ← alloc_addr 12 din;
    x ← iappend_entry (xint (nth 12 (di_addrs din) 0)) (fbn - NDIRECT);
    mret (din, x).

Definition iappend_body (st : dinode * Z * list Z) : MK (dinode * Z * list Z + dinode * Z) :=
  let '(din, off, p) := st in
  if (0 <? length p)%nat then
    let fbn := off / BSIZE in
    assert_ (fbn <? MAXFILE);;
    r ← iappend_block din fbn;
    let '(din, x) := r in
    let n1 := Z.min (Z.of_nat (length p)) (u32 ((fbn + 1) * BSIZE - off)) in
    buf ← rsect x;
    wsect x (splice buf (Z.to_nat (off - fbn * BSIZE)) (take (Z.to_nat n1) p));;
    mret (inl (din, u32 (off + n1), drop (Z.to_nat n1) p))
  else mret (inr (din, off)).

Definition set_size (din : dinode) (off : Z) : dinode :=
  mkDinode (di_type din) (di_major din) (di_minor din) (di_nlink din) (xint off) (di_addrs din).

Definition iappend (inum : Z) (xp : list Z) : MK unit :=
  din ← rinode inum;
  r ← loop (S (length xp)) iappend_body (din, xint (di_size din), xp);
  winode inum (set_size r.1 r.2).

(** int main(int argc, char *argv[]) *)

(** The superblock, and its bytes. *)
Definition nmeta : Z := 2 + nlog + ninodeblocks + nbitmap.

Definition mkfs_sb : superblock :=
  mkSb FSMAGIC (xint FSSIZE) (xint (FSSIZE - nmeta)) (xint NINODES) (xint nlog) (xint 2)
    (xint (2 + nlog)) (xint (2 + nlog + ninodeblocks)).

Definition superblock_enc (sb : superblock) : list Z :=
  le_split 4 (sb_magic sb) ++ le_split 4 (sb_size sb) ++ le_split 4 (sb_nblocks sb) ++ le_split 4 (sb_ninodes sb) ++
  le_split 4 (sb_nlog sb) ++ le_split 4 (sb_logstart sb) ++ le_split 4 (sb_inodestart sb) ++ le_split 4 (sb_bmapstart sb).

(** A directory entry. *)
Definition mk_dirent (inum : Z) (name : list Z) : list Z := dirent_enc (xshort inum) (nul_padded 14 name).

(** The name in the image of the file [argv]. *)
Definition shortname (argv : list Z) : list Z :=
  if strncmp_bytes 5 argv (str "user/") =? 0 then drop 5 argv else argv.

Definition skip_underscore (name : list Z) : list Z :=
  match name with c :: name' => if c =? 95 then name' else name | [] => [] end.

Definition mkfs_file (rootino : Z) (f : list Z * list (list Z)) : MK unit :=
  let '(argv, pieces) := f in
  let name := shortname argv in
  assert_ (bool_decide (47 ∉ name));;
  let name := skip_underscore name in
  inum ← mk_ialloc T_FILE;
  iappend rootino (mk_dirent inum name);;
  for_each pieces (fun buf => iappend inum buf).

Definition mkfs_init : MK unit :=
  for_each (seqZ 0 FSSIZE) (fun i => wsect i (replicate 1024 0));;
  sb ← gets mk_sb;
  wsect 1 (splice (replicate 1024 0) 0 (superblock_enc sb)).

Definition mkfs (files : list (list Z * list (list Z))) : MK unit :=
  modify (fun s => mkMk (mk_img s) mkfs_sb (mk_freeinode s) nmeta);;
  mkfs_init;;
  rootino ← mk_ialloc T_DIR;
  assert_ (rootino =? ROOTINO);;
  iappend rootino (mk_dirent rootino (str "."));;
  iappend rootino (mk_dirent rootino (str ".."));;
  for_each files (mkfs_file rootino);;
  din ← rinode rootino;
  let off := (xint (di_size din) / BSIZE + 1) * BSIZE in
  winode rootino (set_size din off);;
  freeblock ← gets mk_freeblock;
  mk_balloc (s32 freeblock).

(** The state when mkfs starts. *)
Definition mkfs_start : mkst := mkMk ∅ (mkSb 0 0 0 0 0 0 0 0) 1 0.
