(* ===== verification/MkfsProps.v ===== *)
(** * Correctness of the image builder (mkfs/mkfs.c): inodes and appending

    The invariant of the run: the sectors written, the blocks of every inode and its
    contents.  A ghost function says of every allocated block which part of which inode
    it holds, so that blocks of different parts are different.  iappend() adds bytes to
    the contents of one inode and leaves the others alone. *)

From Stdlib Require Import ZArith Lia.
From stdpp Require Import base tactics numbers gmap strings option list.
From S2P Require Import Prelude Bytes Kernel Kstring Bcache Log LogSpec Fs Txn FsBlocks FsInode FsData FsIO FsWrite.
From S2P Require Import FsDir Mkfs.

(** ** Specification *)

(** An in-memory inode of a dinode, for the definitions of the kernel's files. *)
Definition fin (d : dinode) : inode := upd_i_dev (fun _ => 1) (inode_load d zero_inode).

(** Parts of a file with contents [c], and the blocks that it takes. *)
Definition nparts (c : list Z) : Z := (Z.of_nat (length c) + 1023) / 1024.

Definition cost (c : list Z) : Z := nparts c + (if 12 <? nparts c then 1 else 0).

Definition costs (cs : list (list Z)) : Z := foldr (fun c n => cost c + n) 0 cs.

(** [d] has the first [nb] parts of inode [j], and an indirect block if [ib]; [W] owns the blocks below [fb]. *)
Record fmap_ok (j : Z) (V : Z -> list Z) (fb : Z) (W : Z -> Z * Z) (d : dinode) (nb : Z) (ib : bool) : Prop := {
  fm_d : dinode_ok d;
  fm_nb : 0 <= nb <= MAXFILE;
  fm_addr bn : 0 <= bn < nb ->
    46 <= file_addr V (fin d) bn < fb /\ W (file_addr V (fin d) bn) = (j, bn);
  fm_none bn : nb <= bn < MAXFILE -> file_addr V (fin d) bn = 0;
  fm_ind : if ib then 46 <= ind_blk (fin d) < fb /\ W (ind_blk (fin d)) = (j, -1) else ind_blk (fin d) = 0;
}.

(** The contents, followed by zeroes up to the end of the last block. *)
Definition bytes_ok (V : Z -> list Z) (d : dinode) (c : list Z) : Prop :=
  forall p, 0 <= p < nparts c * 1024 -> file_byte V (fin d) p = nth (Z.to_nat p) c 0.

Definition file_rep (j : Z) (V : Z -> list Z) (fb : Z) (W : Z -> Z * Z) (d : dinode) (c : list Z) : Prop :=
  fmap_ok j V fb W d (nparts c) (12 <? nparts c) /\ bytes_ok V d c.

(** The blocks [V] are those of the image; those from freeblock on are zero, and those
    of the boot block, the superblock and the log are as mkfs_init left them. *)
Record img_ok (s : mkst) (V : Z -> list Z) : Prop := {
  io_sb : mk_sb s = mkfs_sb;
  io_img b : 0 <= b < FSSIZE -> mk_img s !! b = Some (V b) /\ blk_ok (V b);
  io_fb : 46 <= mk_freeblock s <= FSSIZE;
  io_free b : mk_freeblock s <= b < FSSIZE -> V b = replicate 1024 0;
  io_log b : 2 <= b < 32 -> V b = replicate 1024 0;
  io_super : V 1 = splice (replicate 1024 0) 0 (superblock_enc mkfs_sb);
}.

Definition own (b : Z) (v : Z * Z) (W : Z -> Z * Z) : Z -> Z * Z := fun x => if x =? b then v else W x.

(** ** Lemmas: numbers *)

Lemma xint_small x : 0 <= x < 2 ^ 32 -> xint x = x.
Proof.
  intros Hx. unfold xint, u8. cbn [le_combine]. rewrite !Z.shiftr_div_pow2 by lia. zdm.
Qed.

Lemma xshort_small x : 0 <= x < 2 ^ 16 -> xshort x = x.
Proof.
  intros Hx. unfold xshort, u8. cbn [le_combine]. rewrite !Z.shiftr_div_pow2 by lia. zdm.
Qed.

Lemma sect_pos_small b : 0 <= b < FSSIZE -> sect_pos b = b.
Proof. unfold FSSIZE. intros Hb. unfold sect_pos. rewrite u32_small by lia. zdm. Qed.

Lemma mkfs_inodes : inodes_ok mkfs_sb 2.
Proof.
  split; [by vm_compute..|]. intros i Hi. change (sb_ninodes mkfs_sb) with 200 in Hi.
  unfold IBLOCK, IPB. change (sb_inodestart mkfs_sb) with 32. rewrite u32_small by zdm. right. zdm.
Qed.

Lemma mkfs_IBLOCK j : 0 <= j < 200 -> IBLOCK j mkfs_sb = j / 16 + 32.
Proof. intros Hj. unfold IBLOCK, IPB. change (sb_inodestart mkfs_sb) with 32. apply u32_small. zdm. Qed.

(** ** Lemmas: block maps of dinodes *)

Lemma fin_with j a d : fin (set_din_addr j a d) = set_addr j a (fin d).
Proof. done. Qed.

Lemma dinode_ok_with j a d : dinode_ok d -> 0 <= a < 2 ^ 32 -> dinode_ok (set_din_addr j a d).
Proof.
  intros [] Ha. split; cbn; [done..|by rewrite length_insert|]. by apply Forall_insert.
Qed.

(** Part [nb] becomes the direct block [fb]. *)
Lemma fmap_direct j V fb W d nb :
  fmap_ok j V fb W d nb false -> 0 <= nb < 12 -> 46 <= fb < 2 ^ 32 ->
  fmap_ok j V (fb + 1) (own fb (j, nb) W) (set_din_addr (Z.to_nat nb) fb d) (nb + 1) false.
Proof.
  intros [Hd Hnb Ha Hn Hi] Hb Hf.
  assert (E : forall bn, 0 <= bn -> file_addr V (fin (set_din_addr (Z.to_nat nb) fb d)) bn =
    if bn =? nb then fb else file_addr V (fin d) bn).
  { intros bn H0. rewrite fin_with, (file_addr_direct V V) by (done || lia || apply Hd). rewrite Z2Nat.id by lia. done. }
  split; [by apply dinode_ok_with; [|lia]|lia| | |].
  - intros bn H0. rewrite E by lia. unfold own. destruct (Z.eqb_spec bn nb) as [->|]; [rewrite Z.eqb_refl; split; [lia|done]|].
    destruct (Ha bn) as [Hr HW]; [lia|]. rewrite (proj2 (Z.eqb_neq _ fb)) by lia. split; [lia|done].
  - intros bn H0. rewrite E by lia. rewrite (proj2 (Z.eqb_neq _ _)) by lia. apply Hn. lia.
  - rewrite fin_with. unfold ind_blk, set_addr. cbn. rewrite nth_insert_Z by (rewrite (dk_len _ Hd); lia).
    rewrite decide_False by lia. exact Hi.
Qed.

(** The zeroed block [fb] becomes the indirect block. *)
Lemma fmap_ind j V fb W d nb :
  fmap_ok j V fb W d nb false -> 46 <= fb < 2 ^ 32 -> V fb = replicate 1024 0 ->
  fmap_ok j V (fb + 1) (own fb (j, -1) W) (set_din_addr 12 fb d) nb true.
Proof.
  intros [Hd Hnb Ha Hn Hi] Hf Hz.
  assert (E : forall bn, 0 <= bn < MAXFILE -> file_addr V (fin (set_din_addr 12 fb d)) bn = file_addr V (fin d) bn).
  { intros bn H0. rewrite fin_with. apply file_addr_ind; [apply Hd|done|done|done]. }
  split; [by apply dinode_ok_with; [|lia]|lia| | |].
  - intros bn H0. rewrite E by lia. destruct (Ha bn) as [Hr HW]; [lia|].
    unfold own. rewrite (proj2 (Z.eqb_neq _ fb)) by lia. split; [lia|done].
  - intros bn H0. rewrite E by lia. by apply Hn.
  - rewrite fin_with. unfold ind_blk, set_addr. cbn. rewrite nth_insert_Z by (rewrite (dk_len _ Hd); lia).
    rewrite decide_True by done. unfold own. rewrite Z.eqb_refl. split; [lia|done].
Qed.

(** Part [nb] becomes the block [fb], in the indirect block. *)
Lemma fmap_entry j V fb W d nb :
  fmap_ok j V fb W d nb true -> 12 <= nb < MAXFILE -> 46 <= fb < 2 ^ 32 -> blk_ok (V (ind_blk (fin d))) ->
  fmap_ok j (vput (ind_blk (fin d)) (put_le 4 (Z.to_nat (4 * (nb - 12))) fb (V (ind_blk (fin d)))) V)
    (fb + 1) (own fb (j, nb) W) d (nb + 1) true.
Proof.
  intros [Hd Hnb Ha Hn [Hi Wi]] Hb Hf Hx. set (V' := vput _ _ V).
  assert (E : forall bn, 0 <= bn < MAXFILE -> file_addr V' (fin d) bn = if bn =? nb then fb else file_addr V (fin d) bn).
  { intros bn H0. rewrite (file_addr_entry V V' (fin d) (nb - 12) fb); [|done|lia|lia|lia|apply vput_same|done].
    by replace (nb - 12 + 12) with nb by lia. }
  split; [done|lia| | |].
  - intros bn H0. rewrite E by lia. unfold own. destruct (Z.eqb_spec bn nb) as [->|]; [rewrite Z.eqb_refl; split; [lia|done]|].
    destruct (Ha bn) as [Hr HW]; [lia|]. rewrite (proj2 (Z.eqb_neq _ fb)) by lia. split; [lia|done].
  - intros bn H0. rewrite E by lia. rewrite (proj2 (Z.eqb_neq _ _)) by lia. apply Hn. lia.
  - unfold own. rewrite (proj2 (Z.eqb_neq _ fb)) by lia. split; [lia|done].
Qed.

(** Blocks of other inodes do not matter, nor do those that are allocated later. *)
Lemma fmap_frame j V V' fb fb' W W' d nb ib :
  fmap_ok j V fb W d nb ib -> fb <= fb' -> (forall b, 46 <= b < fb -> W' b = W b) ->
  (forall b, 46 <= b < fb -> W b = (j, -1) -> V' b = V b) ->
  fmap_ok j V' fb' W' d nb ib /\ (forall bn, 0 <= bn < MAXFILE -> file_addr V' (fin d) bn = file_addr V (fin d) bn).
Proof.
  intros [Hd Hnb Ha Hn Hi] Hf HW HV.
  assert (E : forall bn, 0 <= bn < MAXFILE -> file_addr V' (fin d) bn = file_addr V (fin d) bn).
  { intros bn H0. unfold file_addr. destruct ib.
    - destruct Hi as [Hi Wi]. by rewrite HV.
    - by rewrite Hi. }
  split; [|done]. split; [done|lia| | |].
  - intros bn H0. rewrite E by lia. destruct (Ha bn) as [Hr Hw]; [lia|]. rewrite HW by lia. split; [lia|done].
  - intros bn H0. rewrite E by lia. by apply Hn.
  - destruct ib; [|done]. destruct Hi as [Hi Wi]. rewrite HW by lia. split; [lia|done].
Qed.

(** ** Lemmas: sectors *)

Lemma wp_rsect s V b Q : img_ok s V -> 0 <= b < FSSIZE -> Q (V b) s -> wp (rsect b) Q s.
Proof.
  intros H Hb HQ. unfold rsect. wp_steps. rewrite sect_pos_small by done.
  destruct (io_img _ _ H b Hb) as [-> _]. by apply wp_ret.
Qed.

Lemma wp_wsect s V b x Q :
  img_ok s V -> 32 <= b < mk_freeblock s -> blk_ok x ->
  (forall s', img_ok s' (vput b x V) -> mk_freeblock s' = mk_freeblock s -> mk_freeinode s' = mk_freeinode s -> Q tt s') ->
  wp (wsect b x) Q s.
Proof.
  intros [Hsb Hi Hf Hz Hl Hs] Hb Hx HQ. unfold wsect. apply wp_modify, HQ; [|done..].
  rewrite sect_pos_small by lia. split; cbn [upd_img mk_sb mk_img mk_freeblock]; [done| |done| | |].
  - intros b' Hb'. destruct (decide (b' = b)) as [->|Hn].
    + by rewrite lookup_insert, decide_True, vput_same.
    + rewrite lookup_insert_ne, vput_other by done. by apply Hi.
  - intros b' Hb'. rewrite vput_other by lia. by apply Hz.
  - intros b' Hb'. rewrite vput_other by lia. by apply Hl.
  - rewrite vput_other by lia. done.
Qed.

Lemma wp_take_block s V Q :
  img_ok s V -> mk_freeblock s < FSSIZE ->
  (forall s', img_ok s' V -> mk_freeblock s' = mk_freeblock s + 1 -> mk_freeinode s' = mk_freeinode s ->
     Q (mk_freeblock s) s') ->
  wp take_block Q s.
Proof.
  intros [Hsb Hi Hf Hz Hl Hs] Hb HQ. unfold take_block, FSSIZE in *. wp_steps. rewrite xint_small by lia.
  apply wp_ret, HQ; cbn [upd_freeblock mk_freeblock mk_freeinode]; [|by apply u32_small; lia|done].
  split; cbn [upd_freeblock mk_sb mk_img mk_freeblock]; rewrite ?u32_small by lia; try done; unfold FSSIZE; [lia|].
  intros b H0. apply Hz. lia.
Qed.

(** ** Lemmas: the block of a part *)

(** Inode [j], with the block list of [d], grew to [nb'] parts with the block list
    of [d']: nothing else changed, except that blocks were taken. *)
Record grown (j : Z) (s : mkst) (V : Z -> list Z) (W : Z -> Z * Z) (d : dinode) (nb : Z)
    (s' : mkst) (V' : Z -> list Z) (W' : Z -> Z * Z) (d' : dinode) (nb' : Z) (ib' : bool) : Prop := {
  gr_img : img_ok s' V';
  gr_ino : mk_freeinode s' = mk_freeinode s;
  gr_map : fmap_ok j V' (mk_freeblock s') W' d' nb' ib';
  gr_fb : mk_freeblock s <= mk_freeblock s';
  gr_nb : nb <= nb';
  gr_own b : 46 <= b < mk_freeblock s -> W' b = W b;
  gr_keep b : b < mk_freeblock s -> (46 <= b -> W b <> (j, -1)) -> V' b = V b;
  gr_old bn : 0 <= bn < nb -> file_addr V' (fin d') bn = file_addr V (fin d) bn;
  gr_d : d' = mkDinode (di_type d) (di_major d) (di_minor d) (di_nlink d) (di_size d) (di_addrs d');
}.

Lemma grown_refl j s V W d nb ib :
  img_ok s V -> fmap_ok j V (mk_freeblock s) W d nb ib -> grown j s V W d nb s V W d nb ib.
Proof. intros Hi Hf. split; try done. by destruct d. Qed.

Lemma grown_trans j s V W d nb s1 V1 W1 d1 nb1 ib1 s2 V2 W2 d2 nb2 ib2 :
  grown j s V W d nb s1 V1 W1 d1 nb1 ib1 -> grown j s1 V1 W1 d1 nb1 s2 V2 W2 d2 nb2 ib2 -> 46 <= mk_freeblock s ->
  grown j s V W d nb s2 V2 W2 d2 nb2 ib2.
Proof.
  intros [] [] Hf. split; try done; try lia.
  - intros b Hb. rewrite gr_own1, gr_own0 by lia. done.
  - intros b Hb Hw. rewrite gr_keep1, gr_keep0; [done|lia|done|lia|]. intros H1. rewrite gr_own0 by lia. auto.
  - intros bn Hb. rewrite gr_old1, gr_old0 by lia. done.
  - rewrite gr_d1, gr_d0. done.
Qed.

Lemma own_other b v W x : x <> b -> own b v W x = W x.
Proof. intros H. unfold own. by rewrite (proj2 (Z.eqb_neq _ _)). Qed.

(** din.addrs[bn] of a direct block *)
Lemma alloc_direct_spec j s V W d nb bn Q :
  img_ok s V -> fmap_ok j V (mk_freeblock s) W d nb (12 <? nb) -> 0 <= bn < 12 -> bn <= nb ->
  (bn = nb -> mk_freeblock s < FSSIZE) ->
  (forall s' W' d', grown j s V W d nb s' V W' d' (Z.max nb (bn + 1)) (12 <? Z.max nb (bn + 1)) ->
     mk_freeblock s' = (if bn =? nb then mk_freeblock s + 1 else mk_freeblock s) ->
     (bn = nb -> V (file_addr V (fin d') bn) = replicate 1024 0) -> Q d' s') ->
  wp (alloc_addr (Z.to_nat bn) d) Q s.
Proof.
  intros Hi Hm Hb Hle Hroom HQ. unfold alloc_addr. pose proof (io_fb _ _ Hi) as Hfb. unfold FSSIZE in *.
  assert (Ea : nth (Z.to_nat bn) (di_addrs d) 0 = file_addr V (fin d) bn).
  { unfold file_addr. by rewrite (proj2 (Z.ltb_lt _ _)) by lia. }
  rewrite Ea. destruct (decide (bn = nb)) as [->|Hn].
  - rewrite (fm_none _ _ _ _ _ _ _ Hm) by lia. cbn [xint]. change (xint 0 =? 0) with true. cbv iota.
    apply wp_bind, (wp_take_block s V); [done|by apply Hroom|]. intros s' Hi' Hf' Hn'. apply wp_ret.
    replace (Z.max nb (nb + 1)) with (nb + 1) in HQ by lia. rewrite Z.eqb_refl in HQ.
    rewrite (proj2 (Z.ltb_ge 12 nb)) in Hm by lia. rewrite (proj2 (Z.ltb_ge 12 (nb + 1))) in HQ by lia.
    pose proof (fmap_direct _ _ _ _ _ _ Hm Hb ltac:(lia)) as Hm'.
    assert (E : forall bn, 0 <= bn -> file_addr V (fin (set_din_addr (Z.to_nat nb) (mk_freeblock s) d)) bn =
      if bn =? nb then mk_freeblock s else file_addr V (fin d) bn).
    { intros bn H0. rewrite fin_with, (file_addr_direct V V) by (done || lia || apply Hm). by rewrite Z2Nat.id by lia. }
    apply (HQ _ (own (mk_freeblock s) (j, nb) W)); [|done|].
    + split; try done; try lia; [by rewrite Hf'|intros b H0; apply own_other; lia|].
      intros bn H0. rewrite E by lia. by rewrite (proj2 (Z.eqb_neq _ _)) by lia.
    + intros _. rewrite E, Z.eqb_refl by lia. apply (io_free _ _ Hi). unfold FSSIZE. lia.
  - destruct (fm_addr _ _ _ _ _ _ _ Hm bn) as [Hr _]; [lia|]. rewrite xint_small by lia.
    rewrite (proj2 (Z.eqb_neq _ 0)) by lia. apply wp_ret.
    replace (Z.max nb (bn + 1)) with nb in HQ by lia. rewrite (proj2 (Z.eqb_neq bn nb)) in HQ by done.
    eapply HQ; [by apply grown_refl|done|done].
Qed.

(** din.addrs[NDIRECT] *)
Lemma alloc_ind_spec j s V W d nb bn Q :
  img_ok s V -> fmap_ok j V (mk_freeblock s) W d nb (12 <? nb) -> 12 <= bn <= nb ->
  (bn = nb -> bn = 12 -> mk_freeblock s < FSSIZE) ->
  (forall s' W' d', grown j s V W d nb s' V W' d' nb true ->
     mk_freeblock s' = (if nb =? 12 then mk_freeblock s + 1 else mk_freeblock s) -> Q d' s') ->
  wp (alloc_addr 12 d) Q s.
Proof.
  intros Hi Hm Hb Hroom HQ. unfold alloc_addr. pose proof (io_fb _ _ Hi) as Hfb. unfold FSSIZE in *.
  change (nth 12 (di_addrs d) 0) with (ind_blk (fin d)). destruct (Z.eqb_spec nb 12) as [->|Hn].
  - change (12 <? 12) with false in Hm. rewrite (fm_ind _ _ _ _ _ _ _ Hm). change (xint 0 =? 0) with true. cbv iota.
    apply wp_bind, (wp_take_block s V); [done|apply Hroom; lia|]. intros s' Hi' Hf' Hn'. apply wp_ret.
    assert (Hz : V (mk_freeblock s) = replicate 1024 0) by (apply (io_free _ _ Hi); unfold FSSIZE; lia).
    pose proof (fmap_ind _ _ _ _ _ _ Hm ltac:(lia) Hz) as Hm'.
    apply (HQ _ (own (mk_freeblock s) (j, -1) W)); [|done].
    split; try done; try lia; [by rewrite Hf'|intros b H0; apply own_other; lia|].
    intros bn' H0. rewrite fin_with. apply file_addr_ind; [apply Hm|apply Hm|done|lia].
  - rewrite (proj2 (Z.ltb_lt 12 nb)) in Hm by lia. destruct (fm_ind _ _ _ _ _ _ _ Hm) as [Hr _].
    rewrite xint_small by lia. rewrite (proj2 (Z.eqb_neq _ 0)) by lia. apply wp_ret.
    eapply HQ; [by apply grown_refl|done].
Qed.

(** An entry of the indirect block *)
Lemma iappend_entry_spec j s V W d nb bn Q :
  img_ok s V -> fmap_ok j V (mk_freeblock s) W d nb true -> 12 <= bn < MAXFILE -> bn <= nb ->
  (bn = nb -> mk_freeblock s < FSSIZE) ->
  (forall s' V' W', grown j s V W d nb s' V' W' d (Z.max nb (bn + 1)) true ->
     mk_freeblock s' = (if bn =? nb then mk_freeblock s + 1 else mk_freeblock s) ->
     (bn = nb -> V' (file_addr V' (fin d) bn) = replicate 1024 0) -> Q (file_addr V' (fin d) bn) s') ->
  wp (iappend_entry (ind_blk (fin d)) (bn - 12)) Q s.
Proof.
  intros Hi Hm Hb Hle Hroom HQ. unfold iappend_entry. pose proof (io_fb _ _ Hi) as Hfb. unfold FSSIZE in *.
  destruct (fm_ind _ _ _ _ _ _ _ Hm) as [Hind Wind].
  assert (Hx : blk_ok (V (ind_blk (fin d)))) by (apply (io_img _ _ Hi); unfold FSSIZE; lia).
  assert (Ea : forall V, file_addr V (fin d) bn = ind_get (V (ind_blk (fin d))) (bn - 12)).
  { intros V'. unfold file_addr. rewrite (proj2 (Z.ltb_ge _ _)), (proj2 (Z.eqb_neq _ 0)) by lia. done. }
  apply wp_bind, (wp_rsect s V); [done|unfold FSSIZE; lia|]. rewrite <- Ea. apply wp_bind.
  destruct (decide (bn = nb)) as [->|Hn].
  - rewrite (fm_none _ _ _ _ _ _ _ Hm) by lia. cbn [Z.eqb].
    apply wp_bind, (wp_take_block s V); [done|by apply Hroom|]. intros s1 Hi1 Hf1 Hn1.
    apply wp_bind, (wp_wsect s1 V); [done|lia|split; [rewrite length_put_le by (rewrite (proj1 Hx); lia); apply Hx|apply put_le_bytes, Hx]|].
    intros s2 Hi2 Hf2 Hn2. apply wp_ret. cbv zeta. apply wp_ret.
    replace (Z.max nb (nb + 1)) with (nb + 1) in HQ by lia. rewrite Z.eqb_refl in HQ.
    pose proof (fmap_entry _ _ _ _ _ _ Hm Hb ltac:(lia) Hx) as Hm'.
    assert (Er : ind_get (put_le 4 (Z.to_nat (4 * (nb - 12))) (mk_freeblock s) (V (ind_blk (fin d)))) (nb - 12) = mk_freeblock s).
    { rewrite ind_get_put by (done || lia). by rewrite Z.eqb_refl. }
    revert Hi2 Hm'. set (V' := vput _ _ V). intros Hi2 Hm'.
    assert (Er' : file_addr V' (fin d) nb = mk_freeblock s) by (rewrite Ea; unfold V'; by rewrite vput_same).
    rewrite Er, xint_small, <- Er' by lia. apply (HQ _ V' (own (mk_freeblock s) (j, nb) W)); [|lia|].
    + split; try done; try lia; [by rewrite Hf2, Hf1|intros b H0; apply own_other; lia| | |].
      * intros b H0 Hw. apply vput_other. intros ->. by apply Hw; [lia|].
      * intros bn H0. rewrite (file_addr_entry V V' (fin d) (nb - 12) (mk_freeblock s)); [|done|lia|lia|lia|apply vput_same|lia].
        by rewrite (proj2 (Z.eqb_neq _ _)) by lia.
      * by destruct d.
    + intros _. rewrite Er'. unfold V'. rewrite vput_other by lia. apply (io_free _ _ Hi). unfold FSSIZE. lia.
  - destruct (fm_addr _ _ _ _ _ _ _ Hm bn) as [Hr _]; [lia|].
    rewrite (proj2 (Z.eqb_neq _ 0)) by lia. apply wp_ret, wp_ret. rewrite <- Ea, xint_small by lia.
    replace (Z.max nb (bn + 1)) with nb in HQ by lia. rewrite (proj2 (Z.eqb_neq bn nb)) in HQ by done.
    eapply HQ; [by apply grown_refl|done|done].
Qed.

(** The blocks that part [bn] takes when [nb] parts are there. *)
Definition extra (bn nb : Z) : Z := if bn =? nb then (if bn =? 12 then 2 else 1) else 0.

Lemma iappend_block_spec j s V W d nb bn Q :
  img_ok s V -> fmap_ok j V (mk_freeblock s) W d nb (12 <? nb) -> 0 <= bn < MAXFILE -> bn <= nb ->
  mk_freeblock s + extra bn nb <= FSSIZE ->
  (forall s' V' W' d', grown j s V W d nb s' V' W' d' (Z.max nb (bn + 1)) (12 <? Z.max nb (bn + 1)) ->
     mk_freeblock s' = mk_freeblock s + extra bn nb ->
     (bn = nb -> V' (file_addr V' (fin d') bn) = replicate 1024 0) -> Q (d', file_addr V' (fin d') bn) s') ->
  wp (iappend_block d bn) Q s.
Proof.
  intros Hi Hm Hb Hle Hroom HQ. unfold iappend_block, extra in *. pose proof (io_fb _ _ Hi) as Hfb. unfold FSSIZE in *.
  destruct (Z.ltb_spec bn 12).
  - apply wp_bind, (alloc_direct_spec j s V W d nb); [done..|lia|done| |].
    { intros ->. rewrite Z.eqb_refl, (proj2 (Z.eqb_neq _ 12)) in Hroom by lia. unfold FSSIZE. lia. }
    intros s' W' d' Hg Hf Hz. apply wp_ret.
    assert (Ea : nth (Z.to_nat bn) (di_addrs d') 0 = file_addr V (fin d') bn).
    { unfold file_addr. by rewrite (proj2 (Z.ltb_lt _ _)) by lia. }
    destruct (fm_addr _ _ _ _ _ _ _ (gr_map _ _ _ _ _ _ _ _ _ _ _ _ Hg) bn) as [Hr _]; [lia|].
    pose proof (io_fb _ _ (gr_img _ _ _ _ _ _ _ _ _ _ _ _ Hg)) as Hfb'. unfold FSSIZE in Hfb'.
    rewrite Ea, xint_small by lia. eapply HQ; [done| |done]. rewrite Hf.
    rewrite (proj2 (Z.eqb_neq bn 12)) by lia. by destruct (bn =? nb); lia.
  - apply wp_bind, (alloc_ind_spec j s V W d nb bn); [done..|lia| |].
    { intros -> ->. cbn in Hroom. unfold FSSIZE. lia. }
    intros s1 W1 d1 Hg1 Hf1. pose proof (gr_map _ _ _ _ _ _ _ _ _ _ _ _ Hg1) as Hm1.
    pose proof (io_fb _ _ (gr_img _ _ _ _ _ _ _ _ _ _ _ _ Hg1)) as Hfb1. unfold FSSIZE in Hfb1.
    destruct (fm_ind _ _ _ _ _ _ _ Hm1) as [Hr1 _].
    change (nth 12 (di_addrs d1) 0) with (ind_blk (fin d1)). rewrite xint_small by lia.
    apply wp_bind, (iappend_entry_spec j s1 V W1 d1 nb); [apply Hg1|done|lia|lia| |].
    { intros ->. rewrite Z.eqb_refl in Hroom. unfold FSSIZE. destruct (nb =? 12); lia. }
    intros s2 V2 W2 Hg2 Hf2 Hz. apply wp_ret.
    eapply (HQ s2 V2 W2 d1); [|rewrite Hf2, Hf1|done].
    + rewrite (proj2 (Z.ltb_lt 12 _)) by lia. eapply grown_trans; [done..|lia].
    + destruct (Z.eqb_spec bn nb) as [->|]; [destruct (nb =? 12); lia|].
      rewrite (proj2 (Z.eqb_neq nb 12)) by lia. lia.
Qed.

(** ** Lemmas: appending *)

Lemma nparts_app c k :
  k <> [] -> Z.of_nat (length k) <= 1024 - Z.of_nat (length c) mod 1024 ->
  nparts (c ++ k) = Z.max (nparts c) (Z.of_nat (length c) / 1024 + 1).
Proof.
  intros Hk Hl. unfold nparts. rewrite length_app. destruct k; [done|]. cbn [length] in *. zdm.
Qed.

Lemma cost_app c k :
  k <> [] -> Z.of_nat (length k) <= 1024 - Z.of_nat (length c) mod 1024 ->
  cost (c ++ k) = cost c + extra (Z.of_nat (length c) / 1024) (nparts c).
Proof.
  intros Hk Hl. unfold cost, extra. rewrite nparts_app by done.
  assert (H : Z.of_nat (length c) / 1024 = nparts c \/ Z.of_nat (length c) / 1024 + 1 = nparts c) by (unfold nparts; zdm).
  set (b := Z.of_nat (length c) / 1024) in *. destruct H as [->|H].
  - rewrite Z.eqb_refl, Z.max_r by lia. destruct (Z.ltb_spec 12 (nparts c)), (Z.ltb_spec 12 (nparts c + 1)), (Z.eqb_spec (nparts c) 12); lia.
  - rewrite Z.max_l, (proj2 (Z.eqb_neq b _)) by lia. lia.
Qed.

Lemma nth_app_Z (c k : list Z) q :
  nth q (c ++ k) 0 = if (q <? length c)%nat then nth q c 0 else nth (q - length c) k 0.
Proof. destruct (Nat.ltb_spec q (length c)); [by apply app_nth1|by apply app_nth2]. Qed.

Lemma nth_splice_Z (x k : list Z) o q :
  (o + length k <= length x)%nat ->
  nth q (splice x o k) 0 = if ((o <=? q) && (q <? o + length k))%nat then nth (q - o) k 0 else nth q x 0.
Proof.
  intros Ho. rewrite !nth_lookup. destruct (decide (o <= q < o + length k)%nat) as [H|H].
  - rewrite lookup_splice_in by done. by rewrite (proj2 (Nat.leb_le _ _)), (proj2 (Nat.ltb_lt _ _)) by lia.
  - rewrite lookup_splice_out by done. destruct (Nat.leb_spec o q), (Nat.ltb_spec q (o + length k)); try done. lia.
Qed.

Lemma nth_zeroes q : nth q (replicate 1024 0) 0 = 0.
Proof. rewrite nth_lookup. destruct (replicate _ _ !! q) eqn:E; [|done]. by apply lookup_replicate in E as [-> _]. Qed.

(** The pieces [k] go behind the contents [c]. *)
Lemma bytes_append j s V W d s' V' W' d' c k bn :
  grown j s V W d (nparts c) s' V' W' d' (Z.max (nparts c) (bn + 1)) (12 <? Z.max (nparts c) (bn + 1)) ->
  file_rep j V (mk_freeblock s) W d c -> bn = Z.of_nat (length c) / 1024 ->
  (bn = nparts c -> V' (file_addr V' (fin d') bn) = replicate 1024 0) -> blk_ok (V' (file_addr V' (fin d') bn)) ->
  k <> [] -> Z.of_nat (length k) <= 1024 - Z.of_nat (length c) mod 1024 ->
  file_rep j (vput (file_addr V' (fin d') bn)
    (splice (V' (file_addr V' (fin d') bn)) (Z.to_nat (Z.of_nat (length c) mod 1024)) k) V')
    (mk_freeblock s') W' d' (c ++ k).
Proof.
  intros Hg [Hm Hc] Hbn Hz Hx Hk Hl. set (L := Z.of_nat (length c)) in *. pose proof (gr_map _ _ _ _ _ _ _ _ _ _ _ _ Hg) as Hm'.
  assert (Hb : nparts c = bn \/ nparts c = bn + 1) by (unfold nparts; fold L; zdm).
  destruct (fm_addr _ _ _ _ _ _ _ Hm' bn) as [Hr Hw]; [unfold L in *; zdm|].
  set (x := file_addr V' (fin d') bn) in *. set (V2 := vput x _ V').
  assert (Hnx : forall b, b <> x -> V2 b = V' b) by (intros; by apply vput_other).
  destruct (fmap_frame j V' V2 _ (mk_freeblock s') W' W' d' _ _ Hm' ltac:(lia) ltac:(done)) as [Hm2 Ea].
  { intros b H0 H1. apply Hnx. intros ->. rewrite Hw in H1. injection H1. unfold L in *. zdm. }
  split; [rewrite nparts_app by done; fold L; rewrite <- Hbn; exact Hm2|]. intros p Hp. rewrite nparts_app in Hp by done. fold L in Hp. rewrite <- Hbn in Hp.
  pose proof (fm_nb _ _ _ _ _ _ _ Hm') as Hnb. unfold file_byte. rewrite Ea by zdm.
  destruct (fm_addr _ _ _ _ _ _ _ Hm' (p / 1024)) as [Hr2 Hw2]; [zdm|]. rewrite (proj2 (Z.eqb_neq _ 0)) by lia.
  assert (Hold : p / 1024 < nparts c -> nth (Z.to_nat (p mod 1024)) (V' (file_addr V' (fin d') (p / 1024))) 0 = nth (Z.to_nat p) c 0).
  { intros H1. rewrite <- Hc by zdm. unfold file_byte. rewrite (gr_old _ _ _ _ _ _ _ _ _ _ _ _ Hg) by zdm.
    destruct (fm_addr _ _ _ _ _ _ _ Hm (p / 1024)) as [Hr3 Hw3]; [zdm|]. rewrite (proj2 (Z.eqb_neq _ 0)) by lia.
    rewrite (gr_keep _ _ _ _ _ _ _ _ _ _ _ _ Hg); [done|lia|]. intros _. rewrite Hw3. intros [= H2]. zdm. }
  rewrite nth_app_Z. destruct (decide (p / 1024 = bn)) as [E|Hn].
  - rewrite E. fold x. unfold V2. rewrite vput_same, nth_splice_Z by (rewrite (proj1 Hx); unfold L in *; zdm).
    destruct (Nat.leb_spec (Z.to_nat (L mod 1024)) (Z.to_nat (p mod 1024))), (Nat.ltb_spec (Z.to_nat (p mod 1024)) (Z.to_nat (L mod 1024) + length k)),
      (Nat.ltb_spec (Z.to_nat p) (length c)); cbn [andb]; try (unfold L in *; zdm).
    + f_equal. unfold L in *; zdm.
    + rewrite (nth_overflow k) by (unfold L in *; zdm). destruct Hb as [Hb|Hb].
      * rewrite Hz by done. apply nth_zeroes.
      * unfold x. rewrite <- E, Hold by lia. apply nth_overflow. lia.
    + destruct Hb as [Hb|Hb]; [unfold nparts, L in *; zdm|]. unfold x. rewrite <- E, Hold by lia. done.
  - rewrite Hnx by (intros E; unfold x in *; rewrite E in Hw2; congruence).
    assert (p / 1024 < bn) by (destruct Hb as [Hb|Hb]; rewrite Hb in Hp; zdm). rewrite Hold by lia.
    destruct (Nat.ltb_spec (Z.to_nat p) (length c)); [done|]. subst L. zdm.
Qed.

Lemma cost_mono c k : cost c <= cost (c ++ k).
Proof.
  assert (H : nparts c <= nparts (c ++ k)) by (unfold nparts; rewrite length_app; zdm).
  unfold cost. destruct (Z.ltb_spec 12 (nparts c)), (Z.ltb_spec 12 (nparts (c ++ k))); lia.
Qed.

Lemma nparts_max c : Z.of_nat (length c) <= MAXFILE * BSIZE -> nparts c <= MAXFILE.
Proof. unfold nparts. intros. zdm. Qed.

(** Only blocks of inode [j] were written, apart from new ones. *)
Record app_step (j : Z) (s : mkst) (V : Z -> list Z) (W : Z -> Z * Z) (s' : mkst) (V' : Z -> list Z) (W' : Z -> Z * Z) : Prop := {
  as_img : img_ok s' V';
  as_ino : mk_freeinode s' = mk_freeinode s;
  as_fb : mk_freeblock s <= mk_freeblock s';
  as_own b : 46 <= b < mk_freeblock s -> W' b = W b;
  as_keep b : b < mk_freeblock s -> (46 <= b -> (W b).1 <> j) -> V' b = V b;
}.

Lemma app_step_trans j s V W s1 V1 W1 s2 V2 W2 :
  app_step j s V W s1 V1 W1 -> app_step j s1 V1 W1 s2 V2 W2 -> app_step j s V W s2 V2 W2.
Proof.
  intros [] []. split; [done|congruence|lia| |].
  - intros b Hb. rewrite as_own1, as_own0 by lia. done.
  - intros b Hb Hw. rewrite as_keep1, as_keep0; [done|lia|done|lia|]. intros H1. rewrite as_own0 by lia. auto.
Qed.

Definition same_but_addrs (d d' : dinode) : Prop :=
  d' = mkDinode (di_type d) (di_major d) (di_minor d) (di_nlink d) (di_size d) (di_addrs d').

Lemma wp_assert (b : bool) (Q : unit -> mkst -> Prop) s : b = true -> Q tt s -> wp (assert_ b) Q s.
Proof. intros ->. unfold assert_. apply wp_ret. Qed.

Lemma iappend_body_spec j s V W d c p Q :
  img_ok s V -> file_rep j V (mk_freeblock s) W d c -> p <> [] -> Forall byte_ok p ->
  Z.of_nat (length (c ++ p)) <= MAXFILE * BSIZE -> mk_freeblock s - cost c + cost (c ++ p) <= FSSIZE ->
  (forall s' V' W' d' k p', p = k ++ p' -> k <> [] -> app_step j s V W s' V' W' ->
     file_rep j V' (mk_freeblock s') W' d' (c ++ k) -> mk_freeblock s' = mk_freeblock s - cost c + cost (c ++ k) ->
     same_but_addrs d d' -> Q (inl (d', Z.of_nat (length (c ++ k)), p')) s') ->
  wp (iappend_body (d, Z.of_nat (length c), p)) Q s.
Proof.
  intros Hi Hf Hp Hbp Hmax Hroom HQ. unfold iappend_body. rewrite length_app in Hmax.
  assert (Hlp : (0 < length p)%nat) by (destruct p; [done|cbn; lia]). rewrite (proj2 (Nat.ltb_lt _ _)) by done.
  set (L := Z.of_nat (length c)) in *. set (bn := L / 1024).
  assert (Hbn : 0 <= bn < 268) by (unfold bn; subst L; zdm).
  apply wp_bind, wp_assert; [apply Z.ltb_lt; lia|].
  rewrite (u32_small ((bn + 1) * 1024 - L)) by (unfold bn; subst L; zdm). replace ((bn + 1) * 1024 - L) with (1024 - L mod 1024) by (unfold bn; zdm).
  replace (L - bn * 1024) with (L mod 1024) by (unfold bn; zdm).
  set (n1 := Z.min (Z.of_nat (length p)) (1024 - L mod 1024)). set (k := take (Z.to_nat n1) p).
  assert (Hn1 : 0 < n1 <= Z.of_nat (length p)) by (unfold n1; subst L; zdm).
  assert (Hk : Z.of_nat (length k) = n1) by (unfold k; rewrite length_take; lia).
  assert (Hkn : k <> []) by (intros E; rewrite E in Hk; cbn in Hk; lia).
  assert (Hl : Z.of_nat (length k) <= 1024 - Z.of_nat (length c) mod 1024) by (fold L; unfold n1 in Hk; lia).
  assert (Hpk : p = k ++ drop (Z.to_nat n1) p) by (unfold k; by rewrite take_drop).
  assert (Hex : mk_freeblock s + extra bn (nparts c) = mk_freeblock s - cost c + cost (c ++ k)) by (rewrite cost_app by done; fold L bn; lia).
  apply wp_bind, (iappend_block_spec j s V W d (nparts c)); [done|apply Hf|done|unfold nparts; fold L; unfold bn; zdm| |].
  { rewrite Hex. etrans; [|exact Hroom]. rewrite Hpk, app_assoc. pose proof (cost_mono (c ++ k) (drop (Z.to_nat n1) p)). lia. }
  intros s1 V1 W1 d1 Hg Hf1 Hz. pose proof (gr_map _ _ _ _ _ _ _ _ _ _ _ _ Hg) as Hm1. pose proof (gr_img _ _ _ _ _ _ _ _ _ _ _ _ Hg) as Hi1.
  destruct (fm_addr _ _ _ _ _ _ _ Hm1 bn) as [Hx Hw]; [lia|]. pose proof (io_fb _ _ Hi1) as Hfb1.
  destruct (io_img _ _ Hi1 (file_addr V1 (fin d1) bn)) as [_ Hok]; [lia|].
  apply wp_bind, (wp_rsect s1 V1); [done|lia|].
  apply wp_bind, (wp_wsect s1 V1); [done|lia| |].
  { split; [rewrite length_splice; [apply Hok|rewrite (proj1 Hok); subst L; zdm]|].
    apply Forall_splice; [apply Hok|]. by apply Forall_take. }
  intros s2 Hi2 Hf2 Hn2. apply wp_ret. rewrite u32_small by lia.
  replace (L + n1) with (Z.of_nat (length (c ++ k))) by (rewrite length_app; subst L; lia).
  eapply HQ; [done|done| | |by rewrite Hf2, Hf1|apply Hg].
  - split; [exact Hi2|by rewrite Hn2; apply Hg|rewrite Hf2; apply Hg|apply Hg|].
    intros b Hb HWb. destruct (decide (b = file_addr V1 (fin d1) bn)) as [->|Hne].
    + exfalso. apply HWb; [lia|]. rewrite <- (gr_own _ _ _ _ _ _ _ _ _ _ _ _ Hg) by lia. by rewrite Hw.
    + rewrite vput_other by done. apply (gr_keep _ _ _ _ _ _ _ _ _ _ _ _ Hg); [done|].
      intros H1 H2. apply HWb; [done|]. by rewrite H2.
  - rewrite Hf2. by eapply bytes_append.
Qed.

(** ** Lemmas: inodes *)

Lemma wp_rinode s V i Q : img_ok s V -> 0 <= i < 200 -> Q (dinode_at mkfs_sb V i) s -> wp (rinode i) Q s.
Proof.
  intros Hi Hr HQ. unfold rinode. wp_steps. rewrite (io_sb _ _ Hi).
  apply wp_bind, (wp_rsect s V); [done|rewrite mkfs_IBLOCK by done; unfold FSSIZE; zdm|]. by apply wp_ret.
Qed.

Lemma wp_winode s V i d Q :
  img_ok s V -> 0 <= i < 200 -> dinode_ok d ->
  (forall s', img_ok s' (put_dinode mkfs_sb i d V) -> mk_freeblock s' = mk_freeblock s ->
     mk_freeinode s' = mk_freeinode s -> Q tt s') ->
  wp (winode i d) Q s.
Proof.
  intros Hi Hr Hd HQ. unfold winode. wp_steps. rewrite (io_sb _ _ Hi). pose proof (io_fb _ _ Hi).
  pose proof (mkfs_IBLOCK i Hr) as EI. destruct (io_img _ _ Hi (IBLOCK i mkfs_sb)) as [_ Hok]; [unfold FSSIZE; zdm|].
  apply wp_bind, (wp_rsect s V); [done|unfold FSSIZE; zdm|].
  apply (wp_wsect s V); [done|zdm| |done]. pose proof (dinode_off_le i) as Ho. pose proof (length_dinode_enc d (dk_len _ Hd)) as Hl.
  split; [rewrite length_splice; [apply Hok|rewrite (proj1 Hok); lia]|]. apply Forall_splice; [apply Hok|apply dinode_enc_bytes].
Qed.

(** What an inode says of a file with contents [c]. *)
Definition dinode_is (t : Z) (c : list Z) (d : dinode) : Prop :=
  d = mkDinode t 0 0 1 (Z.of_nat (length c)) (di_addrs d).

Definition ino_type (i : Z) : Z := if i =? ROOTINO then T_DIR else T_FILE.

Definition ino_rep (V : Z -> list Z) (fb : Z) (W : Z -> Z * Z) (i : Z) (c : list Z) : Prop :=
  file_rep i V fb W (dinode_at mkfs_sb V i) c /\ dinode_is (ino_type i) c (dinode_at mkfs_sb V i).

(** Inodes 1, 2, ... have the contents [cs]. *)
Record mk_inv (s : mkst) (V : Z -> list Z) (W : Z -> Z * Z) (cs : list (list Z)) : Prop := {
  mi_img : img_ok s V;
  mi_ino : mk_freeinode s = Z.of_nat (length cs) + 1;
  mi_max : (length cs < 200)%nat;
  mi_fb : mk_freeblock s = 46 + costs cs;
  mi_rep k c : cs !! k = Some c -> ino_rep V (mk_freeblock s) W (Z.of_nat k + 1) c;
}.

Lemma file_rep_frame k V V' fb fb' W W' d c :
  file_rep k V fb W d c -> fb <= fb' -> (forall b, 46 <= b < fb -> W' b = W b) ->
  (forall b, 46 <= b < fb -> (W b).1 = k -> V' b = V b) -> file_rep k V' fb' W' d c.
Proof.
  intros [Hm Hc] Hf HW HV. destruct (fmap_frame k V V' fb fb' W W' d _ _ Hm Hf HW) as [Hm' E].
  { intros b Hb Hw. apply HV; [done|by rewrite Hw]. }
  split; [done|]. intros p Hp. rewrite <- Hc by done. pose proof (fm_nb _ _ _ _ _ _ _ Hm). unfold file_byte.
  rewrite E by zdm. destruct (fm_addr _ _ _ _ _ _ _ Hm (p / 1024)) as [Hr Hw]; [zdm|]. rewrite HV; [done|done|by rewrite Hw].
Qed.

Lemma dinode_at_low V V' i :
  0 <= i < 200 -> (forall b, 32 <= b < 45 -> V' b = V b) -> dinode_at mkfs_sb V' i = dinode_at mkfs_sb V i.
Proof. intros Hi HV. unfold dinode_at. rewrite mkfs_IBLOCK, HV by zdm. done. Qed.

(** Another inode was appended to. *)
Lemma ino_rep_step j s V W s' V' W' i c :
  app_step j s V W s' V' W' -> 46 <= mk_freeblock s -> i <> j -> 0 <= i < 200 ->
  ino_rep V (mk_freeblock s) W i c -> ino_rep V' (mk_freeblock s') W' i c.
Proof.
  intros Hs Hfb Hj Hi [Hr Hd]. unfold ino_rep. rewrite (dinode_at_low V V') by (done || intros b Hb; apply (as_keep _ _ _ _ _ _ _ Hs); lia).
  split; [|done]. eapply file_rep_frame; [done|apply Hs|apply Hs|]. intros b Hb Hw. apply (as_keep _ _ _ _ _ _ _ Hs); [lia|congruence].
Qed.

(** An inode was written. *)
Lemma ino_rep_put V fb W i d j c :
  0 <= i < 200 -> 0 <= j < 200 -> dinode_ok d -> blk_ok (V (IBLOCK i mkfs_sb)) ->
  (if j =? i then file_rep i V fb W d c /\ dinode_is (ino_type i) c d else ino_rep V fb W j c) ->
  ino_rep (put_dinode mkfs_sb i d V) fb W j c.
Proof.
  intros Hi Hj Hd Hx H. unfold ino_rep. rewrite (dinode_at_put mkfs_sb 2 i j d V mkfs_inodes) by done.
  assert (Hf : forall k e, file_rep k V fb W e c -> file_rep k (put_dinode mkfs_sb i d V) fb W e c).
  { intros k e Hr. eapply file_rep_frame; [done|lia|done|]. intros b Hb _. apply vput_other. rewrite mkfs_IBLOCK by done. zdm. }
  destruct (Z.eqb_spec j i) as [->|Hn]; destruct H as [Hr Ht]; (split; [by apply Hf|done]).
Qed.

(** ** Lemmas: iappend() *)

Lemma iappend_loop j s V W d c p :
  img_ok s V -> file_rep j V (mk_freeblock s) W d c -> Forall byte_ok p ->
  Z.of_nat (length (c ++ p)) <= MAXFILE * BSIZE -> mk_freeblock s - cost c + cost (c ++ p) <= FSSIZE ->
  wp (loop (S (length p)) iappend_body (d, Z.of_nat (length c), p)) (fun r s' => exists V' W',
    app_step j s V W s' V' W' /\ file_rep j V' (mk_freeblock s') W' r.1 (c ++ p) /\
    mk_freeblock s' = mk_freeblock s - cost c + cost (c ++ p) /\ same_but_addrs d r.1 /\
    r.2 = Z.of_nat (length (c ++ p))) s.
Proof.
  intros Hi Hf Hb Hmax Hroom.
  apply (wp_loop (fun a s1 => let '(d1, off, p1) := a in exists V1 W1 c1, app_step j s V W s1 V1 W1 /\
    file_rep j V1 (mk_freeblock s1) W1 d1 c1 /\ c1 ++ p1 = c ++ p /\ Forall byte_ok p1 /\ off = Z.of_nat (length c1) /\
    mk_freeblock s1 = mk_freeblock s - cost c + cost c1 /\ same_but_addrs d d1) (fun a => length a.2)); [|  |cbn; lia].
  - intros [[d1 off] p1] s1 (V1 & W1 & c1 & Hs1 & Hf1 & Hc1 & Hb1 & -> & Hfb1 & Hd1).
    destruct (decide (p1 = [])) as [->|Hp1].
    + apply wp_ret. rewrite app_nil_r in Hc1. subst c1. exists V1, W1. done.
    + apply (iappend_body_spec j s1 V1 W1 d1 c1 p1); [apply Hs1|done..|by rewrite Hc1|rewrite Hc1; lia|].
      intros s2 V2 W2 d2 k p2 -> Hk Hs2 Hf2 Hfb2 Hd2. split; [|cbn; rewrite length_app; destruct k; [done|cbn; lia]].
      exists V2, W2, (c1 ++ k). split; [by eapply app_step_trans|]. split; [done|]. split; [by rewrite <- app_assoc|].
      apply Forall_app in Hb1 as [_ Hb1]. split; [done|]. split; [done|]. split; [lia|]. unfold same_but_addrs in *. rewrite Hd2, Hd1. done.
  - exists V, W, c. split; [by split|]. repeat (split; [done || lia|]). unfold same_but_addrs. by destruct d.
Qed.

Lemma cost_nonneg c : 0 <= cost c.
Proof. unfold cost, nparts. destruct (12 <? _); zdm. Qed.

Lemma costs_insert cs k c c' : cs !! k = Some c -> costs (<[k := c']> cs) = costs cs - cost c + cost c'.
Proof.
  revert k. induction cs as [|x cs IH]; intros [|k]; [done..| |].
  - intros [= ->]. cbn. lia.
  - intros H. change (cost x + costs (<[k := c']> cs) = cost x + costs cs - cost c + cost c'). rewrite (IH k H). lia.
Qed.

Lemma costs_app cs cs' : costs (cs ++ cs') = costs cs + costs cs'.
Proof. induction cs as [|x cs IH]; [done|].
  change (cost x + costs (cs ++ cs') = cost x + costs cs + costs cs'). rewrite IH. lia. Qed.

Lemma dinode_ok_is t (c : list Z) d :
  dinode_ok d -> 0 <= t < 2 ^ 15 -> Z.of_nat (length c) < 2 ^ 32 ->
  dinode_ok (mkDinode t 0 0 1 (Z.of_nat (length c)) (di_addrs d)).
Proof. intros [] Ht Hc. split; cbn; try done; lia. Qed.

Lemma ino_type_range i : 0 <= ino_type i < 2 ^ 15.
Proof. unfold ino_type. by destruct (i =? 1). Qed.

(** The block list is all that counts. *)
Lemma file_rep_addrs j V fb W d d' c :
  file_rep j V fb W d c -> dinode_ok d' -> di_addrs d' = di_addrs d -> file_rep j V fb W d' c.
Proof.
  intros [[Hd Hnb Ha Hn Hi] Hc] Hd' E.
  assert (EA : forall bn, file_addr V (fin d') bn = file_addr V (fin d) bn)
    by (intros bn; unfold file_addr, ind_blk; cbn; by rewrite E).
  assert (EI : ind_blk (fin d') = ind_blk (fin d)) by (unfold ind_blk; cbn; by rewrite E).
  split; [split; [done|done| | |by rewrite EI]|].
  - intros bn. rewrite EA. apply Ha.
  - intros bn. rewrite EA. apply Hn.
  - intros p Hp. unfold file_byte. rewrite EA. by apply Hc.
Qed.

Lemma iappend_spec s V W cs k c p Q :
  mk_inv s V W cs -> cs !! k = Some c -> Forall byte_ok p ->
  Z.of_nat (length (c ++ p)) <= MAXFILE * BSIZE -> 46 + costs (<[k := c ++ p]> cs) <= FSSIZE ->
  (forall s' V' W', mk_inv s' V' W' (<[k := c ++ p]> cs) -> Q tt s') ->
  wp (iappend (Z.of_nat k + 1) p) Q s.
Proof.
  intros [Hi Hn Hm Hfb Hr] Hk Hp Hmax Hroom HQ. pose proof (lookup_lt_Some _ _ _ Hk) as Hlt. unfold iappend.
  rewrite (costs_insert _ _ _ _ Hk) in Hroom. destruct (Hr k c Hk) as [Hf Hd].
  apply wp_bind, (wp_rinode s V); [done|lia|]. revert Hf Hd. set (d := dinode_at mkfs_sb V _). intros Hf Hd.
  assert (Hc : Z.of_nat (length c) <= 268 * 1024) by (rewrite length_app in Hmax; lia).
  assert (Esz : xint (di_size d) = Z.of_nat (length c)) by (rewrite Hd; cbn [di_size]; apply xint_small; lia).
  rewrite Esz. apply wp_bind. eapply wp_mono; [apply (iappend_loop (Z.of_nat k + 1) s V W d c p); [done..|lia]|].
  intros [d1 off] s1 (V1 & W1 & Hs1 & Hf1 & Hfb1 & Hd1 & E). cbn in Hf1, Hd1, E. subst off. cbn [fst snd].
  unfold set_size. rewrite xint_small by lia.
  assert (E1 : mkDinode (di_type d1) (di_major d1) (di_minor d1) (di_nlink d1) (Z.of_nat (length (c ++ p))) (di_addrs d1) =
    mkDinode (ino_type (Z.of_nat k + 1)) 0 0 1 (Z.of_nat (length (c ++ p))) (di_addrs d1)) by (rewrite Hd1, Hd; done).
  rewrite E1. assert (Hok : dinode_ok (mkDinode (ino_type (Z.of_nat k + 1)) 0 0 1 (Z.of_nat (length (c ++ p))) (di_addrs d1))).
  { apply dinode_ok_is; [apply Hf1|apply ino_type_range|lia]. }
  apply (wp_winode s1 V1); [apply Hs1|lia|done|]. intros s2 Hi2 Hfb2 Hn2. eapply (HQ s2 _ W1). split; [done| | | |].
  - rewrite Hn2, (as_ino _ _ _ _ _ _ _ Hs1), length_insert. done.
  - by rewrite length_insert.
  - rewrite (costs_insert _ _ _ _ Hk). lia.
  - intros k' c' Hk'. assert (Hlt' := lookup_lt_Some _ _ _ Hk'). rewrite length_insert in Hlt'. rewrite Hfb2.
    apply ino_rep_put; [lia|lia|done|apply (io_img _ _ (as_img _ _ _ _ _ _ _ Hs1)); rewrite mkfs_IBLOCK by lia; unfold FSSIZE; zdm|].
    destruct (Z.eqb_spec (Z.of_nat k' + 1) (Z.of_nat k + 1)) as [Ek|Hne].
    + assert (k' = k) as -> by lia. rewrite list_lookup_insert_eq in Hk' by done. injection Hk' as <-.
      split; [by eapply file_rep_addrs|done].
    + rewrite list_lookup_insert_ne in Hk' by lia. eapply ino_rep_step; [done|apply Hi|done|lia|by apply Hr].
Qed.

(** ** Lemmas: ialloc() and the empty image *)

Definition new_dinode (t : Z) : dinode := mkDinode t 0 0 1 0 (replicate 13 0).

Lemma new_dinode_ok t : 0 <= t < 2 ^ 15 -> dinode_ok (new_dinode t).
Proof. intros Ht. split; cbn; try done; try lia. repeat constructor; lia. Qed.

Lemma new_file_rep i V fb W t : 0 <= t < 2 ^ 15 -> file_rep i V fb W (new_dinode t) [].
Proof.
  intros Ht. split; [|by intros p [Hp1 Hp2]; change (nparts []) with 0 in Hp2; lia].
  change (nparts []) with 0. split; [by apply new_dinode_ok|done|by intros bn Hb; lia| |done].
  intros bn Hb. unfold file_addr, ind_blk. cbn [fin i_addrs].
  change (i_addrs (fin (new_dinode t))) with (replicate 13 0). change (nth 12 (replicate 13 0) 0 =? 0) with true.
  destruct (Z.ltb_spec bn 12); [|done]. rewrite nth_lookup. destruct (replicate 13 0 !! Z.to_nat bn) eqn:E; [|done].
  by apply lookup_replicate in E as [-> _].
Qed.

Lemma mk_ialloc_spec s V W cs Q :
  mk_inv s V W cs -> (length cs < 199)%nat ->
  (forall s' V', mk_inv s' V' W (cs ++ [[]]) -> Q (Z.of_nat (length cs) + 1) s') ->
  wp (mk_ialloc (ino_type (Z.of_nat (length cs) + 1))) Q s.
Proof.
  intros [Hi Hn Hm Hfb Hr] Hlt HQ. unfold mk_ialloc. wp_steps. rewrite Hn. set (i := Z.of_nat (length cs) + 1).
  pose proof (ino_type_range i) as Ht. rewrite xshort_small by lia.
  change (xshort 1) with 1. change (xint 0) with 0. fold (new_dinode (ino_type i)). apply wp_bind.
  assert (Hi' : img_ok (upd_freeinode (fun n => u32 (n + 1)) s) V) by (destruct Hi; by split).
  apply (wp_winode _ V); [done|lia|by apply new_dinode_ok|]. intros s' Hi2 Hf2 Hn2. apply wp_ret. unfold i. eapply HQ.
  cbn in Hf2, Hn2. split; [done| | | |].
  - rewrite Hn2, Hn, u32_small, length_app by lia. cbn. lia.
  - rewrite length_app. cbn. lia.
  - rewrite costs_app. change (costs [[]]) with 0. lia.
  - intros k c Hk. assert (Hkl := lookup_lt_Some _ _ _ Hk). rewrite length_app in Hkl. cbn in Hkl. rewrite Hf2.
    apply ino_rep_put; [lia|lia|by apply new_dinode_ok|apply (io_img _ _ Hi); rewrite mkfs_IBLOCK by lia; unfold FSSIZE; zdm|].
    apply lookup_app_Some in Hk as [Hk|[Hge Hk]].
    + rewrite (proj2 (Z.eqb_neq _ _)) by (apply lookup_lt_Some in Hk; lia). by apply Hr.
    + assert (k = length cs) as -> by lia. rewrite Nat.sub_diag in Hk. injection Hk as <-. unfold i. rewrite Z.eqb_refl.
      split; [by apply new_file_rep|done].
Qed.

Lemma zero_blk : blk_ok (replicate 1024 0).
Proof. split; [by rewrite length_replicate|]. apply Forall_replicate. unfold byte_ok. lia. Qed.

Definition init_view (b : Z) : list Z :=
  if b =? 1 then splice (replicate 1024 0) 0 (superblock_enc mkfs_sb) else replicate 1024 0.

Lemma init_view_ok b : blk_ok (init_view b).
Proof.
  unfold init_view. destruct (b =? 1); [|apply zero_blk].
  split; [by vm_compute|]. apply Forall_splice; [apply zero_blk|]. unfold superblock_enc. rewrite !Forall_app.
  repeat split; apply le_split_bytes.
Qed.

Lemma mkfs_init_spec s Q :
  mk_sb s = mkfs_sb -> mk_freeblock s = 46 -> mk_freeinode s = 1 ->
  (forall s' W, mk_inv s' init_view W [] -> Q tt s') -> wp mkfs_init Q s.
Proof.
  intros Hsb Hfb Hn HQ. unfold mkfs_init. apply wp_bind.
  apply (wp_for_each (fun d s1 => (forall b, b ∈ d -> mk_img s1 !! b = Some (replicate 1024 0)) /\
    mk_sb s1 = mkfs_sb /\ mk_freeblock s1 = 46 /\ mk_freeinode s1 = 1)); [by split; [intros b Hb%not_elem_of_nil|]| |].
  - intros d b r s1 Hl (Hd & Hs1). apply wp_modify. split; [|done]. intros b' Hb'. cbn [upd_img mk_img].
    assert (Hb : b ∈ seqZ 0 FSSIZE) by (rewrite Hl; apply elem_of_app; right; constructor).
    apply elem_of_seqZ in Hb. rewrite sect_pos_small by lia.
    destruct (decide (b' = b)) as [->|Hne]; [by rewrite lookup_insert_eq|]. rewrite lookup_insert_ne by done. apply Hd.
    apply elem_of_app in Hb' as [|Hb']; [done|]. by apply list_elem_of_singleton in Hb'.
  - intros s1 (Himg & Hsb1 & Hfb1 & Hn1). wp_steps. rewrite Hsb1. apply wp_modify, (HQ _ (fun _ => (0, 0))).
    split; [|done|cbn; lia|done|done]. split; cbn [upd_img mk_sb mk_img mk_freeblock]; [done| |rewrite Hfb1; by vm_compute| | |done].
    + intros b Hb. split; [|apply init_view_ok]. rewrite sect_pos_small by (by vm_compute). unfold init_view.
      destruct (Z.eqb_spec b 1) as [->|Hne]; [by rewrite lookup_insert_eq|].
      rewrite lookup_insert_ne by done. apply Himg, elem_of_seqZ. lia.
    + intros b Hb. unfold init_view. by rewrite (proj2 (Z.eqb_neq b 1)) by lia.
    + intros b Hb. unfold init_view. by rewrite (proj2 (Z.eqb_neq b 1)) by lia.
Qed.
