(* ===== verification/MkfsImage.v ===== *)
(** * The image that mkfs writes (mkfs/mkfs.c)

    The image is a file system as fs.c expects it: the superblock describes the layout,
    the log is empty, the bitmap marks exactly the blocks in use, the inodes share no
    block, every file has its contents, and the root directory has an entry for every
    file, which dirlookup() finds. *)

From Stdlib Require Import ZArith Lia.
From stdpp Require Import base tactics numbers gmap strings option list.
From S2P Require Import Prelude Bytes Kernel Kstring Bio Bcache Log LogSpec Crash Fs Txn FsBlocks FsInode FsData FsIO FsWrite.
From S2P Require Import FsDir Mkfs MkfsProps.

(** ** Specification: the image *)

(** The name, the contents and the directory entries of the files. *)
Definition file_name (f : list Z * list (list Z)) : list Z := skip_underscore (shortname f.1).

Definition file_data (f : list Z * list (list Z)) : list Z := concat f.2.

Definition dir_data (files : list (list Z * list (list Z))) : list Z :=
  mk_dirent 1 (str ".") ++ mk_dirent 1 (str "..") ++
  concat (imap (fun k f => mk_dirent (Z.of_nat k + 2) (file_name f)) files).

(** The files fit: inodes, sizes and blocks. *)
Record mkfs_input (files : list (list Z * list (list Z))) : Prop := {
  in_name f : f ∈ files -> 47 ∉ shortname f.1;
  in_bytes f : f ∈ files -> Forall byte_ok f.1 /\ Forall (Forall byte_ok) f.2;
  in_size f : f ∈ files -> Z.of_nat (length (file_data f)) <= MAXFILE * BSIZE;
  in_count : (length files <= 198)%nat;
  in_room : nmeta + costs (dir_data files :: (file_data <$> files)) <= FSSIZE;
}.

(** The kernel's inode [i] of the blocks [V]. *)
Definition ino (V : Z -> list Z) (i : Z) : inode := upd_i_inum (fun _ => i) (fin (dinode_at mkfs_sb V i)).

(** A file system with these files. *)
Record image_ok (V : Z -> list Z) (files : list (list Z * list (list Z))) : Prop := {
  im_sb : superblock_dec (V 1) = mkfs_sb;
  im_blk b : 0 <= b < FSSIZE -> blk_ok (V b);
  im_used b : 0 <= b < FSSIZE -> used mkfs_sb V b = (b <? nmeta + costs (dir_data files :: (file_data <$> files)));
  im_free : free_ok mkfs_sb 2 V;
  im_file k f : files !! k = Some f ->
    let i := ino V (Z.of_nat k + 2) in
    i_type i = T_FILE /\ i_nlink i = 1 /\ i_size i = Z.of_nat (length (file_data f)) /\
    inode_wf mkfs_sb 2 V i /\ no_holes V i /\ file_range V i 0 (i_size i) = file_data f;
  im_root :
    let i := ino V ROOTINO in
    let n := Z.of_nat (length (dir_data files)) in
    i_type i = T_DIR /\ i_nlink i = 1 /\ i_size i = (n / BSIZE + 1) * BSIZE /\
    inode_wf mkfs_sb 2 V i /\ (n mod BSIZE <> 0 -> no_holes V i) /\
    file_range V i 0 (i_size i) = dir_data files ++ replicate (Z.to_nat (i_size i - n)) 0;
  im_disjoint i j a : 1 <= i <= Z.of_nat (length files) + 1 -> 1 <= j <= Z.of_nat (length files) + 1 ->
    file_blk V (ino V i) a -> file_blk V (ino V j) a -> i = j;
}.

(** The disk that the kernel boots from. *)
Definition image_disk (s : mkst) : diskst := mkDisk (mk_img s) [].

(** ** Lemmas: the files *)

Lemma length_mk_dirent i name : length (mk_dirent i name) = 16%nat.
Proof. apply length_new_dirent. Qed.

Lemma mk_dirent_bytes i name : Forall byte_ok name -> Forall byte_ok (mk_dirent i name).
Proof.
  intros H. unfold mk_dirent, dirent_enc, nul_padded. apply Forall_app. split; [apply le_split_bytes|].
  apply Forall_take, Forall_app. split; [|by apply Forall_replicate].
  eapply Forall_impl; [by apply Forall_upto_nul|]. unfold byte_ok. cbn. lia.
Qed.

Lemma file_name_bytes f : Forall byte_ok f.1 -> Forall byte_ok (file_name f).
Proof.
  intros H. unfold file_name, shortname.
  assert (H' : Forall byte_ok (if strncmp_bytes 5 f.1 (str "user/") =? 0 then drop 5 f.1 else f.1))
    by (destruct (_ =? 0); [by apply Forall_drop|done]).
  destruct H' as [|c l Hc Hl]; [done|]. cbn. destruct (c =? 95); [done|by constructor].
Qed.

Lemma dir_data_snoc fs f : dir_data (fs ++ [f]) = dir_data fs ++ mk_dirent (Z.of_nat (length fs) + 2) (file_name f).
Proof.
  unfold dir_data. rewrite imap_app, concat_app. cbn [imap concat]. rewrite app_nil_r, Nat.add_0_r.
  by rewrite <- !app_assoc.
Qed.

Lemma dir_data_app fs gs : exists r, dir_data (fs ++ gs) = dir_data fs ++ r.
Proof. unfold dir_data. rewrite imap_app, concat_app. eexists. by rewrite <- !app_assoc. Qed.

Lemma length_dir_data fs : length (dir_data fs) = (16 * (2 + length fs))%nat.
Proof.
  induction fs as [|f fs IH] using rev_ind; [done|]. rewrite dir_data_snoc, !length_app, IH, length_mk_dirent. cbn. lia.
Qed.

Lemma costs_cons c cs : costs (c :: cs) = cost c + costs cs.
Proof. done. Qed.

Lemma costs_nonneg cs : 0 <= costs cs.
Proof. induction cs as [|c cs IH]; [done|]. pose proof (cost_nonneg c). rewrite costs_cons. lia. Qed.

(** There is room for what is there before the last file is complete. *)
Lemma room_part fs f gs c c' r :
  mkfs_input (fs ++ f :: gs) -> file_data f = c ++ c' -> dir_data (fs ++ [f]) = r \/ dir_data fs = r ->
  46 + costs ((r :: (file_data <$> fs)) ++ [c]) <= FSSIZE.
Proof.
  intros H Hc Hr. etrans; [|apply (in_room _ H)]. change nmeta with 46. apply Z.add_le_mono_l.
  rewrite fmap_app, fmap_cons, Hc.
  assert (Hd : cost r <= cost (dir_data (fs ++ f :: gs))).
  { destruct Hr as [<-|<-].
    - destruct (dir_data_app (fs ++ [f]) gs) as [x E]. rewrite <- app_assoc in E. cbn [app] in E. rewrite E. apply cost_mono.
    - destruct (dir_data_app fs (f :: gs)) as [x E]. rewrite E. apply cost_mono. }
  cbn [app]. rewrite !costs_cons, !costs_app, !costs_cons. change (costs []) with 0.
  pose proof (cost_mono c c'). pose proof (costs_nonneg (file_data <$> gs)). lia.
Qed.

(** One file: its inode, its directory entry and its contents. *)
Lemma mkfs_file_spec files fs f gs s V W :
  mkfs_input files -> files = fs ++ f :: gs ->
  mk_inv s V W (dir_data fs :: (file_data <$> fs)) ->
  wp (mkfs_file ROOTINO f) (fun _ s' => exists V' W', mk_inv s' V' W' (dir_data (fs ++ [f]) :: (file_data <$> (fs ++ [f])))) s.
Proof.
  intros Hin -> Hinv. pose proof (in_count _ Hin) as Hn. rewrite length_app in Hn. cbn in Hn.
  assert (Hf : f ∈ fs ++ f :: gs) by (apply elem_of_app; right; constructor). destruct f as [argv pieces].
  destruct (in_bytes _ Hin _ Hf) as [Hb1 Hb2]. cbn [fst snd] in Hb1, Hb2.
  unfold mkfs_file. apply wp_bind, wp_assert; [apply bool_decide_eq_true, (in_name _ Hin _ Hf)|]. apply wp_bind.
  set (cs := dir_data fs :: (file_data <$> fs)) in *. assert (Hl : length cs = S (length fs)) by (unfold cs; cbn; by rewrite length_fmap).
  assert (Et : T_FILE = ino_type (Z.of_nat (length cs) + 1)) by (unfold ino_type; by rewrite (proj2 (Z.eqb_neq _ _)) by lia).
  rewrite Et. apply (mk_ialloc_spec s V W cs); [done|lia|]. intros s1 V1 Hinv1. rewrite Hl. apply wp_bind.
  set (de := mk_dirent _ _). assert (Ede : dir_data fs ++ de = dir_data (fs ++ [(argv, pieces)])).
  { rewrite dir_data_snoc. unfold de, file_name. do 2 f_equal. lia. }
  change (iappend ROOTINO de) with (iappend (Z.of_nat 0 + 1) de). apply (iappend_spec s1 V1 W (cs ++ [[]]) 0 (dir_data fs)); [done|done| | | |].
  { by apply mk_dirent_bytes, (file_name_bytes (argv, pieces)). }
  { rewrite Ede, length_dir_data, length_app. cbn. lia. }
  { rewrite Ede. by eapply (room_part fs (argv, pieces) gs [] (file_data (argv, pieces))); [..|left]. }
  intros s2 V2 W2 Hinv2. rewrite Ede in Hinv2. change (<[0%nat := ?a]> (cs ++ [[]])) with (a :: ((file_data <$> fs) ++ [[]])) in Hinv2.
  set (r := dir_data (fs ++ [(argv, pieces)])) in *.
  apply (wp_for_each (fun d s3 => exists V3 W3, mk_inv s3 V3 W3 ((r :: (file_data <$> fs)) ++ [concat d]))); [by exists V2, W2| |].
  - intros d x t s3 Ep (V3 & W3 & Hinv3). replace (Z.of_nat (S (length fs)) + 1) with (Z.of_nat (length (r :: (file_data <$> fs))) + 1)
      by (cbn; rewrite length_fmap; lia).
    assert (Ec : file_data (argv, pieces) = (concat d ++ x) ++ concat t).
    { unfold file_data. cbn [snd]. rewrite Ep, concat_app. cbn [concat]. by rewrite app_assoc. }
    apply (iappend_spec s3 V3 W3 ((r :: (file_data <$> fs)) ++ [concat d]) (length (r :: (file_data <$> fs))) (concat d)); [exact Hinv3|by apply list_lookup_middle| | | |].
    + rewrite Ep in Hb2. apply Forall_app in Hb2 as [_ Hb2]. by apply Forall_cons in Hb2 as [Hb2 _].
    + pose proof (in_size _ Hin _ Hf) as Hsz. rewrite Ec, length_app in Hsz. lia.
    + rewrite insert_app_r_alt, Nat.sub_diag by lia. eapply (room_part fs (argv, pieces) gs (concat d ++ x)); [done|exact Ec|by left].
    + intros s4 V4 W4 Hinv4. exists V4, W4. rewrite insert_app_r_alt, Nat.sub_diag in Hinv4 by lia.
      rewrite concat_app. cbn [concat]. rewrite app_nil_r. exact Hinv4.
  - intros s3 (V3 & W3 & Hinv3). exists V3, W3. rewrite fmap_app. exact Hinv3.
Qed.

(** ** Lemmas: the bitmap *)

Lemma mkfs_BBLOCK b : 0 <= b < 2000 -> BBLOCK b mkfs_sb = 45.
Proof. intros Hb. unfold BBLOCK, BPB. change (sb_bmapstart mkfs_sb) with 45. rewrite u32_small by zdm. zdm. Qed.

Lemma mkfs_layout : layout_fs mkfs_sb 2.
Proof.
  assert (HB : forall n, bitmap_blk mkfs_sb n -> n = 45) by (intros n (b & Hb & ->); by apply mkfs_BBLOCK).
  assert (HI : forall n, inode_blk mkfs_sb n -> 32 <= n < 45).
  { intros n (i & Hi & ->). change (sb_ninodes mkfs_sb) with 200 in Hi. rewrite mkfs_IBLOCK by done. zdm. }
  split; [|apply mkfs_inodes| |].
  - split; [by vm_compute..|]. intros n ->%HB. right. lia.
  - intros n Hi%HI Hb%HB. lia.
  - intros n Hi%HI. lia.
Qed.

Lemma mkfs_data_blk b : 46 <= b -> data_blk mkfs_sb 2 b.
Proof.
  intros Hb. split_and!; [lia|right; lia| |].
  - intros (b' & Hb' & E). rewrite mkfs_BBLOCK in E by done. lia.
  - intros (i & Hi & E). change (sb_ninodes mkfs_sb) with 200 in Hi. rewrite mkfs_IBLOCK in E by done. zdm.
Qed.

Lemma balloc_bits_spec n x i b :
  blk_ok x -> 0 <= i -> i + Z.of_nat n <= BPB -> 0 <= b < BPB ->
  blk_ok (balloc_bits x i n) /\
  bit_clear (balloc_bits x i n) b = if (i <=? b) && (b <? i + Z.of_nat n) then false else bit_clear x b.
Proof.
  revert x i. induction n as [|n IH]; intros x i Hx Hi Hn Hb; cbn [balloc_bits].
  - split; [done|]. destruct (Z.leb_spec i b), (Z.ltb_spec b (i + Z.of_nat 0)); try lia; done.
  - fold (bit_mask i). set (y := alter _ _ x).
    assert (Hy : blk_ok y) by (apply blk_alter; [done|]; intros v; apply byte_lor_mask).
    destruct (IH y (i + 1) Hy ltac:(lia) ltac:(lia) Hb) as [H1 H2]. split; [done|]. rewrite H2. unfold y.
    rewrite (bit_clear_alter _ false) by (lia || apply Hx || (intros v j Hj; by apply testbit_set)).
    destruct (Z.leb_spec i b), (Z.leb_spec (i + 1) b), (Z.ltb_spec b (i + Z.of_nat (S n))), (Z.ltb_spec b (i + 1 + Z.of_nat n)),
      (Z.eqb_spec b i); try lia; done.
Qed.

Lemma mkfs_used V fb b :
  46 <= fb <= FSSIZE -> V 45 = balloc_bits (replicate 1024 0) 0 (Z.to_nat fb) -> 0 <= b < FSSIZE ->
  used mkfs_sb V b = (b <? fb).
Proof.
  intros Hfb HV Hb. unfold FSSIZE in *. unfold used. rewrite mkfs_BBLOCK, HV by done. unfold BPB. rewrite Z.mod_small by lia.
  destruct (balloc_bits_spec (Z.to_nat fb) (replicate 1024 0) 0 b zero_blk) as [_ ->]; [lia|unfold BPB; lia..|].
  rewrite (proj2 (Z.leb_le 0 b)), Z2Nat.id by lia. cbn [andb]. replace (0 + fb) with fb by lia.
  destruct (b <? fb); [done|]. rewrite bit_clear_testbit by lia. rewrite nth_zeroes, Z.bits_0. done.
Qed.

(** ** Lemmas: files of the image *)

Lemma rep_byte j V fb W d c p :
  file_rep j V fb W d c -> 0 <= p < MAXFILE * BSIZE -> file_byte V (fin d) p = nth (Z.to_nat p) c 0.
Proof.
  intros [Hm Hc] Hp. destruct (decide (p < nparts c * 1024)); [apply Hc; lia|].
  unfold file_byte. rewrite (fm_none _ _ _ _ _ _ _ Hm) by zdm. cbn. symmetry. apply nth_overflow. unfold nparts in *. zdm.
Qed.

Lemma rep_range j V fb W d c n :
  file_rep j V fb W d c -> Z.of_nat (length c) <= n <= MAXFILE * BSIZE ->
  file_range V (fin d) 0 n = c ++ replicate (Z.to_nat (n - Z.of_nat (length c))) 0.
Proof.
  intros Hr Hn. apply list_eq. intros k. destruct (decide (Z.of_nat k < n)).
  - rewrite lookup_file_range, (rep_byte _ _ _ _ _ _ _ Hr) by lia. replace (Z.to_nat (0 + Z.of_nat k)) with k by lia.
    destruct (decide (k < length c)%nat).
    + rewrite lookup_app_l by done. destruct (lookup_Some_total c k) as [v Hv]; [done|]. by rewrite nth_lookup, Hv.
    + rewrite lookup_app_r by lia. rewrite nth_overflow by lia. symmetry. apply lookup_replicate. split; [done|lia].
  - rewrite !lookup_ge_None_2; [done|rewrite length_app, length_replicate; lia|rewrite length_file_range; lia].
Qed.

Lemma rep_wf j V fb W d c :
  file_rep j V fb W d c -> fb <= FSSIZE -> (forall b, 46 <= b < fb -> used mkfs_sb V b = true) ->
  inode_wf mkfs_sb 2 V (fin d).
Proof.
  intros [[Hd Hnb Ha Hn Hi] _] Hfb Hu. split; [done|apply Hd|].
  assert (Hl : forall a, 46 <= a < fb -> live mkfs_sb 2 V a).
  { intros a H0. split; [change (sb_size mkfs_sb) with 2000; unfold FSSIZE in Hfb; lia|]. split; [by apply mkfs_data_blk; lia|by apply Hu]. }
  assert (Hp : forall bn, 0 <= bn < MAXFILE -> file_addr V (fin d) bn <> 0 -> 0 <= bn < nparts c).
  { intros bn H0 H1. destruct (decide (bn < nparts c)); [lia|]. by rewrite Hn in H1 by lia. }
  split.
  - intros bn H0 H1. by apply Hl, Ha, Hp.
  - intros H0. destruct (12 <? nparts c); [by apply Hl, Hi|done].
  - intros bn bn' H0 H0' H1 E. destruct (Ha bn (Hp _ H0 H1)) as [_ Hw]. rewrite E in H1.
    destruct (Ha bn' (Hp _ H0' H1)) as [_ Hw']. rewrite E, Hw' in Hw. congruence.
  - intros bn H0 H1 E. destruct (Ha bn (Hp _ H0 H1)) as [Hr Hw]. destruct (12 <? nparts c); [|lia].
    destruct Hi as [_ Hi]. rewrite <- E, Hw in Hi. injection Hi. lia.
Qed.

Lemma rep_no_holes j V fb W d c :
  file_rep j V fb W d c -> 0 <= di_size d <= nparts c * BSIZE -> no_holes V (fin d).
Proof.
  intros [Hm _] Hs. pose proof (fm_nb _ _ _ _ _ _ _ Hm). change (di_size d) with (i_size (fin d)) in Hs. split; [lia|].
  intros p Hp. destruct (fm_addr _ _ _ _ _ _ _ Hm (p / 1024)) as [Hr _]; [zdm|]. lia.
Qed.

(** The owner of a block of a file. *)
Lemma rep_owner j V fb W d c a : file_rep j V fb W d c -> file_blk V (fin d) a -> (W a).1 = j.
Proof.
  intros [[Hd Hnb Ha Hn Hi] _] [H0 [->|(bn & Hb & ->)]].
  - destruct (12 <? nparts c); [destruct Hi as [_ ->]|]; done.
  - destruct (decide (bn < nparts c)); [by destruct (Ha bn) as [_ ->]; [lia|]|]. by rewrite Hn in H0 by lia.
Qed.

(** The root directory's inode with its final size *)
Definition root_dinode (d : dinode) (n : Z) : dinode := set_size d ((n / BSIZE + 1) * BSIZE).

Lemma root_dinode_size d n : 0 <= n <= 3200 -> di_size (root_dinode d n) = (n / BSIZE + 1) * BSIZE.
Proof. intros Hn. unfold root_dinode, set_size. cbn [di_size]. apply xint_small. zdm. Qed.

Lemma root_dinode_ok d n : dinode_ok d -> 0 <= n <= 3200 -> dinode_ok (root_dinode d n).
Proof. intros [] Hn. pose proof (root_dinode_size d n Hn). split; try done. zdm. Qed.

Lemma inode_wf_inum sb st V f i : inode_wf sb st V i -> inode_wf sb st V (upd_i_inum f i).
Proof. destruct i. by intros []. Qed.

Lemma no_holes_inum V f i : no_holes V i -> no_holes V (upd_i_inum f i).
Proof. by destruct i. Qed.

Lemma file_range_inum V f i off n : file_range V (upd_i_inum f i) off n = file_range V i off n.
Proof. by destruct i. Qed.

Section image.
Context (V : Z -> list Z) (fb : Z) (W : Z -> Z * Z).
Context (Hfb : fb <= FSSIZE) (Hu : forall b, 46 <= b < fb -> used mkfs_sb V b = true).

Lemma ino_wf i c : file_rep i V fb W (dinode_at mkfs_sb V i) c -> inode_wf mkfs_sb 2 V (ino V i).
Proof. intros Hr. apply inode_wf_inum, (rep_wf _ _ _ _ _ _ Hr Hfb Hu). Qed.

Lemma image_file i c :
  file_rep i V fb W (dinode_at mkfs_sb V i) c -> dinode_is T_FILE c (dinode_at mkfs_sb V i) ->
  Z.of_nat (length c) <= MAXFILE * BSIZE ->
  i_type (ino V i) = T_FILE /\ i_nlink (ino V i) = 1 /\ i_size (ino V i) = Z.of_nat (length c) /\
  inode_wf mkfs_sb 2 V (ino V i) /\ no_holes V (ino V i) /\ file_range V (ino V i) 0 (i_size (ino V i)) = c.
Proof.
  intros Hr Hd Hc. assert (Es : i_size (ino V i) = Z.of_nat (length c)).
  { change (di_size (dinode_at mkfs_sb V i) = Z.of_nat (length c)). by rewrite Hd. }
  split_and!; [| |done|by eapply ino_wf| |].
  - change (di_type (dinode_at mkfs_sb V i) = T_FILE). by rewrite Hd.
  - change (di_nlink (dinode_at mkfs_sb V i) = 1). by rewrite Hd.
  - eapply no_holes_inum, (rep_no_holes _ _ _ _ _ _ Hr). change (di_size _) with (i_size (ino V i)). rewrite Es. unfold nparts. zdm.
  - rewrite Es. pose proof (rep_range _ _ _ _ _ _ (Z.of_nat (length c)) Hr ltac:(lia)) as E.
    rewrite Z.sub_diag, app_nil_r in E. unfold ino. by rewrite file_range_inum.
Qed.

Lemma image_root c d :
  file_rep 1 V fb W (dinode_at mkfs_sb V 1) c -> dinode_at mkfs_sb V 1 = root_dinode d (Z.of_nat (length c)) ->
  dinode_is T_DIR c d -> Z.of_nat (length c) <= 3200 ->
  i_type (ino V 1) = T_DIR /\ i_nlink (ino V 1) = 1 /\
  i_size (ino V 1) = (Z.of_nat (length c) / BSIZE + 1) * BSIZE /\ inode_wf mkfs_sb 2 V (ino V 1) /\
  (Z.of_nat (length c) mod BSIZE <> 0 -> no_holes V (ino V 1)) /\
  file_range V (ino V 1) 0 (i_size (ino V 1)) = c ++ replicate (Z.to_nat (i_size (ino V 1) - Z.of_nat (length c))) 0.
Proof.
  intros Hr Hd Hdi Hc.
  assert (Es : i_size (ino V 1) = (Z.of_nat (length c) / 1024 + 1) * 1024).
  { change (di_size (dinode_at mkfs_sb V 1) = (Z.of_nat (length c) / 1024 + 1) * 1024). rewrite Hd. apply root_dinode_size. lia. }
  split_and!; [|  |done|by eapply ino_wf| |].
  - change (di_type (dinode_at mkfs_sb V 1) = T_DIR). by rewrite Hd, Hdi.
  - change (di_nlink (dinode_at mkfs_sb V 1) = 1). by rewrite Hd, Hdi.
  - intros Hne. eapply no_holes_inum, (rep_no_holes _ _ _ _ _ _ Hr). change (di_size _) with (i_size (ino V 1)). rewrite Es. unfold nparts. zdm.
  - rewrite Es. pose proof (rep_range _ _ _ _ _ _ ((Z.of_nat (length c) / 1024 + 1) * 1024) Hr ltac:(zdm)) as E. unfold ino. by rewrite file_range_inum.
Qed.
End image.

Lemma image_of s V W files V' :
  mkfs_input files -> mk_inv s V W (dir_data files :: (file_data <$> files)) ->
  (forall b, 46 <= b < mk_freeblock s -> V' b = V b) -> (forall b, 0 <= b < FSSIZE -> blk_ok (V' b)) ->
  (forall i, 1 <= i <= Z.of_nat (length files) + 1 -> dinode_at mkfs_sb V' i =
     if i =? ROOTINO then root_dinode (dinode_at mkfs_sb V i) (Z.of_nat (length (dir_data files))) else dinode_at mkfs_sb V i) ->
  V' 45 = balloc_bits (replicate 1024 0) 0 (Z.to_nat (mk_freeblock s)) -> superblock_dec (V' 1) = mkfs_sb ->
  image_ok V' files.
Proof.
  intros Hin [Hi Hn Hm Hfb Hr] HV Hblk Hd Hbits Hsb. pose proof (io_fb _ _ Hi) as Hfbr.
  assert (Hdl : 32 <= Z.of_nat (length (dir_data files)) <= 3200) by (pose proof (in_count _ Hin); rewrite length_dir_data; lia).
  assert (Hrep : forall k c, (dir_data files :: (file_data <$> files)) !! k = Some c ->
    file_rep (Z.of_nat k + 1) V' (mk_freeblock s) W (dinode_at mkfs_sb V' (Z.of_nat k + 1)) c).
  { intros k c Hk. destruct (Hr k c Hk) as [Hf _]. apply lookup_lt_Some in Hk. cbn in Hk. rewrite length_fmap in Hk.
    assert (Hf' : file_rep (Z.of_nat k + 1) V' (mk_freeblock s) W (dinode_at mkfs_sb V (Z.of_nat k + 1)) c).
    { eapply file_rep_frame; [done|lia|done|]. intros b Hb _. by apply HV. }
    rewrite Hd by lia. destruct (_ =? 1); [|done]. eapply file_rep_addrs; [done|apply root_dinode_ok; [apply Hf|lia]|done]. }
  assert (Hu : forall b, 0 <= b < FSSIZE -> used mkfs_sb V' b = (b <? mk_freeblock s)) by (intros b; by apply mkfs_used).
  assert (Hu' : forall b, 46 <= b < mk_freeblock s -> used mkfs_sb V' b = true) by (intros b Hb; rewrite Hu by lia; apply Z.ltb_lt; lia).
  split; [done|done|intros b Hb; rewrite Hu, Hfb by done; done| | | |].
  - intros b Hb Hub. change (sb_size mkfs_sb) with FSSIZE in Hb. rewrite Hu in Hub by done. apply Z.ltb_ge in Hub. apply mkfs_data_blk. lia.
  - intros k f Hk. assert (Hk' : (dir_data files :: (file_data <$> files)) !! S k = Some (file_data f)) by (change ((file_data <$> files) !! k = Some (file_data f)); by rewrite list_lookup_fmap, Hk).
    pose proof (lookup_lt_Some _ _ _ Hk) as Hlt. pose proof (in_size _ Hin f (list_elem_of_lookup_2 _ _ _ Hk)) as Hsz.
    destruct (Hr _ _ Hk') as [_ Hdi]. specialize (Hrep _ _ Hk').
    replace (Z.of_nat (S k) + 1) with (Z.of_nat k + 2) in * by lia.
    apply (image_file V' (mk_freeblock s) W); [apply Hfbr|done|done| |done].
    rewrite Hd, (proj2 (Z.eqb_neq _ 1)) by lia. unfold ino_type in Hdi. by rewrite (proj2 (Z.eqb_neq _ 1)) in Hdi by lia.
  - destruct (Hr O (dir_data files) eq_refl) as [_ Hdi]. specialize (Hrep O (dir_data files) eq_refl). specialize (Hd 1 ltac:(lia)).
    exact (image_root V' (mk_freeblock s) W (proj2 Hfbr) Hu' _ _ Hrep Hd Hdi (proj2 Hdl)).
  - intros i j a Hi' Hj' Ha1 Ha2.
    assert (Ho : forall i, 1 <= i <= Z.of_nat (length files) + 1 -> file_blk V' (ino V' i) a -> (W a).1 = i).
    { intros i0 H0 Hb0. destruct (lookup_Some_total (dir_data files :: (file_data <$> files)) (Z.to_nat (i0 - 1))) as [c Hc].
      { cbn. rewrite length_fmap. lia. }
      specialize (Hrep _ _ Hc). replace (Z.of_nat (Z.to_nat (i0 - 1)) + 1) with i0 in Hrep by lia.
      by eapply rep_owner in Hrep. }
    rewrite <- (Ho i), <- (Ho j); done.
Qed.

(** ** Lemmas: main() *)

Lemma mk_balloc_spec s V n Q :
  img_ok s V -> n = mk_freeblock s ->
  (forall s', img_ok s' (vput 45 (balloc_bits (replicate 1024 0) 0 (Z.to_nat n)) V) -> mk_freeblock s' = mk_freeblock s -> Q tt s') ->
  wp (mk_balloc n) Q s.
Proof.
  intros Hi -> HQ. pose proof (io_fb _ _ Hi) as Hfb. unfold mk_balloc, FSSIZE in *.
  apply wp_bind, wp_assert; [apply Z.ltb_lt; lia|]. wp_steps. rewrite (io_sb _ _ Hi). change (sb_bmapstart mkfs_sb) with 45.
  apply (wp_wsect s V); [done|lia| |by eauto].
  destruct (balloc_bits_spec (Z.to_nat (mk_freeblock s)) (replicate 1024 0) 0 0 zero_blk) as [Hb _]; [lia|unfold BPB; lia..|done].
Qed.

(** The root's size and the bitmap complete the image. *)
Lemma mkfs_finish_spec files s V W :
  mkfs_input files -> mk_inv s V W (dir_data files :: (file_data <$> files)) ->
  wp (din ← rinode ROOTINO;
      winode ROOTINO (set_size din ((xint (di_size din) / BSIZE + 1) * BSIZE));;
      freeblock ← gets mk_freeblock;
      mk_balloc (s32 freeblock))
    (fun _ s' => log_valid 2 (image_disk s') /\ image_ok (log_abs 2 (image_disk s')) files) s.
Proof.
  intros Hin Hinv. pose proof Hinv as [Hi Hn Hm Hfb Hr]. pose proof (io_fb _ _ Hi) as Hfbr.
  assert (Hdl : 32 <= Z.of_nat (length (dir_data files)) <= 3200) by (pose proof (in_count _ Hin); rewrite length_dir_data; lia).
  destruct (Hr O (dir_data files) eq_refl) as [Hf Hd]. change (Z.of_nat 0 + 1) with 1 in *.
  apply wp_bind, (wp_rinode s V); [done|lia|]. set (d := dinode_at mkfs_sb V 1) in *.
  assert (Es : xint (di_size d) = Z.of_nat (length (dir_data files))) by (rewrite Hd; cbn [di_size]; apply xint_small; lia).
  rewrite Es. fold (root_dinode d (Z.of_nat (length (dir_data files)))).
  assert (Hok : dinode_ok (root_dinode d (Z.of_nat (length (dir_data files))))) by (apply root_dinode_ok; [apply Hf|lia]).
  apply wp_bind, (wp_winode s V); [done|lia|done|]. intros s1 Hi1 Hfb1 _. wp_steps.
  rewrite Hfb1, s32_small by (unfold FSSIZE in Hfbr; lia). apply (mk_balloc_spec s1 (put_dinode mkfs_sb 1 (root_dinode d (Z.of_nat (length (dir_data files)))) V)); [done|done|].
  intros s2 Hi2 _. set (V1 := put_dinode _ _ _ V) in *. set (V2 := vput 45 _ V1) in *.
  assert (HD : forall b, 0 <= b < FSSIZE -> dget (image_disk s2) b = V2 b).
  { intros b Hb. unfold dget, image_disk. cbn [d_init d_hist foldl]. by destruct (io_img _ _ Hi2 b Hb) as [-> _]. }
  assert (Hh : hdr_n (dget (image_disk s2) 2) = 0).
  { rewrite HD, (io_log _ _ Hi2) by (unfold FSSIZE; lia). by vm_compute. }
  split; [by apply log_valid_empty|].
  assert (HL : forall b, 0 <= b < FSSIZE -> log_abs 2 (image_disk s2) b = V2 b) by (intros b Hb; rewrite log_abs_empty by done; by apply HD).
  assert (HV2 : forall b, b <> 45 -> b <> 32 -> V2 b = V b).
  { intros b H1 H2. unfold V2, V1, put_dinode. rewrite !vput_other; [done|rewrite mkfs_IBLOCK by lia; done|done]. }
  unfold FSSIZE in *. eapply image_of; [done|exact Hinv| | | | |].
  - intros b Hb. rewrite HL, HV2 by lia. done.
  - intros b Hb. rewrite HL by done. by apply (io_img _ _ Hi2).
  - intros i Hi'. rewrite length_cons, length_fmap in Hm.
    rewrite (dinode_at_low V1); [|lia|intros b Hb; rewrite HL by lia; unfold V2; by rewrite vput_other by lia].
    unfold V1. rewrite (dinode_at_put mkfs_sb 2 _ _ _ _ mkfs_inodes); [|done|change (sb_ninodes mkfs_sb) with 200; lia|done|].
    + destruct (Z.eqb_spec i 1) as [->|]; done.
    + apply (io_img _ _ Hi). rewrite mkfs_IBLOCK by lia. unfold FSSIZE. zdm.
  - rewrite HL by lia. unfold V2. apply vput_same.
  - rewrite HL, (io_super _ _ Hi2) by lia. by vm_compute.
Qed.

(** main() *)
Lemma mkfs_spec files :
  mkfs_input files ->
  wp (mkfs files) (fun _ s => log_valid 2 (image_disk s) /\ image_ok (log_abs 2 (image_disk s)) files) mkfs_start.
Proof.
  intros Hin. unfold mkfs. apply wp_bind, wp_modify, wp_bind, mkfs_init_spec; [done..|]. intros s W Hinv.
  apply wp_bind, (mk_ialloc_spec s init_view W []); [done|cbn; lia|]. intros s1 V1 Hinv1.
  apply wp_bind, wp_assert; [done|].
  assert (Hroom : forall r, (exists x, dir_data files = r ++ x) -> 46 + costs [r] <= FSSIZE).
  { intros r [x Ex]. etrans; [|apply (in_room _ Hin)]. change nmeta with 46. rewrite Ex, !costs_cons.
    pose proof (cost_mono r x). pose proof (costs_nonneg (file_data <$> files)). change (costs []) with 0. lia. }
  assert (Hdot : exists y, dir_data files = (mk_dirent 1 (str ".") ++ mk_dirent 1 (str "..")) ++ y) by (eexists; unfold dir_data; by rewrite <- app_assoc).
  destruct Hdot as [y Hy].
  apply wp_bind, (iappend_spec s1 V1 W [[]] 0 []); [done|done|by apply mk_dirent_bytes; repeat constructor|by vm_compute| |].
  { apply Hroom. exists (mk_dirent 1 (str "..") ++ y). by rewrite Hy, <- app_assoc. }
  intros s2 V2 W2 Hinv2. apply wp_bind, (iappend_spec s2 V2 W2 [mk_dirent 1 (str ".")] 0 (mk_dirent 1 (str "."))); [exact Hinv2|done|by apply mk_dirent_bytes; repeat constructor|by vm_compute|by apply Hroom; exists y|].
  intros s3 V3 W3 Hinv3. apply wp_bind.
  apply (wp_for_each (fun d s4 => exists V4 W4, mk_inv s4 V4 W4 (dir_data d :: (file_data <$> d)))); [by exists V3, W3| |].
  - intros d f r s4 E (V4 & W4 & Hinv4). by eapply mkfs_file_spec.
  - intros s4 (V4 & W4 & Hinv4). by eapply mkfs_finish_spec.
Qed.

(** ** Lemmas: directory entries *)

Definition dir_names (files : list (list Z * list (list Z))) : list (list Z) :=
  str "." :: str ".." :: (file_name <$> files).

Definition dir_inum (k : nat) : Z := if (k <? 2)%nat then 1 else Z.of_nat k.

Lemma dir_data_entries files : dir_data files = concat (imap (fun k name => mk_dirent (dir_inum k) name) (dir_names files)).
Proof.
  unfold dir_data, dir_names. cbn [imap concat]. do 3 f_equal. rewrite imap_fmap. apply imap_ext.
  intros k f _. unfold dir_inum, compose. cbn [Nat.ltb Nat.leb]. f_equal. lia.
Qed.

Lemma slice_concat (l : list (list Z)) z k e :
  Forall (fun x => length x = 16%nat) l -> l !! k = Some e -> slice (concat l ++ z) (16 * k) 16 = e.
Proof.
  intros Hl. revert k. induction Hl as [|x l Hx _ IH]; intros [|k]; [done..| |]; cbn [lookup list_lookup].
  - intros [= ->]. cbn [concat]. rewrite <- app_assoc. unfold slice. rewrite Nat.mul_0_r, drop_0, take_app_length'; done.
  - intros Hk. rewrite <- (IH k Hk). cbn [concat]. rewrite <- app_assoc. unfold slice. f_equal.
    rewrite drop_app, drop_ge by lia. cbn [app]. f_equal. lia.
Qed.

Lemma dirent_slice V i k n :
  0 <= k -> 16 * k + 16 <= n -> dirent_at V i k = slice (file_range V i 0 n) (Z.to_nat (16 * k)) 16.
Proof.
  intros Hk Hn. unfold dirent_at. apply list_eq. intros j. destruct (decide (Z.of_nat j < 16)).
  - rewrite lookup_slice, !lookup_file_range by lia. do 2 f_equal. lia.
  - rewrite !lookup_ge_None_2; [done|rewrite length_slice by (rewrite length_file_range; lia); lia|rewrite length_file_range; lia].
Qed.

(** Entry [k] of the root directory *)
Lemma root_entry V files k name :
  image_ok V files -> dir_names files !! k = Some name ->
  dirent_at V (ino V ROOTINO) (Z.of_nat k) = new_dirent name (xshort (dir_inum k)) /\ Z.of_nat k < i_size (ino V ROOTINO) / 16.
Proof.
  intros Him Hk. destruct (im_root _ _ Him) as (_ & _ & Hs & _ & _ & Hr). pose proof (lookup_lt_Some _ _ _ Hk) as Hlt.
  pose proof (length_dir_data files) as Hl. cbn [dir_names length] in Hlt. rewrite length_fmap in Hlt.
  assert (Hn : 16 * Z.of_nat k + 16 <= i_size (ino V ROOTINO)) by (rewrite Hs, Hl; zdm).
  split; [|zdm]. rewrite (dirent_slice _ _ _ _ (Nat2Z.is_nonneg k) Hn), Hr, dir_data_entries.
  replace (Z.to_nat (16 * Z.of_nat k)) with (16 * k)%nat by lia. apply slice_concat.
  - apply Forall_lookup. intros j x. rewrite list_lookup_imap. intros (y & _ & ->)%fmap_Some. apply length_mk_dirent.
  - rewrite list_lookup_imap, Hk. done.
Qed.

(** dirlookup() finds the entry of a name that no other entry has. *)
Lemma root_find V files k name :
  image_ok V files -> (length files <= 198)%nat -> NoDup (name14 <$> dir_names files) -> dir_names files !! k = Some name ->
  dir_find V (ino V ROOTINO) name = Some (Z.of_nat k) /\ de_inum (dirent_at V (ino V ROOTINO) (Z.of_nat k)) = dir_inum k.
Proof.
  intros Him Hc Hnd Hk. destruct (root_entry _ _ _ _ Him Hk) as [He Hlt]. pose proof (lookup_lt_Some _ _ _ Hk) as Hkl.
  cbn [dir_names length] in Hkl. rewrite length_fmap in Hkl.
  assert (Hi : forall j, (j <= k)%nat -> 0 < dir_inum j < 2 ^ 15) by (intros j Hj; unfold dir_inum; destruct (Nat.ltb_spec j 2); lia).
  split; [|rewrite He, new_dirent_inum; [apply xshort_small; specialize (Hi k); lia|rewrite xshort_small by (specialize (Hi k); lia); specialize (Hi k); lia]].
  unfold dir_find. set (p := fun j => _). pose proof (find_first p 0 (i_size (ino V ROOTINO) / 16)) as Hf.
  assert (Hp : p (Z.of_nat k) = true).
  { unfold p. rewrite He. apply new_dirent_matches. rewrite xshort_small; specialize (Hi k); lia. }
  destruct (List.find p _) as [x|]; [|rewrite Hf in Hp by lia; done]. destruct Hf as (Hx & Hpx & Hmin).
  destruct (decide (x = Z.of_nat k)) as [->|Hne]; [done|].
  assert (Hxk : x < Z.of_nat k) by (destruct (decide (Z.of_nat k < x)); [by rewrite Hmin in Hp by lia|lia]).
  destruct (lookup_Some_total (dir_names files) (Z.to_nat x)) as [name' Hk']; [cbn; rewrite length_fmap; lia|].
  destruct (root_entry _ _ _ _ Him Hk') as [He' _]. rewrite Z2Nat.id in He' by lia. unfold p in Hpx. rewrite He' in Hpx.
  apply andb_true_iff in Hpx as [_ Hpx%bool_decide_eq_true]. rewrite new_dirent_name in Hpx.
  exfalso. apply Hne. rewrite NoDup_alt in Hnd. assert (k = Z.to_nat x); [|lia].
  eapply Hnd; rewrite list_lookup_fmap; [by rewrite Hk|rewrite Hk'; exact (f_equal Some (eq_sym Hpx))].
Qed.

(** ** Theorems *)


(** C18: On the image that mkfs writes, the kernel finds every file under its name: the
    lookup in the root directory yields the entry of the file, which has the file's
    inode number, if no two names agree in their first 14 bytes. *)
Theorem mkfs_lookup files :
  mkfs_input files -> NoDup (name14 <$> dir_names files) ->
  wp (mkfs files) (fun _ s =>
    let V := log_abs 2 (image_disk s) in
    forall k f, files !! k = Some f ->
      dir_find V (ino V ROOTINO) (file_name f) = Some (Z.of_nat k + 2) /\
      de_inum (dirent_at V (ino V ROOTINO) (Z.of_nat k + 2)) = Z.of_nat k + 2) mkfs_start.
Proof.
  intros Hin Hnd. eapply wp_mono; [by apply mkfs_spec|]. intros [] s [_ Him] V k f Hk.
  assert (Hk' : dir_names files !! S (S k) = Some (file_name f)).
  { change ((file_name <$> files) !! k = Some (file_name f)). by rewrite list_lookup_fmap, Hk. }
  destruct (root_find V files _ _ Him (in_count _ Hin) Hnd Hk') as [H1 H2].
  replace (Z.of_nat k + 2) with (Z.of_nat (S (S k))) by lia. split; [exact H1|]. rewrite H2. done.
Qed.

(** ** Witnesses *)

(** A program with an indirect block and a text file. *)
Definition example_files : list (list Z * list (list Z)) :=
  [(str "user/_cat", replicate 13 (replicate 1024 7)); (str "README", [str "hello"])].

Lemma example_input : mkfs_input example_files.
Proof.
  assert (HF : forall P : list Z * list (list Z) -> Prop, Forall P example_files -> forall f, f ∈ example_files -> P f)
    by (intros P HP; by apply Forall_forall).
  split.
  - apply HF. repeat constructor; cbn [fst]; by apply (bool_decide_unpack _).
  - apply HF. assert (H : forall n b, byte_ok b -> Forall byte_ok (replicate n b)) by (intros; by apply Forall_replicate).
    constructor; [split; [by repeat constructor|]|by repeat constructor]. apply Forall_replicate, H. unfold byte_ok. lia.
  - apply HF. repeat constructor; by vm_compute.
  - cbn. lia.
  - by vm_compute.
Qed.


Lemma mkfs_lookup_witness :
  exists s, mkfs example_files mkfs_start = Ok tt s /\
    let V := log_abs 2 (image_disk s) in
    dir_find V (ino V ROOTINO) (str "cat") = Some 2 /\ dir_find V (ino V ROOTINO) (str "README") = Some 3.
Proof.
  assert (Hnd : NoDup (name14 <$> dir_names example_files)) by (apply (bool_decide_unpack _); by vm_compute).
  destruct (wp_inv _ _ _ (mkfs_lookup example_files example_input Hnd)) as ([] & s & E & H). exists s. split; [exact E|]. intros V.
  split; [apply (H O (str "user/_cat", replicate 13 (replicate 1024 7)))|apply (H 1%nat (str "README", [str "hello"]))]; reflexivity.
Defined.
